(* ===== verification/_CoqProject ===== *)
-Q . S2P
Prelude.v
Money.v
Tables.v
Postings.v
Lxc.v
Clock.v
Rules.v
Permits.v
CreditLine.v
Agents.v
Reservation.v
Funding.v
Wallet.v
Holds.v
DebitSettle.v
Shifts.v
Desk.v
Capabilities.v
Ledger.v
MoneyBooks.v
Transfers.v
Escrow.v
Payments.v
Effects.v
Outgoing.v
Sendings.v
Schedules.v
Ticks.v
Orders.v
Topups.v
Standing.v
RuleBook.v
Royalties.v
MarketTables.v
MarketJournal.v
Sales.v
Holdback.v
Payouts.v
Books.v
Clearing.v
Reconcile.v
Settlements.v
