(* ===== verification/Prelude.v ===== *)
(** * Talyvor Lens: the wallet and the marketplace

    Talyvor Lens is an LLM gateway written in Go.  Requests are paid for in LXC, the
    workspace's credit, kept in Postgres; a workspace's people make agents, give them
    keys and LXC, and bound what they may spend; on its marketplace they sell listings,
    and what they sell pays them in dollars or in LXC; and a company may hold money in
    currencies and send it to people outside.  This development models all three:
    the arithmetic of prices, fees and royalties, the tables kept, and the transactions
    of [src/internal/economy] and [src/internal/market] that move money, with the
    theorems that make it safe to leave an agent spending on its own and a seller's
    earnings to a journal.

    ** The parts, and where they are

    - [Prelude]: [int64] arithmetic with its wrap-around, the transaction monad
      [Tx] (an error carries no state: the rollback), sums over lists and maps,
      tactics.
    - [Money]: [platform_fee.go]'s [PlatformFee] and [spendWithin],
      [agent_alerts.go]'s [runOn], [market/royalties.go]'s [mulDiv].
    - [Tables]: the rows of the wallet's tables ([src/migrations]), the store they
      make, the errors, and [Ctx], what a request's context carries.
    - [Postings]: the double-entry ledger of the agents ([postEntry] and its kin in
      [agent_accounts.go]), the trigger that keeps each account's balance and the
      deferred constraint that an entry sums to zero.
    - [Lxc]: the workspace's LXC ([dualtoken.go], [cash_backed.go], the lots of
      [wallet_capabilities.go]): credits, grants, spends, the cash-backed part.
    - [Clock]: what the rules use of Go's [time]: civil dates, weekdays, locations.
    - [Rules]: [agent_rules.go], [agent_rule_boosts.go], [agent_alerts.go] and the
      revocations of [agent_kya.go]: an agent's rules, judged inside the movement's
      transaction; approvals, boosts, pauses, the watch on unusual spend.
    - [Permits]: what those rules promise, told from the calendar, the postings and the
      rows alone ([permits], [may_move]), and that [enforceAgentRules] keeps it.
    - [CreditLine]: [credit_line.go], the company's line an agent's spend may draw on.
    - [Agents]: [agent_accounts.go], [agent_pots.go], [agent_lifecycle.go]: owners,
      keys, funding, pots, archiving, and [agentMovementFee], the movement every
      spend of an agent's key posts.
    - [Reservation]: [agent_subbudget.go]: the debit, the hold, its settle and its
      release, the sweep, the per-key ceiling, the retry; and [wallet_inv], the
      invariant of the whole wallet.
    - [Funding]: what the moves of [Agents] and the draw of [CreditLine] do, exactly.
    - [Wallet]: the operations as one state machine, and that it keeps [wallet_inv].
    - [Holds]: what the operations of [Reservation] promise their callers.
    - [DebitSettle]: [agent_debit_settle.go]: a debit taken before the answer, settled to
      what the question cost.
    - [Shifts]: steps that move LXC and agents' balances in several workspaces: what
      each adds to every balance ([shifted]), composed by adding, and when such a step
      keeps [wallet_inv].
    - [Desk]: the tables of the payments kept beside the store ([Desk]), and the
      transactions over both: [wallet] lifts a [WTx], [run_payment] commits or rolls back.
    - [Capabilities]: [wallet_capabilities.go], [compliance_freeze.go],
      [capability_terms.go], [levelRefusal] of [verification.go] and the wall between
      test and real money of [internal/workspace/testwall.go]: what class a movement
      is of, and when it may take live money.
    - [Transfers]: [agent_transfers.go]: addresses and handles, credits sent, asked for
      and given back, inside a workspace or between two.
    - [Escrow]: [agent_escrows.go]: paying in, confirming, disputing, the operator's
      decision, the deadlines; and the abstract vault they implement.
    - [Payments]: [agent_payments.go] and [agent_self_service.go]: payments inside a
      workspace and, through the marketplace, to another; statements and receipts;
      asking for an approval ahead of a payment.
    - [Ledger]: [money_ledger.go] and the limits of [verification.go]: accounts of one
      currency, the entries posted to them under their idempotency keys, what freezes,
      terms, clearances, limits and screening ask of an entry; [MoneyBooks]: the
      invariant of that ledger ([ledger_inv]) and what one posting does.
    - [Outgoing]: [money_payments.go], [money_payments_international.go] and the gate of
      [money_payees.go]: a payment out held, sent and settled as its partner answers;
      [Sendings]: the invariant of payments and their money ([bank_inv]) and the state
      machine ([BankStep]) that keeps it.
    - [Effects]: what the movements before leave alone ([tx_keeps]), for the scheduler that
      runs them.
    - [Schedules]: [agent_schedules.go]: schedules between agents, of a listing and out of
      Talyvor (standing orders), skipped, cancelled and run; automatic top-ups.
    - [Ticks], [Topups]: what the run promises of its ticks and of its top-ups; [Orders]:
      [Outgoing] as the money accounts a standing order pays from, and what its tick pays;
      [Standing]: a company's schedules, run, and three things the run does against its
      comments.
    - [RuleBook]: [agent_rules.go]'s validation and saving, [agent_rules_history.go],
      [BoostAgentRule], [agent_rule_templates.go], [agent_rule_simulator.go] and
      [checkRoomBudget] of [room_wallet.go]: how an agent's rules come to be.
    - [Royalties]: [internal/market/royalties.go]'s [flowUp], the breadth-first flow of a
      sale up the sources it was made from, and the recursion over the tree it equals.
    - [MarketTables]: the rows of the marketplace's tables, the [Market] they make on top
      of the wallet's store, the accounts of its journal.
    - [MarketJournal]: [journal.go] and the triggers of [migrations/0199] and [0200]: an
      entry and its postings, balances, the entry that balances, a use's reversal.
    - [Sales]: [use.go]'s [ClearInvoice], [fees.go], [renewals.go]'s [rentCleared],
      [trials.go]'s entry, [payout.go]'s [ReverseInvoice], [review.go]'s [refundUses].
    - [Holdback]: [escrow.go]'s holds and the release of earnings past their holdback.
    - [Payouts]: [payout.go] and [selfbill.go]: what a seller has, credits taken, the
      weekly payout with its fees and its self-billed invoice, Stripe's transfers.
    - [Books]: the invariant between the journal and the earnings ([books]), and that
      each operation keeps it.
    - [Clearing]: what clearing an invoice does to each of its uses, exactly.
    - [Reconcile]: [escrow.go]'s [JournalCheck], and the marketplace as a state machine
      ([MarketStep]) over instants that do not go back.
    - [Settlements]: what the release job, a payout's fees and credits taken promise.

    ** How operations correspond to code

    A definition has the name of the Go function it models.  A transaction is a
    [WTx]: the store to a result and the store after, or an error; a function that
    begins and commits its transaction is [committed], which applies the deferred
    constraint.  Where a refused movement files an approval after its rollback
    ([refusedMovement]), [run_movement] does so and answers the caller's error with
    the store left behind; [run_payment] is the same over a [Desk].  Statements in Go's
    [int64] wrap ([+!], [-!], [*!]); sums made by Postgres are checked ([bigint]).
    [now c] is the transaction's instant, and [uuid c] the supply its identifiers are
    drawn from.

    The marketplace's transactions are [MTx] over a [Market], [market_committed] its own
    deferred constraint and [store_tx] a wallet transaction inside one.  A Go function
    that commits several transactions one after another ([ReleaseDue], [ReverseInvoice],
    [payOut]) is a function of the state that answers how far it got and the first error,
    what was committed before it kept.  The rule book's are [BTx] over the store and the
    versions of the rules.  The release job's loop takes [release_fuel], one round more
    than there are uses due, and every round but the last releases one, so it never runs
    out; [flowUp]'s takes the rounds a tree of [maxDepth] generations can need, and
    [royalty_queue_empties] shows it never runs out either.

    The scheduler's transactions are [STx] over a [Diary], the [Desk] and the runs of the
    schedules.  Its run takes [maxTicksPerRun] ticks at most, as the code's does;
    [run_catches_up] says what that is enough for.  A listing's charge and a payment out of
    Talyvor are records of operations, [ListingCharger] and [Outside], as they are
    interfaces in the code; [good_neighbours] is what the scheduler relies on: they leave the
    schedules and the top-ups alone; [outgoing_neighbours] shows it of [Outgoing].
    Instants are nanoseconds since 1970, identifiers are ordered bytewise, and one run at a
    time takes the ticks: two that overlap share them by [SKIP LOCKED].

    The money's transactions are [LTx] over the [Desk], [money_committed] their deferred
    constraint.  [PayOutside] is two of them with the partner's answer between: the hold
    ([run_hold]) commits before the payment is sent, and [applyPartnerResult] is a
    transaction of its own, so [BankStep] has both, and other steps come in between.  The
    account partner, the conversion partner, the screeners, the fees and SHA-256 are the
    record [Bank]; a partner's answer is a function of the request and the context, and
    whatever it answers the books are kept.

    Row locks, advisory locks and isolation are not modelled: they make each
    transaction one step, and a transaction is one step here.  That a lock may be
    refused is in [retryLocks].  Parameters of the model are the plan's fee resolver,
    the time-zone database, the UUID supply, SHA-256, the list of country codes, the
    owners' verifier ([OwnerVerifier]), the plan, level and country of a workspace
    ([Gates]) and the marketplace's charge ([CompanyPayments]); the rooms' budgets by
    plan, Stripe ([ConnectStripe]) and the tax partner ([TaxPartner]).  The theorems assume of
    them only that the resolver answers (where a spend is said to succeed), that drawn
    identifiers differ ([Inj]) and, where an agent's spend is counted, that the one
    drawn does not read as the reference of an invoice.  Row order, timestamps nobody
    reads back, the words of errors and most of the list endpoints are left out; case
    and spaces are ASCII's.

    ** What the theorems show

    - [Wallet.wallet_stays_sound]: no sequence of operations, refused or not, breaks
      the books: every balance is the sum of its rows, no agent or pot is overdrawn,
      and what a workspace's agents hold is covered by its LXC.  The bounds it asks
      for are that balances and holds stay under 2^62 and one price under 2^60, which
      is what keeps the code's unchecked [int64] sums exact.  Its machine ([Op]) has 31
      operations: of LXC, of agents and their pots, pauses, approvals and boosts ended, of
      the credit line, of debits and holds; transfers, escrow, payments, top-ups and the
      settlement of a debit act on the same store and keep [wallet_inv] in theorems of
      their own files, and saving rules and making a boost touch none of its balances.
    - the functional theorems of [Lxc], [Funding], [Rules] and [DebitSettle] say when
      each operation goes through, what it then does, and with which error it is
      refused otherwise ([credit_line_lends_within_limit] among them);
    - [Permits]: the rules let a movement through exactly when the specification of them
      permits it ([rules_refuse_exactly]);
    - [Holds]: a settle never bills above its hold and bills once, a release undoes
      its hold, requests are charged once, ceilings hold, the sweep is complete;
    - [Money]: the fee is the exact ceiling, the clamp the exact inverse of the fee;
    - [Capabilities]: from the revocation of a clearance on only test money moves
      ([revoked_takes_only_test_money]);
    - [Transfers], [Payments]: a transfer and a payment move exactly the amount asked
      for from the payer to the payee asked for and keep the wallet sound, uncleared
      transfers are test money and arrive so, inside one workspace too, a refund
      undoes its transfer once, a request is answered once, a statement is the stored
      balance counted down;
    - [Escrow]: every operation that goes through is the step of the vault its caller
      asked for and may take ([Act], [asks]), the others nothing
      ([escrow_implements_vault]), credits are conserved, a settled escrow stays
      settled, and a run over the deadlines, bounded by the code's 1,000 ticks, settles
      or disputes every escrow due when there are no more of them than that;
    - [Ticks]: every tick of a schedule is run or skipped once and in order
      ([ticks_run_exactly_once]), a run without an error leaves none due within its thousand
      ([run_catches_up]), a paid tick between agents moves its amount, a refused one
      nothing;
      [Topups]: a top-up fires once a crossing;
    - [MoneyBooks]: a movement asked for under a key moves once ([money_moves_once]),
      exactly as it says ([money_moves_exactly]), and only with leave
      ([money_moves_with_leave]);
    - [Sendings]: a hold account holds what is on its way, to the last minor unit
      ([hold_accounts_hold_what_is_on_its_way]), a partner's answer moves a payment's
      money as far as it says ([partner_answer_moves_exactly]), and a payment asked for
      again is the same payment ([payment_asked_again_is_the_same]).  [BankStep] asks
      that a quote's sum stay within 64 bits, which the code does not check
      ([wrapped_payment_credits_its_payer]), and that what others post goes to no hold
      account and under no key of a payment's;
    - [Orders]: a standing order's tick pays what the order says, and its money lies where
      the payment stands ([standing_order_pays_as_scheduled]); a tick run again pays once
      ([tick_run_again_pays_once]);
    - [RuleBook]: rules saved, rolled back and boosted stay well-formed and can be judged
      ([rules_stay_well_formed]), and a rollback puts back what its version recorded;
    - [Royalties]: the queue pays what the tree of sources pays, edge by edge, and empties;
    - [Reconcile]: after any of the modelled operations in any order the journal holds, for
      each seller, exactly what the earnings, refunds, releases and payouts say
      ([journal_holds_what_is_earned]), [JournalCheck] answers just that and names the
      one difference there can be, of which funding what is left has
      ([journal_check_answers_exactly]), and nothing is released inside its holdback or on
      hold; its sums may be any size, the code's wrapped ones compared modulo 2^64;
    - [Clearing], [Settlements]: a use's price is split to the last micro-dollar and once,
      between the fee, its seller and the payees of its sources, in rows that name them,
      a payout's fees to the cent, credits taken take everything, the job leaves nothing
      due; [sales_fit] asks that one price times the parents of a version stay in 64 bits;
    - what the code does and its documentation does not say: a seller who took live
      earnings as credits is paid test earnings by a live key
      ([test_earnings_reach_live_payout], which [JournalCheck] names:
      [mixed_check_names_live]), the rule simulator does not see that a licence
      renews ([simulator_misses_renewal]), the limits over an hour, a
      day, a week and a month leave transfers and escrows out
      ([transfers_not_counted]), a transfer leaves the cash-backing behind
      ([transfers_leave_cash_behind]), escrows pass round a freeze
      ([escrow_steps_round_freeze]), a receipt of a movement between two workspaces
      shows one side ([receipt_one_sided]), a monthly schedule from 31 January skips
      February ([monthly_schedule_skips_february]), an archived agent is still paid by
      other companies' schedules and topped up ([archived_agents_still_funded]), and a
      standing order that cannot be valued stalls the schedules after it
      ([unvalued_order_stalls_schedules]).

    ** What is not modelled

    Of the wallet: schedules', pots' and alerts' list reads, the period statements, loans,
    cash-outs, agent cards, and the choice [SKIP LOCKED] makes among due escrows when two
    runs overlap.  Of the money in currencies: what monitoring finds, which never stops a
    movement, opening an account with a partner, money in, mandates, invoices,
    reconciliation with the partner's statement, and saving and confirming a payee.  Of the marketplace: listings and their search, running a use (a model
    call) and metering it, renewals' own charges, connecting a seller with Stripe, the
    hold an IP claim's trigger opens ([migrations/0217]), the refunds of
    [economy/test_crossings.go], the reads of earnings and bills.  Earnings of kind [split] are in no code yet.  Beyond:
    the HTTP proxy, billing with Stripe, and the LENS rate engine, which computes in
    floating point. *)
From stdpp Require Export base tactics numbers list gmap strings fin_maps.
From Stdlib Require Export Ascii ZArith Lia.

Open Scope Z_scope.

(** ** Machine integers *)

Definition min_i64 : Z := -9223372036854775808.
Definition max_i64 : Z := 9223372036854775807.

(** A value an [int64] variable or a [BIGINT] column can hold. *)
Definition in_i64 (z : Z) : Prop := min_i64 <= z <= max_i64.

Definition in_i64b (z : Z) : bool := (min_i64 <=? z) && (z <=? max_i64).

(** What an [int64] variable holds after the exact result [z] is stored in it. *)
Definition wrap64 (z : Z) : Z := (z - min_i64) mod 18446744073709551616 + min_i64.

#[global] Arguments wrap64 : simpl never.
#[global] Arguments in_i64 : simpl never.

Declare Scope i64_scope.
Delimit Scope i64_scope with i64.
Notation "x +! y" := (wrap64 (x + y)) (at level 50, left associativity) : i64_scope.
Notation "x -! y" := (wrap64 (x - y)) (at level 50, left associativity) : i64_scope.
Notation "x *! y" := (wrap64 (x * y)) (at level 40, left associativity) : i64_scope.
Notation "-! x" := (wrap64 (- x)) (at level 35, right associativity) : i64_scope.
Open Scope i64_scope.

Lemma in_i64b_spec z : in_i64b z = true <-> in_i64 z.
Proof. unfold in_i64b, in_i64. lia. Qed.

Lemma wrap64_in z : in_i64 (wrap64 z).
Proof.
  unfold in_i64, wrap64, max_i64, min_i64.
  pose proof (Z.mod_pos_bound (z - -9223372036854775808) 18446744073709551616). lia.
Qed.

Lemma wrap64_id z : in_i64 z -> wrap64 z = z.
Proof.
  unfold in_i64, wrap64, max_i64, min_i64. intros H.
  rewrite Z.mod_small by lia. lia.
Qed.

(** Wrapping identifies exactly the integers that agree modulo [2^64]. *)
Lemma wrap64_eq x y : wrap64 x = wrap64 y <-> exists k, x = y + k * 18446744073709551616.
Proof.
  unfold wrap64. split.
  - intros H. exists ((x - min_i64) / 18446744073709551616 - (y - min_i64) / 18446744073709551616).
    pose proof (Z.div_mod (x - min_i64) 18446744073709551616 ltac:(lia)).
    pose proof (Z.div_mod (y - min_i64) 18446744073709551616 ltac:(lia)). lia.
  - intros [k ->]. f_equal.
    replace (y + k * 18446744073709551616 - min_i64)
      with (y - min_i64 + k * 18446744073709551616) by lia.
    apply Z.mod_add. lia.
Qed.

Lemma wrap64_exists z : exists k, wrap64 z = z + k * 18446744073709551616.
Proof.
  apply wrap64_eq. apply wrap64_id, wrap64_in.
Qed.

Create HintDb i64.
#[export] Hint Resolve wrap64_in : i64.

(** Wrapping an operand early changes nothing once the result is wrapped. *)
Ltac wrap_absorb :=
  intros;
  repeat match goal with
  | |- context [wrap64 (?f (wrap64 ?z))] =>
      let k := fresh "k" in let E := fresh "E" in
      destruct (wrap64_exists z) as [k E]; rewrite E; clear E
  | |- wrap64 (?f (wrap64 ?z) ?y) = _ =>
      let k := fresh "k" in let E := fresh "E" in
      destruct (wrap64_exists z) as [k E]; rewrite E; clear E
  | |- wrap64 (?f ?y (wrap64 ?z)) = _ =>
      let k := fresh "k" in let E := fresh "E" in
      destruct (wrap64_exists z) as [k E]; rewrite E; clear E
  end;
  apply wrap64_eq.

Lemma wrap64_add_l x y : wrap64 (wrap64 x + y) = wrap64 (x + y).
Proof. wrap_absorb. exists k. lia. Qed.
Lemma wrap64_add_r x y : wrap64 (x + wrap64 y) = wrap64 (x + y).
Proof. wrap_absorb. exists k. lia. Qed.
Lemma wrap64_sub_l x y : wrap64 (wrap64 x - y) = wrap64 (x - y).
Proof. wrap_absorb. exists k. lia. Qed.
Lemma wrap64_sub_r x y : wrap64 (x - wrap64 y) = wrap64 (x - y).
Proof. wrap_absorb. exists (- k). lia. Qed.
Lemma wrap64_opp x : wrap64 (- wrap64 x) = wrap64 (- x).
Proof. wrap_absorb. exists (- k). lia. Qed.
Lemma wrap64_wrap x : wrap64 (wrap64 x) = wrap64 x.
Proof. apply wrap64_id, wrap64_in. Qed.

Create Rewrite HintDb wrap64.
#[export] Hint Rewrite wrap64_add_l wrap64_add_r wrap64_sub_l wrap64_sub_r
  wrap64_opp wrap64_wrap : wrap64.

(** Equality modulo [2^64], the congruence wrapped arithmetic respects. *)
Definition eqm (x y : Z) : Prop := wrap64 x = wrap64 y.

#[export] Instance eqm_equiv : Equivalence eqm.
Proof. split; unfold eqm; repeat intro; congruence. Qed.

#[export] Instance eqm_add : Proper (eqm ==> eqm ==> eqm) Z.add.
Proof. intros a b H c d K. unfold eqm in *. by rewrite <- wrap64_add_l, <- wrap64_add_r, H, K, wrap64_add_r, wrap64_add_l. Qed.

#[export] Instance eqm_sub : Proper (eqm ==> eqm ==> eqm) Z.sub.
Proof. intros a b H c d K. unfold eqm in *. by rewrite <- wrap64_sub_l, <- wrap64_sub_r, H, K, wrap64_sub_r, wrap64_sub_l. Qed.

#[export] Instance eqm_opp : Proper (eqm ==> eqm) Z.opp.
Proof. intros a b H. unfold eqm in *. by rewrite <- wrap64_opp, H, wrap64_opp. Qed.

#[export] Instance eqm_wrap : Proper (eqm ==> eq) wrap64.
Proof. intros a b H. exact H. Qed.

Lemma wrap64_eqm z : eqm (wrap64 z) z.
Proof. apply wrap64_wrap. Qed.

Lemma eq_eqm x y : x = y -> eqm x y.
Proof. by intros ->. Qed.

(** [wrap_eq] proves an equation between wrapped sums and differences: the inner
    wraps go, modulo [2^64], and [lia] proves the exact equation left. *)
Ltac wrap_eq :=
  match goal with
  | |- wrap64 ?x = wrap64 ?y => change (eqm x y)
  end;
  rewrite ?wrap64_eqm; apply eq_eqm; lia.

(** [i64_ranges] unfolds the range predicates; [unwrap] removes a wrap whose
    argument [lia] can see to be in range. *)
Ltac i64_ranges := unfold in_i64, min_i64, max_i64 in *.

Ltac unwrap :=
  repeat match goal with
  | |- context [wrap64 ?z] => rewrite (wrap64_id z) by (i64_ranges; lia)
  | H : context [wrap64 ?z] |- _ => rewrite (wrap64_id z) in H by (i64_ranges; lia)
  end.

(** ** Results and transactions *)

(** What a fallible Go function answers: a value and a nil error, or an error. *)
Inductive Res (E A : Type) : Type :=
| Ok (a : A)
| Err (e : E).
Arguments Ok {E A} a.
Arguments Err {E A} e.

(** One database transaction over the state [S]: it answers a value and the
    state it would commit, or an error and no state at all, the deferred
    [tx.Rollback] having undone every write. *)
Definition Tx (E S A : Type) : Type := S -> Res E (A * S).

Definition tx_ret {E S A} (a : A) : Tx E S A := fun s => Ok (a, s).

Definition tx_bind {E S A B} (m : Tx E S A) (k : A -> Tx E S B) : Tx E S B :=
  fun s => match m s with
           | Ok (a, s') => k a s'
           | Err e => Err e
           end.

Definition tx_fail {E S A} (e : E) : Tx E S A := fun _ => Err e.
Definition tx_gets {E S A} (f : S -> A) : Tx E S A := fun s => Ok (f s, s).
Definition tx_modify {E S} (f : S -> S) : Tx E S unit := fun s => Ok (tt, f s).

(** [if cond { return err }]: the guard that lets the rest run. *)
Definition tx_guard {E S} (b : bool) (e : E) : Tx E S unit :=
  if b then tx_ret tt else tx_fail e.

Declare Scope tx_scope.
Delimit Scope tx_scope with tx.
Notation "'let!' x := m 'in' k" := (tx_bind m (fun x => k))
  (at level 10, x pattern, m at level 100, k at level 200) : tx_scope.
Notation "m ;;; k" := (tx_bind m (fun _ => k))
  (at level 100, k at level 200, right associativity) : tx_scope.
Open Scope tx_scope.

(** What the caller sees of a transaction: its error or its value, and the
    database after the commit or the rollback. *)
Definition run_tx {E S A} (m : Tx E S A) (s : S) : Res E A * S :=
  match m s with
  | Ok (a, s') => (Ok a, s')
  | Err e => (Err e, s)
  end.

Section TxLemmas.
Context {E S : Type}.

Lemma tx_bind_ok {A B} (m : Tx E S A) (k : A -> Tx E S B) s r :
  tx_bind m k s = Ok r <-> exists a s', m s = Ok (a, s') /\ k a s' = Ok r.
Proof.
  unfold tx_bind. split.
  - destruct (m s) as [[a s']|e]; [eauto | discriminate].
  - intros (a & s' & -> & Hk). exact Hk.
Qed.

Lemma tx_ret_ok {A} (a b : A) (s s' : S) : tx_ret (E:=E) a s = Ok (b, s') <-> b = a /\ s' = s.
Proof. unfold tx_ret. split; [by intros [= -> ->] | by intros [-> ->]]. Qed.

Lemma tx_fail_ok {A} (e : E) (s : S) (r : A * S) : tx_fail e s = Ok r <-> False.
Proof. by unfold tx_fail. Qed.

Lemma tx_gets_ok {A} (f : S -> A) b (s s' : S) :
  tx_gets (E:=E) f s = Ok (b, s') <-> b = f s /\ s' = s.
Proof. unfold tx_gets. split; [by intros [= -> ->] | by intros [-> ->]]. Qed.

Lemma tx_modify_ok (f : S -> S) u (s s' : S) :
  tx_modify (E:=E) f s = Ok (u, s') <-> s' = f s.
Proof. unfold tx_modify. destruct u. split; [by intros [= ->] | by intros ->]. Qed.

Lemma tx_guard_ok b (e : E) u (s s' : S) :
  tx_guard b e s = Ok (u, s') <-> b = true /\ s' = s.
Proof.
  unfold tx_guard, tx_ret, tx_fail. destruct u, b;
    split; try (intros [= ->]; by auto); try (by intros [_ ->]); by intros [? _].
Qed.

Lemma tx_bind_assoc {A B C} (m : Tx E S A) (f : A -> Tx E S B) (g : B -> Tx E S C) s :
  tx_bind (tx_bind m f) g s = tx_bind m (fun a => tx_bind (f a) g) s.
Proof. unfold tx_bind. by destruct (m s) as [[a s']|e]. Qed.

(** The three steps that read, seen from the rest of the transaction. *)
Lemma tx_guard_bind {A} b (e : E) (k : unit -> Tx E S A) s r :
  tx_bind (tx_guard b e) k s = Ok r <-> b = true /\ k tt s = Ok r.
Proof.
  unfold tx_bind, tx_guard, tx_ret, tx_fail. destruct b; split; try done; [|by intros [? _]].
  by intros [_ ?].
Qed.

Lemma tx_gets_bind {A B} (f : S -> A) (k : A -> Tx E S B) s r :
  tx_bind (tx_gets f) k s = Ok r <-> k (f s) s = Ok r.
Proof. done. Qed.

(** The equations that run a transaction forward, errors included. *)
Lemma run_bind {A B} (m : Tx E S A) (k : A -> Tx E S B) s a s' : m s = Ok (a, s') -> tx_bind m k s = k a s'.
Proof. unfold tx_bind. by intros ->. Qed.

Lemma run_bind_err {A B} (m : Tx E S A) (k : A -> Tx E S B) s e : m s = Err e -> tx_bind m k s = Err e.
Proof. unfold tx_bind. by intros ->. Qed.

Lemma run_gets {A B} (f : S -> A) (k : A -> Tx E S B) s : tx_bind (tx_gets f) k s = k (f s) s.
Proof. done. Qed.

Lemma run_guard {A} b (e : E) (k : unit -> Tx E S A) s :
  tx_bind (tx_guard b e) k s = if b then k tt s else Err e.
Proof. by destruct b. Qed.

Lemma run_assoc {A B C} (m : Tx E S A) (f : A -> Tx E S B) (k : B -> Tx E S C) s :
  tx_bind (tx_bind m f) k s = tx_bind m (fun a => tx_bind (f a) k) s.
Proof. unfold tx_bind. by destruct (m s) as [[]|]. Qed.

Lemma tx_reads_bind {A} (m : Tx E S unit) (P : Prop) (k : unit -> Tx E S A) s r :
  (forall u s', m s = Ok (u, s') <-> s' = s /\ P) ->
  tx_bind m k s = Ok r <-> P /\ k tt s = Ok r.
Proof.
  intros H. rewrite tx_bind_ok. split.
  - intros ([] & s' & H1 & H2). apply H in H1 as [-> HP]. done.
  - intros [HP Hk]. exists tt, s. split; [|done]. apply H. done.
Qed.

(** An operation that answered an error left the database as it was. *)
Lemma run_tx_rollback {A} (m : Tx E S A) s e : (run_tx m s).1 = Err e -> (run_tx m s).2 = s.
Proof. unfold run_tx. by destruct (m s) as [[a s']|e']. Qed.

Lemma run_tx_commit {A} (m : Tx E S A) s a s' :
  run_tx m s = (Ok a, s') <-> m s = Ok (a, s').
Proof.
  unfold run_tx. destruct (m s) as [[b t]|e]; split; intros [= <- <-] || intros [=]; congruence.
Qed.
End TxLemmas.

Lemma tx_modify_bind {E S A} (f : S -> S) (k : unit -> Tx E S A) s r :
  tx_bind (tx_modify f) k s = Ok r <-> k tt (f s) = Ok r.
Proof. done. Qed.

(** [subst_eq H] removes the equation [H] if one side is a variable. *)
Ltac subst_eq H :=
  match type of H with
  | ?x = _ => is_var x; subst x
  | _ = ?y => is_var y; subst y
  | ?x = ?x => clear H
  | _ => idtac
  end.

(** [tx_inv] opens every successful transaction among the hypotheses into its
    steps, one equation per primitive. *)
Ltac tx_inv_step :=
  match goal with
  | H : tx_bind _ _ _ = Ok _ |- _ =>
      let a := fresh "a" in let s := fresh "s" in
      let H1 := fresh "H" in let H2 := fresh "H" in
      apply tx_bind_ok in H; destruct H as (a & s & H1 & H2)
  | H : tx_ret _ _ = Ok _ |- _ =>
      let E1 := fresh "E" in let E2 := fresh "E" in
      apply tx_ret_ok in H; destruct H as [E1 E2]; subst_eq E2; subst_eq E1
  | H : tx_fail _ _ = Ok _ |- _ => apply tx_fail_ok in H; destruct H
  | H : tx_gets _ _ = Ok _ |- _ =>
      let E1 := fresh "E" in let E2 := fresh "E" in
      apply tx_gets_ok in H; destruct H as [E1 E2]; subst_eq E2; subst_eq E1
  | H : tx_modify _ _ = Ok _ |- _ => apply tx_modify_ok in H; subst_eq H
  | H : tx_guard _ _ _ = Ok _ |- _ =>
      let Hg := fresh "Hg" in let E2 := fresh "E" in
      apply tx_guard_ok in H; destruct H as [Hg E2]; subst_eq E2
  end.
Ltac tx_inv := repeat tx_inv_step.

(** [bigint] arithmetic inside SQL: Postgres refuses the statement, and with it
    the transaction, when the result leaves the column's range. *)
Definition sql_bigint {E S} (overflow : E) (z : Z) : Tx E S Z :=
  if in_i64b z then tx_ret z else tx_fail overflow.

Lemma sql_bigint_ok {E S} (e : E) z r (s s' : S) :
  sql_bigint e z s = Ok (r, s') <-> r = z /\ s' = s /\ in_i64 z.
Proof.
  unfold sql_bigint. pose proof (in_i64b_spec z) as B. destruct (in_i64b z).
  - rewrite tx_ret_ok. naive_solver.
  - rewrite tx_fail_ok. naive_solver.
Qed.

(** ** What a transaction leaves alone, and what it may refuse with *)

(** [m] commits no state in which [f] reads differently. *)
Definition tx_keeps {E S A X} (f : S -> X) (m : Tx E S A) : Prop :=
  forall s a s', m s = Ok (a, s') -> f s' = f s.

Create HintDb tx_effects discriminated.

Section Effects.
Context {E S X : Type} (f : S -> X).

Lemma keeps_ret {A} (a : A) : tx_keeps f (tx_ret (E:=E) a).
Proof. by intros s b s' [_ ->]%tx_ret_ok. Qed.

Lemma keeps_fail {A} (e : E) : tx_keeps f (tx_fail (A:=A) e).
Proof. by intros s b s' ?%tx_fail_ok. Qed.

Lemma keeps_gets {A} (g : S -> A) : tx_keeps f (tx_gets (E:=E) g).
Proof. by intros s b s' [_ ->]%tx_gets_ok. Qed.

Lemma keeps_guard b (e : E) : tx_keeps f (tx_guard b e).
Proof. by intros s u s' [_ ->]%tx_guard_ok. Qed.

Lemma keeps_modify (g : S -> S) : (forall s, f (g s) = f s) -> tx_keeps f (tx_modify (E:=E) g).
Proof. by intros H s u s' ->%tx_modify_ok. Qed.

Lemma keeps_bigint (e : E) z : tx_keeps f (sql_bigint e z).
Proof. by intros s r s' (_ & -> & _)%sql_bigint_ok. Qed.

Lemma keeps_bind {A B} (m : Tx E S A) (k : A -> Tx E S B) :
  tx_keeps f m -> (forall a, tx_keeps f (k a)) -> tx_keeps f (tx_bind m k).
Proof. intros Hm Hk s b s' (a & t & H1 & H2)%tx_bind_ok. rewrite (Hk _ _ _ _ H2). by apply (Hm _ _ _ H1). Qed.
End Effects.

#[export] Hint Resolve keeps_ret keeps_fail keeps_gets keeps_guard keeps_bigint : tx_effects.

(** One step of the analysis of a transaction's text: its binds taken apart, its matches
    by cases, what is left looked up among the effects already known. *)
Ltac tx_effects_step :=
  cbv beta zeta;
  match goal with
  | |- tx_keeps _ (tx_bind _ _) => apply keeps_bind; [|intros ?]
  | |- tx_keeps _ (tx_modify _) => apply keeps_modify; intros ?; try reflexivity
  | |- tx_keeps _ (match ?x with _ => _ end) => destruct x
  | |- _ => solve [auto with tx_effects]
  end.
Ltac tx_effects := repeat tx_effects_step.

(** ** Sums *)

Fixpoint sumZ (l : list Z) : Z :=
  match l with
  | [] => 0
  | x :: l => x + sumZ l
  end.

Lemma sumZ_app l k : sumZ (l ++ k) = sumZ l + sumZ k.
Proof. induction l; simpl; lia. Qed.

Lemma sumZ_nonneg l : Forall (fun x => 0 <= x) l -> 0 <= sumZ l.
Proof. induction 1; simpl; lia. Qed.

Lemma sumZ_le {A} (f g : A -> Z) l :
  Forall (fun x => f x <= g x) l -> sumZ (f <$> l) <= sumZ (g <$> l).
Proof. induction 1; csimpl; lia. Qed.

Lemma sumZ_perm l k : l ≡ₚ k -> sumZ l = sumZ k.
Proof. induction 1; simpl; lia. Qed.

(** The sum of a finite map's values under [f]: SQL's [sum] over a table. *)
Definition map_sum `{Countable K} {V} (f : K -> V -> Z) (m : gmap K V) : Z :=
  sumZ ((fun kv => f kv.1 kv.2) <$> map_to_list m).

Section MapSum.
Context `{Countable K} {V : Type}.
Implicit Types (f : K -> V -> Z) (m : gmap K V).

Lemma map_sum_empty f : map_sum f ∅ = 0.
Proof. unfold map_sum. by rewrite map_to_list_empty. Qed.

Lemma map_sum_insert_new f m k v :
  m !! k = None -> map_sum f (<[k:=v]> m) = f k v + map_sum f m.
Proof.
  intros Hk. unfold map_sum.
  rewrite (sumZ_perm _ _ (fmap_Permutation _ _ _ (map_to_list_insert m k v Hk))).
  done.
Qed.

Lemma map_sum_delete f m k v :
  m !! k = Some v -> map_sum f m = f k v + map_sum f (delete k m).
Proof.
  intros Hk. rewrite <- (insert_delete_id m k v Hk) at 1.
  apply map_sum_insert_new, lookup_delete_eq.
Qed.

(** Writing a row moves the sum by the difference the row makes. *)
Lemma map_sum_insert f m k v :
  map_sum f (<[k:=v]> m) =
  map_sum f m + f k v - match m !! k with Some w => f k w | None => 0 end.
Proof.
  destruct (m !! k) as [w|] eqn:Hk.
  - rewrite <- insert_delete_eq, map_sum_insert_new by apply lookup_delete_eq.
    rewrite (map_sum_delete f m k w Hk). lia.
  - rewrite map_sum_insert_new by done. lia.
Qed.

Lemma map_sum_nonneg f m :
  (forall k v, m !! k = Some v -> 0 <= f k v) -> 0 <= map_sum f m.
Proof.
  intros Hf. apply sumZ_nonneg, Forall_fmap, Forall_forall. intros [k v] Hin.
  apply Hf. by apply elem_of_map_to_list in Hin.
Qed.

Lemma map_sum_ext f g m :
  (forall k v, m !! k = Some v -> f k v = g k v) -> map_sum f m = map_sum g m.
Proof.
  intros Hf. unfold map_sum. f_equal. apply list_fmap_ext. intros i [k v] Hin.
  apply Hf. apply elem_of_map_to_list. by eapply list_elem_of_lookup_2.
Qed.

Lemma map_sum_lookup_le f m k v :
  (forall k v, m !! k = Some v -> 0 <= f k v) -> m !! k = Some v -> f k v <= map_sum f m.
Proof.
  intros Hf Hk. rewrite (map_sum_delete f m k v Hk).
  enough (0 <= map_sum f (delete k m)) by lia.
  apply map_sum_nonneg. intros k' v' [_ ?]%lookup_delete_Some. eauto.
Qed.
End MapSum.

(** From here on no tactic unfolds the wrap by itself: unification would
    otherwise try to compute with its constants. *)
#[global] Opaque wrap64.
