(* ===== verification/Money.v ===== *)
(** Talyvor's integer price arithmetic: the platform fee on a spend and the
    largest spend a hold affords ([internal/economy/platform_fee.go]), the
    128-bit multiply-then-divide the marketplace's shares use
    ([internal/market/royalties.go]), and the month-end forecast
    ([internal/economy/agent_alerts.go]). *)
From S2P Require Import Prelude.
Open Scope Z_scope.
Open Scope i64_scope.

(** 100%, in basis points. *)
Definition feeDenominator : Z := 10000.

(** The fee on a spend of [amount] at [bps]; Go's [/] and [%] truncate. *)
Definition PlatformFee (amount bps : Z) : Z :=
  if (amount <=? 0) || (bps <=? 0) then 0
  else
    let q := Z.quot amount feeDenominator in
    let r := Z.rem amount feeDenominator in
    q *! bps +! Z.quot (r *! bps +! feeDenominator -! 1) feeDenominator.

(** The largest spend whose spend plus fee at [bps] fits in [gross]. *)
Definition spendWithin (gross bps : Z) : Z :=
  if gross <=? 0 then 0
  else
    let d := feeDenominator +! bps in
    Z.quot gross d *! feeDenominator +! Z.quot (Z.rem gross d *! feeDenominator) d.

(** [uint64(z)]. *)
Definition to_u64 (z : Z) : Z := z mod 18446744073709551616.

(** [mulDiv] multiplies into 128 bits and divides back; [bits.Div64] panics
    ([None]) when the quotient does not fit 64 bits or the divisor is zero. *)
Definition mulDiv (a b c : Z) : option Z :=
  let p := to_u64 a * to_u64 b in
  let hi := p / 18446744073709551616 in
  let lo := p mod 18446744073709551616 in
  if (to_u64 c =? 0) || (to_u64 c <=? hi) then None
  else Some (wrap64 ((hi * 18446744073709551616 + lo) / to_u64 c)).

(** [runOn]: [big.Int] arithmetic, [Quo] truncating, then [Int64]. *)
Definition runOn (spent elapsed length : Z) : Z :=
  if (elapsed <=? 0) || (spent <=? 0) then Z.max spent 0
  else wrap64 (Z.quot (spent * length) elapsed).

(** The basis points the store accepts of its fee resolver. *)
Definition bps_ok (bps : Z) : Prop := 0 <= bps <= feeDenominator.

Definition bps_okb (bps : Z) : bool := negb ((bps <? 0) || (feeDenominator <? bps)).

Lemma bps_okb_spec bps : bps_okb bps = true <-> bps_ok bps.
Proof. unfold bps_okb, bps_ok. lia. Qed.

(** ** What the formulas compute *)

(** The fee the plan promises: [amount] times [bps] over 10,000, rounded up. *)
Definition fee_ceiling (amount bps : Z) : Z := (amount * bps + 9999) / 10000.

Lemma PlatformFee_spec amount bps :
  in_i64 amount -> 0 <= amount -> bps_ok bps ->
  PlatformFee amount bps = fee_ceiling amount bps.
Proof.
  unfold PlatformFee, fee_ceiling, bps_ok, feeDenominator. intros Ha H0 Hb.
  destruct (Z.leb_spec amount 0); [replace amount with 0 by lia; done|].
  destruct (Z.leb_spec bps 0); [|cbn [orb]].
  { assert (bps = 0) as -> by lia. by rewrite (Z.mul_0_r amount). }
  rewrite Z.quot_div_nonneg, Z.rem_mod_nonneg by lia.
  pose proof (Z.div_mod amount 10000 ltac:(lia)) as E.
  pose proof (Z.mod_pos_bound amount 10000 ltac:(lia)) as R.
  set (q := amount / 10000) in *. set (r := amount mod 10000) in *.
  assert (0 <= q) by (apply Z.div_pos; lia).
  assert (0 <= q * bps <= q * 10000) by nia. assert (0 <= r * bps <= 9999 * 10000) by nia.
  i64_ranges. unwrap.
  rewrite (Z.quot_div_nonneg (r * bps + 10000 - 1)) by lia.
  assert (0 <= (r * bps + 10000 - 1) / 10000) by (apply Z.div_pos; lia).
  assert ((r * bps + 10000 - 1) / 10000 < r + 1) by (apply Z.div_lt_upper_bound; nia).
  unwrap.
  replace (amount * bps + 9999) with (r * bps + 10000 - 1 + (q * bps) * 10000) by nia.
  rewrite Z.div_add by lia. lia.
Qed.

Lemma fee_ceiling_bounds amount bps :
  0 <= amount -> bps_ok bps -> 0 <= fee_ceiling amount bps <= amount.
Proof.
  unfold fee_ceiling, bps_ok, feeDenominator. intros.
  split; [apply Z.div_pos; nia|].
  enough ((amount * bps + 9999) / 10000 < amount + 1) by lia.
  apply Z.div_lt_upper_bound; nia.
Qed.

Lemma PlatformFee_nonpos amount bps : amount <= 0 -> PlatformFee amount bps = 0.
Proof. intros. unfold PlatformFee. by destruct (Z.leb_spec amount 0); [|lia]. Qed.

Lemma PlatformFee_bounds amount bps :
  in_i64 amount -> 0 <= amount -> bps_ok bps -> 0 <= PlatformFee amount bps <= amount.
Proof. intros. rewrite PlatformFee_spec by done. by apply fee_ceiling_bounds. Qed.

Lemma PlatformFee_nonneg amount bps : in_i64 amount -> bps_ok bps -> 0 <= PlatformFee amount bps.
Proof.
  intros. destruct (decide (amount <= 0)); [rewrite PlatformFee_nonpos by done; lia|].
  apply PlatformFee_bounds; lia || done.
Qed.

Lemma spendWithin_spec gross bps :
  in_i64 gross -> 0 <= gross -> bps_ok bps ->
  spendWithin gross bps = gross * 10000 / (10000 + bps).
Proof.
  unfold spendWithin, bps_ok, feeDenominator. intros Hg H0 Hb.
  destruct (Z.leb_spec gross 0); [replace gross with 0 by lia; done|].
  assert (10000 +! bps = 10000 + bps) as -> by (unwrap; lia).
  set (d := 10000 + bps).
  rewrite Z.quot_div_nonneg, Z.rem_mod_nonneg by lia.
  pose proof (Z.div_mod gross d ltac:(lia)) as E.
  pose proof (Z.mod_pos_bound gross d ltac:(lia)) as R.
  set (q := gross / d) in *. set (r := gross mod d) in *.
  assert (0 <= q) by (apply Z.div_pos; lia).
  assert (0 <= q * 10000 <= d * q) by nia.
  i64_ranges. unwrap. rewrite Z.quot_div_nonneg by lia.
  assert (0 <= r * 10000 / d <= r) by
    (split; [apply Z.div_pos; lia | apply Z.div_le_upper_bound; nia]).
  unwrap.
  replace (gross * 10000) with (r * 10000 + (q * 10000) * d) by nia.
  rewrite Z.div_add by lia. lia.
Qed.

(** The settle's clamp: a spend's fee rounds up only into µLXC the hold has. *)
Lemma fee_ceiling_fits gross bps :
  0 <= gross -> bps_ok bps ->
  0 <= gross * 10000 / (10000 + bps) /\
  gross * 10000 / (10000 + bps) + fee_ceiling (gross * 10000 / (10000 + bps)) bps <= gross.
Proof.
  unfold fee_ceiling, bps_ok, feeDenominator. intros H0 Hb.
  set (s := gross * 10000 / (10000 + bps)).
  pose proof (Z.mul_div_le (gross * 10000) (10000 + bps) ltac:(lia)) as L. fold s in L.
  split; [apply Z.div_pos; lia|].
  enough ((s * bps + 9999) / 10000 < gross - s + 1) by lia.
  apply Z.div_lt_upper_bound; nia.
Qed.

Lemma spendWithin_fits gross bps :
  in_i64 gross -> bps_ok bps ->
  0 <= spendWithin gross bps /\
  spendWithin gross bps + PlatformFee (spendWithin gross bps) bps <= Z.max gross 0.
Proof.
  intros Hg Hb. destruct (decide (gross <= 0)).
  - unfold spendWithin. destruct (Z.leb_spec gross 0); [|lia]. rewrite PlatformFee_nonpos; lia.
  - rewrite spendWithin_spec by (done || lia).
    destruct (fee_ceiling_fits gross bps ltac:(lia) Hb) as [P F].
    pose proof (fee_ceiling_bounds _ bps P Hb).
    rewrite PlatformFee_spec by (done || (i64_ranges; lia)). lia.
Qed.

Lemma fee_ceiling_mono a b bps : a <= b -> bps_ok bps -> fee_ceiling a bps <= fee_ceiling b bps.
Proof. unfold fee_ceiling, bps_ok, feeDenominator. intros. apply Z.div_le_mono; nia. Qed.

Lemma spendWithin_i64 gross bps : in_i64 (spendWithin gross bps).
Proof.
  unfold spendWithin. destruct (gross <=? 0); [by apply in_i64b_spec|]. apply wrap64_in.
Qed.

(** Any spend up to [spendWithin] fits with its fee. *)
Lemma spend_fits_below gross bps t :
  in_i64 gross -> bps_ok bps -> 0 <= t <= spendWithin gross bps -> t + PlatformFee t bps <= Z.max gross 0.
Proof.
  intros Hg Hb Ht. destruct (spendWithin_fits gross bps Hg Hb) as [P F].
  pose proof (spendWithin_i64 gross bps) as Hi.
  rewrite PlatformFee_spec in F |- * by (done || i64_ranges; lia).
  pose proof (fee_ceiling_mono t (spendWithin gross bps) bps ltac:(lia) Hb). lia.
Qed.

(** No larger spend fits. *)
Lemma spendWithin_largest gross bps t :
  in_i64 gross -> 0 <= gross -> bps_ok bps -> in_i64 t -> t + PlatformFee t bps <= gross -> t <= spendWithin gross bps.
Proof.
  intros Hg H0 Hb Ht Hfit. rewrite spendWithin_spec by done. unfold bps_ok, feeDenominator in Hb.
  destruct (decide (t <= 0)).
  - enough (0 <= gross * 10000 / (10000 + bps)) by lia. apply Z.div_pos; lia.
  - rewrite PlatformFee_spec in Hfit by (done || (unfold bps_ok, feeDenominator; lia) || lia).
    apply Z.div_le_lower_bound; [lia|].
    unfold fee_ceiling in Hfit.
    pose proof (Z.div_mod (t * bps + 9999) 10000 ltac:(lia)).
    pose proof (Z.mod_pos_bound (t * bps + 9999) 10000 ltac:(lia)). lia.
Qed.

(** The fee of a larger spend is no smaller. *)
Lemma PlatformFee_mono a b bps :
  a <= b -> in_i64 a -> in_i64 b -> bps_ok bps -> PlatformFee a bps <= PlatformFee b bps.
Proof.
  intros Hab Ha Hb Hbps. destruct (decide (a <= 0)).
  - rewrite PlatformFee_nonpos by done. destruct (decide (b <= 0)); [by rewrite PlatformFee_nonpos|].
    apply PlatformFee_nonneg; done.
  - rewrite !PlatformFee_spec by (done || lia). by apply fee_ceiling_mono.
Qed.

Lemma mulDiv_spec a b c :
  in_i64 a -> 0 <= a -> 0 <= b <= c -> 0 < c -> in_i64 c -> mulDiv a b c = Some (a * b / c).
Proof.
  unfold mulDiv, to_u64. i64_ranges. intros.
  rewrite (Z.mod_small a), (Z.mod_small b), (Z.mod_small c) by lia.
  assert (a * b / 18446744073709551616 < c) by (apply Z.div_lt_upper_bound; nia).
  destruct (Z.eqb_spec c 0); [lia|]. destruct (Z.leb_spec c (a * b / 18446744073709551616)); [lia|].
  cbn [orb]. f_equal.
  replace (a * b / 18446744073709551616 * 18446744073709551616 + (a * b) mod 18446744073709551616)
    with (a * b) by (pose proof (Z.div_mod (a * b) 18446744073709551616); lia).
  apply wrap64_id. i64_ranges.
  assert (0 <= a * b / c) by (apply Z.div_pos; nia).
  assert (a * b / c <= a) by (apply Z.div_le_upper_bound; nia). lia.
Qed.

Lemma mulDiv_le a b c q :
  0 <= a -> 0 <= b <= c -> 0 < c -> q = a * b / c -> 0 <= q <= a.
Proof.
  intros Ha Hb Hc ->. split; [apply Z.div_pos; nia | apply Z.div_le_upper_bound; nia].
Qed.

(** ** Properties *)

(** the platform fee on any [int64] spend at a rate the store accepts is
    exactly [amount x bps / 10,000] rounded up to the whole µLXC, never
    overflowing, never negative and never more than the spend itself. *)
Theorem platform_fee_is_ceiling amount bps :
  in_i64 amount -> bps_ok bps ->
  PlatformFee amount bps = (Z.max amount 0 * bps + 9999) / 10000 /\
  0 <= PlatformFee amount bps <= Z.max amount 0.
Proof.
  intros Ha Hb. destruct (decide (amount <= 0)).
  - rewrite PlatformFee_nonpos, Z.max_r by lia. split; [done | lia].
  - rewrite Z.max_l by lia. split.
    + apply PlatformFee_spec; lia || done.
    + apply PlatformFee_bounds; lia || done.
Qed.

Lemma platform_fee_is_ceiling_witness :
  PlatformFee 1234567 550 = 67902 /\ 0 <= PlatformFee 1234567 550 <= 1234567.
Proof.
  exact (platform_fee_is_ceiling 1234567 550
           (proj1 (in_i64b_spec 1234567) eq_refl) (proj1 (bps_okb_spec 550) eq_refl)).
Defined.

(** [spendWithin] answers the largest spend a hold affords: the spend and
    its platform fee together fit in the hold, and no larger spend does. *)
Theorem spend_within_is_largest gross bps :
  in_i64 gross -> 0 <= gross -> bps_ok bps ->
  0 <= spendWithin gross bps /\
  spendWithin gross bps + PlatformFee (spendWithin gross bps) bps <= gross /\
  forall t, in_i64 t -> t + PlatformFee t bps <= gross -> t <= spendWithin gross bps.
Proof.
  intros Hg H0 Hb. destruct (spendWithin_fits gross bps Hg Hb) as [P F].
  split; [done|]. split; [lia|]. intros t Ht Hfit. by apply spendWithin_largest.
Qed.

Lemma spend_within_is_largest_witness :
  0 <= spendWithin 1055 550 /\ spendWithin 1055 550 + PlatformFee (spendWithin 1055 550) 550 <= 1055 /\
  forall t, in_i64 t -> t + PlatformFee t 550 <= 1055 -> t <= spendWithin 1055 550.
Proof.
  apply (spend_within_is_largest 1055 550); vm_compute; (split; congruence) || congruence.
Defined.
