(* ===== verification/Tables.v ===== *)
(** The wallet database: one record per table the modelled code reads or writes
    (columns as [internal/economy] scans them), the errors the operations
    answer, the [context.Context] values they read, and the transaction monad
    over the whole store.

    Timestamps are [Z] nanoseconds; [now] is one instant per transaction, as
    Postgres' [now()] is.  UUIDs come from a supply [uuid], drawn in order. *)
From S2P Require Import Prelude.
Open Scope Z_scope.

(** ** Ledger rows *)

(** A value of a row's JSON metadata; a float is carried as its IEEE-754 bits. *)
Inductive MetaVal : Type :=
| MInt (z : Z)
| MStr (s : string)
| MFloat (bits : Z).

Abbreviation Meta := (gmap string MetaVal).

(** A row of [lxc_balances]. *)
Record LxcRow := mkLxcRow {
  lx_balance : Z;
  lx_minted : Z;
  lx_spent : Z;
  lx_cash : Z;
  lx_test : Z;
}.

(** A row of [lxc_ledger]; the table is kept newest first. *)
Record LXCLedgerEntry := mkLedger {
  lg_ws : string;
  lg_amount : Z;
  lg_after : Z;
  lg_type : string;
  lg_desc : string;
  lg_meta : Meta;
}.

(** A row of [lens_token_balances] and of [lens_token_ledger]. *)
Record LensRow := mkLensRow {
  le_balance : Z;
  le_earned : Z;
  le_spent : Z;
}.

Inductive ResStatus : Type := Held | Settled | Released.

#[export] Instance ResStatus_eq_dec : EqDecision ResStatus.
Proof. solve_decision. Defined.

(** A row of [lxc_reservations]. *)
Record Reservation := mkReservation {
  rv_key : string;
  rv_ws : string;
  rv_held : Z;
  rv_settled : option Z;
  rv_status : ResStatus;
  rv_model : string;
  rv_request : string;
  rv_bps : Z;
  rv_created : Z;
}.

(** A row of [lxc_spend_claims]. *)
Record SpendClaim := mkClaim {
  cl_key : string;
  cl_amount : Z;
  cl_bps : Z;
}.

(** A row of [agent_debit_settlements]. *)
Record DebitSettlement := mkDebitSettlement {
  ds_ws : string;
  ds_key : string;
  ds_agent : option string;
  ds_request : option string;
  ds_estimate : Z;
  ds_delivered : Z;
  ds_settled : Z;
  ds_written_off : Z;
}.

(** A row of [agent_lxc_subbudgets]. *)
Record SubBudget := mkSubBudget {
  sb_ws : string;
  sb_ceiling : Z;
  sb_spent : Z;
}.

(** ** Agents *)

(** A row of [agent_accounts]. *)
Record AgentAccount := mkAgent {
  ag_ws : string;
  ag_name : string;
  ag_owner : string;
  ag_kind : string;
  ag_description : string;
  ag_created : Z;
  ag_paused : option Z;
  ag_paused_reason : string;
  ag_archived : option Z;
}.

(** A row of [agent_postings]; the table is append-only and kept newest first. *)
Record Posting := mkPosting {
  ps_entry : string;
  ps_ws : string;
  ps_account : string;
  ps_amount : Z;
  ps_kind : string;
  ps_ref : string;
  ps_model : option string;
  ps_bps : option Z;
  ps_memo : string;
  ps_at : Z;
}.

(** A row of [agent_pots]. *)
Record PotRow := mkPot {
  pt_ws : string;
  pt_agent : string;
  pt_name : string;
  pt_kind : string;
  pt_target : Z;
  pt_locked : option Z;
}.

(** A row of [agent_payment_schedules]; a null column is [None]. *)
Record ScheduleRow := mkSchedule {
  sc_ws : string;
  sc_from : string;
  sc_to : option string;              (* [to_agent_id] *)
  sc_listing : option string;
  sc_payee : option string;
  sc_amount : Z;
  sc_minor : Z;
  sc_currency : string;
  sc_memo : string;
  sc_every : string;
  sc_next : Z;
  sc_end : option Z;
  sc_active : bool;
  sc_created : Z;
}.

Definition with_active (v : bool) (r : ScheduleRow) : ScheduleRow :=
  mkSchedule (sc_ws r) (sc_from r) (sc_to r) (sc_listing r) (sc_payee r) (sc_amount r) (sc_minor r) (sc_currency r)
    (sc_memo r) (sc_every r) (sc_next r) (sc_end r) v (sc_created r).

(** A row of [agent_topups]. *)
Record TopUpRow := mkTopUp {
  tu_ws : string;
  tu_below : Z;
  tu_to : Z;
}.

(** ** Spending rules *)

(** [AgentRules]; a nil pointer, slice or map is [None]. *)
Record AgentRules := mkRules {
  MaxPerRequestULXC : Z;
  HourlyLimitULXC : option Z;
  DailyLimitULXC : Z;
  WeeklyLimitULXC : option Z;
  MonthlyLimitULXC : Z;
  ApprovalAboveULXC : Z;
  AllowedModels : list string;
  AllowedProviders : list string;
  AllowedListings : option (list string);
  ActiveFrom : string;
  ActiveUntil : string;
  Timezone : string;
  PauseOnUnusualSpend : bool;
  ModelDailyLimitsULXC : option (gmap string Z);
  RequestsPerMinute : option Z;
  AllowedPayees : option (list string);
  BlockedPayees : option (list string);
  PayeeDailyLimitsULXC : option (gmap string Z);
  MaxCommitmentULXC : option Z;
  AllowedLicences : option (list string);
  MaySubscribe : option bool;
}.

(** [Commitment]. *)
Record Commitment := mkCommitment {
  cm_kind : string;
  cm_licence : string;
  cm_renews : bool;
  cm_ulxc : Z;
}.

(** [Payee]. *)
Record Payee := mkPayee {
  py_kind : string;
  py_id : string;
  py_name : string;
}.

(** [AgentRequest]; the zero time is [None]. *)
Record AgentRequest := mkRequest {
  rq_model : string;
  rq_provider : string;
  rq_fingerprint : string;
  rq_at : option Z;
  rq_payment : bool;
  rq_listing : string;
  rq_payee : Payee;
  rq_memo : string;
  rq_commitment : Commitment;
}.

Definition zero_request : AgentRequest :=
  mkRequest "" "" "" None false "" (mkPayee "" "" "") "" (mkCommitment "" "" false 0).

(** [AgentRuleBoost]. *)
Record AgentRuleBoost := mkBoost {
  bo_rule : string;
  bo_raised_from : Z;
  bo_value : Z;
  bo_until : Z;
}.

Inductive ApprovalStatus : Type := Pending | Approved | Denied | Used.

#[export] Instance ApprovalStatus_eq_dec : EqDecision ApprovalStatus.
Proof. solve_decision. Defined.

(** A row of [agent_approvals]. *)
Record ApprovalRow := mkApproval {
  ap_ws : string;
  ap_agent : string;
  ap_fingerprint : string;
  ap_amount : Z;
  ap_model : string;
  ap_payee : Payee;
  ap_memo : string;
  ap_status : ApprovalStatus;
  ap_used_ref : string;
}.

(** A row of [agent_payee_payments]. *)
Record PayeePayment := mkPayeePayment {
  pp_ws : string;
  pp_agent : string;
  pp_kind : string;
  pp_ids : list string;
  pp_amount : Z;
  pp_ref : string;
  pp_at : Z;
}.

(** A row of [agent_spend_alerts]. *)
Record SpendAlert := mkAlert {
  al_id : string;
  al_ws : string;
  al_agent : string;
  al_last_hour : Z;
  al_usual : Z;
  al_paused : bool;
  al_at : Z;
}.

(** A row of [kya_credentials], what revoking one reads and writes. *)
Record KyaCredential := mkKya {
  ky_ws : string;
  ky_agent : string;
  ky_expires : Z;
  ky_revoked : option (Z * string);
}.

(** ** Credit lines and the tables other parts of Lens own *)

(** A row of [company_credit_lines]. *)
Record CreditLineRow := mkCreditLine {
  li_limit : Z;
  li_paused : option Z;
  li_paused_reason : string;
  li_set_by : string;
}.

(** A row of [credit_line_draws]. *)
Record CreditDraw := mkDraw {
  dr_ws : string;
  dr_agent : string;
  dr_amount : Z;
  dr_ref : string;
  dr_invoice : option string;
}.

(** A row of [credit_line_invoices]. *)
Record CreditInvoice := mkInvoice {
  in_ws : string;
  in_amount : Z;
  in_due : Z;
  in_paid : option Z;
}.

(** A row of [workspaces], what the wallet reads of it. *)
Record WorkspaceRow := mkWorkspace {
  ws_name : string;
  ws_company : bool;
  ws_synthetic : bool;
}.

(** A row of [market_listings], what the wallet reads of it. *)
Record ListingRow := mkListing {
  ml_ws : string;
  ml_title : string;
}.

(** A billed use of a marketplace listing ([market_uses]). *)
Record MarketUse := mkUse {
  mu_ws : string;
  mu_agent : string;
  mu_price : Z;
  mu_charge : string;
  mu_at : Z;
}.

(** A payment out of Talyvor ([money_payments]). *)
Record MoneyPayment := mkMoneyPayment {
  mp_id : string;
  mp_ws : string;
  mp_key : string;               (* [idempotency_key] *)
  mp_account : string;
  mp_hold : string;
  mp_agent : string;             (* [""]: the company's *)
  mp_payee : string;
  mp_payee_name : string;
  mp_amount : Z;
  mp_currency : string;
  mp_funding : string;
  mp_reference : string;
  mp_value : Z;
  mp_status : string;
  mp_partner : string;
  mp_partner_ref : string;
  mp_detail : string;
  mp_at : Z;
  mp_quote : string;
  mp_quote_ref : string;
  mp_cost : Z;
  mp_fee : Z;
  mp_arrives : Z;
  mp_arrives_currency : string;
  mp_rate : string;
}.

(** ** The store *)

(** The workspace's LXC: balances, ledger, holds, claims and per-key ceilings. *)
Record LxcTables := mkLxcTables {
  lxc_balances : gmap string LxcRow;
  lxc_ledger : list LXCLedgerEntry;
  lens_balances : gmap string LensRow;
  lens_ledger : list LXCLedgerEntry;
  lxc_reservations : gmap string Reservation;
  lxc_spend_claims : gmap string SpendClaim;
  agent_lxc_subbudgets : gmap string SubBudget;
  agent_debit_settlements : gmap string DebitSettlement;
}.

(** Agents: accounts, keys, the double-entry postings and what archiving stops. *)
Record AgentTables := mkAgentTables {
  agent_accounts : gmap string AgentAccount;
  agent_account_keys : gmap string string;
  agent_postings : list Posting;
  agent_account_balances : gmap (string * string) Z;
  agent_pots : gmap string PotRow;
  workspace_api_keys : gmap string string;
  agent_topups : gmap string TopUpRow;
  agent_payment_schedules : gmap string ScheduleRow;
  uuid_draws : N;
}.

(** Spending rules and what judging them reads and records. *)
Record RuleTables := mkRuleTables {
  agent_rules : gmap string AgentRules;
  agent_rule_boosts : gmap (string * string) AgentRuleBoost;
  agent_approvals : gmap string ApprovalRow;
  agent_payee_payments : list PayeePayment;
  agent_spend_alerts : list SpendAlert;
  agent_workspace_pauses : gmap string string;
  kya_credentials : gmap string KyaCredential;
}.

(** Company credit lines. *)
Record CreditTables := mkCreditTables {
  company_credit_lines : gmap string CreditLineRow;
  credit_line_draws : list CreditDraw;
  credit_line_invoices : gmap string CreditInvoice;
}.

(** Tables other parts of Lens write and the wallet only reads. *)
Record OtherTables := mkOtherTables {
  workspaces : gmap string WorkspaceRow;
  market_listings : gmap string ListingRow;
  market_uses : list MarketUse;
  money_payments : list MoneyPayment;
}.

Record Store := mkStore {
  st_lxc : LxcTables;
  st_agents : AgentTables;
  st_rules : RuleTables;
  st_credit : CreditTables;
  st_other : OtherTables;
}.

Definition with_lxc_balances (v : gmap string LxcRow) (s : Store) : Store :=
  let t := st_lxc s in
  mkStore (mkLxcTables v (lxc_ledger t) (lens_balances t) (lens_ledger t) (lxc_reservations t) (lxc_spend_claims t) (agent_lxc_subbudgets t) (agent_debit_settlements t)) (st_agents s) (st_rules s) (st_credit s) (st_other s).

Definition with_lxc_ledger (v : list LXCLedgerEntry) (s : Store) : Store :=
  let t := st_lxc s in
  mkStore (mkLxcTables (lxc_balances t) v (lens_balances t) (lens_ledger t) (lxc_reservations t) (lxc_spend_claims t) (agent_lxc_subbudgets t) (agent_debit_settlements t)) (st_agents s) (st_rules s) (st_credit s) (st_other s).

Definition with_lens_balances (v : gmap string LensRow) (s : Store) : Store :=
  let t := st_lxc s in
  mkStore (mkLxcTables (lxc_balances t) (lxc_ledger t) v (lens_ledger t) (lxc_reservations t) (lxc_spend_claims t) (agent_lxc_subbudgets t) (agent_debit_settlements t)) (st_agents s) (st_rules s) (st_credit s) (st_other s).

Definition with_lens_ledger (v : list LXCLedgerEntry) (s : Store) : Store :=
  let t := st_lxc s in
  mkStore (mkLxcTables (lxc_balances t) (lxc_ledger t) (lens_balances t) v (lxc_reservations t) (lxc_spend_claims t) (agent_lxc_subbudgets t) (agent_debit_settlements t)) (st_agents s) (st_rules s) (st_credit s) (st_other s).

Definition with_lxc_reservations (v : gmap string Reservation) (s : Store) : Store :=
  let t := st_lxc s in
  mkStore (mkLxcTables (lxc_balances t) (lxc_ledger t) (lens_balances t) (lens_ledger t) v (lxc_spend_claims t) (agent_lxc_subbudgets t) (agent_debit_settlements t)) (st_agents s) (st_rules s) (st_credit s) (st_other s).

Definition with_lxc_spend_claims (v : gmap string SpendClaim) (s : Store) : Store :=
  let t := st_lxc s in
  mkStore (mkLxcTables (lxc_balances t) (lxc_ledger t) (lens_balances t) (lens_ledger t) (lxc_reservations t) v (agent_lxc_subbudgets t) (agent_debit_settlements t)) (st_agents s) (st_rules s) (st_credit s) (st_other s).

Definition with_agent_lxc_subbudgets (v : gmap string SubBudget) (s : Store) : Store :=
  let t := st_lxc s in
  mkStore (mkLxcTables (lxc_balances t) (lxc_ledger t) (lens_balances t) (lens_ledger t) (lxc_reservations t) (lxc_spend_claims t) v (agent_debit_settlements t)) (st_agents s) (st_rules s) (st_credit s) (st_other s).

Definition with_agent_debit_settlements (v : gmap string DebitSettlement) (s : Store) : Store :=
  let t := st_lxc s in
  mkStore (mkLxcTables (lxc_balances t) (lxc_ledger t) (lens_balances t) (lens_ledger t) (lxc_reservations t) (lxc_spend_claims t) (agent_lxc_subbudgets t) v) (st_agents s) (st_rules s) (st_credit s) (st_other s).

Definition with_agent_accounts (v : gmap string AgentAccount) (s : Store) : Store :=
  let t := st_agents s in
  mkStore (st_lxc s) (mkAgentTables v (agent_account_keys t) (agent_postings t) (agent_account_balances t) (agent_pots t) (workspace_api_keys t) (agent_topups t) (agent_payment_schedules t) (uuid_draws t)) (st_rules s) (st_credit s) (st_other s).

Definition with_agent_account_keys (v : gmap string string) (s : Store) : Store :=
  let t := st_agents s in
  mkStore (st_lxc s) (mkAgentTables (agent_accounts t) v (agent_postings t) (agent_account_balances t) (agent_pots t) (workspace_api_keys t) (agent_topups t) (agent_payment_schedules t) (uuid_draws t)) (st_rules s) (st_credit s) (st_other s).

Definition with_agent_postings (v : list Posting) (s : Store) : Store :=
  let t := st_agents s in
  mkStore (st_lxc s) (mkAgentTables (agent_accounts t) (agent_account_keys t) v (agent_account_balances t) (agent_pots t) (workspace_api_keys t) (agent_topups t) (agent_payment_schedules t) (uuid_draws t)) (st_rules s) (st_credit s) (st_other s).

Definition with_agent_account_balances (v : gmap (string * string) Z) (s : Store) : Store :=
  let t := st_agents s in
  mkStore (st_lxc s) (mkAgentTables (agent_accounts t) (agent_account_keys t) (agent_postings t) v (agent_pots t) (workspace_api_keys t) (agent_topups t) (agent_payment_schedules t) (uuid_draws t)) (st_rules s) (st_credit s) (st_other s).

Definition with_agent_pots (v : gmap string PotRow) (s : Store) : Store :=
  let t := st_agents s in
  mkStore (st_lxc s) (mkAgentTables (agent_accounts t) (agent_account_keys t) (agent_postings t) (agent_account_balances t) v (workspace_api_keys t) (agent_topups t) (agent_payment_schedules t) (uuid_draws t)) (st_rules s) (st_credit s) (st_other s).

Definition with_workspace_api_keys (v : gmap string string) (s : Store) : Store :=
  let t := st_agents s in
  mkStore (st_lxc s) (mkAgentTables (agent_accounts t) (agent_account_keys t) (agent_postings t) (agent_account_balances t) (agent_pots t) v (agent_topups t) (agent_payment_schedules t) (uuid_draws t)) (st_rules s) (st_credit s) (st_other s).

Definition with_agent_topups (v : gmap string TopUpRow) (s : Store) : Store :=
  let t := st_agents s in
  mkStore (st_lxc s) (mkAgentTables (agent_accounts t) (agent_account_keys t) (agent_postings t) (agent_account_balances t) (agent_pots t) (workspace_api_keys t) v (agent_payment_schedules t) (uuid_draws t)) (st_rules s) (st_credit s) (st_other s).

Definition with_agent_payment_schedules (v : gmap string ScheduleRow) (s : Store) : Store :=
  let t := st_agents s in
  mkStore (st_lxc s) (mkAgentTables (agent_accounts t) (agent_account_keys t) (agent_postings t) (agent_account_balances t) (agent_pots t) (workspace_api_keys t) (agent_topups t) v (uuid_draws t)) (st_rules s) (st_credit s) (st_other s).

Definition with_uuid_draws (v : N) (s : Store) : Store :=
  let t := st_agents s in
  mkStore (st_lxc s) (mkAgentTables (agent_accounts t) (agent_account_keys t) (agent_postings t) (agent_account_balances t) (agent_pots t) (workspace_api_keys t) (agent_topups t) (agent_payment_schedules t) v) (st_rules s) (st_credit s) (st_other s).

Definition with_agent_rules (v : gmap string AgentRules) (s : Store) : Store :=
  let t := st_rules s in
  mkStore (st_lxc s) (st_agents s) (mkRuleTables v (agent_rule_boosts t) (agent_approvals t) (agent_payee_payments t) (agent_spend_alerts t) (agent_workspace_pauses t) (kya_credentials t)) (st_credit s) (st_other s).

Definition with_agent_rule_boosts (v : gmap (string * string) AgentRuleBoost) (s : Store) : Store :=
  let t := st_rules s in
  mkStore (st_lxc s) (st_agents s) (mkRuleTables (agent_rules t) v (agent_approvals t) (agent_payee_payments t) (agent_spend_alerts t) (agent_workspace_pauses t) (kya_credentials t)) (st_credit s) (st_other s).

Definition with_agent_approvals (v : gmap string ApprovalRow) (s : Store) : Store :=
  let t := st_rules s in
  mkStore (st_lxc s) (st_agents s) (mkRuleTables (agent_rules t) (agent_rule_boosts t) v (agent_payee_payments t) (agent_spend_alerts t) (agent_workspace_pauses t) (kya_credentials t)) (st_credit s) (st_other s).

Definition with_agent_payee_payments (v : list PayeePayment) (s : Store) : Store :=
  let t := st_rules s in
  mkStore (st_lxc s) (st_agents s) (mkRuleTables (agent_rules t) (agent_rule_boosts t) (agent_approvals t) v (agent_spend_alerts t) (agent_workspace_pauses t) (kya_credentials t)) (st_credit s) (st_other s).

Definition with_agent_spend_alerts (v : list SpendAlert) (s : Store) : Store :=
  let t := st_rules s in
  mkStore (st_lxc s) (st_agents s) (mkRuleTables (agent_rules t) (agent_rule_boosts t) (agent_approvals t) (agent_payee_payments t) v (agent_workspace_pauses t) (kya_credentials t)) (st_credit s) (st_other s).

Definition with_agent_workspace_pauses (v : gmap string string) (s : Store) : Store :=
  let t := st_rules s in
  mkStore (st_lxc s) (st_agents s) (mkRuleTables (agent_rules t) (agent_rule_boosts t) (agent_approvals t) (agent_payee_payments t) (agent_spend_alerts t) v (kya_credentials t)) (st_credit s) (st_other s).

Definition with_kya_credentials (v : gmap string KyaCredential) (s : Store) : Store :=
  let t := st_rules s in
  mkStore (st_lxc s) (st_agents s) (mkRuleTables (agent_rules t) (agent_rule_boosts t) (agent_approvals t) (agent_payee_payments t) (agent_spend_alerts t) (agent_workspace_pauses t) v) (st_credit s) (st_other s).

Definition with_company_credit_lines (v : gmap string CreditLineRow) (s : Store) : Store :=
  let t := st_credit s in
  mkStore (st_lxc s) (st_agents s) (st_rules s) (mkCreditTables v (credit_line_draws t) (credit_line_invoices t)) (st_other s).

Definition with_credit_line_draws (v : list CreditDraw) (s : Store) : Store :=
  let t := st_credit s in
  mkStore (st_lxc s) (st_agents s) (st_rules s) (mkCreditTables (company_credit_lines t) v (credit_line_invoices t)) (st_other s).

Definition with_credit_line_invoices (v : gmap string CreditInvoice) (s : Store) : Store :=
  let t := st_credit s in
  mkStore (st_lxc s) (st_agents s) (st_rules s) (mkCreditTables (company_credit_lines t) (credit_line_draws t) v) (st_other s).

Definition with_workspaces (v : gmap string WorkspaceRow) (s : Store) : Store :=
  let t := st_other s in
  mkStore (st_lxc s) (st_agents s) (st_rules s) (st_credit s) (mkOtherTables v (market_listings t) (market_uses t) (money_payments t)).

Definition with_market_listings (v : gmap string ListingRow) (s : Store) : Store :=
  let t := st_other s in
  mkStore (st_lxc s) (st_agents s) (st_rules s) (st_credit s) (mkOtherTables (workspaces t) v (market_uses t) (money_payments t)).

Definition with_market_uses (v : list MarketUse) (s : Store) : Store :=
  let t := st_other s in
  mkStore (st_lxc s) (st_agents s) (st_rules s) (st_credit s) (mkOtherTables (workspaces t) (market_listings t) v (money_payments t)).

Definition with_money_payments (v : list MoneyPayment) (s : Store) : Store :=
  let t := st_other s in
  mkStore (st_lxc s) (st_agents s) (st_rules s) (st_credit s) (mkOtherTables (workspaces t) (market_listings t) (market_uses t) v).

Coercion st_lxc : Store >-> LxcTables.
Coercion st_agents : Store >-> AgentTables.
Coercion st_rules : Store >-> RuleTables.
Coercion st_credit : Store >-> CreditTables.
Coercion st_other : Store >-> OtherTables.

(** A store with no rows. *)
Definition empty_store : Store :=
  mkStore (mkLxcTables ∅ [] ∅ [] ∅ ∅ ∅ ∅) (mkAgentTables ∅ ∅ [] ∅ ∅ ∅ ∅ ∅ 0%N)
          (mkRuleTables ∅ ∅ ∅ [] [] ∅ ∅) (mkCreditTables ∅ [] ∅) (mkOtherTables ∅ ∅ [] []).

(** ** Errors *)

(** Which rule refused a movement: the refusal's reason, without its prose. *)
Inductive RuleRefusal : Type :=
| RefArchived | RefAllPaused | RefPaused | RefTimezone | RefHours
| RefModel | RefProvider | RefListing
| RefLicencePersonal | RefLicence | RefSubscribe | RefRenews | RefCommitment
| RefPayeeBlocked | RefPayeeUnnamed
| RefPerRequest | RefPeriod (name : string) | RefModelDaily | RefPayeeDaily (id : string)
| RefNothingToApprove | RefInvalidRules.

Inductive WalletErr : Type :=
| ErrAmount              (* the amount is not positive, or an id is missing *)
| ErrInsufficientLXC
| ErrConversionTooSmall
| ErrInsufficientLENSFor
| ErrSubBudgetExceeded
| ErrUnknownReservation
| ErrPlatformFee         (* the fee's resolver failed, or answered outside 0-10,000 *)
| ErrAgentNotFound
| ErrAgentOwnerless
| ErrAgentFunds
| ErrAgentArchived
| ErrAgentPotsHeld
| ErrRoomWalletKey
| ErrPotNotFound
| ErrPotLocked
| ErrPot
| ErrNoWorkspace
| ErrCreditLineCompaniesOnly
| ErrNoCreditLine
| ErrAgentRule (why : RuleRefusal)
| ErrAgentRequestRate
| ErrApprovalRequired (amount : Z) (ws agent : string) (req : AgentRequest)
| ErrApprovalFiled (id : string)
| ErrApprovalNotFound
| ErrNoRow               (* a Scan that found no row where the code expects one *)
| ErrBigintRange         (* Postgres: bigint out of range *)
| ErrCheck               (* Postgres: a CHECK or a UNIQUE constraint refused the row *)
| ErrUnbalanced.         (* the deferred trigger: an entry's postings do not sum to zero *)

Abbreviation WTx := (Tx WalletErr Store).

Definition bigint (z : Z) : WTx Z := sql_bigint ErrBigintRange z.

Lemma bigint_ok z r s s' : bigint z s = Ok (r, s') <-> r = z /\ s' = s /\ in_i64 z.
Proof. apply sql_bigint_ok. Qed.

(** ** The context of a call *)

(** What rides [context.Context], the clock, and the supply of UUIDs. *)
Record Ctx := mkCtx {
  now : Z;
  uuid : N -> string;
  posting_memo : string;
  move_key : string;
  charge_request : string;
  agent_request : AgentRequest;
}.

(** [uuid.New]: the next draw from the supply. *)
Definition uuid_new (c : Ctx) : WTx string :=
  fun s => Ok (uuid c (uuid_draws s), with_uuid_draws (N.succ (uuid_draws s)) s).

Lemma uuid_new_ok c (s s' : Store) e :
  uuid_new c s = Ok (e, s') <->
  e = uuid c (uuid_draws s) /\ s' = with_uuid_draws (N.succ (uuid_draws s)) s.
Proof. unfold uuid_new. naive_solver. Qed.

(** [wtx_inv] is [tx_inv] with the store's primitives. *)
Ltac wtx_inv_step :=
  first
  [ tx_inv_step
  | match goal with
    | H : bigint _ _ = Ok _ |- _ =>
        let R := fresh "Hr" in let E1 := fresh "E" in let E2 := fresh "E" in
        apply bigint_ok in H; destruct H as (E1 & E2 & R); subst_eq E2; subst_eq E1
    | H : uuid_new _ _ = Ok _ |- _ =>
        let E1 := fresh "E" in let E2 := fresh "E" in
        apply uuid_new_ok in H; destruct H as [E1 E2]; subst_eq E2; subst_eq E1
    end ].
Ltac wtx_inv := repeat wtx_inv_step.
