(* ===== verification/Postings.v ===== *)
(** The agents' double-entry ledger ([internal/economy/agent_accounts.go] and
    the triggers of migrations 0140 and 0185): postings, the balance each
    account keeps of them, and what a workspace's agents hold together.

    [insert_posting] is the INSERT with its row trigger; [committed] adds the
    deferred trigger that refuses an entry whose postings do not sum to zero. *)
From S2P Require Import Prelude Tables.
Open Scope Z_scope.
Open Scope i64_scope.

(** ** Accounts *)

Definition agentAccount (id : string) : string := String.append "agent:" id.
Definition potAccount (id : string) : string := String.append "pot:" id.

(** The shared sides, which keep no stored balance (migration 0185). *)
Definition shared_account (a : string) : bool :=
  bool_decide (a = "workspace" \/ a = "spend" \/ a = "cashed_out")%string.

(** [account LIKE 'agent:%' OR account LIKE 'pot:%']. *)
Definition held_account (a : string) : bool :=
  String.prefix "agent:" a || String.prefix "pot:" a.

Record leg := mkLeg {
  leg_account : string;
  leg_amount : Z;
}.

(** ** Model names *)

Definition ascii_lower (a : Ascii.ascii) : Ascii.ascii :=
  let n := Ascii.nat_of_ascii a in
  if (65 <=? n)%nat && (n <=? 90)%nat then Ascii.ascii_of_nat (n + 32) else a.

Definition is_space (a : Ascii.ascii) : bool :=
  let n := Ascii.nat_of_ascii a in
  ((9 <=? n)%nat && (n <=? 13)%nat) || (n =? 32)%nat.

Definition is_digit (a : Ascii.ascii) : bool :=
  let n := Ascii.nat_of_ascii a in (48 <=? n)%nat && (n <=? 57)%nat.

Fixpoint drop_spaces (l : list Ascii.ascii) : list Ascii.ascii :=
  match l with
  | a :: l' => if is_space a then drop_spaces l' else l
  | [] => []
  end.

(** [strings.TrimSpace], on ASCII. *)
Definition trim_space (l : list Ascii.ascii) : list Ascii.ascii :=
  rev (drop_spaces (rev (drop_spaces l))).

Definition is_dash (a : Ascii.ascii) : bool := bool_decide (a = "-"%char).

(** Whether [l] matches one character class per position, and no more. *)
Fixpoint matches (ps : list (Ascii.ascii -> bool)) (l : list Ascii.ascii) : bool :=
  match ps, l with
  | [], [] => true
  | p :: ps, a :: l => p a && matches ps l
  | _, _ => false
  end.

Definition lit (s : string) : list (Ascii.ascii -> bool) :=
  (fun a b => bool_decide (a = b)) <$> String.list_ascii_of_string s.

(** [-([0-9]{8}|[0-9]{4}-[0-9]{2}-[0-9]{2}|latest)]. *)
Definition is_cap_suffix (l : list Ascii.ascii) : bool :=
  matches (is_dash :: replicate 8 is_digit) l
  || matches ((is_dash :: replicate 4 is_digit) ++ (is_dash :: replicate 2 is_digit)
              ++ (is_dash :: replicate 2 is_digit)) l
  || matches (is_dash :: lit "latest") l.

(** [ReplaceAllString(.., "")] of the suffix anchored at the end: the leftmost match goes. *)
Fixpoint strip_cap_suffix (l : list Ascii.ascii) : list Ascii.ascii :=
  if is_cap_suffix l then []
  else match l with
       | a :: l' => a :: strip_cap_suffix l'
       | [] => []
       end.

(** The name a per-model daily cap knows a model by. *)
Definition modelCapKey (model : string) : string :=
  String.string_of_list_ascii
    (strip_cap_suffix (ascii_lower <$> trim_space (String.list_ascii_of_string model))).

Example modelCapKey_examples :
  modelCapKey " Claude-Opus-4-1-20250805 " = "claude-opus-4-1"%string /\
  modelCapKey "gpt-4o-2024-08-06" = "gpt-4o"%string /\
  modelCapKey "chatgpt-4o-latest" = "chatgpt-4o"%string /\
  modelCapKey "gpt-4o-mini" = "gpt-4o-mini"%string.
Proof. by vm_compute. Qed.

(** ** Writing postings *)

(** The stored balance of an account, 0 when it has no row: [balanceSQL]. *)
Definition account_balance (s : Store) (ws account : string) : Z :=
  default 0 (agent_account_balances s !! (ws, account)).

Definition accountBalance (ws account : string) : WTx Z :=
  tx_gets (fun s : Store => account_balance s ws account).

(** The row trigger [agent_account_balances_post]: the stored balance moves with
    the posting, except on a shared side. *)
Definition account_balances_post (p : Posting) : WTx unit :=
  if shared_account (ps_account p) then tx_ret tt
  else
    let! bal := accountBalance (ps_ws p) (ps_account p) in
    let! bal' := bigint (bal + ps_amount p) in
    tx_modify (fun s : Store => with_agent_account_balances
      (<[(ps_ws p, ps_account p) := bal']> (agent_account_balances s)) s).

(** One INSERT into [agent_postings]: the CHECK, the row, the row trigger. *)
Definition insert_posting (p : Posting) : WTx unit :=
  tx_guard (negb (ps_amount p =? 0)) ErrCheck ;;;
  tx_modify (fun s : Store => with_agent_postings (p :: agent_postings s) s) ;;;
  account_balances_post p.

Fixpoint insert_legs (mk : leg -> Posting) (legs : list leg) : WTx unit :=
  match legs with
  | [] => tx_ret tt
  | l :: legs => insert_posting (mk l) ;;; insert_legs mk legs
  end.

(** The posting of one leg of an entry. *)
Definition leg_posting (c : Ctx) (entry ws kind ref : string) (model : option string)
    (bps : option Z) (l : leg) : Posting :=
  mkPosting entry ws (leg_account l) (leg_amount l) kind ref model bps (posting_memo c) (now c).

Definition postEntry (c : Ctx) (ws kind ref : string) (legs : list leg) : WTx unit :=
  let! entry := uuid_new c in
  insert_legs (leg_posting c entry ws kind ref None None) legs.

Definition postModelEntry (c : Ctx) (ws kind ref model : string) (legs : list leg) : WTx unit :=
  let model := modelCapKey model in
  if bool_decide (model = ""%string) then postEntry c ws kind ref legs
  else
    let! entry := uuid_new c in
    insert_legs (leg_posting c entry ws kind ref (Some model) None) legs.

Definition nullIfEmpty (s : string) : option string :=
  if bool_decide (s = ""%string) then None else Some s.

(** The platform fee's own movement: agent to spend, naming the rate. *)
Definition postFeeEntry (c : Ctx) (ws agent : string) (fee bps : Z) (ref model : string) : WTx unit :=
  let! entry := uuid_new c in
  insert_legs
    (leg_posting c entry ws "platform_fee" ref (nullIfEmpty (modelCapKey model)) (Some bps))
    [mkLeg (agentAccount agent) (-! fee); mkLeg "spend" fee].

(** [allocatedSQL]: what a workspace's agents and their pots hold. *)
Definition allocated (s : Store) (ws : string) : Z :=
  map_sum (fun k b => if bool_decide (k.1 = ws) && held_account k.2 then b else 0)
    (agent_account_balances s).

(** [requireUnallocated]: the workspace's own spending may not reach into the
    LXC its agents hold. *)
Definition requireUnallocated (ws : string) (bal amount : Z) : WTx unit :=
  let! total := tx_gets (fun s : Store => allocated s ws) in
  let! total := bigint total in
  tx_guard (negb (bal -! total <? amount)) ErrInsufficientLXC.

(** ** The commit *)

Definition entry_sum (l : list Posting) (entry : string) : Z :=
  sumZ ((fun p => if bool_decide (ps_entry p = entry) then ps_amount p else 0) <$> l).

(** The deferred constraint trigger, once per posting the transaction inserted. *)
Definition entries_balanced (inserted all : list Posting) : bool :=
  forallb (fun p => entry_sum all (ps_entry p) =? 0) inserted.

(** [m] followed by [tx.Commit]. *)
Definition committed {A} (m : WTx A) : WTx A := fun s =>
  match m s with
  | Err e => Err e
  | Ok (a, s') =>
      let l := agent_postings s' in
      if entries_balanced (take (length l - length (agent_postings s)) l) l
      then Ok (a, s') else Err ErrUnbalanced
  end.

Lemma committed_ok {A} (m : WTx A) s a s' : committed m s = Ok (a, s') -> m s = Ok (a, s').
Proof. unfold committed. destruct (m s) as [[b t]|]; [|done]. by case_match; [|discriminate]. Qed.

Implicit Types (s : Store).

(** ** What posting does *)

(** What a transaction that only posts leaves alone. *)
Record post_frame (s s' : Store) : Prop := {
  pf_lxc : st_lxc s' = st_lxc s;
  pf_rules : st_rules s' = st_rules s;
  pf_credit : st_credit s' = st_credit s;
  pf_other : st_other s' = st_other s;
  pf_accounts : agent_accounts s' = agent_accounts s;
  pf_keys : agent_account_keys s' = agent_account_keys s;
  pf_pots : agent_pots s' = agent_pots s;
  pf_api_keys : workspace_api_keys s' = workspace_api_keys s;
  pf_topups : agent_topups s' = agent_topups s;
  pf_schedules : agent_payment_schedules s' = agent_payment_schedules s;
}.

#[export] Instance post_frame_refl : Reflexive post_frame.
Proof. by constructor. Qed.

#[export] Instance post_frame_trans : Transitive post_frame.
Proof. intros s1 s2 s3 [] []. constructor; congruence. Qed.

(** The store after one posting. *)
Definition posted (p : Posting) (s : Store) : Store :=
  let s1 := with_agent_postings (p :: agent_postings s) s in
  if shared_account (ps_account p) then s1
  else with_agent_account_balances
         (<[(ps_ws p, ps_account p) := account_balance s (ps_ws p) (ps_account p) + ps_amount p]>
            (agent_account_balances s)) s1.

Lemma insert_posting_ok p s u s' :
  insert_posting p s = Ok (u, s') <->
  ps_amount p <> 0 /\ s' = posted p s /\
  (shared_account (ps_account p) = false ->
   in_i64 (account_balance s (ps_ws p) (ps_account p) + ps_amount p)).
Proof.
  unfold insert_posting, account_balances_post, posted, accountBalance, bigint.
  unfold tx_bind, tx_guard, tx_fail, tx_gets, tx_modify, sql_bigint, tx_ret.
  destruct u. destruct (Z.eqb_spec (ps_amount p) 0); cbn [negb]; [naive_solver|].
  destruct (shared_account (ps_account p)); [naive_solver|].
  set (z := account_balance _ _ _ + _). change (account_balance s _ _ + _) with z.
  pose proof (in_i64b_spec z). destruct (in_i64b z); naive_solver.
Qed.

Lemma posted_frame p s : post_frame s (posted p s).
Proof. unfold posted. destruct (shared_account _); by constructor. Qed.

Lemma posted_postings p s : agent_postings (posted p s) = p :: agent_postings s.
Proof. unfold posted. by destruct (shared_account _). Qed.

Lemma posted_draws p s : uuid_draws (posted p s) = uuid_draws s.
Proof. unfold posted. by destruct (shared_account _). Qed.

Lemma posted_balance p s ws a :
  shared_account a = false ->
  account_balance (posted p s) ws a =
  account_balance s ws a + if bool_decide (ps_ws p = ws /\ ps_account p = a) then ps_amount p else 0.
Proof.
  intros Ha. unfold posted, account_balance.
  case_bool_decide as E.
  - destruct E as [<- <-]. rewrite Ha. cbn. by rewrite lookup_insert_eq.
  - destruct (shared_account (ps_account p)); cbn; [lia|].
    rewrite lookup_insert_ne by naive_solver. lia.
Qed.

Lemma held_not_shared a : held_account a = true -> shared_account a = false.
Proof.
  unfold shared_account. intros H. apply bool_decide_eq_false. intros [->|[->| ->]]; discriminate H.
Qed.

Lemma posted_allocated p s ws :
  allocated (posted p s) ws =
  allocated s ws + if bool_decide (ps_ws p = ws) && held_account (ps_account p) then ps_amount p else 0.
Proof.
  unfold posted, allocated. destruct (shared_account (ps_account p)) eqn:Sh; cbn.
  - destruct (held_account (ps_account p)) eqn:Hh.
    + by rewrite (held_not_shared _ Hh) in Sh.
    + rewrite andb_false_r. lia.
  - rewrite map_sum_insert. cbn. unfold account_balance.
    destruct (agent_account_balances s !! _) as [b|]; cbn;
      destruct (bool_decide (ps_ws p = ws) && held_account (ps_account p)); lia.
Qed.

(** The net of an entry's legs on one account, and on all held accounts. *)
Definition legs_on (a : string) (legs : list leg) : Z :=
  sumZ ((fun l => if bool_decide (leg_account l = a) then leg_amount l else 0) <$> legs).

Definition legs_held (legs : list leg) : Z :=
  sumZ ((fun l => if held_account (leg_account l) then leg_amount l else 0) <$> legs).

Definition legs_total (legs : list leg) : Z := sumZ (leg_amount <$> legs).

(** What writing an entry's legs in [ws] did, whoever wrote them. *)
Record legs_posted (ws : string) (legs : list leg) (s s' : Store) : Prop := {
  lp_frame : post_frame s s';
  lp_balance a : shared_account a = false ->
    account_balance s' ws a = account_balance s ws a + legs_on a legs;
  lp_other ws' a : ws' <> ws -> shared_account a = false ->
    account_balance s' ws' a = account_balance s ws' a;
  lp_allocated : allocated s' ws = allocated s ws + legs_held legs;
  lp_allocated_other ws' : ws' <> ws -> allocated s' ws' = allocated s ws';
}.

Lemma insert_legs_posted ws mk legs s u s' :
  (forall l, ps_ws (mk l) = ws /\ ps_account (mk l) = leg_account l /\ ps_amount (mk l) = leg_amount l) ->
  insert_legs mk legs s = Ok (u, s') -> legs_posted ws legs s s'.
Proof.
  intros Hmk. revert s. induction legs as [|l legs IH]; intros s H; cbn in H; tx_inv.
  - split; try done; intros; unfold legs_on, legs_held; csimpl; lia.
  - apply insert_posting_ok in H0 as (_ & -> & _). apply IH in H1 as [F B O A AO].
    destruct (Hmk l) as (Ew & Ea & Em).
    split.
    + etrans; [apply posted_frame|done].
    + intros acc Ha. rewrite B, posted_balance by done. unfold legs_on. csimpl.
      rewrite Ea, Em, Ew. repeat case_bool_decide; naive_solver lia.
    + intros ws' acc Hne Ha. rewrite O, posted_balance by done.
      case_bool_decide; naive_solver lia.
    + rewrite A, posted_allocated. unfold legs_held. csimpl.
      rewrite Ea, Em, Ew, bool_decide_eq_true_2 by done. cbn. lia.
    + intros ws' Hne. rewrite AO, posted_allocated by done.
      rewrite Ew, bool_decide_eq_false_2 by done. cbn. lia.
Qed.

Lemma with_uuid_frame n s : post_frame s (with_uuid_draws n s).
Proof. by constructor. Qed.

Lemma legs_posted_draw ws legs n s s' :
  legs_posted ws legs (with_uuid_draws n s) s' -> legs_posted ws legs s s'.
Proof. intros [F B O A AO]. split; try done. etrans; [apply with_uuid_frame|done]. Qed.

Lemma postEntry_posted c ws kind ref legs s u s' :
  postEntry c ws kind ref legs s = Ok (u, s') -> legs_posted ws legs s s'.
Proof.
  unfold postEntry. intros H. wtx_inv.
  eapply legs_posted_draw, insert_legs_posted; [|done]. done.
Qed.

Lemma postModelEntry_posted c ws kind ref model legs s u s' :
  postModelEntry c ws kind ref model legs s = Ok (u, s') -> legs_posted ws legs s s'.
Proof.
  unfold postModelEntry. intros H. case_bool_decide; [by eapply postEntry_posted|].
  wtx_inv.
  eapply legs_posted_draw, insert_legs_posted; [|done]. done.
Qed.

Lemma postFeeEntry_posted c ws agent fee bps ref model s u s' :
  postFeeEntry c ws agent fee bps ref model s = Ok (u, s') ->
  legs_posted ws [mkLeg (agentAccount agent) (-! fee); mkLeg "spend" fee] s s'.
Proof.
  unfold postFeeEntry. intros H. wtx_inv.
  eapply legs_posted_draw, insert_legs_posted; [|done]. done.
Qed.

(** ** The ledger's invariant *)

Definition posting_sum (s : Store) (ws account : string) : Z :=
  sumZ ((fun p => if bool_decide (ps_ws p = ws /\ ps_account p = account) then ps_amount p else 0)
          <$> agent_postings s).

(** [u] is the supply of UUIDs the transactions draw from. *)
Record posting_inv (u : N -> string) (s : Store) : Prop := {
  (* every kept account's stored balance is the sum of its postings *)
  pi_sums ws a : shared_account a = false -> account_balance s ws a = posting_sum s ws a;
  (* and fits its column *)
  pi_i64 k b : agent_account_balances s !! k = Some b -> in_i64 b;
  (* every entry sums to zero *)
  pi_balanced entry : entry_sum (agent_postings s) entry = 0;
  (* no posting is of an entry not drawn yet *)
  pi_fresh p n : p ∈ agent_postings s -> (uuid_draws s <= n)%N -> ps_entry p <> u n;
}.

Lemma posting_inv_empty u : posting_inv u empty_store.
Proof. split; try done. intros p n Hp. by apply elem_of_nil in Hp. Qed.

(** What does not post, and only draws ids, keeps the ledger's invariant. *)
Lemma posting_inv_same u s s' :
  agent_postings s' = agent_postings s -> agent_account_balances s' = agent_account_balances s ->
  (uuid_draws s <= uuid_draws s')%N -> posting_inv u s -> posting_inv u s'.
Proof.
  intros P B D [I1 I2 I3 I4]. split.
  - intros ws a Ha. unfold account_balance, posting_sum. rewrite P, B. by apply I1.
  - intros k b. rewrite B. apply I2.
  - intros e. rewrite P. apply I3.
  - intros p n. rewrite P. intros Hp Hn. apply I4; [done|lia].
Qed.

Lemma entry_sum_cons p l e :
  entry_sum (p :: l) e = (if bool_decide (ps_entry p = e) then ps_amount p else 0) + entry_sum l e.
Proof. done. Qed.

Lemma entry_sum_absent l e : (forall p, p ∈ l -> ps_entry p <> e) -> entry_sum l e = 0.
Proof.
  induction l as [|p l IH]; intros H; [done|]. rewrite entry_sum_cons.
  rewrite bool_decide_eq_false_2 by (apply H; left). rewrite IH; [done|].
  intros q Hq. apply H. by right.
Qed.

(** The part of the invariant that holds between an entry's legs. *)
Record partial_inv (u : N -> string) (entry : string) (net : Z) (s : Store) : Prop := {
  qi_sums ws a : shared_account a = false -> account_balance s ws a = posting_sum s ws a;
  qi_i64 k b : agent_account_balances s !! k = Some b -> in_i64 b;
  qi_balanced e : entry_sum (agent_postings s) e = if bool_decide (e = entry) then net else 0;
  qi_fresh p n : p ∈ agent_postings s -> (uuid_draws s <= n)%N -> ps_entry p <> u n;
  qi_drawn n : (uuid_draws s <= n)%N -> entry <> u n;
}.

Lemma posting_sum_posted p s ws a :
  posting_sum (posted p s) ws a =
  (if bool_decide (ps_ws p = ws /\ ps_account p = a) then ps_amount p else 0) + posting_sum s ws a.
Proof. unfold posting_sum. by rewrite posted_postings. Qed.

Lemma insert_legs_partial u entry mk legs net s r s' :
  (forall l, ps_entry (mk l) = entry /\ ps_amount (mk l) = leg_amount l) ->
  partial_inv u entry net s -> insert_legs mk legs s = Ok (r, s') ->
  partial_inv u entry (legs_total legs + net) s'.
Proof.
  intros Hmk. revert net s. induction legs as [|l legs IH]; intros net s I H; cbn in H; tx_inv.
  - exact I.
  - apply insert_posting_ok in H0 as (_ & -> & Hr). destruct (Hmk l) as (Ee & Em).
    replace (legs_total (l :: legs) + net) with (legs_total legs + (leg_amount l + net))
      by (unfold legs_total; csimpl; lia).
    eapply IH; [|exact H1]. destruct I as [S1 I1 B1 F1 D1]. split.
    + intros ws acc Ha. rewrite posted_balance, posting_sum_posted, S1 by done. lia.
    + intros k b. unfold posted. destruct (shared_account _) eqn:Sh; cbn; [apply I1|].
      intros [[<- <-]|[_ ?]]%lookup_insert_Some; [by apply Hr|eauto].
    + intros e. rewrite posted_postings, entry_sum_cons, B1, Ee, Em.
      repeat case_bool_decide; naive_solver lia.
    + intros p n. rewrite posted_postings, posted_draws, elem_of_cons.
      intros [->|Hp] Hn; [rewrite Ee; eauto|eauto].
    + intros n. rewrite posted_draws. apply D1.
Qed.

Section Entry.
Context (u : N -> string) {Hu : Inj (=) (=) u}.

Lemma insert_entry_inv mk legs s r s' :
  (forall l, ps_entry (mk l) = u (uuid_draws s) /\ ps_amount (mk l) = leg_amount l) ->
  legs_total legs = 0 -> posting_inv u s ->
  insert_legs mk legs (with_uuid_draws (N.succ (uuid_draws s)) s) = Ok (r, s') ->
  posting_inv u s'.
Proof.
  intros Hmk Hz [S1 I1 B1 F1] H.
  assert (P : partial_inv u (u (uuid_draws s)) 0 (with_uuid_draws (N.succ (uuid_draws s)) s)).
  { split; cbn; [exact S1|exact I1| | |].
    - intros e. etrans; [apply B1|]. by case_bool_decide.
    - intros p n Hp Hn. apply F1; [done|lia].
    - intros n Hn E%Hu. lia. }
  destruct (insert_legs_partial u _ mk legs 0 _ r s' Hmk P H) as [S2 I2 B2 F2 _].
  rewrite Hz in B2. split; try done. intros e. rewrite B2. by case_bool_decide.
Qed.

Lemma postEntry_inv c ws kind ref legs s r s' :
  uuid c = u -> legs_total legs = 0 -> posting_inv u s ->
  postEntry c ws kind ref legs s = Ok (r, s') -> posting_inv u s'.
Proof.
  unfold postEntry. intros Hc Hz I H. wtx_inv.
  eapply insert_entry_inv; [|done..|eassumption]. intros l. by rewrite Hc.
Qed.

Lemma postModelEntry_inv c ws kind ref model legs s r s' :
  uuid c = u -> legs_total legs = 0 -> posting_inv u s ->
  postModelEntry c ws kind ref model legs s = Ok (r, s') -> posting_inv u s'.
Proof.
  unfold postModelEntry. intros Hc Hz I H. case_bool_decide; [by eapply postEntry_inv|].
  wtx_inv.
  eapply insert_entry_inv; [|done..|eassumption]. intros l. by rewrite Hc.
Qed.

Lemma postFeeEntry_inv c ws agent fee bps ref model s r s' :
  uuid c = u -> in_i64 fee -> in_i64 (- fee) -> posting_inv u s ->
  postFeeEntry c ws agent fee bps ref model s = Ok (r, s') -> posting_inv u s'.
Proof.
  unfold postFeeEntry. intros Hc Hf Hn I H. wtx_inv.
  eapply insert_entry_inv; [| |exact I|eassumption]; [intros l; by rewrite Hc|].
  unfold legs_total; csimpl. unwrap. lia.
Qed.

(** A balanced ledger commits: the deferred trigger has nothing to refuse. *)
Lemma committed_balanced {A} (m : WTx A) s a s' :
  m s = Ok (a, s') -> posting_inv u s' -> committed m s = Ok (a, s').
Proof.
  unfold committed. intros -> I. unfold entries_balanced.
  replace (forallb _ _) with true; [done|]. symmetry. apply forallb_forall.
  intros p _. apply Z.eqb_eq, (pi_balanced u s' I).
Qed.
End Entry.

Lemma held_agent id : held_account (agentAccount id) = true.
Proof. unfold held_account, agentAccount. cbn. by destruct id. Qed.

Lemma held_pot id : held_account (potAccount id) = true.
Proof. unfold held_account, potAccount. cbn. by destruct id. Qed.

Lemma kept_agent id : shared_account (agentAccount id) = false.
Proof. apply held_not_shared, held_agent. Qed.

Lemma kept_pot id : shared_account (potAccount id) = false.
Proof. apply held_not_shared, held_pot. Qed.

#[export] Instance agentAccount_inj : Inj (=) (=) agentAccount.
Proof. intros x y H. by injection H. Qed.

#[export] Instance potAccount_inj : Inj (=) (=) potAccount.
Proof. intros x y H. by injection H. Qed.

Lemma agent_not_pot a p : agentAccount a <> potAccount p.
Proof. discriminate. Qed.

Lemma agent_not_workspace a : agentAccount a <> "workspace"%string.
Proof. discriminate. Qed.

Lemma agent_not_spend a : agentAccount a <> "spend"%string.
Proof. discriminate. Qed.

Create HintDb postings.
#[export] Hint Resolve held_agent held_pot kept_agent kept_pot post_frame_refl : postings.
