(* ===== verification/Lxc.v ===== *)
(** LXC, the workspace's spendable credit ([internal/economy/dualtoken.go],
    [cash_backed.go], the fee rows of [platform_fee.go] and the lot funding of
    [wallet_capabilities.go]): reading, crediting, granting and spending a
    balance, its append-only ledger, its cash-backed part and its test-funded
    part. *)
From stdpp Require Import pretty.
From S2P Require Import Prelude Money Tables Postings.
Open Scope Z_scope.
Open Scope i64_scope.

Implicit Types (s : Store).

(** ** Constants *)

Definition LXCTypeConvertFromLENS : string := "convert_from_lens".
Definition LXCTypeSpend : string := "spend".
Definition LXCTypePurchase : string := "purchase".
Definition LXCTypeGrant : string := "admin_grant".
Definition LXCTypePlatformFee : string := "platform_fee".

(** Credits leaving or reaching a workspace, made and spent nowhere: a transfer
    between agents, and an escrow. *)
Definition LXCTypeAgentTransfer : string := "agent_transfer".
Definition LXCTypeAgentEscrow : string := "agent_escrow".
Definition FundingTest : string := "test".
Definition FundingLive : string := "live".
Definition FundingGrant : string := "grant".
Definition FundingSynthetic : string := "synthetic".

(** ** Rows *)

Definition zero_row : LxcRow := mkLxcRow 0 0 0 0 0.

(** A workspace's row; one with no row reads as zeros. *)
Definition lxc_row s (ws : string) : LxcRow := default zero_row (lxc_balances s !! ws).

Definition set_row (ws : string) (r : LxcRow) s : Store :=
  with_lxc_balances (<[ws := r]> (lxc_balances s)) s.

Definition add_ledger (e : LXCLedgerEntry) s : Store :=
  with_lxc_ledger (e :: lxc_ledger s) s.

(** What a workspace's open holds hold. *)
Definition held_sum s (ws : string) : Z :=
  map_sum (fun _ r => if bool_decide (rv_ws r = ws /\ rv_status r = Held) then rv_held r else 0)
    (lxc_reservations s).

(** ** The SQL helpers *)

(** [readLXCBalance]: make the row if there is none, lock it, read it. *)
Definition readLXCBalance (ws : string) : WTx (Z * Z * Z) :=
  tx_modify (fun s : Store => match lxc_balances s !! ws with
                      | Some _ => s
                      | None => set_row ws zero_row s
                      end) ;;;
  let! r := tx_gets (fun s : Store => lxc_balances s !! ws) in
  match r with
  | Some r => tx_ret (lx_balance r, lx_minted r, lx_spent r)
  | None => tx_fail ErrNoRow
  end.

(** The test-funded part stays within the balance plus the open holds. *)
Definition clamp_test (test bal held : Z) : Z :=
  if test <=? bal then test else Z.min test (Z.max (bal + held) 0).

Definition writeLXCBalance (ws : string) (bal minted spent : Z) : WTx unit :=
  tx_modify (fun s : Store => match lxc_balances s !! ws with
    | None => s
    | Some r => set_row ws (mkLxcRow bal minted spent (lx_cash r)
                              (clamp_test (lx_test r) bal (held_sum s ws))) s
    end).

Definition insertLXCLedger (ws : string) (delta after : Z) (typ desc : string) (meta : Meta) : WTx unit :=
  tx_modify (add_ledger (mkLedger ws delta after typ desc meta)).

(** [addTestFunded]: the sum is SQL's. *)
Definition addTestFunded (ws : string) (amount : Z) : WTx unit :=
  if amount <=? 0 then tx_ret tt
  else
    let! r := tx_gets (fun s : Store => lxc_balances s !! ws) in
    match r with
    | None => tx_ret tt
    | Some r =>
        let! v := bigint (lx_test r + amount) in
        tx_modify (set_row ws (mkLxcRow (lx_balance r) (lx_minted r) (lx_spent r) (lx_cash r) v))
    end.

(** ** Cash-backed credit *)

Definition readCashBacked (ws : string) : WTx Z :=
  let! r := tx_gets (fun s : Store => lxc_balances s !! ws) in
  match r with
  | Some r => tx_ret (lx_cash r)
  | None => tx_fail ErrNoRow
  end.

Definition writeCashBacked (ws : string) (v : Z) : WTx unit :=
  let v := if v <? 0 then 0 else v in
  tx_modify (fun s : Store => match lxc_balances s !! ws with
    | None => s
    | Some r => set_row ws (mkLxcRow (lx_balance r) (lx_minted r) (lx_spent r) v (lx_test r)) s
    end).

(** The part of a spend the unbacked credit does not cover, at most the backing
    there is: a spend consumes unbacked credit first. *)
Definition from_cash (balanceBefore cashBacked spend : Z) : Z :=
  let unbacked := balanceBefore -! cashBacked in
  let unbacked := if unbacked <? 0 then 0 else unbacked in
  let fromUnbacked := if unbacked <? spend then unbacked else spend in
  let fromCash := spend -! fromUnbacked in
  if cashBacked <? fromCash then cashBacked else fromCash.

Definition consumeCashBacked (ws : string) (balanceBefore spend : Z) : WTx Z :=
  if spend <=? 0 then tx_ret 0
  else
    let! cashBacked := readCashBacked ws in
    let fromCash := from_cash balanceBefore cashBacked spend in
    (if 0 <? fromCash then writeCashBacked ws (cashBacked -! fromCash) else tx_ret tt) ;;;
    tx_ret fromCash.

Definition addCashBacked (ws : string) (amount : Z) : WTx unit :=
  if amount <=? 0 then tx_ret tt
  else
    let! cur := readCashBacked ws in
    writeCashBacked ws (cur +! amount).

(** A refund takes its backing out of the system, never below zero. *)
Definition ReduceCashBackedForRefund (ws : string) (refundULXC : Z) : WTx unit :=
  if refundULXC <=? 0 then tx_ret tt
  else
    let! cur := readCashBacked ws in
    let next := cur -! refundULXC in
    let next := if next <? 0 then 0 else next in
    writeCashBacked ws next.

(** [testWorkspace]: a workspace that is not there is not a test one. *)
Definition testWorkspace (ws : string) : WTx bool :=
  tx_gets (fun s : Store => match workspaces s !! ws with Some w => ws_synthetic w | None => false end).

(** The part of a settled spend that may fund a royalty. *)
Definition royaltyBacked (ws : string) (charged fromCash : Z) : WTx Z :=
  if charged <=? fromCash then tx_ret fromCash
  else
    let! test := testWorkspace ws in
    tx_ret (if test : bool then charged else fromCash).

(** ** The platform fee *)

(** The store's wiring: the fee's rate on a workspace's AI spend; [None], no fee. *)
Record Service := mkService {
  platformFee : option (Store -> string -> Res WalletErr Z);
}.

Definition platformFeeBPS (svc : Service) (ws : string) : WTx Z :=
  match platformFee svc with
  | None => tx_ret 0
  | Some f => fun s =>
      match f s ws with
      | Err _ => Err ErrPlatformFee
      | Ok bps => if bps_okb bps then Ok (bps, s) else Err ErrPlatformFee
      end
  end.

(** [strconv.FormatFloat(float64(bps)/100, 'f', -1, 64)] of whole basis points. *)
Definition fee_percent (bps : Z) : string :=
  let whole := pretty (bps / 100) in
  let r := bps mod 100 in
  if r =? 0 then whole
  else if r mod 10 =? 0 then whole +:+ "." +:+ pretty (r / 10)
  else whole +:+ "." +:+ pretty (r / 10) +:+ pretty (r mod 10).

Definition FeeLabel (bps : Z) : string := "Platform fee " +:+ fee_percent bps +:+ "%".

Example FeeLabel_examples :
  FeeLabel 300 = "Platform fee 3%"%string /\ FeeLabel 550 = "Platform fee 5.5%"%string /\
  FeeLabel 105 = "Platform fee 1.05%"%string.
Proof. by vm_compute. Qed.

Definition fee_meta (bps spend : Z) (requestID : string) : Meta :=
  let m : Meta := <["platform_fee_bps" := MInt bps]> (<["spend_ulxc" := MInt spend]> ∅) in
  if bool_decide (requestID = ""%string) then m else <["request_id" := MStr requestID]> m.

Definition fee_desc (fee bps : Z) : string :=
  if fee <? 0 then FeeLabel bps +:+ ", refunded with the estimate" else FeeLabel bps.

Definition insertPlatformFee (ws : string) (fee after bps spend : Z) (requestID : string) : WTx unit :=
  if fee =? 0 then tx_ret tt
  else insertLXCLedger ws (-! fee) after LXCTypePlatformFee (fee_desc fee bps) (fee_meta bps spend requestID).

(** ** Credits *)

(** The funding a new lot's ledger row states, and how much of it is test-funded. *)
Definition lotFunding (ledgerType : string) (amount : Z) (metadata : Meta) : Meta * Z :=
  if bool_decide (ledgerType = LXCTypeGrant) then (<["funding" := MStr FundingGrant]> metadata, 0)
  else match metadata !! "test_funded_ulxc"%string with
       | Some (MInt part) => (metadata, Z.min (Z.max part 0) amount)
       | _ =>
           match metadata !! "funding"%string with
           | Some (MStr f) => (metadata, if bool_decide (f = FundingTest) then amount else 0)
           | Some _ => (metadata, 0)
           | None => (<["funding" := MStr FundingLive]> metadata, 0)
           end
       end.

(** The shared credit kernel. *)
Definition creditLXCTxTyped (ws : string) (lxcAmount : Z) (ledgerType reason : string) (metadata : Meta) : WTx Z :=
  tx_guard (negb (lxcAmount <=? 0)) ErrAmount ;;;
  let! (bal, minted, spent) := readLXCBalance ws in
  let newBal := bal +! lxcAmount in
  let lot := lotFunding ledgerType lxcAmount metadata in
  insertLXCLedger ws lxcAmount newBal ledgerType reason lot.1 ;;;
  writeLXCBalance ws newBal (minted +! lxcAmount) spent ;;;
  addTestFunded ws lot.2 ;;;
  (if bool_decide (ledgerType = LXCTypePurchase) then addCashBacked ws lxcAmount else tx_ret tt) ;;;
  tx_ret newBal.

Definition CreditLXCTx (ws : string) (lxcAmount : Z) (reason : string) (metadata : Meta) : WTx Z :=
  creditLXCTxTyped ws lxcAmount LXCTypePurchase reason metadata.

Definition GrantLXCTx (ws : string) (lxcAmount : Z) (reason : string) (metadata : Meta) : WTx Z :=
  creditLXCTxTyped ws lxcAmount LXCTypeGrant reason metadata.

Definition CreditLXC (ws : string) (lxcAmount : Z) (reason : string) (metadata : Meta) : WTx Z :=
  tx_guard (negb (lxcAmount <=? 0)) ErrAmount ;;;
  committed (CreditLXCTx ws lxcAmount reason metadata).

Definition GrantLXC (ws : string) (lxcAmount : Z) (reason : string) (metadata : Meta) : WTx Z :=
  tx_guard (negb (lxcAmount <=? 0)) ErrAmount ;;;
  committed (GrantLXCTx ws lxcAmount reason metadata).

(** One workspace's part of [GrantLXCUpTo]'s statement: below the target, its
    ledger row and its balance; at or above it, nothing. *)
Definition grantUpTo1 (target : Z) (reason : string) (meta : Meta) (ws : string) : WTx nat :=
  tx_modify (fun s : Store => match lxc_balances s !! ws with
                      | Some _ => s | None => set_row ws zero_row s end) ;;;
  let! r := tx_gets (fun s : Store => lxc_row s ws) in
  if lx_balance r <? target then
    let! delta := bigint (target - lx_balance r) in
    let! minted := bigint (lx_minted r + delta) in
    let! held := tx_gets (fun s : Store => held_sum s ws) in
    insertLXCLedger ws delta target LXCTypeGrant reason meta ;;;
    tx_modify (set_row ws (mkLxcRow target minted (lx_spent r) (lx_cash r)
                             (clamp_test (lx_test r) target held))) ;;;
    tx_ret 1%nat
  else tx_ret 0%nat.

Fixpoint grantUpToAll (target : Z) (reason : string) (meta : Meta) (ids : list string) : WTx nat :=
  match ids with
  | [] => tx_ret 0%nat
  | ws :: ids =>
      let! n := grantUpTo1 target reason meta ws in
      let! m := grantUpToAll target reason meta ids in
      tx_ret (n + m)%nat
  end.

(** [GrantLXCUpTo]: the set-based statement touches each workspace once. *)
Definition GrantLXCUpTo (ids : list string) (target : Z) (reason : string) (metadata : Meta) : WTx nat :=
  tx_guard (negb (target <=? 0)) ErrAmount ;;;
  committed (grantUpToAll target reason (lotFunding LXCTypeGrant target metadata).1 (remove_dups ids)).

(** ** Spending *)

(** [SpendLXCMeta]: the workspace's own spending; answers its cash-backed part. *)
Definition spendLXC (c : Ctx) (svc : Service) (ws : string) (lxcAmount : Z) (desc : string) (metadata : Meta) : WTx Z :=
  tx_guard (negb (lxcAmount <=? 0)) ErrAmount ;;;
  let! (bal, minted, spent) := readLXCBalance ws in
  let! bps := platformFeeBPS svc ws in
  let fee := PlatformFee lxcAmount bps in
  tx_guard (negb (bal <? lxcAmount +! fee)) ErrInsufficientLXC ;;;
  requireUnallocated ws bal (lxcAmount +! fee) ;;;
  let newBal := bal -! lxcAmount in
  insertLXCLedger ws (-! lxcAmount) newBal LXCTypeSpend desc metadata ;;;
  insertPlatformFee ws fee (newBal -! fee) bps lxcAmount (charge_request c) ;;;
  writeLXCBalance ws (newBal -! fee) minted (spent +! lxcAmount +! fee) ;;;
  let! fromCash := consumeCashBacked ws bal lxcAmount in
  let! _ := consumeCashBacked ws newBal fee in
  tx_ret fromCash.

Definition SpendLXCMeta (c : Ctx) (svc : Service) (ws : string) (lxcAmount : Z) (desc : string) (metadata : Meta) : WTx Z :=
  committed (spendLXC c svc ws lxcAmount desc metadata).

Definition SpendLXC (c : Ctx) (svc : Service) (ws : string) (lxcAmount : Z) (desc : string) : WTx unit :=
  let! _ := SpendLXCMeta c svc ws lxcAmount desc ∅ in tx_ret tt.

(** ** Reads *)

Definition GetLXCBalance s (ws : string) : Z := lx_balance (lxc_row s ws).

(** [GetUnallocatedLXC]: SQL's subtraction, refused outside [bigint]. *)
Definition GetUnallocatedLXC (ws : string) : WTx Z :=
  let! a := tx_gets (fun s : Store => allocated s ws) in
  let! a := bigint a in
  let! b := tx_gets (fun s : Store => GetLXCBalance s ws) in
  bigint (b - a).

(** [GetLXCHistory]: the page, newest first, its limit and offset clamped. *)
Definition GetLXCHistory s (ws : string) (limit offset : Z) : list LXCLedgerEntry :=
  let limit := if limit <=? 0 then 20 else limit in
  let limit := if 200 <? limit then 200 else limit in
  let offset := if offset <? 0 then 0 else offset in
  take (Z.to_nat limit) (drop (Z.to_nat offset) (filter (fun e => lg_ws e = ws) (lxc_ledger s))).

(** ** Symbolic execution: every helper as a write of one row *)

Lemma lxc_row_set ws ws' r s :
  lxc_row (set_row ws r s) ws' = if decide (ws = ws') then r else lxc_row s ws'.
Proof.
  unfold lxc_row, set_row. cbn. rewrite lookup_insert. by case_decide.
Qed.

Lemma lxc_row_set_eq ws r s : lxc_row (set_row ws r s) ws = r.
Proof. rewrite lxc_row_set. by rewrite decide_True. Qed.

Lemma lxc_row_ledger e s ws : lxc_row (add_ledger e s) ws = lxc_row s ws.
Proof. done. Qed.

Lemma set_row_set_row ws r1 r2 s : set_row ws r2 (set_row ws r1 s) = set_row ws r2 s.
Proof. unfold set_row, with_lxc_balances. cbn. by rewrite insert_insert_eq. Qed.

Lemma add_ledger_set_row ws r e s : add_ledger e (set_row ws r s) = set_row ws r (add_ledger e s).
Proof. done. Qed.

Lemma set_row_id ws r s : lxc_balances s !! ws = Some r -> set_row ws r s = s.
Proof.
  intros H. unfold set_row, with_lxc_balances. rewrite insert_id by done. by destruct s as [[] ? ? ? ?].
Qed.

Lemma held_sum_set_row ws r s ws' : held_sum (set_row ws r s) ws' = held_sum s ws'.
Proof. done. Qed.

Lemma held_sum_ledger e s ws : held_sum (add_ledger e s) ws = held_sum s ws.
Proof. done. Qed.

Create Rewrite HintDb lxc.
#[export] Hint Rewrite lxc_row_set_eq lxc_row_ledger set_row_set_row add_ledger_set_row
  held_sum_set_row held_sum_ledger : lxc.

Lemma readLXCBalance_ok ws s v s' :
  readLXCBalance ws s = Ok (v, s') <->
  v = (lx_balance (lxc_row s ws), lx_minted (lxc_row s ws), lx_spent (lxc_row s ws)) /\
  s' = set_row ws (lxc_row s ws) s.
Proof.
  unfold readLXCBalance, tx_bind, tx_modify, tx_gets, tx_ret, lxc_row.
  destruct (lxc_balances s !! ws) as [r|] eqn:E; cbn.
  - rewrite E, (set_row_id ws r s E). naive_solver.
  - rewrite lookup_insert_eq. naive_solver.
Qed.

Lemma set_row_lookup ws r s : lxc_balances (set_row ws r s) !! ws = Some r.
Proof. cbn. apply lookup_insert_eq. Qed.

(** A row the transaction has read is there: the write hits it. *)
Lemma writeLXCBalance_ok ws r bal minted spent s u s' :
  writeLXCBalance ws bal minted spent (set_row ws r s) = Ok (u, s') <->
  s' = set_row ws (mkLxcRow bal minted spent (lx_cash r) (clamp_test (lx_test r) bal (held_sum s ws))) s.
Proof.
  unfold writeLXCBalance. rewrite tx_modify_ok, set_row_lookup, set_row_set_row. done.
Qed.

Lemma insertLXCLedger_ok ws d a t desc m s u s' :
  insertLXCLedger ws d a t desc m s = Ok (u, s') <-> s' = add_ledger (mkLedger ws d a t desc m) s.
Proof. apply tx_modify_ok. Qed.

Definition with_test (v : Z) (r : LxcRow) : LxcRow :=
  mkLxcRow (lx_balance r) (lx_minted r) (lx_spent r) (lx_cash r) v.
Definition with_cash (v : Z) (r : LxcRow) : LxcRow :=
  mkLxcRow (lx_balance r) (lx_minted r) (lx_spent r) v (lx_test r).

Lemma addTestFunded_ok ws amount r s u s' :
  addTestFunded ws amount (set_row ws r s) = Ok (u, s') <->
  s' = set_row ws (with_test (lx_test r + Z.max amount 0) r) s /\
  (0 < amount -> in_i64 (lx_test r + amount)).
Proof.
  unfold addTestFunded. destruct u. destruct (Z.leb_spec amount 0).
  - rewrite tx_ret_ok, Z.max_r, Z.add_0_r by lia. replace (with_test (lx_test r) r) with r by by destruct r.
    naive_solver lia.
  - rewrite Z.max_l by lia. unfold tx_bind, tx_gets, tx_modify. rewrite set_row_lookup.
    unfold bigint, sql_bigint, tx_ret, tx_fail. pose proof (in_i64b_spec (lx_test r + amount)).
    destruct (in_i64b _); rewrite ?set_row_set_row; naive_solver lia.
Qed.

Lemma readCashBacked_ok ws r s v s' :
  readCashBacked ws (set_row ws r s) = Ok (v, s') <-> v = lx_cash r /\ s' = set_row ws r s.
Proof.
  unfold readCashBacked, tx_bind, tx_gets, tx_ret. rewrite set_row_lookup. naive_solver.
Qed.

Lemma writeCashBacked_ok ws r v s u s' :
  writeCashBacked ws v (set_row ws r s) = Ok (u, s') <-> s' = set_row ws (with_cash (Z.max v 0) r) s.
Proof.
  unfold writeCashBacked. rewrite tx_modify_ok, set_row_lookup, set_row_set_row.
  replace (if v <? 0 then 0 else v) with (Z.max v 0) by (destruct (Z.ltb_spec v 0); lia). done.
Qed.

(** The backing a spend leaves. *)
Definition cash_after (balanceBefore cash spend : Z) : Z :=
  if spend <=? 0 then cash
  else if 0 <? from_cash balanceBefore cash spend
       then Z.max (cash -! from_cash balanceBefore cash spend) 0 else cash.

Definition cash_spent (balanceBefore cash spend : Z) : Z :=
  if spend <=? 0 then 0 else from_cash balanceBefore cash spend.

Lemma with_cash_id r : with_cash (lx_cash r) r = r.
Proof. by destruct r. Qed.

Lemma consumeCashBacked_ok ws before spend r s v s' :
  consumeCashBacked ws before spend (set_row ws r s) = Ok (v, s') <->
  v = cash_spent before (lx_cash r) spend /\
  s' = set_row ws (with_cash (cash_after before (lx_cash r) spend) r) s.
Proof.
  unfold consumeCashBacked, cash_spent, cash_after.
  destruct (spend <=? 0); [rewrite tx_ret_ok, with_cash_id; done|].
  unfold tx_bind. destruct (readCashBacked ws _) as [[w t]|] eqn:E.
  - apply readCashBacked_ok in E as [-> ->].
    destruct (0 <? from_cash _ _ _).
    + destruct (writeCashBacked ws _ _) as [[[] t]|] eqn:E2.
      * apply writeCashBacked_ok in E2 as ->. rewrite tx_ret_ok. done.
      * by unfold writeCashBacked, tx_modify in E2.
    + cbn. rewrite with_cash_id. unfold tx_ret. naive_solver.
  - unfold readCashBacked, tx_bind, tx_gets in E. by rewrite set_row_lookup in E.
Qed.

Lemma addCashBacked_ok ws amount r s u s' :
  addCashBacked ws amount (set_row ws r s) = Ok (u, s') <->
  s' = set_row ws (with_cash (if amount <=? 0 then lx_cash r else Z.max (lx_cash r +! amount) 0) r) s.
Proof.
  unfold addCashBacked. destruct u. destruct (amount <=? 0).
  - rewrite tx_ret_ok, with_cash_id. naive_solver.
  - unfold tx_bind. destruct (readCashBacked ws _) as [[w t]|] eqn:E.
    + apply readCashBacked_ok in E as [-> ->]. apply writeCashBacked_ok.
    + unfold readCashBacked, tx_bind, tx_gets in E. by rewrite set_row_lookup in E.
Qed.

Lemma platformFeeBPS_ok svc ws s bps s' :
  platformFeeBPS svc ws s = Ok (bps, s') -> s' = s /\ bps_ok bps.
Proof.
  unfold platformFeeBPS. destruct (platformFee svc) as [f|].
  - destruct (f s ws) as [b|]; [|discriminate]. destruct (bps_okb b) eqn:B; [|discriminate].
    intros [= <- <-]. split; [done|by apply bps_okb_spec].
  - intros [-> ->]%tx_ret_ok. split; [done|]. unfold bps_ok, feeDenominator. lia.
Qed.

(** The fee's ledger row, none when there is no fee. *)
Definition fee_rows (ws : string) (fee after bps spend : Z) (req : string) : list LXCLedgerEntry :=
  if fee =? 0 then []
  else [mkLedger ws (-! fee) after LXCTypePlatformFee (fee_desc fee bps) (fee_meta bps spend req)].

Definition add_ledgers (l : list LXCLedgerEntry) s : Store :=
  with_lxc_ledger (l ++ lxc_ledger s) s.

Lemma insertPlatformFee_ok ws fee after bps spend req s u s' :
  insertPlatformFee ws fee after bps spend req s = Ok (u, s') <->
  s' = add_ledgers (fee_rows ws fee after bps spend req) s.
Proof.
  unfold insertPlatformFee, fee_rows. destruct u. destruct (fee =? 0).
  - rewrite tx_ret_ok. unfold add_ledgers. cbn.
    replace (with_lxc_ledger (lxc_ledger s) s) with s by by destruct s as [[] ? ? ? ?]. naive_solver.
  - apply insertLXCLedger_ok.
Qed.

Lemma requireUnallocated_ok ws bal amount s u s' :
  requireUnallocated ws bal amount s = Ok (u, s') <->
  s' = s /\ in_i64 (allocated s ws) /\ (bal -! allocated s ws <? amount) = false.
Proof.
  unfold requireUnallocated. destruct u. split.
  - intros H. wtx_inv. rewrite negb_true_iff in *. done.
  - intros (-> & Hi & Hb). apply tx_bind_ok. eexists _, _. split; [by apply tx_gets_ok|].
    apply tx_bind_ok. eexists _, _. split; [by apply bigint_ok|]. apply tx_guard_ok.
    by rewrite Hb.
Qed.

(** ** What a movement of a workspace's balance is *)

Definition rows_total (rows : list LXCLedgerEntry) : Z := sumZ (lg_amount <$> rows).

(** [rows], newest first, each of [ws] and each stating the running balance. *)
Fixpoint running (ws : string) (bal : Z) (rows : list LXCLedgerEntry) : Prop :=
  match rows with
  | [] => True
  | e :: older =>
      lg_ws e = ws /\ lg_after e = wrap64 (bal + rows_total rows) /\ running ws bal older
  end.

(** A row of credits that passed between workspaces. *)
Definition passing (e : LXCLedgerEntry) : bool :=
  bool_decide (lg_type e = LXCTypeAgentTransfer \/ lg_type e = LXCTypeAgentEscrow).

Definition none_passing (rows : list LXCLedgerEntry) : bool := forallb (fun e => negb (passing e)) rows.

Record lxc_moved (ws : string) (rows : list LXCLedgerEntry) s s' : Prop := {
  mv_ledger : lxc_ledger s' = rows ++ lxc_ledger s;
  mv_running : running ws (lx_balance (lxc_row s ws)) rows;
  mv_balance : lx_balance (lxc_row s' ws) = wrap64 (lx_balance (lxc_row s ws) + rows_total rows);
  mv_lifetime : wrap64 (lx_minted (lxc_row s' ws) - lx_spent (lxc_row s' ws)) =
                wrap64 (lx_minted (lxc_row s ws) - lx_spent (lxc_row s ws) + rows_total rows);
  mv_other ws' : ws' <> ws -> lxc_row s' ws' = lxc_row s ws';
  mv_kinds : none_passing rows = true;
}.

Definition ledger_sum (l : list LXCLedgerEntry) (ws : string) : Z :=
  sumZ ((fun e => if bool_decide (lg_ws e = ws) then lg_amount e else 0) <$> l).

(** What passed in and out of [ws]. *)
Definition passed (l : list LXCLedgerEntry) (ws : string) : Z :=
  sumZ ((fun e => if bool_decide (lg_ws e = ws) && passing e then lg_amount e else 0) <$> l).

#[global] Arguments ledger_sum : simpl never.
#[global] Arguments rows_total : simpl never.

(** Every ledger row states the sum of its workspace's rows up to it. *)
Fixpoint running_balances (l : list LXCLedgerEntry) : Prop :=
  match l with
  | [] => True
  | e :: older => lg_after e = wrap64 (ledger_sum l (lg_ws e)) /\ running_balances older
  end.

(** The books balance: each workspace's balance is the sum of its ledger, and is
    what it was ever credited less what it ever spent, and what passed between it
    and other workspaces. *)
Record lxc_inv s : Prop := {
  li_ledger ws : lx_balance (lxc_row s ws) = wrap64 (ledger_sum (lxc_ledger s) ws);
  li_lifetime ws : lx_balance (lxc_row s ws) =
    wrap64 (lx_minted (lxc_row s ws) - lx_spent (lxc_row s ws) + passed (lxc_ledger s) ws);
  li_running : running_balances (lxc_ledger s);
}.

Lemma lxc_inv_empty : lxc_inv empty_store.
Proof. split; done. Qed.

(** An operation that leaves the LXC tables alone keeps their books. *)
Lemma lxc_inv_same s s' : st_lxc s' = st_lxc s -> lxc_inv s -> lxc_inv s'.
Proof. intros E [I1 I2 I3]. split; unfold lxc_row in *; rewrite E; done. Qed.

Lemma ledger_sum_app l k ws : ledger_sum (l ++ k) ws = ledger_sum l ws + ledger_sum k ws.
Proof. unfold ledger_sum. by rewrite fmap_app, sumZ_app. Qed.

Lemma passed_app l k ws : passed (l ++ k) ws = passed l ws + passed k ws.
Proof. unfold passed. by rewrite fmap_app, sumZ_app. Qed.

Lemma none_passed rows ws : none_passing rows = true -> passed rows ws = 0.
Proof.
  unfold none_passing, passed. induction rows as [|e rows IH]; [done|]. csimpl. intros [He H]%andb_prop.
  rewrite IH by done. destruct (passing e); [done|]. by rewrite andb_false_r.
Qed.

Lemma running_sum ws bal rows ws' :
  running ws bal rows -> ledger_sum rows ws' = if decide (ws = ws') then rows_total rows else 0.
Proof.
  induction rows as [|e rows IH]; cbn; [by case_decide|].
  intros (<- & _ & R). specialize (IH R).
  change (ledger_sum (e :: rows) ws')
    with ((if bool_decide (lg_ws e = ws') then lg_amount e else 0) + ledger_sum rows ws').
  change (rows_total (e :: rows)) with (lg_amount e + rows_total rows).
  rewrite IH. case_decide; case_bool_decide; done || lia.
Qed.

Lemma running_app ws bal rows l :
  bal = wrap64 (ledger_sum l ws) -> running ws bal rows -> running_balances l ->
  running_balances (rows ++ l).
Proof.
  intros Hb. induction rows as [|e rows IH]; cbn; [done|].
  intros (Hw & Ha & R) L. split; [|by apply IH].
  rewrite Ha, Hw, Hb. change (e :: rows ++ l) with ((e :: rows) ++ l). rewrite ledger_sum_app.
  assert (ledger_sum (e :: rows) ws = rows_total (e :: rows)) as ->.
  { rewrite (running_sum ws bal) by done. by rewrite decide_True. }
  wrap_eq.
Qed.

(** Every movement keeps the books balanced. *)
Lemma lxc_moved_inv ws rows s s' : lxc_moved ws rows s s' -> lxc_inv s -> lxc_inv s'.
Proof.
  intros [L R B M O K] [I1 I2 I3]. split.
  - intros ws'. rewrite L, ledger_sum_app, (running_sum ws _ _ _ R).
    case_decide as E.
    + subst ws'. rewrite B, I1. wrap_eq.
    + rewrite O by (intros ->; by apply E). rewrite I1, Z.add_0_l. reflexivity.
  - intros ws'. rewrite L, passed_app, (none_passed rows) by done.
    destruct (decide (ws' = ws)) as [->|]; [|rewrite O by done; rewrite I2, Z.add_0_l; reflexivity].
    rewrite B, I2, Z.add_0_l. rewrite <- (wrap64_add_l (lx_minted (lxc_row s' ws) - _)), M, wrap64_add_l. wrap_eq.
  - rewrite L. eapply running_app; [apply I1|exact R|exact I3].
Qed.

Lemma lxc_moved_same ws s s' : (* nothing moved *)
  lxc_ledger s' = lxc_ledger s -> in_i64 (lx_balance (lxc_row s ws)) ->
  (forall ws', lxc_row s' ws' = lxc_row s ws') -> lxc_moved ws [] s s'.
Proof.
  intros L Hb H. change (rows_total []) with 0.
  split; rewrite ?H, ?Z.add_0_r; [done|done| |done|done|done].
  symmetry. by apply wrap64_id.
Qed.

Lemma row_in_i64 s ws : lxc_inv s -> in_i64 (lx_balance (lxc_row s ws)).
Proof. intros [I _ _]. rewrite I. apply wrap64_in. Qed.

(** How an operation that writes [ws]'s row once over its ledger rows moves it. *)
Lemma lxc_moved_set ws rows r s :
  running ws (lx_balance (lxc_row s ws)) rows ->
  lx_balance r = wrap64 (lx_balance (lxc_row s ws) + rows_total rows) ->
  wrap64 (lx_minted r - lx_spent r) =
    wrap64 (lx_minted (lxc_row s ws) - lx_spent (lxc_row s ws) + rows_total rows) ->
  none_passing rows = true ->
  lxc_moved ws rows s (set_row ws r (add_ledgers rows s)).
Proof.
  intros R B M K. split; rewrite ?lxc_row_set_eq; try done.
  intros ws' Hne. rewrite lxc_row_set, decide_False by done. done.
Qed.

Lemma add_ledgers_app l k s : add_ledgers l (add_ledgers k s) = add_ledgers (l ++ k) s.
Proof. unfold add_ledgers. cbn. by rewrite (assoc_L (++)). Qed.

Lemma add_ledger_ledgers e k s : add_ledger e (add_ledgers k s) = add_ledgers (e :: k) s.
Proof. done. Qed.

Lemma add_ledger_1 e s : add_ledger e s = add_ledgers [e] s.
Proof. done. Qed.

Lemma add_ledgers_set_row l ws r s : add_ledgers l (set_row ws r s) = set_row ws r (add_ledgers l s).
Proof. done. Qed.

Lemma lxc_row_ledgers l s ws : lxc_row (add_ledgers l s) ws = lxc_row s ws.
Proof. done. Qed.

Lemma held_sum_ledgers l s ws : held_sum (add_ledgers l s) ws = held_sum s ws.
Proof. done. Qed.

#[export] Hint Rewrite add_ledger_1 add_ledgers_set_row add_ledgers_app lxc_row_ledgers held_sum_ledgers : lxc.

(** [lxc_run] opens a successful operation on LXC into its writes. *)
Ltac lxc_step :=
  first
  [ wtx_inv_step
  | match goal with
    | H : readLXCBalance _ _ = Ok _ |- _ =>
        let E1 := fresh "E" in let E2 := fresh "E" in
        apply readLXCBalance_ok in H; destruct H as [E1 E2]; subst_eq E2; subst_eq E1
    | H : writeLXCBalance _ _ _ _ (set_row _ _ _) = Ok _ |- _ =>
        apply writeLXCBalance_ok in H; subst_eq H
    | H : insertLXCLedger _ _ _ _ _ _ _ = Ok _ |- _ =>
        apply insertLXCLedger_ok in H; subst_eq H
    | H : insertPlatformFee _ _ _ _ _ _ _ = Ok _ |- _ =>
        apply insertPlatformFee_ok in H; subst_eq H
    | H : consumeCashBacked _ _ _ (set_row _ _ _) = Ok _ |- _ =>
        let E1 := fresh "E" in let E2 := fresh "E" in
        apply consumeCashBacked_ok in H; destruct H as [E1 E2]; subst_eq E2; subst_eq E1
    | H : addCashBacked _ _ (set_row _ _ _) = Ok _ |- _ => apply addCashBacked_ok in H; subst_eq H
    | H : addTestFunded _ _ (set_row _ _ _) = Ok _ |- _ =>
        let E1 := fresh "E" in let R := fresh "Ht" in
        apply addTestFunded_ok in H; destruct H as [E1 R]; subst_eq E1
    | H : platformFeeBPS _ _ _ = Ok _ |- _ =>
        let E1 := fresh "E" in let R := fresh "Hbps" in
        apply platformFeeBPS_ok in H; destruct H as [E1 R]; subst_eq E1
    | H : requireUnallocated _ _ _ _ = Ok _ |- _ =>
        let E1 := fresh "E" in let R := fresh "Hun" in
        apply requireUnallocated_ok in H; destruct H as (E1 & ? & R); subst_eq E1
    end
  | progress autorewrite with lxc in *
  | progress cbn [fst snd] in * ].
Ltac lxc_run := repeat lxc_step.

(** ** What the operations do *)

Lemma negb_leb_pos z : negb (z <=? 0) = true <-> 0 < z.
Proof. lia. Qed.

(** The row a credit leaves. *)
Definition credited (r : LxcRow) (amount test held : Z) (purchase : bool) : LxcRow :=
  let bal := lx_balance r +! amount in
  mkLxcRow bal (lx_minted r +! amount) (lx_spent r)
    (if purchase then Z.max (lx_cash r +! amount) 0 else lx_cash r)
    (clamp_test (lx_test r) bal held + Z.max test 0).

Lemma creditLXCTxTyped_ok ws amount typ reason meta s b s' :
  creditLXCTxTyped ws amount typ reason meta s = Ok (b, s') ->
  0 < amount /\ b = lx_balance (lxc_row s ws) +! amount /\
  s' = set_row ws
         (credited (lxc_row s ws) amount (lotFunding typ amount meta).2 (held_sum s ws)
            (bool_decide (typ = LXCTypePurchase)))
         (add_ledgers [mkLedger ws amount b typ reason (lotFunding typ amount meta).1] s).
Proof.
  unfold creditLXCTxTyped. intros H. lxc_run.
  rewrite negb_leb_pos in Hg. split; [done|]. split; [done|].
  unfold credited. destruct (bool_decide (typ = LXCTypePurchase)); lxc_run.
  - rewrite (proj2 (Z.leb_gt amount 0)) by done. done.
  - done.
Qed.

(** A lot is bought or granted. *)
Definition lot_type (typ : string) : Prop := typ = LXCTypePurchase \/ typ = LXCTypeGrant.

Lemma creditLXCTxTyped_moved ws amount typ reason meta s b s' :
  creditLXCTxTyped ws amount typ reason meta s = Ok (b, s') ->
  lot_type typ -> lxc_moved ws [mkLedger ws amount b typ reason (lotFunding typ amount meta).1] s s'.
Proof.
  intros H K. apply creditLXCTxTyped_ok in H as (Hp & -> & ->).
  change (rows_total [_]) with (amount + 0).
  apply lxc_moved_set; unfold credited; cbn [running lx_balance lx_minted lx_spent lg_ws lg_after];
    unfold rows_total; csimpl; rewrite ?Z.add_0_r; [done|done|wrap_eq|by destruct K as [-> | ->]].
Qed.

(** The ledger rows of a charge and its fee, newest first. *)
Definition charge_rows (ws : string) (bal amount fee bps : Z) (desc : string) (meta : Meta)
    (req : string) : list LXCLedgerEntry :=
  fee_rows ws fee (bal -! amount -! fee) bps amount req ++
  [mkLedger ws (-! amount) (bal -! amount) LXCTypeSpend desc meta].

Lemma fee_rows_stay ws fee after bps spend req older :
  none_passing older = true -> none_passing (fee_rows ws fee after bps spend req ++ older) = true.
Proof. intros H. unfold fee_rows. by destruct (fee =? 0). Qed.

Lemma charge_rows_stay ws bal amount fee bps desc meta req : none_passing (charge_rows ws bal amount fee bps desc meta req) = true.
Proof. by apply fee_rows_stay. Qed.

(** The row a spend of [amount] and its fee leaves. *)
Definition spent_row (r : LxcRow) (amount fee held : Z) : LxcRow :=
  let bal := lx_balance r in
  let newBal := bal -! amount in
  mkLxcRow (newBal -! fee) (lx_minted r) (lx_spent r +! amount +! fee)
    (cash_after newBal (cash_after bal (lx_cash r) amount) fee)
    (clamp_test (lx_test r) (newBal -! fee) held).

Lemma spendLXC_ok c svc ws amount desc meta s v s' :
  spendLXC c svc ws amount desc meta s = Ok (v, s') ->
  exists bps, bps_ok bps /\ 0 < amount /\
    let r := lxc_row s ws in
    let fee := PlatformFee amount bps in
    (lx_balance r <? amount +! fee) = false /\
    in_i64 (allocated s ws) /\ (lx_balance r -! allocated s ws <? amount +! fee) = false /\
    v = cash_spent (lx_balance r) (lx_cash r) amount /\
    s' = set_row ws (spent_row r amount fee (held_sum s ws))
           (add_ledgers (charge_rows ws (lx_balance r) amount fee bps desc meta (charge_request c)) s).
Proof.
  unfold spendLXC. intros H. lxc_run.
  match goal with H : bps_ok ?b |- _ => exists b end.
  rewrite negb_leb_pos, negb_true_iff in *. done.
Qed.

Lemma fee_rows_running ws bal fee after bps spend req older :
  in_i64 fee -> running ws bal older ->
  after = wrap64 (bal + rows_total older - fee) ->
  running ws bal (fee_rows ws fee after bps spend req ++ older) /\
  wrap64 (rows_total (fee_rows ws fee after bps spend req ++ older)) = wrap64 (rows_total older - fee).
Proof.
  intros Hf R ->. unfold fee_rows. destruct (Z.eqb_spec fee 0) as [->|Hne].
  - cbn. split; [done|]. by rewrite Z.sub_0_r.
  - cbn [app running lg_ws lg_after]. unfold rows_total. csimpl.
    split; [split; [done|split; [wrap_eq|done]]|wrap_eq].
Qed.

Lemma charge_rows_running ws bal amount fee bps desc meta req :
  in_i64 fee ->
  running ws bal (charge_rows ws bal amount fee bps desc meta req) /\
  wrap64 (rows_total (charge_rows ws bal amount fee bps desc meta req)) = wrap64 (- amount - fee).
Proof.
  intros Hf. unfold charge_rows.
  destruct (fee_rows_running ws bal fee (bal -! amount -! fee) bps amount req
    [mkLedger ws (-! amount) (bal -! amount) LXCTypeSpend desc meta]) as [R T]; [done| | |].
  - cbn [running lg_ws lg_after]. unfold rows_total. csimpl. split; [done|split; [wrap_eq|done]].
  - unfold rows_total. csimpl. wrap_eq.
  - split; [done|]. rewrite T. unfold rows_total. csimpl. wrap_eq.
Qed.

Lemma wrap64_add_cong x y z : wrap64 x = wrap64 y -> wrap64 (z + x) = wrap64 (z + y).
Proof. intros H. rewrite <- (wrap64_add_r z x), H. apply wrap64_add_r. Qed.

Lemma fee_in_i64 amount bps : 0 < amount -> in_i64 amount -> bps_ok bps -> in_i64 (PlatformFee amount bps).
Proof.
  intros H0 Ha Hb. pose proof (PlatformFee_bounds amount bps Ha ltac:(lia) Hb). i64_ranges. lia.
Qed.

Lemma spendLXC_moved c svc ws amount desc meta s v s' :
  in_i64 amount -> spendLXC c svc ws amount desc meta s = Ok (v, s') ->
  exists rows, lxc_moved ws rows s s'.
Proof.
  intros Ha H. apply spendLXC_ok in H as (bps & Hb & Hp & _ & _ & _ & _ & ->).
  destruct (charge_rows_running ws (lx_balance (lxc_row s ws)) amount (PlatformFee amount bps) bps
    desc meta (charge_request c)) as [R T]; [by apply fee_in_i64|].
  eexists. apply lxc_moved_set; [exact R| | |apply charge_rows_stay]; unfold spent_row; cbn [lx_balance lx_minted lx_spent];
    rewrite (wrap64_add_cong _ _ _ T); wrap_eq.
Qed.

Lemma rows_total_1 e : rows_total [e] = lg_amount e.
Proof. unfold rows_total. csimpl. lia. Qed.

(** A grant to a target: below it the workspace gets the difference, at or above
    it nothing. *)
Lemma grantUpTo1_ok target reason meta ws s n s' :
  in_i64 target -> lxc_inv s -> grantUpTo1 target reason meta ws s = Ok (n, s') ->
  lx_balance (lxc_row s' ws) = Z.max target (lx_balance (lxc_row s ws)) /\
  (target <= lx_balance (lxc_row s ws) -> n = 0%nat) /\
  (lx_balance (lxc_row s ws) < target -> n = 1%nat) /\
  exists rows, lxc_moved ws rows s s'.
Proof.
  intros Ht I H. unfold grantUpTo1 in H. apply tx_bind_ok in H as (a & s1 & H0 & H).
  assert (E1 : s1 = set_row ws (lxc_row s ws) s).
  { apply tx_modify_ok in H0 as ->. unfold lxc_row.
    destruct (lxc_balances s !! ws) eqn:E; [by rewrite set_row_id|done]. }
  subst s1. clear H0. pose proof (row_in_i64 s ws I) as Hb.
  apply tx_bind_ok in H as (r & s1 & H0 & H). lxc_run.
  destruct (Z.ltb_spec (lx_balance (lxc_row s ws)) target) as [L|L]; lxc_run.
  - cbn [lx_balance]. split; [lia|]. split; [lia|]. split; [done|]. eexists.
    assert (E : wrap64 (lx_balance (lxc_row s ws) + (target - lx_balance (lxc_row s ws))) = target)
      by (rewrite wrap64_id; i64_ranges; lia).
    apply lxc_moved_set; cbn [running lg_ws lg_after lx_balance lx_minted lx_spent];
      rewrite ?rows_total_1; cbn [lg_amount]; rewrite ?E; [done|done|wrap_eq|done].
  - split; [lia|]. split; [done|]. split; [lia|]. exists [].
    apply lxc_moved_same; [done|done|]. intros ws'. rewrite lxc_row_set. case_decide; by subst.
Qed.

Lemma grantUpToAll_inv target reason meta ids s n s' :
  in_i64 target -> lxc_inv s -> grantUpToAll target reason meta ids s = Ok (n, s') -> lxc_inv s'.
Proof.
  intros Ht. revert s n. induction ids as [|ws ids IH]; intros s n I H; cbn in H; tx_inv; [done|].
  match goal with H : grantUpTo1 _ _ _ _ _ = _ |- _ => apply grantUpTo1_ok in H as (_ & _ & _ & rows & M); [|done..] end.
  eapply IH; [|eassumption]. by eapply lxc_moved_inv.
Qed.

Lemma committed_same {A} (m : WTx A) s a s' :
  m s = Ok (a, s') -> agent_postings s' = agent_postings s -> committed m s = Ok (a, s').
Proof. unfold committed. intros -> ->. by rewrite Nat.sub_diag. Qed.

Lemma committed_err {A} (m : WTx A) s e : m s = Err e -> committed m s = Err e.
Proof. unfold committed. by intros ->. Qed.

(** [tx_go lem] runs the next step of a transaction in the goal forward. *)
Tactic Notation "tx_go" uconstr(lem) := apply tx_bind_ok; first [exists tt | eexists]; eexists; split; [apply lem|].

Lemma tx_bind_run {A B} (m : WTx A) (k : A -> WTx B) s a s' :
  m s = Ok (a, s') -> tx_bind m k s = k a s'.
Proof. unfold tx_bind. by intros ->. Qed.

Lemma tx_bind_err {A B} (m : WTx A) (k : A -> WTx B) s e :
  m s = Err e -> tx_bind m k s = Err e.
Proof. unfold tx_bind. by intros ->. Qed.

(** ** Cash backing over a sequence of spends *)

(** A workspace's spends in order: balance and backing after them, and how much
    cash they consumed. *)
Fixpoint consume_all (bal cash : Z) (spends : list Z) : Z * Z * Z :=
  match spends with
  | [] => (bal, cash, 0)
  | x :: l =>
      let '(b, k, t) := consume_all (bal -! x) (cash_after bal cash x) l in
      (b, k, t + cash_spent bal cash x)
  end.

Lemma from_cash_eq bal cash spend :
  in_i64 bal -> 0 <= cash <= bal -> 0 < spend <= bal ->
  from_cash bal cash spend = Z.max 0 (spend - (bal - cash)).
Proof.
  intros Hb Hc Hs. unfold from_cash. i64_ranges. unwrap.
  destruct (Z.ltb_spec (bal - cash) 0); [lia|].
  destruct (Z.ltb_spec (bal - cash) spend).
  - unwrap. destruct (Z.ltb_spec cash (spend - (bal - cash))); lia.
  - unwrap. destruct (Z.ltb_spec cash (spend - spend)); lia.
Qed.

Lemma cash_step bal cash spend :
  in_i64 bal -> 0 <= cash <= bal -> 0 <= spend <= bal ->
  cash_after bal cash spend = Z.min cash (bal - spend) /\
  cash_spent bal cash spend = Z.max 0 (spend - (bal - cash)).
Proof.
  intros Hb Hc Hs. unfold cash_after, cash_spent.
  destruct (Z.leb_spec spend 0); [lia|]. rewrite from_cash_eq by (done || lia).
  split; [|done]. i64_ranges.
  destruct (Z.ltb_spec 0 (Z.max 0 (spend - (bal - cash)))); [|lia]. unwrap. lia.
Qed.

(** ** Properties *)

(** The plan's rate, whatever the resolver reads. *)
Definition plan_rate (svc : Service) (ws : string) (bps : Z) : Prop :=
  bps_ok bps /\ forall s, platformFeeBPS svc ws s = Ok (bps, s).

Lemma guard_true {E S} (b : bool) (e : E) (s : S) : b = true -> tx_guard b e s = Ok (tt, s).
Proof. by intros ->. Qed.

Lemma guard_false {E S} (b : bool) (e : E) (s : S) : b = false -> tx_guard b e s = Err e.
Proof. by intros ->. Qed.

(** An agentless spend is all or nothing.  At the plan's rate it is refused
    exactly when the LXC the workspace's agents do not hold falls short of the
    charge and its fee; otherwise it takes exactly [amount + fee] from the
    balance, writes the charge and the fee as their own ledger rows with the
    running balances, and answers the cash-backed part of the charge. *)
Theorem spend_functional c svc ws amount desc meta s bps :
  lxc_inv s -> plan_rate svc ws bps ->
  0 < amount < 4611686018427387904 ->
  0 <= allocated s ws -> in_i64 (allocated s ws) ->
  let r := lxc_row s ws in
  let fee := PlatformFee amount bps in
  SpendLXCMeta c svc ws amount desc meta s =
  if lx_balance r - allocated s ws <? amount + fee then Err ErrInsufficientLXC
  else Ok (cash_spent (lx_balance r) (lx_cash r) amount,
           set_row ws (spent_row r amount fee (held_sum s ws))
             (add_ledgers (charge_rows ws (lx_balance r) amount fee bps desc meta (charge_request c)) s)).
Proof.
  intros I [Hb Hf] Ha H0 Hal. cbn zeta.
  pose proof (PlatformFee_bounds amount bps ltac:(i64_ranges; lia) ltac:(lia) Hb) as F.
  pose proof (row_in_i64 s ws I) as R.
  assert (Hsum : amount +! PlatformFee amount bps = amount + PlatformFee amount bps)
    by (apply wrap64_id; i64_ranges; lia).
  assert (Hread := proj2 (readLXCBalance_ok ws s _ _) (conj eq_refl eq_refl)).
  assert (Hpos : negb (amount <=? 0) = true) by (apply negb_leb_pos; lia).
  destruct (Z.ltb_spec (lx_balance (lxc_row s ws) - allocated s ws) (amount + PlatformFee amount bps)) as [L|L].
  - apply committed_err. unfold spendLXC.
    rewrite (tx_bind_run _ _ s tt s (guard_true _ _ _ Hpos)), (tx_bind_run _ _ _ _ _ Hread).
    rewrite (tx_bind_run _ _ _ _ _ (Hf _)), Hsum.
    destruct (Z.ltb_spec (lx_balance (lxc_row s ws)) (amount + PlatformFee amount bps)) as [L2|L2]; [done|].
    rewrite (tx_bind_run _ _ _ tt _ (guard_true _ _ _ eq_refl)). apply tx_bind_err.
    unfold requireUnallocated.
    rewrite (tx_bind_run _ _ _ _ _ (proj2 (tx_gets_ok _ _ _ _) (conj eq_refl eq_refl))).
    change (allocated (set_row _ _ _) ws) with (allocated s ws).
    rewrite (tx_bind_run _ _ _ _ _ (proj2 (bigint_ok _ _ _ _) (conj eq_refl (conj eq_refl Hal)))).
    apply guard_false. rewrite wrap64_id by (i64_ranges; lia).
    destruct (Z.ltb_spec (lx_balance (lxc_row s ws) - allocated s ws) (amount + PlatformFee amount bps)); [done|lia].
  - apply committed_same; [|done]. unfold spendLXC.
    rewrite (tx_bind_run _ _ s tt s (guard_true _ _ _ Hpos)), (tx_bind_run _ _ _ _ _ Hread).
    rewrite (tx_bind_run _ _ _ _ _ (Hf _)), Hsum.
    tx_go guard_true; [destruct (Z.ltb_spec (lx_balance (lxc_row s ws)) (amount + PlatformFee amount bps)); done || lia|].
    tx_go requireUnallocated_ok.
    { split; [done|]. split; [done|]. change (allocated (set_row _ _ _) ws) with (allocated s ws).
      rewrite wrap64_id by (i64_ranges; lia). apply Z.ltb_ge. lia. }
    tx_go insertLXCLedger_ok; [done|]. tx_go insertPlatformFee_ok; [done|].
    autorewrite with lxc. tx_go writeLXCBalance_ok; [done|].
    tx_go consumeCashBacked_ok; [done|]. tx_go consumeCashBacked_ok; [done|].
    done.
Qed.

(** A store with one funded workspace, for the concrete instances below. *)
Definition demo_row : LxcRow := mkLxcRow 5000 5000 0 3000 1000.
Definition demo_store : Store :=
  set_row "ws" demo_row (add_ledgers [mkLedger "ws" 5000 5000 LXCTypePurchase "top-up" ∅] empty_store).
Definition demo_ctx : Ctx := mkCtx 0 (fun n => pretty n) "" "" "" zero_request.
Definition demo_svc : Service := mkService (Some (fun _ _ => Ok 550)).

Lemma demo_inv : lxc_inv demo_store.
Proof.
  apply (lxc_moved_inv "ws" [mkLedger "ws" 5000 5000 LXCTypePurchase "top-up" ∅] empty_store);
    [|apply lxc_inv_empty].
  split; try done; [by vm_compute..|].
  intros ws' Hne. unfold demo_store. rewrite lxc_row_set, decide_False by done. done.
Qed.

Lemma demo_rate ws : plan_rate demo_svc ws 550.
Proof. split; [by apply bps_okb_spec|done]. Qed.

Lemma spend_functional_witness :
  exists v s', SpendLXCMeta demo_ctx demo_svc "ws" 1000 "chat" ∅ demo_store = Ok (v, s') /\
  lx_balance (lxc_row s' "ws") = 3945.
Proof.
  rewrite (spend_functional demo_ctx demo_svc "ws" 1000 "chat" ∅ demo_store 550
    demo_inv (demo_rate "ws") ltac:(lia) ltac:(vm_compute; congruence) ltac:(by apply in_i64b_spec)).
  eexists _, _. split; reflexivity.
Defined.

Lemma lot_test_bounds typ amount meta :
  0 < amount -> 0 <= (lotFunding typ amount meta).2 <= amount.
Proof. intros. unfold lotFunding. repeat case_match; try case_bool_decide; cbn; lia. Qed.

Lemma clamp_test_bounds test bal held : 0 <= test -> 0 <= clamp_test test bal held <= test.
Proof. intros. unfold clamp_test. destruct (_ <=? _); lia. Qed.

(** A credit whose sums fit their columns goes through. *)
Lemma creditLXC_runs ws amount typ reason meta s :
  lot_type typ -> lxc_inv s -> 0 < amount ->
  let r := lxc_row s ws in
  in_i64 (lx_balance r + amount) -> 0 <= lx_test r -> in_i64 (lx_test r + amount) ->
  exists s', committed (creditLXCTxTyped ws amount typ reason meta) s = Ok (lx_balance r + amount, s') /\
    lxc_inv s' /\ lxc_row s' ws =
      credited r amount (lotFunding typ amount meta).2 (held_sum s ws) (bool_decide (typ = LXCTypePurchase)).
Proof.
  intros Hty I Hp r Hb Ht0 Ht.
  pose proof (lot_test_bounds typ amount meta Hp) as Htest.
  pose proof (clamp_test_bounds (lx_test r) (lx_balance r +! amount) (held_sum s ws) Ht0) as Hcl.
  assert (C : exists s', creditLXCTxTyped ws amount typ reason meta s = Ok (lx_balance r + amount, s')).
  { unfold creditLXCTxTyped. destruct (bool_decide (typ = LXCTypePurchase)); eexists;
    (tx_go guard_true; [by apply negb_leb_pos|]);
    (tx_go readLXCBalance_ok; [done|]); cbn beta iota; (tx_go insertLXCLedger_ok; [done|]);
    autorewrite with lxc; (tx_go writeLXCBalance_ok; [done|]); autorewrite with lxc;
    (tx_go addTestFunded_ok; [split; [done|intros _; fold r; cbn; i64_ranges; lia]|]);
    fold r; rewrite (wrap64_id (lx_balance r + amount)) by done;
    [tx_go addCashBacked_ok; [done|]|tx_go tx_ret_ok; [done|]]; done. }
  destruct C as [s' C]. exists s'. split.
  - apply committed_same; [done|]. apply creditLXCTxTyped_ok in C as (_ & _ & ->). done.
  - split; [by eapply lxc_moved_inv; [by eapply creditLXCTxTyped_moved|]|].
    apply creditLXCTxTyped_ok in C as (_ & _ & ->). by rewrite lxc_row_set_eq.
Qed.

(** a credit of either kind succeeds, adds exactly its amount to the balance
    and to what was ever minted, and writes one ledger row; only a purchase adds
    cash backing, and of a purchase at most its own amount is test-funded. *)
Theorem credit_functional ws amount reason meta s :
  lxc_inv s -> 0 < amount ->
  let r := lxc_row s ws in
  in_i64 (lx_balance r + amount) -> in_i64 (lx_minted r + amount) -> in_i64 (lx_cash r + amount) ->
  0 <= lx_cash r -> 0 <= lx_test r -> in_i64 (lx_test r + amount) ->
  exists sp sg,
    CreditLXC ws amount reason meta s = Ok (lx_balance r + amount, sp) /\
    GrantLXC ws amount reason meta s = Ok (lx_balance r + amount, sg) /\
    lxc_inv sp /\ lxc_inv sg /\
    lx_balance (lxc_row sp ws) = lx_balance r + amount /\
    lx_balance (lxc_row sg ws) = lx_balance r + amount /\
    lx_minted (lxc_row sp ws) = lx_minted r + amount /\
    lx_minted (lxc_row sg ws) = lx_minted r + amount /\
    lx_cash (lxc_row sp ws) = lx_cash r + amount /\ lx_cash (lxc_row sg ws) = lx_cash r /\
    lx_test (lxc_row sp ws) <= lx_test r + amount /\ lx_test (lxc_row sg ws) <= lx_test r.
Proof.
  intros I Hp r Hb Hm Hc Hc0 Ht0 Ht.
  destruct (creditLXC_runs ws amount LXCTypePurchase reason meta s ltac:(by left) I Hp Hb Ht0 Ht) as (sp & P1 & P2 & P3).
  destruct (creditLXC_runs ws amount LXCTypeGrant reason meta s ltac:(by right) I Hp Hb Ht0 Ht) as (sg & G1 & G2 & G3).
  exists sp, sg. unfold CreditLXC, GrantLXC.
  rewrite !(tx_bind_run _ _ s tt s) by (apply guard_true, negb_leb_pos; done).
  split; [exact P1|]. split; [exact G1|]. split; [done|]. split; [done|].
  rewrite P3, G3. fold r. unfold credited. cbn [lx_balance lx_minted lx_cash lx_test].
  rewrite !wrap64_id by done.
  pose proof (clamp_test_bounds (lx_test r) (lx_balance r + amount) (held_sum s ws) Ht0).
  pose proof (lot_test_bounds LXCTypePurchase amount meta Hp).
  change (lotFunding LXCTypeGrant amount meta).2 with 0.
  change (bool_decide (LXCTypePurchase = LXCTypePurchase)) with true.
  change (bool_decide (LXCTypeGrant = LXCTypePurchase)) with false. cbn iota. lia.
Qed.

Lemma credit_functional_witness :
  exists sp sg, CreditLXC "ws" 700 "card" ∅ demo_store = Ok (5700, sp) /\
    GrantLXC "ws" 700 "card" ∅ demo_store = Ok (5700, sg) /\ lx_cash (lxc_row sp "ws") = 3700 /\
    lx_cash (lxc_row sg "ws") = 3000.
Proof.
  destruct (credit_functional "ws" 700 "card" ∅ demo_store demo_inv eq_refl)
    as (sp & sg & P & G & _ & _ & _ & _ & _ & _ & C1 & C2 & _);
    [apply in_i64b_spec; reflexivity.. | vm_compute; congruence | vm_compute; congruence
    | apply in_i64b_spec; reflexivity |].
  exists sp, sg. exact (conj P (conj G (conj C1 C2))).
Defined.

(** spends consume unbacked credit first, whatever their order and sizes:
    after any sequence of spends the balance covers, the cash they consumed is
    exactly the part of their total the unbacked credit could not pay, which is
    the least any policy could consume, and the backing left never exceeds the
    balance left. *)
Theorem spends_consume_unbacked_first spends bal cash :
  in_i64 bal -> 0 <= cash <= bal -> Forall (fun x => 0 <= x) spends -> sumZ spends <= bal ->
  consume_all bal cash spends =
    (bal - sumZ spends, Z.min cash (bal - sumZ spends), Z.max 0 (sumZ spends - (bal - cash))).
Proof.
  revert bal cash. induction spends as [|x l IH]; intros bal cash Hb Hc Hx Hs; cbn [consume_all sumZ] in *.
  - f_equal; [f_equal|]; lia.
  - apply Forall_cons in Hx as [Hx0 Hl]. pose proof (sumZ_nonneg l Hl).
    destruct (cash_step bal cash x Hb Hc ltac:(lia)) as [-> ->].
    rewrite (wrap64_id (bal - x)) by (i64_ranges; lia).
    rewrite IH by (done || (i64_ranges; lia) || lia).
    f_equal; [f_equal|]; lia.
Qed.

Lemma spends_consume_unbacked_first_witness :
  consume_all 100 30 [50; 0; 40] = (10, 10, 20).
Proof.
  exact (spends_consume_unbacked_first [50; 0; 40] 100 30 (proj1 (in_i64b_spec 100) eq_refl)
    ltac:(lia) ltac:(repeat constructor; lia) ltac:(vm_compute; congruence)).
Defined.
