(* ===== verification/Clock.v ===== *)
(** The parts of Go's [time] package the spending rules use: instants are [Z]
    nanoseconds since the Unix epoch, a location is the zone lookup its IANA
    entry gives, dates are proleptic Gregorian, and [time.Date] resolves a wall
    clock reading as the package documents.  The zone data itself is not part of
    the repository: [LoadLocation] is a parameter of the rules. *)
From stdpp Require Import pretty.
From S2P Require Import Prelude.
Open Scope Z_scope.

Definition nanosecond : Z := 1.
Definition second : Z := 1000000000.
Definition minute : Z := 60 * second.
Definition hour : Z := 60 * minute.

(** At a UTC second: the zone's offset in force, since when and until when. *)
Record Location := mkLocation {
  lookup_zone : Z -> Z * Z * Z;
}.

Definition UTC : Location := mkLocation (fun t => (0, t, t + 1)).

Definition zone_offset (loc : Location) (unix : Z) : Z := (lookup_zone loc unix).1.1.

(** ** Dates *)

(** Days from 1 January 1970 to a date; [d] may run outside its month. *)
Definition days_from_civil (y m d : Z) : Z :=
  let y := if m <=? 2 then y - 1 else y in
  let era := y / 400 in
  let yoe := y mod 400 in
  let doy := (153 * (if 2 <? m then m - 3 else m + 9) + 2) / 5 + d - 1 in
  era * 146097 + (yoe * 365 + yoe / 4 - yoe / 100 + doy) - 719468.

(** The date within its 400-year era, the year counted from the era's start. *)
Definition civil_of_doe (doe : Z) : Z * Z * Z :=
  let yoe := (doe - doe / 1460 + doe / 36524 - doe / 146096) / 365 in
  let doy := doe - (365 * yoe + yoe / 4 - yoe / 100) in
  let mp := (5 * doy + 2) / 153 in
  let d := doy - (153 * mp + 2) / 5 + 1 in
  let m := if mp <? 10 then mp + 3 else mp - 9 in
  (yoe + (if m <=? 2 then 1 else 0), m, d).

Definition civil_from_days (z : Z) : Z * Z * Z :=
  let z := z + 719468 in
  let '(y, m, d) := civil_of_doe (z mod 146097) in
  (y + z / 146097 * 400, m, d).

(** Sunday is 0. *)
Definition weekday_of_days (z : Z) : Z := (z + 4) mod 7.

(** ** A time in a location *)

(** Wall-clock seconds of instant [t] in [loc]. *)
Definition wall_seconds (loc : Location) (t : Z) : Z :=
  let unix := t / second in unix + zone_offset loc unix.

Definition wall_days (loc : Location) (t : Z) : Z := wall_seconds loc t / 86400.

Definition Year (loc : Location) (t : Z) : Z := (civil_from_days (wall_days loc t)).1.1.
Definition Month (loc : Location) (t : Z) : Z := (civil_from_days (wall_days loc t)).1.2.
Definition Day (loc : Location) (t : Z) : Z := (civil_from_days (wall_days loc t)).2.
Definition Weekday (loc : Location) (t : Z) : Z := weekday_of_days (wall_days loc t).
Definition Hour (loc : Location) (t : Z) : Z := wall_seconds loc t mod 86400 / 3600.
Definition Minute (loc : Location) (t : Z) : Z := wall_seconds loc t mod 3600 / 60.
Definition Second (loc : Location) (t : Z) : Z := wall_seconds loc t mod 60.
Definition Nanosecond (t : Z) : Z := t mod second.

(** [time.Date(y, m, d, 0, 0, 0, 0, loc)]. *)
Definition Date (loc : Location) (y m d : Z) : Z :=
  let unix := days_from_civil y m d * 86400 in
  let '(offset, start, stop) := lookup_zone loc unix in
  let unix' :=
    if offset =? 0 then unix
    else
      let utc := unix - offset in
      if (utc <? start) || (stop <=? utc) then unix - zone_offset loc utc else utc in
  unix' * second.

(** [time.Date(y, m, d, ...)] with [tod] nanoseconds of the day: a month outside 1 to 12
    carries into the year, a day outside its month into the months. *)
Definition DateTime (loc : Location) (y m d tod : Z) : Z :=
  let y := y + (m - 1) / 12 in
  let m := (m - 1) mod 12 + 1 in
  let unix := days_from_civil y m d * 86400 + tod / second in
  let '(offset, start, stop) := lookup_zone loc unix in
  let unix' :=
    if offset =? 0 then unix
    else
      let utc := unix - offset in
      if (utc <? start) || (stop <=? utc) then unix - zone_offset loc utc else utc in
  unix' * second + tod mod second.

(** [t.AddDate(years, months, days)]: the date's fields, each added to, and the same time
    of the day; what does not fit carries over, as [time.Date] carries it. *)
Definition AddDate (loc : Location) (t years months days : Z) : Z :=
  DateTime loc (Year loc t + years) (Month loc t + months) (Day loc t + days)
    (wall_seconds loc t mod 86400 * second + Nanosecond t).

(** ** RFC 3339 *)

Definition two_digits (n : Z) : string := (if n <? 10 then "0" else "") +:+ pretty n.
Definition four_digits (n : Z) : string :=
  (if n <? 10 then "000" else if n <? 100 then "00" else if n <? 1000 then "0" else "") +:+ pretty n.

(** [t.UTC().Format(time.RFC3339)], in a year from 0 to 9999. *)
Definition RFC3339 (t : Z) : string :=
  four_digits (Year UTC t) +:+ "-" +:+ two_digits (Month UTC t) +:+ "-" +:+ two_digits (Day UTC t) +:+ "T" +:+
  two_digits (Hour UTC t) +:+ ":" +:+ two_digits (Minute UTC t) +:+ ":" +:+ two_digits (Second UTC t) +:+ "Z".

(** ** Facts *)

Lemma days_from_civil_day y m d : days_from_civil y m d = days_from_civil y m 1 + (d - 1).
Proof. unfold days_from_civil. lia. Qed.

(** Whether a day of an era reads back as itself, as a date of that era. *)
Definition doe_ok (doe : Z) : bool :=
  let '(y, m, d) := civil_of_doe doe in
  (days_from_civil y m d + 719468 =? doe) && (1 <=? d) && (d <=? 31) && (1 <=? m) && (m <=? 12)
  && (0 <=? y) && (y <=? 400).

Fixpoint all_below (p : Z -> bool) (n : nat) (z : Z) : bool :=
  match n with
  | O => true
  | S n => p z && all_below p n (z + 1)
  end.

Lemma all_below_spec p n z x : all_below p n z = true -> z <= x < z + Z.of_nat n -> p x = true.
Proof.
  revert z. induction n as [|n IH]; cbn [all_below]; intros z H Hx; [lia|].
  apply andb_prop in H as [Hz Hn]. destruct (decide (x = z)) as [->|]; [done|].
  apply (IH (z + 1) Hn). lia.
Qed.

Lemma doe_all_ok : all_below doe_ok (Z.to_nat 146097) 0 = true.
Proof. vm_compute. reflexivity. Qed.

Lemma civil_of_doe_spec doe y m d :
  0 <= doe < 146097 -> civil_of_doe doe = (y, m, d) ->
  days_from_civil y m d + 719468 = doe /\ 1 <= d <= 31 /\ 1 <= m <= 12.
Proof.
  intros H E. pose proof (all_below_spec doe_ok _ 0 doe doe_all_ok ltac:(lia)) as K.
  unfold doe_ok in K. rewrite E in K. lia.
Qed.

Lemma days_from_civil_era y m d k : days_from_civil (y + k * 400) m d = days_from_civil y m d + k * 146097.
Proof.
  unfold days_from_civil. destruct (m <=? 2).
  - replace (y + k * 400 - 1) with (y - 1 + k * 400) by lia.
    rewrite Z.div_add, Z.mod_add by lia. lia.
  - rewrite Z.div_add, Z.mod_add by lia. lia.
Qed.

(** Every day has one date, in range, and that date is the day. *)
Lemma civil_from_days_spec z y m d :
  civil_from_days z = (y, m, d) -> days_from_civil y m d = z /\ 1 <= d <= 31 /\ 1 <= m <= 12.
Proof.
  unfold civil_from_days. pose proof (Z.mod_pos_bound (z + 719468) 146097 ltac:(lia)) as B.
  destruct (civil_of_doe _) as [[y' m'] d'] eqn:E. intros [= <- <- <-].
  destruct (civil_of_doe_spec _ _ _ _ B E) as (D & Hd & Hm). split; [|done].
  rewrite days_from_civil_era.
  pose proof (Z.div_mod (z + 719468) 146097 ltac:(lia)). lia.
Qed.

Lemma pred_era y :
  y mod 400 = 0 /\ (y - 1) / 400 = y / 400 - 1 /\ (y - 1) mod 400 = 399 \/
  0 < y mod 400 < 400 /\ (y - 1) / 400 = y / 400 /\ (y - 1) mod 400 = y mod 400 - 1.
Proof.
  pose proof (Z.div_mod y 400 ltac:(lia)). pose proof (Z.mod_pos_bound y 400 ltac:(lia)).
  destruct (Z.eq_dec (y mod 400) 0) as [E|E]; [left|right]; split_and!; try lia.
  - symmetry. apply (Z.div_unique _ _ _ 399); lia.
  - symmetry. apply (Z.mod_unique _ _ (y / 400 - 1)); lia.
  - symmetry. apply (Z.div_unique _ _ _ (y mod 400 - 1)); lia.
  - symmetry. apply (Z.mod_unique _ _ (y / 400)); lia.
Qed.

(** The divisions between constants, computed. *)
Ltac div_consts :=
  repeat match goal with
  | |- context [Z.div ?a ?b] =>
      let v := eval vm_compute in (Z.div a b) in
      match v with Z0 => idtac | Zpos _ => idtac | Zneg _ => idtac end; change (Z.div a b) with v
  end.

(** From the first of a month to the first of the next. *)
Lemma month_length y m :
  1 <= m <= 12 ->
  28 <= days_from_civil (y + m / 12) (m mod 12 + 1) 1 - days_from_civil y m 1 <= 31.
Proof.
  intros H. assert (m = 12 \/ m = 2 \/ m = 1 \/ 3 <= m <= 11) as [->|[->|[->|Hm]]] by lia.
  - change (12 / 12) with 1. change (12 mod 12 + 1) with 1. unfold days_from_civil. cbn -[Z.div Z.modulo Z.add Z.mul Z.sub].
    replace (y + 1 - 1) with y by lia. div_consts. lia.
  - change (2 / 12) with 0. change (2 mod 12 + 1) with 3. rewrite Z.add_0_r. unfold days_from_civil.
    cbn -[Z.div Z.modulo Z.add Z.mul Z.sub].
    destruct (pred_era y) as [(E1 & E2 & E3)|(E1 & E2 & E3)]; rewrite E2, E3, ?E1; div_consts; [lia|].
    revert E1. generalize (y mod 400) (y / 400). intros r e E1.
    assert ((r - 1) / 4 <= r / 4 <= (r - 1) / 4 + 1) by (Z.to_euclidean_division_equations; lia).
    assert (r / 100 = (r - 1) / 100 \/ r / 100 = (r - 1) / 100 + 1 /\ r / 4 = (r - 1) / 4 + 1)
      by (Z.to_euclidean_division_equations; lia). lia.
  - change (1 / 12) with 0. change (1 mod 12 + 1) with 2. rewrite Z.add_0_r. unfold days_from_civil.
    cbn -[Z.div Z.modulo Z.add Z.mul Z.sub]. div_consts. lia.
  - rewrite (Z.div_small m 12), (Z.mod_small m 12), Z.add_0_r by lia. unfold days_from_civil.
    rewrite (proj2 (Z.leb_gt (m + 1) 2)), (proj2 (Z.leb_gt m 2)), (proj2 (Z.ltb_lt 2 m)), (proj2 (Z.ltb_lt 2 (m + 1))) by lia.
    assert (m = 3 \/ m = 4 \/ m = 5 \/ m = 6 \/ m = 7 \/ m = 8 \/ m = 9 \/ m = 10 \/ m = 11) as C by lia.
    destruct C as [->|[->|[->|[->|[->|[->|[->|[->| ->]]]]]]]]; div_consts; generalize (y mod 400) (y / 400); intros r e; lia.
Qed.

(** The fields [AddDate] starts from are the instant itself. *)
Lemma UTC_fields t :
  days_from_civil (Year UTC t) (Month UTC t) (Day UTC t) * 86400 + wall_seconds UTC t mod 86400 = t / second /\
  1 <= Month UTC t <= 12.
Proof.
  unfold Year, Month, Day. destruct (civil_from_days (wall_days UTC t)) as [[y m] d] eqn:E.
  destruct (civil_from_days_spec _ _ _ _ E) as (D & _ & Hm). cbn [fst snd]. rewrite D. split; [|done].
  unfold wall_days, wall_seconds, zone_offset; cbn. rewrite Z.add_0_r.
  pose proof (Z.div_mod (t / second) 86400 ltac:(lia)). lia.
Qed.

Lemma AddDate_UTC t y m d :
  AddDate UTC t y m d =
  t + (days_from_civil (Year UTC t + y + (Month UTC t + m - 1) / 12) ((Month UTC t + m - 1) mod 12 + 1) (Day UTC t + d)
       - days_from_civil (Year UTC t) (Month UTC t) (Day UTC t)) * 86400 * second.
Proof.
  destruct (UTC_fields t) as [F _]. unfold AddDate, DateTime. cbn [lookup_zone UTC]. cbn [Z.eqb].
  unfold Nanosecond in *. set (tod := wall_seconds UTC t mod 86400) in *. clearbody tod.
  assert ((tod * second + t mod second) / second = tod /\ (tod * second + t mod second) mod second = t mod second) as [-> ->]
    by (pose proof (Z.mod_pos_bound t second ltac:(done)); rewrite Z.div_add_l, Z.div_small by (done || lia);
        rewrite (Z.add_comm (tod * second)), Z.mod_add, Z.mod_mod by done; lia).
  pose proof (Z.div_mod t second ltac:(done)) as E. rewrite <- F in E. revert E. generalize (t mod second). unfold second. lia.
Qed.

(** The days after, the time of the day the same. *)
Lemma AddDate_days t d : AddDate UTC t 0 0 d = t + d * (24 * hour).
Proof.
  destruct (UTC_fields t) as [_ Hm]. rewrite AddDate_UTC.
  rewrite Z.div_small, Z.mod_small by lia. replace (Month UTC t + 0 - 1 + 1) with (Month UTC t) by lia.
  rewrite !Z.add_0_r. rewrite (days_from_civil_day _ _ (_ + d)), (days_from_civil_day _ _ (Day UTC t)).
  unfold hour, minute, second. lia.
Qed.

(** A month later is the month's own length later, whatever month follows it. *)
Lemma AddDate_month t :
  exists n, 28 <= n <= 31 /\ AddDate UTC t 0 1 0 = t + n * (24 * hour).
Proof.
  destruct (UTC_fields t) as [_ Hm]. rewrite AddDate_UTC.
  replace (Month UTC t + 1 - 1) with (Month UTC t) by lia. rewrite !Z.add_0_r.
  rewrite (days_from_civil_day _ _ (Day UTC t)), (days_from_civil_day (Year UTC t) _ (Day UTC t)).
  pose proof (month_length (Year UTC t) (Month UTC t) Hm) as L.
  eexists; split; [exact L|]. unfold hour, minute, second. lia.
Qed.
