(* ===== verification/Rules.v ===== *)
(** Spending rules per agent, judged inside the movement's transaction
    ([internal/economy/agent_rules.go]), with their boosts
    ([agent_rule_boosts.go]), the unusual-spend watch and the pauses
    ([agent_alerts.go]) and the credential a pause revokes ([agent_kya.go]).

    A request above the approval amount is refused with [ErrApprovalRequired];
    [refusedMovement] files the approval on the state the rollback left. *)
From S2P Require Import Prelude Money Tables Postings Clock.
From stdpp Require Import pretty.
Open Scope Z_scope.
Open Scope i64_scope.

Implicit Types (s : Store).

(** ** The limits as the rules hold them *)

(** A limit that may be absent: absent is no limit. *)
Definition limitOf (v : option Z) : Z := default 0 v.

Definition AgentLicences : list string := ["commercial"; "enterprise"]%string.

(** [slices.Contains]. *)
Definition Contains (l : list string) (x : string) : bool := bool_decide (x ∈ l).

Definition limit_list (o : option (list string)) : list string := default [] o.

Definition limit_map (o : option (gmap string Z)) : gmap string Z := default ∅ o.

Definition no_rules : AgentRules :=
  mkRules 0 None 0 None 0 0 [] [] None "" "" "" false None None None None None None None None.

(** [strconv.FormatFloat(float64(ulxc)/1e6, 'f', -1, 64)]: up to 10^15 µLXC the
    shortest decimal that reads back as the quotient is the exact one. *)
Definition six_digits (n : Z) : list Ascii.ascii :=
  let d := String.list_ascii_of_string (pretty n) in
  replicate (6 - length d) "0"%char ++ d.

Fixpoint drop_zeros (l : list Ascii.ascii) : list Ascii.ascii :=
  match l with
  | a :: l' => if bool_decide (a = "0"%char) then drop_zeros l' else l
  | [] => []
  end.

Definition lxcString (ulxc : Z) : string :=
  let a := Z.abs ulxc in
  let frac := rev (drop_zeros (rev (six_digits (a mod 1000000)))) in
  (if ulxc <? 0 then "-" else "") +:+ pretty (a / 1000000) +:+
  match frac with [] => "" | _ => "." +:+ String.string_of_list_ascii frac end.

Example lxcString_examples :
  lxcString 1500000 = "1.5"%string /\ lxcString 20 = "0.00002"%string /\ lxcString 0 = "0"%string
  /\ lxcString (-3000000) = "-3"%string.
Proof. by vm_compute. Qed.

Definition digit (a : Ascii.ascii) : Z := Z.of_nat (Ascii.nat_of_ascii a) - 48.

(** The minutes field of the layout: two digits, at most 59, nothing after. *)
Definition clock_minute (h : Z) (l : list Ascii.ascii) : option Z :=
  match l with
  | [a; b] =>
      if is_digit a && is_digit b && (10 * digit a + digit b <? 60)
      then Some (h * 60 + (10 * digit a + digit b)) else None
  | _ => None
  end.

(** [time.Parse("15:04", hhmm)]: one or two digits of hour below 24, a colon,
    two digits of minute below 60. *)
Definition clockMinutes (hhmm : string) : option Z :=
  match String.list_ascii_of_string hhmm with
  | a :: c :: l =>
      if negb (is_digit a) then None
      else if bool_decide (c = ":"%char) then clock_minute (digit a) l
      else match l with
           | c' :: l' =>
               if is_digit c && bool_decide (c' = ":"%char) && (10 * digit a + digit c <? 24)
               then clock_minute (10 * digit a + digit c) l' else None
           | [] => None
           end
  | _ => None
  end.

Example clockMinutes_examples :
  clockMinutes "09:30" = Some 570 /\ clockMinutes "9:30" = Some 570 /\ clockMinutes "23:59" = Some 1439 /\
  clockMinutes "24:00" = None /\ clockMinutes "09:60" = None /\ clockMinutes "09:3" = None.
Proof. by vm_compute. Qed.

(** ** Boosts *)

Inductive BoostableRule : Type :=
| BoostMaxPerRequest | BoostHourly | BoostDaily | BoostWeekly | BoostMonthly | BoostApproval | BoostRequests.

Definition boostableRules (name : string) : option BoostableRule :=
  if bool_decide (name = "max_per_request_ulxc"%string) then Some BoostMaxPerRequest
  else if bool_decide (name = "hourly_limit_ulxc"%string) then Some BoostHourly
  else if bool_decide (name = "daily_limit_ulxc"%string) then Some BoostDaily
  else if bool_decide (name = "weekly_limit_ulxc"%string) then Some BoostWeekly
  else if bool_decide (name = "monthly_limit_ulxc"%string) then Some BoostMonthly
  else if bool_decide (name = "approval_above_ulxc"%string) then Some BoostApproval
  else if bool_decide (name = "requests_per_minute"%string) then Some BoostRequests
  else None.

(** Where the rules keep the limit; [None] is a nil pointer. *)
Definition boost_field (b : BoostableRule) (r : AgentRules) : option Z :=
  match b with
  | BoostMaxPerRequest => Some (MaxPerRequestULXC r)
  | BoostHourly => HourlyLimitULXC r
  | BoostDaily => Some (DailyLimitULXC r)
  | BoostWeekly => WeeklyLimitULXC r
  | BoostMonthly => Some (MonthlyLimitULXC r)
  | BoostApproval => Some (ApprovalAboveULXC r)
  | BoostRequests => RequestsPerMinute r
  end.

(** The rules with their seven boostable limits replaced. *)
Definition with_limits (r : AgentRules) (max : Z) (hourly : option Z) (daily : Z) (weekly : option Z)
    (monthly approval : Z) (rpm : option Z) : AgentRules :=
  mkRules max hourly daily weekly monthly approval (AllowedModels r) (AllowedProviders r)
    (AllowedListings r) (ActiveFrom r) (ActiveUntil r) (Timezone r) (PauseOnUnusualSpend r)
    (ModelDailyLimitsULXC r) rpm (AllowedPayees r) (BlockedPayees r) (PayeeDailyLimitsULXC r)
    (MaxCommitmentULXC r) (AllowedLicences r) (MaySubscribe r).

Definition set_boost_field (b : BoostableRule) (v : Z) (r : AgentRules) : AgentRules :=
  let mx := MaxPerRequestULXC r in let h := HourlyLimitULXC r in let d := DailyLimitULXC r in
  let w := WeeklyLimitULXC r in let m := MonthlyLimitULXC r in let a := ApprovalAboveULXC r in
  let q := RequestsPerMinute r in
  match b with
  | BoostMaxPerRequest => with_limits r v h d w m a q
  | BoostHourly => with_limits r mx (Some v) d w m a q
  | BoostDaily => with_limits r mx h v w m a q
  | BoostWeekly => with_limits r mx h d (Some v) m a q
  | BoostMonthly => with_limits r mx h d w v a q
  | BoostApproval => with_limits r mx h d w m v q
  | BoostRequests => with_limits r mx h d w m a (Some v)
  end.

Definition apply_boost (r : AgentRules) (b : AgentRuleBoost) : AgentRules :=
  match boostableRules (bo_rule b) with
  | None => r
  | Some f =>
      match boost_field f r with
      | Some v => if (v =? bo_raised_from b) && (v <? bo_value b) then set_boost_field f (bo_value b) r else r
      | None => r
      end
  end.

(** A boost raises its limit while the rules still set it where it was. *)
Definition applyBoosts (r : AgentRules) (boosts : list AgentRuleBoost) : AgentRules :=
  foldl apply_boost r boosts.

(** The agent's boosts in force at [at_].  The primary key allows one per rule,
    so the order they are laid over the rules in does not matter. *)
Definition agentBoosts s (agent : string) (at_ : Z) : list AgentRuleBoost :=
  omap (fun kb : (string * string) * AgentRuleBoost =>
          if bool_decide (kb.1.1 = agent) && (at_ <? bo_until kb.2) then Some kb.2 else None)
       (map_to_list (agent_rule_boosts s)).

(** [scanAgentRules]: a NULL limit reads as zero, a NULL list as empty. *)
Definition scanAgentRules (r : AgentRules) : AgentRules :=
  mkRules (MaxPerRequestULXC r) (Some (limitOf (HourlyLimitULXC r))) (DailyLimitULXC r)
    (Some (limitOf (WeeklyLimitULXC r))) (MonthlyLimitULXC r) (ApprovalAboveULXC r) (AllowedModels r)
    (AllowedProviders r) (Some (limit_list (AllowedListings r))) (ActiveFrom r) (ActiveUntil r)
    (Timezone r) (PauseOnUnusualSpend r) (Some (limit_map (ModelDailyLimitsULXC r)))
    (Some (limitOf (RequestsPerMinute r))) (Some (limit_list (AllowedPayees r)))
    (Some (limit_list (BlockedPayees r))) (Some (limit_map (PayeeDailyLimitsULXC r)))
    (Some (limitOf (MaxCommitmentULXC r))) (Some (limit_list (AllowedLicences r)))
    (Some (default false (MaySubscribe r))).

Definition agentRulesInForce s (agent : string) (at_ : Z) : option AgentRules :=
  (fun r => applyBoosts (scanAgentRules r) (agentBoosts s agent at_)) <$> agent_rules s !! agent.

(** ** What counts against the limits *)

(** [kind IN (...)] of the spending rules, and payments out. *)
Definition spend_kinds : list string := ["spend"; "hold"; "settle"; "release"; "card"; "platform_fee"]%string.

Definition agentSpendPostings (p : Posting) : bool :=
  Contains spend_kinds (ps_kind p) || (bool_decide (ps_kind p = "pay"%string) && (ps_amount p <? 0)).

(** SQL's [sum(f(row)) FILTER (WHERE cond)], zero over no rows. *)
Definition sum_where {A} (cond : A -> bool) (f : A -> Z) (l : list A) : Z :=
  sumZ ((fun x => if cond x then f x else 0) <$> l).

(** [ref LIKE 'invoice_agent:%']: the underscore matches any one character. *)
Definition invoice_ref (ref : string) : bool :=
  let pat := lit "invoice" ++ (fun _ => true) :: lit "agent:" in
  matches pat (take 14 (String.list_ascii_of_string ref)).

Definition own_posting (ws agent : string) (p : Posting) : bool :=
  bool_decide (ps_ws p = ws) && bool_decide (ps_account p = agentAccount agent).

Definition agent_spent s (ws agent : string) (since : Z) : Z :=
  - sum_where (fun p => own_posting ws agent p && (since <=? ps_at p) && agentSpendPostings p) ps_amount
      (agent_postings s)
  + sum_where (fun u => bool_decide (mu_ws u = ws) && bool_decide (mu_agent u = agent)
                        && bool_decide (mu_charge u = "billed"%string) && (since <=? mu_at u)) mu_price (market_uses s)
  + sum_where (fun p => bool_decide (mp_ws p = ws) && bool_decide (mp_agent p = agent) && (since <=? mp_at p)
                        && negb (Contains ["failed"; "returned"]%string (mp_status p))) mp_value (money_payments s)
  + sum_where (fun p => bool_decide (pp_ws p = ws) && bool_decide (pp_agent p = agent)
                        && invoice_ref (pp_ref p) && (since <=? pp_at p)) pp_amount (agent_payee_payments s).

Definition agentSpentSince (ws agent : string) (since : Z) : WTx Z :=
  let! v := tx_gets (fun s : Store => agent_spent s ws agent since) in bigint v.

Definition agent_model_spent s (ws agent model : string) (since : Z) : Z :=
  - sum_where (fun p => own_posting ws agent p && bool_decide (ps_model p = Some (modelCapKey model))
                        && (since <=? ps_at p)
                        && Contains ["spend"; "hold"; "settle"; "release"; "platform_fee"]%string (ps_kind p))
      ps_amount (agent_postings s).

Definition agentModelSpentSince (ws agent model : string) (since : Z) : WTx Z :=
  let! v := tx_gets (fun s : Store => agent_model_spent s ws agent model since) in bigint v.

(** The agent's questions of the last hour before [since], and after. *)
Definition question_rows s (ws agent : string) (since : Z) : list Posting :=
  filter (fun p => own_posting ws agent p && Contains ["hold"; "spend"]%string (ps_kind p)
                   && (since - hour <? ps_at p) = true) (agent_postings s).

(** [GROUP BY ref HAVING min(created_at) > since], counted. *)
Definition agentRequestsSince s (ws agent : string) (since : Z) : Z :=
  let rows := question_rows s ws agent since in
  Z.of_nat (length (filter (fun ref => Forall (fun p => ps_ref p = ref -> since < ps_at p) rows)
                      (remove_dups (ps_ref <$> rows)))).

(** The ids the payee lists and caps know a payee by: its own, then its company's. *)
Definition payeeIDs s (p : Payee) : list string :=
  if bool_decide (py_id p = ""%string) then [py_id p]
  else if bool_decide (py_kind p = "agent"%string)
  then [py_id p; match agent_accounts s !! py_id p with Some a => ag_ws a | None => "" end%string]
  else if bool_decide (py_kind p = "listing"%string)
  then [py_id p; match market_listings s !! py_id p with Some l => ml_ws l | None => "" end%string]
  else [py_id p].

Definition agent_paid_payee s (agent id : string) (since : Z) : Z :=
  sum_where (fun p => bool_decide (pp_agent p = agent) && Contains (pp_ids p) id && (since <=? pp_at p))
    pp_amount (agent_payee_payments s).

Definition agentPaidPayeeSince (agent id : string) (since : Z) : WTx Z :=
  let! v := tx_gets (fun s : Store => agent_paid_payee s agent id since) in bigint v.

(** ** The pieces of a judgement *)

(** [revokeAgentKYA]: the agent's credentials in force are revoked. *)
Definition revokeAgentKYA (c : Ctx) (agent reason : string) : WTx unit :=
  tx_modify (fun s : Store => with_kya_credentials
    ((fun k => if bool_decide (ky_agent k = agent) && bool_decide (ky_revoked k = None) && (now c <? ky_expires k)
               then mkKya (ky_ws k) (ky_agent k) (ky_expires k) (Some (now c, reason)) else k)
     <$> kya_credentials s) s).

Definition revokeWorkspaceKYA (c : Ctx) (ws reason : string) : WTx unit :=
  tx_modify (fun s : Store => with_kya_credentials
    ((fun k => if bool_decide (ky_ws k = ws) && bool_decide (ky_revoked k = None) && (now c <? ky_expires k)
               then mkKya (ky_ws k) (ky_agent k) (ky_expires k) (Some (now c, reason)) else k)
     <$> kya_credentials s) s).

Definition refuse (why : RuleRefusal) : WalletErr := ErrAgentRule why.

Definition is_some {A} (o : option A) : bool := match o with Some _ => true | None => false end.

(** An archived agent, a workspace whose agents are all paused, a paused agent:
    in that order, each refuses any movement. *)
Definition refuseIfPaused (agent : string) : WTx unit :=
  let! row := tx_gets (fun s : Store => agent_accounts s !! agent) in
  match row with
  | None => tx_fail ErrNoRow
  | Some a =>
      let! all := tx_gets (fun s : Store => agent_workspace_pauses s !! ag_ws a) in
      tx_guard (negb (is_some (ag_archived a))) (refuse RefArchived) ;;;
      tx_guard (negb (is_some all)) (refuse RefAllPaused) ;;;
      tx_guard (negb (is_some (ag_paused a))) (refuse RefPaused)
  end.

Definition UnusualSpendMultiple : Z := 5.
Definition usualSpendHours : Z := 7 * 24.

(** What the agent's spending postings between two instants come to. *)
Definition watched_spend s (ws agent : string) (from until : Z) : Z :=
  - sum_where (fun p => own_posting ws agent p && (from <=? ps_at p) && (ps_at p <? until) && agentSpendPostings p)
      ps_amount (agent_postings s).

Definition watched_spend_since s (ws agent : string) (from : Z) : Z :=
  - sum_where (fun p => own_posting ws agent p && (from <=? ps_at p) && agentSpendPostings p)
      ps_amount (agent_postings s).

Definition unusual_reason (lastHour usual : Z) : string :=
  "unusual spend: " +:+ lxcString lastHour +:+ " LXC in an hour, against a usual " +:+ lxcString usual +:+ " LXC an hour".

Definition pause_row (t : Z) (reason : string) (a : AgentAccount) : AgentAccount :=
  match ag_paused a with
  | Some _ => a
  | None => mkAgent (ag_ws a) (ag_name a) (ag_owner a) (ag_kind a) (ag_description a) (ag_created a)
              (Some t) reason (ag_archived a)
  end.

(** The unusual-spend rule, on a movement the agent's rules have let through. *)
Definition watchAgentSpend (c : Ctx) (ws agent : string) (amount at_ : Z) (pauseOn : bool) : WTx unit :=
  let hourAgo := at_ - hour in
  let! lastHour := tx_gets (fun s : Store => watched_spend_since s ws agent hourAgo) in
  let! lastHour := bigint lastHour in
  let! usualWeek := tx_gets (fun s : Store => watched_spend s ws agent (hourAgo - usualSpendHours * hour) hourAgo) in
  let! usualWeek := bigint usualWeek in
  let lastHour := lastHour +! amount in
  if (usualWeek <=? 0) || (lastHour *! usualSpendHours <? UnusualSpendMultiple *! usualWeek) then tx_ret tt
  else
    let! raised := tx_gets (fun s : Store =>
      existsb (fun a => bool_decide (al_agent a = agent) && (hourAgo <=? al_at a)) (agent_spend_alerts s)) in
    if (raised : bool) then tx_ret tt
    else
      let usual := Z.quot usualWeek usualSpendHours in
      let! id := uuid_new c in
      tx_modify (fun s : Store => with_agent_spend_alerts
        (mkAlert ("alr_" +:+ id) ws agent lastHour usual pauseOn (now c) :: agent_spend_alerts s) s) ;;;
      if pauseOn then
        tx_modify (fun s : Store => with_agent_accounts
          (alter (pause_row (now c) (unusual_reason lastHour usual)) agent (agent_accounts s)) s) ;;;
        revokeAgentKYA c agent "frozen"
      else tx_ret tt.

(** [recordPayeePayment]: a payment of nothing, or to no one, is not one.  [ids]
    is [None] when the rules did not read the payee's ids. *)
Definition recordPayeePayment (c : Ctx) (ws agent : string) (req : AgentRequest) (ids : option (list string))
    (amount : Z) (ref : string) : WTx unit :=
  if negb (rq_payment req) || bool_decide (py_id (rq_payee req) = ""%string) || (amount <=? 0) then tx_ret tt
  else
    let! ids := match ids with
                | Some ids => tx_ret ids
                | None => tx_gets (fun s : Store => payeeIDs s (rq_payee req))
                end in
    tx_modify (fun s : Store => with_agent_payee_payments
      (mkPayeePayment ws agent (py_kind (rq_payee req)) (filter (fun id => id <> ""%string) ids) amount ref (now c)
       :: agent_payee_payments s) s).

(** The marketplace licence a payment takes, judged against the rules. *)
Definition judgeCommitment (r : AgentRules) (c : Commitment) : WTx unit :=
  let may := default false (MaySubscribe r) in
  if bool_decide (cm_kind c = ""%string) then tx_ret tt
  else
    tx_guard (Contains AgentLicences (cm_licence c)) (refuse RefLicencePersonal) ;;;
    tx_guard (bool_decide (limit_list (AllowedLicences r) = []) || Contains (limit_list (AllowedLicences r)) (cm_licence c))
      (refuse RefLicence) ;;;
    tx_guard (negb (bool_decide (cm_kind c = "subscribe"%string) && negb may)) (refuse RefSubscribe) ;;;
    tx_guard (negb (cm_renews c && negb may)) (refuse RefRenews) ;;;
    tx_guard (negb ((0 <? limitOf (MaxCommitmentULXC r)) && (limitOf (MaxCommitmentULXC r) <? cm_ulxc c)))
      (refuse RefCommitment).

(** [agentPeriodLimit]. *)
Record agentPeriodLimit := mkPeriodLimit {
  pl_ulxc : Z;
  pl_since : Z;
  pl_name : string;
}.

Definition day_start (now_ : Z) (loc : Location) : Z :=
  Date loc (Year loc now_) (Month loc now_) (Day loc now_).

(** The clock hour, the day, the week from Monday and the month, begun in [loc]. *)
Definition periodLimits (r : AgentRules) (now_ : Z) (loc : Location) : list agentPeriodLimit :=
  let monday := Day loc now_ - (Weekday loc now_ + 6) mod 7 in
  let hr := now_ - (Minute loc now_ * minute + Second loc now_ * second + Nanosecond now_) in
  [ mkPeriodLimit (limitOf (HourlyLimitULXC r)) hr "hourly";
    mkPeriodLimit (DailyLimitULXC r) (day_start now_ loc) "daily";
    mkPeriodLimit (limitOf (WeeklyLimitULXC r)) (Date loc (Year loc now_) (Month loc now_) monday) "weekly";
    mkPeriodLimit (MonthlyLimitULXC r) (Date loc (Year loc now_) (Month loc now_) 1) "monthly" ].

Definition modelDailyLimit (r : AgentRules) (model : string) (now_ : Z) (loc : Location) : Z * Z :=
  (default 0 (limit_map (ModelDailyLimitsULXC r) !! modelCapKey model), day_start now_ loc).

(** Whether the wall clock stands in the active hours; earlier than its start, an
    end means the window crosses midnight. *)
Definition inside_hours (r : AgentRules) (now_ : Z) (loc : Location) : bool :=
  let from := default 0 (clockMinutes (ActiveFrom r)) in
  let until := default 0 (clockMinutes (ActiveUntil r)) in
  let m := Hour loc now_ * 60 + Minute loc now_ in
  if until <? from then (from <=? m) || (m <? until) else (from <=? m) && (m <? until).

(** The loop over the period limits. *)
Fixpoint judge_periods (ws agent : string) (amount : Z) (limits : list agentPeriodLimit) : WTx unit :=
  match limits with
  | [] => tx_ret tt
  | l :: limits =>
      (if pl_ulxc l =? 0 then tx_ret tt
       else
         let! spent := agentSpentSince ws agent (pl_since l) in
         tx_guard (negb (pl_ulxc l <? spent +! amount)) (refuse (RefPeriod (pl_name l)))) ;;;
      judge_periods ws agent amount limits
  end.

(** The loop over the ids a payment's payee is known by. *)
Fixpoint judge_payee_caps (agent : string) (caps : gmap string Z) (amount since : Z) (ids : list string) : WTx unit :=
  match ids with
  | [] => tx_ret tt
  | id :: ids =>
      let limit := default 0 (caps !! id) in
      (if limit <=? 0 then tx_ret tt
       else
         let! paid := agentPaidPayeeSince agent id since in
         tx_guard (negb (limit <? paid +! amount)) (refuse (RefPayeeDaily id))) ;;;
      judge_payee_caps agent caps amount since ids
  end.

(** The approvals an UPDATE ... WHERE status = 'approved' finds. *)
Definition open_approval (agent fingerprint : string) (a : ApprovalRow) : bool :=
  bool_decide (ap_agent a = agent /\ ap_fingerprint a = fingerprint /\ ap_status a = Approved).

Definition approval_used (ref : string) (a : ApprovalRow) : ApprovalRow :=
  mkApproval (ap_ws a) (ap_agent a) (ap_fingerprint a) (ap_amount a) (ap_model a) (ap_payee a) (ap_memo a) Used ref.

(** An approved request goes through once, the approval used up with it. *)
Definition use_approval (ws agent : string) (amount : Z) (req : AgentRequest) (ref : string) : WTx unit :=
  tx_guard (negb (bool_decide (rq_fingerprint req = ""%string))) (refuse RefNothingToApprove) ;;;
  let! found := tx_gets (fun s : Store =>
    existsb (fun kv => open_approval agent (rq_fingerprint req) kv.2) (map_to_list (agent_approvals s))) in
  tx_guard found (ErrApprovalRequired amount ws agent req) ;;;
  tx_modify (fun s : Store => with_agent_approvals
    ((fun a => if open_approval agent (rq_fingerprint req) a then approval_used ref a else a) <$> agent_approvals s) s).

(** [agentRequestFrom]: the zero time is now. *)
Definition agentRequestFrom (c : Ctx) : AgentRequest * Z :=
  (agent_request c, default (now c) (rq_at (agent_request c))).

Section Judge.
(** [time.LoadLocation]: the zone of an IANA name, from the time zone data. *)
Variable LoadLocation : string -> option Location.

Definition location (r : AgentRules) : option Location :=
  if bool_decide (Timezone r = ""%string) then Some UTC else LoadLocation (Timezone r).

(** [enforceAgentRules] with rules set: every check in the code's order. *)
Definition enforce_rules (c : Ctx) (r : AgentRules) (ws agent : string) (amount : Z) (ref : string) : WTx unit :=
  let '(req, at_) := agentRequestFrom c in
  let pay := rq_payment req in
  let allowedP := limit_list (AllowedPayees r) in
  let blockedP := limit_list (BlockedPayees r) in
  let caps := limit_map (PayeeDailyLimitsULXC r) in
  match location r with
  | None => tx_fail (refuse RefTimezone)
  | Some loc =>
      tx_guard (bool_decide (ActiveFrom r = ""%string) || inside_hours r at_ loc) (refuse RefHours) ;;;
      tx_guard (bool_decide (AllowedModels r = []) || pay || Contains (AllowedModels r) (rq_model req)) (refuse RefModel) ;;;
      tx_guard (bool_decide (AllowedProviders r = []) || pay || Contains (AllowedProviders r) (rq_provider req))
        (refuse RefProvider) ;;;
      tx_guard (bool_decide (limit_list (AllowedListings r) = []) || bool_decide (rq_listing req = ""%string)
                || Contains (limit_list (AllowedListings r)) (rq_listing req)) (refuse RefListing) ;;;
      judgeCommitment r (rq_commitment req) ;;;
      let! ids := tx_gets (fun s : Store =>
        if pay && negb (bool_decide (allowedP = []) && bool_decide (blockedP = []) && bool_decide (caps = ∅))
        then Some (payeeIDs s (rq_payee req)) else None) in
      let idl := default [] ids in
      tx_guard (negb (pay && existsb (Contains blockedP) idl)) (refuse RefPayeeBlocked) ;;;
      tx_guard (negb (pay && negb (bool_decide (allowedP = [])) && negb (existsb (Contains allowedP) idl)))
        (refuse RefPayeeUnnamed) ;;;
      let! asked := tx_gets (fun s : Store => agentRequestsSince s ws agent (at_ - minute)) in
      let rpm := limitOf (RequestsPerMinute r) in
      tx_guard (negb ((0 <? rpm) && negb pay && (rpm <=? asked))) ErrAgentRequestRate ;;;
      tx_guard (negb ((0 <? MaxPerRequestULXC r) && (MaxPerRequestULXC r <? amount))) (refuse RefPerRequest) ;;;
      judge_periods ws agent amount (periodLimits r at_ loc) ;;;
      (let '(limit, since) := modelDailyLimit r (rq_model req) at_ loc in
       if (0 <? limit) && negb pay then
         let! spent := agentModelSpentSince ws agent (rq_model req) since in
         tx_guard (negb (limit <? spent +! amount)) (refuse RefModelDaily)
       else tx_ret tt) ;;;
      judge_payee_caps agent caps amount (day_start at_ loc) idl ;;;
      (if (0 <? ApprovalAboveULXC r) && (ApprovalAboveULXC r <? amount)
       then use_approval ws agent amount req ref else tx_ret tt) ;;;
      recordPayeePayment c ws agent req ids amount ref ;;;
      watchAgentSpend c ws agent amount at_ (PauseOnUnusualSpend r)
  end.

Definition enforceAgentRules (c : Ctx) (ws agent : string) (amount : Z) (ref : string) : WTx unit :=
  refuseIfPaused agent ;;;
  let '(req, at_) := agentRequestFrom c in
  let! r := tx_gets (fun s : Store => agentRulesInForce s agent at_) in
  match r with
  | None =>
      judgeCommitment no_rules (rq_commitment req) ;;;
      recordPayeePayment c ws agent req None amount ref ;;;
      watchAgentSpend c ws agent amount at_ false
  | Some r => enforce_rules c r ws agent amount ref
  end.

(** The agent a key is attached to, and its workspace. *)
Definition agent_of_key s (key : string) : option (string * string) :=
  match agent_account_keys s !! key with
  | Some agent => (fun a => (agent, ag_ws a)) <$> agent_accounts s !! agent
  | None => None
  end.

(** [CheckAgentRules]: the rules of a request that moves no LXC. *)
Definition CheckAgentRules (c : Ctx) (key : string) : WTx unit :=
  let! a := tx_gets (fun s : Store => agent_of_key s key) in
  match a with
  | None => tx_ret tt
  | Some (agent, ws) => committed (enforceAgentRules c ws agent 0 "byok")
  end.
End Judge.

(** ** Approvals *)

(** [namePayee]: the payee's name when the caller gave none. *)
Definition namePayee s (p : Payee) : Payee :=
  if negb (bool_decide (py_name p = ""%string)) || bool_decide (py_id p = ""%string) then p
  else
    let name :=
      if bool_decide (py_kind p = "agent"%string) then ag_name <$> agent_accounts s !! py_id p
      else if bool_decide (py_kind p = "listing"%string) then ml_title <$> market_listings s !! py_id p
      else if bool_decide (py_kind p = "company"%string) then ws_name <$> workspaces s !! py_id p
      else None in
    mkPayee (py_kind p) (py_id p) (default (py_name p) name).

(** Pending or approved: what the partial unique index allows one of. *)
Definition approval_open (agent fingerprint : string) (a : ApprovalRow) : bool :=
  bool_decide (ap_agent a = agent /\ ap_fingerprint a = fingerprint) && 
  bool_decide (ap_status a = Pending \/ ap_status a = Approved).

Definition find_open s (agent fingerprint : string) : option string :=
  fst <$> List.find (fun kv => approval_open agent fingerprint kv.2) (map_to_list (agent_approvals s)).

(** [fileApproval]: the approval a refused request needs, or the one open for it. *)
Definition fileApproval (c : Ctx) (amount : Z) (ws agent : string) (req : AgentRequest) : WTx string :=
  let! payee := tx_gets (fun s : Store => namePayee s (rq_payee req)) in
  let! u := uuid_new c in
  let id := "apr_" +:+ u in
  let! open := tx_gets (fun s : Store => find_open s agent (rq_fingerprint req)) in
  (if is_some open then tx_ret tt
   else
     let! dup := tx_gets (fun s : Store => is_some (agent_approvals s !! id)) in
     tx_guard (negb dup) ErrCheck ;;;
     tx_modify (fun s : Store => with_agent_approvals
       (<[id := mkApproval ws agent (rq_fingerprint req) amount (rq_model req) payee (rq_memo req) Pending ""]>
          (agent_approvals s)) s)) ;;;
  let! filed := tx_gets (fun s : Store => find_open s agent (rq_fingerprint req)) in
  match filed with
  | Some id => tx_ret id
  | None => tx_fail ErrNoRow
  end.

(** [refusedMovement]: after the rollback, a request that needs approval files
    it; any other refusal is as it is. *)
Definition refusedMovement (c : Ctx) (e : WalletErr) s : WalletErr * Store :=
  match e with
  | ErrApprovalRequired amount ws agent req =>
      match run_tx (fileApproval c amount ws agent req) s with
      | (Ok id, s') => (ErrApprovalFiled id, s')
      | (Err e', s') => (e', s')
      end
  | e => (e, s)
  end.

(** A hold or a debit as its caller sees it: committed, or refused on the state
    the rollback left, the approval filed. *)
Definition run_movement {A} (c : Ctx) (m : WTx A) s : Res WalletErr A * Store :=
  match committed m s with
  | Ok (a, s') => (Ok a, s')
  | Err e => let '(e', s') := refusedMovement c e s in (Err e', s')
  end.

Definition DecideAgentApproval (ws id : string) (approve : bool) : WTx unit :=
  let! a := tx_gets (fun s : Store => agent_approvals s !! id) in
  match a with
  | Some a =>
      tx_guard (bool_decide (ap_ws a = ws /\ ap_status a = Pending)) ErrApprovalNotFound ;;;
      tx_modify (fun s : Store => with_agent_approvals
        (<[id := mkApproval (ap_ws a) (ap_agent a) (ap_fingerprint a) (ap_amount a) (ap_model a) (ap_payee a)
                   (ap_memo a) (if approve then Approved else Denied) (ap_used_ref a)]> (agent_approvals s)) s)
  | None => tx_fail ErrApprovalNotFound
  end.

(** ** Pausing *)

Definition set_paused (p : option Z) (reason : string) (a : AgentAccount) : AgentAccount :=
  mkAgent (ag_ws a) (ag_name a) (ag_owner a) (ag_kind a) (ag_description a) (ag_created a) p reason (ag_archived a).

(** An UPDATE of the agent in [ws], [ErrAgentNotFound] when there is none. *)
Definition update_agent (ws agent : string) (f : AgentAccount -> AgentAccount) : WTx unit :=
  let! a := tx_gets (fun s : Store => agent_accounts s !! agent) in
  match a with
  | Some a =>
      tx_guard (bool_decide (ag_ws a = ws)) ErrAgentNotFound ;;;
      tx_modify (fun s : Store => with_agent_accounts (<[agent := f a]> (agent_accounts s)) s)
  | None => tx_fail ErrAgentNotFound
  end.

Definition PauseAgent (c : Ctx) (ws agent reason : string) : WTx unit :=
  update_agent ws agent (fun a => set_paused (Some (default (now c) (ag_paused a))) reason a) ;;;
  revokeAgentKYA c agent "frozen".

Definition PauseAllAgents (c : Ctx) (ws reason : string) : WTx unit :=
  tx_modify (fun s : Store => with_agent_workspace_pauses (<[ws := reason]> (agent_workspace_pauses s)) s) ;;;
  revokeWorkspaceKYA c ws "frozen".

Definition ResumeAllAgents (ws : string) : WTx unit :=
  tx_modify (fun s : Store => with_agent_workspace_pauses (delete ws (agent_workspace_pauses s)) s).

Definition ResumeAgent (ws agent : string) : WTx unit :=
  update_agent ws agent (set_paused None "").

(** [EndAgentBoost] on an agent that has rules or none; [ErrBoostNotFound] is
    [ErrNoRow]. *)
Definition EndAgentBoost (c : Ctx) (ws agent rule : string) : WTx unit :=
  let! b := tx_gets (fun s : Store => agent_rule_boosts s !! (agent, rule)) in
  let! a := tx_gets (fun s : Store => agent_accounts s !! agent) in
  match b, a with
  | Some b, Some a =>
      if bool_decide (ag_ws a = ws) && (now c <? bo_until b) then
        tx_modify (fun s : Store => with_agent_rule_boosts (delete (agent, rule) (agent_rule_boosts s)) s) ;;;
        revokeAgentKYA c agent "rules changed"
      else tx_fail (if bool_decide (ag_ws a = ws) then ErrNoRow else ErrAgentNotFound)
  | _, Some a => tx_fail (if bool_decide (ag_ws a = ws) then ErrNoRow else ErrAgentNotFound)
  | _, None => tx_fail ErrAgentNotFound
  end.

(** ** What the checks come to *)

(** Everything the limits ever count, in absolute value. *)
Definition turnover s : Z :=
  sumZ ((fun p => Z.abs (ps_amount p)) <$> agent_postings s)
  + sumZ ((fun u => Z.abs (mu_price u)) <$> market_uses s)
  + sumZ ((fun p => Z.abs (mp_value p)) <$> money_payments s)
  + sumZ ((fun p => Z.abs (pp_amount p)) <$> agent_payee_payments s).

Lemma sum_where_bound {A} (cond : A -> bool) f (l : list A) :
  Z.abs (sum_where cond f l) <= sumZ ((fun x => Z.abs (f x)) <$> l).
Proof. unfold sum_where. induction l as [|x l IH]; csimpl; [lia|]. destruct (cond x); lia. Qed.

Lemma sum_abs_nonneg {A} (f : A -> Z) l : 0 <= sumZ ((fun x => Z.abs (f x)) <$> l).
Proof. induction l; csimpl; lia. Qed.

(** Closes a bound on a sum the rules count, from the turnover's. *)
Ltac turnover_bound :=
  repeat match goal with
  | |- context [sum_where ?c ?f ?l] =>
      let v := fresh "v" in let B := fresh "B" in
      pose proof (sum_where_bound c f l) as B; set (v := sum_where c f l) in *; clearbody v
  end;
  repeat match goal with
  | |- context [sumZ (?g <$> ?l)] =>
      let q := fresh "q" in let N := fresh "N" in
      assert (N : 0 <= sumZ (g <$> l)) by apply sum_abs_nonneg;
      set (q := sumZ (g <$> l)) in *; clearbody q
  end; lia.

Lemma spent_bound s ws agent since : Z.abs (agent_spent s ws agent since) <= turnover s.
Proof. unfold agent_spent, turnover. turnover_bound. Qed.

Lemma model_spent_bound s ws agent model since : Z.abs (agent_model_spent s ws agent model since) <= turnover s.
Proof. unfold agent_model_spent, turnover. turnover_bound. Qed.

Lemma paid_bound s agent id since : Z.abs (agent_paid_payee s agent id since) <= turnover s.
Proof. unfold agent_paid_payee, turnover. turnover_bound. Qed.

Lemma watched_bound s ws agent from until :
  Z.abs (watched_spend s ws agent from until) <= turnover s /\
  Z.abs (watched_spend_since s ws agent from) <= turnover s.
Proof. unfold watched_spend, watched_spend_since, turnover. split; turnover_bound. Qed.

(** ** The rules as a specification *)

(** The licence the rules let an agent take. *)
Record commitment_ok (r : AgentRules) (c : Commitment) : Prop := {
  co_personal : cm_kind c <> ""%string -> cm_licence c ∈ AgentLicences;
  co_licence : cm_kind c <> ""%string -> limit_list (AllowedLicences r) <> [] ->
    cm_licence c ∈ limit_list (AllowedLicences r);
  co_subscribe : cm_kind c = "subscribe"%string -> MaySubscribe r = Some true;
  co_renews : cm_kind c <> ""%string -> cm_renews c = true -> MaySubscribe r = Some true;
  co_price : cm_kind c <> ""%string -> 0 < limitOf (MaxCommitmentULXC r) -> cm_ulxc c <= limitOf (MaxCommitmentULXC r);
}.

(** What the rules promise of a movement they let through, in exact integers. *)
Record permitted (loc : Location) (r : AgentRules) (req : AgentRequest) (at_ : Z) (ws agent : string)
    (amount : Z) s : Prop := {
  pm_hours : ActiveFrom r <> ""%string -> inside_hours r at_ loc = true;
  pm_model : rq_payment req = false -> AllowedModels r <> [] -> rq_model req ∈ AllowedModels r;
  pm_provider : rq_payment req = false -> AllowedProviders r <> [] -> rq_provider req ∈ AllowedProviders r;
  pm_listing : limit_list (AllowedListings r) <> [] -> rq_listing req <> ""%string ->
    rq_listing req ∈ limit_list (AllowedListings r);
  pm_commitment : commitment_ok r (rq_commitment req);
  pm_blocked id : rq_payment req = true -> id ∈ payeeIDs s (rq_payee req) -> id ∉ limit_list (BlockedPayees r);
  pm_payee : rq_payment req = true -> limit_list (AllowedPayees r) <> [] ->
    exists id, id ∈ payeeIDs s (rq_payee req) /\ id ∈ limit_list (AllowedPayees r);
  pm_rate : rq_payment req = false -> 0 < limitOf (RequestsPerMinute r) ->
    agentRequestsSince s ws agent (at_ - minute) < limitOf (RequestsPerMinute r);
  pm_request : 0 < MaxPerRequestULXC r -> amount <= MaxPerRequestULXC r;
  pm_period l : l ∈ periodLimits r at_ loc -> pl_ulxc l <> 0 ->
    agent_spent s ws agent (pl_since l) + amount <= pl_ulxc l;
  pm_model_day : rq_payment req = false -> 0 < (modelDailyLimit r (rq_model req) at_ loc).1 ->
    agent_model_spent s ws agent (rq_model req) (day_start at_ loc) + amount
      <= (modelDailyLimit r (rq_model req) at_ loc).1;
  pm_payee_day id cap : rq_payment req = true -> id ∈ payeeIDs s (rq_payee req) ->
    limit_map (PayeeDailyLimitsULXC r) !! id = Some cap -> 0 < cap ->
    agent_paid_payee s agent id (day_start at_ loc) + amount <= cap;
  pm_approval : 0 < ApprovalAboveULXC r -> ApprovalAboveULXC r < amount ->
    rq_fingerprint req <> ""%string /\
    exists id a, agent_approvals s !! id = Some a /\ open_approval agent (rq_fingerprint req) a = true;
}.

(** An agent that may move at all. *)
Definition active_agent s (agent : string) : Prop :=
  exists a, agent_accounts s !! agent = Some a /\ ag_archived a = None /\ ag_paused a = None /\
            agent_workspace_pauses s !! ag_ws a = None.

Lemma Contains_spec l x : Contains l x = true <-> x ∈ l.
Proof. apply bool_decide_eq_true. Qed.

Lemma refuseIfPaused_ok agent s u s' :
  refuseIfPaused agent s = Ok (u, s') <-> s' = s /\ active_agent s agent.
Proof.
  unfold refuseIfPaused, active_agent. rewrite tx_gets_bind.
  destruct (agent_accounts s !! agent) as [a|]; [|rewrite tx_fail_ok; naive_solver].
  rewrite tx_gets_bind, !tx_guard_bind, tx_guard_ok, !negb_true_iff. unfold is_some. split.
  - intros (Ha & Hw & Hp & ->). split; [done|]. exists a.
    destruct (ag_archived a), (agent_workspace_pauses s !! ag_ws a), (ag_paused a); done.
  - intros (-> & a' & [= <-] & -> & -> & ->). done.
Qed.

Lemma judgeCommitment_ok r c s u s' :
  judgeCommitment r c s = Ok (u, s') <-> s' = s /\ commitment_ok r c.
Proof.
  unfold judgeCommitment. case_bool_decide as K.
  - rewrite tx_ret_ok. destruct u. split; [intros [_ ->]; split; [done|]|intros [-> _]; done].
    split; intros; congruence.
  - rewrite !tx_guard_bind, tx_guard_ok, Contains_spec.
    rewrite orb_true_iff, Contains_spec, !negb_true_iff, !bool_decide_eq_true.
    assert (M : default false (MaySubscribe r) = true <-> MaySubscribe r = Some true)
      by (destruct (MaySubscribe r) as [[]|]; naive_solver).
    split.
    + intros (P & L & S & R & C & ->). split; [done|]. split.
      * done.
      * intros _ Hne. destruct L; done.
      * intros E. apply M. rewrite (bool_decide_eq_true_2 _ E) in S. by destruct (default false _).
      * intros _ E. apply M. rewrite E in R. by destruct (default false _).
      * intros _ Hpos. lia.
    + intros (-> & [P L S R C]). specialize (P K). specialize (L K). specialize (R K). specialize (C K).
      split; [done|]. split; [destruct (decide (limit_list (AllowedLicences r) = [])); auto|].
      split; [case_bool_decide as E; [by rewrite (proj2 M (S E))|done]|].
      split; [destruct (cm_renews c); [by rewrite (proj2 M (R eq_refl))|done]|]. split; [lia|done].
Qed.

Lemma sum_read_ok (v : Z) limit amount why s u s' :
  Z.abs v < 2305843009213693952 -> 0 <= amount < 2305843009213693952 ->
  (let! x := bigint v in tx_guard (negb (limit <? x +! amount)) why) s = Ok (u, s') <->
  s' = s /\ v + amount <= limit.
Proof.
  intros Hv Ha. unfold bigint, sql_bigint. rewrite (proj2 (in_i64b_spec v)) by (i64_ranges; lia).
  unfold tx_bind, tx_ret. rewrite tx_guard_ok, negb_true_iff, wrap64_id by (i64_ranges; lia).
  destruct u. split; intros [? ?]; split; done || lia.
Qed.

Lemma judge_periods_ok ws agent amount limits s u s' :
  turnover s < 2305843009213693952 -> 0 <= amount < 2305843009213693952 ->
  judge_periods ws agent amount limits s = Ok (u, s') <->
  s' = s /\ forall l, l ∈ limits -> pl_ulxc l <> 0 -> agent_spent s ws agent (pl_since l) + amount <= pl_ulxc l.
Proof.
  intros Ht Ha. induction limits as [|l limits IH]; cbn [judge_periods].
  - rewrite tx_ret_ok. destruct u. split; [intros [_ ->]; split; [done|]; intros l Hl; by apply elem_of_nil in Hl|].
    by intros [-> _].
  - rewrite (tx_reads_bind _ (pl_ulxc l <> 0 -> agent_spent s ws agent (pl_since l) + amount <= pl_ulxc l)).
    + rewrite IH. setoid_rewrite elem_of_cons. naive_solver.
    + intros v t. destruct (Z.eqb_spec (pl_ulxc l) 0) as [E|E].
      * rewrite tx_ret_ok. destruct v. naive_solver.
      * unfold agentSpentSince. rewrite tx_bind_assoc, tx_gets_bind, sum_read_ok; [naive_solver| |done].
        pose proof (spent_bound s ws agent (pl_since l)). lia.
Qed.

Lemma judge_payee_caps_ok agent caps amount since ids s u s' :
  turnover s < 2305843009213693952 -> 0 <= amount < 2305843009213693952 ->
  judge_payee_caps agent caps amount since ids s = Ok (u, s') <->
  s' = s /\ forall id cap, id ∈ ids -> caps !! id = Some cap -> 0 < cap ->
    agent_paid_payee s agent id since + amount <= cap.
Proof.
  intros Ht Ha. induction ids as [|id ids IH]; cbn [judge_payee_caps].
  - rewrite tx_ret_ok. destruct u. split; [intros [_ ->]; split; [done|]; intros ? ? Hl; by apply elem_of_nil in Hl|].
    by intros [-> _].
  - rewrite (tx_reads_bind _ (forall cap, caps !! id = Some cap -> 0 < cap ->
      agent_paid_payee s agent id since + amount <= cap)).
    + rewrite IH. setoid_rewrite elem_of_cons. naive_solver.
    + intros v t. destruct v, (caps !! id) as [cap|]; cbn.
      * destruct (Z.leb_spec cap 0).
        { rewrite tx_ret_ok. naive_solver lia. }
        unfold agentPaidPayeeSince. rewrite tx_bind_assoc, tx_gets_bind, sum_read_ok; [|pose proof (paid_bound s agent id since); lia|done].
        naive_solver.
      * rewrite tx_ret_ok. naive_solver.
Qed.

Lemma existsb_elem {A} (p : A -> bool) l : existsb p l = true <-> exists x, x ∈ l /\ p x = true.
Proof. rewrite existsb_exists. by setoid_rewrite list_elem_of_In. Qed.

Lemma use_approval_ok ws agent amount req ref s u s' :
  use_approval ws agent amount req ref s = Ok (u, s') <->
  (rq_fingerprint req <> ""%string /\
   exists id a, agent_approvals s !! id = Some a /\ open_approval agent (rq_fingerprint req) a = true) /\
  s' = with_agent_approvals
    ((fun a => if open_approval agent (rq_fingerprint req) a then approval_used ref a else a) <$> agent_approvals s) s.
Proof.
  unfold use_approval. rewrite tx_guard_bind, tx_gets_bind, tx_guard_bind, tx_modify_ok, negb_true_iff,
    bool_decide_eq_false, existsb_elem.
  assert (X : (exists x, x ∈ map_to_list (agent_approvals s) /\ open_approval agent (rq_fingerprint req) x.2 = true) <->
    exists id a, agent_approvals s !! id = Some a /\ open_approval agent (rq_fingerprint req) a = true).
  { split.
    - intros ([id a] & Hin & Ho). apply elem_of_map_to_list in Hin. eauto.
    - intros (id & a & Hl & Ho). exists (id, a). by rewrite elem_of_map_to_list. }
  rewrite X. naive_solver.
Qed.

(** Recording and watching a movement never refuse it. *)
Lemma record_watch_runs c ws agent req ids amount ref at_ pause s :
  turnover s < 2305843009213693952 ->
  exists s', (recordPayeePayment c ws agent req ids amount ref ;;;
              watchAgentSpend c ws agent amount at_ pause) s = Ok (tt, s').
Proof.
  intros Ht.
  assert (R : exists s1, recordPayeePayment c ws agent req ids amount ref s = Ok (tt, s1) /\
    agent_postings s1 = agent_postings s).
  { unfold recordPayeePayment. case_match; [by eexists|]. destruct ids; by eexists. }
  destruct R as (s1 & R & P). setoid_rewrite tx_bind_ok.
  assert (W : exists s', watchAgentSpend c ws agent amount at_ pause s1 = Ok (tt, s')); [|naive_solver].
  assert (B : forall from until, Z.abs (watched_spend s1 ws agent from until) <= turnover s /\
    Z.abs (watched_spend_since s1 ws agent from) <= turnover s).
  { intros from until. unfold watched_spend, watched_spend_since. rewrite P. apply watched_bound. }
  clear R. unfold watchAgentSpend, bigint, sql_bigint. unfold tx_bind at 1, tx_gets at 1.
  rewrite (proj2 (in_i64b_spec _)) by (pose proof (B (at_ - hour) 0); i64_ranges; lia).
  unfold tx_bind at 1, tx_ret at 1, tx_bind at 1, tx_gets at 1.
  rewrite (proj2 (in_i64b_spec _)) by
    (pose proof (B (at_ - hour - usualSpendHours * hour) (at_ - hour)); i64_ranges; lia).
  unfold tx_bind at 1, tx_ret at 1. case_match; [by eexists|].
  unfold tx_bind at 1, tx_gets at 1. case_match; [by eexists|].
  unfold tx_bind at 1, uuid_new. destruct pause; by eexists.
Qed.

(** The ids the rules read, [None] when no list or cap asks for them. *)
Definition rule_ids r s (req : AgentRequest) : option (list string) :=
  if rq_payment req && negb (bool_decide (limit_list (AllowedPayees r) = [])
       && bool_decide (limit_list (BlockedPayees r) = []) && bool_decide (limit_map (PayeeDailyLimitsULXC r) = ∅))
  then Some (payeeIDs s (rq_payee req)) else None.

Lemma rule_ids_none r s req :
  rule_ids r s req = None -> rq_payment req = true ->
  limit_list (AllowedPayees r) = [] /\ limit_list (BlockedPayees r) = [] /\ limit_map (PayeeDailyLimitsULXC r) = ∅.
Proof.
  unfold rule_ids. intros H P. rewrite P in H. cbn [andb] in H. case_match eqn:E; [done|].
  rewrite negb_false_iff, !andb_true_iff, !bool_decide_eq_true in E. naive_solver.
Qed.

Lemma rule_ids_some r s req ids :
  rule_ids r s req = Some ids -> rq_payment req = true /\ ids = payeeIDs s (rq_payee req).
Proof. unfold rule_ids. destruct (rq_payment req); [|done]. case_match; naive_solver. Qed.

Lemma payee_lists_ok r s req :
  negb (rq_payment req && existsb (Contains (limit_list (BlockedPayees r))) (default [] (rule_ids r s req))) = true /\
  negb (rq_payment req && negb (bool_decide (limit_list (AllowedPayees r) = []))
        && negb (existsb (Contains (limit_list (AllowedPayees r))) (default [] (rule_ids r s req)))) = true
  <->
  (forall id, rq_payment req = true -> id ∈ payeeIDs s (rq_payee req) -> id ∉ limit_list (BlockedPayees r)) /\
  (rq_payment req = true -> limit_list (AllowedPayees r) <> [] ->
   exists id, id ∈ payeeIDs s (rq_payee req) /\ id ∈ limit_list (AllowedPayees r)).
Proof.
  destruct (rq_payment req) eqn:P; [|naive_solver].
  rewrite !negb_true_iff. cbn [andb]. destruct (rule_ids r s req) as [ids|] eqn:E.
  - apply rule_ids_some in E as [_ ->]. cbn [from_option]. rewrite andb_false_iff, !negb_false_iff.
    rewrite <- not_true_iff_false, !existsb_elem, bool_decide_eq_true. setoid_rewrite Contains_spec.
    destruct (decide (limit_list (AllowedPayees r) = [])); naive_solver.
  - destruct (rule_ids_none r s req E P) as (-> & -> & _). cbn. split; [|done].
    intros _. split; [intros id _ _; by apply not_elem_of_nil|done].
Qed.

Lemma payee_caps_ok r s req (Q : string -> Z -> Prop) :
  rq_payment req = true ->
  (forall id cap, id ∈ default [] (rule_ids r s req) -> limit_map (PayeeDailyLimitsULXC r) !! id = Some cap -> 0 < cap -> Q id cap) <->
  (forall id cap, id ∈ payeeIDs s (rq_payee req) -> limit_map (PayeeDailyLimitsULXC r) !! id = Some cap -> 0 < cap -> Q id cap).
Proof.
  intros P. destruct (rule_ids r s req) as [ids|] eqn:E.
  - by apply rule_ids_some in E as [_ ->].
  - destruct (rule_ids_none r s req E P) as (_ & _ & ->). split; intros ? id cap ?; by rewrite lookup_empty.
Qed.

Lemma model_day_ok ws agent req amount limit since s u s' :
  turnover s < 2305843009213693952 -> 0 <= amount < 2305843009213693952 ->
  (if (0 <? limit) && negb (rq_payment req) then
     let! spent := agentModelSpentSince ws agent (rq_model req) since in
     tx_guard (negb (limit <? spent +! amount)) (refuse RefModelDaily)
   else tx_ret tt) s = Ok (u, s') <->
  s' = s /\ (rq_payment req = false -> 0 < limit -> agent_model_spent s ws agent (rq_model req) since + amount <= limit).
Proof.
  intros Ht Ha. destruct (Z.ltb_spec 0 limit); cbn [andb]; [destruct (rq_payment req); cbn [negb]|].
  2: { unfold agentModelSpentSince. rewrite tx_bind_assoc, tx_gets_bind, sum_read_ok;
         [naive_solver|pose proof (model_spent_bound s ws agent (rq_model req) since); lia|done]. }
  all: rewrite tx_ret_ok; destruct u; split; [intros [_ ->]; split; [done|intros; done || lia]|by intros [-> _]].
Qed.

(** The last checks: the approval, and what is recorded of a movement let through. *)
Lemma approval_tail c ws agent req ids amount ref at_ pause above s :
  turnover s < 2305843009213693952 ->
  (exists s', ((if (0 <? above) && (above <? amount) then use_approval ws agent amount req ref else tx_ret tt) ;;;
     recordPayeePayment c ws agent req ids amount ref ;;;
     watchAgentSpend c ws agent amount at_ pause) s = Ok (tt, s')) <->
  (0 < above -> above < amount -> rq_fingerprint req <> ""%string /\
   exists id a, agent_approvals s !! id = Some a /\ open_approval agent (rq_fingerprint req) a = true).
Proof.
  intros Ht. destruct (Z.ltb_spec 0 above); cbn [andb]; [destruct (Z.ltb_spec above amount)|].
  2,3: split; [lia|intros _; by apply record_watch_runs].
  setoid_rewrite tx_bind_ok. setoid_rewrite use_approval_ok. split; [naive_solver|].
  intros A. specialize (A ltac:(lia) ltac:(lia)).
  match goal with |- exists s' a t, (?P /\ t = ?T) /\ _ => destruct (record_watch_runs c ws agent req ids amount ref at_ pause T Ht) as [s' R] end.
  eexists s', tt, _. split; [split; [exact A|reflexivity]|exact R].
Qed.

Lemma empty_or_elem l x : (bool_decide (l = []) || Contains l x) = true <-> (l <> [] -> x ∈ l).
Proof.
  rewrite orb_true_iff, bool_decide_eq_true, Contains_spec. destruct (decide (l = [])); naive_solver.
Qed.

Lemma model_guard_ok l (pay : bool) x :
  (bool_decide (l = []) || pay || Contains l x) = true <-> (pay = false -> l <> [] -> x ∈ l).
Proof. destruct pay; [rewrite orb_true_r; naive_solver|]. rewrite orb_false_r, empty_or_elem. naive_solver. Qed.

Lemma listing_guard_ok l (x : string) :
  (bool_decide (l = []) || bool_decide (x = ""%string) || Contains l x) = true <-> (l <> [] -> x <> ""%string -> x ∈ l).
Proof.
  destruct (decide (x = ""%string)) as [E|E].
  - rewrite (bool_decide_eq_true_2 _ E), orb_true_r. naive_solver.
  - rewrite (bool_decide_eq_false_2 _ E), orb_false_r, empty_or_elem. naive_solver.
Qed.

Lemma hours_guard_ok (x : string) b : (bool_decide (x = ""%string) || b) = true <-> (x <> ""%string -> b = true).
Proof. destruct (decide (x = ""%string)); destruct b; case_bool_decide; naive_solver. Qed.

Lemma enforce_rules_iff LL c r ws agent amount ref s :
  turnover s < 2305843009213693952 -> 0 <= amount < 2305843009213693952 ->
  (exists s', enforce_rules LL c r ws agent amount ref s = Ok (tt, s')) <->
  exists loc, location LL r = Some loc /\
    permitted loc r (agent_request c) (agentRequestFrom c).2 ws agent amount s.
Proof.
  intros Ht Ha. unfold enforce_rules, agentRequestFrom. cbn zeta. cbn [snd].
  set (req := agent_request c). set (at_ := default _ _).
  destruct (location LL r) as [loc|]; [|setoid_rewrite tx_fail_ok; naive_solver].
  assert (J : forall u s', judgeCommitment r (rq_commitment req) s = Ok (u, s') <-> s' = s /\ commitment_ok r (rq_commitment req))
    by (intros; apply judgeCommitment_ok).
  assert (M : forall u s', (let '(limit, since) := modelDailyLimit r (rq_model req) at_ loc in
      if (0 <? limit) && negb (rq_payment req) then
        let! spent := agentModelSpentSince ws agent (rq_model req) since in
        tx_guard (negb (limit <? spent +! amount)) (refuse RefModelDaily) else tx_ret tt) s = Ok (u, s') <-> _)
    by (intros; apply model_day_ok; done).
  setoid_rewrite tx_guard_bind. setoid_rewrite tx_guard_bind. setoid_rewrite tx_guard_bind.
  setoid_rewrite tx_guard_bind. setoid_rewrite (tx_reads_bind _ _ _ _ _ J).
  setoid_rewrite tx_gets_bind. setoid_rewrite tx_guard_bind. setoid_rewrite tx_guard_bind.
  setoid_rewrite tx_gets_bind. setoid_rewrite tx_guard_bind. setoid_rewrite tx_guard_bind.
  setoid_rewrite (tx_reads_bind _ _ _ _ _ (fun u s' => judge_periods_ok _ _ _ _ s u s' Ht Ha)).
  setoid_rewrite (tx_reads_bind _ _ _ _ _ M).
  setoid_rewrite (tx_reads_bind _ _ _ _ _ (fun u s' => judge_payee_caps_ok _ _ _ _ _ s u s' Ht Ha)).
  change (if rq_payment req && _ then Some (payeeIDs s (rq_payee req)) else None) with (rule_ids r s req).
  pose proof (approval_tail c ws agent req (rule_ids r s req) amount ref at_ (PauseOnUnusualSpend r) (ApprovalAboveULXC r) s Ht) as T.
  pose proof (payee_lists_ok r s req) as L. pose proof (payee_caps_ok r s req) as C.
  setoid_rewrite hours_guard_ok. rewrite ?model_guard_ok.
  split.
  - intros (s' & K). destruct K as (H1 & H2 & H3 & H4 & H5 & H6 & H7 & H8 & H9 & H10 & H11 & H12 & K).
    exists loc. split; [done|].
    destruct (proj1 L (conj H6 H7)) as [L1 L2].
    rewrite model_guard_ok in H2, H3. rewrite listing_guard_ok in H4. split; try assumption.
    + intros P R. rewrite P in H8. apply negb_true_iff in H8. cbn [negb] in H8. rewrite andb_true_r in H8. lia.
    + intros P. lia.
    + intros id cap P. revert id cap. apply (C _ P). exact H12.
    + apply T. eauto.
  - intros (loc' & [= <-] & [P1 P2 P3 P4 P5 P6 P7 P8 P9 P10 P11 P12 P13]).
    destruct (proj2 T P13) as [s' T']. exists s'.
    destruct (proj2 L (conj P6 P7)) as [L1 L2].
    split; [exact P1|]. split; [by apply model_guard_ok|]. split; [by apply model_guard_ok|].
    split; [by apply listing_guard_ok|]. split; [done|]. split; [done|]. split; [done|].
    split; [destruct (rq_payment req); cbn [negb]; [by rewrite andb_false_r|specialize (P8 eq_refl); lia]|].
    split; [lia|]. split; [done|]. split; [done|]. split; [|done].
    destruct (rq_payment req) eqn:P; [apply (C _ eq_refl); intros id cap; by apply P12|].
    intros id cap. unfold rule_ids. rewrite P. cbn. by intros ?%elem_of_nil.
Qed.

(** ** What a judgement leaves alone *)

(** What of an agent's row a judgement cannot change: all but its pause. *)
Definition ag_identity (a : AgentAccount) : string * string * string * string * string * option Z :=
  (ag_ws a, ag_name a, ag_owner a, ag_kind a, ag_description a, ag_archived a).

Record judge_frame s s' : Prop := {
  jf_lxc : st_lxc s' = st_lxc s;
  jf_credit : st_credit s' = st_credit s;
  jf_other : st_other s' = st_other s;
  jf_postings : agent_postings s' = agent_postings s;
  jf_balances : agent_account_balances s' = agent_account_balances s;
  jf_keys : agent_account_keys s' = agent_account_keys s;
  jf_pots : agent_pots s' = agent_pots s;
  jf_rules : agent_rules s' = agent_rules s;
  jf_boosts : agent_rule_boosts s' = agent_rule_boosts s;
  jf_pauses : agent_workspace_pauses s' = agent_workspace_pauses s;
  jf_accounts id : ag_identity <$> agent_accounts s' !! id = ag_identity <$> agent_accounts s !! id;
  jf_draws : (uuid_draws s <= uuid_draws s')%N;
}.

#[export] Instance judge_frame_refl : Reflexive judge_frame.
Proof. by constructor. Qed.

#[export] Instance judge_frame_trans : Transitive judge_frame.
Proof. intros a b c [] []. constructor; try congruence. lia. Qed.

Lemma alter_identity f agent (m : gmap string AgentAccount) id :
  (forall a, ag_identity (f a) = ag_identity a) ->
  ag_identity <$> alter f agent m !! id = ag_identity <$> m !! id.
Proof.
  intros Hf. destruct (decide (agent = id)) as [->|].
  - rewrite lookup_alter_eq. destruct (m !! id); cbn; [by rewrite Hf|done].
  - by rewrite lookup_alter_ne.
Qed.

Lemma record_frame c ws agent req ids amount ref s u s' :
  recordPayeePayment c ws agent req ids amount ref s = Ok (u, s') ->
  judge_frame s s' /\ agent_approvals s' = agent_approvals s /\ agent_accounts s' = agent_accounts s.
Proof.
  unfold recordPayeePayment. case_match; intros K; [by wtx_inv|].
  destruct ids; wtx_inv; by repeat constructor.
Qed.

Lemma watch_frame c ws agent amount at_ pause s u s' :
  watchAgentSpend c ws agent amount at_ pause s = Ok (u, s') ->
  judge_frame s s' /\ agent_approvals s' = agent_approvals s.
Proof.
  unfold watchAgentSpend, revokeAgentKYA. intros K. wtx_inv. case_match; [by wtx_inv|]. wtx_inv.
  case_match; [by wtx_inv|]. wtx_inv. case_match; wtx_inv; (split; [|done]); constructor; try done; cbn.
  - intros id. apply alter_identity. intros [? ? ? ? ? ? []]; done.
  - lia.
  - lia.
Qed.

(** The loops over the limits only read. *)
Lemma judge_periods_reads ws agent amount limits s u s' :
  judge_periods ws agent amount limits s = Ok (u, s') -> s' = s.
Proof.
  induction limits as [|l limits IH]; cbn [judge_periods]; intros K; wtx_inv; [done|].
  unfold agentSpentSince in *. case_match; wtx_inv; auto.
Qed.

Lemma judge_payee_caps_reads agent caps amount since ids s u s' :
  judge_payee_caps agent caps amount since ids s = Ok (u, s') -> s' = s.
Proof.
  induction ids as [|id ids IH]; cbn [judge_payee_caps]; intros K; wtx_inv; [done|].
  unfold agentPaidPayeeSince in *. case_match; wtx_inv; auto.
Qed.

Lemma model_day_reads r ws agent req amount at_ loc s u s' :
  (let '(limit, since) := modelDailyLimit r (rq_model req) at_ loc in
   if (0 <? limit) && negb (rq_payment req) then
     let! spent := agentModelSpentSince ws agent (rq_model req) since in
     tx_guard (negb (limit <? spent +! amount)) (refuse RefModelDaily)
   else tx_ret tt) s = Ok (u, s') -> s' = s.
Proof. unfold agentModelSpentSince. cbn. case_match; intros K; by wtx_inv. Qed.

(** Whether the rules in force ask for an approval of [amount]. *)
Definition needs_approval (c : Ctx) (agent : string) (amount : Z) s : bool :=
  match agentRulesInForce s agent (agentRequestFrom c).2 with
  | Some r => (0 <? ApprovalAboveULXC r) && (ApprovalAboveULXC r <? amount)
  | None => false
  end.

Definition approvals_used (agent fingerprint ref : string) (m : gmap string ApprovalRow) : gmap string ApprovalRow :=
  (fun a => if open_approval agent fingerprint a then approval_used ref a else a) <$> m.

(** What a movement the rules let through did: an approval used if one was needed, the
    payment recorded and the spending watched. *)
Lemma enforce_tail LL c ws agent amount ref s u s' :
  enforceAgentRules LL c ws agent amount ref s = Ok (u, s') ->
  exists m ids at_ pause v s2,
    recordPayeePayment c ws agent (agent_request c) ids amount ref (with_agent_approvals m s) = Ok (v, s2) /\
    watchAgentSpend c ws agent amount at_ pause s2 = Ok (u, s') /\
    (needs_approval c agent amount s = false -> m = agent_approvals s) /\
    (needs_approval c agent amount s = true ->
     (exists id a, agent_approvals s !! id = Some a /\ open_approval agent (rq_fingerprint (agent_request c)) a = true) /\
     m = approvals_used agent (rq_fingerprint (agent_request c)) ref (agent_approvals s)).
Proof.
  assert (E : with_agent_approvals (agent_approvals s) s = s) by (destruct s as [? ? [] ? ?]; reflexivity).
  unfold enforceAgentRules, agentRequestFrom. intros K.
  apply tx_bind_ok in K as (v & s1 & K1 & K). apply refuseIfPaused_ok in K1 as [-> _].
  rewrite tx_gets_bind in K. unfold needs_approval, agentRequestFrom. cbn [snd].
  destruct (agentRulesInForce s agent _) as [r|].
  - unfold enforce_rules, agentRequestFrom in K. cbn zeta in K.
    destruct (location LL r) as [loc|]; [|by wtx_inv].
    rewrite !tx_guard_bind in K. destruct K as (_ & _ & _ & _ & K).
    apply tx_bind_ok in K as (? & s1 & J & K). apply judgeCommitment_ok in J as [-> _].
    rewrite tx_gets_bind, !tx_guard_bind, tx_gets_bind, !tx_guard_bind in K. destruct K as (_ & _ & _ & _ & K).
    apply tx_bind_ok in K as (? & s1 & J & K). apply judge_periods_reads in J as ->.
    apply tx_bind_ok in K as (? & s1 & J & K). apply model_day_reads in J as ->.
    apply tx_bind_ok in K as (? & s1 & J & K). apply judge_payee_caps_reads in J as ->.
    apply tx_bind_ok in K as (? & s1 & J & K). apply tx_bind_ok in K as (w & s2 & K1 & K2).
    destruct ((0 <? ApprovalAboveULXC r) && _).
    + apply use_approval_ok in J as [[_ O] ->]. by eexists _, _, _, _, _, _.
    + apply tx_ret_ok in J as [_ ->]. rewrite <- E in K1. by eexists (agent_approvals s), _, _, _, _, _.
  - apply tx_bind_ok in K as (? & s1 & J & K). apply judgeCommitment_ok in J as [-> _].
    apply tx_bind_ok in K as (w & s2 & K1 & K2). rewrite <- E in K1. by eexists (agent_approvals s), _, _, _, _, _.
Qed.

(** What it did to the approvals, and to the rest. *)
Lemma enforce_effect LL c ws agent amount ref s u s' :
  enforceAgentRules LL c ws agent amount ref s = Ok (u, s') ->
  judge_frame s s' /\
  (needs_approval c agent amount s = false -> agent_approvals s' = agent_approvals s) /\
  (needs_approval c agent amount s = true ->
   (exists id a, agent_approvals s !! id = Some a /\ open_approval agent (rq_fingerprint (agent_request c)) a = true) /\
   agent_approvals s' = approvals_used agent (rq_fingerprint (agent_request c)) ref (agent_approvals s)).
Proof.
  intros K. apply enforce_tail in K as (m & ids & at_ & pause & v & s2 & K1 & K2 & N & A).
  apply record_frame in K1 as (F1 & A1 & _). apply watch_frame in K2 as [F2 A2]. rewrite A2, A1.
  split; [|done]. etrans; [|exact F2]. etrans; [|exact F1]. by constructor.
Qed.

(** Every payee payment it recorded is the movement's own. *)
Lemma enforce_payees LL c ws agent amount ref s u s' :
  enforceAgentRules LL c ws agent amount ref s = Ok (u, s') ->
  exists rows, agent_payee_payments s' = rows ++ agent_payee_payments s /\ Forall (fun p => pp_ref p = ref) rows.
Proof.
  intros K. apply enforce_tail in K as (m & ids & at_ & pause & v & s2 & K1 & K2 & _).
  assert (P : agent_payee_payments s' = agent_payee_payments s2).
  { unfold watchAgentSpend, revokeAgentKYA in K2. wtx_inv. case_match; [by wtx_inv|]. wtx_inv.
    case_match; [by wtx_inv|]. wtx_inv. case_match; by wtx_inv. }
  rewrite P. unfold recordPayeePayment in K1. case_match; [wtx_inv; by exists []|].
  destruct ids; wtx_inv; eexists [_]; (split; [reflexivity|]); by repeat constructor.
Qed.

(** ** Boosts *)

(** A limit is as it was, or was set and is now higher. *)
Definition raised (old new : Z) : Prop := new = old \/ 0 < old < new.

#[export] Instance raised_refl : Reflexive raised.
Proof. by left. Qed.

#[export] Instance raised_trans : Transitive raised.
Proof. unfold raised. intros a b c. lia. Qed.

Record loosened (r r' : AgentRules) : Prop := {
  ls_max : raised (MaxPerRequestULXC r) (MaxPerRequestULXC r');
  ls_hourly : raised (limitOf (HourlyLimitULXC r)) (limitOf (HourlyLimitULXC r'));
  ls_daily : raised (DailyLimitULXC r) (DailyLimitULXC r');
  ls_weekly : raised (limitOf (WeeklyLimitULXC r)) (limitOf (WeeklyLimitULXC r'));
  ls_monthly : raised (MonthlyLimitULXC r) (MonthlyLimitULXC r');
  ls_approval : raised (ApprovalAboveULXC r) (ApprovalAboveULXC r');
  ls_rpm : raised (limitOf (RequestsPerMinute r)) (limitOf (RequestsPerMinute r'));
  ls_rest : with_limits r 0 None 0 None 0 0 None = with_limits r' 0 None 0 None 0 0 None;
}.

#[export] Instance loosened_refl : Reflexive loosened.
Proof. by constructor. Qed.

#[export] Instance loosened_trans : Transitive loosened.
Proof. intros a b c [] []. constructor; etrans; eassumption. Qed.

Lemma apply_boost_loosened r b : 0 < bo_raised_from b -> loosened r (apply_boost r b).
Proof.
  intros Hp. unfold apply_boost. destruct (boostableRules (bo_rule b)) as [f|]; [|reflexivity].
  destruct (boost_field f r) as [v|] eqn:F; [|reflexivity].
  destruct (Z.eqb_spec v (bo_raised_from b)) as [E|]; [|reflexivity].
  destruct (Z.ltb_spec v (bo_value b)) as [L|]; [|reflexivity]. cbn [andb].
  assert (R : raised v (bo_value b)) by (right; lia).
  destruct f; cbn [boost_field] in F; constructor; cbn -[raised]; rewrite ?F; try reflexivity;
    first [exact R | injection F as ->; exact R].
Qed.

Lemma applyBoosts_loosened r boosts :
  Forall (fun b => 0 < bo_raised_from b) boosts -> loosened r (applyBoosts r boosts).
Proof.
  unfold applyBoosts. revert r. induction boosts as [|b l IH]; intros r; cbn; [done|].
  intros [Hb Hl]%Forall_cons. etrans; [by apply apply_boost_loosened|]. by apply IH.
Qed.

Lemma periodLimits_raised loc r r' at_ l' :
  loosened r r' -> l' ∈ periodLimits r' at_ loc ->
  exists l, l ∈ periodLimits r at_ loc /\ pl_since l = pl_since l' /\ raised (pl_ulxc l) (pl_ulxc l').
Proof.
  intros [_ L2 L3 L4 L5 _ _ _] Hl. unfold periodLimits in *. rewrite !elem_of_cons, elem_of_nil in Hl.
  setoid_rewrite elem_of_cons. setoid_rewrite elem_of_cons. setoid_rewrite elem_of_cons. setoid_rewrite elem_of_cons.
  destruct Hl as [->|[->|[->|[->|[]]]]]; eexists.
  - split; [left; reflexivity|]. split; [reflexivity|exact L2].
  - split; [right; left; reflexivity|]. split; [reflexivity|exact L3].
  - split; [do 2 right; left; reflexivity|]. split; [reflexivity|exact L4].
  - split; [do 3 right; left; reflexivity|]. split; [reflexivity|exact L5].
Qed.

(** Whatever the rules permit, loosened rules permit. *)
Lemma loosened_permitted loc r r' req at_ ws agent amount s :
  loosened r r' -> permitted loc r req at_ ws agent amount s -> permitted loc r' req at_ ws agent amount s.
Proof.
  intros L [P1 P2 P3 P4 P5 P6 P7 P8 P9 P10 P11 P12 P13].
  pose proof (fun l' => periodLimits_raised loc r r' at_ l' L) as PL.
  destruct r, r', L as [L1 _ _ _ _ L6 L7 L8]. unfold with_limits in L8. cbn in L8.
  injection L8 as -> -> -> -> -> -> -> -> -> -> -> -> -> ->. cbn in L1, L6, L7. unfold raised in L1, L6, L7.
  split; try assumption.
  - destruct P5. by split.
  - cbn in *. intros R Hp. specialize (P8 R). lia.
  - cbn in *. lia.
  - intros l' Hl Hz. destruct (PL l' Hl) as (l & Hin & <- & R). unfold raised in R.
    specialize (P10 l Hin). lia.
  - cbn in *. intros A1 A2. apply P13; lia.
Qed.

(** ** Filing approvals *)

(** What the partial unique index keeps: one open approval per agent and request. *)
Definition open_unique s : Prop :=
  forall agent fp id1 id2 a1 a2,
    agent_approvals s !! id1 = Some a1 -> agent_approvals s !! id2 = Some a2 ->
    approval_open agent fp a1 = true -> approval_open agent fp a2 = true -> id1 = id2.

Lemma find_open_some s agent fp id :
  find_open s agent fp = Some id -> exists a, agent_approvals s !! id = Some a /\ approval_open agent fp a = true.
Proof.
  unfold find_open. destruct (List.find _ _) as [[i a]|] eqn:F; cbn; [|done]. intros [= <-].
  apply find_some in F as [Hin Ho]. apply list_elem_of_In, elem_of_map_to_list in Hin. eauto.
Qed.

Lemma find_open_none s agent fp :
  find_open s agent fp = None -> forall id a, agent_approvals s !! id = Some a -> approval_open agent fp a = false.
Proof.
  unfold find_open. destruct (List.find _ _) eqn:F; cbn; [done|]. intros _ id a L.
  apply (find_none _ _ F (id, a)). by apply list_elem_of_In, elem_of_map_to_list.
Qed.

Lemma find_open_unique s agent fp id a :
  open_unique s -> agent_approvals s !! id = Some a -> approval_open agent fp a = true ->
  find_open s agent fp = Some id.
Proof.
  intros U L O. destruct (find_open s agent fp) as [id'|] eqn:F.
  - destruct (find_open_some _ _ _ _ F) as (a' & L' & O'). f_equal. by eapply U.
  - by rewrite (find_open_none _ _ _ F id a L) in O.
Qed.

Lemma approval_open_key agent fp agent' fp' a :
  approval_open agent fp a = true -> approval_open agent' fp' a = true -> agent = agent' /\ fp = fp'.
Proof. unfold approval_open. rewrite !andb_true_iff, !bool_decide_eq_true. naive_solver. Qed.

Lemma fileApproval_effect c amount ws agent req s id s1 :
  fileApproval c amount ws agent req s = Ok (id, s1) ->
  (exists a, agent_approvals s1 !! id = Some a /\ approval_open agent (rq_fingerprint req) a = true) /\
  ((find_open s agent (rq_fingerprint req) <> None /\ agent_approvals s1 = agent_approvals s) \/
   (find_open s agent (rq_fingerprint req) = None /\ exists k row, agent_approvals s !! k = None /\
      ap_agent row = agent /\ ap_fingerprint row = rq_fingerprint req /\ ap_status row = Pending /\
      agent_approvals s1 = <[k := row]> (agent_approvals s))).
Proof.
  unfold fileApproval. intros K. rewrite tx_gets_bind in K. apply tx_bind_ok in K as (u & s2 & U & K).
  apply uuid_new_ok in U as [-> ->]. rewrite tx_gets_bind in K.
  change (find_open (with_uuid_draws _ s)) with (find_open s) in K.
  apply tx_bind_ok in K as (u & s2 & K1 & K2). rewrite tx_gets_bind in K2.
  destruct (find_open s2 agent _) as [f|] eqn:F; [|by apply tx_fail_ok in K2].
  apply tx_ret_ok in K2 as [-> ->]. split; [by apply find_open_some|].
  destruct (find_open s agent _) as [g|] eqn:G; cbn [is_some] in K1.
  - apply tx_ret_ok in K1 as [_ ->]. by left.
  - rewrite tx_gets_bind, tx_guard_bind, tx_modify_ok in K1. destruct K1 as [D ->].
    right. split; [done|]. cbn in D |- *. destruct (agent_approvals s !! _) eqn:L; [done|].
    eexists _, _. split; [exact L|]. split; [|split; [|split; [|reflexivity]]]; done.
Qed.

Lemma open_unique_insert s s1 agent fp k row :
  open_unique s -> find_open s agent fp = None -> ap_agent row = agent -> ap_fingerprint row = fp ->
  agent_approvals s1 = <[k := row]> (agent_approvals s) -> open_unique s1.
Proof.
  intros U F Ea Ef E ag f id1 id2 a1 a2. rewrite E, !lookup_insert_Some.
  assert (Hrow : forall a i, agent_approvals s !! i = Some a -> approval_open ag f a = true ->
    approval_open ag f row = true -> False).
  { intros a i L O1 O2. assert (ag = agent /\ f = fp) as [-> ->].
    { revert O2. unfold approval_open. rewrite andb_true_iff, !bool_decide_eq_true. naive_solver. }
    by rewrite (find_open_none _ _ _ F _ _ L) in O1. }
  intros [[<- <-]|[_ L1]] [[<- <-]|[_ L2]] O1 O2; [done|exfalso; eauto..|by eapply U].
Qed.

(** ** When the periods begin *)

(** A zone whose offset never changes. *)
Definition fixed_zone (loc : Location) (off : Z) : Prop := forall t, zone_offset loc t = off.

Lemma fixed_Date loc off y m d : fixed_zone loc off -> Date loc y m d = (days_from_civil y m d * 86400 - off) * second.
Proof.
  intros F. unfold Date. pose proof (F (days_from_civil y m d * 86400)) as F0. unfold zone_offset in F0.
  destruct (lookup_zone loc _) as [[o a] b]. cbn in F0. subst o.
  destruct (Z.eqb_spec off 0); [f_equal; lia|]. case_match; [by rewrite F|done].
Qed.

Lemma fixed_wall loc off t : fixed_zone loc off -> wall_seconds loc t = t / second + off.
Proof. intros F. unfold wall_seconds. by rewrite F. Qed.

(** Midnight of the day [n] days from the one [t] falls on. *)
Lemma fixed_midnight loc off t n : fixed_zone loc off ->
  Date loc (Year loc t) (Month loc t) (Day loc t + n) = ((wall_days loc t + n) * 86400 - off) * second.
Proof.
  intros F. rewrite (fixed_Date loc off) by done. f_equal. f_equal. f_equal.
  destruct (civil_from_days (wall_days loc t)) as [[y m] d] eqn:E.
  destruct (civil_from_days_spec _ _ _ _ E) as (D & _).
  unfold Year, Month, Day. rewrite E. cbn [fst snd].
  rewrite days_from_civil_day in D |- *. lia.
Qed.

Lemma midnight_bounds loc off t : fixed_zone loc off ->
  (wall_days loc t * 86400 - off) * second <= t < ((wall_days loc t + 1) * 86400 - off) * second.
Proof.
  intros F. unfold wall_days. rewrite (fixed_wall loc off) by done. unfold second.
  pose proof (Z.div_mod t 1000000000 ltac:(lia)). pose proof (Z.mod_pos_bound t 1000000000 ltac:(lia)).
  pose proof (Z.div_mod (t / 1000000000 + off) 86400 ltac:(lia)).
  pose proof (Z.mod_pos_bound (t / 1000000000 + off) 86400 ltac:(lia)). lia.
Qed.

Lemma midnight_days loc off n : fixed_zone loc off -> wall_days loc ((n * 86400 - off) * second) = n.
Proof.
  intros F. unfold wall_days. rewrite (fixed_wall loc off) by done. unfold second.
  rewrite Z.div_mul by lia. replace (n * 86400 - off + off) with (n * 86400) by lia. apply Z.div_mul. lia.
Qed.

Lemma hour_bounds loc t :
  let hr := t - (Minute loc t * minute + Second loc t * second + Nanosecond t) in hr <= t < hr + hour.
Proof.
  unfold Minute, Second, Nanosecond, hour, minute, second. cbn zeta.
  set (w := wall_seconds loc t).
  pose proof (Z.mod_pos_bound t 1000000000 ltac:(lia)).
  pose proof (Z.mod_pos_bound w 3600 ltac:(lia)). pose proof (Z.mod_pos_bound w 60 ltac:(lia)).
  assert (w mod 60 = (w mod 3600) mod 60) as ->.
  { symmetry. apply Z.mod_mod_divide. by exists 60. }
  pose proof (Z.div_mod (w mod 3600) 60 ltac:(lia)). pose proof (Z.mod_pos_bound (w mod 3600) 60 ltac:(lia)). lia.
Qed.

Lemma day_start_fixed loc off t : fixed_zone loc off -> day_start t loc = (wall_days loc t * 86400 - off) * second.
Proof.
  intros F. pose proof (fixed_midnight loc off t 0 F) as E. rewrite !Z.add_0_r in E. exact E.
Qed.

(** ** Properties *)

(** every period a spending limit counts has begun: the clock hour holds the
    instant judged in every time zone, clock changes included; and wherever the
    zone's offset does not change, the day, the week and the month hold it too,
    the week beginning on a Monday and the month at its first midnight. *)
Theorem limit_periods_hold_now r t loc :
  exists h d w m, periodLimits r t loc = [h; d; w; m] /\
    pl_since h <= t < pl_since h + hour /\
    forall off, fixed_zone loc off ->
      pl_since d <= t < pl_since d + 24 * hour /\
      (pl_since w <= t < pl_since w + 7 * 24 * hour /\ Weekday loc (pl_since w) = 1) /\
      (pl_since m <= t < pl_since m + 31 * 24 * hour /\
       pl_since m = (days_from_civil (Year loc t) (Month loc t) 1 * 86400 - off) * second).
Proof.
  eexists _, _, _, _. split; [reflexivity|]. cbn [pl_since]. split; [apply hour_bounds|].
  intros off F. pose proof (midnight_bounds loc off t F) as B.
  rewrite (day_start_fixed loc off) by done.
  assert (K : 0 <= (Weekday loc t + 6) mod 7 < 7) by (apply Z.mod_pos_bound; lia).
  assert (KM : 1 <= Day loc t <= 31 /\ days_from_civil (Year loc t) (Month loc t) (Day loc t) = wall_days loc t).
  { unfold Day, Month, Year. destruct (civil_from_days (wall_days loc t)) as [[y m] d] eqn:E.
    by destruct (civil_from_days_spec _ _ _ _ E) as (? & ? & _). }
  destruct KM as [KM KD].
  replace (Day loc t - (Weekday loc t + 6) mod 7) with (Day loc t + - ((Weekday loc t + 6) mod 7)) by lia.
  rewrite (fixed_midnight loc off), (fixed_Date loc off _ _ 1) by done.
  assert (K1 : days_from_civil (Year loc t) (Month loc t) 1 = wall_days loc t - (Day loc t - 1))
    by (rewrite days_from_civil_day in KD; lia).
  assert (KW : Weekday loc (((wall_days loc t + - ((Weekday loc t + 6) mod 7)) * 86400 - off) * second)
    = weekday_of_days (wall_days loc t + - ((Weekday loc t + 6) mod 7)))
    by (unfold Weekday at 1; by rewrite (midnight_days loc off)).
  rewrite KW, K1. clear KW.
  unfold hour, minute, second in *. split; [lia|]. split; [|lia].
  split; [lia|]. unfold weekday_of_days, Weekday. unfold weekday_of_days.
  set (z := wall_days loc t). pose proof (Z.div_mod (z + 4) 7 ltac:(lia)).
  pose proof (Z.mod_pos_bound (z + 4) 7 ltac:(lia)).
  pose proof (Z.div_mod ((z + 4) mod 7 + 6) 7 ltac:(lia)). pose proof (Z.mod_pos_bound ((z + 4) mod 7 + 6) 7 ltac:(lia)).
  symmetry. apply (Z.mod_unique _ _ ((z + 4) / 7 + ((z + 4) mod 7 + 6) / 7 - 1)); lia.
Qed.

Definition only_utc (name : string) : option Location := if bool_decide (name = "UTC"%string) then Some UTC else None.

Lemma utc_fixed : fixed_zone UTC 0.
Proof. intros t. reflexivity. Qed.

Definition demo_rules : AgentRules :=
  mkRules 100 (Some 150) 0 None 0 50 ["gpt-4o"]%string [] None "08:00" "18:00" "UTC" true None (Some 3) None None None
    None None None.

(** Monday 5 January 2026, 12:34:56 UTC. *)
Definition demo_now : Z := 1767616496 * second.

Lemma limit_periods_hold_now_witness :
  exists h d w m, periodLimits demo_rules demo_now UTC = [h; d; w; m] /\
    pl_since h <= demo_now < pl_since h + hour /\
    forall off, fixed_zone UTC off ->
      pl_since d <= demo_now < pl_since d + 24 * hour /\
      (pl_since w <= demo_now < pl_since w + 7 * 24 * hour /\ Weekday UTC (pl_since w) = 1) /\
      (pl_since m <= demo_now < pl_since m + 31 * 24 * hour /\
       pl_since m = (days_from_civil (Year UTC demo_now) (Month UTC demo_now) 1 * 86400 - off) * second).
Proof. exact (limit_periods_hold_now demo_rules demo_now UTC). Defined.

(** A movement is let through exactly when the agent is active and the rules in force permit
    it, each by the code's own definitions; [Permits] restates both apart from them. *)
Lemma enforce_iff LL c ws agent amount ref s :
  turnover s < 2305843009213693952 -> 0 <= amount < 2305843009213693952 ->
  (exists s', enforceAgentRules LL c ws agent amount ref s = Ok (tt, s')) <->
  active_agent s agent /\
  match agentRulesInForce s agent (agentRequestFrom c).2 with
  | None => commitment_ok no_rules (rq_commitment (agent_request c))
  | Some r => exists loc, location LL r = Some loc /\
      permitted loc r (agent_request c) (agentRequestFrom c).2 ws agent amount s
  end.
Proof.
  intros Ht Ha. unfold enforceAgentRules.
  setoid_rewrite (tx_reads_bind _ _ _ _ _ (fun u s' => refuseIfPaused_ok agent s u s')).
  change (agentRequestFrom c) with (agent_request c, (agentRequestFrom c).2). cbn iota. cbn [snd].
  setoid_rewrite tx_gets_bind. destruct (agentRulesInForce s agent _) as [r|].
  - rewrite <- (enforce_rules_iff LL c r ws agent amount ref s Ht Ha). naive_solver.
  - setoid_rewrite (tx_reads_bind _ _ _ _ _ (fun u s' => judgeCommitment_ok no_rules _ s u s')).
    destruct (record_watch_runs c ws agent (agent_request c) None amount ref (agentRequestFrom c).2 false s Ht) as [s' R].
    naive_solver.
Qed.

Definition rules_store : Store :=
  with_agent_rules {[ "a1"%string := demo_rules ]}
    (with_agent_accounts {[ "a1"%string := mkAgent "ws" "Ada" "u1" "agent" "" 0 None "" None ]} empty_store).

Definition rules_ctx : Ctx :=
  mkCtx demo_now (fun n => pretty n) "" "" ""
    (mkRequest "gpt-4o" "openai" "fp" None false "" (mkPayee "" "" "") "" (mkCommitment "" "" false 0)).

Lemma fifty_in_range : 0 <= 50 < 2305843009213693952.
Proof. lia. Qed.

(** a boost never makes an agent's rules stricter: whatever an agent's rules
    permit, they permit with any boosts laid over them, in any order, each boost
    having been set over a limit there was. *)
Theorem boosts_never_tighten loc r boosts req at_ ws agent amount s :
  Forall (fun b => 0 < bo_raised_from b) boosts ->
  permitted loc r req at_ ws agent amount s ->
  permitted loc (applyBoosts r boosts) req at_ ws agent amount s.
Proof. intros Hb. apply loosened_permitted. by apply applyBoosts_loosened. Qed.

Definition demo_boost : AgentRuleBoost := mkBoost "max_per_request_ulxc" 100 900 (demo_now + hour).

Lemma boosts_never_tighten_witness :
  exists loc, permitted loc (applyBoosts (applyBoosts (scanAgentRules demo_rules) []) [demo_boost])
    (agent_request rules_ctx) demo_now "ws" "a1" 50 rules_store /\
  MaxPerRequestULXC (applyBoosts (applyBoosts (scanAgentRules demo_rules) []) [demo_boost]) = 900.
Proof.
  destruct (proj1 (enforce_rules_iff only_utc rules_ctx (applyBoosts (scanAgentRules demo_rules) []) "ws" "a1" 50 "r1"
    rules_store eq_refl fifty_in_range) (ex_intro _ _ eq_refl)) as (loc & _ & P).
  exists loc. split; [|reflexivity].
  apply (boosts_never_tighten loc _ [demo_boost]); [repeat constructor|exact P].
Defined.

(** An approval lets its request through once.  A movement above the approval
    amount goes through only on an approved approval of that agent and that
    request; it leaves that approval used, naming the movement, and no approved
    one behind it, so the same request is refused until a person approves it
    again; no other approval changes. *)
Theorem approval_lets_through_once LL c ws agent amount ref s s' :
  needs_approval c agent amount s = true ->
  enforceAgentRules LL c ws agent amount ref s = Ok (tt, s') ->
  (exists id a, agent_approvals s !! id = Some a /\
     open_approval agent (rq_fingerprint (agent_request c)) a = true /\
     agent_approvals s' !! id = Some (approval_used ref a)) /\
  (forall id a, agent_approvals s' !! id = Some a -> open_approval agent (rq_fingerprint (agent_request c)) a = false) /\
  (forall id a, agent_approvals s !! id = Some a -> open_approval agent (rq_fingerprint (agent_request c)) a = false ->
     agent_approvals s' !! id = Some a).
Proof.
  intros N K. apply enforce_effect in K as (_ & _ & K). destruct (K N) as [(id & a & L & O) E].
  rewrite E. unfold approvals_used. setoid_rewrite lookup_fmap. split; [|split].
  - exists id, a. rewrite L. cbn. by rewrite O.
  - intros id' a' H. destruct (agent_approvals s !! id') as [b|]; [|done]. cbn in H. injection H as <-.
    destruct (open_approval agent _ b) eqn:Ob; [|done].
    unfold open_approval, approval_used. apply bool_decide_eq_false. cbn. by intros (_ & _ & ?).
  - intros id' a' H Oa. rewrite H. cbn. by rewrite Oa.
Qed.

Definition approved_store : Store :=
  with_agent_approvals {[ "apr_1"%string := mkApproval "ws" "a1" "fp" 60 "gpt-4o" (mkPayee "" "" "") "" Approved "" ]} rules_store.

Lemma approval_lets_through_once_witness :
  exists s' id a, enforceAgentRules only_utc rules_ctx "ws" "a1" 60 "r1" approved_store = Ok (tt, s') /\
    agent_approvals s' !! id = Some (approval_used "r1" a).
Proof.
  assert (E : exists s', enforceAgentRules only_utc rules_ctx "ws" "a1" 60 "r1" approved_store = Ok (tt, s'))
    by (eexists; vm_compute; reflexivity).
  destruct E as [s' E].
  destruct (approval_lets_through_once only_utc rules_ctx "ws" "a1" 60 "r1" approved_store s' eq_refl E)
    as ((id & a & _ & _ & A) & _).
  exists s', id, a. split; [exact E|exact A].
Defined.

(** a request refused for approval is filed once.  Filing it leaves one open
    approval for it, and filing it again, by a retry of any amount, finds that
    same approval and changes none; at most one approval is ever open per agent
    and request, deciding one included. *)
Theorem approval_filed_once c amount ws agent req s id s1 :
  open_unique s -> fileApproval c amount ws agent req s = Ok (id, s1) ->
  open_unique s1 /\
  (exists a, agent_approvals s1 !! id = Some a /\ approval_open agent (rq_fingerprint req) a = true) /\
  (forall c' amount' ws', fileApproval c' amount' ws' agent req s1 =
     Ok (id, with_uuid_draws (N.succ (uuid_draws s1)) s1)) /\
  (forall ws' id' approve s2, DecideAgentApproval ws' id' approve s1 = Ok (tt, s2) -> open_unique s2).
Proof.
  intros U K. apply fileApproval_effect in K as [(a & L & O) C].
  assert (U1 : open_unique s1).
  { destruct C as [[_ E]|(F & k & row & _ & Ea & Ef & _ & E)].
    - intros ag f. rewrite E. apply U.
    - by eapply open_unique_insert. }
  split; [done|]. split; [eauto|]. split.
  - intros c' amount' ws'. unfold fileApproval.
    pose proof (find_open_unique s1 _ _ id a U1 L O) as F.
    unfold tx_bind, tx_gets, uuid_new, tx_ret.
    change (find_open (with_uuid_draws (N.succ (uuid_draws s1)) s1)) with (find_open s1).
    rewrite F. cbn [is_some].
    change (find_open (with_uuid_draws (N.succ (uuid_draws s1)) s1)) with (find_open s1). by rewrite F.
  - intros ws' id' approve s2. unfold DecideAgentApproval. rewrite tx_gets_bind.
    destruct (agent_approvals s1 !! id') as [b|] eqn:Lb; [|by intros ?%tx_fail_ok].
    rewrite tx_guard_bind, tx_modify_ok, bool_decide_eq_true. intros [[_ Hp] ->].
    intros ag f id1 id2 a1 a2. cbn. rewrite !lookup_insert_Some.
    assert (Hb : forall st, approval_open ag f (mkApproval (ap_ws b) (ap_agent b) (ap_fingerprint b) (ap_amount b)
      (ap_model b) (ap_payee b) (ap_memo b) st (ap_used_ref b)) = true -> approval_open ag f b = true).
    { intros st. unfold approval_open. rewrite !andb_true_iff, !bool_decide_eq_true. cbn. naive_solver. }
    intros [[<- <-]|[_ L1]] [[<- <-]|[_ L2]] O1 O2; [done|..]; try apply Hb in O1; try apply Hb in O2;
      by eapply (U1 ag f).
Qed.

Lemma approval_filed_once_witness :
  exists id s1, fileApproval rules_ctx 60 "ws" "a1" (agent_request rules_ctx) rules_store = Ok (id, s1) /\
    fileApproval rules_ctx 70 "ws" "a1" (agent_request rules_ctx) s1 = Ok (id, with_uuid_draws (N.succ (uuid_draws s1)) s1).
Proof.
  assert (E : exists id s1, fileApproval rules_ctx 60 "ws" "a1" (agent_request rules_ctx) rules_store = Ok (id, s1))
    by (eexists _, _; vm_compute; reflexivity).
  destruct E as (id & s1 & E). exists id, s1. split; [exact E|].
  assert (U : open_unique rules_store) by (intros ? ? ? ? ? ? H; discriminate H).
  destruct (approval_filed_once rules_ctx 60 "ws" "a1" _ rules_store id s1 U E) as (_ & _ & R & _). apply R.
Defined.

(** The unusual-spend rule in exact integers: some spend in the week before the
    last hour, the hour's at least five times its hourly rate, and no alert yet in
    the hour. *)
Definition unusual (agent : string) (last week hourAgo : Z) s : bool :=
  (0 <? week) && (5 * week <=? 168 * last)
  && negb (existsb (fun a => bool_decide (al_agent a = agent) && (hourAgo <=? al_at a)) (agent_spend_alerts s)).

Lemma paused_inactive s agent t why :
  agent_accounts s !! agent <> None ->
  ~ active_agent (with_agent_accounts (alter (pause_row t why) agent (agent_accounts s)) s) agent.
Proof.
  intros Hd (a & L & _ & P & _). cbn in L. rewrite lookup_alter_eq in L.
  destruct (agent_accounts s !! agent) as [b|]; [|done]. cbn in L. injection L as <-.
  unfold pause_row in P. destruct (ag_paused b) eqn:E; [by rewrite E in P|done].
Qed.

(** unusual spend is watched exactly as the rule states it.  A movement the
    rules let through raises an alert, at most one an hour, precisely when the
    hour's spend with it reaches five times the hourly rate of the week before;
    with the pausing rule on, and only then, the alert leaves the agent unable to
    make another movement; the movement itself is never refused. *)
Theorem unusual_spend_pauses c ws agent amount at_ pauseOn s :
  turnover s < 18014398509481984 -> 0 <= amount < 18014398509481984 ->
  agent_accounts s !! agent <> None ->
  let last := watched_spend_since s ws agent (at_ - hour) + amount in
  let week := watched_spend s ws agent (at_ - hour - 168 * hour) (at_ - hour) in
  let raise := unusual agent last week (at_ - hour) s in
  exists s' id, watchAgentSpend c ws agent amount at_ pauseOn s = Ok (tt, s') /\
    agent_spend_alerts s' =
      (if raise then [mkAlert id ws agent last (week / 168) pauseOn (now c)] else []) ++ agent_spend_alerts s /\
    (raise && pauseOn = true -> ~ active_agent s' agent) /\
    (raise && pauseOn = false -> agent_accounts s' = agent_accounts s).
Proof.
  intros Ht Ha Hd last week raise.
  pose proof (watched_bound s ws agent (at_ - hour - 168 * hour) (at_ - hour)) as [BW _].
  pose proof (watched_bound s ws agent (at_ - hour) 0) as [_ BL]. fold week in BW.
  unfold watchAgentSpend, usualSpendHours, UnusualSpendMultiple. change (7 * 24) with 168.
  unfold bigint, sql_bigint. unfold tx_bind at 1, tx_gets at 1.
  rewrite (proj2 (in_i64b_spec _)) by (i64_ranges; lia).
  unfold tx_bind at 1, tx_ret at 1, tx_bind at 1, tx_gets at 1. fold week.
  rewrite (proj2 (in_i64b_spec _)) by (i64_ranges; lia).
  unfold tx_bind at 1, tx_ret at 1.
  assert (E1 : watched_spend_since s ws agent (at_ - hour) +! amount = last) by (apply wrap64_id; i64_ranges; lia).
  assert (EL : Z.abs last < 36028797018963968) by (subst last; lia).
  rewrite E1. assert (in_i64 (last * 168) /\ in_i64 (5 * week)) as [R1 R2] by (i64_ranges; lia).
  rewrite (wrap64_id (last * 168)), (wrap64_id (5 * week)) by done.
  subst raise. unfold unusual.
  destruct (Z.leb_spec week 0) as [W|W]; cbn [orb].
  { exists s, ""%string. rewrite (proj2 (Z.ltb_ge 0 week)) by lia. cbn [andb app]. done. }
  rewrite (proj2 (Z.ltb_lt 0 week)) by lia. cbn [andb].
  destruct (Z.ltb_spec (last * 168) (5 * week)) as [L|L].
  { exists s, ""%string. rewrite (proj2 (Z.leb_gt (5 * week) _)) by lia. cbn [andb app]. done. }
  rewrite (proj2 (Z.leb_le (5 * week) _)) by lia. cbn [andb].
  unfold tx_bind at 1, tx_gets at 1. destruct (existsb _ _); cbn [negb app].
  { exists s, ""%string. done. }
  unfold tx_bind at 1, uuid_new. rewrite Z.quot_div_nonneg by lia.
  destruct pauseOn; cbn [andb]; eexists _, _; (split; [reflexivity|]); (split; [reflexivity|]); (split; [|done]).
  - intros _ A. destruct (paused_inactive s agent (now c) (unusual_reason last (week / 168)) Hd). exact A.
  - done.
Qed.

(** An agent that spent 168 µLXC the day before. *)
Definition watched_store : Store :=
  with_agent_postings
    [mkPosting "e0" "ws" (agentAccount "a1") (-168) "spend" "r0" None None "" (demo_now - 24 * hour)] rules_store.

Lemma unusual_spend_pauses_witness :
  exists s' id, watchAgentSpend rules_ctx "ws" "a1" 5 demo_now true watched_store = Ok (tt, s') /\
    agent_spend_alerts s' = [mkAlert id "ws" "a1" 5 1 true demo_now] /\ ~ active_agent s' "a1".
Proof.
  destruct (unusual_spend_pauses rules_ctx "ws" "a1" 5 demo_now true watched_store)
    as (s' & id & R & A & P & _); [reflexivity|lia|discriminate|].
  exists s', id. split; [exact R|]. split; [rewrite A; vm_compute; reflexivity|].
  apply P. vm_compute. reflexivity.
Defined.
