(* ===== verification/Permits.v ===== *)
(** What an agent's spending rules promise, told from the tables and the calendar alone,
    and that [enforceAgentRules] ([internal/economy/agent_rules.go]) keeps that promise on
    every branch.  Nothing here is built from the code's own sums, periods or boosts: the
    specification sums rows by what each is, counts refs as sets, begins periods at the
    midnights of numbered days and looks each boost up by its key. *)
From S2P Require Import Prelude Money Tables Postings Clock Rules.
From stdpp Require Import pretty.
Open Scope Z_scope.
Open Scope i64_scope.

Implicit Types (s : Store).

(** ** Periods *)

(** The first instant of the local day numbered [n]. *)
Definition midnight (loc : Location) (n : Z) : Z :=
  let '(y, m, d) := civil_from_days n in Date loc y m d.

(** The instants the local clock's hour, day, week (from Monday; day 0 was a Thursday) and month began. *)
Definition hour_began (loc : Location) (t : Z) : Z := t - (wall_seconds loc t * second + t mod second) mod hour.
Definition day_began (loc : Location) (t : Z) : Z := midnight loc (wall_days loc t).
Definition week_began (loc : Location) (t : Z) : Z := midnight loc (wall_days loc t - (wall_days loc t + 3) mod 7).
Definition month_began (loc : Location) (t : Z) : Z :=
  midnight loc (wall_days loc t - ((civil_from_days (wall_days loc t)).2 - 1)).

(** Minutes since local midnight; and whether they are in the window from one minute of the
    day to another, round the clock. *)
Definition minute_of_day (loc : Location) (t : Z) : Z := wall_seconds loc t / 60 mod 1440.

Definition in_window (from until m : Z) : Prop := (m - from) mod 1440 < (until - from) mod 1440.

(** ** What counts *)

(** What one posting on an agent's account spends: its questions, held, settled and given
    back, their fees, its card, and what it paid to other agents, not what they paid it.
    Transfers and escrows are no part of it. *)
Definition posting_spends (p : Posting) : Z :=
  if decide (ps_kind p ∈ ["card"; "hold"; "platform_fee"; "release"; "settle"; "spend"]%string) then - ps_amount p
  else if decide (ps_kind p = "pay"%string) then Z.max 0 (- ps_amount p)
  else 0.

(** The SQL pattern ['invoice_agent:%'], whose underscore is any one character. *)
Definition paid_invoice (ref : string) : Prop :=
  exists a rest, String.list_ascii_of_string ref = String.list_ascii_of_string "invoice" ++ a :: String.list_ascii_of_string "agent:" ++ rest.

Lemma matches_lit x ps l : matches (lit x ++ ps) l = true <-> exists k, l = String.list_ascii_of_string x ++ k /\ matches ps k = true.
Proof.
  unfold lit. revert l. induction (String.list_ascii_of_string x) as [|a w IH]; intros l; cbn; [naive_solver|].
  destruct l as [|b l]; [naive_solver|]. rewrite andb_true_iff, bool_decide_eq_true, IH. naive_solver.
Qed.

Lemma matches_one ps l : matches ((fun _ => true) :: ps) l = true <-> exists a k, l = a :: k /\ matches ps k = true.
Proof. destruct l; cbn; naive_solver. Qed.

Lemma invoice_ref_spec ref : invoice_ref ref = true <-> paid_invoice ref.
Proof.
  unfold invoice_ref, paid_invoice. cbv zeta. set (l := String.list_ascii_of_string ref). clearbody l.
  rewrite matches_lit. setoid_rewrite matches_one. split.
  - intros (k & Ek & a & k' & -> & M). rewrite <- (app_nil_r (lit "agent:")), matches_lit in M. destruct M as (k2 & -> & M).
    destruct k2; [|done]. exists a, (drop 14 l). rewrite <- (take_drop 14 l) at 1. by rewrite Ek.
  - intros (a & rest & ->). eexists. split; [reflexivity|]. by eexists _, _.
Qed.

#[export] Instance paid_invoice_dec ref : Decision (paid_invoice ref).
Proof. destruct (invoice_ref ref) eqn:E; [left|right]; rewrite <- invoice_ref_spec; by rewrite E. Defined.

Section Counting.
Context (s : Store) (ws agent : string).

Definition own_postings : list Posting := filter (fun p => ps_ws p = ws /\ ps_account p = agentAccount agent) (agent_postings s).

(** What the agent spent since an instant: by its postings, by its uses of the marketplace,
    billed to its company, by its payments out but those that failed or came back, and by the
    invoices it paid. *)
Definition spent_since (since : Z) : Z :=
  sumZ (posting_spends <$> filter (fun p => since <= ps_at p) own_postings)
  + sumZ (mu_price <$> filter (fun u => mu_ws u = ws /\ mu_agent u = agent /\ mu_charge u = "billed"%string /\ since <= mu_at u) (market_uses s))
  + sumZ (mp_value <$> filter (fun p => mp_ws p = ws /\ mp_agent p = agent /\ since <= mp_at p
                                        /\ mp_status p ∉ ["returned"; "failed"]%string) (money_payments s))
  + sumZ (pp_amount <$> filter (fun p => pp_ws p = ws /\ pp_agent p = agent /\ since <= pp_at p /\ paid_invoice (pp_ref p)) (agent_payee_payments s)).

(** On one model, by the key its versions share. *)
Definition spent_on_model (model : string) (since : Z) : Z :=
  sumZ ((fun p => - ps_amount p) <$> filter (fun p => since <= ps_at p /\ ps_model p = Some (modelCapKey model)
      /\ ps_kind p ∈ ["hold"; "platform_fee"; "release"; "settle"; "spend"]%string) own_postings).

(** The questions asked after one instant and no later than another. *)
Definition asked_within (from until : Z) : gset string :=
  list_to_set (ps_ref <$> filter (fun p => from < ps_at p <= until /\ ps_kind p ∈ ["spend"; "hold"]%string) own_postings).

Definition asked_after (from : Z) : gset string :=
  list_to_set (ps_ref <$> filter (fun p => from < ps_at p /\ ps_kind p ∈ ["spend"; "hold"]%string) own_postings).

(** New questions since an instant: not those that had begun in the hour before it. *)
Definition new_questions (since : Z) : Z := Z.of_nat (size (asked_after since ∖ asked_within (since - hour) since)).

(** What it paid one payee, by any of the ids it was known by. *)
Definition paid_to (id : string) (since : Z) : Z :=
  sumZ (pp_amount <$> filter (fun p => pp_agent p = agent /\ since <= pp_at p /\ id ∈ pp_ids p) (agent_payee_payments s)).
End Counting.

(** The ids a payee is known by: its own; and, of an agent or a listing, its company's. *)
Inductive known_as s (p : Payee) : string -> Prop :=
| KnownItself : known_as s p (py_id p)
| KnownByAgent : py_id p <> ""%string -> py_kind p = "agent"%string ->
    known_as s p (from_option ag_ws ""%string (agent_accounts s !! py_id p))
| KnownByListing : py_id p <> ""%string -> py_kind p = "listing"%string ->
    known_as s p (from_option ml_ws ""%string (market_listings s !! py_id p)).

(** ** The rules in force *)

(** A limit, with the boost there is over it: while it lasts, if it was set over the limit
    as it stands, and if it raises it. *)
Definition boosted s (agent name : string) (at_ v : Z) : Z :=
  match agent_rule_boosts s !! (agent, name) with
  | Some b => if decide (at_ < bo_until b /\ bo_raised_from b = v) then Z.max v (bo_value b) else v
  | None => v
  end.

Definition rules_in_force s (agent : string) (at_ : Z) (r : AgentRules) : AgentRules :=
  let over := fun name v => boosted s agent name at_ v in
  mkRules (over "max_per_request_ulxc"%string (MaxPerRequestULXC r))
    (Some (over "hourly_limit_ulxc"%string (default 0 (HourlyLimitULXC r))))
    (over "daily_limit_ulxc"%string (DailyLimitULXC r))
    (Some (over "weekly_limit_ulxc"%string (default 0 (WeeklyLimitULXC r))))
    (over "monthly_limit_ulxc"%string (MonthlyLimitULXC r))
    (over "approval_above_ulxc"%string (ApprovalAboveULXC r))
    (AllowedModels r) (AllowedProviders r) (Some (default [] (AllowedListings r))) (ActiveFrom r) (ActiveUntil r) (Timezone r)
    (PauseOnUnusualSpend r) (Some (default ∅ (ModelDailyLimitsULXC r)))
    (Some (over "requests_per_minute"%string (default 0 (RequestsPerMinute r))))
    (Some (default [] (AllowedPayees r))) (Some (default [] (BlockedPayees r))) (Some (default ∅ (PayeeDailyLimitsULXC r)))
    (Some (default 0 (MaxCommitmentULXC r))) (Some (default [] (AllowedLicences r))) (Some (default false (MaySubscribe r))).

(** The zone the rules' clock is in. *)
Definition in_zone (LL : string -> option Location) (r : AgentRules) (loc : Location) : Prop :=
  if decide (Timezone r = ""%string) then loc = UTC else LL (Timezone r) = Some loc.

(** ** The promise *)

(** What any agent may commit to, and what these rules let it. *)
Record may_commit (r : AgentRules) (c : Commitment) : Prop := mkMayCommit {
  mc_company : cm_licence c = "commercial"%string \/ cm_licence c = "enterprise"%string;
  mc_licence : default [] (AllowedLicences r) = [] \/ cm_licence c ∈ default [] (AllowedLicences r);
  mc_subscribe : cm_kind c = "subscribe"%string \/ cm_renews c = true -> MaySubscribe r = Some true;
  mc_price : 0 < default 0 (MaxCommitmentULXC r) -> cm_ulxc c <= default 0 (MaxCommitmentULXC r);
}.

(** A limit of nothing is no limit. *)
Definition within (limit spent amount : Z) : Prop := limit = 0 \/ spent + amount <= limit.

Record permits (loc : Location) (r : AgentRules) (req : AgentRequest) (at_ : Z) (ws agent : string) (amount : Z) s : Prop := mkPermits {
  ps_hours : ActiveFrom r = ""%string \/
    in_window (default 0 (clockMinutes (ActiveFrom r))) (default 0 (clockMinutes (ActiveUntil r))) (minute_of_day loc at_);
  ps_models : rq_payment req = true \/ AllowedModels r = [] \/ rq_model req ∈ AllowedModels r;
  ps_providers : rq_payment req = true \/ AllowedProviders r = [] \/ rq_provider req ∈ AllowedProviders r;
  ps_listings : default [] (AllowedListings r) = [] \/ rq_listing req = ""%string \/ rq_listing req ∈ default [] (AllowedListings r);
  ps_commits : cm_kind (rq_commitment req) = ""%string \/ may_commit r (rq_commitment req);
  ps_blocked : rq_payment req = true -> forall id, known_as s (rq_payee req) id -> id ∉ default [] (BlockedPayees r);
  ps_named : rq_payment req = true -> default [] (AllowedPayees r) = [] \/
    exists id, known_as s (rq_payee req) id /\ id ∈ default [] (AllowedPayees r);
  ps_asks : rq_payment req = true \/ default 0 (RequestsPerMinute r) <= 0 \/
    new_questions s ws agent (at_ - minute) < default 0 (RequestsPerMinute r);
  ps_one : MaxPerRequestULXC r <= 0 \/ amount <= MaxPerRequestULXC r;
  ps_hour : within (default 0 (HourlyLimitULXC r)) (spent_since s ws agent (hour_began loc at_)) amount;
  ps_day : within (DailyLimitULXC r) (spent_since s ws agent (day_began loc at_)) amount;
  ps_week : within (default 0 (WeeklyLimitULXC r)) (spent_since s ws agent (week_began loc at_)) amount;
  ps_month : within (MonthlyLimitULXC r) (spent_since s ws agent (month_began loc at_)) amount;
  ps_on_model : forall cap, default ∅ (ModelDailyLimitsULXC r) !! modelCapKey (rq_model req) = Some cap -> 0 < cap ->
    rq_payment req = true \/ spent_on_model s ws agent (rq_model req) (day_began loc at_) + amount <= cap;
  ps_on_payee : rq_payment req = true -> forall id cap, known_as s (rq_payee req) id ->
    default ∅ (PayeeDailyLimitsULXC r) !! id = Some cap -> 0 < cap -> paid_to s agent id (day_began loc at_) + amount <= cap;
  ps_approved : ApprovalAboveULXC r <= 0 \/ amount <= ApprovalAboveULXC r \/
    rq_fingerprint req <> ""%string /\
    exists id a, agent_approvals s !! id = Some a /\ ap_agent a = agent /\ ap_fingerprint a = rq_fingerprint req /\ ap_status a = Approved;
}.

(** ** The code's sums are those *)

Lemma sum_where_filter {A} (cond : A -> bool) (P : A -> Prop) `{!forall x, Decision (P x)} f (l : list A) :
  (forall x, cond x = true <-> P x) -> sum_where cond f l = sumZ (f <$> filter P l).
Proof.
  intros Hc. unfold sum_where. induction l as [|x l IH]; [done|]. rewrite filter_cons, fmap_cons. cbn [sumZ]. rewrite IH.
  pose proof (Hc x) as Hx. destruct (cond x), (decide (P x)); rewrite ?fmap_cons; cbn [sumZ]; try lia; naive_solver.
Qed.

Lemma filter_filter_and {A} (P Q : A -> Prop) `{!forall x, Decision (P x), !forall x, Decision (Q x)} (l : list A) :
  filter Q (filter P l) = filter (fun x => P x /\ Q x) l.
Proof.
  induction l as [|x l IH]; [done|]. rewrite !filter_cons. destruct (decide (P x)) as [HP|HP].
  - rewrite filter_cons, IH. repeat case_decide; naive_solver.
  - rewrite (decide_False (P := P x /\ Q x)) by naive_solver. exact IH.
Qed.

Lemma own_posting_spec ws agent p : own_posting ws agent p = true <-> ps_ws p = ws /\ ps_account p = agentAccount agent.
Proof. unfold own_posting. by rewrite andb_true_iff, !bool_decide_eq_true. Qed.

Lemma postings_spend s ws agent since :
  - sum_where (fun p => own_posting ws agent p && (since <=? ps_at p) && agentSpendPostings p) ps_amount (agent_postings s) =
  sumZ (posting_spends <$> filter (fun p => since <= ps_at p) (own_postings s ws agent)).
Proof.
  unfold own_postings. rewrite filter_filter_and. unfold sum_where. induction (agent_postings s) as [|p l IH]; [done|].
  rewrite fmap_cons, filter_cons. cbn [sumZ]. pose proof (own_posting_spec ws agent p) as Ho.
  assert (E : (if agentSpendPostings p then ps_amount p else 0) = - posting_spends p).
  { unfold agentSpendPostings, posting_spends, Contains, spend_kinds.
    destruct (decide (ps_kind p ∈ ["card"; "hold"; "platform_fee"; "release"; "settle"; "spend"]%string)) as [K|K].
    - rewrite bool_decide_true; [cbn [orb]; lia|]. revert K. rewrite !elem_of_cons, elem_of_nil. tauto.
    - rewrite (bool_decide_false (ps_kind p ∈ _)); [|revert K; rewrite !elem_of_cons, elem_of_nil; tauto]. cbn [orb].
      destruct (decide (ps_kind p = "pay"%string)) as [Ep|Ep]; [rewrite (bool_decide_true _ Ep)|by rewrite (bool_decide_false _ Ep)].
      cbn [andb]. destruct (Z.ltb_spec (ps_amount p) 0); lia. }
  destruct (own_posting ws agent p), (Z.leb_spec since (ps_at p)); cbn [andb].
  1: rewrite decide_True by naive_solver; rewrite fmap_cons; cbn [sumZ]; lia.
  all: rewrite decide_False by (intros [? ?]; naive_solver lia); lia.
Qed.

Lemma agent_spent_is s ws agent since : agent_spent s ws agent since = spent_since s ws agent since.
Proof.
  unfold agent_spent, spent_since. rewrite postings_spend. f_equal; [f_equal; [f_equal|]|]; apply sum_where_filter; intros p;
    rewrite !andb_true_iff, ?Z.leb_le, ?bool_decide_eq_true, ?negb_true_iff, ?invoice_ref_spec; try tauto.
  unfold Contains. rewrite bool_decide_eq_false, !elem_of_cons, !elem_of_nil. tauto.
Qed.

Lemma model_spent_is s ws agent model since : agent_model_spent s ws agent model since = spent_on_model s ws agent model since.
Proof.
  unfold agent_model_spent, spent_on_model, own_postings. rewrite filter_filter_and.
  rewrite (sum_where_filter _ (fun p => (ps_ws p = ws /\ ps_account p = agentAccount agent) /\ since <= ps_at p /\ ps_model p = Some (modelCapKey model)
      /\ ps_kind p ∈ ["hold"; "platform_fee"; "release"; "settle"; "spend"]%string)).
  - induction (filter _ _) as [|p l IH]; [done|]. rewrite !fmap_cons. cbn [sumZ]. lia.
  - intros p. rewrite !andb_true_iff, Z.leb_le, own_posting_spec, bool_decide_eq_true, Contains_spec, !elem_of_cons, !elem_of_nil. tauto.
Qed.

Lemma paid_to_is s agent id since : agent_paid_payee s agent id since = paid_to s agent id since.
Proof.
  apply sum_where_filter. intros p. rewrite !andb_true_iff, Z.leb_le, bool_decide_eq_true, Contains_spec. tauto.
Qed.

Lemma new_questions_is s ws agent since : agentRequestsSince s ws agent since = new_questions s ws agent since.
Proof.
  unfold agentRequestsSince, new_questions, asked_after, asked_within, own_postings. f_equal. rewrite !filter_filter_and.
  set (rows := question_rows s ws agent since).
  assert (Hr : forall p, p ∈ rows <-> p ∈ agent_postings s /\ (ps_ws p = ws /\ ps_account p = agentAccount agent) /\
      ps_kind p ∈ ["spend"; "hold"]%string /\ since - hour < ps_at p).
  { intros p. unfold rows, question_rows. rewrite list_elem_of_filter, !andb_true_iff, own_posting_spec, Contains_spec, Z.ltb_lt.
    rewrite !elem_of_cons, !elem_of_nil. tauto. }
  rewrite <- (size_list_to_set (C := gset string)) by (apply NoDup_filter, NoDup_remove_dups).
  f_equal. apply set_eq. intros ref. rewrite elem_of_list_to_set, list_elem_of_filter, elem_of_remove_dups, elem_of_difference, !elem_of_list_to_set.
  rewrite !list_elem_of_fmap. setoid_rewrite list_elem_of_filter. rewrite Forall_forall. setoid_rewrite Hr.
  unfold hour, minute, second in *. split.
  - intros [All (p & -> & Hp & O & K & T)]. split.
    + exists p. split; [done|]. specialize (All p ltac:(tauto) eq_refl). tauto.
    + intros (q & E & ((O' & T' & K') & Hq)). assert (since < ps_at q) by (apply All; [split_and!; try tauto; lia|done]). lia.
  - intros [(p & -> & ((O & T & K) & Hp)) N]. split.
    + intros q (Hq & O' & K' & T') E. apply Z.nle_gt. intros Le. apply N. exists q. split; [done|]. split_and!; (tauto || lia).
    + exists p. split_and!; (tauto || lia).
Qed.

Lemma payeeIDs_known s p id : id ∈ payeeIDs s p <-> known_as s p id.
Proof.
  unfold payeeIDs. split.
  - intros H. case_bool_decide as N; [apply list_elem_of_singleton in H as ->; apply KnownItself|].
    case_bool_decide as A; [|case_bool_decide as Li]; apply elem_of_cons in H as [->|H]; try apply KnownItself.
    + apply list_elem_of_singleton in H as ->. by apply KnownByAgent.
    + apply list_elem_of_singleton in H as ->. by apply KnownByListing.
    + by apply elem_of_nil in H.
  - intros [|N A|N Li].
    + repeat case_bool_decide; left.
    + rewrite bool_decide_false, bool_decide_true by done. right. left.
    + rewrite bool_decide_false, bool_decide_false, bool_decide_true by (done || congruence). right. left.
Qed.

(** ** The code's periods are those *)

Lemma Date_midnight loc y m d : Date loc y m d = midnight loc (days_from_civil y m d).
Proof.
  unfold midnight. destruct (civil_from_days _) as [[y' m'] d'] eqn:E. destruct (civil_from_days_spec _ _ _ _ E) as (D & _).
  unfold Date. by rewrite D.
Qed.

Lemma wall_date loc t n : days_from_civil (Year loc t) (Month loc t) n = wall_days loc t - (Day loc t - n).
Proof.
  unfold Year, Month, Day. destruct (civil_from_days (wall_days loc t)) as [[y m] d] eqn:E.
  destruct (civil_from_days_spec _ _ _ _ E) as (D & _). cbn [fst snd]. rewrite days_from_civil_day in D |- *. lia.
Qed.

Lemma day_start_is t loc : day_start t loc = day_began loc t.
Proof. unfold day_start, day_began. rewrite Date_midnight, wall_date. f_equal. lia. Qed.

Lemma periods_are r t loc : periodLimits r t loc =
  [mkPeriodLimit (default 0 (HourlyLimitULXC r)) (hour_began loc t) "hourly"; mkPeriodLimit (DailyLimitULXC r) (day_began loc t) "daily";
   mkPeriodLimit (default 0 (WeeklyLimitULXC r)) (week_began loc t) "weekly"; mkPeriodLimit (MonthlyLimitULXC r) (month_began loc t) "monthly"].
Proof.
  assert (Hh : t - (Minute loc t * minute + Second loc t * second + Nanosecond t) = hour_began loc t).
  { unfold hour_began, Minute, Second, Nanosecond, hour, minute, second. set (w := wall_seconds loc t).
    assert (E : (w * 1000000000 + t mod 1000000000) mod (60 * (60 * 1000000000)) = w mod 3600 * 1000000000 + t mod 1000000000).
    { symmetry. apply (Z.mod_unique _ _ (w / 3600)); [pose proof (Z.mod_pos_bound w 3600 ltac:(lia)); pose proof (Z.mod_pos_bound t 1000000000 ltac:(lia)); lia|].
      pose proof (Z.div_mod w 3600 ltac:(lia)). lia. }
    rewrite E. assert (M : w mod 60 = (w mod 3600) mod 60) by (symmetry; apply Z.mod_mod_divide; by exists 60).
    rewrite M. pose proof (Z.div_mod (w mod 3600) 60 ltac:(lia)). lia. }
  pose proof (day_start_is t loc) as Hd.
  assert (Hw : Date loc (Year loc t) (Month loc t) (Day loc t - (Weekday loc t + 6) mod 7) = week_began loc t).
  { unfold week_began. rewrite Date_midnight, wall_date. f_equal. unfold Weekday, weekday_of_days.
    rewrite Z.add_mod_idemp_l by lia. replace (wall_days loc t + 4 + 6) with (wall_days loc t + 3 + 1 * 7) by lia. rewrite Z.mod_add by lia. lia. }
  unfold periodLimits. cbv zeta. rewrite Hh, Hd, Hw, Date_midnight, wall_date. done.
Qed.

Lemma is_digit_range a : is_digit a = true -> 0 <= digit a <= 9.
Proof. unfold digit. destruct a as [[] [] [] [] [] [] [] []]; vm_compute; intros H; (discriminate H || (split; intros E; discriminate E)). Qed.

Lemma clock_minute_range h l v : clock_minute h l = Some v -> exists m, v = h * 60 + m /\ 0 <= m < 60.
Proof.
  unfold clock_minute. destruct l as [|a [|b [|]]]; try done. destruct (is_digit a && is_digit b && _) eqn:E; [|done]. intros [= <-].
  rewrite !andb_true_iff in E. destruct E as [[Ha Hb] Hm]. apply is_digit_range in Ha, Hb. eexists. split; [done|]. lia.
Qed.

Lemma clock_range x : 0 <= default 0 (clockMinutes x) < 1440.
Proof.
  destruct (clockMinutes x) as [v|] eqn:E; cbn; [|lia]. unfold clockMinutes in E.
  destruct (String.list_ascii_of_string x) as [|a [|b l]]; try done. destruct (is_digit a) eqn:Ha; [|done]. cbn [negb] in E. apply is_digit_range in Ha.
  case_bool_decide; [apply clock_minute_range in E as (m & -> & ?); lia|]. destruct l as [|c l]; [done|].
  destruct (is_digit b && _ && _) eqn:G; [|done]. rewrite !andb_true_iff in G. destruct G as [[Hb _] Hl]. apply is_digit_range in Hb.
  apply clock_minute_range in E as (m & -> & ?). lia.
Qed.

Lemma hours_window r t loc : inside_hours r t loc = true <->
  in_window (default 0 (clockMinutes (ActiveFrom r))) (default 0 (clockMinutes (ActiveUntil r))) (minute_of_day loc t).
Proof.
  unfold inside_hours, in_window. cbv zeta. pose proof (clock_range (ActiveFrom r)) as Rf. pose proof (clock_range (ActiveUntil r)) as Ru.
  assert (Em : Hour loc t * 60 + Minute loc t = minute_of_day loc t).
  { unfold Hour, Minute, minute_of_day. set (w := wall_seconds loc t).
    assert (A : w mod 3600 = (w mod 86400) mod 3600) by (symmetry; apply Z.mod_mod_divide; by exists 24).
    assert (B : w / 60 mod 1440 = w mod 86400 / 60) .
    { pose proof (Z.mod_pos_bound w 86400 ltac:(lia)) as R. pose proof (Z.div_mod w 86400 ltac:(lia)) as D.
      set (q := w / 86400) in *. set (x := w mod 86400) in *. clearbody q x. rewrite D.
      replace (86400 * q + x) with (x + (1440 * q) * 60) by lia. rewrite Z.div_add by lia.
      symmetry. apply (Z.mod_unique _ _ q); [|lia].
      assert (0 <= x / 60) by (apply Z.div_pos; lia). assert (x / 60 < 1440) by (apply Z.div_lt_upper_bound; lia). lia. }
    rewrite A, B. set (x := w mod 86400). pose proof (Z.div_mod x 3600 ltac:(lia)). pose proof (Z.div_mod (x mod 3600) 60 ltac:(lia)).
    pose proof (Z.mod_pos_bound (x mod 3600) 60 ltac:(lia)). apply (Z.div_unique _ _ _ ((x mod 3600) mod 60)); lia. }
  rewrite Em. assert (Rm : 0 <= minute_of_day loc t < 1440) by (apply Z.mod_pos_bound; lia).
  set (f := default 0 (clockMinutes (ActiveFrom r))) in *. set (u := default 0 (clockMinutes (ActiveUntil r))) in *. set (m := minute_of_day loc t) in *. clearbody f u m. clear Em.
  assert (W : forall x y, 0 <= x < 1440 -> 0 <= y < 1440 -> (x - y) mod 1440 = if y <=? x then x - y else x - y + 1440).
  { intros x y Hx Hy. destruct (Z.leb_spec y x); symmetry; [apply (Z.mod_unique _ _ 0)|apply (Z.mod_unique _ _ (-1))]; lia. }
  rewrite !W by lia. destruct (Z.ltb_spec u f), (Z.leb_spec f m), (Z.leb_spec f u), (Z.ltb_spec m u); cbn [orb andb]; split; (done || lia).
Qed.

(** ** The code's boosts are those *)

(** The boosts table: a boost is kept under its agent and the limit it is over. *)
Definition boosts_keyed s : Prop := forall agent name b, agent_rule_boosts s !! (agent, name) = Some b -> bo_rule b = name.

Definition boost_name (f : BoostableRule) : string :=
  match f with
  | BoostMaxPerRequest => "max_per_request_ulxc" | BoostHourly => "hourly_limit_ulxc" | BoostDaily => "daily_limit_ulxc"
  | BoostWeekly => "weekly_limit_ulxc" | BoostMonthly => "monthly_limit_ulxc" | BoostApproval => "approval_above_ulxc"
  | BoostRequests => "requests_per_minute"
  end.

Lemma boostable_name n f : boostableRules n = Some f <-> n = boost_name f.
Proof.
  split; [|intros ->; by destruct f]. unfold boostableRules.
  repeat (case_bool_decide as E; [intros [= <-]; exact E|clear E]). done.
Qed.

#[local] Instance BoostableRule_eq_dec : EqDecision BoostableRule.
Proof. solve_decision. Defined.

(** What one boost makes of one limit. *)
Definition boost_step (f : BoostableRule) (v : Z) (b : AgentRuleBoost) : Z :=
  if bool_decide (bo_rule b = boost_name f) && (v =? bo_raised_from b) && (v <? bo_value b) then bo_value b else v.

Lemma apply_boost_field f r b v : boost_field f r = Some v -> boost_field f (apply_boost r b) = Some (boost_step f v b).
Proof.
  intros Hv. unfold apply_boost, boost_step. destruct (boostableRules (bo_rule b)) as [g|] eqn:Eg; cycle 1.
  { rewrite bool_decide_false; [done|]. intros E%boostable_name. congruence. }
  apply boostable_name in Eg. destruct (boost_field g r) as [w|] eqn:Ew; cycle 1.
  { rewrite bool_decide_false; [done|]. rewrite Eg. intros E. assert (g = f) by (destruct f, g; done). congruence. }
  destruct (decide (g = f)) as [->|N].
  - rewrite (bool_decide_true _ Eg). assert (w = v) as -> by congruence. cbn [andb]. destruct (_ && _); [by destruct f|done].
  - rewrite bool_decide_false; [|rewrite Eg; by destruct f, g]. cbn [andb]. destruct (_ && _); [|done]. by destruct f, g.
Qed.

Lemma applyBoosts_field f bs : forall r v, boost_field f r = Some v -> boost_field f (applyBoosts r bs) = Some (foldl (boost_step f) v bs).
Proof.
  unfold applyBoosts. induction bs as [|b bs IH]; intros r v Hv; [done|]. cbn [foldl]. by apply IH, apply_boost_field.
Qed.

Lemma applyBoosts_rest bs : forall r, with_limits (applyBoosts r bs) 0 None 0 None 0 0 None = with_limits r 0 None 0 None 0 0 None.
Proof.
  unfold applyBoosts. induction bs as [|b bs IH]; intros r; [done|]. cbn [foldl]. rewrite IH. unfold apply_boost.
  destruct (boostableRules _) as [f|]; [|done]. destruct (boost_field f r); [|done]. destruct (_ && _); [by destruct f|done].
Qed.

(** A fold over the agent's boosts finds the one over the limit. *)
Definition boost_at (agent : string) (at_ : Z) (kb : (string * string) * AgentRuleBoost) : option AgentRuleBoost :=
  if bool_decide (kb.1.1 = agent) && (at_ <? bo_until kb.2) then Some kb.2 else None.

Lemma boost_fold_none f agent at_ l : (forall kb, kb ∈ l -> bo_rule kb.2 = kb.1.2) -> (forall kb, kb ∈ l -> kb.1 <> (agent, boost_name f)) ->
  forall v, foldl (boost_step f) v (omap (boost_at agent at_) l) = v.
Proof.
  intros K N. induction l as [|kb l IH]; intros v; [done|]. csimpl.
  assert (E : forall b, boost_at agent at_ kb = Some b -> boost_step f v b = v).
  { intros b. unfold boost_at. destruct (bool_decide_reflect (kb.1.1 = agent)) as [Ea|]; [|done]. destruct (_ <? _); [|done]. intros [= <-].
    unfold boost_step. rewrite bool_decide_false; [done|]. intros Er. apply (N kb ltac:(left)).
    rewrite (K kb) in Er by left. destruct kb as [[a n] b]. cbn in *. congruence. }
  assert (IH' := IH (fun x Hx => K x (list_elem_of_further _ _ _ Hx)) (fun x Hx => N x (list_elem_of_further _ _ _ Hx))).
  destruct (boost_at agent at_ kb) as [b|] eqn:Eb; [|apply IH']. cbn [foldl]. rewrite (E b) by done. apply IH'.
Qed.

Lemma boost_fold f agent at_ l : (forall kb, kb ∈ l -> bo_rule kb.2 = kb.1.2) -> NoDup l.*1 ->
  forall v, foldl (boost_step f) v (omap (boost_at agent at_) l) =
    match (list_to_map l : gmap (string * string) AgentRuleBoost) !! (agent, boost_name f) with
    | Some b => if decide (at_ < bo_until b /\ bo_raised_from b = v) then Z.max v (bo_value b) else v
    | None => v
    end.
Proof.
  intros K. induction l as [|[k b] l IH]; intros N v; [done|]. rewrite fmap_cons in N. apply NoDup_cons in N as [N1 N2]. cbn [fst] in N1.
  assert (K' : forall kb, kb ∈ l -> bo_rule kb.2 = kb.1.2) by (intros x Hx; apply K; by right).
  cbn [list_to_map foldr]. csimpl. destruct (decide (k = (agent, boost_name f))) as [->|Nk].
  - rewrite lookup_insert_eq.
    assert (Z0 : forall v, foldl (boost_step f) v (omap (boost_at agent at_) l) = v).
    { apply boost_fold_none; [done|]. intros kb Hkb E. apply N1, list_elem_of_fmap. by exists kb. }
    pose proof (K _ ltac:(left)) as Eb. cbn [fst snd] in Eb. unfold boost_at at 1. cbn [fst snd]. rewrite (bool_decide_true (agent = agent)) by done. cbn [andb].
    destruct (Z.ltb_spec at_ (bo_until b)); cbn [foldl]; rewrite Z0; [|by rewrite decide_False by lia].
    unfold boost_step. rewrite (bool_decide_true _ Eb). cbn [andb].
    destruct (Z.eqb_spec v (bo_raised_from b)), (Z.ltb_spec v (bo_value b)); cbn [andb]; case_decide; lia.
  - rewrite lookup_insert_ne by done. rewrite <- (IH K' N2). destruct (boost_at agent at_ (k, b)) as [b'|] eqn:Eb; [|done].
    cbn [foldl]. f_equal. unfold boost_at in Eb. cbn [fst snd] in Eb. destruct (bool_decide_reflect (k.1 = agent)) as [Ea|]; [|done].
    destruct (_ <? _); [|done]. injection Eb as <-. unfold boost_step. rewrite bool_decide_false; [done|].
    pose proof (K _ ltac:(left)) as Er. cbn [fst snd] in Er. rewrite Er. intros En. apply Nk. destruct k as [a n]. cbn in *. congruence.
Qed.

Lemma boosts_over s f agent at_ v : boosts_keyed s -> foldl (boost_step f) v (agentBoosts s agent at_) = boosted s agent (boost_name f) at_ v.
Proof.
  intros K. unfold agentBoosts, boosted. change (fun kb : (string * string) * AgentRuleBoost => _) with (boost_at agent at_).
  rewrite boost_fold, list_to_map_to_list; [done| |apply NoDup_fst_map_to_list].
  intros [[a n] b] H%elem_of_map_to_list. by eapply K.
Qed.

Lemma rules_in_force_are s agent at_ : boosts_keyed s ->
  agentRulesInForce s agent at_ = rules_in_force s agent at_ <$> agent_rules s !! agent.
Proof.
  intros K. unfold agentRulesInForce. destruct (agent_rules s !! agent) as [r|]; [|done]. cbn. f_equal.
  set (r0 := scanAgentRules r). set (r' := applyBoosts r0 _).
  assert (Hf : forall f v, boost_field f r0 = Some v -> boost_field f r' = Some (boosted s agent (boost_name f) at_ v)).
  { intros f v Hv. unfold r'. by rewrite (applyBoosts_field f _ _ _ Hv), boosts_over. }
  pose proof (Hf BoostMaxPerRequest _ eq_refl) as F1. pose proof (Hf BoostHourly _ eq_refl) as F2. pose proof (Hf BoostDaily _ eq_refl) as F3.
  pose proof (Hf BoostWeekly _ eq_refl) as F4. pose proof (Hf BoostMonthly _ eq_refl) as F5. pose proof (Hf BoostApproval _ eq_refl) as F6.
  pose proof (Hf BoostRequests _ eq_refl) as F7. pose proof (applyBoosts_rest (agentBoosts s agent at_) r0) as R. fold r' in R. clearbody r'. clear Hf.
  unfold rules_in_force. cbn zeta. destruct r', r. unfold r0, scanAgentRules, with_limits, limitOf, limit_list, limit_map in *. cbn in *.
  injection R. injection F1. injection F3. injection F5. injection F6. intros. subst. reflexivity.
Qed.

(** ** The judgement is the promise *)

Lemma commits_is r c : commitment_ok r c <-> (cm_kind c = ""%string \/ may_commit r c).
Proof.
  split.
  - intros [C1 C2 C3 C4 C5]. destruct (decide (cm_kind c = ""%string)) as [E|N]; [by left|]. right. split.
    + specialize (C1 N). unfold AgentLicences in C1. rewrite !elem_of_cons, elem_of_nil in C1. tauto.
    + destruct (decide (default [] (AllowedLicences r) = [])); [by left|right; by apply C2].
    + intros [E|E]; [by apply C3|by apply C4].
    + by apply C5.
  - intros [E|[M1 M2 M3 M4]].
    { split; rewrite E; try done. }
    split.
    + intros _. unfold AgentLicences. rewrite !elem_of_cons, elem_of_nil. tauto.
    + intros _ N. by destruct M2.
    + intros E. apply M3. by left.
    + intros _ E. apply M3. by right.
    + intros _. apply M4.
Qed.

Lemma within_unless limit spent amount : (limit <> 0 -> spent + amount <= limit) <-> within limit spent amount.
Proof. unfold within. destruct (decide (limit = 0)); tauto. Qed.

Lemma permitted_permits loc r req at_ ws agent amount s :
  permitted loc r req at_ ws agent amount s <-> permits loc r req at_ ws agent amount s.
Proof.
  pose proof (periods_are r at_ loc) as P. pose proof (day_start_is at_ loc) as Hd.
  assert (Hw : (forall l, l ∈ periodLimits r at_ loc -> pl_ulxc l <> 0 -> agent_spent s ws agent (pl_since l) + amount <= pl_ulxc l) <->
    within (default 0 (HourlyLimitULXC r)) (spent_since s ws agent (hour_began loc at_)) amount /\
    within (DailyLimitULXC r) (spent_since s ws agent (day_began loc at_)) amount /\
    within (default 0 (WeeklyLimitULXC r)) (spent_since s ws agent (week_began loc at_)) amount /\
    within (MonthlyLimitULXC r) (spent_since s ws agent (month_began loc at_)) amount).
  { rewrite P, <- (Forall_forall (fun l => pl_ulxc l <> 0 -> agent_spent s ws agent (pl_since l) + amount <= pl_ulxc l)).
    rewrite !Forall_cons, Forall_nil. cbn [pl_ulxc pl_since]. rewrite !agent_spent_is, !within_unless. tauto. }
  split.
  - intros [A1 A2 A3 A4 A5 A6 A7 A8 A9 A10 A11 A12 A13]. apply Hw in A10 as (W1 & W2 & W3 & W4). split; [| | | | | | | | |exact W1|exact W2|exact W3|exact W4| | |].
    + destruct (decide (ActiveFrom r = ""%string)) as [E|N]; [by left|right]. apply hours_window. exact (A1 N).
    + destruct (rq_payment req); [by left|right]. destruct (decide (AllowedModels r = [])) as [E|N]; [by left|right; exact (A2 eq_refl N)].
    + destruct (rq_payment req); [by left|right]. destruct (decide (AllowedProviders r = [])) as [E|N]; [by left|right; exact (A3 eq_refl N)].
    + destruct (decide (default [] (AllowedListings r) = [])) as [E|N]; [by left|right]. destruct (decide (rq_listing req = ""%string)) as [E|M]; [by left|right; exact (A4 N M)].
    + by apply commits_is.
    + intros Hp id Hk. apply payeeIDs_known in Hk. by apply A6.
    + intros Hp. destruct (decide (default [] (AllowedPayees r) = [])); [by left|right].
      destruct (A7 Hp ltac:(done)) as (id & Hi & Ha). exists id. split; [by apply payeeIDs_known|done].
    + destruct (rq_payment req); [by left|]. right. rewrite <- new_questions_is. unfold limitOf in A8.
      destruct (Z.le_gt_cases (default 0 (RequestsPerMinute r)) 0); [by left|right; auto with lia].
    + destruct (Z.le_gt_cases (MaxPerRequestULXC r) 0); [by left|right; auto with lia].
    + intros cap Hc Hz. destruct (rq_payment req); [by left|right]. rewrite <- model_spent_is, <- Hd.
      unfold modelDailyLimit, limit_map in A11. cbn [fst] in A11. rewrite Hc in A11. by apply A11.
    + intros Hp id cap Hk Hc Hz. rewrite <- paid_to_is, <- Hd. apply payeeIDs_known in Hk. by apply (A12 id cap).
    + destruct (Z.le_gt_cases (ApprovalAboveULXC r) 0); [by left|right]. destruct (Z.le_gt_cases amount (ApprovalAboveULXC r)); [by left|right].
      destruct (A13 ltac:(done) ltac:(done)) as (F & id & a & Ha & Ho). split; [done|]. exists id, a. split; [done|]. by apply bool_decide_eq_true in Ho.
  - intros [A1 A2 A3 A4 A5 A6 A7 A8 A9 W1 W2 W3 W4 A11 A12 A13]. split.
    + intros N. apply hours_window. destruct A1 as [E|E]; [destruct (N E)|exact E].
    + intros Hp N. destruct A2 as [E|[E|E]]; [congruence|destruct (N E)|exact E].
    + intros Hp N. destruct A3 as [E|[E|E]]; [congruence|destruct (N E)|exact E].
    + intros N1 N2. destruct A4 as [E|[E|E]]; [destruct (N1 E)|destruct (N2 E)|exact E].
    + by apply commits_is.
    + intros id Hp Hk. apply payeeIDs_known in Hk. by apply A6.
    + intros Hp N. destruct (A7 Hp) as [E|(id & Hk & Ha)]; [destruct (N E)|]. exists id. split; [by apply payeeIDs_known|done].
    + intros Hp Hz. rewrite new_questions_is. unfold limitOf in *. destruct A8 as [E|[E|E]]; [congruence|lia|done].
    + intros Hz. destruct A9; [lia|done].
    + apply Hw. split; [exact W1|]. split; [exact W2|]. split; [exact W3|exact W4].
    + intros Hp. unfold modelDailyLimit, limit_map. cbn [fst]. destruct (default ∅ (ModelDailyLimitsULXC r) !! modelCapKey (rq_model req)) as [cap|] eqn:Ec; cbn; [|lia].
      intros Hz. rewrite model_spent_is, Hd. destruct (A11 cap eq_refl Hz) as [E|E]; [congruence|done].
    + intros id cap Hp Hk Hc Hz. rewrite paid_to_is, Hd. apply payeeIDs_known in Hk. by apply (A12 Hp id cap).
    + intros Hz Ha. destruct A13 as [E|[E|(F & id & a & Ea & Hx)]]; [lia|lia|]. split; [done|]. exists id, a. split; [done|]. by apply bool_decide_eq_true.
Qed.

(** ** Properties *)

(** An agent that may move at all. *)
Definition may_move s (agent : string) : Prop :=
  exists a, agent_accounts s !! agent = Some a /\ ag_archived a = None /\ ag_paused a = None /\ agent_workspace_pauses s !! ag_ws a = None.

(** C14: the rules refuse exactly what they say.  A movement of an agent is let
    through if and only if the agent is neither archived nor paused, on its own or
    with its workspace, and the rules in force at the request's time permit it: the
    rules saved, each limit raised by the boost over it while it lasts.  They permit
    by the hours, the models, providers, listings, licences and payees, the new
    questions of the last minute, the amount itself, what the agent spent since the
    local hour, day, Monday and month began, on the model and to the payee since the
    day began, each with the movement on top, and by an approval of that very
    request.  What an agent spent is told row by row ([spent_since]): transfers and
    escrows are no part of it, though the docs say they are (a finding).  An agent
    with no rules is held only to the licences any agent may take. *)
Theorem rules_refuse_exactly LL c ws agent amount ref s :
  turnover s < 2305843009213693952 -> 0 <= amount < 2305843009213693952 -> boosts_keyed s ->
  let req := agent_request c in
  let at_ := default (now c) (rq_at req) in
  (exists s', enforceAgentRules LL c ws agent amount ref s = Ok (tt, s')) <->
  may_move s agent /\
  match agent_rules s !! agent with
  | None => cm_kind (rq_commitment req) = ""%string \/ may_commit no_rules (rq_commitment req)
  | Some saved => exists loc, in_zone LL saved loc /\ permits loc (rules_in_force s agent at_ saved) req at_ ws agent amount s
  end.
Proof.
  intros Ht Ha K req at_. rewrite (enforce_iff LL c ws agent amount ref s Ht Ha). change (agentRequestFrom c).2 with at_.
  rewrite (rules_in_force_are s agent at_ K). destruct (agent_rules s !! agent) as [saved|]; cbn [fmap option_fmap option_map].
  - assert (Zn : forall loc, location LL (rules_in_force s agent at_ saved) = Some loc <-> in_zone LL saved loc).
    { intros loc. unfold location, in_zone. cbn [rules_in_force Timezone]. case_bool_decide; case_decide; naive_solver. }
    setoid_rewrite Zn. setoid_rewrite permitted_permits. done.
  - rewrite commits_is. done.
Qed.

Definition demo_raise : AgentRuleBoost := mkBoost "approval_above_ulxc" 50 90 (demo_now + hour).

(** The request is above what needs no approval by the rules saved, and within it by those in force. *)
Definition boosted_store : Store := with_agent_rule_boosts {[ ("a1", "approval_above_ulxc")%string := demo_raise ]} rules_store.

Lemma eighty_in_range : 0 <= 80 < 2305843009213693952.
Proof. lia. Qed.

Lemma boosted_keyed : boosts_keyed boosted_store.
Proof. intros a n b H. change (agent_rule_boosts boosted_store) with ({[("a1", "approval_above_ulxc")%string := demo_raise]} : gmap _ _) in H.
  apply lookup_singleton_Some in H as [[= <- <-] <-]. done.
Qed.

Lemma rules_refuse_exactly_witness :
  (exists s', enforceAgentRules only_utc rules_ctx "ws" "a1" 80 "r1" boosted_store = Ok (tt, s')) /\
  exists loc, in_zone only_utc demo_rules loc /\
    permits loc (rules_in_force boosted_store "a1" demo_now demo_rules) (agent_request rules_ctx) demo_now "ws" "a1" 80 boosted_store.
Proof.
  assert (E : exists s', enforceAgentRules only_utc rules_ctx "ws" "a1" 80 "r1" boosted_store = Ok (tt, s')) by (eexists; vm_compute; reflexivity).
  split; [exact E|].
  exact (proj2 (proj1 (rules_refuse_exactly only_utc rules_ctx "ws" "a1" 80 "r1" boosted_store eq_refl eighty_in_range boosted_keyed) E)).
Defined.
