(* ===== verification/CreditLine.v ===== *)
(** Talyvor's credit line for companies ([internal/economy/credit_line.go]): the
    line, what it has lent and not been paid for, and the draw a spend past an
    agent's balance makes, inside the spend's transaction. *)
From S2P Require Import Prelude Money Tables Postings Lxc Rules.
Open Scope Z_scope.
Open Scope i64_scope.

Implicit Types (s : Store).

Definition LXCTypeCreditLineDraw : string := "credit_line_draw".
Definition FundingCreditLine : string := "credit_line".

(** Whether a draw still counts against its line: on no invoice, or an unpaid one. *)
Definition draw_unpaid s (d : CreditDraw) : bool :=
  match dr_invoice d with
  | None => true
  | Some i => match credit_line_invoices s !! i with
              | None => true
              | Some v => negb (is_some (in_paid v))
              end
  end.

(** [creditLineUsedSQL]. *)
Definition credit_line_used s (ws : string) : Z :=
  sum_where (fun d => bool_decide (dr_ws d = ws) && draw_unpaid s d) dr_amount (credit_line_draws s).

(** [creditLineLateSQL]: an invoice of the line unpaid past its due date. *)
Definition credit_line_late s (now_ : Z) (ws : string) : bool :=
  existsb (fun kv => bool_decide (in_ws kv.2 = ws) && negb (is_some (in_paid kv.2)) && (in_due kv.2 <? now_))
    (map_to_list (credit_line_invoices s)).

Definition is_company s (ws : string) : bool :=
  match workspaces s !! ws with Some w => ws_company w | None => false end.

Definition SetCompany (ws : string) (company : bool) : WTx unit :=
  let! w := tx_gets (fun s : Store => workspaces s !! ws) in
  match w with
  | None => tx_fail ErrNoWorkspace
  | Some w => tx_modify (fun s : Store => with_workspaces (<[ws := mkWorkspace (ws_name w) company (ws_synthetic w)]> (workspaces s)) s)
  end.

(** [CreditLine], as the company's owner sees it. *)
Record CreditLineView := mkCreditLineView {
  cv_limit : Z;
  cv_used : Z;
  cv_available : Z;
  cv_paused : bool;
}.

Definition CreditLine (c : Ctx) (ws : string) : WTx CreditLineView :=
  let! l := tx_gets (fun s : Store => company_credit_lines s !! ws) in
  match l with
  | None => tx_fail ErrNoCreditLine
  | Some l =>
      let! company := tx_gets (fun s : Store => is_company s ws) in
      let! used := tx_gets (fun s : Store => credit_line_used s ws) in
      let! used := bigint used in
      let! late := tx_gets (fun s : Store => credit_line_late s (now c) ws) in
      let paused := late || is_some (li_paused l) || negb company in
      tx_ret (mkCreditLineView (li_limit l) used (if paused then 0 else Z.max (li_limit l -! used) 0) paused)
  end.

Definition CreditLineAvailableLXC (c : Ctx) (ws : string) : WTx Z :=
  let! l := tx_gets (fun s : Store => company_credit_lines s !! ws) in
  match l with
  | None => tx_ret 0
  | Some _ => let! v := CreditLine c ws in tx_ret (cv_available v)
  end.

Definition SetCreditLine (c : Ctx) (ws : string) (limit : Z) (by_ : string) : WTx CreditLineView :=
  tx_guard (negb (limit <=? 0)) ErrAmount ;;;
  let! w := tx_gets (fun s : Store => workspaces s !! ws) in
  match w with
  | None => tx_fail ErrNoWorkspace
  | Some w =>
      tx_guard (ws_company w) ErrCreditLineCompaniesOnly ;;;
      tx_modify (fun s : Store => with_company_credit_lines
        (<[ws := match company_credit_lines s !! ws with
                 | Some l => mkCreditLine limit (li_paused l) (li_paused_reason l) by_
                 | None => mkCreditLine limit None "" by_
                 end]> (company_credit_lines s)) s) ;;;
      CreditLine c ws
  end.

Definition setLinePause (ws : string) (paused : option Z) (why : string) : WTx unit :=
  let! l := tx_gets (fun s : Store => company_credit_lines s !! ws) in
  match l with
  | None => tx_fail ErrNoCreditLine
  | Some l => tx_modify (fun s : Store => with_company_credit_lines
      (<[ws := mkCreditLine (li_limit l) paused why (li_set_by l)]> (company_credit_lines s)) s)
  end.

Definition PauseCreditLine (c : Ctx) (ws why : string) : WTx unit := setLinePause ws (Some (now c)) why.
Definition ResumeCreditLine (ws : string) : WTx unit := setLinePause ws None "".

Definition draw_meta (agent ref : string) : Meta :=
  <["funding" := MStr FundingCreditLine]> (<["agent_id" := MStr agent]> (<["ref" := MStr ref]> ∅)).

(** [drawCreditLine]: lends [need] to the agent, or lends nothing and says so. *)
Definition drawCreditLine (c : Ctx) (ws agent : string) (need : Z) (ref : string) : WTx bool :=
  let! l := tx_gets (fun s : Store => company_credit_lines s !! ws) in
  match l with
  | None => tx_ret false
  | Some l =>
      let! company := tx_gets (fun s : Store => is_company s ws) in
      if is_some (li_paused l) || negb company then tx_ret false
      else
        let! late := tx_gets (fun s : Store => credit_line_late s (now c) ws) in
        let! used := tx_gets (fun s : Store => credit_line_used s ws) in
        let! used := bigint used in
        if (late : bool) || (li_limit l <? used +! need) then tx_ret false
        else
          let! (bal, minted, spent) := readLXCBalance ws in
          insertLXCLedger ws need (bal +! need) LXCTypeCreditLineDraw "credit line draw" (draw_meta agent ref) ;;;
          writeLXCBalance ws (bal +! need) (minted +! need) spent ;;;
          let! _ := uuid_new c in
          tx_modify (fun s : Store => with_credit_line_draws (mkDraw ws agent need ref None :: credit_line_draws s) s) ;;;
          postEntry c ws "credit_line" ref [mkLeg "workspace" (-! need); mkLeg (agentAccount agent) need] ;;;
          tx_ret true
  end.

(** ** What a draw does *)

(** The rows a draw writes, and the balance it leaves. *)
Definition lent_row (r : LxcRow) (need held : Z) : LxcRow :=
  mkLxcRow (lx_balance r +! need) (lx_minted r +! need) (lx_spent r) (lx_cash r)
    (clamp_test (lx_test r) (lx_balance r +! need) held).

Record draw_effect (ws agent : string) (need : Z) (ref : string) s s' : Prop := {
  de_moved : lxc_moved ws
    [mkLedger ws need (lx_balance (lxc_row s ws) +! need) LXCTypeCreditLineDraw "credit line draw" (draw_meta agent ref)] s s';
  de_row : lxc_row s' ws = lent_row (lxc_row s ws) need (held_sum s ws);
  de_draws : credit_line_draws s' = mkDraw ws agent need ref None :: credit_line_draws s;
  de_lines : company_credit_lines s' = company_credit_lines s /\ credit_line_invoices s' = credit_line_invoices s;
  de_rules : st_rules s' = st_rules s;
  de_other : st_other s' = st_other s;
  de_lxc : lxc_reservations s' = lxc_reservations s /\ lxc_spend_claims s' = lxc_spend_claims s /\
           agent_lxc_subbudgets s' = agent_lxc_subbudgets s /\ agent_debit_settlements s' = agent_debit_settlements s;
  de_accounts : agent_accounts s' = agent_accounts s /\ agent_account_keys s' = agent_account_keys s /\ agent_pots s' = agent_pots s;
  de_balance a : shared_account a = false ->
    account_balance s' ws a = account_balance s ws a + legs_on a [mkLeg "workspace" (-! need); mkLeg (agentAccount agent) need];
  de_balance_other ws' a : ws' <> ws -> shared_account a = false -> account_balance s' ws' a = account_balance s ws' a;
  de_allocated : allocated s' ws = allocated s ws + need;
  de_allocated_other ws' : ws' <> ws -> allocated s' ws' = allocated s ws';
}.

Lemma legs_held_fund a z w : legs_held [mkLeg "workspace" w; mkLeg (agentAccount a) z] = z.
Proof. unfold legs_held. csimpl. rewrite held_agent. change (held_account "workspace") with false. cbn. lia. Qed.

(** The conditions on which the line lends [need]. *)
Record may_lend (c : Ctx) (ws : string) (need : Z) s : Prop := {
  ml_line : exists l, company_credit_lines s !! ws = Some l /\ li_paused l = None /\
                      credit_line_used s ws +! need <= li_limit l;
  ml_company : is_company s ws = true;
  ml_late : credit_line_late s (now c) ws = false;
  ml_range : in_i64 (credit_line_used s ws);
}.

Lemma drawCreditLine_effect c ws agent need ref s b s' :
  drawCreditLine c ws agent need ref s = Ok (b, s') ->
  (b = false /\ s' = s) \/ (b = true /\ may_lend c ws need s /\ draw_effect ws agent need ref s s').
Proof.
  unfold drawCreditLine. intros H. rewrite tx_gets_bind in H.
  destruct (company_credit_lines s !! ws) as [l|] eqn:L; [|wtx_inv; by left]. rewrite tx_gets_bind in H.
  destruct (is_some (li_paused l) || negb (is_company s ws)) eqn:G1; [wtx_inv; by left|]. wtx_inv.
  destruct (credit_line_late s (now c) ws || (li_limit l <? credit_line_used s ws +! need)) eqn:G2; [wtx_inv; by left|].
  right. match goal with K : tx_bind _ _ _ = Ok _ |- _ => rename K into H9 end. apply tx_bind_ok in H9 as ([[bal minted] spent] & s1 & R & K). apply readLXCBalance_ok in R as [E ->].
  injection E as -> -> ->. lxc_run.
  match goal with H : postEntry _ _ _ _ _ _ = _ |- _ => apply postEntry_posted in H as [F B O A AO] end.
  split; [done|]. apply orb_false_iff in G1 as [P1 P2], G2 as [P3 P4].
  split; [split; [exists l; split; [done|]; split; [by destruct (li_paused l)|lia]|by destruct (is_company s ws)|done|done]|].
  destruct F as [F1 F2 F3 F4 F5 F6 F7 _ _ _]. cbn in F1, F3.
  match goal with |- draw_effect _ _ _ _ _ ?t => rename t into s' end.
  assert (Hrow : forall w, lxc_row s' w = lxc_row (set_row ws (lent_row (lxc_row s ws) need (held_sum s ws)) s) w)
    by (intros w; unfold lxc_row; rewrite F1; done).
  constructor.
  - split; rewrite ?rows_total_1; cbn [lg_amount running lg_ws lg_after].
    + rewrite F1. reflexivity.
    + rewrite rows_total_1. cbn [lg_amount]. split; [reflexivity|split; [reflexivity|exact I]].
    + rewrite Hrow, lxc_row_set_eq. reflexivity.
    + rewrite Hrow, lxc_row_set_eq. unfold lent_row. cbn [lx_minted lx_spent]. wrap_eq.
    + intros w Hw. rewrite Hrow, lxc_row_set, decide_False by (intros E; apply Hw; symmetry; exact E). reflexivity.
    + reflexivity.
  - by rewrite Hrow, lxc_row_set_eq.
  - rewrite F3. reflexivity.
  - rewrite F3. split; reflexivity.
  - exact F2.
  - exact F4.
  - rewrite F1. repeat split; reflexivity.
  - split; [exact F5|]. split; [exact F6|exact F7].
  - exact B.
  - exact O.
  - rewrite A, legs_held_fund. reflexivity.
  - exact AO.
Qed.

Lemma drawCreditLine_inv u c ws agent need ref s b s' :
  Inj (=) (=) u -> uuid c = u -> in_i64 need -> min_i64 < need -> posting_inv u s ->
  drawCreditLine c ws agent need ref s = Ok (b, s') -> posting_inv u s'.
Proof.
  intros Hu Hc Hn Hm I. unfold drawCreditLine. intros H. rewrite tx_gets_bind in H.
  destruct (company_credit_lines s !! ws) as [l|]; [|by wtx_inv]. rewrite tx_gets_bind in H.
  case_match; [by wtx_inv|]. wtx_inv. case_match; [by wtx_inv|].
  match goal with K : tx_bind _ _ _ = Ok _ |- _ => apply tx_bind_ok in K as ([[bal minted] spent] & s1 & R & K) end.
  apply readLXCBalance_ok in R as [E ->]. injection E as -> -> ->. lxc_run.
  match goal with H : postEntry _ _ _ _ _ ?t = _ |- _ =>
    eapply (postEntry_inv u); [exact Hc| | |exact H] end.
  - unfold legs_total. csimpl. rewrite wrap64_id; i64_ranges; lia.
  - eapply posting_inv_same; [| | |exact I]; [reflexivity..|cbn; lia].
Qed.
