(* ===== verification/Agents.v ===== *)
(** Agent accounts ([internal/economy/agent_accounts.go]): their owners and keys,
    funding and withdrawing, the movement every spend of an agent's key posts; their
    pots ([agent_pots.go]) and what retires them ([agent_lifecycle.go]).

    Row locks and advisory locks are not in the model: a transaction is one step,
    which is what they make it. *)
From S2P Require Import Prelude Money Tables Postings Clock Lxc Rules CreditLine.
Open Scope Z_scope.
Open Scope i64_scope.

Implicit Types (s : Store).

(** ** Owners and keys *)

Definition requireOwner (agent : string) : WTx unit :=
  let! a := tx_gets (fun s : Store => agent_accounts s !! agent) in
  match a with
  | None => tx_fail ErrNoRow
  | Some a => tx_guard (negb (bool_decide (ag_owner a = ""%string))) ErrAgentOwnerless
  end.

Definition requireNotArchived (agent : string) : WTx unit :=
  let! a := tx_gets (fun s : Store => agent_accounts s !! agent) in
  match a with
  | None => tx_fail ErrNoRow
  | Some a => tx_guard (negb (is_some (ag_archived a))) ErrAgentArchived
  end.

Definition set_owner (owner : string) (a : AgentAccount) : AgentAccount :=
  mkAgent (ag_ws a) (ag_name a) owner (ag_kind a) (ag_description a) (ag_created a) (ag_paused a)
    (ag_paused_reason a) (ag_archived a).

Definition ClaimAgent (ws agent user : string) : WTx unit :=
  tx_guard (negb (bool_decide (user = ""%string))) ErrAgentOwnerless ;;;
  update_agent ws agent (set_owner user).

(** [lockAgent]: the agent is there, and of this workspace. *)
Definition lockAgent (ws agent : string) : WTx unit :=
  let! a := tx_gets (fun s : Store => agent_accounts s !! agent) in
  match a with
  | None => tx_fail ErrAgentNotFound
  | Some a => tx_guard (bool_decide (ag_ws a = ws)) ErrAgentNotFound
  end.

Definition AgentKindRoom : string := "room".

(** INSERT INTO agent_account_keys: the key's primary key allows it one agent. *)
Definition insert_key (key agent : string) : WTx unit :=
  let! k := tx_gets (fun s : Store => agent_account_keys s !! key) in
  tx_guard (negb (is_some k)) ErrCheck ;;;
  tx_modify (fun s : Store => with_agent_account_keys (<[key := agent]> (agent_account_keys s)) s).

(** INSERT INTO agent_accounts. *)
Definition insert_agent (c : Ctx) (ws name owner kind : string) : WTx string :=
  let! u := uuid_new c in
  let id := "agt_" +:+ u in
  let! a := tx_gets (fun s : Store => agent_accounts s !! id) in
  tx_guard (negb (is_some a)) ErrCheck ;;;
  tx_modify (fun s : Store => with_agent_accounts
    (<[id := mkAgent ws name owner kind "" (now c) None "" None]> (agent_accounts s)) s) ;;;
  tx_ret id.

Definition CreateRoomAgentTx (c : Ctx) (ws name owner key : string) : WTx string :=
  tx_guard (negb (bool_decide (ws = ""%string) || bool_decide (name = ""%string) || bool_decide (key = ""%string))) ErrAmount ;;;
  let! id := insert_agent c ws name owner AgentKindRoom in
  insert_key key id ;;;
  tx_ret id.

Definition AttachAgentKey (ws agent key : string) : WTx unit :=
  lockAgent ws agent ;;;
  let! a := tx_gets (fun s : Store => agent_accounts s !! agent) in
  match a with
  | None => tx_fail ErrNoRow
  | Some a =>
      tx_guard (negb (bool_decide (ag_kind a = AgentKindRoom))) ErrRoomWalletKey ;;;
      insert_key key agent
  end.

(** ** Funding *)

Inductive FundKind : Type := Fund | Withdraw.

Definition fund_kind (k : FundKind) : string := match k with Fund => "fund" | Withdraw => "withdraw" end.

(** A move already posted under its Idempotency-Key. *)
Definition landed s (ws account kind ref : string) : bool :=
  existsb (fun p => bool_decide (ps_ws p = ws /\ ps_account p = account /\ ps_kind p = kind /\ ps_ref p = ref))
    (agent_postings s).

(** [moveAgentFunds], of which [FundAgent] and [WithdrawAgent] are the two kinds. *)
Definition moveAgentFunds (c : Ctx) (ws agent : string) (amount : Z) (kind : FundKind) : WTx Z :=
  tx_guard (negb (amount <=? 0)) ErrAmount ;;;
  lockAgent ws agent ;;;
  let! bal := accountBalance ws (agentAccount agent) in
  let ref := move_key c in
  let! done_ := tx_gets (fun s : Store =>
    negb (bool_decide (ref = ""%string)) && landed s ws (agentAccount agent) (fund_kind kind) ref) in
  if (done_ : bool) then tx_ret bal
  else match kind with
  | Fund =>
      requireOwner agent ;;;
      requireNotArchived agent ;;;
      let! (wsBal, _, _) := readLXCBalance ws in
      let! total := tx_gets (fun s : Store => allocated s ws) in
      let! total := bigint total in
      tx_guard (negb (wsBal -! total <? amount)) ErrAgentFunds ;;;
      postEntry c ws (fund_kind kind) ref [mkLeg "workspace" (-! amount); mkLeg (agentAccount agent) amount] ;;;
      tx_ret (bal +! amount)
  | Withdraw =>
      tx_guard (negb (bal <? amount)) ErrAgentFunds ;;;
      postEntry c ws (fund_kind kind) ref [mkLeg (agentAccount agent) (-! amount); mkLeg "workspace" amount] ;;;
      tx_ret (bal -! amount)
  end.

Definition FundAgent (c : Ctx) (ws agent : string) (amount : Z) : WTx Z :=
  committed (moveAgentFunds c ws agent amount Fund).
Definition WithdrawAgent (c : Ctx) (ws agent : string) (amount : Z) : WTx Z :=
  committed (moveAgentFunds c ws agent amount Withdraw).

(** ** The movement of an agent key's spending *)

(** [postAgentFee]: a key attached to no agent posts nothing. *)
Definition postAgentFee (c : Ctx) (key : string) (fee bps : Z) (ref model : string) : WTx unit :=
  if fee =? 0 then tx_ret tt
  else
    let! a := tx_gets (fun s : Store => agent_of_key s key) in
    match a with
    | None => tx_ret tt
    | Some (agent, ws) => postFeeEntry c ws agent fee bps ref model
    end.

Section Movement.
Variable LoadLocation : string -> option Location.

(** The judgement of a positive movement: the balance, topped up from the
    company's credit line, then the rules. *)
Definition judge_movement (c : Ctx) (ws agent : string) (need : Z) (kind ref : string) : WTx unit :=
  let! bal := accountBalance ws (agentAccount agent) in
  let! bal := (if (bal <? need) && Contains ["spend"; "hold"]%string kind then
                 let! drew := drawCreditLine c ws agent (need -! bal) ref in
                 tx_ret (if (drew : bool) then need else bal)
               else tx_ret bal) in
  tx_guard (negb (bal <? need)) ErrSubBudgetExceeded ;;;
  enforceAgentRules LoadLocation c ws agent need ref.

(** [agentMovementFee]: whether the key is an agent's, its movement posted. *)
Definition agentMovementFee (c : Ctx) (key : string) (delta fee bps : Z) (kind ref model : string) : WTx bool :=
  let! a := tx_gets (fun s : Store => agent_of_key s key) in
  match a with
  | None => tx_ret false
  | Some (agent, ws) =>
      if (delta =? 0) && (fee =? 0) then tx_ret true
      else
        lockAgent ws agent ;;;
        (if 0 <? delta then judge_movement c ws agent (delta +! fee) kind ref else tx_ret tt) ;;;
        (if delta =? 0 then tx_ret tt
         else postModelEntry c ws kind ref model [mkLeg (agentAccount agent) (-! delta); mkLeg "spend" delta]) ;;;
        (if fee =? 0 then tx_ret tt else postFeeEntry c ws agent fee bps ref model) ;;;
        tx_ret true
  end.

Definition agentMovement (c : Ctx) (key : string) (delta : Z) (kind ref model : string) : WTx bool :=
  agentMovementFee c key delta 0 0 kind ref model.
End Movement.

(** ** Pots *)

(** [len] counts bytes. *)
Definition CreatePot (c : Ctx) (ws agent name kind : string) (target : Z) (lockedUntil : option Z) : WTx string :=
  let name := String.string_of_list_ascii (trim_space (String.list_ascii_of_string name)) in
  tx_guard (negb (bool_decide (name = ""%string) || (64 <? String.length name)%nat)) ErrPot ;;;
  tx_guard (Contains ["goal"; "budget"; "reserve"]%string kind) ErrPot ;;;
  tx_guard (negb (target <? 0)) ErrPot ;;;
  let! u := uuid_new c in
  let id := "pot_" +:+ u in
  let! a := tx_gets (fun s : Store => agent_accounts s !! agent) in
  match a with
  | None => tx_fail ErrAgentNotFound
  | Some a =>
      tx_guard (bool_decide (ag_ws a = ws)) ErrAgentNotFound ;;;
      let! named := tx_gets (fun s : Store =>
        existsb (fun kv => bool_decide (pt_agent kv.2 = agent /\ pt_name kv.2 = name)) (map_to_list (agent_pots s))) in
      tx_guard (negb named) ErrPot ;;;
      let! dup := tx_gets (fun s : Store => is_some (agent_pots s !! id)) in
      tx_guard (negb dup) ErrCheck ;;;
      tx_modify (fun s : Store => with_agent_pots (<[id := mkPot ws agent name kind target lockedUntil]> (agent_pots s)) s) ;;;
      tx_ret id
  end.

(** The pot of this agent in this workspace. *)
Definition own_pot s (ws agent pot : string) : option PotRow :=
  match agent_pots s !! pot with
  | Some p => if bool_decide (pt_ws p = ws /\ pt_agent p = agent) then Some p else None
  | None => None
  end.

Definition pot_locked (p : PotRow) (now_ : Z) : bool :=
  match pt_locked p with Some u => now_ <? u | None => false end.

(** A lock in force can only be made longer. *)
Definition LockPot (c : Ctx) (ws agent pot : string) (until : option Z) : WTx unit :=
  let! p := tx_gets (fun s : Store => own_pot s ws agent pot) in
  match p with
  | None => tx_fail ErrPotNotFound
  | Some p =>
      tx_guard (negb (pot_locked p (now c) &&
        match until with None => true | Some u => u <? default 0 (pt_locked p) end)) ErrPotLocked ;;;
      tx_modify (fun s : Store => with_agent_pots
        (<[pot := mkPot (pt_ws p) (pt_agent p) (pt_name p) (pt_kind p) (pt_target p) until]> (agent_pots s)) s)
  end.

Definition movePot (c : Ctx) (ws agent pot : string) (amount : Z) (into : bool) : WTx unit :=
  tx_guard (negb (amount <=? 0)) ErrAmount ;;;
  lockAgent ws agent ;;;
  let! p := tx_gets (fun s : Store => own_pot s ws agent pot) in
  match p with
  | None => tx_fail ErrPotNotFound
  | Some p =>
      let kind := if into then "pot_in"%string else "pot_out"%string in
      let keyed := negb (bool_decide (move_key c = ""%string)) in
      let ref := if keyed then move_key c else pot in
      let! done_ := tx_gets (fun s : Store => keyed && landed s ws (potAccount pot) kind ref) in
      if (done_ : bool) then tx_ret tt
      else
        tx_guard (into || negb (pot_locked p (now c))) ErrPotLocked ;;;
        let from := if into then agentAccount agent else potAccount pot in
        let to := if into then potAccount pot else agentAccount agent in
        let! have := accountBalance ws from in
        tx_guard (negb (have <? amount)) ErrAgentFunds ;;;
        postEntry c ws kind ref [mkLeg from (-! amount); mkLeg to amount]
  end.

Definition MoveToPot (c : Ctx) (ws agent pot : string) (amount : Z) : WTx unit :=
  committed (movePot c ws agent pot amount true).
Definition MoveFromPot (c : Ctx) (ws agent pot : string) (amount : Z) : WTx unit :=
  committed (movePot c ws agent pot amount false).

(** ** Lifecycle *)

Definition MaxAgentDescription : nat := 500.

(** [utf8.RuneCountInString] of valid UTF-8: the bytes that continue no rune. *)
Definition rune_count (x : string) : nat :=
  length (filter (fun a => (Ascii.nat_of_ascii a <? 128)%nat || (192 <=? Ascii.nat_of_ascii a)%nat = true)
            (String.list_ascii_of_string x)).

Definition trimmed (x : string) : string :=
  String.string_of_list_ascii (trim_space (String.list_ascii_of_string x)).

Definition set_details (name description : option string) (a : AgentAccount) : AgentAccount :=
  mkAgent (ag_ws a) (default (ag_name a) name) (ag_owner a) (ag_kind a) (default (ag_description a) description)
    (ag_created a) (ag_paused a) (ag_paused_reason a) (ag_archived a).

(** [UpdateAgent]: what it writes; [ErrAgentDetails] is [ErrCheck]. *)
Definition UpdateAgent (ws agent : string) (name description : option string) : WTx unit :=
  let name := trimmed <$> name in
  let description := trimmed <$> description in
  tx_guard (negb (bool_decide (name = Some ""%string))) ErrCheck ;;;
  tx_guard (match description with Some d => (rune_count d <=? MaxAgentDescription)%nat | None => true end) ErrCheck ;;;
  update_agent ws agent (set_details name description).

(** What the agent keeps in its pots. *)
Definition pots_total s (ws agent : string) : Z :=
  map_sum (fun id p => if bool_decide (pt_agent p = agent) then account_balance s ws (potAccount id) else 0) (agent_pots s).

Definition set_archived (t : Z) (a : AgentAccount) : AgentAccount :=
  mkAgent (ag_ws a) (ag_name a) (ag_owner a) (ag_kind a) (ag_description a) (ag_created a) (ag_paused a)
    (ag_paused_reason a) (Some t).

(** The agent's proxy keys are deleted, its top-up and its schedules stopped. *)
Definition stop_agent (ws agent : string) (s : Store) : Store :=
  with_agent_payment_schedules
    ((fun r => if bool_decide (sc_ws r = ws /\ (sc_from r = agent \/ sc_to r = Some agent))
               then with_active false r else r) <$> agent_payment_schedules s)
  (with_agent_topups (filter (fun kv => ~ (kv.1 = agent /\ tu_ws kv.2 = ws)) (agent_topups s))
  (with_workspace_api_keys
    (filter (fun kv => ~ (kv.2 = ws /\ agent_account_keys s !! kv.1 = Some agent)) (workspace_api_keys s)) s)).

(** [ArchiveAgent]: what it swept back to the workspace. *)
Definition ArchiveAgent (c : Ctx) (ws agent : string) : WTx Z :=
  committed (
    lockAgent ws agent ;;;
    requireNotArchived agent ;;;
    let! pots := tx_gets (fun s : Store => pots_total s ws agent) in
    let! pots := bigint pots in
    tx_guard (pots =? 0) ErrAgentPotsHeld ;;;
    let! bal := accountBalance ws (agentAccount agent) in
    (if 0 <? bal then
       postEntry c ws "withdraw" ("archive:" +:+ agent) [mkLeg (agentAccount agent) (-! bal); mkLeg "workspace" bal]
     else tx_ret tt) ;;;
    tx_modify (stop_agent ws agent) ;;;
    tx_modify (fun s : Store => with_agent_accounts (alter (set_archived (now c)) agent (agent_accounts s)) s) ;;;
    revokeAgentKYA c agent "archived" ;;;
    tx_ret (if 0 <? bal then bal else 0)).

(** ** Facts *)

Lemma lockAgent_ok ws agent s u s' :
  lockAgent ws agent s = Ok (u, s') <->
  s' = s /\ exists a, agent_accounts s !! agent = Some a /\ ag_ws a = ws.
Proof.
  unfold lockAgent. rewrite tx_gets_bind. destruct (agent_accounts s !! agent) as [a|].
  - rewrite tx_guard_ok, bool_decide_eq_true. destruct u. naive_solver.
  - rewrite tx_fail_ok. naive_solver.
Qed.

Lemma accountBalance_ok ws a s b s' : accountBalance ws a s = Ok (b, s') <-> b = account_balance s ws a /\ s' = s.
Proof. unfold accountBalance. rewrite tx_gets_ok. done. Qed.

Lemma requireOwner_ok agent s u s' :
  requireOwner agent s = Ok (u, s') <->
  s' = s /\ exists a, agent_accounts s !! agent = Some a /\ ag_owner a <> ""%string.
Proof.
  unfold requireOwner. rewrite tx_gets_bind. destruct (agent_accounts s !! agent) as [a|].
  - rewrite tx_guard_ok, negb_true_iff, bool_decide_eq_false. destruct u. naive_solver.
  - rewrite tx_fail_ok. naive_solver.
Qed.

Lemma requireNotArchived_ok agent s u s' :
  requireNotArchived agent s = Ok (u, s') <->
  s' = s /\ exists a, agent_accounts s !! agent = Some a /\ ag_archived a = None.
Proof.
  unfold requireNotArchived. rewrite tx_gets_bind. destruct (agent_accounts s !! agent) as [a|].
  - rewrite tx_guard_ok, negb_true_iff. destruct u. split.
    + intros [H ->]. split; [done|]. exists a. by destruct (ag_archived a).
    + intros (-> & b & [= <-] & ->). done.
  - rewrite tx_fail_ok. naive_solver.
Qed.

(** Two legs that sum to zero, both in range. *)
Lemma two_legs_total a b x : in_i64 x -> 0 < x -> legs_total [mkLeg a (-! x); mkLeg b x] = 0.
Proof. intros Hi Hp. unfold legs_total. csimpl. rewrite wrap64_id; i64_ranges; lia. Qed.

Lemma neg_in_range x : in_i64 x -> 0 <= x -> -! x = - x.
Proof. intros Hi Hp. apply wrap64_id. i64_ranges. lia. Qed.

(** What an agent's own moves leave alone: everything but the postings, the
    stored balances and the drawn ids. *)
Lemma legs_on_pair a b x y acc :
  legs_on acc [mkLeg a x; mkLeg b y] =
  (if bool_decide (a = acc) then x else 0) + (if bool_decide (b = acc) then y else 0).
Proof. unfold legs_on. csimpl. lia. Qed.

Lemma legs_held_pair a b x y :
  legs_held [mkLeg a x; mkLeg b y] = (if held_account a then x else 0) + (if held_account b then y else 0).
Proof. unfold legs_held. csimpl. lia. Qed.

(** A move between [from] and [to] of one workspace, whoever judged it. *)
Record moved (ws from to : string) (amount : Z) s s' : Prop := {
  mo_frame : post_frame s s';
  mo_balance acc : shared_account acc = false ->
    account_balance s' ws acc = account_balance s ws acc
      - (if bool_decide (from = acc) then amount else 0) + (if bool_decide (to = acc) then amount else 0);
  mo_other ws' acc : ws' <> ws -> shared_account acc = false -> account_balance s' ws' acc = account_balance s ws' acc;
  mo_allocated : allocated s' ws = allocated s ws
      - (if held_account from then amount else 0) + (if held_account to then amount else 0);
  mo_allocated_other ws' : ws' <> ws -> allocated s' ws' = allocated s ws';
}.

Lemma posted_moved ws from to amount s s' :
  in_i64 amount -> 0 <= amount ->
  legs_posted ws [mkLeg from (-! amount); mkLeg to amount] s s' -> moved ws from to amount s s'.
Proof.
  intros Hi Hp [F B O A AO]. split; try done.
  - intros acc Ha. rewrite B, legs_on_pair, neg_in_range by done. repeat case_bool_decide; lia.
  - rewrite A, legs_held_pair, neg_in_range by done. destruct (held_account from), (held_account to); lia.
Qed.

Lemma moved_lxc ws from to amount s s' : moved ws from to amount s s' -> st_lxc s' = st_lxc s.
Proof. by intros [[] _ _ _ _]. Qed.

(** ** What the movement of an agent's key does *)

(** Everything the movement leaves alone. *)
Record move_frame s s' : Prop := {
  mf_reservations : lxc_reservations s' = lxc_reservations s;
  mf_claims : lxc_spend_claims s' = lxc_spend_claims s;
  mf_subbudgets : agent_lxc_subbudgets s' = agent_lxc_subbudgets s;
  mf_settlements : agent_debit_settlements s' = agent_debit_settlements s;
  mf_keys : agent_account_keys s' = agent_account_keys s;
  mf_pots : agent_pots s' = agent_pots s;
  mf_other : st_other s' = st_other s;
  mf_accounts id : ag_identity <$> agent_accounts s' !! id = ag_identity <$> agent_accounts s !! id;
}.

#[export] Instance move_frame_refl : Reflexive move_frame.
Proof. by constructor. Qed.

#[export] Instance move_frame_trans : Transitive move_frame.
Proof. intros a b c [] []. constructor; try congruence. Qed.

Lemma post_move_frame s s' : post_frame s s' -> move_frame s s'.
Proof. intros [F1 _ _ F4 F5 F6 F7 _ _ _]. constructor; rewrite ?F1; try done. intros id. by rewrite F5. Qed.

Lemma judge_move_frame s s' : judge_frame s s' -> move_frame s s'.
Proof. intros [F1 F2 F3 F4 F5 F6 F7 F8 F9 F10 F11 F12]. constructor; rewrite ?F1; done. Qed.

Lemma draw_move_frame ws agent need ref s s' : draw_effect ws agent need ref s s' -> move_frame s s'.
Proof.
  intros [_ _ _ _ _ D6 (D7 & D8 & D9 & D10) (D11 & D12 & D13) _ _ _ _].
  constructor; try done. intros id. by rewrite D11.
Qed.

(** The balances of [ws]'s accounts move by [f], no other workspace's does, and
    what its agents hold moves by [held]. *)
Record balances_moved (ws : string) (f : string -> Z) (held : Z) s s' : Prop := {
  bm_balance a : shared_account a = false -> account_balance s' ws a = account_balance s ws a + f a;
  bm_other ws' a : ws' <> ws -> shared_account a = false -> account_balance s' ws' a = account_balance s ws' a;
  bm_allocated : allocated s' ws = allocated s ws + held;
  bm_allocated_other ws' : ws' <> ws -> allocated s' ws' = allocated s ws';
}.

Lemma balances_moved_refl ws s : balances_moved ws (fun _ => 0) 0 s s.
Proof. split; intros; lia. Qed.

Lemma balances_moved_trans ws f g x y s1 s2 s3 :
  balances_moved ws f x s1 s2 -> balances_moved ws g y s2 s3 -> balances_moved ws (fun a => f a + g a) (x + y) s1 s3.
Proof.
  intros [B1 O1 A1 AO1] [B2 O2 A2 AO2]. split.
  - intros a Ha. rewrite B2, B1 by done. lia.
  - intros w a Hw Ha. by rewrite O2, O1.
  - lia.
  - intros w Hw. by rewrite AO2, AO1.
Qed.

Lemma balances_moved_ext ws f g x y s s' :
  (forall a, shared_account a = false -> f a = g a) -> x = y -> balances_moved ws f x s s' -> balances_moved ws g y s s'.
Proof. intros E -> [B O A AO]. split; try done. intros a Ha. by rewrite B, E. Qed.

Lemma legs_moved ws legs s s' : legs_posted ws legs s s' -> balances_moved ws (fun a => legs_on a legs) (legs_held legs) s s'.
Proof. intros [F B O A AO]. by split. Qed.

Lemma judge_balances ws s s' : judge_frame s s' -> balances_moved ws (fun _ => 0) 0 s s'.
Proof.
  intros [F1 F2 F3 F4 F5 F6 F7 F8 F9 F10 F11 F12].
  split; intros; unfold account_balance, allocated; rewrite F5; lia.
Qed.

Lemma draw_balances ws agent need ref s s' : in_i64 need -> 0 <= need -> draw_effect ws agent need ref s s' ->
  balances_moved ws (fun a => if bool_decide (agentAccount agent = a) then need else 0) need s s'.
Proof.
  intros Hi Hp D. split; try apply D. intros a Ha. rewrite (de_balance _ _ _ _ _ _ D a Ha), legs_on_pair.
  rewrite (bool_decide_eq_false_2 ("workspace" = a)%string); [lia|]. intros <-. discriminate Ha.
Qed.

(** The legs of a debit, and of its fee. *)
Lemma debit_legs agent x a :
  shared_account a = false -> in_i64 x -> in_i64 (- x) ->
  legs_on a [mkLeg (agentAccount agent) (-! x); mkLeg "spend" x] =
  (if bool_decide (agentAccount agent = a) then - x else 0).
Proof.
  intros Ha Hx Hn. rewrite legs_on_pair, (wrap64_id (- x)) by done.
  rewrite (bool_decide_eq_false_2 ("spend" = a)%string); [lia|]. intros <-. discriminate Ha.
Qed.

Lemma debit_held agent x : in_i64 (- x) -> legs_held [mkLeg (agentAccount agent) (-! x); mkLeg "spend" x] = - x.
Proof.
  intros Hn. rewrite legs_held_pair, held_agent, (wrap64_id (- x)) by done.
  change (held_account "spend") with false. cbn. lia.
Qed.

Lemma agent_of_key_frame s s' key : move_frame s s' -> agent_of_key s' key = agent_of_key s key.
Proof.
  intros F. unfold agent_of_key. rewrite (mf_keys _ _ F). destruct (agent_account_keys s !! key) as [a|]; [|done].
  pose proof (mf_accounts _ _ F a) as E.
  destruct (agent_accounts s' !! a), (agent_accounts s !! a); cbn in *; try done. by injection E as -> _.
Qed.

(** The workspace's LXC rose by exactly what the credit line lent. *)
Record lent (ws : string) (drawn : Z) s s' : Prop := {
  le_moved : exists rows, lxc_moved ws rows s s' /\ rows_total rows = drawn;
  le_cash w : lx_cash (lxc_row s' w) = lx_cash (lxc_row s w);
}.

Lemma lent_nothing ws s s' : lxc_inv s -> st_lxc s' = st_lxc s -> lent ws 0 s s'.
Proof.
  intros I E. assert (R : forall w, lxc_row s' w = lxc_row s w) by (intros w; unfold lxc_row; by rewrite E).
  split; [|intros w; by rewrite R]. exists []. split; [|done].
  apply lxc_moved_same; [by rewrite E|by apply row_in_i64|done].
Qed.

Lemma lent_draw ws agent need ref s s' : draw_effect ws agent need ref s s' -> lent ws need s s'.
Proof.
  intros D. split.
  - eexists. split; [apply D|]. rewrite rows_total_1. reflexivity.
  - intros w. destruct (decide (w = ws)) as [->|Hne].
    + rewrite (de_row _ _ _ _ _ _ D). reflexivity.
    + by rewrite (mv_other _ _ _ _ (de_moved _ _ _ _ _ _ D) w Hne).
Qed.

(** The common outcome of the steps of a movement. *)
Record movement (u : N -> string) (ws agent : string) (drawn delta : Z) s s' : Prop := {
  mm_frame : move_frame s s';
  mm_lent : lent ws drawn s s';
  mm_balances : balances_moved ws (fun a => if bool_decide (agentAccount agent = a) then delta else 0) delta s s';
  mm_posting : posting_inv u s';
}.

Lemma movement_trans u ws agent d1 d2 s1 s2 s3 x :
  st_lxc s3 = st_lxc s2 -> lxc_inv s2 ->
  movement u ws agent x d1 s1 s2 -> movement u ws agent 0 d2 s2 s3 -> movement u ws agent x (d1 + d2) s1 s3.
Proof.
  intros E I2 [F1 L1 B1 P1] [F2 L2 B2 P2]. split; [by etrans| | |done].
  - destruct L1 as [(rows & M & T) C]. assert (R : forall w, lxc_row s3 w = lxc_row s2 w)
      by (intros w; unfold lxc_row; by rewrite E).
    split; [|intros w; by rewrite R]. exists rows. split; [|done].
    destruct M as [M1 M2 M3 M4 M5]. split; rewrite ?R, ?E; try assumption. intros w Hw. rewrite R. by apply M5.
  - eapply balances_moved_ext; [| |exact (balances_moved_trans _ _ _ _ _ _ _ _ B1 B2)]; [|done].
    intros a _. cbn. case_bool_decide; lia.
Qed.

Section MovementEffect.
Context (u : N -> string) {Hu : Inj (=) (=) u} (LL : string -> option Location).

Lemma movement_same ws agent s s' :
  lxc_inv s -> posting_inv u s -> judge_frame s s' -> movement u ws agent 0 0 s s'.
Proof.
  intros I P F. split; [by apply judge_move_frame|apply lent_nothing; [done|apply F]| |].
  - eapply balances_moved_ext; [| |by apply judge_balances]; [|done]. intros a _. cbn. by case_bool_decide.
  - eapply posting_inv_same; [apply F..|done].
Qed.

(** One balanced entry against the agent. *)
Lemma movement_posted ws agent x s s' :
  lxc_inv s -> in_i64 x -> in_i64 (- x) ->
  legs_posted ws [mkLeg (agentAccount agent) (-! x); mkLeg "spend" x] s s' -> posting_inv u s' ->
  movement u ws agent 0 (- x) s s'.
Proof.
  intros I Hx Hn L P. pose proof (lp_frame _ _ _ _ L) as F.
  split; [by apply post_move_frame|apply lent_nothing; [done|apply F]| |done].
  eapply balances_moved_ext; [| |by apply legs_moved]; [|by apply debit_held].
  intros a Ha. cbn. by apply debit_legs.
Qed.

(** A draw is a movement of what it lends. *)
Lemma draw_movement c ws agent need ref s b s' :
  uuid c = u -> lxc_inv s -> posting_inv u s -> 0 <= need < 4611686018427387904 ->
  drawCreditLine c ws agent need ref s = Ok (b, s') ->
  if b then movement u ws agent need need s s' /\ lxc_inv s' else s' = s.
Proof.
  intros Hc I P Hn D. assert (P2 : posting_inv u s').
  { eapply (drawCreditLine_inv u); [done|exact Hc| | |exact P|exact D]; i64_ranges; lia. }
  apply drawCreditLine_effect in D as [[-> ->]|(-> & _ & D)]; [done|].
  split; [|eapply lxc_moved_inv; [apply D|exact I]].
  split; [by eapply draw_move_frame|by eapply lent_draw| |exact P2].
  apply (draw_balances ws agent _ ref); [i64_ranges; lia|lia|exact D].
Qed.

Lemma judge_movement_effect c ws agent need kind ref s r s' :
  uuid c = u -> lxc_inv s -> posting_inv u s -> 0 <= need < 4611686018427387904 ->
  0 <= account_balance s ws (agentAccount agent) ->
  judge_movement LL c ws agent need kind ref s = Ok (r, s') ->
  exists drawn, 0 <= drawn <= need /\ need <= account_balance s ws (agentAccount agent) + drawn /\
    movement u ws agent drawn drawn s s' /\ lxc_inv s'.
Proof.
  intros Hc I P Hn Hb. unfold judge_movement, accountBalance. rewrite tx_gets_bind. set (bal := account_balance s _ _) in *.
  intros H. apply tx_bind_ok in H as (bal' & s1 & H1 & H). rewrite tx_guard_bind in H. destruct H as [G H].
  apply enforce_effect in H as [F _]. destruct ((bal <? need) && _) eqn:C.
  - apply tx_bind_ok in H1 as (drew & s2 & D & H1). apply tx_ret_ok in H1 as [-> ->].
    assert (Hneed : need -! bal = need - bal) by (apply wrap64_id; i64_ranges; lia).
    rewrite Hneed in D.
    apply (draw_movement c ws agent) in D; [|done..|lia]. destruct drew.
    + destruct D as [M I2]. exists (need - bal). split; [lia|]. split; [lia|]. split.
      * replace (need - bal) with (need - bal + 0) at 2 by lia.
        eapply movement_trans; [apply F|exact I2|exact M|]. apply movement_same; [exact I2|apply M|exact F].
      * eapply lxc_inv_same; [apply F|done].
    + subst s2. exists 0. split; [lia|]. split; [rewrite negb_true_iff in G; lia|]. split; [by apply movement_same|].
      eapply lxc_inv_same; [apply F|done].
  - apply tx_ret_ok in H1 as [-> ->]. exists 0. split; [lia|].
    split; [rewrite negb_true_iff in G; lia|]. split; [by apply movement_same|].
    eapply lxc_inv_same; [apply F|done].
Qed.

(** Giving back draws nothing: the LXC tables stay. *)
Lemma agentMovement_lxc c key delta kind ref model s b s' :
  delta <= 0 -> agentMovement LL c key delta kind ref model s = Ok (b, s') -> st_lxc s' = st_lxc s.
Proof.
  intros Hd. unfold agentMovement, agentMovementFee. rewrite tx_gets_bind.
  destruct (agent_of_key s key) as [[agent ws]|]; intros H; [|by apply tx_ret_ok in H as [_ ->]].
  destruct ((delta =? 0) && (0 =? 0)); [by apply tx_ret_ok in H as [_ ->]|].
  rewrite (proj2 (Z.ltb_ge 0 delta)) in H by lia. cbn [Z.eqb] in H.
  apply tx_bind_ok in H as (v & s1 & L & H). apply lockAgent_ok in L as [-> _].
  apply tx_bind_ok in H as (v1 & s1 & H1 & H). apply tx_ret_ok in H1 as [_ ->].
  apply tx_bind_ok in H as (v2 & s2 & H2 & H). apply tx_bind_ok in H as (v3 & s3 & H3 & H).
  apply tx_ret_ok in H3 as [_ ->]. apply tx_ret_ok in H as [_ ->].
  case_match; [by apply tx_ret_ok in H2 as [_ ->]|]. apply postModelEntry_posted in H2 as L. apply L.
Qed.

(** Whether the key is an agent's is what the movement answers. *)
Lemma agentMovementFee_key c key delta fee bps kind ref model s b s' :
  agentMovementFee LL c key delta fee bps kind ref model s = Ok (b, s') -> b = is_some (agent_of_key s key).
Proof.
  unfold agentMovementFee. rewrite tx_gets_bind. destruct (agent_of_key s key) as [[agent ws]|]; intros H.
  - destruct ((delta =? 0) && (fee =? 0)); [by apply tx_ret_ok in H as [-> _]|].
    repeat (apply tx_bind_ok in H as (? & ? & _ & H)). by apply tx_ret_ok in H as [-> _].
  - by apply tx_ret_ok in H as [-> _].
Qed.

(** The movement of a key: nothing for a key of no agent; for an agent's, the
    line's loan, the rules, and exactly the price and its fee off its balance. *)
Lemma agentMovementFee_effect c key delta fee bps kind ref model s b s' :
  uuid c = u -> lxc_inv s -> posting_inv u s ->
  - 4611686018427387904 < delta -> 0 <= fee -> fee < 2305843009213693952 -> delta < 2305843009213693952 ->
  (forall agent ws, agent_of_key s key = Some (agent, ws) -> 0 <= account_balance s ws (agentAccount agent)) ->
  agentMovementFee LL c key delta fee bps kind ref model s = Ok (b, s') ->
  (b = false /\ agent_of_key s key = None /\ s' = s) \/
  (b = true /\ exists agent ws drawn, agent_of_key s key = Some (agent, ws) /\
     0 <= drawn /\ (delta <= 0 -> drawn = 0) /\
     (0 < delta -> drawn <= delta + fee /\ delta + fee <= account_balance s ws (agentAccount agent) + drawn) /\
     movement u ws agent drawn (drawn - delta - fee) s s').
Proof.
  intros Hc I P Hd1 Hf1 Hf2 Hd2 Hpos. unfold agentMovementFee. rewrite tx_gets_bind.
  destruct (agent_of_key s key) as [[agent ws]|] eqn:K; [|intros H; apply tx_ret_ok in H as [-> ->]; by left].
  specialize (Hpos agent ws eq_refl). intros H. right.
  destruct ((delta =? 0) && (fee =? 0)) eqn:Z0.
  { apply tx_ret_ok in H as [-> ->]. split; [done|]. exists agent, ws, 0.
    assert (delta = 0 /\ fee = 0) as [-> ->] by lia. repeat (split; [done || lia|]).
    by apply movement_same. }
  apply tx_bind_ok in H as (v & s1 & L & H). apply lockAgent_ok in L as [-> _].
  apply tx_bind_ok in H as (v1 & s1 & H1 & H). apply tx_bind_ok in H as (v2 & s2 & H2 & H).
  apply tx_bind_ok in H as (v3 & s3 & H3 & H). apply tx_ret_ok in H as [-> ->]. split; [done|].
  assert (J : exists drawn, 0 <= drawn /\ (delta <= 0 -> drawn = 0) /\
     (0 < delta -> drawn <= delta + fee /\ delta + fee <= account_balance s ws (agentAccount agent) + drawn) /\
     movement u ws agent drawn drawn s s1 /\ lxc_inv s1).
  { destruct (Z.ltb_spec 0 delta).
    - rewrite (wrap64_id (delta + fee)) in H1 by (i64_ranges; lia).
      apply (judge_movement_effect c) in H1 as (d & D1 & D2 & M & I1); [|done..|lia|done].
      exists d. repeat (split; [done || lia|]). done.
    - apply tx_ret_ok in H1 as [_ ->]. exists 0. repeat (split; [done || lia|]). split; [by apply movement_same|done]. }
  destruct J as (drawn & D1 & D2 & D3 & M1 & I1). exists agent, ws, drawn. repeat (split; [done|]).
  assert (M2 : movement u ws agent 0 (- delta) s1 s2 /\ st_lxc s2 = st_lxc s1).
  { destruct (Z.eqb_spec delta 0) as [->|Hz].
    - apply tx_ret_ok in H2 as [_ ->]. split; [|done]. apply movement_same; [done|apply M1|done].
    - pose proof (postModelEntry_posted _ _ _ _ _ _ _ _ _ H2) as L.
      split; [|apply (lp_frame _ _ _ _ L)].
      apply movement_posted; [done|i64_ranges; lia|i64_ranges; lia|done|].
      eapply (postModelEntry_inv u); [exact Hc| |apply M1|exact H2].
      unfold legs_total. csimpl. rewrite wrap64_id; i64_ranges; lia. }
  destruct M2 as [M2 E2].
  assert (I2 : lxc_inv s2) by (by eapply lxc_inv_same).
  assert (M3 : movement u ws agent 0 (- fee) s2 s3 /\ st_lxc s3 = st_lxc s2).
  { destruct (Z.eqb_spec fee 0) as [->|Hz].
    - apply tx_ret_ok in H3 as [_ ->]. split; [|done]. apply movement_same; [done|apply M2|done].
    - pose proof (postFeeEntry_posted _ _ _ _ _ _ _ _ _ _ H3) as L.
      split; [|apply (lp_frame _ _ _ _ L)].
      apply movement_posted; [done|i64_ranges; lia|i64_ranges; lia|done|].
      eapply (postFeeEntry_inv u); [exact Hc| | |apply M2|exact H3]; i64_ranges; lia. }
  destruct M3 as [M3 E3].
  replace (drawn - delta - fee) with (drawn + - delta + - fee) by lia.
  eapply movement_trans; [exact E3|exact I2| |exact M3]. by eapply movement_trans.
Qed.

Lemma postAgentFee_effect c key fee bps ref model s v s' :
  uuid c = u -> lxc_inv s -> posting_inv u s -> 0 <= fee < 2305843009213693952 ->
  postAgentFee c key fee bps ref model s = Ok (v, s') ->
  (agent_of_key s key = None /\ s' = s) \/
  exists agent ws, agent_of_key s key = Some (agent, ws) /\ st_lxc s' = st_lxc s /\ movement u ws agent 0 (- fee) s s'.
Proof.
  intros Hc I P Hf. unfold postAgentFee. destruct (Z.eqb_spec fee 0) as [->|Hz]; intros H.
  - apply tx_ret_ok in H as [_ ->]. destruct (agent_of_key s key) as [[agent ws]|]; [right|by left].
    exists agent, ws. split; [done|]. split; [done|]. by apply movement_same.
  - rewrite tx_gets_bind in H. destruct (agent_of_key s key) as [[agent ws]|];
      [right|apply tx_ret_ok in H as [_ ->]; by left].
    exists agent, ws. split; [done|]. pose proof (postFeeEntry_posted _ _ _ _ _ _ _ _ _ _ H) as L.
    split; [apply (lp_frame _ _ _ _ L)|].
    apply movement_posted; [done|i64_ranges; lia|i64_ranges; lia|done|].
    eapply (postFeeEntry_inv u); [exact Hc| | |exact P|exact H]; i64_ranges; lia.
Qed.

(** What a settle or a release gives back to the agent of the key, its fee taken. *)
Lemma refund_effect c key back fee bps kind ref model s b s1 v s2 :
  uuid c = u -> lxc_inv s -> posting_inv u s -> 0 <= fee < 2305843009213693952 ->
  0 <= back < 4611686018427387904 ->
  (forall agent ws, agent_of_key s key = Some (agent, ws) -> 0 <= account_balance s ws (agentAccount agent)) ->
  agentMovement LL c key (-! back) kind ref model s = Ok (b, s1) ->
  postAgentFee c key fee bps ref model s1 = Ok (v, s2) ->
  (agent_of_key s key = None /\ s2 = s) \/
  exists agent ws, agent_of_key s key = Some (agent, ws) /\ st_lxc s2 = st_lxc s /\
    movement u ws agent 0 (back - fee) s s2.
Proof.
  intros Hc I P Hf Hk Hpos H1 H2. rewrite neg_in_range in H1 by (i64_ranges; lia).
  pose proof (agentMovement_lxc c key (- back) kind ref model s b s1 ltac:(lia) H1) as E1.
  assert (I1 : lxc_inv s1) by (by eapply lxc_inv_same).
  apply agentMovementFee_effect in H1 as [(_ & K & ->)|(_ & agent & ws & d & K & D1 & D2 & _ & M)];
    [| |done..|lia|lia|lia|lia|done].
  - apply postAgentFee_effect in H2 as [[_ ->]|(? & ? & K2 & _)]; [by left|congruence|done..].
  - rewrite D2 in M by lia. right. exists agent, ws. split; [done|].
    rewrite <- (agent_of_key_frame _ _ key (mm_frame _ _ _ _ _ _ _ M)) in K.
    apply postAgentFee_effect in H2 as [[K2 _]|(agent' & ws' & K2 & E2 & M2)];
      [congruence| |done|done|apply M|done].
    rewrite K in K2. injection K2 as <- <-. split; [congruence|].
    replace (back - fee) with (0 - - back - 0 + - fee) by lia.
    eapply movement_trans; [exact E2|exact I1|exact M|exact M2].
Qed.
End MovementEffect.
