(* ===== verification/Reservation.v ===== *)
(** The agent debit and the reservation ([internal/economy/agent_subbudget.go]):
    the per-key ceiling, the exactly-once debit, and the hold that is settled to the
    delivered charge or released in full.

    [reserveLXCForAgent], [settleLXCReservation], [releaseLXCReservation] and
    [spendLXCForAgent] are one transaction each; [ReserveLXCForAgent] and
    [SpendLXCForAgent] are what their caller sees, the commit's trigger and the
    approval a refusal files included. *)
From S2P Require Import Prelude Money Tables Postings Clock Lxc Rules CreditLine Agents.
Open Scope Z_scope.
Open Scope i64_scope.

Implicit Types (s : Store).

(** ** Retrying *)

(** What one attempt at a money transaction came to: Postgres cancelled it on a
    lock, or it had an outcome of its own. *)
Inductive Attempt (A : Type) : Type :=
| LockFailure
| Outcome (a : A).
Arguments LockFailure {A}.
Arguments Outcome {A} a.

Definition lockRetries : nat := 5.

(** [retryLocks]: [run i] is the attempt numbered [i]; [None] is [ErrLockContention]. *)
Fixpoint retry_from {A} (run : nat -> Attempt A) (attempt : nat) (more : nat) : option A * nat :=
  match run attempt with
  | Outcome a => (Some a, S attempt)
  | LockFailure =>
      match more with
      | O => (None, S attempt)
      | S more => retry_from run (S attempt) more
      end
  end.

Definition retryLocks {A} (run : nat -> Attempt A) : option A * nat := retry_from run 0 lockRetries.

(** ** The ceiling *)

Definition DefaultAgentCeilingLXC : Z := 50000000.

Definition SetAgentCeiling (key ws : string) (ceiling : Z) : WTx unit :=
  tx_guard (negb (bool_decide (key = ""%string) || bool_decide (ws = ""%string))) ErrAmount ;;;
  tx_modify (fun s : Store => with_agent_lxc_subbudgets
    (<[key := match agent_lxc_subbudgets s !! key with
              | Some b => mkSubBudget (sb_ws b) ceiling (sb_spent b)
              | None => mkSubBudget ws ceiling 0
              end]> (agent_lxc_subbudgets s)) s).

(** The key's row, made at the default ceiling when there is none. *)
Definition ensure_subbudget (key ws : string) : WTx SubBudget :=
  let! b := tx_gets (fun s : Store => agent_lxc_subbudgets s !! key) in
  match b with
  | Some b => tx_ret b
  | None =>
      let b := mkSubBudget ws DefaultAgentCeilingLXC 0 in
      tx_modify (fun s : Store => with_agent_lxc_subbudgets (<[key := b]> (agent_lxc_subbudgets s)) s) ;;;
      tx_ret b
  end.

(** [UPDATE ... SET spent_lxc = spent_lxc + delta], of the row if it is there. *)
Definition bump_spent (key : string) (delta : Z) : WTx unit :=
  let! b := tx_gets (fun s : Store => agent_lxc_subbudgets s !! key) in
  match b with
  | None => tx_ret tt
  | Some b =>
      let! v := bigint (sb_spent b + delta) in
      tx_modify (fun s : Store => with_agent_lxc_subbudgets
        (<[key := mkSubBudget (sb_ws b) (sb_ceiling b) v]> (agent_lxc_subbudgets s)) s)
  end.

(** ** The metadata of a debit row *)

Record AgentDebitMeta := mkMeta {
  RequestedModel : string;
  ServedModel : string;
  RequestID : string;
  PriceBasis : string;
  PoolListULXC : Z;
  PoolDiscountRate : Z;   (* the float's IEEE-754 bits *)
  WrittenOffULXC : Z;
}.

Definition put_str (k v : string) (m : Meta) : Meta :=
  if bool_decide (v = ""%string) then m else <[k := MStr v]> m.

Definition toMap (m : AgentDebitMeta) : Meta :=
  let out := put_str "price_basis" (PriceBasis m) (put_str "request_id" (RequestID m)
    (put_str "served_model" (ServedModel m) (put_str "requested_model" (RequestedModel m) ∅))) in
  if 0 <? WrittenOffULXC m then <["written_off_ulxc" := MInt (WrittenOffULXC m)]> out else out.

(** The pooled-discount disclosure, the saving derived from what was charged. *)
Definition toSpendMap (m : AgentDebitMeta) (charged : Z) : Meta :=
  if PoolListULXC m <=? 0 then toMap m
  else
    let saved := PoolListULXC m -! charged in
    let saved := if saved <? 0 then 0 else saved in
    <["pool_discount_rate" := MFloat (PoolDiscountRate m)]>
      (<["pool_saved_ulxc" := MInt saved]> (<["pool_list_ulxc" := MInt (PoolListULXC m)]> (toMap m))).

Definition release_meta (model req : string) : Meta := toMap (mkMeta model "" req "" 0 0 0).

Definition LXCTypeReservationHold : string := "reservation_hold".
Definition LXCTypeReservationRelease : string := "reservation_release".

Definition missing (l : list string) : bool := existsb (fun x => bool_decide (x = ""%string)) l.

Section Debit.
Variable LoadLocation : string -> option Location.

(** ** The immediate debit *)

(** One attempt of [SpendLXCForAgent]. *)
Definition spendLXCForAgent (c : Ctx) (svc : Service) (key ws req : string) (amount : Z) (desc : string)
    (meta : AgentDebitMeta) : WTx unit :=
  tx_guard (negb (amount <=? 0)) ErrAmount ;;;
  tx_guard (negb (missing [key; ws; req])) ErrAmount ;;;
  let! bps := platformFeeBPS svc ws in
  let fee := PlatformFee amount bps in
  let! claim := tx_gets (fun s : Store => lxc_spend_claims s !! req) in
  if is_some claim then tx_ret tt
  else
    tx_modify (fun s : Store => with_lxc_spend_claims (<[req := mkClaim key amount bps]> (lxc_spend_claims s)) s) ;;;
    let! b := ensure_subbudget key ws in
    let! isAgent := agentMovementFee LoadLocation c key amount fee bps "spend" req (RequestedModel meta) in
    tx_guard (isAgent || negb (sb_ceiling b -! sb_spent b <? amount +! fee)) ErrSubBudgetExceeded ;;;
    let! (bal, minted, wsSpent) := readLXCBalance ws in
    tx_guard (negb (bal <? amount +! fee)) ErrInsufficientLXC ;;;
    (if (isAgent : bool) then tx_ret tt else requireUnallocated ws bal (amount +! fee)) ;;;
    let newBal := bal -! amount in
    insertLXCLedger ws (-! amount) newBal LXCTypeSpend desc (toMap meta) ;;;
    insertPlatformFee ws fee (newBal -! fee) bps amount (RequestID meta) ;;;
    writeLXCBalance ws (newBal -! fee) minted (wsSpent +! amount +! fee) ;;;
    bump_spent key (amount +! fee).

Definition SpendLXCForAgent (c : Ctx) (svc : Service) (key ws req : string) (amount : Z) (desc : string)
    (meta : AgentDebitMeta) s : Res WalletErr unit * Store :=
  run_movement c (spendLXCForAgent c svc key ws req amount desc meta) s.

(** ** The hold *)

(** One attempt of [ReserveLXCForAgent]. *)
Definition reserveLXCForAgent (c : Ctx) (svc : Service) (key ws id : string) (estimate : Z)
    (meta : AgentDebitMeta) : WTx unit :=
  tx_guard (negb (estimate <=? 0)) ErrAmount ;;;
  tx_guard (negb (missing [key; ws; id])) ErrAmount ;;;
  let! bps := platformFeeBPS svc ws in
  let held := estimate +! PlatformFee estimate bps in
  let! claim := tx_gets (fun s : Store => lxc_reservations s !! id) in
  if is_some claim then tx_ret tt
  else
    tx_modify (fun s : Store => with_lxc_reservations
      (<[id := mkReservation key ws held None Held (RequestedModel meta) (RequestID meta) bps (now c)]>
         (lxc_reservations s)) s) ;;;
    let! b := ensure_subbudget key ws in
    let! isAgent := agentMovement LoadLocation c key held "hold" id (RequestedModel meta) in
    tx_guard (isAgent || negb (sb_ceiling b -! sb_spent b <? held)) ErrSubBudgetExceeded ;;;
    let! (bal, minted, wsSpent) := readLXCBalance ws in
    tx_guard (negb (bal <? held)) ErrInsufficientLXC ;;;
    (if (isAgent : bool) then tx_ret tt else requireUnallocated ws bal held) ;;;
    let newBal := bal -! held in
    insertLXCLedger ws (-! held) newBal LXCTypeReservationHold "reservation hold (pre-serve)" (toMap meta) ;;;
    writeLXCBalance ws newBal minted (wsSpent +! held) ;;;
    bump_spent key held.

Definition ReserveLXCForAgent (c : Ctx) (svc : Service) (key ws id : string) (estimate : Z)
    (meta : AgentDebitMeta) s : Res WalletErr unit * Store :=
  run_movement c (reserveLXCForAgent c svc key ws id estimate meta) s.

(** [lockKeyAndAgent]: the key's agent is there and of its own workspace. *)
Definition lockKeyAndAgent (key : string) : WTx unit :=
  let! a := tx_gets (fun s : Store => agent_of_key s key) in
  match a with
  | None => tx_ret tt
  | Some (agent, ws) => lockAgent ws agent
  end.

Definition resolve_reservation (id : string) (status : ResStatus) (settled : Z) (s : Store) : Store :=
  with_lxc_reservations
    (alter (fun r => mkReservation (rv_key r) (rv_ws r) (rv_held r) (Some settled) status (rv_model r)
                       (rv_request r) (rv_bps r) (rv_created r)) id (lxc_reservations s)) s.

(** What a settle's clamp to its hold cut off. *)
Definition written_off (held bps final : Z) : Z :=
  if spendWithin held bps <? final then final -! spendWithin held bps else 0.

Definition clamped (held bps final : Z) : Z :=
  if spendWithin held bps <? final then spendWithin held bps else final.

(** ** The settle *)

(** One attempt of [SettleLXCReservation]: the charge, and the part of it that
    may fund a royalty. *)
Definition settleLXCReservation (c : Ctx) (id : string) (final : Z) (meta : AgentDebitMeta) : WTx (Z * Z) :=
  tx_guard (negb (bool_decide (id = ""%string))) ErrAmount ;;;
  let final := if final <? 0 then 0 else final in
  let! r := tx_gets (fun s : Store => lxc_reservations s !! id) in
  match r with
  | None => tx_fail ErrUnknownReservation
  | Some r =>
      if negb (bool_decide (rv_status r = Held)) then tx_ret (0, 0)
      else
        let key := rv_key r in let ws := rv_ws r in let held := rv_held r in
        let bps := rv_bps r in let model := rv_model r in let req := rv_request r in
        lockKeyAndAgent key ;;;
        let cut := written_off held bps final in
        let final := clamped held bps final in
        let fee := PlatformFee final bps in
        let refund := held -! final -! fee in
        let! (bal, minted, wsSpent) := readLXCBalance ws in
        let afterRelease := bal +! held in
        insertLXCLedger ws held afterRelease LXCTypeReservationRelease "reservation settle: release hold"
          (release_meta model req) ;;;
        let afterSpend := afterRelease -! final in
        (if 0 <? final then
           insertLXCLedger ws (-! final) afterSpend LXCTypeSpend "reservation settle: delivered charge"
             (toSpendMap (mkMeta model (ServedModel meta) req (PriceBasis meta) (PoolListULXC meta)
                            (PoolDiscountRate meta) cut) final)
         else tx_ret tt) ;;;
        insertPlatformFee ws fee (afterSpend -! fee) bps final req ;;;
        let afterSpend := afterSpend -! fee in
        tx_modify (resolve_reservation id Settled final) ;;;
        writeLXCBalance ws afterSpend minted (wsSpent -! refund) ;;;
        let! cashSpent := consumeCashBacked ws afterRelease final in
        let! _ := consumeCashBacked ws (afterRelease -! final) fee in
        let! cashSpent := royaltyBacked ws final cashSpent in
        bump_spent key (- refund) ;;;
        let! _ := agentMovement LoadLocation c key (-! (refund +! fee)) "settle" id model in
        postAgentFee c key fee bps id model ;;;
        tx_ret (final, cashSpent)
  end.

Definition SettleLXCReservation (c : Ctx) (id : string) (final : Z) (meta : AgentDebitMeta) : WTx (Z * Z) :=
  committed (settleLXCReservation c id final meta).

(** ** The release *)

(** One attempt of [ReleaseLXCReservation]. *)
Definition releaseLXCReservation (c : Ctx) (id reason : string) : WTx unit :=
  tx_guard (negb (bool_decide (id = ""%string))) ErrAmount ;;;
  let! r := tx_gets (fun s : Store => lxc_reservations s !! id) in
  match r with
  | None => tx_ret tt
  | Some r =>
      if negb (bool_decide (rv_status r = Held)) then tx_ret tt
      else
        let key := rv_key r in let ws := rv_ws r in let held := rv_held r in
        let model := rv_model r in let req := rv_request r in
        lockKeyAndAgent key ;;;
        let! (bal, minted, wsSpent) := readLXCBalance ws in
        let afterRelease := bal +! held in
        let desc := if bool_decide (reason = ""%string) then "reservation release (full refund)"%string
                    else ("reservation release: " +:+ reason)%string in
        insertLXCLedger ws held afterRelease LXCTypeReservationRelease desc (release_meta model req) ;;;
        tx_modify (resolve_reservation id Released 0) ;;;
        writeLXCBalance ws afterRelease minted (wsSpent -! held) ;;;
        bump_spent key (- held) ;;;
        let! _ := agentMovement LoadLocation c key (-! held) "release" id model in
        tx_ret tt
  end.

Definition ReleaseLXCReservation (c : Ctx) (id reason : string) : WTx unit :=
  committed (releaseLXCReservation c id reason).

(** The sweep's loop: it stops at the first release that fails, those before it
    committed; the count and the store are those of the releases made. *)
Fixpoint release_all (c : Ctx) (ids : list string) (n : nat) s : Res WalletErr nat * nat * Store :=
  match ids with
  | [] => (Ok n, n, s)
  | id :: ids =>
      match ReleaseLXCReservation c id "stranded hold swept (crash refund)" s with
      | Ok (_, s') => release_all c ids (S n) s'
      | Err e => (Err e, n, s)
      end
  end.

(** The holds older than [olderThan]. *)
Definition stranded s (cutoff : Z) : list string :=
  omap (fun kv => if bool_decide (rv_status kv.2 = Held) && (rv_created kv.2 <? cutoff) then Some kv.1 else None)
    (map_to_list (lxc_reservations s)).

Definition ReleaseStrandedReservations (c : Ctx) (olderThan : Z) s : Res WalletErr nat * nat * Store :=
  release_all c (stranded s (now c - olderThan)) 0 s.
End Debit.

(** ** What retrying comes to *)

Lemma retry_from_first {A} (run : nat -> Attempt A) a k more :
  (forall i, (i < k)%nat -> run (a + i)%nat = LockFailure) ->
  (k <= more)%nat -> forall x, run (a + k)%nat = Outcome x -> retry_from run a more = (Some x, S (a + k)).
Proof.
  revert a more. induction k as [|k IH]; intros a more Hf Hle x Hx.
  - rewrite Nat.add_0_r in *. destruct more; cbn; by rewrite Hx.
  - destruct more as [|more]; [lia|]. pose proof (Hf 0%nat ltac:(lia)) as H0. rewrite Nat.add_0_r in H0. cbn.
    rewrite H0. rewrite (IH (S a) more) with (x := x); [f_equal; lia| |lia|].
    + intros i Hi. rewrite Nat.add_succ_comm. apply Hf. lia.
    + by rewrite Nat.add_succ_comm.
Qed.

Lemma retry_from_none {A} (run : nat -> Attempt A) a more :
  (forall i, (i <= more)%nat -> run (a + i)%nat = LockFailure) -> retry_from run a more = (None, S (a + more)).
Proof.
  revert a. induction more as [|more IH]; intros a Hf.
  - cbn. pose proof (Hf 0%nat ltac:(lia)) as H0. rewrite Nat.add_0_r in *. by rewrite H0.
  - cbn. pose proof (Hf 0%nat ltac:(lia)) as H0. rewrite Nat.add_0_r in H0. rewrite H0, IH; [f_equal; lia|].
    intros i Hi. rewrite Nat.add_succ_comm. apply Hf. lia.
Qed.

(** a money transaction is attempted again only while Postgres cancels it on a
    lock, and six times at most: its outcome is that of the first attempt that has one,
    [ErrLockContention] when none of six has. *)
Theorem retry_takes_first_outcome {A} (run : nat -> Attempt A) :
  (forall k x, (k <= lockRetries)%nat -> (forall i, (i < k)%nat -> run i = LockFailure) -> run k = Outcome x ->
     retryLocks run = (Some x, S k)) /\
  ((forall i, (i <= lockRetries)%nat -> run i = LockFailure) -> retryLocks run = (None, S lockRetries)).
Proof.
  split.
  - intros k x Hk Hf Hx. by apply (retry_from_first run 0 k lockRetries).
  - intros Hf. by apply (retry_from_none run 0 lockRetries).
Qed.

(** ** The steps of a debit *)

(** What writing claims, holds, ceilings and LXC rows leaves alone. *)
Record lxc_frame s s' : Prop := {
  xf_agents : st_agents s' = st_agents s;
  xf_rules : st_rules s' = st_rules s;
  xf_credit : st_credit s' = st_credit s;
  xf_other : st_other s' = st_other s;
}.

#[export] Instance lxc_frame_refl : Reflexive lxc_frame.
Proof. by constructor. Qed.

#[export] Instance lxc_frame_trans : Transitive lxc_frame.
Proof. intros a b c [] []. constructor; congruence. Qed.

Lemma lxc_frame_balance s s' ws a : lxc_frame s s' -> account_balance s' ws a = account_balance s ws a.
Proof. intros F. unfold account_balance. by rewrite (xf_agents _ _ F). Qed.

Lemma lxc_frame_allocated s s' ws : lxc_frame s s' -> allocated s' ws = allocated s ws.
Proof. intros F. unfold allocated. by rewrite (xf_agents _ _ F). Qed.

Lemma lxc_frame_posting u s s' : lxc_frame s s' -> posting_inv u s -> posting_inv u s'.
Proof. intros F. apply posting_inv_same; rewrite (xf_agents _ _ F); done || lia. Qed.

Lemma lxc_frame_key s s' key : lxc_frame s s' -> agent_of_key s' key = agent_of_key s key.
Proof. intros F. unfold agent_of_key. by rewrite (xf_agents _ _ F). Qed.

(** The balances and the ledger stay; only holds, claims or ceilings are written. *)
Record same_books s s' : Prop := {
  sk_frame : lxc_frame s s';
  sk_balances : lxc_balances s' = lxc_balances s;
  sk_ledger : lxc_ledger s' = lxc_ledger s;
}.

#[export] Instance same_books_refl : Reflexive same_books.
Proof. by constructor. Qed.

#[export] Instance same_books_trans : Transitive same_books.
Proof. intros a b c [] []. constructor; [by etrans|congruence..]. Qed.

Lemma same_books_row s s' ws : same_books s s' -> lxc_row s' ws = lxc_row s ws.
Proof. intros B. unfold lxc_row. by rewrite (sk_balances _ _ B). Qed.

Lemma same_books_inv s s' : same_books s s' -> lxc_inv s -> lxc_inv s'.
Proof.
  intros B [I1 I2 I3]. split; [intros ws; rewrite (same_books_row s s') by done; rewrite (sk_ledger _ _ B); apply I1
    |intros ws; rewrite (same_books_row s s') by done; rewrite (sk_ledger _ _ B); apply I2|rewrite (sk_ledger _ _ B); apply I3].
Qed.

Lemma ensure_subbudget_ok key ws s b s' :
  ensure_subbudget key ws s = Ok (b, s') ->
  same_books s s' /\ lxc_reservations s' = lxc_reservations s /\ lxc_spend_claims s' = lxc_spend_claims s /\
  agent_lxc_subbudgets s' !! key = Some b /\
  b = default (mkSubBudget ws DefaultAgentCeilingLXC 0) (agent_lxc_subbudgets s !! key) /\
  (forall k, k <> key -> agent_lxc_subbudgets s' !! k = agent_lxc_subbudgets s !! k).
Proof.
  unfold ensure_subbudget. rewrite tx_gets_bind. destruct (agent_lxc_subbudgets s !! key) as [b0|] eqn:E; intros H.
  - apply tx_ret_ok in H as [-> ->]. split_and!; done.
  - wtx_inv. cbn. split_and!; try done; [by rewrite lookup_insert_eq|]. intros k Hk. by rewrite lookup_insert_ne.
Qed.

Lemma bump_spent_ok key delta s v s' :
  bump_spent key delta s = Ok (v, s') ->
  same_books s s' /\ lxc_reservations s' = lxc_reservations s /\ lxc_spend_claims s' = lxc_spend_claims s /\
  agent_debit_settlements s' = agent_debit_settlements s /\
  (forall b, agent_lxc_subbudgets s !! key = Some b ->
     in_i64 (sb_spent b + delta) /\
     agent_lxc_subbudgets s' !! key = Some (mkSubBudget (sb_ws b) (sb_ceiling b) (sb_spent b + delta))) /\
  (forall k, k <> key -> agent_lxc_subbudgets s' !! k = agent_lxc_subbudgets s !! k).
Proof.
  unfold bump_spent. rewrite tx_gets_bind. destruct (agent_lxc_subbudgets s !! key) as [b0|] eqn:E; intros H.
  - wtx_inv. cbn. split_and!; try done.
    + intros b [= <-]. by rewrite lookup_insert_eq.
    + intros k Hk. by rewrite lookup_insert_ne.
  - wtx_inv. split_and!; done.
Qed.

(** ** Invariants a debit keeps *)

(** What every step of the wallet keeps, [key_ws] being the workspace a scoped
    key was made in: the books balance, the postings add up, no account of an
    agent or a pot is overdrawn, what the agents hold is covered by the workspace's
    LXC, and every hold is one its settle can honour. *)
Definition room : Z := 4611686018427387903.

Record wallet_inv (u : N -> string) (key_ws : string -> string) s : Prop := {
  wi_lxc : lxc_inv s;
  wi_post : posting_inv u s;
  wi_held ws a : held_account a = true -> 0 <= account_balance s ws a;
  wi_solvent ws : allocated s ws <= lx_balance (lxc_row s ws);
  wi_room ws : lx_balance (lxc_row s ws) + held_sum s ws <= room;
  wi_cash ws : 0 <= lx_cash (lxc_row s ws);
  wi_res id r : lxc_reservations s !! id = Some r ->
    0 <= rv_held r < 2305843009213693952 /\ bps_ok (rv_bps r) /\ rv_ws r = key_ws (rv_key r);
  wi_keys key agent ws : agent_of_key s key = Some (agent, ws) -> ws = key_ws key;
}.

Section Inv.
Context (u : N -> string) (key_ws : string -> string).

Lemma allocated_nonneg s ws : wallet_inv u key_ws s -> 0 <= allocated s ws.
Proof.
  intros W. unfold allocated. apply map_sum_nonneg. intros [w a] b L. cbn.
  destruct (bool_decide (w = ws) && held_account a) eqn:E; [|lia]. apply andb_prop in E as [_ Ha].
  pose proof (wi_held _ _ _ W w a Ha) as H. unfold account_balance in H. by rewrite L in H.
Qed.

Lemma held_sum_nonneg s ws : wallet_inv u key_ws s -> 0 <= held_sum s ws.
Proof.
  intros W. apply map_sum_nonneg. intros id r L. destruct (wi_res _ _ _ W id r L) as [? _]. case_bool_decide; lia.
Qed.

Lemma balance_bounds s ws : wallet_inv u key_ws s -> 0 <= lx_balance (lxc_row s ws) <= room.
Proof.
  intros W. pose proof (allocated_nonneg s ws W). pose proof (held_sum_nonneg s ws W).
  pose proof (wi_solvent _ _ _ W ws). pose proof (wi_room _ _ _ W ws). lia.
Qed.

Lemma allocated_bounds s ws : wallet_inv u key_ws s -> 0 <= allocated s ws <= room.
Proof.
  intros W. pose proof (allocated_nonneg s ws W). pose proof (balance_bounds s ws W).
  pose proof (wi_solvent _ _ _ W ws). lia.
Qed.

Lemma agent_balance_nonneg s ws agent : wallet_inv u key_ws s -> 0 <= account_balance s ws (agentAccount agent).
Proof. intros W. apply (wi_held _ _ _ W), held_agent. Qed.
End Inv.

(** How one operation on [ws] moved its balance, what its agents hold and what its
    open holds hold; no other workspace's moved. *)
Record stepped (u : N -> string) (ws : string) (dbal dalloc dheld : Z) s s' : Prop := {
  sp_lxc : lxc_inv s';
  sp_post : posting_inv u s';
  sp_bal : lx_balance (lxc_row s' ws) = lx_balance (lxc_row s ws) + dbal;
  sp_alloc : allocated s' ws = allocated s ws + dalloc;
  sp_holds : held_sum s' ws = held_sum s ws + dheld;
  sp_row_other w : w <> ws -> lx_balance (lxc_row s' w) = lx_balance (lxc_row s w);
  sp_alloc_other w : w <> ws -> allocated s' w = allocated s w;
  sp_holds_other w : w <> ws -> held_sum s' w = held_sum s w;
  sp_cash w : 0 <= lx_cash (lxc_row s' w);
}.

(** A step that leaves the workspace solvent and within its room keeps the
    wallet's invariant, its agents' balances, holds and keys being sound. *)
Lemma stepped_inv u key_ws ws dbal dalloc dheld s s' :
  wallet_inv u key_ws s -> stepped u ws dbal dalloc dheld s s' ->
  dalloc - dbal <= lx_balance (lxc_row s ws) - allocated s ws ->
  dbal + dheld <= room - (lx_balance (lxc_row s ws) + held_sum s ws) ->
  (forall w a, held_account a = true -> 0 <= account_balance s' w a) ->
  (forall id r, lxc_reservations s' !! id = Some r ->
     0 <= rv_held r < 2305843009213693952 /\ bps_ok (rv_bps r) /\ rv_ws r = key_ws (rv_key r)) ->
  (forall key agent w, agent_of_key s' key = Some (agent, w) -> w = key_ws key) ->
  wallet_inv u key_ws s'.
Proof.
  intros W [X1 X2 X3 X4 X5 X6 X7 X8 X9] Hs Hr Hh Hres Hk. split; try done; intros w; destruct (decide (w = ws)) as [->|Hne].
  - lia.
  - rewrite X6, X7 by done. apply W.
  - lia.
  - rewrite X6, X8 by done. apply W.
Qed.

Section DebitEffect.
Context (u : N -> string) {Hu : Inj (=) (=) u} (LL : string -> option Location) (key_ws : string -> string).

(** What judging a debit of [price] came to, whoever the key is: the line's loan,
    if one was drawn, and the agent's balance down by the price; or, for a key of
    no agent, a price within what the workspace's agents do not hold. *)
Record judged (ws : string) (isAgent : bool) (drawn price : Z) s s2 : Prop := {
  jd_drawn : 0 <= drawn <= price;
  jd_frame : move_frame s s2;
  jd_lxc : lxc_inv s2;
  jd_post : posting_inv u s2;
  jd_bal : lx_balance (lxc_row s2 ws) = lx_balance (lxc_row s ws) + drawn;
  jd_other w : w <> ws -> lx_balance (lxc_row s2 w) = lx_balance (lxc_row s w);
  jd_cash w : lx_cash (lxc_row s2 w) = lx_cash (lxc_row s w);
  jd_covered : price <= lx_balance (lxc_row s ws) + drawn;
  jd_alloc : allocated s2 ws = allocated s ws + if isAgent then drawn - price else 0;
  jd_alloc_other w : w <> ws -> allocated s2 w = allocated s w;
  jd_held w a : held_account a = true -> 0 <= account_balance s2 w a;
  jd_workspace : isAgent = false -> drawn = 0 /\ price <= lx_balance (lxc_row s ws) - allocated s ws;
}.

Lemma movement_judged c key ws delta fee bps kind ref model isAgent s s1 s2 :
  uuid c = u -> wallet_inv u key_ws s -> same_books s s1 -> key_ws key = ws ->
  0 < delta < 2305843009213693952 -> 0 <= fee < 2305843009213693952 ->
  agentMovementFee LL c key delta fee bps kind ref model s1 = Ok (isAgent, s2) ->
  (lx_balance (lxc_row s2 ws) <? delta +! fee) = false ->
  (isAgent = false -> (lx_balance (lxc_row s2 ws) -! allocated s2 ws <? delta +! fee) = false) ->
  exists drawn, judged ws isAgent drawn (delta + fee) s1 s2.
Proof.
  intros Hc W B Hk Hd Hf H Hbal Hun.
  assert (I1 : lxc_inv s1) by (by eapply same_books_inv; [exact B|apply W]).
  assert (P1 : posting_inv u s1) by (by eapply lxc_frame_posting; [apply B|apply W]).
  assert (Eb : forall w a, account_balance s1 w a = account_balance s w a) by (intros; apply lxc_frame_balance, B).
  assert (Ea : forall w, allocated s1 w = allocated s w) by (intros; apply lxc_frame_allocated, B).
  assert (Er : forall w, lxc_row s1 w = lxc_row s w) by (intros; by apply same_books_row).
  pose proof (balance_bounds u key_ws s ws W) as BB. pose proof (allocated_bounds u key_ws s ws W) as AB. unfold room in *.
  rewrite (wrap64_id (delta + fee)) in Hbal, Hun by (i64_ranges; lia).
  apply (agentMovementFee_effect u LL) in H as [(-> & K & ->)|(-> & agent & ws' & drawn & K & D1 & D2 & D3 & M)];
    [| |done..|lia|lia|lia|lia|intros agent w _; rewrite Eb; by apply (agent_balance_nonneg u key_ws)].
  - exists 0. specialize (Hun eq_refl). rewrite Er, Ea in Hun. rewrite Er in Hbal.
    rewrite wrap64_id in Hun by (i64_ranges; lia).
    split; rewrite ?Er, ?Ea; try done; try lia.
    intros w a Ha. rewrite Eb. by apply W.
  - rewrite (lxc_frame_key s s1) in K by apply B. apply (wi_keys _ _ _ W) in K. rewrite Hk in K. subst ws'.
    exists drawn. destruct M as [F [(rows & L & T) C] BM PM].
    assert (I2 : lxc_inv s2) by (by eapply lxc_moved_inv). specialize (D3 ltac:(lia)).
    assert (E2 : lx_balance (lxc_row s2 ws) = lx_balance (lxc_row s ws) + drawn).
    { rewrite (mv_balance _ _ _ _ L), T, Er. apply wrap64_id. i64_ranges. lia. }
    split; rewrite ?Er, ?Ea; try done; try lia.
    + intros w Hw. by rewrite (mv_other _ _ _ _ L w Hw).
    + rewrite (bm_allocated _ _ _ _ _ BM), Ea. lia.
    + intros w Hw. by rewrite (bm_allocated_other _ _ _ _ _ BM w Hw).
    + intros w a Ha. destruct (decide (w = ws)) as [->|Hw].
      * rewrite (bm_balance _ _ _ _ _ BM) by by apply held_not_shared.
        pose proof (wi_held _ _ _ W ws a Ha) as N0. rewrite <- Eb in N0. case_bool_decide; [subst a; lia|lia].
      * rewrite (bm_other _ _ _ _ _ BM) by (done || by apply held_not_shared). rewrite Eb. by apply W.
Qed.

(** The rows of a judged debit, written: the price off the workspace's balance. *)
Lemma judged_stepped ws isAgent drawn price rows r s s1 s2 s' :
  wallet_inv u key_ws s -> same_books s s1 -> judged ws isAgent drawn price s1 s2 ->
  in_i64 (lx_balance (lxc_row s ws) + drawn) ->
  running ws (lx_balance (lxc_row s2 ws)) rows -> none_passing rows = true ->
  wrap64 (rows_total rows) = wrap64 (- price) ->
  lx_balance r = wrap64 (lx_balance (lxc_row s2 ws) - price) ->
  wrap64 (lx_minted r - lx_spent r) = wrap64 (lx_minted (lxc_row s2 ws) - lx_spent (lxc_row s2 ws) - price) ->
  lx_cash r = lx_cash (lxc_row s2 ws) ->
  same_books (set_row ws r (add_ledgers rows s2)) s' -> lxc_reservations s' = lxc_reservations s1 ->
  (forall w, w <> ws -> held_sum s1 w = held_sum s w) ->
  stepped u ws (drawn - price) (if isAgent then drawn - price else 0) (held_sum s1 ws - held_sum s ws) s s' /\
  (forall w a, held_account a = true -> 0 <= account_balance s' w a) /\
  (forall k, agent_of_key s' k = agent_of_key s k).
Proof.
  intros W B J Hin R Hkind T Hb Hm Hc K Hres Hho.
  assert (Er : forall w, lxc_row s1 w = lxc_row s w) by (intros; by apply same_books_row).
  assert (Ea : forall w, allocated s1 w = allocated s w) by (intros; apply lxc_frame_allocated, B).
  assert (Hs : forall w, held_sum s' w = held_sum s1 w) by (intros w; unfold held_sum; by rewrite Hres).
  assert (E2 : lxc_row s' ws = r) by (rewrite (same_books_row _ _ ws K); apply lxc_row_set_eq).
  assert (E3 : forall w, w <> ws -> lxc_row s' w = lxc_row s2 w).
  { intros w Hw. rewrite (same_books_row _ _ w K), lxc_row_set, decide_False by congruence. reflexivity. }
  assert (A2 : forall w, allocated s' w = allocated s2 w) by (intros w; by rewrite (lxc_frame_allocated _ _ w (sk_frame _ _ K))).
  assert (M : lxc_moved ws rows s2 (set_row ws r (add_ledgers rows s2))).
  { apply lxc_moved_set; [exact R| | |exact Hkind].
    - rewrite Hb, (wrap64_add_cong _ _ _ T), Z.add_opp_r. reflexivity.
    - rewrite Hm, (wrap64_add_cong _ _ _ T), Z.add_opp_r. reflexivity. }
  pose proof (balance_bounds u key_ws s ws W) as BB. unfold room in *.
  destruct J as [J1 J2 J3 J4 J5 J6 J7 J8 J9 J10 J11 J12]. rewrite Er in J5, J8. rewrite Ea in J9.
  split; [split|split].
  - eapply same_books_inv; [exact K|]. by eapply lxc_moved_inv.
  - eapply lxc_frame_posting; [apply K|]. by eapply (lxc_frame_posting u s2).
  - rewrite E2, Hb, J5. rewrite wrap64_id; i64_ranges; lia.
  - rewrite A2, J9. destruct isAgent; lia.
  - rewrite Hs. lia.
  - intros w Hw. rewrite E3, J6, Er by done. done.
  - intros w Hw. by rewrite A2, J10, Ea.
  - intros w Hw. rewrite Hs. by apply Hho.
  - intros w. destruct (decide (w = ws)) as [->|Hw]; [rewrite E2, Hc|rewrite E3 by done];
      rewrite J7, Er; apply (wi_cash _ _ _ W).
  - intros w a Ha. rewrite (lxc_frame_balance _ _ w a (sk_frame _ _ K)). by apply J11.
  - intros k. rewrite (lxc_frame_key _ _ k (sk_frame _ _ K)).
    change (agent_of_key (set_row ws r (add_ledgers rows s2)) k) with (agent_of_key s2 k).
    rewrite (agent_of_key_frame _ _ k J2). apply lxc_frame_key, B.
Qed.

Definition subbudget_of s (key ws : string) : SubBudget :=
  default (mkSubBudget ws DefaultAgentCeilingLXC 0) (agent_lxc_subbudgets s !! key).

(** A fresh hold. *)
Record reserved (c : Ctx) (key ws id : string) (estimate bps : Z) (isAgent : bool) (drawn held : Z)
    (meta : AgentDebitMeta) s s' : Prop := {
  rs_bps : bps_ok bps;
  rs_held : held = estimate + PlatformFee estimate bps /\ 0 < held < 2305843009213693952 /\ 0 <= drawn <= held;
  rs_agent : isAgent = is_some (agent_of_key s key);
  rs_fresh : lxc_reservations s !! id = None;
  rs_row : lxc_reservations s' =
    <[id := mkReservation key ws held None Held (RequestedModel meta) (RequestID meta) bps (now c)]> (lxc_reservations s);
  rs_stepped : stepped u ws (drawn - held) (if isAgent then drawn - held else 0) held s s';
  rs_accounts w a : held_account a = true -> 0 <= account_balance s' w a;
  rs_keys k : agent_of_key s' k = agent_of_key s k;
  rs_covered : held <= lx_balance (lxc_row s ws) + drawn;
  rs_workspace : isAgent = false -> drawn = 0 /\ held <= lx_balance (lxc_row s ws) - allocated s ws /\
    (sb_ceiling (subbudget_of s key ws) -! sb_spent (subbudget_of s key ws) <? held) = false;
  rs_ceiling : exists b, agent_lxc_subbudgets s' !! key = Some b /\
    sb_ceiling b = sb_ceiling (subbudget_of s key ws) /\ sb_spent b = sb_spent (subbudget_of s key ws) + held;
}.

Lemma held_sum_insert s id r s1 w :
  lxc_reservations s1 = <[id := r]> (lxc_reservations s) -> lxc_reservations s !! id = None -> rv_status r = Held ->
  held_sum s1 w = held_sum s w + if bool_decide (rv_ws r = w) then rv_held r else 0.
Proof.
  intros E F Hs. unfold held_sum. rewrite E, map_sum_insert_new by done. rewrite Hs.
  repeat case_bool_decide; naive_solver lia.
Qed.

(** The row a hold leaves, and its ledger row. *)
Definition hold_row (r : LxcRow) (held open : Z) : LxcRow :=
  mkLxcRow (lx_balance r -! held) (lx_minted r) (lx_spent r +! held) (lx_cash r)
    (clamp_test (lx_test r) (lx_balance r -! held) open).

Definition hold_ledger (ws : string) (bal held : Z) (meta : AgentDebitMeta) : LXCLedgerEntry :=
  mkLedger ws (-! held) (bal -! held) LXCTypeReservationHold "reservation hold (pre-serve)" (toMap meta).

(** The steps of a fresh hold, opened. *)
Record hold_steps (c : Ctx) (key ws id : string) (estimate bps : Z) (isAgent : bool) (meta : AgentDebitMeta)
    s s1 s2 s' : Prop := {
  hs_bps : bps_ok bps;
  hs_pos : 0 < estimate;
  hs_fresh : lxc_reservations s !! id = None;
  hs_books : same_books s s1;
  hs_row : lxc_reservations s1 = <[id := mkReservation key ws (estimate +! PlatformFee estimate bps) None Held
    (RequestedModel meta) (RequestID meta) bps (now c)]> (lxc_reservations s);
  hs_budget : agent_lxc_subbudgets s1 !! key = Some (subbudget_of s key ws);
  hs_move : agentMovement LL c key (estimate +! PlatformFee estimate bps) "hold" id (RequestedModel meta) s1 = Ok (isAgent, s2);
  hs_ceiling : isAgent = false ->
    (sb_ceiling (subbudget_of s key ws) -! sb_spent (subbudget_of s key ws) <? estimate +! PlatformFee estimate bps) = false;
  hs_covered : (lx_balance (lxc_row s2 ws) <? estimate +! PlatformFee estimate bps) = false;
  hs_unallocated : isAgent = false ->
    (lx_balance (lxc_row s2 ws) -! allocated s2 ws <? estimate +! PlatformFee estimate bps) = false;
  hs_write : same_books (set_row ws (hold_row (lxc_row s2 ws) (estimate +! PlatformFee estimate bps) (held_sum s2 ws))
    (add_ledgers [hold_ledger ws (lx_balance (lxc_row s2 ws)) (estimate +! PlatformFee estimate bps) meta] s2)) s';
  hs_after : lxc_reservations s' = lxc_reservations s2;
  hs_spent b : agent_lxc_subbudgets s2 !! key = Some b -> agent_lxc_subbudgets s' !! key =
    Some (mkSubBudget (sb_ws b) (sb_ceiling b) (sb_spent b + (estimate +! PlatformFee estimate bps)));
}.

Lemma reserve_steps c svc key ws id estimate meta s s' :
  reserveLXCForAgent LL c svc key ws id estimate meta s = Ok (tt, s') ->
  (lxc_reservations s !! id <> None /\ s' = s) \/
  exists bps isAgent s1 s2, hold_steps c key ws id estimate bps isAgent meta s s1 s2 s'.
Proof.
  unfold reserveLXCForAgent. rewrite !tx_guard_bind. intros (G1 & _ & H).
  apply negb_leb_pos in G1. apply tx_bind_ok in H as (bps & s0 & P & H).
  apply platformFeeBPS_ok in P as [-> Hbps]. rewrite tx_gets_bind in H.
  destruct (lxc_reservations s !! id) as [r0|] eqn:Fr; cbn [is_some] in H.
  { apply tx_ret_ok in H as [_ ->]. left. done. }
  right. apply tx_bind_ok in H as (v & s0 & M & H). apply tx_modify_ok in M. subst s0.
  apply tx_bind_ok in H as (b & s1 & E & H).
  apply ensure_subbudget_ok in E as (B1 & R1 & _ & L1 & Eb & _).
  apply tx_bind_ok in H as (isAgent & s2 & Mv & H). rewrite tx_guard_bind in H. destruct H as [G2 H].
  apply tx_bind_ok in H as ([[bal minted] spent] & s3 & Rd & H). apply readLXCBalance_ok in Rd as [Ev ->].
  injection Ev as -> -> ->. rewrite tx_guard_bind in H. destruct H as [G3 H]. apply negb_true_iff in G3.
  apply tx_bind_ok in H as (v2 & s3 & Un & H).
  assert (Un' : s3 = set_row ws (lxc_row s2 ws) s2 /\
    (isAgent = false -> (lx_balance (lxc_row s2 ws) -! allocated s2 ws <? estimate +! PlatformFee estimate bps) = false)).
  { destruct isAgent; [apply tx_ret_ok in Un as [_ ->]; done|].
    apply requireUnallocated_ok in Un as (-> & _ & Un). done. }
  destruct Un' as [-> Un']. clear Un. lxc_run.
  match goal with H : bump_spent _ _ _ = _ |- _ => apply bump_spent_ok in H as (K & KR & _ & _ & KB & _) end.
  exists bps, isAgent, s1, s2. subst b. constructor; [exact Hbps|exact G1|exact Fr| |exact R1|exact L1|exact Mv| |exact G3
    |exact Un'|exact K|exact KR|].
  - etrans; [|exact B1]. by constructor.
  - intros ->. cbn [orb] in G2. by apply negb_true_iff in G2.
  - intros b Lb. apply (KB b Lb).
Qed.

Lemma reserve_effect c svc key ws id estimate meta s s' :
  uuid c = u -> wallet_inv u key_ws s -> key_ws key = ws -> estimate < 1152921504606846976 ->
  reserveLXCForAgent LL c svc key ws id estimate meta s = Ok (tt, s') ->
  (lxc_reservations s !! id <> None /\ s' = s) \/
  exists bps isAgent drawn held, reserved c key ws id estimate bps isAgent drawn held meta s s'.
Proof.
  intros Hc W Hk He H. apply reserve_steps in H as [?|(bps & isAgent & s1 & s2 & S)]; [by left|]. right.
  destruct S as [Hbps G1 Fr B R1 L1 Mv G2 G3 Un K KR KB].
  pose proof (PlatformFee_bounds estimate bps ltac:(i64_ranges; lia) ltac:(lia) Hbps) as FB.
  rewrite (wrap64_id (estimate + PlatformFee estimate bps)) in * by (i64_ranges; lia).
  set (held := estimate + PlatformFee estimate bps) in *. assert (Hh : 0 < held < 2305843009213693952) by lia.
  destruct (movement_judged c key ws held 0 0 "hold" id (RequestedModel meta) isAgent s s1 s2) as [drawn J];
    [exact Hc|exact W|exact B|exact Hk|lia|lia|exact Mv
    |rewrite Z.add_0_r, (wrap64_id held) by (i64_ranges; lia); exact G3
    |rewrite Z.add_0_r, (wrap64_id held) by (i64_ranges; lia); exact Un|].
  rewrite Z.add_0_r in J. exists bps, isAgent, drawn, held.
  pose proof (balance_bounds u key_ws s ws W) as BB. unfold room in BB.
  pose proof J as [JD JF _ _ _ _ _ JC _ _ _ JW].
  assert (Hsum : forall w, held_sum s1 w = held_sum s w + if bool_decide (ws = w) then held else 0)
    by (intros w; exact (held_sum_insert s id _ s1 w R1 Fr eq_refl)).
  assert (KR' : lxc_reservations s' = lxc_reservations s1) by (rewrite KR; apply (mf_reservations _ _ JF)).
  assert (ST : _) by (eapply (judged_stepped ws isAgent drawn held _ _ s s1 s2 s' W B J); [| | | | | | |exact K|exact KR'|];
    [i64_ranges; lia|split; [reflexivity|split; [rewrite rows_total_1; cbn [lg_after lg_amount hold_ledger]; wrap_eq|exact I]]
    |reflexivity|rewrite rows_total_1; apply wrap64_wrap|reflexivity|unfold hold_row; cbn [lx_minted lx_spent]; wrap_eq|reflexivity
    |intros w Hw; rewrite Hsum, bool_decide_eq_false_2 by congruence; lia]).
  destruct ST as (S & SA & SK). rewrite Hsum, bool_decide_eq_true_2 in S by done.
  replace (held_sum s ws + held - held_sum s ws) with held in S by lia.
  rewrite (same_books_row s s1) in JW, JC by done. rewrite (lxc_frame_allocated s s1) in JW by apply B.
  apply agentMovementFee_key in Mv. rewrite (lxc_frame_key s s1) in Mv by apply B.
  constructor; [exact Hbps|split; [reflexivity|lia]|exact Mv|exact Fr|by rewrite KR', R1|exact S|exact SA|exact SK|exact JC| |].
  - intros E. destruct (JW E). auto.
  - assert (L2 : agent_lxc_subbudgets s2 !! key = Some (subbudget_of s key ws)) by by rewrite (mf_subbudgets _ _ JF).
    eexists. split; [exact (KB _ L2)|]. done.
Qed.

(** Credits back to the workspace and the agent: the books after the rows of a
    settle or a release are written, and the agent's part given back. *)
Lemma refunded_stepped c key ws back fee bps kind ref model rows r dheld s s1 b s2 v s' :
  uuid c = u -> wallet_inv u key_ws s -> key_ws key = ws ->
  0 <= fee <= back -> back < 2305843009213693952 ->
  running ws (lx_balance (lxc_row s ws)) rows -> none_passing rows = true -> wrap64 (rows_total rows) = wrap64 (back - fee) ->
  lx_balance r = wrap64 (lx_balance (lxc_row s ws) + (back - fee)) ->
  wrap64 (lx_minted r - lx_spent r) = wrap64 (lx_minted (lxc_row s ws) - lx_spent (lxc_row s ws) + (back - fee)) ->
  0 <= lx_cash r ->
  same_books (set_row ws r (add_ledgers rows s)) s1 ->
  (forall w, held_sum s1 w = held_sum s w + if bool_decide (ws = w) then dheld else 0) ->
  agentMovement LL c key (-! back) kind ref model s1 = Ok (b, s2) ->
  postAgentFee c key fee bps ref model s2 = Ok (v, s') ->
  let isAgent := is_some (agent_of_key s key) in
  stepped u ws (back - fee) (if isAgent then back - fee else 0) dheld s s' /\
  (forall w a, held_account a = true -> 0 <= account_balance s' w a) /\
  (forall k, agent_of_key s' k = agent_of_key s k) /\
  lxc_reservations s' = lxc_reservations s1 /\ agent_lxc_subbudgets s' = agent_lxc_subbudgets s1 /\
  lx_cash (lxc_row s' ws) = lx_cash r.
Proof.
  intros Hc W Hk Hf Hb R Hkind T Hbal Hm Hcash K Hh H1 H2 isAgent.
  assert (M : lxc_moved ws rows s (set_row ws r (add_ledgers rows s))).
  { apply lxc_moved_set; [exact R| | |exact Hkind].
    - rewrite Hbal, (wrap64_add_cong _ _ _ T). reflexivity.
    - rewrite Hm, (wrap64_add_cong _ _ _ T). reflexivity. }
  assert (I1 : lxc_inv s1) by (eapply same_books_inv; [exact K|]; eapply lxc_moved_inv; [exact M|apply W]).
  assert (P1 : posting_inv u s1) by (eapply lxc_frame_posting; [apply K|]; eapply (lxc_frame_posting u s); [|apply W]; by constructor).
  assert (Eb : forall w a, account_balance s1 w a = account_balance s w a) by (intros w a; exact (lxc_frame_balance _ _ w a (sk_frame _ _ K))).
  assert (Ea : forall w, allocated s1 w = allocated s w) by (intros w; exact (lxc_frame_allocated _ _ w (sk_frame _ _ K))).
  assert (Ek : forall k, agent_of_key s1 k = agent_of_key s k) by (intros k; exact (lxc_frame_key _ _ k (sk_frame _ _ K))).
  assert (Er : lxc_row s1 ws = r) by (rewrite (same_books_row _ _ ws K); apply lxc_row_set_eq).
  assert (Eo : forall w, w <> ws -> lxc_row s1 w = lxc_row s w).
  { intros w Hw. rewrite (same_books_row _ _ w K), lxc_row_set, decide_False by congruence. reflexivity. }
  pose proof (balance_bounds u key_ws s ws W) as BB. unfold room in BB.
  assert (E1 : lx_balance r = lx_balance (lxc_row s ws) + (back - fee)) by (rewrite Hbal; apply wrap64_id; i64_ranges; lia).
  destruct (refund_effect u LL c key back fee bps kind ref model s1 b s2 v s') as [[KN E]|(agent & ws' & KS & EL & MV)];
    [exact Hc|exact I1|exact P1|lia|lia|intros agent w _; rewrite Eb; by apply (agent_balance_nonneg u key_ws)|exact H1|exact H2| |].
  - subst s'. subst isAgent. rewrite Ek in KN. rewrite KN. cbn [is_some].
    split; [split; try done|split; [|split; [|by rewrite Er]]]; rewrite ?Er, ?Ea, ?Hh; try lia; try done.
    + by rewrite bool_decide_eq_true_2 by done.
    + intros w Hw. by rewrite Eo.
    + intros w Hw. by rewrite Hh, bool_decide_eq_false_2, Z.add_0_r by congruence.
    + intros w. destruct (decide (w = ws)) as [->|Hw]; [by rewrite Er|rewrite Eo by done; apply (wi_cash _ _ _ W)].
    + intros w a Ha. rewrite Eb. by apply W.
  - subst isAgent. rewrite Ek in KS. rewrite KS. cbn [is_some]. pose proof (wi_keys _ _ _ W _ _ _ KS) as Hws.
    rewrite Hk in Hws. subst ws'. destruct MV as [F _ BM PM].
    assert (Erow : forall w, lxc_row s' w = lxc_row s1 w) by (intros w; unfold lxc_row; by rewrite EL).
    assert (Ehs : forall w, held_sum s' w = held_sum s1 w) by (intros w; unfold held_sum; by rewrite EL).
    assert (EIN : forall w a, held_account a = true -> 0 <= account_balance s' w a).
    { intros w a Ha. pose proof (wi_held _ _ _ W w a Ha) as N0. rewrite <- Eb in N0. destruct (decide (w = ws)) as [->|Hw].
      - rewrite (bm_balance _ _ _ _ _ BM) by by apply held_not_shared. case_bool_decide; lia.
      - by rewrite (bm_other _ _ _ _ _ BM) by (done || by apply held_not_shared). }
    split; [split|split; [exact EIN|split; [|rewrite EL, Erow; by rewrite Er]]].
    + by eapply lxc_inv_same.
    + exact PM.
    + rewrite Erow, Er. exact E1.
    + rewrite (bm_allocated _ _ _ _ _ BM), Ea. lia.
    + by rewrite Ehs, Hh, bool_decide_eq_true_2 by done.
    + intros w Hw. by rewrite Erow, Eo.
    + intros w Hw. by rewrite (bm_allocated_other _ _ _ _ _ BM w Hw), Ea.
    + intros w Hw. by rewrite Ehs, Hh, bool_decide_eq_false_2, Z.add_0_r by congruence.
    + intros w. rewrite Erow. destruct (decide (w = ws)) as [->|Hw]; [by rewrite Er|rewrite Eo by done; apply (wi_cash _ _ _ W)].
    + intros k. by rewrite (agent_of_key_frame _ _ k F), Ek.
Qed.

Lemma lockKeyAndAgent_same key s v s' : lockKeyAndAgent key s = Ok (v, s') -> s' = s.
Proof.
  unfold lockKeyAndAgent. rewrite tx_gets_bind. destruct (agent_of_key s key) as [[agent ws]|]; intros H.
  - by apply lockAgent_ok in H as [-> _].
  - by apply tx_ret_ok in H as [_ ->].
Qed.

Lemma royaltyBacked_ok ws charged fromCash s v s' :
  royaltyBacked ws charged fromCash s = Ok (v, s') ->
  s' = s /\ (v = fromCash \/ v = charged /\ fromCash < charged /\ exists w, workspaces s !! ws = Some w /\ ws_synthetic w = true).
Proof.
  unfold royaltyBacked, testWorkspace. destruct (Z.leb_spec charged fromCash); intros H0.
  - apply tx_ret_ok in H0 as [-> ->]. split; [done|by left].
  - rewrite tx_gets_bind in H0. apply tx_ret_ok in H0 as [-> ->]. split; [done|].
    destruct (workspaces s !! ws) as [w|] eqn:E; [|by left]. destruct (ws_synthetic w) eqn:Es; [right|by left]. eauto.
Qed.

(** The row of a resolved hold, and the holds still open after it. *)
Lemma held_sum_resolve id st x r s w :
  lxc_reservations s !! id = Some r -> rv_status r = Held -> st <> Held ->
  held_sum (resolve_reservation id st x s) w = held_sum s w + if bool_decide (rv_ws r = w) then - rv_held r else 0.
Proof.
  intros L Hs Hn. unfold held_sum, resolve_reservation. cbn.
  rewrite (map_sum_delete _ _ id r L).
  assert (E : alter (fun r => mkReservation (rv_key r) (rv_ws r) (rv_held r) (Some x) st (rv_model r) (rv_request r)
      (rv_bps r) (rv_created r)) id (lxc_reservations s) =
    <[id := mkReservation (rv_key r) (rv_ws r) (rv_held r) (Some x) st (rv_model r) (rv_request r)
      (rv_bps r) (rv_created r)]> (delete id (lxc_reservations s))).
  { rewrite insert_delete_eq. apply map_eq. intros j. destruct (decide (j = id)) as [->|].
    - by rewrite lookup_alter_eq, lookup_insert_eq, L.
    - by rewrite lookup_alter_ne, lookup_insert_ne by done. }
  rewrite E, map_sum_insert_new by apply lookup_delete_eq. cbn [rv_ws rv_status rv_held].
  rewrite Hs. repeat case_bool_decide; naive_solver lia.
Qed.

(** What a settle writes for a hold [r] charged [final]. *)
Definition settle_ledgers (r : Reservation) (bal final : Z) (meta : AgentDebitMeta) (cut : Z) : list LXCLedgerEntry :=
  let fee := PlatformFee final (rv_bps r) in
  let afterRelease := bal +! rv_held r in
  fee_rows (rv_ws r) fee (afterRelease -! final -! fee) (rv_bps r) final (rv_request r) ++
  (if 0 <? final then
     [mkLedger (rv_ws r) (-! final) (afterRelease -! final) LXCTypeSpend "reservation settle: delivered charge"
        (toSpendMap (mkMeta (rv_model r) (ServedModel meta) (rv_request r) (PriceBasis meta) (PoolListULXC meta)
           (PoolDiscountRate meta) cut) final)] else []) ++
  [mkLedger (rv_ws r) (rv_held r) afterRelease LXCTypeReservationRelease "reservation settle: release hold"
     (release_meta (rv_model r) (rv_request r))].

Definition settle_row (r : Reservation) (w : LxcRow) (final open : Z) : LxcRow :=
  let fee := PlatformFee final (rv_bps r) in
  let afterRelease := lx_balance w +! rv_held r in
  let refund := rv_held r -! final -! fee in
  mkLxcRow (afterRelease -! final -! fee) (lx_minted w) (lx_spent w -! refund)
    (cash_after (afterRelease -! final) (cash_after afterRelease (lx_cash w) final) fee)
    (clamp_test (lx_test w) (afterRelease -! final -! fee) open).

Record settle_steps (c : Ctx) (id : string) (r : Reservation) (final : Z) (meta : AgentDebitMeta) (cut : Z)
    (charged cash : Z) s s1 s2 s' : Prop := {
  ss_charged : charged = final;
  ss_write : same_books (set_row (rv_ws r) (settle_row r (lxc_row s (rv_ws r)) final
      (held_sum (resolve_reservation id Settled final s) (rv_ws r)))
    (add_ledgers (settle_ledgers r (lx_balance (lxc_row s (rv_ws r))) final meta cut) s)) s1;
  ss_resolved : lxc_reservations s1 = lxc_reservations (resolve_reservation id Settled final s);
  ss_spent b : agent_lxc_subbudgets s !! rv_key r = Some b -> agent_lxc_subbudgets s1 !! rv_key r =
    Some (mkSubBudget (sb_ws b) (sb_ceiling b) (sb_spent b + - (rv_held r -! final -! PlatformFee final (rv_bps r))));
  ss_move : exists b, agentMovement LL c (rv_key r) (-! (rv_held r -! final -! PlatformFee final (rv_bps r)
    +! PlatformFee final (rv_bps r))) "settle" id (rv_model r) s1 = Ok (b, s2);
  ss_fee : postAgentFee c (rv_key r) (PlatformFee final (rv_bps r)) (rv_bps r) id (rv_model r) s2 = Ok (tt, s');
  ss_cash : let fromCash := cash_spent (lx_balance (lxc_row s (rv_ws r)) +! rv_held r) (lx_cash (lxc_row s (rv_ws r))) final in
    cash = fromCash \/ cash = final /\ fromCash < final /\
      exists w, workspaces s !! rv_ws r = Some w /\ ws_synthetic w = true;
}.

Lemma resolve_set_row id st x ws r s :
  resolve_reservation id st x (set_row ws r s) = set_row ws r (resolve_reservation id st x s).
Proof. reflexivity. Qed.

Lemma ledger_if_ok (b : bool) ws d a t desc m s v s' :
  (if b then insertLXCLedger ws d a t desc m else tx_ret tt) s = Ok (v, s') <->
  s' = add_ledgers (if b then [mkLedger ws d a t desc m] else []) s.
Proof.
  destruct b; [apply insertLXCLedger_ok|]. rewrite tx_ret_ok. destruct v. unfold add_ledgers. cbn.
  replace (with_lxc_ledger (lxc_ledger s) s) with s by by destruct s as [[] ? ? ? ?]. naive_solver.
Qed.

Lemma settle_opens c id final meta charged cash s s' :
  settleLXCReservation LL c id final meta s = Ok ((charged, cash), s') ->
  exists r, lxc_reservations s !! id = Some r /\
  ((rv_status r <> Held /\ charged = 0 /\ cash = 0 /\ s' = s) \/
   (rv_status r = Held /\ exists s1 s2, settle_steps c id r (clamped (rv_held r) (rv_bps r) (Z.max final 0)) meta
      (written_off (rv_held r) (rv_bps r) (Z.max final 0)) charged cash s s1 s2 s')).
Proof.
  unfold settleLXCReservation. rewrite tx_guard_bind. intros [_ H]. rewrite tx_gets_bind in H.
  replace (if final <? 0 then 0 else final) with (Z.max final 0) in H by (destruct (Z.ltb_spec final 0); lia).
  set (f0 := Z.max final 0) in *. destruct (lxc_reservations s !! id) as [r|] eqn:L; [|by apply tx_fail_ok in H].
  exists r. split; [done|]. case_bool_decide as Hst; cbn [negb] in H.
  2: { apply tx_ret_ok in H as [E ->]. injection E as -> ->. left. done. }
  right. split; [done|]. set (f := clamped (rv_held r) (rv_bps r) f0) in *.
  set (cut := written_off (rv_held r) (rv_bps r) f0) in *.
  apply tx_bind_ok in H as (v0 & s0 & H0 & H). apply lockKeyAndAgent_same in H0 as ->.
  apply tx_bind_ok in H as ([[bal minted] spent] & s0 & Rd & H). apply readLXCBalance_ok in Rd as [Ev ->].
  injection Ev as -> -> ->.
  apply tx_bind_ok in H as (v1 & s1 & H1 & H). apply insertLXCLedger_ok in H1. subst s1.
  apply tx_bind_ok in H as (v2 & s2 & H2 & H). apply ledger_if_ok in H2. subst s2.
  apply tx_bind_ok in H as (v3 & s3 & H3 & H). apply insertPlatformFee_ok in H3. subst s3.
  apply tx_bind_ok in H as (v4 & s4 & H4 & H). apply tx_modify_ok in H4. subst s4.
  autorewrite with lxc in H. rewrite resolve_set_row in H.
  apply tx_bind_ok in H as (v5 & s5 & H5 & H). apply writeLXCBalance_ok in H5. subst s5.
  apply tx_bind_ok in H as (c1 & s6 & H6 & H). apply consumeCashBacked_ok in H6 as [-> ->].
  apply tx_bind_ok in H as (c2 & s7 & H7 & H). apply consumeCashBacked_ok in H7 as [-> ->].
  apply tx_bind_ok in H as (c3 & s8 & H8 & H). apply royaltyBacked_ok in H8 as [-> RB].
  apply tx_bind_ok in H as (v9 & s9 & H9 & H). apply bump_spent_ok in H9 as (K & KR & _ & _ & KB & _).
  apply tx_bind_ok in H as (b & s10 & H10 & H). apply tx_bind_ok in H as ([] & s11 & H11 & H).
  apply tx_ret_ok in H as [E ->]. injection E as -> ->.
  exists s9, s10. constructor.
  - reflexivity.
  - etrans; [|exact K]. rewrite <- (assoc_L (++)). constructor; [by constructor|reflexivity|reflexivity].
  - rewrite KR. reflexivity.
  - intros b0 Lb. apply (KB b0 Lb).
  - exists b. exact H10.
  - exact H11.
  - exact RB.
Qed.

Lemma rows_total_app l k : rows_total (l ++ k) = rows_total l + rows_total k.
Proof. unfold rows_total. by rewrite fmap_app, sumZ_app. Qed.

Lemma settle_ledgers_stay r bal f meta cut : none_passing (settle_ledgers r bal f meta cut) = true.
Proof. apply fee_rows_stay. by destruct (0 <? f). Qed.

Lemma settle_rows_running r bal f meta cut :
  0 <= f -> in_i64 (PlatformFee f (rv_bps r)) ->
  running (rv_ws r) bal (settle_ledgers r bal f meta cut) /\
  wrap64 (rows_total (settle_ledgers r bal f meta cut)) = wrap64 (rv_held r - f - PlatformFee f (rv_bps r)).
Proof.
  intros Hf Hi. unfold settle_ledgers. set (fee := PlatformFee f (rv_bps r)) in *.
  set (rel := mkLedger _ (rv_held r) _ _ _ _).
  set (spend := if 0 <? f then _ else _).
  assert (R : running (rv_ws r) bal (spend ++ [rel]) /\ wrap64 (rows_total (spend ++ [rel])) = wrap64 (rv_held r - f)).
  { subst spend. destruct (Z.ltb_spec 0 f).
    - cbn [app running lg_ws lg_after rel]. unfold rows_total. csimpl. subst rel. cbn [lg_amount].
      split; [split; [reflexivity|split; [wrap_eq|split; [reflexivity|split; [wrap_eq|exact I]]]]|wrap_eq].
    - assert (f = 0) as -> by lia. cbn [app running lg_ws lg_after rel]. rewrite rows_total_1. subst rel. cbn [lg_amount].
      split; [split; [reflexivity|split; [reflexivity|exact I]]|]. by rewrite Z.sub_0_r. }
  destruct R as [R T].
  destruct (fee_rows_running (rv_ws r) bal fee (bal +! rv_held r -! f -! fee) (rv_bps r) f (rv_request r) (spend ++ [rel]))
    as [R2 T2]; [done|done| |].
  - rewrite <- Z.add_sub_assoc, (wrap64_add_cong (rows_total (spend ++ [rel]) - fee) (rv_held r - f - fee));
      [wrap_eq|]. rewrite <- wrap64_sub_l, T, wrap64_sub_l. reflexivity.
  - split; [exact R2|]. etrans; [exact T2|]. rewrite <- wrap64_sub_l, T, wrap64_sub_l. reflexivity.
Qed.

Lemma clamped_bounds held bps f0 :
  0 <= held <= room -> bps_ok bps -> 0 <= f0 ->
  let f := clamped held bps f0 in
  0 <= f <= f0 /\ 0 <= PlatformFee f bps /\ f + PlatformFee f bps <= held.
Proof.
  intros Hh Hb Hf f. unfold room in *. pose proof (spendWithin_fits held bps ltac:(i64_ranges; lia) Hb) as [P _].
  assert (F : 0 <= f <= spendWithin held bps /\ f <= f0).
  { subst f. unfold clamped. destruct (Z.ltb_spec (spendWithin held bps) f0); lia. }
  pose proof (spend_fits_below held bps f ltac:(i64_ranges; lia) Hb (proj1 F)) as B.
  rewrite Z.max_l in B by lia.
  pose proof (spendWithin_i64 held bps).
  assert (0 <= PlatformFee f bps) by (apply PlatformFee_nonneg; [i64_ranges; lia|done]). lia.
Qed.

(** A hold charged [f], its fee, and the rest given back. *)
Record settled (id : string) (r : Reservation) (f : Z) s s' : Prop := {
  st_bounds : 0 <= f /\ 0 <= PlatformFee f (rv_bps r) /\ f + PlatformFee f (rv_bps r) <= rv_held r;
  st_stepped : let refund := rv_held r - f - PlatformFee f (rv_bps r) in
    stepped u (rv_ws r) refund (if is_some (agent_of_key s (rv_key r)) then refund else 0) (- rv_held r) s s';
  st_accounts w a : held_account a = true -> 0 <= account_balance s' w a;
  st_keys k : agent_of_key s' k = agent_of_key s k;
  st_reservations : lxc_reservations s' = lxc_reservations (resolve_reservation id Settled f s);
  st_spent b : agent_lxc_subbudgets s !! rv_key r = Some b -> agent_lxc_subbudgets s' !! rv_key r =
    Some (mkSubBudget (sb_ws b) (sb_ceiling b) (sb_spent b - (rv_held r - f - PlatformFee f (rv_bps r))));
  st_cash : lx_cash (lxc_row s' (rv_ws r)) =
    let before := lx_balance (lxc_row s (rv_ws r)) + rv_held r in
    cash_after (before - f) (cash_after before (lx_cash (lxc_row s (rv_ws r))) f) (PlatformFee f (rv_bps r));
}.

Lemma cash_after_nonneg before cash spend : 0 <= cash -> 0 <= cash_after before cash spend.
Proof. intros H. unfold cash_after. destruct (spend <=? 0); [done|]. destruct (0 <? _); lia. Qed.

Lemma held_le_sum s id r : wallet_inv u key_ws s -> lxc_reservations s !! id = Some r -> rv_status r = Held ->
  rv_held r <= held_sum s (rv_ws r).
Proof.
  intros W L Hs. unfold held_sum.
  etrans; [|apply (map_sum_lookup_le _ _ id r); [|exact L]]; cbn.
  - by rewrite bool_decide_eq_true_2.
  - intros k v Lv. destruct (wi_res _ _ _ W k v Lv) as [? _]. case_bool_decide; lia.
Qed.

Lemma settle_effect c id final meta charged cash s s' :
  uuid c = u -> wallet_inv u key_ws s ->
  settleLXCReservation LL c id final meta s = Ok ((charged, cash), s') ->
  exists r, lxc_reservations s !! id = Some r /\
  ((rv_status r <> Held /\ charged = 0 /\ cash = 0 /\ s' = s) \/
   (rv_status r = Held /\ charged = clamped (rv_held r) (rv_bps r) (Z.max final 0) /\ settled id r charged s s')).
Proof.
  intros Hc W H. apply settle_opens in H as (r & L & [?|(Hst & s1 & s2 & S)]); [by exists r; auto|].
  exists r. split; [done|]. right. split; [done|].
  destruct (wi_res _ _ _ W id r L) as (Hh & Hb & Hk).
  destruct (clamped_bounds (rv_held r) (rv_bps r) (Z.max final 0) ltac:(unfold room; lia) Hb ltac:(lia)) as (F1 & F2 & F3).
  destruct S as [-> K KR KB [b Mv] Fe _]. set (f := clamped _ _ _) in *. set (fee := PlatformFee f (rv_bps r)) in *.
  split; [done|]. pose proof (held_le_sum s id r W L Hst) as HL. pose proof (wi_room _ _ _ W (rv_ws r)) as HR.
  pose proof (balance_bounds u key_ws s (rv_ws r) W) as BB. unfold room in *.
  assert (Er : rv_held r -! f -! fee = rv_held r - f - fee) by (rewrite wrap64_sub_l; apply wrap64_id; i64_ranges; lia).
  rewrite Er in *. rewrite (wrap64_id (rv_held r - f - fee + fee)) in Mv by (i64_ranges; lia).
  replace (rv_held r - f - fee + fee) with (rv_held r - f) in Mv by lia.
  destruct (settle_rows_running r (lx_balance (lxc_row s (rv_ws r))) f meta (written_off (rv_held r) (rv_bps r) (Z.max final 0)))
    as [R T]; [lia|i64_ranges; lia|]. fold fee in T.
  destruct (refunded_stepped c (rv_key r) (rv_ws r) (rv_held r - f) fee (rv_bps r) "settle" id (rv_model r) _
    (settle_row r (lxc_row s (rv_ws r)) f (held_sum (resolve_reservation id Settled f s) (rv_ws r))) (- rv_held r)
    s s1 b s2 tt s' Hc W (eq_sym Hk) ltac:(lia) ltac:(lia) R
    (settle_ledgers_stay _ _ _ _ _) T) as (X1 & X2 & X3 & X4 & X5 & X6); [| | |exact K| |exact Mv|exact Fe|].
  - unfold settle_row. fold fee. cbn [lx_balance]. wrap_eq.
  - unfold settle_row. fold fee. cbn [lx_minted lx_spent]. rewrite Er. wrap_eq.
  - unfold settle_row. cbn [lx_cash]. apply cash_after_nonneg, cash_after_nonneg, W.
  - intros w. replace (held_sum s1 w) with (held_sum (resolve_reservation id Settled f s) w) by (unfold held_sum; by rewrite KR).
    rewrite (held_sum_resolve id Settled f r s w L Hst) by done. reflexivity.
  - constructor; [lia|exact X1|exact X2|exact X3|by rewrite X4|intros b0 Lb; rewrite X5; exact (KB b0 Lb)|].
    rewrite X6. unfold settle_row. fold fee. cbn [lx_cash]. cbn zeta.
    rewrite (wrap64_id (lx_balance (lxc_row s (rv_ws r)) + rv_held r)) by (i64_ranges; lia).
    rewrite wrap64_id by (i64_ranges; lia). reflexivity.
Qed.

(** A hold given back in full. *)
Record released (id : string) (r : Reservation) s s' : Prop := {
  re_stepped : stepped u (rv_ws r) (rv_held r) (if is_some (agent_of_key s (rv_key r)) then rv_held r else 0)
    (- rv_held r) s s';
  re_accounts w a : held_account a = true -> 0 <= account_balance s' w a;
  re_keys k : agent_of_key s' k = agent_of_key s k;
  re_reservations : lxc_reservations s' = lxc_reservations (resolve_reservation id Released 0 s);
  re_spent b : agent_lxc_subbudgets s !! rv_key r = Some b -> agent_lxc_subbudgets s' !! rv_key r =
    Some (mkSubBudget (sb_ws b) (sb_ceiling b) (sb_spent b - rv_held r));
  re_cash : lx_cash (lxc_row s' (rv_ws r)) = lx_cash (lxc_row s (rv_ws r));
}.

Lemma release_effect c id reason s s' :
  uuid c = u -> wallet_inv u key_ws s ->
  releaseLXCReservation LL c id reason s = Ok (tt, s') ->
  ((forall r, lxc_reservations s !! id = Some r -> rv_status r <> Held) /\ s' = s) \/
  exists r, lxc_reservations s !! id = Some r /\ rv_status r = Held /\ released id r s s'.
Proof.
  intros Hc W. unfold releaseLXCReservation. rewrite tx_guard_bind. intros [_ H]. rewrite tx_gets_bind in H.
  destruct (lxc_reservations s !! id) as [r|] eqn:L; [|apply tx_ret_ok in H as [_ ->]; left; split; [intros ? [=]|done]].
  case_bool_decide as Hst; cbn [negb] in H.
  2: { apply tx_ret_ok in H as [_ ->]. left. split; [|done]. by intros ? [= <-]. }
  right. exists r. split; [done|]. split; [done|].
  apply tx_bind_ok in H as (v0 & s0 & H0 & H). apply lockKeyAndAgent_same in H0 as ->.
  apply tx_bind_ok in H as ([[bal minted] spent] & s0 & Rd & H). apply readLXCBalance_ok in Rd as [Ev ->].
  injection Ev as -> -> ->.
  apply tx_bind_ok in H as (v1 & s1 & H1 & H). apply insertLXCLedger_ok in H1. subst s1.
  apply tx_bind_ok in H as (v2 & s2 & H2 & H). apply tx_modify_ok in H2. subst s2.
  autorewrite with lxc in H. rewrite resolve_set_row in H.
  apply tx_bind_ok in H as (v3 & s3 & H3 & H). apply writeLXCBalance_ok in H3. subst s3.
  apply tx_bind_ok in H as (v4 & s4 & H4 & H). apply bump_spent_ok in H4 as (K & KR & _ & _ & KB & _).
  apply tx_bind_ok in H as (b & s5 & H5 & H). apply tx_ret_ok in H as [_ ->].
  destruct (wi_res _ _ _ W id r L) as (Hh & Hb & Hk).
  pose proof (held_le_sum s id r W L Hst) as HL. pose proof (wi_room _ _ _ W (rv_ws r)) as HR.
  pose proof (balance_bounds u key_ws s (rv_ws r) W) as BB. unfold room in *.
  match type of K with same_books (set_row _ ?row0 (resolve_reservation _ _ _ (add_ledgers ?rows0 _))) _ =>
    assert (K2 : same_books (set_row (rv_ws r) row0 (add_ledgers rows0 s)) s4)
      by (etrans; [|exact K]; constructor; [by constructor|reflexivity|reflexivity]);
    destruct (refunded_stepped c (rv_key r) (rv_ws r) (rv_held r) 0 0 "release" id (rv_model r) rows0 row0 (- rv_held r)
      s s4 b s5 tt s5 Hc W (eq_sym Hk) ltac:(lia) ltac:(lia)) as (X1 & X2 & X3 & X4 & X5 & X6)
  end; [| | | | | |exact K2| |exact H5|reflexivity|].
  - cbn [running lg_ws lg_after]. rewrite rows_total_1. cbn [lg_amount]. split; [reflexivity|split; [reflexivity|exact I]].
  - reflexivity.
  - rewrite rows_total_1, Z.sub_0_r. reflexivity.
  - cbn [lx_balance]. by rewrite Z.sub_0_r.
  - cbn [lx_minted lx_spent]. wrap_eq.
  - cbn [lx_cash]. apply W.
  - intros w. replace (held_sum s4 w) with (held_sum (resolve_reservation id Released 0 s) w) by (unfold held_sum; by rewrite KR).
    rewrite (held_sum_resolve id Released 0 r s w L Hst) by done. reflexivity.
  - rewrite Z.sub_0_r in X1. constructor; [exact X1|exact X2|exact X3|by rewrite X4, KR
      |intros b0 Lb; rewrite X5; exact (proj2 (KB b0 Lb))|by rewrite X6].
Qed.

(** The row an immediate debit leaves: backing is consumed when it is settled. *)
Definition debit_row (r : LxcRow) (amount fee open : Z) : LxcRow :=
  mkLxcRow (lx_balance r -! amount -! fee) (lx_minted r) (lx_spent r +! amount +! fee) (lx_cash r)
    (clamp_test (lx_test r) (lx_balance r -! amount -! fee) open).

(** A fresh debit. *)
Record debited (key ws req : string) (amount bps : Z) (isAgent : bool) (drawn : Z) s s' : Prop := {
  dt_bps : bps_ok bps;
  dt_price : let fee := PlatformFee amount bps in 0 < amount + fee < 2305843009213693952 /\ 0 <= drawn <= amount + fee;
  dt_agent : isAgent = is_some (agent_of_key s key);
  dt_fresh : lxc_spend_claims s !! req = None;
  dt_claim : lxc_spend_claims s' = <[req := mkClaim key amount bps]> (lxc_spend_claims s);
  dt_reservations : lxc_reservations s' = lxc_reservations s;
  dt_stepped : let price := amount + PlatformFee amount bps in
    stepped u ws (drawn - price) (if isAgent then drawn - price else 0) 0 s s';
  dt_accounts w a : held_account a = true -> 0 <= account_balance s' w a;
  dt_keys k : agent_of_key s' k = agent_of_key s k;
  dt_covered : amount + PlatformFee amount bps <= lx_balance (lxc_row s ws) + drawn;
  dt_workspace : isAgent = false -> drawn = 0 /\
    amount + PlatformFee amount bps <= lx_balance (lxc_row s ws) - allocated s ws /\
    (sb_ceiling (subbudget_of s key ws) -! sb_spent (subbudget_of s key ws) <? amount + PlatformFee amount bps) = false;
  dt_ceiling : exists b, agent_lxc_subbudgets s' !! key = Some b /\
    sb_ceiling b = sb_ceiling (subbudget_of s key ws) /\
    sb_spent b = sb_spent (subbudget_of s key ws) + (amount + PlatformFee amount bps);
}.

Lemma debit_effect c svc key ws req amount desc meta s s' :
  uuid c = u -> wallet_inv u key_ws s -> key_ws key = ws -> amount < 1152921504606846976 ->
  spendLXCForAgent LL c svc key ws req amount desc meta s = Ok (tt, s') ->
  (lxc_spend_claims s !! req <> None /\ s' = s) \/
  exists bps isAgent drawn, debited key ws req amount bps isAgent drawn s s'.
Proof.
  intros Hc W Hk He. unfold spendLXCForAgent. rewrite !tx_guard_bind. intros (G1 & _ & H).
  apply negb_leb_pos in G1. apply tx_bind_ok in H as (bps & s0 & P & H).
  apply platformFeeBPS_ok in P as [-> Hbps]. rewrite tx_gets_bind in H.
  destruct (lxc_spend_claims s !! req) as [r0|] eqn:Fr; cbn [is_some] in H.
  { apply tx_ret_ok in H as [_ ->]. left. done. }
  right. pose proof (PlatformFee_bounds amount bps ltac:(i64_ranges; lia) ltac:(lia) Hbps) as FB.
  set (fee := PlatformFee amount bps) in *.
  rewrite (wrap64_id (amount + fee)) in H by (i64_ranges; lia).
  apply tx_bind_ok in H as (v & s0 & M & H). apply tx_modify_ok in M. subst s0.
  apply tx_bind_ok in H as (b & s1 & E & H).
  apply ensure_subbudget_ok in E as (B1 & R1 & C1 & L1 & Eb & _).
  apply tx_bind_ok in H as (isAgent & s2 & Mv & H). rewrite tx_guard_bind in H. destruct H as [G2 H].
  apply tx_bind_ok in H as ([[bal minted] spent] & s3 & Rd & H). apply readLXCBalance_ok in Rd as [Ev ->].
  injection Ev as -> -> ->. rewrite tx_guard_bind in H. destruct H as [G3 H]. apply negb_true_iff in G3.
  apply tx_bind_ok in H as (v2 & s3 & Un & H).
  assert (B : same_books s s1) by (etrans; [|exact B1]; by constructor).
  assert (Un' : s3 = set_row ws (lxc_row s2 ws) s2 /\
    (isAgent = false -> (lx_balance (lxc_row s2 ws) -! allocated s2 ws <? amount + fee) = false)).
  { destruct isAgent; [apply tx_ret_ok in Un as [_ ->]; done|].
    apply requireUnallocated_ok in Un as (-> & _ & Un). done. }
  destruct Un' as [-> Un']. clear Un.
  destruct (movement_judged c key ws amount fee bps "spend" req (RequestedModel meta) isAgent s s1 s2) as [drawn J];
    [exact Hc|exact W|exact B|exact Hk|lia|lia|exact Mv|rewrite (wrap64_id (amount + fee)) by (i64_ranges; lia); assumption..|].
  lxc_run.
  match goal with H : bump_spent _ _ _ = _ |- _ => apply bump_spent_ok in H as (K & KR & KC & _ & KB & _) end.
  exists bps, isAgent, drawn. pose proof (balance_bounds u key_ws s ws W) as BB. unfold room in BB.
  pose proof J as [JD JF _ _ _ _ _ JC _ _ _ JW].
  destruct (charge_rows_running ws (lx_balance (lxc_row s2 ws)) amount fee bps desc (toMap meta) (RequestID meta))
    as [RR TT]; [i64_ranges; lia|].
  destruct (judged_stepped ws isAgent drawn (amount + fee)
    (charge_rows ws (lx_balance (lxc_row s2 ws)) amount fee bps desc (toMap meta) (RequestID meta))
    (debit_row (lxc_row s2 ws) amount fee (held_sum s2 ws)) s s1 s2 s' W B J)
    as (S & SA & SK); [i64_ranges; lia|exact RR|apply charge_rows_stay| | | |reflexivity| | | |].
  - rewrite TT. wrap_eq.
  - unfold debit_row. cbn [lx_balance]. wrap_eq.
  - unfold debit_row. cbn [lx_minted lx_spent]. wrap_eq.
  - etrans; [|exact K]. constructor; [by constructor|reflexivity|reflexivity].
  - rewrite KR. apply (mf_reservations _ _ JF).
  - intros w Hw. unfold held_sum. by rewrite R1.
  - replace (held_sum s1 ws - held_sum s ws) with 0 in S by (unfold held_sum; rewrite R1; cbn; lia).
    rewrite (same_books_row s s1) in JW, JC by done. rewrite (lxc_frame_allocated s s1) in JW by apply B.
    apply agentMovementFee_key in Mv. rewrite (lxc_frame_key s s1) in Mv by apply B.
    constructor; fold fee; [exact Hbps|lia|exact Mv|exact Fr| | |exact S|exact SA|exact SK|exact JC| |].
    + rewrite KC. etrans; [apply (mf_claims _ _ JF)|]. by rewrite C1.
    + rewrite KR. etrans; [apply (mf_reservations _ _ JF)|]. by rewrite R1.
    + intros E. destruct (JW E). rewrite E in G2. cbn [orb] in G2. apply negb_true_iff in G2. rewrite Eb in G2. auto.
    + assert (L2 : agent_lxc_subbudgets s2 !! key = Some b) by by rewrite (mf_subbudgets _ _ JF).
      eexists. split; [exact (proj2 (KB _ L2))|]. rewrite Eb. done.
Qed.
End DebitEffect.
