(* ===== verification/Funding.v ===== *)
(** Moves of LXC between a workspace, its agents and their pots ([FundAgent],
    [WithdrawAgent] of [internal/economy/agent_accounts.go], [MoveToPot],
    [MoveFromPot], [LockPot] of [agent_pots.go], [ArchiveAgent] of
    [agent_lifecycle.go]): what each does to the books, exactly when it is refused,
    and that an [Idempotency-Key] moves it once. *)
From stdpp Require Import pretty.
From S2P Require Import Prelude Money Tables Postings Clock Lxc Rules CreditLine Agents Reservation.
Open Scope Z_scope.
Open Scope i64_scope.

Implicit Types (s : Store).

(** What a workspace's agents do not hold of its LXC. *)
Definition unallocated s (ws : string) : Z := lx_balance (lxc_row s ws) - allocated s ws.

(** ** One balanced pair *)

Lemma insert_legs_postings mk legs s v s' :
  insert_legs mk legs s = Ok (v, s') -> agent_postings s' = rev (mk <$> legs) ++ agent_postings s.
Proof.
  revert s. induction legs as [|l legs IH]; intros s H; cbn in H.
  - by apply tx_ret_ok in H as [_ ->].
  - apply tx_bind_ok in H as (x & s1 & H1 & H). apply insert_posting_ok in H1 as (_ & -> & _).
    rewrite (IH _ H), posted_postings. cbn. by rewrite <- app_assoc.
Qed.

(** A posting of the move is what its replay looks for. *)
Lemma landed_mono s s' ws account kind ref :
  (exists l, agent_postings s' = l ++ agent_postings s) -> landed s ws account kind ref = true ->
  landed s' ws account kind ref = true.
Proof.
  intros [l E]. unfold landed. rewrite E, !existsb_exists. intros (p & Hp & Hb). exists p. split; [|done].
  apply in_or_app. by right.
Qed.

Section Pair.
Context (u : N -> string) {Hu : Inj (=) (=) u} (key_ws : string -> string).

(** A movement between accounts of the workspace, its LXC untouched. *)
Lemma moved_keeps ws from to amount s s' :
  wallet_inv u key_ws s -> moved ws from to amount s s' -> posting_inv u s' ->
  0 <= amount ->
  (held_account from = true -> amount <= account_balance s ws from) ->
  (held_account from = false -> held_account to = true ->
     amount <= lx_balance (lxc_row s ws) - allocated s ws) ->
  (forall key, agent_of_key s' key = agent_of_key s key) ->
  wallet_inv u key_ws s'.
Proof.
  intros W M P Ha Hfrom Hto Hk. pose proof (moved_lxc _ _ _ _ _ _ M) as E.
  assert (R : forall w, lxc_row s' w = lxc_row s w) by (intros w; unfold lxc_row; by rewrite E).
  assert (Hs : forall w, held_sum s' w = held_sum s w) by (intros w; unfold held_sum; by rewrite E).
  split.
  - eapply lxc_inv_same; [exact E|apply W].
  - exact P.
  - intros w a Hh. pose proof (wi_held _ _ _ W w a Hh). destruct (decide (w = ws)) as [->|Hw].
    + rewrite (mo_balance _ _ _ _ _ _ M) by by apply held_not_shared.
      repeat case_bool_decide; subst; try specialize (Hfrom Hh); lia.
    + by rewrite (mo_other _ _ _ _ _ _ M) by (done || by apply held_not_shared).
  - intros w. rewrite R. pose proof (wi_solvent _ _ _ W w). destruct (decide (w = ws)) as [->|Hw].
    + rewrite (mo_allocated _ _ _ _ _ _ M). destruct (held_account from), (held_account to); try specialize (Hto eq_refl eq_refl); lia.
    + by rewrite (mo_allocated_other _ _ _ _ _ _ M).
  - intros w. rewrite R, Hs. apply W.
  - intros w. rewrite R. apply W.
  - rewrite E. apply W.
  - intros key agent w. rewrite Hk. apply W.
Qed.


(** Posting the pair: always possible while both balances fit, and nothing but
    the two balances moves. *)
Lemma post_pair c ws kind ref from to amount s :
  uuid c = u -> posting_inv u s -> 0 < amount -> in_i64 amount -> from <> to ->
  (shared_account from = false -> in_i64 (account_balance s ws from - amount)) ->
  (shared_account to = false -> in_i64 (account_balance s ws to + amount)) ->
  exists s', postEntry c ws kind ref [mkLeg from (-! amount); mkLeg to amount] s = Ok (tt, s') /\
    moved ws from to amount s s' /\ posting_inv u s' /\
    (exists l, agent_postings s' = l ++ agent_postings s) /\
    landed s' ws from kind ref = true /\ landed s' ws to kind ref = true.
Proof.
  intros Hc P Hp Hi Hne Hf Ht.
  pose (mk := leg_posting c (uuid c (uuid_draws s)) ws kind ref None None).
  pose (s0 := with_uuid_draws (N.succ (uuid_draws s)) s).
  pose (s1 := posted (mk (mkLeg from (-! amount))) s0). pose (s2 := posted (mk (mkLeg to amount)) s1).
  assert (E1 : insert_posting (mk (mkLeg from (-! amount))) s0 = Ok (tt, s1)).
  { apply insert_posting_ok. cbn [mk leg_posting ps_amount ps_ws ps_account leg_amount leg_account].
    pose proof (neg_in_range amount Hi ltac:(lia)) as N.
    split; [rewrite N; lia|]. split; [reflexivity|]. intros Hs. rewrite N.
    change (account_balance s0 ws from) with (account_balance s ws from). rewrite Z.add_opp_r. by apply Hf. }
  assert (E2 : insert_posting (mk (mkLeg to amount)) s1 = Ok (tt, s2)).
  { apply insert_posting_ok. cbn [mk leg_posting ps_amount ps_ws ps_account leg_amount leg_account].
    split; [lia|]. split; [done|]. intros Hs. unfold s1. rewrite posted_balance by done.
    rewrite bool_decide_eq_false_2 by (cbn; intros [_ E]; by apply Hne). rewrite Z.add_0_r. by apply Ht. }
  assert (E : postEntry c ws kind ref [mkLeg from (-! amount); mkLeg to amount] s = Ok (tt, s2)).
  { unfold postEntry, tx_bind, uuid_new. fold mk s0. cbn [insert_legs]. unfold tx_bind. by rewrite E1, E2. }
  exists s2. split; [exact E|].
  split; [apply posted_moved; [done|lia|by eapply postEntry_posted]|].
  split; [eapply (postEntry_inv u); [exact Hc| |exact P|exact E]|].
  { by apply two_legs_total. }
  unfold landed, s2, s1. rewrite !posted_postings. split; [by exists [mk (mkLeg to amount); mk (mkLeg from (-! amount))]|].
  cbn [existsb mk leg_posting ps_ws ps_account ps_kind ps_ref leg_account].
  split; rewrite !orb_true_iff, !bool_decide_eq_true; [right; left; done|left; done].
Qed.
End Pair.

(** ** Fund and withdraw *)

(** [amount] from one account of [ws] to another: every other account, and every
    workspace's LXC, as it was. *)
Record transfer (ws from to : string) (amount : Z) s s' : Prop := {
  tr_row w : lxc_row s' w = lxc_row s w;
  tr_ledger : lxc_ledger s' = lxc_ledger s;
  tr_balance acc : shared_account acc = false -> account_balance s' ws acc = account_balance s ws acc
    - (if bool_decide (from = acc) then amount else 0) + (if bool_decide (to = acc) then amount else 0);
  tr_other w acc : w <> ws -> shared_account acc = false -> account_balance s' w acc = account_balance s w acc;
  tr_unallocated : unallocated s' ws = unallocated s ws
    + (if held_account from then amount else 0) - (if held_account to then amount else 0);
  tr_landed kind ref : landed s ws from kind ref = true -> landed s' ws from kind ref = true;
}.

Lemma moved_transfer ws from to amount s0 s s' :
  lxc_ledger s = lxc_ledger s0 -> (forall w, lxc_row s w = lxc_row s0 w) -> st_agents s = st_agents s0 -> moved ws from to amount s s' ->
  (exists l, agent_postings s' = l ++ agent_postings s) -> transfer ws from to amount s0 s'.
Proof.
  intros El Er Ea M L. pose proof (moved_lxc _ _ _ _ _ _ M) as E.
  assert (R : forall w, lxc_row s' w = lxc_row s0 w).
  { intros w. rewrite <- Er. unfold lxc_row. by rewrite E. }
  split.
  - exact R.
  - by rewrite E.
  - intros acc Ha. rewrite (mo_balance _ _ _ _ _ _ M) by done. unfold account_balance. by rewrite Ea.
  - intros w acc Hw Ha. rewrite (mo_other _ _ _ _ _ _ M) by done. unfold account_balance. by rewrite Ea.
  - unfold unallocated. rewrite R, (mo_allocated _ _ _ _ _ _ M). replace (allocated s ws) with (allocated s0 ws) by (unfold allocated; by rewrite Ea).
    destruct (held_account from), (held_account to); lia.
  - intros kind ref. apply landed_mono. by rewrite <- Ea.
Qed.

(** The move is the replay of one already made under its key. *)
Definition replayed (c : Ctx) s (ws account kind : string) : bool :=
  negb (bool_decide (move_key c = ""%string)) && landed s ws account kind (move_key c).

Section Funds.
Context (u : N -> string) {Hu : Inj (=) (=) u} (key_ws : string -> string).

Lemma touched_row ws s : wallet_inv u key_ws s ->
  lxc_inv (set_row ws (lxc_row s ws) s) /\ (forall w, lxc_row (set_row ws (lxc_row s ws) s) w = lxc_row s w).
Proof.
  intros W. assert (R : forall w, lxc_row (set_row ws (lxc_row s ws) s) w = lxc_row s w).
  { intros w. rewrite lxc_row_set. by destruct (decide (ws = w)) as [->|]. }
  split; [|exact R]. destruct (wi_lxc _ _ _ W) as [I1 I2 I3].
  split; [intros w; rewrite R; apply I1|intros w; rewrite R; apply I2|exact I3].
Qed.

Lemma touched_keeps ws s : wallet_inv u key_ws s -> wallet_inv u key_ws (set_row ws (lxc_row s ws) s).
Proof.
  intros W. destruct (touched_row ws s W) as [I R]. destruct W as [W1 W2 W3 W4 W5 W6 W7 W8].
  constructor; [exact I|eapply (lxc_frame_posting u s); [by constructor|exact W2]|exact W3
    |intros w; rewrite R; apply W4|intros w; rewrite R; apply W5|intros w; rewrite R; apply W6|exact W7|exact W8].
Qed.

(** The LXC an account of the workspace can gain without its balance leaving int64. *)
Lemma account_room s ws acc :
  wallet_inv u key_ws s -> held_account acc = true -> 0 <= account_balance s ws acc <= allocated s ws.
Proof.
  intros W Ha. split; [by apply W|]. unfold account_balance, allocated.
  destruct (agent_account_balances s !! (ws, acc)) as [b|] eqn:L; cbn.
  - etrans; [|apply (map_sum_lookup_le _ _ (ws, acc) b); [|exact L]]; cbn.
    + by rewrite bool_decide_eq_true_2, Ha.
    + intros [w a] v Lv. cbn. destruct (bool_decide (w = ws) && held_account a) eqn:E; [|lia].
      apply andb_prop in E as [_ Hh]. pose proof (wi_held _ _ _ W w a Hh) as N. unfold account_balance in N. by rewrite Lv in N.
  - by apply (allocated_nonneg u key_ws).
Qed.

(** What [FundAgent] comes to, on an agent of the workspace. *)
Lemma fund_run c ws agent a amount s :
  wallet_inv u key_ws s -> 0 < amount -> agent_accounts s !! agent = Some a -> ag_ws a = ws ->
  moveAgentFunds c ws agent amount Fund s =
    (if replayed c s ws (agentAccount agent) "fund" then Ok (account_balance s ws (agentAccount agent), s)
     else if bool_decide (ag_owner a = ""%string) then Err ErrAgentOwnerless
     else if is_some (ag_archived a) then Err ErrAgentArchived
     else if unallocated s ws <? amount then Err ErrAgentFunds
     else tx_bind (postEntry c ws "fund" (move_key c) [mkLeg "workspace" (-! amount); mkLeg (agentAccount agent) amount])
            (fun _ => tx_ret (account_balance s ws (agentAccount agent) +! amount)) (set_row ws (lxc_row s ws) s)).
Proof.
  intros W Ha La Hw. pose proof (allocated_bounds u key_ws s ws W) as AB. pose proof (balance_bounds u key_ws s ws W) as BB.
  unfold moveAgentFunds, lockAgent, requireOwner, requireNotArchived, accountBalance.
  rewrite run_guard, (proj2 (Z.leb_gt amount 0)) by lia. cbn [negb]. rewrite run_assoc, run_gets, La, run_guard.
  rewrite bool_decide_eq_true_2 by done. rewrite !run_gets. change (fund_kind Fund) with "fund"%string.
  fold (replayed c s ws (agentAccount agent) "fund"). destruct (replayed _ _ _ _ _); [done|].
  rewrite run_assoc, run_gets, La, run_guard. case_bool_decide; cbn [negb]; [done|].
  rewrite run_assoc, run_gets, La, run_guard. destruct (is_some (ag_archived a)); cbn [negb]; [done|].
  rewrite (run_bind _ _ _ _ _ (proj2 (readLXCBalance_ok ws s _ _) (conj eq_refl eq_refl))), run_gets.
  change (allocated (set_row ws (lxc_row s ws) s) ws) with (allocated s ws).
  rewrite (run_bind _ _ _ (allocated s ws) (set_row ws (lxc_row s ws) s)) by (apply bigint_ok; split_and!; [done..|unfold room in *; i64_ranges; lia]).
  rewrite run_guard, wrap64_id by (unfold room in *; i64_ranges; lia). fold (unallocated s ws).
  by destruct (unallocated s ws <? amount).
Qed.

(** What [WithdrawAgent] comes to. *)
Lemma withdraw_run c ws agent a amount s :
  0 < amount -> agent_accounts s !! agent = Some a -> ag_ws a = ws ->
  moveAgentFunds c ws agent amount Withdraw s =
    (if replayed c s ws (agentAccount agent) "withdraw" then Ok (account_balance s ws (agentAccount agent), s)
     else if account_balance s ws (agentAccount agent) <? amount then Err ErrAgentFunds
     else tx_bind (postEntry c ws "withdraw" (move_key c) [mkLeg (agentAccount agent) (-! amount); mkLeg "workspace" amount])
            (fun _ => tx_ret (account_balance s ws (agentAccount agent) -! amount)) s).
Proof.
  intros Ha La Hw. unfold moveAgentFunds, lockAgent, accountBalance.
  rewrite run_guard, (proj2 (Z.leb_gt amount 0)) by lia. cbn [negb]. rewrite run_assoc, run_gets, La, run_guard.
  rewrite bool_decide_eq_true_2 by done. rewrite !run_gets. change (fund_kind Withdraw) with "withdraw"%string.
  fold (replayed c s ws (agentAccount agent) "withdraw"). destruct (replayed _ _ _ _ _); [done|].
  rewrite run_guard. by destruct (account_balance s ws (agentAccount agent) <? amount).
Qed.

(** The key a pot move is posted under, and whether it already was. *)
Definition pot_ref (c : Ctx) (pot : string) : string :=
  if negb (bool_decide (move_key c = ""%string)) then move_key c else pot.
Definition pot_replayed (c : Ctx) s (ws pot : string) (into : bool) : bool :=
  replayed c s ws (potAccount pot) (if into then "pot_in" else "pot_out").

(** What [MoveToPot] and [MoveFromPot] come to. *)
Lemma pot_run c ws agent a pot p amount (into : bool) s :
  0 < amount -> agent_accounts s !! agent = Some a -> ag_ws a = ws -> own_pot s ws agent pot = Some p ->
  let from := if into then agentAccount agent else potAccount pot in
  let to := if into then potAccount pot else agentAccount agent in
  movePot c ws agent pot amount into s =
    (if pot_replayed c s ws pot into then Ok (tt, s)
     else if negb into && pot_locked p (now c) then Err ErrPotLocked
     else if account_balance s ws from <? amount then Err ErrAgentFunds
     else postEntry c ws (if into then "pot_in" else "pot_out") (pot_ref c pot) [mkLeg from (-! amount); mkLeg to amount] s).
Proof.
  intros Ha La Hw Lp from to. unfold movePot, lockAgent, accountBalance.
  rewrite run_guard, (proj2 (Z.leb_gt amount 0)) by lia. cbn [negb]. rewrite run_assoc, run_gets, La, run_guard.
  rewrite bool_decide_eq_true_2 by done. rewrite run_gets, Lp, run_gets. fold from to (pot_ref c pot).
  assert (E : negb (bool_decide (move_key c = ""%string)) &&
    landed s ws (potAccount pot) (if into then "pot_in" else "pot_out") (pot_ref c pot) = pot_replayed c s ws pot into).
  { unfold pot_replayed, replayed, pot_ref. by case_bool_decide. }
  rewrite E. destruct (pot_replayed c s ws pot into); [done|]. rewrite run_guard.
  destruct into, (pot_locked p (now c)); cbn [orb negb andb]; try done; rewrite run_gets, run_guard;
    by destruct (account_balance s ws from <? amount).
Qed.

(** A move the source account covers: posted, committed, and the wallet sound. *)
Lemma pair_moves c ws kind ref from to amount s :
  uuid c = u -> wallet_inv u key_ws s -> 0 < amount -> from <> to ->
  (from = "workspace"%string \/ held_account from = true) -> (to = "workspace"%string \/ held_account to = true) ->
  (held_account from = true -> amount <= account_balance s ws from) ->
  (held_account from = false -> amount <= unallocated s ws) ->
  exists s', postEntry c ws kind ref [mkLeg from (-! amount); mkLeg to amount] s = Ok (tt, s') /\
    moved ws from to amount s s' /\ wallet_inv u key_ws s' /\
    (exists l, agent_postings s' = l ++ agent_postings s) /\
    landed s' ws from kind ref = true /\ landed s' ws to kind ref = true.
Proof.
  intros Hc W Ha Hne Kf Kt Cf Cw. unfold unallocated in Cw.
  pose proof (balance_bounds u key_ws s ws W) as BB. pose proof (allocated_bounds u key_ws s ws W) as AB.
  assert (Hroom : amount <= room).
  { destruct (held_account from) eqn:Hf; [|specialize (Cw eq_refl); lia].
    specialize (Cf eq_refl). pose proof (account_room s ws from W Hf). lia. }
  unfold room in *.
  assert (Hs : forall acc, acc = "workspace"%string \/ held_account acc = true -> shared_account acc = false ->
    0 <= account_balance s ws acc <= 4611686018427387903).
  { intros acc [->|Hh] Hn; [discriminate Hn|]. pose proof (account_room s ws acc W Hh). lia. }
  destruct (post_pair u c ws kind ref from to amount s) as (s' & E & M & P & L & Lf & Lt);
    [done|apply W|done|i64_ranges; lia|done| | |].
  - intros Hn. specialize (Hs from Kf Hn). i64_ranges. lia.
  - intros Hn. specialize (Hs to Kt Hn). i64_ranges. lia.
  - exists s'. split_and!; try done. eapply (moved_keeps u key_ws ws from to amount); try done; [lia| |].
    + intros Hf _. by apply Cw.
    + intros key. destruct (mo_frame _ _ _ _ _ _ M) as [_ _ _ _ F5 F6 _ _ _ _]. unfold agent_of_key. by rewrite F5, F6.
Qed.

Lemma fund_outcome c ws agent a amount s :
  uuid c = u -> wallet_inv u key_ws s -> 0 < amount -> agent_accounts s !! agent = Some a -> ag_ws a = ws ->
  replayed c s ws (agentAccount agent) "fund" = false ->
  match FundAgent c ws agent amount s with
  | Ok (bal, s') => ag_owner a <> ""%string /\ ag_archived a = None /\ amount <= unallocated s ws /\
      transfer ws "workspace" (agentAccount agent) amount s s' /\
      bal = account_balance s' ws (agentAccount agent) /\ wallet_inv u key_ws s'
  | Err e => (e = ErrAgentOwnerless /\ ag_owner a = ""%string) \/ (e = ErrAgentArchived /\ ag_archived a <> None) \/
      (e = ErrAgentFunds /\ unallocated s ws < amount)
  end.
Proof.
  intros Hc W Ha La Hw Hr. pose proof (fund_run c ws agent a amount s W Ha La Hw) as E. rewrite Hr in E.
  unfold FundAgent. case_bool_decide as Ho; [unfold committed; rewrite E; auto|].
  destruct (ag_archived a) as [t|] eqn:Hx; cbn [is_some] in E; [unfold committed; rewrite E; auto|].
  destruct (Z.ltb_spec (unallocated s ws) amount) as [Hl|Hl]; [unfold committed; rewrite E; auto|].
  destruct (touched_row ws s W) as [_ R].
  destruct (pair_moves c ws "fund" (move_key c) "workspace" (agentAccount agent) amount (set_row ws (lxc_row s ws) s))
    as (s' & P & M & W' & L & _); [done|by apply touched_keeps|done|done|by left|right; apply held_agent|done| |].
  { intros _. unfold unallocated. rewrite R. exact Hl. }
  erewrite run_bind in E by exact P. rewrite (committed_balanced u _ _ _ _ E) by apply W'.
  split_and!; try done.
  - eapply (moved_transfer _ _ _ _ s (set_row ws (lxc_row s ws) s)); [reflexivity|exact R|reflexivity|exact M|exact L].
  - rewrite (mo_balance _ _ _ _ _ _ M) by apply kept_agent. rewrite bool_decide_eq_false_2, bool_decide_eq_true_2 by done.
    change (account_balance (set_row _ _ s)) with (account_balance s). pose proof (account_room s ws _ W (held_agent agent)).
    pose proof (balance_bounds u key_ws s ws W). pose proof (allocated_bounds u key_ws s ws W). unfold unallocated, room in *.
    rewrite wrap64_id by (i64_ranges; lia). lia.
Qed.

Lemma withdraw_outcome c ws agent a amount s :
  uuid c = u -> wallet_inv u key_ws s -> 0 < amount -> agent_accounts s !! agent = Some a -> ag_ws a = ws ->
  replayed c s ws (agentAccount agent) "withdraw" = false ->
  match WithdrawAgent c ws agent amount s with
  | Ok (bal, s') => amount <= account_balance s ws (agentAccount agent) /\
      transfer ws (agentAccount agent) "workspace" amount s s' /\
      bal = account_balance s' ws (agentAccount agent) /\ wallet_inv u key_ws s'
  | Err e => e = ErrAgentFunds /\ account_balance s ws (agentAccount agent) < amount
  end.
Proof.
  intros Hc W Ha La Hw Hr. pose proof (withdraw_run c ws agent a amount s Ha La Hw) as E. rewrite Hr in E.
  unfold WithdrawAgent. destruct (Z.ltb_spec (account_balance s ws (agentAccount agent)) amount) as [Hl|Hl];
    [unfold committed; rewrite E; auto|].
  destruct (pair_moves c ws "withdraw" (move_key c) (agentAccount agent) "workspace" amount s)
    as (s' & P & M & W' & L & _); [done|done|done|done|right; apply held_agent|by left|done|by rewrite held_agent|].
  erewrite run_bind in E by exact P. rewrite (committed_balanced u _ _ _ _ E) by apply W'.
  split_and!; try done.
  - by eapply moved_transfer.
  - rewrite (mo_balance _ _ _ _ _ _ M) by apply kept_agent. rewrite bool_decide_eq_true_2, bool_decide_eq_false_2 by done.
    pose proof (account_room s ws _ W (held_agent agent)).
    pose proof (allocated_bounds u key_ws s ws W). unfold room in *.
    rewrite wrap64_id by (i64_ranges; lia). lia.
Qed.

Lemma pot_outcome c ws agent a pot p amount (into : bool) s :
  uuid c = u -> wallet_inv u key_ws s -> 0 < amount -> agent_accounts s !! agent = Some a -> ag_ws a = ws ->
  own_pot s ws agent pot = Some p -> pot_replayed c s ws pot into = false ->
  let from := if into then agentAccount agent else potAccount pot in
  let to := if into then potAccount pot else agentAccount agent in
  match (if into then MoveToPot else MoveFromPot) c ws agent pot amount s with
  | Ok (_, s') => amount <= account_balance s ws from /\ (into = false -> pot_locked p (now c) = false) /\
      transfer ws from to amount s s' /\ unallocated s' ws = unallocated s ws /\ wallet_inv u key_ws s'
  | Err e => (e = ErrPotLocked /\ into = false /\ pot_locked p (now c) = true) \/
      (e = ErrAgentFunds /\ account_balance s ws from < amount)
  end.
Proof.
  intros Hc W Ha La Hw Lp Hr from to. pose proof (pot_run c ws agent a pot p amount into s Ha La Hw Lp) as E.
  cbn zeta in E. fold from to in E. rewrite Hr in E.
  replace ((if into then MoveToPot else MoveFromPot) c ws agent pot amount) with (committed (movePot c ws agent pot amount into))
    by by destruct into.
  assert (Hf : held_account from = true) by (unfold from; destruct into; auto with postings).
  assert (Ht : held_account to = true) by (unfold to; destruct into; auto with postings).
  assert (Hne : from <> to) by (unfold from, to; destruct into; [apply agent_not_pot|apply not_eq_sym, agent_not_pot]).
  destruct (negb into && pot_locked p (now c)) eqn:Lk.
  { apply andb_prop in Lk as [Hi Lk]. apply negb_true_iff in Hi. unfold committed. rewrite E. auto. }
  destruct (Z.ltb_spec (account_balance s ws from) amount) as [Hl|Hl]; [unfold committed; rewrite E; auto|].
  destruct (pair_moves c ws (if into then "pot_in"%string else "pot_out"%string) (pot_ref c pot) from to amount s)
    as (s' & P & M & W' & L & _); [done|done|done|done|by right|by right|done|by rewrite Hf|].
  rewrite P in E. rewrite (committed_balanced u _ _ _ _ E) by apply W'.
  assert (T : transfer ws from to amount s s') by by eapply moved_transfer.
  split_and!; try done.
  - intros ->. exact Lk.
  - rewrite (tr_unallocated _ _ _ _ _ _ T), Hf, Ht. lia.
Qed.
End Funds.

(** ** A move is made once *)

Lemma postEntry_landed c ws kind ref legs s v s' l :
  postEntry c ws kind ref legs s = Ok (v, s') -> l ∈ legs -> landed s' ws (leg_account l) kind ref = true.
Proof.
  unfold postEntry. intros H Hl. apply tx_bind_ok in H as (e & s1 & _ & H). apply insert_legs_postings in H.
  unfold landed. rewrite H, existsb_app. apply orb_true_iff. left. apply existsb_exists.
  exists (leg_posting c e ws kind ref None None l). split; [|by apply bool_decide_eq_true].
  rewrite <- in_rev. apply list_elem_of_In, list_elem_of_fmap_2, Hl.
Qed.

Lemma committed_read {A} (m : WTx A) s a : m s = Ok (a, s) -> committed m s = Ok (a, s).
Proof. intros E. unfold committed. by rewrite E, Nat.sub_diag. Qed.

(** What was posted after: the postings are append-only. *)
Definition extends s1 s2 : Prop := exists l, agent_postings s2 = l ++ agent_postings s1.

(** A move that was made leaves the posting its replay looks for. *)
Lemma funds_landed c ws agent amount kind s b s' :
  moveAgentFunds c ws agent amount kind s = Ok (b, s') -> move_key c <> ""%string ->
  landed s' ws (agentAccount agent) (fund_kind kind) (move_key c) = true.
Proof.
  unfold moveAgentFunds. intros H Hk. rewrite tx_guard_bind in H. destruct H as [_ H].
  apply tx_bind_ok in H as (v & s1 & H1 & H). apply lockAgent_ok in H1 as [-> _].
  unfold accountBalance in H. rewrite !tx_gets_bind in H.
  destruct (negb _ && landed _ _ _ _ _) eqn:D; [apply tx_ret_ok in H as [_ ->]; by apply andb_prop in D as [_ D]|].
  destruct kind.
  - apply tx_bind_ok in H as (v1 & s1 & H1 & H). apply requireOwner_ok in H1 as [-> _].
    apply tx_bind_ok in H as (v2 & s1 & H1 & H). apply requireNotArchived_ok in H1 as [-> _].
    apply tx_bind_ok in H as ([[x y] z] & s1 & H1 & H). rewrite tx_gets_bind in H.
    apply tx_bind_ok in H as (t & s2 & H2 & H). rewrite tx_guard_bind in H. destruct H as [_ H].
    apply tx_bind_ok in H as (v3 & s3 & H3 & H). apply tx_ret_ok in H as [_ ->].
    apply (postEntry_landed _ _ _ _ _ _ _ _ (mkLeg (agentAccount agent) amount) H3). set_solver.
  - rewrite tx_guard_bind in H. destruct H as [_ H].
    apply tx_bind_ok in H as (v3 & s3 & H3 & H). apply tx_ret_ok in H as [_ ->].
    apply (postEntry_landed _ _ _ _ _ _ _ _ (mkLeg (agentAccount agent) (-! amount)) H3). set_solver.
Qed.

Lemma pot_landed c ws agent pot amount (into : bool) s v s' :
  movePot c ws agent pot amount into s = Ok (v, s') -> move_key c <> ""%string ->
  landed s' ws (potAccount pot) (if into then "pot_in" else "pot_out") (move_key c) = true.
Proof.
  unfold movePot. intros H Hk. rewrite tx_guard_bind in H. destruct H as [_ H].
  apply tx_bind_ok in H as (x & s1 & H1 & H). apply lockAgent_ok in H1 as [-> _]. rewrite tx_gets_bind in H.
  destruct (own_pot s ws agent pot); [|done]. rewrite bool_decide_eq_false_2 in H by done. cbn [negb andb] in H.
  rewrite tx_gets_bind in H. destruct (landed s _ _ _ _) eqn:D; [by apply tx_ret_ok in H as [_ ->]|].
  rewrite tx_guard_bind in H. destruct H as [_ H]. unfold accountBalance in H. rewrite tx_gets_bind, tx_guard_bind in H.
  destruct H as [_ H]. destruct into.
  - apply (postEntry_landed _ _ _ _ _ _ _ _ (mkLeg (potAccount pot) amount) H). set_solver.
  - apply (postEntry_landed _ _ _ _ _ _ _ _ (mkLeg (potAccount pot) (-! amount)) H). set_solver.
Qed.

Lemma funds_replay c ws agent a amount kind s :
  0 < amount -> agent_accounts s !! agent = Some a -> ag_ws a = ws ->
  replayed c s ws (agentAccount agent) (fund_kind kind) = true ->
  moveAgentFunds c ws agent amount kind s = Ok (account_balance s ws (agentAccount agent), s).
Proof.
  intros Ha La Hw Hr. unfold moveAgentFunds, lockAgent, accountBalance.
  rewrite run_guard, (proj2 (Z.leb_gt amount 0)) by lia. cbn [negb]. rewrite run_assoc, run_gets, La, run_guard.
  rewrite bool_decide_eq_true_2 by done. rewrite !run_gets.
  fold (replayed c s ws (agentAccount agent) (fund_kind kind)). by rewrite Hr.
Qed.

(** ** Archiving *)

(** What an archived agent can no longer do. *)
Record retired (c : Ctx) (ws agent : string) s s' : Prop := {
  rt_archived : exists a, agent_accounts s !! agent = Some a /\ agent_accounts s' !! agent = Some (set_archived (now c) a);
  rt_others id : id <> agent -> agent_accounts s' !! id = agent_accounts s !! id;
  rt_api_keys key : agent_account_keys s !! key = Some agent -> workspace_api_keys s' !! key <> Some ws;
  rt_other_keys key : agent_account_keys s !! key <> Some agent -> workspace_api_keys s' !! key = workspace_api_keys s !! key;
  rt_topups t : agent_topups s' !! agent = Some t -> tu_ws t <> ws;
  rt_schedules id r : agent_payment_schedules s' !! id = Some r -> sc_ws r = ws -> sc_from r = agent \/ sc_to r = Some agent ->
    sc_active r = false;
  rt_credentials k id : kya_credentials s' !! id = Some k -> ky_agent k = agent -> ky_revoked k <> None \/ ky_expires k <= now c;
  rt_books : st_lxc s' = st_lxc s;
  rt_keys : agent_account_keys s' = agent_account_keys s;
}.

(** The steps after the sweep. *)
Lemma retire_steps c ws agent (bal : Z) s v s' a :
  agent_accounts s !! agent = Some a ->
  (tx_modify (stop_agent ws agent) ;;;
   tx_modify (fun s : Store => with_agent_accounts (alter (set_archived (now c)) agent (agent_accounts s)) s) ;;;
   revokeAgentKYA c agent "archived" ;;; tx_ret bal : WTx Z) s = Ok (v, s') ->
  v = bal /\ retired c ws agent s s' /\ agent_postings s' = agent_postings s /\
  agent_account_balances s' = agent_account_balances s /\ uuid_draws s' = uuid_draws s.
Proof.
  intros La H. apply tx_bind_ok in H as (v1 & s1 & H1 & H). apply tx_modify_ok in H1. subst s1.
  apply tx_bind_ok in H as (v2 & s1 & H1 & H). apply tx_modify_ok in H1. subst s1. unfold revokeAgentKYA in H.
  apply tx_bind_ok in H as (v3 & s1 & H1 & H). apply tx_modify_ok in H1. subst s1. apply tx_ret_ok in H as [-> ->].
  split; [done|]. split; [|done]. constructor; cbn; try done.
  - exists a. split; [done|]. by rewrite lookup_alter_eq, La.
  - intros id Hne. by rewrite lookup_alter_ne.
  - intros key Hk Hl. apply map_lookup_filter_Some in Hl as [_ Hl]. by apply Hl.
  - intros key Hk. rewrite map_lookup_filter. destruct (workspace_api_keys s !! key) as [w|]; cbn; [|done].
    rewrite option_guard_True; [done|]. cbn. tauto.
  - intros t Hl Hw. apply map_lookup_filter_Some in Hl as [_ Hl]. by apply Hl.
  - intros id r Hr Hw Ha. rewrite lookup_fmap in Hr. apply fmap_Some in Hr as (r0 & _ & ->). revert Hw Ha.
    case_bool_decide as E; cbn; [done|]. intros Hw Ha. by destruct E.
  - intros k id Hk Ha. rewrite lookup_fmap in Hk. apply fmap_Some in Hk as (k0 & _ & ->). revert Ha.
    destruct (bool_decide (ky_agent k0 = agent) && bool_decide (ky_revoked k0 = None) && (now c <? ky_expires k0)) eqn:E; cbn; [by left|].
    intros Ha. rewrite (bool_decide_eq_true_2 _ Ha) in E. cbn [andb] in E. apply andb_false_iff in E as [E|E].
    + left. by apply bool_decide_eq_false in E.
    + right. lia.
Qed.

Lemma retired_after c ws agent s0 s s' :
  post_frame s0 s -> retired c ws agent s s' ->
  (exists a, agent_accounts s0 !! agent = Some a /\ agent_accounts s' !! agent = Some (set_archived (now c) a)) /\
  (forall id, id <> agent -> agent_accounts s' !! id = agent_accounts s0 !! id) /\
  agent_account_keys s' = agent_account_keys s0 /\ st_lxc s' = st_lxc s0 /\ retired c ws agent s0 s'.
Proof.
  intros [F1 _ _ _ F5 F6 _ F8 _ _] [R1 R2 R3 R4 R5 R6 R7 R8 R9].
  rewrite F5 in R1. rewrite F6 in R9. rewrite F1 in R8.
  split_and!; try done; [intros id Hne; by rewrite R2, F5|]. constructor; try done.
  - intros id Hne. by rewrite R2, F5.
  - intros key. rewrite <- F6. apply R3.
  - intros key. rewrite <- F6, <- F8. apply R4.
Qed.

Section Archive.
Context (u : N -> string) {Hu : Inj (=) (=) u} (key_ws : string -> string).

(** The agent's balance, swept back to the workspace. *)
Lemma sweep_outcome c ws agent s bal :
  uuid c = u -> wallet_inv u key_ws s -> bal = account_balance s ws (agentAccount agent) ->
  exists s', (if 0 <? bal then
     postEntry c ws "withdraw" ("archive:" +:+ agent) [mkLeg (agentAccount agent) (-! bal); mkLeg "workspace" bal]
   else tx_ret tt) s = Ok (tt, s') /\ post_frame s s' /\ wallet_inv u key_ws s' /\
   account_balance s' ws (agentAccount agent) = 0 /\ unallocated s' ws = unallocated s ws + bal /\
   (forall w acc, (w <> ws \/ acc <> agentAccount agent) -> shared_account acc = false ->
      account_balance s' w acc = account_balance s w acc).
Proof.
  intros Hc W E. pose proof (agent_balance_nonneg u key_ws s ws agent W) as N. destruct (Z.ltb_spec 0 bal) as [Hp|Hp].
  - destruct (pair_moves u key_ws c ws "withdraw" ("archive:" +:+ agent) (agentAccount agent) "workspace" bal s)
      as (s' & P & M & W' & _); [done|done|done|done|right; apply held_agent|by left|lia|by rewrite held_agent|].
    pose proof (moved_lxc _ _ _ _ _ _ M) as EL.
    exists s'. split_and!; [done|apply M|done| | |].
    + rewrite (mo_balance _ _ _ _ _ _ M) by apply kept_agent.
      rewrite bool_decide_eq_true_2, bool_decide_eq_false_2 by done. lia.
    + unfold unallocated. rewrite (mo_allocated _ _ _ _ _ _ M), held_agent. unfold lxc_row. rewrite EL. cbn. lia.
    + intros w acc Hne Ha. destruct (decide (w = ws)) as [->|Hw]; [|by apply (mo_other _ _ _ _ _ _ M)].
      rewrite (mo_balance _ _ _ _ _ _ M) by done. rewrite bool_decide_eq_false_2 by naive_solver.
      rewrite bool_decide_eq_false_2 by (intros <-; discriminate Ha). lia.
  - exists s. split_and!; try done; lia.
Qed.

Lemma retire_keeps c ws agent s s' :
  wallet_inv u key_ws s -> retired c ws agent s s' -> agent_postings s' = agent_postings s ->
  agent_account_balances s' = agent_account_balances s -> uuid_draws s' = uuid_draws s -> wallet_inv u key_ws s'.
Proof.
  intros W R P B D. pose proof (rt_books _ _ _ _ _ R) as EL.
  assert (K : forall key, agent_of_key s' key = agent_of_key s key).
  { intros key. unfold agent_of_key. rewrite (rt_keys _ _ _ _ _ R). destruct (agent_account_keys s !! key) as [g|]; [|done].
    destruct (decide (g = agent)) as [->|Hne]; [|by rewrite (rt_others _ _ _ _ _ R)].
    destruct (rt_archived _ _ _ _ _ R) as (a & -> & ->). done. }
  destruct W as [W1 W2 W3 W4 W5 W6 W7 W8]. split.
  - by eapply lxc_inv_same.
  - eapply posting_inv_same; [exact P|exact B|lia|exact W2].
  - intros w acc. unfold account_balance. rewrite B. apply W3.
  - intros w. unfold allocated, lxc_row. rewrite B, EL. apply W4.
  - intros w. unfold held_sum, lxc_row. rewrite EL. apply W5.
  - intros w. unfold lxc_row. rewrite EL. apply W6.
  - rewrite EL. apply W7.
  - intros key g w. rewrite K. apply W8.
Qed.

Lemma archive_outcome c ws agent a s :
  uuid c = u -> wallet_inv u key_ws s -> agent_accounts s !! agent = Some a -> ag_ws a = ws ->
  match ArchiveAgent c ws agent s with
  | Ok (swept, s') => ag_archived a = None /\ pots_total s ws agent = 0 /\
      swept = account_balance s ws (agentAccount agent) /\ account_balance s' ws (agentAccount agent) = 0 /\
      unallocated s' ws = unallocated s ws + swept /\ retired c ws agent s s' /\ wallet_inv u key_ws s'
  | Err e => (e = ErrAgentArchived /\ ag_archived a <> None) \/ (e = ErrAgentPotsHeld /\ pots_total s ws agent <> 0) \/
      (e = ErrBigintRange /\ ~ in_i64 (pots_total s ws agent))
  end.
Proof.
  intros Hc W La Hw. unfold ArchiveAgent. set (m := tx_bind _ _).
  pose proof (agent_balance_nonneg u key_ws s ws agent W) as N.
  destruct (sweep_outcome c ws agent s _ Hc W eq_refl) as (s1 & P & F & W1 & B0 & Un & O).
  assert (L : lockAgent ws agent s = Ok (tt, s)) by (apply lockAgent_ok; eauto).
  destruct (ag_archived a) as [t|] eqn:Hx.
  { assert (E : m s = Err ErrAgentArchived); [|unfold committed; rewrite E; auto].
    unfold m, requireNotArchived. by rewrite (run_bind _ _ _ _ _ L), run_assoc, run_gets, La, run_guard, Hx. }
  destruct (in_i64b (pots_total s ws agent)) eqn:I.
  2: { assert (E : m s = Err ErrBigintRange).
    { unfold m, requireNotArchived. rewrite (run_bind _ _ _ _ _ L), run_assoc, run_gets, La, run_guard, Hx, run_gets.
      cbn [is_some negb]. unfold bigint, sql_bigint. by rewrite I. }
    unfold committed. rewrite E. right. right. split; [done|]. rewrite <- in_i64b_spec. congruence. }
  apply in_i64b_spec in I. destruct (Z.eq_dec (pots_total s ws agent) 0) as [Hz|Hz].
  2: { assert (E : m s = Err ErrAgentPotsHeld); [|unfold committed; rewrite E; auto].
    unfold m, requireNotArchived. rewrite (run_bind _ _ _ _ _ L), run_assoc, run_gets, La, run_guard, Hx, run_gets.
    cbn [is_some negb]. rewrite (run_bind (bigint _) _ s (pots_total s ws agent) s) by (apply bigint_ok; auto).
    by rewrite run_guard, (proj2 (Z.eqb_neq _ _) Hz). }
  assert (E : m s = (tx_modify (stop_agent ws agent) ;;;
     tx_modify (fun s : Store => with_agent_accounts (alter (set_archived (now c)) agent (agent_accounts s)) s) ;;;
     revokeAgentKYA c agent "archived" ;;;
     tx_ret (if 0 <? account_balance s ws (agentAccount agent) then account_balance s ws (agentAccount agent) else 0) : WTx Z) s1).
  { unfold m, requireNotArchived, accountBalance.
    rewrite (run_bind _ _ _ _ _ L), run_assoc, run_gets, La, run_guard, Hx. cbn [is_some negb]. rewrite run_gets.
    rewrite (run_bind (bigint _) _ s (pots_total s ws agent) s) by (apply bigint_ok; auto).
    rewrite run_guard, Hz, run_gets. cbn [Z.eqb]. by rewrite (run_bind _ _ _ _ _ P). }
  destruct (m s) as [[swept s']|e] eqn:M; [|unfold tx_bind, tx_modify, revokeAgentKYA, tx_ret in E; done].
  symmetry in E. assert (La1 : agent_accounts s1 !! agent = Some a) by by rewrite (pf_accounts _ _ F).
  apply (retire_steps c ws agent _ s1 swept s' a La1) in E as (-> & R & RP & RB & RD).
  pose proof (retire_keeps c ws agent s1 s' W1 R RP RB RD) as W'.
  rewrite (committed_balanced u _ _ _ _ M) by apply W'.
  destruct (retired_after c ws agent s s1 s' F R) as (_ & _ & _ & EL & R').
  split_and!; try done; [destruct (Z.ltb_spec 0 (account_balance s ws (agentAccount agent))); lia| | ].
  - unfold account_balance. rewrite RB. exact B0.
  - transitivity (unallocated s1 ws); [unfold unallocated, allocated, lxc_row; by rewrite RB, (rt_books _ _ _ _ _ R)|].
    rewrite Un. destruct (Z.ltb_spec 0 (account_balance s ws (agentAccount agent))); lia.
Qed.
End Archive.

(** ** A wallet to try them on *)

Definition demo_agent : AgentAccount := mkAgent "ws" "Buyer" "u1" "agent" "" 0 None "" None.

(** 5,000 LXC in "ws", and an agent of it with a key. *)
Definition demo_wallet : Store :=
  with_agent_pots {["p1" := mkPot "ws" "agt_1" "Rent" "reserve" 0 (Some 100)]}
    (with_agent_account_keys {["k1" := "agt_1"]} (with_agent_accounts {["agt_1" := demo_agent]} demo_store)).

Definition demo_keys : string -> string := fun _ => "ws".

Definition keyed_ctx (key : string) : Ctx := mkCtx 50 (fun n => pretty n) "" key "" zero_request.

Lemma demo_wallet_inv : wallet_inv (pretty (A:=N)) demo_keys demo_wallet.
Proof.
  constructor.
  - apply (lxc_inv_same demo_store); [done|apply demo_inv].
  - apply (posting_inv_same (pretty (A:=N)) empty_store); [done|done|done|apply posting_inv_empty].
  - done.
  - intros ws. change (allocated demo_wallet ws) with 0. change (lxc_row demo_wallet ws) with (lxc_row demo_store ws).
    unfold demo_store. rewrite lxc_row_set. by case_decide.
  - intros ws. change (held_sum demo_wallet ws) with 0. change (lxc_row demo_wallet ws) with (lxc_row demo_store ws).
    unfold demo_store. rewrite lxc_row_set. by case_decide.
  - intros ws. change (lxc_row demo_wallet ws) with (lxc_row demo_store ws). unfold demo_store. rewrite lxc_row_set. by case_decide.
  - done.
  - intros key agent ws. unfold agent_of_key, demo_wallet, demo_keys. cbn.
    destruct (decide (key = "k1")%string) as [->|Hne]; [|by rewrite lookup_singleton_ne].
    rewrite lookup_singleton_eq. cbn. by intros [= _ <-].
Qed.

(** ** What the moves promise *)

(** Funding an agent either moves exactly the amount out of what the workspace
    has not allocated, leaving every other account and every LXC balance as it was
    and the wallet sound, or is refused: for want of an owner, on an archived agent,
    or for more than the workspace has unallocated; and it is refused only then. *)
Theorem fund_moves_unallocated (u : N -> string) (key_ws : string -> string) c ws agent a amount s :
  Inj (=) (=) u -> uuid c = u -> wallet_inv u key_ws s -> 0 < amount ->
  agent_accounts s !! agent = Some a -> ag_ws a = ws -> replayed c s ws (agentAccount agent) "fund" = false ->
  match FundAgent c ws agent amount s with
  | Ok (bal, s') => ag_owner a <> ""%string /\ ag_archived a = None /\ amount <= unallocated s ws /\
      transfer ws "workspace" (agentAccount agent) amount s s' /\
      bal = account_balance s' ws (agentAccount agent) /\ wallet_inv u key_ws s'
  | Err e => (e = ErrAgentOwnerless /\ ag_owner a = ""%string) \/ (e = ErrAgentArchived /\ ag_archived a <> None) \/
      (e = ErrAgentFunds /\ unallocated s ws < amount)
  end.
Proof. intros. by eapply fund_outcome. Qed.

Lemma fund_moves_unallocated_witness :
  exists s', FundAgent (keyed_ctx "f1") "ws" "agt_1" 2000 demo_wallet = Ok (2000, s') /\
    unallocated s' "ws" = 3000 /\ wallet_inv (pretty (A:=N)) demo_keys s'.
Proof.
  pose proof (fund_moves_unallocated pretty demo_keys (keyed_ctx "f1") "ws" "agt_1" demo_agent 2000 demo_wallet
    _ eq_refl demo_wallet_inv ltac:(lia) eq_refl eq_refl eq_refl) as H.
  assert (E : exists s', FundAgent (keyed_ctx "f1") "ws" "agt_1" 2000 demo_wallet = Ok (2000, s'))
    by (eexists; vm_compute; reflexivity).
  destruct E as [s' E]. rewrite E in H. destruct H as (_ & _ & _ & T & _ & W). exists s'.
  split; [exact E|]. split; [rewrite (tr_unallocated _ _ _ _ _ _ T); vm_compute; reflexivity|exact W].
Defined.

(** withdrawing returns exactly the amount from the agent to what the workspace
    has unallocated; it is refused exactly when the agent's balance does not cover it. *)
Theorem withdraw_returns_balance (u : N -> string) (key_ws : string -> string) c ws agent a amount s :
  Inj (=) (=) u -> uuid c = u -> wallet_inv u key_ws s -> 0 < amount ->
  agent_accounts s !! agent = Some a -> ag_ws a = ws -> replayed c s ws (agentAccount agent) "withdraw" = false ->
  match WithdrawAgent c ws agent amount s with
  | Ok (bal, s') => amount <= account_balance s ws (agentAccount agent) /\
      transfer ws (agentAccount agent) "workspace" amount s s' /\
      bal = account_balance s' ws (agentAccount agent) /\ wallet_inv u key_ws s'
  | Err e => e = ErrAgentFunds /\ account_balance s ws (agentAccount agent) < amount
  end.
Proof. intros. by eapply withdraw_outcome. Qed.

(** The demo wallet, its agent funded. *)
Definition demo_funded : Store := (run_tx (FundAgent (keyed_ctx "f1") "ws" "agt_1" 2000) demo_wallet).2.

Lemma demo_funded_inv : wallet_inv (pretty (A:=N)) demo_keys demo_funded.
Proof.
  pose proof (fund_outcome pretty demo_keys (keyed_ctx "f1") "ws" "agt_1" demo_agent 2000 demo_wallet
    eq_refl demo_wallet_inv ltac:(lia) eq_refl eq_refl eq_refl) as H.
  unfold demo_funded, run_tx. destruct (FundAgent _ _ _ _ _) as [[b s']|e]; [apply H|apply demo_wallet_inv].
Qed.

Lemma withdraw_returns_balance_witness :
  WithdrawAgent (keyed_ctx "w1") "ws" "agt_1" 2001 demo_funded = Err ErrAgentFunds /\
  exists s', WithdrawAgent (keyed_ctx "w1") "ws" "agt_1" 500 demo_funded = Ok (1500, s') /\
    unallocated s' "ws" = 3500.
Proof.
  split; [vm_compute; reflexivity|].
  pose proof (withdraw_returns_balance pretty demo_keys (keyed_ctx "w1") "ws" "agt_1" demo_agent 500 demo_funded
    _ eq_refl demo_funded_inv ltac:(lia) eq_refl eq_refl eq_refl) as H.
  assert (E : exists s', WithdrawAgent (keyed_ctx "w1") "ws" "agt_1" 500 demo_funded = Ok (1500, s'))
    by (eexists; vm_compute; reflexivity).
  destruct E as [s' E]. rewrite E in H. destruct H as (_ & T & _). exists s'.
  split; [exact E|]. rewrite (tr_unallocated _ _ _ _ _ _ T). vm_compute. reflexivity.
Defined.

(** a pot only parks what its agent has: the move in or out is between the agent
    and its pot and touches nothing else, is refused for more than the source holds,
    and out of a locked pot it is refused whatever it holds, until the lock is over. *)
Theorem pots_hold_what_they_lock (u : N -> string) (key_ws : string -> string) c ws agent a pot p amount (into : bool) s :
  Inj (=) (=) u -> uuid c = u -> wallet_inv u key_ws s -> 0 < amount ->
  agent_accounts s !! agent = Some a -> ag_ws a = ws -> own_pot s ws agent pot = Some p ->
  pot_replayed c s ws pot into = false ->
  let from := if into then agentAccount agent else potAccount pot in
  let to := if into then potAccount pot else agentAccount agent in
  match (if into then MoveToPot else MoveFromPot) c ws agent pot amount s with
  | Ok (_, s') => amount <= account_balance s ws from /\ (into = false -> pot_locked p (now c) = false) /\
      transfer ws from to amount s s' /\ unallocated s' ws = unallocated s ws /\ wallet_inv u key_ws s'
  | Err e => (e = ErrPotLocked /\ into = false /\ pot_locked p (now c) = true) \/
      (e = ErrAgentFunds /\ account_balance s ws from < amount)
  end.
Proof. intros. by eapply pot_outcome. Qed.

Definition demo_potted : Store := (run_tx (MoveToPot (keyed_ctx "p1") "ws" "agt_1" "p1" 300) demo_funded).2.

Lemma demo_potted_inv : wallet_inv (pretty (A:=N)) demo_keys demo_potted.
Proof.
  pose proof (pot_outcome pretty demo_keys (keyed_ctx "p1") "ws" "agt_1" demo_agent "p1"
    (mkPot "ws" "agt_1" "Rent" "reserve" 0 (Some 100)) 300 true demo_funded
    eq_refl demo_funded_inv ltac:(lia) eq_refl eq_refl ltac:(vm_compute; reflexivity) eq_refl) as H.
  cbn zeta iota in H. unfold demo_potted, run_tx. destruct (MoveToPot _ _ _ _ _ _) as [[b s']|e]; [apply H|apply demo_funded_inv].
Qed.

Lemma pots_hold_what_they_lock_witness :
  account_balance demo_potted "ws" (potAccount "p1") = 300 /\
  MoveFromPot (keyed_ctx "p2") "ws" "agt_1" "p1" 100 demo_potted = Err ErrPotLocked.
Proof.
  split; [vm_compute; reflexivity|].
  pose proof (pots_hold_what_they_lock pretty demo_keys (keyed_ctx "p2") "ws" "agt_1" demo_agent "p1"
    (mkPot "ws" "agt_1" "Rent" "reserve" 0 (Some 100)) 100 false demo_potted _
    eq_refl demo_potted_inv ltac:(lia) ltac:(vm_compute; reflexivity) eq_refl ltac:(vm_compute; reflexivity)
    ltac:(vm_compute; reflexivity)) as H.
  cbn zeta iota in H. destruct (MoveFromPot _ _ _ _ _ _) as [[b s']|e].
  - destruct H as (_ & L & _). specialize (L eq_refl). discriminate L.
  - destruct H as [(-> & _)|(-> & H)]; [reflexivity|]. exfalso. revert H. vm_compute. discriminate.
Defined.

(** a move made under an Idempotency-Key is made once: whatever is posted after
    it, asking again under the same key, for any amount, changes nothing and answers
    the balance as it is. *)
Theorem moves_land_once c ws agent a kind amount b s s1 c2 s2 amount2 :
  moveAgentFunds c ws agent amount kind s = Ok (b, s1) -> move_key c <> ""%string ->
  move_key c2 = move_key c -> extends s1 s2 -> 0 < amount2 ->
  agent_accounts s2 !! agent = Some a -> ag_ws a = ws ->
  committed (moveAgentFunds c2 ws agent amount2 kind) s2 = Ok (account_balance s2 ws (agentAccount agent), s2).
Proof.
  intros H Hk Hk2 L Ha La Hw. apply funds_landed in H; [|done]. apply (landed_mono _ s2) in H; [|done].
  apply committed_read. eapply funds_replay; try done. unfold replayed. rewrite Hk2, H.
  by rewrite bool_decide_eq_false_2.
Qed.

Lemma moves_land_once_witness :
  FundAgent (keyed_ctx "f1") "ws" "agt_1" 900 demo_funded = Ok (2000, demo_funded).
Proof.
  assert (E : exists s1, moveAgentFunds (keyed_ctx "f1") "ws" "agt_1" 2000 Fund demo_wallet = Ok (2000, s1) /\
    agent_postings s1 = agent_postings demo_funded) by (eexists; split; vm_compute; reflexivity).
  destruct E as (s1 & E & P).
  apply (moves_land_once (keyed_ctx "f1") "ws" "agt_1" demo_agent Fund 2000 2000 demo_wallet s1 (keyed_ctx "f1") demo_funded 900 E);
    [discriminate|reflexivity|by exists []|lia|vm_compute; reflexivity|reflexivity].
Defined.

(** Archiving sweeps the agent's whole balance back to the workspace, leaving it
    nothing, ends its keys, its top-up and its schedules and revokes its credentials,
    keeps the wallet sound, and is refused only on an archived agent, or while
    its pots hold anything. *)
Theorem archive_retires_agent (u : N -> string) (key_ws : string -> string) c ws agent a s :
  Inj (=) (=) u -> uuid c = u -> wallet_inv u key_ws s -> agent_accounts s !! agent = Some a -> ag_ws a = ws ->
  match ArchiveAgent c ws agent s with
  | Ok (swept, s') => ag_archived a = None /\ pots_total s ws agent = 0 /\
      swept = account_balance s ws (agentAccount agent) /\ account_balance s' ws (agentAccount agent) = 0 /\
      unallocated s' ws = unallocated s ws + swept /\ retired c ws agent s s' /\ wallet_inv u key_ws s'
  | Err e => (e = ErrAgentArchived /\ ag_archived a <> None) \/ (e = ErrAgentPotsHeld /\ pots_total s ws agent <> 0) \/
      (e = ErrBigintRange /\ ~ in_i64 (pots_total s ws agent))
  end.
Proof. intros. by eapply archive_outcome. Qed.

Lemma archive_retires_agent_witness :
  ArchiveAgent demo_ctx "ws" "agt_1" demo_potted = Err ErrAgentPotsHeld /\
  exists s', ArchiveAgent demo_ctx "ws" "agt_1" demo_funded = Ok (2000, s') /\ unallocated s' "ws" = 5000 /\
    wallet_inv (pretty (A:=N)) demo_keys s'.
Proof.
  split; [vm_compute; reflexivity|].
  pose proof (archive_retires_agent pretty demo_keys demo_ctx "ws" "agt_1" demo_agent demo_funded
    _ eq_refl demo_funded_inv ltac:(vm_compute; reflexivity) eq_refl) as H.
  assert (E : exists s', ArchiveAgent demo_ctx "ws" "agt_1" demo_funded = Ok (2000, s'))
    by (eexists; vm_compute; reflexivity).
  destruct E as [s' E]. rewrite E in H. destruct H as (_ & _ & _ & _ & U & _ & W). exists s'.
  split; [exact E|]. split; [rewrite U; vm_compute; reflexivity|exact W].
Defined.

(** ** The credit line *)

Lemma used_after_draw ws agent need ref s s' :
  draw_effect ws agent need ref s s' -> credit_line_used s' ws = credit_line_used s ws + need.
Proof.
  intros D. unfold credit_line_used. rewrite (de_draws _ _ _ _ _ _ D). destruct (de_lines _ _ _ _ _ _ D) as [_ Ei].
  assert (U : forall d, draw_unpaid s' d = draw_unpaid s d) by (intros d; unfold draw_unpaid; by rewrite Ei).
  unfold sum_where. csimpl. rewrite bool_decide_eq_true_2 by done. cbn [andb draw_unpaid dr_invoice].
  rewrite Z.add_comm. f_equal. f_equal. apply list_fmap_ext. intros i d _. by rewrite U.
Qed.

Lemma may_lend_dec c ws need s : in_i64 (credit_line_used s ws) -> {may_lend c ws need s} + {~ may_lend c ws need s}.
Proof.
  intros Hi. destruct (company_credit_lines s !! ws) as [l|] eqn:L;
    [|right; intros [(l & L' & _) _ _ _]; congruence].
  destruct (li_paused l) eqn:P; [right; intros [(l' & L' & P' & _) _ _ _]; congruence|].
  destruct (Z_le_gt_dec (credit_line_used s ws +! need) (li_limit l));
    [|right; intros [(l' & L' & _ & U) _ _ _]; rewrite L in L'; injection L' as <-; lia].
  destruct (is_company s ws) eqn:C; [|right; intros [_ C' _ _]; congruence].
  destruct (credit_line_late s (now c) ws) eqn:T; [right; intros [_ _ T' _]; congruence|].
  left. constructor; [by exists l|done..].
Qed.

Lemma draw_refused c ws agent need ref s :
  in_i64 (credit_line_used s ws) -> ~ may_lend c ws need s -> drawCreditLine c ws agent need ref s = Ok (false, s).
Proof.
  intros Hi Hn. unfold drawCreditLine. rewrite run_gets. destruct (company_credit_lines s !! ws) as [l|] eqn:L; [|done].
  rewrite run_gets. destruct (is_some (li_paused l)) eqn:P; [done|].
  destruct (is_company s ws) eqn:C; cbn [orb negb]; [|done]. rewrite !run_gets.
  rewrite (run_bind _ _ _ (credit_line_used s ws) s) by (apply bigint_ok; auto).
  destruct (credit_line_late s (now c) ws) eqn:T; [done|].
  destruct (Z.ltb_spec (li_limit l) (credit_line_used s ws +! need)); [done|]. exfalso. apply Hn.
  constructor; [exists l; split_and!; [done|by destruct (li_paused l)|lia]|done..].
Qed.

Lemma draw_lends (u : N -> string) {Hu : Inj (=) (=) u} c ws agent need ref s :
  uuid c = u -> posting_inv u s -> 0 < need -> in_i64 need -> in_i64 (account_balance s ws (agentAccount agent) + need) ->
  may_lend c ws need s -> exists s', drawCreditLine c ws agent need ref s = Ok (true, s').
Proof.
  intros Hc P Hn Hi Hb [(l & L & Lp & U) C T R]. unfold drawCreditLine. rewrite run_gets, L, run_gets, Lp, C.
  cbn [is_some orb negb]. rewrite !run_gets, (run_bind _ _ _ (credit_line_used s ws) s) by (apply bigint_ok; auto).
  rewrite T. rewrite (proj2 (Z.ltb_ge _ _) U). cbn [orb].
  rewrite (run_bind _ _ _ _ _ (proj2 (readLXCBalance_ok ws s _ _) (conj eq_refl eq_refl))).
  rewrite (run_bind _ _ _ tt _ (proj2 (insertLXCLedger_ok _ _ _ _ _ _ _ _ _) eq_refl)).
  autorewrite with lxc.
  rewrite (run_bind _ _ _ tt _ (proj2 (writeLXCBalance_ok _ _ _ _ _ _ _ _) eq_refl)).
  erewrite run_bind by reflexivity. erewrite run_bind by reflexivity.
  match goal with |- context [tx_bind _ _ ?t] =>
    destruct (post_pair u c ws "credit_line" ref "workspace" (agentAccount agent) need t) as (s' & E & _)
  end; [done| |done|done|done|done|intros _; exact Hb|].
  - eapply posting_inv_same; [| | |exact P]; [reflexivity..|cbn; lia].
  - exists s'. by rewrite (run_bind _ _ _ _ _ E).
Qed.

(** C40: A company's credit line lends the shortfall exactly when it may - a line not
    paused by its operator, of a workspace still a company, with no invoice late, and
    within its limit - and then lends exactly that to the agent: the workspace's LXC and
    the agent's balance rise by it, what the line has lent stays within the limit, and
    neither the unallocated LXC nor the cash-backed part moves; otherwise nothing
    changes. *)
Theorem credit_line_lends_within_limit (u : N -> string) c ws agent need ref s :
  Inj (=) (=) u -> uuid c = u -> posting_inv u s -> lxc_inv s -> 0 < need ->
  in_i64 (credit_line_used s ws + need) -> in_i64 (credit_line_used s ws) ->
  in_i64 (account_balance s ws (agentAccount agent) + need) -> in_i64 (lx_balance (lxc_row s ws) + need) -> in_i64 need ->
  exists b s', drawCreditLine c ws agent need ref s = Ok (b, s') /\ (b = true <-> may_lend c ws need s) /\
  if b then
    draw_effect ws agent need ref s s' /\ unallocated s' ws = unallocated s ws /\
    lx_cash (lxc_row s' ws) = lx_cash (lxc_row s ws) /\
    exists l, company_credit_lines s' !! ws = Some l /\ credit_line_used s' ws = credit_line_used s ws + need /\
      credit_line_used s' ws <= li_limit l
  else s' = s.
Proof.
  intros Hu Hc P I Hn Hi Hi0 Hb Hb0 Hn64. destruct (may_lend_dec c ws need s Hi0) as [M|M].
  - destruct (draw_lends u c ws agent need ref s Hc P Hn Hn64 Hb M) as [s' E]. exists true, s'.
    split; [exact E|]. split; [done|]. apply drawCreditLine_effect in E as [[? _]|(_ & _ & D)]; [done|].
    destruct (de_lines _ _ _ _ _ _ D) as [El _]. destruct M as [(l & L & _ & U) _ _ _].
    split_and!; [done| | |exists l; split; [by rewrite El|]].
    + unfold unallocated. rewrite (de_allocated _ _ _ _ _ _ D), (de_row _ _ _ _ _ _ D). cbn [lx_balance lent_row].
      rewrite wrap64_id by done. lia.
    + by rewrite (de_row _ _ _ _ _ _ D).
    + rewrite wrap64_id in U by done. split; rewrite (used_after_draw _ _ _ _ _ _ D); [done|exact U].
  - exists false, s. split; [by apply draw_refused|]. done.
Qed.

(** The demo wallet's workspace, a company with a line of 400 of which 150 are lent. *)
Definition demo_company : Store :=
  with_credit_line_draws [mkDraw "ws" "agt_1" 150 "d1" None]
    (with_company_credit_lines {["ws" := mkCreditLine 400 None "" "op"]}
      (with_workspaces {["ws" := mkWorkspace "Acme" true false]} demo_wallet)).

Lemma credit_line_lends_within_limit_witness :
  (exists s', drawCreditLine demo_ctx "ws" "agt_1" 250 "d2" demo_company = Ok (true, s') /\ credit_line_used s' "ws" = 400) /\
  drawCreditLine demo_ctx "ws" "agt_1" 251 "d2" demo_company = Ok (false, demo_company).
Proof.
  assert (P : posting_inv (pretty (A:=N)) demo_company)
    by (apply (posting_inv_same (pretty (A:=N)) empty_store); [done|done|done|apply posting_inv_empty]).
  assert (I : lxc_inv demo_company) by (apply (lxc_inv_same demo_store); [done|apply demo_inv]).
  assert (U : credit_line_used demo_company "ws" = 150) by (vm_compute; reflexivity).
  assert (B : account_balance demo_company "ws" (agentAccount "agt_1") = 0) by (vm_compute; reflexivity).
  assert (L : lx_balance (lxc_row demo_company "ws") = 5000) by (vm_compute; reflexivity).
  split.
  - destruct (credit_line_lends_within_limit pretty demo_ctx "ws" "agt_1" 250 "d2" demo_company _ eq_refl P I)
      as (b & s' & E & _ & H); rewrite ?U, ?B, ?L; try (i64_ranges; lia).
    assert (Eb : b = true).
    { assert (X : match drawCreditLine demo_ctx "ws" "agt_1" 250 "d2" demo_company with Ok (x, _) => x | Err _ => false end = true)
        by (vm_compute; reflexivity). by rewrite E in X. }
    subst b. exists s'. split; [exact E|]. destruct H as (_ & _ & _ & l & _ & H & _). by rewrite H, U.
  - vm_compute. reflexivity.
Defined.
