(* ===== verification/Wallet.v ===== *)
(** The wallet as a state machine: every modelled operation of the economy store
    as one step over the database, and the invariant every sequence of them keeps:
    the books balance, every posting is balanced, no agent or pot is overdrawn, and
    what a workspace's agents hold is always covered by its LXC. *)
From stdpp Require Import pretty.
From S2P Require Import Prelude Money Tables Postings Clock Lxc Rules CreditLine Agents Reservation Funding.
Open Scope Z_scope.
Open Scope i64_scope.

Implicit Types (s : Store).

(** ** The operations *)

(** The movements of [Transfers], [Escrow], [Payments], [Topups] and [DebitSettle] act on the
    same store and keep the invariant in theorems there. *)
Inductive Op : Type :=
(* LXC *)
| OpCredit (ws : string) (amount : Z) (reason : string) (meta : Meta)
| OpGrant (ws : string) (amount : Z) (reason : string) (meta : Meta)
| OpGrantUpTo (ids : list string) (target : Z) (reason : string) (meta : Meta)
| OpSpend (ws : string) (amount : Z) (desc : string) (meta : Meta)
(* agents *)
| OpFund (ws agent : string) (amount : Z)
| OpWithdraw (ws agent : string) (amount : Z)
| OpPotIn (ws agent pot : string) (amount : Z)
| OpPotOut (ws agent pot : string) (amount : Z)
| OpCreatePot (ws agent name kind : string) (target : Z) (until : option Z)
| OpLockPot (ws agent pot : string) (until : option Z)
| OpClaim (ws agent user : string)
| OpCreateRoom (ws name owner key : string)
| OpAttachKey (ws agent key : string)
| OpUpdateAgent (ws agent : string) (name description : option string)
| OpArchive (ws agent : string)
(* rules *)
| OpPause (ws agent reason : string)
| OpResume (ws agent : string)
| OpPauseAll (ws reason : string)
| OpResumeAll (ws : string)
| OpDecide (ws id : string) (approve : bool)
| OpEndBoost (ws agent rule : string)
(* the credit line *)
| OpSetCompany (ws : string) (company : bool)
| OpSetLine (ws : string) (limit : Z) (by_ : string)
| OpPauseLine (ws why : string)
| OpResumeLine (ws : string)
(* spending with an agent's key *)
| OpSetCeiling (key ws : string) (ceiling : Z)
| OpDebit (key ws req : string) (amount : Z) (desc : string) (meta : AgentDebitMeta)
| OpReserve (key ws id : string) (estimate : Z) (meta : AgentDebitMeta)
| OpSettle (id : string) (final : Z) (meta : AgentDebitMeta)
| OpRelease (id reason : string)
| OpSweep (olderThan : Z).

Section Machine.
Variable LoadLocation : string -> option Location.

(** The database after the operation: committed, or as its rollback left it. *)
Definition exec (c : Ctx) (svc : Service) (op : Op) s : Store :=
  let after {A} (m : WTx A) : Store := (run_tx m s).2 in
  match op with
  | OpCredit ws a r m => after (CreditLXC ws a r m)
  | OpGrant ws a r m => after (GrantLXC ws a r m)
  | OpGrantUpTo ids t r m => after (GrantLXCUpTo ids t r m)
  | OpSpend ws a d m => after (SpendLXCMeta c svc ws a d m)
  | OpFund ws g a => after (FundAgent c ws g a)
  | OpWithdraw ws g a => after (WithdrawAgent c ws g a)
  | OpPotIn ws g p a => after (MoveToPot c ws g p a)
  | OpPotOut ws g p a => after (MoveFromPot c ws g p a)
  | OpCreatePot ws g n k t u => after (CreatePot c ws g n k t u)
  | OpLockPot ws g p u => after (LockPot c ws g p u)
  | OpClaim ws g o => after (ClaimAgent ws g o)
  | OpCreateRoom ws n o k => after (CreateRoomAgentTx c ws n o k)
  | OpAttachKey ws g k => after (AttachAgentKey ws g k)
  | OpUpdateAgent ws g n d => after (UpdateAgent ws g n d)
  | OpArchive ws g => after (ArchiveAgent c ws g)
  | OpPause ws g r => after (PauseAgent c ws g r)
  | OpResume ws g => after (ResumeAgent ws g)
  | OpPauseAll ws r => after (PauseAllAgents c ws r)
  | OpResumeAll ws => after (ResumeAllAgents ws)
  | OpDecide ws i b => after (DecideAgentApproval ws i b)
  | OpEndBoost ws g r => after (EndAgentBoost c ws g r)
  | OpSetCompany ws b => after (SetCompany ws b)
  | OpSetLine ws l b => after (SetCreditLine c ws l b)
  | OpPauseLine ws w => after (PauseCreditLine c ws w)
  | OpResumeLine ws => after (ResumeCreditLine ws)
  | OpSetCeiling k ws z => after (SetAgentCeiling k ws z)
  | OpDebit k ws r a d m => (SpendLXCForAgent LoadLocation c svc k ws r a d m s).2
  | OpReserve k ws i e m => (ReserveLXCForAgent LoadLocation c svc k ws i e m s).2
  | OpSettle i f m => after (SettleLXCReservation LoadLocation c i f m)
  | OpRelease i r => after (ReleaseLXCReservation LoadLocation c i r)
  | OpSweep o => (ReleaseStrandedReservations LoadLocation c o s).2
  end.

(** One operation after another, each in its own context. *)
Fixpoint exec_all (svc : Service) (ops : list (Ctx * Op)) s : Store :=
  match ops with
  | [] => s
  | (c, op) :: ops => exec_all svc ops (exec c svc op s)
  end.
End Machine.

(** ** What the caller must not ask *)

(** Credits stay within a workspace's room, and so does what a credit line could
    lend towards a hold; amounts stay within what a price can be; a key is used in
    the workspace it was made in; and the keys in the table are of agents in theirs,
    as their foreign key has it. *)
Definition op_ok (key_ws : string -> string) (op : Op) s : Prop :=
  match op with
  | OpCredit ws a _ _ | OpGrant ws a _ _ => lx_balance (lxc_row s ws) + held_sum s ws + a <= room
  | OpGrantUpTo ids t _ _ => in_i64 t /\ forall ws, ws ∈ ids -> t + held_sum s ws <= room
  | OpSpend _ a _ _ => a < 2305843009213693952
  | OpFund _ _ a | OpWithdraw _ _ a | OpPotIn _ _ _ a | OpPotOut _ _ _ a => in_i64 a
  | OpCreateRoom ws _ _ k => key_ws k = ws /\
      forall k' g, agent_account_keys s !! k' = Some g -> is_Some (agent_accounts s !! g)
  | OpAttachKey ws _ k => key_ws k = ws
  | OpDebit k ws _ a _ _ => key_ws k = ws /\ a < 1152921504606846976
  | OpReserve k ws _ e _ => key_ws k = ws /\ e < 1152921504606846976 /\
      lx_balance (lxc_row s ws) + held_sum s ws + 2 * e <= room
  | _ => True
  end.

(** The operations all run, one supply of ids between them. *)
Fixpoint ops_ok (LL : string -> option Location) (u : N -> string) (key_ws : string -> string) (svc : Service)
    (ops : list (Ctx * Op)) s : Prop :=
  match ops with
  | [] => True
  | (c, op) :: ops => uuid c = u /\ op_ok key_ws op s /\ ops_ok LL u key_ws svc ops (exec LL c svc op s)
  end.

Lemma wallet_inv_empty u key_ws : wallet_inv u key_ws empty_store.
Proof.
  constructor; [apply lxc_inv_empty|apply posting_inv_empty|..]; intros; try done.
Qed.

(** ** What keeps the invariant *)

(** An operation that writes none of the books, and moves no agent or key. *)
Record books_frame s s' : Prop := {
  bf_lxc : st_lxc s' = st_lxc s \/ same_books s s' /\ lxc_reservations s' = lxc_reservations s;
  bf_postings : agent_postings s' = agent_postings s;
  bf_balances : agent_account_balances s' = agent_account_balances s;
  bf_draws : (uuid_draws s <= uuid_draws s')%N;
}.

(** An operation that writes no book at all, and moves no agent or key. *)
Record quiet s s' : Prop := {
  qt_lxc : st_lxc s' = st_lxc s;
  qt_postings : agent_postings s' = agent_postings s;
  qt_balances : agent_account_balances s' = agent_account_balances s;
  qt_draws : (uuid_draws s <= uuid_draws s')%N;
  qt_keys : agent_account_keys s' = agent_account_keys s;
  qt_accounts id : ag_ws <$> agent_accounts s' !! id = ag_ws <$> agent_accounts s !! id;
}.

#[export] Instance quiet_refl : Reflexive quiet.
Proof. by constructor. Qed.

#[export] Instance quiet_trans : Transitive quiet.
Proof. intros a b c [] []. constructor; try congruence. lia. Qed.

Lemma quiet_key s s' key : quiet s s' -> agent_of_key s' key = agent_of_key s key.
Proof.
  intros [_ _ _ _ K A]. unfold agent_of_key. rewrite K. destruct (agent_account_keys s !! key) as [a|]; [|done].
  specialize (A a). destruct (agent_accounts s' !! a), (agent_accounts s !! a); cbn in *; congruence.
Qed.

Lemma update_agent_quiet ws agent f s v s' :
  (forall a, ag_ws (f a) = ag_ws a) -> update_agent ws agent f s = Ok (v, s') -> quiet s s'.
Proof.
  intros Hf. unfold update_agent. rewrite tx_gets_bind. destruct (agent_accounts s !! agent) as [a|] eqn:L; [|done].
  rewrite tx_guard_bind. intros [_ H]. apply tx_modify_ok in H as ->. constructor; try done.
  intros id. cbn. destruct (decide (id = agent)) as [->|Hne]; [|by rewrite lookup_insert_ne].
  rewrite lookup_insert_eq, L. cbn. by rewrite Hf.
Qed.

Lemma fileApproval_quiet c amount ws agent req s v s' : fileApproval c amount ws agent req s = Ok (v, s') -> quiet s s'.
Proof.
  unfold fileApproval. rewrite tx_gets_bind. intros H.
  apply tx_bind_ok in H as (x & s1 & H1 & H). apply uuid_new_ok in H1 as [_ ->].
  rewrite tx_gets_bind in H. apply tx_bind_ok in H as (y & s2 & H2 & H). rewrite tx_gets_bind in H.
  assert (s' = s2) as -> by (destruct (find_open s2 agent (rq_fingerprint req)); [by apply tx_ret_ok in H as [_ ->]|done]).
  destruct (is_some _).
  - apply tx_ret_ok in H2 as [_ ->]. constructor; try done. cbn. lia.
  - rewrite tx_gets_bind, tx_guard_bind in H2. destruct H2 as [_ H2]. apply tx_modify_ok in H2 as ->.
    constructor; try done. cbn. lia.
Qed.

(** Closes the goal that an operation, opened, wrote nothing of the books. *)
Ltac quiet_op :=
  intros H; wtx_inv;
  repeat (match goal with H : context [match ?x with _ => _ end] |- _ => destruct x end; wtx_inv);
  try done; try (constructor; solve [reflexivity | intros; reflexivity | cbn; lia]).

Lemma revokeAgentKYA_quiet c agent why s v s' : revokeAgentKYA c agent why s = Ok (v, s') -> quiet s s'.
Proof. unfold revokeAgentKYA. quiet_op. Qed.

Lemma CreatePot_quiet c ws agent name kind target until s v s' :
  CreatePot c ws agent name kind target until s = Ok (v, s') -> quiet s s'.
Proof. unfold CreatePot. quiet_op. Qed.

Lemma LockPot_quiet c ws agent pot until s v s' : LockPot c ws agent pot until s = Ok (v, s') -> quiet s s'.
Proof. unfold LockPot. quiet_op. Qed.

Lemma DecideAgentApproval_quiet ws id b s v s' : DecideAgentApproval ws id b s = Ok (v, s') -> quiet s s'.
Proof. unfold DecideAgentApproval. quiet_op. Qed.

Lemma EndAgentBoost_quiet c ws agent rule s v s' : EndAgentBoost c ws agent rule s = Ok (v, s') -> quiet s s'.
Proof. unfold EndAgentBoost, revokeAgentKYA. quiet_op. Qed.

Lemma PauseAllAgents_quiet c ws why s v s' : PauseAllAgents c ws why s = Ok (v, s') -> quiet s s'.
Proof. unfold PauseAllAgents, revokeWorkspaceKYA. quiet_op. Qed.

Lemma ResumeAllAgents_quiet ws s v s' : ResumeAllAgents ws s = Ok (v, s') -> quiet s s'.
Proof. unfold ResumeAllAgents. quiet_op. Qed.

Lemma SetCompany_quiet ws b s v s' : SetCompany ws b s = Ok (v, s') -> quiet s s'.
Proof. unfold SetCompany. quiet_op. Qed.

Lemma SetCreditLine_quiet c ws limit by_ s v s' : SetCreditLine c ws limit by_ s = Ok (v, s') -> quiet s s'.
Proof. unfold SetCreditLine, CreditLine. quiet_op. Qed.

Lemma setLinePause_quiet ws p why s v s' : setLinePause ws p why s = Ok (v, s') -> quiet s s'.
Proof. unfold setLinePause. quiet_op. Qed.

Lemma PauseAgent_quiet c ws agent why s v s' : PauseAgent c ws agent why s = Ok (v, s') -> quiet s s'.
Proof.
  unfold PauseAgent. intros H. apply tx_bind_ok in H as (x & s1 & H1 & H).
  apply update_agent_quiet in H1; [|done]. apply revokeAgentKYA_quiet in H. by etrans.
Qed.

Section Keep.
Context (u : N -> string) {Hu : Inj (=) (=) u} (LL : string -> option Location) (key_ws : string -> string).

Lemma frame_keeps s s' :
  wallet_inv u key_ws s -> books_frame s s' ->
  (forall key agent ws, agent_of_key s' key = Some (agent, ws) -> ws = key_ws key) -> wallet_inv u key_ws s'.
Proof.
  intros W [F P B D] K.
  assert (R : (forall w, lxc_row s' w = lxc_row s w) /\ lxc_reservations s' = lxc_reservations s /\ lxc_inv s').
  { destruct F as [E|[E Er]].
    - split_and!; [intros w; unfold lxc_row; by rewrite E|by rewrite E|]. eapply lxc_inv_same; [exact E|apply W].
    - split_and!; [intros w; by apply same_books_row|exact Er|]. eapply same_books_inv; [exact E|apply W]. }
  destruct R as (R & Er & I). assert (Hs : forall w, held_sum s' w = held_sum s w) by (intros w; unfold held_sum; by rewrite Er).
  split.
  - exact I.
  - eapply posting_inv_same; [exact P|exact B|exact D|apply W].
  - intros ws a Ha. unfold account_balance. rewrite B. by apply W.
  - intros ws. unfold allocated. rewrite B, R. apply W.
  - intros ws. rewrite R, Hs. apply W.
  - intros ws. rewrite R. apply W.
  - rewrite Er. apply W.
  - exact K.
Qed.

Lemma run_keeps {A} (m : WTx A) s :
  wallet_inv u key_ws s -> (forall a s', m s = Ok (a, s') -> wallet_inv u key_ws s') -> wallet_inv u key_ws (run_tx m s).2.
Proof. intros W K. unfold run_tx. destruct (m s) as [[a s']|] eqn:E; [by eapply K|done]. Qed.

(** A write of one workspace's row over its ledger rows. *)
Lemma row_keeps ws rows r d s :
  wallet_inv u key_ws s -> lxc_moved ws rows s (set_row ws r (add_ledgers rows s)) ->
  lx_balance r = lx_balance (lxc_row s ws) + d -> 0 <= lx_cash r ->
  allocated s ws <= lx_balance (lxc_row s ws) + d ->
  lx_balance (lxc_row s ws) + held_sum s ws + d <= room ->
  wallet_inv u key_ws (set_row ws r (add_ledgers rows s)).
Proof.
  intros W M Hb Hc Ha Hr. set (s' := set_row ws r (add_ledgers rows s)).
  assert (E : lxc_row s' ws = r) by apply lxc_row_set_eq.
  assert (Eo : forall w, w <> ws -> lxc_row s' w = lxc_row s w)
    by (intros w Hw; unfold s'; rewrite lxc_row_set, decide_False by congruence; reflexivity).
  apply (stepped_inv u key_ws ws d 0 0 s s' W); [|lia|lia|exact (wi_held _ _ _ W)|exact (wi_res _ _ _ W)|exact (wi_keys _ _ _ W)].
  split; try done.
  - eapply lxc_moved_inv; [exact M|apply W].
  - eapply (lxc_frame_posting u s); [by constructor|apply W].
  - by rewrite E.
  - rewrite Z.add_0_r. reflexivity.
  - rewrite Z.add_0_r. reflexivity.
  - intros w Hw. by rewrite Eo.
  - intros w. destruct (decide (w = ws)) as [->|Hw]; [by rewrite E|rewrite Eo by done; apply W].
Qed.

Lemma credit_keeps ws amount typ reason meta s b s' :
  lot_type typ -> wallet_inv u key_ws s -> lx_balance (lxc_row s ws) + held_sum s ws + amount <= room ->
  creditLXCTxTyped ws amount typ reason meta s = Ok (b, s') -> wallet_inv u key_ws s'.
Proof.
  intros Hty W Hr H. pose proof (creditLXCTxTyped_moved _ _ _ _ _ _ _ _ H Hty) as M.
  apply creditLXCTxTyped_ok in H as (Hp & -> & ->). unfold room in *.
  pose proof (balance_bounds u key_ws s ws W) as BB. pose proof (held_sum_nonneg u key_ws s ws W). unfold room in *.
  apply (row_keeps ws _ _ amount); [exact W|exact M| | | |].
  - unfold credited. cbn [lx_balance]. apply wrap64_id. i64_ranges. lia.
  - unfold credited. cbn [lx_cash]. destruct (bool_decide _); [lia|apply W].
  - pose proof (wi_solvent _ _ _ W ws). lia.
  - unfold room. lia.
Qed.

Lemma spend_keeps c svc ws amount desc meta s v s' :
  wallet_inv u key_ws s -> amount < 2305843009213693952 ->
  spendLXC c svc ws amount desc meta s = Ok (v, s') -> wallet_inv u key_ws s'.
Proof.
  intros W Ha H. apply spendLXC_ok in H as (bps & Hb & Hp & Hc & Hi & Hu' & _ & ->).
  pose proof (PlatformFee_bounds amount bps ltac:(i64_ranges; lia) ltac:(lia) Hb) as FB.
  pose proof (balance_bounds u key_ws s ws W) as BB. pose proof (allocated_bounds u key_ws s ws W) as AB.
  pose proof (held_sum_nonneg u key_ws s ws W). pose proof (wi_room _ _ _ W ws).
  set (fee := PlatformFee amount bps) in *. unfold room in *.
  rewrite (wrap64_id (amount + fee)) in * by (i64_ranges; lia).
  rewrite (wrap64_id (_ - allocated s ws)) in Hu' by (i64_ranges; lia).
  destruct (charge_rows_running ws (lx_balance (lxc_row s ws)) amount fee bps desc meta (charge_request c)) as [R T];
    [i64_ranges; lia|].
  apply (row_keeps ws _ _ (- amount - fee)); [exact W| | | |lia|unfold room; lia].
  - apply lxc_moved_set; [exact R| | |apply charge_rows_stay]; unfold spent_row; cbn [lx_balance lx_minted lx_spent];
      rewrite (wrap64_add_cong _ _ _ T); wrap_eq.
  - unfold spent_row. cbn [lx_balance]. rewrite wrap64_sub_l. rewrite wrap64_id; i64_ranges; lia.
  - unfold spent_row. cbn [lx_cash]. apply cash_after_nonneg, cash_after_nonneg, W.
Qed.

Lemma grant1_keeps target reason meta ws s n s' :
  wallet_inv u key_ws s -> in_i64 target -> target + held_sum s ws <= room ->
  grantUpTo1 target reason meta ws s = Ok (n, s') ->
  wallet_inv u key_ws s' /\ forall w, held_sum s' w = held_sum s w.
Proof.
  intros W Ht Hr H. pose proof (grantUpTo1_ok _ _ _ _ _ _ _ Ht (wi_lxc _ _ _ W) H) as (Hb & _ & _ & rows & M).
  assert (F : lxc_frame s s' /\ lxc_reservations s' = lxc_reservations s /\
    lx_cash (lxc_row s' ws) = lx_cash (lxc_row s ws)).
  { unfold grantUpTo1 in H. apply tx_bind_ok in H as (a & s1 & H0 & H). apply tx_modify_ok in H0.
    assert (E1 : s1 = set_row ws (lxc_row s ws) s).
    { rewrite H0. unfold lxc_row. destruct (lxc_balances s !! ws) eqn:E; [by rewrite set_row_id|done]. }
    clear H0. subst s1. apply tx_bind_ok in H as (r & s1 & H1 & H). lxc_run.
    destruct (lx_balance (lxc_row s ws) <? target); lxc_run; split_and!; try reflexivity; try (by constructor);
      by rewrite lxc_row_set_eq. }
  destruct F as (F & Er & Ec). assert (Hs : forall w, held_sum s' w = held_sum s w) by (intros w; unfold held_sum; by rewrite Er).
  split; [|exact Hs]. pose proof (wi_solvent _ _ _ W ws). pose proof (wi_room _ _ _ W ws).
  apply (stepped_inv u key_ws ws (lx_balance (lxc_row s' ws) - lx_balance (lxc_row s ws)) 0 0 s s' W); [|lia|lia| | |].
  - split; rewrite ?Hs, ?(lxc_frame_allocated s s') by done; try lia.
    + eapply lxc_moved_inv; [exact M|apply W].
    + eapply lxc_frame_posting; [exact F|apply W].
    + intros w Hw. by rewrite (mv_other _ _ _ _ M w Hw).
    + intros w Hw. by rewrite (lxc_frame_allocated s s').
    + intros w Hw. by rewrite Hs.
    + intros w. destruct (decide (w = ws)) as [->|Hw]; [rewrite Ec|rewrite (mv_other _ _ _ _ M w Hw)]; apply W.
  - intros w a Ha. rewrite (lxc_frame_balance s s') by done. by apply W.
  - rewrite Er. apply W.
  - intros key agent w. rewrite (lxc_frame_key s s') by done. apply W.
Qed.

Lemma grantAll_keeps target reason meta ids s n s' :
  wallet_inv u key_ws s -> in_i64 target -> (forall ws, ws ∈ ids -> target + held_sum s ws <= room) ->
  grantUpToAll target reason meta ids s = Ok (n, s') -> wallet_inv u key_ws s'.
Proof.
  intros W Ht. revert s n W. induction ids as [|ws ids IH]; intros s n W Hr H; cbn in H.
  - by apply tx_ret_ok in H as [_ ->].
  - apply tx_bind_ok in H as (a & s1 & H1 & H). apply tx_bind_ok in H as (b & s2 & H2 & H).
    apply tx_ret_ok in H as [_ ->].
    apply grant1_keeps in H1 as [W1 Hs]; [|done|done|apply Hr; left].
    apply (IH s1 b W1); [|exact H2]. intros w Hw. rewrite Hs. apply Hr. by right.
Qed.

(** An operation on the rules, the approvals, the pauses or the credit line. *)
Lemma quiet_keeps s s' : wallet_inv u key_ws s -> quiet s s' -> wallet_inv u key_ws s'.
Proof.
  intros W Q. apply (frame_keeps s); [done| |].
  - split; [by left; apply Q|apply Q..].
  - intros key agent ws. rewrite (quiet_key s s') by done. apply W.
Qed.

(** Funding, pots and archiving, replays included. *)
Lemma funds_keeps c ws agent amount kind s b s' :
  uuid c = u -> wallet_inv u key_ws s -> committed (moveAgentFunds c ws agent amount kind) s = Ok (b, s') ->
  wallet_inv u key_ws s'.
Proof.
  intros Hc W H. pose proof H as H0. apply committed_ok in H0. unfold moveAgentFunds in H0.
  rewrite tx_guard_bind in H0. destruct H0 as [G H0]. apply negb_leb_pos in G.
  apply tx_bind_ok in H0 as (v & s1 & L & _). apply lockAgent_ok in L as (_ & a & La & Hw).
  destruct (replayed c s ws (agentAccount agent) (fund_kind kind)) eqn:R.
  - rewrite (committed_read _ _ _ (funds_replay c ws agent a amount kind s G La Hw R)) in H. by injection H as _ <-.
  - destruct kind.
    + pose proof (fund_outcome u key_ws c ws agent a amount s Hc W G La Hw R) as O.
      unfold FundAgent in O. rewrite H in O. apply O.
    + pose proof (withdraw_outcome u key_ws c ws agent a amount s Hc W G La Hw R) as O.
      unfold WithdrawAgent in O. rewrite H in O. apply O.
Qed.

Lemma pots_keeps c ws agent pot amount (into : bool) s b s' :
  uuid c = u -> wallet_inv u key_ws s -> committed (movePot c ws agent pot amount into) s = Ok (b, s') ->
  wallet_inv u key_ws s'.
Proof.
  intros Hc W H. pose proof H as H0. apply committed_ok in H0. unfold movePot in H0.
  rewrite tx_guard_bind in H0. destruct H0 as [G H0]. apply negb_leb_pos in G.
  apply tx_bind_ok in H0 as (v & s1 & L & H0). apply lockAgent_ok in L as (-> & a & La & Hw).
  rewrite tx_gets_bind in H0. destruct (own_pot s ws agent pot) as [p|] eqn:Lp; [|done]. clear H0.
  destruct (pot_replayed c s ws pot into) eqn:R.
  - pose proof (pot_run c ws agent a pot p amount into s G La Hw Lp) as E. cbn zeta in E. rewrite R in E.
    rewrite (committed_read _ _ _ E) in H. by injection H as _ <-.
  - pose proof (pot_outcome u key_ws c ws agent a pot p amount into s Hc W G La Hw Lp R) as O. cbn zeta in O.
    destruct into; unfold MoveToPot, MoveFromPot in O; rewrite H in O; apply O.
Qed.

Lemma archive_keeps c ws agent s b s' :
  uuid c = u -> wallet_inv u key_ws s -> ArchiveAgent c ws agent s = Ok (b, s') -> wallet_inv u key_ws s'.
Proof.
  intros Hc W H. pose proof H as H0. apply committed_ok in H0. apply tx_bind_ok in H0 as (v & s1 & L & _).
  apply lockAgent_ok in L as (_ & a & La & Hw).
  pose proof (archive_outcome u key_ws c ws agent a s Hc W La Hw) as O. rewrite H in O. apply O.
Qed.

(** Keys: a key goes to an agent of the workspace it was made in. *)
Lemma keyed_keeps key agent ws s s' :
  wallet_inv u key_ws s -> books_frame s s' -> key_ws key = ws ->
  (forall k, k <> key -> agent_of_key s' k = agent_of_key s k) ->
  (forall g w, agent_of_key s' key = Some (g, w) -> g = agent /\ w = ws) -> wallet_inv u key_ws s'.
Proof.
  intros W F Hk Ho He. apply (frame_keeps s); [done|done|]. intros k g w Hg.
  destruct (decide (k = key)) as [->|Hne]; [apply He in Hg as [_ ->]; done|].
  rewrite Ho in Hg by done. by apply (wi_keys _ _ _ W) in Hg.
Qed.

Lemma insert_key_ok key agent s v s' : insert_key key agent s = Ok (v, s') ->
  agent_account_keys s !! key = None /\ s' = with_agent_account_keys (<[key := agent]> (agent_account_keys s)) s.
Proof.
  unfold insert_key. rewrite tx_gets_bind, tx_guard_bind. intros [G H]. apply tx_modify_ok in H as ->.
  split; [|done]. by destruct (agent_account_keys s !! key).
Qed.

Lemma attach_keeps ws agent key s v s' :
  wallet_inv u key_ws s -> key_ws key = ws -> AttachAgentKey ws agent key s = Ok (v, s') -> wallet_inv u key_ws s'.
Proof.
  intros W Hk. unfold AttachAgentKey. intros H. apply tx_bind_ok in H as (x & s1 & L & H).
  apply lockAgent_ok in L as (-> & a & La & Hw). rewrite tx_gets_bind, La, tx_guard_bind in H. destruct H as [_ H].
  apply insert_key_ok in H as [_ ->]. eapply (keyed_keeps key agent ws s); try done.
  - constructor; cbn; [by left|done..].
  - intros k Hne. unfold agent_of_key. cbn. by rewrite lookup_insert_ne.
  - intros g w. unfold agent_of_key. cbn. rewrite lookup_insert_eq, La. cbn. by intros [= <- <-].
Qed.

Lemma room_keeps c ws name owner key s v s' :
  wallet_inv u key_ws s -> key_ws key = ws ->
  (forall k g, agent_account_keys s !! k = Some g -> is_Some (agent_accounts s !! g)) ->
  CreateRoomAgentTx c ws name owner key s = Ok (v, s') -> wallet_inv u key_ws s'.
Proof.
  intros W Hk FK. unfold CreateRoomAgentTx. rewrite tx_guard_bind. intros [_ H].
  apply tx_bind_ok in H as (id & s1 & H1 & H). apply tx_bind_ok in H as (x & s2 & H2 & H). apply tx_ret_ok in H as [_ ->].
  unfold insert_agent in H1. apply tx_bind_ok in H1 as (e & s3 & D & H1). apply uuid_new_ok in D as [-> ->].
  rewrite tx_gets_bind, tx_guard_bind in H1. destruct H1 as [G H1].
  apply tx_bind_ok in H1 as (y & s3 & M & H1). apply tx_modify_ok in M. subst s3. apply tx_ret_ok in H1 as [-> ->].
  apply insert_key_ok in H2 as [_ ->]. cbn in G. set (id := ("agt_" +:+ uuid c (uuid_draws s))%string) in *.
  destruct (agent_accounts s !! id) as [|] eqn:Fr; [done|].
  eapply (keyed_keeps key id ws s); [done| |done| |].
  - constructor; cbn; [by left|done..|lia].
  - intros k Hne. unfold agent_of_key. cbn. rewrite lookup_insert_ne by done.
    destruct (agent_account_keys s !! k) as [g|] eqn:Lk; [|done]. destruct (FK _ _ Lk) as [a0 La].
    rewrite lookup_insert_ne; [done|]. intros <-. by rewrite Fr in La.
  - intros g w. unfold agent_of_key. cbn. rewrite !lookup_insert_eq. cbn. by intros [= <- <-].
Qed.

(** Spending with an agent's key. *)
Lemma movement_keeps {A} c (m : WTx A) s :
  wallet_inv u key_ws s -> (forall a s', m s = Ok (a, s') -> wallet_inv u key_ws s') ->
  wallet_inv u key_ws (run_movement c m s).2.
Proof.
  intros W K. unfold run_movement. destruct (committed m s) as [[a s']|e] eqn:E.
  - apply committed_ok in E. by eapply K.
  - destruct e; cbn; try done. unfold run_tx. destruct (fileApproval _ _ _ _ _ _) as [[id s']|] eqn:F; cbn; [|done].
    apply fileApproval_quiet in F. by eapply quiet_keeps.
Qed.

Lemma debit_keeps c svc key ws req amount desc meta s v s' :
  uuid c = u -> wallet_inv u key_ws s -> key_ws key = ws -> amount < 1152921504606846976 ->
  spendLXCForAgent LL c svc key ws req amount desc meta s = Ok (v, s') -> wallet_inv u key_ws s'.
Proof.
  intros Hc W Hk Ha H. destruct v.
  apply (debit_effect u LL key_ws) in H as [[_ ->]|(bps & isAgent & drawn & D)]; [done| |done..].
  destruct D as [_ P _ _ _ R S A K C Wk _]. cbn zeta in *.
  apply (stepped_inv _ _ _ _ _ _ _ _ W S); [|pose proof (wi_room _ _ _ W ws); lia|exact A|rewrite R; apply W
    |intros k g w; rewrite K; apply W].
  destruct isAgent; [pose proof (wi_solvent _ _ _ W ws); lia|]. destruct (Wk eq_refl) as (-> & ? & _). lia.
Qed.

Lemma reserve_keeps c svc key ws id estimate meta s v s' :
  uuid c = u -> wallet_inv u key_ws s -> key_ws key = ws -> estimate < 1152921504606846976 ->
  lx_balance (lxc_row s ws) + held_sum s ws + 2 * estimate <= room ->
  reserveLXCForAgent LL c svc key ws id estimate meta s = Ok (v, s') -> wallet_inv u key_ws s'.
Proof.
  intros Hc W Hk Ha Hroom H. destruct v.
  assert (G : 0 < estimate) by (unfold reserveLXCForAgent in H; rewrite tx_guard_bind in H; destruct H as [G _]; by apply negb_leb_pos in G).
  apply (reserve_effect u LL key_ws) in H as [[_ ->]|(bps & isAgent & drawn & held & D)]; [done| |done..].
  destruct D as [Hb P _ _ R S A K C Wk _]. cbn zeta in *.
  apply (stepped_inv _ _ _ _ _ _ _ _ W S); [| |exact A| |intros k g w; rewrite K; apply W].
  - destruct isAgent; [pose proof (wi_solvent _ _ _ W ws); lia|]. destruct (Wk eq_refl) as (-> & ? & _). lia.
  - destruct P as (-> & _ & ?).
    pose proof (PlatformFee_bounds estimate bps ltac:(i64_ranges; lia) ltac:(lia) Hb). lia.
  - intros i r. rewrite R. destruct (decide (i = id)) as [->|Hne]; [rewrite lookup_insert_eq|rewrite lookup_insert_ne by done; apply W].
    intros [= <-]. cbn. split; [lia|]. split; [done|by symmetry].
Qed.

Lemma settle_keeps c id final meta s v s' :
  uuid c = u -> wallet_inv u key_ws s -> settleLXCReservation LL c id final meta s = Ok (v, s') -> wallet_inv u key_ws s'.
Proof.
  intros Hc W H. destruct v as [charged cash].
  apply (settle_effect u LL key_ws) in H as (r & L & [(_ & _ & _ & ->)|(Hs & _ & D)]); [done| |done..].
  destruct D as [B S A K R _ _]. cbn zeta in *.
  apply (stepped_inv _ _ _ _ _ _ _ _ W S); [|pose proof (wi_room _ _ _ W (rv_ws r)); lia|exact A| |intros k g w; rewrite K; apply W].
  - pose proof (wi_solvent _ _ _ W (rv_ws r)). destruct (is_some _); lia.
  - intros i q. rewrite R. cbn. destruct (decide (i = id)) as [->|Hne]; [|rewrite lookup_alter_ne by done; apply W].
    rewrite lookup_alter_eq, L. cbn. intros [= <-]. cbn. apply (wi_res _ _ _ W id r L).
Qed.

Lemma release_keeps c id reason s v s' :
  uuid c = u -> wallet_inv u key_ws s -> releaseLXCReservation LL c id reason s = Ok (v, s') -> wallet_inv u key_ws s'.
Proof.
  intros Hc W H. destruct v.
  apply (release_effect u LL key_ws) in H as [[_ ->]|(r & L & Hs & D)]; [done| |done..].
  destruct D as [S A K R _ _].
  apply (stepped_inv _ _ _ _ _ _ _ _ W S); [|pose proof (wi_room _ _ _ W (rv_ws r)); lia|exact A| |intros k g w; rewrite K; apply W].
  - pose proof (wi_solvent _ _ _ W (rv_ws r)). destruct (wi_res _ _ _ W id r L) as [? _]. destruct (is_some _); lia.
  - intros i q. rewrite R. cbn. destruct (decide (i = id)) as [->|Hne]; [|rewrite lookup_alter_ne by done; apply W].
    rewrite lookup_alter_eq, L. cbn. intros [= <-]. cbn. apply (wi_res _ _ _ W id r L).
Qed.

Lemma sweep_keeps c ids n s :
  uuid c = u -> wallet_inv u key_ws s -> wallet_inv u key_ws (release_all LL c ids n s).2.
Proof.
  intros Hc. revert n s. induction ids as [|id ids IH]; intros n s W; cbn [release_all]; [done|].
  destruct (ReleaseLXCReservation LL c id _ s) as [[v s']|e] eqn:E; [|done].
  apply IH. apply committed_ok in E. by eapply release_keeps.
Qed.

Lemma exec_keeps c svc op s :
  uuid c = u -> wallet_inv u key_ws s -> op_ok key_ws op s -> wallet_inv u key_ws (exec LL c svc op s).
Proof.
  intros Hc W O. destruct op; cbn [exec op_ok] in *;
    try (apply run_keeps; [exact W|intros v s' H]).
  - unfold CreditLXC in H. rewrite tx_guard_bind in H. destruct H as [_ H]. apply committed_ok in H. by eapply credit_keeps; [left|..].
  - unfold GrantLXC in H. rewrite tx_guard_bind in H. destruct H as [_ H]. apply committed_ok in H. by eapply credit_keeps; [right|..].
  - unfold GrantLXCUpTo in H. rewrite tx_guard_bind in H. destruct H as [_ H]. apply committed_ok in H.
    destruct O as [Ht O]. eapply grantAll_keeps; [exact W|exact Ht| |exact H]. intros w Hw. apply O. rewrite elem_of_remove_dups in Hw. exact Hw.
  - apply committed_ok in H. by eapply spend_keeps.
  - by eapply funds_keeps.
  - by eapply funds_keeps.
  - by eapply pots_keeps.
  - by eapply pots_keeps.
  - by eapply quiet_keeps, CreatePot_quiet.
  - by eapply quiet_keeps, LockPot_quiet.
  - unfold ClaimAgent in H. rewrite tx_guard_bind in H. destruct H as [_ H]. apply (quiet_keeps s); [exact W|]. eapply update_agent_quiet; [|exact H]; done.
  - destruct O. by eapply room_keeps.
  - by eapply attach_keeps.
  - unfold UpdateAgent in H. rewrite !tx_guard_bind in H. destruct H as (_ & _ & H). apply (quiet_keeps s); [exact W|]. eapply update_agent_quiet; [|exact H]; done.
  - by eapply archive_keeps.
  - by eapply quiet_keeps, PauseAgent_quiet.
  - apply (quiet_keeps s); [exact W|]. eapply update_agent_quiet; [|exact H]; done.
  - by eapply quiet_keeps, PauseAllAgents_quiet.
  - by eapply quiet_keeps, ResumeAllAgents_quiet.
  - by eapply quiet_keeps, DecideAgentApproval_quiet.
  - by eapply quiet_keeps, EndAgentBoost_quiet.
  - by eapply quiet_keeps, SetCompany_quiet.
  - by eapply quiet_keeps, SetCreditLine_quiet.
  - by eapply quiet_keeps, setLinePause_quiet.
  - by eapply quiet_keeps, setLinePause_quiet.
  - unfold SetAgentCeiling in H. rewrite tx_guard_bind in H. destruct H as [_ H]. apply tx_modify_ok in H as ->.
    apply (frame_keeps s); [done| |apply W]. split; cbn; [right; split; [by constructor|done]|done..].
  - apply movement_keeps; [done|]. intros v s' H. destruct O. by eapply debit_keeps.
  - apply movement_keeps; [done|]. intros v s' H. destruct O as (? & ? & ?). by eapply reserve_keeps.
  - apply committed_ok in H. by eapply settle_keeps.
  - apply committed_ok in H. by eapply release_keeps.
  - by apply sweep_keeps.
Qed.

Lemma exec_all_keeps svc ops s :
  wallet_inv u key_ws s -> ops_ok LL u key_ws svc ops s -> wallet_inv u key_ws (exec_all LL svc ops s).
Proof.
  revert s. induction ops as [|[c op] ops IH]; intros s W O; [done|]. destruct O as (Hc & Ho & O).
  apply IH; [by apply exec_keeps|exact O].
Qed.
End Keep.

(** ** The theorem *)

(** C1: however the modelled operations follow one another, refused or not, the wallet
    stays sound: every workspace's balance is the sum of its ledger, every agent's and
    pot's balance is the sum of its postings and is not overdrawn, every entry's postings
    sum to zero, and what a workspace's agents hold never exceeds its LXC. *)
Theorem wallet_stays_sound (u : N -> string) (LL : string -> option Location) (key_ws : string -> string) svc ops s :
  Inj (=) (=) u -> wallet_inv u key_ws s -> ops_ok LL u key_ws svc ops s ->
  wallet_inv u key_ws (exec_all LL svc ops s).
Proof. intros. by apply exec_all_keeps. Qed.

(** An agent is made, funded, spends through a hold and by a debit, and is archived. *)
Definition demo_ops : list (Ctx * Op) :=
  let c k := keyed_ctx k in
  [(c "", OpCredit "ws" 5000 "card" ∅);
   (c "", OpCreateRoom "ws" "Den" "u1" "k1");
   (c "f1", OpFund "ws" "agt_0" 2000);
   (c "f1", OpFund "ws" "agt_0" 2000);
   (c "", OpReserve "k1" "ws" "r1" 500 (mkMeta "m" "" "q" "" 0 0 0));
   (c "", OpSettle "r1" 300 (mkMeta "" "m" "" "" 0 0 0));
   (c "", OpDebit "k1" "ws" "d1" 9000 "chat" (mkMeta "m" "" "q" "" 0 0 0));
   (c "", OpDebit "k1" "ws" "d2" 100 "chat" (mkMeta "m" "" "q" "" 0 0 0));
   (c "", OpArchive "ws" "agt_0")]%string.

Definition utc_only (name : string) : option Location := if bool_decide (name = "UTC"%string) then Some UTC else None.

(** What it leaves: the workspace's balance, and what its agents hold. *)
Definition books s (ws : string) : Z * Z := (lx_balance (lxc_row s ws), allocated s ws).

Lemma demo_ops_ok : ops_ok utc_only (pretty (A:=N)) demo_keys demo_svc demo_ops empty_store.
Proof.
  unfold demo_ops. cbn [ops_ok op_ok]. split_and!; try reflexivity; try (vm_compute; congruence).
  all: by apply in_i64b_spec.
Qed.

Lemma ops_ok_take LL u key_ws svc n ops s : ops_ok LL u key_ws svc ops s -> ops_ok LL u key_ws svc (take n ops) s.
Proof.
  revert n s. induction ops as [|[c op] ops IH]; intros [|n] s; cbn; try done.
  intros (? & ? & ?). split_and!; auto.
Qed.

(** The store after the first [n] of them, and what it still promises. *)
Definition demo_at (n : nat) : Store := exec_all utc_only demo_svc (take n demo_ops) empty_store.

Lemma demo_at_inv n : wallet_inv (pretty (A:=N)) demo_keys (demo_at n).
Proof. apply exec_all_keeps; [apply _|apply wallet_inv_empty|apply ops_ok_take, demo_ops_ok]. Qed.

Lemma wallet_stays_sound_witness :
  books (demo_at 8) "ws" = (4577, 1577) /\ books (exec_all utc_only demo_svc demo_ops empty_store) "ws" = (4577, 0) /\
  wallet_inv (pretty (A:=N)) demo_keys (exec_all utc_only demo_svc demo_ops empty_store).
Proof.
  split; [vm_compute; reflexivity|]. split; [vm_compute; reflexivity|].
  apply (wallet_stays_sound pretty utc_only demo_keys demo_svc demo_ops empty_store);
    [apply _|apply wallet_inv_empty|exact demo_ops_ok].
Defined.
