(* ===== verification/Holds.v ===== *)
(** What the agent debit and the reservation promise their callers: a settle never
    bills above its hold and happens once, a released hold restores the books, a
    replayed request costs nothing, the per-key ceiling holds, a sweep ends every
    stranded hold, and the retry of a lock failure is bounded.  The operations are
    those of [Reservation]. *)
From stdpp Require Import pretty.
From S2P Require Import Prelude Money Tables Postings Clock Lxc Rules CreditLine Agents Reservation Funding Wallet.
Open Scope Z_scope.
Open Scope i64_scope.

Implicit Types (s : Store).

(** ** Once per request *)

Section Once.
Context (LL : string -> option Location).

Lemma reserve_replay c svc key ws id estimate meta s bps :
  0 < estimate -> missing [key; ws; id] = false -> plan_rate svc ws bps -> lxc_reservations s !! id <> None ->
  ReserveLXCForAgent LL c svc key ws id estimate meta s = (Ok tt, s).
Proof.
  intros He Hm [_ Hr] Hl. unfold ReserveLXCForAgent, run_movement. rewrite (committed_read _ s tt); [done|].
  unfold reserveLXCForAgent. rewrite run_guard, (proj2 (Z.leb_gt estimate 0)) by lia. cbn [negb].
  rewrite run_guard, Hm. cbn [negb]. rewrite (run_bind _ _ _ _ _ (Hr s)), run_gets.
  by destruct (lxc_reservations s !! id).
Qed.

Lemma debit_replay c svc key ws req amount desc meta s bps :
  0 < amount -> missing [key; ws; req] = false -> plan_rate svc ws bps -> lxc_spend_claims s !! req <> None ->
  SpendLXCForAgent LL c svc key ws req amount desc meta s = (Ok tt, s).
Proof.
  intros He Hm [_ Hr] Hl. unfold SpendLXCForAgent, run_movement. rewrite (committed_read _ s tt); [done|].
  unfold spendLXCForAgent. rewrite run_guard, (proj2 (Z.leb_gt amount 0)) by lia. cbn [negb].
  rewrite run_guard, Hm. cbn [negb]. rewrite (run_bind _ _ _ _ _ (Hr s)), run_gets.
  by destruct (lxc_spend_claims s !! req).
Qed.

Lemma run_movement_ok {A} c (m : WTx A) s a s' : run_movement c m s = (Ok a, s') -> m s = Ok (a, s').
Proof.
  unfold run_movement. destruct (committed m s) as [[b t]|e] eqn:E.
  - intros [= -> ->]. by apply committed_ok.
  - by destruct (refusedMovement c e s).
Qed.

Lemma settle_done c id final meta s r :
  id <> ""%string -> lxc_reservations s !! id = Some r -> rv_status r <> Held ->
  SettleLXCReservation LL c id final meta s = Ok ((0, 0), s).
Proof.
  intros Hid L Hs. apply committed_read. unfold settleLXCReservation.
  rewrite run_guard, bool_decide_eq_false_2 by done. cbn [negb]. rewrite run_gets, L.
  by rewrite (bool_decide_eq_false_2 (rv_status r = Held)) by done.
Qed.

Lemma release_done c id reason s r :
  id <> ""%string -> lxc_reservations s !! id = Some r -> rv_status r <> Held ->
  ReleaseLXCReservation LL c id reason s = Ok (tt, s).
Proof.
  intros Hid L Hs. apply committed_read. unfold releaseLXCReservation.
  rewrite run_guard, bool_decide_eq_false_2 by done. cbn [negb]. rewrite run_gets, L.
  by rewrite (bool_decide_eq_false_2 (rv_status r = Held)) by done.
Qed.

(** An id of a hold that was opened is not empty, nor its key or workspace. *)
Lemma settle_id c id final meta s v : SettleLXCReservation LL c id final meta s = Ok v -> id <> ""%string.
Proof.
  intros H. destruct v as [v s']. apply committed_ok in H. unfold settleLXCReservation in H.
  rewrite tx_guard_bind in H. destruct H as [G _]. by case_bool_decide.
Qed.
End Once.

(** ** Settling *)

Lemma clamped_min held bps f : clamped held bps f = Z.min f (spendWithin held bps).
Proof. unfold clamped. destruct (Z.ltb_spec (spendWithin held bps) f); lia. Qed.

(** The hold [r] charged [charged]: the rest of it, its fee taken, is the
    workspace's again, and its agent's when the key is one's; and it is over. *)
Record billed (LL : string -> option Location) (id : string) (r : Reservation) (charged : Z) s s' : Prop := {
  bl_fits : 0 <= charged /\ charged + PlatformFee charged (rv_bps r) <= rv_held r;
  bl_balance : lx_balance (lxc_row s' (rv_ws r)) =
    lx_balance (lxc_row s (rv_ws r)) + (rv_held r - charged - PlatformFee charged (rv_bps r));
  bl_agent : allocated s' (rv_ws r) = allocated s (rv_ws r) +
    (if is_some (agent_of_key s (rv_key r)) then rv_held r - charged - PlatformFee charged (rv_bps r) else 0);
  bl_held : held_sum s' (rv_ws r) = held_sum s (rv_ws r) - rv_held r;
  bl_others i : i <> id -> lxc_reservations s' !! i = lxc_reservations s !! i;
  bl_settle_again c final meta : SettleLXCReservation LL c id final meta s' = Ok ((0, 0), s');
  bl_release_after c reason : ReleaseLXCReservation LL c id reason s' = Ok (tt, s');
}.

Section Settle.
Context (u : N -> string) {Hu : Inj (=) (=) u} (LL : string -> option Location) (key_ws : string -> string).

Lemma settle_billed c id final meta s charged cash s' :
  uuid c = u -> wallet_inv u key_ws s ->
  SettleLXCReservation LL c id final meta s = Ok ((charged, cash), s') ->
  exists r, lxc_reservations s !! id = Some r /\
  ((rv_status r <> Held /\ charged = 0 /\ cash = 0 /\ s' = s) \/
   (rv_status r = Held /\ charged = Z.min (Z.max final 0) (spendWithin (rv_held r) (rv_bps r)) /\ billed LL id r charged s s')).
Proof.
  intros Hc W H. pose proof (settle_id _ _ _ _ _ _ _ H) as Hid. apply committed_ok in H.
  apply (settle_effect u LL key_ws) in H as (r & L & [?|(Hs & E & D)]); [by exists r; auto| |done..].
  exists r. split; [done|]. right. split; [done|]. split; [by rewrite <- clamped_min|].
  destruct D as [B S A K R _ _]. cbn zeta in S.
  assert (L' : exists q, lxc_reservations s' !! id = Some q /\ rv_status q = Settled).
  { rewrite R. cbn. rewrite lookup_alter_eq, L. by eexists. }
  destruct L' as (q & L' & Hq). constructor.
  - lia.
  - apply S.
  - apply S.
  - rewrite (sp_holds _ _ _ _ _ _ _ S). lia.
  - intros i Hi. rewrite R. cbn. by rewrite lookup_alter_ne.
  - intros. eapply settle_done; [done|exact L'|by rewrite Hq].
  - intros. eapply release_done; [done|exact L'|by rewrite Hq].
Qed.
End Settle.

(** C13: settling a hold bills the delivered charge, and never more than the largest
    charge that fits the hold with its fee: what is left returns to the workspace, and
    to the agent whose key held it; and it is billed once, a second settle or a late
    release changing nothing. *)
Theorem settle_bills_within_hold (u : N -> string) (LL : string -> option Location) (key_ws : string -> string)
    c id final meta s charged cash s' :
  Inj (=) (=) u -> uuid c = u -> wallet_inv u key_ws s ->
  SettleLXCReservation LL c id final meta s = Ok ((charged, cash), s') ->
  exists r, lxc_reservations s !! id = Some r /\
  ((rv_status r <> Held /\ charged = 0 /\ cash = 0 /\ s' = s) \/
   (rv_status r = Held /\ charged = Z.min (Z.max final 0) (spendWithin (rv_held r) (rv_bps r)) /\ billed LL id r charged s s')).
Proof. intros. by eapply settle_billed. Qed.

Lemma settle_bills_within_hold_witness :
  exists s', SettleLXCReservation utc_only (keyed_ctx "") "r1" 900 (mkMeta "" "m" "" "" 0 0 0) (demo_at 5) = Ok ((500, 500), s') /\
    lx_balance (lxc_row s' "ws") = 4472 /\
    SettleLXCReservation utc_only (keyed_ctx "") "r1" 1 (mkMeta "" "m" "" "" 0 0 0) s' = Ok ((0, 0), s').
Proof.
  assert (E : exists s', SettleLXCReservation utc_only (keyed_ctx "") "r1" 900 (mkMeta "" "m" "" "" 0 0 0) (demo_at 5) = Ok ((500, 500), s'))
    by (eexists; vm_compute; reflexivity).
  destruct E as [s' E].
  destruct (settle_bills_within_hold pretty utc_only demo_keys (keyed_ctx "") "r1" 900 (mkMeta "" "m" "" "" 0 0 0)
    (demo_at 5) 500 500 s' _ eq_refl (demo_at_inv 5) E) as (r & L & H).
  assert (Lr : lxc_reservations (demo_at 5) !! "r1"%string = Some (mkReservation "k1" "ws" 528 None Held "m" "q" 550 50))
    by (vm_compute; reflexivity).
  rewrite Lr in L. injection L as <-. destruct H as [[H _]|(_ & _ & B)]; [by destruct H|].
  exists s'. split; [exact E|]. split; [|apply (bl_settle_again _ _ _ _ _ _ B)].
  pose proof (bl_balance _ _ _ _ _ _ B) as X. cbn [rv_ws] in X. rewrite X. vm_compute. reflexivity.
Defined.

(** ** Releasing *)

(** The hold [id], given back. *)
Definition released_row (r : Reservation) : Reservation :=
  mkReservation (rv_key r) (rv_ws r) (rv_held r) (Some 0) Released (rv_model r) (rv_request r) (rv_bps r) (rv_created r).

Section Release.
Context (u : N -> string) {Hu : Inj (=) (=) u} (LL : string -> option Location) (key_ws : string -> string).

(** The sweep, as far as it got. *)
Record swept (ids gone rest : list string) s s' : Prop := {
  sw_split : ids = gone ++ rest;
  sw_gone id r : id ∈ gone -> lxc_reservations s !! id = Some r -> rv_status r = Held ->
    lxc_reservations s' !! id = Some (released_row r);
  sw_other id : id ∉ gone -> lxc_reservations s' !! id = lxc_reservations s !! id;
  sw_inv : wallet_inv u key_ws s';
}.

Lemma release_one c id reason s v s' :
  uuid c = u -> wallet_inv u key_ws s -> ReleaseLXCReservation LL c id reason s = Ok (v, s') ->
  wallet_inv u key_ws s' /\ (forall i, i <> id -> lxc_reservations s' !! i = lxc_reservations s !! i) /\
  (forall r, lxc_reservations s !! id = Some r -> rv_status r = Held -> lxc_reservations s' !! id = Some (released_row r)).
Proof.
  intros Hc W H. apply committed_ok in H. pose proof (release_keeps u LL key_ws c id reason s v s' Hc W H) as W'.
  destruct v. apply (release_effect u LL key_ws) in H as [[Hn ->]|(r & L & Hs & D)]; [| |done..].
  - split_and!; try done. intros r L Hs. by destruct (Hn r L).
  - split_and!; [done| |].
    + intros i Hi. rewrite (re_reservations _ _ _ _ _ D). cbn. by rewrite lookup_alter_ne.
    + intros q Lq _. rewrite L in Lq. injection Lq as <-. rewrite (re_reservations _ _ _ _ _ D). cbn.
      by rewrite lookup_alter_eq, L.
Qed.

Lemma release_all_swept c ids n s :
  uuid c = u -> wallet_inv u key_ws s -> NoDup ids ->
  exists gone rest, let '(res, k, s') := release_all LL c ids n s in
    swept ids gone rest s s' /\ k = (n + length gone)%nat /\
    match res with Ok m => m = k /\ rest = [] | Err _ => rest <> [] end.
Proof.
  intros Hc. revert n s. induction ids as [|id ids IH]; intros n s W ND; cbn [release_all].
  - exists [], []. split; [|split; [cbn; lia|done]]. constructor; [done|set_solver|done|done].
  - apply NoDup_cons in ND as [Hid ND]. destruct (ReleaseLXCReservation LL c id _ s) as [[v s1]|e] eqn:E.
    + destruct (release_one _ _ _ _ _ _ Hc W E) as (W1 & O & R).
      destruct (IH (S n) s1 W1 ND) as (gone & rest & H). exists (id :: gone), rest.
      destruct (release_all LL c ids (S n) s1) as [[res k] s'].
      destruct H as ([S1 S2 S3 S4] & -> & H). split_and!; [|cbn; lia|done].
      assert (Hg : id ∉ gone) by (intros X; apply Hid; rewrite S1; set_solver). constructor; [by rewrite S1| | |done].
      * intros i r Hi Lr Hs. destruct (decide (i = id)) as [->|Hne]; [rewrite S3 by done; by apply R|].
        apply elem_of_cons in Hi as [?|Hi]; [done|]. apply S2; [done| |done]. by rewrite O.
      * intros i Hi. apply not_elem_of_cons in Hi as [Hne Hi]. by rewrite S3, O.
    + exists [], (id :: ids). split; [|split; [cbn; lia|done]]. constructor; [done|set_solver|done|done].
Qed.

Lemma stranded_spec s cutoff id : id ∈ stranded s cutoff <->
  exists r, lxc_reservations s !! id = Some r /\ rv_status r = Held /\ rv_created r < cutoff.
Proof.
  unfold stranded. rewrite list_elem_of_omap. split.
  - intros ([i r] & Hi & H). apply elem_of_map_to_list in Hi. cbn in H.
    destruct (bool_decide (rv_status r = Held)) eqn:E; [|done]. destruct (Z.ltb_spec (rv_created r) cutoff); [|done].
    injection H as <-. apply bool_decide_eq_true in E. eauto.
  - intros (r & L & Hs & Ht). exists (id, r). split; [by apply elem_of_map_to_list|]. cbn.
    rewrite bool_decide_eq_true_2 by done. by rewrite (proj2 (Z.ltb_lt _ _) Ht).
Qed.

Lemma stranded_NoDup s cutoff : NoDup (stranded s cutoff).
Proof.
  unfold stranded. pose proof (NoDup_fst_map_to_list (lxc_reservations s)) as ND.
  induction (map_to_list (lxc_reservations s)) as [|[i r] l IH]; cbn; [constructor|].
  apply NoDup_cons in ND as [Hi ND]. specialize (IH ND). destruct (_ && _); [|done]. constructor; [|done].
  intros H. apply Hi. apply list_elem_of_omap in H as ([j q] & Hj & H). cbn in H. destruct (_ && _); [|done].
  injection H as <-. apply list_elem_of_fmap. by exists (j, q).
Qed.
End Release.

(** the sweep ends every hold left open past the window, in full, and touches no
    other; when a release fails it stops there, those before it having been released,
    and counts them. *)
Theorem sweep_ends_stranded_holds (u : N -> string) (LL : string -> option Location) (key_ws : string -> string)
    c olderThan s :
  Inj (=) (=) u -> uuid c = u -> wallet_inv u key_ws s ->
  exists gone rest,
    let '(res, n, s') := ReleaseStrandedReservations LL c olderThan s in
    swept u key_ws (stranded s (now c - olderThan)) gone rest s s' /\ n = length gone /\
    match res with
    | Ok m => m = n /\ (forall id r, lxc_reservations s' !! id = Some r -> rv_status r = Held -> now c - olderThan <= rv_created r)
    | Err _ => rest <> []
    end.
Proof.
  intros Hu Hc W.
  destruct (release_all_swept u LL key_ws c (stranded s (now c - olderThan)) 0 s Hc W (stranded_NoDup _ _)) as (gone & rest & H).
  exists gone, rest. unfold ReleaseStrandedReservations. destruct (release_all _ _ _ _ _) as [[res n] s'].
  destruct H as (S & -> & H). split_and!; [done..|]. destruct res as [m|]; [|done]. destruct H as [-> Hr]. split; [done|].
  intros id r Lr Hs. destruct (decide (id ∈ gone)) as [Hg|Hg].
  - assert (Hst : id ∈ stranded s (now c - olderThan)) by (rewrite (sw_split _ _ _ _ _ _ _ S); set_solver).
    apply stranded_spec in Hst as (q & Lq & Hq & _). rewrite (sw_gone _ _ _ _ _ _ _ S id q Hg Lq Hq) in Lr.
    injection Lr as <-. done.
  - rewrite (sw_other _ _ _ _ _ _ _ S id Hg) in Lr. destruct (Z.lt_ge_cases (rv_created r) (now c - olderThan)); [|done].
    exfalso. apply Hg. assert (Hst : id ∈ stranded s (now c - olderThan)) by (apply stranded_spec; eauto).
    rewrite (sw_split _ _ _ _ _ _ _ S), Hr, app_nil_r in Hst. exact Hst.
Qed.

Definition later_ctx : Ctx := mkCtx 5000 (fun n => pretty n) "" "" "" zero_request.

Lemma sweep_ends_stranded_holds_witness :
  exists s', ReleaseStrandedReservations utc_only later_ctx 900 (demo_at 5) = (Ok 1%nat, 1%nat, s') /\
    wallet_inv (pretty (A:=N)) demo_keys s' /\ books s' "ws" = (5000, 2000).
Proof.
  destruct (sweep_ends_stranded_holds pretty utc_only demo_keys later_ctx 900 (demo_at 5) _ eq_refl (demo_at_inv 5))
    as (gone & rest & H).
  assert (E : exists s', ReleaseStrandedReservations utc_only later_ctx 900 (demo_at 5) = (Ok 1%nat, 1%nat, s') /\
    books s' "ws" = (5000, 2000)) by (eexists; split; vm_compute; reflexivity).
  destruct E as (s' & E & B). rewrite E in H. destruct H as (S & _). exists s'. split; [exact E|].
  split; [exact (sw_inv _ _ _ _ _ _ _ S)|exact B].
Defined.

(** The books as they were, but for what a credit line lent meanwhile. *)
Record restored (key ws : string) (lent_ : Z) s s' : Prop := {
  un_lent : 0 <= lent_ /\ (agent_of_key s key = None -> lent_ = 0);
  un_balance : lx_balance (lxc_row s' ws) = lx_balance (lxc_row s ws) + lent_;
  un_allocated : allocated s' ws = allocated s ws + lent_;
  un_held : held_sum s' ws = held_sum s ws;
  un_ceiling : exists b, agent_lxc_subbudgets s' !! key = Some b /\
    sb_ceiling b = sb_ceiling (subbudget_of s key ws) /\ sb_spent b = sb_spent (subbudget_of s key ws);
}.

Section Undo.
Context (u : N -> string) {Hu : Inj (=) (=) u} (LL : string -> option Location) (key_ws : string -> string).

(** The two effects, one after the other. *)
Lemma undone c c2 svc key ws id estimate meta reason s s1 s2 :
  uuid c = u -> uuid c2 = u -> wallet_inv u key_ws s -> key_ws key = ws -> estimate < 1152921504606846976 ->
  lx_balance (lxc_row s ws) + held_sum s ws + 2 * estimate <= room ->
  lxc_reservations s !! id = None ->
  ReserveLXCForAgent LL c svc key ws id estimate meta s = (Ok tt, s1) ->
  ReleaseLXCReservation LL c2 id reason s1 = Ok (tt, s2) ->
  exists lent_, restored key ws lent_ s s2 /\ wallet_inv u key_ws s2.
Proof.
  intros Hc Hc2 W Hk He Hroom Fr H1 H2. apply run_movement_ok in H1. apply committed_ok in H2.
  assert (W1 : wallet_inv u key_ws s1) by (by exact (reserve_keeps u LL key_ws c svc key ws id estimate meta s tt s1 Hc W Hk He Hroom H1)).
  pose proof (release_keeps u LL key_ws c2 id reason s1 tt s2 Hc2 W1 H2) as W2.
  apply (reserve_effect u LL key_ws) in H1 as [[X _]|(bps & isAgent & drawn & held & R)]; [done| |done..].
  assert (L : lxc_reservations s1 !! id = Some (mkReservation key ws held None Held (RequestedModel meta) (RequestID meta) bps (now c)))
    by by rewrite (rs_row _ _ _ _ _ _ _ _ _ _ _ _ _ R), lookup_insert_eq.
  apply (release_effect u LL key_ws) in H2 as [[X _]|(r & Lr & _ & D)]; [by destruct (X _ L)| |done..].
  rewrite L in Lr. injection Lr as <-. pose proof (re_stepped _ _ _ _ _ D) as S2. cbn [rv_ws rv_held rv_key] in S2.
  rewrite (rs_keys _ _ _ _ _ _ _ _ _ _ _ _ _ R), <- (rs_agent _ _ _ _ _ _ _ _ _ _ _ _ _ R) in S2.
  pose proof (rs_stepped _ _ _ _ _ _ _ _ _ _ _ _ _ R) as S1. pose proof (rs_held _ _ _ _ _ _ _ _ _ _ _ _ _ R) as P.
  pose proof (rs_workspace _ _ _ _ _ _ _ _ _ _ _ _ _ R) as Wk.
  destruct (rs_ceiling _ _ _ _ _ _ _ _ _ _ _ _ _ R) as (b & Lb & Cb & Sb).
  pose proof (re_spent _ _ _ _ _ D b Lb) as Lb2. cbn [rv_key rv_held] in Lb2.
  exists drawn. split; [|done]. constructor; [split; [lia|]| | | |].
  - intros Ha. assert (F : isAgent = false) by by rewrite (rs_agent _ _ _ _ _ _ _ _ _ _ _ _ _ R), Ha. by apply Wk in F as [-> _].
  - rewrite (sp_bal _ _ _ _ _ _ _ S2), (sp_bal _ _ _ _ _ _ _ S1). lia.
  - rewrite (sp_alloc _ _ _ _ _ _ _ S2), (sp_alloc _ _ _ _ _ _ _ S1). destruct isAgent; [lia|].
    destruct (Wk eq_refl) as [-> _]. lia.
  - rewrite (sp_holds _ _ _ _ _ _ _ S2), (sp_holds _ _ _ _ _ _ _ S1). lia.
  - eexists. split; [exact Lb2|]. cbn. split; [done|lia].
Qed.
End Undo.

(** C36: releasing a hold restores what it took: the workspace's balance, what its
    agents hold, its open holds and what the key has spent of its ceiling are as they
    were before the reserve, but for what a credit line lent the agent to cover it. *)
Theorem release_undoes_hold (u : N -> string) (LL : string -> option Location) (key_ws : string -> string)
    c c2 svc key ws id estimate meta reason s s1 s2 :
  Inj (=) (=) u -> uuid c = u -> uuid c2 = u -> wallet_inv u key_ws s -> key_ws key = ws ->
  estimate < 1152921504606846976 -> lx_balance (lxc_row s ws) + held_sum s ws + 2 * estimate <= room ->
  lxc_reservations s !! id = None ->
  ReserveLXCForAgent LL c svc key ws id estimate meta s = (Ok tt, s1) ->
  ReleaseLXCReservation LL c2 id reason s1 = Ok (tt, s2) ->
  exists lent_, restored key ws lent_ s s2 /\ wallet_inv u key_ws s2.
Proof. intros. by eapply (undone u LL key_ws c c2 svc key ws id estimate meta reason s s1 s2). Qed.

(** A key of no agent holds in the same wallet, and lets go. *)
Definition demo_open : Res WalletErr unit * Store :=
  ReserveLXCForAgent utc_only later_ctx demo_svc "kx" "ws" "r9" 700 (mkMeta "m" "" "q" "" 0 0 0) (demo_at 5).
Definition demo_shut : Res WalletErr unit * Store :=
  run_tx (ReleaseLXCReservation utc_only later_ctx "r9" "failed") (demo_open.2).

Lemma release_undoes_hold_witness :
  books (demo_open.2) "ws" = (3733, 1472) /\
  lx_balance (lxc_row (demo_shut.2) "ws") = lx_balance (lxc_row (demo_at 5) "ws").
Proof.
  split; [vm_compute; reflexivity|].
  assert (E1 : demo_open = (Ok tt, demo_open.2)) by (vm_compute; reflexivity).
  assert (E2 : ReleaseLXCReservation utc_only later_ctx "r9" "failed" (demo_open.2) = Ok (tt, demo_shut.2))
    by (vm_compute; reflexivity).
  assert (Hr : lx_balance (lxc_row (demo_at 5) "ws") + held_sum (demo_at 5) "ws" + 2 * 700 <= room) by (vm_compute; congruence).
  assert (Fr : lxc_reservations (demo_at 5) !! "r9"%string = None) by (vm_compute; reflexivity).
  assert (K : agent_of_key (demo_at 5) "kx" = None) by (vm_compute; reflexivity).
  pose proof (release_undoes_hold pretty utc_only demo_keys later_ctx later_ctx demo_svc "kx" "ws" "r9" 700
    (mkMeta "m" "" "q" "" 0 0 0) "failed" (demo_at 5) (demo_open.2) (demo_shut.2) _ eq_refl eq_refl (demo_at_inv 5) eq_refl ltac:(lia)
    Hr Fr E1 E2) as H.
  destruct H as (l & [[_ L0] B _ _ _] & _). rewrite B, (L0 K). apply Z.add_0_r.
Defined.

(** ** The ceiling, and once per request *)

Section Ceiling.
Context (u : N -> string) {Hu : Inj (=) (=) u} (LL : string -> option Location) (key_ws : string -> string).

(** What a key of no agent spent, when it spent. *)
Record within_ceiling (key ws : string) s s' : Prop := {
  wc_spent : exists b, agent_lxc_subbudgets s' !! key = Some b /\ sb_ceiling b = sb_ceiling (subbudget_of s key ws) /\
    sb_spent (subbudget_of s key ws) < sb_spent b <= sb_ceiling b;
  wc_unallocated : 0 <= unallocated s' ws < unallocated s ws;
  wc_taken : unallocated s ws - unallocated s' ws =
    sb_spent (default (mkSubBudget ws 0 0) (agent_lxc_subbudgets s' !! key)) - sb_spent (subbudget_of s key ws);
}.

Lemma reserve_within c svc key ws id estimate meta s s1 :
  uuid c = u -> wallet_inv u key_ws s -> key_ws key = ws -> estimate < 1152921504606846976 ->
  in_i64 (sb_ceiling (subbudget_of s key ws) - sb_spent (subbudget_of s key ws)) ->
  agent_of_key s key = None -> lxc_reservations s !! id = None ->
  reserveLXCForAgent LL c svc key ws id estimate meta s = Ok (tt, s1) -> within_ceiling key ws s s1.
Proof.
  intros Hc W Hk He Hi Ha Fr H. apply (reserve_effect u LL key_ws) in H as [[X _]|(bps & isAgent & d & held & R)]; [done| |done..].
  assert (F : isAgent = false) by by rewrite (rs_agent _ _ _ _ _ _ _ _ _ _ _ _ _ R), Ha. subst isAgent.
  destruct (rs_workspace _ _ _ _ _ _ _ _ _ _ _ _ _ R eq_refl) as (-> & U & C). rewrite wrap64_id in C by done.
  pose proof (rs_stepped _ _ _ _ _ _ _ _ _ _ _ _ _ R) as S. pose proof (rs_held _ _ _ _ _ _ _ _ _ _ _ _ _ R) as P.
  destruct (rs_ceiling _ _ _ _ _ _ _ _ _ _ _ _ _ R) as (b & Lb & Cb & Sb).
  assert (E : unallocated s1 ws = unallocated s ws - held)
    by (unfold unallocated; rewrite (sp_bal _ _ _ _ _ _ _ S), (sp_alloc _ _ _ _ _ _ _ S); lia).
  constructor; [exists b; split_and!; [done|done|lia|lia]|unfold unallocated in *; lia|rewrite Lb; cbn; lia].
Qed.

Lemma debit_within c svc key ws req amount desc meta s s1 :
  uuid c = u -> wallet_inv u key_ws s -> key_ws key = ws -> amount < 1152921504606846976 ->
  in_i64 (sb_ceiling (subbudget_of s key ws) - sb_spent (subbudget_of s key ws)) ->
  agent_of_key s key = None -> lxc_spend_claims s !! req = None ->
  spendLXCForAgent LL c svc key ws req amount desc meta s = Ok (tt, s1) -> within_ceiling key ws s s1.
Proof.
  intros Hc W Hk He Hi Ha Fr H. apply (debit_effect u LL key_ws) in H as [[X _]|(bps & isAgent & d & R)]; [done| |done..].
  assert (F : isAgent = false) by by rewrite (dt_agent _ _ _ _ _ _ _ _ _ _ R), Ha. subst isAgent.
  destruct (dt_workspace _ _ _ _ _ _ _ _ _ _ R eq_refl) as (-> & U & C). rewrite wrap64_id in C by done.
  pose proof (dt_stepped _ _ _ _ _ _ _ _ _ _ R) as S. pose proof (dt_price _ _ _ _ _ _ _ _ _ _ R) as P. cbn zeta in *.
  destruct (dt_ceiling _ _ _ _ _ _ _ _ _ _ R) as (b & Lb & Cb & Sb).
  assert (E : unallocated s1 ws = unallocated s ws - (amount + PlatformFee amount bps))
    by (unfold unallocated; rewrite (sp_bal _ _ _ _ _ _ _ S), (sp_alloc _ _ _ _ _ _ _ S); lia).
  constructor; [exists b; split_and!; [done|done|lia|lia]|unfold unallocated in *; lia|rewrite Lb; cbn; lia].
Qed.
End Ceiling.

(** A key attached to no agent never spends past its ceiling, nor into what the
    workspace's agents hold: a debit or a hold that goes through adds exactly what it
    takes from the unallocated LXC to what the key has spent, and the sum is within
    the ceiling. *)
Theorem ceiling_caps_key (u : N -> string) (LL : string -> option Location) (key_ws : string -> string)
    c svc key ws id price desc meta s s1 :
  Inj (=) (=) u -> uuid c = u -> wallet_inv u key_ws s -> key_ws key = ws -> price < 1152921504606846976 ->
  in_i64 (sb_ceiling (subbudget_of s key ws) - sb_spent (subbudget_of s key ws)) -> agent_of_key s key = None ->
  (lxc_reservations s !! id = None -> ReserveLXCForAgent LL c svc key ws id price meta s = (Ok tt, s1) ->
     within_ceiling key ws s s1) /\
  (lxc_spend_claims s !! id = None -> SpendLXCForAgent LL c svc key ws id price desc meta s = (Ok tt, s1) ->
     within_ceiling key ws s s1).
Proof.
  intros Hu Hc W Hk Hp Hi Ha. split; intros Fr H; apply run_movement_ok in H.
  - by eapply (reserve_within u LL key_ws).
  - by eapply (debit_within u LL key_ws).
Qed.

Lemma ceiling_caps_key_witness :
  within_ceiling "kx" "ws" (demo_at 5) (demo_open.2) /\
  SpendLXCForAgent utc_only later_ctx demo_svc "kx" "ws" "d9" 50000001 "chat" (mkMeta "m" "" "q" "" 0 0 0) (demo_at 5)
    = (Err ErrSubBudgetExceeded, demo_at 5).
Proof.
  split; [|vm_compute; reflexivity].
  assert (Hi : in_i64 (sb_ceiling (subbudget_of (demo_at 5) "kx" "ws") - sb_spent (subbudget_of (demo_at 5) "kx" "ws")))
    by (vm_compute; split; congruence).
  assert (K : agent_of_key (demo_at 5) "kx" = None) by (vm_compute; reflexivity).
  assert (Fr : lxc_reservations (demo_at 5) !! "r9"%string = None) by (vm_compute; reflexivity).
  assert (E1 : demo_open = (Ok tt, demo_open.2)) by (vm_compute; reflexivity).
  destruct (ceiling_caps_key pretty utc_only demo_keys later_ctx demo_svc "kx" "ws" "r9" 700 "" (mkMeta "m" "" "q" "" 0 0 0)
    (demo_at 5) (demo_open.2) _ eq_refl (demo_at_inv 5) eq_refl ltac:(lia) Hi K) as [H _].
  exact (H Fr E1).
Defined.

(** Asking again succeeds and changes nothing, whatever is asked. *)
Definition reserve_is_free (LL : string -> option Location) (key ws id : string) s : Prop :=
  forall c svc bps price meta, plan_rate svc ws bps -> 0 < price ->
    ReserveLXCForAgent LL c svc key ws id price meta s = (Ok tt, s).
Definition debit_is_free (LL : string -> option Location) (key ws req : string) s : Prop :=
  forall c svc bps price desc meta, plan_rate svc ws bps -> 0 < price ->
    SpendLXCForAgent LL c svc key ws req price desc meta s = (Ok tt, s).

(** A request is charged once: after a debit or a hold under an id went through,
    asking again under it, whatever the amount and however much happened since,
    succeeds and changes nothing. *)
Theorem requests_charge_once (u : N -> string) (LL : string -> option Location) (key_ws : string -> string)
    c svc key ws id price desc meta s s1 :
  Inj (=) (=) u -> uuid c = u -> wallet_inv u key_ws s -> key_ws key = ws -> price < 1152921504606846976 ->
  (ReserveLXCForAgent LL c svc key ws id price meta s = (Ok tt, s1) ->
   forall s2, dom (lxc_reservations s1) ⊆ dom (lxc_reservations s2) -> reserve_is_free LL key ws id s2) /\
  (SpendLXCForAgent LL c svc key ws id price desc meta s = (Ok tt, s1) ->
   forall s2, dom (lxc_spend_claims s1) ⊆ dom (lxc_spend_claims s2) -> debit_is_free LL key ws id s2).
Proof.
  intros Hu Hc W Hk Hp. split.
  - intros H s2 Hd c2 svc2 bps price2 meta2 Hr Hp2. apply run_movement_ok in H.
    assert (M : missing [key; ws; id] = false).
    { unfold reserveLXCForAgent in H. rewrite !tx_guard_bind in H. destruct H as (_ & M & _). by apply negb_true_iff in M. }
    eapply reserve_replay; [done|exact M|exact Hr|]. apply not_eq_None_Some, elem_of_dom, Hd, elem_of_dom.
    apply (reserve_effect u LL key_ws) in H as [[X ->]|(? & ? & ? & ? & R)]; [|rewrite (rs_row _ _ _ _ _ _ _ _ _ _ _ _ _ R), lookup_insert_eq; by eexists|done..].
    by apply not_eq_None_Some.
  - intros H s2 Hd c2 svc2 bps price2 desc2 meta2 Hr Hp2. apply run_movement_ok in H.
    assert (M : missing [key; ws; id] = false).
    { unfold spendLXCForAgent in H. rewrite !tx_guard_bind in H. destruct H as (_ & M & _). by apply negb_true_iff in M. }
    eapply debit_replay; [done|exact M|exact Hr|]. apply not_eq_None_Some, elem_of_dom, Hd, elem_of_dom.
    apply (debit_effect u LL key_ws) in H as [[X ->]|(? & ? & ? & R)]; [|rewrite (dt_claim _ _ _ _ _ _ _ _ _ _ R), lookup_insert_eq; by eexists|done..].
    by apply not_eq_None_Some.
Qed.

Definition demo_again : AgentDebitMeta := mkMeta "m2" "" "q2" "" 0 0 0.

Lemma requests_charge_once_witness :
  ReserveLXCForAgent utc_only later_ctx demo_svc "kx" "ws" "r9" 999 demo_again (demo_open.2) = (Ok tt, demo_open.2).
Proof.
  assert (E1 : demo_open = (Ok tt, demo_open.2)) by (vm_compute; reflexivity).
  destruct (requests_charge_once pretty utc_only demo_keys later_ctx demo_svc "kx" "ws" "r9" 700 "" (mkMeta "m" "" "q" "" 0 0 0)
    (demo_at 5) (demo_open.2) _ eq_refl (demo_at_inv 5) eq_refl ltac:(lia)) as [H _].
  exact (H E1 (demo_open.2) (reflexivity _) later_ctx demo_svc 550 999 demo_again (demo_rate "ws") ltac:(lia)).
Defined.
