(* ===== verification/DebitSettle.v ===== *)
(** Settling an agent's debit to what its question cost
    ([internal/economy/agent_debit_settle.go]): with reservations off the pre-serve
    debit charges an estimate; after the answer the difference is refunded, or charged
    as far as the agent's limits, its balance and its workspace allow, the rest
    written off. *)
From stdpp Require Import pretty.
From S2P Require Import Prelude Money Tables Postings Clock Lxc Rules CreditLine Agents Reservation Funding Wallet.
Open Scope Z_scope.
Open Scope i64_scope.

Implicit Types (s : Store).

Record AgentDebitSettlement := mkSettlement {
  SettledULXC : Z;
  WrittenOffULXC_ : Z;
  CashBackedULXC : Z;
  SettledFeeULXC : Z;
}.

Definition no_settlement : AgentDebitSettlement := mkSettlement 0 0 0 0.

(** The agent of the key, when it is of the workspace asked. *)
Definition agent_in s (key ws : string) : option string :=
  match agent_of_key s key with
  | Some (agent, w) => if bool_decide (w = ws) then Some agent else None
  | None => None
  end.

(** What is left of a limit, of which [spent] is spent. *)
Definition left_of (limit spent : Z) : Z := Z.max (limit -! spent) 0.

(** The loop over the period limits: [want], cut to what each has left. *)
Fixpoint allow_periods (ws agent : string) (want : Z) (limits : list agentPeriodLimit) : WTx Z :=
  match limits with
  | [] => tx_ret want
  | l :: limits =>
      if pl_ulxc l =? 0 then allow_periods ws agent want limits
      else
        let! spent := agentSpentSince ws agent (pl_since l) in
        allow_periods ws agent (Z.min want (left_of (pl_ulxc l) spent)) limits
  end.

Section Settle.
Variable LoadLocation : string -> option Location.

(** [agentAllowance]: a time zone nobody knows is UTC here. *)
Definition agentAllowance (c : Ctx) (ws agent : string) (estimate want : Z) (ref model : string) : WTx Z :=
  let! r := tx_gets (fun s : Store => agentRulesInForce s agent (now c)) in
  let r := default no_rules r in
  let want := if 0 <? MaxPerRequestULXC r then Z.min want (left_of (MaxPerRequestULXC r) estimate) else want in
  let loc := default UTC (location LoadLocation r) in
  let '(limit, since) := modelDailyLimit r model (now c) loc in
  let! want := (if 0 <? limit then
                  let! spent := agentModelSpentSince ws agent model since in
                  tx_ret (Z.min want (left_of limit spent))
                else tx_ret want) in
  let! want := allow_periods ws agent want (periodLimits r (now c) loc) in
  if want =? 0 then tx_ret 0
  else
    let! bal := accountBalance ws (agentAccount agent) in
    let! bal := (if bal <? want then
                   let! drew := drawCreditLine c ws agent (want -! bal) ref in
                   tx_ret (if (drew : bool) then want else bal)
                 else tx_ret bal) in
    tx_ret (Z.min want (Z.max bal 0)).

(** What the question is charged: what it cost, or as much of it as there is room for. *)
Definition settled_charge (c : Ctx) (ws key debitKey : string) (agent : option string) (b : SubBudget)
    (estimate estFee delivered bps : Z) (model : string) : WTx Z :=
  let diff := delivered +! PlatformFee delivered bps -! estimate -! estFee in
  if 0 <? diff then
    let! allowed := match agent with
                    | Some g => agentAllowance c ws g (estimate +! estFee) diff debitKey model
                    | None => tx_ret (Z.min diff (Z.max (sb_ceiling b -! sb_spent b) 0))
                    end in
    let! (bal, _, _) := readLXCBalance ws in
    let! bal := match agent with
                | Some _ => tx_ret bal
                | None => let! total := tx_gets (fun s : Store => allocated s ws) in
                          let! total := bigint total in
                          tx_ret (bal -! total)
                end in
    tx_ret (Z.min delivered (spendWithin (estimate +! estFee +! Z.min allowed (Z.max bal 0)) bps))
  else tx_ret delivered.

Definition settle_desc (settled : Z) : string :=
  if settled <? 0 then "agent debit settle: estimate above the delivered cost, refunded"
  else "agent debit settle: delivered cost above the estimate".

(** The rows of a settlement that moves something. *)
Definition settle_difference (c : Ctx) (ws key debitKey : string) (agent : option string) (charge settled fee bps : Z)
    (meta : AgentDebitMeta) : WTx unit :=
  let! (bal, minted, wsSpent) := readLXCBalance ws in
  let newBal := bal -! settled in
  (if settled =? 0 then tx_ret tt
   else insertLXCLedger ws (-! settled) newBal LXCTypeSpend (settle_desc settled) (toSpendMap meta charge)) ;;;
  insertPlatformFee ws fee (newBal -! fee) bps charge (RequestID meta) ;;;
  writeLXCBalance ws (newBal -! fee) minted (wsSpent +! (settled +! fee)) ;;;
  bump_spent key (settled +! fee) ;;;
  match agent with
  | None => tx_ret tt
  | Some g =>
      (if settled =? 0 then tx_ret tt
       else postModelEntry c ws (if settled <? 0 then "settle" else "spend") debitKey (RequestedModel meta)
              [mkLeg (agentAccount g) (-! settled); mkLeg "spend" settled]) ;;;
      (if fee =? 0 then tx_ret tt else postFeeEntry c ws g fee bps debitKey (RequestedModel meta))
  end.

(** The whole charge consumes backing, against the balance with the charge undone. *)
Definition settle_backing (ws : string) (charge fee : Z) : WTx Z :=
  if 0 <? charge then
    let! (bal, _, _) := readLXCBalance ws in
    let! fromCash := consumeCashBacked ws (bal +! charge +! fee) charge in
    let! _ := consumeCashBacked ws (bal +! fee) fee in
    royaltyBacked ws charge fromCash
  else tx_ret 0.

(** One attempt of [SettleAgentDebit]. *)
Definition settleAgentDebit (c : Ctx) (ws debitKey : string) (delivered : Z) (meta : AgentDebitMeta) : WTx AgentDebitSettlement :=
  tx_guard (negb (missing [ws; debitKey])) ErrAmount ;;;
  let delivered := if delivered <? 0 then 0 else delivered in
  let! cl := tx_gets (fun s : Store => lxc_spend_claims s !! debitKey) in
  match cl with
  | None => tx_fail ErrNoRow
  | Some cl =>
      let key := cl_key cl in let estimate := cl_amount cl in let bps := cl_bps cl in
      let! diff := bigint (delivered - estimate) in
      let! claim := tx_gets (fun s : Store => agent_debit_settlements s !! debitKey) in
      if is_some claim then tx_ret no_settlement
      else
        tx_modify (fun s : Store => with_agent_debit_settlements
          (<[debitKey := mkDebitSettlement ws key None (nullIfEmpty (RequestID meta)) estimate delivered diff 0]>
             (agent_debit_settlements s)) s) ;;;
        let! b := tx_gets (fun s : Store => agent_lxc_subbudgets s !! key) in
        match b with
        | None => tx_fail ErrNoRow
        | Some b =>
            let! agent := tx_gets (fun s : Store => agent_in s key ws) in
            (match agent with Some g => lockAgent ws g | None => tx_ret tt end) ;;;
            let estFee := PlatformFee estimate bps in
            let! charge := settled_charge c ws key debitKey agent b estimate estFee delivered bps (RequestedModel meta) in
            let settled := charge -! estimate in
            let writtenOff := delivered -! charge in
            let fee := PlatformFee charge bps -! estFee in
            (if (settled =? 0) && (fee =? 0) then tx_ret tt
             else settle_difference c ws key debitKey agent charge settled fee bps meta) ;;;
            let! cash := settle_backing ws charge (estFee +! fee) in
            tx_guard ((0 <=? writtenOff) && (estimate + settled + writtenOff =? delivered)) ErrCheck ;;;
            tx_modify (fun s : Store => with_agent_debit_settlements
              (alter (fun d => mkDebitSettlement (ds_ws d) (ds_key d) agent (ds_request d) (ds_estimate d)
                                 (ds_delivered d) settled writtenOff) debitKey (agent_debit_settlements s)) s) ;;;
            tx_ret (mkSettlement settled writtenOff cash fee)
        end
  end.

Definition SettleAgentDebit (c : Ctx) (ws debitKey : string) (delivered : Z) (meta : AgentDebitMeta) : WTx AgentDebitSettlement :=
  committed (settleAgentDebit c ws debitKey delivered meta).
End Settle.

(** ** What the limits leave *)

Lemma allow_periods_ok ws agent want limits s v s' :
  allow_periods ws agent want limits s = Ok (v, s') ->
  s' = s /\ v <= want /\ (0 <= want -> 0 <= v) /\
  forall l, l ∈ limits -> pl_ulxc l <> 0 -> v <= left_of (pl_ulxc l) (agent_spent s ws agent (pl_since l)).
Proof.
  revert want. induction limits as [|l limits IH]; intros want H; cbn [allow_periods] in H.
  - apply tx_ret_ok in H as [-> ->]. split_and!; try done. set_solver.
  - destruct (Z.eqb_spec (pl_ulxc l) 0) as [Hz|Hz].
    + apply IH in H as (-> & H1 & H2 & H3). split_and!; try done.
      intros k Hk Hn. apply elem_of_cons in Hk as [->|Hk]; [done|by apply H3].
    + apply tx_bind_ok in H as (spent & s1 & R & H). unfold agentSpentSince in R. rewrite tx_gets_bind in R.
      apply bigint_ok in R as (-> & -> & _). apply IH in H as (-> & H1 & H2 & H3). split_and!; try done; [lia| |].
      * intros Hw. apply H2. unfold left_of. lia.
      * intros k Hk Hn. apply elem_of_cons in Hk as [->|Hk]; [lia|by apply H3].
Qed.

(** The amount is within everything the rules limit, the question's price counted. *)
Record within_limits (loc : Location) (r : AgentRules) (at_ : Z) (ws agent model : string) (price extra : Z) s : Prop := {
  wl_request : 0 < MaxPerRequestULXC r -> extra <= left_of (MaxPerRequestULXC r) price;
  wl_model : 0 < (modelDailyLimit r model at_ loc).1 ->
    extra <= left_of (modelDailyLimit r model at_ loc).1 (agent_model_spent s ws agent model (day_start at_ loc));
  wl_period l : l ∈ periodLimits r at_ loc -> pl_ulxc l <> 0 ->
    extra <= left_of (pl_ulxc l) (agent_spent s ws agent (pl_since l));
}.

Lemma within_limits_le loc r at_ ws agent model price x y s :
  x <= y -> within_limits loc r at_ ws agent model price y s -> within_limits loc r at_ ws agent model price x s.
Proof. intros Hxy [A B C]. split; [intros H; specialize (A H); lia|intros H; specialize (B H); lia|intros l Hl H; specialize (C l Hl H); lia]. Qed.

Section Effect.
Context (u : N -> string) {Hu : Inj (=) (=) u} (LL : string -> option Location) (key_ws : string -> string).

(** The rules and the zone the allowance reads. *)
Definition rules_of (c : Ctx) s (agent : string) : AgentRules := default no_rules (agentRulesInForce s agent (now c)).
Definition zone_of (r : AgentRules) : Location := default UTC (location LL r).

Lemma allowance_effect c ws agent price want ref model s a s' :
  uuid c = u -> lxc_inv s -> posting_inv u s -> 0 <= want < 4611686018427387904 ->
  0 <= account_balance s ws (agentAccount agent) ->
  agentAllowance LL c ws agent price want ref model s = Ok (a, s') ->
  exists d, 0 <= d <= want /\ 0 <= a <= want /\ a <= account_balance s ws (agentAccount agent) + d /\
    movement u ws agent d d s s' /\ lxc_inv s' /\
    within_limits (zone_of (rules_of c s agent)) (rules_of c s agent) (now c) ws agent model price a s.
Proof.
  intros Hc I P Hw Hb. unfold agentAllowance. rewrite tx_gets_bind. fold (rules_of c s agent). set (r := rules_of c s agent).
  fold (zone_of r). set (loc := zone_of r). set (w0 := if 0 <? MaxPerRequestULXC r then _ else _).
  assert (W0 : 0 <= w0 <= want /\ (0 < MaxPerRequestULXC r -> w0 <= left_of (MaxPerRequestULXC r) price)).
  { subst w0. unfold left_of. destruct (Z.ltb_spec 0 (MaxPerRequestULXC r)); lia. }
  unfold modelDailyLimit. fold (day_start (now c) loc). set (limit := default 0 _). intros H.
  apply tx_bind_ok in H as (w1 & s1 & H1 & H).
  assert (W1 : s1 = s /\ 0 <= w1 <= w0 /\
    (0 < limit -> w1 <= left_of limit (agent_model_spent s ws agent model (day_start (now c) loc)))).
  { destruct (Z.ltb_spec 0 limit).
    - apply tx_bind_ok in H1 as (spent & s2 & R & H1). unfold agentModelSpentSince in R. rewrite tx_gets_bind in R.
      apply bigint_ok in R as (-> & -> & _). apply tx_ret_ok in H1 as [-> ->]. unfold left_of. split_and!; [done|lia..].
    - apply tx_ret_ok in H1 as [-> ->]. split_and!; [done|lia..]. }
  destruct W1 as (-> & W1 & M1). apply tx_bind_ok in H as (w2 & s1 & H2 & H).
  apply allow_periods_ok in H2 as (-> & W2 & P2 & L2). specialize (P2 ltac:(lia)).
  assert (L : forall x, x <= w2 -> within_limits loc r (now c) ws agent model price x s).
  { intros x Hx. apply (within_limits_le _ _ _ _ _ _ _ x w2); [done|]. constructor; unfold modelDailyLimit; cbn [fst].
    - intros Hm. destruct W0 as [_ W0]. specialize (W0 Hm). lia.
    - intros Hm. specialize (M1 Hm). subst limit. lia.
    - exact L2. }
  destruct (Z.eqb_spec w2 0) as [Hz|Hz].
  - apply tx_ret_ok in H as [-> ->]. exists 0. split_and!; try lia; [by apply movement_same|done|apply L; lia].
  - unfold accountBalance in H. rewrite tx_gets_bind in H. set (bal := account_balance s _ _) in *.
    apply tx_bind_ok in H as (bal' & s1 & H3 & H). apply tx_ret_ok in H as [-> ->].
    destruct (Z.ltb_spec bal w2) as [Hlt|Hge].
    + apply tx_bind_ok in H3 as (drew & s2 & D & H3). apply tx_ret_ok in H3 as [-> ->].
      rewrite (wrap64_id (w2 - bal)) in D by (i64_ranges; lia).
      apply (draw_movement u) in D; [|done..|lia]. destruct drew.
      * destruct D as [M I2]. exists (w2 - bal). split_and!; try lia; [done|done|apply L; lia].
      * rewrite D. exists 0. split_and!; try lia; [by apply movement_same|done|apply L; lia].
    + apply tx_ret_ok in H3 as [-> ->]. exists 0. split_and!; try lia; [by apply movement_same|done|apply L; lia].
Qed.

(** ** Steps that compose *)

(** The workspace's balance moves by [dbal] and its agent's by [dacc], nothing else's
    does. *)
Record adjusted (ws : string) (agent : option string) (dbal dacc : Z) s s' : Prop := {
  ad_step : stepped u ws dbal (if is_some agent then dacc else 0) 0 s s';
  ad_account w a : held_account a = true -> account_balance s' w a =
    account_balance s w a + (if bool_decide (w = ws /\ Some a = agentAccount <$> agent) then dacc else 0);
  ad_reservations : lxc_reservations s' = lxc_reservations s;
  ad_keys k : agent_of_key s' k = agent_of_key s k;
  ad_claims : lxc_spend_claims s' = lxc_spend_claims s;
}.

Definition sound_books s : Prop := lxc_inv s /\ posting_inv u s /\ forall w, 0 <= lx_cash (lxc_row s w).

Lemma wallet_sound s : wallet_inv u key_ws s -> sound_books s.
Proof. intros W. split_and!; apply W. Qed.

Lemma adjusted_sound ws agent x y s s' : adjusted ws agent x y s s' -> sound_books s'.
Proof. intros [S _ _ _ _]. split_and!; apply S. Qed.

Lemma adjusted_trans ws agent x1 y1 x2 y2 s1 s2 s3 :
  adjusted ws agent x1 y1 s1 s2 -> adjusted ws agent x2 y2 s2 s3 -> adjusted ws agent (x1 + x2) (y1 + y2) s1 s3.
Proof.
  intros [[A1 A2 A3 A4 A5 A6 A7 A8 A9] B1 C1 D1 F1] [[E1 E2 E3 E4 E5 E6 E7 E8 E9] B2 C2 D2 F2]. split.
  - split; try done; [lia|destruct (is_some agent); lia|lia|..]; intros w Hw; [by rewrite E6, A6|by rewrite E7, A7|by rewrite E8, A8].
  - intros w a Ha. rewrite B2, B1 by done. case_bool_decide; lia.
  - congruence.
  - intros k. by rewrite D2, D1.
  - congruence.
Qed.

(** A step on rows and postings that moves no balance. *)
Lemma adjusted_same ws agent s s' :
  sound_books s -> (forall w, lxc_row s' w = lxc_row s w) -> lxc_ledger s' = lxc_ledger s -> lxc_frame s s' ->
  lxc_reservations s' = lxc_reservations s -> lxc_spend_claims s' = lxc_spend_claims s -> adjusted ws agent 0 0 s s'.
Proof.
  intros (I & P & C) R L F Er Ec. assert (Hs : forall w, held_sum s' w = held_sum s w) by (intros w; unfold held_sum; by rewrite Er).
  assert (A : forall w, allocated s' w = allocated s w) by (intros w; by apply lxc_frame_allocated).
  split; [split|..]; try done.
  - destruct I as [I1 I2 I3]. split; [intros w; rewrite R, L; apply I1|intros w; rewrite R, L; apply I2|by rewrite L].
  - by eapply lxc_frame_posting.
  - rewrite R. lia.
  - rewrite A. destruct (is_some agent); lia.
  - rewrite Hs. lia.
  - intros w _. by rewrite R.
  - intros w. rewrite R. apply C.
  - intros w a _. rewrite (lxc_frame_balance s s') by done. case_bool_decide; lia.
  - intros k. by apply lxc_frame_key.
Qed.

Lemma adjusted_refl ws agent s : sound_books s -> adjusted ws agent 0 0 s s.
Proof. intros B. by apply adjusted_same. Qed.

Lemma adjusted_touch ws agent s : sound_books s -> adjusted ws agent 0 0 s (set_row ws (lxc_row s ws) s).
Proof.
  intros B. apply adjusted_same; try done. intros w. rewrite lxc_row_set. by destruct (decide (ws = w)) as [->|].
Qed.

(** A movement of the agent's. *)
Lemma adjusted_movement ws g d delta s s' :
  sound_books s -> in_i64 (lx_balance (lxc_row s ws) + d) -> movement u ws g d delta s s' ->
  adjusted ws (Some g) d delta s s'.
Proof.
  intros (I & P & C) Hi [F [(rows & M & T) Ec] B P']. pose proof (mf_claims _ _ F) as Ecl. assert (Er : lxc_reservations s' = lxc_reservations s) by apply F.
  assert (Hs : forall w, held_sum s' w = held_sum s w) by (intros w; unfold held_sum; by rewrite Er).
  split; [split|..]; cbn [is_some]; try done.
  - by eapply lxc_moved_inv.
  - rewrite (mv_balance _ _ _ _ M), T. by apply wrap64_id.
  - apply (bm_allocated _ _ _ _ _ B).
  - rewrite Hs. lia.
  - intros w Hw. by rewrite (mv_other _ _ _ _ M w Hw).
  - intros w Hw. apply (bm_allocated_other _ _ _ _ _ B w Hw).
  - intros w. rewrite Ec. apply C.
  - intros w a Ha. cbn [fmap option_fmap option_map]. destruct (decide (w = ws)) as [->|Hw].
    + rewrite (bm_balance _ _ _ _ _ B) by by apply held_not_shared. repeat case_bool_decide; naive_solver lia.
    + rewrite (bm_other _ _ _ _ _ B) by (done || by apply held_not_shared). rewrite bool_decide_eq_false_2 by naive_solver. lia.
  - intros k. by apply agent_of_key_frame.
Qed.

Lemma adjusted_none ws x y z s s' : adjusted ws None x y s s' -> adjusted ws None x z s s'.
Proof.
  intros [S A R K L]. split; try done. intros w a Ha. rewrite A by done. cbn [fmap option_fmap option_map].
  by rewrite !bool_decide_eq_false_2 by (intros [_ [=]]).
Qed.

Lemma adjusted_movement_frame ws agent x y s s' : movement u ws agent x y s s' ->
  agent_lxc_subbudgets s' = agent_lxc_subbudgets s /\ agent_debit_settlements s' = agent_debit_settlements s.
Proof. intros [F _ _ _]. split; apply F. Qed.

(** Rows written to the workspace's ledger, and its balance with them. *)
Lemma adjusted_rows ws agent rows r d s :
  sound_books s -> running ws (lx_balance (lxc_row s ws)) rows -> none_passing rows = true -> wrap64 (rows_total rows) = wrap64 d ->
  in_i64 (lx_balance (lxc_row s ws) + d) -> lx_balance r = wrap64 (lx_balance (lxc_row s ws) + d) ->
  wrap64 (lx_minted r - lx_spent r) = wrap64 (lx_minted (lxc_row s ws) - lx_spent (lxc_row s ws) + d) ->
  0 <= lx_cash r -> adjusted ws agent d 0 s (set_row ws r (add_ledgers rows s)).
Proof.
  intros (I & P & C) R Hkind T Hi Hb Hm Hc.
  assert (M : lxc_moved ws rows s (set_row ws r (add_ledgers rows s))).
  { apply lxc_moved_set; [exact R|by rewrite Hb, (wrap64_add_cong _ _ _ T)|by rewrite Hm, (wrap64_add_cong _ _ _ T)|exact Hkind]. }
  split; [split|..].
  - by eapply lxc_moved_inv.
  - apply (lxc_frame_posting u s); [by constructor|exact P].
  - rewrite (mv_balance _ _ _ _ M), (wrap64_add_cong _ _ _ T). by apply wrap64_id.
  - change (allocated (set_row ws r (add_ledgers rows s)) ws) with (allocated s ws). destruct (is_some agent); lia.
  - change (held_sum (set_row ws r (add_ledgers rows s)) ws) with (held_sum s ws). lia.
  - intros w Hw. by rewrite (mv_other _ _ _ _ M w Hw).
  - reflexivity.
  - reflexivity.
  - intros w. rewrite lxc_row_set. case_decide; [done|]. apply C.
  - intros w a _. change (account_balance (set_row ws r (add_ledgers rows s)) w a) with (account_balance s w a).
    case_bool_decide; lia.
  - reflexivity.
  - reflexivity.
  - reflexivity.
Qed.

(** One balanced entry against the agent. *)
Lemma adjusted_posted ws g x s s' :
  sound_books s -> in_i64 x -> in_i64 (- x) ->
  legs_posted ws [mkLeg (agentAccount g) (-! x); mkLeg "spend" x] s s' -> posting_inv u s' ->
  adjusted ws (Some g) 0 (- x) s s' /\ agent_lxc_subbudgets s' = agent_lxc_subbudgets s /\
  agent_debit_settlements s' = agent_debit_settlements s.
Proof.
  intros B Hx Hn L P. pose proof B as (I & _ & _).
  assert (M : movement u ws g 0 (- x) s s') by by apply movement_posted.
  split; [|by eapply adjusted_movement_frame]. apply adjusted_movement; [done| |done].
  rewrite Z.add_0_r. apply row_in_i64. done.
Qed.

(** ** The charge *)

(** The LXC of the workspace a settle may charge: all of it for an agent's key,
    what its agents do not hold for another's. *)
Definition free_balance s (ws : string) (agent : option string) : Z :=
  lx_balance (lxc_row s ws) - match agent with Some _ => 0 | None => allocated s ws end.

(** What the limits of the key allow beyond the price of the estimate. *)
Definition allowed_by (c : Ctx) s (ws : string) (agent : option string) (b : SubBudget) (price diff : Z)
    (model : string) (drawn allowed : Z) : Prop :=
  0 <= allowed <= diff /\
  match agent with
  | Some g => allowed <= account_balance s ws (agentAccount g) + drawn /\
      within_limits (zone_of (rules_of c s g)) (rules_of c s g) (now c) ws g model price allowed s
  | None => drawn = 0 /\ allowed = Z.min diff (Z.max (sb_ceiling b -! sb_spent b) 0)
  end.

(** The delivered cost, or the largest charge whose price stays within what the
    limits allow and the workspace has. *)
Record charge_for (c : Ctx) (ws : string) (agent : option string) (b : SubBudget) (estimate delivered bps : Z)
    (model : string) (charge drawn : Z) s : Prop := {
  cf_bounds : 0 <= charge <= delivered;
  cf_drawn : 0 <= drawn;
  cf_refund : delivered + PlatformFee delivered bps <= estimate + PlatformFee estimate bps -> charge = delivered /\ drawn = 0;
  cf_extra : estimate + PlatformFee estimate bps < delivered + PlatformFee delivered bps ->
    let price := estimate + PlatformFee estimate bps in
    let diff := delivered + PlatformFee delivered bps - price in
    estimate <= charge /\ drawn <= diff /\
    exists allowed, allowed_by c s ws agent b price diff model drawn allowed /\
      let most := price + Z.min allowed (Z.max (free_balance s ws agent + drawn) 0) in
      charge + PlatformFee charge bps <= most /\
      forall t, in_i64 t -> t <= delivered -> t + PlatformFee t bps <= most -> t <= charge;
}.

(** The largest charge, given the room found for it. *)
Lemma charge_is_largest estimate delivered bps extra :
  bps_ok bps -> 0 <= estimate < 1152921504606846976 -> 0 <= delivered < 1152921504606846976 ->
  0 <= extra < 2305843009213693952 ->
  estimate + PlatformFee estimate bps < delivered + PlatformFee delivered bps ->
  let most := estimate + PlatformFee estimate bps + extra in
  let charge := Z.min delivered (spendWithin most bps) in
  estimate <= charge <= delivered /\ charge + PlatformFee charge bps <= most /\
  forall t, in_i64 t -> t <= delivered -> t + PlatformFee t bps <= most -> t <= charge.
Proof.
  intros Hb He Hd Hx Hlt most charge.
  pose proof (PlatformFee_bounds estimate bps ltac:(i64_ranges; lia) ltac:(lia) Hb) as F1.
  pose proof (PlatformFee_bounds delivered bps ltac:(i64_ranges; lia) ltac:(lia) Hb) as F2.
  assert (Hm : in_i64 most /\ 0 <= most) by (subst most; i64_ranges; lia). destruct Hm as [Hm Hm0].
  assert (estimate < delivered).
  { destruct (decide (delivered <= estimate)) as [Hle|]; [|lia].
    pose proof (PlatformFee_mono delivered estimate bps Hle ltac:(i64_ranges; lia) ltac:(i64_ranges; lia) Hb). lia. }
  pose proof (spendWithin_largest most bps estimate Hm Hm0 Hb ltac:(i64_ranges; lia) ltac:(subst most; lia)) as E.
  destruct (spendWithin_fits most bps Hm Hb) as [S0 _].
  pose proof (spend_fits_below most bps charge Hm Hb ltac:(subst charge; lia)) as Fit. rewrite Z.max_l in Fit by done.
  split; [subst charge; lia|]. split; [exact Fit|].
  intros t Ht Hle Hfit. pose proof (spendWithin_largest most bps t Hm Hm0 Hb Ht Hfit). subst charge. lia.
Qed.

Lemma settled_charge_effect c ws key dk agent b estimate delivered bps model s charge s' :
  uuid c = u -> wallet_inv u key_ws s -> bps_ok bps ->
  0 <= estimate < 1152921504606846976 -> 0 <= delivered < 1152921504606846976 ->
  settled_charge LL c ws key dk agent b estimate (PlatformFee estimate bps) delivered bps model s = Ok (charge, s') ->
  exists drawn, charge_for c ws agent b estimate delivered bps model charge drawn s /\
    adjusted ws agent drawn drawn s s' /\
    agent_lxc_subbudgets s' = agent_lxc_subbudgets s /\ agent_debit_settlements s' = agent_debit_settlements s.
Proof.
  intros Hc W Hb He Hd. pose proof (wallet_sound s W) as B. pose proof B as (I & P & C).
  pose proof (PlatformFee_bounds estimate bps ltac:(i64_ranges; lia) ltac:(lia) Hb) as F1.
  pose proof (PlatformFee_bounds delivered bps ltac:(i64_ranges; lia) ltac:(lia) Hb) as F2.
  pose proof (balance_bounds u key_ws s ws W) as BB. pose proof (allocated_bounds u key_ws s ws W) as AB. unfold room in *.
  unfold settled_charge. set (price := estimate + PlatformFee estimate bps).
  assert (Ediff : delivered +! PlatformFee delivered bps -! estimate -! PlatformFee estimate bps =
    delivered + PlatformFee delivered bps - price)
    by (subst price; unwrap; lia).
  rewrite Ediff. set (diff := delivered + PlatformFee delivered bps - price). intros H.
  destruct (Z.ltb_spec 0 diff) as [Hlt|Hge].
  2: { apply tx_ret_ok in H as [-> ->]. exists 0. split; [|split; [by apply adjusted_refl|done]].
       constructor; [lia|lia|done|]. subst diff price. lia. }
  assert (E0 : wrap64 price = price) by (apply wrap64_id; i64_ranges; lia). rewrite E0 in H.
  apply tx_bind_ok in H as (allowed & s1 & H1 & H).
  assert (A : exists drawn, allowed_by c s ws agent b price diff model drawn allowed /\ 0 <= drawn <= diff /\
    adjusted ws agent drawn drawn s s1 /\ agent_lxc_subbudgets s1 = agent_lxc_subbudgets s /\
    agent_debit_settlements s1 = agent_debit_settlements s).
  { destruct agent as [g|].
    - apply allowance_effect in H1 as (d & D1 & D2 & D3 & M & I1 & L);
        [|exact Hc|exact I|exact P|lia|by apply (agent_balance_nonneg u key_ws)].
      exists d. split; [split; [lia|done]|]. split; [lia|]. split; [|by eapply adjusted_movement_frame].
      apply adjusted_movement; [done|i64_ranges; lia|exact M].
    - apply tx_ret_ok in H1 as [-> ->]. exists 0. split; [split; [lia|done]|]. split; [lia|].
      split; [by apply adjusted_refl|done]. }
  destruct A as (d & A & Hdr & J & K1 & K2). pose proof J as [[JI JP JB JA _ _ _ _ JC] _ _ _ _].
  apply tx_bind_ok in H as ([[bal m] sp] & s2 & Rd & H). apply readLXCBalance_ok in Rd as [Ev ->]. injection Ev as -> -> ->.
  apply tx_bind_ok in H as (bal & s2 & H2 & H). apply tx_ret_ok in H as [-> ->].
  assert (E2 : bal = free_balance s ws agent + d /\ s2 = set_row ws (lxc_row s1 ws) s1).
  { unfold free_balance. destruct agent as [g|]; [apply tx_ret_ok in H2 as [-> ->]; split; [lia|done]|].
    rewrite tx_gets_bind in H2. apply tx_bind_ok in H2 as (t & s3 & Bt & H2). apply bigint_ok in Bt as (-> & -> & _).
    apply tx_ret_ok in H2 as [-> ->]. split; [|done]. cbn [is_some] in JA.
    change (allocated (set_row ws (lxc_row s1 ws) s1) ws) with (allocated s1 ws). rewrite JB, JA.
    destruct A as [_ [-> _]]. rewrite wrap64_id; i64_ranges; lia. }
  destruct E2 as [-> ->]. set (extra := Z.min allowed (Z.max (free_balance s ws agent + d) 0)).
  pose proof A as [A1 _]. assert (X : 0 <= extra <= diff) by (subst extra; lia).
  destruct (charge_is_largest estimate delivered bps extra Hb He Hd ltac:(subst diff price; lia) ltac:(subst diff price; lia)) as (L1 & L2 & L3).
  fold price in L1, L2, L3. rewrite (wrap64_id (price + extra)) by (subst diff price; i64_ranges; lia).
  exists d. split; [|split].
  - constructor; [lia|lia|subst diff price; lia|]. intros _. cbn zeta. fold price diff. split; [lia|]. split; [lia|].
    exists allowed. split; [exact A|]. split; [exact L2|exact L3].
  - rewrite <- (Z.add_0_r d) at 1 2. eapply adjusted_trans; [exact J|].
    apply adjusted_touch. by eapply adjusted_sound.
  - done.
Qed.

(** ** The rows *)

Lemma adjusted_books ws agent s s' :
  sound_books s -> same_books s s' -> lxc_reservations s' = lxc_reservations s ->
  lxc_spend_claims s' = lxc_spend_claims s -> adjusted ws agent 0 0 s s'.
Proof.
  intros B K R Hcl. apply adjusted_same; [done| |apply K|apply K|done|done]. intros w. by apply same_books_row.
Qed.

Definition difference_rows (ws : string) (bal charge settled fee bps : Z) (meta : AgentDebitMeta) : list LXCLedgerEntry :=
  fee_rows ws fee (bal -! settled -! fee) bps charge (RequestID meta) ++
  (if settled =? 0 then []
   else [mkLedger ws (-! settled) (bal -! settled) LXCTypeSpend (settle_desc settled) (toSpendMap meta charge)]).

Lemma difference_rows_stay ws bal charge settled fee bps meta :
  none_passing (difference_rows ws bal charge settled fee bps meta) = true.
Proof. apply fee_rows_stay. by destruct (settled =? 0). Qed.

Lemma difference_rows_running ws bal charge settled fee bps meta :
  in_i64 bal -> in_i64 fee ->
  running ws bal (difference_rows ws bal charge settled fee bps meta) /\
  wrap64 (rows_total (difference_rows ws bal charge settled fee bps meta)) = wrap64 (- (settled + fee)).
Proof.
  intros Hb Hf. unfold difference_rows. set (spend := if settled =? 0 then _ else _).
  assert (R : running ws bal spend /\ wrap64 (rows_total spend) = wrap64 (- settled)).
  { subst spend. destruct (Z.eqb_spec settled 0) as [->|Hn]; [done|].
    cbn [running lg_ws lg_after]. rewrite rows_total_1. cbn [lg_amount].
    split; [split; [reflexivity|split; [wrap_eq|exact I]]|wrap_eq]. }
  destruct R as [R T].
  destruct (fee_rows_running ws bal fee (bal -! settled -! fee) bps charge (RequestID meta) spend) as [R2 T2]; [done|done| |].
  - rewrite <- Z.add_sub_assoc, (wrap64_add_cong (rows_total spend - fee) (- settled - fee)); [wrap_eq|].
    rewrite <- wrap64_sub_l, T, wrap64_sub_l. reflexivity.
  - split; [exact R2|]. etrans; [exact T2|]. rewrite <- wrap64_sub_l, T, wrap64_sub_l. wrap_eq.
Qed.

Lemma ledger_unless_ok (b : bool) ws d a t desc m s v s' :
  (if b then tx_ret tt else insertLXCLedger ws d a t desc m) s = Ok (v, s') <->
  s' = add_ledgers (if b then [] else [mkLedger ws d a t desc m]) s.
Proof.
  pose proof (ledger_if_ok LL key_ws (negb b) ws d a t desc m s v s') as E. by destruct b.
Qed.

(** The postings of the difference, and of its fee. *)
Lemma settle_postings c ws g kind dk model settled fee bps s v1 s1 v s' :
  uuid c = u -> sound_books s -> in_i64 settled -> in_i64 (- settled) -> in_i64 fee -> in_i64 (- fee) ->
  (if settled =? 0 then tx_ret tt
   else postModelEntry c ws kind dk model [mkLeg (agentAccount g) (-! settled); mkLeg "spend" settled]) s = Ok (v1, s1) ->
  (if fee =? 0 then tx_ret tt else postFeeEntry c ws g fee bps dk model) s1 = Ok (v, s') ->
  adjusted ws (Some g) 0 (- (settled + fee)) s s' /\
  agent_lxc_subbudgets s' = agent_lxc_subbudgets s /\ agent_debit_settlements s' = agent_debit_settlements s.
Proof.
  intros Hc B S1 S2 F1 F2 H1 H2.
  assert (A : adjusted ws (Some g) 0 (- settled) s s1 /\
    agent_lxc_subbudgets s1 = agent_lxc_subbudgets s /\ agent_debit_settlements s1 = agent_debit_settlements s).
  { destruct (Z.eqb_spec settled 0) as [->|Hn].
    - apply tx_ret_ok in H1 as [_ ->]. split; [by apply adjusted_refl|done].
    - apply adjusted_posted; [done..|by eapply postModelEntry_posted|].
      eapply (postModelEntry_inv u); [exact Hc| |apply B|exact H1].
      unfold legs_total; csimpl. rewrite (wrap64_id (- settled)) by done. lia. }
  destruct A as (A & K1 & K2). pose proof (adjusted_sound _ _ _ _ _ _ A) as B1.
  assert (A2 : adjusted ws (Some g) 0 (- fee) s1 s' /\
    agent_lxc_subbudgets s' = agent_lxc_subbudgets s1 /\ agent_debit_settlements s' = agent_debit_settlements s1).
  { destruct (Z.eqb_spec fee 0) as [->|Hn].
    - apply tx_ret_ok in H2 as [_ ->]. split; [by apply adjusted_refl|done].
    - apply adjusted_posted; [done..|by eapply postFeeEntry_posted|].
      eapply (postFeeEntry_inv u); [exact Hc|exact F1|exact F2|apply B1|exact H2]. }
  destruct A2 as (A2 & K3 & K4). split; [|by rewrite K3, K4].
  replace (- (settled + fee)) with (- settled + - fee) by lia.
  exact (adjusted_trans ws (Some g) 0 (- settled) 0 (- fee) s s1 s' A A2).
Qed.

Lemma settle_difference_effect c ws key dk agent charge settled fee bps meta b s v s' :
  uuid c = u -> sound_books s -> -1152921504606846976 < settled < 1152921504606846976 ->
  -1152921504606846976 < fee < 1152921504606846976 ->
  in_i64 (lx_balance (lxc_row s ws) - (settled + fee)) -> agent_lxc_subbudgets s !! key = Some b ->
  settle_difference c ws key dk agent charge settled fee bps meta s = Ok (v, s') ->
  adjusted ws agent (- (settled + fee)) (- (settled + fee)) s s' /\
  agent_lxc_subbudgets s' !! key = Some (mkSubBudget (sb_ws b) (sb_ceiling b) (sb_spent b + (settled + fee))) /\
  agent_debit_settlements s' = agent_debit_settlements s.
Proof.
  intros Hc B Hs Hf Hi Lb. pose proof B as (I & P & C). unfold settle_difference. intros H.
  apply tx_bind_ok in H as ([[bal minted] spent] & s0 & Rd & H). apply readLXCBalance_ok in Rd as [Ev ->].
  injection Ev as -> -> ->.
  apply tx_bind_ok in H as (v1 & s1 & H1 & H). apply ledger_unless_ok in H1. subst s1.
  apply tx_bind_ok in H as (v2 & s2 & H2 & H). apply insertPlatformFee_ok in H2. subst s2.
  autorewrite with lxc in H.
  apply tx_bind_ok in H as (v3 & s3 & H3 & H). apply writeLXCBalance_ok in H3. subst s3.
  apply tx_bind_ok in H as (v4 & s4 & H4 & H). rewrite (wrap64_id (settled + fee)) in H4 by (i64_ranges; lia).
  apply bump_spent_ok in H4 as (K & KR & KC & KS & KB & _).
  set (bal := lx_balance (lxc_row s ws)) in *.
  destruct (difference_rows_running ws bal charge settled fee bps meta) as [R T]; [by apply row_in_i64|i64_ranges; lia|].
  match type of K with same_books (set_row _ ?r _) _ =>
    pose proof (adjusted_rows ws agent (difference_rows ws bal charge settled fee bps meta) r (- (settled + fee)) s B R
      (difference_rows_stay _ _ _ _ _ _ _) T Hi) as A
  end.
  cbn [lx_balance lx_minted lx_spent lx_cash] in A. specialize (A ltac:(fold bal; wrap_eq) ltac:(wrap_eq) (C ws)).
  assert (A2 : adjusted ws agent (- (settled + fee)) 0 s s4).
  { rewrite <- (Z.add_0_r (- (settled + fee))). eapply (adjusted_trans ws agent _ 0 0 0); [exact A|].
    apply adjusted_books; [by eapply adjusted_sound|exact K|exact KR|exact KC]. }
  assert (Z : agent_lxc_subbudgets s4 !! key = Some (mkSubBudget (sb_ws b) (sb_ceiling b) (sb_spent b + (settled + fee))) /\
    agent_debit_settlements s4 = agent_debit_settlements s) by (split; [by apply KB|by rewrite KS]).
  destruct Z as [Z1 Z2]. destruct agent as [g|].
  - apply tx_bind_ok in H as (v5 & s5 & H5 & H).
    destruct (settle_postings c ws g _ dk (RequestedModel meta) settled fee bps s4 v5 s5 v s' Hc
      (adjusted_sound _ _ _ _ _ _ A2) ltac:(i64_ranges; lia) ltac:(i64_ranges; lia) ltac:(i64_ranges; lia) ltac:(i64_ranges; lia) H5 H)
      as (A3 & K3 & K4).
    split; [|by rewrite K3, K4]. rewrite <- (Z.add_0_r (- (settled + fee))) at 1. rewrite <- (Z.add_0_l (- (settled + fee))) at 2.
    eapply adjusted_trans; [exact A2|exact A3].
  - apply tx_ret_ok in H as [_ ->]. split; [by eapply adjusted_none|done].
Qed.

(** ** Backing *)

Lemma add_no_ledgers s : add_ledgers [] s = s.
Proof. by destruct s as [[] ? ? ? ?]. Qed.

(** The part of a charge that may fund a royalty: what of it the workspace paid of
    its cash-backed LXC; all of it in a synthetic workspace. *)
Definition royalty_basis s (ws : string) (before charge : Z) (cash : Z) : Prop :=
  let fromCash := cash_spent before (lx_cash (lxc_row s ws)) charge in
  cash = fromCash \/ cash = charge /\ fromCash < charge /\ exists w, workspaces s !! ws = Some w /\ ws_synthetic w = true.

Lemma settle_backing_effect ws agent charge fee s cash s' :
  sound_books s -> settle_backing ws charge fee s = Ok (cash, s') ->
  adjusted ws agent 0 0 s s' /\ agent_lxc_subbudgets s' = agent_lxc_subbudgets s /\
  agent_debit_settlements s' = agent_debit_settlements s /\
  (charge <= 0 -> cash = 0) /\
  (0 < charge -> royalty_basis s ws (lx_balance (lxc_row s ws) +! charge +! fee) charge cash /\
     lx_cash (lxc_row s' ws) = cash_after (lx_balance (lxc_row s ws) +! fee)
       (cash_after (lx_balance (lxc_row s ws) +! charge +! fee) (lx_cash (lxc_row s ws)) charge) fee).
Proof.
  intros B. unfold settle_backing. intros H. destruct (Z.ltb_spec 0 charge) as [Hp|Hn].
  2: { apply tx_ret_ok in H as [-> ->]. split; [by apply adjusted_refl|]. split_and!; done || lia. }
  apply tx_bind_ok in H as ([[bal minted] spent] & s0 & Rd & H). apply readLXCBalance_ok in Rd as [Ev ->].
  injection Ev as -> -> ->.
  apply tx_bind_ok in H as (c1 & s1 & H1 & H). apply consumeCashBacked_ok in H1 as [-> ->].
  apply tx_bind_ok in H as (c2 & s2 & H2 & H). apply consumeCashBacked_ok in H2 as [-> ->].
  apply royaltyBacked_ok in H as [-> RB].
  pose proof B as (I & P & C). set (r := with_cash _ _).
  split; [|split; [reflexivity|split; [reflexivity|split; [lia|intros _; split]]]].
  - rewrite <- (add_no_ledgers s) at 2. apply adjusted_rows; [done|exact Logic.I|reflexivity|reflexivity|..].
    + rewrite Z.add_0_r. by apply row_in_i64.
    + rewrite Z.add_0_r, wrap64_id by by apply row_in_i64. reflexivity.
    + rewrite Z.add_0_r. reflexivity.
    + subst r. unfold with_cash. cbn [lx_cash]. apply cash_after_nonneg, cash_after_nonneg, C.
  - exact RB.
  - rewrite lxc_row_set_eq. reflexivity.
Qed.

(** ** The settle *)

(** What settling the debit [dk] to [delivered] did. *)
Record debit_settled (c : Ctx) (ws dk : string) (cl : SpendClaim) (b : SubBudget) (delivered : Z) (meta : AgentDebitMeta)
    (charge drawn : Z) (out : AgentDebitSettlement) s s' : Prop := {
  ts_charge : charge_for c ws (agent_in s (cl_key cl) ws) b (cl_amount cl) delivered (cl_bps cl) (RequestedModel meta) charge drawn s;
  ts_out : SettledULXC out = charge - cl_amount cl /\ WrittenOffULXC_ out = delivered - charge /\
    SettledFeeULXC out = PlatformFee charge (cl_bps cl) - PlatformFee (cl_amount cl) (cl_bps cl);
  ts_moved : let price := charge + PlatformFee charge (cl_bps cl) in
    let paid := cl_amount cl + PlatformFee (cl_amount cl) (cl_bps cl) in
    adjusted ws (agent_in s (cl_key cl) ws) (drawn + paid - price) (drawn + paid - price) s s' /\
    agent_lxc_subbudgets s' !! cl_key cl = Some (mkSubBudget (sb_ws b) (sb_ceiling b) (sb_spent b + (price - paid)));
  ts_row : agent_debit_settlements s' !! dk = Some (mkDebitSettlement ws (cl_key cl) (agent_in s (cl_key cl) ws)
    (nullIfEmpty (RequestID meta)) (cl_amount cl) delivered (SettledULXC out) (WrittenOffULXC_ out));
}.

Lemma wallet_inv_settlements m s : wallet_inv u key_ws s -> wallet_inv u key_ws (with_agent_debit_settlements m s).
Proof.
  intros W. constructor; [destruct (wi_lxc _ _ _ W); by split|apply (lxc_frame_posting u s); [by constructor|apply W]|apply W..].
Qed.

Lemma adjusted_settlements ws agent m s : sound_books s -> adjusted ws agent 0 0 s (with_agent_debit_settlements m s).
Proof. intros B. by apply adjusted_same. Qed.

(** The claim's own row changes nothing the charge is judged by. *)
Lemma charge_for_settlements c ws agent b estimate delivered bps model charge drawn m s :
  charge_for c ws agent b estimate delivered bps model charge drawn (with_agent_debit_settlements m s) ->
  charge_for c ws agent b estimate delivered bps model charge drawn s.
Proof.
  intros [A B C D]. constructor; [done..|]. intros H. destruct (D H) as (X & Y & al & [Z W] & Q).
  split; [exact X|]. split; [exact Y|]. exists al. split; [|exact Q]. split; [exact Z|].
  destruct agent; [|exact W]. destruct W as [W1 [W2 W3 W4]]. split; [exact W1|]. constructor; assumption.
Qed.

(** What the first row, the charge, the difference and the backing come to. *)
Lemma settle_debit_effect c ws dk delivered meta s out s' cl :
  uuid c = u -> wallet_inv u key_ws s -> lxc_spend_claims s !! dk = Some cl -> agent_debit_settlements s !! dk = None ->
  0 <= cl_amount cl < 1152921504606846976 -> bps_ok (cl_bps cl) -> Z.max delivered 0 < 1152921504606846976 ->
  settleAgentDebit LL c ws dk delivered meta s = Ok (out, s') ->
  exists b charge drawn, agent_lxc_subbudgets s !! cl_key cl = Some b /\
    debit_settled c ws dk cl b (Z.max delivered 0) meta charge drawn out s s'.
Proof.
  intros Hc W Lc Ln He Hb Hd. unfold settleAgentDebit. rewrite tx_guard_bind. intros [_ H].
  replace (if delivered <? 0 then 0 else delivered) with (Z.max delivered 0) in H by (destruct (Z.ltb_spec delivered 0); lia).
  set (dv := Z.max delivered 0) in *. assert (Hdv : 0 <= dv) by lia.
  destruct cl as [key est bps]. cbn [cl_key cl_amount cl_bps] in *. rewrite tx_gets_bind, Lc in H. cbn [cl_key cl_amount cl_bps] in H.
  apply tx_bind_ok in H as (df & s0 & H0 & H). apply bigint_ok in H0 as (-> & -> & _).
  rewrite tx_gets_bind, Ln in H. cbn [is_some] in H.
  apply tx_bind_ok in H as (v0 & s1 & H0 & H). apply tx_modify_ok in H0.
  assert (W1 : wallet_inv u key_ws s1) by (rewrite H0; by apply wallet_inv_settlements).
  assert (A1 : adjusted ws (agent_in s key ws) 0 0 s s1) by (rewrite H0; apply adjusted_settlements, wallet_sound, W).
  rewrite tx_gets_bind in H. assert (Eb : agent_lxc_subbudgets s1 = agent_lxc_subbudgets s) by by rewrite H0.
  rewrite Eb in H. destruct (agent_lxc_subbudgets s !! key) as [b|] eqn:Lb; [|by apply tx_fail_ok in H].
  rewrite tx_gets_bind in H. assert (Ea : agent_in s1 key ws = agent_in s key ws) by by rewrite H0.
  rewrite Ea in H. set (agent := agent_in s key ws) in *.
  apply tx_bind_ok in H as (v1 & s2 & H1 & H).
  assert (s2 = s1) as -> by (destruct agent; [by apply lockAgent_ok in H1 as [-> _]|by apply tx_ret_ok in H1 as [_ ->]]).
  apply tx_bind_ok in H as (charge & s2 & H2 & H).
  apply (settled_charge_effect c ws key dk agent b est dv bps) in H2 as (drawn & CF & A2 & K2 & S2); [|done..].
  pose proof CF as [C1 C2 C3 C4].
  pose proof (PlatformFee_bounds est bps ltac:(i64_ranges; lia) ltac:(lia) Hb) as F1.
  pose proof (PlatformFee_bounds dv bps ltac:(i64_ranges; lia) ltac:(lia) Hb) as F2.
  pose proof (PlatformFee_bounds charge bps ltac:(i64_ranges; lia) ltac:(lia) Hb) as F3.
  assert (D : drawn <= 2305843009213693952) by (destruct (decide (dv + PlatformFee dv bps <= est + PlatformFee est bps));
    [destruct C3; lia|destruct (C4 ltac:(lia)); lia]).
  assert (E1 : charge -! est = charge - est) by (apply wrap64_id; i64_ranges; lia).
  assert (E2 : dv -! charge = dv - charge) by (apply wrap64_id; i64_ranges; lia).
  assert (E3 : PlatformFee charge bps -! PlatformFee est bps = PlatformFee charge bps - PlatformFee est bps) by (apply wrap64_id; i64_ranges; lia).
  rewrite E1, E2, E3 in H. set (settled := charge - est) in *. set (fee := PlatformFee charge bps - PlatformFee est bps) in *.
  pose proof (balance_bounds u key_ws s1 ws W1) as BB. unfold room in BB.
  apply tx_bind_ok in H as (v3 & s3 & H3 & H).
  assert (A3 : adjusted ws agent (- (settled + fee)) (- (settled + fee)) s2 s3 /\
    agent_lxc_subbudgets s3 !! key = Some (mkSubBudget (sb_ws b) (sb_ceiling b) (sb_spent b + (settled + fee))) /\
    agent_debit_settlements s3 = agent_debit_settlements s2).
  { destruct ((settled =? 0) && (fee =? 0)) eqn:Z.
    - apply tx_ret_ok in H3 as [_ ->]. replace (settled + fee) with 0 by lia. split; [by eapply adjusted_refl, adjusted_sound|].
      rewrite K2, Eb, Lb, Z.add_0_r. destruct b. split; reflexivity.
    - eapply settle_difference_effect in H3; [exact H3|exact Hc|by eapply adjusted_sound|lia|lia| |by rewrite K2, Eb].
      rewrite (sp_bal _ _ _ _ _ _ _ (ad_step _ _ _ _ _ _ A2)). i64_ranges. lia. }
  destruct A3 as (A3 & K3 & S3).
  apply tx_bind_ok in H as (cash & s4 & H4 & H).
  apply (settle_backing_effect ws agent) in H4 as (A4 & K4 & S4 & _); [|by eapply adjusted_sound].
  rewrite tx_guard_bind in H. destruct H as [_ H].
  apply tx_bind_ok in H as (v5 & s5 & H5 & H). apply tx_modify_ok in H5. apply tx_ret_ok in H as [-> ->].
  assert (A5 : adjusted ws agent 0 0 s4 s5) by (rewrite H5; by eapply adjusted_settlements, adjusted_sound).
  exists b, charge, drawn. split; [done|]. constructor; cbn [cl_key cl_amount cl_bps SettledULXC WrittenOffULXC_ SettledFeeULXC].
  - fold agent. rewrite H0 in CF. by eapply charge_for_settlements.
  - done.
  - cbn zeta. fold agent. split.
    + replace (drawn + (est + PlatformFee est bps) - (charge + PlatformFee charge bps))
        with (0 + drawn + (- (settled + fee)) + 0 + 0) by (subst settled fee; lia).
      pose proof (adjusted_trans _ _ _ _ _ _ _ _ _ A1 A2) as B2. pose proof (adjusted_trans _ _ _ _ _ _ _ _ _ B2 A3) as B3.
      pose proof (adjusted_trans _ _ _ _ _ _ _ _ _ B3 A4) as B4. exact (adjusted_trans _ _ _ _ _ _ _ _ _ B4 A5).
    + rewrite H5. cbn. rewrite K4, K3. do 2 f_equal. subst settled fee. lia.
  - rewrite H5. cbn. rewrite lookup_alter_eq, S4, S3, S2, H0. cbn. by rewrite lookup_insert_eq.
Qed.

(** ** The wallet after a settle *)

Lemma debit_settled_wallet c ws dk cl b delivered meta charge drawn out s s' :
  wallet_inv u key_ws s -> 0 <= cl_amount cl < 1152921504606846976 -> bps_ok (cl_bps cl) ->
  0 <= delivered < 1152921504606846976 ->
  lx_balance (lxc_row s ws) + held_sum s ws + 2305843009213693952 <= room ->
  debit_settled c ws dk cl b delivered meta charge drawn out s s' -> wallet_inv u key_ws s'.
Proof.
  intros W He Hb Hd HR [[C1 C2 C3 C4] _ [[S A R K _] _] _].
  pose proof (PlatformFee_bounds (cl_amount cl) (cl_bps cl) ltac:(i64_ranges; lia) ltac:(lia) Hb) as F1.
  pose proof (PlatformFee_bounds delivered (cl_bps cl) ltac:(i64_ranges; lia) ltac:(lia) Hb) as F2.
  pose proof (PlatformFee_bounds charge (cl_bps cl) ltac:(i64_ranges; lia) ltac:(lia) Hb) as F3.
  pose proof (wi_solvent _ _ _ W ws) as Sv. set (agent := agent_in s (cl_key cl) ws) in *.
  set (paid := cl_amount cl + PlatformFee (cl_amount cl) (cl_bps cl)) in *.
  set (price := charge + PlatformFee charge (cl_bps cl)) in *.
  assert (B : drawn + paid - price <= 2305843009213693952 /\
    match agent with
    | Some g => price - paid <= Z.max (account_balance s ws (agentAccount g) + drawn) 0
    | None => drawn = 0 /\ price - paid <= Z.max (lx_balance (lxc_row s ws) - allocated s ws) 0
    end).
  { destruct (decide (delivered + PlatformFee delivered (cl_bps cl) <= paid)) as [Hle|Hgt].
    - destruct (C3 Hle) as [-> ->]. destruct agent; lia.
    - destruct (C4 ltac:(lia)) as (L1 & L2 & al & [L3 L4] & L5 & _). split.
      + assert (paid <= price); [|lia]. subst paid price.
        pose proof (PlatformFee_mono (cl_amount cl) charge (cl_bps cl) L1 ltac:(i64_ranges; lia) ltac:(i64_ranges; lia) Hb). lia.
      + unfold free_balance in L5. destruct agent; [destruct L4; lia|]. destruct L4 as [-> _]. lia. }
  destruct B as [B1 B2].
  eapply (stepped_inv u key_ws ws); [exact W|exact S|destruct agent; cbn [is_some]; lia|lia| | |].
  - intros w a Ha. rewrite A by done. pose proof (wi_held _ _ _ W w a Ha) as N0. case_bool_decide as E; [|lia].
    destruct E as [-> E]. destruct agent as [g|]; [|done]. injection E as ->. lia.
  - rewrite R. apply W.
  - intros k g w. rewrite K. apply W.
Qed.

Lemma settle_replay c ws dk delivered meta s cl d :
  ws <> ""%string -> dk <> ""%string -> in_i64 delivered ->
  lxc_spend_claims s !! dk = Some cl -> 0 <= cl_amount cl -> agent_debit_settlements s !! dk = Some d ->
  cl_amount cl < 1152921504606846976 -> SettleAgentDebit LL c ws dk delivered meta s = Ok (no_settlement, s).
Proof.
  intros Hw Hk Hi Lc He Ld He2. apply committed_read. unfold settleAgentDebit.
  rewrite run_guard. cbn [missing existsb]. rewrite !bool_decide_eq_false_2 by done. cbn [orb negb].
  rewrite run_gets, Lc. erewrite run_bind; [|apply bigint_ok; split_and!; [done..|]].
  - rewrite run_gets, Ld. reflexivity.
  - i64_ranges. destruct (Z.ltb_spec delivered 0); lia.
Qed.
End Effect.

(** C35: settling a pre-serve debit charges what the question cost: less than the
    estimate is refunded in full; more is charged as far as the key's limits and the
    workspace's LXC allow, and no charge larger than the one made fits there; the part
    of the cost left is written off. The books, the agent's account and the key's spend
    move by exactly the difference and its fee, the wallet stays sound, and settling the
    debit again changes nothing. *)
Theorem debit_settles_to_cost (u : N -> string) (LL : string -> option Location) key_ws c ws dk delivered meta s out s' cl :
  Inj (=) (=) u -> uuid c = u -> wallet_inv u key_ws s -> lxc_spend_claims s !! dk = Some cl ->
  0 <= cl_amount cl < 1152921504606846976 -> bps_ok (cl_bps cl) -> Z.max delivered 0 < 1152921504606846976 ->
  lx_balance (lxc_row s ws) + held_sum s ws + 2305843009213693952 <= room ->
  SettleAgentDebit LL c ws dk delivered meta s = Ok (out, s') ->
  (agent_debit_settlements s !! dk <> None /\ out = no_settlement /\ s' = s) \/
  (agent_debit_settlements s !! dk = None /\
   exists b charge drawn, agent_lxc_subbudgets s !! cl_key cl = Some b /\
     debit_settled u LL c ws dk cl b (Z.max delivered 0) meta charge drawn out s s' /\ wallet_inv u key_ws s' /\
     forall c' d' meta', in_i64 d' -> SettleAgentDebit LL c' ws dk d' meta' s' = Ok (no_settlement, s')).
Proof.
  intros Hu Hc W Lc He Hb Hd HR H. apply committed_ok in H.
  assert (G : ws <> ""%string /\ dk <> ""%string).
  { unfold settleAgentDebit in H. rewrite tx_guard_bind in H. destruct H as [G _]. cbn [missing existsb] in G.
    repeat case_bool_decide; done. }
  destruct (agent_debit_settlements s !! dk) as [d|] eqn:Ls; [left|right].
  - split; [done|]. unfold settleAgentDebit in H. rewrite tx_guard_bind in H. destruct H as [_ H].
    rewrite tx_gets_bind, Lc in H. apply tx_bind_ok in H as (df & s0 & H0 & H). apply bigint_ok in H0 as (_ & -> & _).
    rewrite tx_gets_bind, Ls in H. by apply tx_ret_ok in H as [-> ->].
  - split; [done|]. apply (settle_debit_effect u LL key_ws c ws dk delivered meta s out s' cl Hc W Lc Ls He Hb Hd) in H
      as (b & charge & drawn & Lb & D).
    exists b, charge, drawn. split; [done|]. split; [exact D|].
    split; [by eapply (debit_settled_wallet u LL key_ws c ws dk cl b); [..|exact D]; try done; lia|].
    destruct D as [_ _ [M _] Lr]. intros c' d' meta' Hi.
    eapply (settle_replay LL c' ws dk d' meta' s' cl); [apply G|apply G|done| |lia|exact Lr|lia].
    by rewrite (ad_claims _ _ _ _ _ _ _ M).
Qed.

(** The question of [demo_at 8] cost more than its agent has: 5,000 µLXC against an
    estimate of 100. *)
Definition dear_question : AgentDebitMeta := mkMeta "m" "" "q" "" 0 0 0.
Definition dear_settled : Store :=
  match SettleAgentDebit utc_only demo_ctx "ws" "d2" 5000 dear_question (demo_at 8) with
  | Ok (_, s') => s'
  | Err _ => demo_at 8
  end.

Lemma debit_settles_to_cost_witness :
  SettleAgentDebit utc_only demo_ctx "ws" "d2" 5000 dear_question (demo_at 8) =
    Ok (mkSettlement 1495 3405 1595 82, dear_settled) /\ books dear_settled "ws" = (3000, 0) /\
  agent_debit_settlements (demo_at 8) !! "d2"%string = None /\ wallet_inv (pretty (A:=N)) demo_keys dear_settled.
Proof.
  assert (E : SettleAgentDebit utc_only demo_ctx "ws" "d2" 5000 dear_question (demo_at 8) =
    Ok (mkSettlement 1495 3405 1595 82, dear_settled)) by (vm_compute; reflexivity).
  assert (Ls : agent_debit_settlements (demo_at 8) !! "d2"%string = None) by (vm_compute; reflexivity).
  assert (Lc : lxc_spend_claims (demo_at 8) !! "d2"%string = Some (mkClaim "k1" 100 550)) by (vm_compute; reflexivity).
  assert (R : lx_balance (lxc_row (demo_at 8) "ws") + held_sum (demo_at 8) "ws" + 2305843009213693952 <= room)
    by (vm_compute; congruence).
  split; [exact E|]. split; [vm_compute; reflexivity|]. split; [exact Ls|].
  assert (B : 0 <= cl_amount (mkClaim "k1" 100 550) < 1152921504606846976 /\ bps_ok 550 /\ Z.max 5000 0 < 1152921504606846976)
    by (vm_compute; split_and!; congruence).
  assert (U : uuid demo_ctx = pretty (A:=N)) by reflexivity.
  assert (V : Inj (=) (=) (pretty (A:=N))) by apply _.
  pose proof (debit_settles_to_cost (pretty (A:=N)) utc_only demo_keys demo_ctx "ws" "d2" 5000 dear_question (demo_at 8)
    (mkSettlement 1495 3405 1595 82) dear_settled (mkClaim "k1" 100 550) V U (demo_at_inv 8) Lc
    (proj1 B) (proj1 (proj2 B)) (proj2 (proj2 B)) R E) as T.
  destruct T as [T|(_ & b & charge & drawn & _ & _ & W & _)]; [exact (False_ind _ (proj1 T Ls))|exact W].
Defined.
