(* ===== verification/Shifts.v ===== *)
(** Steps that move LXC between workspaces and between accounts: what each does to every
    workspace's balance and every agent's, composed by adding, and when such a step keeps
    the wallet sound. *)
From S2P Require Import Prelude Money Tables Postings Clock Lxc Rules CreditLine Agents Reservation.
Open Scope Z_scope.
Open Scope i64_scope.

Implicit Types (s : Store).

(** ** Rows of credits that pass between workspaces *)

Lemma ledger_sum_cons e l w : ledger_sum (e :: l) w = (if bool_decide (lg_ws e = w) then lg_amount e else 0) + ledger_sum l w.
Proof. done. Qed.

Lemma passed_cons e l w :
  passed (e :: l) w = (if bool_decide (lg_ws e = w) && passing e then lg_amount e else 0) + passed l w.
Proof. done. Qed.

Lemma passing_inv ws e r s :
  lxc_inv s -> lg_ws e = ws -> passing e = true ->
  lg_after e = wrap64 (lx_balance (lxc_row s ws) + lg_amount e) -> lx_balance r = lg_after e ->
  lx_minted r = lx_minted (lxc_row s ws) -> lx_spent r = lx_spent (lxc_row s ws) ->
  lxc_inv (set_row ws r (add_ledgers [e] s)).
Proof.
  intros [I1 I2 I3] Hw Hp Ha Hb Hm Hs.
  assert (L : lxc_ledger (set_row ws r (add_ledgers [e] s)) = e :: lxc_ledger s) by done.
  split; rewrite ?L.
  - intros w. rewrite ledger_sum_cons, Hw, lxc_row_set. destruct (decide (ws = w)) as [<-|Hne].
    + rewrite bool_decide_eq_true_2 by done. rewrite Hb, Ha, I1. wrap_eq.
    + rewrite bool_decide_eq_false_2, Z.add_0_l by done. apply I1.
  - intros w. rewrite passed_cons, Hw, Hp, andb_true_r, lxc_row_set. destruct (decide (ws = w)) as [<-|Hne].
    + rewrite bool_decide_eq_true_2 by done. rewrite Hb, Ha, I2, Hm, Hs. wrap_eq.
    + rewrite bool_decide_eq_false_2, Z.add_0_l by done. apply I2.
  - cbn [running_balances]. split; [|exact I3]. rewrite ledger_sum_cons, Hw, bool_decide_eq_true_2 by done.
    rewrite Ha, I1. wrap_eq.
Qed.

(** ** Shifts *)

Section Shifts.
Context (u : N -> string).

(** Every workspace's balance moved by [dbal], every kept account's by [dacc], and what
    the agents of each workspace hold by [dalloc]. *)
Record shifted (dbal : string -> Z) (dacc : string -> string -> Z) (dalloc : string -> Z) s s' : Prop := {
  sf_frame : move_frame s s';
  sf_lxc : lxc_inv s';
  sf_post : posting_inv u s';
  sf_bal w : lx_balance (lxc_row s' w) = lx_balance (lxc_row s w) + dbal w;
  sf_acc w a : shared_account a = false -> account_balance s' w a = account_balance s w a + dacc w a;
  sf_alloc w : allocated s' w = allocated s w + dalloc w;
  sf_cash w : lx_cash (lxc_row s' w) = lx_cash (lxc_row s w);
}.

Definition nothing : string -> Z := fun _ => 0.
Definition none2 : string -> string -> Z := fun _ _ => 0.

Lemma shifted_trans b1 c1 a1 b2 c2 a2 s1 s2 s3 :
  shifted b1 c1 a1 s1 s2 -> shifted b2 c2 a2 s2 s3 ->
  shifted (fun w => b1 w + b2 w) (fun w a => c1 w a + c2 w a) (fun w => a1 w + a2 w) s1 s3.
Proof.
  intros [F1 L1 P1 B1 C1 A1 K1] [F2 L2 P2 B2 C2 A2 K2]. split; try done.
  - by etrans.
  - intros w. rewrite B2, B1. lia.
  - intros w a Ha. rewrite C2, C1 by done. lia.
  - intros w. rewrite A2, A1. lia.
  - intros w. by rewrite K2, K1.
Qed.

Lemma shifted_ext b1 c1 a1 b2 c2 a2 s s' :
  (forall w, b1 w = b2 w) -> (forall w a, shared_account a = false -> c1 w a = c2 w a) -> (forall w, a1 w = a2 w) ->
  shifted b1 c1 a1 s s' -> shifted b2 c2 a2 s s'.
Proof.
  intros Eb Ec Ea [F L P B C A K]. split; try done; intros w; [by rewrite B, Eb|intros a Ha; by rewrite C, Ec|by rewrite A, Ea].
Qed.

Definition sound s : Prop := lxc_inv s /\ posting_inv u s.

Lemma shifted_sound b c a s s' : shifted b c a s s' -> sound s'.
Proof. intros S. split; apply S. Qed.

(** Nothing of the wallet's books moves. *)
Lemma shifted_same s s' :
  sound s -> move_frame s s' -> st_lxc s' = st_lxc s ->
  agent_postings s' = agent_postings s -> agent_account_balances s' = agent_account_balances s ->
  (uuid_draws s <= uuid_draws s')%N -> shifted nothing none2 nothing s s'.
Proof.
  intros [I P] F E Ep Eb Hd. assert (R : forall w, lxc_row s' w = lxc_row s w) by (intros w; unfold lxc_row; by rewrite E).
  split; [done|by eapply lxc_inv_same|by eapply posting_inv_same| | | |].
  - intros w. rewrite R. unfold nothing. lia.
  - intros w a _. unfold account_balance, none2. rewrite Eb. lia.
  - intros w. unfold allocated, nothing. rewrite Eb. lia.
  - intros w. by rewrite R.
Qed.

Lemma shifted_refl s : sound s -> shifted nothing none2 nothing s s.
Proof. intros B. apply shifted_same; done || lia. Qed.

Lemma shifted_judged s s' : sound s -> judge_frame s s' -> shifted nothing none2 nothing s s'.
Proof. intros B F. apply shifted_same; [done|by apply judge_move_frame|apply F..]. Qed.

Lemma set_row_move_frame ws r rows s : move_frame s (set_row ws r (add_ledgers rows s)).
Proof. by constructor. Qed.

(** A workspace's row rewritten: its balance and its lifetime stay. *)
Lemma shifted_row ws r s :
  sound s -> lx_balance r = lx_balance (lxc_row s ws) -> lx_minted r = lx_minted (lxc_row s ws) ->
  lx_spent r = lx_spent (lxc_row s ws) -> lx_cash r = lx_cash (lxc_row s ws) ->
  shifted nothing none2 nothing s (set_row ws r s).
Proof.
  intros [[I1 I2 I3] P] Hb Hm Hs Hc.
  assert (R : forall w, lx_balance (lxc_row (set_row ws r s) w) = lx_balance (lxc_row s w) /\
    lx_minted (lxc_row (set_row ws r s) w) - lx_spent (lxc_row (set_row ws r s) w) =
    lx_minted (lxc_row s w) - lx_spent (lxc_row s w) /\
    lx_cash (lxc_row (set_row ws r s) w) = lx_cash (lxc_row s w)).
  { intros w. rewrite lxc_row_set. destruct (decide (ws = w)) as [<-|]; [rewrite Hm, Hs; auto|done]. }
  split; [by constructor| |by apply (lxc_frame_posting u s)|..].
  - split; [intros w; destruct (R w) as (-> & _ & _); apply I1|intros w; destruct (R w) as (-> & -> & _); apply I2|exact I3].
  - intros w. destruct (R w) as (-> & _ & _). unfold nothing. lia.
  - intros w a _. unfold none2. rewrite Z.add_0_r. reflexivity.
  - intros w. unfold nothing. rewrite Z.add_0_r. reflexivity.
  - intros w. by destruct (R w) as (_ & _ & ->).
Qed.

Lemma shifted_touch ws s : sound s -> shifted nothing none2 nothing s (set_row ws (lxc_row s ws) s).
Proof. intros B. by apply shifted_row. Qed.

Definition at_ws (ws : string) (x : Z) (w : string) : Z := if bool_decide (ws = w) then x else 0.

(** Credits passed in or out of [ws]. *)
Lemma shifted_passing ws e r s :
  sound s -> lg_ws e = ws -> passing e = true -> in_i64 (lx_balance (lxc_row s ws) + lg_amount e) ->
  lg_after e = wrap64 (lx_balance (lxc_row s ws) + lg_amount e) -> lx_balance r = lg_after e ->
  lx_minted r = lx_minted (lxc_row s ws) -> lx_spent r = lx_spent (lxc_row s ws) -> lx_cash r = lx_cash (lxc_row s ws) ->
  shifted (at_ws ws (lg_amount e)) none2 nothing s (set_row ws r (add_ledgers [e] s)).
Proof.
  intros [I P] Hw Hp Hi Ha Hb Hm Hs Hc. split; [by constructor|by apply passing_inv|by apply (lxc_frame_posting u s)|..].
  - intros w. unfold at_ws. rewrite lxc_row_set. destruct (decide (ws = w)) as [<-|].
    + rewrite bool_decide_eq_true_2 by done. rewrite Hb, Ha. by apply wrap64_id.
    + rewrite bool_decide_eq_false_2, Z.add_0_r by done. reflexivity.
  - intros w a _. unfold none2. rewrite Z.add_0_r. reflexivity.
  - intros w. unfold nothing. rewrite Z.add_0_r. reflexivity.
  - intros w. rewrite lxc_row_set. by destruct (decide (ws = w)) as [<-|].
Qed.

(** ** Entries of two postings, in one workspace or two *)

Definition pair_acc (p q : Posting) (w a : string) : Z :=
  (if bool_decide (ps_ws p = w /\ ps_account p = a) then ps_amount p else 0) +
  (if bool_decide (ps_ws q = w /\ ps_account q = a) then ps_amount q else 0).

Definition held_part (p : Posting) (w : string) : Z :=
  if bool_decide (ps_ws p = w) && held_account (ps_account p) then ps_amount p else 0.

Lemma insert_posting_partial entry p net s r s' :
  ps_entry p = entry -> partial_inv u entry net s -> insert_posting p s = Ok (r, s') ->
  partial_inv u entry (ps_amount p + net) s'.
Proof.
  intros He I H. replace (ps_amount p + net) with (legs_total [mkLeg (ps_account p) (ps_amount p)] + net)
    by (unfold legs_total; csimpl; lia).
  eapply (insert_legs_partial u entry (fun l => mkPosting entry (ps_ws p) (ps_account p) (leg_amount l) (ps_kind p) (ps_ref p)
    (ps_model p) (ps_bps p) (ps_memo p) (ps_at p))); [done|exact I|].
  cbn [insert_legs]. apply tx_bind_ok. exists r, s'. destruct p; cbn in *. subst. by destruct r.
Qed.

Lemma shifted_entry entry p q s r1 s1 r2 s2 :
  sound s -> (forall n, (uuid_draws s <= n)%N -> entry <> u n) -> ps_entry p = entry -> ps_entry q = entry ->
  ps_amount p + ps_amount q = 0 -> insert_posting p s = Ok (r1, s1) -> insert_posting q s1 = Ok (r2, s2) ->
  shifted nothing (pair_acc p q) (fun w => held_part p w + held_part q w) s s2.
Proof.
  intros [I [S1 I1 B1 F1]] Hd Ep Eq Hz H1 H2.
  assert (Q0 : partial_inv u entry 0 s).
  { split; [exact S1|exact I1| |exact F1|exact Hd]. intros e. etrans; [apply B1|]. by case_bool_decide. }
  pose proof (insert_posting_partial _ p 0 s r1 s1 Ep Q0 H1) as Q1.
  pose proof (insert_posting_partial _ q _ s1 r2 s2 Eq Q1 H2) as [S2 I2 B2 F2 _].
  apply insert_posting_ok in H1 as (_ & -> & _). apply insert_posting_ok in H2 as (_ & -> & _).
  assert (F : post_frame s (posted q (posted p s))) by (etrans; apply posted_frame).
  assert (E : st_lxc (posted q (posted p s)) = st_lxc s) by apply F.
  assert (R : forall w, lxc_row (posted q (posted p s)) w = lxc_row s w) by (intros w; unfold lxc_row; by rewrite E).
  split; [by apply post_move_frame|by eapply lxc_inv_same| | | | |].
  - split; [exact S2|exact I2| |exact F2]. intros e. rewrite B2. case_bool_decide; lia.
  - intros w. rewrite R. unfold nothing. lia.
  - intros w a Ha. rewrite !posted_balance by done. unfold pair_acc. lia.
  - intros w. rewrite !posted_allocated. unfold held_part. lia.
  - intros w. by rewrite R.
Qed.

Lemma shifted_pair {Hu : Inj (=) (=) u} p q s r1 s1 r2 s2 :
  sound s -> ps_entry p = u (uuid_draws s) -> ps_entry q = u (uuid_draws s) -> ps_amount p + ps_amount q = 0 ->
  insert_posting p (with_uuid_draws (N.succ (uuid_draws s)) s) = Ok (r1, s1) -> insert_posting q s1 = Ok (r2, s2) ->
  shifted nothing (pair_acc p q) (fun w => held_part p w + held_part q w) s s2.
Proof.
  intros B Ep Eq Hz H1 H2. set (s0 := with_uuid_draws (N.succ (uuid_draws s)) s) in *.
  assert (S0 : shifted nothing none2 nothing s s0) by (apply shifted_same; [done..|cbn; lia]).
  assert (S : shifted nothing (pair_acc p q) (fun w => held_part p w + held_part q w) s0 s2).
  { eapply shifted_entry; [by eapply shifted_sound| |exact Ep|exact Eq|exact Hz|exact H1|exact H2].
    cbn. intros n Hn E%Hu. lia. }
  eapply shifted_ext; [..|exact (shifted_trans _ _ _ _ _ _ _ _ _ S0 S)]; intros; unfold nothing, none2; lia.
Qed.

(** ** The steps of a payment on the LXC tables *)

(** Nothing but the LXC tables moves, and what moves is counted. *)
Definition lxc_shift (b : string -> Z) s s' : Prop := shifted b none2 nothing s s' /\ lxc_frame s s'.

Lemma lxc_shift_trans b1 b2 s1 s2 s3 :
  lxc_shift b1 s1 s2 -> lxc_shift b2 s2 s3 -> lxc_shift (fun w => b1 w + b2 w) s1 s3.
Proof.
  intros [S1 F1] [S2 F2]. split; [|by etrans]. eapply shifted_ext; [..|exact (shifted_trans _ _ _ _ _ _ _ _ _ S1 S2)]; done.
Qed.

Lemma lxc_shift_set ws r s :
  sound s -> lx_balance r = lx_balance (lxc_row s ws) -> lx_minted r = lx_minted (lxc_row s ws) ->
  lx_spent r = lx_spent (lxc_row s ws) -> lx_cash r = lx_cash (lxc_row s ws) -> lxc_shift nothing s (set_row ws r s).
Proof. intros. split; [by apply shifted_row|by constructor]. Qed.

Lemma lxc_shift_refl s : sound s -> lxc_shift nothing s s.
Proof. intros. split; [by apply shifted_refl|done]. Qed.

Lemma read_shift ws s v s' : sound s -> readLXCBalance ws s = Ok (v, s') -> lxc_shift nothing s s'.
Proof. intros B H. apply readLXCBalance_ok in H as [_ ->]. by apply lxc_shift_set. Qed.

Lemma test_shift ws amount s v s' : sound s -> addTestFunded ws amount s = Ok (v, s') -> lxc_shift nothing s s'.
Proof.
  intros B H. unfold addTestFunded in H. case_match; [apply tx_ret_ok in H as [_ ->]; by apply lxc_shift_refl|].
  rewrite tx_gets_bind in H. destruct (lxc_balances s !! ws) as [r|] eqn:E; [|apply tx_ret_ok in H as [_ ->]; by apply lxc_shift_refl].
  apply tx_bind_ok in H as (z & s1 & H1 & H). apply bigint_ok in H1 as (-> & -> & _). apply tx_modify_ok in H as ->.
  assert (R : lxc_row s ws = r) by (unfold lxc_row; by rewrite E). apply lxc_shift_set; [done|by rewrite R..].
Qed.

(** Credits read, recorded as passing and written. *)
Lemma pass_shift ws delta typ desc meta s v s' :
  sound s -> typ = LXCTypeAgentTransfer \/ typ = LXCTypeAgentEscrow -> in_i64 (lx_balance (lxc_row s ws) + delta) ->
  (let! (bal, minted, spent) := readLXCBalance ws in
   insertLXCLedger ws delta (bal +! delta) typ desc meta ;;; writeLXCBalance ws (bal +! delta) minted spent) s = Ok (v, s') ->
  lxc_shift (at_ws ws delta) s s'.
Proof.
  intros B Ht Hi H. apply tx_bind_ok in H as ([[bal minted] spent] & s1 & H1 & H).
  apply readLXCBalance_ok in H1 as [[= -> -> ->] ->].
  apply tx_bind_ok in H as (v1 & s2 & H2 & H). apply insertLXCLedger_ok in H2 as ->.
  rewrite add_ledger_set_row in H. apply writeLXCBalance_ok in H as ->. rewrite add_ledger_1.
  split; [|by constructor].
  apply (shifted_passing ws (mkLedger ws delta (wrap64 (lx_balance (lxc_row s ws) + delta)) typ desc meta)); try done.
  unfold passing. by rewrite bool_decide_eq_true_2.
Qed.

(** ** The wallet after a shift *)

Lemma wallet_sound_books key_ws s : wallet_inv u key_ws s -> sound s.
Proof. intros W. split; apply W. Qed.

Lemma shifted_wallet key_ws b c a s s' :
  wallet_inv u key_ws s -> shifted b c a s s' ->
  (forall w, a w - b w <= lx_balance (lxc_row s w) - allocated s w) ->
  (forall w, b w <= room - (lx_balance (lxc_row s w) + held_sum s w)) ->
  (forall w acc, held_account acc = true -> 0 <= account_balance s w acc + c w acc) ->
  wallet_inv u key_ws s'.
Proof.
  intros W [F L P B C A K] Hs Hr Hc. assert (Er : lxc_reservations s' = lxc_reservations s) by apply F.
  assert (Hh : forall w, held_sum s' w = held_sum s w) by (intros w; unfold held_sum; by rewrite Er).
  split; try done.
  - intros w acc Ha. rewrite C by by apply held_not_shared. by apply Hc.
  - intros w. rewrite B, A. specialize (Hs w). lia.
  - intros w. rewrite B, Hh. specialize (Hr w). lia.
  - intros w. rewrite K. apply W.
  - rewrite Er. apply W.
  - intros k g w. rewrite (agent_of_key_frame _ _ _ F). apply W.
Qed.
End Shifts.
