(* ===== verification/Desk.v ===== *)
(** The state of the payments between agents: the wallet's store and the tables the
    transfers, the escrows and the capabilities keep beside it ([migrations/0158],
    [0159], [0162], [0194], [0234], [0235]), those of the money in currencies
    ([0221], [0236], [0240], [0245], [0252]), and the transactions over them all. *)
From S2P Require Import Prelude Money Tables Postings Clock Lxc Rules CreditLine Agents Reservation.
Open Scope Z_scope.
Open Scope i64_scope.

Implicit Types (s : Store).

(** ** Tables *)

Inductive CapabilityClass : Type := ClassGreen | ClassAmber | ClassRed.

#[export] Instance CapabilityClass_eq_dec : EqDecision CapabilityClass.
Proof. solve_decision. Defined.

Inductive ClearanceAction : Type := Clear | Revoke.

#[export] Instance ClearanceAction_eq_dec : EqDecision ClearanceAction.
Proof. solve_decision. Defined.

(** A row of [wallet_clearances]; the table is append-only and kept newest first. *)
Record ClearanceRow := mkClearance {
  wc_capability : string;
  wc_action : ClearanceAction;
  wc_operator : string;
  wc_reference : string;
  wc_countries : list string;
  wc_partner : string;
  wc_licence : string;
  wc_expires : option Z;
  wc_at : Z;
}.

(** A row of [compliance_freezes], by workspace. *)
Record FreezeRow := mkFreeze {
  fz_case : string;
  fz_reason : string;
  fz_by : string;
  fz_at : Z;
}.

(** A row of [agent_transfers]. *)
Record TransferRow := mkTransfer {
  tf_entry : string;
  tf_from_ws : string;
  tf_from : string;
  tf_to_ws : string;
  tf_to : string;
  tf_amount : Z;
  tf_memo : string;
  tf_class : CapabilityClass;
  tf_test : Z;
  tf_request : string;
  tf_schedule : string;
  tf_refund_of : string;
  tf_loan : string;
  tf_at : Z;
}.

Inductive RequestStatus : Type := ReqPending | ReqAccepted | ReqDeclined.

#[export] Instance RequestStatus_eq_dec : EqDecision RequestStatus.
Proof. solve_decision. Defined.

(** A row of [agent_money_requests]. *)
Record MoneyRequest := mkMoneyRequest {
  mr_from_ws : string;
  mr_from : string;
  mr_to_ws : string;
  mr_to : string;
  mr_amount : Z;
  mr_memo : string;
  mr_status : RequestStatus;
  mr_transfer : string;
  mr_decided : option Z;
}.

Inductive EscrowStatus : Type := EscHeld | EscDisputed | EscReleased | EscReturned.

#[export] Instance EscrowStatus_eq_dec : EqDecision EscrowStatus.
Proof. solve_decision. Defined.

(** A row of [agent_escrows]. *)
Record EscrowRow := mkEscrow {
  es_payer_ws : string;
  es_payer : string;
  es_payee_ws : string;
  es_payee : string;
  es_amount : Z;
  es_memo : string;
  es_class : CapabilityClass;
  es_test : Z;
  es_release : Z;
  es_status : EscrowStatus;
  es_created : Z;
  es_decided : option Z;
}.

(** A row of [agent_escrow_events]. *)
Record EscrowEventRow := mkEscrowEvent {
  ev_escrow : string;
  ev_kind : EscrowStatus;
  ev_actor : string;
  ev_operator : string;
  ev_detail : string;
  ev_entry : string;
}.

Record PayTables := mkPayTables {
  agent_handles : gmap string string;            (* [agent_accounts.handle] *)
  wallet_clearances : list ClearanceRow;
  compliance_freezes : gmap string FreezeRow;
  capability_terms : list (string * Z);          (* capability, version *)
  capability_terms_acceptances : list (string * string * Z);  (* workspace, capability, version *)
  agent_transfers : gmap string TransferRow;
  agent_money_requests : gmap string MoneyRequest;
  agent_escrows : gmap string EscrowRow;
  agent_escrow_events : list EscrowEventRow;     (* newest first *)
}.

Definition no_payments : PayTables := mkPayTables ∅ [] ∅ [] [] ∅ ∅ ∅ [].

(** A row of [money_accounts]; [""] is a column that names nothing. *)
Record MoneyAccount := mkMoneyAccount {
  ma_ws : string;
  ma_agent : string;
  ma_currency : string;
  ma_purpose : string;
  ma_status : string;
  ma_name : string;
  ma_partner_ref : string;
  ma_parent : string;
  ma_created : Z;
}.

(** One line of a money entry. *)
Record MoneyPosting := mkMoneyPosting {
  mn_account : string;
  mn_amount : Z;
  mn_currency : string;
  mn_funding : string;
}.

(** A row of [money_entries]. *)
Record EntryRow := mkEntryRow {
  en_id : string;
  en_ws : string;
  en_capability : string;
  en_kind : string;
  en_key : string;
  en_memo : string;
  en_counterparty : string;
  en_partner_ref : string;
  en_created : Z;
}.

(** A row of [money_postings], its line in the entry. *)
Record MoneyLine := mkMoneyLine {
  ln_entry : string;
  ln_line : Z;
  ln_posting : MoneyPosting;
}.

(** A row of [money_payees]. *)
Record PayeeRow := mkPayeeRow {
  sv_ws : string;
  sv_name : string;
  sv_country : string;
  sv_sort_code : string;
  sv_account_number : string;
  sv_iban : string;
  sv_bic : string;
  sv_routing_number : string;
  sv_check : string;
  sv_suggested : string;
  sv_checked_by : string;
  sv_confirmed : option Z;
  sv_confirmed_by : string;
  sv_created : Z;
}.

(** A row of [money_payment_quotes]. *)
Record QuoteRow := mkQuoteRow {
  qu_ws : string;
  qu_account : string;
  qu_agent : string;
  qu_payee : string;
  qu_payee_name : string;
  qu_country : string;
  qu_amount : Z;
  qu_currency : string;
  qu_cost : Z;
  qu_fee : Z;
  qu_arrives : Z;
  qu_arrives_currency : string;
  qu_rate : string;
  qu_funding : string;
  qu_partner : string;
  qu_partner_ref : string;
  qu_expires : Z;
  qu_created : Z;
}.

Record MoneyTables := mkMoneyTables {
  money_accounts : gmap string MoneyAccount;
  money_entries : list EntryRow;                 (* newest first *)
  money_postings : list MoneyLine;               (* oldest first *)
  money_account_balances : gmap (string * string) Z;  (* by account and funding; the currency is the account's *)
  money_payees : gmap string PayeeRow;
  money_payment_quotes : gmap string QuoteRow;
}.

Definition no_money : MoneyTables := mkMoneyTables ∅ [] [] ∅ ∅ ∅.

Record Desk := mkDesk {
  dk_store : Store;
  dk_pay : PayTables;
  dk_money : MoneyTables;
}.

Coercion dk_store : Desk >-> Store.
Coercion dk_pay : Desk >-> PayTables.
Coercion dk_money : Desk >-> MoneyTables.

Implicit Types (d : Desk).

Definition with_store (s : Store) d : Desk := mkDesk s (dk_pay d) (dk_money d).

Definition with_handles v d : Desk := let t := dk_pay d in
  mkDesk (dk_store d) (mkPayTables v (wallet_clearances t) (compliance_freezes t) (capability_terms t)
    (capability_terms_acceptances t) (agent_transfers t) (agent_money_requests t) (agent_escrows t) (agent_escrow_events t)) (dk_money d).
Definition with_clearances v d : Desk := let t := dk_pay d in
  mkDesk (dk_store d) (mkPayTables (agent_handles t) v (compliance_freezes t) (capability_terms t)
    (capability_terms_acceptances t) (agent_transfers t) (agent_money_requests t) (agent_escrows t) (agent_escrow_events t)) (dk_money d).
Definition with_transfers v d : Desk := let t := dk_pay d in
  mkDesk (dk_store d) (mkPayTables (agent_handles t) (wallet_clearances t) (compliance_freezes t) (capability_terms t)
    (capability_terms_acceptances t) v (agent_money_requests t) (agent_escrows t) (agent_escrow_events t)) (dk_money d).
Definition with_money_requests v d : Desk := let t := dk_pay d in
  mkDesk (dk_store d) (mkPayTables (agent_handles t) (wallet_clearances t) (compliance_freezes t) (capability_terms t)
    (capability_terms_acceptances t) (agent_transfers t) v (agent_escrows t) (agent_escrow_events t)) (dk_money d).
Definition with_escrows v d : Desk := let t := dk_pay d in
  mkDesk (dk_store d) (mkPayTables (agent_handles t) (wallet_clearances t) (compliance_freezes t) (capability_terms t)
    (capability_terms_acceptances t) (agent_transfers t) (agent_money_requests t) v (agent_escrow_events t)) (dk_money d).
Definition with_escrow_events v d : Desk := let t := dk_pay d in
  mkDesk (dk_store d) (mkPayTables (agent_handles t) (wallet_clearances t) (compliance_freezes t) (capability_terms t)
    (capability_terms_acceptances t) (agent_transfers t) (agent_money_requests t) (agent_escrows t) v) (dk_money d).

Definition with_money (v : MoneyTables) d : Desk := mkDesk (dk_store d) (dk_pay d) v.
Definition with_accounts v d : Desk := let t := dk_money d in
  with_money (mkMoneyTables v (money_entries t) (money_postings t) (money_account_balances t) (money_payees t) (money_payment_quotes t)) d.
Definition with_money_entries v d : Desk := let t := dk_money d in
  with_money (mkMoneyTables (money_accounts t) v (money_postings t) (money_account_balances t) (money_payees t) (money_payment_quotes t)) d.
Definition with_money_postings v d : Desk := let t := dk_money d in
  with_money (mkMoneyTables (money_accounts t) (money_entries t) v (money_account_balances t) (money_payees t) (money_payment_quotes t)) d.
Definition with_money_balances v d : Desk := let t := dk_money d in
  with_money (mkMoneyTables (money_accounts t) (money_entries t) (money_postings t) v (money_payees t) (money_payment_quotes t)) d.
Definition with_payees v d : Desk := let t := dk_money d in
  with_money (mkMoneyTables (money_accounts t) (money_entries t) (money_postings t) (money_account_balances t) v (money_payment_quotes t)) d.
Definition with_quotes v d : Desk := let t := dk_money d in
  with_money (mkMoneyTables (money_accounts t) (money_entries t) (money_postings t) (money_account_balances t) (money_payees t) v) d.

(** ** Errors and transactions *)

(** Why a capability refuses money. *)
Inductive CapabilityRefusal : Type :=
| RefFrozen (case_ : string)
| RefTerms (version : Z)
| RefPlan
| RefLevel
| RefOverLimit (currency : string) (limit : option Z)  (* over the level's limit; [None]: none is set *)
| RefCountry (country : string)
| RefClass.

Inductive PayErr : Type :=
| EWallet (e : WalletErr)
| ErrSameAgent
| ErrWashTrade
| ErrMoneyWall
| ErrOwnerUnverified
| ErrVerifier            (* the owner verifier failed *)
| ErrRequestNotFound
| ErrTransferNotFound
| ErrAlreadyRefunded
| ErrHandle
| ErrEscrowNotFound
| ErrEscrowTerms
| ErrReceiptNotFound
| ErrApprovalNotNeeded
| ErrNoCapability
| ErrClearance           (* a clearance that cannot be recorded as asked *)
| ErrCapabilityNotCleared (capability : string) (why : CapabilityRefusal)
| ErrCompanyPayments.    (* the marketplace failed to judge or to charge a payment *)

Abbreviation PTx := (Tx PayErr Desk).

(** A transaction on the wallet's tables, as part of one on all of them. *)
Definition wallet {A} (m : WTx A) : PTx A := fun d =>
  match m (dk_store d) with
  | Ok (a, s) => Ok (a, with_store s d)
  | Err e => Err (EWallet e)
  end.

Lemma wallet_ok {A} (m : WTx A) d a d' :
  wallet m d = Ok (a, d') <-> exists s, m (dk_store d) = Ok (a, s) /\ d' = with_store s d.
Proof.
  unfold wallet. destruct (m (dk_store d)) as [[b s]|e]; split; [|naive_solver|done|naive_solver].
  intros [= <- <-]. eauto.
Qed.

Lemma wallet_bind {A B} (m : WTx A) (k : A -> PTx B) d r :
  tx_bind (wallet m) k d = Ok r <-> exists a s, m (dk_store d) = Ok (a, s) /\ k a (with_store s d) = Ok r.
Proof.
  rewrite tx_bind_ok. split.
  - intros (a & d1 & H & K). apply wallet_ok in H as (s & H & ->). eauto.
  - intros (a & s & H & K). exists a, (with_store s d). rewrite wallet_ok. eauto.
Qed.

Lemma with_store_id d : with_store (dk_store d) d = d.
Proof. by destruct d. Qed.

(** The commit, with the ledger's deferred trigger. *)
Definition pay_committed {A} (m : PTx A) : PTx A := fun d =>
  match m d with
  | Err e => Err e
  | Ok (a, d') =>
      let l := agent_postings d' in
      if entries_balanced (take (length l - length (agent_postings d)) l) l
      then Ok (a, d') else Err (EWallet ErrUnbalanced)
  end.

Lemma pay_committed_ok {A} (m : PTx A) d a d' : pay_committed m d = Ok (a, d') -> m d = Ok (a, d').
Proof.
  unfold pay_committed. destruct (m d) as [[b t]|]; [|done]. destruct (entries_balanced _ _); [|done].
  by intros [= -> ->].
Qed.

(** A payment as its caller sees it: committed, or refused on the state the rollback
    left, with the approval a refusal files. *)
Definition run_payment {A} (c : Ctx) (m : PTx A) d : Res PayErr A * Desk :=
  match pay_committed m d with
  | Ok (a, d') => (Ok a, d')
  | Err (EWallet e) => let '(e', s') := refusedMovement c e (dk_store d) in (Err (EWallet e'), with_store s' d)
  | Err e => (Err e, d)
  end.

Lemma run_payment_ok {A} c (m : PTx A) d a d' : run_payment c m d = (Ok a, d') -> m d = Ok (a, d').
Proof.
  unfold run_payment. destruct (pay_committed m d) as [[b t]|e] eqn:E.
  - intros [= -> ->]. by apply pay_committed_ok.
  - destruct e; try done. by destruct (refusedMovement c e (dk_store d)).
Qed.

(** [WithAgentRequest]. *)
Definition WithAgentRequest (c : Ctx) (rq : AgentRequest) : Ctx :=
  mkCtx (now c) (uuid c) (posting_memo c) (move_key c) (charge_request c) rq.
