(* ===== verification/Capabilities.v ===== *)
(** What a wallet may do with real money ([internal/economy/wallet_capabilities.go],
    [compliance_freeze.go], [capability_terms.go], [verification.go],
    [internal/workspace/testwall.go]): every capability's class, the clearances an
    operator records, the freezes, the terms, and the spend an uncleared capability may
    make of test-funded credits only. *)
From S2P Require Import Prelude Money Tables Postings Clock Lxc Rules CreditLine Agents Reservation Shifts Desk.
Open Scope Z_scope.
Open Scope i64_scope.

Implicit Types (d : Desk) (s : Store).

(** ** The registry *)

Record Capability := mkCapability {
  Key : string;
  Name : string;
  Class_ : CapabilityClass;
  Level : Z;
}.

Definition LevelSignedIn : Z := 0.
Definition LevelIdentity : Z := 2.
Definition LevelCompany : Z := 3.

Definition CapabilityPayAnotherOwner : string := "pay_another_owner".
Definition CapabilityEscrow : string := "escrow".
Definition CapabilityOwnAgents : string := "move_between_own_agents".

Definition Capabilities : list Capability := [
  mkCapability "spend_on_talyvor" "Spending on Talyvor" ClassGreen LevelSignedIn;
  mkCapability "buy_marketplace_listings" "Buying marketplace listings" ClassGreen LevelSignedIn;
  mkCapability "rent_and_subscribe_listings" "Renting and subscribing to marketplace listings" ClassGreen LevelSignedIn;
  mkCapability "lineage_royalties" "Royalties to the authors of remixed listings, paid from marketplace sales" ClassGreen LevelSignedIn;
  mkCapability CapabilityOwnAgents "Moving money between one owner's own agents" ClassGreen LevelSignedIn;
  mkCapability "rules_approvals_statements_pots" "Rules, approvals, statements and pots" ClassGreen LevelSignedIn;
  mkCapability "company_credit_line" "Talyvor's credit line to companies, for Talyvor services" ClassGreen LevelSignedIn;
  mkCapability CapabilityPayAnotherOwner "Sending and requesting money between different owners" ClassAmber LevelIdentity;
  mkCapability "loans_between_companies" "Loans between companies" ClassAmber LevelCompany;
  mkCapability CapabilityEscrow "Escrow between agents" ClassAmber LevelIdentity;
  mkCapability "cash_out" "Cashing credits out as money" ClassRed LevelIdentity;
  mkCapability "credit_involving_a_person" "Any loan or credit involving a private user" ClassRed LevelCompany;
  mkCapability "interest_and_yield" "Interest or yield" ClassRed LevelIdentity;
  mkCapability "invest_and_trade" "Investing and trading real assets" ClassRed LevelIdentity;
  mkCapability "agent_card" "Cards" ClassRed LevelIdentity;
  mkCapability "currency_accounts" "Accounts in pounds, euros, dollars and USDC" ClassRed LevelIdentity;
  mkCapability "account_details" "Account details others can pay into" ClassRed LevelIdentity;
  mkCapability "payments_in" "Receiving money from outside Talyvor" ClassRed LevelIdentity;
  mkCapability "payments_out" "Paying people and companies outside Talyvor" ClassRed LevelIdentity;
  mkCapability "pay_by_bank" "Topping up by a payment from your own bank" ClassAmber LevelIdentity;
  mkCapability "fx" "Converting between currencies" ClassRed LevelIdentity;
  mkCapability "stablecoins" "Stablecoin balances and transfers" ClassRed LevelIdentity;
  mkCapability "x402" "Paying and being paid over HTTP 402" ClassRed LevelIdentity;
  mkCapability "merchant_acceptance" "Accepting payments from agents as a business" ClassRed LevelCompany;
  mkCapability "b2b_credit" "Credit lines and loans to companies" ClassAmber LevelCompany;
  mkCapability "seller_advances" "Advances against marketplace earnings" ClassAmber LevelCompany;
  mkCapability "lending_marketplace" "Companies lending to companies through the marketplace" ClassAmber LevelCompany;
  mkCapability "trade_equities" "Trading shares through a broker partner" ClassRed LevelIdentity;
  mkCapability "trade_crypto" "Trading crypto through a broker partner" ClassRed LevelIdentity;
  mkCapability "trade_prediction" "Prediction-market trading" ClassRed LevelIdentity;
  mkCapability "treasury_sweep" "Idle money in a money-market fund" ClassRed LevelIdentity;
  mkCapability "price_lock" "Prepaid usage at today's prices" ClassAmber LevelIdentity;
  mkCapability "cover" "Cover for agent mistakes" ClassRed LevelIdentity;
  mkCapability "payouts_to_people" "Paying people for tasks" ClassRed LevelIdentity
].

Definition b30 : list string :=
  ["currency_accounts"; "account_details"; "payments_in"; "payments_out"; "pay_by_bank"; "fx"; "stablecoins"; "x402";
   "merchant_acceptance"; "b2b_credit"; "seller_advances"; "lending_marketplace"; "trade_equities"; "trade_crypto";
   "trade_prediction"; "treasury_sweep"; "price_lock"; "cover"; "payouts_to_people"]%string.

Definition CapabilityByKey (key : string) : option Capability :=
  List.find (fun c => bool_decide (Key c = key)) Capabilities.

(** ** Clearances *)

(** The latest row of a capability. *)
Definition latest_clearance d (key : string) : option ClearanceRow :=
  List.find (fun w => bool_decide (wc_capability w = key)) (wallet_clearances d).

(** The row is a clear that has not expired at [t]. *)
Definition clears_at (w : ClearanceRow) (t : Z) : bool :=
  bool_decide (wc_action w = Clear) && match wc_expires w with Some e => t <? e | None => false end.

(** [None] is Go's nil: no clearance in force, or none that names a country. *)
Definition clearanceCountries d (key : string) (t : Z) : option (list string) :=
  match latest_clearance d key with
  | Some w => if clears_at w t && negb (bool_decide (wc_countries w = [])) then Some (wc_countries w) else None
  | None => None
  end.

Definition capabilityCleared d (key country : string) (t : Z) : bool :=
  Contains (default [] (clearanceCountries d key t)) country.

(** [strings.ToUpper], of ASCII. *)
Definition ascii_upper (a : Ascii.ascii) : Ascii.ascii :=
  let n := Ascii.nat_of_ascii a in
  if (97 <=? n)%nat && (n <=? 122)%nat then Ascii.ascii_of_nat (n - 32) else a.

Definition upper (x : string) : string :=
  String.string_of_list_ascii (ascii_upper <$> String.list_ascii_of_string x).

Section Clearances.
(** [language.ParseRegion]: the two-letter code names a country and is its own. *)
Variable is_country : string -> bool.

(** The loop of [countryCodes], [seen] the codes taken so far. *)
Fixpoint country_codes (seen ins : list string) : option (list string) :=
  match ins with
  | [] => Some []
  | c :: ins =>
      let c := upper (trimmed c) in
      if bool_decide (c = ""%string) then country_codes seen ins
      else if negb (bool_decide (String.length c = 2%nat)) || negb (is_country c) then None
      else if Contains seen c then country_codes seen ins
      else (cons c) <$> country_codes (c :: seen) ins
  end.

Definition countryCodes (ins : list string) : option (list string) :=
  match country_codes [] ins with
  | Some [] => None
  | r => r
  end.

Definition recordClearance (c : Ctx) (key : string) (action : ClearanceAction) (operator reference licence partner : string)
    (countries : list string) (expires : option Z) : PTx unit :=
  match CapabilityByKey key with
  | None => tx_fail ErrNoCapability
  | Some cap =>
      tx_guard (negb (bool_decide (Class_ cap = ClassGreen))) ErrClearance ;;;
      tx_guard (negb (missing [trimmed operator; trimmed reference])) ErrClearance ;;;
      let! latest := tx_gets (fun d => latest_clearance d key) in
      tx_guard (negb (bool_decide (action = Revoke) &&
        negb match latest with Some w => bool_decide (wc_action w = Clear) | None => false end)) ErrClearance ;;;
      tx_modify (fun d => with_clearances
        (mkClearance key action operator reference countries partner licence expires (now c) :: wallet_clearances d) d)
  end.

Definition ClearCapability (c : Ctx) (key operator reference licence partner : string) (countries : list string)
    (expires : Z) : PTx unit :=
  match countryCodes countries with
  | None => tx_fail ErrClearance
  | Some countries =>
      tx_guard (negb (missing [trimmed licence; trimmed partner])) ErrClearance ;;;
      tx_guard (now c <? expires) ErrClearance ;;;
      recordClearance c key Clear operator reference (trimmed licence) (trimmed partner) countries (Some expires)
  end.

Definition RevokeClearance (c : Ctx) (key operator why : string) : PTx unit :=
  recordClearance c key Revoke operator why "" "" [] None.
End Clearances.

(** ** Freezes and terms *)

Definition freezeRefusal d (ws : string) : option CapabilityRefusal :=
  (fun f => RefFrozen (fz_case f)) <$> compliance_freezes d !! ws.

Definition frozenRefusal d (ws : string) (c : Capability) : option CapabilityRefusal :=
  if bool_decide (Class_ c = ClassGreen) then None else freezeRefusal d ws.

(** The latest version of a capability's terms. *)
Definition latest_terms d (key : string) : option Z :=
  foldr (fun t acc => if bool_decide (t.1 = key) then Some (match acc with Some v => Z.max t.2 v | None => t.2 end) else acc)
    None (capability_terms d).

Definition termsRefusal d (ws : string) (c : Capability) : option CapabilityRefusal :=
  match latest_terms d (Key c) with
  | None => None
  | Some v => if bool_decide ((ws, Key c, v) ∈ capability_terms_acceptances d) then None else Some (RefTerms v)
  end.

(** [refusalErr]. *)
Definition refuse_with (c : Capability) (r : option CapabilityRefusal) : PTx unit :=
  match r with
  | Some why => tx_fail (ErrCapabilityNotCleared (Key c) why)
  | None => tx_ret tt
  end.

Definition refuseFrozen (ws : string) (c : Capability) : PTx unit :=
  let! r := tx_gets (fun d => frozenRefusal d ws c) in refuse_with c r.

Definition refuseFrozenAnyClass (ws : string) (c : Capability) : PTx unit :=
  let! r := tx_gets (fun d => freezeRefusal d ws) in refuse_with c r.

Definition refuseUnaccepted (ws : string) (c : Capability) : PTx unit :=
  let! r := tx_gets (fun d => termsRefusal d ws c) in refuse_with c r.

(** ** Live money *)

(** The most one movement of live money may move at a level, in a currency's minor units. *)
Record LevelLimit := mkLevelLimit {
  ll_level : Z;
  ll_currency : string;
  ll_limit : Z;
}.

(** What the plan, the owner's verification checks and the operator's level limits
    answer; they read, and may fail. *)
Record Gates := mkGates {
  plan_live : Desk -> string -> Res PayErr bool;              (* [plans.Of]: [LiveMoney] *)
  liveVerificationLevel : Desk -> string -> Res PayErr Z;
  levelLimitsInForce : Desk -> Res PayErr (list LevelLimit);
  ownerCountry : Desk -> string -> Res PayErr string;
}.

Definition ask {A} (f : Desk -> Res PayErr A) : PTx A := fun d =>
  match f d with Ok a => Ok (a, d) | Err e => Err e end.

Lemma ask_ok {A} (f : Desk -> Res PayErr A) d a d' : ask f d = Ok (a, d') <-> f d = Ok a /\ d' = d.
Proof. unfold ask. destruct (f d); naive_solver. Qed.

Section Gated.
Context (G : Gates).

Definition levelRefusal (ws : string) (c : Capability) : PTx bool :=
  if Level c =? LevelSignedIn then tx_ret false
  else
    let! have := ask (fun d => liveVerificationLevel G d ws) in
    if have <? Level c then tx_ret true
    else
      let! limits := ask (levelLimitsInForce G) in
      tx_ret (negb (existsb (fun l => (ll_level l <=? have) && (0 <? ll_limit l)) limits)).

(** [None]: live money may be taken. *)
Definition capabilityLive (c : Ctx) (ws : string) (cap : Capability) : PTx (option CapabilityRefusal) :=
  let! countries := tx_gets (fun d => clearanceCountries d (Key cap) (now c)) in
  let green := bool_decide (Class_ cap = ClassGreen) in
  if negb green && negb (is_some countries) then tx_ret (Some RefClass)
  else if green && negb (Contains b30 (Key cap)) then tx_ret None
  else
    let! live := ask (fun d => plan_live G d ws) in
    if negb (live : bool) then tx_ret (Some RefPlan)
    else
      let! level := levelRefusal ws cap in
      if (level : bool) then tx_ret (Some RefLevel)
      else if green then tx_ret None
      else
        let! country := ask (fun d => ownerCountry G d ws) in
        tx_ret (if Contains (default [] countries) country then None else Some (RefCountry country)).

(** What of [ws]'s credits is test money. *)
Definition test_money (s : Store) (ws : string) : Z :=
  match lxc_balances s !! ws with
  | None => 0
  | Some r =>
      let upTo := Z.max (lx_balance r + held_sum s ws) 0 in
      if match workspaces s !! ws with Some w => ws_synthetic w | None => false end then upTo else Z.min (lx_test r) upTo
  end.

Definition testFundedULXC (ws : string) : WTx Z :=
  let! r := tx_gets (fun s : Store => lxc_balances s !! ws) in
  match r with
  | None => tx_ret 0
  | Some r =>
      let! held := tx_gets (fun s : Store => held_sum s ws) in
      let! upTo := bigint (Z.max (lx_balance r + held) 0) in
      let! test := testWorkspace ws in
      tx_ret (if (test : bool) then upTo else Z.min (lx_test r) upTo)
  end.

(** [UPDATE lxc_balances SET test_funded_ulxc = v]. *)
Definition set_test_funded (ws : string) (v : Z) : WTx unit :=
  tx_guard (0 <=? v) ErrCheck ;;;
  tx_modify (fun s : Store => match lxc_balances s !! ws with
    | Some r => set_row ws (with_test v r) s
    | None => s
    end).

Definition spendForCapability (c : Ctx) (ws key : string) (amount : Z) : PTx Z :=
  match CapabilityByKey key with
  | None => tx_fail ErrNoCapability
  | Some cap =>
      if amount <=? 0 then tx_ret 0
      else
        refuseFrozen ws cap ;;;
        refuseUnaccepted ws cap ;;;
        let! refusal := capabilityLive c ws cap in
        match refusal with
        | None => tx_ret 0
        | Some why =>
            let! have := wallet (testFundedULXC ws) in
            let! take := (if have <? amount then
                            let! test := wallet (testWorkspace ws) in
                            if (test : bool) then tx_ret have else tx_fail (ErrCapabilityNotCleared key why)
                          else tx_ret amount) in
            wallet (set_test_funded ws (have -! take)) ;;;
            tx_ret take
        end
  end.

(** Money on [ws]'s Stripe bill; [live]: Lens's Stripe key is live. *)
Definition requireBilledCapability (c : Ctx) (live : bool) (ws key : string) : PTx unit :=
  match CapabilityByKey key with
  | None => tx_fail ErrNoCapability
  | Some cap =>
      refuseFrozen ws cap ;;;
      refuseUnaccepted ws cap ;;;
      if negb live then tx_ret tt
      else
        let! refusal := capabilityLive c ws cap in
        refuse_with cap refusal
  end.
End Gated.

(** ** The wall between test money and real money *)

Definition synthetic (s : Store) (ws : string) : bool :=
  match workspaces s !! ws with Some w => ws_synthetic w | None => false end.

Definition CheckMoneyWall (a b : string) : PTx unit :=
  if bool_decide (a = b) then tx_ret tt
  else
    let! across := tx_gets (fun d => xorb (synthetic d a) (synthetic d b)) in
    tx_guard (negb across) ErrMoneyWall.

(** ** What the capabilities let through *)

Lemma refuse_with_ok c r d v d' : refuse_with c r d = Ok (v, d') <-> r = None /\ v = tt /\ d' = d.
Proof. destruct r; cbn; [by rewrite tx_fail_ok; naive_solver|]. rewrite tx_ret_ok. destruct v. naive_solver. Qed.

Lemma refused_bind {A} (f : Desk -> option CapabilityRefusal) cap (k : unit -> PTx A) d :
  tx_bind (let! r := tx_gets f in refuse_with cap r) k d =
  match f d with Some why => Err (ErrCapabilityNotCleared (Key cap) why) | None => k tt d end.
Proof. unfold tx_bind, tx_gets. by destruct (f d). Qed.

Section Live.
Context (G : Gates).

Lemma levelRefusal_ok ws cap d b d' : levelRefusal G ws cap d = Ok (b, d') ->
  d' = d /\ (b = false -> Level cap = LevelSignedIn \/
    exists have limits, liveVerificationLevel G d ws = Ok have /\ levelLimitsInForce G d = Ok limits /\
      Level cap <= have /\ exists l, l ∈ limits /\ ll_level l <= have /\ 0 < ll_limit l).
Proof.
  unfold levelRefusal. destruct (Z.eqb_spec (Level cap) LevelSignedIn) as [E|E]; intros H.
  - apply tx_ret_ok in H as [-> ->]. split; [done|]. intros _. by left.
  - apply tx_bind_ok in H as (have & d1 & H1 & H). apply ask_ok in H1 as [H1 ->].
    destruct (Z.ltb_spec have (Level cap)); [apply tx_ret_ok in H as [-> ->]; done|].
    apply tx_bind_ok in H as (limits & d1 & H2 & H). apply ask_ok in H2 as [H2 ->].
    apply tx_ret_ok in H as [-> ->]. split; [done|]. intros Hb. right. exists have, limits. split_and!; [done..|].
    apply negb_false_iff, existsb_exists in Hb as (l & Hl & [L1 L2]%andb_prop). exists l.
    split; [by apply list_elem_of_In|]. lia.
Qed.

(** What lets live money through a capability of class AMBER or RED. *)
Record cleared_for (c : Ctx) (ws : string) (cap : Capability) d : Prop := {
  cr_clearance : exists w, latest_clearance d (Key cap) = Some w /\ wc_action w = Clear /\
    (exists e, wc_expires w = Some e /\ now c < e) /\
    exists country, ownerCountry G d ws = Ok country /\ country ∈ wc_countries w;
  cr_plan : plan_live G d ws = Ok true;
  cr_level : Level cap = LevelSignedIn \/ exists have, liveVerificationLevel G d ws = Ok have /\ Level cap <= have;
}.

Lemma capabilityLive_ok c ws cap d r d' : capabilityLive G c ws cap d = Ok (r, d') ->
  d' = d /\ (r = None -> Class_ cap <> ClassGreen -> cleared_for c ws cap d) /\
  (Class_ cap <> ClassGreen -> clearanceCountries d (Key cap) (now c) = None -> r = Some RefClass).
Proof.
  unfold capabilityLive. rewrite tx_gets_bind. destruct (bool_decide (Class_ cap = ClassGreen)) eqn:Eg; cbn [negb andb]; intros H.
  - apply bool_decide_eq_true in Eg. split; [|by split].
    destruct (negb (Contains b30 (Key cap))); [by apply tx_ret_ok in H as [_ ->]|].
    apply tx_bind_ok in H as (live & d1 & H1 & H). apply ask_ok in H1 as [_ ->].
    destruct live; cbn [negb] in H; [|by apply tx_ret_ok in H as [_ ->]].
    apply tx_bind_ok in H as (level & d1 & H2 & H). apply levelRefusal_ok in H2 as [-> _].
    destruct level; by apply tx_ret_ok in H as [_ ->].
  - destruct (clearanceCountries d (Key cap) (now c)) as [cs|] eqn:Ec; cbn [is_some negb] in H;
      [|apply tx_ret_ok in H as [-> ->]; done].
    apply tx_bind_ok in H as (live & d1 & H1 & H). apply ask_ok in H1 as [H1 ->].
    destruct live; cbn [negb] in H; [|by apply tx_ret_ok in H as [-> ->]].
    apply tx_bind_ok in H as (level & d1 & H2 & H). apply levelRefusal_ok in H2 as [-> L].
    destruct level; [by apply tx_ret_ok in H as [-> ->]|].
    apply tx_bind_ok in H as (country & d1 & H3 & H). apply ask_ok in H3 as [H3 ->].
    apply tx_ret_ok in H as [-> ->]. split; [done|]. split; [|done]. intros Hr _. cbn [default id] in Hr.
    destruct (Contains cs country) eqn:Hc; [|done]. apply bool_decide_eq_true in Hc.
    unfold clearanceCountries in Ec. destruct (latest_clearance d (Key cap)) as [w|] eqn:Ew; [|done].
    destruct (clears_at w (now c) && _) eqn:E2; [|done]. injection Ec as <-. apply andb_prop in E2 as [E2 _].
    unfold clears_at in E2. apply andb_prop in E2 as [E3 E4]. apply bool_decide_eq_true in E3.
    destruct (wc_expires w) as [e|] eqn:E5; [|done]. constructor; [|done|].
    + exists w. split_and!; [done|done|exists e; split; [done|lia]|]. by exists country.
    + destruct (L eq_refl) as [|(have & lim & X & _ & Y & _)]; [by left|right; by exists have].
Qed.

(** The store with [ws]'s test money put at [v]. *)
Definition test_set (s : Store) (ws : string) (v : Z) : Store :=
  match lxc_balances s !! ws with Some r => set_row ws (with_test v r) s | None => s end.

Lemma testFunded_ok ws (s : Store) v s' : testFundedULXC ws s = Ok (v, s') -> s' = s /\ v = test_money s ws /\ v <= max_i64.
Proof.
  unfold testFundedULXC, test_money. rewrite tx_gets_bind. destruct (lxc_balances s !! ws) as [r|]; intros H.
  - rewrite tx_gets_bind in H. apply tx_bind_ok in H as (u & s1 & B & H). apply bigint_ok in B as (-> & -> & B).
    unfold testWorkspace in H. rewrite tx_gets_bind in H. apply tx_ret_ok in H as [-> ->]. split; [done|].
    unfold in_i64 in B. destruct (workspaces s !! ws) as [w|]; [destruct (ws_synthetic w)|]; (split; [done|lia]).
  - by apply tx_ret_ok in H as [-> ->].
Qed.

Lemma test_money_nonneg s ws : (forall r, lxc_balances s !! ws = Some r -> 0 <= lx_test r) -> 0 <= test_money s ws.
Proof.
  intros H. unfold test_money. destruct (lxc_balances s !! ws) as [r|] eqn:E; [|done]. specialize (H r eq_refl).
  destruct (match _ with Some _ => _ | None => _ end); lia.
Qed.

(** A spend on a capability: what let it through, and what it took of the test money. *)
Lemma spendForCapability_ok c ws key amount d take d' :
  0 < amount -> in_i64 amount -> spendForCapability G c ws key amount d = Ok (take, d') ->
  exists cap r, CapabilityByKey key = Some cap /\ frozenRefusal d ws cap = None /\ termsRefusal d ws cap = None /\
    capabilityLive G c ws cap d = Ok (r, d) /\
    match r with
    | None => take = 0 /\ d' = d
    | Some _ => take = Z.min amount (test_money d ws) /\ (synthetic d ws = false -> take = amount) /\
        test_money d ws <= max_i64 /\ d' = with_store (test_set d ws (test_money d ws -! take)) d
    end.
Proof.
  intros Hp Hi. unfold spendForCapability. destruct (CapabilityByKey key) as [cap|]; [|by intros H; apply tx_fail_ok in H].
  rewrite (proj2 (Z.leb_gt amount 0)) by done. unfold refuseFrozen, refuseUnaccepted. rewrite refused_bind.
  destruct (frozenRefusal d ws cap) eqn:Ef; [done|]. rewrite refused_bind. destruct (termsRefusal d ws cap) eqn:Et; [done|].
  intros H. apply tx_bind_ok in H as (r & d1 & H1 & H). pose proof H1 as Hl. apply capabilityLive_ok in H1 as [-> _].
  exists cap, r. split_and!; try done. destruct r as [why|]; [|by apply tx_ret_ok in H as [-> ->]].
  apply tx_bind_ok in H as (have & d1 & H1 & H). apply wallet_ok in H1 as (s1 & H1 & ->). apply testFunded_ok in H1 as (-> & -> & Hmax).
  assert (E : with_store (dk_store d) d = d) by by destruct d. rewrite E in H.
  apply tx_bind_ok in H as (take' & d1 & H2 & H).
  assert (T : d1 = d /\ take' = Z.min amount (test_money d ws) /\ (synthetic d ws = false -> take' = amount)).
  { destruct (Z.ltb_spec (test_money d ws) amount).
    - apply tx_bind_ok in H2 as (test & d2 & H3 & H2). apply wallet_ok in H3 as (s2 & H3 & ->).
      unfold testWorkspace in H3. apply tx_gets_ok in H3 as [-> ->]. rewrite E in H2. fold (synthetic d ws) in H2.
      destruct (synthetic d ws); [|by apply tx_fail_ok in H2]. apply tx_ret_ok in H2 as [-> ->]. split_and!; [done|lia|done].
    - apply tx_ret_ok in H2 as [-> ->]. split_and!; [done|lia|done]. }
  destruct T as (-> & -> & T). apply tx_bind_ok in H as (v & d1 & H3 & H). apply tx_ret_ok in H as [-> ->].
  apply wallet_ok in H3 as (s1 & H3 & ->). unfold set_test_funded in H3. rewrite tx_guard_bind in H3. destruct H3 as [_ H3].
  apply tx_modify_ok in H3 as ->. split_and!; [done|done|done|reflexivity].
Qed.

(** What of the credits an uncleared capability spends is test money is gone. *)
Lemma test_money_taken ws s amount :
  synthetic s ws = false -> 0 < amount <= test_money s ws -> test_money s ws <= max_i64 ->
  test_money (test_set s ws (test_money s ws -! amount)) ws = test_money s ws - amount.
Proof.
  intros Hs Ha Hm. unfold synthetic in Hs. pose proof Ha as Ha2. unfold test_money in Ha2. unfold test_money at 1, test_set.
  destruct (lxc_balances s !! ws) as [r|] eqn:L; [|lia]. rewrite Hs in Ha2. rewrite set_row_lookup, held_sum_set_row.
  change (workspaces (set_row ws _ s)) with (workspaces s). rewrite Hs. cbn [lx_balance with_test lx_test].
  rewrite wrap64_id by (i64_ranges; lia). unfold test_money in *. rewrite L, Hs in *. lia.
Qed.

Lemma recordClearance_ok c key action operator reference licence partner countries expires d v d' :
  recordClearance c key action operator reference licence partner countries expires d = Ok (v, d') ->
  (exists cap, CapabilityByKey key = Some cap /\ Class_ cap <> ClassGreen) /\
  d' = with_clearances (mkClearance key action operator reference countries partner licence expires (now c) :: wallet_clearances d) d.
Proof.
  unfold recordClearance. destruct (CapabilityByKey key) as [cap|]; [|by intros H; apply tx_fail_ok in H].
  rewrite !tx_guard_bind. intros (G1 & _ & H). rewrite tx_gets_bind, tx_guard_bind in H. destruct H as [_ H].
  apply tx_modify_ok in H as ->. split; [|done]. exists cap. split; [done|]. by case_bool_decide.
Qed.

Lemma CapabilityByKey_key key cap : CapabilityByKey key = Some cap -> Key cap = key.
Proof. unfold CapabilityByKey. intros H. apply List.find_some in H as [_ H]. by apply bool_decide_eq_true in H. Qed.

Lemma revoked_not_cleared c key operator why d v d' t :
  RevokeClearance c key operator why d = Ok (v, d') -> clearanceCountries d' key t = None.
Proof.
  intros H. apply recordClearance_ok in H as [_ ->]. unfold clearanceCountries, latest_clearance. cbn.
  by rewrite bool_decide_eq_true_2 by done.
Qed.

Lemma revoked_class c key operator why d v d' cap :
  RevokeClearance c key operator why d = Ok (v, d') -> CapabilityByKey key = Some cap -> Class_ cap <> ClassGreen.
Proof. intros H E. apply recordClearance_ok in H as [(k & Ek & Hk) _]. rewrite E in Ek. by injection Ek as <-. Qed.
End Live.

(** ** Properties *)

(** C31: from the next use after a clearance is revoked, a real workspace's spend on the
    capability takes test-funded credits only, all of it - exactly that much less test money
    is left, the balance and its ledger not yet touched - or is refused; and a frozen
    workspace, or one that has not accepted the latest terms, spends nothing on it. *)
Theorem revoked_takes_only_test_money G c key operator why d v d1 c' ws amount take d2 :
  RevokeClearance c key operator why d = Ok (v, d1) -> 0 < amount -> in_i64 amount -> synthetic d1 ws = false ->
  spendForCapability G c' ws key amount d1 = Ok (take, d2) ->
  take = amount /\ test_money d2 ws = test_money d1 ws - amount /\ lxc_ledger d2 = lxc_ledger d1 /\
  lx_balance (lxc_row d2 ws) = lx_balance (lxc_row d1 ws) /\ compliance_freezes d1 !! ws = None /\
  forall t, latest_terms d1 key = Some t -> (ws, key, t) ∈ capability_terms_acceptances d1.
Proof.
  intros HR Hp Hi Hs H. apply (spendForCapability_ok G) in H as (cap & r & E & Ef & Et & El & H); [|done..].
  pose proof (revoked_class _ _ _ _ _ _ _ _ HR E) as Hg. pose proof (CapabilityByKey_key _ _ E) as Hk.
  pose proof (capabilityLive_ok G c' ws cap d1 r d1 El) as (_ & _ & Hr).
  rewrite Hk in Hr. rewrite (Hr Hg (revoked_not_cleared _ _ _ _ _ _ _ _ HR)) in H. destruct H as (Ht & Hts & Hm & ->).
  specialize (Hts Hs). rewrite Hts in Ht |- *. clear Hts. split; [done|]. cbn [dk_store with_store].
  split; [apply test_money_taken; [exact Hs|lia|exact Hm]|].
  unfold frozenRefusal in Ef. rewrite bool_decide_eq_false_2 in Ef by done. unfold freezeRefusal in Ef.
  split_and!.
  - unfold test_set. by destruct (lxc_balances d1 !! ws).
  - unfold test_set. destruct (lxc_balances d1 !! ws) eqn:L; [|done]. rewrite lxc_row_set_eq. unfold lxc_row. by rewrite L.
  - by destruct (compliance_freezes d1 !! ws).
  - intros t Lt. unfold termsRefusal in Et. rewrite Hk, Lt in Et. by case_bool_decide.
Qed.

(** A workspace verified in GB, on a plan with live money; escrow cleared there. *)
Definition demo_gates : Gates :=
  mkGates (fun _ _ => Ok true) (fun _ _ => Ok 2) (fun _ => Ok [mkLevelLimit 2 "GBP" 100000]) (fun _ _ => Ok "GB"%string).

Definition demo_desk : Desk := mkDesk demo_store no_payments no_money.

Definition demo_cleared : Desk :=
  match ClearCapability (fun c => bool_decide (c = "GB"%string)) demo_ctx "escrow" "op" "ref" "L1" "Bank" ["gb"; " GB"]%string 10 demo_desk with
  | Ok (_, d) => d
  | Err _ => demo_desk
  end.

Definition demo_revoked : Desk :=
  match RevokeClearance demo_ctx "escrow" "op" "licence lapsed" demo_cleared with
  | Ok (_, d) => d
  | Err _ => demo_desk
  end.

Definition demo_spent : Desk :=
  match spendForCapability demo_gates demo_ctx "ws" "escrow" 400 demo_revoked with Ok (_, d) => d | Err _ => demo_desk end.

Lemma revoked_takes_only_test_money_witness :
  spendForCapability demo_gates demo_ctx "ws" "escrow" 400 demo_revoked = Ok (400, demo_spent) /\
  spendForCapability demo_gates demo_ctx "ws" "escrow" 1400 demo_revoked = Err (ErrCapabilityNotCleared "escrow" RefClass) /\
  test_money demo_spent "ws" = test_money demo_revoked "ws" - 400.
Proof.
  assert (R : RevokeClearance demo_ctx "escrow" "op" "licence lapsed" demo_cleared = Ok (tt, demo_revoked)) by (vm_compute; reflexivity).
  assert (E : spendForCapability demo_gates demo_ctx "ws" "escrow" 400 demo_revoked = Ok (400, demo_spent)) by (vm_compute; reflexivity).
  assert (S : synthetic demo_revoked "ws" = false) by (vm_compute; reflexivity).
  split; [exact E|]. split; [vm_compute; reflexivity|].
  exact (proj1 (proj2 (revoked_takes_only_test_money demo_gates demo_ctx "escrow" "op" "licence lapsed" demo_cleared tt demo_revoked
    demo_ctx "ws" 400 400 demo_spent R ltac:(reflexivity) ltac:(by apply in_i64b_spec) S E))).
Defined.
