(* ===== verification/Ledger.v ===== *)
(** Money in currencies ([internal/economy/money_ledger.go], [migrations/0221], [0236],
    [0240]; the limits of [verification.go]): accounts that hold one currency, and a
    double-entry ledger of entries that sum to zero in each currency and funding, every one
    asked of its capability, screened when it goes through a partner, and written once
    under its idempotency key. *)
From stdpp Require Import sorting.
From S2P Require Import Prelude Money Tables Postings Clock Lxc Rules CreditLine Agents Reservation Shifts Desk Capabilities.
Open Scope Z_scope.
Open Scope i64_scope.

Implicit Types (d : Desk).

(** ** Currencies, purposes, states *)

Definition CurrencyGBP : string := "GBP".
Definition CurrencyEUR : string := "EUR".
Definition CurrencyUSD : string := "USD".
Definition CurrencyUSDC : string := "USDC".

(** The decimal places of a currency; 0 for what is not one. *)
Definition MoneyCurrencies (currency : string) : Z :=
  if Contains [CurrencyGBP; CurrencyEUR; CurrencyUSD] currency then 2
  else if bool_decide (currency = CurrencyUSDC) then 6 else 0.

Definition MoneyCompany : string := "company".
Definition MoneyAgent : string := "agent".
Definition MoneyPot : string := "pot".
Definition MoneyHold : string := "hold".
Definition MoneySuspense : string := "suspense".
Definition MoneyPartner : string := "partner".
Definition MoneyRevenue : string := "revenue".

Definition moneyPurposes : list string :=
  [MoneyCompany; MoneyAgent; MoneyPot; MoneyHold; MoneySuspense; MoneyPartner; MoneyRevenue].

Definition MoneyOpen : string := "open".
Definition MoneyClosed : string := "closed".

(** ** Errors *)

(** What is wrong with a money entry, an account or a posting, before anything is written. *)
Inductive EntryRule : Type :=
| RuleMoneyCapability | RuleEntryWorkspace | RuleEntryKey | RuleEntryFunding | RuleNoMoney
| RuleAccountCurrency (account currency : string) | RuleCounterparty.

Inductive AccountRule : Type :=
| RuleAccountWorkspace | RuleCurrency (currency : string) | RulePurpose (purpose : string)
| RuleAgentNeeded | RuleNoAgent (purpose : string) | RulePartnerRef (purpose : string).

(** What is wrong with a payment out, as it is asked for. *)
Inductive PaymentRule : Type :=
| RulePayee | RulePaymentCurrency (currency : string) | RuleAmountPositive | RuleFunding (funding : string)
| RuleIdempotencyKey | RuleReference | RuleQuoteNeeded (currency : string) | RuleSameCurrency
| RuleNoFee (currency : string) | RuleTooMuch | RulePartnerInvalid.

(** The partners' errors ([internal/partners/partners.go]). *)
Inductive PartnerErr : Type :=
| PartnerInvalid | PartnerNotFound | PartnerIDReused   (* the partner refuses the request *)
| PartnerDown.                                         (* it did not answer *)

Inductive MoneyErr : Type :=
| EDeskErr (e : PayErr)                   (* a capability's refusal, the agent's own side *)
| ErrMoneyEntry (why : EntryRule)
| ErrMoneyAccountRule (why : AccountRule)
| ErrMoneyAccountNotFound
| ErrMoneyAccountNotOpen
| ErrMoneyUnbalanced
| ErrIdempotencyKeyReused
| ErrScreeningUnavailable
| ScreeningRefusal (case_ : string)
| ErrOutsidePayment (why : PaymentRule)
| ErrOutsidePaymentNotFound
| ErrPayeeNotFound
| ErrPayeeUnconfirmed
| ErrQuote
| ErrAccountNotOpened
| ErrPartner                              (* no account or conversion partner is to be had, or it answered out of bounds *)
| ErrPartnerErr (e : PartnerErr)          (* what the account or the conversion partner answered, wrapped *)
| ErrPartnerAnswer (status : string)      (* a status there is not *)
| ErrMoneyCheck                           (* a CHECK or a foreign key of the tables *)
| ErrMoneyUnique                          (* a unique index *)
| ErrMoneyRange                           (* a BIGINT out of range *)
| ErrMoneyRow                             (* a row that must be there is not *)
| ErrMoneyDb.                             (* the database, the screener: anything else *)

Abbreviation LTx := (Tx MoneyErr Desk).

(** A transaction on the other tables, as part of one on the money. *)
Definition desk_tx {A} (m : PTx A) : LTx A := fun d =>
  match m d with Ok r => Ok r | Err e => Err (EDeskErr e) end.

Definition money_bigint (z : Z) : LTx Z := sql_bigint ErrMoneyRange z.

(** ** Accounts *)

(** The unique indexes of [money_accounts]: one account of a company, and of an agent, in a
    currency, closed ones apart. *)
Definition same_slot (a b : MoneyAccount) : bool :=
  bool_decide (ma_currency a = ma_currency b) && negb (bool_decide (ma_status a = MoneyClosed)) && negb (bool_decide (ma_status b = MoneyClosed))
  && ((bool_decide (ma_purpose a = MoneyCompany /\ ma_purpose b = MoneyCompany) && bool_decide (ma_ws a = ma_ws b))
      || (bool_decide (ma_purpose a = MoneyAgent /\ ma_purpose b = MoneyAgent) && bool_decide (ma_agent a = ma_agent b))).

(** [currency ~ '^[A-Z]{3}$' OR currency = 'USDC']. *)
Definition currency_check (currency : string) : bool :=
  bool_decide (currency = CurrencyUSDC)
  || ((String.length currency =? 3)%nat
      && forallb (fun a => let n := Ascii.nat_of_ascii a in (65 <=? n)%nat && (n <=? 90)%nat) (String.list_ascii_of_string currency)).

(** The CHECKs of [money_accounts], and its agent. *)
Definition account_checks d (a : MoneyAccount) : bool :=
  currency_check (ma_currency a) && Contains moneyPurposes (ma_purpose a)
  && (bool_decide (ma_agent a = "") || is_some (agent_accounts d !! ma_agent a))
  && negb (bool_decide (ma_purpose a = MoneyAgent) && bool_decide (ma_agent a = ""))
  && negb (Contains [MoneyCompany; MoneySuspense; MoneyPartner; MoneyRevenue] (ma_purpose a) && negb (bool_decide (ma_agent a = "")))%string.

Definition insert_account (id : string) (a : MoneyAccount) : LTx unit :=
  let! checks := tx_gets (fun d => account_checks d a) in
  tx_guard checks ErrMoneyCheck ;;;
  let! dup := tx_gets (fun d => is_some (money_accounts d !! id) || existsb (fun kv => same_slot a kv.2) (map_to_list (money_accounts d))) in
  tx_guard (negb dup) ErrMoneyUnique ;;;
  tx_modify (fun d => with_accounts (<[id := a]> (money_accounts d)) d).

Definition new_account_id (c : Ctx) : LTx string :=
  let! u := desk_tx (wallet (uuid_new c)) in tx_ret ("macc_" +:+ u)%string.

(** [OpenMoneyAccount]: it opens with nothing in it. *)
Definition OpenMoneyAccount (c : Ctx) (a : MoneyAccount) : LTx (string * MoneyAccount) :=
  let currency := upper (trimmed (ma_currency a)) in
  let none := fun x : string => bool_decide (x = "")%string in
  tx_guard (negb (none (ma_ws a))) (ErrMoneyAccountRule RuleAccountWorkspace) ;;;
  tx_guard (negb (MoneyCurrencies currency =? 0)) (ErrMoneyAccountRule (RuleCurrency currency)) ;;;
  tx_guard (Contains moneyPurposes (ma_purpose a)) (ErrMoneyAccountRule (RulePurpose (ma_purpose a))) ;;;
  tx_guard (negb (bool_decide (ma_purpose a = MoneyAgent) && none (ma_agent a))) (ErrMoneyAccountRule RuleAgentNeeded) ;;;
  tx_guard (none (ma_agent a) || Contains [MoneyAgent; MoneyPot; MoneyHold] (ma_purpose a)) (ErrMoneyAccountRule (RuleNoAgent (ma_purpose a))) ;;;
  tx_guard (none (ma_partner_ref a) || bool_decide (ma_purpose a = MoneyPartner)) (ErrMoneyAccountRule (RulePartnerRef (ma_purpose a))) ;;;
  let! found := tx_gets (fun d => none (ma_agent a) || match agent_accounts d !! ma_agent a with
                                                        | Some g => bool_decide (ag_ws g = ma_ws a)
                                                        | None => false
                                                        end) in
  tx_guard found (EDeskErr (EWallet ErrAgentNotFound)) ;;;
  let! id := new_account_id c in
  let a := mkMoneyAccount (ma_ws a) (ma_agent a) currency (ma_purpose a) MoneyOpen (ma_name a) (ma_partner_ref a) "" (now c) in
  insert_account id a ;;;
  tx_ret (id, a).

(** ** Entries *)

(** One movement of money, as it is asked for and as it was recorded. *)
Record MoneyEntry := mkMoneyEntry {
  me_id : string;
  me_ws : string;
  me_capability : string;
  me_kind : string;
  me_key : string;
  me_funding : string;
  me_memo : string;
  me_counterparty : string;
  me_partner_ref : string;
  me_created : Z;
  me_postings : list MoneyPosting;
  me_payee_ws : string;
}.

(** A payment through a partner, as it is screened. *)
Record ScreenedPayment := mkScreened {
  sp_ws : string;
  sp_id : string;
  sp_capability : string;
  sp_direction : string;
  sp_counterparty : string;
  sp_amount : Z;
  sp_currency : string;
  sp_funding : string;
}.

(** [ScreenPayment]: [None] lets the payment through.  It keeps its cases in tables of its own. *)
Definition PaymentScreener : Type := Ctx -> ScreenedPayment -> option MoneyErr.

(** [kind ~ '^[a-z][a-z_]*$']. *)
Definition kind_ok (kind : string) : bool :=
  let small := fun a => let n := Ascii.nat_of_ascii a in (97 <=? n)%nat && (n <=? 122)%nat in
  match String.list_ascii_of_string kind with
  | [] => false
  | a :: l => small a && forallb (fun a => small a || Ascii.eqb a "_") l
  end.

Definition entry_by_key (t : MoneyTables) (ws key : string) : option EntryRow :=
  List.find (fun e => bool_decide (en_ws e = ws /\ en_key e = key)) (money_entries t).

Definition entry_by_id (t : MoneyTables) (id : string) : option EntryRow :=
  List.find (fun e => bool_decide (en_id e = id)) (money_entries t).

(** The rows of an entry, by line. *)
Definition entry_lines (l : list MoneyLine) (id : string) : list MoneyPosting :=
  ln_posting <$> filter (fun r => ln_entry r = id) l.

(** The entry and its postings, joined; its funding is its last posting's. *)
Definition readMoneyEntry (e : EntryRow) : LTx MoneyEntry :=
  let! ps := tx_gets (fun d => entry_lines (money_postings d) (en_id e)) in
  match last ps with
  | None => tx_fail ErrMoneyRow
  | Some p => tx_ret (mkMoneyEntry (en_id e) (en_ws e) (en_capability e) (en_kind e) (en_key e) (mn_funding p) (en_memo e)
                        (en_counterparty e) (en_partner_ref e) (en_created e) ps "")
  end.

(** The same line: a currency left out is the account's. *)
Definition same_line (p q : MoneyPosting) : bool :=
  bool_decide (mn_account p = mn_account q) && (mn_amount p =? mn_amount q)
  && (bool_decide (mn_currency p = "")%string || bool_decide (mn_currency p = mn_currency q)).

Fixpoint same_lines (ps qs : list MoneyPosting) : bool :=
  match ps, qs with
  | [], [] => true
  | p :: ps, q :: qs => same_line p q && same_lines ps qs
  | _, _ => false
  end.

(** The entry [first] is the movement [e] asks for. *)
Definition same_movement (e first : MoneyEntry) (ps : list MoneyPosting) : bool :=
  bool_decide (me_capability first = me_capability e) && bool_decide (me_kind first = me_kind e)
  && bool_decide (me_funding first = me_funding e) && bool_decide (me_counterparty first = me_counterparty e)
  && bool_decide (me_partner_ref first = me_partner_ref e) && same_lines ps (me_postings first).

Definition replayedMoneyEntry (e : MoneyEntry) (prior : EntryRow) (ps : list MoneyPosting) : LTx MoneyEntry :=
  let! first := readMoneyEntry prior in
  tx_guard (same_movement e first ps) ErrIdempotencyKeyReused ;;;
  tx_ret first.

(** The postings that move money, in the entry's funding. *)
Definition moving_lines (e : MoneyEntry) : list MoneyPosting :=
  (fun p => mkMoneyPosting (mn_account p) (mn_amount p) (upper (trimmed (mn_currency p))) (me_funding e))
  <$> filter (fun p => mn_amount p <> 0) (me_postings e).

(** An account the entry may post to: its workspace's, or its payee company's own. *)
Definition entry_account (t : MoneyTables) (e : MoneyEntry) (id : string) : option MoneyAccount :=
  match money_accounts t !! id with
  | Some a => if bool_decide (ma_ws a = me_ws e) || (bool_decide (ma_ws a = me_payee_ws e) && Contains [MoneyCompany; MoneyAgent] (ma_purpose a))
              then Some a else None
  | None => None
  end.

(** Each posting's account is open and holds its currency. *)
Fixpoint resolve_lines (e : MoneyEntry) (ps : list MoneyPosting) : LTx (list MoneyPosting) :=
  match ps with
  | [] => tx_ret []
  | p :: ps =>
      let! a := tx_gets (fun d => entry_account d e (mn_account p)) in
      match a with
      | None => tx_fail ErrMoneyAccountNotFound
      | Some a =>
          tx_guard (bool_decide (ma_status a = MoneyOpen)) ErrMoneyAccountNotOpen ;;;
          tx_guard (bool_decide (mn_currency p = "")%string || bool_decide (mn_currency p = ma_currency a))
            (ErrMoneyEntry (RuleAccountCurrency (mn_account p) (mn_currency p))) ;;;
          let! rest := resolve_lines e ps in
          tx_ret (mkMoneyPosting (mn_account p) (mn_amount p) (ma_currency a) (mn_funding p) :: rest)
      end
  end.

(** ** Screening *)

(** A leg of an outside payment: its currency and direction, and what goes that way. *)
Fixpoint add_leg (k : string * string) (amount : Z) (legs : list (string * string * Z)) : list (string * string * Z) :=
  match legs with
  | [] => [(k, amount)]
  | (k', n) :: legs => if bool_decide (k = k') then (k', n +! amount) :: legs else (k', n) :: add_leg k amount legs
  end.

Definition outside_legs (partner : string -> bool) (ps : list MoneyPosting) : list (string * string * Z) :=
  foldl (fun legs p =>
           if partner (mn_account p) then
             if mn_amount p <? 0 then add_leg (mn_currency p, "in"%string) (-! mn_amount p) legs
             else add_leg (mn_currency p, "out"%string) (mn_amount p) legs
           else legs) [] ps.

Fixpoint screen_legs (screener : PaymentScreener) (c : Ctx) (e : MoneyEntry) (legs : list (string * string * Z)) : LTx unit :=
  match legs with
  | [] => tx_ret tt
  | (currency, direction, amount) :: legs =>
      match screener c (mkScreened (me_ws e) (me_key e) (me_capability e) direction (me_counterparty e) amount currency (me_funding e)) with
      | Some err => tx_fail err
      | None => screen_legs screener c e legs
      end
  end.

Definition screenOutside (screener : option PaymentScreener) (c : Ctx) (e : MoneyEntry) (ps : list MoneyPosting) (partner : string -> bool) :
    LTx unit :=
  match outside_legs partner ps with
  | [] => tx_ret tt
  | legs =>
      tx_guard (negb (bool_decide (me_counterparty e = "")%string)) (ErrMoneyEntry RuleCounterparty) ;;;
      match screener with
      | None => tx_fail ErrScreeningUnavailable
      | Some screener => screen_legs screener c e legs
      end
  end.

(** ** The limits of live money *)

(** [limitFor]: the limit of the highest level up to [have]. *)
Definition limitFor (limits : list LevelLimit) (have : Z) (currency : string) : option LevelLimit :=
  foldl (fun l c =>
           if bool_decide (ll_currency c = currency) && (ll_level c <=? have)
              && match l with Some l => ll_level l <? ll_level c | None => true end
           then Some c else l) None limits.

(** What the postings add, by currency. *)
Definition moved_by_currency (ps : list MoneyPosting) : gmap string Z :=
  foldl (fun m p => if 0 <? mn_amount p then <[mn_currency p := default 0 (m !! mn_currency p) +! mn_amount p]> m else m) ∅ ps.

Definition string_le (a b : string) : Prop := Is_true (String.leb a b).

Definition currencies_moved (ps : list MoneyPosting) : list string :=
  merge_sort string_le (map_to_list (moved_by_currency ps)).*1.

(** The first currency over its limit, with the limit when there is one. *)
Fixpoint over_limit (limits : list LevelLimit) (have : Z) (moved : gmap string Z) (currencies : list string) : option CapabilityRefusal :=
  match currencies with
  | [] => None
  | cur :: currencies =>
      match limitFor limits have cur with
      | None => Some (RefOverLimit cur None)
      | Some l => if ll_limit l <? default 0 (moved !! cur) then Some (RefOverLimit cur (Some (ll_limit l)))
                  else over_limit limits have moved currencies
      end
  end.

Definition money_balance (t : MoneyTables) (account funding : string) : Z :=
  default 0 (money_account_balances t !! (account, funding)).

Definition is_partner (t : MoneyTables) (id : string) : bool :=
  match money_accounts t !! id with Some a => bool_decide (ma_purpose a = MoneyPartner) | None => false end.

Section Money.
Context (G : Gates) (screener : option PaymentScreener).

Definition overLevelLimit (ws : string) (cap : Capability) (ps : list MoneyPosting) : LTx (option CapabilityRefusal) :=
  if Level cap =? LevelSignedIn then tx_ret None
  else
    let! have := desk_tx (ask (fun d => liveVerificationLevel G d ws)) in
    let! limits := desk_tx (ask (levelLimitsInForce G)) in
    tx_ret (over_limit limits have (moved_by_currency ps) (currencies_moved ps)).

(** ** Posting *)

(** One posting, and the trigger that keeps its account's balance. *)
Definition insert_line (id : string) (n : Z) (p : MoneyPosting) : LTx unit :=
  let! bal := tx_gets (fun d => money_balance d (mn_account p) (mn_funding p)) in
  let! bal := money_bigint (bal + mn_amount p) in
  tx_modify (fun d => with_money_balances (<[(mn_account p, mn_funding p) := bal]> (money_account_balances d))
                        (with_money_postings (money_postings d ++ [mkMoneyLine id n p]) d)).

Fixpoint insert_lines (id : string) (n : Z) (ps : list MoneyPosting) : LTx unit :=
  match ps with
  | [] => tx_ret tt
  | p :: ps => insert_line id n p ;;; insert_lines id (n + 1) ps
  end.

(** The statement's arguments: the entry, the funding and three a posting, 65,535 at most. *)
Definition arguments_fit (ps : list MoneyPosting) : bool := (2 + 3 * length ps <=? 65535)%nat.

(** [INSERT INTO money_entries]: [None] is a key of the workspace already used. *)
Definition insert_entry (c : Ctx) (e : MoneyEntry) : LTx (option EntryRow) :=
  tx_guard (kind_ok (me_kind e)) ErrMoneyCheck ;;;
  let! prior := tx_gets (fun d => entry_by_key d (me_ws e) (me_key e)) in
  match prior with
  | Some prior => tx_ret (Some prior)
  | None =>
      let! dup := tx_gets (fun d => is_some (entry_by_id d (me_id e))) in
      tx_guard (negb dup) ErrMoneyUnique ;;;
      tx_modify (fun d => with_money_entries
        (mkEntryRow (me_id e) (me_ws e) (me_capability e) (me_kind e) (me_key e) (me_memo e) (me_counterparty e) (me_partner_ref e) (now c)
         :: money_entries d) d) ;;;
      tx_ret None
  end.

(** The freezes, the terms and the clearance an entry moves under. *)
Definition entry_allowed (c : Ctx) (e : MoneyEntry) (cap : Capability) : LTx unit :=
  desk_tx (refuseFrozen (me_ws e) cap) ;;;
  desk_tx (refuseUnaccepted (me_ws e) cap) ;;;
  (if bool_decide (me_payee_ws e = "")%string then tx_ret tt else desk_tx (refuseFrozen (me_payee_ws e) cap)) ;;;
  if bool_decide (me_funding e = FundingLive) then
    let! refusal := desk_tx (capabilityLive G c (me_ws e) cap) in
    desk_tx (refuse_with cap refusal)
  else tx_ret tt.

Definition postMoneyTx (c : Ctx) (e : MoneyEntry) : LTx MoneyEntry :=
  match CapabilityByKey (me_capability e) with
  | None => tx_fail (ErrMoneyEntry RuleMoneyCapability)
  | Some cap =>
      tx_guard (Contains b30 (Key cap)) (ErrMoneyEntry RuleMoneyCapability) ;;;
      tx_guard (negb (bool_decide (me_ws e = "")%string)) (ErrMoneyEntry RuleEntryWorkspace) ;;;
      tx_guard (negb (bool_decide (me_key e = "")%string)) (ErrMoneyEntry RuleEntryKey) ;;;
      tx_guard (Contains [FundingTest; FundingLive] (me_funding e)) (ErrMoneyEntry RuleEntryFunding) ;;;
      let ps := moving_lines e in
      tx_guard (negb (length ps =? 0)%nat) (ErrMoneyEntry RuleNoMoney) ;;;
      let! u := desk_tx (wallet (uuid_new c)) in
      let e := mkMoneyEntry ("mle_" +:+ u) (me_ws e) (me_capability e) (me_kind e) (me_key e) (me_funding e) (me_memo e)
                 (trimmed (me_counterparty e)) (trimmed (me_partner_ref e)) (now c) (me_postings e) (me_payee_ws e) in
      let! prior := insert_entry c e in
      match prior with
      | Some prior => replayedMoneyEntry e prior ps
      | None =>
          entry_allowed c e cap ;;;
          let! ps := resolve_lines e ps in
          let! partner := tx_gets (fun d => is_partner d) in
          screenOutside screener c e ps partner ;;;
          (if bool_decide (me_funding e = FundingLive) then
             let! over := overLevelLimit (me_ws e) cap ps in
             desk_tx (refuse_with cap over)
           else tx_ret tt) ;;;
          tx_guard (arguments_fit ps) ErrMoneyDb ;;;
          insert_lines (me_id e) 1 ps ;;;
          tx_ret (mkMoneyEntry (me_id e) (me_ws e) (me_capability e) (me_kind e) (me_key e) (me_funding e) (me_memo e)
                    (me_counterparty e) (me_partner_ref e) (me_created e) ps (me_payee_ws e))
      end
  end.

(** ** Committing *)

Definition line_total (ps : list MoneyPosting) (currency funding : string) : Z :=
  sumZ (mn_amount <$> filter (fun p => mn_currency p = currency /\ mn_funding p = funding) ps).

(** [money_entry_balanced] of one entry. *)
Definition entry_balanced (ps : list MoneyPosting) : bool :=
  negb (length ps =? 0)%nat && forallb (fun p => line_total ps (mn_currency p) (mn_funding p) =? 0) ps.

(** The deferred trigger, for the entries a transaction wrote. *)
Definition money_balanced (t0 t : MoneyTables) : bool :=
  forallb (fun e => entry_balanced (entry_lines (money_postings t) (en_id e)))
    (take (length (money_entries t) - length (money_entries t0)) (money_entries t)).

Definition money_committed {A} (m : LTx A) : LTx A := fun d =>
  match m d with
  | Ok (a, d') => if money_balanced d d' then Ok (a, d') else Err ErrMoneyUnbalanced
  | Err e => Err e
  end.

(** [PostMoney]; what monitoring then finds never moves or stops money. *)
Definition PostMoney (c : Ctx) (e : MoneyEntry) : LTx MoneyEntry := money_committed (postMoneyTx c e).
End Money.

(** ** Reading *)

Record MoneyBalance := mkMoneyBalance {
  mb_currency : string;
  mb_test : Z;
  mb_live : Z;
  mb_amount : Z;
}.

(** [Balance]. *)
Definition Balance (ws account : string) d : Res MoneyErr MoneyBalance :=
  match money_accounts d !! account with
  | Some a =>
      if bool_decide (ma_ws a = ws) then
        let test := money_balance d account FundingTest in
        let live := money_balance d account FundingLive in
        Ok (mkMoneyBalance (ma_currency a) test live (test +! live))
      else Err ErrMoneyAccountNotFound
  | None => Err ErrMoneyAccountNotFound
  end.
