(* ===== verification/MoneyBooks.v ===== *)
(** What the ledger of [Ledger] keeps, whatever is written to it: each balance the sum of
    its postings, each entry balanced in every currency and funding, each key used once; and
    what one posting does: once, exactly, and only when it is allowed. *)
From stdpp Require Import pretty relations sorting.
From S2P Require Import Prelude Money Tables Postings Clock Lxc Rules CreditLine Agents Reservation Shifts Desk Capabilities Ledger.
Open Scope Z_scope.
Open Scope i64_scope.

Implicit Types (d : Desk) (t : MoneyTables) (p q : MoneyPosting) (ps : list MoneyPosting).

(** ** Sums of postings *)

(** What postings add to an account's money of one funding. *)
Definition lines_on (account funding : string) ps : Z :=
  sumZ (mn_amount <$> filter (fun p => mn_account p = account /\ mn_funding p = funding) ps).

(** Every posting there is. *)
Definition all_lines t : list MoneyPosting := ln_posting <$> money_postings t.

Lemma account_lines_app a f ps qs : lines_on a f (ps ++ qs) = lines_on a f ps + lines_on a f qs.
Proof. unfold lines_on. by rewrite filter_app, fmap_app, sumZ_app. Qed.

Lemma lines_on_cons a f p ps :
  lines_on a f (p :: ps) = (if decide (mn_account p = a /\ mn_funding p = f) then mn_amount p else 0) + lines_on a f ps.
Proof. unfold lines_on. rewrite filter_cons. case_decide; csimpl; lia. Qed.

(** The entry's lines, numbered. *)
Fixpoint numbered (id : string) (n : Z) ps : list MoneyLine :=
  match ps with
  | [] => []
  | p :: ps => mkMoneyLine id n p :: numbered id (n + 1) ps
  end.

Lemma numbered_postings id ps : forall n, ln_posting <$> numbered id n ps = ps.
Proof. induction ps as [|p ps IH]; intros n; csimpl; [done|]. by rewrite IH. Qed.

Lemma numbered_entry id ps r : forall n, r ∈ numbered id n ps -> ln_entry r = id /\ ln_posting r ∈ ps.
Proof.
  induction ps as [|p ps IH]; intros n; [by intros ?%not_elem_of_nil|]. cbn [numbered].
  intros [->|H]%elem_of_cons; [split; [done|by left]|]. destruct (IH _ H). split; [done|by right].
Qed.

Lemma entry_lines_app l k id : entry_lines (l ++ k) id = entry_lines l id ++ entry_lines k id.
Proof. unfold entry_lines. by rewrite filter_app, fmap_app. Qed.

Lemma entry_lines_numbered id ps : forall n, entry_lines (numbered id n ps) id = ps.
Proof.
  induction ps as [|p ps IH]; intros n; [done|]. unfold entry_lines in *. cbn [numbered].
  rewrite filter_cons_True by done. csimpl. by rewrite IH.
Qed.

Lemma entry_lines_numbered_ne id id' ps : id <> id' -> forall n, entry_lines (numbered id n ps) id' = [].
Proof.
  intros Hne. induction ps as [|p ps IH]; intros n; [done|]. unfold entry_lines in *. cbn [numbered].
  by rewrite filter_cons_False.
Qed.

(** The balances once postings are written. *)
Definition add_line (p : MoneyPosting) (b : gmap (string * string) Z) : gmap (string * string) Z :=
  <[(mn_account p, mn_funding p) := default 0 (b !! (mn_account p, mn_funding p)) + mn_amount p]> b.

Definition add_lines ps (b : gmap (string * string) Z) : gmap (string * string) Z := foldl (fun b p => add_line p b) b ps.

Lemma add_lines_lookup ps : forall b a f,
  default 0 (add_lines ps b !! (a, f)) = default 0 (b !! (a, f)) + lines_on a f ps.
Proof.
  induction ps as [|p ps IH]; intros b a f; [by cbn; lia|].
  change (add_lines (p :: ps) b) with (add_lines ps (add_line p b)). rewrite IH, lines_on_cons. unfold add_line.
  destruct (decide (mn_account p = a /\ mn_funding p = f)) as [[<- <-]|H].
  - rewrite lookup_insert_eq. cbn. lia.
  - rewrite lookup_insert_ne by (intros [= E1 E2]; by apply H). lia.
Qed.

(** ** What posting an entry does *)

(** The desk once an entry and its lines are written. *)
Definition wrote (row : EntryRow) ps d : Desk :=
  with_money_balances (add_lines ps (money_account_balances d))
    (with_money_postings (money_postings d ++ numbered (en_id row) 1 ps)
      (with_money_entries (row :: money_entries d) d)).

(** The desk once an identifier is drawn. *)
Definition drew d : Desk := with_store (with_uuid_draws (N.succ (uuid_draws d)) d) d.

Lemma insert_lines_ok id ps : forall n d u d', insert_lines id n ps d = Ok (u, d') ->
  d' = with_money_balances (add_lines ps (money_account_balances d)) (with_money_postings (money_postings d ++ numbered id n ps) d).
Proof.
  induction ps as [|p ps IH]; intros n d u d' H; cbn [insert_lines] in H.
  - apply tx_ret_ok in H as [_ ->]. cbn. rewrite app_nil_r. by destruct d as [? ? []].
  - apply tx_bind_ok in H as (v & d1 & H1 & H). apply IH in H as ->. unfold insert_line in H1. rewrite tx_gets_bind in H1.
    apply tx_bind_ok in H1 as (b & d2 & H2 & H1). apply sql_bigint_ok in H2 as (-> & -> & _). apply tx_modify_ok in H1 as ->.
    destruct d as [? ? []]. unfold with_money_balances, with_money_postings, with_money. cbn. by rewrite <- app_assoc.
Qed.

(** One posting asked for, and as it is written. *)
Definition resolved t (e : MoneyEntry) p q : Prop :=
  exists a, entry_account t e (mn_account p) = Some a /\ ma_status a = MoneyOpen /\
    (mn_currency p = "" \/ mn_currency p = ma_currency a)%string /\
    q = mkMoneyPosting (mn_account p) (mn_amount p) (ma_currency a) (mn_funding p).

Lemma resolve_lines_ok e ps : forall d qs d', resolve_lines e ps d = Ok (qs, d') -> d' = d /\ Forall2 (resolved d e) ps qs.
Proof.
  induction ps as [|p ps IH]; intros d qs d' H; cbn [resolve_lines] in H.
  - apply tx_ret_ok in H as [-> ->]. by split.
  - rewrite tx_gets_bind in H. destruct (entry_account d e (mn_account p)) as [a|] eqn:A; [|by apply tx_fail_ok in H].
    rewrite tx_guard_bind in H. destruct H as [Ho%bool_decide_eq_true H].
    rewrite tx_guard_bind in H. destruct H as [Hc H].
    apply tx_bind_ok in H as (rest & d1 & H1 & H). apply IH in H1 as [-> F]. apply tx_ret_ok in H as [-> ->].
    split; [done|]. constructor; [|done]. exists a. split_and!; [done..| |done].
    apply orb_prop in Hc as [Hc%bool_decide_eq_true|Hc%bool_decide_eq_true]; auto.
Qed.

Lemma desk_tx_ok {A} (m : PTx A) d r : desk_tx m d = Ok r <-> m d = Ok r.
Proof. unfold desk_tx. destruct (m d); naive_solver. Qed.

Lemma refuse_with_tx_ok cap r d u d' : desk_tx (refuse_with cap r) d = Ok (u, d') <-> r = None /\ d' = d.
Proof. rewrite desk_tx_ok, refuse_with_ok. destruct u. tauto. Qed.

Lemma refuseFrozen_ok ws cap d u d' : refuseFrozen ws cap d = Ok (u, d') <-> frozenRefusal d ws cap = None /\ d' = d.
Proof. unfold refuseFrozen. rewrite tx_gets_bind, refuse_with_ok. destruct u. tauto. Qed.

Lemma refuseUnaccepted_ok ws cap d u d' : refuseUnaccepted ws cap d = Ok (u, d') <-> termsRefusal d ws cap = None /\ d' = d.
Proof. unfold refuseUnaccepted. rewrite tx_gets_bind, refuse_with_ok. destruct u. tauto. Qed.

(** A leg as it is screened. *)
Definition leg_screened (e : MoneyEntry) (l : string * string * Z) : ScreenedPayment :=
  mkScreened (me_ws e) (me_key e) (me_capability e) l.1.2 (me_counterparty e) l.2 l.1.1 (me_funding e).

Lemma screen_legs_ok scr c e legs d u d' : screen_legs scr c e legs d = Ok (u, d') <->
  d' = d /\ Forall (fun l => scr c (leg_screened e l) = None) legs.
Proof.
  destruct u. induction legs as [|[[cur dir] n] legs IH]; cbn [screen_legs].
  - rewrite tx_ret_ok. split; [by intros [_ ->]|by intros [-> _]].
  - rewrite Forall_cons. unfold leg_screened at 1. cbn [fst snd]. destruct (scr c _); [|naive_solver].
    rewrite tx_fail_ok. naive_solver.
Qed.

(** The entry's legs through a partner are screened, under its key, and none is refused. *)
Definition screened (scr : option PaymentScreener) c e (legs : list (string * string * Z)) : Prop :=
  legs = [] \/ me_counterparty e <> ""%string /\ exists screen, scr = Some screen /\
    Forall (fun l => screen c (leg_screened e l) = None) legs.

Lemma screenOutside_ok scr c e ps partner d u d' : screenOutside scr c e ps partner d = Ok (u, d') <->
  d' = d /\ screened scr c e (outside_legs partner ps).
Proof.
  unfold screenOutside, screened. destruct (outside_legs partner ps) as [|l legs] eqn:E.
  - rewrite tx_ret_ok. destruct u. naive_solver.
  - rewrite tx_guard_bind. destruct scr as [screen|].
    + rewrite screen_legs_ok, negb_true_iff, bool_decide_eq_false. naive_solver.
    + rewrite tx_fail_ok. naive_solver.
Qed.

Section Posting.
Context (G : Gates) (scr : option PaymentScreener).

(** What lets an entry's money move. *)
Record allowed (c : Ctx) (e : MoneyEntry) (cap : Capability) d : Prop := {
  al_frozen : frozenRefusal d (me_ws e) cap = None;
  al_terms : termsRefusal d (me_ws e) cap = None;
  al_payee : me_payee_ws e <> ""%string -> frozenRefusal d (me_payee_ws e) cap = None;
  al_live : me_funding e = FundingLive -> capabilityLive G c (me_ws e) cap d = Ok (None, d);
}.

Lemma entry_allowed_ok c e cap d u d' : entry_allowed G c e cap d = Ok (u, d') -> d' = d /\ allowed c e cap d.
Proof.
  unfold entry_allowed. intros H.
  apply tx_bind_ok in H as (v1 & d1 & H1 & H). apply desk_tx_ok, refuseFrozen_ok in H1 as [F ->].
  apply tx_bind_ok in H as (v2 & d1 & H1 & H). apply desk_tx_ok, refuseUnaccepted_ok in H1 as [T ->].
  apply tx_bind_ok in H as (v3 & d1 & H1 & H).
  assert (P : d1 = d /\ (me_payee_ws e <> ""%string -> frozenRefusal d (me_payee_ws e) cap = None)).
  { destruct (bool_decide_reflect (me_payee_ws e = ""%string)); [by apply tx_ret_ok in H1 as [_ ->]|].
    by apply desk_tx_ok, refuseFrozen_ok in H1 as [P ->]. }
  destruct P as [-> P]. destruct (bool_decide_reflect (me_funding e = FundingLive)) as [L|L].
  - apply tx_bind_ok in H as (r & d2 & H2 & H). apply desk_tx_ok in H2. pose proof H2 as H3. apply capabilityLive_ok in H3 as [-> _].
    apply refuse_with_tx_ok in H as [-> ->]. by split.
  - apply tx_ret_ok in H as [_ ->]. by split.
Qed.

(** Live money is within the limit of the workspace's level in every currency it moves. *)
Definition within_limits (ws : string) (cap : Capability) ps d : Prop :=
  Level cap = LevelSignedIn \/ exists have limits, liveVerificationLevel G d ws = Ok have /\ levelLimitsInForce G d = Ok limits /\
    forall cur n, moved_by_currency ps !! cur = Some n -> exists l, limitFor limits have cur = Some l /\ n <= ll_limit l.

Lemma over_limit_none limits have moved currencies : over_limit limits have moved currencies = None ->
  forall cur, cur ∈ currencies -> exists l, limitFor limits have cur = Some l /\ default 0 (moved !! cur) <= ll_limit l.
Proof.
  induction currencies as [|cur' currencies IH]; cbn [over_limit]; intros H cur; [by intros ?%not_elem_of_nil|].
  destruct (limitFor limits have cur') as [l|] eqn:E; [|done]. destruct (Z.ltb_spec (ll_limit l) (default 0 (moved !! cur'))); [done|].
  intros [->|Hc]%elem_of_cons; [by exists l|by apply IH].
Qed.

Lemma overLevelLimit_ok ws cap ps d r d' : overLevelLimit G ws cap ps d = Ok (r, d') ->
  d' = d /\ (r = None -> within_limits ws cap ps d).
Proof.
  unfold overLevelLimit, within_limits. destruct (Z.eqb_spec (Level cap) LevelSignedIn) as [E|E]; intros H.
  - apply tx_ret_ok in H as [-> ->]. split; [done|]. by left.
  - apply tx_bind_ok in H as (have & d1 & H1 & H). apply desk_tx_ok, ask_ok in H1 as [H1 ->].
    apply tx_bind_ok in H as (limits & d1 & H2 & H). apply desk_tx_ok, ask_ok in H2 as [H2 ->].
    apply tx_ret_ok in H as [-> ->]. split; [done|]. intros O. right. exists have, limits. split_and!; [done..|].
    intros cur n Hn. pose proof (over_limit_none _ _ _ _ O cur) as (l & L1 & L2).
    + unfold currencies_moved. rewrite merge_sort_Permutation. apply list_elem_of_fmap.
      exists (cur, n). split; [done|]. by apply elem_of_map_to_list.
    + exists l. rewrite Hn in L2. by split.
Qed.

(** An entry as it is asked for, its names trimmed, under its new identifier. *)
Definition named (c : Ctx) (id : string) (e : MoneyEntry) : MoneyEntry :=
  mkMoneyEntry id (me_ws e) (me_capability e) (me_kind e) (me_key e) (me_funding e) (me_memo e)
    (trimmed (me_counterparty e)) (trimmed (me_partner_ref e)) (now c) (me_postings e) (me_payee_ws e).

Definition with_lines ps (e : MoneyEntry) : MoneyEntry :=
  mkMoneyEntry (me_id e) (me_ws e) (me_capability e) (me_kind e) (me_key e) (me_funding e) (me_memo e)
    (me_counterparty e) (me_partner_ref e) (me_created e) ps (me_payee_ws e).

Definition row_of (c : Ctx) (e : MoneyEntry) : EntryRow :=
  mkEntryRow (me_id e) (me_ws e) (me_capability e) (me_kind e) (me_key e) (me_memo e) (me_counterparty e) (me_partner_ref e) (now c).

(** The desk once the entry's row is in, when it is judged. *)
Definition begun (c : Ctx) (e : MoneyEntry) d : Desk := with_money_entries (row_of c e :: money_entries d) d.

(** An entry that was let through, and its lines as they are written. *)
Record accepted (c : Ctx) (e : MoneyEntry) ps d : Prop := {
  ac_cap : exists cap, CapabilityByKey (me_capability e) = Some cap /\ Key cap ∈ b30 /\ allowed c e cap (begun c e d) /\
    (me_funding e = FundingLive -> within_limits (me_ws e) cap ps (begun c e d));
  ac_fresh : entry_by_key d (me_ws e) (me_key e) = None;
  ac_id : entry_by_id d (me_id e) = None;
  ac_lines : Forall2 (resolved d e) (moving_lines e) ps;
  ac_some : ps <> [];
  ac_screened : screened scr c e (outside_legs (is_partner d) ps);
}.

(** An entry as it is asked for, before the books are looked at. *)
Record well_formed (e : MoneyEntry) : Prop := {
  wf_cap : exists cap, CapabilityByKey (me_capability e) = Some cap /\ Contains b30 (Key cap) = true;
  wf_ws : me_ws e <> ""%string;
  wf_key : me_key e <> ""%string;
  wf_funding : me_funding e ∈ [FundingTest; FundingLive];
  wf_lines : moving_lines e <> [];
  wf_kind : kind_ok (me_kind e) = true;
}.

(** An entry there is, with its postings. *)
Definition entry_of t (row : EntryRow) : MoneyEntry :=
  let ps := entry_lines (money_postings t) (en_id row) in
  mkMoneyEntry (en_id row) (en_ws row) (en_capability row) (en_kind row) (en_key row) (default "" (mn_funding <$> last ps))%string
    (en_memo row) (en_counterparty row) (en_partner_ref row) (en_created row) ps "".

(** The answer to an entry asked for again: the entry as it was first written. *)
Record replayed (e e' : MoneyEntry) t : Prop := {
  rp_prior : exists prior, entry_by_key t (me_ws e) (me_key e) = Some prior /\ e' = entry_of t prior;
  rp_same : same_movement e e' (moving_lines e) = true;
}.

Lemma postMoneyTx_ok c e d e' d' : postMoneyTx G scr c e d = Ok (e', d') ->
  well_formed e /\ let e := named c ("mle_" +:+ uuid c (uuid_draws d)) e in
  (replayed e e' d /\ d' = drew d \/
  (exists ps, accepted c e ps (drew d) /\ e' = with_lines ps e /\ d' = wrote (row_of c e) ps (drew d))).
Proof.
  unfold postMoneyTx. cbn zeta. set (e0 := named c _ e). destruct (CapabilityByKey (me_capability e)) as [cap|] eqn:Ec; [|by intros ?%tx_fail_ok].
  rewrite !tx_guard_bind. intros (Hb & Hw & Hk & Hf & Hp & H). apply tx_bind_ok in H as (u & d1 & H1 & H).
  apply desk_tx_ok, wallet_ok in H1 as (s & H1 & ->). apply uuid_new_ok in H1 as [-> ->]. cbv zeta in H.
  match type of H with context [insert_entry c ?x] => change x with e0 in H end. change (with_store _ d) with (drew d) in H.
  apply tx_bind_ok in H as (prior & d1 & H1 & H). unfold insert_entry in H1. rewrite tx_guard_bind in H1. destruct H1 as [Hkind H1].
  apply bool_decide_eq_true in Hf. apply negb_true_iff, bool_decide_eq_false in Hw, Hk.
  split; [split; [by exists cap|exact Hw|exact Hk|exact Hf| |exact Hkind]; intros E0; by rewrite E0 in Hp|].
  rewrite tx_gets_bind in H1. destruct (entry_by_key (drew d) (me_ws e0) (me_key e0)) as [row|] eqn:Ek.
  - left. apply tx_ret_ok in H1 as [-> ->]. unfold replayedMoneyEntry, readMoneyEntry in H.
    apply tx_bind_ok in H as (first & d1 & H1 & H). rewrite tx_gets_bind in H1.
    destruct (last _) as [p|] eqn:El; [|by apply tx_fail_ok in H1]. apply tx_ret_ok in H1 as [-> ->].
    rewrite tx_guard_bind in H. destruct H as [Hs H]. apply tx_ret_ok in H as [-> ->]. split; [|done].
    split; [exists row; split; [exact Ek|unfold entry_of; change (dk_money (drew d)) with (dk_money d) in El; by rewrite El]|exact Hs].
  - right. rewrite tx_gets_bind, tx_guard_bind, tx_modify_bind in H1. destruct H1 as [Hd H1]. apply tx_ret_ok in H1 as [-> ->].
    match type of H with tx_bind _ _ ?x = _ => set (d1 := x) in H end.
    apply tx_bind_ok in H as (v & d2 & H1 & H). apply entry_allowed_ok in H1 as [-> A].
    apply tx_bind_ok in H as (ps & d2 & H1 & H). apply resolve_lines_ok in H1 as [-> R].
    rewrite tx_gets_bind in H. apply tx_bind_ok in H as (v2 & d2 & H1 & H). apply screenOutside_ok in H1 as [-> S].
    apply tx_bind_ok in H as (v3 & d2 & H1 & H).
    assert (L : d2 = d1 /\ (me_funding e0 = FundingLive -> within_limits (me_ws e0) cap ps d1)).
    { destruct (bool_decide_reflect (me_funding e0 = FundingLive)) as [EL|EL].
      - apply tx_bind_ok in H1 as (r & d3 & H2 & H1). apply overLevelLimit_ok in H2 as [-> O].
        apply refuse_with_tx_ok in H1 as [-> ->]. by split; [|intros _; apply O].
      - by apply tx_ret_ok in H1 as [_ ->]. }
    clear H1. destruct L as [-> L]. rewrite tx_guard_bind in H. destruct H as [_ H].
    apply tx_bind_ok in H as (v4 & d2 & H1 & H). apply insert_lines_ok in H1 as ->. apply tx_ret_ok in H as [-> ->].
    exists ps. split; [|done]. apply bool_decide_eq_true in Hb. constructor.
    + exists cap. split_and!; [exact Ec|exact Hb|exact A|exact L].
    + exact Ek.
    + apply negb_true_iff in Hd. by destruct (entry_by_id _ _).
    + exact R.
    + intros ->. apply Forall2_nil_inv_r in R. change (moving_lines e0) with (moving_lines e) in R. by rewrite R in Hp.
    + exact S.
Qed.
End Posting.

(** ** The books *)

(** The ledger inside a transaction that found the entries [old]: all of [ledger_inv] but the
    balance of the entries it has written itself. *)
Record ledger_pre (old : list EntryRow) t : Prop := {
  lg_grown : exists new, money_entries t = new ++ old;
  lg_balance a f : money_balance t a f = lines_on a f (all_lines t);
  lg_entries e : e ∈ old -> entry_balanced (entry_lines (money_postings t) (en_id e)) = true;
  lg_lines r : r ∈ money_postings t -> ln_entry r ∈ en_id <$> money_entries t /\
    exists a, money_accounts t !! mn_account (ln_posting r) = Some a /\ ma_currency a = mn_currency (ln_posting r);
  lg_funding r r' : r ∈ money_postings t -> r' ∈ money_postings t -> ln_entry r = ln_entry r' ->
    mn_funding (ln_posting r) = mn_funding (ln_posting r');
  lg_keys : NoDup ((fun e => (en_ws e, en_key e)) <$> money_entries t);
  lg_ids : NoDup (en_id <$> money_entries t);
}.

(** Every balance is the sum of its postings, every entry sums to zero in each currency and
    funding, every posting is of an entry and in its account's currency, and an entry has one
    funding, one identifier and one key. *)
Definition ledger_inv t : Prop := ledger_pre (money_entries t) t.

Lemma ledger_empty : ledger_inv no_money.
Proof.
  split; cbn; [by exists []|done|intros e H|intros r H|intros r r' H|constructor|constructor]; by apply not_elem_of_nil in H.
Qed.

Lemma entry_by_id_none t id : entry_by_id t id = None <-> id ∉ en_id <$> money_entries t.
Proof.
  unfold entry_by_id. split.
  - intros H (e & -> & He%list_elem_of_In)%list_elem_of_fmap. apply (List.find_none _ _ H) in He. by apply bool_decide_eq_false in He.
  - intros H. destruct (List.find _ _) as [e|] eqn:E; [|done]. apply List.find_some in E as [Hi <-%bool_decide_eq_true].
    destruct H. apply list_elem_of_fmap_2, list_elem_of_In, Hi.
Qed.

Lemma entry_by_key_none t ws key : entry_by_key t ws key = None <-> (ws, key) ∉ (fun e => (en_ws e, en_key e)) <$> money_entries t.
Proof.
  unfold entry_by_key. split.
  - intros H (e & [= -> ->] & He%list_elem_of_In)%list_elem_of_fmap. apply (List.find_none _ _ H), bool_decide_eq_false in He.
    by destruct He.
  - intros H. destruct (List.find _ _) as [e|] eqn:E; [|done]. apply List.find_some in E as [Hi [<- <-]%bool_decide_eq_true].
    destruct H. apply (list_elem_of_fmap_2 (fun e => (en_ws e, en_key e))), list_elem_of_In, Hi.
Qed.

Lemma entry_by_key_some t ws key e : entry_by_key t ws key = Some e -> e ∈ money_entries t /\ en_ws e = ws /\ en_key e = key.
Proof.
  unfold entry_by_key. intros H. apply List.find_some in H as [Hi [H1 H2]%bool_decide_eq_true].
  split; [by apply list_elem_of_In|done].
Qed.

Lemma entry_by_key_unique t e : NoDup ((fun e => (en_ws e, en_key e)) <$> money_entries t) -> e ∈ money_entries t ->
  entry_by_key t (en_ws e) (en_key e) = Some e.
Proof.
  unfold entry_by_key. induction (money_entries t) as [|x l IH]; [by intros _ ?%not_elem_of_nil|].
  intros [Hx Hl]%NoDup_cons [->|He]%elem_of_cons; cbn [List.find].
  - by rewrite bool_decide_eq_true_2.
  - rewrite bool_decide_eq_false_2; [by apply IH|]. intros [E1 E2]. destruct Hx. cbv beta. rewrite E1, E2.
    by apply (list_elem_of_fmap_2 (fun e => (en_ws e, en_key e))).
Qed.

Lemma money_balanced_inv t0 t : ledger_pre (money_entries t0) t -> money_balanced t0 t = true -> ledger_inv t.
Proof.
  intros [[new Eg] B E L F K I] H. split; [by exists []|done| |done..].
  intros e He. unfold money_balanced in H. rewrite Eg, length_app in H.
  replace (length new + length (money_entries t0) - length (money_entries t0))%nat with (length new) in H by lia.
  rewrite take_app_length, forallb_forall in H. rewrite Eg in He. apply elem_of_app in He as [He|He]; [|by apply E].
  apply H. by apply list_elem_of_In.
Qed.

Lemma ledger_inv_pre t : ledger_inv t -> ledger_pre (money_entries t) t.
Proof. done. Qed.

(** A new entry, its lines in accounts there are. *)
Lemma ledger_pre_wrote old row ps d :
  ledger_pre old d -> entry_by_key d (en_ws row) (en_key row) = None -> entry_by_id d (en_id row) = None ->
  (forall p, p ∈ ps -> exists a, money_accounts d !! mn_account p = Some a /\ ma_currency a = mn_currency p) ->
  (forall p q, p ∈ ps -> q ∈ ps -> mn_funding p = mn_funding q) ->
  ledger_pre old (wrote row ps d).
Proof.
  intros [[new Eg] B E L F K I] Hk%entry_by_key_none Hi%entry_by_id_none A Fp.
  assert (Fresh : forall r, r ∈ money_postings d -> ln_entry r <> en_id row) by (intros r [H _]%L Er; by rewrite Er in H).
  split; cbn [wrote with_money_balances with_money_postings with_money_entries with_money dk_money money_entries money_postings
    money_accounts money_account_balances].
  - exists (row :: new). by rewrite Eg.
  - intros a f. unfold money_balance, all_lines. cbn [money_account_balances money_postings]. rewrite add_lines_lookup, fmap_app, numbered_postings, account_lines_app.
    by rewrite <- B.
  - intros e He. rewrite entry_lines_app, (entry_lines_numbered_ne (en_id row)), app_nil_r; [by apply E|].
    intros Ee. destruct Hi. rewrite Ee, Eg. apply list_elem_of_fmap_2, elem_of_app. by right.
  - intros r [Hr|Hr]%elem_of_app.
    + destruct (L r Hr) as [H1 H2]. split; [by right|done].
    + apply numbered_entry in Hr as [-> Hr]. split; [by left|by apply A].
  - intros r r' [Hr|Hr]%elem_of_app [Hr'|Hr']%elem_of_app Ee.
    + by apply F.
    + apply numbered_entry in Hr' as [E' _]. exfalso. apply (Fresh r Hr). by rewrite Ee.
    + apply numbered_entry in Hr as [E' _]. exfalso. apply (Fresh r' Hr'). by rewrite <- Ee.
    + apply numbered_entry in Hr as [_ Hr]. apply numbered_entry in Hr' as [_ Hr']. by apply Fp.
  - csimpl. by constructor.
  - csimpl. by constructor.
Qed.

Lemma resolved_lines t e ps qs : Forall2 (resolved t e) ps qs -> forall q, q ∈ qs ->
  exists p, p ∈ ps /\ resolved t e p q.
Proof.
  induction 1 as [|p q ps qs H _ IH]; intros q'; [by intros ?%not_elem_of_nil|].
  intros [->|Hq]%elem_of_cons; [exists p; split; [by left|done]|].
  destruct (IH _ Hq) as (p' & H1 & H2). exists p'. split; [by right|done].
Qed.

Lemma moving_lines_elem e p : p ∈ moving_lines e -> mn_funding p = me_funding e /\ mn_amount p <> 0.
Proof. intros (q & -> & [H _]%list_elem_of_filter)%list_elem_of_fmap. by split. Qed.

Lemma entry_account_some t e id a : entry_account t e id = Some a -> money_accounts t !! id = Some a /\
  (ma_ws a = me_ws e \/ ma_ws a = me_payee_ws e /\ ma_purpose a ∈ [MoneyCompany; MoneyAgent]).
Proof.
  unfold entry_account. destruct (money_accounts t !! id) as [b|]; [|done].
  destruct (_ || _) eqn:E; [|done]. intros [= ->]. split; [done|].
  apply orb_prop in E as [E%bool_decide_eq_true|E]; [by left|right].
  apply andb_prop in E as [E1%bool_decide_eq_true E2%bool_decide_eq_true]. by split.
Qed.

Section Kept.
Context (G : Gates) (scr : option PaymentScreener).

Lemma accepted_pre old c e ps d : ledger_pre old d -> accepted G scr c e ps d -> ledger_pre old (wrote (row_of c e) ps d).
Proof.
  intros I [_ Hk Hi R _ _]. apply ledger_pre_wrote; [done..| |].
  - intros q Hq. destruct (resolved_lines _ _ _ _ R q Hq) as (p & _ & a & A & _ & _ & ->).
    apply entry_account_some in A as [A _]. by exists a.
  - enough (Fp : forall q, q ∈ ps -> mn_funding q = me_funding e) by (intros p q H1%Fp H2%Fp; congruence).
    intros q Hq. destruct (resolved_lines _ _ _ _ R q Hq) as (p & Hp & a & _ & _ & _ & ->).
    apply moving_lines_elem in Hp as [Hp _]. exact Hp.
Qed.

(** An entry posted in a transaction keeps the books, to the balance of the commit. *)
Lemma postMoneyTx_pre old c e d e' d' : postMoneyTx G scr c e d = Ok (e', d') -> ledger_pre old d -> ledger_pre old d'.
Proof.
  intros [_ [[_ ->]|(ps & A & _ & ->)]]%postMoneyTx_ok I; [exact I|].
  by apply accepted_pre.
Qed.

(** A new account. *)
Lemma insert_account_ok id a d u d' : insert_account id a d = Ok (u, d') <->
  d' = with_accounts (<[id := a]> (money_accounts d)) d /\ account_checks d a = true /\ money_accounts d !! id = None /\
  forall id' b, money_accounts d !! id' = Some b -> same_slot a b = false.
Proof.
  unfold insert_account. rewrite tx_gets_bind, tx_guard_bind, tx_gets_bind, tx_guard_bind, tx_modify_ok. rewrite negb_true_iff, orb_false_iff.
  split.
  - intros (H1 & [H2 H3] & ->). split_and!; [done..|by destruct (money_accounts d !! id)|].
    intros id' b Hb. destruct (same_slot a b) eqn:Es; [|done]. rewrite <- H3. symmetry. apply existsb_exists.
    exists (id', b). split; [apply list_elem_of_In; by apply elem_of_map_to_list|done].
  - intros (-> & H1 & H2 & H3). split_and!; [done|by rewrite H2| |done]. apply not_true_iff_false. intros ((id' & b) & Hb & Es)%existsb_exists.
    apply list_elem_of_In, elem_of_map_to_list in Hb. cbn [snd] in Es. by rewrite (H3 _ _ Hb) in Es.
Qed.

Lemma accounts_pre old t m :
  ledger_pre old t -> (forall id a, money_accounts t !! id = Some a -> m !! id = Some a) ->
  ledger_pre old (mkMoneyTables m (money_entries t) (money_postings t) (money_account_balances t) (money_payees t) (money_payment_quotes t)).
Proof.
  intros [Gr B E L F K I] Hm. split; [done..| |done|done|done].
  intros r Hr. destruct (L r Hr) as (H1 & a & H2 & H3). split; [done|]. exists a. split; [by apply Hm|done].
Qed.

Lemma insert_account_pre old id a d u d' : insert_account id a d = Ok (u, d') -> ledger_pre old d -> ledger_pre old d'.
Proof.
  intros (-> & _ & N & _)%insert_account_ok I. apply accounts_pre; [done|]. intros id' b Hb.
  rewrite lookup_insert_ne; [done|]. intros ->. by rewrite N in Hb.
Qed.
End Kept.

(** ** Money neither made nor lost *)

Lemma map_sum_add `{Countable K} {A} (f g : K -> A -> Z) (m : gmap K A) :
  map_sum (fun k v => f k v + g k v) m = map_sum f m + map_sum g m.
Proof. unfold map_sum. induction (map_to_list m) as [|kv l IH]; csimpl; lia. Qed.

Lemma map_sum_zero `{Countable K} {A} (f : K -> A -> Z) (m : gmap K A) :
  (forall k v, m !! k = Some v -> f k v = 0) -> map_sum f m = 0.
Proof.
  intros H0. rewrite (map_sum_ext f (fun _ _ => 0)) by done. unfold map_sum. induction (map_to_list m); csimpl; lia.
Qed.

(** What the accounts of a currency hold, by the lines. *)
Definition held_in (currency funding : string) (accounts : gmap string MoneyAccount) ps : Z :=
  map_sum (fun id a => if decide (ma_currency a = currency) then lines_on id funding ps else 0) accounts.

Lemma held_in_lines currency funding accounts ps :
  (forall p, p ∈ ps -> exists a, accounts !! mn_account p = Some a /\ ma_currency a = mn_currency p) ->
  held_in currency funding accounts ps = line_total ps currency funding.
Proof.
  induction ps as [|p ps IH]; intros A; unfold held_in, line_total.
  - apply map_sum_zero. intros k v _. by case_decide.
  - rewrite filter_cons. specialize (IH ltac:(intros q Hq; apply A; by right)).
    destruct (A p ltac:(by left)) as (a & Ha & Ca).
    rewrite (map_sum_ext _ (fun id a => (if decide (id = mn_account p) then
        (if decide (ma_currency a = currency /\ mn_funding p = funding) then mn_amount p else 0) else 0)
      + (if decide (ma_currency a = currency) then lines_on id funding ps else 0))).
    + rewrite map_sum_add. change (map_sum (fun id a => if decide (ma_currency a = currency) then lines_on id funding ps else 0) accounts)
        with (held_in currency funding accounts ps). rewrite IH, (map_sum_delete _ _ _ a Ha), (map_sum_zero _ (delete _ _)).
      * rewrite decide_True, Ca by done. unfold line_total. destruct (decide _); csimpl; lia.
      * intros k v [Hk _]%lookup_delete_Some. by rewrite decide_False.
    + intros k v Hv. rewrite lines_on_cons. repeat case_decide; try lia; naive_solver.
Qed.

Lemma line_total_app ps qs currency funding : line_total (ps ++ qs) currency funding = line_total ps currency funding + line_total qs currency funding.
Proof. unfold line_total. by rewrite filter_app, fmap_app, sumZ_app. Qed.

Lemma entry_balanced_total ps currency funding : entry_balanced ps = true -> line_total ps currency funding = 0.
Proof.
  intros [_ H]%andb_prop. rewrite forallb_forall in H.
  destruct (filter (fun p => mn_currency p = currency /\ mn_funding p = funding) ps) as [|p l] eqn:E; [unfold line_total; by rewrite E|].
  assert (p ∈ filter (fun p => mn_currency p = currency /\ mn_funding p = funding) ps) as [[<- <-] Hp]%list_elem_of_filter
    by (rewrite E; by left).
  apply Z.eqb_eq, H. by apply list_elem_of_In.
Qed.

(** One line more is counted with its entry's. *)
Lemma entry_lines_cons r l id : entry_lines (r :: l) id = (if decide (ln_entry r = id) then [ln_posting r] else []) ++ entry_lines l id.
Proof. unfold entry_lines. rewrite filter_cons. by case_decide. Qed.

Lemma sumZ_fmap_add {A} (f g : A -> Z) l : sumZ ((fun x => f x + g x) <$> l) = sumZ (f <$> l) + sumZ (g <$> l).
Proof. induction l; csimpl; lia. Qed.

Lemma sumZ_one (ids : list string) id n : NoDup ids -> id ∈ ids -> sumZ ((fun x => if decide (id = x) then n else 0) <$> ids) = n.
Proof.
  assert (Z0 : forall l, id ∉ l -> sumZ ((fun x => if decide (id = x) then n else 0) <$> l) = 0).
  { induction l as [|x l IH]; [done|]. rewrite not_elem_of_cons. intros [Hx Hl]. csimpl. rewrite decide_False by done. by apply IH. }
  induction 1 as [|x l Hx Hn IH]; [by intros ?%not_elem_of_nil|]. csimpl. intros [->|H]%elem_of_cons.
  - rewrite decide_True, Z0 by done. lia.
  - rewrite decide_False, IH by (done || congruence). lia.
Qed.

(** The lines, entry by entry. *)
Lemma entries_partition currency funding ids l : NoDup ids -> (forall r, r ∈ l -> ln_entry r ∈ ids) ->
  line_total (ln_posting <$> l) currency funding = sumZ ((fun id => line_total (entry_lines l id) currency funding) <$> ids).
Proof.
  intros Hn. induction l as [|r l IH]; intros Hl.
  - clear. induction ids as [|id ids IH]; csimpl; [done|]. by rewrite <- IH.
  - csimpl. change (ln_posting r :: (ln_posting <$> l)) with ([ln_posting r] ++ (ln_posting <$> l)).
    rewrite line_total_app, IH by (intros q Hq; apply Hl; by right).
    rewrite <- (sumZ_one ids (ln_entry r) (line_total [ln_posting r] currency funding) Hn (Hl r ltac:(by left))), <- sumZ_fmap_add.
    f_equal. apply list_fmap_ext. intros i id _. cbv beta. rewrite entry_lines_cons, line_total_app. by case_decide.
Qed.

(** The accounts of a currency hold, together, nothing: what some hold came from others. *)
Lemma ledger_conserves t currency funding : ledger_inv t ->
  map_sum (fun id a => if decide (ma_currency a = currency) then money_balance t id funding else 0) (money_accounts t) = 0.
Proof.
  intros [_ B E L _ _ I].
  rewrite (map_sum_ext _ (fun id a => if decide (ma_currency a = currency) then lines_on id funding (all_lines t) else 0))
    by (intros k v _; by rewrite B).
  change (held_in currency funding (money_accounts t) (all_lines t) = 0). unfold all_lines. rewrite held_in_lines.
  - rewrite (entries_partition _ _ (en_id <$> money_entries t)) by (done || intros r Hr; by apply L).
    assert (Z0 : forall l : list Z, Forall (eq 0) l -> sumZ l = 0) by (induction 1; cbn; lia).
    apply Z0, Forall_fmap, Forall_forall. intros id (e & -> & He)%list_elem_of_fmap. cbn. symmetry. apply entry_balanced_total, E, He.
  - intros p (r & -> & Hr)%list_elem_of_fmap. by apply L.
Qed.

(** ** Once *)

(** The ledger only grows: entries and lines are added, none to an entry there already was. *)
Record appended t t' : Prop := {
  ap_entries : exists new, money_entries t' = new ++ money_entries t;
  ap_lines : exists ls, money_postings t' = money_postings t ++ ls /\ Forall (fun r => ln_entry r ∉ en_id <$> money_entries t) ls;
}.

#[export] Instance appended_preorder : PreOrder appended.
Proof.
  split.
  - intros t. split; [by exists []|]. exists []. by rewrite app_nil_r.
  - intros t1 t2 t3 [[n1 E1] (l1 & P1 & F1)] [[n2 E2] (l2 & P2 & F2)]. split.
    + exists (n2 ++ n1). by rewrite E2, E1, app_assoc.
    + exists (l1 ++ l2). rewrite P2, P1, app_assoc. split; [done|]. apply Forall_app. split; [done|].
      eapply Forall_impl; [exact F2|]. cbv beta. intros r H. contradict H. rewrite E1, fmap_app, elem_of_app. by right.
Qed.

Lemma appended_money t t' : money_entries t' = money_entries t -> money_postings t' = money_postings t -> appended t t'.
Proof. intros E P. split; [by exists []|]. exists []. by rewrite app_nil_r. Qed.

Lemma appended_wrote row ps d : entry_by_id d (en_id row) = None -> appended d (wrote row ps d).
Proof.
  intros H%entry_by_id_none. split; [by exists [row]|]. exists (numbered (en_id row) 1 ps). split; [done|].
  apply Forall_forall. intros r [-> _]%numbered_entry. exact H.
Qed.

Lemma appended_entry t t' row : appended t t' -> row ∈ money_entries t ->
  row ∈ money_entries t' /\ entry_lines (money_postings t') (en_id row) = entry_lines (money_postings t) (en_id row).
Proof.
  intros [[new En] (ls & Ep & F)] H. split; [rewrite En; apply elem_of_app; by right|].
  rewrite Ep, entry_lines_app. unfold entry_lines at 2.
  destruct (filter _ ls) as [|r l] eqn:E; [by rewrite app_nil_r|]. exfalso.
  assert (r ∈ filter (fun r => ln_entry r = en_id row) ls) as [H1 H2]%list_elem_of_filter by (rewrite E; by left).
  rewrite Forall_forall in F. apply (F _ H2). rewrite H1. by apply list_elem_of_fmap_2.
Qed.

Lemma same_line_refl p a : (mn_currency p = "" \/ mn_currency p = ma_currency a)%string ->
  same_line p (mkMoneyPosting (mn_account p) (mn_amount p) (ma_currency a) (mn_funding p)) = true.
Proof.
  intros H. unfold same_line. cbn [mn_account mn_amount mn_currency]. rewrite (bool_decide_eq_true_2 (mn_account p = _)), Z.eqb_refl by done.
  cbn [andb]. apply orb_true_iff. by destruct H as [-> | ->]; [left|right]; apply bool_decide_eq_true_2.
Qed.

Lemma resolved_same t e ps qs : Forall2 (resolved t e) ps qs -> same_lines ps qs = true.
Proof. induction 1 as [|p q ps qs (a & _ & _ & C & ->) _ IH]; cbn [same_lines]; [done|]. by rewrite same_line_refl, IH. Qed.

Lemma wrote_lines old row ps d : ledger_pre old d -> entry_by_id d (en_id row) = None ->
  entry_lines (money_postings (wrote row ps d)) (en_id row) = ps.
Proof.
  intros I Hi%entry_by_id_none.
  cbn [wrote with_money_balances with_money_postings with_money_entries with_money dk_money money_postings].
  rewrite entry_lines_app, entry_lines_numbered. unfold entry_lines.
  destruct (filter _ _) as [|r l] eqn:E; [done|]. exfalso.
  assert (r ∈ filter (fun r => ln_entry r = en_id row) (money_postings d)) as [H1 H2]%list_elem_of_filter by (rewrite E; by left).
  apply Hi. rewrite <- H1. by apply (lg_lines _ _ I).
Qed.

Section Once.
Context (G : Gates) (scr : option PaymentScreener).

Lemma postMoneyTx_again c e d prior :
  well_formed e -> entry_by_key d (me_ws e) (me_key e) = Some prior -> entry_lines (money_postings d) (en_id prior) <> [] ->
  same_movement (named c "" e) (entry_of d prior) (moving_lines e) = true ->
  postMoneyTx G scr c e d = Ok (entry_of d prior, drew d).
Proof.
  intros [(cap & Ec & Hb) Hw Hk Hf Hl Hkind] P N S. unfold postMoneyTx. rewrite Ec, !run_guard, Hb.
  rewrite !(bool_decide_eq_false_2 _) by done. cbn [negb]. unfold Contains. rewrite bool_decide_eq_true_2 by done.
  replace (negb (length (moving_lines e) =? 0)%nat) with true by (by destruct (moving_lines e)).
  rewrite (run_bind _ _ d (uuid c (uuid_draws d)) (drew d)) by reflexivity.
  rewrite (run_bind _ _ _ (Some prior) (drew d)).
  - unfold replayedMoneyEntry, readMoneyEntry.
    change (money_postings (drew d)) with (money_postings d). rewrite (run_bind _ _ _ (entry_of d prior) (drew d)).
    + rewrite run_guard. replace (same_movement _ _ _) with true by (symmetry; exact S). done.
    + rewrite run_gets. unfold entry_of. change (dk_money (drew d)) with (dk_money d).
      destruct (last (entry_lines (money_postings d) (en_id prior))) eqn:E; [done|]. by apply last_None in E.
  - unfold insert_entry. rewrite run_guard. cbn [me_kind]. rewrite Hkind, run_gets. cbn [me_ws me_key].
    change (dk_money (drew d)) with (dk_money d). by rewrite P.
Qed.

(** What there is of an entry once it was posted. *)
Lemma posted_entry c e d e' d' old : ledger_pre old d -> postMoneyTx G scr c e d = Ok (e', d') ->
  well_formed e /\ appended d d' /\ exists row, row ∈ money_entries d' /\ (en_ws row, en_key row, en_id row) = (me_ws e, me_key e, me_id e') /\
    entry_lines (money_postings d') (en_id row) = me_postings e' /\ me_postings e' <> [] /\
    same_movement (named c "" e) (entry_of d' row) (moving_lines e) = true.
Proof.
  intros I H. pose proof (postMoneyTx_pre _ _ _ _ _ _ _ _ H I) as I'. apply postMoneyTx_ok in H as [Wf H]. split; [exact Wf|].
  destruct H as [[[(row & Hk & ->) S] ->]|(ps & A & -> & ->)].
  - split; [by apply appended_money|]. apply entry_by_key_some in Hk as (H1 & H2 & H3). exists row.
    cbn [named me_ws me_key] in H2, H3. split_and!; [exact H1|by rewrite H2, H3|done| |exact S].
    intros N. cbn [entry_of me_postings] in N. unfold same_movement in S. cbn [entry_of me_postings] in S. rewrite N in S.
    destruct (moving_lines _) eqn:El; [by destruct (wf_lines _ Wf)|]. cbn [same_lines] in S. by rewrite andb_false_r in S.
  - set (e0 := named c _ e) in *. split.
    { transitivity (dk_money (drew d)); [by apply appended_money|]. apply appended_wrote, (ac_id _ _ _ _ _ _ A). }
    exists (row_of c e0). cbn [with_lines me_postings me_id].
    pose proof (wrote_lines old (row_of c e0) ps (drew d) I (ac_id _ _ _ _ _ _ A)) as El.
    split_and!; [by left|done|exact El|exact (ac_some _ _ _ _ _ _ A)|].
    pose proof (ac_lines _ _ _ _ _ _ A) as R. change (moving_lines e0) with (moving_lines e) in R.
    assert (Ef : default ""%string (mn_funding <$> last ps) = me_funding e).
    { destruct (last ps) as [q|] eqn:Eq; [|by apply last_None in Eq; destruct (ac_some _ _ _ _ _ _ A)].
      apply last_Some in Eq as [l ->]. destruct (resolved_lines _ _ _ _ R q) as (p & Hp & a & _ & _ & _ & ->); [apply elem_of_app; right; by left|].
      by apply moving_lines_elem in Hp as [Hp _]. }
    unfold same_movement, entry_of. rewrite El, Ef.
    cbn [me_capability me_kind me_funding me_counterparty me_partner_ref me_postings named row_of en_capability en_kind en_counterparty
      en_partner_ref e0]. rewrite !bool_decide_eq_true_2 by done. by rewrite (resolved_same _ _ _ _ R).
Qed.
End Once.

(** ** The limit of one movement *)






(** The limit is of the highest level there is one of, up to the workspace's. *)
Lemma limitFor_spec limits have currency l : limitFor limits have currency = Some l ->
  l ∈ limits /\ ll_currency l = currency /\ ll_level l <= have /\
  forall l', l' ∈ limits -> ll_currency l' = currency -> ll_level l' <= have -> ll_level l' <= ll_level l.
Proof.
  unfold limitFor. set (step := fun (o : option LevelLimit) c => _).
  enough (H : forall o, (forall x, o = Some x -> ll_currency x = currency /\ ll_level x <= have) ->
    match foldl step o limits with
    | Some l => (o = Some l \/ l ∈ limits) /\ ll_currency l = currency /\ ll_level l <= have /\
        (forall x, o = Some x -> ll_level x <= ll_level l) /\
        forall l', l' ∈ limits -> ll_currency l' = currency -> ll_level l' <= have -> ll_level l' <= ll_level l
    | None => o = None
    end).
  { intros E. specialize (H None ltac:(done)). rewrite E in H. destruct H as ([?|?] & ? & ? & _ & ?); by split_and!. }
  induction limits as [|c limits IH]; intros o Ho; cbn [foldl].
  - destruct o as [x|]; [|done]. destruct (Ho x eq_refl). split_and!; [by left|done|done|by intros ? [= <-]|].
    by intros l' ?%not_elem_of_nil.
  - specialize (IH (step o c)). subst step. cbv beta in *. destruct (bool_decide_reflect (ll_currency c = currency)) as [Ec|Ec], (Z.leb_spec (ll_level c) have) as [Hl|Hl];
      cbn [andb] in *.
    2-4: specialize (IH Ho); destruct (foldl _ o limits) as [l0|]; [|done]; destruct IH as (I1 & I2 & I3 & I4 & I5);
      (split_and!; [destruct I1; [by left|right; by right]|done..|intros l' [->|H']%elem_of_cons; [intros; first [done|lia]|by apply I5]]).
    destruct o as [x|].
    + destruct (Ho x eq_refl) as [Hx1 Hx2]. destruct (Z.ltb_spec (ll_level x) (ll_level c)) as [Hlt|Hlt].
      * specialize (IH ltac:(by intros y [= <-])). destruct (foldl _ (Some c) limits) as [l0|]; [|done].
        destruct IH as (I1 & I2 & I3 & I4 & I5). specialize (I4 c eq_refl).
        split_and!; [right; destruct I1 as [[= <-]|I1]; [by left|by right]|done|done|intros y [= <-]; lia|].
        intros l' [->|H']%elem_of_cons; [lia|by apply I5].
      * specialize (IH Ho). destruct (foldl _ (Some x) limits) as [l0|]; [|done]. destruct IH as (I1 & I2 & I3 & I4 & I5).
        specialize (I4 x eq_refl). split_and!; [destruct I1; [by left|right; by right]|done|done|intros y [= <-]; lia|].
        intros l' [->|H']%elem_of_cons; [lia|by apply I5].
    + specialize (IH ltac:(by intros y [= <-])). destruct (foldl _ (Some c) limits) as [l0|]; [|done].
      destruct IH as (I1 & I2 & I3 & I4 & I5). specialize (I4 c eq_refl).
      split_and!; [right; destruct I1 as [[= <-]|I1]; [by left|by right]|done|done|done|].
      intros l' [->|H']%elem_of_cons; [lia|by apply I5].
Qed.

(** ** Properties *)

Section Properties.
Context (G : Gates) (scr : option PaymentScreener).

Lemma PostMoney_ok c e d e' d' : PostMoney G scr c e d = Ok (e', d') -> postMoneyTx G scr c e d = Ok (e', d') /\ money_balanced d d' = true.
Proof.
  unfold PostMoney, money_committed. destruct (postMoneyTx G scr c e d) as [[x y]|]; [|done].
  destruct (money_balanced d y) eqn:B; [|done]. by intros [= -> ->].
Qed.

Lemma PostMoney_inv c e d e' d' : ledger_inv d -> PostMoney G scr c e d = Ok (e', d') -> ledger_inv d'.
Proof.
  intros I [H B]%PostMoney_ok. apply (money_balanced_inv d); [|exact B]. by apply (postMoneyTx_pre _ _ _ _ _ _ _ _ H).
Qed.

(** C6: money asked for under a key moves once.  Once an entry went through, the same
    movement asked for again, however much else the ledger has recorded since, answers the
    entry first written and moves nothing; and whatever else is asked under that key either
    is refused or answers that entry, moving nothing. *)
Theorem money_moves_once c e d e1 d1 d2 :
  ledger_inv d -> PostMoney G scr c e d = Ok (e1, d1) -> appended d1 d2 -> ledger_inv d2 ->
  (forall c', exists e2, PostMoney G scr c' e d2 = Ok (e2, drew d2) /\ me_id e2 = me_id e1 /\ me_postings e2 = me_postings e1) /\
  (forall c' e' o d3, me_ws e' = me_ws e -> me_key e' = me_key e -> PostMoney G scr c' e' d2 = Ok (o, d3) ->
     dk_money d3 = dk_money d2 /\ me_id o = me_id e1).
Proof.
  intros I [H _]%PostMoney_ok Ap I2. destruct (posted_entry _ _ _ _ _ _ _ _ I H) as (Wf & _ & row & Hr & [= Rw Rk Ri] & El & Ne & S).
  destruct (appended_entry _ _ _ Ap Hr) as [Hr2 El2]. rewrite El in El2.
  pose proof (entry_by_key_unique _ _ (lg_keys _ _ I2) Hr2) as K. rewrite Rw, Rk in K. split.
  - intros c'. exists (entry_of d2 row). split_and!; [|exact Ri|exact El2]. unfold PostMoney, money_committed.
    rewrite (postMoneyTx_again _ _ _ _ _ _ Wf K); [|by rewrite El2|].
    + unfold money_balanced. change (money_entries (drew d2)) with (money_entries d2). by rewrite Nat.sub_diag.
    + unfold same_movement, entry_of in *. rewrite El in S. by rewrite El2.
  - intros c' e' o d3 Ew Ek [H3 _]%PostMoney_ok. rewrite <- Ew, <- Ek in K.
    apply postMoneyTx_ok in H3 as [_ [[[(prior & P & ->) _] ->]|(ps & A & _)]].
    + cbn [named me_ws me_key] in P. rewrite K in P. injection P as <-. by split.
    + pose proof (ac_fresh _ _ _ _ _ _ A) as F. cbn [named me_ws me_key] in F. change (dk_money (drew d2)) with (dk_money d2) in F.
      by rewrite K in F.
Qed.

(** C7: an entry that goes through moves exactly what it says.  Each of its postings that
    moves something is written, in order, on an open account of the entry's workspace - or
    of the company it pays - in that account's currency; every balance changes by its
    postings and no other does; and the entry sums to zero in each currency. *)
Theorem money_moves_exactly c e d e' d' :
  ledger_inv d -> entry_by_key d (me_ws e) (me_key e) = None -> PostMoney G scr c e d = Ok (e', d') ->
  ledger_inv d' /\
  (forall account funding, money_balance d' account funding = money_balance d account funding + lines_on account funding (me_postings e')) /\
  (forall currency funding, line_total (me_postings e') currency funding = 0) /\
  Forall2 (fun p q => mn_account q = mn_account p /\ mn_amount q = mn_amount p /\ mn_funding q = me_funding e /\
      exists a, money_accounts d !! mn_account q = Some a /\ ma_status a = MoneyOpen /\ ma_currency a = mn_currency q /\
        (ma_ws a = me_ws e \/ ma_ws a = me_payee_ws e /\ ma_purpose a ∈ [MoneyCompany; MoneyAgent]))
    (filter (fun p => mn_amount p <> 0) (me_postings e)) (me_postings e') /\
  money_accounts d' = money_accounts d.
Proof.
  intros I F H. pose proof (PostMoney_inv _ _ _ _ _ I H) as I'. apply PostMoney_ok in H as [H B].
  apply postMoneyTx_ok in H as [_ [[[(prior & P & _) _] _]|(ps & A & -> & ->)]]; [cbn [named me_ws me_key] in P; by rewrite F in P|].
  set (e0 := named c _ e) in *. cbn [with_lines me_postings]. split_and!; [exact I'| | | |done].
  - intros account f. unfold money_balance. cbn [wrote with_money_balances with_money dk_money money_account_balances].
    rewrite add_lines_lookup. done.
  - intros currency f. apply entry_balanced_total. unfold money_balanced in B. change (money_entries (wrote _ _ _)) with (row_of c e0 :: money_entries d) in B.
    replace (length (row_of c e0 :: money_entries d) - length (money_entries d))%nat with 1%nat in B by (cbn [length]; lia).
    cbn [take forallb] in B. rewrite andb_true_r in B.
    by rewrite (wrote_lines (money_entries d) (row_of c e0) ps (drew d) I (ac_id _ _ _ _ _ _ A)) in B.
  - pose proof (ac_lines _ _ _ _ _ _ A) as R. unfold moving_lines in R. rewrite Forall2_fmap_l in R.
    eapply Forall2_impl; [exact R|]. cbv beta. intros p q (a & Ea & Eo & _ & ->). cbn [mn_account mn_amount mn_funding mn_currency] in *.
    apply entry_account_some in Ea as [Ea Ew]. split_and!; [done..|]. by exists a.
Qed.


End Properties.

(** ** Examples *)

(** A company's account at its bank, and the bank's account that mirrors it. *)
Definition demo_accounts : gmap string MoneyAccount :=
  {["acme" := mkMoneyAccount "ws" "" CurrencyGBP MoneyCompany MoneyOpen "Main" "ext-1" "" 1;
    "bank" := mkMoneyAccount "ws" "" CurrencyGBP MoneyPartner MoneyOpen "Bank" "ext-1" "" 1]}%string.

Definition demo_till : Desk :=
  match ClearCapability (fun c => bool_decide (c = "GB"%string)) demo_ctx "payments_in" "op" "ref" "L1" "Bank" ["gb"]%string 10
    (with_accounts demo_accounts demo_desk) with
  | Ok (_, d) => d
  | Err _ => demo_desk
  end.

Definition demo_screener : option PaymentScreener :=
  Some (fun _ x => if bool_decide (sp_counterparty x = "Sanctioned Ltd"%string) then Some (ScreeningRefusal "case_1") else None).

Definition money_in (funding key : string) (amount : Z) (from : string) : MoneyEntry :=
  mkMoneyEntry "" "ws" "payments_in" "payment_in" key funding "invoice 7" from "br-1" 0
    [mkMoneyPosting "bank" (- amount) "" ""; mkMoneyPosting "acme" amount " gbp" ""]%string "".

Definition demo_post (c : Ctx) (e : MoneyEntry) d : MoneyEntry * Desk :=
  match PostMoney demo_gates demo_screener c e d with Ok r => r | Err _ => (e, demo_desk) end.

Definition demo_live : MoneyEntry := money_in FundingLive "in-1" 70000 "Customer".
Definition demo_paid : Desk := (demo_post demo_ctx demo_live demo_till).2.
Definition demo_paid_more : Desk := (demo_post demo_ctx (money_in FundingTest "in-2" 500 "Customer") demo_paid).2.

Example demo_balances :
  Balance "ws" "acme" demo_paid_more = Ok (mkMoneyBalance CurrencyGBP 500 70000 70500) /\
  PostMoney demo_gates demo_screener demo_ctx (money_in FundingLive "in-3" 100001 "Customer") demo_paid =
    Err (EDeskErr (ErrCapabilityNotCleared "payments_in" (RefOverLimit CurrencyGBP (Some 100000)))) /\
  PostMoney demo_gates demo_screener demo_ctx (money_in FundingTest "in-3" 10 "Sanctioned Ltd") demo_paid = Err (ScreeningRefusal "case_1") /\
  PostMoney demo_gates demo_screener demo_ctx (money_in FundingLive "in-1" 60000 "Customer") demo_paid = Err ErrIdempotencyKeyReused.
Proof. vm_compute. done. Qed.

Lemma demo_till_inv : ledger_inv demo_till.
Proof.
  split; change (money_entries demo_till) with (@nil EntryRow); change (money_postings demo_till) with (@nil MoneyLine);
    [by exists []|done|intros e H|intros r H|intros r r' H|constructor|constructor]; by apply not_elem_of_nil in H.
Qed.

Lemma demo_posted : PostMoney demo_gates demo_screener demo_ctx demo_live demo_till = Ok (demo_post demo_ctx demo_live demo_till).
Proof. vm_compute. reflexivity. Qed.

Lemma demo_posted_more :
  PostMoney demo_gates demo_screener demo_ctx (money_in FundingTest "in-2" 500 "Customer") demo_paid =
    Ok ((demo_post demo_ctx (money_in FundingTest "in-2" 500 "Customer") demo_paid).1, demo_paid_more).
Proof. vm_compute. reflexivity. Qed.

Lemma demo_till_new : entry_by_key demo_till (me_ws demo_live) (me_key demo_live) = None.
Proof. vm_compute. reflexivity. Qed.

Lemma demo_paid_inv : ledger_inv demo_paid.
Proof. exact (PostMoney_inv _ _ _ _ _ _ _ demo_till_inv (eq_trans demo_posted (f_equal Ok (surjective_pairing _)))). Qed.

Lemma money_moves_once_witness :
  exists e2, PostMoney demo_gates demo_screener demo_ctx demo_live demo_paid_more = Ok (e2, drew demo_paid_more) /\
    me_id e2 = me_id (demo_post demo_ctx demo_live demo_till).1.
Proof.
  assert (E : PostMoney demo_gates demo_screener demo_ctx demo_live demo_till = Ok ((demo_post demo_ctx demo_live demo_till).1, demo_paid))
    by exact (eq_trans demo_posted (f_equal Ok (surjective_pairing _))).
  destruct (posted_entry demo_gates demo_screener _ _ _ _ _ _ demo_paid_inv (proj1 (PostMoney_ok _ _ _ _ _ _ _ demo_posted_more))) as (_ & Ap & _).
  destruct (money_moves_once demo_gates demo_screener demo_ctx demo_live demo_till _ _ demo_paid_more demo_till_inv E Ap
    (PostMoney_inv _ _ _ _ _ _ _ demo_paid_inv demo_posted_more)) as [A _].
  destruct (A demo_ctx) as (e2 & H1 & H2 & _). exists e2. exact (conj H1 H2).
Defined.

Lemma money_moves_exactly_witness :
  money_balance demo_paid "acme" FundingLive = money_balance demo_till "acme" FundingLive
    + lines_on "acme" FundingLive (me_postings (demo_post demo_ctx demo_live demo_till).1) /\
  lines_on "acme" FundingLive (me_postings (demo_post demo_ctx demo_live demo_till).1) = 70000.
Proof.
  assert (E : PostMoney demo_gates demo_screener demo_ctx demo_live demo_till = Ok ((demo_post demo_ctx demo_live demo_till).1, demo_paid))
    by exact (eq_trans demo_posted (f_equal Ok (surjective_pairing _))).
  destruct (money_moves_exactly demo_gates demo_screener demo_ctx demo_live demo_till _ _ demo_till_inv demo_till_new E) as (_ & A & _).
  split; [exact (A "acme"%string FundingLive)|vm_compute; reflexivity].
Defined.

