(* ===== verification/Transfers.v ===== *)
(** Credits sent, asked for and given back between agents
    ([internal/economy/agent_transfers.go]): addresses and handles, the transfer inside
    one workspace or between two, the request one agent makes of another, the refund. *)
From stdpp Require Import pretty.
From S2P Require Import Prelude Money Tables Postings Clock Lxc Rules CreditLine Agents Reservation Funding Wallet Shifts Desk Capabilities.
Open Scope Z_scope.
Open Scope i64_scope.

Implicit Types (d : Desk) (s : Store).

(** ** Addresses *)

Record WalletAddress := mkAddress {
  WalletID : string;
  Handle : string;
  WalletName : string;
  WalletWorkspace : string;
}.

Definition lower (x : string) : string :=
  String.string_of_list_ascii (ascii_lower <$> String.list_ascii_of_string x).

Definition trim_at (x : string) : string :=
  match x with String "@" x => x | x => x end.

(** The agent's address, as a row of [agent_accounts] has it. *)
Definition address_of d (agent : string) : option WalletAddress :=
  (fun a => mkAddress agent (default ""%string (agent_handles d !! agent)) (ag_name a) (ag_ws a)) <$> agent_accounts d !! agent.

(** The agent whose handle is [h], whatever its case. *)
Definition agent_of_handle d (h : string) : option string :=
  fst <$> List.find (fun kv => bool_decide (lower kv.2 = lower h)) (map_to_list (agent_handles d)).

(** An id is looked for before a handle; no handle is as long as an id. *)
Definition resolve d (address : string) : option WalletAddress :=
  let address := trimmed address in
  match address_of d address with
  | Some a => Some a
  | None => agent_of_handle d (trim_at address) ≫= address_of d
  end.

Definition resolveWallet (address : string) : PTx WalletAddress :=
  let! a := tx_gets (fun d => resolve d address) in
  match a with
  | Some a => tx_ret a
  | None => tx_fail (EWallet ErrAgentNotFound)
  end.

Definition is_lower (a : Ascii.ascii) : bool :=
  let n := Ascii.nat_of_ascii a in (97 <=? n)%nat && (n <=? 122)%nat.

Definition handle_first (a : Ascii.ascii) : bool := is_lower a || is_digit a.
Definition handle_rest (a : Ascii.ascii) : bool :=
  handle_first a || bool_decide (a = "."%char \/ a = "_"%char \/ a = "-"%char).

(** [handleRE]: [^[a-z0-9][a-z0-9._-]{2,31}$]. *)
Definition handleRE (h : string) : bool :=
  match String.list_ascii_of_string h with
  | a :: l => handle_first a && forallb handle_rest l && (2 <=? length l)%nat && (length l <=? 31)%nat
  | [] => false
  end.

Definition SetAgentHandle (ws agent handle : string) : PTx WalletAddress :=
  let handle := lower (trim_at (trimmed handle)) in
  tx_guard (bool_decide (handle = ""%string) || handleRE handle) ErrHandle ;;;
  let! a := tx_gets (fun d => agent_accounts d !! agent) in
  match a with
  | None => tx_fail (EWallet ErrAgentNotFound)
  | Some a =>
      tx_guard (bool_decide (ag_ws a = ws)) (EWallet ErrAgentNotFound) ;;;
      if bool_decide (handle = ""%string) then
        tx_modify (fun d => with_handles (delete agent (agent_handles d)) d) ;;;
        tx_ret (mkAddress agent "" (ag_name a) ws)
      else
        let! taken := tx_gets (fun d => agent_of_handle d handle) in
        tx_guard (bool_decide (taken = None \/ taken = Some agent)) ErrHandle ;;;
        tx_modify (fun d => with_handles (<[agent := handle]> (agent_handles d)) d) ;;;
        tx_ret (mkAddress agent handle (ag_name a) ws)
  end.

(** ** The payment's fingerprint *)

(** [hex.EncodeToString(sha256.Sum256(x))] is [sha256hex x]. *)
Definition paymentFingerprint (sha256hex : string -> string) (from to : string) (amount : Z) (memo : string) : string :=
  let nul := String (Ascii.ascii_of_nat 0) "" in
  sha256hex ("payment" +:+ nul +:+ from +:+ nul +:+ to +:+ nul +:+ pretty amount +:+ nul +:+ memo).

(** ** The owners' verification *)

(** [OwnerVerifier]; [None] when none is set. *)
Definition OwnerVerifier : Type := option (Desk -> string -> Res PayErr bool).

(** [MayEarn] of [testOwnersVerified]: a test workspace's people are verified. *)
Definition MayEarn (v : Desk -> string -> Res PayErr bool) (ws : string) : PTx bool :=
  let! test := tx_gets (fun d => synthetic d ws) in
  if (test : bool) then tx_ret true else ask (fun d => v d ws).

(** The owner of [agent], once verified in [ws]. *)
Definition verified_owner (v : OwnerVerifier) (ws agent : string) : PTx string :=
  let! a := tx_gets (fun d => agent_accounts d !! agent) in
  match a with
  | None => tx_fail (EWallet ErrNoRow)
  | Some a =>
      let owner := ag_owner a in
      let! verified := (match v with
                        | Some v => if bool_decide (owner = ""%string) then tx_ret false else MayEarn v ws
                        | None => tx_ret false
                        end) in
      tx_guard verified ErrOwnerUnverified ;;;
      tx_ret owner
  end.

(** ** The transfer *)

Record AgentTransfer := mkAgentTransfer {
  t_id : string;
  t_row : TransferRow;
  t_capability : string;
}.

Definition new_transfer (from_ws from to_ws to : string) (amount : Z) (memo request refund_of : string) : AgentTransfer :=
  mkAgentTransfer "" (mkTransfer "" from_ws from to_ws to amount memo ClassGreen 0 request "" refund_of "" 0) "".

Definition class_name (k : CapabilityClass) : string :=
  match k with ClassGreen => "GREEN" | ClassAmber => "AMBER" | ClassRed => "RED" end.

(** [moveLXC]: out of, or into, [ws]'s balance. *)
Definition moveLXC (ws : string) (delta : Z) (id other other_ws class : string) : WTx unit :=
  let! (bal, minted, spent) := readLXCBalance ws in
  let desc := if 0 <? delta then "credits received from another agent"%string else "credits sent to another agent"%string in
  insertLXCLedger ws delta (bal +! delta) LXCTypeAgentTransfer desc
    (<["transfer_id" := MStr id]> (<["counterparty_agent_id" := MStr other]>
       (<["counterparty_workspace_id" := MStr other_ws]> (<["class" := MStr class]> ∅)))) ;;;
  writeLXCBalance ws (bal +! delta) minted spent.

(** Two sides, the lesser id first. *)
Definition in_order {A} (p q : A) (kp kq : string) : A * A := if String.ltb kq kp then (q, p) else (p, q).

Definition transfer_posting (c : Ctx) (entry ws account : string) (amount : Z) (kind ref : string) : Posting :=
  mkPosting entry ws account amount kind ref None None "" (now c).

(** [INSERT INTO agent_transfers], with its checks and its unique refund. *)
Definition record_transfer (id : string) (t : TransferRow) : PTx unit :=
  tx_guard ((0 <? tf_amount t) && (0 <=? tf_test t) && negb (bool_decide (tf_class t = ClassRed))) (EWallet ErrCheck) ;;;
  let! dup := tx_gets (fun d => is_some (agent_transfers d !! id)) in
  tx_guard (negb dup) (EWallet ErrCheck) ;;;
  let! refunded := tx_gets (fun d => existsb (fun kv => bool_decide (tf_refund_of kv.2 = tf_refund_of t)) (map_to_list (agent_transfers d))) in
  tx_guard (bool_decide (tf_refund_of t = ""%string) || negb refunded) ErrAlreadyRefunded ;;;
  tx_modify (fun d => with_transfers (<[id := t]> (agent_transfers d)) d).

(** The capability a transfer moves as, and its class. *)
Definition transfer_class (same_owner : bool) (capability : string) : string * CapabilityClass :=
  match CapabilityByKey capability with
  | Some k => (Key k, Class_ k)
  | None => if same_owner then (CapabilityOwnAgents, ClassGreen) else (CapabilityPayAnotherOwner, ClassAmber)
  end.

Section Transfer.
Context (LL : string -> option Location) (G : Gates) (V : OwnerVerifier).

(** The two workspaces' LXC, between workspaces, and the part of it that is test money. *)
Definition move_credits (c : Ctx) (id capability : string) (class : CapabilityClass) (from_ws from to_ws to : string)
    (amount : Z) : PTx Z :=
  let cross := negb (bool_decide (to_ws = from_ws)) in
  let! testBefore := wallet (testFundedULXC from_ws) in
  let! _ := spendForCapability G c from_ws capability amount in
  (if cross then
     (match CapabilityByKey capability with
      | Some k => refuseFrozenAnyClass from_ws k ;;; refuseFrozenAnyClass to_ws k
      | None => tx_ret tt
      end) ;;;
     wallet (moveLXC from_ws (-! amount) id to to_ws (class_name class))
   else tx_ret tt) ;;;
  let! testAfter := wallet (testFundedULXC from_ws) in
  let test := Z.max (testBefore -! testAfter) 0 in
  (if cross then wallet (moveLXC to_ws amount id from from_ws (class_name class)) else tx_ret tt) ;;;
  wallet (addTestFunded to_ws test) ;;;
  tx_ret test.

(** Both agents, the lesser id first, of their workspaces, then both owners, verified:
    whether they are the same. *)
Definition transfer_sides (p q : string * string) : PTx bool :=
  let '(x1, x2) := in_order p q p.2 q.2 in
  wallet (lockAgent x1.1 x1.2) ;;; wallet (lockAgent x2.1 x2.2) ;;;
  let! o1 := verified_owner V x1.1 x1.2 in
  let! o2 := verified_owner V x2.1 x2.2 in
  tx_ret (bool_decide (o1 = o2)).

(** The workspaces' balance rows, in id order. *)
Definition lock_balances (from_ws to_ws : string) : WTx unit :=
  if bool_decide (to_ws = from_ws) then readLXCBalance from_ws ;;; tx_ret tt
  else
    let '(w1, w2) := in_order from_ws to_ws from_ws to_ws in
    readLXCBalance w1 ;;; readLXCBalance w2 ;;; tx_ret tt.

(** The transfer's entry, in two workspaces or one, and its row. *)
Definition post_transfer (c : Ctx) (id : string) (t : TransferRow) : PTx TransferRow :=
  let! entry := wallet (uuid_new c) in
  wallet (insert_posting (transfer_posting c entry (tf_from_ws t) (agentAccount (tf_from t)) (-! tf_amount t) "transfer" id)) ;;;
  wallet (insert_posting (transfer_posting c entry (tf_to_ws t) (agentAccount (tf_to t)) (tf_amount t) "transfer" id)) ;;;
  let r := mkTransfer entry (tf_from_ws t) (tf_from t) (tf_to_ws t) (tf_to t) (tf_amount t) (tf_memo t) (tf_class t) (tf_test t)
             (tf_request t) (tf_schedule t) (tf_refund_of t) (tf_loan t) (now c) in
  record_transfer id r ;;;
  tx_ret r.

(** The payee's workspace, looked for when the transfer names none. *)
Definition payee_ws (to_ws to : string) : PTx string :=
  if bool_decide (to_ws = ""%string) then let! a := resolveWallet to in tx_ret (WalletWorkspace a) else tx_ret to_ws.

Definition transfer_id (c : Ctx) (id : string) : WTx string :=
  if bool_decide (id = ""%string) then let! x := uuid_new c in tx_ret ("xfer_" +:+ x) else tx_ret id.

(** [transferTx], [judged] by the sender's rules or not. *)
Definition transferTx (c : Ctx) (t : AgentTransfer) (judged : bool) : PTx AgentTransfer :=
  let r := t_row t in
  let amount := tf_amount r in let from := tf_from r in let to := tf_to r in let from_ws := tf_from_ws r in
  tx_guard (negb (amount <=? 0)) (EWallet ErrAmount) ;;;
  tx_guard (negb (bool_decide (from = to))) ErrSameAgent ;;;
  let! to_ws := payee_ws (tf_to_ws r) to in
  CheckMoneyWall from_ws to_ws ;;;
  let! same_owner := transfer_sides (from_ws, from) (to_ws, to) in
  let '(capability, class) := transfer_class same_owner (t_capability t) in
  let! bal := wallet (accountBalance from_ws (agentAccount from)) in
  tx_guard (negb (bal <? amount)) (EWallet ErrAgentFunds) ;;;
  let! id := wallet (transfer_id c (t_id t)) in
  wallet (if judged then enforceAgentRules LL c from_ws from amount id else tx_ret tt) ;;;
  wallet (lock_balances from_ws to_ws) ;;;
  let! test := move_credits c id capability class from_ws from to_ws to amount in
  let! r := post_transfer c id (mkTransfer "" from_ws from to_ws to amount (tf_memo r) class test (tf_request r)
              (tf_schedule r) (tf_refund_of r) (tf_loan r) 0) in
  tx_ret (mkAgentTransfer id r (t_capability t)).

Definition runTransfer (c : Ctx) (t : AgentTransfer) (judged : bool) d : Res PayErr AgentTransfer * Desk :=
  run_payment c (transferTx c t judged) d.

Section Fingerprint.
Variable sha256hex : string -> string.

(** The request of a payment to an agent, as the rules judge it. *)
Definition payment_request (from to : string) (amount : Z) (memo name : string) : AgentRequest :=
  mkRequest "" "" (paymentFingerprint sha256hex from to amount memo) None true "" (mkPayee "agent" to name) memo
    (mkCommitment "" "" false 0).

Definition SendCredits (c : Ctx) (ws from address : string) (amount : Z) (memo : string) d : Res PayErr AgentTransfer * Desk :=
  match resolve d address with
  | None => (Err (EWallet ErrAgentNotFound), d)
  | Some to =>
      runTransfer (WithAgentRequest c (payment_request from (WalletID to) amount memo (WalletName to)))
        (new_transfer ws from (WalletWorkspace to) (WalletID to) amount memo "" "") true d
  end.

(** ** Requests *)

Definition RequestCredits (c : Ctx) (ws agent address : string) (amount : Z) (memo : string) : PTx string :=
  tx_guard (negb (amount <=? 0)) (EWallet ErrAmount) ;;;
  let! payer := resolveWallet address in
  tx_guard (negb (bool_decide (WalletID payer = agent))) ErrSameAgent ;;;
  CheckMoneyWall ws (WalletWorkspace payer) ;;;
  let! u := wallet (uuid_new c) in
  let id := "mreq_" +:+ u in
  let! a := tx_gets (fun d => agent_accounts d !! agent) in
  tx_guard (match a with Some a => bool_decide (ag_ws a = ws) | None => false end) (EWallet ErrAgentNotFound) ;;;
  let! dup := tx_gets (fun d => is_some (agent_money_requests d !! id)) in
  tx_guard (negb dup) (EWallet ErrCheck) ;;;
  tx_modify (fun d => with_money_requests
    (<[id := mkMoneyRequest ws agent (WalletWorkspace payer) (WalletID payer) amount memo ReqPending "" None]>
       (agent_money_requests d)) d) ;;;
  tx_ret id.

(** The transaction of [AnswerMoneyRequest]. *)
Definition answerMoneyRequest (c : Ctx) (ws id : string) (accept : bool) : PTx MoneyRequest :=
  let! r := tx_gets (fun d => agent_money_requests d !! id) in
  match r with
  | None => tx_fail ErrRequestNotFound
  | Some r =>
      tx_guard (bool_decide (mr_to_ws r = ws /\ mr_status r = ReqPending)) ErrRequestNotFound ;;;
      let! transfer := (if accept then
          let! t := transferTx (WithAgentRequest c (payment_request (mr_to r) (mr_from r) (mr_amount r) (mr_memo r) ""))
                      (new_transfer (mr_to_ws r) (mr_to r) (mr_from_ws r) (mr_from r) (mr_amount r) (mr_memo r) id "") true in
          tx_ret (t_id t)
        else tx_ret (mr_transfer r)) in
      let r := mkMoneyRequest (mr_from_ws r) (mr_from r) (mr_to_ws r) (mr_to r) (mr_amount r) (mr_memo r)
                 (if accept then ReqAccepted else ReqDeclined) transfer (Some (now c)) in
      tx_modify (fun d => with_money_requests (<[id := r]> (agent_money_requests d)) d) ;;;
      tx_ret r
  end.

Definition AnswerMoneyRequest (c : Ctx) (ws id : string) (accept : bool) d : Res PayErr MoneyRequest * Desk :=
  run_payment c (answerMoneyRequest c ws id accept) d.
End Fingerprint.

(** ** Refunds *)

Definition refund_of d (id : string) : option string :=
  fst <$> List.find (fun kv => bool_decide (tf_refund_of kv.2 = id)) (map_to_list (agent_transfers d)).

Definition RefundTransfer (c : Ctx) (ws id : string) d : Res PayErr AgentTransfer * Desk :=
  match agent_transfers d !! id with
  | None => (Err ErrTransferNotFound, d)
  | Some t =>
      if negb (bool_decide (tf_to_ws t = ws /\ tf_refund_of t = ""%string /\ tf_loan t = ""%string)) then (Err ErrTransferNotFound, d)
      else if is_some (refund_of d id) then (Err ErrAlreadyRefunded, d)
      else runTransfer c (new_transfer ws (tf_to t) (tf_from_ws t) (tf_from t) (tf_amount t) ("refund: " +:+ tf_memo t) "" id) false d
  end.
End Transfer.

(** ** Facts *)

Definition real (s : Store) (ws : string) : Prop := synthetic s ws = false.

Lemma verified_owner_ok V ws agent d o d' : verified_owner V ws agent d = Ok (o, d') ->
  d' = d /\ o <> ""%string /\ (exists a, agent_accounts d !! agent = Some a /\ ag_owner a = o) /\
  exists v, V = Some v /\ (synthetic d ws = true \/ v d ws = Ok true).
Proof.
  unfold verified_owner. rewrite tx_gets_bind. destruct (agent_accounts d !! agent) as [a|]; [|by intros H; apply tx_fail_ok in H].
  cbn zeta. intros H. apply tx_bind_ok in H as (b & d1 & H1 & H). rewrite tx_guard_bind in H. destruct H as [-> H].
  apply tx_ret_ok in H as [-> ->]. destruct V as [v|]; [|by apply tx_ret_ok in H1 as [? ->]].
  case_bool_decide as Eo; [by apply tx_ret_ok in H1 as [? ->]|]. unfold MayEarn in H1. rewrite tx_gets_bind in H1.
  destruct (synthetic d ws) eqn:Es.
  - apply tx_ret_ok in H1 as [_ ->]. split_and!; eauto.
  - apply ask_ok in H1 as [H1 ->]. split_and!; eauto.
Qed.

(** Who is behind [agent]: an agent of [ws] whose owner is verified there. *)
Record verified_side (V : OwnerVerifier) (ws agent owner : string) d : Prop := {
  vs_agent : exists a, agent_accounts d !! agent = Some a /\ ag_ws a = ws /\ ag_owner a = owner;
  vs_owner : owner <> ""%string;
  vs_verified : exists v, V = Some v /\ (synthetic d ws = true \/ v d ws = Ok true);
}.

Lemma transfer_sides_ok V ws1 a1 ws2 a2 d b d' : transfer_sides V (ws1, a1) (ws2, a2) d = Ok (b, d') ->
  d' = d /\ exists o1 o2, verified_side V ws1 a1 o1 d /\ verified_side V ws2 a2 o2 d /\ b = bool_decide (o1 = o2).
Proof.
  unfold transfer_sides. cbn [snd].
  assert (S : forall x1 x2, (wallet (lockAgent x1.1 x1.2) ;;; wallet (lockAgent x2.1 x2.2) ;;;
      let! o1 := verified_owner V x1.1 x1.2 in let! o2 := verified_owner V x2.1 x2.2 in
      tx_ret (bool_decide (o1 = o2))) d = Ok (b, d') ->
    d' = d /\ exists o1 o2, verified_side V x1.1 x1.2 o1 d /\ verified_side V x2.1 x2.2 o2 d /\ b = bool_decide (o1 = o2)).
  { intros x1 x2 H. apply wallet_bind in H as (? & s1 & L1 & H). apply lockAgent_ok in L1 as (-> & y1 & L1 & W1).
    rewrite with_store_id in H. apply wallet_bind in H as (? & s2 & L2 & H). apply lockAgent_ok in L2 as (-> & y2 & L2 & W2).
    rewrite with_store_id in H. apply tx_bind_ok in H as (o1 & d1 & O1 & H).
    apply verified_owner_ok in O1 as (-> & N1 & (z1 & E1 & F1) & V1).
    apply tx_bind_ok in H as (o2 & d1 & O2 & H). apply verified_owner_ok in O2 as (-> & N2 & (z2 & E2 & F2) & V2).
    apply tx_ret_ok in H as [-> ->]. split; [done|]. exists o1, o2. rewrite E1 in L1. rewrite E2 in L2. simplify_eq.
    split_and!; [constructor; eauto..|done]. }
  unfold in_order. destruct (String.ltb a2 a1); intros H; apply S in H as (-> & o1 & o2 & V1 & V2 & ->); (split; [done|]).
  - exists o2, o1. split_and!; [done..|]. apply bool_decide_ext. naive_solver.
  - exists o1, o2. done.
Qed.

Lemma lock_balances_shift u from_ws to_ws s v s' :
  sound u s -> lock_balances from_ws to_ws s = Ok (v, s') -> lxc_shift u nothing s s'.
Proof.
  unfold lock_balances. intros B H. case_bool_decide.
  - apply tx_bind_ok in H as (? & s1 & H1 & H). apply tx_ret_ok in H as [_ ->]. by eapply read_shift.
  - assert (S : forall w1 w2, (readLXCBalance w1 ;;; readLXCBalance w2 ;;; tx_ret tt) s = Ok (v, s') -> lxc_shift u nothing s s').
    { intros w1 w2 K. apply tx_bind_ok in K as (? & s1 & K1 & K). apply read_shift with (u := u) in K1; [|done].
      apply tx_bind_ok in K as (? & s2 & K2 & K). apply tx_ret_ok in K as [_ ->].
      apply read_shift with (u := u) in K2; [|eapply shifted_sound, K1]. exact (lxc_shift_trans _ _ _ _ _ _ K1 K2). }
    unfold in_order in H. destruct (String.ltb to_ws from_ws); eapply S, H.
Qed.

Lemma test_set_shift u ws x s : sound u s -> lxc_shift u nothing s (test_set s ws x).
Proof.
  intros B. unfold test_set. destruct (lxc_balances s !! ws) as [r|] eqn:E; [|by apply lxc_shift_refl].
  assert (R : lxc_row s ws = r) by (unfold lxc_row; by rewrite E). apply lxc_shift_set; [done|by rewrite R..].
Qed.

(** What a spend on a capability did. *)
Record capability_spent (G : Gates) (c : Ctx) (ws key : string) (amount take : Z) d d' : Prop := {
  cs_cap : exists cap r, CapabilityByKey key = Some cap /\ frozenRefusal d ws cap = None /\ termsRefusal d ws cap = None /\
    capabilityLive G c ws cap d = Ok (r, d) /\ (r = None -> take = 0) /\
    (r <> None -> take = Z.min amount (test_money d ws) /\ (synthetic d ws = false -> take = amount));
  cs_pay : dk_pay d' = dk_pay d;
  cs_store : take = 0 /\ dk_store d' = dk_store d \/
    test_money d ws <= max_i64 /\ dk_store d' = test_set d ws (test_money d ws -! take);
}.

Lemma spend_spent G c ws key amount d take d' : 0 < amount -> in_i64 amount ->
  spendForCapability G c ws key amount d = Ok (take, d') -> capability_spent G c ws key amount take d d'.
Proof.
  intros Hp Hi H. apply spendForCapability_ok in H as (cap & r & E & Ef & Et & El & H); [|done..].
  destruct r as [why|].
  - destruct H as (-> & T & M & ->). split; [exists cap, (Some why); split_and!; naive_solver|done|].
    right. split; [done|]. reflexivity.
  - destruct H as [-> ->]. split; [exists cap, None; split_and!; naive_solver|done|by left].
Qed.

Lemma spent_shift u G c ws key amount take d d' :
  sound u d -> capability_spent G c ws key amount take d d' -> lxc_shift u nothing d d'.
Proof. intros B [_ _ [[_ ->]|[_ ->]]]; [by apply lxc_shift_refl|by apply test_set_shift]. Qed.

Lemma frozen_bind {A} ws cap (k : unit -> PTx A) d r :
  tx_bind (refuseFrozenAnyClass ws cap) k d = Ok r -> freezeRefusal d ws = None /\ k tt d = Ok r.
Proof. unfold refuseFrozenAnyClass. rewrite refused_bind. by destruct (freezeRefusal d ws). Qed.

(** Between two balances: [amount] from one workspace's to the other's. *)
Definition between (from_ws to_ws : string) (amount : Z) (w : string) : Z := at_ws to_ws amount w - at_ws from_ws amount w.

Lemma between_same ws amount w : between ws ws amount w = 0.
Proof. unfold between. lia. Qed.


Record passed_credits (u : N -> string) (ws : string) (delta : Z) s s' : Prop := {
  pc_shift : lxc_shift u (at_ws ws delta) s s';
  pc_test : lx_test (lxc_row s' ws) = clamp_test (lx_test (lxc_row s ws)) (lx_balance (lxc_row s ws) + delta) (held_sum s ws);
  pc_held w : held_sum s' w = held_sum s w;
  pc_others w : w <> ws -> lxc_row s' w = lxc_row s w;
  pc_there : is_Some (lxc_balances s' !! ws);
}.

Lemma moveLXC_shift u ws delta id other other_ws class s v s' :
  sound u s -> in_i64 (lx_balance (lxc_row s ws) + delta) ->
  moveLXC ws delta id other other_ws class s = Ok (v, s') -> passed_credits u ws delta s s'.
Proof.
  intros B Hi H. split; [eapply pass_shift; [exact B|by left|exact Hi|exact H]|..]; unfold moveLXC in H;
    apply tx_bind_ok in H as ([[bal minted] spent] & s1 & H1 & H); apply readLXCBalance_ok in H1 as [[= -> -> ->] ->];
    apply tx_bind_ok in H as (v1 & s2 & H2 & H); apply insertLXCLedger_ok in H2 as ->;
    rewrite add_ledger_set_row in H; apply writeLXCBalance_ok in H as ->.
  - rewrite lxc_row_set_eq. cbn [lx_test]. by rewrite wrap64_id.
  - intros w. by rewrite held_sum_set_row.
  - intros w Hw. rewrite lxc_row_set, decide_False by done. reflexivity.
  - rewrite set_row_lookup. eauto.
Qed.

(** What [addTestFunded] leaves. *)
Lemma test_added ws amount s v s' : addTestFunded ws amount s = Ok (v, s') ->
  (forall w, held_sum s' w = held_sum s w) /\ (forall w, w <> ws -> lxc_row s' w = lxc_row s w) /\
  (is_Some (lxc_balances s !! ws) -> lx_test (lxc_row s' ws) = lx_test (lxc_row s ws) + Z.max amount 0).
Proof.
  unfold addTestFunded, lxc_row. destruct (Z.leb_spec amount 0); intros K.
  - apply tx_ret_ok in K as [_ ->]. split_and!; [done..|]. intros _. rewrite Z.max_r, Z.add_0_r by done. reflexivity.
  - rewrite tx_gets_bind in K. destruct (lxc_balances s !! ws) as [r|] eqn:E.
    + apply tx_bind_ok in K as (z & s1 & K1 & K). apply bigint_ok in K1 as (-> & -> & _). apply tx_modify_ok in K as ->.
      split_and!; [intros w; apply held_sum_set_row| |].
      * intros w Hw. cbn. by rewrite lookup_insert_ne.
      * intros _. rewrite set_row_lookup. cbn. lia.
    + apply tx_ret_ok in K as [_ ->]. split_and!; [done..|]. by intros [? ?].
Qed.

Lemma spent_held G c ws key amount take d d' w : capability_spent G c ws key amount take d d' -> held_sum d' w = held_sum d w.
Proof.
  intros [_ _ [[_ ->]|[_ ->]]]; [reflexivity|]. unfold test_set. destruct (lxc_balances d !! ws); [apply held_sum_set_row|reflexivity].
Qed.

(** What a transfer's credits leave in the workspaces' balances, and what of them was
    test money: [s2] is the store once they have left the sender's side. *)
Record credits_moved (u : N -> string) (G : Gates) (c : Ctx) (capability from_ws to_ws : string) (amount test : Z) d d' : Prop := {
  cm_pay : dk_pay d' = dk_pay d;
  cm_shift : lxc_shift u (between from_ws to_ws amount) d d';
  cm_spent : exists take d1 s2, capability_spent G c from_ws capability amount take d d1 /\
    (if decide (from_ws = to_ws) then s2 = dk_store d1 /\
       (is_Some (lxc_balances d1 !! to_ws) -> lx_test (lxc_row d' to_ws) = lx_test (lxc_row d1 to_ws) + Z.max test 0)
     else passed_credits u from_ws (- amount) d1 s2 /\ lxc_row d' from_ws = lxc_row s2 from_ws /\
       lx_test (lxc_row d' to_ws) = clamp_test (lx_test (lxc_row d1 to_ws))
         (lx_balance (lxc_row d1 to_ws) + amount) (held_sum d1 to_ws) + Z.max test 0) /\
    test = Z.max (test_money d from_ws -! test_money s2 from_ws) 0;
  cm_held w : held_sum d' w = held_sum d w;
  cm_frozen : from_ws <> to_ws -> compliance_freezes d !! from_ws = None /\ compliance_freezes d !! to_ws = None;
}.

Lemma shift_balance u b s s' ws : lxc_shift u b s s' -> lx_balance (lxc_row s' ws) = lx_balance (lxc_row s ws) + b ws.
Proof. intros [S _]. apply S. Qed.

Lemma freezeRefusal_none d ws : freezeRefusal d ws = None -> compliance_freezes d !! ws = None.
Proof. unfold freezeRefusal. by destruct (compliance_freezes d !! ws). Qed.

Lemma move_credits_ok u G c id capability class from_ws from to_ws to amount d test d' :
  sound u d -> 0 < amount -> in_i64 amount ->
  (from_ws <> to_ws -> in_i64 (lx_balance (lxc_row d from_ws) - amount) /\ in_i64 (lx_balance (lxc_row d to_ws) + amount)) ->
  move_credits G c id capability class from_ws from to_ws to amount d = Ok (test, d') ->
  credits_moved u G c capability from_ws to_ws amount test d d'.
Proof.
  intros B Hp Hi Hr H. unfold move_credits in H.
  apply wallet_bind in H as (tb & s0 & H0 & H). apply testFunded_ok in H0 as (-> & -> & _). rewrite with_store_id in H.
  apply tx_bind_ok in H as (take & d1 & H1 & H). apply spend_spent in H1 as Sp; [|done..]. clear H1.
  pose proof (spent_shift u _ _ _ _ _ _ _ _ B Sp) as S1. pose proof (shifted_sound _ _ _ _ _ _ (proj1 S1)) as B1.
  destruct (decide (from_ws = to_ws)) as [->|Hne].
  - rewrite bool_decide_eq_true_2 in H by done. cbn [negb] in H. apply tx_bind_ok in H as (? & d2 & H2 & H).
    apply tx_ret_ok in H2 as [_ ->]. apply wallet_bind in H as (ta & s2 & H2 & H).
    apply testFunded_ok in H2 as (-> & -> & _). rewrite with_store_id in H. cbn zeta in H.
    apply tx_bind_ok in H as (? & d2 & H2 & H). apply tx_ret_ok in H2 as [_ ->].
    apply wallet_bind in H as (? & s2 & H2 & H). apply tx_ret_ok in H as [-> ->].
    apply (test_shift u) in H2 as S2; [|done]. apply test_added in H2 as (Th & _ & Tt).
    split; [apply Sp| | | |done].
    + cbn [dk_store with_store]. destruct (lxc_shift_trans _ _ _ _ _ _ S1 S2) as [S F]. split; [|done].
      eapply shifted_ext; [..|exact S]; [|done..]. intros w. rewrite between_same. reflexivity.
    + exists take, d1, (dk_store d1). rewrite decide_True by done. split_and!; [done|done|exact Tt|done].
    + intros w. cbn [dk_store with_store]. by rewrite Th, (spent_held _ _ _ _ _ _ _ _ _ Sp).
  - rewrite bool_decide_eq_false_2 in H by congruence. cbn [negb] in H.
    apply tx_bind_ok in H as (? & d2 & H2 & H).
    pose proof (cs_cap _ _ _ _ _ _ _ _ Sp) as (cap & r & Ec & _). rewrite Ec in H2.
    rewrite run_assoc in H2. apply frozen_bind in H2 as [Fz1 H2]. apply frozen_bind in H2 as [Fz2 H2].
    apply wallet_ok in H2 as (s2 & H2 & ->). destruct Hr as [Hr1 Hr2]; [done|]. rewrite neg_in_range in H2 by (done || lia).
    apply (moveLXC_shift u) in H2; [|done|rewrite (shift_balance _ _ _ _ _ S1); unfold nothing; by rewrite Z.add_0_r].
    pose proof (pc_shift _ _ _ _ _ H2) as S2. pose proof (shifted_sound _ _ _ _ _ _ (proj1 S2)) as B2.
    apply wallet_bind in H as (ta & s3 & H3 & H). apply testFunded_ok in H3 as (-> & -> & _). rewrite with_store_id in H.
    apply wallet_bind in H as (v3 & s3 & H3 & H). cbn [dk_store with_store] in H3.
    assert (E2 : lx_balance (lxc_row s2 to_ws) = lx_balance (lxc_row d to_ws)).
    { rewrite (pc_others _ _ _ _ _ H2) by congruence. rewrite (shift_balance _ _ _ _ _ S1). unfold nothing. lia. }
    apply (moveLXC_shift u) in H3 as [S3 T3 Hl3 O3 I3]; [|done|by rewrite E2].
    apply wallet_bind in H as (v4 & s4 & H4 & H). cbn [dk_store with_store] in H4.
    apply (test_shift u) in H4 as S4; [|eapply shifted_sound, S3]. apply tx_ret_ok in H as [-> ->].
    apply test_added in H4 as (Hl4 & O4 & T4). specialize (T4 I3). cbn [dk_store with_store].
    split; [apply Sp| | | |].
    + pose proof (lxc_shift_trans _ _ _ _ _ _ S1 (lxc_shift_trans _ _ _ _ _ _ S2 (lxc_shift_trans _ _ _ _ _ _ S3 S4))) as [S F].
      split; [|exact F]. eapply shifted_ext; [..|exact S]; [|done..]. intros w. cbn beta. unfold between, nothing.
      unfold at_ws. repeat case_bool_decide; lia.
    + exists take, d1, s2. rewrite decide_False by done. cbn [dk_store with_store]. split_and!; [done|done| | |reflexivity].
      * rewrite O4, O3 by done. reflexivity.
      * rewrite T4, T3, (pc_held _ _ _ _ _ H2), (pc_others _ _ _ _ _ H2) by congruence. lia.
    + intros w. cbn [dk_store with_store]. rewrite Hl4, Hl3, (pc_held _ _ _ _ _ H2). exact (spent_held _ _ _ _ _ _ _ _ _ Sp).
    + intros _. split; [apply freezeRefusal_none in Fz1|apply freezeRefusal_none in Fz2];
        by rewrite <- (cs_pay _ _ _ _ _ _ _ _ Sp).
Qed.

(** The postings of a transfer: a balanced pair of them. *)
Definition at_acc (ws account : string) (x : Z) (w a : string) : Z := if bool_decide (ws = w /\ account = a) then x else 0.

Lemma at_acc_decide ws account x w a : at_acc ws account x w a = if decide (w = ws /\ a = account) then x else 0.
Proof. unfold at_acc. case_bool_decide as H; case_decide as K; try done; exfalso; [destruct H|destruct K]; subst; auto. Qed.

Definition agent_to_agent (from_ws from to_ws to : string) (amount : Z) (w a : string) : Z :=
  at_acc from_ws (agentAccount from) (- amount) w a + at_acc to_ws (agentAccount to) amount w a.

(** What recording a transfer checks and writes. *)
Record transfer_recorded (id : string) (t : TransferRow) d d' : Prop := {
  tr_row : d' = with_transfers (<[id := t]> (agent_transfers d)) d;
  tr_new : agent_transfers d !! id = None;
  tr_refund : tf_refund_of t = ""%string \/
    forall id' t', agent_transfers d !! id' = Some t' -> tf_refund_of t' <> tf_refund_of t;
  tr_checks : 0 < tf_amount t /\ 0 <= tf_test t /\ tf_class t <> ClassRed;
}.

Lemma existsb_map {V} (f : string * V -> bool) (m : gmap string V) :
  existsb f (map_to_list m) = true <-> exists k v, m !! k = Some v /\ f (k, v) = true.
Proof.
  rewrite existsb_exists. split.
  - intros ([k v] & Hin & Hf). apply list_elem_of_In, elem_of_map_to_list in Hin. eauto.
  - intros (k & v & Hl & Hf). exists (k, v). rewrite <- list_elem_of_In, elem_of_map_to_list. done.
Qed.

Lemma record_transfer_ok id t d v d' : record_transfer id t d = Ok (v, d') -> transfer_recorded id t d d'.
Proof.
  unfold record_transfer. rewrite tx_guard_bind. intros [[[G1 G2]%andb_prop G3]%andb_prop H].
  rewrite tx_gets_bind, tx_guard_bind in H. destruct H as [Gd H]. rewrite tx_gets_bind, tx_guard_bind in H.
  destruct H as [Gr H]. apply tx_modify_ok in H as ->. split; [done|..].
  - by destruct (agent_transfers d !! id).
  - apply orb_prop in Gr as [Gr|Gr]; [left; by apply bool_decide_eq_true in Gr|]. right. intros id' t' Hl Ht.
    apply negb_true_iff in Gr. enough (true = false) by done. rewrite <- Gr. symmetry. apply existsb_map.
    exists id', t'. split; [done|]. by apply bool_decide_eq_true.
  - split_and!; [lia|lia|]. apply negb_true_iff, bool_decide_eq_false in G3. done.
Qed.

Lemma pair_acc_agents c entry from_ws from to_ws to amount kind ref w a :
  pair_acc (transfer_posting c entry from_ws (agentAccount from) (- amount) kind ref)
    (transfer_posting c entry to_ws (agentAccount to) amount kind ref) w a =
  agent_to_agent from_ws from to_ws to amount w a.
Proof. reflexivity. Qed.

Lemma wall_ok a b d v d' : CheckMoneyWall a b d = Ok (v, d') -> d' = d /\ synthetic d a = synthetic d b.
Proof.
  unfold CheckMoneyWall. case_bool_decide as E; intros H; [apply tx_ret_ok in H as [_ ->]; by subst|].
  rewrite tx_gets_bind in H. apply tx_guard_ok in H as [G ->]. split; [done|].
  by destruct (synthetic d a), (synthetic d b).
Qed.

(** The LXC rows, the holds and the other parts' tables are as they were. *)
Record same_rows s s' : Prop := {
  sr_row w : lxc_row s' w = lxc_row s w;
  sr_held w : held_sum s' w = held_sum s w;
  sr_other : st_other s' = st_other s;
}.

#[export] Instance same_rows_refl : Reflexive same_rows.
Proof. by constructor. Qed.

#[export] Instance same_rows_trans : Transitive same_rows.
Proof. intros a b e [] []. constructor; [intros w..|]; congruence. Qed.

Lemma same_rows_lxc s s' : st_lxc s' = st_lxc s -> st_other s' = st_other s -> same_rows s s'.
Proof. intros E F. constructor; [intros w..|done]; unfold lxc_row, held_sum; by rewrite E. Qed.

Lemma same_rows_touch ws s : same_rows s (set_row ws (lxc_row s ws) s).
Proof. constructor; [|intros w; apply held_sum_set_row|done]. intros w. rewrite lxc_row_set. by destruct (decide (ws = w)) as [<-|]. Qed.

Lemma lock_balances_rows from_ws to_ws s v s' : lock_balances from_ws to_ws s = Ok (v, s') -> same_rows s s'.
Proof.
  assert (R : forall w s v s', readLXCBalance w s = Ok (v, s') -> same_rows s s').
  { intros w z v1 z' H. apply readLXCBalance_ok in H as [_ ->]. apply same_rows_touch. }
  unfold lock_balances, in_order. intros H. case_bool_decide; [|destruct (String.ltb to_ws from_ws)];
    apply tx_bind_ok in H as (? & s1 & H1 & H); apply R in H1; [by apply tx_ret_ok in H as [_ ->]|..];
    (apply tx_bind_ok in H as (? & s2 & H2 & H); apply R in H2; apply tx_ret_ok in H as [_ ->]; by etrans).
Qed.

(** ** What a transfer does *)

Definition transfer_postings (c : Ctx) (id : string) (r : TransferRow) : list Posting :=
  [transfer_posting c (tf_entry r) (tf_to_ws r) (agentAccount (tf_to r)) (tf_amount r) "transfer" id;
   transfer_posting c (tf_entry r) (tf_from_ws r) (agentAccount (tf_from r)) (- tf_amount r) "transfer" id].

Record transferred (LL : string -> option Location) (G : Gates) (V : OwnerVerifier) (c : Ctx) (t t' : AgentTransfer) (judged : bool)
    d d' : Prop := {
  td_asked : tf_from_ws (t_row t') = tf_from_ws (t_row t) /\ tf_from (t_row t') = tf_from (t_row t) /\
    tf_to (t_row t') = tf_to (t_row t) /\ tf_amount (t_row t') = tf_amount (t_row t) /\
    tf_refund_of (t_row t') = tf_refund_of (t_row t) /\ tf_loan (t_row t') = tf_loan (t_row t) /\
    tf_request (t_row t') = tf_request (t_row t) /\
    t_id t' = (if decide (t_id t = ""%string) then "xfer_" +:+ uuid c (uuid_draws d) else t_id t) /\
    (tf_to_ws (t_row t) <> ""%string -> tf_to_ws (t_row t') = tf_to_ws (t_row t));
  td_sides : let r := t_row t' in
    synthetic d (tf_from_ws r) = synthetic d (tf_to_ws r) /\ tf_from r <> tf_to r /\
    exists o1 o2, verified_side V (tf_from_ws r) (tf_from r) o1 d /\ verified_side V (tf_to_ws r) (tf_to r) o2 d /\
      let k := transfer_class (bool_decide (o1 = o2)) (t_capability t) in tf_class r = k.2 /\
      exists d1 d2, dk_pay d1 = dk_pay d /\ same_rows d d1 /\
        credits_moved (uuid c) G c k.1 (tf_from_ws r) (tf_to_ws r) (tf_amount r) (tf_test r) d1 d2 /\ same_rows d2 d';
  td_funds : let r := t_row t' in 0 < tf_amount r <= account_balance d (tf_from_ws r) (agentAccount (tf_from r));
  td_shift : let r := t_row t' in shifted (uuid c) (between (tf_from_ws r) (tf_to_ws r) (tf_amount r))
    (agent_to_agent (tf_from_ws r) (tf_from r) (tf_to_ws r) (tf_to r) (tf_amount r))
    (between (tf_from_ws r) (tf_to_ws r) (tf_amount r)) d d';
  td_postings : agent_postings d' = transfer_postings c (t_id t') (t_row t') ++ agent_postings d;
  td_payees : exists rows, agent_payee_payments d' = rows ++ agent_payee_payments d /\
    Forall (fun p => pp_ref p = t_id t') rows;
  td_recorded : exists d1, dk_pay d1 = dk_pay d /\ transfer_recorded (t_id t') (t_row t') d1 d';
}.

Lemma judged_shift u LL c ws agent amount id (judged : bool) s v s' :
  sound u s -> (if judged then enforceAgentRules LL c ws agent amount id else tx_ret tt) s = Ok (v, s') ->
  shifted u nothing none2 nothing s s' /\ judge_frame s s' /\
  exists rows, agent_payee_payments s' = rows ++ agent_payee_payments s /\ Forall (fun p => pp_ref p = id) rows.
Proof.
  intros B. destruct judged; intros H.
  - pose proof (enforce_payees _ _ _ _ _ _ _ _ _ H) as P. apply enforce_effect in H as (F & _).
    split_and!; [by apply shifted_judged|done|done].
  - apply tx_ret_ok in H as [_ ->]. split_and!; [by apply shifted_refl|done|by exists []].
Qed.

Lemma held_agent_part c entry ws agent amount kind ref w :
  held_part (transfer_posting c entry ws (agentAccount agent) amount kind ref) w = at_ws ws amount w.
Proof. unfold held_part, at_ws. cbn [ps_ws ps_account ps_amount transfer_posting]. rewrite held_agent, andb_true_r. reflexivity. Qed.

(** The row as it is recorded: its entry and its time are the transaction's. *)
Definition stamped (c : Ctx) (entry : string) (t : TransferRow) : TransferRow :=
  mkTransfer entry (tf_from_ws t) (tf_from t) (tf_to_ws t) (tf_to t) (tf_amount t) (tf_memo t) (tf_class t) (tf_test t)
    (tf_request t) (tf_schedule t) (tf_refund_of t) (tf_loan t) (now c).

(** A balanced pair of postings, from one agent's account to another's. *)
Definition paid_shift (u : N -> string) (from_ws from to_ws to : string) (amount : Z) s s' : Prop :=
  shifted u nothing (agent_to_agent from_ws from to_ws to amount) (between from_ws to_ws amount) s s'.

Lemma agent_pair_shift c from_ws from to_ws to amount kind ref s v1 s1 v2 s2 {Hu : Inj (=) (=) (uuid c)} :
  let entry := uuid c (uuid_draws s) in
  sound (uuid c) s ->
  insert_posting (transfer_posting c entry from_ws (agentAccount from) (- amount) kind ref)
    (with_uuid_draws (N.succ (uuid_draws s)) s) = Ok (v1, s1) ->
  insert_posting (transfer_posting c entry to_ws (agentAccount to) amount kind ref) s1 = Ok (v2, s2) ->
  paid_shift (uuid c) from_ws from to_ws to amount s s2 /\ post_frame s s2 /\
  agent_postings s2 = [transfer_posting c entry to_ws (agentAccount to) amount kind ref;
    transfer_posting c entry from_ws (agentAccount from) (- amount) kind ref] ++ agent_postings s.
Proof.
  intros entry B H1 H2. split_and!.
  - pose proof (fun E1 E2 E3 => shifted_pair _ _ _ _ _ _ _ _ B E1 E2 E3 H1 H2) as S.
    specialize (S eq_refl eq_refl ltac:(cbn; lia)). eapply shifted_ext; [..|exact S]; [done|..].
    + intros w a _. apply pair_acc_agents.
    + intros w. cbn beta. rewrite !held_agent_part. unfold between, at_ws. repeat case_bool_decide; lia.
  - apply insert_posting_ok in H1 as (_ & -> & _). apply insert_posting_ok in H2 as (_ & -> & _).
    etrans; [apply (with_uuid_frame (N.succ (uuid_draws s)))|]. etrans; apply posted_frame.
  - apply insert_posting_ok in H1 as (_ & -> & _). apply insert_posting_ok in H2 as (_ & -> & _).
    by rewrite !posted_postings.
Qed.

Lemma post_transfer_ok c id t d r d' {Hu : Inj (=) (=) (uuid c)} :
  sound (uuid c) d -> in_i64 (tf_amount t) -> 0 <= tf_amount t -> post_transfer c id t d = Ok (r, d') ->
  r = stamped c (tf_entry r) t /\
  paid_shift (uuid c) (tf_from_ws t) (tf_from t) (tf_to_ws t) (tf_to t) (tf_amount t) d d' /\ post_frame d d' /\
  agent_postings d' = transfer_postings c id r ++ agent_postings d /\
  exists d1, dk_pay d1 = dk_pay d /\ transfer_recorded id r d1 d'.
Proof.
  intros B Hi Hp H. unfold post_transfer in H.
  apply wallet_bind in H as (e & s0 & H0 & H). apply uuid_new_ok in H0 as [-> ->].
  apply wallet_bind in H as (? & s1 & H1 & H). rewrite neg_in_range in H1 by done.
  apply wallet_bind in H as (? & s2 & H2 & H). cbn [dk_store with_store] in H1, H2.
  apply tx_bind_ok in H as (? & d2 & H3 & H). apply tx_ret_ok in H as [-> ->]. apply record_transfer_ok in H3.
  pose proof (tr_row _ _ _ _ H3) as E. destruct (agent_pair_shift _ _ _ _ _ _ _ _ _ _ _ _ _ B H1 H2) as (S & F & P).
  split; [reflexivity|]. rewrite E. cbn [dk_store with_transfers with_store]. split_and!; [exact S|exact F|exact P|].
  eexists. split; [|rewrite <- E; exact H3]. reflexivity.
Qed.

Lemma payee_ws_ok to_ws to d r d' : payee_ws to_ws to d = Ok (r, d') -> d' = d /\ (to_ws <> ""%string -> r = to_ws).
Proof.
  unfold payee_ws. case_bool_decide; intros H1; [|by apply tx_ret_ok in H1 as [-> ->]].
  apply tx_bind_ok in H1 as (a & d2 & H1 & H2). apply tx_ret_ok in H2 as [-> ->].
  unfold resolveWallet in H1. rewrite tx_gets_bind in H1.
  destruct (resolve d to); [by apply tx_ret_ok in H1 as [-> ->]|by apply tx_fail_ok in H1].
Qed.

Lemma transfer_id_ok c id s x s' : transfer_id c id s = Ok (x, s') ->
  x = (if decide (id = ""%string) then "xfer_" +:+ uuid c (uuid_draws s) else id) /\
  exists n, (uuid_draws s <= n)%N /\ s' = with_uuid_draws n s.
Proof.
  unfold transfer_id. destruct (decide (id = ""%string)) as [->|Hne]; intros H.
  - rewrite bool_decide_eq_true_2 in H by done. apply tx_bind_ok in H as (e & s1 & H1 & H).
    apply uuid_new_ok in H1 as [-> ->]. apply tx_ret_ok in H as [-> ->]. split; [done|]. eexists. split; [|done]. lia.
  - rewrite bool_decide_eq_false_2 in H by done. apply tx_ret_ok in H as [-> ->]. split; [done|].
    exists (uuid_draws s). split; [lia|]. by destruct s as [? [] ? ? ?].
Qed.

(** A transfer's steps before its credits move. *)
Lemma judged_opens u LL c from_ws from to_ws amount id (judged : bool) n s v1 s2 v2 s3 :
  sound u s -> (uuid_draws s <= n)%N ->
  (if judged then enforceAgentRules LL c from_ws from amount id else tx_ret tt) (with_uuid_draws n s) = Ok (v1, s2) ->
  lock_balances from_ws to_ws s2 = Ok (v2, s3) ->
  shifted u nothing none2 nothing s s3 /\ same_rows s s3 /\ agent_postings s3 = agent_postings s /\
  exists rows, agent_payee_payments s3 = rows ++ agent_payee_payments s /\ Forall (fun p => pp_ref p = id) rows.
Proof.
  intros B Hn H2 H3. assert (S1 : shifted u nothing none2 nothing s (with_uuid_draws n s)).
  { by apply shifted_same. }
  apply (judged_shift u) in H2 as (S2 & F2 & P2); [|eapply shifted_sound, S1].
  pose proof (lock_balances_rows _ _ _ _ _ H3) as R3.
  apply (lock_balances_shift u) in H3 as [S3 F3]; [|eapply shifted_sound, S2]. split_and!.
  - eapply shifted_ext; [..|exact (shifted_trans _ _ _ _ _ _ _ _ _ _ S1 (shifted_trans _ _ _ _ _ _ _ _ _ _ S2 S3))]; done.
  - etrans; [|exact R3]. apply same_rows_lxc; apply F2.
  - rewrite (xf_agents _ _ F3). apply F2.
  - rewrite (xf_rules _ _ F3). exact P2.
Qed.

Lemma transferTx_effect LL G V c t judged key_ws d t' d' {Hu : Inj (=) (=) (uuid c)} :
  wallet_inv (uuid c) key_ws d -> in_i64 (tf_amount (t_row t)) ->
  (forall ws, lx_balance (lxc_row d ws) + held_sum d ws + tf_amount (t_row t) <= room) ->
  transferTx LL G V c t judged d = Ok (t', d') -> transferred LL G V c t t' judged d d'.
Proof.
  intros W Hi Hroom H. pose proof (wallet_sound_books _ _ _ W) as B. unfold transferTx in H. cbn zeta in H.
  rewrite !tx_guard_bind in H. destruct H as (Ga & Gs & H). apply negb_leb_pos in Ga. apply negb_true_iff, bool_decide_eq_false in Gs.
  set (from_ws := tf_from_ws (t_row t)) in *. set (from := tf_from (t_row t)) in *. set (to := tf_to (t_row t)) in *.
  set (amount := tf_amount (t_row t)) in *.
  apply tx_bind_ok in H as (to_ws & d1 & H1 & H). apply payee_ws_ok in H1 as [-> Eto].
  apply tx_bind_ok in H as (? & d1 & H1 & H). apply wall_ok in H1 as [-> Hwall].
  apply tx_bind_ok in H as (same & d1 & H1 & H). apply transfer_sides_ok in H1 as (-> & o1 & o2 & V1 & V2 & ->).
  destruct (transfer_class (bool_decide (o1 = o2)) (t_capability t)) as [capability class] eqn:Ek.
  apply wallet_bind in H as (bal & s1 & H1 & H). apply accountBalance_ok in H1 as [-> ->]. rewrite with_store_id in H.
  rewrite tx_guard_bind in H. destruct H as [Gf H]. apply negb_true_iff, Z.ltb_ge in Gf.
  apply wallet_bind in H as (id & s1 & H1 & H). apply transfer_id_ok in H1 as [Eid F1].
  destruct F1 as (n & Hn & ->). apply wallet_bind in H as (? & s2 & H2 & H). cbn [dk_store with_store] in H2.
  apply wallet_bind in H as (? & s3 & H3 & H). cbn [dk_store with_store] in H3.
  destruct (judged_opens _ _ _ _ _ _ _ _ _ _ _ _ _ _ _ B Hn H2 H3) as (S3 & R3 & P3 & Y3). set (d3 := with_store s3 _) in H.
  apply tx_bind_ok in H as (test & d4 & H4 & H). apply tx_bind_ok in H as (r & d5 & H5 & H). apply tx_ret_ok in H as [-> ->].
  assert (B3 : sound (uuid c) d3) by (eapply shifted_sound, S3).
  assert (Hb : forall ws, 0 <= lx_balance (lxc_row d ws) <= room) by (intros; by eapply balance_bounds).
  assert (Hh : forall ws, 0 <= held_sum d ws) by (intros; by eapply held_sum_nonneg).
  apply (move_credits_ok (uuid c)) in H4; [|done|done|done|].
  2:{ intros _. cbn [dk_store d3 with_store]. rewrite !(sr_row _ _ R3). pose proof (Hb from_ws). pose proof (Hb to_ws).
      pose proof (Hroom to_ws). pose proof (Hh to_ws). unfold room in *. i64_ranges; lia. }
  pose proof (cm_shift _ _ _ _ _ _ _ _ _ _ H4) as [S4 F4].
  assert (B4 : sound (uuid c) d4) by (eapply shifted_sound, S4).
  apply post_transfer_ok in H5 as (Er & S5 & F5 & P5 & d6 & Ep & Rc); [|done|done|exact Hi|cbn [tf_amount]; lia].
  set (e := tf_entry r) in Er. cbn [stamped tf_amount] in Er.
  split; cbn [t_id t_row]; rewrite ?Er; cbn [stamped tf_from_ws tf_from tf_to_ws tf_to tf_amount tf_refund_of tf_loan tf_request tf_class tf_test].
  - split_and!; done.
  - split_and!; [done|done|]. exists o1, o2. cbn zeta. rewrite Ek. cbn [fst snd]. split_and!; [done..|].
    exists d3, d4. split_and!; [reflexivity|exact R3|exact H4|by apply same_rows_lxc; apply F5].
  - lia.
  - eapply shifted_ext; [..|exact (shifted_trans _ _ _ _ _ _ _ _ _ _ S3 (shifted_trans _ _ _ _ _ _ _ _ _ _ S4 S5))];
      intros w; cbn beta; unfold nothing, none2; cbn; intros; lia.
  - rewrite P5, <- Er. f_equal. rewrite (xf_agents _ _ F4). exact P3.
  - destruct Y3 as (rows & Y3 & Yr). exists rows. split; [|done]. rewrite (pf_rules _ _ F5), (xf_rules _ _ F4). exact Y3.
  - exists d6. rewrite <- Er. split; [|done]. rewrite Ep, (cm_pay _ _ _ _ _ _ _ _ _ _ H4). reflexivity.
Qed.

(** ** The wallet after a transfer *)

Lemma between_bound from_ws to_ws amount w : 0 <= amount -> between from_ws to_ws amount w <= amount.
Proof. unfold between, at_ws. repeat case_bool_decide; lia. Qed.

Lemma agent_to_agent_held s u key_ws from_ws from to_ws to amount w a :
  wallet_inv u key_ws s -> 0 <= amount <= account_balance s from_ws (agentAccount from) -> held_account a = true ->
  0 <= account_balance s w a + agent_to_agent from_ws from to_ws to amount w a.
Proof.
  intros W Ha Hh. pose proof (wi_held _ _ _ W w a Hh). unfold agent_to_agent, at_acc.
  repeat case_bool_decide; destruct_and?; subst; lia.
Qed.

Lemma transferred_wallet LL G V c t t' judged key_ws d d' :
  wallet_inv (uuid c) key_ws d ->
  (forall ws, lx_balance (lxc_row d ws) + held_sum d ws + tf_amount (t_row t) <= room) ->
  transferred LL G V c t t' judged d d' -> wallet_inv (uuid c) key_ws d'.
Proof.
  intros W Hr T. destruct (td_asked _ _ _ _ _ _ _ _ _ T) as (_ & _ & _ & Ea & _). pose proof (td_funds _ _ _ _ _ _ _ _ _ T) as F.
  cbn zeta in F. eapply shifted_wallet; [exact W|exact (td_shift _ _ _ _ _ _ _ _ _ T)|..].
  - intros w. pose proof (wi_solvent _ _ _ W w). lia.
  - intros w. pose proof (between_bound (tf_from_ws (t_row t')) (tf_to_ws (t_row t')) (tf_amount (t_row t')) w).
    specialize (Hr w). lia.
  - intros w a Hh. eapply agent_to_agent_held; [exact W| |done]. lia.
Qed.

Lemma runTransfer_effect LL G V c t judged key_ws d t' d' {Hu : Inj (=) (=) (uuid c)} :
  wallet_inv (uuid c) key_ws d -> in_i64 (tf_amount (t_row t)) ->
  (forall ws, lx_balance (lxc_row d ws) + held_sum d ws + tf_amount (t_row t) <= room) ->
  runTransfer LL G V c t judged d = (Ok t', d') ->
  transferred LL G V c t t' judged d d' /\ wallet_inv (uuid c) key_ws d'.
Proof.
  intros W Hi Hr H. apply run_payment_ok in H. eapply transferTx_effect in H; [|done..].
  split; [done|]. by eapply transferred_wallet.
Qed.

Lemma transferred_rows LL G V c t t' judged d d' : transferred LL G V c t t' judged d d' ->
  agent_transfers d !! t_id t' = None /\ agent_transfers d' = <[t_id t' := t_row t']> (agent_transfers d) /\
  agent_money_requests d' = agent_money_requests d.
Proof. intros T. destruct (td_recorded _ _ _ _ _ _ _ _ _ T) as (d1 & E & [-> N _ _]). cbn. by rewrite E in N |- *. Qed.

(** ** Properties *)

(** Whom a transfer is between: the sender, of the workspace that sends, and the payee, of
    the workspace named, if one is. *)
Record parties (q : TransferRow) (payer payee : AgentAccount) d : Prop := mkParties {
  pt_payer : agent_accounts d !! tf_from q = Some payer;
  pt_payee : agent_accounts d !! tf_to q = Some payee;
  pt_from : ag_ws payer = tf_from_ws q;
  pt_to : tf_to_ws q = ""%string \/ ag_ws payee = tf_to_ws q;
}.

Lemma transferred_parties LL G V c t t' judged d d' : transferred LL G V c t t' judged d d' ->
  exists payer payee, parties (t_row t) payer payee d /\ tf_to_ws (t_row t') = ag_ws payee.
Proof.
  intros T. destruct (td_asked _ _ _ _ _ _ _ _ _ T) as (E1 & E2 & E3 & _ & _ & _ & _ & _ & E4).
  destruct (td_sides _ _ _ _ _ _ _ _ _ T) as (_ & _ & o1 & o2 & [(a & A1 & A2 & _) _ _] & [(b & B1 & B2 & _) _ _] & _).
  rewrite E1, E2 in *. rewrite E3 in B1. exists a, b. split; [|done]. split; [done..|].
  destruct (decide (tf_to_ws (t_row t) = ""%string)) as [?|N]; [by left|right]. rewrite B2. by apply E4.
Qed.

(** C18: a transfer that goes through is the one asked for.  The agent named sends and the
    agent named receives, each of its own workspace; exactly the amount asked leaves the
    sender's account, which held it, for the receiver's, and the sender's workspace's LXC
    for the receiver's when they are two; no other account and no other balance moves;
    it is recorded once, as asked, under a new id; and the wallet stays sound: no agent
    overdrawn and every workspace's agents covered by its LXC. *)
Theorem transfer_moves_credits LL G V c t judged key_ws d t' d' {Hu : Inj (=) (=) (uuid c)} :
  wallet_inv (uuid c) key_ws d -> in_i64 (tf_amount (t_row t)) ->
  (forall ws, lx_balance (lxc_row d ws) + held_sum d ws + tf_amount (t_row t) <= room) ->
  runTransfer LL G V c t judged d = (Ok t', d') ->
  let q := t_row t in
  exists payer payee, parties q payer payee d /\ wallet_inv (uuid c) key_ws d' /\
  0 < tf_amount q <= account_balance d (tf_from_ws q) (agentAccount (tf_from q)) /\
  (forall w, lx_balance (lxc_row d' w) = lx_balance (lxc_row d w)
     - (if decide (w = tf_from_ws q) then tf_amount q else 0) + (if decide (w = ag_ws payee) then tf_amount q else 0)) /\
  (forall w a, shared_account a = false -> account_balance d' w a = account_balance d w a
     - (if decide (w = tf_from_ws q /\ a = agentAccount (tf_from q)) then tf_amount q else 0)
     + (if decide (w = ag_ws payee /\ a = agentAccount (tf_to q)) then tf_amount q else 0)) /\
  agent_transfers d !! t_id t' = None /\
  exists r, agent_transfers d' = <[t_id t' := r]> (agent_transfers d) /\ tf_from_ws r = tf_from_ws q /\ tf_from r = tf_from q /\
    tf_to_ws r = ag_ws payee /\ tf_to r = tf_to q /\ tf_amount r = tf_amount q.
Proof.
  intros W Hi Hr H q. apply (runTransfer_effect LL G V c t judged key_ws) in H as [T W']; [|done..].
  destruct (transferred_rows _ _ _ _ _ _ _ _ _ T) as (N & R & _). destruct (transferred_parties _ _ _ _ _ _ _ _ _ T) as (payer & payee & P & Ew).
  destruct (td_asked _ _ _ _ _ _ _ _ _ T) as (E1 & E2 & E3 & E4 & _). fold q in E1, E2, E3, E4. pose proof (td_funds _ _ _ _ _ _ _ _ _ T) as F.
  pose proof (td_shift _ _ _ _ _ _ _ _ _ T) as S. cbn zeta in F, S. rewrite E1, E2, E4 in F. rewrite E1, E2, E3, E4, Ew in S.
  exists payer, payee. split_and!; [exact P|exact W'|exact (proj1 F)|exact (proj2 F)| | |exact N|].
  - intros w. rewrite (sf_bal _ _ _ _ _ _ S). unfold between, at_ws. repeat case_bool_decide; repeat case_decide; try lia; exfalso; naive_solver.
  - intros w a Ha. rewrite (sf_acc _ _ _ _ _ _ S) by done. unfold agent_to_agent. rewrite !at_acc_decide. repeat case_decide; lia.
  - exists (t_row t'). by split_and!.
Qed.









(** ** What the period limits count *)

Lemma sum_where_app {A} (p : A -> bool) f (l k : list A) : sum_where p f (l ++ k) = sum_where p f l + sum_where p f k.
Proof. unfold sum_where. rewrite fmap_app. apply sumZ_app. Qed.

Lemma sum_where_none {A} (p : A -> bool) (f : A -> Z) l : Forall (fun x => p x = false) l -> sum_where p f l = 0.
Proof. unfold sum_where. induction 1 as [|x l Hx _ IH]; [done|]. csimpl. by rewrite Hx, IH. Qed.

Lemma transfer_not_invoice x : invoice_ref ("xfer_" +:+ x) = false.
Proof. unfold invoice_ref. cbn. reflexivity. Qed.

(** A transfer leaves what every agent has spent, as its hourly, daily, weekly and
    monthly limits count it, at what it was: the limits judge each transfer's own amount
    and never add up the transfers before it. *)
Theorem transfers_not_counted LL G V c t judged key_ws d t' d' {Hu : Inj (=) (=) (uuid c)} :
  wallet_inv (uuid c) key_ws d -> in_i64 (tf_amount (t_row t)) ->
  (forall ws, lx_balance (lxc_row d ws) + held_sum d ws + tf_amount (t_row t) <= room) -> t_id t = ""%string ->
  runTransfer LL G V c t judged d = (Ok t', d') ->
  forall ws agent since, agent_spent d' ws agent since = agent_spent d ws agent since.
Proof.
  intros W Hi Hr Eid H ws agent since. apply (runTransfer_effect LL G V c t judged key_ws) in H as [T _]; [|done..].
  destruct (td_asked _ _ _ _ _ _ _ _ _ T) as (_ & _ & _ & _ & _ & _ & _ & E & _).
  rewrite decide_True in E by done. destruct (td_payees _ _ _ _ _ _ _ _ _ T) as (rows & Ey & Fy).
  pose proof (mf_other _ _ (sf_frame _ _ _ _ _ _ (td_shift _ _ _ _ _ _ _ _ _ T))) as Eo. unfold agent_spent.
  rewrite (td_postings _ _ _ _ _ _ _ _ _ T), Ey, Eo, !sum_where_app.
  rewrite (sum_where_none _ ps_amount (transfer_postings _ _ _)), (sum_where_none _ pp_amount rows); [lia|..].
  - eapply Forall_impl; [exact Fy|]. intros p Hp. cbn beta. rewrite Hp, E, transfer_not_invoice. by rewrite andb_false_r.
  - unfold transfer_postings. repeat constructor; cbn beta; by rewrite andb_false_r.
Qed.

(** ** Refunds *)

Lemma list_find_map {V} (f : string * V -> bool) (m : gmap string V) k v :
  m !! k = Some v -> f (k, v) = true -> is_Some (fst <$> List.find f (map_to_list m)).
Proof.
  intros Hl Hf. destruct (List.find f (map_to_list m)) as [x|] eqn:E; [by eexists|].
  pose proof (List.find_none _ _ E (k, v)) as K. rewrite K in Hf; [done|].
  apply list_elem_of_In. by apply elem_of_map_to_list.
Qed.

Lemma refund_refused LL G V c ws id t t2 id2 d :
  agent_transfers d !! id = Some t -> tf_to_ws t = ws -> tf_refund_of t = ""%string -> tf_loan t = ""%string ->
  agent_transfers d !! id2 = Some t2 -> tf_refund_of t2 = id -> RefundTransfer LL G V c ws id d = (Err ErrAlreadyRefunded, d).
Proof.
  intros Hl Hw Hr Hn H2 Hid. unfold RefundTransfer. rewrite Hl, bool_decide_eq_true_2 by done. cbn [negb].
  unfold refund_of. destruct (list_find_map (fun kv => bool_decide (tf_refund_of kv.2 = id)) _ _ _ H2) as [x ->];
    [by apply bool_decide_eq_true|]. reflexivity.
Qed.

Lemma refund_opens LL G V c ws id d t' d' : RefundTransfer LL G V c ws id d = (Ok t', d') ->
  exists t, agent_transfers d !! id = Some t /\ tf_to_ws t = ws /\ tf_refund_of t = ""%string /\ tf_loan t = ""%string /\
    runTransfer LL G V c (new_transfer ws (tf_to t) (tf_from_ws t) (tf_from t) (tf_amount t) ("refund: " +:+ tf_memo t) "" id)
      false d = (Ok t', d').
Proof.
  unfold RefundTransfer. destruct (agent_transfers d !! id) as [t|]; [|done]. case_bool_decide as E; cbn [negb]; [|done].
  destruct E as (E1 & E2 & E3). destruct (is_some (refund_of d id)); [done|]. intros H. exists t. by split_and!.
Qed.

Lemma agent_to_agent_back ws1 a1 ws2 a2 x w a :
  agent_to_agent ws1 a1 ws2 a2 x w a + agent_to_agent ws2 a2 ws1 a1 x w a = 0.
Proof. unfold agent_to_agent, at_acc. repeat case_bool_decide; lia. Qed.

Lemma between_back ws1 ws2 x w : between ws1 ws2 x w + between ws2 ws1 x w = 0.
Proof. unfold between. lia. Qed.

(** C34: refunding a transfer undoes it, and can be done once.  Every account and every
    workspace's LXC is back where it was before the transfer, and any later refund of the
    same transfer is refused. *)
Theorem refund_undoes_transfer LL G V c1 t judged key_ws d t1 d1 c2 t2 d2 {Hu : Inj (=) (=) (uuid c1)} :
  uuid c2 = uuid c1 -> wallet_inv (uuid c1) key_ws d -> in_i64 (tf_amount (t_row t)) ->
  (forall ws, lx_balance (lxc_row d ws) + held_sum d ws + 2 * tf_amount (t_row t) <= room) ->
  tf_from_ws (t_row t) <> ""%string ->
  runTransfer LL G V c1 t judged d = (Ok t1, d1) ->
  RefundTransfer LL G V c2 (tf_to_ws (t_row t1)) (t_id t1) d1 = (Ok t2, d2) ->
  (forall w a, shared_account a = false -> account_balance d2 w a = account_balance d w a) /\
  (forall w, lx_balance (lxc_row d2 w) = lx_balance (lxc_row d w)) /\ wallet_inv (uuid c1) key_ws d2 /\
  tf_refund_of (t_row t2) = t_id t1 /\
  forall c3, RefundTransfer LL G V c3 (tf_to_ws (t_row t1)) (t_id t1) d2 = (Err ErrAlreadyRefunded, d2).
Proof.
  intros Eu W Hi Hr Hws H1 H2. apply (runTransfer_effect LL G V c1 t judged key_ws) in H1 as [T1 W1]; [|done|done|done|].
  2:{ intros ws. specialize (Hr ws). pose proof (wi_room _ _ _ W ws). lia. }
  destruct (transferred_rows _ _ _ _ _ _ _ _ _ T1) as (N1 & R1 & _). pose proof (td_shift _ _ _ _ _ _ _ _ _ T1) as S1.
  destruct (td_asked _ _ _ _ _ _ _ _ _ T1) as (Ef & _ & _ & Ea & _).
  apply refund_opens in H2 as (r & Hl & Ew & Er & El & H2). rewrite R1, lookup_insert_eq in Hl. injection Hl as <-.
  pose proof (td_funds _ _ _ _ _ _ _ _ _ T1) as F1. cbn zeta in F1.
  apply (runTransfer_effect LL G V c2 _ false key_ws) in H2 as [T2 W2]; [|by rewrite Eu|by rewrite Eu|cbn; by rewrite Ea|].
  2:{ intros ws. cbn [new_transfer t_row tf_amount]. rewrite (sf_bal _ _ _ _ _ _ S1).
      pose proof (between_bound (tf_from_ws (t_row t1)) (tf_to_ws (t_row t1)) (tf_amount (t_row t1)) ws).
      assert (held_sum d1 ws = held_sum d ws) as -> by (unfold held_sum; by rewrite (mf_reservations _ _ (sf_frame _ _ _ _ _ _ S1))).
      specialize (Hr ws). lia. }
  destruct (td_asked _ _ _ _ _ _ _ _ _ T2) as (E1 & E2 & E3 & E4 & E5 & _ & _ & _ & E6).
  cbn [new_transfer t_row tf_from_ws tf_from tf_to_ws tf_to tf_amount tf_refund_of] in E1, E2, E3, E4, E5, E6.
  rewrite Ef in E6. specialize (E6 Hws). pose proof (td_shift _ _ _ _ _ _ _ _ _ T2) as S2. cbn zeta in S2.
  rewrite E1, E2, E3, E4, E6, <- Ef in S2. destruct (transferred_rows _ _ _ _ _ _ _ _ _ T2) as (N2 & R2 & _). split_and!.
  - intros w a Ha. rewrite (sf_acc _ _ _ _ _ _ S2), (sf_acc _ _ _ _ _ _ S1) by done.
    pose proof (agent_to_agent_back (tf_from_ws (t_row t1)) (tf_from (t_row t1)) (tf_to_ws (t_row t1)) (tf_to (t_row t1))
      (tf_amount (t_row t1)) w a). lia.
  - intros w. rewrite (sf_bal _ _ _ _ _ _ S2), (sf_bal _ _ _ _ _ _ S1).
    pose proof (between_back (tf_from_ws (t_row t1)) (tf_to_ws (t_row t1)) (tf_amount (t_row t1)) w). lia.
  - by rewrite <- Eu.
  - done.
  - intros c3. apply (refund_refused _ _ _ _ _ _ (t_row t1) (t_row t2) (t_id t2)); try done; rewrite R2.
    + rewrite lookup_insert_ne; [by rewrite R1, lookup_insert_eq|]. intros E. rewrite E, R1, lookup_insert_eq in N2. done.
    + by rewrite lookup_insert_eq.
Qed.

(** ** Requests *)

Lemma answered_refused LL G V sha c ws id accept d r m : mr_status r <> ReqPending ->
  AnswerMoneyRequest LL G V sha c ws id accept (with_money_requests (<[id := r]> m) d) =
  (Err ErrRequestNotFound, with_money_requests (<[id := r]> m) d).
Proof.
  intros Hr. unfold AnswerMoneyRequest, run_payment, pay_committed, answerMoneyRequest. rewrite run_gets.
  cbn [dk_pay with_money_requests agent_money_requests]. rewrite lookup_insert_eq, run_guard.
  rewrite bool_decide_eq_false_2; [reflexivity|]. by intros [_ K].
Qed.

(** A request for money is answered once: accepting it makes one transfer, of what
    was asked, from the agent asked to the one that asked, recorded with the request's
    id; declining moves nothing; and a second answer, of either kind, is refused. *)
Theorem money_request_answered_once LL G V sha c key_ws ws id accept d r0 r d' {Hu : Inj (=) (=) (uuid c)} :
  wallet_inv (uuid c) key_ws d -> agent_money_requests d !! id = Some r0 -> in_i64 (mr_amount r0) ->
  (forall w, lx_balance (lxc_row d w) + held_sum d w + Z.max (mr_amount r0) 0 <= room) -> mr_from_ws r0 <> ""%string ->
  AnswerMoneyRequest LL G V sha c ws id accept d = (Ok r, d') ->
  mr_status r0 = ReqPending /\ mr_to_ws r0 = ws /\ mr_status r = (if accept then ReqAccepted else ReqDeclined) /\
  wallet_inv (uuid c) key_ws d' /\
  (forall w a, shared_account a = false -> account_balance d' w a = account_balance d w a +
     if accept then agent_to_agent (mr_to_ws r0) (mr_to r0) (mr_from_ws r0) (mr_from r0) (mr_amount r0) w a else 0) /\
  (if accept then exists t, agent_transfers d !! mr_transfer r = None /\
     agent_transfers d' = <[mr_transfer r := t]> (agent_transfers d) /\ tf_request t = id
   else agent_transfers d' = agent_transfers d) /\
  (forall c2 again, AnswerMoneyRequest LL G V sha c2 ws id again d' = (Err ErrRequestNotFound, d')).
Proof.
  intros W E Hi Hr Hws H. apply run_payment_ok in H. unfold answerMoneyRequest in H. rewrite tx_gets_bind, E in H.
  rewrite tx_guard_bind in H. destruct H as [G0 H]. apply bool_decide_eq_true in G0 as [Gw Gp]. split; [done|]. split; [done|].
  apply tx_bind_ok in H as (x & d1 & H1 & H). apply tx_bind_ok in H as (? & d2 & H2 & H). apply tx_modify_ok in H2 as ->.
  apply tx_ret_ok in H as [-> ->]. cbn [mr_status mr_transfer dk_store with_money_requests].
  destruct accept.
  - apply tx_bind_ok in H1 as (t & d2 & H1 & H). apply tx_ret_ok in H as [-> ->].
    apply (transferTx_effect LL G V _ _ true key_ws) in H1 as T; [|done|done|done|intros w; specialize (Hr w); cbn; lia].
    assert (W1 : wallet_inv (uuid c) key_ws d2).
    { eapply (transferred_wallet LL G V (WithAgentRequest c _)); [exact W| |exact T]. intros w. specialize (Hr w). cbn. lia. }
    destruct (transferred_rows _ _ _ _ _ _ _ _ _ T) as (N & R & _). destruct (td_asked _ _ _ _ _ _ _ _ _ T) as (E1 & E2 & E3 & E4 & _ & _ & E5 & _ & E6).
    cbn [new_transfer t_row tf_from_ws tf_from tf_to_ws tf_to tf_amount tf_request] in E1, E2, E3, E4, E5, E6. specialize (E6 Hws).
    split_and!; [done|done| | |intros; by apply answered_refused].
    + intros w a Ha. rewrite (sf_acc _ _ _ _ _ _ (td_shift _ _ _ _ _ _ _ _ _ T)) by done. by rewrite E1, E2, E3, E4, E6.
    + exists (t_row t). split_and!; done.
  - apply tx_ret_ok in H1 as [-> ->]. split_and!; [done|done| |done|intros; by apply answered_refused]. intros w a _. lia.
Qed.

(** ** Three workspaces, an agent in each *)

Definition pay_keys : string -> string := fun k =>
  if bool_decide (k = "k2"%string) then "ws2"%string else if bool_decide (k = "k3"%string) then "ws3"%string else "ws"%string.

(** [agt_0] of u1 with 2,000 µLXC in "ws", all of its LXC test-funded; [agt_2] of u2 in
    "ws2"; [agt_3], of u1 too, in "ws3". *)
Definition pay_ops : list (Ctx * Op) :=
  let c k := keyed_ctx k in
  [(c "", OpCredit "ws" 5000 "card" {[ "funding" := MStr FundingTest ]});
   (c "", OpCreateRoom "ws" "Den" "u1" "k1");
   (c "f1", OpFund "ws" "agt_0" 2000);
   (c "", OpCreateRoom "ws2" "Hut" "u2" "k2");
   (c "", OpCreateRoom "ws3" "Attic" "u1" "k3")]%string.

Definition daily_1500 : AgentRules :=
  mkRules 0 None 1500 None 0 0 [] [] None "" "" "" false None None None None None None None None.

(** The sender may spend 1,500 µLXC a day. *)
Definition pay_store : Store :=
  with_agent_rules {[ "agt_0"%string := daily_1500 ]} (exec_all utc_only demo_svc pay_ops empty_store).

Lemma keys_there s : bool_decide (map_Forall (fun _ g => is_Some (agent_accounts s !! g)) (agent_account_keys s)) = true ->
  forall k g, agent_account_keys s !! k = Some g -> is_Some (agent_accounts s !! g).
Proof. intros H%bool_decide_eq_true. exact H. Qed.

Lemma pay_store_inv : wallet_inv (pretty (A:=N)) pay_keys pay_store.
Proof.
  apply (quiet_keeps _ _ (exec_all utc_only demo_svc pay_ops empty_store)); [|by constructor].
  apply exec_all_keeps; [apply _|apply wallet_inv_empty|]. unfold pay_ops. cbn [ops_ok op_ok].
  split_and!; try reflexivity; try (vm_compute; congruence); try (by apply in_i64b_spec);
    apply keys_there; vm_compute; reflexivity.
Qed.

Definition pay_desk : Desk := mkDesk pay_store no_payments no_money.

(** Everyone is verified; the workspaces' owners are in GB, on a plan with live money. *)
Definition pay_verifier : OwnerVerifier := Some (fun _ _ => Ok true).

Definition pay_send (d : Desk) (from to_ws to : string) (amount : Z) : Res PayErr AgentTransfer * Desk :=
  runTransfer utc_only demo_gates pay_verifier demo_ctx (new_transfer "ws" from to_ws to amount "for the data" "" "") true d.

(** A transfer of 1,000 µLXC to the other workspace, and a second one. *)
Definition pay_sent : Desk := (pay_send pay_desk "agt_0" "ws2" "agt_2" 1000).2.
Definition pay_sent2 : Desk := (pay_send pay_sent "agt_0" "ws2" "agt_2" 1000).2.

Definition sent_row (entry : string) : TransferRow :=
  mkTransfer entry "ws" "agt_0" "ws2" "agt_2" 1000 "for the data" ClassAmber 1000 "" "" "" "" 0.

Lemma pay_sent_ok : pay_send pay_desk "agt_0" "ws2" "agt_2" 1000 = (Ok (mkAgentTransfer "xfer_4" (sent_row "5") ""), pay_sent).
Proof. vm_compute. reflexivity. Qed.

(** Room enough in every workspace, read off the rows there are. *)
Definition room_left (x : Z) (s : Store) : bool :=
  forallb (fun kv => lx_balance kv.2 + held_sum s kv.1 + x <=? room) (map_to_list (lxc_balances s)) &&
  bool_decide (lxc_reservations s = ∅) && (x <=? room).

Lemma room_left_ok x s : room_left x s = true -> forall ws, lx_balance (lxc_row s ws) + held_sum s ws + x <= room.
Proof.
  unfold room_left. intros [[H R%bool_decide_eq_true]%andb_prop X%Z.leb_le]%andb_prop ws. unfold lxc_row.
  destruct (lxc_balances s !! ws) as [r|] eqn:E; cbn [default].
  - rewrite forallb_forall in H. apply Z.leb_le, (H (ws, r)), list_elem_of_In, elem_of_map_to_list, E.
  - unfold held_sum. rewrite R, map_sum_empty. cbn. lia.
Qed.


Lemma transfer_moves_credits_witness :
  pay_send pay_desk "agt_0" "ws2" "agt_2" 1000 = (Ok (mkAgentTransfer "xfer_4" (sent_row "5") ""), pay_sent) /\
  wallet_inv (pretty (A:=N)) pay_keys pay_sent /\ books pay_sent "ws" = (4000, 1000) /\ books pay_sent "ws2" = (1000, 1000).
Proof.
  assert (R : room_left 1000 pay_desk = true) by (vm_compute; reflexivity).
  pose proof (transfer_moves_credits utc_only demo_gates pay_verifier demo_ctx
    (new_transfer "ws" "agt_0" "ws2" "agt_2" 1000 "for the data" "" "") true pay_keys pay_desk _ _
    pay_store_inv ltac:(by apply in_i64b_spec) (room_left_ok _ _ R) pay_sent_ok) as T. cbn zeta in T.
  destruct T as (payer & payee & _ & W & _). split; [exact pay_sent_ok|]. split; [exact W|]. split; vm_compute; reflexivity.
Defined.

Lemma pay_sent2_ok : pay_send pay_sent "agt_0" "ws2" "agt_2" 1000 = (Ok (mkAgentTransfer "xfer_6" (sent_row "7") ""), pay_sent2).
Proof. vm_compute. reflexivity. Qed.


(** Two transfers of 1,000 µLXC go through on one day, where the rules allow 1,500. *)
Lemma transfers_not_counted_witness :
  pay_send pay_desk "agt_0" "ws2" "agt_2" 1000 = (Ok (mkAgentTransfer "xfer_4" (sent_row "5") ""), pay_sent) /\
  pay_send pay_sent "agt_0" "ws2" "agt_2" 1000 = (Ok (mkAgentTransfer "xfer_6" (sent_row "7") ""), pay_sent2) /\
  (DailyLimitULXC <$> agentRulesInForce pay_sent "agt_0" 0) = Some 1500 /\
  agent_spent pay_sent "ws" "agt_0" 0 = agent_spent pay_desk "ws" "agt_0" 0.
Proof.
  assert (R : room_left 1000 pay_desk = true) by (vm_compute; reflexivity).
  split; [exact pay_sent_ok|]. split; [exact pay_sent2_ok|]. split; [vm_compute; reflexivity|].
  exact (transfers_not_counted utc_only demo_gates pay_verifier demo_ctx
    (new_transfer "ws" "agt_0" "ws2" "agt_2" 1000 "for the data" "" "") true pay_keys pay_desk _ _
    pay_store_inv ltac:(by apply in_i64b_spec) (room_left_ok _ _ R) eq_refl pay_sent_ok "ws" "agt_0" 0)%string.
Defined.

Definition pay_refunded : Desk := (RefundTransfer utc_only demo_gates pay_verifier demo_ctx "ws2" "xfer_4" pay_sent).2.

Definition refund_row : TransferRow :=
  mkTransfer "7" "ws2" "agt_2" "ws" "agt_0" 1000 "refund: for the data" ClassAmber 1000 "" "" "xfer_4" "" 0.

Lemma refund_undoes_transfer_witness :
  RefundTransfer utc_only demo_gates pay_verifier demo_ctx "ws2" "xfer_4" pay_sent =
    (Ok (mkAgentTransfer "xfer_6" refund_row ""), pay_refunded) /\
  account_balance pay_refunded "ws" (agentAccount "agt_0") = account_balance pay_desk "ws" (agentAccount "agt_0") /\
  RefundTransfer utc_only demo_gates pay_verifier demo_ctx "ws2" "xfer_4" pay_refunded = (Err ErrAlreadyRefunded, pay_refunded).
Proof.
  assert (R : room_left (2 * 1000) pay_desk = true) by (vm_compute; reflexivity).
  assert (E : RefundTransfer utc_only demo_gates pay_verifier demo_ctx "ws2" "xfer_4" pay_sent =
    (Ok (mkAgentTransfer "xfer_6" refund_row ""), pay_refunded)) by (vm_compute; reflexivity).
  pose proof (refund_undoes_transfer utc_only demo_gates pay_verifier demo_ctx
    (new_transfer "ws" "agt_0" "ws2" "agt_2" 1000 "for the data" "" "") true pay_keys pay_desk _ _ demo_ctx _ _
    eq_refl pay_store_inv ltac:(by apply in_i64b_spec) (room_left_ok _ _ R) ltac:(discriminate) pay_sent_ok E)
    as (A & _ & _ & _ & T).
  split; [exact E|]. split; [exact (A "ws" (agentAccount "agt_0") eq_refl)%string|]. exact (T demo_ctx).
Defined.

Lemma quiet_draw n s : (uuid_draws s <= n)%N -> quiet s (with_uuid_draws n s).
Proof. intros. by constructor. Qed.

Definition pay_asked : Desk :=
  match RequestCredits demo_ctx "ws2" "agt_2" "agt_0" 700 "my half" pay_desk with Ok (_, d) => d | Err _ => pay_desk end.

Definition asked_row : MoneyRequest := mkMoneyRequest "ws2" "agt_2" "ws" "agt_0" 700 "my half" ReqPending "" None.
Definition answered_row : MoneyRequest := mkMoneyRequest "ws2" "agt_2" "ws" "agt_0" 700 "my half" ReqAccepted "xfer_5" (Some 0).

Definition pay_answered : Desk :=
  (AnswerMoneyRequest utc_only demo_gates pay_verifier id demo_ctx "ws" "mreq_4" true pay_asked).2.

Lemma money_request_answered_once_witness :
  AnswerMoneyRequest utc_only demo_gates pay_verifier id demo_ctx "ws" "mreq_4" true pay_asked = (Ok answered_row, pay_answered) /\
  books pay_answered "ws2" = (700, 700) /\
  AnswerMoneyRequest utc_only demo_gates pay_verifier id demo_ctx "ws" "mreq_4" false pay_answered =
    (Err ErrRequestNotFound, pay_answered).
Proof.
  assert (Ea : pay_asked = mkDesk (with_uuid_draws 5 pay_store) (dk_pay pay_asked) (dk_money pay_asked)) by (vm_compute; reflexivity).
  assert (W : wallet_inv (pretty (A:=N)) pay_keys pay_asked).
  { rewrite Ea. apply (quiet_keeps _ _ _ _ pay_store_inv), quiet_draw. vm_compute. discriminate. }
  assert (R : room_left (Z.max (mr_amount asked_row) 0) pay_asked = true) by (vm_compute; reflexivity).
  assert (L : agent_money_requests pay_asked !! "mreq_4"%string = Some asked_row) by (vm_compute; reflexivity).
  assert (E : AnswerMoneyRequest utc_only demo_gates pay_verifier id demo_ctx "ws" "mreq_4" true pay_asked =
    (Ok answered_row, pay_answered)) by (vm_compute; reflexivity).
  pose proof (money_request_answered_once utc_only demo_gates pay_verifier id demo_ctx pay_keys "ws" "mreq_4" true pay_asked
    asked_row _ _ W L ltac:(by apply in_i64b_spec) (room_left_ok _ _ R) ltac:(discriminate) E) as (_ & _ & _ & _ & _ & _ & T).
  split; [exact E|]. split; [vm_compute; reflexivity|]. exact (T demo_ctx false).
Defined.

(** What of a workspace's LXC no cash is behind, as a spend counts it. *)
Definition unbacked (s : Store) (ws : string) : Z := lx_balance (lxc_row s ws) - lx_cash (lxc_row s ws).

(** A transfer to another workspace moves the credits and none of the cash-backing:
    the sender's workspace keeps all of it, so what its unbacked credit is falls by the
    whole amount, below zero when the credits sent were cash-backed, and the receiver's
    grows by it. *)
Theorem transfers_leave_cash_behind LL G V c t judged key_ws d t' d' {Hu : Inj (=) (=) (uuid c)} :
  wallet_inv (uuid c) key_ws d -> in_i64 (tf_amount (t_row t)) ->
  (forall ws, lx_balance (lxc_row d ws) + held_sum d ws + tf_amount (t_row t) <= room) ->
  runTransfer LL G V c t judged d = (Ok t', d') ->
  let r := t_row t' in tf_from_ws r <> tf_to_ws r ->
  (forall w, lx_cash (lxc_row d' w) = lx_cash (lxc_row d w)) /\
  unbacked d' (tf_from_ws r) = unbacked d (tf_from_ws r) - tf_amount r /\
  unbacked d' (tf_to_ws r) = unbacked d (tf_to_ws r) + tf_amount r.
Proof.
  intros W Hi Hr H r Hne. apply (runTransfer_effect LL G V c t judged key_ws) in H as [T _]; [|done..].
  pose proof (td_shift _ _ _ _ _ _ _ _ _ T) as S. fold r in S. unfold unbacked.
  rewrite !(sf_bal _ _ _ _ _ _ S), !(sf_cash _ _ _ _ _ _ S). unfold between, at_ws.
  split; [exact (sf_cash _ _ _ _ _ _ S)|]. repeat case_bool_decide; done || lia.
Qed.

(** 1,000 µLXC granted after the transfer: all 5,000 then spent count as paid in cash. *)
Definition pay_granted : Store := (run_tx (GrantLXC "ws" 1000 "goodwill" ∅) pay_sent).2.

Lemma transfers_leave_cash_behind_witness :
  pay_send pay_desk "agt_0" "ws2" "agt_2" 1000 = (Ok (mkAgentTransfer "xfer_4" (sent_row "5") ""), pay_sent) /\
  unbacked pay_desk "ws" = 0 /\ unbacked pay_sent "ws" = -1000 /\
  lx_balance (lxc_row pay_granted "ws") = 5000 /\ cash_spent 5000 (lx_cash (lxc_row pay_granted "ws")) 5000 = 5000.
Proof.
  assert (R : room_left 1000 pay_desk = true) by (vm_compute; reflexivity).
  pose proof (transfers_leave_cash_behind utc_only demo_gates pay_verifier demo_ctx
    (new_transfer "ws" "agt_0" "ws2" "agt_2" 1000 "for the data" "" "") true pay_keys pay_desk _ _
    pay_store_inv ltac:(by apply in_i64b_spec) (room_left_ok _ _ R) pay_sent_ok ltac:(discriminate)) as (_ & U & _).
  assert (U0 : unbacked pay_desk "ws" = 0) by (vm_compute; reflexivity).
  split; [exact pay_sent_ok|]. split; [exact U0|]. split; [|vm_compute; split; reflexivity].
  change (unbacked pay_sent "ws" = unbacked pay_desk "ws" - 1000) in U. rewrite U, U0. reflexivity.
Defined.
