(* ===== verification/Escrow.v ===== *)
(** Credits held until a deal is done ([internal/economy/agent_escrows.go]): paying in,
    confirming, disputing, the operator's decision, the deadlines' run; the machine they
    make and the vault it implements. *)
From stdpp Require Import pretty.
From S2P Require Import Prelude Money Tables Postings Clock Lxc Rules CreditLine Agents Reservation Funding Wallet Shifts Desk Capabilities Transfers.
Open Scope Z_scope.
Open Scope i64_scope.

Implicit Types (d : Desk) (s : Store).

(** ** Its rows *)

Definition escrowAccount (id : string) : string := "escrow:" +:+ id.

Definition set_status (st : EscrowStatus) (decided : option Z) (e : EscrowRow) : EscrowRow :=
  mkEscrow (es_payer_ws e) (es_payer e) (es_payee_ws e) (es_payee e) (es_amount e) (es_memo e) (es_class e) (es_test e)
    (es_release e) st (es_created e) decided.

(** [UPDATE agent_escrows SET status = ... WHERE id = ...]. *)
Definition put_escrow (id : string) (e : EscrowRow) d : Desk := with_escrows (<[id := e]> (agent_escrows d)) d.

Definition escrowEvent (ev : EscrowEventRow) : PTx unit :=
  tx_modify (fun d => with_escrow_events (ev :: agent_escrow_events d) d).

(** An escrow with its events, the oldest first. *)
Definition EscrowView : Type := string * EscrowRow * list EscrowEventRow.

Definition escrow_view d (id : string) (e : EscrowRow) : EscrowView :=
  (id, e, rev (filter (fun ev => ev_escrow ev = id) (agent_escrow_events d))).

Definition GetEscrow d (ws id : string) : Res PayErr EscrowView :=
  match agent_escrows d !! id with
  | Some e => if bool_decide (es_payer_ws e = ws \/ es_payee_ws e = ws) then Ok (escrow_view d id e) else Err ErrEscrowNotFound
  | None => Err ErrEscrowNotFound
  end.

(** ** Postings and credits *)

Definition escrow_posting (c : Ctx) (entry id ws account : string) (amount : Z) : Posting :=
  mkPosting entry ws account amount "escrow" id None None "" (now c).

(** An entry of two legs, which may be in two workspaces; its id. *)
Definition postEscrowEntry (c : Ctx) (id ws1 account1 : string) (amount1 : Z) (ws2 account2 : string) (amount2 : Z) : WTx string :=
  let! entry := uuid_new c in
  insert_posting (escrow_posting c entry id ws1 account1 amount1) ;;;
  insert_posting (escrow_posting c entry id ws2 account2 amount2) ;;;
  tx_ret entry.

Definition moveEscrowLXC (ws : string) (delta : Z) (id : string) (e : EscrowRow) (desc : string) : WTx unit :=
  let! (bal, minted, spent) := readLXCBalance ws in
  insertLXCLedger ws delta (bal +! delta) LXCTypeAgentEscrow desc
    (<["escrow_id" := MStr id]> (<["payer_agent_id" := MStr (es_payer e)]>
       (<["payee_agent_id" := MStr (es_payee e)]> (<["class" := MStr (class_name (es_class e))]> ∅)))) ;;;
  writeLXCBalance ws (bal +! delta) minted spent.

(** [INSERT INTO agent_escrows], with its checks. *)
Definition record_escrow (id : string) (e : EscrowRow) : PTx unit :=
  tx_guard ((0 <? es_amount e) && (0 <=? es_test e) && negb (bool_decide (es_class e = ClassRed))
            && negb (bool_decide (es_payer e = es_payee e))) (EWallet ErrCheck) ;;;
  let! dup := tx_gets (fun d => is_some (agent_escrows d !! id)) in
  tx_guard (negb dup) (EWallet ErrCheck) ;;;
  tx_modify (put_escrow id e).

(** The agent, held, and its owner, verified. *)
Definition escrow_side (v : OwnerVerifier) (x : string * string) : PTx string :=
  wallet (lockAgent x.1 x.2) ;;; verified_owner v x.1 x.2.

(** Both sides, the lesser id first: whether they have one owner. *)
Definition escrow_sides (v : OwnerVerifier) (p q : string * string) : PTx bool :=
  let '(x1, x2) := in_order p q p.2 q.2 in
  let! o1 := escrow_side v x1 in
  let! o2 := escrow_side v x2 in
  tx_ret (bool_decide (o1 = o2)).

Definition escrow_class (same_owner : bool) : string * CapabilityClass :=
  if same_owner then (CapabilityOwnAgents, ClassGreen) else (CapabilityEscrow, ClassAmber).

Section Escrow.
Context (LL : string -> option Location) (G : Gates) (V : OwnerVerifier).

Definition payIntoEscrowTx (c : Ctx) (id : string) (e : EscrowRow) : PTx unit :=
  let ws := es_payer_ws e in let payer := es_payer e in let amount := es_amount e in
  CheckMoneyWall ws (es_payee_ws e) ;;;
  let! same_owner := escrow_sides V (ws, payer) (es_payee_ws e, es_payee e) in
  let '(capability, class) := escrow_class same_owner in
  let! bal := wallet (accountBalance ws (agentAccount payer)) in
  tx_guard (negb (bal <? amount)) (EWallet ErrAgentFunds) ;;;
  wallet (enforceAgentRules LL c ws payer amount id) ;;;
  wallet (readLXCBalance ws ;;; tx_ret tt) ;;;
  let! testBefore := wallet (testFundedULXC ws) in
  let! _ := spendForCapability G c ws capability amount in
  let e := mkEscrow ws payer (es_payee_ws e) (es_payee e) amount (es_memo e) class (es_test e) (es_release e) EscHeld (now c) None in
  wallet (moveEscrowLXC ws (-! amount) id e "credits paid into escrow") ;;;
  let! testAfter := wallet (testFundedULXC ws) in
  let e := mkEscrow ws payer (es_payee_ws e) (es_payee e) amount (es_memo e) class (Z.max (testBefore -! testAfter) 0)
             (es_release e) EscHeld (now c) None in
  let! entry := wallet (postEscrowEntry c id ws (agentAccount payer) (-! amount) ws (escrowAccount id) amount) in
  record_escrow id e ;;;
  escrowEvent (mkEscrowEvent id EscHeld "payer" "" "" entry).

Section Fingerprint.
Variable sha256hex : string -> string.

(** The request paying into escrow makes of the rules. *)
Definition escrow_request (payer : string) (to : WalletAddress) (amount : Z) (memo : string) : AgentRequest :=
  mkRequest "" "" (paymentFingerprint sha256hex payer (WalletID to) amount ("escrow" +:+ String (Ascii.ascii_of_nat 0) memo)) None
    true "" (mkPayee "agent" (WalletID to) (WalletName to)) memo (mkCommitment "" "" false 0).

Definition PayIntoEscrow (c : Ctx) (ws payer address : string) (amount : Z) (memo : string) (release : Z) d : Res PayErr EscrowView * Desk :=
  if amount <=? 0 then (Err ErrEscrowTerms, d)
  else if negb (now c <? release) then (Err ErrEscrowTerms, d)
  else match resolve d address with
  | None => (Err (EWallet ErrAgentNotFound), d)
  | Some to =>
      if bool_decide (WalletID to = payer) then (Err ErrSameAgent, d)
      else
        let c := WithAgentRequest c (escrow_request payer to amount memo) in
        let pay : PTx string :=
          let! x := wallet (uuid_new c) in
          let id := "escrow_" +:+ x in
          payIntoEscrowTx c id (mkEscrow ws payer (WalletWorkspace to) (WalletID to) amount memo ClassGreen 0 release EscHeld 0 None) ;;;
          tx_ret id in
        match run_payment c pay d with
        | (Ok id, d') => (GetEscrow d' ws id, d')
        | (Err e, d') => (Err e, d')
        end
  end.
End Fingerprint.

(** ** Settling *)

(** Where a settled escrow's credits go. *)
Definition settle_side (kind : EscrowStatus) (e : EscrowRow) : string * string :=
  if bool_decide (kind = EscReturned) then (es_payer_ws e, es_payer e) else (es_payee_ws e, es_payee e).

Definition settleEscrowTx (c : Ctx) (id : string) (e : EscrowRow) (kind : EscrowStatus) (actor operator detail : string) : PTx unit :=
  let '(ws, agent) := settle_side kind e in
  let desc := if bool_decide (kind = EscReturned) then "credits returned from escrow"%string else "credits released from escrow"%string in
  (if bool_decide (kind = EscReturned) then tx_ret tt else CheckMoneyWall (es_payer_ws e) (es_payee_ws e)) ;;;
  wallet (lockAgent ws agent) ;;;
  wallet (moveEscrowLXC ws (es_amount e) id e desc) ;;;
  wallet (addTestFunded ws (es_test e)) ;;;
  let! entry := wallet (postEscrowEntry c id (es_payer_ws e) (escrowAccount id) (-! es_amount e) ws (agentAccount agent) (es_amount e)) in
  tx_modify (put_escrow id (set_status kind (Some (now c)) e)) ;;;
  escrowEvent (mkEscrowEvent id kind actor operator detail entry).

(** The escrow [id], in the state [st]. *)
Definition escrow_in (id : string) (ok : EscrowRow -> bool) : PTx EscrowRow :=
  let! e := tx_gets (fun d => agent_escrows d !! id) in
  match e with
  | Some e => tx_guard (ok e) ErrEscrowNotFound ;;; tx_ret e
  | None => tx_fail ErrEscrowNotFound
  end.

Definition payerEscrowTx (ws id : string) : PTx EscrowRow :=
  escrow_in id (fun e => bool_decide (es_payer_ws e = ws /\ es_status e = EscHeld)).

(** A transaction that is not judged by the rules: committed or rolled back. *)
Definition run_escrow {A} (m : PTx A) (view : Desk -> Res PayErr EscrowView) d : Res PayErr EscrowView * Desk :=
  match pay_committed m d with
  | Ok (_, d') => (view d', d')
  | Err e => (Err e, d)
  end.

Definition confirmEscrow (c : Ctx) (ws id : string) : PTx unit :=
  let! e := payerEscrowTx ws id in settleEscrowTx c id e EscReleased "payer" "" "delivery confirmed".

Definition ConfirmEscrow (c : Ctx) (ws id : string) d : Res PayErr EscrowView * Desk :=
  run_escrow (confirmEscrow c ws id) (fun d' => GetEscrow d' ws id) d.

Definition disputeEscrow (c : Ctx) (ws id reason : string) : PTx unit :=
  let! e := payerEscrowTx ws id in
  tx_guard (now c <? es_release e) ErrEscrowTerms ;;;
  tx_modify (put_escrow id (set_status EscDisputed (es_decided e) e)) ;;;
  escrowEvent (mkEscrowEvent id EscDisputed "payer" "" reason "").

Definition DisputeEscrow (c : Ctx) (ws id reason : string) d : Res PayErr EscrowView * Desk :=
  let reason := trimmed reason in
  if bool_decide (reason = ""%string) then (Err ErrEscrowTerms, d)
  else run_escrow (disputeEscrow c ws id reason) (fun d' => GetEscrow d' ws id) d.

Definition decideEscrow (c : Ctx) (id : string) (release : bool) (operator note : string) : PTx EscrowRow :=
  let! e := escrow_in id (fun e => bool_decide (es_status e = EscDisputed)) in
  settleEscrowTx c id e (if release then EscReleased else EscReturned) "operator" operator note ;;;
  tx_ret e.

Definition DecideEscrow (c : Ctx) (id : string) (release : bool) (operator note : string) d : Res PayErr EscrowView * Desk :=
  if missing [trimmed operator; trimmed note] then (Err ErrEscrowTerms, d)
  else match pay_committed (decideEscrow c id release operator note) d with
  | Ok (e, d') => (GetEscrow d' (es_payer_ws e) id, d')
  | Err e => (Err e, d)
  end.

(** ** Deadlines *)

Definition maxTicksPerRun : nat := 1000.

Definition due (t : Z) (e : EscrowRow) : bool := bool_decide (es_status e = EscHeld) && (es_release e <=? t).

(** [ORDER BY release_at, id]. *)
Definition due_before (x y : string * EscrowRow) : bool :=
  (es_release x.2 <? es_release y.2) || ((es_release x.2 =? es_release y.2) && String.ltb x.1 y.1).

Definition first_due (t : Z) d : option (string * EscrowRow) :=
  foldr (fun x acc => if due t x.2 then
           match acc with Some y => if due_before y x then Some y else Some x | None => Some x end
         else acc) None (map_to_list (agent_escrows d)).

(** One due escrow released, or disputed when it cannot be: what the savepoint is for.
    The dispute's detail also carries the error's text, which is not modelled. *)
Definition releaseDue (c : Ctx) (id : string) (e : EscrowRow) : PTx unit := fun d =>
  match settleEscrowTx c id e EscReleased "deadline" "" "the deadline passed without a dispute" d with
  | Ok r => Ok r
  | Err _ =>
      (tx_modify (put_escrow id (set_status EscDisputed (es_decided e) e)) ;;;
       escrowEvent (mkEscrowEvent id EscDisputed "deadline" "" "could not be released at its deadline" "")) d
  end.

Definition runEscrowDeadline (c : Ctx) (t : Z) d : Res PayErr bool * Desk :=
  match first_due t d with
  | None => (Ok false, d)
  | Some (id, e) =>
      match pay_committed (releaseDue c id e) d with
      | Ok (_, d') => (Ok true, d')
      | Err e => (Err e, d)
      end
  end.

(** The count, the error the run ended on, the desk. *)
Fixpoint run_deadlines (c : Ctx) (t : Z) (ticks released : nat) d : nat * option PayErr * Desk :=
  match ticks with
  | O => (released, None, d)
  | S ticks =>
      match runEscrowDeadline c t d with
      | (Ok true, d') => run_deadlines c t ticks (S released) d'
      | (Ok false, d') => (released, None, d')
      | (Err e, d') => (released, Some e, d')
      end
  end.

Definition RunEscrowDeadlines (c : Ctx) (t : Z) d : nat * option PayErr * Desk := run_deadlines c t maxTicksPerRun 0 d.
End Escrow.

(** ** Custody *)

(** What an escrow holds. *)
Definition custody (e : EscrowRow) : Z :=
  match es_status e with EscHeld | EscDisputed => es_amount e | _ => 0 end.

(** Every escrow's account holds what it is in custody of, and no other one anything. *)
Record escrow_inv d : Prop := {
  ei_terms id e : agent_escrows d !! id = Some e -> 0 < es_amount e /\ in_i64 (es_amount e) /\ es_payer e <> es_payee e;
  ei_custody id ws : account_balance d ws (escrowAccount id) =
    match agent_escrows d !! id with Some e => if decide (es_payer_ws e = ws) then custody e else 0 | None => 0 end;
}.

Lemma escrow_kept id : shared_account (escrowAccount id) = false.
Proof. reflexivity. Qed.

Lemma escrow_not_held id : held_account (escrowAccount id) = false.
Proof. reflexivity. Qed.

Lemma escrow_not_agent id a : escrowAccount id <> agentAccount a.
Proof. discriminate. Qed.

Global Instance escrowAccount_inj : Inj (=) (=) escrowAccount.
Proof. intros a b H. unfold escrowAccount in H. by injection H. Qed.

Lemma held_escrow_part c entry id ws acc amount w :
  held_part (escrow_posting c entry id ws acc amount) w = if held_account acc then at_ws ws amount w else 0.
Proof.
  unfold held_part, at_ws. cbn [ps_ws ps_account ps_amount escrow_posting]. destruct (held_account acc); [by rewrite andb_true_r|].
  by rewrite andb_false_r.
Qed.

(** An escrow's entry: [amount] from one account to another. *)
Lemma escrow_entry_shift c id ws1 acc1 ws2 acc2 amount s e s' {Hu : Inj (=) (=) (uuid c)} :
  sound (uuid c) s -> postEscrowEntry c id ws1 acc1 (- amount) ws2 acc2 amount s = Ok (e, s') ->
  shifted (uuid c) nothing (fun w a => at_acc ws1 acc1 (- amount) w a + at_acc ws2 acc2 amount w a)
    (fun w => (if held_account acc1 then at_ws ws1 (- amount) w else 0) + (if held_account acc2 then at_ws ws2 amount w else 0)) s s' /\
  post_frame s s' /\ e = uuid c (uuid_draws s).
Proof.
  intros B H. unfold postEscrowEntry in H. apply tx_bind_ok in H as (x & s0 & H0 & H). apply uuid_new_ok in H0 as [-> ->].
  apply tx_bind_ok in H as (? & s1 & H1 & H). apply tx_bind_ok in H as (? & s2 & H2 & H). apply tx_ret_ok in H as [-> ->].
  split_and!; [|apply insert_posting_ok in H1 as (_ & -> & _); apply insert_posting_ok in H2 as (_ & -> & _)|done].
  - pose proof (fun E1 E2 E3 => shifted_pair _ _ _ _ _ _ _ _ B E1 E2 E3 H1 H2) as S.
    specialize (S eq_refl eq_refl ltac:(cbn; lia)). eapply shifted_ext; [..|exact S]; [done|done|].
    intros w. cbn beta. by rewrite !held_escrow_part.
  - etrans; [apply (with_uuid_frame (N.succ (uuid_draws s)))|]. etrans; apply posted_frame.
Qed.

Lemma moveEscrowLXC_shift u ws delta id e desc s v s' :
  sound u s -> in_i64 (lx_balance (lxc_row s ws) + delta) ->
  moveEscrowLXC ws delta id e desc s = Ok (v, s') -> lxc_shift u (at_ws ws delta) s s'.
Proof. intros B Hi H. eapply pass_shift; [exact B|by right|exact Hi|exact H]. Qed.

(** ** What settling does *)

Lemma settle_kind_side kind e : settle_side kind e = (es_payer_ws e, es_payer e) /\ kind = EscReturned \/
  settle_side kind e = (es_payee_ws e, es_payee e) /\ kind <> EscReturned.
Proof. unfold settle_side. case_bool_decide; [left|right]; done. Qed.

(** The credits of the escrow [id] with its settle's side, and the row and the event. *)
Record escrow_settled (c : Ctx) (id : string) (e : EscrowRow) (kind : EscrowStatus) d d' : Prop := {
  sd_shift : let '(ws, agent) := settle_side kind e in
    shifted (uuid c) (at_ws ws (es_amount e))
      (fun w a => at_acc (es_payer_ws e) (escrowAccount id) (- es_amount e) w a + at_acc ws (agentAccount agent) (es_amount e) w a)
      (at_ws ws (es_amount e)) d d';
  sd_agent : let '(ws, agent) := settle_side kind e in exists a, agent_accounts d !! agent = Some a /\ ag_ws a = ws;
  sd_rows : exists ev, agent_escrows d' = <[id := set_status kind (Some (now c)) e]> (agent_escrows d) /\
    agent_escrow_events d' = ev :: agent_escrow_events d /\ ev_escrow ev = id /\ ev_kind ev = kind;
  sd_pay : agent_transfers d' = agent_transfers d /\ compliance_freezes d' = compliance_freezes d /\
    agent_money_requests d' = agent_money_requests d;
}.

Lemma settleEscrowTx_effect c id e kind actor operator detail key_ws d v d' {Hu : Inj (=) (=) (uuid c)} :
  wallet_inv (uuid c) key_ws d -> 0 < es_amount e -> in_i64 (es_amount e) ->
  lx_balance (lxc_row d (settle_side kind e).1) + es_amount e <= room ->
  settleEscrowTx c id e kind actor operator detail d = Ok (v, d') -> escrow_settled c id e kind d d'.
Proof.
  intros W Hp Hi Hr H. pose proof (wallet_sound_books _ _ _ W) as B. unfold settleEscrowTx in H.
  destruct (settle_side kind e) as [ws agent] eqn:Es. cbn zeta in H.
  apply tx_bind_ok in H as (? & d1 & H1 & H).
  assert (d1 = d) as ->.
  { case_bool_decide; [by apply tx_ret_ok in H1 as [_ ->]|by apply wall_ok in H1 as [-> _]]. }
  apply wallet_bind in H as (? & s1 & L & H). apply lockAgent_ok in L as (-> & a & La & Wa). rewrite with_store_id in H.
  apply wallet_bind in H as (? & s2 & H2 & H). apply (moveEscrowLXC_shift (uuid c)) in H2 as S2; [|done|].
  2:{ pose proof (balance_bounds _ _ _ ws W). cbn [fst] in Hr. unfold room in *. i64_ranges; lia. }
  apply wallet_bind in H as (? & s3 & H3 & H). cbn [dk_store with_store] in H3.
  apply (test_shift (uuid c)) in H3 as S3; [|eapply shifted_sound, S2].
  apply wallet_bind in H as (entry & s4 & H4 & H). cbn [dk_store with_store] in H4. rewrite neg_in_range in H4 by (done || lia).
  apply escrow_entry_shift in H4 as (S4 & F4 & _); [|done|eapply shifted_sound, S3].
  apply tx_bind_ok in H as (? & d5 & H5 & H). apply tx_modify_ok in H5 as ->. apply tx_modify_ok in H as ->.
  split; rewrite ?Es.
  - cbn [dk_store with_store put_escrow with_escrows with_escrow_events].
    destruct S2 as [S2 _]. destruct S3 as [S3 _].
    eapply shifted_ext; [..|exact (shifted_trans _ _ _ _ _ _ _ _ _ _ S2 (shifted_trans _ _ _ _ _ _ _ _ _ _ S3 S4))];
      intros w; cbn beta; unfold nothing, none2; intros; rewrite ?escrow_not_held, ?held_agent; lia.
  - by exists a.
  - eexists. split_and!; reflexivity.
  - done.
Qed.

Lemma escrow_sides_ok v p q d b d' : escrow_sides v p q d = Ok (b, d') -> d' = d.
Proof.
  assert (S : forall x d o d', escrow_side v x d = Ok (o, d') -> d' = d).
  { intros x d0 o d1 H. unfold escrow_side in H. apply wallet_bind in H as (? & s & L & H). apply lockAgent_ok in L as (-> & _).
    rewrite with_store_id in H. by apply verified_owner_ok in H as (-> & _). }
  unfold escrow_sides, in_order. destruct (String.ltb _ _); intros H;
    apply tx_bind_ok in H as (o1 & d1 & H1 & H); apply S in H1 as ->;
    apply tx_bind_ok in H as (o2 & d2 & H2 & H); apply S in H2 as ->; by apply tx_ret_ok in H as [_ ->].
Qed.

Record escrow_paid (c : Ctx) (id : string) (e : EscrowRow) d d' : Prop := {
  ep_shift : shifted (uuid c) (at_ws (es_payer_ws e) (- es_amount e))
    (fun w a => at_acc (es_payer_ws e) (agentAccount (es_payer e)) (- es_amount e) w a +
                at_acc (es_payer_ws e) (escrowAccount id) (es_amount e) w a)
    (at_ws (es_payer_ws e) (- es_amount e)) d d';
  ep_funds : es_amount e <= account_balance d (es_payer_ws e) (agentAccount (es_payer e));
  ep_rows : exists e' ev, agent_escrows d !! id = None /\ agent_escrows d' = <[id := e']> (agent_escrows d) /\
    agent_escrow_events d' = ev :: agent_escrow_events d /\ ev_escrow ev = id /\ ev_kind ev = EscHeld /\
    (es_payer_ws e', es_payer e', es_payee_ws e', es_payee e', es_amount e', es_release e') =
    (es_payer_ws e, es_payer e, es_payee_ws e, es_payee e, es_amount e, es_release e) /\
    es_status e' = EscHeld /\ 0 < es_amount e /\ es_payer e <> es_payee e;
  ep_pay : agent_transfers d' = agent_transfers d;
}.

Lemma record_escrow_ok id e d v d' : record_escrow id e d = Ok (v, d') ->
  d' = put_escrow id e d /\ agent_escrows d !! id = None /\ 0 < es_amount e /\ es_payer e <> es_payee e.
Proof.
  unfold record_escrow. rewrite tx_guard_bind. intros [[[[G1 G2]%andb_prop G3]%andb_prop G4]%andb_prop H].
  rewrite tx_gets_bind, tx_guard_bind in H. destruct H as [Gd H]. apply tx_modify_ok in H as ->.
  split_and!; [done|by destruct (agent_escrows d !! id)|lia|by apply negb_true_iff, bool_decide_eq_false in G4].
Qed.

Lemma payIntoEscrowTx_effect LL G V c id e key_ws d v d' {Hu : Inj (=) (=) (uuid c)} :
  wallet_inv (uuid c) key_ws d -> 0 < es_amount e -> in_i64 (es_amount e) ->
  payIntoEscrowTx LL G V c id e d = Ok (v, d') -> escrow_paid c id e d d'.
Proof.
  intros W Hp Hi H. pose proof (wallet_sound_books _ _ _ W) as B. unfold payIntoEscrowTx in H. cbn zeta in H.
  apply tx_bind_ok in H as (? & d1 & H1 & H). apply wall_ok in H1 as [-> _].
  apply tx_bind_ok in H as (same & d1 & H1 & H). apply escrow_sides_ok in H1 as ->.
  destruct (escrow_class same) as [capability class].
  apply wallet_bind in H as (bal & s1 & H1 & H). apply accountBalance_ok in H1 as [-> ->]. rewrite with_store_id in H.
  rewrite tx_guard_bind in H. destruct H as [Gf H]. apply negb_true_iff, Z.ltb_ge in Gf.
  apply wallet_bind in H as (? & s1 & H1 & H). apply enforce_effect in H1 as (F1 & _).
  pose proof (shifted_judged (uuid c) _ _ B F1) as S1.
  apply wallet_bind in H as (? & s2 & H2 & H). cbn [dk_store with_store] in H2.
  apply tx_bind_ok in H2 as (? & s2' & H2 & R2). apply tx_ret_ok in R2 as [_ ->].
  pose proof H2 as R2. apply readLXCBalance_ok in R2 as [_ R2].
  apply (read_shift (uuid c)) in H2 as S2; [|eapply shifted_sound, S1].
  apply wallet_bind in H as (tb & s3 & H3 & H). apply testFunded_ok in H3 as (-> & -> & _). rewrite with_store_id in H.
  apply tx_bind_ok in H as (take & d3 & H3 & H). apply spend_spent in H3 as Sp; [|done..].
  pose proof (spent_shift (uuid c) _ _ _ _ _ _ (with_store s2' d) d3 (shifted_sound _ _ _ _ _ _ (proj1 S2)) Sp) as S3.
  change (lxc_shift (uuid c) nothing s2' d3) in S3. pose proof (lxc_shift_trans _ _ _ _ _ _ S2 S3) as S23.
  apply wallet_bind in H as (? & s4 & H4 & H). rewrite neg_in_range in H4 by (done || lia).
  apply (moveEscrowLXC_shift (uuid c)) in H4 as S4; [|exact (shifted_sound _ _ _ _ _ _ (proj1 S3))|].
  2:{ rewrite (shift_balance _ _ _ _ _ S23), (sf_bal _ _ _ _ _ _ S1). unfold nothing.
      pose proof (balance_bounds _ _ _ (es_payer_ws e) W). unfold room in *. i64_ranges; lia. }
  apply wallet_bind in H as (ta & s5 & H5 & H). apply testFunded_ok in H5 as (-> & -> & _). rewrite with_store_id in H.
  apply wallet_bind in H as (entry & s6 & H6 & H). cbn [dk_store with_store] in H6. rewrite neg_in_range in H6 by (done || lia).
  apply escrow_entry_shift in H6 as (S6 & _ & _); [|done|eapply shifted_sound, S4].
  apply tx_bind_ok in H as (? & d7 & H7 & H). apply record_escrow_ok in H7 as (-> & N & _ & Hne). apply tx_modify_ok in H as ->.
  assert (Ep : dk_pay d3 = dk_pay d) by (by rewrite (cs_pay _ _ _ _ _ _ _ _ Sp)).
  split; cbn [dk_store dk_pay with_store put_escrow with_escrows with_escrow_events agent_escrows agent_transfers agent_escrow_events] in *.
  - destruct S23 as [S23 _]. destruct S4 as [S4 _].
    eapply shifted_ext; [..|exact (shifted_trans _ _ _ _ _ _ _ _ _ _ S1 (shifted_trans _ _ _ _ _ _ _ _ _ _ S23
      (shifted_trans _ _ _ _ _ _ _ _ _ _ S4 S6)))];
      intros w; cbn beta; unfold nothing, none2; intros; rewrite ?escrow_not_held, ?held_agent; lia.
  - done.
  - rewrite Ep in *. eexists _, _. split_and!; try reflexivity; done.
  - by rewrite Ep.
Qed.

(** ** The desk's invariant *)

Record desk_inv (u : N -> string) (key_ws : string -> string) d : Prop := {
  di_wallet : wallet_inv u key_ws d;
  di_escrow : escrow_inv d;
}.

Lemma at_acc_ne ws acc x w a : acc <> a -> at_acc ws acc x w a = 0.
Proof. intros H. unfold at_acc. by rewrite bool_decide_eq_false_2 by naive_solver. Qed.

Lemma at_acc_eq ws acc x w : at_acc ws acc x w acc = if decide (ws = w) then x else 0.
Proof. unfold at_acc. destruct (decide (ws = w)); [by rewrite bool_decide_eq_true_2|rewrite bool_decide_eq_false_2; [done|naive_solver]]. Qed.

Lemma room_of s ws x : lx_balance (lxc_row s ws) + held_sum s ws + x <= room -> 0 <= held_sum s ws -> lx_balance (lxc_row s ws) + x <= room.
Proof. lia. Qed.

Lemma settled_inv u c id e kind key_ws d d' :
  uuid c = u -> desk_inv u key_ws d -> agent_escrows d !! id = Some e -> custody e = es_amount e ->
  kind = EscReleased \/ kind = EscReturned ->
  lx_balance (lxc_row d (settle_side kind e).1) + held_sum d (settle_side kind e).1 + es_amount e <= room ->
  escrow_settled c id e kind d d' -> desk_inv u key_ws d'.
Proof.
  intros <- [W [T C]] He Hc Hk Hr [S _ (ev & R & _) _]. destruct (T id e He) as (Hp & _ & _).
  destruct (settle_side kind e) as [ws agent] eqn:Es. cbn [fst] in Hr. split.
  - eapply shifted_wallet; [exact W|exact S|..].
    + intros w. pose proof (wi_solvent _ _ _ W w). lia.
    + intros w. unfold at_ws. pose proof (wi_room _ _ _ W w). case_bool_decide; subst; lia.
    + intros w a Ha. pose proof (wi_held _ _ _ W w a Ha). cbn beta. rewrite (at_acc_ne _ (escrowAccount id)).
      * unfold at_acc. case_bool_decide; lia.
      * intros <-. by rewrite escrow_not_held in Ha.
  - split.
    + intros id' e'. rewrite R. destruct (decide (id = id')) as [<-|].
      * rewrite lookup_insert_eq. intros [= <-]. apply (T id e He).
      * rewrite lookup_insert_ne by done. apply T.
    + intros id' w. rewrite (sf_acc _ _ _ _ _ _ S) by apply escrow_kept. cbn beta. rewrite C, R.
      rewrite (at_acc_ne _ (agentAccount agent)) by discriminate. destruct (decide (id = id')) as [<-|].
      * rewrite lookup_insert_eq, He, at_acc_eq, Hc. cbn. unfold custody. cbn.
        destruct (decide (es_payer_ws e = w)); destruct Hk as [-> | ->]; lia.
      * rewrite lookup_insert_ne, at_acc_ne by naive_solver. lia.
Qed.

Lemma paid_inv u c id e key_ws d d' :
  uuid c = u -> desk_inv u key_ws d -> in_i64 (es_amount e) -> escrow_paid c id e d d' -> desk_inv u key_ws d'.
Proof.
  intros <- [W [T C]] Hi [S F (e' & ev & N & R & _ & _ & _ & E & Hs & Hp & Hne) _]. injection E as E1 E2 E3 E4 E5 E6. split.
  - eapply shifted_wallet; [exact W|exact S|..].
    + intros w. pose proof (wi_solvent _ _ _ W w). lia.
    + intros w. unfold at_ws. pose proof (wi_room _ _ _ W w). case_bool_decide; lia.
    + intros w a Ha. pose proof (wi_held _ _ _ W w a Ha). cbn beta. rewrite (at_acc_ne _ (escrowAccount id)).
      * unfold at_acc. case_bool_decide; [|lia]. destruct_and?. subst. lia.
      * intros <-. by rewrite escrow_not_held in Ha.
  - split.
    + intros id' e2. rewrite R. destruct (decide (id = id')) as [<-|].
      * rewrite lookup_insert_eq. intros [= <-]. rewrite E5, E2, E4. done.
      * rewrite lookup_insert_ne by done. apply T.
    + intros id' w. rewrite (sf_acc _ _ _ _ _ _ S) by apply escrow_kept. cbn beta. rewrite C, R.
      rewrite (at_acc_ne _ (agentAccount (es_payer e))) by discriminate. destruct (decide (id = id')) as [<-|].
      * rewrite lookup_insert_eq, N, at_acc_eq. unfold custody. rewrite Hs, E1, E5. destruct (decide (es_payer_ws e = w)); lia.
      * rewrite lookup_insert_ne, at_acc_ne by naive_solver. lia.
Qed.

(** A dispute only changes the escrow's state. *)
Record escrow_disputed (id : string) (e : EscrowRow) d d' : Prop := {
  es_same : dk_store d' = dk_store d;
  es_rows : exists ev, agent_escrows d' = <[id := set_status EscDisputed (es_decided e) e]> (agent_escrows d) /\
    agent_escrow_events d' = ev :: agent_escrow_events d /\ ev_escrow ev = id /\ ev_kind ev = EscDisputed;
}.

Lemma disputed_inv u key_ws id e d d' :
  desk_inv u key_ws d -> agent_escrows d !! id = Some e -> es_status e = EscHeld -> escrow_disputed id e d d' -> desk_inv u key_ws d'.
Proof.
  intros [W [T C]] He Hs [E (ev & R & _)]. split; [by rewrite E|]. split.
  - intros id' e'. rewrite R. destruct (decide (id = id')) as [<-|].
    + rewrite lookup_insert_eq. intros [= <-]. apply (T id e He).
    + rewrite lookup_insert_ne by done. apply T.
  - intros id' w. rewrite E, C, R. destruct (decide (id = id')) as [<-|].
    + rewrite lookup_insert_eq, He. unfold custody. cbn. by rewrite Hs.
    + by rewrite lookup_insert_ne by done.
Qed.

(** ** The vault: what escrow promises *)

(** A deal, as its two sides agreed it. *)
Record Deal := mkDeal {
  dl_payer : string * string;      (* workspace, agent *)
  dl_payee : string * string;
  dl_amount : Z;
  dl_release : Z;
  dl_state : EscrowStatus;
}.

Definition in_state (st : EscrowStatus) (x : Deal) : Deal := mkDeal (dl_payer x) (dl_payee x) (dl_amount x) (dl_release x) st.

(** The deals, and what each agent has in hand. *)
Record Vault := mkVault {
  va_deals : gmap string Deal;
  va_funds : string * string -> Z;
}.

(** Who asks for what of the vault: which deal, on what terms, decided how, and when. *)
Inductive Act : Type :=
| Pays (now : Z) (payer payee : string * string) (amount release : Z)
| Confirms (ws id : string)
| Disputes (ws id : string) (now : Z)
| Decides (id : string) (release : bool)
| Deadline (t : Z).

(** [x] more in the hands of [p]. *)
Definition funds_moved (p : string * string) (x : Z) (v v' : Vault) : Prop :=
  forall q, va_funds v' q = va_funds v q + if decide (p = q) then x else 0.

Inductive vault_step : Act -> Vault -> Vault -> Prop :=
| va_pay_in v v' id now payer payee amount release :
    va_deals v !! id = None -> 0 < amount <= va_funds v payer -> payer.2 <> payee.2 -> now < release ->
    va_deals v' = <[id := mkDeal payer payee amount release EscHeld]> (va_deals v) -> funds_moved payer (- amount) v v' ->
    vault_step (Pays now payer payee amount release) v v'
| va_confirm v v' ws id x :
    va_deals v !! id = Some x -> (dl_payer x).1 = ws -> dl_state x = EscHeld ->
    va_deals v' = <[id := in_state EscReleased x]> (va_deals v) -> funds_moved (dl_payee x) (dl_amount x) v v' ->
    vault_step (Confirms ws id) v v'
| va_dispute v v' ws id now x :
    va_deals v !! id = Some x -> (dl_payer x).1 = ws -> dl_state x = EscHeld -> now < dl_release x ->
    va_deals v' = <[id := in_state EscDisputed x]> (va_deals v) -> (forall q, va_funds v' q = va_funds v q) ->
    vault_step (Disputes ws id now) v v'
| va_decide v v' id (release : bool) x :
    va_deals v !! id = Some x -> dl_state x = EscDisputed ->
    va_deals v' = <[id := in_state (if release then EscReleased else EscReturned) x]> (va_deals v) ->
    funds_moved (if release then dl_payee x else dl_payer x) (dl_amount x) v v' ->
    vault_step (Decides id release) v v'
| va_deadline v v' id t x :
    va_deals v !! id = Some x -> dl_state x = EscHeld -> dl_release x <= t ->
    (forall id' y, va_deals v !! id' = Some y -> dl_state y = EscHeld -> dl_release y <= t -> dl_release x <= dl_release y) ->
    (va_deals v' = <[id := in_state EscReleased x]> (va_deals v) /\ funds_moved (dl_payee x) (dl_amount x) v v' \/
     va_deals v' = <[id := in_state EscDisputed x]> (va_deals v) /\ forall q, va_funds v' q = va_funds v q) ->
    vault_step (Deadline t) v v'.

(** Two vaults that hold the same. *)
Definition vault_eq (v v' : Vault) : Prop := va_deals v' = va_deals v /\ forall q, va_funds v' q = va_funds v q.

(** The vault a desk implements. *)
Definition deal_of (e : EscrowRow) : Deal :=
  mkDeal (es_payer_ws e, es_payer e) (es_payee_ws e, es_payee e) (es_amount e) (es_release e) (es_status e).

Definition vault d : Vault := mkVault (deal_of <$> agent_escrows d) (fun q => account_balance d q.1 (agentAccount q.2)).

(** ** The desk as a machine *)

Inductive EscrowOp : Type :=
| EPay (ws payer address : string) (amount : Z) (memo : string) (release : Z)
| EConfirm (ws id : string)
| EDispute (ws id reason : string)
| EDecide (id : string) (release : bool) (operator note : string)
| ETick (t : Z).

(** What an operation asks of the vault; nothing, when its address is no agent's. *)
Definition asks (c : Ctx) (op : EscrowOp) d : option Act :=
  match op with
  | EPay ws payer address amount _ release =>
      (fun to => Pays (now c) (ws, payer) (WalletWorkspace to, WalletID to) amount release) <$> resolve d address
  | EConfirm ws id => Some (Confirms ws id)
  | EDispute ws id _ => Some (Disputes ws id (now c))
  | EDecide id release _ _ => Some (Decides id release)
  | ETick t => Some (Deadline t)
  end.

Definition is_ok {E A} (r : Res E A) : bool := match r with Ok _ => true | Err _ => false end.

Section Machine.
Context (LL : string -> option Location) (G : Gates) (V : OwnerVerifier) (sha256hex : string -> string).

Definition exec_escrow (c : Ctx) (op : EscrowOp) d : Desk :=
  match op with
  | EPay ws payer address amount memo release => (PayIntoEscrow LL G V sha256hex c ws payer address amount memo release d).2
  | EConfirm ws id => (ConfirmEscrow c ws id d).2
  | EDispute ws id reason => (DisputeEscrow c ws id reason d).2
  | EDecide id release operator note => (DecideEscrow c id release operator note d).2
  | ETick t => (runEscrowDeadline c t d).2
  end.

(** Whether the operation answers that it was done; a tick, that it found an escrow due. *)
Definition went (c : Ctx) (op : EscrowOp) d : bool :=
  match op with
  | EPay ws payer address amount memo release => is_ok (PayIntoEscrow LL G V sha256hex c ws payer address amount memo release d).1
  | EConfirm ws id => is_ok (ConfirmEscrow c ws id d).1
  | EDispute ws id reason => is_ok (DisputeEscrow c ws id reason d).1
  | EDecide id release operator note => is_ok (DecideEscrow c id release operator note d).1
  | ETick t => match (runEscrowDeadline c t d).1 with Ok found => found | Err _ => false end
  end.

(** Amounts are [int64]s, and an escrow's credits have room where they go. *)
Definition escrow_op_ok (op : EscrowOp) d : Prop :=
  match op with
  | EPay _ _ _ amount _ _ => in_i64 amount
  | _ => forall id e ws, agent_escrows d !! id = Some e -> lx_balance (lxc_row d ws) + held_sum d ws + custody e <= room
  end.

Fixpoint exec_escrows (ops : list (Ctx * EscrowOp)) d : Desk :=
  match ops with
  | [] => d
  | (c, op) :: ops => exec_escrows ops (exec_escrow c op d)
  end.

Fixpoint escrow_ops_ok (u : N -> string) (ops : list (Ctx * EscrowOp)) d : Prop :=
  match ops with
  | [] => True
  | (c, op) :: ops => uuid c = u /\ escrow_op_ok op d /\ escrow_ops_ok u ops (exec_escrow c op d)
  end.

(** ** Each operation is a step of the vault, or changes nothing *)

Lemma pay_committed_balanced {A} (m : PTx A) u d a d' : m d = Ok (a, d') -> posting_inv u d' -> pay_committed m d = Ok (a, d').
Proof.
  unfold pay_committed. intros -> I. unfold entries_balanced. replace (forallb _ _) with true; [done|].
  symmetry. apply forallb_forall. intros p _. apply Z.eqb_eq, (pi_balanced u _ I).
Qed.

Lemma run_payment_cases {A} c (m : PTx A) d r d' : run_payment c m d = (r, d') ->
  (exists a, r = Ok a /\ m d = Ok (a, d')) \/ (exists e, r = Err e) /\ dk_pay d' = dk_pay d /\ quiet d d'.
Proof.
  unfold run_payment. destruct (pay_committed m d) as [[a d1]|e] eqn:E.
  - intros [= <- <-]. left. exists a. split; [done|]. by apply pay_committed_ok.
  - intros H. right. destruct e; try (injection H as <- <-; split_and!; [by eexists|done..]).
    unfold refusedMovement in H. destruct e; cbn in H; try (injection H as <- <-; split_and!; [by eexists|done..]).
    unfold run_tx in H. destruct (fileApproval _ _ _ _ _ _) as [[id s']|] eqn:F; injection H as <- <-;
      (split_and!; [by eexists|done|]); [|done]. by eapply fileApproval_quiet.
Qed.

Lemma quiet_vault d d' : dk_pay d' = dk_pay d -> quiet d d' -> vault_eq (vault d) (vault d').
Proof. intros Ep Q. split; cbn; [by rewrite Ep|]. intros q. unfold account_balance. by rewrite (qt_balances _ _ Q). Qed.

Lemma quiet_desk u key_ws d d' : dk_pay d' = dk_pay d -> quiet d d' -> desk_inv u key_ws d -> desk_inv u key_ws d'.
Proof.
  intros Ep Q [W [T C]]. split; [by eapply quiet_keeps|]. split; rewrite Ep; [exact T|].
  intros id ws. unfold account_balance. rewrite (qt_balances _ _ Q). apply C.
Qed.

Lemma vault_eq_refl v : vault_eq v v.
Proof. by split. Qed.

Lemma deals_insert d (m : gmap string EscrowRow) id e : deal_of <$> <[id := e]> m = <[id := deal_of e]> (deal_of <$> m).
Proof. apply fmap_insert. Qed.

Lemma agent_funds u ws1 acc1 x ws2 agent y s s' b a q {Hne : acc1 <> agentAccount q.2} :
  shifted u b (fun w a => at_acc ws1 acc1 x w a + at_acc ws2 (agentAccount agent) y w a) a s s' ->
  account_balance s' q.1 (agentAccount q.2) = account_balance s q.1 (agentAccount q.2) + if decide ((ws2, agent) = q) then y else 0.
Proof.
  intros S. rewrite (sf_acc _ _ _ _ _ _ S) by apply kept_agent. cbn beta. rewrite (at_acc_ne _ acc1), Z.add_0_l by done.
  destruct q as [w g]. unfold at_acc. cbn [fst snd]. destruct (decide ((ws2, agent) = (w, g))) as [[= <- <-]|Hq].
  - by rewrite bool_decide_eq_true_2.
  - rewrite bool_decide_eq_false_2; [done|]. intros [<- E]. apply Hq. f_equal. by apply (inj agentAccount) in E.
Qed.

(** What settling, paying in and disputing do to the vault. *)
Lemma settled_funds c id e kind d d' : escrow_settled c id e kind d d' ->
  funds_moved (settle_side kind e) (es_amount e) (vault d) (vault d') /\
  va_deals (vault d') = <[id := in_state kind (deal_of e)]> (va_deals (vault d)).
Proof.
  intros [S _ (ev & R & _) _]. split.
  - destruct (settle_side kind e) as [ws agent]. intros q. cbn. eapply agent_funds; [|exact S]. discriminate.
  - cbn. by rewrite R, fmap_insert.
Qed.

Lemma deals_lookup d id e : agent_escrows d !! id = Some e -> va_deals (vault d) !! id = Some (deal_of e).
Proof. intros He. cbn. by rewrite lookup_fmap, He. Qed.

Lemma disputed_vault id e d d' : escrow_disputed id e d d' ->
  va_deals (vault d') = <[id := in_state EscDisputed (deal_of e)]> (va_deals (vault d)) /\ forall q, va_funds (vault d') q = va_funds (vault d) q.
Proof. intros [E (ev & R & _)]. split; [cbn; by rewrite R, fmap_insert|]. intros q. cbn. by rewrite E. Qed.

Lemma paid_step c id e t d d' : t < es_release e -> escrow_paid c id e d d' ->
  vault_step (Pays t (es_payer_ws e, es_payer e) (es_payee_ws e, es_payee e) (es_amount e) (es_release e)) (vault d) (vault d').
Proof.
  intros Ht [S F (e' & ev & N & R & _ & _ & _ & E & Hs & Hp & Hne) _]. injection E as E1 E2 E3 E4 E5 E6.
  apply (va_pay_in _ _ id); cbn [va_deals va_funds vault fst snd].
  - by rewrite lookup_fmap, N.
  - lia.
  - done.
  - done.
  - rewrite R, fmap_insert. unfold deal_of at 1. by rewrite E1, E2, E3, E4, E5, E6, Hs.
  - intros q. cbn. eapply (agent_funds _ (es_payer_ws e) (escrowAccount id) (es_amount e)); [discriminate|].
    eapply shifted_ext; [..|exact S]; [done| |done]. intros w a _. cbn beta. lia.
Qed.

Lemma GetEscrow_payer d ws id e : agent_escrows d !! id = Some e -> es_payer_ws e = ws -> is_ok (GetEscrow d ws id) = true.
Proof. intros He Hw. unfold GetEscrow. by rewrite He, bool_decide_true by (by left). Qed.
End Machine.

(** ** The desk implements the vault *)

Section Implements.
Context (LL : string -> option Location) (G : Gates) (V : OwnerVerifier) (sha256hex : string -> string).
Context (u : N -> string) (key_ws : string -> string) {Hu : Inj (=) (=) u}.

Definition implements (act : option Act) (done : bool) d d' : Prop :=
  desk_inv u key_ws d' /\
  if done then exists a, act = Some a /\ vault_step a (vault d) (vault d') else vault_eq (vault d) (vault d').

Lemma implements_same act d : desk_inv u key_ws d -> implements act false d d.
Proof. intros I. split; [done|]. apply vault_eq_refl. Qed.

Lemma escrow_in_ok id ok d e d' : escrow_in id ok d = Ok (e, d') <-> d' = d /\ agent_escrows d !! id = Some e /\ ok e = true.
Proof.
  unfold escrow_in. rewrite tx_gets_bind. destruct (agent_escrows d !! id) as [e'|]; [|rewrite tx_fail_ok; naive_solver].
  rewrite tx_guard_bind, tx_ret_ok. naive_solver.
Qed.

Lemma settled_effect c id e kind actor operator detail d v d' :
  uuid c = u -> desk_inv u key_ws d -> agent_escrows d !! id = Some e -> custody e = es_amount e ->
  kind = EscReleased \/ kind = EscReturned ->
  (forall id e ws, agent_escrows d !! id = Some e -> lx_balance (lxc_row d ws) + held_sum d ws + custody e <= room) ->
  settleEscrowTx c id e kind actor operator detail d = Ok (v, d') ->
  escrow_settled c id e kind d d' /\ desk_inv u key_ws d'.
Proof.
  intros Ec I He Hc Hk Hr H. pose proof (di_wallet _ _ _ I) as W. destruct (ei_terms _ (di_escrow _ _ _ I) id e He) as (Hp & Hi & _).
  pose proof (Hr id e (settle_side kind e).1 He) as R. rewrite Hc in R.
  pose proof (held_sum_nonneg _ _ _ (settle_side kind e).1 W).
  assert (S : escrow_settled c id e kind d d') by (subst u; eapply settleEscrowTx_effect; [exact Hu|exact W|lia|done|lia|exact H]).
  split; [done|]. eapply settled_inv; [exact Ec|exact I|exact He|exact Hc|exact Hk|exact R|exact S].
Qed.

Lemma held_custody e : es_status e = EscHeld \/ es_status e = EscDisputed -> custody e = es_amount e.
Proof. unfold custody. by intros [-> | ->]. Qed.

Lemma settled_lookup c id e kind d d' : escrow_settled c id e kind d d' ->
  exists e', agent_escrows d' !! id = Some e' /\ es_payer_ws e' = es_payer_ws e.
Proof. intros [_ _ (ev & R & _) _]. rewrite R, lookup_insert_eq. by eexists. Qed.

Lemma confirm_implements c ws id d : uuid c = u -> desk_inv u key_ws d -> escrow_op_ok (EConfirm ws id) d ->
  implements (Some (Confirms ws id)) (is_ok (ConfirmEscrow c ws id d).1) d (ConfirmEscrow c ws id d).2.
Proof.
  intros Ec I Hr. unfold ConfirmEscrow, run_escrow. destruct (pay_committed _ _) as [[v d']|] eqn:E; [|by apply implements_same].
  apply pay_committed_ok in E. unfold confirmEscrow in E. apply tx_bind_ok in E as (e & d1 & E1 & E).
  apply escrow_in_ok in E1 as (-> & He & [Hw Hs]%bool_decide_eq_true).
  apply settled_effect in E as [S I']; [|done|done|done|apply held_custody; by left|by left|exact Hr]. cbn [fst snd].
  destruct (settled_lookup _ _ _ _ _ _ S) as (e' & He' & Ew). rewrite (GetEscrow_payer _ _ _ _ He') by congruence.
  split; [done|]. eexists. split; [reflexivity|]. apply settled_funds in S as [F R].
  exact (va_confirm _ _ ws id (deal_of e) (deals_lookup _ _ _ He) Hw Hs R F).
Qed.

Lemma decide_implements c id release operator note d : uuid c = u -> desk_inv u key_ws d ->
  escrow_op_ok (EDecide id release operator note) d ->
  implements (Some (Decides id release)) (is_ok (DecideEscrow c id release operator note d).1) d (DecideEscrow c id release operator note d).2.
Proof.
  intros Ec I Hr. unfold DecideEscrow. destruct (missing _); [by apply implements_same|].
  destruct (pay_committed _ _) as [[e2 d']|] eqn:E; [|by apply implements_same]. cbn [fst snd].
  apply pay_committed_ok in E. unfold decideEscrow in E. apply tx_bind_ok in E as (e & d1 & E1 & E).
  apply escrow_in_ok in E1 as (-> & He & Hs%bool_decide_eq_true). apply tx_bind_ok in E as (v & d2 & E & E2).
  apply tx_ret_ok in E2 as [-> ->].
  apply settled_effect in E as [S I']; [|done|done|done|apply held_custody; by right|destruct release; auto|exact Hr].
  destruct (settled_lookup _ _ _ _ _ _ S) as (e' & He' & Ew). rewrite (GetEscrow_payer _ _ _ _ He') by congruence.
  split; [done|]. eexists. split; [reflexivity|]. apply settled_funds in S as [F R].
  apply (va_decide _ _ id release (deal_of e) (deals_lookup _ _ _ He) Hs R). by destruct release.
Qed.

Lemma dispute_implements c ws id reason d : desk_inv u key_ws d ->
  implements (Some (Disputes ws id (now c))) (is_ok (DisputeEscrow c ws id reason d).1) d (DisputeEscrow c ws id reason d).2.
Proof.
  intros I. unfold DisputeEscrow, run_escrow. case_bool_decide; [by apply implements_same|].
  destruct (pay_committed _ _) as [[v d']|] eqn:E; [|by apply implements_same]. cbn [fst snd].
  apply pay_committed_ok in E. unfold disputeEscrow in E. apply tx_bind_ok in E as (e & d1 & E1 & E).
  apply escrow_in_ok in E1 as (-> & He & [Hw Hs]%bool_decide_eq_true). rewrite tx_guard_bind in E. destruct E as [Ht E].
  apply tx_bind_ok in E as (? & d2 & E2 & E). apply tx_modify_ok in E2 as ->. apply tx_modify_ok in E as ->.
  assert (S : escrow_disputed id e d (with_escrow_events (mkEscrowEvent id EscDisputed "payer" "" (trimmed reason) "" :: agent_escrow_events d)
    (put_escrow id (set_status EscDisputed (es_decided e) e) d))) by (split; [done|eexists; by split_and!]).
  rewrite (GetEscrow_payer _ _ _ (set_status EscDisputed (es_decided e) e)) by (done || (cbn; by rewrite lookup_insert_eq)).
  split; [by eapply disputed_inv|]. eexists. split; [reflexivity|]. apply disputed_vault in S as [R F].
  exact (va_dispute _ _ ws id (now c) (deal_of e) (deals_lookup _ _ _ He) Hw Hs ltac:(cbn; lia) R F).
Qed.

Lemma pay_implements c ws payer address amount memo release d :
  uuid c = u -> desk_inv u key_ws d -> in_i64 amount ->
  implements (asks c (EPay ws payer address amount memo release) d) (is_ok (PayIntoEscrow LL G V sha256hex c ws payer address amount memo release d).1)
    d (PayIntoEscrow LL G V sha256hex c ws payer address amount memo release d).2.
Proof.
  intros Ec I Hi. unfold PayIntoEscrow. destruct (Z.leb_spec amount 0); [by apply implements_same|].
  destruct (Z.ltb_spec (now c) release) as [Ht|]; cbn [negb]; [|by apply implements_same].
  cbn [asks]. destruct (resolve d address) as [to|]; [|by apply implements_same].
  case_bool_decide; [by apply implements_same|]. cbn zeta. set (c' := WithAgentRequest c _).
  destruct (run_payment c' _ d) as [r d'] eqn:E. apply run_payment_cases in E as [(id & -> & E)|([e ->] & Ep & Q)]; cbn [fst snd].
  - apply wallet_bind in E as (x & s1 & E1 & E). apply uuid_new_ok in E1 as [-> ->]. apply tx_bind_ok in E as (? & d2 & E & E2).
    apply tx_ret_ok in E2 as [-> ->]. set (d1 := with_store _ d) in E.
    assert (Q : quiet d d1) by by apply quiet_draw; lia. pose proof (quiet_desk _ _ _ d1 (reflexivity _) Q I) as I1.
    assert (Ec' : uuid c' = u) by done. set (id := ("escrow_" +:+ uuid c' (uuid_draws d))%string) in *.
    set (e := mkEscrow ws payer (WalletWorkspace to) (WalletID to) amount memo ClassGreen 0 release EscHeld 0 None) in *.
    assert (P : escrow_paid c' id e d1 d2).
    { clearbody c'. assert (Hu' : Inj (=) (=) (uuid c')) by by rewrite Ec'. rewrite <- Ec' in I1.
      eapply payIntoEscrowTx_effect; [exact Hu'|apply I1|done|done|exact E]. }
    pose proof (fun Hi' => paid_inv u c' _ _ key_ws _ _ Ec' I1 Hi' P) as I2. specialize (I2 Hi).
    assert (Go : is_ok (GetEscrow d2 ws id) = true).
    { destruct P as [_ _ (e' & ev & _ & R & _ & _ & _ & Ee & _) _]. apply (GetEscrow_payer _ _ _ e'); [by rewrite R, lookup_insert_eq|by injection Ee]. }
    rewrite Go. split; [exact I2|]. eexists. split; [reflexivity|]. exact (paid_step c' id e (now c) d1 d2 Ht P).
  - split; [by eapply quiet_desk|]. by apply quiet_vault.
Qed.

Lemma first_due_fold t (l : list (string * EscrowRow)) :
  match foldr (fun x acc => if due t x.2 then
           match acc with Some y => if due_before y x then Some y else Some x | None => Some x end
         else acc) None l with
  | Some x => x ∈ l /\ due t x.2 = true /\ forall y, y ∈ l -> due t y.2 = true -> es_release x.2 <= es_release y.2
  | None => forall y, y ∈ l -> due t y.2 = false
  end.
Proof.
  induction l as [|x l IH]; [intros y Hy; by apply elem_of_nil in Hy|]. cbn [foldr]. destruct (due t x.2) eqn:Dx.
  - destruct (foldr _ None l) as [z|].
    + destruct IH as (Hz & Dz & M). assert (B : due_before z x = true -> es_release z.2 <= es_release x.2).
      { unfold due_before. intros [?|[? _]%andb_prop]%orb_prop; lia. }
      assert (B' : due_before z x = false -> es_release x.2 <= es_release z.2).
      { unfold due_before. intros [? _]%orb_false_iff. lia. }
      destruct (due_before z x).
      * split_and!; [by right|done|]. intros y [->|Hy]%elem_of_cons Dy; [auto|by apply M].
      * split_and!; [by left|done|]. intros y [->|Hy]%elem_of_cons Dy; [lia|]. specialize (M y Hy Dy). specialize (B' eq_refl). lia.
    + split_and!; [by left|done|]. intros y [->|Hy]%elem_of_cons Dy; [lia|]. by rewrite (IH y Hy) in Dy.
  - destruct (foldr _ None l) as [z|].
    + destruct IH as (Hz & Dz & M). split_and!; [by right|done|]. intros y [->|Hy]%elem_of_cons Dy; [congruence|by apply M].
    + intros y [->|Hy]%elem_of_cons; [done|by apply IH].
Qed.

Lemma first_due_ok t d :
  match first_due t d with
  | Some (id, e) => agent_escrows d !! id = Some e /\ due t e = true /\
      forall id' e', agent_escrows d !! id' = Some e' -> due t e' = true -> es_release e <= es_release e'
  | None => forall id e, agent_escrows d !! id = Some e -> due t e = false
  end.
Proof.
  pose proof (first_due_fold t (map_to_list (agent_escrows d))) as F. unfold first_due. destruct (foldr _ _ _) as [[id e]|].
  - destruct F as (Hin & Hd & M). rewrite elem_of_map_to_list in Hin. split_and!; [done|done|].
    intros id' e' Hl. by apply (M (id', e')), elem_of_map_to_list.
  - intros id e Hl. by apply (F (id, e)), elem_of_map_to_list.
Qed.

(** What one tick does: the first due escrow is released, or disputed; nothing fails. *)
Lemma tick_outcome c t d :
  uuid c = u -> desk_inv u key_ws d -> escrow_op_ok (ETick t) d ->
  match first_due t d with
  | None => runEscrowDeadline c t d = (Ok false, d)
  | Some (id, e) => exists d', runEscrowDeadline c t d = (Ok true, d') /\ desk_inv u key_ws d' /\
      (escrow_settled c id e EscReleased d d' \/ escrow_disputed id e d d')
  end.
Proof.
  intros Ec I Hr. pose proof (first_due_ok t d) as F. unfold runEscrowDeadline. destruct (first_due t d) as [[id e]|]; [|done].
  destruct F as (He & [Hs%bool_decide_eq_true Ht]%andb_prop & _).
  assert (C : exists v d', releaseDue c id e d = Ok (v, d') /\ desk_inv u key_ws d' /\
    (escrow_settled c id e EscReleased d d' \/ escrow_disputed id e d d')).
  { unfold releaseDue. destruct (settleEscrowTx _ _ _ _ _ _ _ d) as [[v d']|err] eqn:E.
    - apply settled_effect in E as [S I']; [|done|done|done|apply held_custody; by left|by left|exact Hr]. exists v, d'. auto.
    - eexists tt, _. split; [reflexivity|].
      assert (S : escrow_disputed id e d (with_escrow_events (mkEscrowEvent id EscDisputed "deadline" "" "could not be released at its deadline" ""
        :: agent_escrow_events d) (put_escrow id (set_status EscDisputed (es_decided e) e) d))) by (split; [done|eexists; by split_and!]).
      split; [by eapply disputed_inv|]. by right. }
  destruct C as (v & d' & E & I' & C). exists d'. rewrite (pay_committed_balanced _ u _ _ _ E (wi_post _ _ _ (di_wallet _ _ _ I'))). done.
Qed.

Lemma tick_implements c t d : uuid c = u -> desk_inv u key_ws d -> escrow_op_ok (ETick t) d ->
  implements (Some (Deadline t)) (match (runEscrowDeadline c t d).1 with Ok found => found | Err _ => false end) d (runEscrowDeadline c t d).2.
Proof.
  intros Ec I Hr. pose proof (tick_outcome c t d Ec I Hr) as T. pose proof (first_due_ok t d) as F.
  destruct (first_due t d) as [[id e]|]; [|rewrite T; by apply implements_same].
  destruct T as (d' & -> & I' & C). destruct F as (He & [Hs%bool_decide_eq_true Ht%Z.leb_le]%andb_prop & M).
  split; [done|]. eexists. split; [reflexivity|]. apply (va_deadline _ _ id t (deal_of e) (deals_lookup _ _ _ He) Hs Ht).
  - intros id' y Hy Hh Hd. cbn in Hy. rewrite lookup_fmap in Hy. apply fmap_Some in Hy as (e' & He' & ->). cbn in Hh, Hd |- *.
    apply (M id' e' He'). unfold due. rewrite (bool_decide_true _ Hh). by apply Z.leb_le.
  - destruct C as [S|S]; [left; apply settled_funds in S as [F R]; by split|right; by apply disputed_vault].
Qed.

Lemma exec_implements c op d : uuid c = u -> desk_inv u key_ws d -> escrow_op_ok op d ->
  implements (asks c op d) (went LL G V sha256hex c op d) d (exec_escrow LL G V sha256hex c op d).
Proof.
  intros Ec I Ho. destruct op; cbn [exec_escrow went].
  - by apply pay_implements.
  - by apply confirm_implements.
  - by apply dispute_implements.
  - by apply decide_implements.
  - by apply tick_implements.
Qed.
End Implements.

(** ** What the vault keeps *)

Definition vault_moves (v v' : Vault) : Prop := vault_eq v v' \/ exists who, vault_step who v v'.

Definition settled_deal (x : Deal) : Prop := dl_state x = EscReleased \/ dl_state x = EscReturned.

(** Which state a deal's may lead to. *)
Definition leads_to (st st' : EscrowStatus) : Prop :=
  match st with
  | EscHeld => True
  | EscDisputed => st' <> EscHeld
  | EscReleased | EscReturned => st' = st
  end.

Lemma leads_to_refl st : leads_to st st.
Proof. by destruct st. Qed.

Lemma leads_to_trans st1 st2 st3 : leads_to st1 st2 -> leads_to st2 st3 -> leads_to st1 st3.
Proof. destruct st1, st2, st3; cbn; congruence. Qed.

Lemma in_state_self x : in_state (dl_state x) x = x.
Proof. by destruct x. Qed.

Definition deal_custody (x : Deal) : Z := match dl_state x with EscHeld | EscDisputed => dl_amount x | _ => 0 end.

(** A step makes one deal or moves one on, and the money goes where its custody says. *)
Lemma vault_step_cases who v v' : vault_step who v v' ->
  (exists id x, va_deals v !! id = None /\ dl_state x = EscHeld /\ va_deals v' = <[id := x]> (va_deals v) /\
     funds_moved (dl_payer x) (- deal_custody x) v v') \/
  (exists id x st p, va_deals v !! id = Some x /\ ~ settled_deal x /\ leads_to (dl_state x) st /\
     (p = dl_payer x \/ p = dl_payee x) /\ va_deals v' = <[id := in_state st x]> (va_deals v) /\
     funds_moved p (deal_custody x - deal_custody (in_state st x)) v v').
Proof.
  unfold deal_custody, settled_deal.
  intros [w w' id tn payer payee amount release N Hp _ _ E F|w w' ws id y Hy _ Hs E F|w w' ws id tn y Hy _ Hs _ E F|w w' id release y Hy Hs E F|w w' id t y Hy Hs _ _ K].
  - left. exists id, (mkDeal payer payee amount release EscHeld). done.
  - right. exists id, y, EscReleased, (dl_payee y). cbn. rewrite Hs, Z.sub_0_r. split_and!; try done; [naive_solver|by right].
  - right. exists id, y, EscDisputed, (dl_payer y). cbn. rewrite Hs, Z.sub_diag. split_and!; try done; [naive_solver|by left|].
    intros q. rewrite F. destruct (decide _); lia.
  - right. exists id, y, (if release then EscReleased else EscReturned), (if release then dl_payee y else dl_payer y).
    destruct release; cbn in *; rewrite Hs, Z.sub_0_r; (split_and!; try done; [naive_solver|by (left + right)]).
  - right. destruct K as [[E F]|[E F]].
    + exists id, y, EscReleased, (dl_payee y). cbn. rewrite Hs, Z.sub_0_r. split_and!; try done; [naive_solver|by right].
    + exists id, y, EscDisputed, (dl_payer y). cbn. rewrite Hs, Z.sub_diag. split_and!; try done; [naive_solver|by left|].
      intros q. rewrite F. destruct (decide _); lia.
Qed.

Lemma vault_moves_deal v v' id x : vault_moves v v' -> va_deals v !! id = Some x ->
  exists st, va_deals v' !! id = Some (in_state st x) /\ leads_to (dl_state x) st.
Proof.
  intros M Hx. assert (K : exists st, va_deals v !! id = Some (in_state st x) /\ leads_to (dl_state x) st).
  { exists (dl_state x). rewrite in_state_self. split; [done|apply leads_to_refl]. }
  destruct M as [[-> _]|[who M]]; [done|]. apply vault_step_cases in M as [(id' & y & N & _ & -> & _)|(id' & y & st & p & Hy & _ & L & _ & -> & _)].
  - rewrite lookup_insert_ne; [done|congruence].
  - destruct (decide (id' = id)) as [<-|]; [|by rewrite lookup_insert_ne].
    rewrite lookup_insert_eq. rewrite Hx in Hy. injection Hy as <-. eauto.
Qed.

Lemma vault_reach_deal v v' id x : rtc vault_moves v v' -> va_deals v !! id = Some x ->
  exists st, va_deals v' !! id = Some (in_state st x) /\ leads_to (dl_state x) st.
Proof.
  intros R. revert x. induction R as [v|v w v' M R IH]; intros x Hx.
  - exists (dl_state x). rewrite in_state_self. split; [done|apply leads_to_refl].
  - destruct (vault_moves_deal _ _ _ _ M Hx) as (st & Hst & L). destruct (IH _ Hst) as (st' & Hst' & L').
    exists st'. split; [by destruct x|]. cbn in L'. by eapply leads_to_trans.
Qed.

(** ** Conservation *)

(** What the agents of [S] have in hand, and what is in custody. *)
Definition worth (S : list (string * string)) (v : Vault) : Z :=
  sumZ (va_funds v <$> S) + map_sum (fun _ x => deal_custody x) (va_deals v).

(** Both sides of every deal are among [S]. *)
Definition all_sides (S : list (string * string)) (v : Vault) : Prop :=
  forall id x, va_deals v !! id = Some x -> dl_payer x ∈ S /\ dl_payee x ∈ S.

Lemma funds_sum S p x v v' : NoDup S -> p ∈ S -> funds_moved p x v v' -> sumZ (va_funds v' <$> S) = sumZ (va_funds v <$> S) + x.
Proof.
  intros ND Hin F. assert (N : forall l, p ∉ l -> sumZ (va_funds v' <$> l) = sumZ (va_funds v <$> l)).
  { induction l as [|q l IH]; [done|]. rewrite not_elem_of_cons. intros [Hq Hl]. csimpl. rewrite IH, F, decide_False by done. lia. }
  induction ND as [|q l Hq _ IH]; [by apply elem_of_nil in Hin|]. csimpl. rewrite F.
  apply elem_of_cons in Hin as [<-|Hin].
  - rewrite decide_True, N by done. lia.
  - rewrite IH by done. rewrite decide_False by naive_solver. lia.
Qed.

Lemma worth_step S v v' : NoDup S -> all_sides S v' -> vault_moves v v' -> worth S v' = worth S v.
Proof.
  unfold worth. intros ND A [[E F]|[who M]].
  - rewrite E. f_equal. assert (X : va_funds v' <$> S = va_funds v <$> S) by (apply list_fmap_ext; intros; apply F). by rewrite X.
  - apply vault_step_cases in M as [(id & x & N & _ & E & F)|(id & x & st & p & Hx & _ & _ & Hp & E & F)]; rewrite E in *.
    + destruct (A id x) as [A1 _]; [by rewrite E, lookup_insert_eq|]. rewrite (funds_sum _ _ _ _ _ ND A1 F), map_sum_insert_new by done. lia.
    + destruct (A id (in_state st x)) as [A1 A2]; [by rewrite E, lookup_insert_eq|]. cbn in A1, A2.
      assert (Hin : p ∈ S) by by destruct Hp as [-> | ->]. rewrite (funds_sum _ p _ _ _ ND Hin F), map_sum_insert, Hx. lia.
Qed.

Lemma worth_reach S v v' : NoDup S -> all_sides S v' -> rtc vault_moves v v' -> worth S v' = worth S v.
Proof.
  intros ND A R. assert (K : all_sides S v /\ worth S v' = worth S v); [|apply K].
  induction R as [v|v w v' M R IH]; [done|]. destruct (IH A) as [Aw Ew]. split.
  - intros id x Hx. destruct (vault_moves_deal _ _ _ _ M Hx) as (st & Hst & _). exact (Aw _ _ Hst).
  - rewrite Ew. by apply worth_step.
Qed.

Lemma exec_escrows_reach LL G V sha u key_ws ops d {Hu : Inj (=) (=) u} : desk_inv u key_ws d -> escrow_ops_ok LL G V sha u ops d ->
  desk_inv u key_ws (exec_escrows LL G V sha ops d) /\ rtc vault_moves (vault d) (vault (exec_escrows LL G V sha ops d)).
Proof.
  revert d. induction ops as [|[c op] ops IH]; intros d I; [done|]. cbn [escrow_ops_ok exec_escrows]. intros (Ec & Ho & Hos).
  destruct (exec_implements LL G V sha u key_ws c op d Ec I Ho) as [I' M]. destruct (IH _ I' Hos) as [I2 R]. split; [done|].
  eapply rtc_l; [|exact R]. destruct (went LL G V sha c op d); [destruct M as (a & _ & M); right; by exists a|by left].
Qed.

(** ** Deadlines *)

Definition due_count (t : Z) d : Z := map_sum (fun _ e => if due t e then 1 else 0) (agent_escrows d).

(** Every escrow's credits have room wherever they go, all of them together. *)
Definition room_for_all d : Prop :=
  forall ws, lx_balance (lxc_row d ws) + held_sum d ws + map_sum (fun _ e => custody e) (agent_escrows d) <= room.

Lemma due_count_nonneg t d : 0 <= due_count t d.
Proof. apply map_sum_nonneg. intros id e _. destruct (due t e); lia. Qed.

Lemma custody_le u key_ws d id e : desk_inv u key_ws d -> agent_escrows d !! id = Some e ->
  0 <= custody e <= map_sum (fun _ e => custody e) (agent_escrows d).
Proof.
  intros I He. assert (N : forall k v, agent_escrows d !! k = Some v -> 0 <= custody v).
  { intros k v Hk. destruct (ei_terms _ (di_escrow _ _ _ I) _ _ Hk) as [Hp _]. unfold custody. destruct (es_status v); lia. }
  split; [by eapply N|]. by apply (map_sum_lookup_le (fun _ e => custody e) _ id e).
Qed.

Lemma room_for_op u key_ws t d : desk_inv u key_ws d -> room_for_all d -> escrow_op_ok (ETick t) d.
Proof.
  intros I R id e ws He. specialize (R ws). pose proof (custody_le _ _ _ _ _ I He). lia.
Qed.

Lemma due_none t d : due_count t d = 0 <-> forall id e, agent_escrows d !! id = Some e -> due t e = false.
Proof.
  unfold due_count. split.
  - intros Z id e He. pose proof (map_sum_lookup_le (fun _ e => if due t e then 1 else 0) (agent_escrows d) id e
      (fun k v _ => ltac:(cbn; destruct (due t v); lia)) He) as L. cbn beta in L. destruct (due t e); [lia|done].
  - intros N. rewrite (map_sum_ext _ (fun _ _ => 0)) by (intros k v Hk; by rewrite (N k v Hk)).
    unfold map_sum. induction (map_to_list (agent_escrows d)) as [|[] l IH]; [done|exact IH].
Qed.

(** What a tick did to the escrow it found. *)
Definition ticked (c : Ctx) (e e' : EscrowRow) : Prop :=
  e' = set_status EscReleased (Some (now c)) e \/ e' = set_status EscDisputed (es_decided e) e.

Lemma tick_rows c id e d d' : escrow_settled c id e EscReleased d d' \/ escrow_disputed id e d d' ->
  exists e', ticked c e e' /\ agent_escrows d' = <[id := e']> (agent_escrows d) /\
    (forall ws, lx_balance (lxc_row d' ws) + custody e' <= lx_balance (lxc_row d ws) + custody e \/ custody e < es_amount e \/ es_amount e < 0) /\
    (forall ws, held_sum d' ws = held_sum d ws).
Proof.
  intros [[S _ (ev & R & _) _]|[E (ev & R & _)]].
  - eexists. split; [by left|]. split; [exact R|]. destruct (settle_side EscReleased e) as [w g]. split.
    + intros ws. rewrite (sf_bal _ _ _ _ _ _ S). unfold at_ws, custody at 1. cbn. case_bool_decide; lia.
    + intros ws. unfold held_sum. by rewrite (mf_reservations _ _ (sf_frame _ _ _ _ _ _ S)).
  - eexists. split; [by right|]. split; [exact R|]. rewrite E. split; [|done].
    intros ws. unfold custody. cbn. destruct (es_status e); lia.
Qed.

Lemma tick_progress u key_ws c t id e d d' :
  desk_inv u key_ws d -> agent_escrows d !! id = Some e -> due t e = true -> room_for_all d ->
  escrow_settled c id e EscReleased d d' \/ escrow_disputed id e d d' ->
  exists e', ticked c e e' /\ agent_escrows d' = <[id := e']> (agent_escrows d) /\
    room_for_all d' /\ due_count t d' = due_count t d - 1.
Proof.
  intros I He Hd Rm S. destruct (tick_rows _ _ _ _ _ S) as (e' & T & R & B & Hh).
  destruct (ei_terms _ (di_escrow _ _ _ I) _ _ He) as (Hp & _ & _). apply andb_prop in Hd as Hd2. destruct Hd2 as [Hs%bool_decide_eq_true _].
  assert (C : custody e = es_amount e) by (apply held_custody; by left).
  exists e'. split_and!; [done|done|..].
  - intros ws. rewrite Hh, R, map_sum_insert, He. cbn beta. specialize (Rm ws). destruct (B ws) as [?|[?|?]]; lia.
  - assert (D : due t e' = false) by by destruct T as [-> | ->].
    unfold due_count. rewrite R, map_sum_insert, He. cbn beta. rewrite Hd, D. lia.
Qed.

Lemma run_deadlines_all u key_ws c t ticks released d {Hu : Inj (=) (=) u} :
  uuid c = u -> desk_inv u key_ws d -> room_for_all d -> due_count t d <= Z.of_nat ticks ->
  exists n d', run_deadlines c t ticks released d = ((released + n)%nat, None, d') /\ Z.of_nat n = due_count t d /\
    desk_inv u key_ws d' /\ due_count t d' = 0 /\
    forall id e, agent_escrows d !! id = Some e ->
      exists e', agent_escrows d' !! id = Some e' /\ if due t e then ticked c e e' else e' = e.
Proof.
  intros Ec. revert released d. induction ticks as [|ticks IH]; intros released d I Rm Hn; cbn [run_deadlines].
  - pose proof (due_count_nonneg t d). exists 0%nat, d. rewrite Nat.add_0_r. split_and!; [done|lia|done|lia|].
    intros id e He. exists e. assert (Z : due_count t d = 0) by lia. by rewrite (proj1 (due_none t d) Z id e He).
  - pose proof (tick_outcome u key_ws c t d Ec I (room_for_op _ _ _ _ I Rm)) as T. pose proof (first_due_ok t d) as F.
    destruct (first_due t d) as [[id e]|].
    + destruct T as (d1 & -> & I1 & S). destruct F as (He & Hd & _).
      destruct (tick_progress _ _ _ _ _ _ _ _ I He Hd Rm S) as (e1 & T1 & R1 & Rm1 & N1).
      destruct (IH (Datatypes.S released) d1 I1 Rm1 ltac:(lia)) as (n & d' & -> & En & I' & N' & K).
      exists (Datatypes.S n), d'. split_and!; [f_equal; f_equal; lia|lia|done|done|].
      intros id' e' He'. destruct (decide (id = id')) as [<-|Hne].
      * rewrite He in He'. injection He' as <-. rewrite Hd. destruct (K id e1) as (e2 & L2 & E2); [by rewrite R1, lookup_insert_eq|].
        exists e2. split; [done|]. destruct T1 as [-> | ->]; cbn in E2; rewrite E2; [by left|by right].
      * apply (K id' e'). by rewrite R1, lookup_insert_ne.
    + rewrite T. exists 0%nat, d. rewrite Nat.add_0_r. pose proof (proj2 (due_none t d) F) as Z. split_and!; [done|lia|done|done|].
      intros id e He. exists e. by rewrite (F id e He).
Qed.

(** ** Properties *)

(** C20: escrow is the vault it promises to be.  An operation on a sound desk that answers
    that it was done made exactly the step of the vault that it asks for: a payer pays in,
    from its own hands, on the terms it asks, for the agent its address names, under a new
    deal; the workspace that paid confirms that very deal, or disputes it before its
    deadline; the operator decides it, once disputed, the way it says; a tick releases or
    disputes the earliest deal whose deadline has passed.  One that answers that it was not
    leaves the deals and everyone's money as they were.  Either leaves the desk sound. *)
Theorem escrow_implements_vault LL G V sha u key_ws c op d {Hu : Inj (=) (=) u} :
  uuid c = u -> desk_inv u key_ws d -> escrow_op_ok op d ->
  desk_inv u key_ws (exec_escrow LL G V sha c op d) /\
  if went LL G V sha c op d
  then exists a, asks c op d = Some a /\ vault_step a (vault d) (vault (exec_escrow LL G V sha c op d))
  else vault_eq (vault d) (vault (exec_escrow LL G V sha c op d)).
Proof. intros Ec I Ho. exact (exec_implements LL G V sha u key_ws c op d Ec I Ho). Qed.

(** C22: an escrow is settled once and for good.  However the operations after it follow
    one another, a released or returned escrow stays the deal it was, its account stays
    empty, and confirming, disputing or deciding it is refused. *)
Theorem escrow_settles_once LL G V sha u key_ws ops d id e {Hu : Inj (=) (=) u} :
  desk_inv u key_ws d -> escrow_ops_ok LL G V sha u ops d ->
  agent_escrows d !! id = Some e -> es_status e = EscReleased \/ es_status e = EscReturned ->
  let d' := exec_escrows LL G V sha ops d in
  (exists e', agent_escrows d' !! id = Some e' /\ deal_of e' = deal_of e) /\
  (forall ws, account_balance d' ws (escrowAccount id) = 0) /\
  (forall c ws, ConfirmEscrow c ws id d' = (Err ErrEscrowNotFound, d')) /\
  (forall c ws why, trimmed why <> ""%string -> DisputeEscrow c ws id why d' = (Err ErrEscrowNotFound, d')) /\
  (forall c b operator note, missing [trimmed operator; trimmed note] = false ->
     DecideEscrow c id b operator note d' = (Err ErrEscrowNotFound, d')).
Proof.
  intros I Ho He Hs d'. destruct (exec_escrows_reach LL G V sha u key_ws ops d I Ho) as [I' R]. fold d' in I', R.
  destruct (vault_reach_deal _ _ id (deal_of e) R) as (st & Hst & L); [cbn; by rewrite lookup_fmap, He|].
  assert (st = es_status e) as -> by (destruct Hs as [E|E]; cbn in L; rewrite E in L; by rewrite L).
  cbn in Hst. rewrite lookup_fmap in Hst. destruct (agent_escrows d' !! id) as [e'|] eqn:He'; [|done].
  assert (D : deal_of e' = deal_of e) by (apply (inj Some) in Hst; rewrite Hst; reflexivity).
  assert (Ds : es_status e' = es_status e) by exact (f_equal dl_state D).
  assert (N : forall ok, ok e' = false -> escrow_in id ok d' = Err ErrEscrowNotFound).
  { intros ok Hok. unfold escrow_in. rewrite run_gets, He', run_guard. by rewrite Hok. }
  assert (P : forall ws, payerEscrowTx ws id d' = Err ErrEscrowNotFound).
  { intros ws. apply N, bool_decide_eq_false. intros [_ K]. destruct Hs; congruence. }
  split_and!.
  - by exists e'.
  - intros ws. rewrite (ei_custody _ (di_escrow _ _ _ I')), He'. unfold custody. rewrite Ds.
    destruct (decide (es_payer_ws e' = ws)); [|done]. by destruct Hs as [-> | ->].
  - intros c ws. unfold ConfirmEscrow, run_escrow, pay_committed, confirmEscrow. by rewrite (run_bind_err _ _ _ _ (P ws)).
  - intros c ws why Hw. unfold DisputeEscrow. rewrite bool_decide_eq_false_2 by done.
    unfold run_escrow, pay_committed, disputeEscrow. by rewrite (run_bind_err _ _ _ _ (P ws)).
  - intros c b operator note Hm. unfold DecideEscrow. rewrite Hm. unfold pay_committed, decideEscrow.
    rewrite (run_bind_err _ _ _ ErrEscrowNotFound); [done|]. apply N, bool_decide_eq_false. intros K. destruct Hs; congruence.
Qed.

(** C23: escrow makes and loses no credits: whatever operations follow one another, what
    the agents on both sides of every deal have in hand, together with what is held in
    escrow, stays the same to the unit. *)
Theorem escrow_conserves_credits LL G V sha u key_ws ops d S {Hu : Inj (=) (=) u} :
  desk_inv u key_ws d -> escrow_ops_ok LL G V sha u ops d ->
  let d' := exec_escrows LL G V sha ops d in
  NoDup S -> all_sides S (vault d') -> worth S (vault d') = worth S (vault d).
Proof. intros I Ho d' ND A. apply worth_reach; [done|done|]. by apply (exec_escrows_reach LL G V sha u key_ws ops d I Ho). Qed.

(** C21: no due escrow waits.  A run over at most a thousand due escrows ends without an
    error, counts each of them once, leaves none due, releases each one or hands it to the
    operator as disputed, and touches no other escrow; and the desk stays sound. *)
Theorem deadlines_settle_all_due u key_ws c t d {Hu : Inj (=) (=) u} :
  uuid c = u -> desk_inv u key_ws d -> room_for_all d -> due_count t d <= 1000 ->
  exists n d', RunEscrowDeadlines c t d = (n, None, d') /\ Z.of_nat n = due_count t d /\ desk_inv u key_ws d' /\
    (forall id e, agent_escrows d' !! id = Some e -> due t e = false) /\
    forall id e, agent_escrows d !! id = Some e -> exists e', agent_escrows d' !! id = Some e' /\
      if due t e then ticked c e e' else e' = e.
Proof.
  intros Ec I Rm Hn. destruct (run_deadlines_all u key_ws c t maxTicksPerRun 0 d Ec I Rm) as (n & d' & E & En & I' & N & K).
  { unfold maxTicksPerRun. lia. }
  exists n, d'. split_and!; [exact E|exact En|exact I'|by apply due_none|exact K].
Qed.

(** ** Two escrows between the agents of [Transfers] *)

Lemma escrow_inv_none d : agent_escrows d = ∅ -> (forall id ws, account_balance d ws (escrowAccount id) = 0) -> escrow_inv d.
Proof. intros E A. split; rewrite E; [by intros id e|]. intros id ws. by rewrite lookup_empty. Qed.

Lemma pay_desk_inv : desk_inv (pretty (A:=N)) pay_keys pay_desk.
Proof.
  split; [exact pay_store_inv|]. apply escrow_inv_none; [done|]. intros id ws. unfold account_balance.
  assert (B : bool_decide (agent_account_balances pay_desk = {[ ("ws", agentAccount "agt_0")%string := 2000 ]}) = true)
    by (vm_compute; reflexivity).
  apply bool_decide_eq_true in B. rewrite B, lookup_singleton_ne; [done|]. discriminate.
Qed.

(** The room a settle needs, read off the escrows there are. *)
Definition escrow_room d : bool := forallb (fun kv => room_left (custody kv.2) d) (map_to_list (agent_escrows d)).

Lemma escrow_room_ok d : escrow_room d = true ->
  forall id e ws, agent_escrows d !! id = Some e -> lx_balance (lxc_row d ws) + held_sum d ws + custody e <= room.
Proof.
  unfold escrow_room. rewrite forallb_forall. intros H id e ws He. apply room_left_ok.
  apply (H (id, e)), list_elem_of_In, elem_of_map_to_list, He.
Qed.

Fixpoint escrow_ops_okb LL G V sha (ops : list (Ctx * EscrowOp)) d : bool :=
  match ops with
  | [] => true
  | (c, op) :: ops =>
      match op with EPay _ _ _ amount _ _ => in_i64b amount | _ => escrow_room d end &&
      escrow_ops_okb LL G V sha ops (exec_escrow LL G V sha c op d)
  end.

Lemma escrow_ops_okb_ok LL G V sha u ops d : Forall (fun x => uuid x.1 = u) ops -> escrow_ops_okb LL G V sha ops d = true ->
  escrow_ops_ok LL G V sha u ops d.
Proof.
  intros F. revert d. induction F as [|[c op] ops Ec _ IH]; intros d; [done|]. cbn [escrow_ops_okb escrow_ops_ok].
  intros [H1 H2]%andb_prop. split_and!; [exact Ec| |by apply IH]. destruct op; cbn [escrow_op_ok].
  - by apply in_i64b_spec.
  - by apply escrow_room_ok.
  - by apply escrow_room_ok.
  - by apply escrow_room_ok.
  - by apply escrow_room_ok.
Qed.

Definition escrow_demo (ops : list EscrowOp) : list (Ctx * EscrowOp) := pair demo_ctx <$> ops.

Definition escrow_run (ops : list EscrowOp) : Desk :=
  exec_escrows utc_only demo_gates pay_verifier id (escrow_demo ops) pay_desk.

(** Two are paid in; one is disputed, the deadline of the other passes. *)
Definition escrow_ops : list EscrowOp :=
  [EPay "ws" "agt_0" "agt_2" 600 "logo" 100; EPay "ws" "agt_0" "agt_2" 300 "" 50;
   EDispute "ws" "escrow_4" "never delivered"; ETick 60; EDecide "escrow_4" false "op" "no proof of delivery"]%string.

Definition escrow_states d : list (string * EscrowStatus) := (fun kv => (kv.1, es_status kv.2)) <$> map_to_list (agent_escrows d).

Definition escrow_okb (ops : list EscrowOp) d : bool := escrow_ops_okb utc_only demo_gates pay_verifier id (escrow_demo ops) d.

Lemma escrow_demo_ok ops d : escrow_okb ops d = true -> escrow_ops_ok utc_only demo_gates pay_verifier id (pretty (A:=N)) (escrow_demo ops) d.
Proof. apply escrow_ops_okb_ok. unfold escrow_demo. induction ops as [|op ops IH]; constructor; [reflexivity|exact IH]. Qed.

Lemma escrow_run_inv ops : escrow_okb ops pay_desk = true -> desk_inv (pretty (A:=N)) pay_keys (escrow_run ops).
Proof.
  intros H. apply (exec_escrows_reach utc_only demo_gates pay_verifier id (pretty (A:=N)) pay_keys _ _ pay_desk_inv).
  by apply escrow_demo_ok.
Qed.

Lemma escrow_implements_vault_witness :
  escrow_states (escrow_run (take 1 escrow_ops)) = [("escrow_4"%string, EscHeld)] /\
  vault_step (Pays (now demo_ctx) ("ws", "agt_0")%string ("ws2", "agt_2")%string 600 100) (vault pay_desk)
    (vault (exec_escrow utc_only demo_gates pay_verifier id demo_ctx (EPay "ws" "agt_0" "agt_2" 600 "logo" 100) pay_desk)).
Proof.
  split; [vm_compute; reflexivity|].
  destruct (escrow_implements_vault utc_only demo_gates pay_verifier id (pretty (A:=N)) pay_keys demo_ctx
    (EPay "ws" "agt_0" "agt_2" 600 "logo" 100) pay_desk eq_refl pay_desk_inv ltac:(by apply in_i64b_spec)) as [_ S].
  assert (W : went utc_only demo_gates pay_verifier id demo_ctx (EPay "ws" "agt_0" "agt_2" 600 "logo" 100) pay_desk = true) by (vm_compute; reflexivity).
  rewrite W in S. destruct S as (a & E & S).
  assert (A : asks demo_ctx (EPay "ws" "agt_0" "agt_2" 600 "logo" 100) pay_desk =
    Some (Pays (now demo_ctx) ("ws", "agt_0")%string ("ws2", "agt_2")%string 600 100)) by (vm_compute; reflexivity).
  rewrite A in E. injection E as <-. exact S.
Defined.

Definition escrow_released : EscrowRow :=
  mkEscrow "ws" "agt_0" "ws2" "agt_2" 300 "" ClassAmber 300 50 EscReleased 0 (Some 0).

(** The desk once the last of them followed the others. *)
Definition escrow_decided : Desk :=
  exec_escrows utc_only demo_gates pay_verifier id (escrow_demo (drop 4 escrow_ops)) (escrow_run (take 4 escrow_ops)).

Lemma escrow_settles_once_witness :
  agent_escrows (escrow_run (take 4 escrow_ops)) !! "escrow_6"%string = Some escrow_released /\
  ConfirmEscrow demo_ctx "ws" "escrow_6" escrow_decided = (Err ErrEscrowNotFound, escrow_decided) /\
  account_balance escrow_decided "ws" (escrowAccount "escrow_6") = 0.
Proof.
  assert (B : escrow_okb (take 4 escrow_ops) pay_desk = true) by (vm_compute; reflexivity).
  assert (O : escrow_okb (drop 4 escrow_ops) (escrow_run (take 4 escrow_ops)) = true) by (vm_compute; reflexivity).
  assert (L : agent_escrows (escrow_run (take 4 escrow_ops)) !! "escrow_6"%string = Some escrow_released) by (vm_compute; reflexivity).
  pose proof (escrow_run_inv _ B) as I. apply escrow_demo_ok in O.
  pose proof (escrow_settles_once utc_only demo_gates pay_verifier id (pretty (A:=N)) pay_keys _ _ "escrow_6" escrow_released
    I O L (or_introl eq_refl)) as (_ & A & C & _).
  split; [exact L|]. split; [exact (C demo_ctx "ws"%string)|exact (A "ws"%string)].
Defined.

Definition both_sides : list (string * string) := [("ws", "agt_0"); ("ws2", "agt_2")]%string.

Definition all_sidesb (S : list (string * string)) (v : Vault) : bool :=
  bool_decide (map_Forall (fun _ x => dl_payer x ∈ S /\ dl_payee x ∈ S) (va_deals v)).

Lemma all_sidesb_ok S v : all_sidesb S v = true -> all_sides S v.
Proof. intros H%bool_decide_eq_true. exact H. Qed.

(** Two paid in, the first of them disputed. *)
Definition escrow_open : list (Ctx * EscrowOp) := escrow_demo (take 3 escrow_ops).
Abbreviation escrow_opened := (exec_escrows utc_only demo_gates pay_verifier id escrow_open pay_desk).

Lemma escrow_conserves_credits_witness :
  worth both_sides (vault escrow_opened) = worth both_sides (vault pay_desk) /\ worth both_sides (vault pay_desk) = 2000.
Proof.
  assert (O : escrow_okb (take 3 escrow_ops) pay_desk = true) by (vm_compute; reflexivity).
  assert (A : all_sidesb both_sides (vault escrow_opened) = true) by (vm_compute; reflexivity).
  assert (ND : bool_decide (NoDup both_sides) = true) by (vm_compute; reflexivity).
  apply bool_decide_eq_true in ND. apply all_sidesb_ok in A. apply escrow_demo_ok in O.
  pose proof (escrow_conserves_credits utc_only demo_gates pay_verifier id (pretty (A:=N)) pay_keys escrow_open pay_desk
    both_sides pay_desk_inv O) as T. cbn zeta in T. split; [exact (T ND A)|vm_compute; reflexivity].
Defined.

Definition room_for_allb d : bool := room_left (map_sum (fun _ e => custody e) (agent_escrows d)) d.

Lemma room_for_allb_ok d : room_for_allb d = true -> room_for_all d.
Proof. intros H ws. by apply room_left_ok. Qed.

Lemma deadlines_settle_all_due_witness :
  due_count 200 (escrow_run (take 2 escrow_ops)) = 2 /\
  exists d', RunEscrowDeadlines demo_ctx 200 (escrow_run (take 2 escrow_ops)) = (2%nat, None, d') /\
    desk_inv (pretty (A:=N)) pay_keys d'.
Proof.
  assert (B : escrow_okb (take 2 escrow_ops) pay_desk = true) by (vm_compute; reflexivity).
  assert (Rm : room_for_allb (escrow_run (take 2 escrow_ops)) = true) by (vm_compute; reflexivity).
  assert (Dc : due_count 200 (escrow_run (take 2 escrow_ops)) = 2) by (vm_compute; reflexivity).
  split; [exact Dc|].
  pose proof (deadlines_settle_all_due (pretty (A:=N)) pay_keys demo_ctx 200 (escrow_run (take 2 escrow_ops)) eq_refl (escrow_run_inv _ B)
    (room_for_allb_ok _ Rm) ltac:(rewrite Dc; lia)) as (n & d' & E & En & I & _).
  exists d'. split; [|exact I]. rewrite E. rewrite Dc in En. assert (n = 2%nat) as -> by lia. reflexivity.
Defined.

(** A desk whose workspace "ws" the operator has frozen; agt_0's owner has agt_3 in "ws3". *)
Definition frozen_desk : Desk :=
  let t := dk_pay pay_desk in
  mkDesk (dk_store pay_desk) (mkPayTables (agent_handles t) (wallet_clearances t) {[ "ws"%string := mkFreeze "case-7" "sanctions hit" "op" 0 ]}
    (capability_terms t) (capability_terms_acceptances t) (agent_transfers t) (agent_money_requests t) (agent_escrows t)
    (agent_escrow_events t)) no_money.

Definition frozen_ops : list EscrowOp := [EPay "ws" "agt_0" "agt_3" 500 "mine" 100; EConfirm "ws" "escrow_4"]%string.

(** A freeze that stops a transfer does not stop escrow.  From a frozen workspace, a
    transfer of 500 µLXC to its owner's agent in another workspace is refused; paid into
    escrow for that agent and confirmed, the same 500 leave the frozen workspace and
    arrive, the freeze still standing. *)
Theorem escrow_steps_round_freeze :
  pay_send frozen_desk "agt_0" "ws3" "agt_3" 500 =
    (Err (ErrCapabilityNotCleared CapabilityOwnAgents (RefFrozen "case-7")), frozen_desk) /\
  let d := exec_escrows utc_only demo_gates pay_verifier id (escrow_demo frozen_ops) frozen_desk in
  escrow_states d = [("escrow_4"%string, EscReleased)] /\
  is_Some (compliance_freezes d !! "ws"%string) /\
  books frozen_desk "ws" = (5000, 2000) /\ books d "ws" = (4500, 1500) /\ books d "ws3" = (500, 500).
Proof. split; [vm_compute; reflexivity|]. vm_compute. split_and!; try reflexivity. by eexists. Qed.
