(* ===== verification/Payments.v ===== *)
(** Payments between agents, inside one company and to another through the marketplace
    ([internal/economy/agent_payments.go]), an agent's statement, and what its own key may
    ask for and read ([agent_self_service.go]): approvals ahead of a payment, receipts. *)
From stdpp Require Import pretty.
From S2P Require Import Prelude Money Tables Postings Clock Lxc Rules CreditLine Agents Reservation Funding Wallet Shifts Desk Capabilities Transfers.
Open Scope Z_scope.
Open Scope i64_scope.

Implicit Types (d : Desk) (s : Store).

(** ** Payments *)

Record AgentPayment := mkAgentPayment {
  pay_entry : string;
  pay_from : string;
  pay_to : string;
  pay_amount : Z;
  pay_from_balance : Z;
  pay_to_balance : Z;
  pay_memo : string;
  pay_to_ws : string;
  pay_via : string;
}.

(** [CompanyPayments]: whether the payer's workspace may pay the payee's, [""] when it may,
    and the charge on its marketplace bill, [None] when either fails. *)
Record CompanyPayments := mkCompanyPayments {
  CompanyPayeeRefusal : Desk -> string -> string -> option string;
  ChargeAgentPayment : string -> string -> string -> string -> Z -> string -> Z -> Desk -> option (string * Desk);
}.

Definition AgentOfKey (key : string) : WTx (string * string) :=
  let! a := tx_gets (fun s : Store => agent_of_key s key) in
  match a with
  | Some a => tx_ret a
  | None => tx_fail ErrAgentNotFound
  end.

Section Pay.
Context (LL : string -> option Location) (G : Gates) (sha256hex : string -> string).

(** Both agents' rows, in id order. *)
Definition lock_agents (ws from to : string) : WTx unit :=
  let '(first, second) := in_order from to from to in
  lockAgent ws first ;;; lockAgent ws second.

(** [payAgentTx]: both agents locked in id order, the payer judged, the entry's two postings. *)
Definition payAgentTx (c : Ctx) (ws : string) (pay : AgentPayment) (entry : string) : WTx AgentPayment :=
  let from := pay_from pay in let to := pay_to pay in let amount := pay_amount pay in let memo := pay_memo pay in
  lock_agents ws from to ;;;
  requireOwner to ;;;
  let! bal := accountBalance ws (agentAccount from) in
  tx_guard (negb (bal <? amount)) ErrAgentFunds ;;;
  enforceAgentRules LL c ws from amount entry ;;;
  insert_posting (transfer_posting c entry ws (agentAccount from) (-! amount) "pay" memo) ;;;
  insert_posting (transfer_posting c entry ws (agentAccount to) amount "pay" memo) ;;;
  let! to_bal := accountBalance ws (agentAccount to) in
  tx_ret (mkAgentPayment entry from to amount (bal -! amount) to_bal memo (pay_to_ws pay) (pay_via pay)).

(** [payCompanyAgent], its checks and its transaction. *)
Definition payCompanyAgent (CP : CompanyPayments) (c : Ctx) (live : bool) (ws payee_ws from to : string) (amount : Z)
    (memo : string) : PTx AgentPayment :=
  CheckMoneyWall ws payee_ws ;;;
  let! refusal := tx_gets (fun d => CompanyPayeeRefusal CP d ws payee_ws) in
  match refusal with
  | None => tx_fail ErrCompanyPayments
  | Some refusal =>
      tx_guard (bool_decide (refusal = ""%string)) ErrWashTrade ;;;
      requireBilledCapability G c live ws CapabilityPayAnotherOwner ;;;
      wallet (lockAgent ws from) ;;;
      match CapabilityByKey CapabilityPayAnotherOwner with
      | None => tx_fail ErrNoCapability
      | Some cap =>
          refuseFrozen ws cap ;;; refuseFrozen payee_ws cap ;;;
          wallet (enforceAgentRules LL c ws from amount ("company:" +:+ payee_ws)) ;;;
          let! charged := tx_gets (fun d => ChargeAgentPayment CP ws from payee_ws to amount memo (agentRequestFrom c).2 d) in
          match charged with
          | None => tx_fail ErrCompanyPayments
          | Some (use, d') =>
              tx_modify (fun _ => d') ;;;
              let! bal := wallet (accountBalance ws (agentAccount from)) in
              tx_ret (mkAgentPayment use from to amount bal 0 memo payee_ws "marketplace")
          end
      end
  end.

(** The payment inside the workspace. *)
Definition payOwnAgent (c : Ctx) (ws from to : string) (amount : Z) (memo : string) : PTx AgentPayment :=
  let! entry := wallet (uuid_new c) in
  wallet (payAgentTx c ws (mkAgentPayment "" from to amount 0 0 memo "" "") entry).

(** [PayAgent]; [CP] is [None] when no marketplace is set, [live] that Stripe's key is. *)
Definition PayAgent (CP : option CompanyPayments) (c : Ctx) (live : bool) (ws from to : string) (amount : Z)
    (memo : string) d : Res PayErr AgentPayment * Desk :=
  if amount <=? 0 then (Err (EWallet ErrAmount), d)
  else if bool_decide (from = to) then (Err ErrSameAgent, d)
  else
    let c := WithAgentRequest c (payment_request sha256hex from to amount memo "") in
    let own := run_payment c (payOwnAgent c ws from to amount memo) in
    match CP, ag_ws <$> agent_accounts d !! to with
    | Some cp, Some payee_ws =>
        if bool_decide (payee_ws = ws) then own d
        else run_payment c (payCompanyAgent cp c live ws payee_ws from to amount memo) d
    | _, _ => own d
    end.

(** ** Asking for an approval *)

(** The rules as set, or those of an agent with none: [GetAgentRules]. *)
Definition unset_rules : AgentRules :=
  mkRules 0 (Some 0) 0 (Some 0) 0 0 [] [] (Some []) "" "" "UTC" false (Some ∅) (Some 0) (Some []) (Some []) (Some ∅)
    (Some 0) (Some []) (Some false).

Definition GetAgentRules (ws agent : string) : WTx AgentRules :=
  let! a := tx_gets (fun s : Store => agent_accounts s !! agent) in
  tx_guard (match a with Some a => bool_decide (ag_ws a = ws) | None => false end) ErrAgentNotFound ;;;
  let! r := tx_gets (fun s : Store => agent_rules s !! agent) in
  tx_ret (match r with Some r => scanAgentRules r | None => unset_rules end).

(** The INSERT and the read back are [fileApproval]'s; the reason is not kept here. *)
Definition RequestPaymentApproval (c : Ctx) (ws agent to : string) (amount : Z) (memo : string) : PTx string :=
  let! rules := wallet (GetAgentRules ws agent) in
  tx_guard (negb ((ApprovalAboveULXC rules =? 0) || (amount <=? ApprovalAboveULXC rules))) ErrApprovalNotNeeded ;;;
  wallet (fileApproval c amount ws agent (payment_request sha256hex agent to amount memo "")).
End Pay.

(** ** Statements and receipts *)

Record AgentStatementLine := mkStatementLine {
  sl_entry : string;
  sl_kind : string;
  sl_amount : Z;
  sl_counterparty : string;
  sl_ref : string;
  sl_balance_after : Z;
  sl_at : Z;
  sl_label : string;
}.

(** The rows with their ids, which follow the order of insertion. *)
Fixpoint with_ids (l : list Posting) : list (nat * Posting) :=
  match l with
  | [] => []
  | p :: l => (length l, p) :: with_ids l
  end.

(** Another posting's account of the same entry, the oldest: the query orders none. *)
Definition counterparty (all : list (nat * Posting)) (ip : nat * Posting) : string :=
  match List.find (fun o => bool_decide (ps_entry o.2 = ps_entry ip.2) && negb (o.1 =? ip.1)%nat) (rev all) with
  | Some o => ps_account o.2
  | None => ""%string
  end.

(** One line: [after] is the sum over the account's rows up to this one. *)
Definition statement_line (all : list (nat * Posting)) (ip : nat * Posting) (after : Z) : AgentStatementLine :=
  let p := ip.2 in
  mkStatementLine (ps_entry p) (ps_kind p) (ps_amount p) (counterparty all ip) (ps_ref p) after (ps_at p)
    (match ps_bps p with
     | Some bps => if bool_decide (ps_kind p = LXCTypePlatformFee) then FeeLabel bps else ""%string
     | None => ""%string
     end).

Fixpoint statement_lines (all own : list (nat * Posting)) : WTx (list AgentStatementLine) :=
  match own with
  | [] => tx_ret []
  | ip :: own =>
      let! after := bigint (sumZ ((fun q => ps_amount q.2) <$> ip :: own)) in
      let! lines := statement_lines all own in
      tx_ret (statement_line all ip after :: lines)
  end.

Definition on_account (ws account : string) (ip : nat * Posting) : bool :=
  bool_decide (ps_ws ip.2 = ws) && bool_decide (ps_account ip.2 = account).

Definition AgentStatement (ws agent : string) (limit : nat) : WTx (list AgentStatementLine) :=
  let! a := tx_gets (fun s : Store => agent_accounts s !! agent) in
  tx_guard (match a with Some a => bool_decide (ag_ws a = ws) | None => false end) ErrAgentNotFound ;;;
  let! all := tx_gets (fun s : Store => with_ids (agent_postings s)) in
  let! lines := statement_lines all (List.filter (on_account ws (agentAccount agent)) all) in
  tx_ret (take limit lines).

Record AgentReceiptView := mkReceipt {
  rc_entry : string;
  rc_kind : string;
  rc_ref : string;
  rc_at : option Z;
  rc_postings : list (string * Z);
}.

(** The fields every posting of the entry writes over: the last row's stay. *)
Definition read_receipt (r : AgentReceiptView) (p : Posting) : AgentReceiptView :=
  mkReceipt (rc_entry r) (ps_kind p) (ps_ref p) (Some (ps_at p)) (rc_postings r ++ [(ps_account p, ps_amount p)]).

Definition receipt_rows s (ws agent entry : string) : list Posting :=
  if existsb (fun o => bool_decide (ps_entry o = entry) && bool_decide (ps_account o = agentAccount agent)) (agent_postings s)
  then rev (List.filter (fun p => bool_decide (ps_entry p = entry) && bool_decide (ps_ws p = ws)) (agent_postings s))
  else [].

(** [parse]: the UUID a text names, in its canonical form ([uuid.Parse], [::uuid]). *)
Definition AgentReceipt (parse : string -> option string) (ws agent entry : string) : PTx AgentReceiptView :=
  match parse entry with
  | None => tx_fail ErrReceiptNotFound
  | Some id =>
      let! rows := tx_gets (fun d => receipt_rows d ws agent id) in
      tx_guard (negb (bool_decide (rows = []))) ErrReceiptNotFound ;;;
      tx_ret (foldl read_receipt (mkReceipt entry "" "" None []) rows)
  end.

(** ** Facts *)

Lemma lock_agents_ok ws from to s v s' : lock_agents ws from to s = Ok (v, s') ->
  s' = s /\ (exists a, agent_accounts s !! from = Some a /\ ag_ws a = ws) /\ exists a, agent_accounts s !! to = Some a /\ ag_ws a = ws.
Proof.
  unfold lock_agents, in_order. destruct (String.ltb to from); intros H;
    apply tx_bind_ok in H as (? & s1 & H1 & H); apply lockAgent_ok in H1 as (-> & ?);
    apply lockAgent_ok in H as (-> & ?); done.
Qed.

Lemma paired_accounts c entry ws from to amount kind ref s v1 s1 v2 s2 u :
  sound u s -> (forall n, (uuid_draws s <= n)%N -> entry <> u n) ->
  insert_posting (transfer_posting c entry ws (agentAccount from) (- amount) kind ref) s = Ok (v1, s1) ->
  insert_posting (transfer_posting c entry ws (agentAccount to) amount kind ref) s1 = Ok (v2, s2) ->
  paid_shift u ws from ws to amount s s2 /\ post_frame s s2 /\
  agent_postings s2 = [transfer_posting c entry ws (agentAccount to) amount kind ref;
    transfer_posting c entry ws (agentAccount from) (- amount) kind ref] ++ agent_postings s.
Proof.
  intros B Hd H1 H2. split_and!.
  - pose proof (fun E1 E2 E3 => shifted_entry _ _ _ _ _ _ _ _ _ B Hd E1 E2 E3 H1 H2) as S.
    specialize (S eq_refl eq_refl ltac:(cbn; lia)). eapply shifted_ext; [..|exact S]; [done|..].
    + intros w a _. apply pair_acc_agents.
    + intros w. cbn beta. rewrite !held_agent_part, between_same. unfold at_ws. case_bool_decide; lia.
  - apply insert_posting_ok in H1 as (_ & -> & _). apply insert_posting_ok in H2 as (_ & -> & _). etrans; apply posted_frame.
  - apply insert_posting_ok in H1 as (_ & -> & _). apply insert_posting_ok in H2 as (_ & -> & _). by rewrite !posted_postings.
Qed.

Definition pay_postings (c : Ctx) (entry ws from to : string) (amount : Z) (memo : string) : list Posting :=
  [transfer_posting c entry ws (agentAccount to) amount "pay" memo;
   transfer_posting c entry ws (agentAccount from) (- amount) "pay" memo].

(** What a payment inside a workspace left. *)
Record paid (c : Ctx) (ws from to : string) (amount : Z) (memo entry : string) s s' : Prop := {
  pd_funds : amount <= account_balance s ws (agentAccount from);
  pd_owned : exists a, agent_accounts s !! to = Some a /\ ag_ws a = ws /\ ag_owner a <> ""%string;
  pd_lxc : st_lxc s' = st_lxc s;
  pd_shift : paid_shift (uuid c) ws from ws to amount s s';
  pd_postings : agent_postings s' = pay_postings c entry ws from to amount memo ++ agent_postings s;
  pd_payees : exists rows, agent_payee_payments s' = rows ++ agent_payee_payments s /\ Forall (fun p => pp_ref p = entry) rows;
}.

Lemma payAgentTx_effect LL c ws pay entry u s pay' s' :
  u = uuid c -> sound u s -> (forall n, (uuid_draws s <= n)%N -> entry <> u n) -> 0 < pay_amount pay -> in_i64 (pay_amount pay) ->
  payAgentTx LL c ws pay entry s = Ok (pay', s') ->
  paid c ws (pay_from pay) (pay_to pay) (pay_amount pay) (pay_memo pay) entry s s' /\
  pay' = mkAgentPayment entry (pay_from pay) (pay_to pay) (pay_amount pay)
    (account_balance s ws (agentAccount (pay_from pay)) -! pay_amount pay)
    (account_balance s' ws (agentAccount (pay_to pay))) (pay_memo pay) (pay_to_ws pay) (pay_via pay).
Proof.
  intros -> B Hd Hp Hi H. unfold payAgentTx in H. cbn zeta in H.
  apply tx_bind_ok in H as (? & s1 & H1 & H). apply lock_agents_ok in H1 as (-> & _ & a & La & Wa).
  apply tx_bind_ok in H as (? & s1 & H1 & H). apply requireOwner_ok in H1 as (-> & a' & La' & Oa). simplify_eq.
  apply tx_bind_ok in H as (bal & s1 & H1 & H). apply accountBalance_ok in H1 as [-> ->].
  rewrite tx_guard_bind in H. destruct H as [Gf%negb_true_iff%Z.ltb_ge H].
  apply tx_bind_ok in H as (? & s1 & J & H). pose proof (enforce_payees _ _ _ _ _ _ _ _ _ J) as (rows & Ey & Fy).
  apply enforce_effect in J as (F & _). pose proof (shifted_judged _ _ _ B F) as S1.
  apply tx_bind_ok in H as (? & s2 & H1 & H). rewrite neg_in_range in H1 by (done || lia).
  apply tx_bind_ok in H as (? & s3 & H2 & H). apply tx_bind_ok in H as (? & s4 & H3 & H).
  apply accountBalance_ok in H3 as [-> ->]. apply tx_ret_ok in H as [-> ->].
  assert (Hd1 : forall n, (uuid_draws s1 <= n)%N -> entry <> uuid c n).
  { intros n Hn. apply Hd. pose proof (jf_draws _ _ F). lia. }
  destruct (paired_accounts _ _ _ _ _ _ _ _ _ _ _ _ _ _ (shifted_sound _ _ _ _ _ _ S1) Hd1 H1 H2) as (S2 & F2 & P2).
  split; [|reflexivity]. split.
  - lia.
  - by exists a.
  - rewrite (pf_lxc _ _ F2). apply F.
  - eapply shifted_ext; [..|exact (shifted_trans _ _ _ _ _ _ _ _ _ _ S1 S2)]; intros; unfold nothing, none2; lia.
  - rewrite P2, (jf_postings _ _ F). reflexivity.
  - exists rows. split; [|done]. by rewrite (pf_rules _ _ F2).
Qed.

Lemma PayAgent_own LL G h CP c live ws from to amount memo d pay d' :
  CP = None \/ (ag_ws <$> agent_accounts d !! to) = Some ws ->
  PayAgent LL G h CP c live ws from to amount memo d = (Ok pay, d') ->
  0 < amount /\ from <> to /\ payOwnAgent LL (WithAgentRequest c (payment_request h from to amount memo "")) ws from to amount memo d = Ok (pay, d').
Proof.
  unfold PayAgent. intros Hcp H. destruct (Z.leb_spec amount 0); [done|]. case_bool_decide; [done|]. split; [lia|]. split; [done|].
  cbn zeta in H. eapply run_payment_ok. destruct Hcp as [->|E]; [exact H|]. rewrite E, bool_decide_eq_true_2 in H by done.
  destruct CP; exact H.
Qed.

Lemma PayAgent_effect LL G h CP c live key_ws ws from to amount memo d pay d' {Hu : Inj (=) (=) (uuid c)} :
  wallet_inv (uuid c) key_ws d -> in_i64 amount -> CP = None \/ (ag_ws <$> agent_accounts d !! to) = Some ws ->
  PayAgent LL G h CP c live ws from to amount memo d = (Ok pay, d') ->
  let entry := uuid c (uuid_draws d) in
  0 < amount /\ from <> to /\ paid c ws from to amount memo entry d d' /\ dk_pay d' = dk_pay d /\
  pay = mkAgentPayment entry from to amount (account_balance d ws (agentAccount from) -! amount)
    (account_balance d' ws (agentAccount to)) memo "" "".
Proof.
  intros W Hi Hcp H entry. apply PayAgent_own in H as (Hp & Ne & H); [|done]. unfold payOwnAgent in H.
  apply wallet_bind in H as (e & s1 & H1 & H). apply uuid_new_ok in H1 as [-> ->].
  apply wallet_ok in H as (s2 & H & ->). cbn [dk_store with_store] in H.
  assert (S1 : shifted (uuid c) nothing none2 nothing d (with_uuid_draws (N.succ (uuid_draws d)) d)).
  { apply shifted_same; try done. apply (wallet_sound_books _ _ _ W). cbn. lia. }
  apply (payAgentTx_effect LL _ ws _ _ (uuid c)) in H as [P E]; [|done|by eapply shifted_sound| |done|done].
  - cbn [pay_from pay_to pay_amount pay_memo pay_to_ws pay_via] in P, E.
    destruct P as [P1 P2 P3 P4 P5 P6]. split_and!; [done|done| |done|exact E]. split; try done.
    eapply shifted_ext; [..|exact (shifted_trans _ _ _ _ _ _ _ _ _ _ S1 P4)]; intros; unfold nothing, none2; lia.
  - cbn. intros n Hn E%Hu. lia.
Qed.

Lemma agent_balance_bounds u key_ws s agent : wallet_inv u key_ws s -> forall ws,
  0 <= account_balance s ws (agentAccount agent) <= room.
Proof.
  intros W ws. pose proof (account_room u key_ws s ws _ W (held_agent agent)). pose proof (allocated_bounds _ _ s ws W). lia.
Qed.

Lemma paid_wallet c key_ws ws from to amount memo entry s s' :
  wallet_inv (uuid c) key_ws s -> 0 < amount -> paid c ws from to amount memo entry s s' -> wallet_inv (uuid c) key_ws s'.
Proof.
  intros W Hp P. eapply shifted_wallet; [exact W|exact (pd_shift _ _ _ _ _ _ _ _ _ P)|..].
  - intros w. pose proof (wi_solvent _ _ _ W w). rewrite between_same. unfold nothing. lia.
  - intros w. pose proof (wi_room _ _ _ W w). unfold nothing. lia.
  - intros w a Ha. eapply agent_to_agent_held; [exact W| |done]. pose proof (pd_funds _ _ _ _ _ _ _ _ _ P). lia.
Qed.

(** What a payment adds to what [agent] has spent since [since]. *)
Definition spent_by (ws from : string) (amount : Z) (w agent : string) : Z := if bool_decide (ws = w /\ from = agent) then amount else 0.

Lemma paid_spent c ws from to amount memo entry s s' w agent since :
  paid c ws from to amount memo entry s s' -> 0 < amount -> invoice_ref entry = false -> since <= now c ->
  agent_spent s' w agent since = agent_spent s w agent since + spent_by ws from amount w agent.
Proof.
  intros P Hp Hr Hs. destruct (pd_payees _ _ _ _ _ _ _ _ _ P) as (rows & Ey & Fy).
  pose proof (mf_other _ _ (sf_frame _ _ _ _ _ _ (pd_shift _ _ _ _ _ _ _ _ _ P))) as Eo. unfold agent_spent.
  rewrite (pd_postings _ _ _ _ _ _ _ _ _ P), Ey, Eo, !sum_where_app, (sum_where_none _ pp_amount rows).
  2:{ eapply Forall_impl; [exact Fy|]. intros p ->. by rewrite Hr, andb_false_r. }
  unfold sum_where at 1. unfold pay_postings, own_posting, agentSpendPostings, spent_by. csimpl.
  rewrite (proj2 (Z.leb_le _ _) Hs), (proj2 (Z.ltb_ge amount 0)), (proj2 (Z.ltb_lt (- amount) 0)) by lia.
  repeat case_bool_decide; naive_solver lia.
Qed.

(** C19: a payment to an agent of the same workspace that goes through moves exactly its
    amount, which the payer's account held, to the payee's, and nothing else of the wallet:
    the workspace's LXC tables stay as they are.  The answer holds both balances as they
    are left, and the payer's limits count the payment once, the payee's not at all. *)
Theorem pay_moves_credits LL G h CP c live key_ws ws from to amount memo d pay d' {Hu : Inj (=) (=) (uuid c)} :
  wallet_inv (uuid c) key_ws d -> in_i64 amount -> invoice_ref (uuid c (uuid_draws d)) = false ->
  CP = None \/ (ag_ws <$> agent_accounts d !! to) = Some ws ->
  PayAgent LL G h CP c live ws from to amount memo d = (Ok pay, d') ->
  wallet_inv (uuid c) key_ws d' /\ st_lxc d' = st_lxc d /\ dk_pay d' = dk_pay d /\
  0 < amount <= account_balance d ws (agentAccount from) /\
  (forall w a, shared_account a = false ->
     account_balance d' w a = account_balance d w a + agent_to_agent ws from ws to amount w a) /\
  agent_postings d' = pay_postings c (pay_entry pay) ws from to amount memo ++ agent_postings d /\
  pay_from_balance pay = account_balance d' ws (agentAccount from) /\
  pay_to_balance pay = account_balance d' ws (agentAccount to) /\
  (forall w agent since, since <= now c ->
     agent_spent d' w agent since = agent_spent d w agent since + spent_by ws from amount w agent).
Proof.
  intros W Hi Hr Hcp H. apply (PayAgent_effect LL G h CP c live key_ws) in H as (Hp & Ne & P & Ed & ->); [|done..].
  pose proof (pd_funds _ _ _ _ _ _ _ _ _ P) as F. pose proof (sf_acc _ _ _ _ _ _ (pd_shift _ _ _ _ _ _ _ _ _ P)) as A.
  assert (Er : account_balance d ws (agentAccount from) -! amount = account_balance d' ws (agentAccount from)).
  { rewrite A by apply kept_agent. unfold agent_to_agent, at_acc. rewrite bool_decide_eq_true_2 by done.
    rewrite bool_decide_eq_false_2 by (intros [_ E%(inj agentAccount)]; congruence).
    rewrite wrap64_id; [lia|]. pose proof (agent_balance_bounds _ _ _ from W ws). i64_ranges; unfold room in *; lia. }
  split_and!; try done.
  - by eapply paid_wallet.
  - apply P.
  - apply P.
  - intros. by eapply paid_spent.
Qed.

(** ** Statements *)

(** The statement as a reader checks it: from the stored balance, each line's amount taken
    off gives the balance the line below was left with. *)
Fixpoint count_down (all : list (nat * Posting)) (bal : Z) (own : list (nat * Posting)) : list AgentStatementLine :=
  match own with
  | [] => []
  | ip :: own => statement_line all ip bal :: count_down all (bal - ps_amount ip.2) own
  end.

Definition own_rows s (ws agent : string) : list (nat * Posting) :=
  List.filter (on_account ws (agentAccount agent)) (with_ids (agent_postings s)).

Definition in_range_lines (l : list AgentStatementLine) : Prop := Forall (fun x => in_i64 (sl_balance_after x)) l.

Lemma statement_lines_ok all own s lines s' :
  statement_lines all own s = Ok (lines, s') <->
  s' = s /\ lines = count_down all (sumZ ((fun q => ps_amount q.2) <$> own)) own /\ in_range_lines lines.
Proof.
  revert lines s'. induction own as [|ip own IH]; intros lines s'; cbn [statement_lines count_down].
  - rewrite tx_ret_ok. unfold in_range_lines. naive_solver.
  - rewrite tx_bind_ok. csimpl. set (total := sumZ _).
    replace (ps_amount ip.2 + total - ps_amount ip.2) with total by lia. split.
    + intros (z & s1 & H1 & H). apply bigint_ok in H1 as (-> & -> & R). apply tx_bind_ok in H as (l & s1 & H1 & H).
      apply IH in H1 as (-> & -> & F). apply tx_ret_ok in H as [-> ->]. split_and!; [done..|]. by constructor.
    + intros (-> & -> & F). apply Forall_cons in F as [R F]. exists (ps_amount ip.2 + total), s. split; [by apply bigint_ok|].
      rewrite tx_bind_ok. eexists _, s. split; [by apply IH|]. by apply tx_ret_ok.
Qed.

Lemma in_range_ok l : forallb in_i64b (sl_balance_after <$> l) = true -> in_range_lines l.
Proof.
  unfold in_range_lines. induction l as [|x l IH]; csimpl; [constructor|]. intros [H1%in_i64b_spec H2]%andb_prop.
  constructor; auto.
Qed.

Lemma own_rows_sum s ws agent :
  sumZ ((fun q => ps_amount q.2) <$> own_rows s ws agent) = posting_sum s ws (agentAccount agent).
Proof.
  unfold own_rows, posting_sum. induction (agent_postings s) as [|p l IH]; [done|]. cbn [with_ids List.filter].
  unfold on_account at 1. csimpl. rewrite <- IH, bool_decide_and.
  destruct (bool_decide (ps_ws p = ws) && bool_decide (ps_account p = agentAccount agent)); csimpl; lia.
Qed.

(** C32: an agent's statement, which adds up the rows of its account from the first, is
    exactly the stored balance counted down from the newest row, its first [limit] lines;
    the count ends at zero below the oldest row.  It is refused when the agent is not of
    the workspace and when a balance on the way is out of the column's range, never
    otherwise. *)
Theorem statement_counts_down u ws agent limit s :
  posting_inv u s ->
  let full := count_down (with_ids (agent_postings s)) (account_balance s ws (agentAccount agent)) (own_rows s ws agent) in
  (forall lines s', AgentStatement ws agent limit s = Ok (lines, s') <->
     (ag_ws <$> agent_accounts s !! agent) = Some ws /\ in_range_lines full /\ s' = s /\ lines = take limit full) /\
  account_balance s ws (agentAccount agent) = sumZ (sl_amount <$> full).
Proof.
  intros I full.
  assert (E : account_balance s ws (agentAccount agent) = sumZ ((fun q => ps_amount q.2) <$> own_rows s ws agent)).
  { rewrite own_rows_sum. apply (pi_sums _ _ I), kept_agent. }
  split.
  - intros lines s'. unfold AgentStatement. rewrite tx_gets_bind, tx_guard_bind, tx_gets_bind, tx_bind_ok.
    assert (M : match agent_accounts s !! agent with Some a => bool_decide (ag_ws a = ws) | None => false end = true <->
      (ag_ws <$> agent_accounts s !! agent) = Some ws).
    { destruct (agent_accounts s !! agent); cbn; [rewrite bool_decide_eq_true|]; naive_solver. }
    rewrite M. fold (own_rows s ws agent). unfold full. rewrite E. split.
    + intros [Ha (l & s1 & H1 & H)]. apply statement_lines_ok in H1 as (-> & -> & F). apply tx_ret_ok in H as [-> ->]. done.
    + intros (Ha & F & -> & ->). split; [done|]. eexists _, s. split; [apply statement_lines_ok; split_and!; done|]. by apply tx_ret_ok.
  - unfold full. clear full. rewrite E at 1. clear E. generalize (account_balance s ws (agentAccount agent)).
    induction (own_rows s ws agent) as [|ip l IH]; intros z; csimpl; [done|]. by rewrite <- IH.
Qed.

(** ** Receipts *)

Lemma read_receipt_postings rows r :
  rc_postings (foldl read_receipt r rows) = rc_postings r ++ ((fun p => (ps_account p, ps_amount p)) <$> rows).
Proof.
  revert r. induction rows as [|p rows IH]; intros r; csimpl; [by rewrite app_nil_r|]. rewrite IH. cbn. by rewrite <- app_assoc.
Qed.

Definition receipt_total (r : AgentReceiptView) : Z := sumZ (snd <$> rc_postings r).

Lemma sumZ_rev {A} (f : A -> Z) l : sumZ (f <$> rev l) = sumZ (f <$> l).
Proof. induction l as [|x l IH]; [done|]. cbn [rev]. rewrite fmap_app, sumZ_app, IH. csimpl. lia. Qed.

Lemma receipt_rows_sum s ws agent id :
  (forall p, p ∈ agent_postings s -> ps_entry p = id -> ps_ws p = ws) -> receipt_rows s ws agent id <> [] ->
  sumZ (ps_amount <$> receipt_rows s ws agent id) = entry_sum (agent_postings s) id.
Proof.
  unfold receipt_rows. intros Hw Hne. destruct (existsb _ _); [|done]. clear Hne.
  rewrite sumZ_rev.
  induction (agent_postings s) as [|p l IH]; [done|]. rewrite entry_sum_cons. cbn [List.filter].
  rewrite <- IH by (intros q Hq; apply Hw; by right). case_bool_decide as E; cbn [andb]; [|lia].
  rewrite bool_decide_eq_true_2 by (apply Hw; [left|done]). csimpl. lia.
Qed.

(** A receipt lists every posting of the workspace's in the entry; when the entry has no
    others they sum to zero. *)
Lemma receipt_balances u parse ws agent entry id d r d' :
  posting_inv u d -> parse entry = Some id -> (forall p, p ∈ agent_postings d -> ps_entry p = id -> ps_ws p = ws) ->
  AgentReceipt parse ws agent entry d = Ok (r, d') -> d' = d /\ rc_postings r <> [] /\ receipt_total r = 0.
Proof.
  intros I Hp Hw H. unfold AgentReceipt in H. rewrite Hp, tx_gets_bind, tx_guard_bind in H. destruct H as [G H].
  apply negb_true_iff, bool_decide_eq_false in G. apply tx_ret_ok in H as [-> ->]. unfold receipt_total.
  rewrite read_receipt_postings. cbn [rc_postings app]. split_and!; [done| |].
  - intros E%fmap_nil_inv. done.
  - rewrite <- list_fmap_compose. etrans; [exact (receipt_rows_sum _ _ _ _ Hw G)|]. apply (pi_balanced _ _ I).
Qed.

(** ** Two agents of one workspace *)

(** [agt_0] with 2,000 µLXC, whose rules allow 1,500 a day, and [agt_4], both of "ws". *)
Definition own_store : Store :=
  with_agent_rules {[ "agt_0"%string := daily_1500 ]}
    (exec_all utc_only demo_svc (pay_ops ++ [(keyed_ctx "", OpCreateRoom "ws" "Loft" "u1" "k4")]) empty_store).

Lemma own_store_inv : wallet_inv (pretty (A:=N)) pay_keys own_store.
Proof.
  apply (quiet_keeps _ _ (exec_all utc_only demo_svc (pay_ops ++ [(keyed_ctx "", OpCreateRoom "ws" "Loft" "u1" "k4")]) empty_store));
    [|by constructor].
  apply exec_all_keeps; [apply _|apply wallet_inv_empty|]. unfold pay_ops. cbn [ops_ok op_ok app].
  split_and!; try reflexivity; try (vm_compute; congruence); try (by apply in_i64b_spec);
    apply keys_there; vm_compute; reflexivity.
Qed.

Definition own_desk : Desk := mkDesk own_store no_payments no_money.

Abbreviation own_pay d :=
  (PayAgent utc_only demo_gates id None demo_ctx false "ws"%string "agt_0"%string "agt_4"%string 1000 "half the data"%string d).

Definition own_paid : Desk := (own_pay own_desk).2.

Definition own_answer : AgentPayment := mkAgentPayment "5" "agt_0" "agt_4" 1000 1000 1000 "half the data" "" "".

Lemma own_pay_ok : own_pay own_desk = (Ok own_answer, own_paid).
Proof. vm_compute. reflexivity. Qed.

Lemma own_paid_inv : wallet_inv (pretty (A:=N)) pay_keys own_paid.
Proof.
  pose proof (PayAgent_effect utc_only demo_gates id None demo_ctx false pay_keys "ws" "agt_0" "agt_4" 1000 "half the data"
    own_desk _ _ own_store_inv ltac:(by apply in_i64b_spec) (or_introl eq_refl) own_pay_ok) as (_ & _ & P & _).
  eapply (paid_wallet demo_ctx); [exact own_store_inv| |exact P]. done.
Qed.

(** The payment of 1,000 goes through, a second one passes the 1,500 of the day. *)
Lemma pay_moves_credits_witness :
  own_pay own_desk = (Ok own_answer, own_paid) /\ wallet_inv (pretty (A:=N)) pay_keys own_paid /\
  agent_spent own_paid "ws" "agt_0" 0 = agent_spent own_desk "ws" "agt_0" 0 + 1000 /\
  (own_pay own_paid).1 = Err (EWallet (ErrAgentRule (RefPeriod "daily"))).
Proof.
  assert (R : invoice_ref (uuid demo_ctx (uuid_draws own_desk)) = false) by (vm_compute; reflexivity).
  pose proof (pay_moves_credits utc_only demo_gates id None demo_ctx false pay_keys "ws" "agt_0" "agt_4" 1000 "half the data"
    own_desk _ _ own_store_inv ltac:(by apply in_i64b_spec) R (or_introl eq_refl) own_pay_ok) as (W & _ & _ & _ & _ & _ & _ & _ & S).
  split; [exact own_pay_ok|]. split; [exact W|]. split; [exact (S "ws" "agt_0" 0 ltac:(done))%string|].
  vm_compute. reflexivity.
Defined.

(** The payer's statement after the payment: the payment and, below it, its funding. *)
Definition own_lines : list AgentStatementLine :=
  [mkStatementLine "5" "pay" (-1000) "agent:agt_4" "half the data" 1000 0 "";
   mkStatementLine "1" "fund" 2000 "workspace" "f1" 2000 50 ""].

Lemma statement_counts_down_witness : AgentStatement "ws" "agt_0" 10 own_paid = Ok (own_lines, dk_store own_paid).
Proof.
  pose proof (statement_counts_down (pretty (A:=N)) "ws" "agt_0" 10 own_paid (wi_post _ _ _ own_paid_inv)) as [S _].
  assert (A : bool_decide ((ag_ws <$> agent_accounts own_paid !! "agt_0"%string) = Some "ws"%string) = true)
    by (vm_compute; reflexivity).
  assert (R : forallb in_i64b (sl_balance_after <$> count_down (with_ids (agent_postings own_paid))
    (account_balance own_paid "ws" (agentAccount "agt_0")) (own_rows own_paid "ws" "agt_0")) = true) by (vm_compute; reflexivity).
  assert (L : own_lines = take 10 (count_down (with_ids (agent_postings own_paid))
    (account_balance own_paid "ws" (agentAccount "agt_0")) (own_rows own_paid "ws" "agt_0"))) by (vm_compute; reflexivity).
  apply S. split; [by apply bool_decide_eq_true in A|]. split; [by apply in_range_ok|]. split; [reflexivity|exact L].
Defined.

(** A receipt shows its workspace's side of a payment between two: 1,000 µLXC gone, and
    nothing they went to. *)
Example receipt_one_sided :
  exists r, AgentReceipt Some "ws" "agt_0" "5" pay_sent = Ok (r, pay_sent) /\
    rc_postings r = [("agent:agt_0"%string, -1000)] /\ receipt_total r = -1000.
Proof. eexists. split; [vm_compute; reflexivity|]. split; reflexivity. Qed.
