(* ===== verification/Effects.v ===== *)
(** What the payments between agents leave alone, read off their text step by step: every
    schedule and every top-up. *)
From stdpp Require Import pretty.
From S2P Require Import Prelude Money Tables Postings Clock Lxc Rules CreditLine Agents Reservation Funding Wallet Shifts Desk Capabilities Transfers Payments.
Open Scope Z_scope.
Open Scope i64_scope.

Implicit Types (d : Desk) (s : Store).

(** ** What is left alone *)

(** The standing arrangements of the agents: their schedules and their top-ups. *)
Definition arrangements s : gmap string ScheduleRow * gmap string TopUpRow := (agent_payment_schedules s, agent_topups s).

Definition desk_arrangements d := arrangements d.

Lemma keeps_wallet {A X} (f : Store -> X) (m : WTx A) : tx_keeps f m -> tx_keeps (fun d => f (dk_store d)) (wallet m).
Proof. intros H d a d' (s & E & ->)%wallet_ok. apply (H _ _ _ E). Qed.

Lemma keeps_ask {A X} (f : Desk -> X) (g : Desk -> Res PayErr A) : tx_keeps f (ask g).
Proof. by intros d a d' [_ ->]%ask_ok. Qed.

Lemma keeps_uuid {X} (f : Store -> X) c : (forall s, f (with_uuid_draws (N.succ (uuid_draws s)) s) = f s) -> tx_keeps f (uuid_new c).
Proof. by intros H s a s' [_ ->]%uuid_new_ok. Qed.

(** The steps of the wallet that only write elsewhere. *)
Section Keeps.
Context (LL : string -> option Location).

Lemma keeps_draw c : tx_keeps arrangements (uuid_new c).
Proof. by apply keeps_uuid. Qed.

Lemma keeps_insert_posting p : tx_keeps arrangements (insert_posting p).
Proof. unfold insert_posting, account_balances_post, accountBalance, bigint. tx_effects. Qed.

Lemma keeps_lockAgent ws agent : tx_keeps arrangements (lockAgent ws agent).
Proof. unfold lockAgent. tx_effects. Qed.

Lemma keeps_accountBalance ws a : tx_keeps arrangements (accountBalance ws a).
Proof. apply keeps_gets. Qed.

Lemma keeps_requireOwner agent : tx_keeps arrangements (requireOwner agent).
Proof. unfold requireOwner. tx_effects. Qed.

Lemma keeps_record c ws agent req ids amount ref : tx_keeps arrangements (recordPayeePayment c ws agent req ids amount ref).
Proof. unfold recordPayeePayment. tx_effects. Qed.
#[local] Hint Resolve keeps_draw keeps_record : tx_effects.

Lemma keeps_watch c ws agent amount at_ pause : tx_keeps arrangements (watchAgentSpend c ws agent amount at_ pause).
Proof. unfold watchAgentSpend, bigint, revokeAgentKYA. tx_effects. Qed.

Lemma keeps_periods ws agent amount limits : tx_keeps arrangements (judge_periods ws agent amount limits).
Proof. induction limits; cbn [judge_periods]; unfold agentSpentSince, bigint; tx_effects. Qed.

Lemma keeps_caps agent caps amount since ids : tx_keeps arrangements (judge_payee_caps agent caps amount since ids).
Proof. induction ids; cbn [judge_payee_caps]; unfold agentPaidPayeeSince, bigint; tx_effects. Qed.
#[local] Hint Resolve keeps_watch keeps_periods keeps_caps : tx_effects.

Lemma keeps_enforce c ws agent amount ref : tx_keeps arrangements (enforceAgentRules LL c ws agent amount ref).
Proof.
  unfold enforceAgentRules, enforce_rules, refuseIfPaused, judgeCommitment, use_approval, agentModelSpentSince, bigint.
  tx_effects.
Qed.
End Keeps.

#[export] Hint Resolve keeps_draw keeps_insert_posting keeps_lockAgent keeps_accountBalance keeps_requireOwner keeps_enforce : tx_effects.

Lemma keeps_readLXCBalance ws : tx_keeps arrangements (readLXCBalance ws).
Proof. unfold readLXCBalance. tx_effects. by case_match. Qed.

Lemma keeps_moveLXC ws delta id other other_ws class : tx_keeps arrangements (moveLXC ws delta id other other_ws class).
Proof.
  unfold moveLXC, insertLXCLedger, writeLXCBalance. pose proof keeps_readLXCBalance. tx_effects. by case_match.
Qed.

Lemma keeps_addTestFunded ws amount : tx_keeps arrangements (addTestFunded ws amount).
Proof. unfold addTestFunded, bigint. tx_effects. Qed.

Lemma keeps_testFunded ws : tx_keeps arrangements (testFundedULXC ws).
Proof. unfold testFundedULXC, testWorkspace, bigint. tx_effects. Qed.
#[export] Hint Resolve keeps_readLXCBalance keeps_moveLXC keeps_addTestFunded keeps_testFunded : tx_effects.

Lemma keeps_desk {A} (m : WTx A) : tx_keeps arrangements m -> tx_keeps desk_arrangements (wallet m).
Proof. apply keeps_wallet. Qed.

(** The transactions over all the tables. *)
Section KeepsDesk.
Context (LL : string -> option Location) (G : Gates) (V : OwnerVerifier).

#[local] Hint Resolve keeps_ask : tx_effects.
#[local] Hint Extern 2 (tx_keeps desk_arrangements (wallet _)) => apply keeps_desk; solve [auto with tx_effects] : tx_effects.

Lemma keeps_refuse_with cap r : tx_keeps desk_arrangements (refuse_with cap r).
Proof. unfold refuse_with. tx_effects. Qed.
#[local] Hint Resolve keeps_refuse_with : tx_effects.

Lemma keeps_live c ws cap : tx_keeps desk_arrangements (capabilityLive G c ws cap).
Proof. unfold capabilityLive, levelRefusal. tx_effects. Qed.
#[local] Hint Resolve keeps_live : tx_effects.

Lemma keeps_spend c ws key amount : tx_keeps desk_arrangements (spendForCapability G c ws key amount).
Proof.
  assert (T : forall v, tx_keeps arrangements (set_test_funded ws v)).
  { intros v. unfold set_test_funded. tx_effects. by case_match. }
  unfold spendForCapability, refuseFrozen, refuseUnaccepted, testWorkspace. tx_effects.
Qed.
#[local] Hint Resolve keeps_spend : tx_effects.

Lemma keeps_move_credits c id key class from_ws from to_ws to amount :
  tx_keeps desk_arrangements (move_credits G c id key class from_ws from to_ws to amount).
Proof. unfold move_credits, refuseFrozenAnyClass. tx_effects. Qed.

Lemma keeps_post_transfer c id t : tx_keeps desk_arrangements (post_transfer c id t).
Proof. unfold post_transfer, record_transfer. tx_effects. Qed.

Lemma keeps_sides p q : tx_keeps desk_arrangements (transfer_sides V p q).
Proof. unfold transfer_sides, verified_owner, MayEarn. tx_effects. Qed.

Lemma keeps_lock_balances from_ws to_ws : tx_keeps arrangements (lock_balances from_ws to_ws).
Proof. unfold lock_balances. tx_effects. Qed.

Lemma keeps_transfer_id c id : tx_keeps arrangements (transfer_id c id).
Proof. unfold transfer_id. tx_effects. Qed.
#[local] Hint Resolve keeps_move_credits keeps_post_transfer keeps_sides keeps_lock_balances keeps_transfer_id : tx_effects.

Lemma keeps_judged c ws agent amount id (judged : bool) :
  tx_keeps arrangements (if judged then enforceAgentRules LL c ws agent amount id else tx_ret tt).
Proof. tx_effects. Qed.
#[local] Hint Resolve keeps_judged : tx_effects.

(** A transfer leaves every schedule and every top-up as it is. *)
Lemma transfer_keeps c t judged : tx_keeps desk_arrangements (transferTx LL G V c t judged).
Proof. unfold transferTx, payee_ws, resolveWallet, CheckMoneyWall. tx_effects. Qed.

(** So does a payment inside the workspace. *)
Lemma pay_keeps c ws pay entry : tx_keeps arrangements (payAgentTx LL c ws pay entry).
Proof. unfold payAgentTx, lock_agents. tx_effects. Qed.
End KeepsDesk.
