(* ===== verification/Outgoing.v ===== *)
(** Money sent to people and companies outside Talyvor ([internal/economy/money_payments.go],
    [money_payments_international.go], the gate of [money_payees.go]): a payment held from the
    account that pays, sent through the account partner, and moved to where the partner says
    it stands; quotes for payments to other countries.  The partners and the screeners are
    parameters ([Bank]). *)
From stdpp Require Import pretty.
From S2P Require Import Prelude Money Tables Postings Clock Lxc Rules CreditLine Agents Reservation Shifts Desk Capabilities Transfers Ledger.
Open Scope Z_scope.
Open Scope i64_scope.

Implicit Types (d : Desk).

(** ** The partners and what else a payment out asks *)

(** [partners.Result]. *)
Record PartnerResult := mkPartnerResult {
  Ref : string;
  Status : string;
  Detail : string;
}.

Definition StatusPending : string := "pending".
Definition StatusCompleted : string := "completed".
Definition StatusFailed : string := "failed".
Definition StatusReturned : string := "returned".

(** [partners.PaymentRequest], as much of it as is Talyvor's; [partners.FXQuote]. *)
Record PaymentRequest := mkPaymentRequest {
  rq_id : string;
  rq_account : string;
  rq_minor : Z;
  rq_currency : string;
  rq_reference : string;
  rq_quote : string;
  rq_to : PayeeRow;
}.

(** [partners.InternationalQuote]. *)
Record PartnerQuote := mkPartnerQuote {
  PartnerRef : string;
  CostMinor : Z;
  CostCurrency : string;
  DeliversMinor : Z;
  DeliversCurrency : string;
  Rate : string;
  ExpiresAt : Z;
}.

Record AccountPartner := mkAccountPartner {
  PartnerName : string;
  SendPayment : Ctx -> PaymentRequest -> Res PartnerErr PartnerResult;
  PaymentStatus : Ctx -> string -> Res PartnerErr PartnerResult;
  PriceInternational : Ctx -> string -> Z -> string -> string -> PayeeRow -> Res PartnerErr PartnerQuote;
}.

(** [AccountPartners]: the account partner, and the conversion partner's answer to what an
    amount of a currency buys in dollars; either may fail to be had. *)
Record AccountPartners := mkAccountPartners {
  Account : Ctx -> option AccountPartner;
  FXQuote : Ctx -> string -> Z -> string -> option (Res PartnerErr Z);
}.

(** What the store holds of the outside: the partners, the screeners, the fees, SHA-256. *)
Record Bank := mkBank {
  accountPartners : option AccountPartners;
  screener : option PaymentScreener;
  payeeScreener : option (Ctx -> string -> string -> string -> option MoneyErr);
  IntlPaymentFeeMinor : gmap string Z;
  sha256hex : string -> string;
}.

(** ** A payment as it is asked for *)

Record OutsidePayment := mkOutsidePayment {
  op_account : string;
  op_agent : string;
  op_payee : string;
  op_minor : Z;
  op_currency : string;
  op_funding : string;
  op_reference : string;
  op_key : string;
  op_quote : string;
  op_at : option Z;
}.

Definition PaymentPending : string := "pending".
Definition PaymentSent : string := "sent".
Definition PaymentCompleted : string := "completed".
Definition PaymentFailed : string := "failed".
Definition PaymentReturned : string := "returned".

Definition CapabilityPaymentsOut : string := "payments_out".

(** [strings.Fields], on ASCII. *)
Fixpoint fields (word : list Ascii.ascii) (l : list Ascii.ascii) : list (list Ascii.ascii) :=
  let close := match word with [] => [] | _ => [rev word] end in
  match l with
  | [] => close
  | a :: l => if is_space a then close ++ fields [] l else fields (a :: word) l
  end.

(** [strings.Join(strings.Fields(x), " ")]. *)
Definition squeezed (x : string) : string :=
  String.concat " " (String.string_of_list_ascii <$> fields [] (String.list_ascii_of_string x)).

Definition normalise (withKey : bool) (p : OutsidePayment) : OutsidePayment + PaymentRule :=
  let p := mkOutsidePayment (op_account p) (op_agent p) (op_payee p) (op_minor p) (upper (trimmed (op_currency p)))
             (if bool_decide (op_funding p = "")%string then FundingTest else op_funding p) (squeezed (op_reference p)) (trimmed (op_key p))
             (trimmed (op_quote p)) (op_at p) in
  if bool_decide (op_payee p = "")%string then inr RulePayee
  else if negb (Contains [CurrencyGBP; CurrencyEUR; CurrencyUSD] (op_currency p)) then inr (RulePaymentCurrency (op_currency p))
  else if op_minor p <=? 0 then inr RuleAmountPositive
  else if negb (Contains [FundingTest; FundingLive] (op_funding p)) then inr (RuleFunding (op_funding p))
  else if withKey && (bool_decide (op_key p = "")%string || (200 <? String.length (op_key p))%nat) then inr RuleIdempotencyKey
  else if (140 <? String.length (op_reference p))%nat then inr RuleReference
  else inl p.

(** What leaves the account: the amount, the partner's cost and Talyvor's fee. *)
Definition debit (p : MoneyPayment) : Z := mp_amount p +! mp_cost p +! mp_fee p.

Definition international (p : MoneyPayment) : bool := negb (bool_decide (mp_arrives_currency p = "")%string).

(** The idempotency keys of a payment's entries. *)
Definition payment_key (step key : string) : string := "payment_out_" +:+ step +:+ ":" +:+ key.
Definition screenKey (key : string) : string := "payment_out:" +:+ key.

(** The payment already made is the one asked for. *)
Definition same (p : MoneyPayment) (q : OutsidePayment) : bool :=
  bool_decide (mp_payee p = op_payee q) && (mp_amount p =? op_minor q) && bool_decide (mp_currency p = op_currency q)
  && bool_decide (mp_funding p = op_funding q) && bool_decide (mp_reference p = op_reference q)
  && (bool_decide (op_account q = "")%string || bool_decide (mp_account p = op_account q))
  && (bool_decide (op_agent q = "")%string || bool_decide (mp_agent p = op_agent q)) && bool_decide (mp_quote p = op_quote q).

(** [minorString], of an amount that is not negative. *)
Definition minorString (minor : Z) (currency : string) : string :=
  let places := Z.to_nat (MoneyCurrencies currency) in
  let s := pretty minor in
  let s := String.string_of_list_ascii (repeat "0"%char (places + 1 - String.length s)) +:+ s in
  let whole := (String.length s - places)%nat in
  currency +:+ " " +:+ String.substring 0 whole s +:+ "." +:+ String.substring whole places s.

Definition payment_by_key (s : Store) (ws key : string) : option MoneyPayment :=
  List.find (fun p => bool_decide (mp_ws p = ws /\ mp_key p = key)) (money_payments s).

Definition payment_by_id (s : Store) (id : string) : option MoneyPayment :=
  List.find (fun p => bool_decide (mp_id p = id)) (money_payments s).

(** ** The account that pays *)

Record payingAccount := mkPayingAccount {
  pa_id : string;
  pa_agent : string;
  pa_company : string;
  pa_ref : string;        (* the company's account at the partner *)
  pa_partner : string;    (* the partner account that mirrors it *)
}.

(** The newest of some accounts, and the oldest. *)
Definition newest (l : list (string * MoneyAccount)) : option (string * MoneyAccount) :=
  foldl (fun o a => match o with Some b => if ma_created b.2 <? ma_created a.2 then Some a else o | None => Some a end) None l.

Definition oldest (l : list (string * MoneyAccount)) : option (string * MoneyAccount) :=
  foldl (fun o a => match o with Some b => if ma_created a.2 <? ma_created b.2 then Some a else o | None => Some a end) None l.

(** The account named, the agent's own, or the company's. *)
Definition pays_from (ws : string) (p : OutsidePayment) (id : string) (a : MoneyAccount) : bool :=
  bool_decide (ma_ws a = ws) && Contains [MoneyCompany; MoneyAgent] (ma_purpose a) && bool_decide (ma_currency a = op_currency p)
  && (if bool_decide (op_account p = "")%string then
        negb (bool_decide (ma_status a = MoneyClosed))
        && if bool_decide (op_agent p = "")%string then bool_decide (ma_purpose a = MoneyCompany) else bool_decide (ma_agent a = op_agent p)
      else bool_decide (id = op_account p)).

(** An account's company's: itself, or its parent. *)
Definition company_account (t : MoneyTables) (id : string) (a : MoneyAccount) : option (string * MoneyAccount) :=
  let parent := if bool_decide (ma_parent a = "")%string then id else ma_parent a in
  (fun c => (parent, c)) <$> money_accounts t !! parent.

Definition partner_account (t : MoneyTables) (c : MoneyAccount) : string :=
  if bool_decide (ma_partner_ref c = "")%string then ""%string
  else match filter (fun kv => ma_ws kv.2 = ma_ws c /\ ma_purpose kv.2 = MoneyPartner /\ ma_partner_ref kv.2 = ma_partner_ref c)
               (map_to_list (money_accounts t)) with
       | kv :: _ => kv.1
       | [] => ""%string
       end.

Definition paying_account (ws : string) (p : OutsidePayment) (t : MoneyTables) : Res MoneyErr payingAccount :=
  match newest (filter (fun kv => pays_from ws p kv.1 kv.2 && is_some (company_account t kv.1 kv.2) = true) (map_to_list (money_accounts t))) with
  | None => Err ErrMoneyAccountNotFound
  | Some (id, a) =>
      match company_account t id a with
      | None => Err ErrMoneyAccountNotFound
      | Some (company, c) =>
          if negb (bool_decide (op_agent p = "")%string) && negb (bool_decide (ma_agent a = op_agent p)) then Err ErrMoneyAccountNotFound
          else if negb (bool_decide (ma_status a = MoneyOpen)) then Err ErrMoneyAccountNotOpen
          else
            let partner := partner_account t c in
            if bool_decide (ma_partner_ref c = "")%string || bool_decide (partner = "")%string then Err ErrMoneyAccountNotOpen
            else Ok (mkPayingAccount id (ma_agent a) company (ma_partner_ref c) partner)
      end
  end.

(** ** The payee *)

Definition PayeeExactMatch : string := "exact_match".

Definition NeedsConfirmation (p : PayeeRow) : bool := negb (bool_decide (sv_check p = PayeeExactMatch)) && negb (is_some (sv_confirmed p)).

Definition outsidePayee (ws id : string) (t : MoneyTables) : Res MoneyErr PayeeRow :=
  match money_payees t !! id with
  | Some p => if bool_decide (sv_ws p = ws) then Ok p else Err ErrPayeeNotFound
  | None => Err ErrPayeeNotFound
  end.

Definition payeeCurrency (p : PayeeRow) : string :=
  if negb (bool_decide (sv_iban p = "")%string) then CurrencyEUR
  else if negb (bool_decide (sv_routing_number p = "")%string) then CurrencyUSD
  else CurrencyGBP.

(** A result where there is one. *)
Definition res_bind {E A B} (r : Res E A) (k : A -> Res E B) : Res E B := match r with Ok a => k a | Err e => Err e end.

Definition lift_res {A} (f : Desk -> Res MoneyErr A) : LTx A := fun d => match f d with Ok a => Ok (a, d) | Err e => Err e end.

Section Payments.
Context (LL : string -> option Location) (G : Gates) (B : Bank).

Definition PayableOutsidePayee (c : Ctx) (ws id : string) (t : MoneyTables) : Res MoneyErr PayeeRow :=
  res_bind (outsidePayee ws id t) (fun p =>
    if NeedsConfirmation p then Err ErrPayeeUnconfirmed
    else match payeeScreener B with
         | None => Err ErrScreeningUnavailable
         | Some screen => match screen c ws id (sv_name p) with Some e => Err e | None => Ok p end
         end).

(** ** Quotes *)

(** Live money reaches only the countries of the clearance. *)
Definition destinationAllowed (c : Ctx) (funding : string) (payee : PayeeRow) d : Res MoneyErr unit :=
  if bool_decide (funding = FundingLive) && negb (Contains (default [] (clearanceCountries d CapabilityPaymentsOut (now c))) (sv_country payee))
  then Err (EDeskErr (ErrCapabilityNotCleared CapabilityPaymentsOut (RefCountry (sv_country payee))))
  else Ok tt.

Definition usableQuote (c : Ctx) (ws : string) (p : OutsidePayment) (from : payingAccount) (payee : PayeeRow) d : Res MoneyErr QuoteRow :=
  res_bind (destinationAllowed c (op_funding p) payee d) (fun _ =>
    match money_payment_quotes d !! op_quote p with
    | Some q =>
        if bool_decide (qu_ws q = ws /\ qu_account q = pa_id from /\ qu_payee q = op_payee p /\ qu_amount q = op_minor p
                        /\ qu_currency q = op_currency p /\ qu_funding q = op_funding p) && (now c <? qu_expires q)
        then Ok q else Err ErrQuote
    | None => Err ErrQuote
    end).

Definition payerName (ws : string) d : string :=
  let name := match workspaces d !! ws with Some w => ws_name w | None => ""%string end in
  if bool_decide (name = "")%string then ws else name.

(** [QuoteInternational]: priced by the partner, kept, and good until it expires. *)
Definition QuoteInternational (c : Ctx) (ws : string) (p : OutsidePayment) : LTx (string * QuoteRow) :=
  match normalise false p with
  | inr why => tx_fail (ErrOutsidePayment why)
  | inl p =>
      let! from := lift_res (fun d => paying_account ws p d) in
      let! payee := lift_res (fun d => PayableOutsidePayee c ws (op_payee p) d) in
      let deliver := payeeCurrency payee in
      tx_guard (negb (bool_decide (deliver = op_currency p))) (ErrOutsidePayment RuleSameCurrency) ;;;
      match IntlPaymentFeeMinor B !! op_currency p with
      | None => tx_fail (ErrOutsidePayment (RuleNoFee (op_currency p)))
      | Some fee =>
          lift_res (destinationAllowed c (op_funding p) payee) ;;;
          match accountPartners B with
          | None => tx_fail ErrAccountNotOpened
          | Some partners =>
              match Account partners c with
              | None => tx_fail ErrPartner
              | Some partner =>
                  let! u := desk_tx (wallet (uuid_new c)) in
                  let id := ("mpq_" +:+ u)%string in
                  match PriceInternational partner c id (op_minor p) (op_currency p) deliver payee with
                  | Err PartnerInvalid => tx_fail (ErrOutsidePayment RulePartnerInvalid)
                  | Err e => tx_fail (ErrPartnerErr e)
                  | Ok q =>
                      tx_guard (bool_decide (CostCurrency q = op_currency p /\ DeliversCurrency q = deliver) && (0 <=? CostMinor q) && (0 <? DeliversMinor q))
                        ErrPartner ;;;
                      let! dup := tx_gets (fun d => is_some (money_payment_quotes d !! id)) in
                      tx_guard (negb dup) ErrMoneyUnique ;;;
                      tx_guard (0 <=? fee) ErrMoneyCheck ;;;
                      let q := mkQuoteRow ws (pa_id from) (pa_agent from) (op_payee p) (sv_name payee) (sv_country payee) (op_minor p) (op_currency p)
                                 (CostMinor q) fee (DeliversMinor q) deliver (Rate q) (op_funding p) (PartnerName partner) (PartnerRef q)
                                 (ExpiresAt q) (now c) in
                      tx_modify (fun d => with_quotes (<[id := q]> (money_payment_quotes d)) d) ;;;
                      tx_ret (id, q)
                  end
              end
          end
      end
  end.

(** ** The hold *)

(** What the payment is worth in µLXC; [10_000] µUSD a cent, [ULXCPerUSDMicro] µLXC a µUSD. *)
Definition ULXCPerUSDMicro : Z := 10.

Definition paymentValue (c : Ctx) (partners : AccountPartners) (p : MoneyPayment) : Res MoneyErr Z :=
  let minor := debit p in
  let value := fun cents =>
    if max_i64 / (10000 * ULXCPerUSDMicro) <? cents then Err (ErrOutsidePayment RuleTooMuch)
    else Ok (cents *! 10000 *! ULXCPerUSDMicro) in
  if bool_decide (mp_currency p = CurrencyUSD) then value minor
  else match FXQuote partners c ("value:" +:+ screenKey (mp_key p) +:+ ":" +:+ pretty minor +:+ mp_currency p) minor (mp_currency p) with
       | Some (Ok cents) => value cents
       | Some (Err e) => Err (ErrPartnerErr e)
       | None => Err ErrPartner
       end.

(** The request the agent's rules judge. *)
Definition outside_request (p : MoneyPayment) (at_ : option Z) : AgentRequest :=
  let nul := String (Ascii.ascii_of_nat 0) "" in
  let memo := minorString (mp_amount p) (mp_currency p) +:+ " to " +:+ mp_payee_name p +:+ " (" +:+ mp_funding p +:+ " money)" in
  mkRequest "" ""
    (sha256hex B ("payment_out" +:+ nul +:+ mp_agent p +:+ nul +:+ mp_account p +:+ nul +:+ mp_payee p +:+ nul +:+ pretty (mp_amount p)
                  +:+ nul +:+ mp_currency p +:+ nul +:+ mp_funding p +:+ nul +:+ mp_reference p))
    at_ true "" (mkPayee "outside" (mp_payee p) (mp_payee_name p))
    (if bool_decide (mp_reference p = "")%string then memo else memo +:+ " — " +:+ mp_reference p)
    (mkCommitment "" "" false 0).

(** The oldest open account of a kind, opened the first time. *)
Definition find_or_open (c : Ctx) (ws currency purpose ref name : string) : LTx string :=
  let! o := tx_gets (fun d => oldest (filter (fun kv => ma_ws kv.2 = ws /\ ma_currency kv.2 = currency /\ ma_purpose kv.2 = purpose
      /\ (purpose = MoneyHold \/ ma_partner_ref kv.2 = ref) /\ ma_agent kv.2 = "" /\ ma_status kv.2 = MoneyOpen)%string
      (map_to_list (money_accounts d)))) in
  match o with
  | Some (id, _) => tx_ret id
  | None =>
      let! id := new_account_id c in
      insert_account id (mkMoneyAccount ws "" currency purpose MoneyOpen name ref "" (now c)) ;;;
      tx_ret id
  end.

Definition holdAccount (c : Ctx) (ws currency : string) : LTx string := find_or_open c ws currency MoneyHold "" "Payments out".

Definition routeAccount (c : Ctx) (ws currency purpose ref name : string) : LTx string := find_or_open c ws currency purpose ref name.

(** One screening, of money out. *)
Definition screen_out (c : Ctx) (screen : PaymentScreener) (p : MoneyPayment) (id who : string) : LTx unit :=
  match screen c (mkScreened (mp_ws p) id CapabilityPaymentsOut "out" who (mp_amount p) (mp_currency p) (mp_funding p)) with
  | Some e => tx_fail e
  | None => tx_ret tt
  end.

(** The CHECKs and the unique key of [money_payments]. *)
Definition payment_checks (p : MoneyPayment) : bool :=
  negb (bool_decide (mp_key p = "")%string) && (0 <? mp_amount p) && Contains [FundingTest; FundingLive] (mp_funding p) && (0 <=? mp_value p)
  && (0 <=? mp_cost p) && (0 <=? mp_fee p) && (0 <=? mp_arrives p)
  && Contains [PaymentPending; PaymentSent; PaymentCompleted; PaymentFailed; PaymentReturned] (mp_status p).

Definition with_payments (v : list MoneyPayment) d : Desk := with_store (with_money_payments v (dk_store d)) d.

Definition insert_payment (p : MoneyPayment) : LTx unit :=
  tx_guard (payment_checks p) ErrMoneyCheck ;;;
  let! dup := tx_gets (fun d => is_some (payment_by_key d (mp_ws p) (mp_key p)) || is_some (payment_by_id d (mp_id p))) in
  tx_guard (negb dup) ErrMoneyUnique ;;;
  tx_modify (fun d => with_payments (p :: money_payments d) d).

Definition with_hold (hold : string) (at_ : Z) (p : MoneyPayment) : MoneyPayment :=
  mkMoneyPayment (mp_id p) (mp_ws p) (mp_key p) (mp_account p) hold (mp_agent p) (mp_payee p) (mp_payee_name p) (mp_amount p) (mp_currency p)
    (mp_funding p) (mp_reference p) (mp_value p) (mp_status p) (mp_partner p) (mp_partner_ref p) (mp_detail p) at_ (mp_quote p) (mp_quote_ref p)
    (mp_cost p) (mp_fee p) (mp_arrives p) (mp_arrives_currency p) (mp_rate p).

Definition hold_entry (p : MoneyPayment) : MoneyEntry :=
  mkMoneyEntry "" (mp_ws p) CapabilityPaymentsOut "payment_out_hold" (payment_key "hold" (mp_key p)) (mp_funding p) (mp_reference p) "" "" 0
    [mkMoneyPosting (mp_account p) (-! debit p) "" ""; mkMoneyPosting (mp_hold p) (debit p) "" ""] "".

(** The payment's first transaction: judged, screened, recorded and its money held. *)
Definition hold_payment (c : Ctx) (p : MoneyPayment) (payer : string) : LTx MoneyPayment :=
  let ws := mp_ws p in
  (if bool_decide (mp_agent p = "")%string then tx_ret tt else desk_tx (wallet (lockAgent ws (mp_agent p)))) ;;;
  let! held := tx_gets (fun d => money_balance d (mp_account p) (mp_funding p)) in
  tx_guard (negb (held <? debit p)) (EDeskErr (EWallet ErrAgentFunds)) ;;;
  (if bool_decide (mp_agent p = "")%string then tx_ret tt
   else desk_tx (wallet (enforceAgentRules LL c ws (mp_agent p) (mp_value p) (mp_id p)))) ;;;
  match screener B with
  | None => tx_fail ErrScreeningUnavailable
  | Some screen =>
      screen_out c screen p (screenKey (mp_key p)) (mp_payee_name p) ;;;
      (if bool_decide (payer = "")%string then tx_ret tt else screen_out c screen p (payment_key "payer" (mp_key p)) payer) ;;;
      let! hold := holdAccount c ws (mp_currency p) in
      let p := with_hold hold (now c) p in
      insert_payment p ;;;
      postMoneyTx G (screener B) c (hold_entry p) ;;;
      tx_ret p
  end.

(** ** Where a payment stands *)

(** The postings that take a payment out, and those that bring it back: the fee stays. *)
Definition domestic_out (p : MoneyPayment) (partner : string) : list MoneyPosting :=
  [mkMoneyPosting (mp_hold p) (-! debit p) "" ""; mkMoneyPosting partner (mp_amount p +! mp_cost p) "" ""].

Definition domestic_back (p : MoneyPayment) (partner : string) : list MoneyPosting :=
  [mkMoneyPosting partner (-! (mp_amount p +! mp_cost p)) "" ""; mkMoneyPosting (mp_account p) (mp_amount p +! mp_cost p) "" ""].

Definition movements (c : Ctx) (p : MoneyPayment) (partner : string) : LTx (list MoneyPosting * list MoneyPosting) :=
  if negb (international p) then tx_ret (domestic_out p partner, domestic_back p partner)
  else
    let arrives := mp_arrives p in
    let currency := mp_arrives_currency p in
    let! revenue := routeAccount c (mp_ws p) (mp_currency p) MoneyRevenue "" "Talyvor fees" in
    let! conversion := routeAccount c (mp_ws p) currency MoneyPartner "intl:conversion" "International payments: converted" in
    let! paid := routeAccount c (mp_ws p) currency MoneyPartner "intl:payments" "International payments: paid" in
    tx_ret (domestic_out p partner ++ [mkMoneyPosting revenue (mp_fee p) "" ""; mkMoneyPosting conversion (-! arrives) currency "";
                                       mkMoneyPosting paid arrives currency ""],
            domestic_back p partner ++ [mkMoneyPosting paid (-! arrives) currency ""; mkMoneyPosting conversion arrives currency ""]).

(** One entry of the payment; [outside]: it goes through the partner. *)
Definition payment_entry (p : MoneyPayment) (kind key : string) (outside : bool) (ps : list MoneyPosting) : MoneyEntry :=
  mkMoneyEntry "" (mp_ws p) CapabilityPaymentsOut kind key (mp_funding p) (mp_reference p)
    (if outside then mp_payee_name p else "")%string (if outside then mp_partner_ref p else "")%string 0 ps "".

Definition post (c : Ctx) (p : MoneyPayment) (kind key : string) (outside : bool) (ps : list MoneyPosting) : LTx unit :=
  postMoneyTx G (screener B) c (payment_entry p kind key outside ps) ;;; tx_ret tt.

Definition in_flight (status : string) : bool := Contains [PaymentPending; PaymentSent] status.

Definition failed_lines (p : MoneyPayment) : list MoneyPosting :=
  [mkMoneyPosting (mp_hold p) (-! debit p) "" ""; mkMoneyPosting (mp_account p) (debit p) "" ""].

(** The entries that take a payment where the partner says it stands, and its status then. *)
Definition apply_status (c : Ctx) (p : MoneyPayment) (status : string) (out back : list MoneyPosting) : LTx string :=
  let post := post c p in
  if bool_decide (status = StatusPending) then
    tx_ret (if bool_decide (mp_status p = PaymentPending) then PaymentSent else mp_status p)
  else if bool_decide (status = StatusFailed) then
    if in_flight (mp_status p) then
      post "payment_out_failed" (payment_key "failed" (mp_key p)) false (failed_lines p) ;;;
      tx_ret PaymentFailed
    else tx_ret (mp_status p)
  else if Contains [StatusCompleted; StatusReturned] status then
    let! now_ := (if in_flight (mp_status p) then
                    post "payment_out" (screenKey (mp_key p)) true out ;;;
                    tx_ret PaymentCompleted
                  else tx_ret (mp_status p)) in
    if bool_decide (status = StatusReturned /\ now_ = PaymentCompleted) then
      post "payment_out_returned" (payment_key "returned" (mp_key p)) true back ;;;
      tx_ret PaymentReturned
    else tx_ret now_
  else tx_fail (ErrPartnerAnswer status).

Definition with_result (ref : string) (p : MoneyPayment) : MoneyPayment :=
  mkMoneyPayment (mp_id p) (mp_ws p) (mp_key p) (mp_account p) (mp_hold p) (mp_agent p) (mp_payee p) (mp_payee_name p) (mp_amount p) (mp_currency p)
    (mp_funding p) (mp_reference p) (mp_value p) (mp_status p) (mp_partner p) ref (mp_detail p) (mp_at p) (mp_quote p) (mp_quote_ref p)
    (mp_cost p) (mp_fee p) (mp_arrives p) (mp_arrives_currency p) (mp_rate p).

Definition with_status (status detail : string) (p : MoneyPayment) : MoneyPayment :=
  mkMoneyPayment (mp_id p) (mp_ws p) (mp_key p) (mp_account p) (mp_hold p) (mp_agent p) (mp_payee p) (mp_payee_name p) (mp_amount p) (mp_currency p)
    (mp_funding p) (mp_reference p) (mp_value p) status (mp_partner p) (mp_partner_ref p) detail (mp_at p) (mp_quote p) (mp_quote_ref p)
    (mp_cost p) (mp_fee p) (mp_arrives p) (mp_arrives_currency p) (mp_rate p).

Definition put_payment (p : MoneyPayment) (l : list MoneyPayment) : list MoneyPayment :=
  (fun q => if bool_decide (mp_id q = mp_id p) then p else q) <$> l.

(** [applyPartnerResult], its transaction. *)
Definition apply_result (c : Ctx) (id partner : string) (res : PartnerResult) : LTx MoneyPayment :=
  let! row := tx_gets (fun d => payment_by_id d id) in
  match row with
  | None => tx_fail ErrOutsidePaymentNotFound
  | Some p =>
      let p := if bool_decide (Ref res = "")%string then p else with_result (Ref res) p in
      let! (out, back) := movements c p partner in
      let! status := apply_status c p (Status res) out back in
      let p := with_status status (if bool_decide (Detail res = "")%string then mp_detail p else Detail res) p in
      tx_modify (fun d => with_payments (put_payment p (money_payments d)) d) ;;;
      tx_ret p
  end.

Definition applyPartnerResult (c : Ctx) (id partner : string) (res : PartnerResult) d : Res MoneyErr MoneyPayment * Desk :=
  run_tx (money_committed (apply_result c id partner res)) d.

(** ** Sending *)

Definition sendRequest (p : MoneyPayment) (from : payingAccount) (payee : PayeeRow) : PaymentRequest :=
  mkPaymentRequest (mp_id p) (pa_ref from) (mp_amount p) (mp_currency p) (mp_reference p) (mp_quote_ref p) payee.

(** A refused request is a payment that failed; [None] is a partner that did not answer. *)
Definition sent_result (r : Res PartnerErr PartnerResult) : option PartnerResult :=
  match r with
  | Ok res => Some res
  | Err PartnerDown => None
  | Err _ => Some (mkPartnerResult "" StatusFailed "refused")
  end.

(** The payment as it will be recorded: priced by its quote, valued for its agent's rules. *)
Definition draft (c : Ctx) (ws id : string) (p : OutsidePayment) (from : payingAccount) (payee : PayeeRow) (partner : AccountPartner) : MoneyPayment :=
  mkMoneyPayment id ws (op_key p) (pa_id from) "" (pa_agent from) (op_payee p) (sv_name payee) (op_minor p) (op_currency p) (op_funding p)
    (op_reference p) 0 PaymentPending (PartnerName partner) "" "" 0 (op_quote p) "" 0 0 0 "" "".

Definition priced (q : QuoteRow) (p : MoneyPayment) : MoneyPayment :=
  mkMoneyPayment (mp_id p) (mp_ws p) (mp_key p) (mp_account p) (mp_hold p) (mp_agent p) (mp_payee p) (mp_payee_name p) (mp_amount p) (mp_currency p)
    (mp_funding p) (mp_reference p) (mp_value p) (mp_status p) (mp_partner p) (mp_partner_ref p) (mp_detail p) (mp_at p) (mp_quote p) (qu_partner_ref q)
    (qu_cost q) (qu_fee q) (qu_arrives q) (qu_arrives_currency q) (qu_rate q).

Definition valued (v : Z) (p : MoneyPayment) : MoneyPayment :=
  mkMoneyPayment (mp_id p) (mp_ws p) (mp_key p) (mp_account p) (mp_hold p) (mp_agent p) (mp_payee p) (mp_payee_name p) (mp_amount p) (mp_currency p)
    (mp_funding p) (mp_reference p) v (mp_status p) (mp_partner p) (mp_partner_ref p) (mp_detail p) (mp_at p) (mp_quote p) (mp_quote_ref p)
    (mp_cost p) (mp_fee p) (mp_arrives p) (mp_arrives_currency p) (mp_rate p).

(** What [PayOutside] finds before its transaction: the account, the payee, the partner, the
    payment as it will be recorded and, of an international one, who pays. *)
Definition prepare (c : Ctx) (ws : string) (p : OutsidePayment) (id : string) d :
    Res MoneyErr (payingAccount * PayeeRow * AccountPartner * MoneyPayment * string) :=
  res_bind (paying_account ws p d) (fun from =>
  res_bind (PayableOutsidePayee c ws (op_payee p) d) (fun payee =>
  match accountPartners B, screener B with
  | None, _ => Err ErrAccountNotOpened
  | _, None => Err ErrScreeningUnavailable
  | Some partners, Some _ =>
      match Account partners c with
      | None => Err ErrPartner
      | Some partner =>
          let row := draft c ws id p from payee partner in
          let none := bool_decide (op_quote p = "")%string in
          if none && negb (bool_decide (payeeCurrency payee = op_currency p)) then Err (ErrOutsidePayment (RuleQuoteNeeded (payeeCurrency payee)))
          else
            res_bind (if none then Ok (row, ""%string)
                      else res_bind (usableQuote c ws p from payee d) (fun q => Ok (priced q row, payerName ws d))) (fun '(row, payer) =>
            res_bind (if bool_decide (mp_agent row = "")%string then Ok row
                      else res_bind (paymentValue c partners row) (fun v => Ok (valued v row))) (fun row =>
            Ok (from, payee, partner, row, payer)))
      end
  end)).

(** The answer to a key already used. *)
Definition prior_payment (ws : string) (p : OutsidePayment) d : option (Res MoneyErr MoneyPayment) :=
  (fun prior => if same prior p then Ok prior else Err ErrIdempotencyKeyReused) <$> payment_by_key d ws (op_key p).

(** The hold as its caller sees it: committed, or refused on the state the rollback left, with
    the approval a refusal files. *)
Definition run_hold (c : Ctx) (p : MoneyPayment) (payer : string) d : Res MoneyErr MoneyPayment * Desk :=
  match money_committed (hold_payment c p payer) d with
  | Ok (p, d) => (Ok p, d)
  | Err (EDeskErr (EWallet e)) => let '(e, s) := refusedMovement c e (dk_store d) in (Err (EDeskErr (EWallet e)), with_store s d)
  | Err e => (Err e, d)
  end.

Definition drew_one d : Desk := with_store (with_uuid_draws (N.succ (uuid_draws d)) d) d.

Definition PayOutside (c : Ctx) (ws : string) (p : OutsidePayment) d : Res MoneyErr MoneyPayment * Desk :=
  match normalise true p with
  | inr why => (Err (ErrOutsidePayment why), d)
  | inl p =>
      match prior_payment ws p d with
      | Some answer => (answer, d)
      | None =>
          let id := "mpay_" +:+ uuid c (uuid_draws d) in
          let d := drew_one d in
          match prepare c ws p id d with
          | Err e => (Err e, d)
          | Ok (from, payee, partner, row, payer) =>
              let c' := if bool_decide (mp_agent row = "")%string then c else WithAgentRequest c (outside_request row (op_at p)) in
              match run_hold c' row payer d with
              | (Err e, d) => (Err e, d)
              | (Ok row, d) =>
                  match sent_result (SendPayment partner c (sendRequest row from payee)) with
                  | None => (Ok row, d)
                  | Some res => applyPartnerResult c (mp_id row) (pa_partner from) res d
                  end
              end
          end
      end
  end.

(** ** Reading a payment again *)

(** Where it stands, asked of the partner: one it never answered is sent again. *)
Definition ask_partner (c : Ctx) (ws : string) (partner : AccountPartner) (p : MoneyPayment) (from : payingAccount) d : Res MoneyErr (option PartnerResult) :=
  if bool_decide (mp_partner_ref p = "")%string then
    res_bind (outsidePayee ws (mp_payee p) d) (fun payee => Ok (sent_result (SendPayment partner c (sendRequest p from payee))))
  else Ok (match PaymentStatus partner c (mp_partner_ref p) with Ok res => Some res | Err _ => None end).

Definition RefreshOutsidePayment (c : Ctx) (ws agent id : string) d : Res MoneyErr MoneyPayment * Desk :=
  match payment_by_id d id with
  | Some p =>
      if negb (bool_decide (mp_ws p = ws) && (bool_decide (agent = "")%string || bool_decide (mp_agent p = agent))) then (Err ErrOutsidePaymentNotFound, d)
      else if Contains [PaymentFailed; PaymentReturned] (mp_status p) then (Ok p, d)
      else match accountPartners B with
      | None => (Ok p, d)
      | Some partners =>
          match Account partners c with
          | None => (Err ErrPartner, d)
          | Some partner =>
              match paying_account ws (mkOutsidePayment (mp_account p) (mp_agent p) "" 0 (mp_currency p) "" "" "" "" None) d with
              | Err e => (Err e, d)
              | Ok from =>
                  match ask_partner c ws partner p from d with
                  | Err e => (Err e, d)
                  | Ok None => (Ok p, d)
                  | Ok (Some res) => applyPartnerResult c (mp_id p) (pa_partner from) res d
                  end
              end
          end
      end
  | None => (Err ErrOutsidePaymentNotFound, d)
  end.
End Payments.
