(* ===== verification/Sendings.v ===== *)
(** What [Outgoing] promises of the money it sends: while a payment is on its way the hold
    account holds exactly what it debited, it leaves or comes back once, and asking again
    under its key sends nothing twice. *)
From stdpp Require Import pretty relations.
From S2P Require Import Prelude Money Tables Postings Clock Lxc Rules CreditLine Agents Reservation Wallet Shifts Desk Capabilities Ledger MoneyBooks Transfers Outgoing.
Open Scope Z_scope.
Open Scope i64_scope.

Implicit Types (d : Desk) (t : MoneyTables) (p q : MoneyPayment) (ps : list MoneyPosting).

(** ** Opening accounts *)

(** Accounts may have been opened, and nothing else done to the money or the payments. *)
Record accounts_grow d d' : Prop := {
  gr_accounts id a : money_accounts d !! id = Some a -> money_accounts d' !! id = Some a;
  gr_entries : money_entries d' = money_entries d;
  gr_postings : money_postings d' = money_postings d;
  gr_balances : money_account_balances d' = money_account_balances d;
  gr_quotes : money_payment_quotes d' = money_payment_quotes d;
  gr_payments : money_payments d' = money_payments d;
}.

#[export] Instance accounts_grow_preorder : PreOrder accounts_grow.
Proof.
  split; [by split|]. intros a b c [H1 E1 P1 B1 Q1 M1] [H2 E2 P2 B2 Q2 M2]. split; [by auto|congruence..].
Qed.

Lemma grow_same d d' : dk_money d' = dk_money d -> money_payments d' = money_payments d -> accounts_grow d d'.
Proof. intros E P. split; rewrite ?E; done. Qed.

Lemma grow_pre old d d' : accounts_grow d d' -> ledger_pre old d -> ledger_pre old d'.
Proof.
  intros [H E P B _ _] [Gr Bl En L F K I]. split; rewrite ?E, ?P; try done.
  - intros a f. unfold money_balance, all_lines. rewrite B, P. apply Bl.
  - intros r Hr. destruct (L r Hr) as (H1 & a & H2 & H3). split; [done|]. exists a. split; [by apply H|done].
Qed.

Lemma insert_account_grows id a d u d' : insert_account id a d = Ok (u, d') ->
  accounts_grow d d' /\ money_accounts d' !! id = Some a /\ money_accounts d !! id = None.
Proof.
  intros (-> & _ & N & _)%insert_account_ok. split_and!; [|by cbn; rewrite lookup_insert_eq|exact N].
  split; try done. intros id' b Hb. cbn. rewrite lookup_insert_ne; [done|]. intros ->. by rewrite N in Hb.
Qed.

Lemma fold_pick {A} (better : A -> A -> bool) (l : list A) : forall o x,
  foldl (fun o a => match o with Some b => if better a b then Some a else o | None => Some a end) o l = Some x -> o = Some x \/ x ∈ l.
Proof.
  induction l as [|a l IH]; intros o x H; cbn [foldl] in H; [by left|]. apply IH in H as [H|H]; [|right; by right].
  destruct o as [b|]; [destruct (better a b)|]; [injection H as <-; right; by left|by left|injection H as <-; right; by left].
Qed.

Lemma oldest_in l x : oldest l = Some x -> x ∈ l.
Proof. intros [|]%(fold_pick (fun a b : string * MoneyAccount => ma_created a.2 <? ma_created b.2)); done. Qed.

Lemma newest_in l x : newest l = Some x -> x ∈ l.
Proof. intros [|]%(fold_pick (fun a b : string * MoneyAccount => ma_created b.2 <? ma_created a.2)); done. Qed.

(** An account of a kind, found or opened. *)
Lemma find_or_open_ok c ws currency purpose ref name d id d' : find_or_open c ws currency purpose ref name d = Ok (id, d') ->
  accounts_grow d d' /\ exists a, money_accounts d' !! id = Some a /\ ma_ws a = ws /\ ma_currency a = currency /\ ma_purpose a = purpose
    /\ ma_agent a = ""%string /\ (purpose = MoneyHold \/ ma_partner_ref a = ref).
Proof.
  unfold find_or_open. rewrite tx_gets_bind. destruct (oldest _) as [[id0 a]|] eqn:E; intros H.
  - apply tx_ret_ok in H as [-> ->]. split; [done|]. apply oldest_in, list_elem_of_filter in E as [(E1 & E2 & E3 & E4 & E5 & _) E%elem_of_map_to_list].
    by exists a.
  - apply tx_bind_ok in H as (id' & d1 & H1 & H). unfold new_account_id in H1. apply tx_bind_ok in H1 as (u & d2 & H2 & H1).
    apply desk_tx_ok, wallet_ok in H2 as (s & H2 & ->). apply uuid_new_ok in H2 as [-> ->]. apply tx_ret_ok in H1 as [-> ->].
    apply tx_bind_ok in H as (v & d1 & H1 & H). apply insert_account_grows in H1 as (Gr & L & _). apply tx_ret_ok in H as [-> ->].
    split; [|by eexists; split_and!; [..|right]]. transitivity (drew d); [by apply grow_same|exact Gr].
Qed.

(** ** What a payment's entries add *)

(** What postings as they are asked for add to an account. *)
Definition asks_on (account : string) ps : Z := sumZ (mn_amount <$> filter (fun x => mn_account x = account) ps).

Lemma asks_on_cons a (p : MoneyPosting) ps : asks_on a (p :: ps) = (if decide (mn_account p = a) then mn_amount p else 0) + asks_on a ps.
Proof. unfold asks_on. rewrite filter_cons. case_decide; csimpl; lia. Qed.

Lemma asks_on_app a ps qs : asks_on a (ps ++ qs) = asks_on a ps + asks_on a qs.
Proof. unfold asks_on. by rewrite filter_app, fmap_app, sumZ_app. Qed.

Lemma resolved_on t e ps qs a f : Forall2 (resolved t e) ps qs -> (forall x, x ∈ ps -> mn_funding x = me_funding e) ->
  lines_on a f qs = if decide (f = me_funding e) then asks_on a ps else 0.
Proof.
  induction 1 as [|p q ps qs (x & _ & _ & _ & ->) _ IH]; intros F; [by case_decide|].
  rewrite lines_on_cons, asks_on_cons, IH by (intros z Hz; apply F; by right). cbn [mn_account mn_funding mn_amount].
  rewrite (F p ltac:(by left)). repeat case_decide; try lia; naive_solver.
Qed.

Lemma moving_asks a e : asks_on a (moving_lines e) = asks_on a (me_postings e).
Proof.
  unfold moving_lines. induction (me_postings e) as [|p ps IH]; [done|]. rewrite filter_cons, asks_on_cons.
  destruct (decide (mn_amount p <> 0)) as [|H]; csimpl.
  - rewrite asks_on_cons. cbn [mn_account mn_amount]. by rewrite IH.
  - rewrite IH. case_decide; [|lia]. destruct (decide (mn_amount p = 0)); [lia|done].
Qed.

(** What a transaction's new entries move, in one funding, under which keys, and what they leave. *)
Record moved (ws funding : string) (keys : list string) ps d d' : Prop := {
  mv_balance a f : money_balance d' a f = money_balance d a f + (if decide (f = funding) then asks_on a ps else 0);
  mv_accounts : money_accounts d' = money_accounts d;
  mv_quotes : money_payment_quotes d' = money_payment_quotes d;
  mv_payments : money_payments d' = money_payments d;
  mv_entries : exists new, money_entries d' = new ++ money_entries d /\ (fun e => (en_ws e, en_key e)) <$> new = (fun k => (ws, k)) <$> keys;
}.

Lemma moved_none ws f d : moved ws f [] [] d d.
Proof. split; [|done..|by exists []]. intros a g. case_decide; cbn; lia. Qed.

Lemma moved_trans ws f k1 k2 ps1 ps2 d1 d2 d3 : moved ws f k1 ps1 d1 d2 -> moved ws f k2 ps2 d2 d3 -> moved ws f (k2 ++ k1) (ps1 ++ ps2) d1 d3.
Proof.
  intros [B1 A1 Q1 P1 (n1 & E1 & K1)] [B2 A2 Q2 P2 (n2 & E2 & K2)]. split; [|congruence..|].
  - intros a g. rewrite B2, B1, asks_on_app. case_decide; lia.
  - exists (n2 ++ n1). by rewrite E2, E1, app_assoc, !fmap_app, K1, K2.
Qed.

Section Sent.
Context (LL : string -> option Location) (G : Gates) (B : Bank).

Lemma post_moved c e d e' d' : postMoneyTx G (screener B) c e d = Ok (e', d') -> entry_by_key d (me_ws e) (me_key e) = None ->
  moved (me_ws e) (me_funding e) [me_key e] (me_postings e) d d'.
Proof.
  intros H F. apply postMoneyTx_ok in H as [_ [[[(prior & P & _) _] _]|(ps & A & -> & ->)]]; [cbn [named me_ws me_key] in P; by rewrite F in P|].
  set (e0 := named c _ e) in *. pose proof (ac_lines _ _ _ _ _ _ A) as R. split; [|done..|].
  - intros a f. unfold money_balance. cbn [wrote with_money_balances with_money dk_money money_account_balances].
    rewrite add_lines_lookup, (resolved_on _ _ _ _ a f R).
    + change (me_funding e0) with (me_funding e). by rewrite moving_asks.
    + intros p Hp. by apply moving_lines_elem in Hp as [Hp _].
  - by exists [row_of c e0].
Qed.

(** The accounts of a new entry's postings that move something are there. *)
Lemma post_accounts c e d e' d' x : postMoneyTx G (screener B) c e d = Ok (e', d') -> entry_by_key d (me_ws e) (me_key e) = None ->
  x ∈ me_postings e -> mn_amount x <> 0 -> exists a, money_accounts d !! mn_account x = Some a.
Proof.
  intros H F Hx Hn. apply postMoneyTx_ok in H as [_ [[[(prior & P & _) _] _]|(ps & A & -> & ->)]]; [cbn [named me_ws me_key] in P; by rewrite F in P|].
  pose proof (ac_lines _ _ _ _ _ _ A) as R. unfold moving_lines in R. rewrite Forall2_fmap_l in R.
  destruct (list_elem_of_lookup_1 (filter (fun y => mn_amount y <> 0) (me_postings e)) x) as [i Hi]; [by apply list_elem_of_filter|].
  destruct (Forall2_lookup_l _ _ _ _ _ R Hi) as (q & _ & a & Ha & _). apply entry_account_some in Ha as [Ha _]. by exists a.
Qed.
End Sent.

(** ** The invariant *)

(** A payment's amounts are what they say: together they do not wrap. *)
Record fits (amount cost fee : Z) : Prop := {
  ft_amount : 0 < amount;
  ft_cost : 0 <= cost;
  ft_fee : 0 <= fee;
  ft_all : amount + cost + fee <= max_i64;
}.

(** The accounts payments out are held in, and those that are not. *)
Definition hold_account d (id : string) : Prop :=
  exists a, money_accounts d !! id = Some a /\ ma_purpose a = MoneyHold /\ ma_agent a = ""%string.

Definition other_account d (id : string) : Prop :=
  exists a, money_accounts d !! id = Some a /\ ma_purpose a <> MoneyHold.

(** The keys of the entries a payment has had, where it stands. *)
Definition step_key p (key : string) : Prop :=
  key = payment_key "hold" (mp_key p)
  \/ key = payment_key "failed" (mp_key p) /\ mp_status p = PaymentFailed
  \/ key = screenKey (mp_key p) /\ mp_status p ∈ [PaymentCompleted; PaymentReturned]
  \/ key = payment_key "returned" (mp_key p) /\ mp_status p = PaymentReturned.

(** What a payment has in a hold account, and what all have. *)
Definition holds (account funding : string) p : Z :=
  if decide (mp_hold p = account /\ mp_funding p = funding /\ in_flight (mp_status p) = true) then debit p else 0.

Definition held_for (account funding : string) (l : list MoneyPayment) : Z := sumZ (holds account funding <$> l).

(** A payment's row, as its accounts are. *)
Record row_ok d p : Prop := {
  ro_fits : fits (mp_amount p) (mp_cost p) (mp_fee p);
  ro_hold : hold_account d (mp_hold p);
  ro_account : other_account d (mp_account p);
}.

(** The keys of payments' entries are theirs alone. *)
Definition payments_key (key : string) : bool := String.prefix "payment_out" key.

(** What payments out keep: each has one key and one identifier; an entry under a payment's
    key is of a payment that is as far as that; and an account payments are held in holds, in
    each funding, what is on its way, to the last minor unit. *)
Record payments_inv d : Prop := {
  pi_ids : NoDup (mp_id <$> money_payments d);
  pi_keys : NoDup ((fun p => (mp_ws p, mp_key p)) <$> money_payments d);
  pi_rows p : p ∈ money_payments d -> row_ok d p;
  pi_entries e : e ∈ money_entries d -> payments_key (en_key e) = true ->
    exists p, p ∈ money_payments d /\ mp_ws p = en_ws e /\ step_key p (en_key e);
  pi_hold id f : hold_account d id -> money_balance d id f = held_for id f (money_payments d);
  pi_quotes id x : money_payment_quotes d !! id = Some x -> fits (qu_amount x) (qu_cost x) (qu_fee x);
}.

Lemma debit_exact p : fits (mp_amount p) (mp_cost p) (mp_fee p) -> debit p = mp_amount p + mp_cost p + mp_fee p.
Proof. intros [A C F T]. unfold debit. rewrite (wrap64_id (mp_amount p + mp_cost p)), wrap64_id; unfold in_i64, min_i64, max_i64 in *; lia. Qed.

Lemma neg_exact z : 0 <= z <= max_i64 -> -! z = - z.
Proof. intros H. apply wrap64_id. unfold in_i64, min_i64, max_i64 in *. lia. Qed.

(** Keys tell a payment's steps apart. *)
Ltac split_keys H :=
  unfold step_key, payment_key, screenKey in H;
  destruct H as [H|[[H ?St]|[[H ?St]|[H ?St]]]]; try discriminate H;
  injection H as H; change (""%string +:+ ?x) with x in H; symmetry in H.

Lemma step_hold_key p k : step_key p (payment_key "hold" k) -> mp_key p = k.
Proof. intros H. by split_keys H. Qed.

Lemma step_failed_key p k : step_key p (payment_key "failed" k) -> mp_key p = k /\ mp_status p = PaymentFailed.
Proof. intros H. by split_keys H. Qed.

Lemma step_out_key p k : step_key p (screenKey k) -> mp_key p = k /\ mp_status p ∈ [PaymentCompleted; PaymentReturned].
Proof. intros H. by split_keys H. Qed.

Lemma step_returned_key p k : step_key p (payment_key "returned" k) -> mp_key p = k /\ mp_status p = PaymentReturned.
Proof. intros H. by split_keys H. Qed.

(** ** What keeps it *)

Lemma pair_unique {A C} (f : A -> C) (l : list A) x y : NoDup (f <$> l) -> x ∈ l -> y ∈ l -> f x = f y -> x = y.
Proof.
  induction l as [|z l IH]; [by intros _ ?%not_elem_of_nil|]. intros [Hz Hl]%NoDup_cons [-> | Hx]%elem_of_cons [-> | Hy]%elem_of_cons E; [done|..].
  - destruct Hz. rewrite E. by apply list_elem_of_fmap_2.
  - destruct Hz. rewrite <- E. by apply list_elem_of_fmap_2.
  - by apply IH.
Qed.

Lemma same_payment d p q : payments_inv d -> p ∈ money_payments d -> q ∈ money_payments d ->
  mp_ws q = mp_ws p -> mp_key q = mp_key p -> q = p.
Proof. intros I Hp Hq E1 E2. apply (pair_unique _ _ _ _ (pi_keys _ I) Hq Hp). cbv beta. by rewrite E1, E2. Qed.

Lemma payment_by_id_ok (s : Store) id p : payment_by_id s id = Some p -> p ∈ money_payments s /\ mp_id p = id.
Proof. intros H. apply List.find_some in H as [H E%bool_decide_eq_true]. split; [by apply list_elem_of_In|done]. Qed.

Lemma payment_by_id_none (s : Store) id : payment_by_id s id = None -> id ∉ mp_id <$> money_payments s.
Proof.
  intros H (p & -> & Hp%list_elem_of_In)%list_elem_of_fmap. by apply (List.find_none _ _ H), bool_decide_eq_false in Hp.
Qed.

Lemma payment_by_key_ok (s : Store) ws key p : payment_by_key s ws key = Some p -> p ∈ money_payments s /\ mp_ws p = ws /\ mp_key p = key.
Proof. intros H. apply List.find_some in H as [H [E1 E2]%bool_decide_eq_true]. split; [by apply list_elem_of_In|done]. Qed.

Lemma payment_by_key_none (s : Store) ws key : payment_by_key s ws key = None ->
  (ws, key) ∉ (fun p => (mp_ws p, mp_key p)) <$> money_payments s.
Proof.
  intros H (p & [= -> ->] & Hp%list_elem_of_In)%list_elem_of_fmap. apply (List.find_none _ _ H), bool_decide_eq_false in Hp. by apply Hp.
Qed.

(** An entry of a payment's that it has not had yet is not there. *)
Lemma fresh_key d ws key : payments_inv d -> payments_key key = true ->
  (forall p, p ∈ money_payments d -> mp_ws p = ws -> ~ step_key p key) -> entry_by_key d ws key = None.
Proof.
  intros I Hk N. apply entry_by_key_none. intros (e & [= -> ->] & He)%list_elem_of_fmap.
  destruct (pi_entries _ I e He Hk) as (p & Hp & Ep & S). by apply (N p).
Qed.

Lemma grow_row d d' p : (forall id a, money_accounts d !! id = Some a -> money_accounts d' !! id = Some a) -> row_ok d p -> row_ok d' p.
Proof. intros H [F (a & Ha & Pa) (b & Hb & Pb)]. split; [done|by exists a; auto|by exists b; auto]. Qed.

Lemma held_for_none d id f : payments_inv d -> money_accounts d !! id = None -> held_for id f (money_payments d) = 0.
Proof.
  intros I N. unfold held_for.
  assert (H : forall p, p ∈ money_payments d -> holds id f p = 0).
  { intros p Hp. unfold holds. rewrite decide_False; [done|]. intros [<- _]. destruct (ro_hold _ _ (pi_rows _ I p Hp)) as (a & Ha & _). congruence. }
  clear I N. induction (money_payments d) as [|p l IH]; [done|]. csimpl. rewrite H by (by left). rewrite IH; [done|].
  intros q Hq. apply H. by right.
Qed.

Lemma grow_inv old d d' : ledger_pre old d -> payments_inv d -> accounts_grow d d' -> payments_inv d'.
Proof.
  intros L I [Ga Ge Gp Gb Gq Gm]. pose proof I as [I1 I2 I3 I4 I5 I6]. split; rewrite ?Gm, ?Ge, ?Gq; try done.
  - intros p Hp. by apply (grow_row d), I3.
  - intros id f (a & Ha & Pa & Na). unfold money_balance. rewrite Gb. change (money_balance d id f = held_for id f (money_payments d)).
    destruct (money_accounts d !! id) as [b|] eqn:Eb; [apply I5; exists b; rewrite (Ga _ _ Eb) in Ha; by injection Ha as <-|].
    rewrite (held_for_none _ _ _ I Eb), (lg_balance _ _ L). unfold all_lines, lines_on.
    destruct (filter _ _) as [|x l] eqn:El; [done|]. exfalso.
    assert (Hx : x ∈ filter (fun x => mn_account x = id /\ mn_funding x = f) (ln_posting <$> money_postings d)) by (rewrite El; by left).
    apply list_elem_of_filter in Hx as [[<- _] (r & -> & Hr)%list_elem_of_fmap].
    destruct (lg_lines _ _ L r Hr) as (_ & b & Hb & _). congruence.
Qed.

(** Money that moves under other keys and on other accounts leaves the payments as they are. *)
Lemma foreign_inv ws f keys ps d d' : payments_inv d -> moved ws f keys ps d d' ->
  (forall k, k ∈ keys -> payments_key k = false) -> (forall id, hold_account d id -> asks_on id ps = 0) -> payments_inv d'.
Proof.
  intros [I1 I2 I3 I4 I5 I6] [Mb Ma Mq Mp (new & Me & Mk)] Fk Fa. split; rewrite ?Mp, ?Mq; try done.
  - intros p Hp. apply (grow_row d); [by rewrite Ma|by apply I3].
  - intros e He Hk. rewrite Me in He. apply elem_of_app in He as [He|He]; [|by apply I4]. exfalso.
    apply (list_elem_of_fmap_2 (fun e => (en_ws e, en_key e))) in He. rewrite Mk in He.
    apply list_elem_of_fmap in He as (k & [= _ Ek] & Hk'). by rewrite Ek, (Fk _ Hk') in Hk.
  - intros id g (a & Ha & Pa). rewrite Ma in Ha. assert (H : hold_account d id) by (by exists a).
    rewrite Mb, (Fa _ H), (I5 _ _ H). case_decide; lia.
Qed.

Lemma two_accounts d a b : hold_account d a -> other_account d b -> b <> a.
Proof. intros (x & Hx & Px & _) (y & Hy & Py) ->. congruence. Qed.

Lemma grow_accounts d d' id : accounts_grow d d' -> (hold_account d id -> hold_account d' id) /\ (other_account d id -> other_account d' id).
Proof. intros Gr. split; intros (a & Ha & Pa); exists a; (split; [by apply (gr_accounts _ _ Gr)|done]). Qed.

(** A payment recorded and held. *)
Lemma hold_inv p d d' : payments_inv d -> payment_by_key d (mp_ws p) (mp_key p) = None -> payment_by_id d (mp_id p) = None ->
  row_ok d p -> mp_status p = PaymentPending ->
  moved (mp_ws p) (mp_funding p) [payment_key "hold" (mp_key p)] (me_postings (hold_entry p)) (with_payments (p :: money_payments d) d) d' ->
  payments_inv d'.
Proof.
  intros I Hk%payment_by_key_none Hi%payment_by_id_none R St [Mb Ma Mq Mp (new & Me & Mk)]. pose proof I as [I1 I2 I3 I4 I5 I6].
  change (money_payments d' = p :: money_payments d) in Mp. change (money_accounts d' = money_accounts d) in Ma.
  change (money_payment_quotes d' = money_payment_quotes d) in Mq. change (money_entries d' = new ++ money_entries d) in Me.
  split; rewrite ?Mp, ?Mq; try done; [csimpl; by constructor|csimpl; by constructor| | |].
  - intros q [-> | Hq]%elem_of_cons; (apply (grow_row d); [by rewrite Ma|]); [done|by apply I3].
  - intros e He Hx. rewrite Me in He. apply elem_of_app in He as [He|He].
    + apply (list_elem_of_fmap_2 (fun e => (en_ws e, en_key e))) in He. rewrite Mk in He. csimpl in He.
      apply list_elem_of_singleton in He as [= E1 E2]. exists p. split_and!; [by left|done|]. rewrite E2. by left.
    + destruct (I4 e He Hx) as (q & Hq & Sq). exists q. split; [by right|done].
  - intros id f Ha. assert (Ha' : hold_account d id) by (destruct Ha as (a & Ha & Pa); rewrite Ma in Ha; by exists a).
    rewrite Mb. change (money_balance (with_payments _ d) id f) with (money_balance d id f). rewrite (I5 _ _ Ha').
    unfold held_for. csimpl. cbn [me_postings hold_entry]. rewrite !asks_on_cons. cbn [mn_account mn_amount].
    rewrite (decide_False (P := mp_account p = id)) by (apply (two_accounts _ _ _ Ha'), (ro_account _ _ R)).
    change (asks_on id []) with 0. unfold holds at 2. rewrite St. change (in_flight PaymentPending) with true.
    repeat case_decide; try lia; naive_solver.
Qed.

(** The same payment, further on. *)
Definition asked p : string * string * string * (string * string * string * string) * (Z * string * string * string * string) :=
  (mp_id p, mp_ws p, mp_key p, (mp_account p, mp_hold p, mp_agent p, mp_payee p),
   (mp_amount p, mp_currency p, mp_funding p, mp_reference p, mp_quote p)).

Definition same_row p p' : Prop := asked p' = asked p /\ mp_cost p' = mp_cost p /\ mp_fee p' = mp_fee p.

Lemma put_payment_ids p l : mp_id <$> put_payment p l = mp_id <$> l.
Proof.
  unfold put_payment. rewrite <- list_fmap_compose. apply list_fmap_ext. intros i q _. cbn. by case_bool_decide.
Qed.

Lemma put_payment_keys p p' l : p ∈ l -> NoDup (mp_id <$> l) -> asked p' = asked p ->
  (fun q => (mp_ws q, mp_key q)) <$> put_payment p' l = (fun q => (mp_ws q, mp_key q)) <$> l.
Proof.
  intros Hp N E. unfold put_payment. rewrite <- list_fmap_compose. apply list_fmap_ext. intros i q Hq%list_elem_of_lookup_2. cbn.
  case_bool_decide as Ei; [|done]. injection E as E1 E2 E3 _ _ _ _ _ _ _ _ _.
  enough (q = p) as -> by (by rewrite E2, E3). apply (pair_unique mp_id l); [done..|by rewrite Ei, E1].
Qed.

Lemma put_payment_elem p l q : q ∈ put_payment p l -> q = p \/ q ∈ l /\ mp_id q <> mp_id p.
Proof. intros (x & -> & Hx)%list_elem_of_fmap. case_bool_decide; [by left|by right]. Qed.

Lemma put_payment_in p l q : q ∈ l -> mp_id q <> mp_id p -> q ∈ put_payment p l.
Proof. intros Hq Hn. unfold put_payment. apply list_elem_of_fmap. exists q. split; [by rewrite bool_decide_eq_false_2|done]. Qed.

Lemma put_payment_self p q l : q ∈ l -> mp_id q = mp_id p -> p ∈ put_payment p l.
Proof. intros Hq Hn. unfold put_payment. apply list_elem_of_fmap. exists q. split; [by rewrite bool_decide_eq_true_2|done]. Qed.

Lemma put_payment_absent p l : mp_id p ∉ mp_id <$> l -> put_payment p l = l.
Proof.
  intros N. unfold put_payment. rewrite <- (list_fmap_id l) at 2. apply list_fmap_ext. intros i x Hx%list_elem_of_lookup_2.
  rewrite bool_decide_eq_false_2; [done|]. intros Ex. destruct N. rewrite <- Ex. by apply list_elem_of_fmap_2.
Qed.

Lemma held_for_put account f p p' l : NoDup (mp_id <$> l) -> p ∈ l -> mp_id p' = mp_id p ->
  held_for account f (put_payment p' l) = held_for account f l + holds account f p' - holds account f p.
Proof.
  unfold held_for. induction l as [|q l IH]; [by intros _ ?%not_elem_of_nil|].
  rewrite fmap_cons. intros [Hq Hl]%NoDup_cons Hp E.
  change (put_payment p' (q :: l)) with ((if bool_decide (mp_id q = mp_id p') then p' else q) :: put_payment p' l). rewrite !fmap_cons.
  apply elem_of_cons in Hp as [-> | Hp]; csimpl.
  - rewrite bool_decide_eq_true_2, put_payment_absent by (done || by rewrite E). lia.
  - rewrite bool_decide_eq_false_2; [rewrite (IH Hl Hp E); lia|]. intros Ex. destruct Hq. rewrite Ex, E. by apply list_elem_of_fmap_2.
Qed.

Lemma settle_inv p p' keys ps d d' : payments_inv d -> p ∈ money_payments d -> same_row p p' ->
  moved (mp_ws p) (mp_funding p) keys ps d d' ->
  (forall k, step_key p k -> step_key p' k) -> (forall k, k ∈ keys -> step_key p' k) ->
  (forall id, hold_account d id -> asks_on id ps = holds id (mp_funding p) p' - holds id (mp_funding p) p) ->
  payments_inv (with_payments (put_payment p' (money_payments d')) d').
Proof.
  intros I Hp [As [Ec Ef]] [Mb Ma Mq Mp (new & Me & Mk)] K1 K2 Hh. pose proof I as [I1 I2 I3 I4 I5 I6].
  pose proof As as As'. injection As' as E1 E2 E3 E4 E5 E6 E7 E8 E9 E10 E11 E12.
  assert (Up : forall q, q ∈ money_payments d -> exists q', q' ∈ put_payment p' (money_payments d) /\ mp_ws q' = mp_ws q /\
      forall k, step_key q k -> step_key q' k).
  { intros q Hq. destruct (decide (mp_id q = mp_id p')) as [E|E]; [|exists q; split_and!; [by apply put_payment_in|done..]].
    assert (q = p) as -> by (apply (pair_unique mp_id (money_payments d)); [done..|by rewrite E, E1]).
    exists p'. split_and!; [by apply (put_payment_self _ p)|done|done]. }
  split; change (money_payments (with_payments ?l _)) with l; rewrite ?Mp.
  - by rewrite put_payment_ids.
  - by rewrite (put_payment_keys p).
  - intros q Hq. apply (grow_row d); [by change (dk_money (with_payments _ d')) with (dk_money d'); rewrite Ma|].
    apply put_payment_elem in Hq as [-> | [Hq _]]; [|by apply I3]. destruct (I3 p Hp) as [F H A].
    split; [by rewrite E8, Ec, Ef|by rewrite E5|by rewrite E4].
  - intros e He Hx. change (money_entries (with_payments _ d')) with (money_entries d') in He. rewrite Me in He. apply elem_of_app in He as [He|He].
    + apply (list_elem_of_fmap_2 (fun e => (en_ws e, en_key e))) in He. rewrite Mk in He.
      apply list_elem_of_fmap in He as (k & [= Ew Ek] & Hk). exists p'.
      split_and!; [by apply (put_payment_self _ p)|by rewrite E2, Ew|rewrite Ek; by apply K2].
    + destruct (I4 e He Hx) as (q & Hq & Wq & Sq). destruct (Up q Hq) as (q' & H1 & H2 & H3). exists q'. split_and!; [done|congruence|auto].
  - intros id f Ha. assert (Ha' : hold_account d id) by (destruct Ha as (a & Ha & Pa); change (dk_money (with_payments _ d')) with (dk_money d') in Ha; rewrite Ma in Ha; by exists a).
    change (money_balance (with_payments _ d') id f) with (money_balance d' id f).
    rewrite Mb, (I5 _ _ Ha'), (held_for_put _ _ p) by done. case_decide as Df.
    + subst f. rewrite (Hh _ Ha'). lia.
    + unfold holds. rewrite E10, !decide_False by naive_solver. lia.
  - change (money_payment_quotes (with_payments _ d')) with (money_payment_quotes d'). by rewrite Mq.
Qed.

(** ** Where a payment goes *)

Definition kind_account d (id ws currency purpose ref : string) : Prop :=
  exists a, money_accounts d !! id = Some a /\ ma_ws a = ws /\ ma_currency a = currency /\ ma_purpose a = purpose /\ ma_agent a = ""%string
    /\ (purpose = MoneyHold \/ ma_partner_ref a = ref).

(** The lines that take a payment out and bring it back, through the accounts there are. *)
Inductive routes d p (partner : string) : list MoneyPosting -> list MoneyPosting -> Prop :=
| RouteDomestic : international p = false -> routes d p partner (domestic_out p partner) (domestic_back p partner)
| RouteAbroad revenue conversion paid :
    international p = true ->
    kind_account d revenue (mp_ws p) (mp_currency p) MoneyRevenue "" ->
    kind_account d conversion (mp_ws p) (mp_arrives_currency p) MoneyPartner "intl:conversion" ->
    kind_account d paid (mp_ws p) (mp_arrives_currency p) MoneyPartner "intl:payments" ->
    routes d p partner
      (domestic_out p partner ++ [mkMoneyPosting revenue (mp_fee p) "" ""; mkMoneyPosting conversion (-! mp_arrives p) (mp_arrives_currency p) "";
                                  mkMoneyPosting paid (mp_arrives p) (mp_arrives_currency p) ""])
      (domestic_back p partner ++ [mkMoneyPosting paid (-! mp_arrives p) (mp_arrives_currency p) "";
                                   mkMoneyPosting conversion (mp_arrives p) (mp_arrives_currency p) ""]).

Lemma kind_grow d d' id ws currency purpose ref : accounts_grow d d' -> kind_account d id ws currency purpose ref -> kind_account d' id ws currency purpose ref.
Proof. intros Gr (a & Ha & Pa). exists a. split; [by apply (gr_accounts _ _ Gr)|done]. Qed.

Lemma movements_ok c p partner d out back d' : movements c p partner d = Ok ((out, back), d') -> accounts_grow d d' /\ routes d' p partner out back.
Proof.
  unfold movements. destruct (international p) eqn:E; cbn [negb]; intros H; cycle 1.
  { apply tx_ret_ok in H as [[= -> ->] ->]. split; [done|]. by constructor. }
  apply tx_bind_ok in H as (rv & d1 & H1 & H). apply find_or_open_ok in H1 as [G1 K1].
  apply tx_bind_ok in H as (cv & d2 & H2 & H). apply find_or_open_ok in H2 as [G2 K2].
  apply tx_bind_ok in H as (pd & d3 & H3 & H). apply find_or_open_ok in H3 as [G3 K3].
  apply tx_ret_ok in H as [[= -> ->] ->]. split; [by transitivity d1; [|transitivity d2]|].
  apply RouteAbroad; [done| | |exact K3].
  - apply (kind_grow d1); [by transitivity d2|exact K1].
  - by apply (kind_grow d2).
Qed.

(** What a payment's lines add to an account payments are held in. *)
Lemma kind_other d id ws currency purpose ref : purpose <> MoneyHold -> kind_account d id ws currency purpose ref -> other_account d id.
Proof. intros N (a & Ha & _ & _ & Pa & _). exists a. split; [done|by rewrite Pa]. Qed.

Lemma asks_other d id ps : hold_account d id -> Forall (fun x => other_account d (mn_account x)) ps -> asks_on id ps = 0.
Proof.
  intros H. induction 1 as [|x ps Hx _ IH]; [done|]. rewrite asks_on_cons, IH, decide_False; [done|]. by apply (two_accounts d).
Qed.

Lemma routes_asks d p partner out back id : routes d p partner out back -> row_ok d p -> other_account d partner -> hold_account d id ->
  asks_on id out = (if decide (mp_hold p = id) then -! debit p else 0) /\ asks_on id back = 0.
Proof.
  intros R [_ _ A] Hp Hi.
  assert (N : forall x, other_account d x -> x <> id) by (intros x; by apply two_accounts).
  assert (D : asks_on id (domestic_out p partner) = (if decide (mp_hold p = id) then -! debit p else 0) /\ asks_on id (domestic_back p partner) = 0).
  { unfold domestic_out, domestic_back. rewrite !asks_on_cons. cbn [mn_account mn_amount]. change (asks_on id []) with 0.
    rewrite !(decide_False (P := partner = id)), !(decide_False (P := mp_account p = id)) by auto. case_decide; lia. }
  destruct D as [D1 D2]. destruct R as [_|rv cv pd _ K1 K2 K3]; [done|]. rewrite !asks_on_app, D1, D2.
  apply kind_other in K1, K2, K3; [|done..].
  rewrite !(asks_other d) by (done || (repeat constructor; done)). split; [case_decide; lia|lia].
Qed.

Lemma failed_asks d p id : row_ok d p -> hold_account d id -> asks_on id (failed_lines p) = if decide (mp_hold p = id) then -! debit p else 0.
Proof.
  intros [_ _ A] Hi. unfold failed_lines. rewrite !asks_on_cons. cbn [mn_account mn_amount]. change (asks_on id []) with 0.
  rewrite (decide_False (P := mp_account p = id)) by (by apply (two_accounts d)). case_decide; lia.
Qed.

(** Where a partner's answer leaves a payment, under which keys and by which lines. *)
Definition settled p (status : string) (out back : list MoneyPosting) : option (string * list string * list MoneyPosting) :=
  let flying := in_flight (mp_status p) in
  if bool_decide (status = StatusPending) then Some (if bool_decide (mp_status p = PaymentPending) then PaymentSent else mp_status p, [], [])
  else if bool_decide (status = StatusFailed) then
    if flying then Some (PaymentFailed, [payment_key "failed" (mp_key p)], failed_lines p) else Some (mp_status p, [], [])
  else if bool_decide (status = StatusCompleted) then
    if flying then Some (PaymentCompleted, [screenKey (mp_key p)], out) else Some (mp_status p, [], [])
  else if bool_decide (status = StatusReturned) then
    if flying then Some (PaymentReturned, [payment_key "returned" (mp_key p); screenKey (mp_key p)], out ++ back)
    else if bool_decide (mp_status p = PaymentCompleted) then Some (PaymentReturned, [payment_key "returned" (mp_key p)], back)
    else Some (mp_status p, [], [])
  else None.

Lemma moved_fresh ws f keys ps d d' k : moved ws f keys ps d d' -> entry_by_key d ws k = None -> k ∉ keys -> entry_by_key d' ws k = None.
Proof.
  intros [_ _ _ _ (new & Me & Mk)] H%entry_by_key_none N. apply entry_by_key_none. rewrite Me, fmap_app, Mk, elem_of_app.
  intros [(x & [= Ex] & Hx)%list_elem_of_fmap|Hx]; [by subst|done].
Qed.

Section Settling.
Context (G : Gates) (B : Bank).

Lemma post_ok c p kind key outside ps d u d' : post G B c p kind key outside ps d = Ok (u, d') -> entry_by_key d (mp_ws p) key = None ->
  moved (mp_ws p) (mp_funding p) [key] ps d d'.
Proof.
  unfold post. intros H F. apply tx_bind_ok in H as (e & d1 & H1 & H). apply tx_ret_ok in H as [_ ->].
  by apply (post_moved _ _ _ (payment_entry p kind key outside ps)) in H1.
Qed.

Lemma post_pre old c p kind key outside ps d u d' : post G B c p kind key outside ps d = Ok (u, d') -> ledger_pre old d -> ledger_pre old d'.
Proof.
  unfold post. intros H L. apply tx_bind_ok in H as (e & d1 & H1 & H). apply tx_ret_ok in H as [_ ->].
  by eapply postMoneyTx_pre.
Qed.

(** A step's key is not used while the payment has not taken it. *)
Lemma step_fresh d p p0 key : payments_inv d -> p0 ∈ money_payments d -> mp_ws p = mp_ws p0 -> mp_key p = mp_key p0 -> mp_status p = mp_status p0 ->
  payments_key key = true ->
  (forall q, step_key q key -> mp_key q = mp_key p) -> ~ step_key p0 key -> entry_by_key d (mp_ws p) key = None.
Proof.
  intros I Hp Ew Ek Es Hk U N. apply (fresh_key _ _ _ I Hk). intros q Hq Wq Sq. apply N.
  replace p0 with q; [done|]. apply (same_payment d); [done..|congruence|]. rewrite <- Ek. by apply U.
Qed.

Lemma flying_status s : in_flight s = true -> s <> PaymentFailed /\ s ∉ [PaymentCompleted; PaymentReturned] /\ s <> PaymentReturned.
Proof.
  intros H%bool_decide_eq_true. unfold PaymentFailed, PaymentCompleted, PaymentReturned. set_unfold in H. destruct H as [-> | [-> | []]]; (split_and!; [done| |done]); by apply (bool_decide_unpack _).
Qed.

Lemma apply_status_ok old c p p0 status out back d s d' :
  apply_status G B c p status out back d = Ok (s, d') -> ledger_pre old d -> payments_inv d -> p0 ∈ money_payments d ->
  mp_ws p = mp_ws p0 -> mp_key p = mp_key p0 -> mp_status p = mp_status p0 ->
  exists keys ps, settled p status out back = Some (s, keys, ps) /\ moved (mp_ws p) (mp_funding p) keys ps d d' /\ ledger_pre old d'.
Proof.
  intros H L I Hp Ew Ek Es. pose proof (flying_status (mp_status p)) as Fl.
  assert (Ff : mp_status p <> PaymentFailed -> entry_by_key d (mp_ws p) (payment_key "failed" (mp_key p)) = None).
  { intros N. apply (step_fresh d p p0); try done; [by intros q [? _]%step_failed_key|]. intros [_ S]%step_failed_key. congruence. }
  assert (Fo : mp_status p ∉ [PaymentCompleted; PaymentReturned] -> entry_by_key d (mp_ws p) (screenKey (mp_key p)) = None).
  { intros N. apply (step_fresh d p p0); try done; [by intros q [? _]%step_out_key|]. intros [_ S]%step_out_key. congruence. }
  assert (Fr : mp_status p <> PaymentReturned -> entry_by_key d (mp_ws p) (payment_key "returned" (mp_key p)) = None).
  { intros N. apply (step_fresh d p p0); try done; [by intros q [? _]%step_returned_key|]. intros [_ S]%step_returned_key. congruence. }
  unfold apply_status in H. unfold settled.
  destruct (bool_decide_reflect (status = StatusPending)) as [->|Np]; [apply tx_ret_ok in H as [-> ->]; eexists _, _; by split; [|split; [apply moved_none|]]|].
  destruct (bool_decide_reflect (status = StatusFailed)) as [->|Nf].
  { destruct (in_flight (mp_status p)) eqn:Fy; [|apply tx_ret_ok in H as [-> ->]; eexists _, _; by split; [|split; [apply moved_none|]]].
    apply tx_bind_ok in H as (u & d1 & H1 & H). apply tx_ret_ok in H as [-> ->]. eexists _, _. split; [done|].
    split; [by eapply post_ok; [|apply Ff, Fl]|by eapply post_pre]. }
  destruct (bool_decide_reflect (status = StatusCompleted)) as [->|Nc].
  { apply tx_bind_ok in H as (now_ & d1 & H1 & H).
    change (tx_ret (E := MoneyErr) now_ d1 = Ok (s, d')) in H. apply tx_ret_ok in H as [-> ->].
    destruct (in_flight (mp_status p)) eqn:Fy; [|apply tx_ret_ok in H1 as [-> ->]; eexists _, _; by split; [|split; [apply moved_none|]]].
    apply tx_bind_ok in H1 as (u & d2 & H1 & H2). apply tx_ret_ok in H2 as [-> ->]. eexists _, _. split; [done|].
    split; [by eapply post_ok; [|apply Fo, Fl]|by eapply post_pre]. }
  destruct (bool_decide_reflect (status = StatusReturned)) as [->|Nr].
  2: { unfold Contains in H. rewrite bool_decide_eq_false_2 in H; [by apply tx_fail_ok in H|]. set_solver. }
  apply tx_bind_ok in H as (now_ & d1 & H1 & H). destruct (in_flight (mp_status p)) eqn:Fy.
  - destruct (Fl eq_refl) as (_ & N1 & N2). apply tx_bind_ok in H1 as (u & d2 & H1 & H2). apply tx_ret_ok in H2 as [-> ->].
    rewrite bool_decide_eq_true_2 in H by done. apply tx_bind_ok in H as (u' & d3 & H2 & H). apply tx_ret_ok in H as [-> ->].
    pose proof (post_ok _ _ _ _ _ _ _ _ _ H1 (Fo N1)) as M1. eexists _, _. split; [done|]. split.
    + eapply moved_trans with (k2 := [_]); [exact M1|]. eapply post_ok; [exact H2|]. apply (moved_fresh _ _ _ _ _ _ _ M1); [by apply Fr|].
      intros E%list_elem_of_singleton. discriminate E.
    + eapply post_pre; [exact H2|]. by eapply post_pre.
  - apply tx_ret_ok in H1 as [-> ->]. destruct (bool_decide_reflect (mp_status p = PaymentCompleted)) as [Ec|Nc'].
    + rewrite bool_decide_eq_true_2 in H by done. apply tx_bind_ok in H as (u' & d3 & H2 & H). apply tx_ret_ok in H as [-> ->].
      eexists _, _. split; [done|]. split; [|by eapply post_pre]. eapply post_ok; [exact H2|]. apply Fr. by rewrite Ec.
    + rewrite bool_decide_eq_false_2 in H by tauto. apply tx_ret_ok in H as [-> ->]. eexists _, _. by split; [|split; [apply moved_none|]].
Qed.
End Settling.

(** ** The partner's answer *)

(** How far an answer takes a payment. *)
Inductive advance p (out back : list MoneyPosting) : string -> list string -> list MoneyPosting -> Prop :=
| Stays : advance p out back (mp_status p) [] []
| Sends : mp_status p = PaymentPending -> advance p out back PaymentSent [] []
| Fails_ : in_flight (mp_status p) = true -> advance p out back PaymentFailed [payment_key "failed" (mp_key p)] (failed_lines p)
| Completes : in_flight (mp_status p) = true -> advance p out back PaymentCompleted [screenKey (mp_key p)] out
| Bounces : in_flight (mp_status p) = true ->
    advance p out back PaymentReturned [payment_key "returned" (mp_key p); screenKey (mp_key p)] (out ++ back)
| Returns : mp_status p = PaymentCompleted -> advance p out back PaymentReturned [payment_key "returned" (mp_key p)] back.

Lemma settled_advance p status out back s keys ps : settled p status out back = Some (s, keys, ps) -> advance p out back s keys ps.
Proof.
  unfold settled. destruct (bool_decide (status = StatusPending)), (bool_decide (status = StatusFailed)),
    (bool_decide (status = StatusCompleted)), (bool_decide (status = StatusReturned)); try done.
  all: try (destruct (bool_decide_reflect (mp_status p = PaymentPending)); intros [= <- <- <-]; by constructor).
  all: destruct (in_flight (mp_status p)) eqn:Fy; try (intros [= <- <- <-]; by constructor).
  destruct (bool_decide_reflect (mp_status p = PaymentCompleted)); intros [= <- <- <-]; by constructor.
Qed.

(** Where a payment stands has no step before it undone. *)
Lemma step_stays p p' : mp_key p' = mp_key p -> (mp_status p' = mp_status p \/
    mp_status p <> PaymentFailed /\ mp_status p <> PaymentReturned /\ (mp_status p ∈ [PaymentCompleted; PaymentReturned] -> mp_status p' = PaymentReturned)) ->
  forall k, step_key p k -> step_key p' k.
Proof.
  unfold step_key. intros -> [-> | (N1 & N3 & N2)] k; [done|]. intros [H|[[_ S]|[[H S]|[_ S]]]]; [by left|done| |done].
  right; right; left. split; [done|]. rewrite (N2 S). right. by left.
Qed.

Lemma advance_keys p p' out back keys ps : advance p out back (mp_status p') keys ps -> mp_key p' = mp_key p ->
  (forall k, step_key p k -> step_key p' k) /\ (forall k, k ∈ keys -> step_key p' k).
Proof.
  intros A Ek. pose proof (flying_status (mp_status p)) as Fl. split.
  - apply step_stays; [done|]. inversion A as [Es|Ep Es|Fy Es|Fy Es|Fy Es|Ec Es]; [by left|right..].
    + rewrite Ep. split_and!; [done..|]. intros H. exfalso. revert H. by apply (bool_decide_unpack _).
    + destruct (Fl Fy) as (N1 & N2 & N3). by split_and!.
    + destruct (Fl Fy) as (N1 & N2 & N3). by split_and!.
    + destruct (Fl Fy) as (N1 & N2 & N3). by split_and!.
    + rewrite Ec. by split_and!.
  - unfold step_key. rewrite Ek. inversion A as [Es|Ep Es|Fy Es|Fy Es|Fy Es|Ec Es]; intros k; rewrite ?elem_of_cons, ?elem_of_nil; intros H.
    + done.
    + done.
    + destruct H as [-> | []]. by right; left.
    + destruct H as [-> | []]. right; right; left. split; [done|by left].
    + destruct H as [-> | [-> | []]]; right; right; [by right|left]. split; [done|right; by left].
    + destruct H as [-> | []]. by right; right; right.
Qed.

(** What it adds to the account the payment is held in. *)
Lemma advance_asks d p p' partner out back keys ps id : advance p out back (mp_status p') keys ps -> same_row p p' ->
  routes d p partner out back -> row_ok d p -> other_account d partner -> hold_account d id ->
  asks_on id ps = holds id (mp_funding p) p' - holds id (mp_funding p) p.
Proof.
  intros A [As [Ec Ef]] R Ro Hp Hi. destruct (routes_asks _ _ _ _ _ _ R Ro Hp Hi) as [Ro1 Ro2]. pose proof (failed_asks _ _ _ Ro Hi) as Fa.
  injection As as _ _ _ _ Eh _ _ Ea _ Eg _ _. pose proof (debit_exact _ (ro_fits _ _ Ro)) as De. destruct (ro_fits _ _ Ro) as [F1 F2 F3 F4].
  rewrite neg_exact in Ro1, Fa by lia.
  assert (Ed : debit p' = debit p) by (unfold debit; by rewrite Ea, Ec, Ef). unfold holds. rewrite Ed, Eh, Eg.
  inversion A as [Es|Ep Es|Fy Es|Fy Es|Fy Es|Ecm Es]; rewrite ?asks_on_app, ?Ro1, ?Ro2, ?Fa; try rewrite Fy; try rewrite Ep; try rewrite Ecm;
    try change (asks_on id []) with 0;
    repeat match goal with |- context [in_flight ?s] => progress let v := eval vm_compute in (in_flight s) in change (in_flight s) with v end;
    repeat case_decide; try lia; naive_solver.
Qed.

(** The books and the payments, together. *)
Record bank_inv d : Prop := {
  bi_ledger : ledger_inv d;
  bi_payments : payments_inv d;
}.

Lemma payments_same d d' : dk_money d' = dk_money d -> money_payments d' = money_payments d -> payments_inv d -> payments_inv d'.
Proof. intros Em Ep [I1 I2 I3 I4 I5 I6]. split; rewrite ?Ep, ?Em; try done.
  - intros p Hp. apply (grow_row d); [by rewrite Em|by apply I3].
  - intros id f Ha. unfold hold_account in Ha. rewrite Em in Ha. by apply I5.
Qed.

Lemma bank_same d d' : dk_money d' = dk_money d -> money_payments d' = money_payments d -> bank_inv d -> bank_inv d'.
Proof. intros Em Ep [L I]. split; [by rewrite Em|by apply (payments_same d)]. Qed.

(** ** What a partner's answer is to move *)

(** What moves of money come to for an account: each names an account and what it gains. *)
Definition moved_by (account : string) (moves : list (string * Z)) : Z := sumZ (snd <$> filter (fun x => x.1 = account) moves).

(** The accounts a payment to another country goes through: the fee's, and, in the currency
    that arrives, the one it is converted from and the one it is paid to. *)
Record Abroad := mkAbroad { ab_revenue : string; ab_conversion : string; ab_paid : string }.

Inductive goes_via d p : option Abroad -> Prop :=
| ViaHome : mp_arrives_currency p = ""%string -> goes_via d p None
| ViaAbroad revenue conversion paid : mp_arrives_currency p <> ""%string ->
    kind_account d revenue (mp_ws p) (mp_currency p) MoneyRevenue "" ->
    kind_account d conversion (mp_ws p) (mp_arrives_currency p) MoneyPartner "intl:conversion" ->
    kind_account d paid (mp_ws p) (mp_arrives_currency p) MoneyPartner "intl:payments" ->
    goes_via d p (Some (mkAbroad revenue conversion paid)).

(** A payment that goes out, that comes back, and that never left. *)
Definition goes_out p (partner : string) (via : option Abroad) : list (string * Z) :=
  [(mp_hold p, - (mp_amount p + mp_cost p + mp_fee p)); (partner, mp_amount p + mp_cost p)] ++
  match via with
  | None => []
  | Some a => [(ab_revenue a, mp_fee p); (ab_conversion a, - mp_arrives p); (ab_paid a, mp_arrives p)]
  end.

Definition comes_back p (partner : string) (via : option Abroad) : list (string * Z) :=
  [(partner, - (mp_amount p + mp_cost p)); (mp_account p, mp_amount p + mp_cost p)] ++
  match via with
  | None => []
  | Some a => [(ab_paid a, - mp_arrives p); (ab_conversion a, mp_arrives p)]
  end.

Definition never_left p : list (string * Z) :=
  [(mp_hold p, - (mp_amount p + mp_cost p + mp_fee p)); (mp_account p, mp_amount p + mp_cost p + mp_fee p)].

(** What the partner says of a payment, where that leaves it, and what moves. *)
Inductive told p (partner : string) (via : option Abroad) : string -> string -> list (string * Z) -> Prop :=
| ToldPending : mp_status p = "pending"%string -> told p partner via "pending" "sent" []
| ToldStillPending : mp_status p <> "pending"%string -> told p partner via "pending" (mp_status p) []
| ToldFailed : mp_status p ∈ ["pending"; "sent"]%string -> told p partner via "failed" "failed" (never_left p)
| ToldCompleted : mp_status p ∈ ["pending"; "sent"]%string -> told p partner via "completed" "completed" (goes_out p partner via)
| ToldReturned : mp_status p ∈ ["pending"; "sent"]%string ->
    told p partner via "returned" "returned" (goes_out p partner via ++ comes_back p partner via)
| ToldCameBack : mp_status p = "completed"%string -> told p partner via "returned" "returned" (comes_back p partner via)
| ToldAlready answer : mp_status p ∉ ["pending"; "sent"]%string -> answer ∈ ["failed"; "completed"; "returned"]%string ->
    ~ (answer = "returned" /\ mp_status p = "completed")%string -> told p partner via answer (mp_status p) [].

Lemma moved_by_cons a b z l : moved_by a ((b, z) :: l) = (if decide (b = a) then z else 0) + moved_by a l.
Proof. unfold moved_by. rewrite filter_cons. cbn [fst]. case_decide; csimpl; lia. Qed.

Lemma moved_by_app a l k : moved_by a (l ++ k) = moved_by a l + moved_by a k.
Proof. unfold moved_by. by rewrite filter_app, fmap_app, sumZ_app. Qed.

Lemma in_flight_spec s : in_flight s = true <-> s ∈ ["pending"; "sent"]%string.
Proof. apply Contains_spec. Qed.

(** The code's lines are those moves. *)
Lemma routes_moves d p partner out back : fits (mp_amount p) (mp_cost p) (mp_fee p) -> 0 <= mp_arrives p <= max_i64 ->
  routes d p partner out back ->
  exists via, goes_via d p via /\ (forall a, asks_on a out = moved_by a (goes_out p partner via)) /\
    (forall a, asks_on a back = moved_by a (comes_back p partner via)).
Proof.
  intros F A R. pose proof (debit_exact _ F) as De. pose proof F as [F1 F2 F3 F4].
  assert (E : mp_amount p +! mp_cost p = mp_amount p + mp_cost p) by (apply wrap64_id; i64_ranges; lia).
  assert (N1 : -! debit p = - (mp_amount p + mp_cost p + mp_fee p)) by (rewrite neg_exact; lia).
  assert (N2 : -! (mp_amount p + mp_cost p) = - (mp_amount p + mp_cost p)) by (rewrite neg_exact; lia).
  assert (N3 : -! mp_arrives p = - mp_arrives p) by (rewrite neg_exact; lia).
  destruct R as [H|rv cv pd H K1 K2 K3]; unfold international in H.
  - exists None. split; [apply ViaHome; by destruct (bool_decide_reflect (mp_arrives_currency p = ""%string))|].
    unfold goes_out, comes_back, domestic_out, domestic_back. rewrite E, N1, N2. cbn [app]. by split; intros a; rewrite !asks_on_cons, !moved_by_cons.
  - exists (Some (mkAbroad rv cv pd)). split; [apply ViaAbroad; [by destruct (bool_decide_reflect (mp_arrives_currency p = ""%string))|done..]|].
    unfold goes_out, comes_back, domestic_out, domestic_back. rewrite E, N1, N2, N3. cbn [app ab_revenue ab_conversion ab_paid].
    by split; intros a; rewrite !asks_on_cons, !moved_by_cons.
Qed.

Lemma settled_told d p partner status out back s keys lines : fits (mp_amount p) (mp_cost p) (mp_fee p) -> 0 <= mp_arrives p <= max_i64 ->
  routes d p partner out back -> settled p status out back = Some (s, keys, lines) ->
  exists via moves, goes_via d p via /\ told p partner via status s moves /\ forall a, asks_on a lines = moved_by a moves.
Proof.
  intros F A R S. pose proof (debit_exact _ F) as De. pose proof F as [F1 F2 F3 F4].
  destruct (routes_moves _ _ _ _ _ F A R) as (via & V & Ho & Hb). exists via. unfold settled in S.
  pose proof (in_flight_spec (mp_status p)) as Fl.
  assert (Hf : forall a, asks_on a (failed_lines p) = moved_by a (never_left p)).
  { intros a. unfold failed_lines, never_left. rewrite neg_exact by lia. rewrite De. by rewrite !asks_on_cons, !moved_by_cons. }
  destruct (bool_decide_reflect (status = StatusPending)) as [->|N1].
  { destruct (bool_decide_reflect (mp_status p = PaymentPending)) as [Ep|Ep]; injection S as <- <- <-; exists []; (split; [done|]; split; [by constructor|done]). }
  destruct (bool_decide_reflect (status = StatusFailed)) as [->|N2].
  { destruct (in_flight (mp_status p)); injection S as <- <- <-; [exists (never_left p)|exists []]; (split; [done|]; split; [|done]).
    - apply ToldFailed. by apply Fl.
    - apply ToldAlready; [by intros ?%Fl|left|by intros [? _]]. }
  destruct (bool_decide_reflect (status = StatusCompleted)) as [->|N3].
  { destruct (in_flight (mp_status p)); injection S as <- <- <-; [exists (goes_out p partner via)|exists []]; (split; [done|]; split; [|done]).
    - apply ToldCompleted. by apply Fl.
    - apply ToldAlready; [by intros ?%Fl|right; left|by intros [? _]]. }
  destruct (bool_decide_reflect (status = StatusReturned)) as [->|N4]; [|done].
  destruct (in_flight (mp_status p)).
  { injection S as <- <- <-. exists (goes_out p partner via ++ comes_back p partner via). split; [done|]. split; [apply ToldReturned; by apply Fl|].
    intros a. by rewrite asks_on_app, moved_by_app, Ho, Hb. }
  destruct (bool_decide_reflect (mp_status p = PaymentCompleted)) as [Ec|Ec]; injection S as <- <- <-.
  - exists (comes_back p partner via). split; [done|]. split; [by apply ToldCameBack|done].
  - exists []. split; [done|]. split; [|done]. apply ToldAlready; [by intros ?%Fl|right; right; left|by intros [_ ?]].
Qed.

Section Applying.
Context (LL : string -> option Location) (G : Gates) (B : Bank).

(** What one answer did. *)
Record answered_with (id partner status : string) (p p' : MoneyPayment) (keys : list string) ps d d1 d2 d' : Prop := {
  aw_row : payment_by_id d id = Some p;
  aw_grow : accounts_grow d d1;
  aw_routes : exists out back, routes d1 p partner out back /\ settled p status out back = Some (mp_status p', keys, ps);
  aw_moved : moved (mp_ws p) (mp_funding p) keys ps d1 d2;
  aw_same : same_row p p';
  aw_desk : d' = with_payments (put_payment p' (money_payments d2)) d2;
}.

Lemma apply_result_ok old c id partner res d p' d' : apply_result G B c id partner res d = Ok (p', d') -> ledger_pre old d -> payments_inv d ->
  ledger_pre old d' /\ exists p keys ps d1 d2, answered_with id partner (Status res) p p' keys ps d d1 d2 d'.
Proof.
  intros H L I. unfold apply_result in H. rewrite tx_gets_bind in H. destruct (payment_by_id d id) as [p|] eqn:Ep; [|by apply tx_fail_ok in H].
  cbv zeta in H. set (pr := if bool_decide _ then p else with_result _ p) in H.
  assert (Er : exists r, pr = with_result r p).
  { unfold pr. destruct (bool_decide _); [exists (mp_partner_ref p); by destruct p|by eexists]. }
  destruct Er as [r Er]. rewrite Er in H. clear Er pr.
  apply tx_bind_ok in H as ([out back] & d1 & H1 & H). apply movements_ok in H1 as [Gr R].
  apply tx_bind_ok in H as (s & d2 & H1 & H). rewrite tx_modify_bind in H. apply tx_ret_ok in H as [-> ->].
  destruct (payment_by_id_ok _ _ _ Ep) as [Hp _].
  pose proof (grow_inv _ _ _ L I Gr) as I1. pose proof (grow_pre _ _ _ Gr L) as L1.
  destruct (apply_status_ok G B old _ _ p _ _ _ _ _ _ H1 L1 I1) as (keys & ps & S & M & L2); [by rewrite (gr_payments _ _ Gr)|done..|].
  split; [exact L2|]. exists p, keys, ps, d1, d2. split; [done..| |exact M|done|done].
  exists out, back. split; [|exact S]. destruct R as [H|rv cv pd H K1 K2 K3].
  - exact (RouteDomestic d1 p partner H).
  - exact (RouteAbroad d1 p partner rv cv pd H K1 K2 K3).
Qed.

Lemma answered_inv id partner status p p' keys ps d d1 d2 d' old : answered_with id partner status p p' keys ps d d1 d2 d' ->
  ledger_pre old d -> payments_inv d -> other_account d partner -> payments_inv d'.
Proof.
  intros [Er Gr (out & back & R & S) M Sm ->] L I Hp. destruct (payment_by_id_ok _ _ _ Er) as [Hin _].
  pose proof (grow_inv _ _ _ L I Gr) as I1. apply settled_advance in S.
  assert (Hin1 : p ∈ money_payments d1) by (by rewrite (gr_payments _ _ Gr)).
  destruct (advance_keys _ _ _ _ _ _ S) as [K1 K2]; [destruct Sm as [As _]; by injection As|].
  apply (settle_inv p p' keys ps d1); [done..|]. intros a Ha. eapply advance_asks; [exact S|exact Sm|exact R|by apply (pi_rows _ I1)| |exact Ha].
  by apply (grow_accounts d d1 _ Gr).
Qed.

Lemma money_committed_ok {A} (m : LTx A) d a d' : money_committed m d = Ok (a, d') -> m d = Ok (a, d') /\ money_balanced d d' = true.
Proof.
  unfold money_committed. destruct (m d) as [[x y]|]; [|done]. destruct (money_balanced d y) eqn:E; [|done]. by intros [= -> ->].
Qed.

(** Whatever the partner answers, the books and the payments are kept. *)
Lemma applyPartnerResult_inv c id partner res d : bank_inv d -> other_account d partner ->
  bank_inv (applyPartnerResult G B c id partner res d).2.
Proof.
  intros [L I] Hp. unfold applyPartnerResult, run_tx. destruct (money_committed _ d) as [[p' d']|] eqn:E; [|by split]. cbn [snd].
  apply money_committed_ok in E as [H Bl]. destruct (apply_result_ok _ _ _ _ _ _ _ _ H L I) as [L' (p & keys & ps & d1 & d2 & A)].
  split; [by apply (money_balanced_inv d)|]. by apply (answered_inv _ _ _ _ _ _ _ _ _ _ _ _ A L).
Qed.

(** ** The hold *)

Lemma lockAgent_same ws agent d u d' : desk_tx (wallet (lockAgent ws agent)) d = Ok (u, d') -> d' = d.
Proof. intros (s & [-> _]%lockAgent_ok & ->)%desk_tx_ok%wallet_ok. by destruct d. Qed.

Lemma enforce_same c ws agent amount ref d u d' : desk_tx (wallet (enforceAgentRules LL c ws agent amount ref)) d = Ok (u, d') ->
  dk_money d' = dk_money d /\ money_payments d' = money_payments d.
Proof.
  intros (s & [J _]%enforce_effect & ->)%desk_tx_ok%wallet_ok. split; [done|]. unfold money_payments.
  change (dk_store (with_store s d)) with s. by rewrite (jf_other _ _ J).
Qed.

Lemma screen_out_ok c screen p id who d u d' : screen_out c screen p id who d = Ok (u, d') -> d' = d.
Proof. unfold screen_out. destruct (screen _ _); [by intros ?%tx_fail_ok|by intros [_ ->]%tx_ret_ok]. Qed.

(** What a hold that went through did. *)
Record held_with (c : Ctx) p p' d d0 d1 d' : Prop := {
  hw_same : dk_money d0 = dk_money d /\ money_payments d0 = money_payments d;
  hw_grow : accounts_grow d0 d1;
  hw_row : exists hold, p' = with_hold hold (now c) p /\ kind_account d1 hold (mp_ws p) (mp_currency p) MoneyHold "";
  hw_checks : payment_checks p' = true;
  hw_key : payment_by_key d1 (mp_ws p) (mp_key p) = None;
  hw_id : payment_by_id d1 (mp_id p) = None;
  hw_funds : debit p <= money_balance d (mp_account p) (mp_funding p);
  hw_post : exists e, postMoneyTx G (screener B) c (hold_entry p') (with_payments (p' :: money_payments d1) d1) = Ok (e, d');
}.

Lemma hold_payment_ok c p payer d p' d' : hold_payment LL G B c p payer d = Ok (p', d') -> exists d0 d1, held_with c p p' d d0 d1 d'.
Proof.
  intros H. unfold hold_payment in H. cbv zeta in H. apply tx_bind_ok in H as (u & d0 & H1 & H).
  assert (d0 = d) as -> by (destruct (bool_decide (mp_agent p = ""%string)); [by apply tx_ret_ok in H1 as [_ ->]|by apply lockAgent_same in H1]).
  rewrite tx_gets_bind, tx_guard_bind in H. destruct H as [Hf%negb_true_iff%Z.ltb_ge H].
  apply tx_bind_ok in H as (v & d0 & H2 & H).
  assert (S0 : dk_money d0 = dk_money d /\ money_payments d0 = money_payments d)
    by (destruct (bool_decide (mp_agent p = ""%string)); [by apply tx_ret_ok in H2 as [_ ->]|by eapply enforce_same]).
  destruct (screener B) as [screen|] eqn:Es; [|by apply tx_fail_ok in H].
  apply tx_bind_ok in H as (w & d1 & H3 & H). apply screen_out_ok in H3 as ->.
  apply tx_bind_ok in H as (x & d1 & H3 & H).
  assert (d1 = d0) as -> by (destruct (bool_decide (payer = ""%string)); [by apply tx_ret_ok in H3 as [_ ->]|by apply screen_out_ok in H3]).
  apply tx_bind_ok in H as (hold & d1 & H4 & H). apply find_or_open_ok in H4 as [Gr K].
  apply tx_bind_ok in H as (y & d2 & H5 & H). unfold insert_payment in H5. rewrite tx_guard_bind, tx_gets_bind, tx_guard_bind in H5.
  destruct H5 as (Hc & [Hk Hi]%negb_true_iff%orb_false_iff & ->%tx_modify_ok).
  apply tx_bind_ok in H as (e & d2 & H6 & H). apply tx_ret_ok in H as [-> ->]. exists d0, d1. split; [exact S0|exact Gr| |exact Hc| | |exact Hf|].
  - by exists hold.
  - by destruct (payment_by_key d1 _ _).
  - by destruct (payment_by_id d1 _).
  - rewrite Es. by exists e.
Qed.

Lemma held_inv c p p' d d0 d1 d' : held_with c p p' d d0 d1 d' -> bank_inv d ->
  fits (mp_amount p) (mp_cost p) (mp_fee p) -> mp_status p = PaymentPending -> other_account d (mp_account p) ->
  ledger_pre (money_entries d) d' /\ payments_inv d' /\
  moved (mp_ws p) (mp_funding p) [payment_key "hold" (mp_key p)] (me_postings (hold_entry p')) (with_payments (p' :: money_payments d1) d1) d'.
Proof.
  intros [[Em Ep] Gr (hold & -> & K) Hc Hk Hi _ (e & H)] [L I] F St Ao.
  assert (L0 : ledger_pre (money_entries d) d0) by (by rewrite Em). pose proof (payments_same _ _ Em Ep I) as I0.
  pose proof (grow_pre _ _ _ Gr L0) as L1. pose proof (grow_inv _ _ _ L0 I0 Gr) as I1.
  set (p' := with_hold hold (now c) p) in *. set (d2 := with_payments (p' :: money_payments d1) d1) in *.
  assert (N : entry_by_key d2 (mp_ws p') (payment_key "hold" (mp_key p')) = None).
  { apply (fresh_key d1); [exact I1|done|]. intros q Hq Wq Sq%step_hold_key. apply payment_by_key_none in Hk. apply Hk.
    apply list_elem_of_fmap. exists q. split; [|done]. by rewrite Wq, Sq. }
  pose proof (post_moved _ _ _ (hold_entry p') _ _ _ H N) as M. split; [eapply postMoneyTx_pre; [exact H|]; exact L1|split; [|exact M]].
  apply (hold_inv p' d1); [exact I1|exact Hk|exact Hi| |exact St|exact M].
  destruct K as (a & Ha & _ & _ & Pa & Na & _). split; [exact F|by exists a|].
  apply (grow_accounts d0 d1 _ Gr). destruct Ao as (b & Hb & Pb). exists b. by rewrite Em.
Qed.

Lemma refused_payments c e s : money_payments (refusedMovement c e s).2 = money_payments s.
Proof.
  destruct e; try done. cbn [refusedMovement]. unfold run_tx. destruct (fileApproval _ _ _ _ _ s) as [[id s']|] eqn:H; [|done]. cbn [snd].
  unfold fileApproval in H. rewrite tx_gets_bind in H. apply tx_bind_ok in H as (u & s1 & U & H). apply uuid_new_ok in U as [-> ->].
  rewrite tx_gets_bind in H. apply tx_bind_ok in H as (v & s2 & H1 & H). rewrite tx_gets_bind in H.
  assert (s' = s2) as -> by (destruct (find_open s2 _ _); [by apply tx_ret_ok in H as [_ ->]|by apply tx_fail_ok in H]).
  destruct (is_some _); [by apply tx_ret_ok in H1 as [_ ->]|]. rewrite tx_gets_bind, tx_guard_bind, tx_modify_ok in H1.
  destruct H1 as [_ ->]. done.
Qed.

Lemma run_hold_cases c p payer d r d' : run_hold LL G B c p payer d = (r, d') ->
  (exists e, r = Err e /\ dk_money d' = dk_money d /\ money_payments d' = money_payments d) \/
  (exists p' d0 d1, r = Ok p' /\ held_with c p p' d d0 d1 d' /\ money_balanced d d' = true).
Proof.
  unfold run_hold. destruct (money_committed _ d) as [[p' d1]|e] eqn:E.
  - intros [= <- <-]. right. apply money_committed_ok in E as [E Bl]. apply hold_payment_ok in E as (d0 & d2 & E). by eexists _, _, _.
  - intros H. left. destruct e as [e'| | | | | | | | | | | | | | | | | | | | | |]; try (injection H as <- <-; by eexists).
    destruct e'; try (injection H as <- <-; by eexists).
    pose proof (refused_payments c e (dk_store d)) as R. destruct (refusedMovement c e (dk_store d)) as [e' s]. injection H as <- <-.
    eexists. split_and!; [done|done|exact R].
Qed.

(** ** The account, the payee, the row *)

(** The account that pays, and the partner's that mirrors it. *)
Record pays (ws : string) (p : OutsidePayment) t (from : payingAccount) : Prop := {
  py_account : exists a, money_accounts t !! pa_id from = Some a /\ ma_ws a = ws /\ ma_purpose a ∈ [MoneyCompany; MoneyAgent] /\
    ma_currency a = op_currency p /\ ma_status a = MoneyOpen /\ ma_agent a = pa_agent from;
  py_named : op_account p <> ""%string -> pa_id from = op_account p;
  py_agent : op_agent p <> ""%string -> pa_agent from = op_agent p;
  py_partner : exists b, money_accounts t !! pa_partner from = Some b /\ ma_purpose b = MoneyPartner;
}.

Lemma partner_account_ok t a : partner_account t a <> ""%string ->
  exists b, money_accounts t !! partner_account t a = Some b /\ ma_purpose b = MoneyPartner.
Proof.
  unfold partner_account. destruct (bool_decide _); [done|]. destruct (filter _ _) as [|[id b] l] eqn:E; [done|]. intros _.
  assert (H : (id, b) ∈ filter (fun kv : string * MoneyAccount => ma_ws kv.2 = ma_ws a /\ ma_purpose kv.2 = MoneyPartner /\ ma_partner_ref kv.2 = ma_partner_ref a)
     (map_to_list (money_accounts t))) by (rewrite E; by left).
  apply list_elem_of_filter in H as [(_ & P & _) H%elem_of_map_to_list]. by exists b.
Qed.

Lemma paying_account_ok ws (p : OutsidePayment) t from : paying_account ws p t = Ok from -> pays ws p t from.
Proof.
  unfold paying_account. destruct (newest _) as [[id a]|] eqn:E; [|done]. apply newest_in, list_elem_of_filter in E as [E Ha%elem_of_map_to_list].
  apply andb_prop in E as [E _]. unfold pays_from in E. cbn [fst snd] in E, Ha.
  rewrite !andb_true_iff, !bool_decide_eq_true in E. destruct E as [[[Ew Ep%bool_decide_eq_true] Ec] Es].
  destruct (company_account t id a) as [[company x]|]; [|done].
  destruct (bool_decide_reflect (op_agent p = ""%string)) as [Eg|Eg]; cbn [negb andb].
  - destruct (bool_decide_reflect (ma_status a = MoneyOpen)) as [Eo|]; cbn [negb]; [|done].
    destruct (bool_decide_reflect (partner_account t x = ""%string)) as [|Np]; [by rewrite orb_true_r|]. rewrite orb_false_r.
    destruct (bool_decide (ma_partner_ref x = _)); [discriminate|]. intros [= <-]. split; cbn [pa_id pa_agent pa_partner].
    + exists a. by split_and!.
    + intros Hn. rewrite bool_decide_eq_false_2 in Es by done. by apply bool_decide_eq_true in Es.
    + done.
    + by apply partner_account_ok.
  - destruct (bool_decide_reflect (ma_agent a = op_agent p)) as [Ea|]; cbn [negb]; [|done].
    destruct (bool_decide_reflect (ma_status a = MoneyOpen)) as [Eo|]; cbn [negb]; [|done].
    destruct (bool_decide_reflect (partner_account t x = ""%string)) as [|Np]; [by rewrite orb_true_r|]. rewrite orb_false_r.
    destruct (bool_decide (ma_partner_ref x = _)); [discriminate|]. intros [= <-]. split; cbn [pa_id pa_agent pa_partner].
    + exists a. by split_and!.
    + intros Hn. rewrite bool_decide_eq_false_2 in Es by done. by apply bool_decide_eq_true in Es.
    + done.
    + by apply partner_account_ok.
Qed.

Lemma pays_other ws (p : OutsidePayment) d from : pays ws p d from -> other_account d (pa_id from) /\ other_account d (pa_partner from).
Proof.
  intros [(a & Ha & _ & Pa & _) _ _ (b & Hb & Pb)]. split; [exists a|exists b]; (split; [done|]); [|by rewrite Pb].
  intros E. rewrite E in Pa. revert Pa. by apply (bool_decide_unpack _).
Qed.

Lemma normalise_ok key (p q : OutsidePayment) : normalise key p = inl q ->
  op_account q = op_account p /\ op_agent q = op_agent p /\ op_minor q = op_minor p /\ op_payee q = op_payee p /\ 0 < op_minor q.
Proof.
  unfold normalise. cbv zeta. destruct (bool_decide _); [done|]. destruct (negb _); [done|]. destruct (Z.leb_spec (op_minor p) 0) as [|Hm]; cbn [op_minor].
  - rewrite (proj2 (Z.leb_le _ _)) by done. done.
  - rewrite (proj2 (Z.leb_gt _ _)) by done. destruct (negb _); [done|]. destruct (_ && _); [done|]. destruct (_ <? _)%nat; [done|].
    intros [= <-]. by split_and!.
Qed.

Lemma normalise_key key (p q : OutsidePayment) : normalise key p = inl q -> op_key q = trimmed (op_key p).
Proof.
  unfold normalise. cbv zeta. destruct (bool_decide _); [done|]. destruct (negb _); [done|]. destruct (_ <=? _); [done|].
  destruct (negb _); [done|]. destruct (_ && _); [done|]. destruct (_ <? _)%nat; [done|]. by intros [= <-].
Qed.

Lemma res_bind_ok {E A C} (r : Res E A) (k : A -> Res E C) b : res_bind r k = Ok b <-> exists a, r = Ok a /\ k a = Ok b.
Proof. destruct r; cbn; naive_solver. Qed.

Lemma usableQuote_ok c ws (p : OutsidePayment) from payee d (q : QuoteRow) : usableQuote c ws p from payee d = Ok q ->
  exists id, money_payment_quotes d !! id = Some q /\ qu_amount q = op_minor p.
Proof.
  unfold usableQuote. intros (u & _ & H)%res_bind_ok. destruct (money_payment_quotes d !! op_quote p) as [x|] eqn:E; [|done].
  destruct (_ && _) eqn:C; [|done]. injection H as ->. apply andb_prop in C as [C%bool_decide_eq_true _]. exists (op_quote p). tauto.
Qed.

(** The row a payment is recorded by. *)
Record prepared (ws id : string) (p : OutsidePayment) d from (row : MoneyPayment) : Prop := {
  pp_pays : pays ws p d from;
  pp_fits : fits (mp_amount row) (mp_cost row) (mp_fee row);
  pp_asked : asked row = (id, ws, op_key p, (pa_id from, ""%string, pa_agent from, op_payee p),
    (op_minor p, op_currency p, op_funding p, op_reference p, op_quote p));
  pp_status : mp_status row = PaymentPending;
}.

Lemma prepare_ok c ws (p : OutsidePayment) id d from payee partner row payer : prepare B c ws p id d = Ok (from, payee, partner, row, payer) ->
  payments_inv d -> 0 < op_minor p <= max_i64 -> prepared ws id p d from row.
Proof.
  intros H I Hm. unfold prepare in H. apply res_bind_ok in H as (from' & P%paying_account_ok & H). apply res_bind_ok in H as (payee' & _ & H).
  destruct (accountPartners B) as [partners|], (screener B) as [scr|]; try done. destruct (Account partners c) as [partner'|]; [|done].
  cbv zeta in H. destruct (bool_decide_reflect (op_quote p = ""%string)) as [Eq|Nq]; cbn [andb] in H.
  - destruct (negb _); [done|]. apply res_bind_ok in H as ((row1 & payer') & [= <- <-] & H).
    apply res_bind_ok in H as (row2 & H2 & [= <- <- <- <- <-]).
    assert (E2 : exists v, row2 = valued v (draft c ws id p from' payee' partner')).
    { destruct (bool_decide _); [injection H2 as <-; by exists 0|]. apply res_bind_ok in H2 as (v & _ & [= <-]). by exists v. }
    destruct E2 as [v ->]. split; [exact P| |done|done]. cbn. split; lia.
  - apply res_bind_ok in H as ((row1 & payer') & H1 & H). apply res_bind_ok in H1 as (q & H1 & [= <- <-]).
    apply usableQuote_ok in H1 as (qid & Hq & Ea). pose proof (pi_quotes _ I _ _ Hq) as F. rewrite Ea in F.
    apply res_bind_ok in H as (row2 & H2 & [= <- <- <- <- <-]).
    assert (E2 : exists v, row2 = valued v (priced q (draft c ws id p from' payee' partner'))).
    { destruct (bool_decide _); [injection H2 as <-; by exists 0|]. apply res_bind_ok in H2 as (v & _ & [= <-]). by exists v. }
    destruct E2 as [v ->]. split; [exact P|exact F|done|done].
Qed.

(** ** Every step keeps it *)

Lemma grow_bank d d' : accounts_grow d d' -> bank_inv d -> bank_inv d'.
Proof.
  intros Gr [L I]. split; [|by apply (grow_inv _ _ _ L)]. unfold ledger_inv. rewrite (gr_entries _ _ Gr). by apply (grow_pre _ d).
Qed.

Lemma held_grows c p p' d d0 d1 d' id : held_with c p p' d d0 d1 d' -> money_accounts d' = money_accounts d1 -> other_account d id -> other_account d' id.
Proof. intros [[Em _] Gr _ _ _ _ _ _] Ea (a & Ha & Pa). exists a. split; [rewrite Ea; apply (gr_accounts _ _ Gr); by rewrite Em|done]. Qed.

Lemma run_hold_inv c p payer d r d' : run_hold LL G B c p payer d = (r, d') -> bank_inv d ->
  fits (mp_amount p) (mp_cost p) (mp_fee p) -> mp_status p = PaymentPending -> other_account d (mp_account p) ->
  bank_inv d' /\ forall id, other_account d id -> other_account d' id.
Proof.
  intros H Bi F St Ao. apply run_hold_cases in H as [(e & -> & Em & Ep)|(p' & d0 & d1 & -> & Hw & Bl)].
  - split; [by apply (bank_same d)|]. intros id (a & Ha & Pa). exists a. by rewrite Em.
  - destruct (held_inv _ _ _ _ _ _ _ Hw Bi F St Ao) as (L & I & M). split; [split; [by apply (money_balanced_inv d)|done]|].
    intros id. apply (held_grows _ _ _ _ _ _ _ _ Hw). exact (mv_accounts _ _ _ _ _ _ M).
Qed.

Lemma PayOutside_inv c ws (p : OutsidePayment) d : bank_inv d -> in_i64 (op_minor p) -> bank_inv (PayOutside LL G B c ws p d).2.
Proof.
  intros Bi Hm. unfold PayOutside. destruct (normalise true p) as [q|] eqn:En; [|done]. apply normalise_ok in En as (_ & _ & Em & _ & Hp).
  destruct (prior_payment ws q d); [done|]. cbv zeta.
  assert (Bi' : bank_inv (drew_one d)) by (by apply (bank_same d)).
  destruct (prepare _ _ _ _ _ _) as [[[[[from payee] partner] row] payer]|] eqn:Pr; [|exact Bi'].
  destruct (prepare_ok _ _ _ _ _ _ _ _ _ _ Pr (bi_payments _ Bi')) as [P F As St]; [unfold in_i64 in Hm; lia|].
  destruct (pays_other _ _ _ _ P) as [Oa Op]. injection As as Ei _ _ Ea _ _ _ _ _ _ _ _.
  destruct (run_hold _ _ _ _ _ _ _) as [r d1] eqn:Rh. destruct (run_hold_inv _ _ _ _ _ _ Rh Bi' F St) as [B1 K]; [by rewrite Ea|].
  destruct r as [row'|]; [|exact B1]. destruct (sent_result _) as [res|]; [|exact B1].
  apply applyPartnerResult_inv; [exact B1|by apply K].
Qed.

Lemma RefreshOutsidePayment_inv c ws agent id d : bank_inv d -> bank_inv (RefreshOutsidePayment G B c ws agent id d).2.
Proof.
  intros Bi. unfold RefreshOutsidePayment. destruct (payment_by_id d id) as [p|]; [|done]. destruct (negb _); [done|]. destruct (Contains _ _); [done|].
  destruct (accountPartners B) as [partners|]; [|done]. destruct (Account partners c) as [partner|]; [|done].
  destruct (paying_account _ _ _) as [from|] eqn:Ep; [|done]. apply paying_account_ok, pays_other in Ep as [_ Op].
  destruct (ask_partner _ _ _ _ _ _) as [[res|]|]; [|done..]. by apply applyPartnerResult_inv.
Qed.

Lemma QuoteInternational_ok c ws (p : OutsidePayment) d id (q : QuoteRow) d' : QuoteInternational B c ws p d = Ok ((id, q), d') ->
  d' = with_quotes (<[id := q]> (money_payment_quotes d)) (drew d) /\ qu_amount q = op_minor p /\ 0 < qu_amount q /\ 0 <= qu_cost q /\ 0 <= qu_fee q.
Proof.
  unfold QuoteInternational. intros H. destruct (normalise false p) as [o|] eqn:En; [|by apply tx_fail_ok in H].
  apply normalise_ok in En as (_ & _ & Em & _ & Hp).
  apply tx_bind_ok in H as (from & d1 & H1 & H). assert (d1 = d) as -> by (unfold lift_res in H1; by destruct (paying_account _ _ _); simplify_eq).
  apply tx_bind_ok in H as (payee & d1 & H2 & H). assert (d1 = d) as -> by (unfold lift_res in H2; by destruct (PayableOutsidePayee _ _ _ _ _); simplify_eq).
  cbv zeta in H. rewrite tx_guard_bind in H. destruct H as [_ H]. destruct (IntlPaymentFeeMinor B !! _) as [fee|]; [|by apply tx_fail_ok in H].
  apply tx_bind_ok in H as (u & d1 & H3 & H). assert (d1 = d) as -> by (unfold lift_res in H3; by destruct (destinationAllowed _ _ _ _); simplify_eq).
  destruct (accountPartners B) as [partners|]; [|by apply tx_fail_ok in H]. destruct (Account partners c) as [partner|]; [|by apply tx_fail_ok in H].
  apply tx_bind_ok in H as (v & d1 & H4 & H). apply desk_tx_ok, wallet_ok in H4 as (s & H4 & ->). apply uuid_new_ok in H4 as [-> ->].
  destruct (PriceInternational _ _ _ _ _ _ _) as [pq|[]]; [|by apply tx_fail_ok in H..].
  rewrite tx_guard_bind, tx_gets_bind, !tx_guard_bind, tx_modify_bind in H. destruct H as (Hc & _ & Hf & H). apply tx_ret_ok in H as [[= -> ->] ->].
  rewrite !andb_true_iff, Z.leb_le, Z.ltb_lt in Hc. apply Z.leb_le in Hf. cbn [qu_amount qu_cost qu_fee]. split_and!; [done|done|lia|tauto|lia].
Qed.

Lemma OpenMoneyAccount_grows c a d r d' : OpenMoneyAccount c a d = Ok (r, d') -> accounts_grow d d'.
Proof.
  unfold OpenMoneyAccount. cbv zeta. rewrite !tx_guard_bind. intros (_ & _ & _ & _ & _ & _ & H).
  rewrite tx_gets_bind, tx_guard_bind in H. destruct H as [_ H].
  apply tx_bind_ok in H as (id & d1 & H1 & H). unfold new_account_id in H1. apply tx_bind_ok in H1 as (u & d2 & H2 & H1).
  apply desk_tx_ok, wallet_ok in H2 as (s & H2 & ->). apply uuid_new_ok in H2 as [-> ->]. apply tx_ret_ok in H1 as [-> ->].
  apply tx_bind_ok in H as (v & d1 & H1 & H). apply insert_account_grows in H1 as (Gr & _ & _). apply tx_ret_ok in H as [-> ->].
  transitivity (drew d); [by apply grow_same|exact Gr].
Qed.

(** A step of the program: money out, its parts as they interleave, and what else there is. *)
Inductive BankStep d : Desk -> Prop :=
| BankPay c ws (p : OutsidePayment) : in_i64 (op_minor p) -> BankStep d (PayOutside LL G B c ws p d).2
| BankRefresh c ws agent id : BankStep d (RefreshOutsidePayment G B c ws agent id d).2
| BankHold c (p : MoneyPayment) payer : fits (mp_amount p) (mp_cost p) (mp_fee p) -> mp_status p = PaymentPending -> other_account d (mp_account p) ->
    BankStep d (run_hold LL G B c p payer d).2
| BankApply c id partner res : other_account d partner -> BankStep d (applyPartnerResult G B c id partner res d).2
| BankQuote c ws (p : OutsidePayment) id (q : QuoteRow) d' : QuoteInternational B c ws p d = Ok ((id, q), d') ->
    qu_amount q + qu_cost q + qu_fee q <= max_i64 -> BankStep d d'
| BankOpen c a r d' : OpenMoneyAccount c a d = Ok (r, d') -> BankStep d d'
| BankPost c e e' d' : PostMoney G (screener B) c e d = Ok (e', d') -> payments_key (me_key e) = false ->
    (forall x, x ∈ me_postings e -> ~ hold_account d (mn_account x)) -> BankStep d d'
| BankOther d' : accounts_grow d d' -> BankStep d d'.

Lemma BankStep_inv d d' : BankStep d d' -> bank_inv d -> bank_inv d'.
Proof.
  intros [c ws p Hm|c ws agent id|c p payer F St Ao|c id partner res Op|c ws p id q d1 H Hq|c a r d1 H|c e e' d1 H Hk Hp|d1 Gr] Bi.
  - by apply PayOutside_inv.
  - by apply RefreshOutsidePayment_inv.
  - destruct (run_hold _ _ _ _ _ _ _) as [r d1] eqn:E. by apply (run_hold_inv _ _ _ _ _ _ E).
  - by apply applyPartnerResult_inv.
  - apply QuoteInternational_ok in H as (-> & _ & H1 & H2 & H3). destruct Bi as [L I]. split.
    + by destruct L as [L1 L2 L3 L4 L5 L6 L7]; split.
    + destruct I as [I1 I2 I3 I4 I5 I6]. split; try done.
      * intros o Ho. by apply (grow_row d), I3.
      * intros i x. change (money_payment_quotes (with_quotes ?m _)) with m. intros [[<- <-]|[_ Hx]]%lookup_insert_Some; [by split|by apply (I6 i)].
  - apply OpenMoneyAccount_grows in H. by apply (grow_bank d).
  - destruct Bi as [L I]. split; [by apply (PostMoney_inv _ _ _ _ _ _ _ L H)|]. apply PostMoney_ok in H as [H _].
    destruct (entry_by_key d (me_ws e) (me_key e)) as [row|] eqn:Ek.
    + apply postMoneyTx_ok in H as [_ [[_ ->]|(ps & A & _)]]; [by apply (payments_same d)|].
      pose proof (ac_fresh _ _ _ _ _ _ A) as N. cbn [named me_ws me_key] in N. change (dk_money (drew d)) with (dk_money d) in N. congruence.
    + apply (post_moved _ _ _ e) in H; [|done]. apply (foreign_inv _ _ _ _ _ _ I H).
      * by intros k ->%list_elem_of_singleton.
      * intros id Hi. unfold asks_on. destruct (filter _ _) as [|x l] eqn:E; [done|]. exfalso.
        assert (Hx : x ∈ filter (fun x => mn_account x = id) (me_postings e)) by (rewrite E; by left).
        apply list_elem_of_filter in Hx as [<- Hx]. by apply (Hp x).
  - by apply (grow_bank d).
Qed.

Lemma BankSteps_inv d d' : rtc BankStep d d' -> bank_inv d -> bank_inv d'.
Proof. induction 1 as [|d d1 d2 H _ IH]; [done|]. intros Bi. by apply IH, (BankStep_inv d). Qed.

(** ** Payments stay *)

(** What was asked for stays, under its key. *)
Definition kept d d' : Prop := forall p, p ∈ money_payments d -> exists p', p' ∈ money_payments d' /\ asked p' = asked p.

Lemma kept_refl d d' : money_payments d' = money_payments d -> kept d d'.
Proof. intros E p Hp. exists p. by rewrite E. Qed.

Lemma kept_trans d1 d2 d3 : kept d1 d2 -> kept d2 d3 -> kept d1 d3.
Proof. intros K1 K2 p Hp. destruct (K1 p Hp) as (q & Hq & E1). destruct (K2 q Hq) as (r & Hr & E2). exists r. split; [done|congruence]. Qed.

Lemma answered_kept id partner status p p' keys ps d d1 d2 d' : answered_with id partner status p p' keys ps d d1 d2 d' ->
  NoDup (mp_id <$> money_payments d) -> p' ∈ money_payments d' /\ kept d d'.
Proof.
  intros [Er Gr _ M [As _] ->] N. destruct (payment_by_id_ok _ _ _ Er) as [Hin _].
  change (money_payments (with_payments ?l _)) with l. unfold kept. change (money_payments (with_payments ?l _)) with l.
  rewrite (mv_payments _ _ _ _ _ _ M), (gr_payments _ _ Gr). assert (Ei : mp_id p' = mp_id p) by (by injection As).
  split; [by apply (put_payment_self _ p)|]. intros q Hq. destruct (decide (mp_id q = mp_id p')) as [E|E].
  - exists p'. split; [by apply (put_payment_self _ p)|]. rewrite As. f_equal. symmetry. apply (pair_unique mp_id _ _ _ N Hq Hin). congruence.
  - exists q. split; [by apply put_payment_in|done].
Qed.

Lemma applyPartnerResult_kept c id partner res d r d' : applyPartnerResult G B c id partner res d = (r, d') -> bank_inv d ->
  kept d d' /\ forall p', r = Ok p' -> p' ∈ money_payments d' /\ mp_id p' = id.
Proof.
  intros H [L I]. unfold applyPartnerResult, run_tx in H. destruct (money_committed _ d) as [[x d1]|] eqn:E; injection H as <- <-; [|by split; [apply kept_refl|]].
  apply money_committed_ok in E as [E _]. destruct (apply_result_ok _ _ _ _ _ _ _ _ E L I) as [_ (p & keys & ps & d2 & d3 & A)].
  destruct (answered_kept _ _ _ _ _ _ _ _ _ _ _ A (pi_ids _ I)) as [Hx K]. split; [done|]. intros p' [= <-]. split; [done|].
  destruct (payment_by_id_ok _ _ _ (aw_row _ _ _ _ _ _ _ _ _ _ _ A)) as [_ <-]. pose proof (aw_same _ _ _ _ _ _ _ _ _ _ _ A) as [As _]. by injection As.
Qed.

Lemma run_hold_kept c p payer d r d' : run_hold LL G B c p payer d = (r, d') -> kept d d' /\
  forall p', r = Ok p' -> p' ∈ money_payments d' /\ exists hold at_, p' = with_hold hold at_ p.
Proof.
  intros H. apply run_hold_cases in H as [(e & -> & _ & Ep)|(p' & d0 & d1 & -> & Hw & _)]; [by split; [apply kept_refl|]|].
  destruct Hw as [[_ Ep] Gr (hold & -> & _) _ _ _ _ (e & H)].
  assert (M : money_payments d' = with_hold hold (now c) p :: money_payments d).
  { rewrite <- Ep, <- (gr_payments _ _ Gr). apply postMoneyTx_ok in H as [_ [[_ ->]|(ps & _ & _ & ->)]]; done. }
  unfold kept. rewrite M. split; [intros q Hq; exists q; split; [by right|done]|]. intros p' [= <-]. split; [by left|by eexists _, _].
Qed.

(** The answer of a payment that was sent, or sent before: the row there is of it. *)
Definition answers (ws : string) (q : OutsidePayment) p : Prop := mp_ws p = ws /\ mp_key p = op_key q /\ same p q = true.

Lemma answers_asked ws (q : OutsidePayment) p p' : asked p' = asked p -> answers ws q p -> answers ws q p'.
Proof. unfold answers, same. intros [= _ -> -> -> _ -> -> -> -> -> -> ->] H. exact H. Qed.

Lemma prepared_answers ws id (q : OutsidePayment) d from row hold at_ : prepared ws id q d from row -> answers ws q (with_hold hold at_ row).
Proof.
  intros [[_ Pn Pa _] _ As _]. injection As as Ei Ew Ek Ea Eh Eg Ep Em Ec Ef Er Eq. unfold answers, same. cbn. split_and!; [done..|].
  rewrite Ea, Eg, Ep, Em, Ec, Ef, Er, Eq, Z.eqb_refl, !andb_true_iff, !orb_true_iff, !bool_decide_eq_true.
  split_and!; try done; [destruct (decide (op_account q = ""%string))|destruct (decide (op_agent q = ""%string))]; auto.
Qed.

Lemma PayOutside_kept c ws (p : OutsidePayment) d r d' : PayOutside LL G B c ws p d = (r, d') -> bank_inv d -> in_i64 (op_minor p) ->
  kept d d' /\ forall row, r = Ok row -> exists q : OutsidePayment, normalise true p = inl q /\ row ∈ money_payments d' /\ answers ws q row.
Proof.
  intros H Bi Hm. unfold PayOutside in H. destruct (normalise true p) as [q|] eqn:En; [|injection H as <- <-; by split; [apply kept_refl|]].
  pose proof (normalise_ok _ _ _ En) as (_ & _ & Em & _ & Hp).
  destruct (prior_payment ws q d) as [prior|] eqn:Pp.
  { injection H as <- <-. split; [by apply kept_refl|]. intros row ->. exists q. split; [done|]. unfold prior_payment in Pp.
    destruct (payment_by_key d ws (op_key q)) as [x|] eqn:Ex; cbn in Pp; [|done]. destruct (same x q) eqn:Es; [|done]. injection Pp as <-.
    apply payment_by_key_ok in Ex as (Hx & Ew & Ek). by split. }
  cbv zeta in H. assert (Bi' : bank_inv (drew_one d)) by (by apply (bank_same d)).
  destruct (prepare _ _ _ _ _ _) as [[[[[from payee] partner] row] payer]|] eqn:Pr; [|injection H as <- <-; by split; [apply kept_refl|]].
  destruct (prepare_ok _ _ _ _ _ _ _ _ _ _ Pr (bi_payments _ Bi')) as [P F As St]; [unfold in_i64 in Hm; lia|].
  destruct (pays_other _ _ _ _ P) as [Oa Op]. pose proof As as As'. injection As' as Ei _ _ Ea _ _ _ _ _ _ _ _.
  destruct (run_hold _ _ _ _ _ _ _) as [rh d1] eqn:Rh. destruct (run_hold_inv _ _ _ _ _ _ Rh Bi' F St) as [B1 K]; [by rewrite Ea|].
  apply run_hold_kept in Rh as [K1 R1]. destruct rh as [row'|]; [|injection H as <- <-; by split].
  destruct (R1 row' eq_refl) as (Hin & hold & at_ & ->). pose proof (prepared_answers _ _ _ _ _ _ hold at_ (Build_prepared _ _ _ _ _ _ P F As St)) as An.
  destruct (sent_result _) as [res|].
  - pose proof (applyPartnerResult_inv c (mp_id row) (pa_partner from) res d1 B1 (K _ Op)) as B2.
    change (mp_id (with_hold hold at_ row)) with (mp_id row) in H. rewrite H in B2.
    apply applyPartnerResult_kept in H as [K2 R2]; [|done]. split; [by apply (kept_trans _ d1)|]. intros x ->. destruct (R2 x eq_refl) as [Hx Ex].
    exists q. split_and!; [done|done|]. destruct (K2 _ Hin) as (y & Hy & Ey). assert (Eid : mp_id y = mp_id row) by (by injection Ey).
    assert (y = x) as ->; [|by eapply answers_asked].
    apply (pair_unique mp_id (money_payments d')); [exact (pi_ids _ (bi_payments _ B2))|done..|by rewrite Ex, Eid].
  - injection H as <- <-. split; [done|]. intros x [= <-]. by exists q.
Qed.

Lemma PostMoney_payments c e d e' d' : PostMoney G (screener B) c e d = Ok (e', d') -> money_payments d' = money_payments d.
Proof. intros [H _]%PostMoney_ok. by apply postMoneyTx_ok in H as [_ [[_ ->]|(ps & _ & _ & ->)]]. Qed.

Lemma RefreshOutsidePayment_kept c ws agent id d : bank_inv d -> kept d (RefreshOutsidePayment G B c ws agent id d).2.
Proof.
  intros Bi. unfold RefreshOutsidePayment. destruct (payment_by_id d id) as [p|]; [|by apply kept_refl].
  destruct (negb _); [by apply kept_refl|]. destruct (Contains _ _); [by apply kept_refl|].
  destruct (accountPartners B) as [partners|]; [|by apply kept_refl]. destruct (Account partners c) as [partner|]; [|by apply kept_refl].
  destruct (paying_account _ _ _) as [from|]; [|by apply kept_refl].
  destruct (ask_partner _ _ _ _ _ _) as [[res|]|]; [|by apply kept_refl..].
  destruct (applyPartnerResult _ _ _ _ _ _ _) as [r d'] eqn:E. by apply applyPartnerResult_kept in E as [K _].
Qed.

Lemma BankStep_kept d d' : BankStep d d' -> bank_inv d -> kept d d'.
Proof.
  intros [c ws p Hm|c ws agent id|c p payer F St Ao|c id partner res Op|c ws p id q d1 H Hq|c a r d1 H|c e e' d1 H Hk Hp|d1 Gr] Bi.
  - destruct (PayOutside _ _ _ _ _ _ _) as [r d1] eqn:E. by apply PayOutside_kept in E as [K _].
  - by apply RefreshOutsidePayment_kept.
  - destruct (run_hold _ _ _ _ _ _ _) as [r d1] eqn:E. by apply run_hold_kept in E as [K _].
  - destruct (applyPartnerResult _ _ _ _ _ _ _) as [r d1] eqn:E. by apply applyPartnerResult_kept in E as [K _].
  - apply QuoteInternational_ok in H as (-> & _). by apply kept_refl.
  - apply OpenMoneyAccount_grows in H. by apply kept_refl, (gr_payments _ _ H).
  - by apply kept_refl, (PostMoney_payments c e _ e').
  - by apply kept_refl, (gr_payments _ _ Gr).
Qed.

Lemma BankSteps_kept d d' : rtc BankStep d d' -> bank_inv d -> kept d d'.
Proof.
  induction 1 as [|d d1 d2 H _ IH]; intros Bi; [by apply kept_refl|]. apply (kept_trans _ d1); [by apply BankStep_kept|].
  by apply IH, (BankStep_inv d).
Qed.

Lemma payment_by_key_in d ws p : payments_inv d -> p ∈ money_payments d -> mp_ws p = ws -> payment_by_key d ws (mp_key p) = Some p.
Proof.
  intros I Hp <-. destruct (payment_by_key d (mp_ws p) (mp_key p)) as [q|] eqn:E.
  - apply payment_by_key_ok in E as (Hq & Ew & Ek). f_equal. by apply (same_payment d).
  - apply payment_by_key_none in E. destruct E. apply (list_elem_of_fmap_2 (fun q => (mp_ws q, mp_key q))), Hp.
Qed.

(** A desk before any money is on it, whatever accounts are open. *)
Definition no_money_yet d : Prop :=
  money_entries d = [] /\ money_postings d = [] /\ money_account_balances d = ∅ /\ money_payment_quotes d = ∅ /\ money_payments d = [].

Lemma no_money_inv d : no_money_yet d -> bank_inv d.
Proof.
  intros (E1 & E2 & E3 & E4 & E5). split.
  - split; rewrite ?E1, ?E2; cbn; [by exists []| |intros e H|intros r H|intros r r' H|constructor|constructor]; try (by apply not_elem_of_nil in H).
    intros a f. unfold money_balance, all_lines. by rewrite E3, E2, lookup_empty.
  - split; rewrite ?E1, ?E5; cbn; [constructor|constructor|intros p H|intros e H| |]; try (by apply not_elem_of_nil in H).
    + intros id f _. unfold money_balance. by rewrite E3, lookup_empty.
    + intros id x. by rewrite E4, lookup_empty.
Qed.

Lemma held_for_filter id f (l : list MoneyPayment) : (forall p, p ∈ l -> fits (mp_amount p) (mp_cost p) (mp_fee p)) ->
  held_for id f l = sumZ ((fun p => mp_amount p + mp_cost p + mp_fee p)
    <$> filter (fun p => mp_hold p = id /\ mp_funding p = f /\ in_flight (mp_status p) = true) l) /\ 0 <= held_for id f l.
Proof.
  unfold held_for, holds. induction l as [|p l IH]; intros F; [by split|]. rewrite fmap_cons, filter_cons.
  destruct IH as [E P]; [intros q Hq; apply F; by right|]. pose proof (F p ltac:(by left)) as Fp. pose proof (debit_exact _ Fp). destruct Fp.
  destruct (decide _); rewrite ?fmap_cons; csimpl; rewrite <- E; split; lia.
Qed.

(** What one answer moves, and what it leaves alone. *)
Lemma answer_moves c id partner res d r d' :
  bank_inv d -> other_account d partner -> (forall p, payment_by_id d id = Some p -> 0 <= mp_arrives p <= max_i64) ->
  applyPartnerResult G B c id partner res d = (r, d') ->
  match r with
  | Ok p' => exists p via moves, payment_by_id d id = Some p /\ same_row p p' /\
      payment_by_id d' id = Some p' /\ (forall q, q ∈ money_payments d -> mp_id q <> id -> q ∈ money_payments d') /\
      goes_via d' p via /\ told p partner via (Status res) (mp_status p') moves /\
      (forall account funding, money_balance d' account funding
        = money_balance d account funding + (if decide (funding = mp_funding p) then moved_by account moves else 0))
  | Err _ => d' = d
  end.
Proof.
  intros [L I] Op Ha H. pose proof (applyPartnerResult_inv c id partner res d (Build_bank_inv _ L I) Op) as [_ I']. rewrite H in I'. cbn [snd] in I'.
  unfold applyPartnerResult, run_tx in H. destruct (money_committed _ d) as [[x d1]|] eqn:E; injection H as <- <-; [|done].
  apply money_committed_ok in E as [E _]. destruct (apply_result_ok _ _ _ _ _ _ _ _ E L I) as [_ (p & keys & ps & d2 & d3 & A)].
  destruct (answered_kept _ _ _ _ _ _ _ _ _ _ _ A (pi_ids _ I)) as [Hx K]. destruct A as [Er Gr (out & back & R & S) M Sm ->].
  pose proof Sm as [As _]. assert (Ei : mp_id x = id) by (destruct (payment_by_id_ok _ _ _ Er) as [_ <-]; by injection As).
  destruct (payment_by_id_ok _ _ _ Er) as [Hp _].
  destruct (settled_told _ _ _ _ _ _ _ _ _ (ro_fits _ _ (pi_rows _ I p Hp)) (Ha p Er) R S) as (via & moves & V & T & Hm).
  exists p, via, moves. split_and!; [exact Er|exact Sm| | | |exact T|].
  - destruct (payment_by_id (with_payments _ _) id) as [y|] eqn:Ey.
    + apply payment_by_id_ok in Ey as [Hy Ey]. f_equal. apply (pair_unique mp_id _ _ _ (pi_ids _ I') Hy Hx). congruence.
    + apply payment_by_id_none in Ey. destruct Ey. rewrite <- Ei. by apply list_elem_of_fmap_2.
  - intros q Hq Nq. change (money_payments (with_payments ?l _)) with l. apply put_payment_in; [|by rewrite Ei].
    by rewrite (mv_payments _ _ _ _ _ _ M), (gr_payments _ _ Gr).
  - change (dk_money (with_payments _ d3)) with (dk_money d3). destruct V as [H|rv cv pd H K1 K2 K3]; [by apply ViaHome|].
    unfold kind_account in *. rewrite <- (mv_accounts _ _ _ _ _ _ M) in K1, K2, K3. by apply ViaAbroad.
  - intros a f. change (money_balance (with_payments _ d3) a f) with (money_balance d3 a f). rewrite (mv_balance _ _ _ _ _ _ M), Hm.
    unfold money_balance at 1. by rewrite (gr_balances _ _ Gr).
Qed.

(** ** A payment made for the first time, without a quote *)

(** Where its money lies, by where it stands. *)
Definition lies p (partner : string) : list (string * Z) :=
  if decide (mp_status p ∈ ["pending"; "sent"]%string) then [(mp_account p, - mp_amount p); (mp_hold p, mp_amount p)]
  else if decide (mp_status p = "completed"%string) then [(mp_account p, - mp_amount p); (partner, mp_amount p)]
  else [].

(** A row of a payment at home, priced by nobody. *)
Definition plain p : Prop := mp_cost p = 0 /\ mp_fee p = 0 /\ mp_arrives p = 0 /\ mp_arrives_currency p = ""%string.

Lemma prepare_plain c ws (p : OutsidePayment) id d from payee partner row payer : prepare B c ws p id d = Ok (from, payee, partner, row, payer) ->
  op_quote p = ""%string -> plain row.
Proof.
  intros H Eq. unfold prepare in H. apply res_bind_ok in H as (from' & _ & H). apply res_bind_ok in H as (payee' & _ & H).
  destruct (accountPartners B) as [partners|], (screener B) as [scr|]; try done. destruct (Account partners c) as [partner'|]; [|done].
  cbv zeta in H. rewrite bool_decide_eq_true_2 in H by done. cbn [andb] in H. destruct (negb _); [done|].
  apply res_bind_ok in H as ((row1 & payer') & [= <- <-] & H). apply res_bind_ok in H as (row2 & H2 & [= <- <- <- <- <-]).
  destruct (bool_decide _); [by injection H2 as <-|]. by apply res_bind_ok in H2 as (v & _ & [= <-]).
Qed.

(** What a hold that went through did to the balances and the payments. *)
Lemma held_moves c p p' d d0 d1 d' : held_with c p p' d d0 d1 d' -> bank_inv d ->
  fits (mp_amount p) (mp_cost p) (mp_fee p) -> mp_status p = PaymentPending -> other_account d (mp_account p) ->
  money_payments d' = p' :: money_payments d /\
  forall a f, money_balance d' a f = money_balance d a f + (if decide (f = mp_funding p) then
    moved_by a [(mp_account p, - (mp_amount p + mp_cost p + mp_fee p)); (mp_hold p', mp_amount p + mp_cost p + mp_fee p)] else 0).
Proof.
  intros Hw Bi F St Ao. destruct (held_inv _ _ _ _ _ _ _ Hw Bi F St Ao) as (_ & _ & M). pose proof (debit_exact _ F) as De.
  destruct Hw as [[Em Ep] Gr (hold & -> & _) _ _ _ _ _]. split.
  - rewrite (mv_payments _ _ _ _ _ _ M). change (money_payments (with_payments ?l _)) with l. by rewrite (gr_payments _ _ Gr), Ep.
  - intros a f. rewrite (mv_balance _ _ _ _ _ _ M). change (money_balance (with_payments _ d1) a f) with (money_balance d1 a f).
    unfold money_balance. rewrite (gr_balances _ _ Gr), Em. f_equal. case_decide; [|done].
    cbn [hold_entry me_postings mn_account mn_amount with_hold mp_account mp_hold].
    change (debit (with_hold hold (now c) p)) with (debit p). rewrite De. destruct F. rewrite neg_exact by lia.
    by rewrite !asks_on_cons, !moved_by_cons.
Qed.

(** What it then comes to, told where it stands. *)
Lemma told_lies p p' partner via status moves a : plain p -> via = None -> mp_status p = PaymentPending -> same_row p p' ->
  told p partner via status (mp_status p') moves ->
  moved_by a [(mp_account p, - mp_amount p); (mp_hold p, mp_amount p)] + moved_by a moves = moved_by a (lies p' partner).
Proof.
  intros (C & Fe & _ & _) -> St [As _] T. injection As as _ _ _ Ea Eh _ _ Em _ _ _ _. unfold lies. rewrite Ea, Eh, Em. unfold PaymentPending in St.
  assert (N : moved_by a [] = 0) by done.
  destruct T as [_|?|_|_|_|?|x ? _ _]; [..|match goal with H : mp_status p ∉ _ |- _ => destruct H; rewrite St; left end];
    unfold goes_out, comes_back, never_left; cbn [app]; rewrite ?C, ?Fe; try congruence;
    repeat (case_decide; try (by set_solver)); rewrite ?moved_by_app, !moved_by_cons, ?N; repeat case_decide; lia.
Qed.

(** What a payment asked for first under its key did: nothing of it is recorded and no money
    moved, or it is recorded as asked and its money lies where it stands. *)
Inductive first_paid (ws : string) (q : OutsidePayment) d (r : Res MoneyErr MoneyPayment) d' : Prop :=
| FirstRefused e : r = Err e -> dk_money d' = dk_money d -> money_payments d' = money_payments d -> first_paid ws q d r d'
| FirstRecorded from p :
    pays ws q d from -> p ∈ money_payments d' -> answers ws q p -> mp_account p = pa_id from -> mp_agent p = pa_agent from -> mp_cost p = 0 -> mp_fee p = 0 ->
    (forall a f, money_balance d' a f
      = money_balance d a f + (if decide (f = mp_funding p) then moved_by a (lies p (pa_partner from)) else 0)) ->
    r = Ok p \/ mp_status p = "pending"%string /\ (exists e, r = Err e) -> first_paid ws q d r d'.

Lemma pays_drew_one ws (p : OutsidePayment) d from : pays ws p (drew_one d) from -> pays ws p d from.
Proof. by intros [H1 H2 H3 H4]; split. Qed.

Lemma first_payment c ws (p q : OutsidePayment) d r d' :
  bank_inv d -> in_i64 (op_minor p) -> normalise true p = inl q -> op_quote q = ""%string -> payment_by_key d ws (op_key q) = None ->
  PayOutside LL G B c ws p d = (r, d') -> first_paid ws q d r d'.
Proof.
  intros Bi Hm En Eq Pk H. unfold PayOutside in H. rewrite En in H. unfold prior_payment in H. rewrite Pk in H. cbv zeta in H. cbn [fmap option_fmap option_map] in H.
  pose proof (normalise_ok _ _ _ En) as (_ & _ & Em & _ & Hp). assert (Bi' : bank_inv (drew_one d)) by (by apply (bank_same d)).
  destruct (prepare _ _ _ _ _ _) as [[[[[from payee] partner] row] payer]|e] eqn:Pr; [|injection H as <- <-; by apply (FirstRefused _ _ _ _ _ e)].
  destruct (prepare_ok _ _ _ _ _ _ _ _ _ _ Pr (bi_payments _ Bi')) as [P F As St]; [unfold in_i64 in Hm; lia|].
  pose proof (prepare_plain _ _ _ _ _ _ _ _ _ _ Pr Eq) as Pl. destruct (pays_other _ _ _ _ P) as [Oa Op].
  pose proof As as As'. injection As' as Ei _ _ Ea _ Eg _ _ _ _ _ _.
  destruct (run_hold _ _ _ _ _ _ _) as [rh d1] eqn:Rh. destruct (run_hold_inv _ _ _ _ _ _ Rh Bi' F St) as [B1 K]; [by rewrite Ea|].
  apply run_hold_cases in Rh as [(e & -> & Em1 & Ep1)|(row' & d2 & d3 & -> & Hw & _)]; [injection H as <- <-; by apply (FirstRefused _ _ _ _ _ e)|].
  assert (Ao : other_account (drew_one d) (mp_account row)) by (by rewrite Ea).
  destruct (held_moves _ _ _ _ _ _ _ Hw Bi' F St Ao) as [Mp Mb]. destruct (hw_row _ _ _ _ _ _ _ Hw) as (hold & -> & _).
  set (row' := with_hold hold _ row) in *. destruct Pl as (P1 & P2 & P3 & P4). rewrite P1, P2, !Z.add_0_r in Mb.
  assert (Pl' : plain row') by done. assert (An : answers ws q row') by (exact (prepared_answers _ _ _ _ _ _ hold _ (Build_prepared _ _ _ _ _ _ P F As St))).
  assert (Held : forall r0, r0 = Ok row' \/ (exists e, r0 = Err e) -> first_paid ws q d r0 d1).
  { intros r0 Hr. apply (FirstRecorded _ _ _ _ _ from row'); [by apply pays_drew_one|rewrite Mp; by left|done|done|done|done|done| |].
    - intros a f. rewrite Mb. change (money_balance (drew_one d) a f) with (money_balance d a f). f_equal.
      change (mp_funding row') with (mp_funding row). assert (El : lies row' (pa_partner from) = [(mp_account row, - mp_amount row); (mp_hold row', mp_amount row)]); [|by rewrite El].
      unfold lies. change (mp_status row') with (mp_status row). by rewrite St.
    - destruct Hr as [Hr|Hr]; [by left|right]. split; [exact St|exact Hr]. }
  destruct (sent_result _) as [res|]; [|injection H as <- <-; apply Held; by left].
  pose proof (answer_moves c (mp_id row') (pa_partner from) res d1 r d' B1 (K _ Op)) as A.
  assert (Er : payment_by_id d1 (mp_id row') = Some row').
  { unfold payment_by_id. rewrite Mp. cbn [List.find]. by rewrite bool_decide_eq_true_2. }
  assert (Ha : forall x, payment_by_id d1 (mp_id row') = Some x -> 0 <= mp_arrives x <= max_i64).
  { intros x Hx. rewrite Er in Hx. injection Hx as <-. change (mp_arrives row') with (mp_arrives row). rewrite P3. unfold max_i64. lia. }
  specialize (A Ha H). destruct r as [p'|e].
  2: { rewrite A. apply Held. right. by exists e. }
  destruct A as (x & via & moves & Ex & Sm & Ep' & _ & V & T & Mv). rewrite Er in Ex. injection Ex as <-.
  assert (Vn : via = None) by (destruct V; [done|]; change (mp_arrives_currency row') with (mp_arrives_currency row) in *; congruence).
  pose proof Sm as (As' & C' & F'). pose proof (payment_by_id_ok _ _ _ Ep') as [Hin _].
  apply (FirstRecorded _ _ _ _ _ from p'); [by apply pays_drew_one|exact Hin|by eapply answers_asked| | |by rewrite C'|by rewrite F'| |by left].
  - transitivity (mp_account row'); [by injection As'|exact Ea].
  - transitivity (mp_agent row'); [by injection As'|exact Eg].
  - intros a f. rewrite Mv, Mb. change (money_balance (drew_one d) a f) with (money_balance d a f).
    assert (mp_funding p' = mp_funding row) as -> by (by injection As'). change (mp_funding row') with (mp_funding row).
    destruct (decide (f = mp_funding row)); [|lia]. rewrite <- (told_lies row' p' _ _ _ _ a Pl' Vn St Sm T).
    change (mp_account row') with (mp_account row). change (mp_amount row') with (mp_amount row). lia.
Qed.

(** ** Properties *)

(** C5: while a payment is on its way its money is in the hold, and nothing else is.  From
    a desk no money was on, whatever accounts were opened, money posted, quotes priced,
    payments held, sent, answered by the partner and read again, in any order, what a hold
    account holds in a funding is exactly the amounts, costs and fees of the payments pending
    or sent that it holds, so never negative; each entry sums to zero, and every account of a
    currency together holds nothing.  So far as [BankStep] goes: a quote's amount, cost and
    fee together fit an int64, which the code does not check
    ([wrapped_payment_credits_its_payer] is what it does beyond); money posted by others goes
    to no hold account and takes no key of a payment's; a payment held by itself pays from an
    account that is no hold, and its amounts fit; the partner's account is no hold. *)
Theorem hold_accounts_hold_what_is_on_its_way d d' :
  no_money_yet d -> rtc BankStep d d' ->
  (forall id funding, hold_account d' id ->
    money_balance d' id funding = sumZ ((fun p => mp_amount p + mp_cost p + mp_fee p)
      <$> filter (fun p => mp_hold p = id /\ mp_funding p = funding /\ in_flight (mp_status p) = true) (money_payments d')) /\
    0 <= money_balance d' id funding) /\
  (forall p, p ∈ money_payments d' -> hold_account d' (mp_hold p) /\ other_account d' (mp_account p)) /\
  (forall currency funding,
    map_sum (fun id a => if decide (ma_currency a = currency) then money_balance d' id funding else 0) (money_accounts d') = 0) /\
  ledger_inv d'.
Proof.
  intros N%no_money_inv H. destruct (BankSteps_inv _ _ H N) as [L I]. split_and!; [| |by intros; apply ledger_conserves|exact L].
  - intros id f Hi. rewrite (pi_hold _ I _ _ Hi). apply held_for_filter. intros p Hp. apply (pi_rows _ I p Hp).
  - intros p Hp. destruct (pi_rows _ I p Hp) as [_ ? ?]. done.
Qed.

(** C9: a partner's answer moves a payment's money exactly as far as it says.  A payment on
    its way that completed leaves the hold, amount, cost and fee: the amount and the cost for
    the partner's account, the fee of one to another country for Talyvor's revenue, and what
    arrives from the conversion to the payments of its currency; one that failed goes back
    whole to the account that pays; one returned comes back to that account without the fee,
    having gone out; one still pending, and an answer to a payment that is already as far,
    move nothing ([told]).  No balance changes but by those moves, nothing of what was
    asked, of its cost or of its fee changes, and the other payments stay; a refused answer
    changes nothing.  (What arrives is a BIGINT that is not negative,
    as its column's CHECK says.) *)
Theorem partner_answer_moves_exactly c id partner res d r d' :
  bank_inv d -> other_account d partner -> (forall p, payment_by_id d id = Some p -> 0 <= mp_arrives p <= max_i64) ->
  applyPartnerResult G B c id partner res d = (r, d') ->
  match r with
  | Ok p' => exists p via moves, payment_by_id d id = Some p /\ same_row p p' /\
      payment_by_id d' id = Some p' /\ (forall q, q ∈ money_payments d -> mp_id q <> id -> q ∈ money_payments d') /\
      goes_via d' p via /\ told p partner via (Status res) (mp_status p') moves /\
      (forall account funding, money_balance d' account funding
        = money_balance d account funding + (if decide (funding = mp_funding p) then moved_by account moves else 0))
  | Err _ => d' = d
  end.
Proof. exact (answer_moves c id partner res d r d'). Qed.

(** The payment there is under the key of one that was sent. *)
Lemma asked_again c ws (p : OutsidePayment) d row d1 d2 :
  bank_inv d -> in_i64 (op_minor p) -> PayOutside LL G B c ws p d = (Ok row, d1) -> rtc BankStep d1 d2 ->
  exists (q : OutsidePayment) row', normalise true p = inl q /\ row' ∈ money_payments d2 /\ asked row' = asked row /\
    payment_by_key d2 ws (op_key q) = Some row' /\ same row' q = true.
Proof.
  intros Bi Hm H St. pose proof (PayOutside_inv c ws p d Bi Hm) as B1. rewrite H in B1.
  destruct (PayOutside_kept _ _ _ _ _ _ H Bi Hm) as [_ R]. destruct (R row eq_refl) as (q & En & Hin & An).
  destruct (BankSteps_kept _ _ St B1 row Hin) as (row' & Hr & Ea). pose proof (BankSteps_inv _ _ St B1) as [_ I2].
  destruct (answers_asked _ _ _ _ Ea An) as (Ew & Ek & Es). pose proof (payment_by_key_in _ _ _ I2 Hr Ew) as P. rewrite Ek in P.
  by exists q, row'.
Qed.

(** C10: money out asked for again under its key is sent once.  Once a payment is recorded,
    the same one asked for again, whatever else happened since, answers that payment where it
    then stands, and changes nothing; and whatever else is asked under that key changes
    nothing either, and is refused or answers that payment. *)
Theorem payment_asked_again_is_the_same c ws (p : OutsidePayment) d row d1 d2 :
  bank_inv d -> in_i64 (op_minor p) -> PayOutside LL G B c ws p d = (Ok row, d1) -> rtc BankStep d1 d2 ->
  exists row', row' ∈ money_payments d2 /\ asked row' = asked row /\
    (forall c', PayOutside LL G B c' ws p d2 = (Ok row', d2)) /\
    (forall c' (q : OutsidePayment) r d3, trimmed (op_key q) = trimmed (op_key p) -> PayOutside LL G B c' ws q d2 = (r, d3) ->
       d3 = d2 /\ (r = Ok row' \/ exists e, r = Err e)).
Proof.
  intros Bi Hm H St. destruct (asked_again _ _ _ _ _ _ _ Bi Hm H St) as (q & row' & En & Hr & Ea & P & Es).
  exists row'. split_and!; [exact Hr|exact Ea| |].
  - intros c'. unfold PayOutside. rewrite En. unfold prior_payment. rewrite P. cbn. by rewrite Es.
  - intros c' q' r d3 Et H3. unfold PayOutside in H3. destruct (normalise true q') as [q1|why] eqn:En'; [|injection H3 as <- <-; split; [done|right; by eexists]].
    assert (Ekk : op_key q1 = op_key q) by (by rewrite (normalise_key _ _ _ En), (normalise_key _ _ _ En')).
    unfold prior_payment in H3. rewrite Ekk, P in H3. cbn in H3. injection H3 as <- <-. split; [done|].
    destruct (same row' q1); [by left|right; by eexists].
Qed.
End Applying.

(** ** Examples *)

(** A supplier, a bank that takes payments and completes them, and the supplier's invoice. *)
Definition demo_payees : gmap string PayeeRow :=
  {["sup" := mkPayeeRow "ws" "Supplier Ltd" "GB" "112233" "12345678" "" "" "" PayeeExactMatch "" "bank" None "" 1]}%string.

Definition demo_partner : AccountPartner :=
  mkAccountPartner "bank" (fun _ rq => Ok (mkPartnerResult ("bp-" +:+ rq_id rq) StatusPending ""))
    (fun _ _ => Ok (mkPartnerResult "" StatusCompleted "paid"))
    (fun _ id minor currency deliver _ => Ok (mkPartnerQuote ("q-" +:+ id) 150 currency (minor + minor `div` 4) deliver "1.25" 100)).

Definition demo_bank : Bank :=
  mkBank (Some (mkAccountPartners (fun _ => Some demo_partner) (fun _ _ minor _ => Some (Ok minor)))) demo_screener (Some (fun _ _ _ _ => None))
    {[CurrencyGBP := 250]} id.

Definition demo_counter : Desk :=
  with_payees demo_payees demo_till.

Definition demo_bill : OutsidePayment := mkOutsidePayment "" "" "sup" 1200 "gbp" "" "Invoice  9" "bill-9" "" None.

Definition demo_funded : Desk := (demo_post demo_ctx (money_in FundingTest "in-2" 5000 "Customer") demo_counter).2.
Definition demo_pay (p : OutsidePayment) d := PayOutside utc_only demo_gates demo_bank demo_ctx "ws" p d.
Definition demo_sent : Desk := (demo_pay demo_bill demo_funded).2.

Definition demo_settled : Desk := (RefreshOutsidePayment demo_gates demo_bank demo_ctx "ws" "" "mpay_1" demo_sent).2.

(** The bank took 1,200 once the payment completed, and the hold is empty. *)
Example demo_completes :
  (Balance "ws" "acme" demo_settled, Balance "ws" "bank" demo_settled, Balance "ws" "macc_2" demo_settled) =
    (Ok (mkMoneyBalance CurrencyGBP 3800 0 3800), Ok (mkMoneyBalance CurrencyGBP (-3800) 0 (-3800)), Ok (mkMoneyBalance CurrencyGBP 0 0 0)) /\
  (demo_pay (mkOutsidePayment "" "" "sup" 1300 "GBP" "" "" "bill-9" "" None) demo_settled).1 = Err ErrIdempotencyKeyReused.
Proof. vm_compute. done. Qed.

(** The sum of a payment's amount, cost and fee may wrap: an amount near the largest a BIGINT
    holds, quoted for another country, debits a negative sum, which the paying account covers
    and which its hold pays it.  So [BankQuote] asks that a quote's sum does not wrap. *)
Definition demo_far : Desk := with_payees
  {["far" := mkPayeeRow "ws" "Fornitore" "IT" "" "" "IT60X0542811101000000123456" "" "" PayeeExactMatch "" "bank" None "" 1]}%string demo_counter.

Definition demo_huge : OutsidePayment := mkOutsidePayment "" "" "far" (max_i64 - 100) "GBP" "" "" "huge" "" None.

Definition demo_dear : AccountPartner :=
  mkAccountPartner "bank" (SendPayment demo_partner) (PaymentStatus demo_partner)
    (fun _ id _ currency deliver _ => Ok (mkPartnerQuote ("q-" +:+ id) 150 currency 1 deliver "0" 100)).

Definition demo_dear_bank : Bank :=
  mkBank (Some (mkAccountPartners (fun _ => Some demo_dear) (fun _ _ minor _ => Some (Ok minor)))) demo_screener (Some (fun _ _ _ _ => None))
    {[CurrencyGBP := 250]} id.

Example wrapped_payment_credits_its_payer :
  match QuoteInternational demo_dear_bank demo_ctx "ws" demo_huge demo_far with
  | Ok ((quote, _), d) =>
      let p := mkOutsidePayment "" "" "far" (max_i64 - 100) "GBP" "" "" "huge" quote None in
      Balance "ws" "acme" d = Ok (mkMoneyBalance CurrencyGBP 0 0 0) /\
      Balance "ws" "acme" (PayOutside utc_only demo_gates demo_dear_bank demo_ctx "ws" p d).2 =
        Ok (mkMoneyBalance CurrencyGBP (2 ^ 64 - (max_i64 + 300)) 0 (2 ^ 64 - (max_i64 + 300)))
  | Err _ => False
  end.
Proof. vm_compute. done. Qed.

Lemma demo_no_money : no_money_yet demo_counter.
Proof. split_and!; vm_compute; reflexivity. Qed.

Lemma demo_fund : PostMoney demo_gates demo_screener demo_ctx (money_in FundingTest "in-2" 5000 "Customer") demo_counter =
  Ok ((demo_post demo_ctx (money_in FundingTest "in-2" 5000 "Customer") demo_counter).1, demo_funded).
Proof. vm_compute. reflexivity. Qed.

Lemma demo_accounts_at : ma_purpose <$> money_accounts demo_counter !! "acme"%string = Some MoneyCompany /\
  ma_purpose <$> money_accounts demo_counter !! "bank"%string = Some MoneyPartner.
Proof. split; vm_compute; reflexivity. Qed.

Lemma demo_funded_steps : rtc (BankStep utc_only demo_gates demo_bank) demo_counter demo_funded.
Proof.
  apply rtc_once. apply (BankPost _ _ demo_bank _ demo_ctx (money_in FundingTest "in-2" 5000 "Customer") _ _ demo_fund); [done|].
  intros x Hx (a & Ha & Pa & _). destruct demo_accounts_at as [E1 E2].
  assert (H : mn_account x = "bank"%string \/ mn_account x = "acme"%string).
  { apply elem_of_cons in Hx as [-> | Hx]; [by left|]. apply list_elem_of_singleton in Hx as ->. by right. }
  destruct H as [H|H]; rewrite H in Ha; [rewrite Ha in E2; injection E2 as E|rewrite Ha in E1; injection E1 as E]; rewrite E in Pa; discriminate Pa.
Qed.

Lemma till_funded_inv : bank_inv demo_funded.
Proof. exact (BankSteps_inv _ _ _ _ _ demo_funded_steps (no_money_inv _ demo_no_money)). Qed.

Lemma demo_bill_fits : in_i64 (op_minor demo_bill).
Proof. by apply in_i64b_spec. Qed.

Lemma demo_sent_inv : bank_inv demo_sent.
Proof. exact (PayOutside_inv utc_only demo_gates demo_bank demo_ctx "ws" demo_bill demo_funded till_funded_inv demo_bill_fits). Qed.

Lemma demo_hold_account : hold_account demo_sent "macc_2".
Proof. exists (mkMoneyAccount "ws" "" CurrencyGBP MoneyHold MoneyOpen "Payments out" "" "" (now demo_ctx)). split; [vm_compute; reflexivity|done]. Qed.

Lemma hold_accounts_hold_what_is_on_its_way_witness :
  rtc (BankStep utc_only demo_gates demo_bank) demo_counter demo_sent /\
  money_balance demo_sent "macc_2" FundingTest = 1200 /\
  money_balance demo_sent "macc_2" FundingTest = sumZ ((fun p => mp_amount p + mp_cost p + mp_fee p)
    <$> filter (fun p => mp_hold p = "macc_2"%string /\ mp_funding p = FundingTest /\ in_flight (mp_status p) = true) (money_payments demo_sent)).
Proof.
  assert (S : rtc (BankStep utc_only demo_gates demo_bank) demo_counter demo_sent).
  { unfold demo_sent, demo_pay. exact (rtc_r _ _ _ demo_funded_steps (BankPay utc_only demo_gates demo_bank demo_funded demo_ctx "ws" demo_bill demo_bill_fits)). }
  destruct (hold_accounts_hold_what_is_on_its_way utc_only demo_gates demo_bank demo_counter demo_sent demo_no_money S) as [A _].
  split; [exact S|]. split; [vm_compute; reflexivity|]. exact (proj1 (A _ FundingTest demo_hold_account)).
Defined.

Lemma demo_bank_account : other_account demo_sent "bank".
Proof. exists (mkMoneyAccount "ws" "" CurrencyGBP MoneyPartner MoneyOpen "Bank" "ext-1" "" 1). split; [vm_compute; reflexivity|done]. Qed.

Lemma demo_sent_arrives p : payment_by_id demo_sent "mpay_1" = Some p -> 0 <= mp_arrives p <= max_i64.
Proof.
  assert (E : mp_arrives <$> payment_by_id demo_sent "mpay_1" = Some 0) by (vm_compute; reflexivity).
  intros H. rewrite H in E. injection E as ->. unfold max_i64. lia.
Qed.

Definition demo_bounced : PartnerResult := mkPartnerResult "bp-9" StatusReturned "account closed".
Definition demo_answer := applyPartnerResult demo_gates demo_bank demo_ctx "mpay_1" "bank" demo_bounced demo_sent.

Lemma partner_answer_moves_exactly_witness :
  exists p', demo_answer.1 = Ok p' /\ mp_status p' = PaymentReturned /\ payment_by_id demo_answer.2 "mpay_1" = Some p' /\
    money_balance demo_answer.2 "acme" FundingTest = money_balance demo_funded "acme" FundingTest.
Proof.
  assert (E : exists p', demo_answer.1 = Ok p' /\ mp_status p' = PaymentReturned) by (vm_compute; eexists; split; reflexivity).
  destruct E as (p' & E & S). exists p'. split; [exact E|]. split; [exact S|].
  pose proof (partner_answer_moves_exactly demo_gates demo_bank demo_ctx "mpay_1" "bank" demo_bounced demo_sent demo_answer.1 demo_answer.2
    demo_sent_inv demo_bank_account demo_sent_arrives (surjective_pairing _)) as A. rewrite E in A.
  destruct A as (p & via & moves & _ & _ & A & _). split; [exact A|]. vm_compute. reflexivity.
Defined.

Lemma payment_asked_again_is_the_same_witness :
  exists row', demo_pay demo_bill demo_settled = (Ok row', demo_settled) /\ mp_status row' = PaymentCompleted.
Proof.
  assert (E : exists row, demo_pay demo_bill demo_funded = (Ok row, demo_sent)) by (vm_compute; eexists; reflexivity). destruct E as [row E].
  destruct (payment_asked_again_is_the_same utc_only demo_gates demo_bank demo_ctx "ws" demo_bill demo_funded row demo_sent demo_settled
    till_funded_inv demo_bill_fits E (rtc_once _ _ (BankRefresh _ _ _ _ demo_ctx "ws" "" "mpay_1"))) as (row' & _ & _ & A & _).
  exists row'. split; [exact (A demo_ctx)|].
  assert (C : exists x, (demo_pay demo_bill demo_settled).1 = Ok x /\ mp_status x = PaymentCompleted) by (vm_compute; eexists; split; reflexivity).
  destruct C as (x & C & S). unfold demo_pay in C. rewrite (A demo_ctx) in C. cbn [fst] in C.
  assert (E2 : row' = x) by (by injection C). rewrite E2. exact S.
Defined.
