(* ===== verification/Schedules.v ===== *)
(** Scheduled payments, standing orders and automatic top-ups
    ([internal/economy/agent_schedules.go], [migrations/0144], [0151], [0249]): a schedule
    made, skipped and cancelled, the run that pays every tick that is due, and the agents
    brought back up to their targets.  What a tick pays is a payment or a transfer of the
    files before this one; a listing's charge and a payment out of Talyvor are asked of
    [ListingCharger] and [Outside], the schedule's interfaces to the marketplace and to the
    money accounts; [outgoing] is [Outgoing] behind the second. *)
From stdpp Require Import pretty.
From S2P Require Import Prelude Money Tables Postings Clock Lxc Rules CreditLine Agents Reservation Funding Wallet Shifts Desk Capabilities Transfers Escrow Payments Effects Ledger Outgoing.
Open Scope Z_scope.
Open Scope i64_scope.

Implicit Types (d : Desk) (s : Store).

(** ** Errors *)

Inductive ScheduleRule : Type := RuleAmountMinor | RuleOrderCurrency (currency : string) | RuleEvery | RuleEnd | RuleAmount | RuleTopUp.

Inductive ListingRefusal : Type :=
| NoMarketplace
| ListingRefused (why : string)
| ListingPrices (price amount : Z).

Inductive SchedErr : Type :=
| EDesk (e : PayErr)
| EOutside (e : MoneyErr)               (* a payment out of Talyvor *)
| ErrSchedule (why : ScheduleRule)      (* wraps [ErrAgentRule] *)
| ErrListingPayee (why : ListingRefusal)
| ErrScheduleNotFound.

(** ** Tables *)

Inductive RunOutcome : Type := RunPaid | RunRefused | RunSkipped.

#[export] Instance RunOutcome_eq_dec : EqDecision RunOutcome.
Proof. solve_decision. Defined.

(** What a run row's [detail] says. *)
Inductive RunDetail : Type :=
| NoDetail
| SkippedByOwner
| SentAs (status : string)              (* where the payment out stood *)
| Refusal (e : SchedErr).

(** A row of [agent_schedule_runs], by schedule and tick. *)
Record ScheduleRun := mkRun {
  rn_outcome : RunOutcome;
  rn_entry : option string;
  rn_use : option string;
  rn_payment : option string;
  rn_detail : RunDetail;
  rn_created : Z;
}.

Record Diary := mkDiary {
  dy_desk : Desk;
  agent_schedule_runs : gmap (string * Z) ScheduleRun;
}.

Coercion dy_desk : Diary >-> Desk.
Implicit Types (y : Diary).

Definition at_desk d y : Diary := mkDiary d (agent_schedule_runs y).

Definition with_schedules (f : gmap string ScheduleRow -> gmap string ScheduleRow) y : Diary :=
  at_desk (with_store (with_agent_payment_schedules (f (agent_payment_schedules y)) y) y) y.

Definition with_topups (f : gmap string TopUpRow -> gmap string TopUpRow) y : Diary :=
  at_desk (with_store (with_agent_topups (f (agent_topups y)) y) y) y.

Abbreviation STx := (Tx SchedErr Diary).

(** A transaction on the other tables, as part of one on all of them. *)
Definition on_desk {A} (m : PTx A) : STx A := fun y =>
  match m (dy_desk y) with
  | Ok (a, d) => Ok (a, at_desk d y)
  | Err e => Err (EDesk e)
  end.

(** ** The ticks of a schedule *)

Definition every_known (every : string) : bool := Contains ["hour"; "day"; "week"; "month"]%string every.

(** [nextTick]; anything but an hour, a day or a week is a month. *)
Definition nextTick (t : Z) (every : string) : Z :=
  if bool_decide (every = "hour"%string) then t + hour
  else if bool_decide (every = "day"%string) then AddDate UTC t 0 0 1
  else if bool_decide (every = "week"%string) then AddDate UTC t 0 0 7
  else AddDate UTC t 0 1 0.

Definition moved_on (tick : Z) (r : ScheduleRow) : ScheduleRow :=
  mkSchedule (sc_ws r) (sc_from r) (sc_to r) (sc_listing r) (sc_payee r) (sc_amount r) (sc_minor r) (sc_currency r)
    (sc_memo r) (sc_every r) tick (sc_end r)
    (sc_active r && match sc_end r with Some e => tick <=? e | None => true end) (sc_created r).

(** [advanceSchedule], of the row as it was read. *)
Definition advanceSchedule (id : string) (r : ScheduleRow) : STx ScheduleRow :=
  let tick := nextTick (sc_next r) (sc_every r) in
  let! row := tx_gets (fun y => agent_payment_schedules y !! id) in
  match row with
  | None => tx_fail (EDesk (EWallet ErrNoRow))
  | Some row =>
      tx_modify (with_schedules <[id := moved_on tick row]>) ;;;
      tx_ret (moved_on tick row)
  end.

(** [INSERT INTO agent_schedule_runs]: one row a tick. *)
Definition insert_run (id : string) (tick : Z) (run : ScheduleRun) : STx unit :=
  let! dup := tx_gets (fun y => is_some (agent_schedule_runs y !! (id, tick))) in
  tx_guard (negb dup) (EDesk (EWallet ErrCheck)) ;;;
  tx_modify (fun y => mkDiary (dy_desk y) (<[(id, tick) := run]> (agent_schedule_runs y))).

Definition SkipAgentScheduleTick (c : Ctx) (ws id : string) : STx ScheduleRow :=
  let! r := tx_gets (fun y => agent_payment_schedules y !! id) in
  match r with
  | None => tx_fail ErrScheduleNotFound
  | Some r =>
      tx_guard (bool_decide (sc_ws r = ws) && sc_active r) ErrScheduleNotFound ;;;
      insert_run id (sc_next r) (mkRun RunSkipped None None None SkippedByOwner (now c)) ;;;
      advanceSchedule id r
  end.

Definition CancelAgentSchedule (ws id : string) : STx unit :=
  let! r := tx_gets (fun y => agent_payment_schedules y !! id) in
  match r with
  | None => tx_fail ErrScheduleNotFound
  | Some r =>
      tx_guard (bool_decide (sc_ws r = ws)) ErrScheduleNotFound ;;;
      tx_modify (with_schedules <[id := with_active false r]>)
  end.

(** ** Making a schedule *)

(** What the marketplace is to a schedule: a listing's price for a workspace, or a refusal,
    and one billed use of it charged once the schedule's rules have judged its price; the
    licences it renews, when it renews any. *)
Record ListingCharger := mkListingCharger {
  ListingPrice : string -> string -> PTx (Z * string);
  ChargeScheduledListing : Ctx -> string -> string -> string -> Z -> Z -> (Z -> PTx unit) -> PTx (string * string);
  RenewLicences : option (Ctx -> Z -> Desk -> (nat * nat * option PayErr) * Desk);
}.

(** What the money accounts are to a schedule: whether a saved payee can be paid, and a
    payment to it, in its own transactions. *)
Record Outside := mkOutside {
  PayablePayee : Ctx -> string -> string -> Desk -> Res MoneyErr PayeeRow;
  PayOut : Ctx -> string -> OutsidePayment -> Desk -> Res MoneyErr MoneyPayment * Desk;
}.

(** The money accounts themselves. *)
Definition outgoing (LL : string -> option Location) (G : Gates) (B : Bank) : Outside :=
  mkOutside (fun c ws payee d => PayableOutsidePayee B c ws payee d) (PayOutside LL G B).

(** The CHECKs of [agent_payment_schedules]; a null never fails one. *)
Definition schedule_checks (r : ScheduleRow) : bool :=
  ((0 <? sc_amount r) || (is_some (sc_payee r) && (0 <? sc_minor r))) && (0 <=? sc_minor r) && every_known (sc_every r)
  && negb (bool_decide (sc_to r = Some (sc_from r)))
  && match sc_to r, sc_listing r, sc_payee r with
     | Some _, None, None | None, Some _, None | None, None, Some _ => true
     | _, _, _ => false
     end.

(** The row, under a new id. *)
Definition insert_schedule (id : string) (r : ScheduleRow) : STx (string * ScheduleRow) :=
  let! dup := tx_gets (fun y => is_some (agent_payment_schedules y !! id)) in
  tx_guard (schedule_checks r && negb dup) (EDesk (EWallet ErrCheck)) ;;;
  tx_modify (with_schedules <[id := r]>) ;;;
  tx_ret (id, r).

(** [FROM agent_accounts f WHERE f.id = from AND f.workspace_id = ws]. *)
Definition agent_of_ws s (ws agent : string) : bool :=
  match agent_accounts s !! agent with Some a => bool_decide (ag_ws a = ws) | None => false end.

Definition schedule_id (c : Ctx) : STx string :=
  let! u := on_desk (wallet (uuid_new c)) in tx_ret ("sch_" +:+ u).

Section Making.
Context (L : option ListingCharger) (OS : Outside).

Definition CreateStandingOrder (c : Ctx) (ws from payee : string) (minor : Z) (currency memo every : string) (first : Z)
    (end_ : option Z) : STx (string * ScheduleRow) :=
  let currency := upper (trimmed currency) in
  tx_guard (negb (minor <=? 0)) (ErrSchedule RuleAmountMinor) ;;;
  tx_guard (Contains [CurrencyGBP; CurrencyEUR; CurrencyUSD] currency) (ErrSchedule (RuleOrderCurrency currency)) ;;;
  tx_guard (every_known every) (ErrSchedule RuleEvery) ;;;
  tx_guard (match end_ with Some e => negb (e <? first) | None => true end) (ErrSchedule RuleEnd) ;;;
  let! payable := tx_gets (fun y => PayablePayee OS c ws payee y) in
  match payable with
  | Err e => tx_fail (EOutside e)
  | Ok _ =>
      let! id := schedule_id c in
      let! found := tx_gets (fun y => agent_of_ws y ws from) in
      tx_guard found (EDesk (EWallet ErrAgentNotFound)) ;;;
      insert_schedule id (mkSchedule ws from None None (Some payee) 0 minor currency memo every first end_ true (now c))
  end.

Definition CreateAgentListingSchedule (c : Ctx) (ws from listing : string) (amount : Z) (memo every : string) (first : Z) :
    STx (string * ScheduleRow) :=
  tx_guard (every_known every) (ErrSchedule RuleEvery) ;;;
  match L with
  | None => tx_fail (ErrListingPayee NoMarketplace)
  | Some L =>
      let! (price, refusal) := on_desk (ListingPrice L ws listing) in
      tx_guard (bool_decide (refusal = ""%string)) (ErrListingPayee (ListingRefused refusal)) ;;;
      let amount := if amount =? 0 then price else amount in
      tx_guard (negb (amount <? price)) (ErrListingPayee (ListingPrices price amount)) ;;;
      let! id := schedule_id c in
      let! found := tx_gets (fun y => agent_of_ws y ws from) in
      tx_guard found (EDesk (EWallet ErrAgentNotFound)) ;;;
      insert_schedule id (mkSchedule ws from None (Some listing) None amount 0 "" memo every first None true (now c))
  end.

(** The payee may be any agent on Talyvor, on the same side of the money wall. *)
Definition CreateAgentSchedule (c : Ctx) (ws from to : string) (amount : Z) (memo every : string) (first : Z) :
    STx (string * ScheduleRow) :=
  tx_guard (negb (amount <=? 0)) (ErrSchedule RuleAmount) ;;;
  tx_guard (every_known every) (ErrSchedule RuleEvery) ;;;
  tx_guard (negb (bool_decide (from = to))) (EDesk ErrSameAgent) ;;;
  let! payee := tx_gets (fun y => ag_ws <$> agent_accounts y !! to) in
  (match payee with Some payee => on_desk (CheckMoneyWall ws payee) | None => tx_ret tt end) ;;;
  let! id := schedule_id c in
  let! found := tx_gets (fun y => agent_of_ws y ws from) in
  tx_guard (found && is_some payee) (EDesk (EWallet ErrAgentNotFound)) ;;;
  insert_schedule id (mkSchedule ws from (Some to) None None amount 0 "" memo every first None true (now c)).
End Making.

(** ** Top-ups *)

Definition SetAgentTopUp (ws agent : string) (below to : Z) : STx TopUpRow :=
  tx_guard (negb ((below <=? 0) || (to <=? below))) (ErrSchedule RuleTopUp) ;;;
  let! found := tx_gets (fun y => agent_of_ws y ws agent) in
  tx_guard found (EDesk (EWallet ErrAgentNotFound)) ;;;
  tx_modify (with_topups (fun m =>
    <[agent := match m !! agent with Some t => mkTopUp (tu_ws t) below to | None => mkTopUp ws below to end]> m)) ;;;
  tx_ret (mkTopUp ws below to).

Definition GetAgentTopUp y (ws agent : string) : option TopUpRow :=
  match agent_topups y !! agent with
  | Some t => if bool_decide (tu_ws t = ws) then Some t else None
  | None => None
  end.

Definition RemoveAgentTopUp (ws agent : string) : STx unit :=
  tx_modify (with_topups (filter (fun kv => ~ (kv.1 = agent /\ tu_ws kv.2 = ws)))).

(** What an agent below its threshold is brought up by: all of the way, or what the
    workspace has left. *)
Definition top_up (c : Ctx) (ws agent : string) : WTx Z :=
  lockAgent ws agent ;;;
  let! t := tx_gets (fun s : Store => agent_topups s !! agent) in
  match t with
  | None => tx_ret 0
  | Some t =>
      let! owned := tx_gets (fun s : Store => match requireOwner agent s with Ok _ => true | Err _ => false end) in
      if negb owned then tx_ret 0
      else
        let! bal := accountBalance ws (agentAccount agent) in
        if tu_below t <=? bal then tx_ret 0
        else
          let! (ws_bal, _, _) := readLXCBalance ws in
          let! total := tx_gets (fun s : Store => allocated s ws) in
          let! total := bigint total in
          let amount := Z.min (tu_to t -! bal) (ws_bal -! total) in
          if amount <=? 0 then tx_ret 0
          else
            postEntry c ws "topup" "" [mkLeg "workspace" (-! amount); mkLeg (agentAccount agent) amount] ;;;
            tx_ret amount
  end.

(** [topUpAgent]: nothing moved is nothing committed. *)
Definition topUpAgent (c : Ctx) (ws agent : string) s : Res WalletErr Z * Store :=
  match committed (top_up c ws agent) s with
  | Ok (n, s') => (Ok n, if n =? 0 then s else s')
  | Err e => (Err e, s)
  end.

(** ** The run *)

(** [ScheduleRunResult]. *)
Record ScheduleRunResult := mkRunResult {
  Paid : nat;
  Refused : nat;
  ToppedUp : nat;
  Renewed : nat;
  Unpaid : nat;
}.

(** [ORDER BY next_run_at, id]. *)
Definition tick_before (p q : string * ScheduleRow) : bool :=
  (sc_next p.2 <? sc_next q.2) || ((sc_next p.2 =? sc_next q.2) && negb (String.ltb q.1 p.1)).

Fixpoint earliest (l : list (string * ScheduleRow)) : option (string * ScheduleRow) :=
  match l with
  | [] => None
  | p :: l => match earliest l with
              | None => Some p
              | Some q => Some (if tick_before p q then p else q)
              end
  end.

Definition is_due (now_ : Z) (r : ScheduleRow) : bool := sc_active r && (sc_next r <=? now_).

(** The earliest due tick of any schedule. *)
Definition due_tick (now_ : Z) s : option (string * ScheduleRow) :=
  earliest (filter (fun p => is_due now_ p.2 = true) (map_to_list (agent_payment_schedules s))).

(** The tick's own key: a tick run twice asks for the same payment. *)
Definition tick_key (id : string) (tick : Z) : string := "schedule:" +:+ id +:+ ":" +:+ RFC3339 tick.

(** The payer's payee lists judge a scheduled payment too. *)
Definition tick_payee (r : ScheduleRow) : Payee :=
  match sc_listing r with
  | Some l => mkPayee "listing" l ""
  | None => mkPayee "agent" (default ""%string (sc_to r)) ""
  end.

Definition tick_request (now_ : Z) (id : string) (r : ScheduleRow) : AgentRequest :=
  mkRequest "" "" (tick_key id (sc_next r)) (Some now_) true (default ""%string (sc_listing r)) (tick_payee r) ""
    (mkCommitment "" "" false 0).

(** The errors of a payment a tick is refused by. *)
Definition refused_payment (e : PayErr) : bool :=
  match e with
  | EWallet (ErrAgentFunds | ErrAgentRule _ | ErrAgentRequestRate | ErrApprovalRequired _ _ _ _ | ErrApprovalFiled _
             | ErrAgentNotFound | ErrAgentOwnerless) => true
  | ErrOwnerUnverified | ErrCapabilityNotCleared _ _ | ErrMoneyWall => true
  | _ => false
  end.

(** The errors a tick is refused by: undone, recorded, and the schedule moved on. *)
Definition refused_tick (e : SchedErr) : bool :=
  match e with
  | EDesk e | EOutside (EDeskErr e) => refused_payment e
  | EOutside (ErrOutsidePayment _ | ErrPayeeNotFound | ErrPayeeUnconfirmed | ErrMoneyAccountNotFound | ErrMoneyAccountNotOpen
              | ScreeningRefusal _ | ErrIdempotencyKeyReused | ErrAccountNotOpened | ErrScreeningUnavailable) => true
  | EOutside _ => false
  | ErrSchedule _ => true
  | ErrListingPayee _ => true
  | ErrScheduleNotFound => false
  end.

(** A tick that landed: the payment's entry, or the listing's billed use. *)
Definition paid_by_entry (c : Ctx) (entry : string) : ScheduleRun := mkRun RunPaid (Some entry) None None NoDetail (now c).
Definition paid_by_use (c : Ctx) (use : string) : ScheduleRun := mkRun RunPaid None (Some use) None NoDetail (now c).
Definition paid_out (c : Ctx) (id status : string) : ScheduleRun :=
  mkRun RunPaid None None (Some id) (SentAs status) (now c).
Definition refused_run (c : Ctx) (e : SchedErr) : ScheduleRun := mkRun RunRefused None None None (Refusal e) (now c).

(** A step over the desk's tables, of the scheduler's own errors. *)
Abbreviation DTx := (Tx SchedErr Desk).

Definition desk_step {A} (m : PTx A) : DTx A := fun d =>
  match m d with Ok r => Ok r | Err e => Err (EDesk e) end.

Section Run.
Context (LL : string -> option Location) (G : Gates) (V : OwnerVerifier) (L : option ListingCharger) (OS : Outside).

(** [payListingTx]: nothing is taken from the agent's balance. *)
Definition payListingTx (c : Ctx) (ws id : string) (r : ScheduleRow) (listing : string) : DTx string :=
  match L with
  | None => tx_fail (ErrListingPayee NoMarketplace)
  | Some L =>
      desk_step (wallet (lockAgent ws (sc_from r))) ;;;
      let! (use, refusal) := desk_step (ChargeScheduledListing L c ws (sc_from r) listing (sc_amount r) (sc_next r)
        (fun price => wallet (enforceAgentRules LL c ws (sc_from r) price ("schedule:" +:+ id)))) in
      tx_guard (bool_decide (refusal = ""%string)) (ErrListingPayee (ListingRefused refusal)) ;;;
      tx_ret use
  end.

Definition scheduled_transfer (ws to_ws to id : string) (r : ScheduleRow) : AgentTransfer :=
  mkAgentTransfer "" (mkTransfer "" ws (sc_from r) to_ws to (sc_amount r) (sc_memo r) ClassGreen 0 "" id "" "" 0) "".

Definition scheduled_payment (to : string) (r : ScheduleRow) : AgentPayment :=
  mkAgentPayment "" (sc_from r) to (sc_amount r) 0 0 (sc_memo r) "" "".

(** What the savepoint holds: the listing's charge, the transfer to another workspace's
    agent, or the payment to one of the workspace's own. *)
Definition pay_tick (c : Ctx) (id : string) (r : ScheduleRow) (payee : string) (entry : string) : DTx ScheduleRun :=
  let ws := sc_ws r in
  match sc_listing r with
  | Some listing => let! use := payListingTx c ws id r listing in tx_ret (paid_by_use c use)
  | None =>
      let to := default ""%string (sc_to r) in
      if negb (bool_decide (payee = ws)) then
        let! t := desk_step (transferTx LL G V c (scheduled_transfer ws payee to id r) true) in
        tx_ret (paid_by_entry c (tf_entry (t_row t)))
      else
        let! _ := desk_step (wallet (payAgentTx LL c ws (scheduled_payment to r) entry)) in
        tx_ret (paid_by_entry c entry)
  end.

(** The tick's run row and the next tick. *)
Definition close_tick (id : string) (r : ScheduleRow) (run : ScheduleRun) : STx RunOutcome :=
  insert_run id (sc_next r) run ;;;
  advanceSchedule id r ;;;
  tx_ret (rn_outcome run).

(** A refusal is undone to the savepoint and recorded; any other error ends the tick. *)
Definition settle_tick (c : Ctx) (id : string) (r : ScheduleRow) (m : DTx ScheduleRun) : STx RunOutcome := fun y =>
  match m (dy_desk y) with
  | Ok (run, d) => close_tick id r run (at_desk d y)
  | Err e => if refused_tick e then close_tick id r (refused_run c e) y else Err e
  end.

(** The workspace of the agent a tick pays; [""] for one that pays no agent. *)
Definition payee_workspace (r : ScheduleRow) : STx string :=
  match sc_to r with
  | None => tx_ret ""%string
  | Some to =>
      let! a := tx_gets (fun y => agent_accounts y !! to) in
      match a with
      | Some a => tx_ret (ag_ws a)
      | None => tx_fail (EDesk (EWallet ErrNoRow))
      end
  end.

Definition outside_payment (now_ : Z) (id payee : string) (r : ScheduleRow) : OutsidePayment :=
  mkOutsidePayment "" (sc_from r) payee (sc_minor r) (sc_currency r) "" (sc_memo r) (tick_key id (sc_next r)) "" (Some now_).

(** The commit, with the ledger's deferred trigger. *)
Definition diary_committed {A} (m : STx A) : STx A := fun y =>
  match m y with
  | Err e => Err e
  | Ok (a, y') =>
      let l := agent_postings y' in
      if entries_balanced (take (length l - length (agent_postings y)) l) l
      then Ok (a, y') else Err (EDesk (EWallet ErrUnbalanced))
  end.

(** A tick that pays an agent or a listing. *)
Definition tick_tx (c : Ctx) (now_ : Z) (id : string) (r : ScheduleRow) : STx RunOutcome :=
  let! entry := on_desk (wallet (uuid_new c)) in
  let! payee := payee_workspace r in
  settle_tick c id r (pay_tick (WithAgentRequest c (tick_request now_ id r)) id r payee entry).

(** A standing order's tick: the payment out is made in its own transactions, which the
    tick's own does not undo. *)
Definition standing_tick (c : Ctx) (now_ : Z) (id payee : string) (r : ScheduleRow) y : Res SchedErr RunOutcome * Diary :=
  let '(paid, d) := PayOut OS c (sc_ws r) (outside_payment now_ id payee r) y in
  let y := at_desk d y in
  match paid with
  | Ok p => run_tx (close_tick id r (paid_out c (mp_id p) (mp_status p))) y
  | Err e => if refused_tick (EOutside e) then run_tx (close_tick id r (refused_run c (EOutside e))) y else (Err (EOutside e), y)
  end.

(** [runScheduleTick]: the earliest due tick, or [None] when nothing is due. *)
Definition runScheduleTick (c : Ctx) (now_ : Z) y : Res SchedErr (option RunOutcome) * Diary :=
  match due_tick now_ y with
  | None => (Ok None, y)
  | Some (id, r) =>
      let '(o, y) := match sc_payee r with
                     | Some payee => standing_tick c now_ id payee r y
                     | None => run_tx (diary_committed (tick_tx c now_ id r)) y
                     end in
      (match o with Ok o => Ok (Some o) | Err e => Err e end, y)
  end.

Definition count_tick (o : RunOutcome) (res : ScheduleRunResult) : ScheduleRunResult :=
  match o with
  | RunPaid => mkRunResult (S (Paid res)) (Refused res) (ToppedUp res) (Renewed res) (Unpaid res)
  | _ => mkRunResult (Paid res) (S (Refused res)) (ToppedUp res) (Renewed res) (Unpaid res)
  end.

(** The loop over the due ticks, [n] turns at most. *)
Fixpoint run_ticks (n : nat) (c : Ctx) (now_ : Z) (res : ScheduleRunResult) y : (ScheduleRunResult * option SchedErr) * Diary :=
  match n with
  | O => ((res, None), y)
  | S n =>
      let '(o, y) := runScheduleTick c now_ y in
      match o with
      | Err e => ((res, Some e), y)
      | Ok None => ((res, None), y)
      | Ok (Some o) => run_ticks n c now_ (count_tick o res) y
      end
  end.

(** The loop over the top-ups. *)
Fixpoint run_topups (c : Ctx) (due : list (string * string)) (res : ScheduleRunResult) s :
    (ScheduleRunResult * option WalletErr) * Store :=
  match due with
  | [] => ((res, None), s)
  | (ws, agent) :: due =>
      match topUpAgent c ws agent s with
      | (Err e, s) => ((res, Some e), s)
      | (Ok n, s) =>
          run_topups c due
            (if 0 <? n then mkRunResult (Paid res) (Refused res) (S (ToppedUp res)) (Renewed res) (Unpaid res) else res) s
      end
  end.

Definition due_topups s : list (string * string) := (fun kv => (tu_ws kv.2, kv.1)) <$> map_to_list (agent_topups s).

(** [RunAgentSchedules]: the ticks, then the licences — a failed tick does not hold their
    renewals up — then the top-ups. *)
Definition RunAgentSchedules (c : Ctx) (now_ : Z) y : (ScheduleRunResult * list SchedErr) * Diary :=
  let '((res, tickErr), y) := run_ticks maxTicksPerRun c now_ (mkRunResult 0 0 0 0 0) y in
  let tickErrs := match tickErr with Some e => [e] | None => [] end in
  let '((renewed, unpaid, rerr), y) :=
    match (match L with Some L => RenewLicences L | None => None end) with
    | Some renew => let '(r, d) := renew c now_ y in (r, at_desk d y)
    | None => ((0%nat, 0%nat, None), y)
    end in
  let res := mkRunResult (Paid res) (Refused res) (ToppedUp res) renewed unpaid in
  match rerr, tickErrs with
  | Some e, _ => ((res, tickErrs ++ [EDesk e]), y)
  | None, e :: _ => ((res, [e]), y)
  | None, [] =>
      let '((res, err), s) := run_topups c (due_topups y) res y in
      ((res, match err with Some e => [EDesk (EWallet e)] | None => [] end), at_desk (with_store s y) y)
  end.
End Run.
