(* ===== verification/Ticks.v ===== *)
(** What the scheduler of [Schedules] guarantees: each tick of a schedule is run or skipped
    once, in order, with nothing left out; a run catches up with every tick that is due, a
    thousand at most; only a failure of a service ends it early; a refused tick moves
    nothing; a top-up fires once a crossing.  And where it does not keep what the comments
    say: a monthly schedule that starts late in a month, an agent archived and still paid. *)
From stdpp Require Import pretty relations.
From S2P Require Import Prelude Money Tables Postings Clock Lxc Rules CreditLine Agents Reservation Funding Wallet Shifts Desk Capabilities Transfers Escrow Payments Effects Ledger Outgoing Schedules.
Open Scope Z_scope.
Open Scope i64_scope.

Implicit Types (d : Desk) (s : Store) (y : Diary).

(** ** The calendar: what there is of schedules and of runs *)

Record Calendar := mkCalendar {
  cal_rows : gmap string ScheduleRow;
  cal_runs : gmap (string * Z) ScheduleRun;
}.

Definition calendar y : Calendar := mkCalendar (agent_payment_schedules y) (agent_schedule_runs y).

(** Schedules are made, stopped, and moved on by one run tick; nothing else happens to them. *)
Inductive cal_step (k : Calendar) : Calendar -> Prop :=
| cal_create id r :
    cal_rows k !! id = None -> schedule_checks r = true -> cal_step k (mkCalendar (<[id := r]> (cal_rows k)) (cal_runs k))
| cal_stop rows :
    (forall id, rows !! id = cal_rows k !! id \/ rows !! id = with_active false <$> cal_rows k !! id) ->
    cal_step k (mkCalendar rows (cal_runs k))
| cal_tick id r run :
    cal_rows k !! id = Some r -> sc_active r = true -> cal_runs k !! (id, sc_next r) = None ->
    cal_step k (mkCalendar (<[id := moved_on (nextTick (sc_next r) (sc_every r)) r]> (cal_rows k))
                  (<[(id, sc_next r) := run]> (cal_runs k))).

(** ** The ticks in order *)

Lemma nextTick_later t every : t + hour <= nextTick t every.
Proof.
  unfold nextTick. repeat case_bool_decide; rewrite ?AddDate_days; [lia|unfold hour, minute, second; lia..|].
  destruct (AddDate_month t) as (n & Hn & ->). unfold hour, minute, second. lia.
Qed.

(** The [n]-th tick of a schedule, from its first. *)
Definition tick_at (first : Z) (every : string) (n : nat) : Z := Nat.iter n (fun t => nextTick t every) first.

Lemma tick_at_S first every n : tick_at first every (S n) = nextTick (tick_at first every n) every.
Proof. done. Qed.

Lemma tick_at_mono first every m n : (m < n)%nat -> tick_at first every m < tick_at first every n.
Proof.
  assert (H0 : 0 < hour) by done.
  induction 1 as [|n _ IH]; rewrite tick_at_S;
    [pose proof (nextTick_later (tick_at first every m) every)|pose proof (nextTick_later (tick_at first every n) every)]; lia.
Qed.

Lemma tick_at_inj first every m n : tick_at first every m = tick_at first every n -> m = n.
Proof.
  intros E. destruct (Nat.lt_trichotomy m n) as [H|[H|H]]; [|done|]; apply (tick_at_mono first every) in H; lia.
Qed.

(** Every tick of schedule [id] from its first to its next is run or skipped, once, and no
    other. *)
Definition ran_in_order (k : Calendar) (id : string) (r : ScheduleRow) : Prop :=
  exists first n, sc_next r = tick_at first (sc_every r) n /\
    forall t, is_Some (cal_runs k !! (id, t)) <-> exists m, (m < n)%nat /\ t = tick_at first (sc_every r) m.

Record cal_inv (k : Calendar) : Prop := {
  ci_checks id r : cal_rows k !! id = Some r -> schedule_checks r = true;
  ci_ticks id r : cal_rows k !! id = Some r -> ran_in_order k id r;
  ci_owned id t : is_Some (cal_runs k !! (id, t)) -> is_Some (cal_rows k !! id);
}.

Lemma stopped_row (o : option ScheduleRow) r : with_active false <$> o = Some r ->
  exists r0, o = Some r0 /\ sc_next r = sc_next r0 /\ sc_every r = sc_every r0 /\ schedule_checks r = schedule_checks r0.
Proof. intros (r0 & -> & ->)%fmap_Some. by exists r0. Qed.

Lemma cal_step_inv k k' : cal_inv k -> cal_step k k' -> cal_inv k'.
Proof.
  intros [C T W] [id r F Hr|rows F|id r run L A N]; (split; cbn [cal_rows cal_runs]).
  - intros id' r' [[<- <-]|[_ H]]%lookup_insert_Some; [done|by apply (C id')].
  - intros id' r' [[<- <-]|[Hne H]]%lookup_insert_Some; [|by apply (T id')].
    exists (sc_next r), 0%nat. split; [done|]. intros t. split; [|by intros (m & Hm & _); lia].
    intros H%W. rewrite F in H. by destruct H.
  - intros id' t H%W. destruct (decide (id = id')) as [<-|]; [by rewrite lookup_insert_eq|by rewrite lookup_insert_ne].
  - intros id r H. destruct (F id) as [E|E]; rewrite E in H; [by apply (C id)|].
    apply stopped_row in H as (r0 & L & _ & _ & ->). by apply (C id).
  - intros id r H. destruct (F id) as [E|E]; rewrite E in H; [by apply (T id)|].
    apply stopped_row in H as (r0 & L & En & Ev & _). destruct (T id r0 L) as (first & n & E1 & E2).
    exists first, n. by rewrite En, Ev.
  - intros id t H%W. destruct (F id) as [-> | ->]; [done|]. by rewrite fmap_is_Some.
  - intros id' r' [[<- <-]|[_ H]]%lookup_insert_Some; [|by apply (C id')].
    pose proof (C id r L) as D. unfold schedule_checks in *. by destruct r.
  - intros id' r' [[<- <-]|[Hne H]]%lookup_insert_Some.
    + destruct (T id r L) as (first & n & E1 & E2). exists first, (S n). cbn [moved_on sc_next sc_every].
      split; [by rewrite E1|]. intros t. cbn [cal_runs]. destruct (decide (t = sc_next r)) as [->|Ht].
      * rewrite lookup_insert_eq. split; [|done]. intros _. exists n. by split; [lia|].
      * rewrite lookup_insert_ne, E2 by congruence. split; intros (m & Hm & ->); exists m; (split; [|done]); [lia|].
        destruct (decide (m = n)) as [->|]; [by rewrite <- E1 in Ht|lia].
    + destruct (T id' r' H) as (first & n & E1 & E2). exists first, n. split; [done|]. intros t. cbn [cal_runs].
      rewrite lookup_insert_ne by congruence. apply E2.
  - intros id' t. destruct (decide (id = id')) as [<-|]; [by rewrite lookup_insert_eq|].
    rewrite !lookup_insert_ne by congruence. apply W.
Qed.

Lemma cal_steps_inv k k' : cal_inv k -> rtc cal_step k k' -> cal_inv k'.
Proof. intros I. induction 1 as [|k1 k2 k3 S _ IH]; [done|]. by apply IH, (cal_step_inv k1). Qed.

Lemma cal_inv_empty : cal_inv (mkCalendar ∅ ∅).
Proof. split; cbn; [done..|]. by intros id t [? ?]. Qed.

(** ** What the operations do to the calendar *)

Lemma calendar_at_desk d y : desk_arrangements d = desk_arrangements y -> calendar (at_desk d y) = calendar y.
Proof.
  unfold desk_arrangements, arrangements. intros [= E _]. unfold calendar. f_equal. exact E.
Qed.

Lemma keeps_on_desk {A} (m : PTx A) : tx_keeps desk_arrangements m -> tx_keeps calendar (on_desk m).
Proof.
  intros K y a y'. unfold on_desk. destruct (m (dy_desk y)) as [[b d]|e] eqn:E; [|done]. intros [= <- <-].
  apply calendar_at_desk. apply (K _ _ _ E).
Qed.

(** The calendar after one tick of [id], run row [run]. *)
Definition cal_ticked (id : string) (r : ScheduleRow) (run : ScheduleRun) (k : Calendar) : Calendar :=
  mkCalendar (<[id := moved_on (nextTick (sc_next r) (sc_every r)) r]> (cal_rows k)) (<[(id, sc_next r) := run]> (cal_runs k)).

(** The diary after one tick of [id]: its run row, and the row moved on. *)
Definition ticked (id : string) (r row : ScheduleRow) (run : ScheduleRun) y : Diary :=
  with_schedules <[id := moved_on (nextTick (sc_next r) (sc_every r)) row]>
    (mkDiary (dy_desk y) (<[(id, sc_next r) := run]> (agent_schedule_runs y))).

Lemma insert_run_ok id tick run y u y' :
  insert_run id tick run y = Ok (u, y') <->
  agent_schedule_runs y !! (id, tick) = None /\ y' = mkDiary (dy_desk y) (<[(id, tick) := run]> (agent_schedule_runs y)).
Proof.
  unfold insert_run. rewrite tx_gets_bind, tx_guard_bind, tx_modify_ok.
  destruct (agent_schedule_runs y !! (id, tick)); cbn; naive_solver.
Qed.

Lemma advanceSchedule_ok id r y a y' :
  advanceSchedule id r y = Ok (a, y') <->
  exists row, agent_payment_schedules y !! id = Some row /\ a = moved_on (nextTick (sc_next r) (sc_every r)) row /\
    y' = with_schedules <[id := a]> y.
Proof.
  unfold advanceSchedule. rewrite tx_gets_bind. destruct (agent_payment_schedules y !! id) as [row|].
  - rewrite tx_modify_bind, tx_ret_ok. naive_solver.
  - rewrite tx_fail_ok. naive_solver.
Qed.

Lemma close_tick_ok id r run y o y' :
  close_tick id r run y = Ok (o, y') <->
  exists row, agent_payment_schedules y !! id = Some row /\ agent_schedule_runs y !! (id, sc_next r) = None /\
    o = rn_outcome run /\ y' = ticked id r row run y.
Proof.
  unfold close_tick. rewrite tx_bind_ok. setoid_rewrite insert_run_ok. setoid_rewrite tx_bind_ok.
  setoid_rewrite advanceSchedule_ok. setoid_rewrite tx_ret_ok. split.
  - intros (u & y1 & [N ->] & a & y2 & (row & L & -> & ->) & -> & ->). by exists row.
  - intros (row & L & N & -> & ->). exists tt, (mkDiary (dy_desk y) (<[(id, sc_next r):=run]> (agent_schedule_runs y))).
    split; [done|]. eexists _, _. split; [exists row; split_and!; done|]. done.
Qed.

Lemma ticked_calendar id r run y : calendar (ticked id r r run y) = cal_ticked id r run (calendar y).
Proof. done. Qed.

(** ** The earliest due tick *)

Lemma earliest_None l : earliest l = None <-> l = [].
Proof. destruct l as [|p l]; cbn; [done|]. split; [|done]. by destruct (earliest l). Qed.

Lemma earliest_Some l p : earliest l = Some p -> p ∈ l /\ forall q, q ∈ l -> sc_next p.2 <= sc_next q.2.
Proof.
  revert p. induction l as [|q l IH]; cbn; intros p H; [done|]. destruct (earliest l) as [q'|] eqn:E.
  - injection H as <-. destruct (IH q' eq_refl) as [I1 I2]. unfold tick_before.
    destruct (sc_next q.2 <? sc_next q'.2) eqn:E1, (sc_next q.2 =? sc_next q'.2) eqn:E2, (String.ltb q'.1 q.1); cbn [orb andb negb];
      (split; [set_solver|]); intros z [->|Hz]%elem_of_cons; try lia; apply I2 in Hz; lia.
  - injection H as <-. apply earliest_None in E as ->. split; [set_solver|]. intros z [->|Hz]%elem_of_cons; [lia|set_solver].
Qed.

Lemma elem_of_due now_ s id r :
  (id, r) ∈ filter (fun p => is_due now_ p.2 = true) (map_to_list (agent_payment_schedules s)) <->
  agent_payment_schedules s !! id = Some r /\ is_due now_ r = true.
Proof. rewrite list_elem_of_filter, elem_of_map_to_list. cbn. tauto. Qed.

Lemma due_tick_Some now_ s id r : due_tick now_ s = Some (id, r) ->
  agent_payment_schedules s !! id = Some r /\ is_due now_ r = true /\
  forall id' r', agent_payment_schedules s !! id' = Some r' -> is_due now_ r' = true -> sc_next r <= sc_next r'.
Proof.
  intros [H M]%earliest_Some. apply elem_of_due in H as [H D]. split_and!; [done..|].
  intros id' r' H' D'. apply (M (id', r')). by apply elem_of_due.
Qed.

Lemma due_tick_None now_ s : due_tick now_ s = None ->
  forall id r, agent_payment_schedules s !! id = Some r -> is_due now_ r = false.
Proof.
  intros E%earliest_None id r H. destruct (is_due now_ r) eqn:D; [|done]. exfalso.
  apply (not_elem_of_nil (id, r)). rewrite <- E. by apply elem_of_due.
Qed.

(** ** The backlog *)

(** How many of [r]'s ticks are due at [now_], at most [n] of them. *)
Fixpoint due_count (n : nat) (now_ : Z) (r : ScheduleRow) : nat :=
  match n with
  | O => O
  | S n => if is_due now_ r then S (due_count n now_ (moved_on (nextTick (sc_next r) (sc_every r)) r)) else O
  end.

(** Ticks are an hour apart at least. *)
Definition ticks_bound (now_ : Z) (r : ScheduleRow) : nat := Z.to_nat ((now_ - sc_next r) / hour + 1).

Definition ticks_due (now_ : Z) (r : ScheduleRow) : nat := due_count (ticks_bound now_ r) now_ r.

(** The ticks due of every schedule. *)
Definition backlog (now_ : Z) s : Z := map_sum (fun _ r => Z.of_nat (ticks_due now_ r)) (agent_payment_schedules s).

Lemma ticks_bound_due now_ r : is_due now_ r = true ->
  (S (ticks_bound now_ (moved_on (nextTick (sc_next r) (sc_every r)) r)) <= ticks_bound now_ r)%nat.
Proof.
  intros [_ D%Z.leb_le]%andb_prop. unfold ticks_bound. cbn [moved_on sc_next].
  pose proof (nextTick_later (sc_next r) (sc_every r)) as T. set (t := nextTick _ _) in *. clearbody t.
  assert (H0 : 0 < hour) by done. set (h := hour) in *. clearbody h.
  assert ((now_ - t) / h <= (now_ - sc_next r) / h - 1).
  { transitivity ((now_ - sc_next r + (-1) * h) / h); [apply Z.div_le_mono; lia|]. rewrite Z.div_add by lia. lia. }
  assert (0 <= (now_ - sc_next r) / h) by (apply Z.div_pos; lia). lia.
Qed.

Lemma ticks_bound_zero now_ r : ticks_bound now_ r = O -> is_due now_ r = false.
Proof.
  intros E. destruct (is_due now_ r) eqn:D; [|done]. pose proof (ticks_bound_due now_ r D). lia.
Qed.

Lemma due_count_bound now_ m : forall n r, (ticks_bound now_ r <= m)%nat -> (ticks_bound now_ r <= n)%nat ->
  due_count m now_ r = due_count n now_ r.
Proof.
  induction m as [|m IH]; intros n r Hm Hn.
  - rewrite Nat.le_0_r in Hm. apply ticks_bound_zero in Hm. destruct n; cbn; [done|by rewrite Hm].
  - destruct n as [|n]; [rewrite Nat.le_0_r in Hn; apply ticks_bound_zero in Hn; cbn; by rewrite Hn|].
    cbn [due_count]. destruct (is_due now_ r) eqn:D; [|done]. pose proof (ticks_bound_due now_ r D). f_equal. apply IH; lia.
Qed.

Lemma ticks_due_step now_ r : is_due now_ r = true ->
  ticks_due now_ r = S (ticks_due now_ (moved_on (nextTick (sc_next r) (sc_every r)) r)).
Proof.
  intros D. pose proof (ticks_bound_due now_ r D) as B. unfold ticks_due at 1.
  destruct (ticks_bound now_ r) as [|n] eqn:E; [lia|]. cbn [due_count]. rewrite D. f_equal. apply due_count_bound; lia.
Qed.

Lemma ticks_due_none now_ r : is_due now_ r = false -> ticks_due now_ r = O.
Proof. intros D. unfold ticks_due. destruct (ticks_bound now_ r); [done|]. cbn. by rewrite D. Qed.

Lemma backlog_nonneg now_ s : 0 <= backlog now_ s.
Proof. apply map_sum_nonneg. intros; cbn; lia. Qed.

Lemma backlog_due now_ s id r : agent_payment_schedules s !! id = Some r -> is_due now_ r = true -> 0 < backlog now_ s.
Proof.
  intros H D. unfold backlog. pose proof (map_sum_lookup_le (fun _ r => Z.of_nat (ticks_due now_ r)) _ id r ltac:(intros; cbn; lia) H) as M.
  cbn in M. rewrite (ticks_due_step now_ r D) in M. lia.
Qed.

Lemma backlog_none now_ s : due_tick now_ s = None -> backlog now_ s = 0.
Proof.
  intros D. unfold backlog. rewrite (map_sum_ext _ (fun _ _ => 0)).
  - unfold map_sum. induction (map_to_list _); cbn; [done|lia].
  - intros id r H. by rewrite ticks_due_none by apply (due_tick_None _ _ D id r H).
Qed.

Lemma backlog_ticked now_ s s' id r : agent_payment_schedules s !! id = Some r -> is_due now_ r = true ->
  agent_payment_schedules s' = <[id := moved_on (nextTick (sc_next r) (sc_every r)) r]> (agent_payment_schedules s) ->
  backlog now_ s' = backlog now_ s - 1.
Proof. intros H D E. unfold backlog. rewrite E, map_sum_insert, H, (ticks_due_step now_ r D). lia. Qed.

(** ** The operations *)

Section Follows.
Context (LL : string -> option Location) (G : Gates) (V : OwnerVerifier) (L : option ListingCharger) (OS : Outside).

(** The marketplace and the money accounts leave the schedules and the top-ups alone. *)
Record good_neighbours : Prop := {
  gn_price Lc ws listing : L = Some Lc -> tx_keeps desk_arrangements (ListingPrice Lc ws listing);
  gn_charge Lc c ws agent listing amount at_ judge : L = Some Lc -> (forall p, tx_keeps desk_arrangements (judge p)) ->
    tx_keeps desk_arrangements (ChargeScheduledListing Lc c ws agent listing amount at_ judge);
  gn_renew Lc renew c now_ d : L = Some Lc -> RenewLicences Lc = Some renew ->
    desk_arrangements (renew c now_ d).2 = desk_arrangements d;
  gn_outside c ws p d : desk_arrangements (PayOut OS c ws p d).2 = desk_arrangements d;
}.
Context (N : good_neighbours).

Lemma keeps_desk_step {A} (m : PTx A) : tx_keeps desk_arrangements m -> tx_keeps desk_arrangements (desk_step m).
Proof. intros K d a d'. unfold desk_step. destruct (m d) as [[b d1]|e] eqn:E; [|done]. intros [= <- <-]. apply (K _ _ _ E). Qed.

Lemma keeps_wallet_step {A} (m : WTx A) : tx_keeps arrangements m -> tx_keeps desk_arrangements (desk_step (wallet m)).
Proof. intros K. by apply keeps_desk_step, keeps_desk. Qed.

Lemma keeps_pay_listing c ws id r listing : tx_keeps desk_arrangements (payListingTx LL L c ws id r listing).
Proof.
  unfold payListingTx. destruct L as [Lc|] eqn:EL; [|apply keeps_fail].
  apply keeps_bind; [apply keeps_wallet_step; auto with tx_effects|intros _]. apply keeps_bind; [|intros [use refusal]; tx_effects].
  apply keeps_desk_step, (gn_charge N); [done|]. intros price. apply keeps_desk. auto with tx_effects.
Qed.

Lemma keeps_pay_tick c id r payee entry : tx_keeps desk_arrangements (pay_tick LL G V L c id r payee entry).
Proof.
  unfold pay_tick. destruct (sc_listing r) as [listing|].
  - apply keeps_bind; [apply keeps_pay_listing|tx_effects].
  - destruct (negb _); (apply keeps_bind; [|intros ?; apply keeps_ret]).
    + apply keeps_desk_step, transfer_keeps.
    + apply keeps_wallet_step, pay_keeps.
Qed.

(** ** One tick *)

Lemma settle_tick_ok c id r m y o y' :
  tx_keeps desk_arrangements m -> agent_payment_schedules y !! id = Some r -> settle_tick c id r m y = Ok (o, y') ->
  agent_schedule_runs y !! (id, sc_next r) = None /\
  ((exists run d, m (dy_desk y) = Ok (run, d) /\ o = rn_outcome run /\ y' = ticked id r r run (at_desk d y)) \/
   (exists e, m (dy_desk y) = Err e /\ refused_tick e = true /\ o = RunRefused /\ y' = ticked id r r (refused_run c e) y)).
Proof.
  intros K R. unfold settle_tick. destruct (m (dy_desk y)) as [[run d]|e] eqn:E.
  - intros (row & L1 & N1 & -> & ->)%close_tick_ok. split; [done|]. left. exists run, d.
    assert (row = r) as ->; [|by split_and!].
    pose proof (K _ _ _ E) as [= K1 _]. cbn in L1. change (agent_payment_schedules (dy_desk y)) with (agent_payment_schedules y) in K1.
    rewrite K1, R in L1. by injection L1.
  - destruct (refused_tick e) eqn:F; [|done]. intros (row & L1 & N1 & -> & ->)%close_tick_ok. split; [done|]. right. exists e.
    rewrite R in L1. by injection L1 as <-.
Qed.

(** The store once the entry's id is drawn. *)
Definition drawn y : Diary := at_desk (with_store (with_uuid_draws (N.succ (uuid_draws y)) y) y) y.

(** A tick that pays an agent or a listing, in one of its two ways. *)
Definition tick_done (c : Ctx) (now_ : Z) (id : string) (r : ScheduleRow) (o : RunOutcome) y y' : Prop :=
  exists payee, payee_workspace r (drawn y) = Ok (payee, drawn y) /\
  let m := pay_tick LL G V L (WithAgentRequest c (tick_request now_ id r)) id r payee (uuid c (uuid_draws y)) in
  (exists run d, m (dy_desk (drawn y)) = Ok (run, d) /\ o = rn_outcome run /\ y' = ticked id r r run (at_desk d y)) \/
  (exists e, m (dy_desk (drawn y)) = Err e /\ refused_tick e = true /\ o = RunRefused /\
     y' = ticked id r r (refused_run c e) (drawn y)).

Lemma payee_workspace_reads r y payee y' : payee_workspace r y = Ok (payee, y') -> y' = y.
Proof.
  unfold payee_workspace. destruct (sc_to r) as [to|]; [|by intros [_ ->]%tx_ret_ok]. rewrite tx_gets_bind.
  destruct (agent_accounts y !! to); [by intros [_ ->]%tx_ret_ok|by intros ?%tx_fail_ok].
Qed.

Lemma tick_tx_ok c now_ id r y o y' :
  agent_payment_schedules y !! id = Some r -> tick_tx LL G V L c now_ id r y = Ok (o, y') ->
  agent_schedule_runs y !! (id, sc_next r) = None /\ tick_done c now_ id r o y y'.
Proof.
  intros R. unfold tick_tx. intros (entry & y1 & H1 & H)%tx_bind_ok.
  assert (entry = uuid c (uuid_draws y) /\ y1 = drawn y) as [-> ->] by (unfold on_desk in H1; cbn in H1; by injection H1 as <- <-).
  apply tx_bind_ok in H as (payee & y2 & H2 & H). pose proof (payee_workspace_reads _ _ _ _ H2) as ->.
  apply settle_tick_ok in H as [N1 H]; [|apply keeps_pay_tick|done].
  split; [done|]. exists payee. split; [done|]. destruct H as [(run & d & H & -> & ->)|(e & H & F & -> & ->)]; [left|right]; eauto 10.
Qed.

Lemma pay_tick_paid c id r payee entry d run d' : pay_tick LL G V L c id r payee entry d = Ok (run, d') -> rn_outcome run = RunPaid.
Proof.
  unfold pay_tick. destruct (sc_listing r) as [listing|]; [|destruct (negb _)];
    intros (a & d1 & _ & [-> _]%tx_ret_ok)%tx_bind_ok; done.
Qed.

Lemma diary_committed_ok {A} (m : STx A) y a y' : diary_committed m y = Ok (a, y') -> m y = Ok (a, y').
Proof.
  unfold diary_committed. destruct (m y) as [[b t]|e]; [|done]. destruct (entries_balanced _ _); [|done]. by intros [= -> ->].
Qed.

Lemma drawn_calendar y : calendar (drawn y) = calendar y.
Proof. done. Qed.

Lemma tick_done_calendar c now_ id r o y y' : tick_done c now_ id r o y y' ->
  exists run, rn_outcome run = o /\ o <> RunSkipped /\ calendar y' = cal_ticked id r run (calendar y).
Proof.
  intros (payee & _ & [(run & d & H & -> & ->)|(e & _ & _ & -> & ->)]).
  - exists run. split; [done|]. split; [by rewrite (pay_tick_paid _ _ _ _ _ _ _ _ H)|].
    apply keeps_pay_tick in H. rewrite ticked_calendar. f_equal. by apply (calendar_at_desk d y).
  - by exists (refused_run c e).
Qed.

Lemma standing_tick_calendar c now_ id payee r y o y' :
  agent_payment_schedules y !! id = Some r -> standing_tick OS c now_ id payee r y = (o, y') ->
  match o with
  | Ok o => agent_schedule_runs y !! (id, sc_next r) = None /\
      exists run, rn_outcome run = o /\ o <> RunSkipped /\ calendar y' = cal_ticked id r run (calendar y)
  | Err _ => calendar y' = calendar y
  end.
Proof.
  intros R. unfold standing_tick. destruct (PayOut OS c (sc_ws r) (outside_payment now_ id payee r) y) as [paid d] eqn:E.
  pose proof (gn_outside N c (sc_ws r) (outside_payment now_ id payee r) y) as K. rewrite E in K. cbn [snd] in K.
  apply calendar_at_desk in K. set (y1 := at_desk d y) in *. clearbody y1.
  assert (R1 : agent_payment_schedules y1 !! id = Some r) by (pose proof K as [= K1 _]; by rewrite K1).
  assert (D : forall run, rn_outcome run <> RunSkipped -> run_tx (close_tick id r run) y1 = (o, y') ->
    match o with
    | Ok o => agent_schedule_runs y !! (id, sc_next r) = None /\
        exists run, rn_outcome run = o /\ o <> RunSkipped /\ calendar y' = cal_ticked id r run (calendar y)
    | Err _ => calendar y' = calendar y
    end).
  { intros run Hs H. destruct o as [o|e].
    - apply run_tx_commit, close_tick_ok in H as (row & L1 & N1 & -> & ->). rewrite R1 in L1. injection L1 as <-.
      pose proof K as [= _ K2]. rewrite K2 in N1. split; [done|]. exists run. split_and!; [done..|]. by rewrite ticked_calendar, K.
    - unfold run_tx in H. destruct (close_tick id r run y1) as [[]|]; [done|]. by injection H as _ <-. }
  destruct paid as [p|e].
  - by apply D.
  - destruct (refused_tick (EOutside e)); [by apply D|]. by intros [= <- <-].
Qed.

(** One turn of the loop, on the calendar. *)
Lemma tick_calendar c now_ y o y' : runScheduleTick LL G V L OS c now_ y = (o, y') ->
  match o with
  | Ok (Some o) => exists id r run, due_tick now_ y = Some (id, r) /\ agent_schedule_runs y !! (id, sc_next r) = None /\
      rn_outcome run = o /\ o <> RunSkipped /\ calendar y' = cal_ticked id r run (calendar y)
  | Ok None => due_tick now_ y = None /\ y' = y
  | Err _ => calendar y' = calendar y
  end.
Proof.
  unfold runScheduleTick. destruct (due_tick now_ y) as [[id r]|] eqn:D; [|by intros [= <- <-]].
  pose proof (due_tick_Some _ _ _ _ D) as (R & _ & _). destruct (sc_payee r) as [payee|].
  - destruct (standing_tick OS c now_ id payee r y) as [o1 y1] eqn:E. apply standing_tick_calendar in E; [|done].
    intros [= <- <-]. destruct o1 as [o1|e]; [|done]. destruct E as (N1 & run & E). by exists id, r, run.
  - unfold run_tx. destruct (diary_committed _ y) as [[o1 y1]|e] eqn:E; intros [= <- <-]; [|done].
    apply diary_committed_ok, tick_tx_ok in E as [N1 E]; [|done]. apply tick_done_calendar in E as (run & E).
    by exists id, r, run.
Qed.

Lemma tick_step c now_ y o y' : runScheduleTick LL G V L OS c now_ y = (o, y') -> rtc cal_step (calendar y) (calendar y').
Proof.
  intros H%tick_calendar. destruct o as [[o|]|e]; [|by destruct H as [_ ->]|by rewrite H].
  destruct H as (id & r & run & D & N1 & _ & _ & ->). apply due_tick_Some in D as (R & [A _]%andb_prop & _).
  by apply rtc_once, cal_tick.
Qed.

Lemma run_ticks_steps n c now_ res y r y' : run_ticks LL G V L OS n c now_ res y = (r, y') -> rtc cal_step (calendar y) (calendar y').
Proof.
  revert res y. induction n as [|n IH]; intros res y; cbn [run_ticks]; [by intros [= _ <-]|].
  destruct (runScheduleTick LL G V L OS c now_ y) as [o y1] eqn:E. apply tick_step in E.
  destruct o as [[o|]|e]; [|by intros [= _ <-]..]. intros H%IH. by etrans.
Qed.

Lemma top_up_keeps c ws agent : tx_keeps arrangements (top_up c ws agent).
Proof.
  unfold top_up, postEntry, insert_legs, bigint. tx_effects.
Qed.

Lemma topUpAgent_keeps c ws agent s o s' : topUpAgent c ws agent s = (o, s') -> arrangements s' = arrangements s.
Proof.
  unfold topUpAgent. destruct (committed (top_up c ws agent) s) as [[n s1]|e] eqn:E; intros [= _ <-]; [|done].
  apply committed_ok, top_up_keeps in E. by destruct (n =? 0).
Qed.

Lemma run_topups_keeps c due res s r s' : run_topups c due res s = (r, s') -> arrangements s' = arrangements s.
Proof.
  revert res s. induction due as [|[ws agent] due IH]; intros res s; cbn [run_topups]; [by intros [= _ <-]|].
  destruct (topUpAgent c ws agent s) as [o s1] eqn:E. apply topUpAgent_keeps in E.
  destruct o as [n|e]; [|by intros [= _ <-]]. intros H%IH. congruence.
Qed.

Lemma run_topups_counts c due res s r e s' : run_topups c due res s = ((r, e), s') -> Paid r = Paid res /\ Refused r = Refused res.
Proof.
  revert res s. induction due as [|[ws agent] due IH]; intros res s; cbn [run_topups]; [by intros [= <- _ _]|].
  destruct (topUpAgent c ws agent s) as [[n|e1] s1]; [|by intros [= <- _ _]]. intros [-> ->]%IH. by destruct (0 <? n).
Qed.

(** The licences and the top-ups leave the calendar alone. *)
Definition renewals (c : Ctx) (now_ : Z) y : (nat * nat * option PayErr) * Diary :=
  match (match L with Some L => RenewLicences L | None => None end) with
  | Some renew => let '(r, d) := renew c now_ y in (r, at_desk d y)
  | None => ((0%nat, 0%nat, None), y)
  end.

Lemma renewals_calendar c now_ y r y' : renewals c now_ y = (r, y') -> calendar y' = calendar y.
Proof.
  unfold renewals. destruct L as [Lc|] eqn:EL; [|by intros [= _ <-]]. destruct (RenewLicences Lc) as [renew|] eqn:ER; [|by intros [= _ <-]].
  pose proof (gn_renew N Lc renew c now_ y EL ER) as K. destruct (renew c now_ y) as [r1 d]. intros [= _ <-].
  by apply calendar_at_desk.
Qed.

(** The whole run is its ticks, as far as the calendar goes. *)
Lemma run_calendar c now_ y res errs y' : RunAgentSchedules LL G V L OS c now_ y = ((res, errs), y') ->
  exists r e y1, run_ticks LL G V L OS maxTicksPerRun c now_ (mkRunResult 0 0 0 0 0) y = ((r, e), y1) /\
    calendar y' = calendar y1 /\ Paid res = Paid r /\ Refused res = Refused r /\ (errs = [] -> e = None).
Proof.
  unfold RunAgentSchedules. destruct (run_ticks LL G V L OS maxTicksPerRun c now_ _ y) as [[r e] y1] eqn:E.
  fold (renewals c now_ y1). destruct (renewals c now_ y1) as [[[renewed unpaid] rerr] y2] eqn:ER. apply renewals_calendar in ER.
  intros H. exists r, e, y1. split; [done|]. destruct rerr as [err|].
  { injection H as <- <- <-. by destruct e. }
  destruct e as [e|]; [by injection H as <- <- <-|].
  destruct (run_topups c (due_topups y2) _ y2) as [[res2 err] s] eqn:ET. injection H as <- _ <-.
  pose proof (run_topups_counts _ _ _ _ _ _ _ ET) as [-> ->]. apply run_topups_keeps in ET.
  split; [|done]. rewrite <- ER. by apply calendar_at_desk.
Qed.

(** ** Everything that happens to a schedule *)

Inductive schedule_op (y : Diary) : Diary -> Prop :=
| op_standing c ws from payee minor currency memo every first end_ :
    schedule_op y (run_tx (CreateStandingOrder OS c ws from payee minor currency memo every first end_) y).2
| op_listing c ws from listing amount memo every first :
    schedule_op y (run_tx (CreateAgentListingSchedule L c ws from listing amount memo every first) y).2
| op_pay_agent c ws from to amount memo every first :
    schedule_op y (run_tx (CreateAgentSchedule c ws from to amount memo every first) y).2
| op_skip c ws id : schedule_op y (run_tx (SkipAgentScheduleTick c ws id) y).2
| op_cancel ws id : schedule_op y (run_tx (CancelAgentSchedule ws id) y).2
| op_topup ws agent below to : schedule_op y (run_tx (SetAgentTopUp ws agent below to) y).2
| op_untop ws agent : schedule_op y (run_tx (RemoveAgentTopUp ws agent) y).2
| op_archive c ws agent : schedule_op y (run_tx (on_desk (wallet (ArchiveAgent c ws agent))) y).2
| op_run c now_ : schedule_op y (RunAgentSchedules LL G V L OS c now_ y).2
| op_other d : desk_arrangements d = desk_arrangements y -> schedule_op y (at_desk d y).

(** The transaction moves the calendar by steps of it. *)
Definition tx_steps {A} (m : STx A) : Prop := forall y a y', m y = Ok (a, y') -> rtc cal_step (calendar y) (calendar y').

Lemma run_tx_steps {A} (m : STx A) y : tx_steps m -> rtc cal_step (calendar y) (calendar (run_tx m y).2).
Proof. intros H. unfold run_tx. destruct (m y) as [[a y']|e] eqn:E; [apply (H _ _ _ E)|done]. Qed.

Lemma steps_bind {A B} (m : STx A) (k : A -> STx B) : tx_steps m -> (forall a, tx_steps (k a)) -> tx_steps (tx_bind m k).
Proof. intros Hm Hk y b y' (a & y1 & H1 & H2)%tx_bind_ok. etrans; [apply (Hm _ _ _ H1)|apply (Hk _ _ _ _ H2)]. Qed.

Lemma steps_keeps {A} (m : STx A) : tx_keeps calendar m -> tx_steps m.
Proof. intros K y a y' H. by rewrite (K _ _ _ H). Qed.

Lemma insert_schedule_steps id r : tx_steps (insert_schedule id r).
Proof.
  intros y a y'. unfold insert_schedule. rewrite tx_gets_bind, tx_guard_bind, tx_modify_bind, tx_ret_ok.
  intros ([C D]%andb_prop & _ & ->). apply rtc_once. apply (cal_create (calendar y) id r); [|done].
  cbn. by destruct (agent_payment_schedules y !! id).
Qed.

Lemma keeps_schedule_id c : tx_keeps calendar (schedule_id c).
Proof. unfold schedule_id. apply keeps_bind; [|intros ?; apply keeps_ret]. apply keeps_on_desk, keeps_desk, keeps_draw. Qed.
#[local] Hint Resolve keeps_schedule_id insert_schedule_steps : tx_effects.

(** The operations' texts, taken apart: what reads or writes elsewhere keeps the calendar. *)
Ltac tx_steps :=
  repeat match goal with
  | |- tx_steps (tx_bind _ _) => apply steps_bind; [|intros ?]
  | |- tx_steps (match ?x with _ => _ end) => destruct x
  | |- tx_steps _ => solve [auto with tx_effects]
  | |- tx_steps _ => apply steps_keeps; solve [tx_effects]
  end.

Lemma standing_steps c ws from payee minor currency memo every first end_ :
  tx_steps (CreateStandingOrder OS c ws from payee minor currency memo every first end_).
Proof. unfold CreateStandingOrder. tx_steps. Qed.

Lemma listing_steps c ws from listing amount memo every first :
  tx_steps (CreateAgentListingSchedule L c ws from listing amount memo every first).
Proof.
  unfold CreateAgentListingSchedule. apply steps_bind; [by tx_steps|intros _]. destruct L as [Lc|] eqn:EL; [|by tx_steps].
  apply steps_bind; [|intros [price refusal]; tx_steps]. apply steps_keeps, keeps_on_desk. by apply (gn_price N).
Qed.

Lemma agent_steps c ws from to amount memo every first : tx_steps (CreateAgentSchedule c ws from to amount memo every first).
Proof.
  assert (W : forall payee, tx_steps (on_desk (CheckMoneyWall ws payee))).
  { intros payee. apply steps_keeps, keeps_on_desk. unfold CheckMoneyWall. tx_effects. }
  unfold CreateAgentSchedule. tx_steps.
Qed.

Lemma skip_steps c ws id : tx_steps (SkipAgentScheduleTick c ws id).
Proof.
  intros y a y'. unfold SkipAgentScheduleTick. rewrite tx_gets_bind. destruct (agent_payment_schedules y !! id) as [r|] eqn:R; [|done].
  rewrite tx_guard_bind. intros ([_ A]%andb_prop & H). apply tx_bind_ok in H as (u & y1 & H1 & H).
  apply insert_run_ok in H1 as [N1 ->]. apply advanceSchedule_ok in H as (row & L1 & -> & ->). cbn in L1. rewrite R in L1.
  injection L1 as <-. by apply rtc_once, (cal_tick (calendar y) id r).
Qed.

Lemma stop_row_steps id r y : agent_payment_schedules y !! id = Some r ->
  cal_step (calendar y) (calendar (with_schedules <[id := with_active false r]> y)).
Proof.
  intros R. change (calendar (with_schedules _ y)) with (mkCalendar (<[id := with_active false r]> (agent_payment_schedules y)) (agent_schedule_runs y)).
  apply (cal_stop (calendar y)). intros id'. destruct (decide (id = id')) as [<-|Hne].
  - right. rewrite lookup_insert_eq. cbn. by rewrite R.
  - left. by rewrite lookup_insert_ne.
Qed.

Lemma cancel_steps ws id : tx_steps (CancelAgentSchedule ws id).
Proof.
  intros y a y'. unfold CancelAgentSchedule. rewrite tx_gets_bind. destruct (agent_payment_schedules y !! id) as [r|] eqn:R; [|done].
  rewrite tx_guard_bind, tx_modify_ok. intros (_ & ->). by apply rtc_once, stop_row_steps.
Qed.

Lemma topup_steps ws agent below to : tx_steps (SetAgentTopUp ws agent below to).
Proof. unfold SetAgentTopUp. tx_steps. Qed.

Lemma untop_steps ws agent : tx_steps (RemoveAgentTopUp ws agent).
Proof. unfold RemoveAgentTopUp. tx_steps. Qed.

Lemma lift_steps {A} (m : WTx A) :
  (forall s a s', m s = Ok (a, s') -> forall runs, rtc cal_step (mkCalendar (agent_payment_schedules s) runs)
     (mkCalendar (agent_payment_schedules s') runs)) -> tx_steps (on_desk (wallet m)).
Proof.
  intros H y a y'. unfold on_desk, wallet. destruct (m (dk_store (dy_desk y))) as [[b s]|e] eqn:E; [|done]. intros [= <- <-].
  apply (H _ _ _ E).
Qed.

Lemma keeps_postEntry c ws kind ref legs : tx_keeps arrangements (postEntry c ws kind ref legs).
Proof. unfold postEntry. apply keeps_bind; [apply keeps_draw|intros e]. induction legs; cbn [insert_legs]; tx_effects. Qed.

(** Stopping an agent stops its schedules, and does nothing else to one. *)
Lemma stop_agent_steps ws agent s runs :
  cal_step (mkCalendar (agent_payment_schedules s) runs) (mkCalendar (agent_payment_schedules (stop_agent ws agent s)) runs).
Proof.
  apply (cal_stop (mkCalendar (agent_payment_schedules s) runs)). intros id. cbn. rewrite lookup_fmap.
  destruct (agent_payment_schedules s !! id) as [r|]; cbn; [|by left]. case_bool_decide; [by right|by left].
Qed.

Lemma archive_steps c ws agent : tx_steps (on_desk (wallet (ArchiveAgent c ws agent))).
Proof.
  apply lift_steps. intros s a s' H%committed_ok runs.
  assert (S : forall A (m : WTx A) (k : A -> WTx Z) s1 r, tx_keeps arrangements m -> tx_bind m k s1 = Ok r ->
    exists b s2, agent_payment_schedules s2 = agent_payment_schedules s1 /\ k b s2 = Ok r).
  { intros A m k s1 r K (b & s2 & H1 & H2)%tx_bind_ok. exists b, s2. split; [|done]. by pose proof (K _ _ _ H1) as [= -> _]. }
  apply S in H as (u1 & s1 & E1 & H); [|auto with tx_effects]. apply S in H as (u2 & s2 & E2 & H); [|unfold requireNotArchived; tx_effects].
  apply S in H as (p & s3 & E3 & H); [|tx_effects]. apply S in H as (p' & s4 & E4 & H); [|unfold bigint; tx_effects].
  apply S in H as (u5 & s5 & E5 & H); [|tx_effects]. apply S in H as (bal & s6 & E6 & H); [|auto with tx_effects].
  apply S in H as (u7 & s7 & E7 & H); [|destruct (0 <? bal); [apply keeps_postEntry|tx_effects]].
  rewrite tx_modify_bind in H. apply S in H as (u8 & s8 & E8 & H); [|tx_effects].
  apply S in H as (u9 & s9 & E9 & H); [|unfold revokeAgentKYA; tx_effects]. apply tx_ret_ok in H as [_ ->].
  rewrite E9, E8, <- E1, <- E2, <- E3, <- E4, <- E5, <- E6, <- E7. apply rtc_once, stop_agent_steps.
Qed.

Lemma run_steps c now_ y : rtc cal_step (calendar y) (calendar (RunAgentSchedules LL G V L OS c now_ y).2).
Proof.
  destruct (RunAgentSchedules LL G V L OS c now_ y) as [[res errs] y'] eqn:E.
  cbn [snd]. apply run_calendar in E as (r & e & y1 & H & -> & _). by apply run_ticks_steps in H.
Qed.

Lemma op_steps y y' : schedule_op y y' -> rtc cal_step (calendar y) (calendar y').
Proof.
  intros H. destruct H; try apply run_tx_steps.
  - apply standing_steps.
  - apply listing_steps.
  - apply agent_steps.
  - apply skip_steps.
  - apply cancel_steps.
  - apply topup_steps.
  - apply untop_steps.
  - apply archive_steps.
  - apply run_steps.
  - by rewrite calendar_at_desk.
Qed.

(** A diary with no schedule in it yet. *)
Definition blank y : Prop := agent_payment_schedules y = ∅ /\ agent_schedule_runs y = ∅.

Lemma reachable_inv y0 y : blank y0 -> rtc schedule_op y0 y -> cal_inv (calendar y).
Proof.
  intros [B1 B2] H. assert (I : cal_inv (calendar y0)) by (unfold calendar; rewrite B1, B2; apply cal_inv_empty).
  clear B1 B2. induction H as [|y1 y2 y3 H _ IH]; [done|]. apply IH, (cal_steps_inv (calendar y1)); [done|]. by apply op_steps.
Qed.

(** C16: Each tick of a schedule is run or skipped exactly once, in order and with none left
    out: whatever is done to the schedules, however often the scheduler runs or is
    interrupted, the run rows of a schedule are its ticks from its first up to, and without,
    the one it waits for, and each has one outcome. *)
Theorem ticks_run_exactly_once y0 y id r :
  blank y0 -> rtc schedule_op y0 y -> agent_payment_schedules y !! id = Some r ->
  exists first n, sc_next r = tick_at first (sc_every r) n /\
    (forall t, is_Some (agent_schedule_runs y !! (id, t)) <-> exists m, (m < n)%nat /\ t = tick_at first (sc_every r) m) /\
    (forall m k, tick_at first (sc_every r) m = tick_at first (sc_every r) k -> m = k).
Proof.
  intros B H R. destruct (ci_ticks _ (reachable_inv _ _ B H) id r R) as (first & n & E1 & E2).
  exists first, n. split_and!; [done|exact E2|apply tick_at_inj].
Qed.

(** ** Catching up *)

Lemma run_ticks_counts n c now_ res y res' y' : run_ticks LL G V L OS n c now_ res y = ((res', None), y') ->
  exists k : nat, (Paid res' + Refused res' = Paid res + Refused res + k)%nat /\
    Z.of_nat k = Z.min (Z.of_nat n) (backlog now_ y) /\ backlog now_ y' = backlog now_ y - Z.of_nat k.
Proof.
  revert res y. induction n as [|n IH]; intros res y; cbn [run_ticks].
  { intros [= <- <-]. exists 0%nat. pose proof (backlog_nonneg now_ y). split_and!; lia. }
  destruct (runScheduleTick LL G V L OS c now_ y) as [o y1] eqn:E. apply tick_calendar in E. destruct o as [[o|]|e]; [| |done].
  - destruct E as (id & r & run & D & _ & _ & Hs & K). apply due_tick_Some in D as (R & D & _). intros (k & E1 & E2 & E3)%IH.
    pose proof (backlog_due now_ y id r R D) as P.
    assert (Q : backlog now_ y1 = backlog now_ y - 1) by (injection K as K _; by apply (backlog_ticked now_ y y1 id r)).
    exists (S k). split; [|lia]. rewrite E1. destruct o; cbn; lia.
  - destruct E as [D ->]. intros [= <- <-]. exists 0%nat. rewrite (backlog_none _ _ D). split_and!; lia.
Qed.

(** C17: A run of the scheduler that reports no error has run every tick that was due, each
    counted paid or refused, up to the thousand it allows itself; what it left is due the
    next time, and when a thousand were enough nothing is due any more. *)
Theorem run_catches_up c now_ y res y' :
  RunAgentSchedules LL G V L OS c now_ y = ((res, []), y') ->
  Z.of_nat (Paid res + Refused res) = Z.min 1000 (backlog now_ y) /\
  backlog now_ y' = Z.max 0 (backlog now_ y - 1000) /\
  (backlog now_ y <= 1000 -> due_tick now_ y' = None).
Proof.
  intros H. apply run_calendar in H as (r & e & y1 & H & K & -> & -> & He). rewrite (He eq_refl) in H.
  apply run_ticks_counts in H as (k & E1 & E2 & E3). cbn [Paid Refused] in E1. change (Z.of_nat maxTicksPerRun) with 1000 in E2.
  assert (B : backlog now_ y' = backlog now_ y1) by (unfold backlog; by injection K as ->).
  pose proof (backlog_nonneg now_ y). split; [lia|]. split; [lia|]. intros Hb.
  destruct (due_tick now_ y') as [[id r1]|] eqn:D; [|done]. apply due_tick_Some in D as (R & D & _).
  pose proof (backlog_due now_ y' id r1 R D). lia.
Qed.

(** ** What a tick moves *)

(** C30: a tick between agents, or of a listing, that is refused moves nothing: what the
    payment had done is undone to the savepoint, and all that is left of it is the run row
    that says why, the schedule moved on to its next tick, and the identifier that was drawn;
    every other table is as it was.  (A standing order pays out of Talyvor in transactions of
    its own: [Orders] says what its refused ticks leave.) *)
Theorem refused_tick_moves_nothing c now_ y id r y' :
  due_tick now_ y = Some (id, r) -> sc_payee r = None -> runScheduleTick LL G V L OS c now_ y = (Ok (Some RunRefused), y') ->
  exists e, refused_tick e = true /\ y' = ticked id r r (refused_run c e) (drawn y).
Proof.
  unfold runScheduleTick. intros D P. rewrite D, P. pose proof (due_tick_Some _ _ _ _ D) as (R & _ & _).
  unfold run_tx. destruct (diary_committed _ y) as [[o y1]|e] eqn:E; [|done]. intros [= -> <-].
  apply diary_committed_ok, tick_tx_ok in E as [_ (payee & _ & [(run & d & H & Hr & ->)|(e & _ & F & _ & ->)])]; [| |done].
  - apply pay_tick_paid in H. congruence.
  - by exists e.
Qed.

Lemma desk_step_ok {A} (m : PTx A) d r : desk_step m d = Ok r <-> m d = Ok r.
Proof. unfold desk_step. by destruct (m d); split; try done; intros [= ->]. Qed.

Lemma between_own ws amount w : between ws ws amount w = 0.
Proof. unfold between. lia. Qed.

(** What a tick that pays an agent moves: its amount, between the two accounts, and between
    the two workspaces' LXC when they are two. *)
Lemma pay_tick_moves c id r a to entry key_ws d run d' {Hu : Inj (=) (=) (uuid c)} :
  wallet_inv (uuid c) key_ws d -> (forall n, (uuid_draws d <= n)%N -> entry <> uuid c n) ->
  sc_listing r = None -> sc_to r = Some to -> ag_ws a <> ""%string ->
  0 < sc_amount r -> in_i64 (sc_amount r) ->
  (forall ws, lx_balance (lxc_row d ws) + held_sum d ws + sc_amount r <= room) ->
  pay_tick LL G V L c id r (ag_ws a) entry d = Ok (run, d') ->
  wallet_inv (uuid c) key_ws d' /\
  (forall w, lx_balance (lxc_row d' w) = lx_balance (lxc_row d w) + between (sc_ws r) (ag_ws a) (sc_amount r) w) /\
  (forall w acc, shared_account acc = false -> account_balance d' w acc =
     account_balance d w acc + agent_to_agent (sc_ws r) (sc_from r) (ag_ws a) to (sc_amount r) w acc).
Proof.
  intros W Hd EL ET Ne Hp Hi Hroom. unfold pay_tick. rewrite EL, ET. change (default ""%string (Some to)) with to. case_bool_decide as Ews; cbn [negb].
  - intros (p & d1 & H%desk_step_ok & [_ ->]%tx_ret_ok)%tx_bind_ok. apply wallet_ok in H as (s & H & ->).
    apply (payAgentTx_effect LL _ _ _ _ (uuid c)) in H as [P _]; [|done|by eapply wallet_sound_books|done|done|done].
    cbn [pay_from pay_to pay_amount pay_memo scheduled_payment] in P. split; [by eapply paid_wallet|]. cbn [dk_store with_store].
    rewrite Ews. split.
    + intros w. rewrite between_own. pose proof (pd_lxc _ _ _ _ _ _ _ _ _ P) as E. unfold lxc_row. rewrite E. lia.
    + intros w acc Ha. apply (sf_acc _ _ _ _ _ _ (pd_shift _ _ _ _ _ _ _ _ _ P)). exact Ha.
  - intros (t & d1 & H%desk_step_ok & [_ ->]%tx_ret_ok)%tx_bind_ok.
    pose proof (transferTx_effect LL G V c (scheduled_transfer (sc_ws r) (ag_ws a) to id r) true key_ws _ _ _ W Hi Hroom H) as T.
    split; [exact (transferred_wallet LL G V c (scheduled_transfer (sc_ws r) (ag_ws a) to id r) t true key_ws d d1 W Hroom T)|]. destruct (td_asked _ _ _ _ _ _ _ _ _ T) as (E1 & E2 & E3 & E4 & _ & _ & _ & _ & E5).
    cbn [scheduled_transfer t_row tf_from_ws tf_from tf_to tf_amount tf_to_ws] in E1, E2, E3, E4, E5.
    pose proof (td_shift _ _ _ _ _ _ _ _ _ T) as S. cbn zeta in S. rewrite E1, E2, E3, E4 in S.
    rewrite (E5 Ne) in S. split; [apply S|]. intros w acc Ha. by apply S.
Qed.

(** C28: A tick paid to an agent moves exactly the schedule's amount: out of the payer's
    account and into the payee's, and between the two workspaces' LXC when the payee is
    another workspace's, and leaves the wallet sound. *)
Theorem paid_tick_moves_amount c now_ y y' id r to a key_ws {Hu : Inj (=) (=) (uuid c)} :
  wallet_inv (uuid c) key_ws y -> due_tick now_ y = Some (id, r) ->
  sc_listing r = None -> sc_payee r = None -> sc_to r = Some to -> agent_accounts y !! to = Some a -> ag_ws a <> ""%string ->
  0 < sc_amount r -> in_i64 (sc_amount r) ->
  (forall ws, lx_balance (lxc_row y ws) + held_sum y ws + sc_amount r <= room) ->
  runScheduleTick LL G V L OS c now_ y = (Ok (Some RunPaid), y') ->
  wallet_inv (uuid c) key_ws y' /\
  (forall w, lx_balance (lxc_row y' w) = lx_balance (lxc_row y w) + between (sc_ws r) (ag_ws a) (sc_amount r) w) /\
  (forall w acc, shared_account acc = false -> account_balance y' w acc =
     account_balance y w acc + agent_to_agent (sc_ws r) (sc_from r) (ag_ws a) to (sc_amount r) w acc).
Proof.
  intros W D EL EP ET La Ne Hp Hi Hr. unfold runScheduleTick. rewrite D, EP. unfold run_tx.
  pose proof (due_tick_Some _ _ _ _ D) as (R & _ & _).
  destruct (diary_committed _ y) as [[o y1]|e] eqn:E; [|done]. intros [= -> <-].
  apply diary_committed_ok, tick_tx_ok in E as [_ (payee & EW & [(run & d & H & _ & ->)|(e & _ & _ & ? & _)])]; [|done..].
  unfold payee_workspace in EW. rewrite ET, run_gets in EW. change (agent_accounts (drawn y) !! to) with (agent_accounts y !! to) in EW.
  rewrite La in EW. injection EW as <-.
  assert (Wd : wallet_inv (uuid c) key_ws (drawn y)) by (apply (quiet_keeps _ _ y); [done|constructor; try done; cbn; lia]).
  apply (pay_tick_moves (WithAgentRequest c (tick_request now_ id r)) id r a to _ key_ws) in H as (W' & HL & HB); [|done..| |done|done|done|done|done|done].
  - split; [|split; [exact HL|exact HB]]. apply (quiet_keeps _ _ d); [done|]. by constructor.
  - intros n Hn E%Hu. cbn in Hn. lia.
Qed.
End Follows.
