(* ===== verification/Orders.v ===== *)
(** Standing orders on the money accounts themselves: [Outgoing] is what [Schedules] asks the
    money accounts to be, a tick pays what its order says, and a tick run again under its key
    pays nothing twice. *)
From stdpp Require Import pretty relations.
From S2P Require Import Prelude Money Tables Postings Clock Lxc Rules CreditLine Agents Reservation Funding Wallet Shifts Desk Capabilities Transfers Escrow Payments Effects Ledger MoneyBooks Outgoing Sendings Schedules Ticks.
Open Scope Z_scope.
Open Scope i64_scope.

Implicit Types (d : Desk) (y : Diary).

(** ** The schedules are left alone *)

Lemma keeps_desk_tx {A} (m : PTx A) : tx_keeps desk_arrangements m -> tx_keeps desk_arrangements (desk_tx m).
Proof. intros K d a d' H%desk_tx_ok. apply (K _ _ _ H). Qed.

Lemma keeps_desk_draw c : tx_keeps desk_arrangements (desk_tx (wallet (uuid_new c))).
Proof. apply keeps_desk_tx, keeps_desk. auto with tx_effects. Qed.

Lemma keeps_insert_account id a : tx_keeps desk_arrangements (insert_account id a).
Proof. unfold insert_account. tx_effects. Qed.

Lemma keeps_find_or_open c ws currency purpose ref name : tx_keeps desk_arrangements (find_or_open c ws currency purpose ref name).
Proof.
  unfold find_or_open, new_account_id. apply keeps_bind; [tx_effects|intros [[id a]|]]; [tx_effects|].
  apply keeps_bind; [apply keeps_bind; [apply keeps_desk_draw|intros ?; apply keeps_ret]|intros id].
  apply keeps_bind; [apply keeps_insert_account|intros ?; apply keeps_ret].
Qed.

Lemma keeps_post G scr c e : tx_keeps desk_arrangements (postMoneyTx G scr c e).
Proof. intros d a d' H. by apply postMoneyTx_ok in H as [_ [[_ ->]|(ps & _ & _ & ->)]]. Qed.

Section Keeps.
Context (LL : string -> option Location) (G : Gates) (B : Bank).

#[local] Hint Resolve keeps_desk_draw keeps_insert_account keeps_find_or_open keeps_post : tx_effects.

Lemma keeps_apply_status c p status out back : tx_keeps desk_arrangements (apply_status G B c p status out back).
Proof. unfold apply_status, post. tx_effects. Qed.
#[local] Hint Resolve keeps_apply_status : tx_effects.

Lemma keeps_movements c p partner : tx_keeps desk_arrangements (movements c p partner).
Proof. unfold movements, routeAccount. tx_effects. Qed.
#[local] Hint Resolve keeps_movements : tx_effects.

Lemma keeps_apply_result c id partner res : tx_keeps desk_arrangements (apply_result G B c id partner res).
Proof. unfold apply_result. tx_effects. Qed.

Lemma keeps_screen_out c screen p id who : tx_keeps desk_arrangements (screen_out c screen p id who).
Proof. unfold screen_out. tx_effects. Qed.
#[local] Hint Resolve keeps_screen_out : tx_effects.

Lemma keeps_hold_payment c p payer : tx_keeps desk_arrangements (hold_payment LL G B c p payer).
Proof.
  assert (K1 : forall ws agent, tx_keeps desk_arrangements (desk_tx (wallet (lockAgent ws agent))))
    by (intros; apply keeps_desk_tx, keeps_desk; auto with tx_effects).
  assert (K2 : forall ws agent v id, tx_keeps desk_arrangements (desk_tx (wallet (enforceAgentRules LL c ws agent v id))))
    by (intros; apply keeps_desk_tx, keeps_desk; auto with tx_effects).
  unfold hold_payment, holdAccount, insert_payment. tx_effects.
Qed.

Lemma applied_arrangements c id partner res d : desk_arrangements (applyPartnerResult G B c id partner res d).2 = desk_arrangements d.
Proof.
  unfold applyPartnerResult, run_tx. destruct (money_committed _ d) as [[p d']|] eqn:E; [|done].
  apply money_committed_ok in E as [E _]. apply (keeps_apply_result _ _ _ _ _ _ _ E).
Qed.

Lemma refused_arrangements c e s : arrangements (refusedMovement c e s).2 = arrangements s.
Proof.
  destruct e; try done. cbn [refusedMovement]. unfold run_tx. destruct (fileApproval _ _ _ _ _ s) as [[id s']|] eqn:H; [|done]. cbn [snd].
  assert (K : forall c amount ws agent req, tx_keeps arrangements (fileApproval c amount ws agent req)) by (intros; unfold fileApproval; tx_effects).
  apply (K _ _ _ _ _ _ _ _ H).
Qed.

Lemma held_arrangements c p payer d : desk_arrangements (run_hold LL G B c p payer d).2 = desk_arrangements d.
Proof.
  unfold run_hold. destruct (money_committed _ d) as [[p' d']|e] eqn:E.
  - apply money_committed_ok in E as [E _]. apply (keeps_hold_payment _ _ _ _ _ _ E).
  - destruct e as [e'| | | | | | | | | | | | | | | | | | | | | |]; try done. destruct e'; try done.
    pose proof (refused_arrangements c e (dk_store d)) as R. by destruct (refusedMovement c e (dk_store d)).
Qed.

(** A payment out leaves every schedule and every top-up as it is. *)
Lemma paid_arrangements c ws (p : OutsidePayment) d : desk_arrangements (PayOutside LL G B c ws p d).2 = desk_arrangements d.
Proof.
  unfold PayOutside. destruct (normalise true p) as [q|]; [|done]. destruct (prior_payment ws q d); [done|]. cbv zeta.
  change (desk_arrangements d) with (desk_arrangements (drew_one d)).
  destruct (prepare _ _ _ _ _ _) as [[[[[from payee] partner] row] payer]|]; [|done].
  set (c' := if bool_decide _ then c else _). pose proof (held_arrangements c' row payer (drew_one d)) as Hh.
  destruct (run_hold _ _ _ _ _ _ _) as [[row'|] d1]; [|exact Hh]. cbn [snd] in Hh. rewrite <- Hh. destruct (sent_result _); [|done].
  apply applied_arrangements.
Qed.
End Keeps.

(** Beside any marketplace the scheduler can work with, [Outgoing] is the money accounts it
    asks for. *)
Lemma outgoing_neighbours LL G L OS B : good_neighbours L OS -> good_neighbours L (outgoing LL G B).
Proof. intros [N1 N2 N3 _]. split; try done. intros c ws p d. apply paid_arrangements. Qed.

(** ** What a standing order's tick pays *)

(** The payment of a tick: its key, and the order's terms; the account it is paid from is an
    open one of the company's in the order's currency, the agent's own when an agent pays;
    the partner it goes to has an account there. *)
Record tick_payment (id payee : string) (r : ScheduleRow) d (partner : string) (p : MoneyPayment) : Prop := {
  tp_key : mp_ws p = sc_ws r /\ mp_key p = trimmed (tick_key id (sc_next r));
  tp_terms : mp_payee p = payee /\ mp_amount p = sc_minor r /\ mp_currency p = upper (trimmed (sc_currency r)) /\ mp_funding p = "test"%string;
  tp_free : mp_cost p = 0 /\ mp_fee p = 0;
  tp_agent : sc_from r <> ""%string -> mp_agent p = sc_from r;
  tp_account : exists a, money_accounts d !! mp_account p = Some a /\ ma_ws a = sc_ws r /\ ma_purpose a ∈ ["company"; "agent"]%string /\
    ma_currency a = mp_currency p /\ ma_status a = "open"%string /\ ma_agent a = mp_agent p;
  tp_partner : exists b, money_accounts d !! partner = Some b /\ ma_purpose b = "partner"%string;
}.

(** What moved in test money. *)
Definition test_moves d (moves : list (string * Z)) d' : Prop :=
  forall a f, money_balance d' a f = money_balance d a f + (if decide (f = "test"%string) then moved_by a moves else 0).

Lemma test_moves_none d d' : dk_money d' = dk_money d -> test_moves d [] d'.
Proof. intros E a f. unfold money_balance. rewrite E. change (moved_by a []) with 0. case_decide; lia. Qed.

(** A payment read is the one asked for, its words and its key trimmed. *)
Lemma normalise_read key (p q : OutsidePayment) : normalise key p = inl q ->
  q = mkOutsidePayment (op_account p) (op_agent p) (op_payee p) (op_minor p) (upper (trimmed (op_currency p)))
        (if bool_decide (op_funding p = ""%string) then FundingTest else op_funding p) (squeezed (op_reference p)) (trimmed (op_key p))
        (trimmed (op_quote p)) (op_at p).
Proof.
  unfold normalise. cbv zeta. destruct (bool_decide _); [done|]. destruct (negb _); [done|]. destruct (_ <=? _); [done|].
  destruct (negb _); [done|]. destruct (_ && _); [done|]. destruct (_ <? _)%nat; [done|]. by intros [= <-].
Qed.

Lemma tick_payment_of id payee now_ r d from p (q : OutsidePayment) :
  normalise true (outside_payment now_ id payee r) = inl q -> pays (sc_ws r) q d from -> answers (sc_ws r) q p ->
  mp_account p = pa_id from -> mp_agent p = pa_agent from -> mp_cost p = 0 -> mp_fee p = 0 ->
  tick_payment id payee r d (pa_partner from) p.
Proof.
  intros En [(a & Ha & Wa & Pa & Ca & Oa & Ga) _ Gn Pn] (Ew & Ek & Es) Ea Eg E1 E2.
  assert (Q : op_key q = trimmed (tick_key id (sc_next r)) /\ op_payee q = payee /\ op_minor q = sc_minor r /\
    op_currency q = upper (trimmed (sc_currency r)) /\ op_funding q = FundingTest /\ op_agent q = sc_from r).
  { apply normalise_read in En as ->. done. }
  destruct Q as (Qk & Qp & Qm & Qc & Qf & Qg). unfold same in Es. rewrite !andb_true_iff, !bool_decide_eq_true in Es.
  destruct Es as [[[[[[[S1 S2%Z.eqb_eq] S3] S4] _] _] _] _].
  split; [by rewrite Ew, Ek|by rewrite S1, S2, S3, S4|done| | |done].
  - intros Hn. rewrite Eg, Gn; congruence.
  - exists a. rewrite Ea, Eg, S3. done.
Qed.

(** C12: a standing order's tick pays what the order says, once.  The first time it is run, a
    tick that is recorded paid has one payment under its key, of the order's amount, currency
    and payee, in test money, from an open account of the company's - its agent's own when
    an agent pays: exactly that amount left the account, for the hold while the payment is on
    its way, for the partner's account once it completed; all of it is back when it failed
    or was returned, and no other balance changed.  A tick recorded refused moved nothing,
    unless its payment was held and the partner's answer then could not be recorded: then it
    is on its way, its money in the hold.  Either way the hold accounts still hold exactly
    what is on its way. *)
Theorem standing_order_pays_as_scheduled LL G V L B c now_ y id r payee o y' :
  bank_inv y -> in_i64 (sc_minor r) ->
  due_tick now_ y = Some (id, r) -> sc_payee r = Some payee -> payment_by_key y (sc_ws r) (trimmed (tick_key id (sc_next r))) = None ->
  runScheduleTick LL G V L (outgoing LL G B) c now_ y = (Ok (Some o), y') ->
  bank_inv y' /\
  match o with
  | RunPaid => exists p partner, p ∈ money_payments y' /\ tick_payment id payee r y partner p /\
      agent_schedule_runs y' !! (id, sc_next r) = Some (paid_out c (mp_id p) (mp_status p)) /\ test_moves y (lies p partner) y'
  | RunRefused => (exists e, refused_tick e = true /\ agent_schedule_runs y' !! (id, sc_next r) = Some (refused_run c e)) /\
      (money_payments y' = money_payments y /\ test_moves y [] y' \/
       exists p partner, p ∈ money_payments y' /\ tick_payment id payee r y partner p /\ mp_status p = "pending"%string /\
         test_moves y [(mp_account p, - sc_minor r); (mp_hold p, sc_minor r)] y')
  | RunSkipped => False
  end.
Proof.
  intros Bi Hm Due Py Pk H. unfold runScheduleTick in H. rewrite Due, Py in H. unfold standing_tick in H. cbn [PayOut outgoing] in H.
  apply due_tick_Some in Due as (R & _ & _). set (op := outside_payment now_ id payee r) in *.
  pose proof (PayOutside_inv LL G B c (sc_ws r) op y Bi Hm) as B1.
  destruct (PayOutside LL G B c (sc_ws r) op y) as [paid d] eqn:E. cbn [snd] in B1.
  assert (F : (exists q, normalise true op = inl q /\ first_paid (sc_ws r) q y paid d) \/ (exists why, paid = Err (ErrOutsidePayment why)) /\ d = dy_desk y).
  { destruct (normalise true op) as [q|why] eqn:En; [left; exists q; split; [done|]|right; unfold PayOutside in E; rewrite En in E; injection E as <- <-; by split; [eexists|]].
    apply (first_payment LL G B c (sc_ws r) op q y paid d Bi Hm En); [|by rewrite (normalise_key _ _ _ En)|exact E].
    by apply normalise_read in En as ->. }
  assert (C : forall run o1 y1, run_tx (close_tick id r run) (at_desk d y) = (Ok o1, y1) -> o1 = rn_outcome run /\
    dk_money y1 = dk_money d /\ money_payments y1 = money_payments d /\ agent_schedule_runs y1 !! (id, sc_next r) = Some run).
  { intros run o1 y1 H1. apply run_tx_commit, close_tick_ok in H1 as (row & _ & _ & -> & ->).
    split_and!; [done..|]. unfold ticked. cbn. apply lookup_insert_eq. }
  assert (M : forall moves, test_moves y moves d -> dk_money y' = dk_money d -> test_moves y moves y').
  { intros moves Hv Em a f. unfold money_balance at 1. rewrite Em. apply Hv. }
  destruct paid as [p|e].
  - destruct (run_tx _ _) as [[o1|e1] y1] eqn:E1; [|done]. injection H as -> <-. destruct (C _ _ _ E1) as (Eo & Em & Ep & Er). cbn in Eo. subst o.
    split; [by apply (bank_same d)|]. destruct F as [(q & En & F)|[[why [=]] _]].
    destruct F as [e F _ _|from p1 P Hin An Ea Eg E2 E3 Mv Hr]; [done|]. assert (p1 = p) as -> by (destruct Hr as [Hr|[_ [? ?]]]; congruence).
    pose proof (tick_payment_of _ _ _ _ _ _ _ _ En P An Ea Eg E2 E3) as T. exists p, (pa_partner from). rewrite Ep.
    split_and!; [exact Hin|exact T|exact Er|]. apply M; [|exact Em]. intros a f. rewrite Mv. by destruct (tp_terms _ _ _ _ _ _ T) as (_ & _ & _ & ->).
  - destruct (refused_tick (EOutside e)) eqn:Rf; [|done]. destruct (run_tx _ _) as [[o1|e1] y1] eqn:E1; [|done]. injection H as -> <-.
    destruct (C _ _ _ E1) as (Eo & Em & Ep & Er). cbn in Eo. subst o. split; [by apply (bank_same d)|]. split; [by exists (EOutside e)|].
    destruct F as [(q & En & F)|[_ ->]]; [|left; split; [exact Ep|apply M; [by apply test_moves_none|exact Em]]].
    destruct F as [e2 _ F1 F2|from p P Hin An Ea Eg E2 E3 Mv Hr]; [left; split; [by rewrite Ep|apply M; [by apply test_moves_none|exact Em]]|].
    right. pose proof (tick_payment_of _ _ _ _ _ _ _ _ En P An Ea Eg E2 E3) as T. exists p, (pa_partner from). rewrite Ep.
    destruct Hr as [Hr|[St _]]; [done|]. split_and!; [exact Hin|exact T|exact St|]. apply M; [|exact Em]. intros a f. rewrite Mv.
    destruct (tp_terms _ _ _ _ _ _ T) as (_ & <- & _ & ->). unfold lies. by rewrite St.
Qed.

(** The moment a payment is judged at is no part of what was asked. *)
Definition asked_at (t : option Z) (p : OutsidePayment) : OutsidePayment :=
  mkOutsidePayment (op_account p) (op_agent p) (op_payee p) (op_minor p) (op_currency p) (op_funding p) (op_reference p) (op_key p) (op_quote p) t.

Lemma normalise_at key t (p q : OutsidePayment) : normalise key p = inl q -> normalise key (asked_at t p) = inl (asked_at t q).
Proof.
  unfold normalise. cbv zeta. cbn [asked_at op_account op_agent op_payee op_minor op_currency op_funding op_reference op_key op_quote op_at].
  destruct (bool_decide _); [done|]. destruct (negb _); [done|]. destruct (_ <=? _); [done|]. destruct (negb _); [done|].
  destruct (_ && _); [done|]. destruct (_ <? _)%nat; [done|]. by intros [= <-].
Qed.

(** C11: a tick of a standing order pays once, however often it is run.  When a run paid out
    but did not record its tick, the same tick run again later, whatever happened to the
    money since, is recorded paid by that same payment, where it then stands, and the order
    moves on; no money moves, nothing is sent. *)
Theorem tick_run_again_pays_once LL G V L B c now_ id r payee d p d1 y c' later :
  bank_inv d -> in_i64 (sc_minor r) ->
  PayOutside LL G B c (sc_ws r) (outside_payment now_ id payee r) d = (Ok p, d1) -> rtc (BankStep LL G B) d1 (dy_desk y) ->
  due_tick later y = Some (id, r) -> sc_payee r = Some payee -> agent_schedule_runs y !! (id, sc_next r) = None ->
  exists p' y', p' ∈ money_payments y /\ asked p' = asked p /\
    runScheduleTick LL G V L (outgoing LL G B) c' later y = (Ok (Some RunPaid), y') /\
    agent_schedule_runs y' !! (id, sc_next r) = Some (paid_out c' (mp_id p') (mp_status p')) /\
    dk_money y' = dk_money y /\ money_payments y' = money_payments y /\ agent_postings y' = agent_postings y.
Proof.
  intros Bi Hm H St Due Py Nr. destruct (asked_again LL G B c (sc_ws r) (outside_payment now_ id payee r) d p d1 _ Bi Hm H St) as (q & p' & En & Hin & Ea & Pk & Es).
  apply due_tick_Some in Due as Hr. destruct Hr as (Hr & _ & _).
  assert (E : PayOutside LL G B c' (sc_ws r) (outside_payment later id payee r) (dy_desk y) = (Ok p', dy_desk y)).
  { unfold PayOutside. pose proof (normalise_at _ (Some later) _ _ En) as En'.
    change (asked_at (Some later) (outside_payment now_ id payee r)) with (outside_payment later id payee r) in En'. rewrite En'.
    unfold prior_payment. change (op_key (asked_at (Some later) q)) with (op_key q). rewrite Pk. cbn.
    change (same p' (asked_at (Some later) q)) with (same p' q). by rewrite Es. }
  exists p', (ticked id r r (paid_out c' (mp_id p') (mp_status p')) y). split_and!; [exact Hin|exact Ea| | |done..].
  - unfold runScheduleTick. rewrite Due, Py. unfold standing_tick. cbn [PayOut outgoing]. rewrite E.
    replace (at_desk (dy_desk y) y) with y by (by destruct y). unfold run_tx.
    assert (C : close_tick id r (paid_out c' (mp_id p') (mp_status p')) y
      = Ok (RunPaid, ticked id r r (paid_out c' (mp_id p') (mp_status p')) y)) by (apply close_tick_ok; by exists r).
    by rewrite C.
  - unfold ticked. cbn. apply lookup_insert_eq.
Qed.
