(* ===== verification/Topups.v ===== *)
(** Automatic top-ups ([topUpAgent] of [internal/economy/agent_schedules.go]): what a top-up
    comes to, that it fires once a crossing, and that it funds an agent that can no longer
    be funded otherwise. *)
From stdpp Require Import pretty.
From S2P Require Import Prelude Money Tables Postings Clock Lxc Rules CreditLine Agents Reservation Funding Wallet Shifts Desk Capabilities Transfers Escrow Payments Effects Schedules Ticks.
Open Scope Z_scope.
Open Scope i64_scope.

Implicit Types (d : Desk) (s : Store) (y : Diary).

(** What an agent below its threshold is owed: all of the way to its target, or what its
    workspace has left. *)
Definition topup_due s (ws agent : string) : Z :=
  match agent_topups s !! agent, agent_accounts s !! agent with
  | Some t, Some a =>
      let bal := account_balance s ws (agentAccount agent) in
      if bool_decide (ag_owner a = ""%string) || (tu_below t <=? bal) then 0
      else Z.max 0 (Z.min (tu_to t - bal) (unallocated s ws))
  | _, _ => 0
  end.

Lemma topup_due_of s ws agent a : agent_accounts s !! agent = Some a ->
  topup_due s ws agent = match agent_topups s !! agent with
  | Some t => if bool_decide (ag_owner a = ""%string) || (tu_below t <=? account_balance s ws (agentAccount agent)) then 0
      else Z.max 0 (Z.min (tu_to t - account_balance s ws (agentAccount agent)) (unallocated s ws))
  | None => 0
  end.
Proof. intros E. unfold topup_due. by rewrite E. Qed.

(** The CHECKs of [agent_topups]. *)
Definition topup_checks (t : TopUpRow) : Prop := 0 < tu_below t < tu_to t /\ in_i64 (tu_to t).

Section TopUp.
Context (u : N -> string) {Hu : Inj (=) (=) u} (key_ws : string -> string).

(** The transaction, run. *)
Lemma top_up_run c ws agent a s :
  wallet_inv u key_ws s -> agent_accounts s !! agent = Some a -> ag_ws a = ws ->
  (forall t, agent_topups s !! agent = Some t -> topup_checks t) ->
  let n := topup_due s ws agent in
  if n =? 0 then exists s1, top_up c ws agent s = Ok (0, s1) /\ agent_postings s1 = agent_postings s
  else top_up c ws agent s =
    tx_bind (postEntry c ws "topup" "" [mkLeg "workspace" (-! n); mkLeg (agentAccount agent) n]) (fun _ => tx_ret n)
      (set_row ws (lxc_row s ws) s).
Proof.
  intros W La Hw Ht n. pose proof (allocated_bounds u key_ws s ws W) as AB. pose proof (balance_bounds u key_ws s ws W) as BB.
  pose proof (account_room u key_ws s ws _ W (held_agent agent)) as RB. subst n. rewrite (topup_due_of _ _ _ a La).
  unfold top_up, lockAgent, accountBalance. rewrite run_assoc, !run_gets, La, run_guard. rewrite (bool_decide_eq_true_2 (ag_ws a = ws)), run_gets by done.
  destruct (agent_topups s !! agent) as [t|]; [|by (cbn; exists s)]. destruct (Ht t eq_refl) as [Hb Hi]. rewrite run_gets.
  assert (O : match requireOwner agent s with Ok _ => true | Err _ => false end = negb (bool_decide (ag_owner a = ""%string))).
  { unfold requireOwner. rewrite run_gets, La. unfold tx_guard. by destruct (negb _). }
  rewrite O, negb_involutive. destruct (bool_decide (ag_owner a = ""%string)); cbn [orb]; [by (cbn; exists s)|].
  rewrite run_gets. set (bal := account_balance s ws (agentAccount agent)) in *.
  destruct (Z.leb_spec (tu_below t) bal) as [|Hlt]; [by (cbn; exists s)|].
  rewrite (run_bind _ _ _ _ _ (proj2 (readLXCBalance_ok ws s _ _) (conj eq_refl eq_refl))), run_gets.
  change (allocated (set_row ws (lxc_row s ws) s) ws) with (allocated s ws).
  rewrite (run_bind _ _ _ (allocated s ws) (set_row ws (lxc_row s ws) s)) by (apply bigint_ok; split_and!; [done..|unfold room in *; i64_ranges; lia]).
  rewrite !wrap64_id by (unfold room in *; i64_ranges; lia). fold (unallocated s ws).
  set (m := Z.min (tu_to t - bal) (unallocated s ws)). destruct (Z.leb_spec m 0) as [Hm|Hm].
  - rewrite Z.max_l by done. by exists (set_row ws (lxc_row s ws) s).
  - rewrite Z.max_r by lia. by destruct (Z.eqb_spec m 0); [lia|].
Qed.

Lemma keeps_post_agents c ws kind ref legs : tx_keeps (fun s : Store => agent_accounts s) (postEntry c ws kind ref legs).
Proof.
  unfold postEntry. apply keeps_bind; [by apply keeps_uuid|intros e].
  induction legs; cbn [insert_legs]; unfold insert_posting, account_balances_post, accountBalance, bigint; tx_effects.
Qed.

(** C29: A top-up never fails, and fires once a crossing: an agent with an owner, below its
    threshold, is brought up to its target, or by what its workspace has unallocated when
    that is less, out of the workspace and into its account; any other agent is left as it
    is, and so is this one the next time. *)
Theorem topup_fires_once c ws agent a s :
  uuid c = u -> wallet_inv u key_ws s -> agent_accounts s !! agent = Some a -> ag_ws a = ws ->
  (forall t, agent_topups s !! agent = Some t -> topup_checks t) ->
  exists s', topUpAgent c ws agent s = (Ok (topup_due s ws agent), s') /\ wallet_inv u key_ws s' /\
    (topup_due s ws agent = 0 -> s' = s) /\
    (0 < topup_due s ws agent -> transfer ws "workspace" (agentAccount agent) (topup_due s ws agent) s s') /\
    topup_due s' ws agent = 0.
Proof.
  intros Hc W La Hw Ht. pose proof (top_up_run c ws agent a s W La Hw Ht) as R. set (n := topup_due s ws agent) in *. cbn zeta in R.
  destruct (Z.eqb_spec n 0) as [E|E].
  { destruct R as (s1 & R & P). exists s. unfold topUpAgent, committed. rewrite R, P, Nat.sub_diag. cbn. rewrite E. split_and!; done || lia. }
  assert (D : exists t, agent_topups s !! agent = Some t /\ account_balance s ws (agentAccount agent) < tu_below t /\
    n = Z.min (tu_to t - account_balance s ws (agentAccount agent)) (unallocated s ws) /\ 0 < n).
  { subst n. rewrite (topup_due_of _ _ _ a La) in *. destruct (agent_topups s !! agent) as [t|]; [|done]. exists t. split; [done|].
    destruct (bool_decide (ag_owner a = ""%string)); cbn [orb] in *; [done|]. destruct (Z.leb_spec (tu_below t) (account_balance s ws (agentAccount agent))); [done|].
    split; [done|]. lia. }
  destruct D as (t & Lt & Hb & En & Hp). clearbody n. destruct (touched_row u key_ws ws s W) as [_ Rr].
  destruct (pair_moves u key_ws c ws "topup" "" "workspace" (agentAccount agent) n (set_row ws (lxc_row s ws) s))
    as (s' & P & M & W' & L & _); [done|by apply touched_keeps|done|done|by left|right; apply held_agent|done| |].
  { intros _. unfold unallocated in *. rewrite Rr. change (allocated (set_row ws (lxc_row s ws) s) ws) with (allocated s ws). lia. }
  assert (T : transfer ws "workspace" (agentAccount agent) n s s')
    by (eapply (moved_transfer _ _ _ _ s (set_row ws (lxc_row s ws) s)); [reflexivity|exact Rr|reflexivity|exact M|exact L]).
  erewrite run_bind in R by exact P.
  exists s'. unfold topUpAgent. rewrite (committed_balanced u _ _ _ _ R) by apply W'. rewrite (proj2 (Z.eqb_neq n 0)) by done.
  split_and!; try done.
  pose proof (keeps_postEntry c ws "topup" "" _ _ _ _ P) as [= _ Kt]. pose proof (keeps_post_agents c ws "topup" "" _ _ _ _ P) as Ka.
  rewrite (topup_due_of _ _ _ a) by (rewrite Ka; exact La). rewrite Kt. change (agent_topups (set_row ws (lxc_row s ws) s)) with (agent_topups s).
  rewrite Lt. destruct (bool_decide (ag_owner a = ""%string)); cbn [orb]; [done|].
  rewrite (tr_unallocated _ _ _ _ _ _ T), held_agent. rewrite (tr_balance _ _ _ _ _ _ T) by apply kept_agent.
  rewrite bool_decide_eq_false_2, bool_decide_eq_true_2 by done. destruct (Z.leb_spec (tu_below t) (account_balance s ws (agentAccount agent) - 0 + n)); [done|].
  change (held_account "workspace") with false. cbn match. lia.
Qed.
End TopUp.
