(* ===== verification/Standing.v ===== *)
(** A company's schedules, run: the witnesses of [Ticks] and [Topups], on a marketplace and
    money accounts that answer, and what the scheduler does against its own comments. *)
From stdpp Require Import pretty relations.
From S2P Require Import Prelude Money Tables Postings Clock Lxc Rules CreditLine Agents Reservation Funding Wallet Shifts Desk Capabilities Transfers Escrow Payments Effects Ledger MoneyBooks Outgoing Sendings Schedules Ticks Orders Topups.
Open Scope Z_scope.
Open Scope i64_scope.

Implicit Types (d : Desk) (s : Store) (y : Diary).

(** ** The neighbours *)

(** A marketplace where every listing costs 500 µLXC a use. *)
Definition demo_charger : ListingCharger := mkListingCharger
  (fun _ _ => tx_ret (500, ""%string))
  (fun c _ _ _ amount _ judge =>
     if amount <? 500 then tx_ret (""%string, "it now costs 500"%string)
     else judge 500 ;;; let! u := wallet (uuid_new c) in tx_ret ("use_" +:+ u, ""%string))
  (Some (fun _ _ d => ((1%nat, 0%nat, None), d))).

(** Money accounts that pay up to ten pounds, and whose partner is down above a thousand. *)
Definition demo_paid_out (p : OutsidePayment) : MoneyPayment :=
  mkMoneyPayment "mpay_1" "ws" (op_key p) "acme" "hold" (Outgoing.op_agent p) (op_payee p) "Supplier Ltd" (op_minor p) (op_currency p) FundingTest
    (op_reference p) 0 PaymentSent "bank" "bp-1" "" 0 "" "" 0 0 0 "" "".

Definition demo_outside : Outside := mkOutside
  (fun _ _ _ _ => Ok (mkPayeeRow "ws" "Supplier Ltd" "GB" "112233" "12345678" "" "" "" PayeeExactMatch "" "bank" None "" 1))
  (fun _ _ p d => (if op_minor p <=? 1000 then Ok (demo_paid_out p)
                   else Err (if op_minor p <=? 100000 then ErrOutsidePayment RuleTooMuch else ErrPartner), d)).

Lemma demo_neighbours : good_neighbours (Some demo_charger) demo_outside.
Proof.
  split.
  - intros Lc ws listing [= <-]. apply keeps_ret.
  - intros Lc c ws agent listing amount at_ judge [= <-] K. cbn. destruct (amount <? 500); [apply keeps_ret|].
    apply keeps_bind; [apply K|intros _]. apply keeps_bind; [apply keeps_desk, keeps_draw|intros u]. apply keeps_ret.
  - intros Lc renew c now_ d [= <-] [= <-]. done.
  - done.
Qed.

(** A run is its answer and what it leaves. *)
Lemma answered {A B} (p : A * B) a : p.1 = a -> p = (a, p.2).
Proof. intros <-. by destruct p. Qed.

(** ** Three schedules of agt_0 *)

Definition day3 : Z := 3 * (24 * hour).

Definition run_ctx : Ctx := mkCtx day3 (fun n => pretty n) "" "" "" zero_request.

Definition blank_diary : Diary := mkDiary pay_desk ∅.

Definition demo_run (t : Z) y := RunAgentSchedules utc_only demo_gates pay_verifier (Some demo_charger) demo_outside run_ctx t y.

(** Every day 400 µLXC to agt_2 of the other company, every week a use of a listing, every
    month five pounds to a supplier. *)
Definition daily_made : Diary := (run_tx (CreateAgentSchedule run_ctx "ws" "agt_0" "agt_2" 400 "rent" "day" 0) blank_diary).2.
Definition weekly_made : Diary :=
  (run_tx (CreateAgentListingSchedule (Some demo_charger) run_ctx "ws" "agt_0" "lst_1" 0 "" "week" hour) daily_made).2.
Definition all_made : Diary :=
  (run_tx (CreateStandingOrder demo_outside run_ctx "ws" "agt_0" "payee_1" 500 "gbp" "" "month" 0 None) weekly_made).2.

Definition all_run : Diary := (demo_run day3 all_made).2.

(** One operation, to the named diary it leaves. *)
Ltac op_step y op := apply (rtc_l _ _ y); [exact op|].

Lemma all_run_reached : rtc (schedule_op utc_only demo_gates pay_verifier (Some demo_charger) demo_outside) blank_diary all_run.
Proof.
  op_step daily_made (op_pay_agent utc_only demo_gates pay_verifier (Some demo_charger) demo_outside blank_diary run_ctx "ws" "agt_0" "agt_2" 400 "rent" "day" 0).
  op_step weekly_made (op_listing utc_only demo_gates pay_verifier (Some demo_charger) demo_outside daily_made run_ctx "ws" "agt_0" "lst_1" 0 "" "week" hour).
  op_step all_made (op_standing utc_only demo_gates pay_verifier (Some demo_charger) demo_outside weekly_made run_ctx "ws" "agt_0" "payee_1" 500 "gbp" "" "month" 0 None).
  op_step all_run (op_run utc_only demo_gates pay_verifier (Some demo_charger) demo_outside all_made run_ctx day3). apply rtc_refl.
Qed.

Lemma blank_diary_blank : blank blank_diary.
Proof. split; vm_compute; reflexivity. Qed.

(** Four days on, the daily schedule waits for the fifth tick, and has run the four. *)
Definition daily_row (next : Z) : ScheduleRow := mkSchedule "ws" "agt_0" (Some "agt_2"%string) None None 400 0 "" "rent" "day" next None true day3.

Lemma ticks_run_exactly_once_witness :
  agent_payment_schedules all_run !! "sch_4"%string = Some (daily_row (4 * (24 * hour))) /\
  exists first n, 4 * (24 * hour) = tick_at first "day" n /\
    (forall t, is_Some (agent_schedule_runs all_run !! ("sch_4"%string, t)) <-> exists m, (m < n)%nat /\ t = tick_at first "day" m).
Proof.
  assert (R : agent_payment_schedules all_run !! "sch_4"%string = Some (daily_row (4 * (24 * hour)))) by (vm_compute; reflexivity).
  split; [exact R|].
  destruct (ticks_run_exactly_once utc_only demo_gates pay_verifier (Some demo_charger) demo_outside demo_neighbours
    blank_diary all_run "sch_4" _ blank_diary_blank all_run_reached R) as (first & n & E1 & E2 & _).
  exists first, n. split; [exact E1|exact E2].
Defined.

Lemma demo_run_ok : demo_run day3 all_made = ((mkRunResult 6 0 0 1 0, []), all_run).
Proof. unfold all_run. apply (answered (demo_run day3 all_made)). vm_compute. reflexivity. Qed.

Lemma run_catches_up_witness :
  demo_run day3 all_made = ((mkRunResult 6 0 0 1 0, []), all_run) /\ backlog day3 all_made = 6 /\
  6 = Z.min 1000 (backlog day3 all_made) /\ due_tick day3 all_run = None.
Proof.
  assert (B : backlog day3 all_made = 6) by (vm_compute; reflexivity).
  pose proof (run_catches_up utc_only demo_gates pay_verifier (Some demo_charger) demo_outside demo_neighbours
    run_ctx day3 all_made _ all_run demo_run_ok) as (E & _ & D).
  split; [exact demo_run_ok|]. split; [exact B|]. split; [exact E|]. apply D. rewrite B. lia.
Defined.

(** ** A payment too large *)

Definition demo_tick (t : Z) y := runScheduleTick utc_only demo_gates pay_verifier (Some demo_charger) demo_outside run_ctx t y.

(** 3,000 µLXC a day, of an agent that has 2,000. *)
Definition large_made : Diary := (run_tx (CreateAgentSchedule run_ctx "ws" "agt_0" "agt_2" 3000 "" "day" 0) blank_diary).2.

Definition large_row : ScheduleRow := mkSchedule "ws" "agt_0" (Some "agt_2"%string) None None 3000 0 "" "" "day" 0 None true day3.

Lemma large_due : due_tick 0 large_made = Some ("sch_4"%string, large_row).
Proof. vm_compute. reflexivity. Qed.

Definition large_run : Diary := (demo_tick 0 large_made).2.

Lemma large_refused : demo_tick 0 large_made = (Ok (Some RunRefused), large_run).
Proof. unfold large_run. apply (answered (demo_tick 0 large_made)). vm_compute. reflexivity. Qed.

Lemma refused_tick_moves_nothing_witness :
  demo_tick 0 large_made = (Ok (Some RunRefused), large_run) /\
  (exists e, refused_tick e = true /\ large_run = ticked "sch_4" large_row large_row (refused_run run_ctx e) (drawn large_made)) /\
  rn_detail <$> agent_schedule_runs large_run !! ("sch_4"%string, 0) = Some (Refusal (EDesk (EWallet ErrAgentFunds))).
Proof.
  split; [exact large_refused|]. split; [|vm_compute; reflexivity].
  exact (refused_tick_moves_nothing utc_only demo_gates pay_verifier (Some demo_charger) demo_outside demo_neighbours
    run_ctx 0 large_made "sch_4" large_row large_run large_due eq_refl large_refused).
Defined.

(** ** A tick that is paid *)

Lemma daily_made_inv : wallet_inv (pretty (A:=N)) pay_keys daily_made.
Proof.
  apply (quiet_keeps _ _ pay_store); [exact pay_store_inv|]. constructor; try (vm_compute; reflexivity).
  vm_compute. done.
Qed.

Definition daily_run : Diary := (demo_tick 0 daily_made).2.

Lemma daily_paid : demo_tick 0 daily_made = (Ok (Some RunPaid), daily_run).
Proof. unfold daily_run. apply (answered (demo_tick 0 daily_made)). vm_compute. reflexivity. Qed.

Definition agt_2_row : AgentAccount := mkAgent "ws2" "Hut" "u2" "room" "" 0 None "" None.

Lemma daily_due : due_tick 0 daily_made = Some ("sch_4"%string, daily_row 0).
Proof. vm_compute. reflexivity. Qed.

Lemma paid_tick_moves_amount_witness :
  demo_tick 0 daily_made = (Ok (Some RunPaid), daily_run) /\ wallet_inv (pretty (A:=N)) pay_keys daily_run /\
  account_balance daily_run "ws2" "agent:agt_2" = 400 /\ account_balance daily_run "ws" "agent:agt_0" = 1600.
Proof.
  assert (A : exists a, agent_accounts daily_made !! "agt_2"%string = Some a /\ ag_ws a = "ws2"%string)
    by (eexists; split; vm_compute; reflexivity).
  destruct A as (a & A & Wa).
  assert (R : forall ws, lx_balance (lxc_row daily_made ws) + held_sum daily_made ws + 400 <= room)
    by (apply room_left_ok; vm_compute; reflexivity).
  pose proof (paid_tick_moves_amount utc_only demo_gates pay_verifier (Some demo_charger) demo_outside demo_neighbours
    run_ctx 0 daily_made daily_run "sch_4" (daily_row 0) "agt_2" a pay_keys daily_made_inv daily_due eq_refl eq_refl eq_refl A
    ltac:(by rewrite Wa) ltac:(done) ltac:(by apply in_i64b_spec) R daily_paid) as (W & _ & B).
  rewrite Wa in B. split; [exact daily_paid|]. split; [exact W|]. split.
  - rewrite (B "ws2" "agent:agt_2" ltac:(done))%string. vm_compute. reflexivity.
  - rewrite (B "ws" "agent:agt_0" ltac:(done))%string. vm_compute. reflexivity.
Defined.

(** ** A top-up *)

(** agt_0 below 2,500 µLXC is brought up to 4,000; it has 2,000, its company 3,000 more. *)
Definition topup_set : Store := with_agent_topups {["agt_0"%string := mkTopUp "ws" 2500 4000]} pay_store.

Lemma topup_set_inv : wallet_inv (pretty (A:=N)) pay_keys topup_set.
Proof. apply (quiet_keeps _ _ pay_store); [exact pay_store_inv|]. by constructor. Qed.

Lemma topup_row : agent_topups topup_set !! "agt_0"%string = Some (mkTopUp "ws" 2500 4000).
Proof. vm_compute. reflexivity. Qed.

Lemma topup_row_checks : topup_checks (mkTopUp "ws" 2500 4000).
Proof. split; [cbn; lia|by apply in_i64b_spec]. Qed.

Lemma topup_fires_once_witness :
  exists s', topUpAgent run_ctx "ws" "agt_0" topup_set = (Ok 2000, s') /\
    account_balance s' "ws" "agent:agt_0" = 4000 /\ topup_due s' "ws" "agt_0" = 0.
Proof.
  assert (A : exists a, agent_accounts topup_set !! "agt_0"%string = Some a /\ ag_ws a = "ws"%string)
    by (eexists; split; vm_compute; reflexivity).
  destruct A as (a & A & Wa).
  assert (C : forall t, agent_topups topup_set !! "agt_0"%string = Some t -> topup_checks t).
  { intros t H. rewrite topup_row in H. injection H as <-. exact topup_row_checks. }
  assert (D : topup_due topup_set "ws" "agt_0" = 2000) by (vm_compute; reflexivity).
  assert (P : account_balance topup_set "ws" (agentAccount "agt_0") = 2000) by (vm_compute; reflexivity).
  destruct (topup_fires_once (pretty (A:=N)) pay_keys run_ctx "ws" "agt_0" a topup_set eq_refl topup_set_inv A Wa C)
    as (s' & E & _ & _ & T & Z). rewrite D in *. exists s'. split; [exact E|]. split; [|exact Z].
  pose proof (tr_balance _ _ _ _ _ _ (T ltac:(done)) "agent:agt_0"%string ltac:(done)) as B.
  change "agent:agt_0"%string with (agentAccount "agt_0") in B |- *. rewrite B, P. reflexivity.
Defined.

(** ** Against the comments *)

(** 31 January 2026, nine in the morning. *)
Definition jan31 : Z := DateTime UTC 2026 1 31 (9 * hour).

(** A monthly schedule first run on 31 January has no tick in February: the month added
    to the date carries over into March, and from then on it runs on the 3rd. *)
Theorem monthly_schedule_skips_february :
  tick_at jan31 "month" 1 = DateTime UTC 2026 3 3 (9 * hour) /\ tick_at jan31 "month" 2 = DateTime UTC 2026 4 3 (9 * hour) /\
  (forall n t, tick_at jan31 "month" n = t -> ~ DateTime UTC 2026 2 1 0 <= t < DateTime UTC 2026 3 1 0).
Proof.
  split; [vm_compute; reflexivity|]. split; [vm_compute; reflexivity|]. intros n t <- [H1 H2].
  assert (E0 : tick_at jan31 "month" 0 < DateTime UTC 2026 2 1 0) by (vm_compute; reflexivity).
  assert (E1 : DateTime UTC 2026 3 1 0 <= tick_at jan31 "month" 1) by (vm_compute; done).
  destruct n as [|[|n]]; [lia..|]. pose proof (tick_at_mono jan31 "month" 1 (S (S n)) ltac:(lia)). lia.
Qed.

(** The payee of the daily schedule, archived in its own company; then the payer, archived
    in its own, with a top-up set after. *)
Definition payee_archived : Diary := (run_tx (on_desk (wallet (ArchiveAgent run_ctx "ws2" "agt_2"))) daily_made).2.
Definition payer_archived : Diary := (run_tx (on_desk (wallet (ArchiveAgent run_ctx "ws" "agt_0"))) daily_made).2.
Definition topped_up : Diary := (run_tx (SetAgentTopUp "ws" "agt_0" 500 1000) payer_archived).2.

Definition archived (y : Diary) (agent : string) : bool :=
  match agent_accounts y !! agent with Some a => is_some (ag_archived a) | None => false end.

(** An archived agent is still given money, against "the schedules it pays or is paid
    by stop" and "it cannot be funded": another company's schedule that pays it stays active
    and pays every tick, and a top-up set after it is archived fills it from its company's
    LXC, while funding it is refused. *)
Theorem archived_agents_still_funded :
  archived payee_archived "agt_2" = true /\
  (demo_run day3 payee_archived).1 = (mkRunResult 4 0 0 1 0, []) /\
  account_balance (demo_run day3 payee_archived).2 "ws2" "agent:agt_2" = 1600 /\
  archived topped_up "agt_0" = true /\
  FundAgent run_ctx "ws" "agt_0" 1000 topped_up = Err ErrAgentArchived /\
  (demo_run 0 topped_up).1 = (mkRunResult 0 0 1 1 0, []) /\
  account_balance (demo_run 0 topped_up).2 "ws" "agent:agt_0" = 1000.
Proof. split_and!; vm_compute; reflexivity. Qed.

(** ** A standing order on the money accounts *)

Definition order_accounts : gmap string MoneyAccount :=
  <["purse" := mkMoneyAccount "ws" "agt_0" CurrencyGBP MoneyAgent MoneyOpen "Purse" "" "acme" 1]>%string demo_accounts.

Definition order_desk : Desk :=
  with_store (with_agent_rules ∅ (dk_store pay_desk)) (with_money (mkMoneyTables order_accounts [] [] ∅ demo_payees ∅) pay_desk).

Definition order_fund : MoneyEntry :=
  mkMoneyEntry "" "ws" "payments_in" "payment_in" "in-9" FundingTest "" "Customer" "" 0
    [mkMoneyPosting "bank" (-5000) "" ""; mkMoneyPosting "purse" 5000 "" ""]%string "".

Definition order_funded : Desk := (demo_post demo_ctx order_fund order_desk).2.

Abbreviation demo_money_accounts := (outgoing utc_only demo_gates demo_bank).

Definition order_diary : Diary :=
  (run_tx (CreateStandingOrder demo_money_accounts run_ctx "ws" "agt_0" "sup" 500 "gbp" "rent" "month" 0 None) (mkDiary order_funded ∅)).2.

Definition order_sched : ScheduleRow :=
  mkSchedule "ws" "agt_0" None None (Some "sup"%string) 0 500 "GBP" "rent" "month" 0 None true day3.

(** The tick's payment, made by a run that stopped before it recorded the tick. *)
Definition order_paid : Res MoneyErr MoneyPayment * Desk :=
  PayOutside utc_only demo_gates demo_bank run_ctx "ws" (outside_payment day3 "sch_5" "sup" order_sched) order_diary.
Definition order_again : Diary := at_desk order_paid.2 order_diary.

Lemma order_due : due_tick day3 order_again = Some ("sch_5"%string, order_sched).
Proof. vm_compute. reflexivity. Qed.

Lemma order_desk_empty : no_money_yet order_desk.
Proof. split_and!; vm_compute; reflexivity. Qed.

Lemma order_fund_posted : PostMoney demo_gates demo_screener demo_ctx order_fund order_desk
  = Ok ((demo_post demo_ctx order_fund order_desk).1, order_funded).
Proof. vm_compute. reflexivity. Qed.

Lemma order_accounts_at : ma_purpose <$> money_accounts order_desk !! "purse"%string = Some MoneyAgent /\
  ma_purpose <$> money_accounts order_desk !! "bank"%string = Some MoneyPartner.
Proof. split; vm_compute; reflexivity. Qed.

Lemma order_funded_inv : bank_inv order_funded.
Proof.
  apply (BankStep_inv utc_only demo_gates demo_bank order_desk); [|exact (no_money_inv _ order_desk_empty)].
  apply (BankPost _ _ demo_bank _ demo_ctx order_fund _ _ order_fund_posted); [done|].
  intros x Hx (a & Ha & Pa & _). destruct order_accounts_at as [E1 E2].
  assert (H : mn_account x = "bank"%string \/ mn_account x = "purse"%string).
  { apply elem_of_cons in Hx as [-> | Hx]; [by left|]. apply list_elem_of_singleton in Hx as ->. by right. }
  destruct H as [H|H]; rewrite H in Ha; [rewrite Ha in E2; injection E2 as E|rewrite Ha in E1; injection E1 as E]; rewrite E in Pa; discriminate Pa.
Qed.

Lemma order_diary_inv : bank_inv order_diary.
Proof. apply (bank_same order_funded); [vm_compute; reflexivity|vm_compute; reflexivity|exact order_funded_inv]. Qed.

(** The first tick, run as it should be. *)
Definition order_run : Res SchedErr (option RunOutcome) * Diary :=
  runScheduleTick utc_only demo_gates pay_verifier None demo_money_accounts run_ctx day3 order_diary.

Lemma order_first : due_tick day3 order_diary = Some ("sch_5"%string, order_sched) /\
  payment_by_key order_diary "ws" (trimmed (tick_key "sch_5" 0)) = None.
Proof. split; vm_compute; reflexivity. Qed.

Lemma standing_order_pays_as_scheduled_witness :
  order_run = (Ok (Some RunPaid), order_run.2) /\
  (exists p partner, p ∈ money_payments order_run.2 /\ tick_payment "sch_5" "sup" order_sched order_diary partner p /\
    test_moves order_diary (lies p partner) order_run.2) /\
  money_balance order_run.2 "purse" FundingTest = 4500.
Proof.
  assert (E : order_run.1 = Ok (Some RunPaid)) by (vm_compute; reflexivity). apply answered in E.
  split; [exact E|]. split; [|vm_compute; reflexivity].
  assert (M : in_i64 (sc_minor order_sched)) by (by apply in_i64b_spec).
  destruct (standing_order_pays_as_scheduled utc_only demo_gates pay_verifier None demo_bank run_ctx day3 order_diary "sch_5" order_sched "sup" RunPaid
    order_run.2 order_diary_inv M (proj1 order_first) eq_refl (proj2 order_first) E) as (_ & p & partner & H1 & H2 & _ & H3).
  exists p, partner. exact (conj H1 (conj H2 H3)).
Defined.

(** A conversion partner that will not value the payment fails the tick, which stays the first
    due: against the comment of [runScheduleTick], "never a tick that stalls every schedule". *)
Definition unvalued_bank : Bank :=
  mkBank (Some (mkAccountPartners (fun _ => Some demo_partner) (fun _ _ _ _ => Some (Err PartnerInvalid)))) demo_screener
    (Some (fun _ _ _ _ => None)) ∅ id.

Example unvalued_order_stalls_schedules :
  let '(o, y) := runScheduleTick utc_only demo_gates pay_verifier None (outgoing utc_only demo_gates unvalued_bank) run_ctx day3 order_diary in
  o = Err (EOutside (ErrPartnerErr PartnerInvalid)) /\ due_tick day3 y = Some ("sch_5"%string, order_sched).
Proof. vm_compute. done. Qed.

Lemma tick_run_again_pays_once_witness :
  exists p' y', runScheduleTick utc_only demo_gates pay_verifier None demo_money_accounts run_ctx day3 order_again = (Ok (Some RunPaid), y') /\
    agent_schedule_runs y' !! ("sch_5"%string, 0) = Some (paid_out run_ctx (mp_id p') (mp_status p')) /\ dk_money y' = dk_money order_again.
Proof.
  assert (E : exists p, order_paid.1 = Ok p) by (vm_compute; eexists; reflexivity). destruct E as [p E].
  assert (R : agent_schedule_runs order_again !! ("sch_5"%string, sc_next order_sched) = None) by (vm_compute; reflexivity).
  assert (M : in_i64 (sc_minor order_sched)) by (by apply in_i64b_spec).
  destruct (tick_run_again_pays_once utc_only demo_gates pay_verifier None demo_bank run_ctx day3 "sch_5" order_sched "sup" order_diary p order_paid.2
    order_again run_ctx day3 order_diary_inv M (answered _ _ E) (rtc_refl _ _) order_due eq_refl R) as (p' & y' & _ & _ & H1 & H2 & H3 & _).
  exists p', y'. exact (conj H1 (conj H2 H3)).
Defined.
