(* ===== verification/RuleBook.v ===== *)
(** The rule book: how an agent's rules come to be ([internal/economy/agent_rules.go]'s
    [validate], [SetAgentRules] and [GetAgentRules], [agent_rules_history.go],
    [agent_rule_boosts.go]'s [BoostAgentRule], [agent_rule_templates.go] and
    [agent_rule_simulator.go]): saved over what was there, versioned, rolled back,
    boosted for a while, and tried out without moving money. *)
From S2P Require Import Prelude Money Tables Postings Lxc Clock Rules CreditLine Agents Reservation DebitSettle Desk Capabilities Transfers Payments.
From stdpp Require Import pretty.
Open Scope Z_scope.
Open Scope i64_scope.

Implicit Types (s : Store) (r : AgentRules).

#[export] Instance AgentRules_eq_dec : EqDecision AgentRules.
Proof. solve_decision. Defined.

Definition max_i32 : Z := 2147483647.

(** ** The book *)

(** A row of [agent_rules_versions]: the whole row of the rules as a change left them.
    Migration 0205 named its three columns in the versions before it, so every version
    names every column. *)
Record RulesVersion := mkVersionRow {
  rv_rules : AgentRules;
  rv_by : string;
  rv_change : string;
  rv_at : Z;
}.

(** The wallet's store, and the versions beside it, by agent and number. *)
Record Book := mkBook {
  bk_store : Store;
  bk_versions : gmap (string * Z) RulesVersion;
}.

Definition with_bk_store s (b : Book) : Book := mkBook s (bk_versions b).

Definition with_bk_versions (v : gmap (string * Z) RulesVersion) (b : Book) : Book := mkBook (bk_store b) v.

Inductive BookErr : Type :=
| EStore (e : WalletErr)
| ErrRulesVersionNotFound
| ErrRoomBudget             (* the room owner's plan, or no budgets to ask *)
| ErrBadSimulation.

Abbreviation BTx := (Tx BookErr Book).

Definition on_store {A} (t : WTx A) : BTx A := fun b =>
  match t (bk_store b) with
  | Ok (a, s) => Ok (a, with_bk_store s b)
  | Err e => Err (EStore e)
  end.

(** [rulesChange]: who changes the rules, and how. *)
Record rulesChange := mkChange {
  rc_by : string;
  rc_what : string;
}.

Definition rulesChangeFrom (x : rulesChange) : rulesChange :=
  if bool_decide (rc_what x = EmptyString) then mkChange (rc_by x) "set" else x.

(** ** Validation *)

Definition is_payee_id (id : string) : bool :=
  negb (bool_decide (id = EmptyString)) && bool_decide (trimmed id = id).

(** No two names are one model, none is nameless, and no cap is negative. *)
Definition model_caps_ok (l : list (string * Z)) : bool :=
  forallb (fun kv => negb (bool_decide (modelCapKey kv.1 = EmptyString)) && (0 <=? kv.2)) l
  && bool_decide (NoDup ((fun kv => modelCapKey kv.1) <$> l)).

(** The limits a rules record may set, none of them negative. *)
Definition rule_amounts r : list Z :=
  [MaxPerRequestULXC r; limitOf (HourlyLimitULXC r); DailyLimitULXC r; limitOf (WeeklyLimitULXC r);
   MonthlyLimitULXC r; ApprovalAboveULXC r; limitOf (RequestsPerMinute r); limitOf (MaxCommitmentULXC r)].

Definition hours_ok r : bool :=
  if bool_decide (ActiveFrom r = EmptyString) then bool_decide (ActiveUntil r = EmptyString)
  else
    match clockMinutes (ActiveFrom r), clockMinutes (ActiveUntil r) with
    | Some from, Some until => negb (from =? until)
    | _, _ => false
    end.

Section RuleBook.
(** [time.LoadLocation], and the rooms' budgets by the plan of their owner (a
    [RoomBudgets], [nil] when there is none). *)
Context (LoadLocation : string -> option Location) (roomBudgets : option (Store -> string -> Z -> bool)).

Definition validate r : bool :=
  forallb (fun v => 0 <=? v) (rule_amounts r)
  && model_caps_ok (map_to_list (limit_map (ModelDailyLimitsULXC r)))
  && (limitOf (RequestsPerMinute r) <=? max_i32)
  && forallb is_payee_id (limit_list (AllowedPayees r) ++ limit_list (BlockedPayees r))
  && forallb (fun id => negb (Contains (limit_list (BlockedPayees r)) id)) (limit_list (AllowedPayees r))
  && forallb (fun kv => is_payee_id kv.1 && (0 <=? kv.2)) (map_to_list (limit_map (PayeeDailyLimitsULXC r)))
  && forallb (Contains AgentLicences) (limit_list (AllowedLicences r))
  && hours_ok r
  && is_some (location LoadLocation r).

(** ** Saving *)

(** [capsJSON]: daily caps as they are saved, the zeros left out. *)
Definition capsJSON (caps : gmap string Z) (key : string -> string) : gmap string Z :=
  list_to_map ((fun kv => (key kv.1, kv.2)) <$> filter (fun kv => 0 < kv.2) (map_to_list caps)).

Definition modelLimitsJSON (caps : gmap string Z) : gmap string Z := capsJSON caps modelCapKey.

(** The row saved over [old]: a rule absent from the input keeps its value. *)
Definition saved r (old : AgentRules) : AgentRules :=
  let keep {A} (new was : option A) : option A := match new with Some v => Some v | None => was end in
  mkRules (MaxPerRequestULXC r) (keep (HourlyLimitULXC r) (HourlyLimitULXC old)) (DailyLimitULXC r)
    (keep (WeeklyLimitULXC r) (WeeklyLimitULXC old)) (MonthlyLimitULXC r) (ApprovalAboveULXC r)
    (AllowedModels r) (AllowedProviders r) (keep (AllowedListings r) (AllowedListings old))
    (ActiveFrom r) (if bool_decide (ActiveFrom r = EmptyString) then EmptyString else ActiveUntil r)
    (if bool_decide (Timezone r = EmptyString) then "UTC"%string else Timezone r) (PauseOnUnusualSpend r)
    (keep (modelLimitsJSON <$> ModelDailyLimitsULXC r) (ModelDailyLimitsULXC old))
    (keep (RequestsPerMinute r) (RequestsPerMinute old)) (keep (AllowedPayees r) (AllowedPayees old))
    (keep (BlockedPayees r) (BlockedPayees old))
    (keep ((fun m => capsJSON m (fun id => id)) <$> PayeeDailyLimitsULXC r) (PayeeDailyLimitsULXC old))
    (keep (MaxCommitmentULXC r) (MaxCommitmentULXC old)) (keep (AllowedLicences r) (AllowedLicences old))
    (keep (MaySubscribe r) (MaySubscribe old)).

(** [agentExists], and the row of an agent's rules. *)
Definition agentExists (ws agent : string) : BTx unit :=
  let! a := tx_gets (fun b => agent_accounts (bk_store b) !! agent) in
  tx_guard (match a with Some a => bool_decide (ag_ws a = ws) | None => false end) (EStore ErrAgentNotFound).

Definition checkRoomBudget (ws agent : string) (monthly : Z) : BTx unit :=
  let! s := tx_gets bk_store in
  match agent_accounts s !! agent with
  | Some a =>
      tx_guard (bool_decide (ag_ws a = ws)) (EStore ErrAgentNotFound) ;;;
      if negb (bool_decide (ag_kind a = AgentKindRoom)) then tx_ret tt
      else
        match roomBudgets with
        | None => tx_fail ErrRoomBudget
        | Some check => tx_guard (check s ws monthly) ErrRoomBudget
        end
  | None => tx_fail (EStore ErrAgentNotFound)
  end.

Definition put_rules (agent : string) r : BTx unit :=
  tx_modify (fun b => with_bk_store (with_agent_rules (<[agent := r]> (agent_rules (bk_store b))) (bk_store b)) b).

(** The latest version's number, zero when there is none. *)
Definition latest_version (b : Book) (agent : string) : Z :=
  foldr Z.max 0 ((fun kv => if bool_decide (kv.1.1 = agent) then kv.1.2 else 0) <$> map_to_list (bk_versions b)).

(** [recordRulesVersion]: the next version, unless the rules are the latest's. *)
Definition recordRulesVersion (c : Ctx) (agent : string) (x : rulesChange) : BTx unit :=
  let! b := tx_gets (fun b => b) in
  let n := latest_version b agent in
  match agent_rules (bk_store b) !! agent with
  | None => tx_ret tt
  | Some cur =>
      if bool_decide (rv_rules <$> bk_versions b !! (agent, n) = Some cur) then tx_ret tt
      else
        tx_guard (n <? max_i32) (EStore ErrBigintRange) ;;;
        tx_modify (fun b => with_bk_versions (<[(agent, n + 1) := mkVersionRow cur (rc_by x) (rc_what x) (now c)]> (bk_versions b)) b) ;;;
        on_store (revokeAgentKYA c agent "rules changed")
  end.

Definition SetAgentRules (c : Ctx) (x : rulesChange) (ws agent : string) r : BTx AgentRules :=
  tx_guard (validate r) (EStore (ErrAgentRule RefInvalidRules)) ;;;
  checkRoomBudget ws agent (MonthlyLimitULXC r) ;;;
  agentExists ws agent ;;;
  let! old := tx_gets (fun b => agent_rules (bk_store b) !! agent) in
  let row := scanAgentRules (saved r (default unset_rules old)) in
  put_rules agent row ;;;
  recordRulesVersion c agent (rulesChangeFrom x) ;;;
  tx_ret row.

(** ** History *)

(** [AgentRulesHistory]: the versions, newest first, at most 200. *)
Definition AgentRulesHistory (ws agent : string) : BTx (list (Z * RulesVersion)) :=
  agentExists ws agent ;;;
  let! b := tx_gets (fun b => b) in
  tx_ret (take 200 (omap (fun k => (fun v => (Z.of_nat k, v)) <$> bk_versions b !! (agent, Z.of_nat k))
    (reverse (seq 1 (Z.to_nat (latest_version b agent)))))).

Definition RollbackAgentRules (c : Ctx) (x : rulesChange) (ws agent : string) (version : Z) : BTx AgentRules :=
  agentExists ws agent ;;;
  let! v := tx_gets (fun b => bk_versions b !! (agent, version)) in
  match v with
  | None => tx_fail ErrRulesVersionNotFound
  | Some v =>
      put_rules agent (rv_rules v) ;;;
      recordRulesVersion c agent (mkChange (rc_by x) ("rollback to " +:+ pretty version)) ;;;
      let r := scanAgentRules (rv_rules v) in
      checkRoomBudget ws agent (MonthlyLimitULXC r) ;;;
      tx_ret r
  end.

(** ** Boosts *)

(** [BoostAgentRule]: it raises a limit the rules set, above where they set it. *)
Definition BoostAgentRule (c : Ctx) (ws agent rule : string) (value until : Z) : BTx AgentRuleBoost :=
  match boostableRules rule with
  | None => tx_fail (EStore (ErrAgentRule RefInvalidRules))
  | Some f =>
      tx_guard (0 <? value) (EStore (ErrAgentRule RefInvalidRules)) ;;;
      tx_guard (now c <? until) (EStore (ErrAgentRule RefInvalidRules)) ;;;
      let! r := on_store (GetAgentRules ws agent) in
      let current := limitOf (boost_field f r) in
      tx_guard (negb (current =? 0) && (current <? value)) (EStore (ErrAgentRule RefInvalidRules)) ;;;
      match f with BoostMonthly => checkRoomBudget ws agent value | _ => tx_ret tt end ;;;
      let boost := mkBoost rule current value until in
      tx_modify (fun b => with_bk_store (with_agent_rule_boosts (<[(agent, rule) := boost]> (agent_rule_boosts (bk_store b))) (bk_store b)) b) ;;;
      on_store (revokeAgentKYA c agent "rules changed") ;;;
      tx_ret boost
  end.

(** ** Templates *)

Definition oneLXC : Z := 1000000.

(** [ruleTemplate]: every rule named, no rule for those it does not set. *)
Definition ruleTemplate (max hourly daily weekly monthly approval : Z) (pause : bool) : AgentRules :=
  mkRules max (Some hourly) daily (Some weekly) monthly approval [] [] (Some []) "" "" "UTC" pause (Some ∅) (Some 0) (Some []) (Some [])
    (Some ∅) (Some 0) (Some []) (Some false).

Definition RuleTemplates : list (string * AgentRules) :=
  [("support-bot"%string, ruleTemplate (Z.quot oneLXC 2) (20 * oneLXC) (200 * oneLXC) 0 (4000 * oneLXC) (5 * oneLXC) true);
   ("researcher"%string, ruleTemplate (10 * oneLXC) 0 (300 * oneLXC) (1000 * oneLXC) (3000 * oneLXC) (20 * oneLXC) false);
   ("coder"%string, ruleTemplate (5 * oneLXC) (50 * oneLXC) (400 * oneLXC) 0 (6000 * oneLXC) (10 * oneLXC) true)].

Definition RuleTemplateByID (id : string) : option AgentRules :=
  snd <$> List.find (fun t => bool_decide (t.1 = id)) RuleTemplates.

(** ** Trying a request out *)

Record SimulatedRequest := mkSimulated {
  si_amount : Z;
  si_model : string;
  si_provider : string;
  si_payee : option Payee;
  si_licence : option Commitment;
  si_at : option Z;
}.

Inductive Verdict : Type := VerdictAllowed | VerdictApproval | VerdictRefused (why : WalletErr).

Record RuleSimulation := mkSimulation {
  sm_verdict : Verdict;
  sm_amount : Z;
  sm_at : Z;
  sm_balance : Z;
}.

Definition payee_kinds : list string := ["agent"; "listing"; "company"; "merchant"]%string.

(** A payee it can judge, and a licence, which is to a listing. *)
Definition simulable (i : SimulatedRequest) : bool :=
  (0 <=? si_amount i)
  && match si_payee i with
     | Some p => Contains payee_kinds (py_kind p) && negb (bool_decide (py_id p = EmptyString))
     | None => true
     end
  && match si_licence i with
     | Some l =>
         match si_payee i with Some p => bool_decide (py_kind p = "listing"%string) | None => false end
         && Contains ["buy"; "rent"; "subscribe"]%string (cm_kind l)
         && (bool_decide (cm_licence l = "personal"%string) || Contains AgentLicences (cm_licence l))
     | None => true
     end.

Definition no_payee : Payee := mkPayee "" "" "".
Definition no_commitment : Commitment := mkCommitment "" "" false 0.

Definition simulated_request (i : SimulatedRequest) (at_ : Z) (fingerprint : string) : AgentRequest :=
  mkRequest (si_model i) (si_provider i) fingerprint (Some at_) (is_some (si_payee i))
    (match si_payee i with Some p => if bool_decide (py_kind p = "listing"%string) then py_id p else EmptyString | None => EmptyString end)
    (default no_payee (si_payee i)) ""
    (match si_licence i with Some l => mkCommitment (cm_kind l) (cm_licence l) false (si_amount i) | None => no_commitment end).

(** [SimulateAgentRules]: the judgement itself, in a transaction always rolled back. *)
Definition SimulateAgentRules (c : Ctx) (ws agent : string) (i : SimulatedRequest) : BTx RuleSimulation :=
  let at_ := default (now c) (si_at i) in
  tx_guard (simulable i) ErrBadSimulation ;;;
  agentExists ws agent ;;;
  let! balance := on_store (accountBalance ws (agentAccount agent)) in
  let! s := tx_gets bk_store in
  let req := simulated_request i at_ ("simulated:" +:+ uuid c (uuid_draws s)) in
  let answer v := tx_ret (mkSimulation v (si_amount i) at_ balance) in
  match enforceAgentRules LoadLocation (WithAgentRequest c req) ws agent (si_amount i) "simulated" s with
  | Ok _ => answer VerdictAllowed
  | Err (ErrApprovalRequired _ _ _ _) => answer VerdictApproval
  | Err (ErrAgentRule why) => answer (VerdictRefused (ErrAgentRule why))
  | Err ErrAgentRequestRate => answer (VerdictRefused ErrAgentRequestRate)
  | Err e => tx_fail (EStore e)
  end.
End RuleBook.

(** ** Well-formed rules *)

Section Sound.
Context (LoadLocation : string -> option Location) (roomBudgets : option (Store -> string -> Z -> bool)).

(** What every stored row of rules is: every column named, no amount negative, each cap
    positive and under the name it is judged by, payees with ids, licences an agent may
    hold, hours that can be told and a zone that loads. *)
Record rules_wf r : Prop := mkRulesWf {
  wf_named : scanAgentRules r = r;
  wf_amounts : Forall (fun v => 0 <= v) (rule_amounts r);
  wf_rpm : limitOf (RequestsPerMinute r) <= max_i32;
  wf_models : map_Forall (fun k v => k <> EmptyString /\ (exists m, k = modelCapKey m) /\ 0 < v) (limit_map (ModelDailyLimitsULXC r));
  wf_payees : Forall (fun id => is_payee_id id = true) (limit_list (AllowedPayees r) ++ limit_list (BlockedPayees r));
  wf_caps : map_Forall (fun id v => is_payee_id id = true /\ 0 < v) (limit_map (PayeeDailyLimitsULXC r));
  wf_licences : Forall (fun l => l ∈ AgentLicences) (limit_list (AllowedLicences r));
  wf_hours : hours_ok r = true;
  wf_zone : Timezone r <> EmptyString /\ is_Some (LoadLocation (Timezone r));
}.

Lemma scan_scan r : scanAgentRules (scanAgentRules r) = scanAgentRules r.
Proof. done. Qed.

(** The rules of an agent with none, read back. *)
Lemma unset_wf : is_Some (LoadLocation "UTC") -> rules_wf unset_rules.
Proof.
  intros HU. split; try done; cbn.
  - unfold rule_amounts. cbn. rewrite !Forall_cons. split_and!; (lia || by constructor).
Qed.

Lemma capsJSON_lookup caps key k v : capsJSON caps key !! k = Some v -> exists n, k = key n /\ caps !! n = Some v /\ 0 < v.
Proof.
  unfold capsJSON. intros H%elem_of_list_to_map_2. apply list_elem_of_fmap in H as ([n w] & [= -> ->] & H).
  apply list_elem_of_filter in H as [Hw H]. apply elem_of_map_to_list in H. by exists n.
Qed.

(** Saving valid rules over well-formed ones leaves well-formed ones. *)
Lemma saved_wf r old : is_Some (LoadLocation "UTC") -> validate LoadLocation r = true -> rules_wf old ->
  rules_wf (scanAgentRules (saved r old)).
Proof.
  intros HU Hv Ho. unfold validate in Hv. rewrite !andb_true_iff in Hv. destruct Hv as ((((((((V1 & V2) & V3) & V4) & _) & V6) & V7) & V8) & V9).
  rewrite forallb_forall in V1, V4, V6, V7. destruct Ho as [_ O1 O2 O3 O4 O5 O6 _ _].
  unfold rule_amounts in V1, O1. rewrite !Forall_cons in O1. destruct O1 as (A1 & A2 & A3 & A4 & A5 & A6 & A7 & A8 & _).
  assert (P : forall v, List.In v (rule_amounts r) -> 0 <= v) by (intros v Hi; apply Z.leb_le, V1, Hi).
  unfold rule_amounts in P. cbn [List.In] in P.
  split; cbn [saved scanAgentRules MaxPerRequestULXC HourlyLimitULXC DailyLimitULXC WeeklyLimitULXC MonthlyLimitULXC ApprovalAboveULXC RequestsPerMinute
    MaxCommitmentULXC ModelDailyLimitsULXC PayeeDailyLimitsULXC AllowedPayees BlockedPayees AllowedLicences Timezone ActiveFrom ActiveUntil].
  - done.
  - unfold rule_amounts. cbn. repeat constructor; try (apply P; tauto).
    + destruct (HourlyLimitULXC r) as [v|]; [apply P; cbn; tauto|exact A2].
    + destruct (WeeklyLimitULXC r) as [v|]; [apply P; cbn; tauto|exact A4].
    + destruct (RequestsPerMinute r) as [v|]; [apply P; cbn; tauto|exact A7].
    + destruct (MaxCommitmentULXC r) as [v|]; [apply P; cbn; tauto|exact A8].
  - cbn. destruct (RequestsPerMinute r); cbn in *; [lia|exact O2].
  - cbn. destruct (ModelDailyLimitsULXC r) as [l|]; [|exact O3]. cbn in *. intros k v Hk. unfold modelLimitsJSON in Hk.
    apply capsJSON_lookup in Hk as (n & -> & Hn & Hp). unfold model_caps_ok in V2. apply andb_prop in V2 as [V2 _]. rewrite forallb_forall in V2.
    specialize (V2 (n, v) ltac:(by apply list_elem_of_In, elem_of_map_to_list)). cbn in V2. rewrite andb_true_iff, negb_true_iff in V2.
    destruct V2 as [V2%bool_decide_eq_false _]. eauto.
  - cbn. apply Forall_app in O4 as [O4 O4']. apply Forall_app. split.
    + destruct (AllowedPayees r) as [l|]; [|exact O4]. cbn. apply Forall_forall. intros id Hid. apply V4, in_app_iff. left. by apply list_elem_of_In.
    + destruct (BlockedPayees r) as [l|]; [|exact O4']. cbn. apply Forall_forall. intros id Hid. apply V4, in_app_iff. right. by apply list_elem_of_In.
  - cbn. destruct (PayeeDailyLimitsULXC r) as [l|]; [|exact O5]. cbn in *. intros k v Hk. apply capsJSON_lookup in Hk as (n & -> & Hn & Hp).
    specialize (V6 (n, v) ltac:(by apply list_elem_of_In, elem_of_map_to_list)). apply andb_prop in V6 as [V6 _]. done.
  - cbn. destruct (AllowedLicences r) as [l|]; [|exact O6]. cbn in *. apply Forall_forall. intros x Hx.
    specialize (V7 x ltac:(by apply list_elem_of_In)). by apply bool_decide_eq_true in V7.
  - unfold hours_ok in *. change (ActiveFrom (scanAgentRules (saved r old))) with (ActiveFrom r).
    change (ActiveUntil (scanAgentRules (saved r old))) with (if bool_decide (ActiveFrom r = EmptyString) then EmptyString else ActiveUntil r). destruct (bool_decide (ActiveFrom r = EmptyString)); [by apply bool_decide_true|done].
  - cbn. unfold location in V9. destruct (bool_decide_reflect (Timezone r = EmptyString)) as [E|E]; [done|].
    split; [done|]. destruct (LoadLocation (Timezone r)); [eauto|done].
Qed.

(** ** The latest version *)

Definition version_numbers (b : Book) (agent : string) : list Z :=
  (fun kv => if bool_decide (kv.1.1 = agent) then kv.1.2 else 0) <$> map_to_list (bk_versions b).

Lemma max_fold l : 0 <= foldr Z.max 0 l /\ (forall x, x ∈ l -> x <= foldr Z.max 0 l) /\ (foldr Z.max 0 l = 0 \/ foldr Z.max 0 l ∈ l).
Proof.
  induction l as [|x l (H1 & H2 & H3)]; cbn [foldr]; [split_and!; [done|by intros x Hx%not_elem_of_nil|by left]|].
  split_and!; [lia| |].
  - intros y [->|Hy]%elem_of_cons; [lia|]. specialize (H2 y Hy). lia.
  - destruct (Z.max_spec x (foldr Z.max 0 l)) as [[_ E]|[_ E]]; rewrite E; [|right; left].
    destruct H3 as [H3|H3]; [by left|right; by right].
Qed.

Lemma latest_spec b agent : 0 <= latest_version b agent /\
  (forall n, is_Some (bk_versions b !! (agent, n)) -> n <= latest_version b agent) /\
  (latest_version b agent = 0 \/ is_Some (bk_versions b !! (agent, latest_version b agent))).
Proof.
  unfold latest_version. fold (version_numbers b agent). destruct (max_fold (version_numbers b agent)) as (H1 & H2 & H3).
  split_and!; [done| |].
  - intros n [v Hv]. apply H2, list_elem_of_fmap. exists ((agent, n), v). cbn. rewrite bool_decide_true by done. split; [done|].
    by apply elem_of_map_to_list.
  - destruct H3 as [H3|H3]; [by left|]. apply list_elem_of_fmap in H3 as ([[a k] v] & E & Hin). cbn in E. apply elem_of_map_to_list in Hin.
    destruct (bool_decide_reflect (a = agent)) as [->|]; [right; rewrite E; by exists v|by left].
Qed.

(** The number the latest version has is the only one that fits. *)
Lemma latest_is b agent n : 0 <= n -> (forall k, is_Some (bk_versions b !! (agent, k)) -> k <= n) ->
  (n = 0 \/ is_Some (bk_versions b !! (agent, n))) -> latest_version b agent = n.
Proof.
  intros H0 H1 H2. destruct (latest_spec b agent) as (L0 & L1 & L2).
  destruct H2 as [->|H2], L2 as [L2|L2]; try specialize (L1 _ H2); try specialize (H1 _ L2); lia.
Qed.

(** ** The invariant *)

(** Every row and version well-formed, versions numbered from 1 without a gap, the latest
    the rules in force, boosts above a limit that was set. *)
Record book_ok (b : Book) : Prop := mkBookOk {
  bo_rows : forall agent r, agent_rules (bk_store b) !! agent = Some r -> rules_wf r;
  bo_versions : forall k v, bk_versions b !! k = Some v -> rules_wf (rv_rules v) /\ 1 <= k.2;
  bo_dense : forall agent n, 1 <= n <= latest_version b agent -> is_Some (bk_versions b !! (agent, n));
  bo_latest : forall agent, rv_rules <$> bk_versions b !! (agent, latest_version b agent) = agent_rules (bk_store b) !! agent;
  bo_boosts : forall k x, agent_rule_boosts (bk_store b) !! k = Some x -> 0 < bo_raised_from x < bo_value x /\ k.2 = bo_rule x;
}.

(** A store whose agents have no rules yet. *)
Record new_book (b : Book) : Prop := mkNewBook {
  nb_rules : agent_rules (bk_store b) = ∅;
  nb_boosts : agent_rule_boosts (bk_store b) = ∅;
  nb_versions : bk_versions b = ∅;
}.

Lemma new_book_ok b : new_book b -> book_ok b.
Proof.
  intros [E1 E2 E3]. assert (L0 : forall agent, latest_version b agent = 0).
  { intros agent. apply latest_is; [done| |by left]. intros k. rewrite E3, lookup_empty. by intros []. }
  split; rewrite ?E1, ?E2, ?E3; try (intros *; by rewrite lookup_empty).
  - intros agent n. rewrite L0. lia.
Qed.

(** What the book reads of its store. *)
Lemma book_ok_store b s : book_ok b -> agent_rules s = agent_rules (bk_store b) ->
  agent_rule_boosts s = agent_rule_boosts (bk_store b) -> book_ok (with_bk_store s b).
Proof.
  intros [B1 B2 B3 B4 B5] E1 E2. split; cbn [bk_store bk_versions with_bk_store]; rewrite ?E1, ?E2; try done.
Qed.

(** ** What a change of the rules does *)

(** After rules are put and recorded: the row, the version it makes if it makes one, and
    everything else as it was. *)
Record recorded (agent : string) r (by_ what : string) (at_ : Z) (b b' : Book) : Prop := mkRecorded {
  re_rules : agent_rules (bk_store b') = <[agent := r]> (agent_rules (bk_store b));
  re_boosts : agent_rule_boosts (bk_store b') = agent_rule_boosts (bk_store b);
  re_accounts : agent_accounts (bk_store b') = agent_accounts (bk_store b);
  re_versions : bk_versions b' =
    if decide (rv_rules <$> bk_versions b !! (agent, latest_version b agent) = Some r) then bk_versions b
    else <[(agent, latest_version b agent + 1) := mkVersionRow r by_ what at_]> (bk_versions b);
}.

Lemma put_record_ok c agent r x b v b' :
  tx_bind (put_rules agent r) (fun _ => recordRulesVersion c agent x) b = Ok (v, b') -> recorded agent r (rc_by x) (rc_what x) (now c) b b'.
Proof.
  intros H. unfold put_rules in H. rewrite tx_modify_bind in H. unfold recordRulesVersion in H. rewrite tx_gets_bind in H.
  cbn [bk_store with_bk_store] in H. change (agent_rules (with_agent_rules ?m ?s)) with m in H. rewrite lookup_insert_eq in H.
  change (latest_version (with_bk_store ?s b) agent) with (latest_version b agent) in H. cbn [bk_versions with_bk_store] in H.
  destruct (bool_decide_reflect (rv_rules <$> bk_versions b !! (agent, latest_version b agent) = Some r)) as [E|E].
  - apply tx_ret_ok in H as [_ ->]. split; try done. cbn [bk_versions with_bk_store]. by rewrite decide_True.
  - apply tx_bind_ok in H as (? & b1 & H1 & H). apply tx_guard_ok in H1 as [_ ->]. rewrite tx_modify_bind in H.
    unfold on_store, revokeAgentKYA, tx_modify in H. injection H as _ <-. split; try done. cbn [bk_versions with_bk_store with_bk_versions]. by rewrite decide_False.
Qed.

Lemma recorded_latest agent r by_ what at_ b b' : recorded agent r by_ what at_ b b' ->
  (forall a, a <> agent -> latest_version b' a = latest_version b a) /\
  latest_version b' agent = (if decide (rv_rules <$> bk_versions b !! (agent, latest_version b agent) = Some r) then latest_version b agent else latest_version b agent + 1).
Proof.
  intros [_ _ _ E]. destruct (decide _) as [D|D].
  - unfold latest_version. by rewrite E.
  - split.
    + intros a Ha. destruct (latest_spec b a) as (L0 & L1 & L2). apply latest_is; [done| |].
      * intros k. rewrite E, lookup_insert_ne by congruence. apply L1.
      * rewrite E, lookup_insert_ne by congruence. exact L2.
    + destruct (latest_spec b agent) as (L0 & L1 & L2). apply latest_is; [lia| |].
      * intros k. rewrite E. destruct (decide (k = latest_version b agent + 1)) as [->|Hk]; [lia|]. rewrite lookup_insert_ne by congruence. intros Hs. specialize (L1 k Hs). lia.
      * right. rewrite E, lookup_insert_eq. eauto.
Qed.

Lemma recorded_ok agent r by_ what at_ b b' : recorded agent r by_ what at_ b b' -> rules_wf r -> book_ok b -> book_ok b'.
Proof.
  intros HR Hw [B1 B2 B3 B4 B5]. destruct (recorded_latest _ _ _ _ _ _ _ HR) as [L1 L2]. destruct HR as [E1 E2 _ E4].
  destruct (latest_spec b agent) as (P0 & P1 & _). split.
  - intros a q. rewrite E1. intros [[<- <-]|[_ H]]%lookup_insert_Some; [done|by eapply B1].
  - intros k v. rewrite E4. destruct (decide _); [apply B2|]. intros [[<- <-]|[_ H]]%lookup_insert_Some; [|by apply B2]. cbn. split; [done|lia].
  - intros a n Hn. rewrite E4. destruct (decide (a = agent)) as [->|Ha]; [|rewrite L1 in Hn by done; destruct (decide _); [by apply B3|]; rewrite lookup_insert_ne by congruence; by apply B3].
    rewrite L2 in Hn. destruct (decide _); [by apply B3|]. destruct (decide (n = latest_version b agent + 1)) as [->|]; [rewrite lookup_insert_eq; eauto|].
    rewrite lookup_insert_ne by congruence. apply B3. lia.
  - intros a. rewrite E4, E1. destruct (decide (a = agent)) as [->|Ha].
    + rewrite L2, lookup_insert_eq. destruct (decide _) as [D|D]; [done|]. by rewrite lookup_insert_eq.
    + rewrite L1, lookup_insert_ne by congruence. destruct (decide _); [apply B4|]. rewrite lookup_insert_ne by congruence. apply B4.
  - rewrite E2. apply B5.
Qed.

Lemma checkRoomBudget_ok ws agent z b v b' : checkRoomBudget roomBudgets ws agent z b = Ok (v, b') ->
  b' = b /\ exists a, agent_accounts (bk_store b) !! agent = Some a /\ ag_ws a = ws.
Proof.
  intros H. unfold checkRoomBudget in H. rewrite tx_gets_bind in H. destruct (agent_accounts (bk_store b) !! agent) as [a|]; [|by apply tx_fail_ok in H].
  apply tx_bind_ok in H as (? & b1 & H1 & H). apply tx_guard_ok in H1 as [Hw%bool_decide_eq_true ->].
  assert (b' = b) as ->; [|eauto]. destruct (negb _); [by apply tx_ret_ok in H as [_ ->]|]. destruct roomBudgets; [by apply tx_guard_ok in H as [_ ->]|by apply tx_fail_ok in H].
Qed.

Lemma agentExists_ok ws agent b v b' : agentExists ws agent b = Ok (v, b') <-> v = tt /\ b' = b /\ exists a, agent_accounts (bk_store b) !! agent = Some a /\ ag_ws a = ws.
Proof.
  unfold agentExists. rewrite tx_gets_bind, tx_guard_ok. destruct v, (agent_accounts (bk_store b) !! agent) as [a|]; [|naive_solver].
  rewrite bool_decide_eq_true. naive_solver.
Qed.

Lemma SetAgentRules_ok c x ws agent r b row b' : SetAgentRules LoadLocation roomBudgets c x ws agent r b = Ok (row, b') ->
  validate LoadLocation r = true /\ row = scanAgentRules (saved r (default unset_rules (agent_rules (bk_store b) !! agent))) /\
  recorded agent row (rc_by x) (rc_what (rulesChangeFrom x)) (now c) b b'.
Proof.
  intros H. unfold SetAgentRules in H. apply tx_bind_ok in H as (? & b1 & H1 & H). apply tx_guard_ok in H1 as [Hv ->].
  apply tx_bind_ok in H as (? & b1 & H1 & H). apply checkRoomBudget_ok in H1 as [-> _].
  apply tx_bind_ok in H as (? & b1 & H1 & H). apply agentExists_ok in H1 as (_ & -> & _). rewrite tx_gets_bind in H. cbn zeta in H.
  apply tx_bind_ok in H as (? & b1 & H1 & H). apply tx_bind_ok in H as (? & b2 & H2 & H). apply tx_ret_ok in H as [-> ->].
  split; [done|]. split; [done|].
  replace (rc_by x) with (rc_by (rulesChangeFrom x)) by (unfold rulesChangeFrom; by case_bool_decide). eapply put_record_ok.
  apply tx_bind_ok. eauto.
Qed.

Lemma RollbackAgentRules_ok c x ws agent n b row b' : RollbackAgentRules roomBudgets c x ws agent n b = Ok (row, b') ->
  exists v, bk_versions b !! (agent, n) = Some v /\ row = scanAgentRules (rv_rules v) /\
    recorded agent (rv_rules v) (rc_by x) ("rollback to " +:+ pretty n) (now c) b b'.
Proof.
  intros H. unfold RollbackAgentRules in H. apply tx_bind_ok in H as (? & b1 & H1 & H). apply agentExists_ok in H1 as (_ & -> & _).
  rewrite tx_gets_bind in H. destruct (bk_versions b !! (agent, n)) as [v|]; [|by apply tx_fail_ok in H]. exists v. split; [done|].
  apply tx_bind_ok in H as (? & b1 & H1 & H). apply tx_bind_ok in H as (? & b2 & H2 & H). cbn zeta in H.
  apply tx_bind_ok in H as (? & b3 & H3 & H). apply checkRoomBudget_ok in H3 as [-> _]. apply tx_ret_ok in H as [-> ->].
  split; [done|]. eapply (put_record_ok c agent (rv_rules v) (mkChange (rc_by x) _)). apply tx_bind_ok. eauto.
Qed.

Lemma on_store_ok {A} (t : WTx A) b a b' : on_store t b = Ok (a, b') <-> exists s, t (bk_store b) = Ok (a, s) /\ b' = with_bk_store s b.
Proof.
  unfold on_store. destruct (t (bk_store b)) as [[x s]|e]; split; [|naive_solver|done|naive_solver]. intros [= <- <-]. eauto.
Qed.

Lemma GetAgentRules_ok ws agent s r s' : GetAgentRules ws agent s = Ok (r, s') ->
  s' = s /\ r = match agent_rules s !! agent with Some r => scanAgentRules r | None => unset_rules end.
Proof.
  intros H. unfold GetAgentRules in H. rewrite tx_gets_bind in H. apply tx_bind_ok in H as (? & s1 & H1 & H). apply tx_guard_ok in H1 as [_ ->].
  rewrite tx_gets_bind in H. by apply tx_ret_ok in H as [-> ->].
Qed.

Lemma field_nonneg f r : Forall (fun v => 0 <= v) (rule_amounts r) -> 0 <= limitOf (boost_field f r).
Proof. unfold rule_amounts. rewrite !Forall_cons. intros (A1 & A2 & A3 & A4 & A5 & A6 & A7 & A8 & _). by destruct f. Qed.

Lemma BoostAgentRule_ok c ws agent rule value until b x b' : BoostAgentRule roomBudgets c ws agent rule value until b = Ok (x, b') ->
  book_ok b -> is_Some (LoadLocation "UTC") ->
  exists s, b' = with_bk_store s b /\ agent_rules s = agent_rules (bk_store b) /\
    agent_rule_boosts s = <[(agent, rule) := x]> (agent_rule_boosts (bk_store b)) /\
    0 < bo_raised_from x < bo_value x /\ bo_rule x = rule.
Proof.
  intros H Hb HU. unfold BoostAgentRule in H. destruct (boostableRules rule) as [f|]; [|by apply tx_fail_ok in H].
  apply tx_bind_ok in H as (? & b1 & H1 & H). apply tx_guard_ok in H1 as [Hv ->].
  apply tx_bind_ok in H as (? & b1 & H1 & H). apply tx_guard_ok in H1 as [_ ->].
  apply tx_bind_ok in H as (r & b1 & H1 & H). apply on_store_ok in H1 as (s1 & H1 & ->). apply GetAgentRules_ok in H1 as [-> Hr]. cbn zeta in H.
  apply tx_bind_ok in H as (? & b1 & H1 & H). apply tx_guard_ok in H1 as [[Hc1%negb_true_iff Hc2]%andb_prop ->].
  apply tx_bind_ok in H as (? & b1 & H1 & H). assert (b1 = with_bk_store (bk_store b) b) as -> by (destruct f; first [by apply checkRoomBudget_ok in H1 as [-> _] | by apply tx_ret_ok in H1 as [_ ->]]).
  rewrite tx_modify_bind in H. apply tx_bind_ok in H as (? & b1 & H2 & H). apply on_store_ok in H2 as (s2 & H2 & ->). apply tx_ret_ok in H as [-> ->].
  unfold revokeAgentKYA, tx_modify in H2. injection H2 as _ <-. eexists. split; [reflexivity|]. split; [done|]. split; [done|]. split; [|done]. cbn [bo_raised_from bo_value].
  assert (0 <= limitOf (boost_field f r)); [|lia]. apply field_nonneg. subst r.
  destruct (agent_rules (bk_store b) !! agent) as [q|] eqn:E; [|apply (wf_amounts _ (unset_wf HU))].
  pose proof (bo_rows b Hb agent q E) as W. rewrite (wf_named _ W). apply W.
Qed.

(** ** The book, step by step *)

Inductive BookStep : Book -> Book -> Prop :=
| StepStore b s : agent_rules s = agent_rules (bk_store b) -> agent_rule_boosts s = agent_rule_boosts (bk_store b) ->
    BookStep b (with_bk_store s b)
| StepSet c x ws agent r row b b' : SetAgentRules LoadLocation roomBudgets c x ws agent r b = Ok (row, b') -> BookStep b b'
| StepRollback c x ws agent n row b b' : RollbackAgentRules roomBudgets c x ws agent n b = Ok (row, b') -> BookStep b b'
| StepBoost c ws agent rule value until x b b' : BoostAgentRule roomBudgets c ws agent rule value until b = Ok (x, b') -> BookStep b b'
| StepEndBoost c ws agent rule v b b' : on_store (EndAgentBoost c ws agent rule) b = Ok (v, b') -> BookStep b b'.

Lemma step_ok b b' : is_Some (LoadLocation "UTC") -> BookStep b b' -> book_ok b -> book_ok b'.
Proof.
  intros HU H Hb. destruct H as [b s E1 E2|c x ws agent r row b b' H|c x ws agent n row b b' H|c ws agent rule value until x b b' H|c ws agent rule v b b' H].
  - by apply book_ok_store.
  - apply SetAgentRules_ok in H as (Hv & -> & HR). eapply recorded_ok; [exact HR| |done]. apply saved_wf; [done..|].
    destruct (agent_rules (bk_store b) !! agent) as [q|] eqn:E; [by eapply bo_rows|by apply unset_wf].
  - apply RollbackAgentRules_ok in H as (v & Hv & _ & HR). eapply recorded_ok; [exact HR| |done]. by apply (bo_versions b Hb (agent, n)).
  - apply BoostAgentRule_ok in H as (s & -> & E1 & E2 & Hx & Hr); [|done..]. destruct Hb as [B1 B2 B3 B4 B5].
    split; cbn [bk_store bk_versions with_bk_store]; rewrite ?E1, ?E2; try done.
    intros k y [[<- <-]|[_ Hk]]%lookup_insert_Some; [done|by apply B5].
  - apply on_store_ok in H as (s & H & ->). assert (E : agent_rules s = agent_rules (bk_store b) /\ agent_rule_boosts s = delete (agent, rule) (agent_rule_boosts (bk_store b))).
    { unfold EndAgentBoost in H. rewrite !tx_gets_bind in H.
      destruct (agent_rule_boosts (bk_store b) !! (agent, rule)) as [x|], (agent_accounts (bk_store b) !! agent) as [a|]; try by apply tx_fail_ok in H.
      destruct (_ && _); [|by apply tx_fail_ok in H]. rewrite tx_modify_bind in H. unfold revokeAgentKYA, tx_modify in H. by injection H as _ <-. }
    destruct E as [E1 E2], Hb as [B1 B2 B3 B4 B5]. split; cbn [bk_store bk_versions with_bk_store]; rewrite ?E1, ?E2; try done.
    intros k y [_ Hk]%lookup_delete_Some. by apply B5.
Qed.

Lemma steps_ok b b' : is_Some (LoadLocation "UTC") -> rtc BookStep b b' -> book_ok b -> book_ok b'.
Proof. intros HU H. induction H; [done|]. intros Hb. by apply IHrtc, (step_ok _ _ HU H). Qed.

(** Boosts keep the rules such that every movement can be judged by them. *)
Definition judgeable r : Prop :=
  Forall (fun v => 0 <= v) (rule_amounts r) /\ hours_ok r = true /\ is_Some (location LoadLocation r).

Lemma boost_judgeable r x : judgeable r -> 0 < bo_value x -> judgeable (apply_boost r x).
Proof.
  intros (A & H & Z0) Hx. unfold apply_boost. destruct (boostableRules (bo_rule x)) as [f|]; [|done].
  destruct (boost_field f r) as [v|] eqn:Ef; [|done]. destruct (_ && _); [|done].
  split; [|by destruct f]. unfold rule_amounts in *. rewrite !Forall_cons in *. destruct A as (A1 & A2 & A3 & A4 & A5 & A6 & A7 & A8 & A9).
  destruct f; cbn; repeat (split; [first [done|lia]|]); done.
Qed.

Lemma boosts_judgeable l : forall r, judgeable r -> Forall (fun x => 0 < bo_value x) l -> judgeable (applyBoosts r l).
Proof.
  unfold applyBoosts. induction l as [|x l IH]; intros r Hr Hl; [done|]. apply Forall_cons in Hl as [Hx Hl]. apply IH; [|done]. by apply boost_judgeable.
Qed.
End Sound.

(** ** What the rule book promises *)

(** C15: whatever is saved, rolled back, boosted or ended, in any order, an agent's rules
    stay well-formed: every stored row, and every version of it, names every column, sets
    no negative amount, caps only models and payees it can name, lists only licences an
    agent may hold, and has hours that can be told in a zone that loads. Its versions are
    numbered from 1 without a gap and the latest is the rules in force; a boost stands
    above a limit that was set; so the rules in force at any instant, boosts included,
    can be judged. *)
Theorem rules_stay_well_formed LoadLocation roomBudgets b0 b :
  is_Some (LoadLocation "UTC"%string) -> new_book b0 -> rtc (BookStep LoadLocation roomBudgets) b0 b ->
  (forall agent r, agent_rules (bk_store b) !! agent = Some r -> rules_wf LoadLocation r) /\
  (forall agent n, 1 <= n <= latest_version b agent <-> exists v, bk_versions b !! (agent, n) = Some v /\ rules_wf LoadLocation (rv_rules v)) /\
  (forall agent, rv_rules <$> bk_versions b !! (agent, latest_version b agent) = agent_rules (bk_store b) !! agent) /\
  (forall k x, agent_rule_boosts (bk_store b) !! k = Some x -> 0 < bo_raised_from x < bo_value x) /\
  (forall agent at_ r, agentRulesInForce (bk_store b) agent at_ = Some r -> judgeable LoadLocation r).
Proof.
  intros HU H0 Hs. pose proof (steps_ok LoadLocation roomBudgets b0 b HU Hs (new_book_ok LoadLocation b0 H0)) as Hb.
  split; [apply Hb|]. split; [|split; [apply Hb|split]].
  - intros agent n. split.
    + intros Hn. destruct (bo_dense _ b Hb agent n Hn) as [v Hv]. exists v. split; [done|]. by apply (bo_versions _ b Hb (agent, n)).
    + intros (v & Hv & _). split; [by apply (bo_versions _ b Hb (agent, n) v)|]. apply latest_spec. eauto.
  - intros k x Hk. by apply (bo_boosts _ b Hb k).
  - intros agent at_ r. unfold agentRulesInForce. intros (q & Hq & ->)%fmap_Some_1. pose proof (bo_rows _ b Hb agent q Hq) as W.
    apply boosts_judgeable.
    + rewrite (wf_named _ _ W). destruct W as [_ W1 _ _ _ _ _ W2 [W3 W4]]. split; [done|]. split; [done|]. unfold location. by rewrite bool_decide_false.
    + apply Forall_forall. intros x Hx. unfold agentBoosts in Hx. apply list_elem_of_omap in Hx as ([k y] & Hin & E).
      apply elem_of_map_to_list in Hin. destruct (_ && _); [|done]. injection E as <-. cbn in *. pose proof (bo_boosts _ b Hb k _ Hin). lia.
Qed.

(** C39: rolling the rules back to a version puts back exactly the rules it recorded, and
    the history only grows: every earlier version is kept, and the rollback is the next
    version unless the rules were those already. Rolling back to the version that was the
    latest undoes it, unless the room's budget refuses. *)
Theorem rollback_restores_rules LoadLocation roomBudgets c x ws agent n b row b' :
  book_ok LoadLocation b -> RollbackAgentRules roomBudgets c x ws agent n b = Ok (row, b') ->
  (exists v, bk_versions b !! (agent, n) = Some v /\ rv_rules v = row) /\
  agent_rules (bk_store b') !! agent = Some row /\
  (forall k v, bk_versions b !! k = Some v -> bk_versions b' !! k = Some v) /\
  latest_version b' agent = (if decide (agent_rules (bk_store b) !! agent = Some row) then latest_version b agent else latest_version b agent + 1) /\
  forall c' x' row' b'', RollbackAgentRules roomBudgets c' x' ws agent (latest_version b agent) b' = Ok (row', b'') ->
    agent_rules (bk_store b'') !! agent = agent_rules (bk_store b) !! agent.
Proof.
  intros Hb H. apply (RollbackAgentRules_ok LoadLocation) in H as (v & Hv & -> & HR). pose proof (bo_versions LoadLocation b Hb _ _ Hv) as [Wv _].
  rewrite (wf_named LoadLocation _ Wv). destruct (recorded_latest _ _ _ _ _ _ _ HR) as [_ L]. rewrite (bo_latest LoadLocation b Hb) in L.
  assert (K : forall k w, bk_versions b !! k = Some w -> bk_versions b' !! k = Some w).
  { intros k w Hk. rewrite (re_versions _ _ _ _ _ _ _ HR). destruct (decide (rv_rules <$> _ = _)); [exact Hk|]. rewrite lookup_insert_ne; [exact Hk|].
    intros <-. destruct (latest_spec b agent) as (_ & L1 & _). specialize (L1 _ ltac:(eauto)). lia. }
  split_and!; [by exists v|by rewrite (re_rules _ _ _ _ _ _ _ HR), lookup_insert_eq|done|done|].
  intros c' x' row' b'' H. apply (RollbackAgentRules_ok LoadLocation) in H as (w & Hw & -> & HR').
  rewrite (re_rules _ _ _ _ _ _ _ HR'), lookup_insert_eq, <- (bo_latest LoadLocation b Hb).
  destruct (latest_spec b agent) as (_ & _ & [L0|[u Hu]]).
  - exfalso. destruct (latest_spec b agent) as (_ & L1 & _). pose proof (bo_versions LoadLocation b Hb _ _ Hv) as [_ Hn]. specialize (L1 n ltac:(eauto)). cbn in Hn. lia.
  - rewrite Hu. apply K in Hu. rewrite Hu in Hw. by injection Hw as ->.
Qed.

(** ** A book to run: a template, a save over it, a rollback, a boost *)

Definition demo_zones : string -> option Location := fun _ => Some UTC.

Definition demo_ctx (t : Z) : Ctx := mkCtx t (fun n => pretty n) "" "" "" zero_request.

Definition demo_book0 : Book :=
  mkBook (with_agent_accounts {["agt_1"%string := mkAgent "ann" "Coder" "" "" "" 0 None "" None]} empty_store) ∅.

Definition book_after {A} (r : Res BookErr (A * Book)) (b : Book) : Book :=
  match r with Ok (_, b') => b' | Err _ => b end.

Lemma book_after_ok {A} (r : Res BookErr (A * Book)) b :
  match r with Ok _ => true | Err _ => false end = true -> exists a, r = Ok (a, book_after r b).
Proof. destruct r as [[a b']|]; [eauto|done]. Qed.

Definition demo_coder : AgentRules := default unset_rules (RuleTemplateByID "coder").

(** A client that names neither caps nor payees, and blocks the coder's models. *)
Definition demo_save : AgentRules :=
  mkRules 1000 None 0 None 0 0 ["gpt-5"%string] [] None "09:00" "17:30" "Europe/London" false None None None None None None None (Some true).

Definition demo_set1 := SetAgentRules demo_zones None (demo_ctx 1) (mkChange "ann" "template coder") "ann" "agt_1" demo_coder demo_book0.
Definition demo_book1 : Book := book_after demo_set1 demo_book0.
Definition demo_set2 := SetAgentRules demo_zones None (demo_ctx 2) (mkChange "ann" "") "ann" "agt_1" demo_save demo_book1.
Definition demo_book2 : Book := book_after demo_set2 demo_book1.
Definition demo_roll := RollbackAgentRules None (demo_ctx 3) (mkChange "ann" "") "ann" "agt_1" 1 demo_book2.
Definition demo_book3 : Book := book_after demo_roll demo_book2.
Definition demo_boost := BoostAgentRule None (demo_ctx 4) "ann" "agt_1" "daily_limit_ulxc" 500000000 100 demo_book3.
Definition demo_book4 : Book := book_after demo_boost demo_book3.

Lemma demo_new : new_book demo_book0.
Proof. by split. Qed.

Lemma demo_set1_ok : exists r, demo_set1 = Ok (r, demo_book1).
Proof. apply book_after_ok. vm_compute. reflexivity. Qed.
Lemma demo_set2_ok : exists r, demo_set2 = Ok (r, demo_book2).
Proof. apply book_after_ok. vm_compute. reflexivity. Qed.
Lemma demo_roll_ok : exists r, demo_roll = Ok (r, demo_book3).
Proof. apply book_after_ok. vm_compute. reflexivity. Qed.
Lemma demo_boost_ok : exists x, demo_boost = Ok (x, demo_book4).
Proof. apply book_after_ok. vm_compute. reflexivity. Qed.

Lemma demo_book2_run : rtc (BookStep demo_zones None) demo_book0 demo_book2.
Proof.
  destruct demo_set1_ok as [r1 E1], demo_set2_ok as [r2 E2].
  apply (rtc_l _ _ demo_book1); [exact (StepSet _ _ _ _ _ _ _ _ _ _ E1)|]. apply rtc_once. exact (StepSet _ _ _ _ _ _ _ _ _ _ E2).
Qed.

Lemma demo_book4_run : rtc (BookStep demo_zones None) demo_book0 demo_book4.
Proof.
  destruct demo_roll_ok as [r3 E3], demo_boost_ok as [x E4]. transitivity demo_book2; [exact demo_book2_run|].
  apply (rtc_l _ _ demo_book3); [exact (StepRollback _ _ _ _ _ _ _ _ _ _ E3)|]. apply rtc_once. exact (StepBoost _ _ _ _ _ _ _ _ _ _ _ E4).
Qed.

Lemma rules_stay_well_formed_witness :
  (forall agent r, agent_rules (bk_store demo_book4) !! agent = Some r -> rules_wf demo_zones r) /\
  (forall agent n, 1 <= n <= latest_version demo_book4 agent <-> exists v, bk_versions demo_book4 !! (agent, n) = Some v /\ rules_wf demo_zones (rv_rules v)) /\
  (forall agent, rv_rules <$> bk_versions demo_book4 !! (agent, latest_version demo_book4 agent) = agent_rules (bk_store demo_book4) !! agent) /\
  (forall k x, agent_rule_boosts (bk_store demo_book4) !! k = Some x -> 0 < bo_raised_from x < bo_value x) /\
  (forall agent at_ r, agentRulesInForce (bk_store demo_book4) agent at_ = Some r -> judgeable demo_zones r).
Proof.
  exact (rules_stay_well_formed demo_zones None demo_book0 demo_book4 (ex_intro _ UTC eq_refl) demo_new demo_book4_run).
Defined.

Lemma demo_book2_ok : book_ok demo_zones demo_book2.
Proof. exact (steps_ok demo_zones None demo_book0 demo_book2 (ex_intro _ UTC eq_refl) demo_book2_run (new_book_ok demo_zones demo_book0 demo_new)). Qed.

Lemma rollback_restores_rules_witness : exists row,
  (exists v, bk_versions demo_book2 !! ("agt_1"%string, 1) = Some v /\ rv_rules v = row) /\
  agent_rules (bk_store demo_book3) !! "agt_1"%string = Some row /\
  (forall k v, bk_versions demo_book2 !! k = Some v -> bk_versions demo_book3 !! k = Some v) /\
  latest_version demo_book3 "agt_1" = (if decide (agent_rules (bk_store demo_book2) !! "agt_1"%string = Some row) then latest_version demo_book2 "agt_1" else latest_version demo_book2 "agt_1" + 1) /\
  forall c' x' row' b'', RollbackAgentRules None c' x' "ann" "agt_1" (latest_version demo_book2 "agt_1") demo_book3 = Ok (row', b'') ->
    agent_rules (bk_store b'') !! "agt_1"%string = agent_rules (bk_store demo_book2) !! "agt_1"%string.
Proof.
  destruct demo_roll_ok as [row E]. exists row.
  exact (rollback_restores_rules demo_zones None (demo_ctx 3) (mkChange "ann" "") "ann" "agt_1" 1 demo_book2 row demo_book3 demo_book2_ok E).
Defined.

(** A rent that renews itself, tried out and then asked for. *)
Definition renewing_rent : Commitment := mkCommitment "rent" "commercial" true 1000.

Definition try_rent : SimulatedRequest := mkSimulated 1000 "" "" (Some (mkPayee "listing" "lst_1" "")) (Some renewing_rent) (Some 5).

Definition real_rent : AgentRequest :=
  mkRequest "" "" "rent" (Some 5) true "lst_1" (mkPayee "listing" "lst_1" "") "" renewing_rent.

(** The simulator lets through what the rules refuse: a rent set to renew itself is
    allowed when it is tried out, for an agent that may not subscribe, and the same rent,
    judged, is refused because it renews. *)
Theorem simulator_misses_renewal : exists sim,
  SimulateAgentRules demo_zones (demo_ctx 5) "ann" "agt_1" try_rent demo_book0 = Ok (sim, demo_book0) /\ sm_verdict sim = VerdictAllowed /\
  enforceAgentRules demo_zones (WithAgentRequest (demo_ctx 5) real_rent) "ann" "agt_1" 1000 "rent" (bk_store demo_book0)
    = Err (ErrAgentRule RefRenews).
Proof.
  exists (mkSimulation VerdictAllowed 1000 5 0). split; [vm_compute; reflexivity|]. split; [reflexivity|]. vm_compute. reflexivity.
Qed.
