(* ===== verification/Royalties.v ===== *)
(** Lineage royalties ([internal/market/royalties.go]): the seller's part of a sale
    flows up the sold version's family tree, breadth first.  [flowUp] is the queue the
    code runs; [lineage_tree] is the reference it computes, the tree walked depth first. *)
From S2P Require Import Prelude Money.
Open Scope Z_scope.
Open Scope i64_scope.

(** [fees.BPSDenominator]: 100%, in basis points. *)
Definition BPSDenominator : Z := 10000.

Definition DefaultLineageTotalCapBPS : Z := 5000.
Definition DefaultLineageMaxDepth : Z := 5.

(** The limits of a store: what [SetLineageTotalCap] and [SetLineageLimits] set. *)
Record LineageLimits := mkLineageLimits {
  lineageTotalCap : option Z;
  lineageMaxDepth : option Z;
}.

Definition lineageCap (l : LineageLimits) : Z := default DefaultLineageTotalCapBPS (lineageTotalCap l).
Definition maxLineageDepth (l : LineageLimits) : Z := default DefaultLineageMaxDepth (lineageMaxDepth l).

(** What one ancestor keeps of a sale. *)
Record royalty := mkRoyalty {
  ry_payee : string;
  ry_edgeID : string;
  ry_depth : Z;
  ry_amount : Z;
}.

(** One version of a listing. *)
Record versionRef := mkVersion {
  vr_listing : string;
  vr_version : Z;
}.

#[export] Instance versionRef_eq_dec : EqDecision versionRef.
Proof. solve_decision. Defined.

(** One parent of a version. *)
Record lineageEdge := mkEdge {
  le_id : string;
  le_parent : versionRef;
  le_shareBPS : Z;
  le_owner : string;
}.

(** A version waiting in the queue: what it received, and its row in [out], -1 the seller's. *)
Record node := mkNode {
  n_at : versionRef;
  n_received : Z;
  n_depth : Z;
  n_row : Z;
}.

(** Why a flow stops short: a lookup's error, or [bits.Div64]'s panic.  [OutOfFuel] is
    the model's own; [flow_has_fuel] shows it is never met. *)
Inductive FlowErr (E : Type) : Type :=
| LookupErr (e : E)
| DivPanic
| OutOfFuel.
Arguments LookupErr {E} e.
Arguments DivPanic {E}.
Arguments OutOfFuel {E}.

Definition res_bind {E A B} (m : Res E A) (k : A -> Res E B) : Res E B :=
  match m with
  | Ok a => k a
  | Err e => Err e
  end.

Declare Scope res_scope.
Delimit Scope res_scope with res.
Notation "'try!' x := m 'in' k" := (res_bind m (fun x => k))
  (at level 10, x pattern, m at level 100, k at level 200) : res_scope.
Open Scope res_scope.

Fixpoint res_map {E A B} (f : A -> Res E B) (l : list A) : Res E (list B) :=
  match l with
  | [] => Ok []
  | a :: l => try! b := f a in try! bs := res_map f l in Ok (b :: bs)
  end.

Definition lookup_err {E A} (m : Res E A) : Res (FlowErr E) A :=
  match m with
  | Ok a => Ok a
  | Err e => Err (LookupErr e)
  end.

Definition mul_div {E} (a b c : Z) : Res (FlowErr E) Z :=
  match mulDiv a b c with
  | Some q => Ok q
  | None => Err DivPanic
  end.

Definition total64 (l : list Z) : Z := foldl (fun t a => t +! a) 0 l.

Definition take_from (given : Z) (r : royalty) : royalty :=
  mkRoyalty (ry_payee r) (ry_edgeID r) (ry_depth r) (ry_amount r -! given).

Section Flow.
Context {E : Type} (parents : versionRef -> Res E (list lineageEdge)) (pays : string -> Res E bool).
Context (maxDepth capBPS : Z).

(** What each of a node's parents is to receive, scaled down to the cap. *)
Definition parent_amounts (received : Z) (edges : list lineageEdge) : Res (FlowErr E) (list Z) :=
  try! amounts := res_map (fun e => mul_div received (le_shareBPS e) BPSDenominator) edges in
  let total := total64 amounts in
  try! limit := mul_div received capBPS BPSDenominator in
  if limit <? total then res_map (fun a => mul_div a limit total) amounts
  else Ok amounts.

(** The loop over a node's parents: each that is paid gets a row and a place in the queue. *)
Fixpoint give (depth : Z) (l : list (lineageEdge * Z)) (given : Z) (out : list royalty) (queue : list node) :
    Res (FlowErr E) (Z * list royalty * list node) :=
  match l with
  | [] => Ok (given, out, queue)
  | (e, amount) :: l =>
      if amount =? 0 then give depth l given out queue
      else
        try! ok := lookup_err (pays (le_owner e)) in
        if ok then
          give depth l (given +! amount)
            (out ++ [mkRoyalty (le_owner e) (le_id e) (depth + 1) amount])
            (queue ++ [mkNode (le_parent e) amount (depth + 1) (Z.of_nat (length out))])
        else give depth l given out queue
  end.

(** One round of the loop: the node [n] taken off the queue. *)
Definition visit (n : node) (keep : Z) (out : list royalty) (queue : list node) :
    Res (FlowErr E) (Z * list royalty * list node) :=
  if (maxDepth <=? n_depth n) || (n_received n =? 0) then Ok (keep, out, queue)
  else
    try! edges := lookup_err (parents (n_at n)) in
    try! amounts := parent_amounts (n_received n) edges in
    try! (given, out, queue) := give (n_depth n) (zip edges amounts) 0 out queue in
    if n_row n <? 0 then Ok (keep -! given, out, queue)
    else Ok (keep, alter (take_from given) (Z.to_nat (n_row n)) out, queue).

Fixpoint flow (fuel : nat) (keep : Z) (out : list royalty) (queue : list node) : Res (FlowErr E) (Z * list royalty) :=
  match queue with
  | [] => Ok (keep, out)
  | n :: queue =>
      match fuel with
      | O => Err OutOfFuel
      | S fuel => try! (keep, out, queue) := visit n keep out queue in flow fuel keep out queue
      end
  end.

(** The rounds a node [d] generations below the last can take: itself and its ancestors. *)
Fixpoint visits (d : nat) (v : versionRef) : nat :=
  match d with
  | O => 1
  | S d => 1 + match parents v with
               | Ok edges => sum_list ((fun e => visits d (le_parent e)) <$> edges)
               | Err _ => 0
               end
  end.

(** An edge reached by two paths is one payee: its amounts add up, at its nearest depth. *)
Definition add_royalty (r m : royalty) : royalty :=
  mkRoyalty (ry_payee m) (ry_edgeID m) (Z.min (ry_depth m) (ry_depth r)) (ry_amount m +! ry_amount r).

Fixpoint merge_rows (at_ : gmap string nat) (merged out : list royalty) : list royalty :=
  match out with
  | [] => merged
  | r :: out =>
      match at_ !! ry_edgeID r with
      | Some i => merge_rows at_ (alter (add_royalty r) i merged) out
      | None => merge_rows (<[ry_edgeID r := length merged]> at_) (merged ++ [r]) out
      end
  end.

Definition flowUp (pool : Z) (root : versionRef) : Res (FlowErr E) (Z * list royalty) :=
  try! (keep, out) := flow (visits (Z.to_nat maxDepth) root) pool [] [mkNode root pool 0 (-1)] in
  Ok (keep, filter (fun r => 0 < ry_amount r) (merge_rows ∅ [] out)).
End Flow.

(** ** The tree the flow pays *)

(** The reference is exact arithmetic over lookups that answer: [P] and [may]. *)
Section Reference.
Context (P : versionRef -> list lineageEdge) (may : string -> bool) (capBPS : Z).

Definition raw_shares (received : Z) (edges : list lineageEdge) : list Z :=
  (fun e => received * le_shareBPS e / BPSDenominator) <$> edges.

Definition capped (received : Z) (raw : list Z) : list Z :=
  let limit := received * capBPS / BPSDenominator in
  if limit <? sumZ raw then (fun a => a * limit / sumZ raw) <$> raw else raw.

(** Who is paid of what a version received, and how much. *)
Definition paid (ea : lineageEdge * Z) : Prop := ea.2 <> 0 /\ may (le_owner ea.1) = true.

Definition splits (received : Z) (v : versionRef) : list (lineageEdge * Z) :=
  filter paid (zip (P v) (capped received (raw_shares received (P v)))).

Definition splits_at (generations : nat) (received : Z) (v : versionRef) : list (lineageEdge * Z) :=
  match generations with
  | O => []
  | S _ => splits received v
  end.

(** The royalties of one edge paid [amount]: its owner's, less what flows on, and its ancestors'. *)
Fixpoint ascend (generations : nat) (depth : Z) (ea : lineageEdge * Z) : list royalty :=
  let up := splits_at generations ea.2 (le_parent ea.1) in
  mkRoyalty (le_owner ea.1) (le_id ea.1) depth (ea.2 - sumZ (snd <$> up)) ::
  match generations with
  | O => []
  | S g => mjoin (ascend g (depth + 1) <$> up)
  end.

Definition above (generations : nat) (depth received : Z) (v : versionRef) : list royalty :=
  mjoin (ascend (pred generations) depth <$> splits_at generations received v).

(** What [pool] pays up [root]'s tree: the seller's part, and every ancestor's. *)
Definition lineage_tree (generations : nat) (pool : Z) (root : versionRef) : Z * list royalty :=
  (pool - sumZ (snd <$> splits_at generations pool root), above generations 1 pool root).
End Reference.

(** What an edge is paid in all, over the paths that reach it. *)
Definition edge_total (id : string) (l : list royalty) : Z :=
  sumZ (ry_amount <$> filter (fun r => ry_edgeID r = id) l).

(** ** The queue always empties *)

Section Rounds.
Context {E : Type} (parents : versionRef -> Res E (list lineageEdge)) (pays : string -> Res E bool).
Context (maxDepth capBPS : Z).

Definition rounds_left (queue : list node) : nat :=
  sum_list ((fun n => visits parents (Z.to_nat (maxDepth - n_depth n)) (n_at n)) <$> queue).

Lemma sum_list_fmap_app {A} (f : A -> nat) l k :
  sum_list (f <$> (l ++ k)) = (sum_list (f <$> l) + sum_list (f <$> k))%nat.
Proof. induction l; csimpl; lia. Qed.

Lemma visits_pos d v : (1 <= visits parents d v)%nat.
Proof. destruct d; cbn; lia. Qed.

Lemma give_rounds depth l : forall given out queue g o q,
  depth < maxDepth -> give pays depth l given out queue = Ok (g, o, q) ->
  (rounds_left q <= rounds_left queue
     + sum_list ((fun ea => visits parents (Z.to_nat (maxDepth - depth - 1)) (le_parent ea.1)) <$> l))%nat.
Proof.
  induction l as [|[e a] l IH]; intros given out queue g o q Hd; csimpl.
  - intros [= -> -> ->]. lia.
  - destruct (a =? 0); [intros H; eapply IH in H; [|done]; lia|].
    destruct (pays (le_owner e)) as [[]|]; cbn; [| |done]; intros H; eapply IH in H; try done; [|lia].
    unfold rounds_left in H at 2. rewrite sum_list_fmap_app in H. cbn in H.
    replace (maxDepth - (depth + 1)) with (maxDepth - depth - 1) in H by lia.
    unfold rounds_left at 2. lia.
Qed.

Lemma visit_rounds n keep out queue k o q :
  visit parents pays maxDepth capBPS n keep out queue = Ok (k, o, q) ->
  (S (rounds_left q) <= rounds_left (n :: queue))%nat.
Proof.
  pose proof (visits_pos (Z.to_nat (maxDepth - n_depth n)) (n_at n)) as V.
  unfold visit. change (rounds_left (n :: queue))
    with (visits parents (Z.to_nat (maxDepth - n_depth n)) (n_at n) + rounds_left queue)%nat.
  destruct (Z.leb_spec maxDepth (n_depth n)) as [|Hd]; cbn [orb]; [intros [= -> -> ->]; lia|].
  destruct (n_received n =? 0); [intros [= -> -> ->]; lia|].
  destruct (parents (n_at n)) as [edges|] eqn:Ep; cbn; [|done].
  destruct (parent_amounts capBPS (n_received n) edges) as [amounts|]; cbn; [|done].
  destruct (give _ _ _ _ _ _) as [[[g o'] q']|] eqn:Eg; cbn; [|done].
  intros H. assert (q' = q) as -> by (destruct (n_row n <? 0); congruence).
  apply give_rounds in Eg; [|done].
  replace (Z.to_nat (maxDepth - n_depth n)) with (S (Z.to_nat (maxDepth - n_depth n - 1))) by lia.
  cbn [visits]. rewrite Ep.
  enough (sum_list ((fun ea => visits parents (Z.to_nat (maxDepth - n_depth n - 1)) (le_parent ea.1)) <$> zip edges amounts)
          <= sum_list ((fun e => visits parents (Z.to_nat (maxDepth - n_depth n - 1)) (le_parent e)) <$> edges))%nat by lia.
  clear. revert amounts. induction edges as [|e edges IH]; intros [|a amounts]; csimpl; [lia..|].
  specialize (IH amounts). lia.
Qed.

(** A computation that does not stop for want of fuel. *)
Definition fueled {A} (m : Res (FlowErr E) A) : Prop := m <> Err OutOfFuel.

Lemma fueled_ok {A} (a : A) : fueled (Ok a).
Proof. done. Qed.

Lemma fueled_bind {A B} (m : Res _ A) (k : A -> Res _ B) :
  fueled m -> (forall a, fueled (k a)) -> fueled (res_bind m k).
Proof. unfold fueled. destruct m; cbn; [auto|congruence]. Qed.

Lemma fueled_lookup {A} (m : Res E A) : fueled (lookup_err m).
Proof. by destruct m. Qed.

Lemma fueled_div a b c : fueled (mul_div a b c).
Proof. unfold mul_div. by destruct (mulDiv a b c). Qed.

Lemma fueled_map {A B} (f : A -> Res _ B) l : (forall a, fueled (f a)) -> fueled (res_map f l).
Proof. intros Hf. induction l; cbn; [done|].
  apply fueled_bind; [auto|intros]. apply fueled_bind; [auto|intros; apply fueled_ok].
Qed.

Hint Resolve fueled_ok fueled_lookup fueled_div fueled_map : core.

Lemma fueled_give depth l : forall given out queue, fueled (give pays depth l given out queue).
Proof.
  induction l as [|[e a] l IH]; intros; cbn; [done|]. destruct (a =? 0); [done|].
  apply fueled_bind; [auto|]. intros []; auto.
Qed.

Lemma fueled_visit n keep out queue : fueled (visit parents pays maxDepth capBPS n keep out queue).
Proof.
  unfold visit, parent_amounts. destruct (_ || _); [auto|].
  repeat (apply fueled_bind; [auto using fueled_give|intros]).
  all: repeat case_match; auto.
Qed.

Lemma flow_fueled fuel : forall keep out queue,
  (rounds_left queue <= fuel)%nat -> fueled (flow parents pays maxDepth capBPS fuel keep out queue).
Proof.
  induction fuel as [|fuel IH]; intros keep out [|n queue] Hf; try apply fueled_ok.
  - pose proof (visits_pos (Z.to_nat (maxDepth - n_depth n)) (n_at n)).
    unfold rounds_left in Hf. csimpl in Hf. lia.
  - cbn [flow]. pose proof (fueled_visit n keep out queue) as Hv.
    destruct (visit _ _ _ _ n keep out queue) as [[[k o] q]|e] eqn:Ev; cbn.
    + apply IH. apply visit_rounds in Ev. lia.
    + intros [= ->]. by apply Hv.
Qed.
End Rounds.

(** ** One node, exactly *)

Lemma mul_div_exact {E} a b c :
  0 <= a <= max_i64 -> 0 <= b <= c -> 0 < c <= max_i64 -> @mul_div E a b c = Ok (a * b / c).
Proof. intros. unfold mul_div. rewrite mulDiv_spec by (i64_ranges; lia). done. Qed.

Lemma res_map_exact {E A B} (f : A -> Res E B) g l :
  Forall (fun a => f a = Ok (g a)) l -> res_map f l = Ok (g <$> l).
Proof. induction 1 as [|a l Ha Hl IH]; cbn; [done|]. by rewrite Ha, IH. Qed.

Lemma total64_from l : forall t, 0 <= t -> Forall (fun x => 0 <= x) l -> t + sumZ l <= max_i64 ->
  foldl (fun t a => t +! a) t l = t + sumZ l.
Proof.
  induction l as [|x l IH]; intros t Ht Hl Hm; csimpl in *; [lia|].
  apply Forall_cons in Hl as [Hx Hl]. pose proof (sumZ_nonneg l Hl).
  rewrite wrap64_id by (i64_ranges; lia). rewrite IH by (done || lia). lia.
Qed.

Lemma total64_exact l : Forall (fun x => 0 <= x) l -> sumZ l <= max_i64 -> total64 l = sumZ l.
Proof. intros. unfold total64. by rewrite total64_from. Qed.

Lemma sumZ_le_mul l b : Forall (fun x => x <= b) l -> sumZ l <= b * Z.of_nat (length l).
Proof. induction 1; csimpl; lia. Qed.

(** Scaling each part of a total down to a limit, rounded down, keeps within the limit. *)
Lemma scaled_sum l limit total :
  0 < total -> sumZ ((fun a => a * limit / total) <$> l) * total <= limit * sumZ l.
Proof.
  intros Ht. induction l as [|a l IH]; csimpl; [lia|].
  pose proof (Z.mul_div_le (a * limit) total ltac:(lia)). nia.
Qed.

Section Exact.
Context (P : versionRef -> list lineageEdge) (may : string -> bool) (maxDepth capBPS pool : Z).
Context (Hcap : 0 <= capBPS <= BPSDenominator) (Hpool : 0 <= pool <= max_i64).
Context (Hshare : forall v e, e ∈ P v -> 0 <= le_shareBPS e <= BPSDenominator).
Context (Hfit : forall v, pool * Z.of_nat (length (P v)) <= max_i64).

Lemma limit_bounds received : 0 <= received -> 0 <= received * capBPS / BPSDenominator <= received.
Proof. intros. eapply (mulDiv_le received capBPS BPSDenominator); unfold BPSDenominator in *; lia. Qed.

Lemma raw_bounds received v : 0 <= received -> Forall (fun x => 0 <= x <= received) (raw_shares received (P v)).
Proof.
  intros Hr. apply Forall_fmap, Forall_forall. intros e He. cbn.
  pose proof (Hshare v e He). eapply (mulDiv_le received (le_shareBPS e) BPSDenominator); unfold BPSDenominator in *; lia.
Qed.

Lemma capped_bounds received raw :
  0 <= received -> Forall (fun x => 0 <= x <= received) raw ->
  Forall (fun x => 0 <= x <= received) (capped capBPS received raw) /\
  sumZ (capped capBPS received raw) <= received * capBPS / BPSDenominator.
Proof.
  intros Hr Hraw. pose proof (limit_bounds received Hr) as L. unfold capped.
  destruct (Z.ltb_spec (received * capBPS / BPSDenominator) (sumZ raw)) as [Hlt|]; [|done].
  set (limit := received * capBPS / BPSDenominator) in *. split.
  - apply Forall_fmap. eapply Forall_impl; [exact Hraw|]. intros a Ha; cbn in *.
    destruct (mulDiv_le a limit (sumZ raw) _ ltac:(lia) ltac:(lia) ltac:(lia) eq_refl). lia.
  - pose proof (scaled_sum raw limit (sumZ raw) ltac:(lia)). nia.
Qed.

Lemma raw_sum received v : 0 <= received <= pool ->
  Forall (fun x => 0 <= x) (raw_shares received (P v)) /\ sumZ (raw_shares received (P v)) <= max_i64.
Proof.
  intros Hr. pose proof (raw_bounds received v ltac:(lia)) as B. split.
  - eapply Forall_impl; [exact B|]. cbn. lia.
  - pose proof (sumZ_le_mul (raw_shares received (P v)) received) as S.
    unfold raw_shares at 3 in S. rewrite length_fmap in S. specialize (Hfit v).
    enough (sumZ (raw_shares received (P v)) <= received * Z.of_nat (length (P v))) by nia.
    apply S. eapply Forall_impl; [exact B|]. cbn. lia.
Qed.

Lemma parent_amounts_exact {E} received v : 0 <= received <= pool ->
  @parent_amounts E capBPS received (P v) = Ok (capped capBPS received (raw_shares received (P v))).
Proof.
  intros Hr. pose proof (limit_bounds received ltac:(lia)) as L. destruct (raw_sum received v Hr) as [R0 R1].
  unfold parent_amounts. erewrite (res_map_exact _ (fun e => received * le_shareBPS e / BPSDenominator)).
  2:{ apply Forall_forall. intros e He. pose proof (Hshare v e He).
      apply mul_div_exact; unfold BPSDenominator, max_i64 in *; lia. }
  cbn [res_bind]. fold (raw_shares received (P v)).
  rewrite total64_exact by done. rewrite mul_div_exact by (unfold BPSDenominator, max_i64 in *; lia).
  cbn [res_bind]. unfold capped. destruct (Z.ltb_spec (received * capBPS / BPSDenominator) (sumZ (raw_shares received (P v)))); [|done].
  apply res_map_exact. eapply Forall_impl; [exact (raw_bounds received v ltac:(lia))|]. intros a Ha. cbn in *.
  apply mul_div_exact; lia.
Qed.

Lemma sum_filter_zip (l : list lineageEdge) k : Forall (fun x => 0 <= x) k ->
  0 <= sumZ (snd <$> filter (paid may) (zip l k)) <= sumZ k.
Proof.
  intros Hk. revert l. induction Hk as [|x k Hx Hk IH]; intros [|e l]; csimpl; try lia.
  - pose proof (sumZ_nonneg k Hk). lia.
  - rewrite filter_cons. specialize (IH l). case_decide; csimpl; lia.
Qed.

(** What a node gives is within its cap, and each parent's part within what it received. *)
Lemma splits_bounds received v : 0 <= received ->
  0 <= sumZ (snd <$> splits P may capBPS received v) <= received * capBPS / BPSDenominator /\
  Forall (fun ea => 0 <= ea.2 <= received) (splits P may capBPS received v).
Proof.
  intros Hr. destruct (capped_bounds received _ Hr (raw_bounds received v Hr)) as [B S]. split.
  - pose proof (sum_filter_zip (P v) (capped capBPS received (raw_shares received (P v)))) as F.
    unfold splits. enough (Forall (fun x => 0 <= x) (capped capBPS received (raw_shares received (P v)))) by (specialize (F H); lia).
    eapply Forall_impl; [exact B|]. cbn. lia.
  - apply Forall_forall. intros [e a] [_ H]%list_elem_of_filter. cbn.
    apply elem_of_zip_r in H. rewrite Forall_forall in B. by apply (B a).
Qed.

Lemma splits_at_bounds g received v : 0 <= received ->
  0 <= sumZ (snd <$> splits_at P may capBPS g received v) <= received * capBPS / BPSDenominator /\
  Forall (fun ea => 0 <= ea.2 <= received) (splits_at P may capBPS g received v).
Proof.
  intros Hr. destruct g; cbn; [pose proof (limit_bounds received Hr); split; [lia|constructor]|].
  by apply splits_bounds.
Qed.

(** ** The queue and the tree *)

Context {E : Type} (parents : versionRef -> Res E (list lineageEdge)) (pays : string -> Res E bool).
Context (Hparents : forall v, parents v = Ok (P v)) (Hpays : forall o, pays o = Ok (may o)).

Definition gens (depth : Z) : nat := Z.to_nat (maxDepth - depth).

Definition row_of (depth : Z) (ea : lineageEdge * Z) : royalty :=
  mkRoyalty (le_owner ea.1) (le_id ea.1) depth ea.2.

Fixpoint nodes_of (depth : Z) (off : nat) (ups : list (lineageEdge * Z)) : list node :=
  match ups with
  | [] => []
  | ea :: ups => mkNode (le_parent ea.1) ea.2 depth (Z.of_nat off) :: nodes_of depth (S off) ups
  end.

Lemma filter_paid_cons e a l :
  filter (paid may) ((e, a) :: l) =
  if a =? 0 then filter (paid may) l
  else if may (le_owner e) then (e, a) :: filter (paid may) l else filter (paid may) l.
Proof.
  rewrite filter_cons. destruct (Z.eqb_spec a 0) as [->|Hn], (may (le_owner e)) eqn:Em.
  all: case_decide as D; unfold paid in D; cbn in D; (done || (exfalso; intuition congruence)).
Qed.

Lemma give_exact depth l : forall given out queue,
  Forall (fun ea => 0 <= ea.2) l -> 0 <= given ->
  given + sumZ (snd <$> filter (paid may) l) <= max_i64 ->
  give pays depth l given out queue =
  Ok (given + sumZ (snd <$> filter (paid may) l),
      out ++ (row_of (depth + 1) <$> filter (paid may) l),
      queue ++ nodes_of (depth + 1) (length out) (filter (paid may) l)).
Proof.
  induction l as [|[e a] l IH]; intros given out queue Hl Hg Hm.
  - csimpl. by rewrite Z.add_0_r, !app_nil_r.
  - apply Forall_cons in Hl as [Ha Hl]. cbn in Ha.
    assert (S : 0 <= sumZ (snd <$> filter (paid may) l)).
    { apply sumZ_nonneg, Forall_fmap, Forall_forall. intros x [_ Hx]%list_elem_of_filter.
      rewrite Forall_forall in Hl. by apply Hl. }
    rewrite filter_paid_cons in Hm |- *. cbn [give]. destruct (Z.eqb_spec a 0) as [->|Hn]; [by apply IH|].
    rewrite Hpays. cbn [lookup_err res_bind]. destruct (may (le_owner e)); [|by apply IH].
    csimpl in *. rewrite wrap64_id by (i64_ranges; lia). rewrite IH by (done || lia).
    rewrite length_app, <- !app_assoc. cbn. by rewrite Nat.add_1_r, Z.add_assoc.
Qed.

Definition node_gives (n : node) : list (lineageEdge * Z) :=
  splits_at P may capBPS (gens (n_depth n)) (n_received n) (n_at n).

Definition given_by (n : node) : Z := sumZ (snd <$> node_gives n).

(** The debit a node's row takes when its turn comes, and the seller's. *)
Definition settle (n : node) (out : list royalty) : list royalty :=
  if n_row n <? 0 then out else alter (take_from (given_by n)) (Z.to_nat (n_row n)) out.

Definition seller_gives (n : node) : Z := if n_row n <? 0 then given_by n else 0.

Definition node_ok (out : list royalty) (n : node) : Prop :=
  0 <= n_received n <= pool /\ n_row n < Z.of_nat (length out).

Definition rows_of (n : node) : list royalty := row_of (n_depth n + 1) <$> node_gives n.

Lemma splits_zero v : splits P may capBPS 0 v = [].
Proof.
  unfold splits. destruct (filter _ _) as [|[e a] l] eqn:Ef; [done|]. exfalso.
  assert (Hin : (e, a) ∈ filter (paid may) (zip (P v) (capped capBPS 0 (raw_shares 0 (P v))))) by (rewrite Ef; left).
  apply list_elem_of_filter in Hin as [[Hn _] Hz]. apply Hn. cbn in *. apply elem_of_zip_r in Hz.
  destruct (capped_bounds 0 _ ltac:(lia) (raw_bounds 0 v ltac:(lia))) as [B _].
  rewrite Forall_forall in B. specialize (B a Hz). lia.
Qed.

Lemma alter_take_zero i out : Forall (fun r => in_i64 (ry_amount r)) out -> alter (take_from 0) i out = out.
Proof.
  intros Ho. apply list_eq. intros j. destruct (decide (i = j)) as [<-|]; [|by rewrite list_lookup_alter_ne].
  rewrite list_lookup_alter_eq. destruct (out !! i) as [r|] eqn:Ei; [|done]. cbn. f_equal.
  rewrite Forall_lookup in Ho. specialize (Ho i r Ei).
  destruct r; unfold take_from; cbn in *. by rewrite Z.sub_0_r, wrap64_id.
Qed.

Lemma visit_exact n keep out queue :
  node_ok out n -> in_i64 keep -> Forall (fun r => in_i64 (ry_amount r)) out ->
  visit parents pays maxDepth capBPS n keep out queue =
  Ok (keep -! seller_gives n, settle n out ++ rows_of n,
      queue ++ nodes_of (n_depth n + 1) (length out) (node_gives n)).
Proof.
  intros [Hr Hrow] Hk Ho. unfold visit, settle, seller_gives, rows_of, given_by, node_gives, gens.
  destruct (Z.leb_spec maxDepth (n_depth n)) as [|Hd]; cbn [orb].
  { replace (Z.to_nat (maxDepth - n_depth n)) with 0%nat by lia. csimpl. rewrite !app_nil_r, alter_take_zero by done.
    by destruct (n_row n <? 0); rewrite Z.sub_0_r, wrap64_id. }
  replace (Z.to_nat (maxDepth - n_depth n)) with (S (Z.to_nat (maxDepth - n_depth n - 1))) by lia. cbn [splits_at].
  destruct (Z.eqb_spec (n_received n) 0) as [->|Hn].
  { rewrite splits_zero. csimpl. rewrite !app_nil_r, alter_take_zero by done.
    by destruct (n_row n <? 0); rewrite Z.sub_0_r, wrap64_id. }
  rewrite Hparents. cbn [lookup_err res_bind]. rewrite parent_amounts_exact by done. cbn [res_bind].
  pose proof (splits_bounds (n_received n) (n_at n) ltac:(lia)) as [S _].
  pose proof (limit_bounds (n_received n) ltac:(lia)) as L.
  unfold splits in S |- *.
  rewrite give_exact; [|apply Forall_forall|lia|lia].
  2:{ intros [e a] H%elem_of_zip_r. cbn. destruct (capped_bounds (n_received n) _ ltac:(lia) (raw_bounds (n_received n) (n_at n) ltac:(lia))) as [B _].
      rewrite Forall_forall in B. specialize (B a H). lia. }
  cbn [res_bind]. rewrite Z.add_0_l. destruct (Z.ltb_spec (n_row n) 0); [done|].
  rewrite Z.sub_0_r, wrap64_id by done. do 3 f_equal.
  rewrite alter_app_l; [done|lia].
Qed.

Lemma settle_app n out x : n_row n < Z.of_nat (length out) -> settle n (out ++ x) = settle n out ++ x.
Proof. unfold settle. intros H. destruct (Z.ltb_spec (n_row n) 0); [done|]. rewrite alter_app_l; [done|lia]. Qed.

Lemma settle_length n out : length (settle n out) = length out.
Proof. unfold settle. destruct (_ <? _); [done|]. apply length_alter. Qed.

Lemma settle_i64 n out : Forall (fun r => in_i64 (ry_amount r)) out -> Forall (fun r => in_i64 (ry_amount r)) (settle n out).
Proof.
  intros H. unfold settle. destruct (_ <? _); [done|]. apply Forall_alter; [done|].
  intros r _ _. apply wrap64_in.
Qed.

Lemma settle_comm n m out : settle n (settle m out) = settle m (settle n out).
Proof.
  unfold settle. destruct (n_row n <? 0), (n_row m <? 0); [reflexivity..|].
  destruct (decide (Z.to_nat (n_row n) = Z.to_nat (n_row m))) as [->|]; [|by apply list_alter_alter_ne].
  rewrite !list_alter_alter_eq. apply list_alter_ext; [|reflexivity]. intros r _.
  unfold compose, take_from; cbn. apply (f_equal (mkRoyalty _ _ _)). wrap_eq.
Qed.

Lemma settle_all_comm n queue out : foldr settle (settle n out) queue = settle n (foldr settle out queue).
Proof. induction queue as [|m q IH]; cbn; [done|]. by rewrite IH, settle_comm. Qed.

Lemma settle_all_length queue out : length (foldr settle out queue) = length out.
Proof. induction queue; cbn; [done|]. by rewrite settle_length. Qed.

Lemma settle_all_app queue out x : Forall (fun n => n_row n < Z.of_nat (length out)) queue ->
  foldr settle (out ++ x) queue = foldr settle out queue ++ x.
Proof.
  induction 1 as [|n q Hn Hq IH]; cbn; [done|]. rewrite IH, settle_app; [done|].
  by rewrite settle_all_length.
Qed.

Lemma alter_at_end (f : royalty -> royalty) out x rest : alter f (length out) (out ++ x :: rest) = out ++ f x :: rest.
Proof. induction out as [|y out IH]; [done|]. cbn. f_equal. exact IH. Qed.

(** What an ancestor keeps of [ea] once its own parents are paid. *)
Definition kept (depth : Z) (ea : lineageEdge * Z) : royalty :=
  mkRoyalty (le_owner ea.1) (le_id ea.1) depth
    (ea.2 - sumZ (snd <$> splits_at P may capBPS (gens depth) ea.2 (le_parent ea.1))).

Lemma settle_new depth ups : forall out, Forall (fun ea => 0 <= ea.2 <= pool) ups ->
  foldr settle (out ++ (row_of depth <$> ups)) (nodes_of depth (length out) ups) = out ++ (kept depth <$> ups).
Proof.
  induction ups as [|ea ups IH]; intros out Hu; cbn [nodes_of foldr fmap list_fmap]; [done|].
  apply Forall_cons in Hu as [Ha Hu].
  replace (out ++ row_of depth ea :: (row_of depth <$> ups)) with ((out ++ [row_of depth ea]) ++ (row_of depth <$> ups))
    by by rewrite <- app_assoc.
  replace (S (length out)) with (length (out ++ [row_of depth ea])) by (rewrite length_app; cbn; lia).
  rewrite IH by done. unfold settle; cbn [n_row]. destruct (Z.ltb_spec (Z.of_nat (length out)) 0); [lia|].
  rewrite Nat2Z.id, <- app_assoc. cbn [app]. rewrite alter_at_end. do 2 f_equal.
  unfold take_from, kept, row_of, given_by, node_gives; cbn. f_equal.
  pose proof (splits_at_bounds (gens depth) ea.2 (le_parent ea.1) ltac:(lia)) as [S _].
  pose proof (limit_bounds ea.2 ltac:(lia)). apply wrap64_id. i64_ranges. lia.
Qed.

Definition above_node (n : node) : list royalty :=
  above P may capBPS (gens (n_depth n)) (n_depth n + 1) (n_received n) (n_at n).

Lemma ascend_kept depth ea :
  ascend P may capBPS (gens depth) depth ea = kept depth ea :: above P may capBPS (gens depth) (depth + 1) ea.2 (le_parent ea.1).
Proof. unfold kept. destruct (gens depth); done. Qed.

Lemma ascend_all depth off ups :
  mjoin (ascend P may capBPS (gens depth) depth <$> ups) ≡ₚ
  (kept depth <$> ups) ++ mjoin (above_node <$> nodes_of depth off ups).
Proof.
  revert off. induction ups as [|ea ups IH]; intros off; [done|].
  cbn [nodes_of fmap list_fmap mjoin list_join]. rewrite ascend_kept, (IH (S off)). cbn. constructor.
  unfold above_node at 2; cbn. rewrite !app_assoc. apply Permutation_app_tail, Permutation_app_comm.
Qed.

Lemma gens_pred depth : pred (gens depth) = gens (depth + 1).
Proof. unfold gens. lia. Qed.

Lemma above_node_paid n off :
  above_node n ≡ₚ (kept (n_depth n + 1) <$> node_gives n) ++ mjoin (above_node <$> nodes_of (n_depth n + 1) off (node_gives n)).
Proof. unfold above_node, above. rewrite gens_pred. apply ascend_all. Qed.

Lemma nodes_of_ok depth ups : forall out, Forall (fun ea => 0 <= ea.2 <= pool) ups ->
  Forall (node_ok (out ++ (row_of depth <$> ups))) (nodes_of depth (length out) ups) /\
  sumZ (seller_gives <$> nodes_of depth (length out) ups) = 0.
Proof.
  induction ups as [|ea ups IH]; intros out Hu; [done|]. apply Forall_cons in Hu as [Ha Hu].
  specialize (IH (out ++ [row_of depth ea]) Hu). rewrite <- app_assoc, length_app in IH. cbn in IH.
  rewrite Nat.add_1_r in IH. destruct IH as [I1 I2]. csimpl. unfold seller_gives at 1; cbn [n_row].
  destruct (Z.ltb_spec (Z.of_nat (length out)) 0); [lia|]. split; [|done].
  constructor; [|done]. split; cbn; [done|]. rewrite length_app. cbn. lia.
Qed.

Lemma node_ok_more out n x : node_ok out n -> node_ok (out ++ x) n.
Proof. intros [H1 H2]. split; [done|]. rewrite length_app. lia. Qed.

Lemma gives_in_pool n out : node_ok out n -> Forall (fun ea => 0 <= ea.2 <= pool) (node_gives n).
Proof.
  intros [Hr _]. eapply Forall_impl; [apply (splits_at_bounds _ (n_received n) _ ltac:(lia))|]. intros ea He; cbn in *. lia.
Qed.

Lemma flow_exact fuel : forall keep out queue,
  (rounds_left parents maxDepth queue <= fuel)%nat -> Forall (node_ok out) queue -> in_i64 keep ->
  Forall (fun r => in_i64 (ry_amount r)) out ->
  exists o, flow parents pays maxDepth capBPS fuel keep out queue = Ok (wrap64 (keep - sumZ (seller_gives <$> queue)), o) /\
    o ≡ₚ foldr settle out queue ++ mjoin (above_node <$> queue).
Proof.
  induction fuel as [|fuel IH]; intros keep out [|n queue] Hf Hq Hk Ho.
  1,3: exists out; cbn; rewrite Z.sub_0_r, wrap64_id, app_nil_r by done; done.
  { pose proof (visits_pos parents (Z.to_nat (maxDepth - n_depth n)) (n_at n)).
    unfold rounds_left in Hf. csimpl in Hf. lia. }
  apply Forall_cons in Hq as [Hn Hq]. cbn [flow].
  pose proof (visit_exact n keep out queue Hn Hk Ho) as Hv. pose proof (visit_rounds _ _ _ _ _ _ _ _ _ _ _ Hv) as Hr.
  rewrite Hv. cbn [res_bind]. pose proof (gives_in_pool n out Hn) as Hp.
  destruct (nodes_of_ok (n_depth n + 1) (node_gives n) (settle n out) Hp) as [N1 N2]. rewrite settle_length in N1, N2.
  destruct (IH (keep -! seller_gives n) (settle n out ++ rows_of n) (queue ++ nodes_of (n_depth n + 1) (length out) (node_gives n))) as (o & E1 & E2); [| | | |exists o; split].
  - lia.
  - apply Forall_app. split; [|exact N1]. eapply Forall_impl; [exact Hq|]. intros m Hm.
    apply node_ok_more. unfold node_ok. by rewrite settle_length.
  - apply wrap64_in.
  - apply Forall_app. split; [by apply settle_i64|]. apply Forall_fmap.
    eapply Forall_impl; [exact Hp|]. intros ea He; cbn in *. i64_ranges. lia.
  - rewrite E1. csimpl. rewrite fmap_app, sumZ_app, N2. do 2 f_equal. wrap_eq.
  - rewrite E2. cbn [foldr fmap list_fmap mjoin list_join]. rewrite foldr_app.
    pose proof (settle_new (n_depth n + 1) (node_gives n) (settle n out) Hp) as Hs. rewrite settle_length in Hs.
    unfold rows_of. rewrite Hs, settle_all_app.
    + rewrite settle_all_comm, fmap_app, join_app, (above_node_paid n (length out)).
      rewrite <- !app_assoc. do 2 apply Permutation_app_head. apply Permutation_app_comm.
    + eapply Forall_impl; [exact Hq|]. intros m [_ Hm]. by rewrite settle_length.
Qed.
End Exact.

(** ** Merging the paths to one edge *)

(** [m] is what [l] comes to with one row per edge. *)
Record merged_of (m l : list royalty) : Prop := {
  mg_nodup : NoDup (ry_edgeID <$> m);
  mg_total : forall r, r ∈ m -> ry_amount r = edge_total (ry_edgeID r) l;
  mg_sum : sumZ (ry_amount <$> m) = sumZ (ry_amount <$> l);
  mg_from : forall r, r ∈ m -> exists t, t ∈ l /\ ry_edgeID t = ry_edgeID r /\ ry_payee t = ry_payee r;
  mg_depth : forall r, r ∈ m -> exists t, t ∈ l /\ ry_edgeID t = ry_edgeID r /\ ry_depth t = ry_depth r;
  mg_near : forall t, t ∈ l -> exists r, r ∈ m /\ ry_edgeID r = ry_edgeID t /\ ry_depth r <= ry_depth t;
}.

Lemma edge_total_app id l k : edge_total id (l ++ k) = edge_total id l + edge_total id k.
Proof. unfold edge_total. by rewrite filter_app, fmap_app, sumZ_app. Qed.

Lemma edge_total_one id r : edge_total id [r] = if decide (ry_edgeID r = id) then ry_amount r else 0.
Proof. unfold edge_total. rewrite filter_cons, filter_nil. case_decide; csimpl; lia. Qed.

Lemma edge_total_perm id l k : l ≡ₚ k -> edge_total id l = edge_total id k.
Proof. intros H. unfold edge_total. apply sumZ_perm. by rewrite H. Qed.

Lemma edge_total_absent id l : (forall t, t ∈ l -> ry_edgeID t <> id) -> edge_total id l = 0.
Proof.
  induction l as [|t l IH]; intros H; [done|]. change (t :: l) with ([t] ++ l).
  rewrite edge_total_app, edge_total_one, decide_False, IH; [done| |].
  - intros u Hu. apply H. by right.
  - apply H. left.
Qed.

Lemma edge_total_bounds id l : Forall (fun t => 0 <= ry_amount t) l -> 0 <= edge_total id l <= sumZ (ry_amount <$> l).
Proof.
  induction 1 as [|t l Ht Hl IH]; [cbn; lia|]. change (t :: l) with ([t] ++ l) at 1 2.
  rewrite edge_total_app, edge_total_one. csimpl. case_decide; lia.
Qed.

(** [at] finds a row by its edge. *)
Definition indexes (at_ : gmap string nat) (m : list royalty) : Prop :=
  forall id i, at_ !! id = Some i <-> exists r, m !! i = Some r /\ ry_edgeID r = id.

Lemma merged_new m l r :
  merged_of m l -> (forall t, t ∈ m -> ry_edgeID t <> ry_edgeID r) -> merged_of (m ++ [r]) (l ++ [r]).
Proof.
  intros [N T S F D K] Hn.
  assert (Hl : forall t, t ∈ l -> ry_edgeID t <> ry_edgeID r).
  { intros t Ht. destruct (K t Ht) as (u & Hu & E & _). rewrite <- E. by apply Hn. }
  split.
  - rewrite fmap_app. apply NoDup_app. split; [done|]. split; [|apply NoDup_singleton].
    intros id (t & -> & Ht)%list_elem_of_fmap. cbn. rewrite list_elem_of_singleton. by apply Hn.
  - intros t [Ht| ->%list_elem_of_singleton]%elem_of_app; rewrite edge_total_app, edge_total_one.
    + rewrite decide_False by (apply not_eq_sym; by apply Hn). rewrite T by done. lia.
    + rewrite decide_True, edge_total_absent by done. lia.
  - rewrite !fmap_app, !sumZ_app. lia.
  - intros t [Ht| ->%list_elem_of_singleton]%elem_of_app; [|exists r; set_solver].
    destruct (F t Ht) as (u & ? & ?). exists u. set_solver.
  - intros t [Ht| ->%list_elem_of_singleton]%elem_of_app; [|exists r; set_solver].
    destruct (D t Ht) as (u & ? & ?). exists u. set_solver.
  - intros t [Ht| ->%list_elem_of_singleton]%elem_of_app; [|exists r; split_and!; set_solver by lia].
    destruct (K t Ht) as (u & ? & ?). exists u. set_solver.
Qed.

Lemma merged_add m l r i w :
  merged_of m l -> Forall (fun t => 0 <= ry_amount t) (l ++ [r]) -> sumZ (ry_amount <$> (l ++ [r])) <= max_i64 ->
  m !! i = Some w -> ry_edgeID w = ry_edgeID r -> merged_of (alter (add_royalty r) i m) (l ++ [r]).
Proof.
  intros [N T S F D K] Hp Hs Hi He.
  assert (Hx : ry_amount (add_royalty r w) = edge_total (ry_edgeID w) (l ++ [r])).
  { assert (B := edge_total_bounds (ry_edgeID w) (l ++ [r]) Hp). rewrite edge_total_app, edge_total_one in B |- *.
    rewrite decide_True in B |- * by done. cbn. rewrite (T w) by (by eapply list_elem_of_lookup_2).
    apply wrap64_id. i64_ranges. lia. }
  assert (A : alter (add_royalty r) i m = <[i := add_royalty r w]> m).
  { apply list_eq. intros j. destruct (decide (i = j)) as [<-|].
    - by rewrite list_lookup_alter_eq, Hi, list_lookup_insert_eq by (by eapply lookup_lt_Some).
    - by rewrite list_lookup_alter_ne, list_lookup_insert_ne. }
  assert (Hin : forall t, t ∈ <[i := add_royalty r w]> m -> t = add_royalty r w \/ t ∈ m /\ ry_edgeID t <> ry_edgeID r).
  { intros t [j Hj]%list_elem_of_lookup. destruct (decide (i = j)) as [<-|Hne].
    - rewrite list_lookup_insert_eq in Hj by (by eapply lookup_lt_Some). left. congruence.
    - rewrite list_lookup_insert_ne in Hj by done. right. split; [by eapply list_elem_of_lookup_2|].
      intros E. apply Hne. eapply NoDup_lookup; [exact N|by rewrite list_lookup_fmap, Hi|].
      rewrite list_lookup_fmap, Hj. cbn. congruence. }
  assert (Hout : forall t, t ∈ m -> t = w \/ t ∈ <[i := add_royalty r w]> m).
  { intros t [j Hj]%list_elem_of_lookup. destruct (decide (i = j)) as [<-|Hne]; [left; congruence|].
    right. apply (list_elem_of_lookup_2 _ j). by rewrite list_lookup_insert_ne. }
  assert (Hnew : add_royalty r w ∈ <[i := add_royalty r w]> m).
  { apply (list_elem_of_lookup_2 _ i). apply list_lookup_insert_eq. by eapply lookup_lt_Some. }
  rewrite A. split.
  - rewrite list_fmap_insert. change (ry_edgeID (add_royalty r w)) with (ry_edgeID w).
    rewrite list_insert_id; [done|]. by rewrite list_lookup_fmap, Hi.
  - intros t [ ->|[Ht Hne]]%Hin; [exact Hx|]. rewrite edge_total_app, edge_total_one, decide_False by congruence.
    rewrite T by done. lia.
  - rewrite <- (take_drop_middle m i w Hi) in S at 1. rewrite insert_take_drop by (by eapply lookup_lt_Some).
    rewrite fmap_app, sumZ_app in S |- *. rewrite !fmap_app, !sumZ_app. csimpl in *.
    rewrite Hx, edge_total_app, edge_total_one, decide_True by done.
    rewrite <- (T w) by (by eapply list_elem_of_lookup_2). lia.
  - intros t [ ->|[Ht _]]%Hin.
    + destruct (F w) as (u & ? & ?); [by eapply list_elem_of_lookup_2|]. exists u. set_solver.
    + destruct (F t Ht) as (u & ? & ?). exists u. set_solver.
  - intros t [ ->|[Ht _]]%Hin.
    + destruct (D w) as (u & ? & Hu1 & Hu2); [by eapply list_elem_of_lookup_2|]. cbn.
      destruct (Z.min_spec (ry_depth w) (ry_depth r)) as [[_ ->]|[_ ->]]; [exists u|exists r]; set_solver.
    + destruct (D t Ht) as (u & ? & ?). exists u. set_solver.
  - intros t [Ht| ->%list_elem_of_singleton]%elem_of_app.
    + destruct (K t Ht) as (u & Hu & E1 & E2). destruct (Hout u Hu) as [->|]; [|by exists u].
      exists (add_royalty r w). split_and!; [done|done|cbn; lia].
    + exists (add_royalty r w). split_and!; [done|done|cbn; lia].
Qed.

Lemma merge_rows_exact out : forall at_ m l,
  merged_of m l -> indexes at_ m -> Forall (fun t => 0 <= ry_amount t) (l ++ out) -> sumZ (ry_amount <$> (l ++ out)) <= max_i64 ->
  merged_of (merge_rows at_ m out) (l ++ out).
Proof.
  induction out as [|r out IH]; intros at_ m l Hm Hi Hp Hs; cbn; [by rewrite app_nil_r|].
  replace (l ++ r :: out) with ((l ++ [r]) ++ out) in * by (by rewrite <- app_assoc).
  destruct (at_ !! ry_edgeID r) as [i|] eqn:Ei.
  - apply IH; [| |done..].
    + apply Hi in Ei as (w & Hw & E). eapply merged_add; [done|..]; [| |exact Hw|done].
      * by apply Forall_app in Hp as [Hp _].
      * rewrite fmap_app, sumZ_app in Hs. apply Forall_app in Hp as [_ Hp].
        pose proof (sumZ_nonneg (ry_amount <$> out) ltac:(by apply Forall_fmap)). lia.
    + intros id j. rewrite (Hi id j). apply Hi in Ei as (w & Hw & E). destruct (decide (i = j)) as [<-|Hne].
      * rewrite list_lookup_alter_eq, Hw. cbn. split; intros (t & [= <-] & <-); eauto.
      * by rewrite list_lookup_alter_ne.
  - assert (Hnone : forall t, t ∈ m -> ry_edgeID t <> ry_edgeID r).
    { intros t [j Hj]%list_elem_of_lookup E. enough (at_ !! ry_edgeID r = Some j) by congruence. apply Hi. eauto. }
    apply IH; [by apply merged_new| |done..].
    intros id j. destruct (decide (ry_edgeID r = id)) as [<-|Hne].
    + rewrite lookup_insert_eq. split.
      * intros [= <-]. exists r. by rewrite lookup_app_r, Nat.sub_diag.
      * intros (t & Ht & E). destruct (decide (j < length m)%nat) as [Hj|Hj].
        { rewrite lookup_app_l in Ht by done. exfalso. eapply Hnone; [by eapply list_elem_of_lookup_2|done]. }
        rewrite lookup_app_r in Ht by lia. apply lookup_lt_Some in Ht. cbn in Ht. f_equal. lia.
    + rewrite lookup_insert_ne by done. rewrite (Hi id j). split.
      * intros (t & Ht & E). exists t. by rewrite lookup_app_l by (by eapply lookup_lt_Some).
      * intros (t & Ht & E). exists t. split; [|done]. destruct (decide (j < length m)%nat) as [Hj|Hj].
        { by rewrite lookup_app_l in Ht. }
        rewrite lookup_app_r in Ht by lia. apply list_lookup_singleton_Some in Ht as [_ <-]. done.
Qed.

(** ** The tree conserves what flows into it *)

Section Tree.
Context (P : versionRef -> list lineageEdge) (may : string -> bool) (capBPS pool : Z).
Context (Hcap : 0 <= capBPS <= BPSDenominator) (Hpool : 0 <= pool <= max_i64).
Context (Hshare : forall v e, e ∈ P v -> 0 <= le_shareBPS e <= BPSDenominator).
Context (Hfit : forall v, pool * Z.of_nat (length (P v)) <= max_i64).

Lemma mjoin_sum {A} (f : A -> list royalty) (g : A -> Z) l :
  (forall a, a ∈ l -> sumZ (ry_amount <$> f a) = g a) -> sumZ (ry_amount <$> mjoin (f <$> l)) = sumZ (g <$> l).
Proof.
  induction l as [|a l IH]; intros H; [done|]. csimpl. rewrite fmap_app, sumZ_app, IH, (H a); [done|left|].
  intros b Hb. apply H. by right.
Qed.

Lemma ascend_sum g : forall depth ea, sumZ (ry_amount <$> ascend P may capBPS g depth ea) = ea.2.
Proof.
  induction g as [|g IH]; intros depth ea; csimpl; [lia|].
  rewrite (mjoin_sum _ snd) by (intros; apply IH). lia.
Qed.

Lemma above_sum g depth received v :
  sumZ (ry_amount <$> above P may capBPS g depth received v) = sumZ (snd <$> splits_at P may capBPS g received v).
Proof. unfold above. apply mjoin_sum. intros. apply ascend_sum. Qed.

Definition tree_row (lo hi : Z) (r : royalty) : Prop :=
  0 <= ry_amount r /\ may (ry_payee r) = true /\ lo <= ry_depth r <= hi.

Lemma ascend_rows g : forall depth ea, 0 <= ea.2 -> may (le_owner ea.1) = true ->
  Forall (tree_row depth (depth + Z.of_nat g)) (ascend P may capBPS g depth ea).
Proof.
  induction g as [|g IH]; intros depth ea Ha Hm.
  - constructor; [|constructor]. unfold tree_row; cbn. split_and!; lia || done.
  - pose proof (splits_bounds P may capBPS Hcap Hshare ea.2 (le_parent ea.1) Ha) as [S B].
    pose proof (limit_bounds capBPS Hcap ea.2 Ha) as L.
    cbn [ascend splits_at]. constructor.
    + unfold tree_row; cbn [ry_amount ry_payee ry_depth]. split_and!; lia || done.
    + apply Forall_join, Forall_fmap, Forall_forall. intros x Hx.
      rewrite Forall_forall in B. pose proof (B x Hx) as Bx. apply list_elem_of_filter in Hx as [[_ Hmx] _].
      eapply Forall_impl; [apply (IH (depth + 1) x); [cbn in Bx; lia|exact Hmx]|].
      intros r (? & ? & ?). unfold tree_row. split_and!; lia || done.
Qed.

Lemma above_rows g depth received v : 0 <= received ->
  Forall (tree_row depth (depth + Z.of_nat g - 1)) (above P may capBPS g depth received v).
Proof.
  intros Hr. unfold above. destruct g as [|g]; [constructor|].
  pose proof (splits_bounds P may capBPS Hcap Hshare received v Hr) as [_ B].
  apply Forall_join, Forall_fmap, Forall_forall. intros x Hx. cbn [pred splits_at] in *.
  rewrite Forall_forall in B. pose proof (B x Hx) as Bx. apply list_elem_of_filter in Hx as [[_ Hmx] _].
  eapply Forall_impl; [apply (ascend_rows g depth x); [cbn in Bx; lia|exact Hmx]|].
  intros r (? & ? & ?). unfold tree_row. split_and!; lia || done.
Qed.

Context {E : Type} (parents : versionRef -> Res E (list lineageEdge)) (pays : string -> Res E bool) (maxDepth : Z).
Context (Hparents : forall v, parents v = Ok (P v)) (Hpays : forall o, pays o = Ok (may o)).

Lemma sum_positive l : Forall (fun r => 0 <= ry_amount r) l ->
  sumZ (ry_amount <$> filter (fun r => 0 < ry_amount r) l) = sumZ (ry_amount <$> l).
Proof.
  induction 1 as [|r l Hr Hl IH]; [done|]. rewrite filter_cons. case_decide; csimpl; lia.
Qed.

(** What [flowUp] answers: the tree's rows, one per edge. *)
Lemma flowUp_exact root :
  exists merged,
    flowUp parents pays maxDepth capBPS pool root =
      Ok ((lineage_tree P may capBPS (Z.to_nat maxDepth) pool root).1, filter (fun r => 0 < ry_amount r) merged) /\
    merged_of merged (lineage_tree P may capBPS (Z.to_nat maxDepth) pool root).2.
Proof.
  unfold flowUp. set (n := mkNode root pool 0 (-1)).
  assert (Hd : gens maxDepth 0 = Z.to_nat maxDepth) by (unfold gens; lia).
  destruct (flow_exact P may maxDepth capBPS pool Hcap Hpool Hshare Hfit parents pays Hparents Hpays
    (visits parents (Z.to_nat maxDepth) root) pool [] [n]) as (o & E1 & E2).
  - unfold rounds_left. csimpl. replace (maxDepth - 0) with maxDepth by lia. lia.
  - constructor; [|constructor]. split; cbn; lia.
  - i64_ranges. lia.
  - constructor.
  - rewrite E1. cbn [res_bind]. cbn [foldr app fmap list_fmap mjoin list_join settle n_row n Z.ltb Z.compare] in E2.
    unfold above_node in E2. cbn [n_depth n_received n_at n] in E2. rewrite Hd, app_nil_r in E2.
    change (0 + 1) with 1 in E2. fold (lineage_tree P may capBPS (Z.to_nat maxDepth) pool root).2 in E2.
    pose proof (splits_at_bounds P may capBPS Hcap Hshare (Z.to_nat maxDepth) pool root ltac:(lia)) as [S _].
    pose proof (limit_bounds capBPS Hcap pool ltac:(lia)) as L.
    pose proof (above_sum (Z.to_nat maxDepth) 1 pool root) as Hsum.
    pose proof (above_rows (Z.to_nat maxDepth) 1 pool root ltac:(lia)) as Hrows.
    assert (M : merged_of (merge_rows ∅ [] o) ([] ++ o)).
    { apply merge_rows_exact.
      - split; try (intros ? H; by apply elem_of_nil in H); [apply NoDup_nil_2|done].
      - intros id i. rewrite lookup_empty. split; [done|]. by intros (r & ? & _).
      - cbn [app]. rewrite E2. eapply Forall_impl; [exact Hrows|]. by intros r [? _].
      - cbn [app]. rewrite (sumZ_perm _ _ (fmap_Permutation ry_amount _ _ E2)). cbn [lineage_tree snd]. rewrite Hsum. lia. }
    exists (merge_rows ∅ [] o). split.
    + do 2 f_equal. cbn. unfold seller_gives, given_by, node_gives. cbn. rewrite Hd, Z.add_0_r.
      apply wrap64_id. i64_ranges. lia.
    + destruct M as [N T U F D K]. split; [done|..].
      * intros r Hr. rewrite <- (edge_total_perm _ _ _ E2). by apply T.
      * rewrite U. cbn [app]. exact (sumZ_perm _ _ (fmap_Permutation ry_amount _ _ E2)).
      * intros r Hr. destruct (F r Hr) as (t & Ht & ?). exists t. by rewrite <- E2.
      * intros r Hr. destruct (D r Hr) as (t & Ht & ?). exists t. by rewrite <- E2.
      * intros t Ht. rewrite <- E2 in Ht. by apply K.
Qed.
End Tree.

(** What the tables and the limits promise a flow of [pool]: shares and cap within 100%,
    and no version with so many parents that their shares leave [int64]. *)
Record flow_bounds (P : versionRef -> list lineageEdge) (capBPS pool : Z) : Prop := mkFlowBounds {
  fb_cap : 0 <= capBPS <= BPSDenominator;
  fb_pool : 0 <= pool <= max_i64;
  fb_share : forall v e, e ∈ P v -> 0 <= le_shareBPS e <= BPSDenominator;
  fb_fit : forall v, pool * Z.of_nat (length (P v)) <= max_i64;
}.

Lemma edge_total_positive id l :
  Forall (fun r => 0 <= ry_amount r) l -> 0 < edge_total id l -> exists t, t ∈ l /\ ry_edgeID t = id.
Proof.
  intros Hl Ht. destruct (decide (Exists (fun t => ry_edgeID t = id) l)) as [H|H].
  - by apply Exists_exists in H.
  - exfalso. rewrite edge_total_absent in Ht; [lia|]. intros t Hin E. apply H, Exists_exists. eauto.
Qed.

(** The flow in full: the seller keeps what the tree does not take, the rest reaches
    ancestors who may earn, within the generations, and nothing is made or lost. *)
Lemma flowUp_conserves {E} P may capBPS maxDepth pool root (parents : versionRef -> Res E (list lineageEdge)) pays :
  flow_bounds P capBPS pool -> (forall v, parents v = Ok (P v)) -> (forall o, pays o = Ok (may o)) ->
  exists keep rows, flowUp parents pays maxDepth capBPS pool root = Ok (keep, rows) /\
    keep + sumZ (ry_amount <$> rows) = pool /\ pool - pool * capBPS / BPSDenominator <= keep <= pool /\
    NoDup (ry_edgeID <$> rows) /\
    Forall (fun r => 0 < ry_amount r /\ may (ry_payee r) = true /\ 1 <= ry_depth r <= maxDepth) rows.
Proof.
  intros [Hc Hp Hs Hf] Hpar Hpay.
  destruct (flowUp_exact P may capBPS pool Hc Hp Hs Hf parents pays maxDepth Hpar Hpay root) as (m & E1 & [N T U F D K]).
  pose proof (above_rows P may capBPS Hc Hs (Z.to_nat maxDepth) 1 pool root ltac:(lia)) as R.
  pose proof (above_sum P may capBPS (Z.to_nat maxDepth) 1 pool root) as Hsum.
  pose proof (splits_at_bounds P may capBPS Hc Hs (Z.to_nat maxDepth) pool root ltac:(lia)) as [S _].
  cbn [lineage_tree fst snd] in *. rewrite Forall_forall in R.
  assert (Hm : Forall (fun r => 0 <= ry_amount r) m).
  { apply Forall_forall. intros r Hr. rewrite (T r Hr). apply edge_total_bounds, Forall_forall. intros t Ht. by apply R. }
  eexists _, _. split; [exact E1|]. split_and!; [| lia | lia | |].
  - rewrite sum_positive by done. lia.
  - eapply sublist_NoDup; [exact N|]. apply fmap_sublist, sublist_filter.
  - apply Forall_forall. intros r [Hr Hin]%list_elem_of_filter. split; [done|].
    destruct (F r Hin) as (t & Ht & _ & <-). destruct (D r Hin) as (u & Hu & _ & <-).
    destruct (R t Ht) as (_ & ? & _). destruct (R u Hu) as (_ & _ & ?). split; [done|].
    destruct (decide (maxDepth <= 0)); [|lia]. exfalso.
    replace (Z.to_nat maxDepth) with 0%nat in Ht by lia. by apply elem_of_nil in Ht.
Qed.

(** [rows] is what [tree] comes to: each edge that is owed anything once, with all it is
    owed over every path, to its owner, at the nearest of its depths. *)
Record pays_tree (tree rows : list royalty) : Prop := mkPaysTree {
  pt_once : NoDup (ry_edgeID <$> rows);
  pt_amount : forall r, r ∈ rows -> ry_amount r = edge_total (ry_edgeID r) tree;
  pt_payee : forall r, r ∈ rows -> exists t, t ∈ tree /\ ry_edgeID t = ry_edgeID r /\ ry_payee t = ry_payee r;
  pt_depth : forall r, r ∈ rows -> exists t, t ∈ tree /\ ry_edgeID t = ry_edgeID r /\ ry_depth t = ry_depth r;
  pt_near : forall r, r ∈ rows -> forall t, t ∈ tree -> ry_edgeID t = ry_edgeID r -> ry_depth r <= ry_depth t;
  pt_all : forall id, 0 < edge_total id tree <-> id ∈ ry_edgeID <$> rows;
}.

Lemma flowUp_pays_tree {E} P may capBPS maxDepth pool root (parents : versionRef -> Res E (list lineageEdge)) pays :
  flow_bounds P capBPS pool -> (forall v, parents v = Ok (P v)) -> (forall o, pays o = Ok (may o)) ->
  let tree := lineage_tree P may capBPS (Z.to_nat maxDepth) pool root in
  exists rows, flowUp parents pays maxDepth capBPS pool root = Ok (tree.1, rows) /\ pays_tree tree.2 rows.
Proof.
  intros [Hc Hp Hs Hf] Hpar Hpay tree.
  destruct (flowUp_exact P may capBPS pool Hc Hp Hs Hf parents pays maxDepth Hpar Hpay root) as (m & E1 & [N T U F D K]).
  fold tree in E1, T, U, F, D, K.
  assert (R : Forall (fun r => 0 <= ry_amount r) tree.2).
  { eapply Forall_impl; [apply (above_rows P may capBPS Hc Hs (Z.to_nat maxDepth) 1 pool root ltac:(lia))|]. by intros r [? _]. }
  exists (filter (fun r => 0 < ry_amount r) m). split; [done|]. split.
  - eapply sublist_NoDup; [exact N|]. apply fmap_sublist, sublist_filter.
  - intros r [Hr Hin]%list_elem_of_filter. by apply T.
  - intros r [Hr Hin]%list_elem_of_filter. by apply F.
  - intros r [Hr Hin]%list_elem_of_filter. by apply D.
  - intros r [Hr Hin]%list_elem_of_filter t Ht He. destruct (K t Ht) as (u & Hu & E2 & Hle).
    enough (u = r) by congruence. apply list_elem_of_lookup in Hu as [i Hi], Hin as [j Hj].
    assert (i = j) as -> by (apply (NoDup_lookup _ i j (ry_edgeID r) N); rewrite list_lookup_fmap, ?Hi, ?Hj; cbn; congruence).
    congruence.
  - intros id. rewrite list_elem_of_fmap. split.
    + intros Hid. destruct (edge_total_positive id tree.2 R Hid) as (t & Ht & <-). destruct (K t Ht) as (u & Hu & Eu & _).
      exists u. split; [done|]. apply list_elem_of_filter. split; [|done]. rewrite T by done. by rewrite Eu.
    + intros (r & -> & [Hr Hin]%list_elem_of_filter). by rewrite <- T.
Qed.

(** ** Properties *)

(** C4: the breadth-first queue pays exactly the family tree: under the tables' bounds
    it neither fails nor panics, the seller keeps what the tree walked depth first leaves
    them, and each edge that is owed anything has one row, of all it is owed over every
    path that reaches it, at the nearest of their depths. *)
Theorem royalties_pay_the_tree {E} P may capBPS maxDepth pool root (parents : versionRef -> Res E (list lineageEdge)) pays :
  flow_bounds P capBPS pool -> (forall v, parents v = Ok (P v)) -> (forall o, pays o = Ok (may o)) ->
  let tree := lineage_tree P may capBPS (Z.to_nat maxDepth) pool root in
  exists rows, flowUp parents pays maxDepth capBPS pool root = Ok (tree.1, rows) /\
    NoDup (ry_edgeID <$> rows) /\
    (forall r, r ∈ rows -> ry_amount r = edge_total (ry_edgeID r) tree.2 /\
      (exists t, t ∈ tree.2 /\ ry_edgeID t = ry_edgeID r /\ ry_depth t = ry_depth r) /\
      (forall t, t ∈ tree.2 -> ry_edgeID t = ry_edgeID r -> ry_depth r <= ry_depth t)) /\
    (forall id, 0 < edge_total id tree.2 <-> id ∈ ry_edgeID <$> rows).
Proof.
  intros Hb Hpar Hpay tree. destruct (flowUp_pays_tree P may capBPS maxDepth pool root parents pays Hb Hpar Hpay) as (rows & E1 & [N T _ D K A]).
  exists rows. split_and!; [done..| |done]. intros r Hr. split_and!; [by apply T|by apply D|by apply K].
Qed.

(** C38: the queue always empties: whatever the lookups answer, errors included, and
    however the tree is shaped, a flow ends. *)
Theorem royalty_queue_empties {E} (parents : versionRef -> Res E (list lineageEdge)) pays maxDepth capBPS pool root :
  flowUp parents pays maxDepth capBPS pool root <> Err OutOfFuel.
Proof.
  unfold flowUp. apply fueled_bind; [|by intros []]. apply flow_fueled.
  unfold rounds_left. csimpl. replace (maxDepth - 0) with maxDepth by lia. lia.
Qed.

(** ** A family tree: a remix of two originals, one of them a remix of the other *)

Definition demo_edges (v : versionRef) : list lineageEdge :=
  if bool_decide (v = mkVersion "remix" 1) then
    [mkEdge "e1" (mkVersion "song" 1) 4000 "ann"; mkEdge "e2" (mkVersion "cover" 2) 3000 "bob"]
  else if bool_decide (v = mkVersion "cover" 2) then [mkEdge "e3" (mkVersion "song" 1) 5000 "ann"]
  else if bool_decide (v = mkVersion "song" 1) then [mkEdge "e4" (mkVersion "poem" 1) 2500 "cat"]
  else [].

Definition demo_may (owner : string) : bool := negb (bool_decide (owner = "dan"%string)).

Lemma demo_bounds : flow_bounds demo_edges 5000 1000000.
Proof.
  split; [unfold BPSDenominator; lia|unfold max_i64; lia| |].
  - intros v e. unfold demo_edges, BPSDenominator. repeat case_bool_decide.
    all: rewrite ?elem_of_cons, ?elem_of_nil; intros Hin; decompose [or] Hin; subst; cbn; (lia || done).
  - intros v. unfold demo_edges, max_i64. repeat case_bool_decide; cbn; lia.
Qed.

Example demo_flow :
  flowUp (fun v => Ok (demo_edges v)) (fun o => @Ok unit bool (demo_may o)) 5 5000 1000000 (mkVersion "remix" 1) =
  Ok (500001, [mkRoyalty "ann" "e1" 1 214286; mkRoyalty "bob" "e2" 1 107143;
               mkRoyalty "cat" "e4" 2 98213; mkRoyalty "ann" "e3" 2 80357]).
Proof. vm_compute. reflexivity. Qed.

Lemma royalties_pay_the_tree_witness :
  let tree := lineage_tree demo_edges demo_may 5000 (Z.to_nat 5) 1000000 (mkVersion "remix" 1) in
  exists rows,
    flowUp (fun v => @Ok unit _ (demo_edges v)) (fun o => Ok (demo_may o)) 5 5000 1000000 (mkVersion "remix" 1) = Ok (tree.1, rows) /\
    NoDup (ry_edgeID <$> rows) /\
    (forall r, r ∈ rows -> ry_amount r = edge_total (ry_edgeID r) tree.2 /\
      (exists t, t ∈ tree.2 /\ ry_edgeID t = ry_edgeID r /\ ry_depth t = ry_depth r) /\
      (forall t, t ∈ tree.2 -> ry_edgeID t = ry_edgeID r -> ry_depth r <= ry_depth t)) /\
    (forall id, 0 < edge_total id tree.2 <-> id ∈ ry_edgeID <$> rows).
Proof.
  exact (royalties_pay_the_tree demo_edges demo_may 5000 5 1000000 (mkVersion "remix" 1)
    (fun v => @Ok unit _ (demo_edges v)) (fun o => Ok (demo_may o)) demo_bounds (fun _ => eq_refl) (fun _ => eq_refl)).
Defined.
