(* ===== verification/MarketTables.v ===== *)
(** The marketplace's tables ([src/migrations], [0149] to [0228]), the state they make
    with the wallet's, and the transactions over it: what [internal/market] keeps of a
    sale from the use that is billed to the payout of its seller. *)
From S2P Require Import Prelude Money Tables Postings Clock Lxc Capabilities Royalties.
Open Scope Z_scope.
Open Scope i64_scope.

(** ** Rows *)

Inductive ReviewStatus : Type := ReviewApproved | ReviewHeld | ReviewTakenDown.

#[export] Instance ReviewStatus_eq_dec : EqDecision ReviewStatus.
Proof. solve_decision. Defined.

(** A row of [market_listings], what a sale reads of it. *)
Record MarketListing := mkMarketListing {
  li_ws : string;
  li_status : ReviewStatus;
  li_reason : string;
  li_down : option Z;
}.

(** A row of [market_lineage]: [le_owner] is the parent listing's, joined when it is read. *)
Record LineageRow := mkLineage {
  ln_id : string;
  ln_child : versionRef;
  ln_parent : versionRef;
  ln_share : Z;
}.

(** A row of [market_offers], what renting to own reads of it. *)
Record OfferRow := mkOffer {
  of_id : string;
  of_listing : string;
  of_kind : string;
  of_licence : string;
  of_price : Z;
  of_seats : option Z;
  of_active : bool;
}.

(** A row of [market_licences]. *)
Record LicenceRow := mkLicence {
  lc_listing : string;
  lc_offer : string;
  lc_buyer : string;
  lc_agent : string;
  lc_person : string;
  lc_licence : string;
  lc_kind : string;
  lc_pinned : option Z;
  lc_starts : Z;
  lc_seats : option Z;
  lc_source : string;
  lc_rent_paid : Z;
  lc_auto_renew : bool;
}.

(** A row of [market_uses]. *)
Record UseRow := mkUseRow {
  us_listing : string;
  us_version : Z;
  us_seller : string;
  us_buyer : string;
  us_price : Z;
  us_charge : string;
  us_at : Z;
  us_ran : option Z;
  us_metered : option Z;
  us_tax_metered : option Z;
  us_payee_agent : string;
  us_licence : string;
  us_kind : string;
  us_cleared : option (string * Z);      (* the invoice and when it was paid *)
}.

(** A row of [market_tax_lines]. *)
Record TaxLine := mkTaxLine {
  tx_jurisdiction : string;
  tx_tax : Z;
}.

Inductive EarningKind : Type := EarningSale | EarningLineage.

#[export] Instance EarningKind_eq_dec : EqDecision EarningKind.
Proof. solve_decision. Defined.

(** A row of [market_earnings]: append-only, one per payee of a cleared use. *)
Record EarningRow := mkEarning {
  er_use : string;
  er_seller : string;
  er_kind : EarningKind;
  er_ref : string;
  er_depth : Z;
  er_gross : Z;
  er_share : Z;
  er_fee : Z;
  er_invoice : string;
  er_cleared : Z;
  er_payable : Z;
  er_livemode : bool;
  er_test : bool;
}.

Inductive RefundCause : Type := CauseTakedown | CauseBuyerRefund | CauseChargeback.

#[export] Instance RefundCause_eq_dec : EqDecision RefundCause.
Proof. solve_decision. Defined.

(** A row of [market_refunds], by the use it refunds. *)
Record RefundRow := mkRefund {
  rf_listing : string;
  rf_buyer : string;
  rf_seller : string;
  rf_price : Z;
  rf_gross : Z;
  rf_share : Z;
  rf_reason : string;
  rf_cause : RefundCause;
  rf_ref : string;
  rf_at : Z;
}.

Inductive HoldReason : Type := HoldDispute | HoldIPClaim.

#[export] Instance HoldReason_eq_dec : EqDecision HoldReason.
Proof. solve_decision. Defined.

(** A row of [market_holds]. *)
Record HoldRow := mkHold {
  hd_use : string;
  hd_reason : HoldReason;
  hd_by : string;
  hd_at : Z;
  hd_released : option Z;
  hd_decision : string;
}.

(** A row of [market_sellers]. *)
Record SellerRow := mkSeller {
  sl_account : string;
  sl_country : string;
  sl_payouts : bool;
}.

(** A row of [seller_tax_profiles], what a payout reads of it. *)
Record TaxProfile := mkTaxProfile {
  tp_entity : bool;                      (* [seller_type]: an entity, or an individual *)
  tp_country : string;
  tp_vat_number : string;
  tp_agreed : string;                    (* [self_billing_agreed_version] *)
  tp_withheld : option Z;
}.

Inductive PayoutMethod : Type := PayoutStripe | PayoutCredits.

#[export] Instance PayoutMethod_eq_dec : EqDecision PayoutMethod.
Proof. solve_decision. Defined.

(** A row of [market_payouts]: [po_month] is the year and month, [po_period] the ISO year and week. *)
Record PayoutRow := mkPayout {
  po_ws : string;
  po_method : PayoutMethod;
  po_month : Z * Z;
  po_period : Z * Z;
  po_gross : Z;
  po_vat : Z;
  po_account_fee : Z;
  po_payout_fee : Z;
  po_net : Z;
  po_credits : Z;
  po_account : string;
  po_transfer : string;
  po_paid : option Z;
  po_error : string;
  po_created : Z;
  po_livemode : bool;
  po_test : bool;
}.

(** A row of [market_self_bills]. *)
Record SelfBillRow := mkSelfBill {
  sb_payout : string;
  sb_ws : string;
  sb_series : string;
  sb_number : Z;
  sb_period : Z * Z;
  sb_net : Z;
  sb_vat : Z;
  sb_rate : Z;
  sb_jurisdiction : string;
  sb_treatment : string;
  sb_partner : string;
  sb_enabled : bool;
}.

Inductive JournalKind : Type :=
| JournalClear | JournalReversal | JournalRelease | JournalPayout | JournalCredits | JournalSelfBill | JournalTrial.

#[export] Instance JournalKind_eq_dec : EqDecision JournalKind.
Proof. solve_decision. Defined.

#[export] Instance JournalKind_countable : Countable JournalKind.
Proof.
  refine (inj_countable'
    (fun k => match k with JournalClear => 0 | JournalReversal => 1 | JournalRelease => 2 | JournalPayout => 3
              | JournalCredits => 4 | JournalSelfBill => 5 | JournalTrial => 6 end)%nat
    (fun n => match n with 0 => JournalClear | 1 => JournalReversal | 2 => JournalRelease | 3 => JournalPayout
              | 4 => JournalCredits | 5 => JournalSelfBill | _ => JournalTrial end)%nat _).
  by intros [].
Defined.

(** One line of a journal entry, as the code asks for it. *)
Record JournalPosting := mkPost {
  jp_account : string;
  jp_amount : Z;
  jp_currency : string;
  jp_funding : string;
}.

(** A row of [market_journal_postings]. *)
Record PostingRow := mkPostingRow {
  pr_entry : string;
  pr_line : Z;
  pr_account : string;
  pr_amount : Z;
  pr_currency : string;
  pr_funding : string;
}.

(** ** The state *)

Record Market := mkMarket {
  mk_store : Store;                                             (* the wallet's tables *)
  mk_listings : gmap string MarketListing;                      (* [market_listings] *)
  mk_lineage : list LineageRow;                                 (* [market_lineage], in the order declared *)
  mk_cards : list (string * string);                            (* [workspace_card_fingerprints]: workspace, fingerprint *)
  mk_owners : list (string * string);                           (* [workspace_owner_links]: workspace, owner key *)
  mk_offers : list OfferRow;                                    (* [market_offers] *)
  mk_licences : gmap string LicenceRow;                         (* [market_licences] *)
  mk_uses : gmap string UseRow;                                 (* [market_uses] *)
  mk_tax_lines : gmap string TaxLine;                           (* [market_tax_lines], by use *)
  mk_earnings : list EarningRow;                                (* [market_earnings], oldest first *)
  mk_refunds : gmap string RefundRow;                           (* [market_refunds], by use *)
  mk_holds : gmap string HoldRow;                               (* [market_holds] *)
  mk_sellers : gmap string SellerRow;                           (* [market_sellers], by workspace *)
  mk_profiles : gmap string TaxProfile;                         (* [seller_tax_profiles], by workspace *)
  mk_payouts : gmap string PayoutRow;                           (* [market_payouts] *)
  mk_self_bills : list SelfBillRow;                             (* [market_self_bills] *)
  mj_entries : gmap (JournalKind * string) (string * Z);        (* [market_journal_entries]: kind and ref, to id and instant *)
  mj_postings : list PostingRow;                                (* [market_journal_postings], newest first *)
  mj_balances : gmap (string * string * string) Z;              (* [market_journal_balances]: account, currency, funding *)
}.

Implicit Types (m : Market).

Definition with_mk_store (v : Store) m : Market :=
  mkMarket v (mk_listings m) (mk_lineage m) (mk_cards m) (mk_owners m) (mk_offers m) (mk_licences m) (mk_uses m) (mk_tax_lines m) (mk_earnings m) (mk_refunds m) (mk_holds m) (mk_sellers m) (mk_profiles m) (mk_payouts m) (mk_self_bills m) (mj_entries m) (mj_postings m) (mj_balances m).
Definition with_mk_listings (v : gmap string MarketListing) m : Market :=
  mkMarket (mk_store m) v (mk_lineage m) (mk_cards m) (mk_owners m) (mk_offers m) (mk_licences m) (mk_uses m) (mk_tax_lines m) (mk_earnings m) (mk_refunds m) (mk_holds m) (mk_sellers m) (mk_profiles m) (mk_payouts m) (mk_self_bills m) (mj_entries m) (mj_postings m) (mj_balances m).
Definition with_mk_lineage (v : list LineageRow) m : Market :=
  mkMarket (mk_store m) (mk_listings m) v (mk_cards m) (mk_owners m) (mk_offers m) (mk_licences m) (mk_uses m) (mk_tax_lines m) (mk_earnings m) (mk_refunds m) (mk_holds m) (mk_sellers m) (mk_profiles m) (mk_payouts m) (mk_self_bills m) (mj_entries m) (mj_postings m) (mj_balances m).
Definition with_mk_cards (v : list (string * string)) m : Market :=
  mkMarket (mk_store m) (mk_listings m) (mk_lineage m) v (mk_owners m) (mk_offers m) (mk_licences m) (mk_uses m) (mk_tax_lines m) (mk_earnings m) (mk_refunds m) (mk_holds m) (mk_sellers m) (mk_profiles m) (mk_payouts m) (mk_self_bills m) (mj_entries m) (mj_postings m) (mj_balances m).
Definition with_mk_owners (v : list (string * string)) m : Market :=
  mkMarket (mk_store m) (mk_listings m) (mk_lineage m) (mk_cards m) v (mk_offers m) (mk_licences m) (mk_uses m) (mk_tax_lines m) (mk_earnings m) (mk_refunds m) (mk_holds m) (mk_sellers m) (mk_profiles m) (mk_payouts m) (mk_self_bills m) (mj_entries m) (mj_postings m) (mj_balances m).
Definition with_mk_offers (v : list OfferRow) m : Market :=
  mkMarket (mk_store m) (mk_listings m) (mk_lineage m) (mk_cards m) (mk_owners m) v (mk_licences m) (mk_uses m) (mk_tax_lines m) (mk_earnings m) (mk_refunds m) (mk_holds m) (mk_sellers m) (mk_profiles m) (mk_payouts m) (mk_self_bills m) (mj_entries m) (mj_postings m) (mj_balances m).
Definition with_mk_licences (v : gmap string LicenceRow) m : Market :=
  mkMarket (mk_store m) (mk_listings m) (mk_lineage m) (mk_cards m) (mk_owners m) (mk_offers m) v (mk_uses m) (mk_tax_lines m) (mk_earnings m) (mk_refunds m) (mk_holds m) (mk_sellers m) (mk_profiles m) (mk_payouts m) (mk_self_bills m) (mj_entries m) (mj_postings m) (mj_balances m).
Definition with_mk_uses (v : gmap string UseRow) m : Market :=
  mkMarket (mk_store m) (mk_listings m) (mk_lineage m) (mk_cards m) (mk_owners m) (mk_offers m) (mk_licences m) v (mk_tax_lines m) (mk_earnings m) (mk_refunds m) (mk_holds m) (mk_sellers m) (mk_profiles m) (mk_payouts m) (mk_self_bills m) (mj_entries m) (mj_postings m) (mj_balances m).
Definition with_mk_tax_lines (v : gmap string TaxLine) m : Market :=
  mkMarket (mk_store m) (mk_listings m) (mk_lineage m) (mk_cards m) (mk_owners m) (mk_offers m) (mk_licences m) (mk_uses m) v (mk_earnings m) (mk_refunds m) (mk_holds m) (mk_sellers m) (mk_profiles m) (mk_payouts m) (mk_self_bills m) (mj_entries m) (mj_postings m) (mj_balances m).
Definition with_mk_earnings (v : list EarningRow) m : Market :=
  mkMarket (mk_store m) (mk_listings m) (mk_lineage m) (mk_cards m) (mk_owners m) (mk_offers m) (mk_licences m) (mk_uses m) (mk_tax_lines m) v (mk_refunds m) (mk_holds m) (mk_sellers m) (mk_profiles m) (mk_payouts m) (mk_self_bills m) (mj_entries m) (mj_postings m) (mj_balances m).
Definition with_mk_refunds (v : gmap string RefundRow) m : Market :=
  mkMarket (mk_store m) (mk_listings m) (mk_lineage m) (mk_cards m) (mk_owners m) (mk_offers m) (mk_licences m) (mk_uses m) (mk_tax_lines m) (mk_earnings m) v (mk_holds m) (mk_sellers m) (mk_profiles m) (mk_payouts m) (mk_self_bills m) (mj_entries m) (mj_postings m) (mj_balances m).
Definition with_mk_holds (v : gmap string HoldRow) m : Market :=
  mkMarket (mk_store m) (mk_listings m) (mk_lineage m) (mk_cards m) (mk_owners m) (mk_offers m) (mk_licences m) (mk_uses m) (mk_tax_lines m) (mk_earnings m) (mk_refunds m) v (mk_sellers m) (mk_profiles m) (mk_payouts m) (mk_self_bills m) (mj_entries m) (mj_postings m) (mj_balances m).
Definition with_mk_sellers (v : gmap string SellerRow) m : Market :=
  mkMarket (mk_store m) (mk_listings m) (mk_lineage m) (mk_cards m) (mk_owners m) (mk_offers m) (mk_licences m) (mk_uses m) (mk_tax_lines m) (mk_earnings m) (mk_refunds m) (mk_holds m) v (mk_profiles m) (mk_payouts m) (mk_self_bills m) (mj_entries m) (mj_postings m) (mj_balances m).
Definition with_mk_profiles (v : gmap string TaxProfile) m : Market :=
  mkMarket (mk_store m) (mk_listings m) (mk_lineage m) (mk_cards m) (mk_owners m) (mk_offers m) (mk_licences m) (mk_uses m) (mk_tax_lines m) (mk_earnings m) (mk_refunds m) (mk_holds m) (mk_sellers m) v (mk_payouts m) (mk_self_bills m) (mj_entries m) (mj_postings m) (mj_balances m).
Definition with_mk_payouts (v : gmap string PayoutRow) m : Market :=
  mkMarket (mk_store m) (mk_listings m) (mk_lineage m) (mk_cards m) (mk_owners m) (mk_offers m) (mk_licences m) (mk_uses m) (mk_tax_lines m) (mk_earnings m) (mk_refunds m) (mk_holds m) (mk_sellers m) (mk_profiles m) v (mk_self_bills m) (mj_entries m) (mj_postings m) (mj_balances m).
Definition with_mk_self_bills (v : list SelfBillRow) m : Market :=
  mkMarket (mk_store m) (mk_listings m) (mk_lineage m) (mk_cards m) (mk_owners m) (mk_offers m) (mk_licences m) (mk_uses m) (mk_tax_lines m) (mk_earnings m) (mk_refunds m) (mk_holds m) (mk_sellers m) (mk_profiles m) (mk_payouts m) v (mj_entries m) (mj_postings m) (mj_balances m).
Definition with_mj_entries (v : gmap (JournalKind * string) (string * Z)) m : Market :=
  mkMarket (mk_store m) (mk_listings m) (mk_lineage m) (mk_cards m) (mk_owners m) (mk_offers m) (mk_licences m) (mk_uses m) (mk_tax_lines m) (mk_earnings m) (mk_refunds m) (mk_holds m) (mk_sellers m) (mk_profiles m) (mk_payouts m) (mk_self_bills m) v (mj_postings m) (mj_balances m).
Definition with_mj_postings (v : list PostingRow) m : Market :=
  mkMarket (mk_store m) (mk_listings m) (mk_lineage m) (mk_cards m) (mk_owners m) (mk_offers m) (mk_licences m) (mk_uses m) (mk_tax_lines m) (mk_earnings m) (mk_refunds m) (mk_holds m) (mk_sellers m) (mk_profiles m) (mk_payouts m) (mk_self_bills m) (mj_entries m) v (mj_balances m).
Definition with_mj_balances (v : gmap (string * string * string) Z) m : Market :=
  mkMarket (mk_store m) (mk_listings m) (mk_lineage m) (mk_cards m) (mk_owners m) (mk_offers m) (mk_licences m) (mk_uses m) (mk_tax_lines m) (mk_earnings m) (mk_refunds m) (mk_holds m) (mk_sellers m) (mk_profiles m) (mk_payouts m) (mk_self_bills m) (mj_entries m) (mj_postings m) v.

(** ** Transactions *)

(** [EDb] is an error of the database or of the wallet's own code. *)
Inductive MarketErr : Type :=
| EDb (e : WalletErr)
| ErrNotFound
| ErrInvalid
| ErrOutOfHoldback
| ErrNothingAvailable
| ErrTaxHold
| ErrNoCause             (* a reversal of no known cause *)
| ErrRoyalties           (* [bits.Div64] panicked under the royalties *)
| ErrTaxPartner
| ErrStripe.

Abbreviation MTx := (Tx MarketErr Market).

(** A transaction on the wallet's tables, as part of one on the marketplace's. *)
Definition store_tx {A} (t : WTx A) : MTx A := fun m =>
  match t (mk_store m) with
  | Ok (a, s) => Ok (a, with_mk_store s m)
  | Err e => Err (EDb e)
  end.

Definition market_bigint (z : Z) : MTx Z := sql_bigint (EDb ErrBigintRange) z.

(** A CHECK, UNIQUE or PRIMARY KEY constraint. *)
Definition constraint (b : bool) : MTx unit := tx_guard b (EDb ErrCheck).

Definition test_workspace (m : Market) (ws : string) : bool := synthetic (mk_store m) ws.

(** ** Amounts, dates and accounts *)

(** How many µLXC make one µUSD at the LXC peg. *)
Definition ulxcPerUSDMicro : Z := 10.

Definition Holdback : Z := 14 * 24 * hour.

Definition monthOf (t : Z) : Z * Z := (Year UTC t, Month UTC t).

(** The ISO week holds its Thursday: the year and the week of the year that Thursday is in. *)
Definition weekOf (t : Z) : Z * Z :=
  let days := wall_days UTC t in
  let thursday := days - (days + 3) mod 7 + 3 in
  let y := (civil_from_days thursday).1.1 in
  (y, (thursday - days_from_civil y 1 1) / 7 + 1).

Definition AccountStripeClearing : string := "stripe:clearing".
Definition AccountMarketFee : string := "revenue:market_fee".
Definition AccountRoundingStripe : string := "rounding:stripe".
Definition AccountConnectFees : string := "stripe:connect_fees".
Definition AccountCreditsIssued : string := "credits:issued".
Definition AccountTrialWaived : string := "trial:waived".
Definition AccountTrialFee : string := "trial:market_fee".

Definition SellerHoldback (ws : string) : string := ("seller:" +:+ ws +:+ ":holdback")%string.
Definition SellerAvailable (ws : string) : string := ("seller:" +:+ ws +:+ ":available")%string.
Definition TrialSeller (ws : string) : string := ("trial:seller:" +:+ ws)%string.
Definition AccountTax (jurisdiction : string) : string := ("tax:" +:+ jurisdiction)%string.
Definition AccountTaxInput (jurisdiction : string) : string := (AccountTax jurisdiction +:+ ":input")%string.

Fixpoint strip_prefix (p s : string) : option string :=
  match p, s with
  | EmptyString, _ => Some s
  | String a p, String b s => if decide (a = b) then strip_prefix p s else None
  | String _ _, EmptyString => None
  end.

Fixpoint strip_suffix (x s : string) : option string :=
  if decide (s = x) then Some EmptyString
  else match s with
       | EmptyString => None
       | String a s => String a <$> strip_suffix x s
       end.

(** [account ~ '^seller:.+:<side>$']: the workspace between. *)
Definition seller_of (side account : string) : option string :=
  match strip_prefix "seller:" account ≫= strip_suffix (":" +:+ side)%string with
  | Some ws => if decide (ws = EmptyString) then None else Some ws
  | None => None
  end.

Definition is_upper (a : Ascii.ascii) : bool :=
  let n := N_of_ascii a in (65 <=? n)%N && (n <=? 90)%N.

(** [account ~ '^tax:[A-Z]{2}(:input)?$']. *)
Definition tax_account (account : string) : bool :=
  match strip_prefix "tax:" account with
  | Some (String a (String b rest)) =>
      is_upper a && is_upper b && bool_decide (rest = EmptyString \/ rest = ":input"%string)
  | _ => false
  end.

(** [market_journal_postings_account_check]. *)
Definition account_ok (account : string) : bool :=
  bool_decide (account ∈ [AccountStripeClearing; AccountMarketFee; AccountRoundingStripe; AccountConnectFees;
                          AccountCreditsIssued; AccountTrialWaived; AccountTrialFee])
  || bool_decide (is_Some (seller_of "holdback" account))
  || bool_decide (is_Some (seller_of "available" account))
  || match strip_prefix "trial:seller:" account with Some (String _ _) => true | _ => false end
  || tax_account account.

(** [funding]: live only when a live-mode invoice paid a real workspace. *)
Definition funding (livemode test : bool) : string :=
  if livemode && negb test then "live"%string else "test"%string.

#[export] Instance sumZ_proper : Proper (Permutation ==> eq) sumZ.
Proof. intros l k. apply sumZ_perm. Qed.

(** ** Facts of strings *)

Lemma append_cons a (s t : string) : (String a s +:+ t)%string = String a (s +:+ t).
Proof. done. Qed.

Lemma strip_prefix_app p s : strip_prefix p (p +:+ s) = Some s.
Proof. induction p as [|a p IH]; [done|]. rewrite append_cons. cbn [strip_prefix]. by rewrite decide_True. Qed.

Lemma strip_prefix_some p s t : strip_prefix p s = Some t -> s = (p +:+ t)%string.
Proof.
  revert s. induction p as [|a p IH]; intros s; [by intros [= ->]|].
  destruct s as [|b s]; cbn [strip_prefix]; [done|].
  case_decide as D; [|done]. subst. intros H. by rewrite append_cons, <- (IH s H).
Qed.

Lemma string_length_app (s t : string) : String.length (s +:+ t) = (String.length s + String.length t)%nat.
Proof. induction s as [|a s IH]; [done|]. rewrite append_cons. cbn. by rewrite IH. Qed.

Lemma strip_suffix_app x t : strip_suffix x (t +:+ x) = Some t.
Proof.
  induction t as [|a t IH].
  - change ("" +:+ x)%string with x. destruct x; cbn [strip_suffix]; by rewrite decide_True.
  - rewrite append_cons. cbn [strip_suffix]. rewrite decide_False; [by rewrite IH|]. intros E.
    apply (f_equal String.length) in E. cbn in E. rewrite string_length_app in E. lia.
Qed.

Lemma strip_suffix_some x s t : strip_suffix x s = Some t -> s = (t +:+ x)%string.
Proof.
  revert t. induction s as [|a s IH]; intros t; cbn [strip_suffix]; case_decide as D.
  - intros [= <-]. exact D.
  - done.
  - intros [= <-]. exact D.
  - destruct (strip_suffix x s) as [u|] eqn:E; [|done]. cbn. intros [= <-]. by rewrite append_cons, <- (IH u eq_refl).
Qed.

Lemma seller_of_some side a ws :
  seller_of side a = Some ws -> a = ("seller:" +:+ ws +:+ ":" +:+ side)%string /\ ws <> EmptyString.
Proof.
  unfold seller_of. destruct (strip_prefix "seller:" a) as [t|] eqn:E; [|done]. cbn.
  destruct (strip_suffix _ t) as [u|] eqn:E2; [|done]. case_decide; [done|]. intros [= <-]. split; [|done].
  by rewrite (strip_prefix_some _ _ _ E), (strip_suffix_some _ _ _ E2).
Qed.

Lemma seller_of_holdback ws : ws <> EmptyString -> seller_of "holdback" (SellerHoldback ws) = Some ws.
Proof.
  intros H. unfold seller_of, SellerHoldback. rewrite strip_prefix_app. cbn [mbind option_bind].
  change (":" +:+ "holdback")%string with ":holdback"%string. rewrite strip_suffix_app. by rewrite decide_False.
Qed.

Lemma string_app_inj_r (s t x : string) : (s +:+ x)%string = (t +:+ x)%string -> s = t.
Proof. intros E. pose proof (strip_suffix_app x s) as H. rewrite E, strip_suffix_app in H. congruence. Qed.

#[export] Instance SellerHoldback_inj : Inj (=) (=) SellerHoldback.
Proof. intros a b E. unfold SellerHoldback in E. apply (inj (String.append "seller:")) in E. by apply string_app_inj_r in E. Qed.

#[export] Instance SellerAvailable_inj : Inj (=) (=) SellerAvailable.
Proof. intros a b E. unfold SellerAvailable in E. apply (inj (String.append "seller:")) in E. by apply string_app_inj_r in E. Qed.

(** A string's last character tells the two accounts of a seller apart. *)
Fixpoint last_char (s : string) : option Ascii.ascii :=
  match s with
  | EmptyString => None
  | String a EmptyString => Some a
  | String _ s => last_char s
  end.

Lemma last_char_app (s t : string) : t <> EmptyString -> last_char (s +:+ t) = last_char t.
Proof.
  intros Ht. induction s as [|b s IH]; [done|]. rewrite append_cons. cbn [last_char].
  destruct (s +:+ t)%string eqn:E; [|exact IH]. destruct s; [|by rewrite append_cons in E].
  by change ("" +:+ t)%string with t in E.
Qed.

Lemma holdback_not_available a b : SellerHoldback a <> SellerAvailable b.
Proof.
  intros E%(f_equal last_char). unfold SellerHoldback, SellerAvailable in E.
  assert (N : forall (s : string) c x, (s +:+ String c x)%string <> EmptyString) by (by intros []).
  rewrite !(last_char_app "seller:"), !last_char_app in E; done.
Qed.

(** An account no seller's balance is kept in. *)
Definition house_account (a : string) : Prop := forall ws, a <> SellerHoldback ws /\ a <> SellerAvailable ws.

Lemma house_clearing : house_account AccountStripeClearing.
Proof. by split. Qed.
Lemma house_fee : house_account AccountMarketFee.
Proof. by split. Qed.
Lemma house_connect : house_account AccountConnectFees.
Proof. by split. Qed.
Lemma house_credits : house_account AccountCreditsIssued.
Proof. by split. Qed.
Lemma house_waived : house_account AccountTrialWaived.
Proof. by split. Qed.
Lemma house_trial_fee : house_account AccountTrialFee.
Proof. by split. Qed.
Lemma house_trial_seller ws : house_account (TrialSeller ws).
Proof. by split. Qed.
Lemma house_tax j : house_account (AccountTax j).
Proof. by split. Qed.
Lemma house_tax_input j : house_account (AccountTaxInput j).
Proof. by split. Qed.
