(* ===== verification/MarketJournal.v ===== *)
(** The marketplace journal ([internal/market/journal.go], migrations [0199], [0200]):
    entries of double-entry postings in µUSD, the trigger that keeps each account's
    balance, the mirror entry a refund posts, and the deferred constraint that an entry
    sums to zero in each currency. *)
From S2P Require Import Prelude Money Tables Postings Clock Lxc Royalties MarketTables.
Open Scope Z_scope.
Open Scope i64_scope.

Implicit Types (m : Market).

(** ** Writing an entry *)

(** The lines an entry is written with: no zero, the currency and the funding filled in. *)
Definition journal_line (fundedBy : string) (p : JournalPosting) : JournalPosting :=
  mkPost (jp_account p) (jp_amount p)
    (if bool_decide (jp_currency p = EmptyString) then "USD"%string else jp_currency p)
    (if bool_decide (jp_funding p = EmptyString) then fundedBy else jp_funding p).

Definition journal_lines (fundedBy : string) (ps : list JournalPosting) : list JournalPosting :=
  journal_line fundedBy <$> filter (fun p => jp_amount p <> 0) ps.

Fixpoint journal_rows (id : string) (line : Z) (ps : list JournalPosting) : list PostingRow :=
  match ps with
  | [] => []
  | p :: ps => mkPostingRow id line (jp_account p) (jp_amount p) (jp_currency p) (jp_funding p) :: journal_rows id (line + 1) ps
  end.

(** [currency ~ '^[A-Z]{3}$']. *)
Definition currency_ok (s : string) : bool :=
  match s with
  | String a (String b (String c EmptyString)) => is_upper a && is_upper b && is_upper c
  | _ => false
  end.

(** The CHECKs of [market_journal_postings]. *)
Definition posting_ok (r : PostingRow) : bool :=
  account_ok (pr_account r) && negb (pr_amount r =? 0) && currency_ok (pr_currency r)
  && bool_decide (pr_funding r = "test"%string \/ pr_funding r = "live"%string).

Definition pr_key (r : PostingRow) : string * string * string := (pr_account r, pr_currency r, pr_funding r).

Definition journal_balance (m : Market) (k : string * string * string) : Z := default 0 (mj_balances m !! k).

(** [market_journal_balances_post], after each posting. *)
Definition journal_balances_post (r : PostingRow) : MTx unit :=
  let! old := tx_gets (fun m => journal_balance m (pr_key r)) in
  let! new := market_bigint (old + pr_amount r) in
  tx_modify (fun m => with_mj_balances (<[pr_key r := new]> (mj_balances m)) m).

Fixpoint insert_rows (rows : list PostingRow) : MTx unit :=
  match rows with
  | [] => tx_ret tt
  | r :: rows =>
      constraint (posting_ok r) ;;;
      tx_modify (fun m => with_mj_postings (r :: mj_postings m) m) ;;;
      journal_balances_post r ;;;
      insert_rows rows
  end.

(** One entry and its postings: the entry's id is a primary key, and a kind has one
    entry of a ref. *)
Definition insert_entry (kind : JournalKind) (ref id : string) (at_ : Z) (rows : list PostingRow) : MTx unit :=
  let! old := tx_gets mj_entries in
  constraint (bool_decide (old !! (kind, ref) = None) && bool_decide (map_Forall (fun _ e => e.1 <> id) old)) ;;;
  tx_modify (fun m => with_mj_entries (<[(kind, ref) := (id, at_)]> (mj_entries m)) m) ;;;
  insert_rows rows.

(** The id of a new row: its prefix and a UUID. *)
Definition new_id (c : Ctx) (prefix : string) : MTx string :=
  let! u := store_tx (uuid_new c) in
  tx_ret (prefix +:+ u)%string.

Definition PostJournalTx (c : Ctx) (kind : JournalKind) (ref fundedBy : string) (at_ : Z) (ps : list JournalPosting) : MTx string :=
  match journal_lines fundedBy ps with
  | [] => tx_ret EmptyString
  | lines =>
      let! id := new_id c "mje_" in
      insert_entry kind ref id at_ (journal_rows id 1 lines) ;;;
      tx_ret id
  end.

Definition postClearTx (c : Ctx) (useID : string) (collected fee : Z) (fundedBy : string) (at_ : Z) (payees : list JournalPosting) : MTx unit :=
  PostJournalTx c JournalClear useID fundedBy at_
    (mkPost AccountStripeClearing collected "" "" :: mkPost AccountMarketFee (-! fee) "" "" :: payees) ;;;
  tx_ret tt.

(** [market_journal_reverse_use]: the mirror of a use's clear entry, its sellers' part
    taken from where it is now. *)
Definition reverse_account (released : bool) (a : string) : string :=
  if released then match seller_of "holdback" a with
                   | Some ws => SellerAvailable ws
                   | None => a
                   end
  else a.

Definition reverse_row (id : string) (released : bool) (r : PostingRow) : PostingRow :=
  mkPostingRow id (pr_line r) (reverse_account released (pr_account r)) (- pr_amount r) (pr_currency r) (pr_funding r).

Definition entry_rows (m : Market) (id : string) : list PostingRow :=
  filter (fun r => pr_entry r = id) (reverse (mj_postings m)).

Definition market_journal_reverse_use (c : Ctx) (useID : string) (at_ : Z) : MTx unit :=
  let! entries := tx_gets mj_entries in
  match entries !! (JournalClear, useID) with
  | None => tx_ret tt
  | Some (cleared, _) =>
      let released := bool_decide (is_Some (entries !! (JournalRelease, useID))) in
      let! id := new_id c "mje_" in
      let! rows := tx_gets (fun m => entry_rows m cleared) in
      insert_entry JournalReversal useID id at_ (reverse_row id released <$> rows)
  end.

(** ** Committing *)

Definition entry_total (l : list PostingRow) (entry currency : string) : Z :=
  sumZ (pr_amount <$> filter (fun r => pr_entry r = entry /\ pr_currency r = currency) l).

(** [market_journal_balanced], for the postings a transaction wrote. *)
Definition journal_balanced (inserted all : list PostingRow) : bool :=
  forallb (fun r => forallb (fun q => negb (bool_decide (pr_entry q = pr_entry r)) || (entry_total all (pr_entry q) (pr_currency q) =? 0)) all) inserted.

Definition market_committed {A} (t : MTx A) : MTx A := fun m =>
  match t m with
  | Err e => Err e
  | Ok (a, m') =>
      let l := mj_postings m' in
      if journal_balanced (take (length l - length (mj_postings m)) l) l then Ok (a, m') else Err (EDb ErrUnbalanced)
  end.

(** [JournalBalance]: test and live money together. *)
Definition JournalBalance (account currency : string) : MTx Z :=
  let currency := if bool_decide (currency = EmptyString) then "USD"%string else currency in
  let! b := tx_gets (fun m => map_sum (fun k v => if bool_decide (k.1.1 = account /\ k.1.2 = currency) then v else 0) (mj_balances m)) in
  market_bigint b.

(** ** What an entry does *)

Definition add_balance (r : PostingRow) (b : gmap (string * string * string) Z) : gmap (string * string * string) Z :=
  <[pr_key r := default 0 (b !! pr_key r) + pr_amount r]> b.

Definition add_balances (rows : list PostingRow) (b : gmap (string * string * string) Z) : gmap (string * string * string) Z :=
  foldl (fun b r => add_balance r b) b rows.

(** The state after the entry is written. *)
Definition entered (kind : JournalKind) (ref id : string) (at_ : Z) (rows : list PostingRow) m : Market :=
  with_mj_balances (add_balances rows (mj_balances m))
    (with_mj_postings (rev_append rows (mj_postings m))
      (with_mj_entries (<[(kind, ref) := (id, at_)]> (mj_entries m)) m)).

(** What rows add to the balance kept under a key. *)
Definition rows_on (k : string * string * string) (rows : list PostingRow) : Z :=
  sumZ (pr_amount <$> filter (fun r => pr_key r = k) rows).

Lemma market_committed_ok {A} (t : MTx A) m a m' : market_committed t m = Ok (a, m') -> t m = Ok (a, m').
Proof.
  unfold market_committed. destruct (t m) as [[b m1]|]; [|done]. destruct (journal_balanced _ _); [|done].
  by intros [= -> ->].
Qed.

Lemma store_tx_ok {A} (t : WTx A) m a m' :
  store_tx t m = Ok (a, m') <-> exists s, t (mk_store m) = Ok (a, s) /\ m' = with_mk_store s m.
Proof.
  unfold store_tx. destruct (t (mk_store m)) as [[b s]|e]; split; [|naive_solver|done|naive_solver].
  intros [= <- <-]. eauto.
Qed.

Lemma constraint_ok b m v m' : constraint b m = Ok (v, m') <-> b = true /\ v = tt /\ m' = m.
Proof.
  unfold constraint, tx_guard. destruct b; [rewrite tx_ret_ok|rewrite tx_fail_ok]; destruct v; naive_solver.
Qed.

Lemma market_bigint_ok z r m m' : market_bigint z m = Ok (r, m') <-> r = z /\ m' = m /\ in_i64 z.
Proof. apply sql_bigint_ok. Qed.

Lemma new_id_ok c p m id m' : new_id c p m = Ok (id, m') -> exists s, m' = with_mk_store s m.
Proof.
  intros H. apply tx_bind_ok in H as (u & m1 & H1 & H). apply store_tx_ok in H1 as (s & _ & ->).
  apply tx_ret_ok in H as [_ ->]. eauto.
Qed.

Lemma insert_rows_ok rows : forall m v m', insert_rows rows m = Ok (v, m') ->
  m' = with_mj_balances (add_balances rows (mj_balances m)) (with_mj_postings (rev_append rows (mj_postings m)) m) /\
  Forall (fun r => posting_ok r = true) rows.
Proof.
  induction rows as [|r rows IH]; intros m v m' H; cbn [insert_rows] in H.
  - apply tx_ret_ok in H as [-> ->]. destruct m. done.
  - apply tx_bind_ok in H as (? & m1 & H1 & H). apply constraint_ok in H1 as (Hr & _ & ->).
    unfold journal_balances_post in H. rewrite tx_modify_bind in H.
    apply tx_bind_ok in H as (? & m1 & H1 & H). rewrite tx_gets_bind in H1.
    apply tx_bind_ok in H1 as (? & m2 & H2 & H1). apply market_bigint_ok in H2 as (-> & -> & _).
    apply tx_modify_ok in H1 as ->. apply IH in H as [-> HF]. split; [|by constructor]. destruct m. done.
Qed.

Lemma insert_entry_ok kind ref id at_ rows m v m' : insert_entry kind ref id at_ rows m = Ok (v, m') ->
  m' = entered kind ref id at_ rows m /\ mj_entries m !! (kind, ref) = None /\
  map_Forall (fun _ e => e.1 <> id) (mj_entries m) /\ Forall (fun r => posting_ok r = true) rows.
Proof.
  intros H. unfold insert_entry in H. rewrite tx_gets_bind in H.
  apply tx_bind_ok in H as (? & m1 & H1 & H). apply constraint_ok in H1 as (Hg & _ & ->).
  apply andb_prop in Hg as [H1%bool_decide_eq_true H2%bool_decide_eq_true].
  rewrite tx_modify_bind in H. apply insert_rows_ok in H as [-> HF]. by split_and!.
Qed.

Lemma rows_on_cons k r rows : rows_on k (r :: rows) = (if decide (pr_key r = k) then pr_amount r else 0) + rows_on k rows.
Proof. unfold rows_on. rewrite filter_cons. case_decide; csimpl; lia. Qed.

Lemma add_balances_lookup rows : forall b k,
  default 0 (add_balances rows b !! k) = default 0 (b !! k) + rows_on k rows.
Proof.
  induction rows as [|r rows IH]; intros b k; [cbn; lia|].
  change (add_balances (r :: rows) b) with (add_balances rows (add_balance r b)). rewrite IH, rows_on_cons. unfold add_balance.
  case_decide as D; [subst; rewrite lookup_insert_eq|rewrite lookup_insert_ne by done]; cbn; lia.
Qed.

Lemma entered_balance kind ref id at_ rows m k :
  journal_balance (entered kind ref id at_ rows m) k = journal_balance m k + rows_on k rows.
Proof. unfold journal_balance, entered. cbn. apply add_balances_lookup. Qed.

(** What lines add to an account's balance in dollars of one funding. *)
Definition lines_on (a f : string) (ps : list JournalPosting) : Z :=
  sumZ ((fun p => if decide (jp_account p = a /\ jp_currency p = "USD"%string /\ jp_funding p = f) then jp_amount p else 0) <$> ps).

Lemma journal_rows_on a f id ps : forall line, rows_on (a, "USD"%string, f) (journal_rows id line ps) = lines_on a f ps.
Proof.
  induction ps as [|p ps IH]; intros line; [done|]. cbn [journal_rows]. rewrite rows_on_cons, IH.
  unfold lines_on at 2. cbn [fmap list_fmap sumZ]. unfold pr_key; cbn [pr_account pr_amount pr_currency pr_funding].
  f_equal. apply decide_ext. split; [by intros [= -> -> ->]|by intros (-> & -> & ->)].
Qed.

Lemma lines_on_app a f l k : lines_on a f (l ++ k) = lines_on a f l + lines_on a f k.
Proof. unfold lines_on. by rewrite fmap_app, sumZ_app. Qed.

(** Leaving the zeros out moves no balance. *)
Lemma journal_lines_on a f fb ps :
  lines_on a f (journal_lines fb ps) = lines_on a f (journal_line fb <$> ps).
Proof.
  unfold journal_lines. induction ps as [|p ps IH]; [done|]. rewrite filter_cons. unfold lines_on in *.
  case_decide as D; csimpl; rewrite IH; [done|]. destruct (Z.eq_dec (jp_amount p) 0) as [->|]; [|done]. by repeat case_match.
Qed.

Lemma PostJournalTx_ok c kind ref fb at_ ps m id m' : PostJournalTx c kind ref fb at_ ps m = Ok (id, m') ->
  (journal_lines fb ps = [] /\ m' = m) \/
  (mj_entries m !! (kind, ref) = None /\ map_Forall (fun _ e => e.1 <> id) (mj_entries m) /\
   exists s, m' = entered kind ref id at_ (journal_rows id 1 (journal_lines fb ps)) (with_mk_store s m)).
Proof.
  unfold PostJournalTx. destruct (journal_lines fb ps) as [|l ls] eqn:E.
  - intros H. apply tx_ret_ok in H as [-> ->]. by left.
  - intros H. right. apply tx_bind_ok in H as (i & m1 & H1 & H). apply new_id_ok in H1 as [s ->].
    apply tx_bind_ok in H as (? & m1 & H1 & H). apply tx_ret_ok in H as [-> ->].
    apply insert_entry_ok in H1 as (-> & H1 & H2 & _). cbn in H1, H2. eauto.
Qed.

(** Posting an entry moves no wallet. *)
Lemma new_id_wallets c p m id m' : new_id c p m = Ok (id, m') -> forall ws, lxc_row (mk_store m') ws = lxc_row (mk_store m) ws.
Proof.
  intros H ws. apply tx_bind_ok in H as (u & m1 & H1 & H). apply store_tx_ok in H1 as (s & H1 & ->).
  apply uuid_new_ok in H1 as [_ ->]. by apply tx_ret_ok in H as [_ ->].
Qed.

Lemma PostJournalTx_wallets c kind ref fb at_ ps m id m' : PostJournalTx c kind ref fb at_ ps m = Ok (id, m') ->
  forall ws, lxc_row (mk_store m') ws = lxc_row (mk_store m) ws.
Proof.
  unfold PostJournalTx. destruct (journal_lines fb ps); [by intros [_ ->]%tx_ret_ok|].
  intros H ws. apply tx_bind_ok in H as (i & m1 & H1 & H). rewrite <- (new_id_wallets _ _ _ _ _ H1).
  apply tx_bind_ok in H as (? & m2 & H2 & H). apply tx_ret_ok in H as [_ ->].
  by apply insert_entry_ok in H2 as (-> & _).
Qed.

(** The tables an entry leaves alone. *)
Lemma PostJournalTx_frame c kind ref fb at_ ps m id m' : PostJournalTx c kind ref fb at_ ps m = Ok (id, m') ->
  mk_uses m' = mk_uses m /\ mk_earnings m' = mk_earnings m /\ mk_refunds m' = mk_refunds m /\ mk_holds m' = mk_holds m /\
  mk_payouts m' = mk_payouts m /\ mk_profiles m' = mk_profiles m.
Proof. intros [[_ ->]|(_ & _ & s & ->)]%PostJournalTx_ok; by split_and!. Qed.
