(* ===== verification/Sales.v ===== *)
(** Clearing and reversing a sale: [ClearInvoice] of [internal/market/use.go] with the
    royalties of [royalties.go] and the rent-to-own of [renewals.go], [ReverseInvoice] of
    [payout.go] and [refundUses] of [review.go]. *)
From S2P Require Import Prelude Money Tables Postings Clock Lxc Desk Capabilities Royalties MarketTables MarketJournal.
From stdpp Require Import sorting.
Open Scope Z_scope.
Open Scope i64_scope.

Implicit Types (m : Market).

(** [fees.Settings], what the marketplace takes of a sale. *)
Record FeeSettings := mkFees {
  MarketTakeBPS : Z;
  ServicesTakeBPS : Z;
}.

(** [fees.Defaults]. *)
Definition default_fees : FeeSettings := mkFees 1500 500.

(** What [bps] of [fees.go] accepts. *)
Definition fees_ok (f : FeeSettings) : Prop := 0 <= MarketTakeBPS f <= BPSDenominator /\ 0 <= ServicesTakeBPS f <= BPSDenominator.

Definition takeBPS (f : FeeSettings) (payment : bool) : Z :=
  if payment then ServicesTakeBPS f else MarketTakeBPS f.

Definition SellerShare (gross take : Z) : Z :=
  let keep := BPSDenominator -! take in
  Z.quot gross BPSDenominator *! keep +! Z.quot (Z.rem gross BPSDenominator *! keep) BPSDenominator.

(** ** Who a sale pays *)

(** [linkedSQL] over one of its two tables: the two workspaces share a key. *)
Definition shares_key (l : list (string * string)) (a b : string) : bool :=
  existsb (fun x => bool_decide (x.1 = a) && existsb (fun y => bool_decide (y.1 = b /\ y.2 = x.2)) l) l.

Definition linked (m : Market) (a b : string) : bool := shares_key (mk_cards m) a b || shares_key (mk_owners m) a b.

(** [CheckMoneyWall] refuses: one of two workspaces is a test one. *)
Definition money_wall (m : Market) (a b : string) : bool :=
  negb (bool_decide (a = b)) && xorb (test_workspace m a) (test_workspace m b).

Definition lineage_parents (m : Market) (v : versionRef) : list lineageEdge :=
  omap (fun r => if bool_decide (ln_child r = v)
                 then (fun l => mkEdge (ln_id r) (ln_parent r) (ln_share r) (li_ws l)) <$> mk_listings m !! vr_listing (ln_parent r)
                 else None) (mk_lineage m).

Definition lineage_pays (m : Market) (buyer seller owner : string) : bool :=
  negb (bool_decide (owner = buyer)) && negb (bool_decide (owner = seller))
  && negb (money_wall m buyer owner) && negb (linked m owner buyer || linked m owner seller).

Definition CapabilityLineageRoyalties : string := "lineage_royalties".

Section Sales.
Context (F : FeeSettings) (L : LineageLimits) (c : Ctx).

Definition lineageRoyaltiesTx (buyer seller : string) (sold : versionRef) (pool : Z) (live : bool) : MTx (Z * list royalty) :=
  match CapabilityByKey CapabilityLineageRoyalties with
  | None => tx_ret (pool, [])
  | Some cap =>
      if live && negb (bool_decide (Class_ cap = ClassGreen)) then tx_ret (pool, [])
      else
        let! m := tx_gets (fun m => m) in
        match flowUp (fun v => @Ok MarketErr _ (lineage_parents m v)) (fun o => Ok (lineage_pays m buyer seller o))
                (maxLineageDepth L) (lineageCap L) pool sold with
        | Ok r => tx_ret r
        | Err _ => tx_fail ErrRoyalties
        end
  end.

(** ** Renting to own *)

Definition same_terms (buyer listing licence person : string) (l : LicenceRow) : bool :=
  bool_decide (lc_buyer l = buyer /\ lc_listing l = listing /\ lc_licence l = licence /\ lc_person l = person).

(** [UPDATE market_licences SET rent_paid_usd_micros = rent_paid_usd_micros + gross]. *)
Definition add_rent (gross : Z) (l : LicenceRow) : LicenceRow :=
  mkLicence (lc_listing l) (lc_offer l) (lc_buyer l) (lc_agent l) (lc_person l) (lc_licence l) (lc_kind l) (lc_pinned l)
    (lc_starts l) (lc_seats l) (lc_source l) (lc_rent_paid l + gross) (lc_auto_renew l).

Definition stop_renewal (buyer listing licence person : string) (l : LicenceRow) : LicenceRow :=
  if same_terms buyer listing licence person l && bool_decide (lc_kind l = "rent"%string \/ lc_kind l = "subscribe"%string)
  then mkLicence (lc_listing l) (lc_offer l) (lc_buyer l) (lc_agent l) (lc_person l) (lc_licence l) (lc_kind l) (lc_pinned l)
         (lc_starts l) (lc_seats l) (lc_source l) (lc_rent_paid l) false
  else l.

(** What the buyer's rents of the listing under the licence have paid. *)
Definition rents_paid (m : Market) (buyer listing licence person : string) : Z :=
  map_sum (fun _ l => if same_terms buyer listing licence person l && bool_decide (lc_kind l = "rent"%string) then lc_rent_paid l else 0)
    (mk_licences m).

Definition buy_offer (m : Market) (listing licence : string) : option OfferRow :=
  List.find (fun o => bool_decide (of_listing o = listing) && of_active o && bool_decide (of_kind o = "buy"%string /\ of_licence o = licence))
    (mk_offers m).

Definition owns_already (m : Market) (buyer listing licence person : string) : bool :=
  bool_decide (map_Exists (fun _ l => same_terms buyer listing licence person l = true /\ lc_source l = "rent_to_own"%string) (mk_licences m)).

Definition rentCleared (licenceID : string) (gross at_ : Z) : MTx unit :=
  let! row := tx_gets (fun m => mk_licences m !! licenceID) in
  match row with
  | None => tx_ret tt
  | Some l =>
      if negb (bool_decide (lc_kind l = "rent"%string)) then tx_ret tt
      else
        market_bigint (lc_rent_paid l + gross) ;;;
        constraint (0 <=? lc_rent_paid l + gross) ;;;
        tx_modify (fun m => with_mk_licences (<[licenceID := add_rent gross l]> (mk_licences m)) m) ;;;
        let '(buyer, listing, licence, person) := (lc_buyer l, lc_listing l, lc_licence l, lc_person l) in
        let! offer := tx_gets (fun m => buy_offer m listing licence) in
        match offer with
        | None => tx_ret tt
        | Some o =>
            let! paid := tx_gets (fun m => rents_paid m buyer listing licence person) in
            let! paid := market_bigint paid in
            if paid <? of_price o then tx_ret tt
            else
              let! id := new_id c "lic_" in
              let! owned := tx_gets (fun m => owns_already m buyer listing licence person) in
              (if owned then tx_ret tt
               else
                 let! taken := tx_gets (fun m => mk_licences m !! id) in
                 constraint (bool_decide (taken = None)) ;;;
                 tx_modify (fun m => with_mk_licences
                   (<[id := mkLicence listing (of_id o) buyer (lc_agent l) person licence "buy" (lc_pinned l) at_ (of_seats o) "rent_to_own" 0 false]>
                      (mk_licences m)) m)) ;;;
              tx_modify (fun m => with_mk_licences (stop_renewal buyer listing licence person <$> mk_licences m) m)
        end
  end.

(** ** Clearing *)

(** One row of [market_earnings] and the line its payee is posted; [test] is the payee's workspace's. *)
Definition earning_ok (m : Market) (e : EarningRow) : bool :=
  (0 <=? er_gross e) && (0 <=? er_share e) && in_i64b (er_share e)
  && match er_kind e with
     | EarningSale => bool_decide (er_ref e = EmptyString) && (er_depth e =? 0)
     | EarningLineage => negb (bool_decide (er_ref e = EmptyString)) && (0 <? er_depth e) && (er_gross e =? 0) && (er_fee e =? 0)
     end
  && forallb (fun x => negb (bool_decide (er_use x = er_use e /\ er_seller x = er_seller e /\ er_kind x = er_kind e /\ er_ref x = er_ref e)))
       (mk_earnings m).

Definition earn (useID invoice : string) (paidAt : Z) (livemode : bool)
    (payee : string) (kind : EarningKind) (ref : string) (depth gross fee amount : Z) : MTx JournalPosting :=
  let! test := tx_gets (fun m => test_workspace m payee) in
  let e := mkEarning useID payee kind ref depth gross amount fee invoice paidAt (paidAt + Holdback) livemode test in
  let! ok := tx_gets (fun m => earning_ok m e) in
  constraint ok ;;;
  tx_modify (fun m => with_mk_earnings (mk_earnings m ++ [e]) m) ;;;
  tx_ret (mkPost (SellerHoldback payee) (-! amount) "" (funding livemode test)).

Fixpoint earn_royalties (useID invoice : string) (paidAt : Z) (livemode : bool) (l : list royalty) : MTx (list JournalPosting) :=
  match l with
  | [] => tx_ret []
  | r :: l =>
      let! p := earn useID invoice paidAt livemode (ry_payee r) EarningLineage (ry_edgeID r) (ry_depth r) 0 0 (ry_amount r) in
      let! ps := earn_royalties useID invoice paidAt livemode l in
      tx_ret (p :: ps)
  end.

(** The tax an invoice collected beside a use's price, once it was metered. *)
Definition use_tax (m : Market) (useID : string) (u : UseRow) : string * Z :=
  match us_tax_metered u, mk_tax_lines m !! useID with
  | Some _, Some t => (tx_jurisdiction t, tx_tax t)
  | _, _ => (EmptyString, 0)
  end.

Definition set_cleared (invoice : string) (paidAt : Z) (u : UseRow) : UseRow :=
  mkUseRow (us_listing u) (us_version u) (us_seller u) (us_buyer u) (us_price u) (us_charge u) (us_at u) (us_ran u)
    (us_metered u) (us_tax_metered u) (us_payee_agent u) (us_licence u) (us_kind u) (Some (invoice, paidAt)).

Definition is_payment (u : UseRow) : bool := negb (bool_decide (us_payee_agent u = EmptyString)).

(** The loop's body: one use of the invoice. *)
Definition clear_use (buyer invoice : string) (paidAt : Z) (livemode : bool) (useID : string) (u : UseRow) : MTx nat :=
  let! refunded := tx_gets (fun m => bool_decide (is_Some (mk_refunds m !! useID))) in
  if refunded then tx_ret 0%nat
  else
    let gross := Z.quot (us_price u) ulxcPerUSDMicro in
    let share := SellerShare gross (takeBPS F (is_payment u)) in
    let! (keep, royalties) :=
      (if is_payment u then tx_ret (share, [])
       else
         let! test := tx_gets (fun m => test_workspace m (us_seller u)) in
         lineageRoyaltiesTx buyer (us_seller u) (mkVersion (us_listing u) (us_version u)) share
           (bool_decide (funding livemode test = "live"%string))) in
    let! first := earn useID invoice paidAt livemode (us_seller u) EarningSale "" 0 gross (gross -! share) keep in
    let! others := earn_royalties useID invoice paidAt livemode royalties in
    let! (jurisdiction, tax) := tx_gets (fun m => use_tax m useID u) in
    let taxes := if 0 <? tax then [mkPost (AccountTax jurisdiction) (-! tax) "" (jp_funding first)] else [] in
    postClearTx c useID (gross +! tax) (gross -! share) (jp_funding first) paidAt (first :: others ++ taxes) ;;;
    tx_modify (fun m => with_mk_uses (alter (set_cleared invoice paidAt) useID (mk_uses m)) m) ;;;
    (if negb (bool_decide (us_licence u = EmptyString)) && bool_decide (us_kind u = "rent"%string \/ us_kind u = "renewal"%string)
     then rentCleared (us_licence u) gross paidAt else tx_ret tt) ;;;
    tx_ret 1%nat.

Fixpoint clear_uses (buyer invoice : string) (paidAt : Z) (livemode : bool) (l : list (string * UseRow)) : MTx nat :=
  match l with
  | [] => tx_ret 0%nat
  | (id, u) :: l =>
      let! n := clear_use buyer invoice paidAt livemode id u in
      let! k := clear_uses buyer invoice paidAt livemode l in
      tx_ret (n + k)%nat
  end.

(** [ORDER BY used_at, id]. *)
Definition used_before (x y : string * UseRow) : Prop :=
  us_at x.2 < us_at y.2 \/ us_at x.2 = us_at y.2 /\ String.le x.1 y.1.

#[export] Instance used_before_dec : RelDecision used_before.
Proof. intros x y. unfold used_before. apply _. Defined.

(** The billed uses an invoice carried, not yet cleared. *)
Definition clearable (buyer : string) (from until : Z) (u : UseRow) : bool :=
  bool_decide (us_buyer u = buyer) && bool_decide (us_charge u = "billed"%string) && bool_decide (is_Some (us_metered u))
  && bool_decide (us_cleared u = None) && (from <=? us_at u) && (us_at u <? until).

Definition uses_where (p : UseRow -> bool) (m : Market) : list (string * UseRow) :=
  merge_sort used_before (filter (fun x => p x.2 = true) (map_to_list (mk_uses m))).

Definition ClearInvoice (buyer invoice : string) (from until paidAt : Z) (livemode : bool) : MTx nat :=
  market_committed (
    let! uses := tx_gets (uses_where (clearable buyer from until)) in
    clear_uses buyer invoice paidAt livemode uses).

(** [postTrialTx]: the split a trial use would have made, on test money. *)
Definition postTrialTx (useID seller : string) (gross at_ : Z) : MTx unit :=
  let share := SellerShare gross (takeBPS F false) in
  PostJournalTx c JournalTrial useID "test" at_
    [mkPost AccountTrialWaived gross "" ""; mkPost AccountTrialFee (-! (gross -! share)) "" ""; mkPost (TrialSeller seller) (-! share) "" ""] ;;;
  tx_ret tt.

(** ** Refunds *)

Definition use_share (m : Market) (useID : string) : Z :=
  sumZ ((fun e => if bool_decide (er_use e = useID) then er_share e else 0) <$> mk_earnings m).

(** [INSERT INTO market_refunds ... ON CONFLICT (use_id) DO NOTHING], with the trigger
    that journals it; it answers the rows inserted. *)
Definition insert_refund (useID : string) (u : UseRow) (reason : string) (cause : RefundCause) (ref : string) : MTx nat :=
  let! share := tx_gets (fun m => use_share m useID) in
  let! share := market_bigint share in
  let! old := tx_gets (fun m => mk_refunds m !! useID) in
  let row := mkRefund (us_listing u) (us_buyer u) (us_seller u) (us_price u) (Z.quot (us_price u) ulxcPerUSDMicro) share reason cause ref (now c) in
  constraint ((0 <? rf_price row) && (0 <=? rf_gross row) && (0 <=? rf_share row)) ;;;
  match old with
  | Some _ => tx_ret 0%nat
  | None =>
      tx_modify (fun m => with_mk_refunds (<[useID := row]> (mk_refunds m)) m) ;;;
      market_journal_reverse_use c useID (rf_at row) ;;;
      tx_ret 1%nat
  end.

(** A loop of transactions, each committed on its own: it answers how many rows were
    written before the first error, and that error. *)
Fixpoint each_use (one : string * UseRow -> MTx nat) (stop : Z -> bool) (add : string * UseRow -> Z)
    (l : list (string * UseRow)) (covered : Z) (n : nat) m : (nat * option MarketErr) * Market :=
  match l with
  | [] => ((n, None), m)
  | x :: l =>
      if stop covered then ((n, None), m)
      else
        match one x m, market_committed (one x) m with
        | Ok (k, _), Ok (_, m') => each_use one stop add l (covered +! add x) (n + k)%nat m'
        | Ok (k, _), Err e => (((n + k)%nat, Some e), m)
        | Err e, _ => ((n, Some e), m)
        end
  end.

(** What a use's reversal covers of the money given back: its price and its tax. *)
Definition use_cover (m : Market) (x : string * UseRow) : Z :=
  Z.quot (us_price x.2) ulxcPerUSDMicro +! (use_tax m x.1 x.2).2.

Definition covers (m : Market) (x : string * UseRow) : bool :=
  match mk_refunds m !! x.1 with
  | Some r => bool_decide (rf_cause r = CauseBuyerRefund \/ rf_cause r = CauseChargeback)
  | None => false
  end.

(** [ReverseInvoice]; the answer's flag is whether the invoice carried any use. *)
Definition ReverseInvoice (invoice : string) (cause : RefundCause) (ref : string) (amount : Z) (all : bool) m :
    (nat * bool * option MarketErr) * Market :=
  match cause with
  | CauseTakedown => ((0%nat, false, Some ErrNoCause), m)
  | _ =>
      let reason := (if bool_decide (cause = CauseBuyerRefund) then "the buyer's payment was refunded"
                     else "the buyer's payment was charged back")%string in
      let uses := uses_where (fun u => bool_decide (fst <$> us_cleared u = Some invoice)) m in
      if bool_decide (uses = []) then ((0%nat, false, None), m)
      else
        let covered := total64 (use_cover m <$> filter (fun x => covers m x = true) uses) in
        let todo := filter (fun x => mk_refunds m !! x.1 = None) uses in
        let '((n, err), m') := each_use (fun x => insert_refund x.1 x.2 reason cause ref)
                                 (fun covered => negb all && (amount <=? covered)) (use_cover m) todo covered 0 m in
        ((n, true, err), m')
  end.

(** A billed use of a listing taken down, refunded while its earning was still inside
    its holdback when the listing came down, or is kept there by a hold. *)
Definition held (m : Market) (useID : string) : bool :=
  bool_decide (map_Exists (fun _ h => hd_use h = useID /\ hd_released h = None) (mk_holds m)).

Definition down_refundable (m : Market) (listingID : string) (x : string * UseRow) : bool :=
  match mk_listings m !! us_listing x.2 with
  | Some l =>
      bool_decide (li_status l = ReviewTakenDown) && bool_decide (listingID = EmptyString \/ us_listing x.2 = listingID)
      && bool_decide (us_charge x.2 = "billed"%string) && bool_decide (is_Some (us_ran x.2))
      && (match List.find (fun e => bool_decide (er_use e = x.1 /\ er_kind e = EarningSale)) (mk_earnings m), li_down l with
          | None, _ => true
          | Some e, Some down => down <? er_payable e
          | Some _, None => false
          end || held m x.1)
      && bool_decide (mk_refunds m !! x.1 = None)
  | None => false
  end.

Definition refund_down (x : string * UseRow) : MTx nat :=
  let! row := tx_gets (fun m => mk_uses m !! x.1) in
  match row with
  | None => tx_fail (EDb ErrNoRow)
  | Some u =>
      let! l := tx_gets (fun m => mk_listings m !! us_listing u) in
      match l with
      | None => tx_ret 0%nat
      | Some l => insert_refund x.1 u ("the listing was taken down: " +:+ li_reason l)%string CauseTakedown ""
      end
  end.

Definition refundUses (listingID : string) m : (nat * option MarketErr) * Market :=
  let uses := take 1000 (merge_sort used_before (filter (fun x => down_refundable m listingID x = true) (map_to_list (mk_uses m)))) in
  each_use refund_down (fun _ => false) (fun _ => 0) uses 0 0 m.
End Sales.
