(* ===== verification/Holdback.v ===== *)
(** The holdback is the escrow ([internal/market/escrow.go]): a cleared earning waits out
    its 14 days, an open hold keeps it longer, and one release entry moves it to what its
    payees have available. *)
From S2P Require Import Prelude Money Tables Postings Clock Lxc Desk Capabilities Royalties MarketTables MarketJournal Sales.
From stdpp Require Import sorting.
Open Scope Z_scope.
Open Scope i64_scope.

Implicit Types (m : Market).

(** [dueAt]: past its holdback, held by nothing, never refunded, not yet released, and
    with a share to move. *)
Definition released (m : Market) (useID : string) : bool := bool_decide (is_Some (mj_entries m !! (JournalRelease, useID))).
Definition refunded (m : Market) (useID : string) : bool := bool_decide (is_Some (mk_refunds m !! useID)).

Definition dueAt (m : Market) (now_ : Z) (e : EarningRow) : bool :=
  (er_payable e <=? now_) && (0 <? er_share e) && negb (held m (er_use e)) && negb (refunded m (er_use e)) && negb (released m (er_use e)).

(** [ORDER BY e.kind <> 'sale', e.depth]; rows that tie are in the order they were written. *)
Definition earning_before (x y : EarningRow) : Prop :=
  er_kind x = EarningSale \/ er_kind y = EarningLineage /\ er_depth x <= er_depth y.

#[export] Instance earning_before_dec : RelDecision earning_before.
Proof. intros x y. unfold earning_before. apply _. Defined.

Definition due_earnings (m : Market) (useID : string) (now_ : Z) : list EarningRow :=
  merge_sort earning_before (filter (fun e => er_use e = useID /\ dueAt m now_ e = true) (mk_earnings m)).

(** A payee's two lines of a release. *)
Definition release_lines (e : EarningRow) : list JournalPosting :=
  [mkPost (SellerHoldback (er_seller e)) (er_share e) "" (funding (er_livemode e) (er_test e));
   mkPost (SellerAvailable (er_seller e)) (-! er_share e) "" (funding (er_livemode e) (er_test e))].

Section Holdback.
Context (c : Ctx).

Definition releaseUseTx (useID : string) (now_ : Z) : MTx bool :=
  let! rows := tx_gets (fun m => due_earnings m useID now_) in
  match rows with
  | [] => tx_ret false
  | e :: _ =>
      PostJournalTx c JournalRelease useID (funding (er_livemode e) (er_test e)) now_ (mjoin (release_lines <$> rows)) ;;;
      tx_ret true
  end.

Definition hold_reason (reason : string) : option HoldReason :=
  if bool_decide (reason = "dispute"%string) then Some HoldDispute
  else if bool_decide (reason = "ip_claim"%string) then Some HoldIPClaim
  else None.

(** An earning of the use is past its holdback, or was released. *)
Definition out_of_holdback (m : Market) (useID : string) (now_ : Z) : bool :=
  existsb (fun e => bool_decide (er_use e = useID) && (er_payable e <=? now_)) (mk_earnings m) || released m useID.

Definition OpenHold (useID reason openedBy : string) (now_ : Z) : MTx string :=
  match hold_reason reason with
  | None => tx_fail ErrInvalid
  | Some why =>
      tx_guard (negb (bool_decide (openedBy = EmptyString))) ErrInvalid ;;;
      let! id := new_id c "mhd_" in
      let! use := tx_gets (fun m => mk_uses m !! useID) in
      match use with
      | None => tx_fail ErrNotFound
      | Some _ =>
          let! out := tx_gets (fun m => out_of_holdback m useID now_) in
          tx_guard (negb out) ErrOutOfHoldback ;;;
          let! taken := tx_gets (fun m => mk_holds m !! id) in
          constraint (bool_decide (taken = None)) ;;;
          tx_modify (fun m => with_mk_holds (<[id := mkHold useID why openedBy now_ None ""]> (mk_holds m)) m) ;;;
          tx_ret id
      end
  end.

Definition ReleaseHold (holdID decision : string) (now_ : Z) : MTx HoldRow :=
  tx_guard (negb (bool_decide (decision = EmptyString))) ErrInvalid ;;;
  let! row := tx_gets (fun m => mk_holds m !! holdID) in
  match row with
  | None => tx_fail ErrNotFound
  | Some h =>
      tx_guard (bool_decide (hd_released h = None)) ErrInvalid ;;;
      let h' := mkHold (hd_use h) (hd_reason h) (hd_by h) (hd_at h) (Some now_) decision in
      tx_modify (fun m => with_mk_holds (<[holdID := h']> (mk_holds m)) m) ;;;
      let! _ := releaseUseTx (hd_use h) now_ in
      tx_ret h'
  end.

(** ** The release job *)

(** Each use with an earning due, and the earliest of their instants. *)
Definition due_uses (m : Market) (now_ : Z) : gmap string Z :=
  foldr (fun e acc => if dueAt m now_ e
                      then <[er_use e := match acc !! er_use e with Some t => Z.min t (er_payable e) | None => er_payable e end]> acc
                      else acc) ∅ (mk_earnings m).

(** [ORDER BY min(e.payable_at), e.use_id]. *)
Definition due_before (x y : string * Z) : Prop := x.2 < y.2 \/ x.2 = y.2 /\ String.le x.1 y.1.

#[export] Instance due_before_dec : RelDecision due_before.
Proof. intros x y. unfold due_before. apply _. Defined.

Definition release_batch : nat := 500.

Definition due_batch (m : Market) (now_ : Z) : list string :=
  take release_batch (fst <$> merge_sort due_before (map_to_list (due_uses m now_))).

(** One pass over a batch, each use in a transaction of its own. *)
Fixpoint release_each (now_ : Z) (ids : list string) (n : nat) m : (nat * option MarketErr) * Market :=
  match ids with
  | [] => ((n, None), m)
  | id :: ids =>
      match market_committed (releaseUseTx id now_) m with
      | Ok (ok, m') => release_each now_ ids (if ok then S n else n) m'
      | Err e => ((n, Some e), m)
      end
  end.

(** The loop of [ReleaseDue]; [fuel] bounds its rounds ([release_fuel] is enough). *)
Fixpoint release_rounds (fuel : nat) (now_ : Z) (n : nat) m : (nat * option MarketErr) * Market :=
  match fuel with
  | O => ((n, None), m)
  | S fuel =>
      let due := due_batch m now_ in
      let '((k, err), m') := release_each now_ due 0 m in
      match err with
      | Some e => (((n + k)%nat, Some e), m')
      | None => if (length due <? release_batch)%nat || (k =? 0)%nat then (((n + k)%nat, None), m')
                else release_rounds fuel now_ (n + k) m'
      end
  end.

Definition release_fuel (m : Market) (now_ : Z) : nat := S (size (due_uses m now_)).

Definition ReleaseDue (now_ : Z) m : (nat * option MarketErr) * Market :=
  release_rounds (release_fuel m now_) now_ 0 m.
End Holdback.
