(* ===== verification/Payouts.v ===== *)
(** Paying sellers ([internal/market/payout.go], [selfbill.go]): what a seller has
    available and of which money, the weekly payout with Stripe's fees and the seller's
    VAT, and earnings taken as Talyvor credits. *)
From S2P Require Import Prelude Money Tables Postings Clock Lxc Desk Capabilities Royalties MarketTables MarketJournal Sales Holdback.
From stdpp Require Import sorting.
Open Scope Z_scope.
Open Scope i64_scope.

Implicit Types (m : Market).

Definition PayoutMinimumUSDMicros : Z := 25000000.
Definition stripeAccountFeeCents : Z := 200.
Definition stripePayoutFixedCents : Z := 25.
Definition stripePayoutBasisPoints : Z := 25.
Definition usdMicrosPerCent : Z := 10000.

(** A payout of [gross] cents: Stripe's account fee, its payout fee and what the seller receives. *)
Definition PayoutFees (gross : Z) (firstOfMonth : bool) : Z * Z * Z :=
  let accountFee := if firstOfMonth then stripeAccountFeeCents else 0 in
  let net := Z.quot ((gross -! accountFee -! stripePayoutFixedCents) *! 10000) (10000 +! stripePayoutBasisPoints) in
  let net := if net <? 0 then 0 else net in
  (accountFee, gross -! accountFee -! net, net).

(** ** What a seller has *)

Definition earned (m : Market) (ws : string) (p : EarningRow -> bool) : Z :=
  sumZ ((fun e => if bool_decide (er_seller e = ws) && p e then er_share e else 0) <$> mk_earnings m).

Definition paid_out (m : Market) (ws : string) (p : PayoutRow -> bool) : Z :=
  map_sum (fun _ r => if bool_decide (po_ws r = ws) && p r then po_gross r else 0) (mk_payouts m).

(** Past its holdback, held by nothing and never refunded. *)
Definition past_holdback (m : Market) (now_ : Z) (e : EarningRow) : bool :=
  (er_payable e <=? now_) && negb (held m (er_use e)) && negb (refunded m (er_use e)).

Definition in_holdback (m : Market) (now_ : Z) (e : EarningRow) : bool :=
  ((now_ <? er_payable e) || held m (er_use e)) && negb (refunded m (er_use e)).

Definition is_test_earning (e : EarningRow) : bool := negb (er_livemode e) || er_test e.

Definition sellerBalance (ws : string) (now_ : Z) : MTx (Z * Z * Z) :=
  let! m := tx_gets (fun m => m) in
  let! released := market_bigint (earned m ws (past_holdback m now_)) in
  let! inHoldback := market_bigint (earned m ws (in_holdback m now_)) in
  let! paid := market_bigint (paid_out m ws (fun _ => true)) in
  tx_ret (released, inHoldback, paid).

Definition sellerFunds (ws : string) (now_ : Z) : MTx (Z * Z) :=
  let! m := tx_gets (fun m => m) in
  let! testReleased := market_bigint (earned m ws (fun e => past_holdback m now_ e && is_test_earning e)) in
  let! liveReleased := market_bigint (earned m ws (fun e => past_holdback m now_ e && negb (is_test_earning e))) in
  let! testPaid := market_bigint (paid_out m ws (fun r => bool_decide (po_method r = PayoutStripe) && negb (po_livemode r))) in
  let! livePaid := market_bigint (paid_out m ws (fun r => bool_decide (po_method r = PayoutStripe) && po_livemode r)) in
  let! credits := market_bigint (paid_out m ws (fun r => bool_decide (po_method r = PayoutCredits))) in
  let fromTest := Z.min credits (Z.max (testReleased -! testPaid) 0) in
  tx_ret (Z.max (testReleased -! testPaid -! fromTest) 0, Z.max (liveReleased -! livePaid -! (credits -! fromTest)) 0).

Definition tax_held (m : Market) (ws : string) : bool :=
  match mk_profiles m !! ws with Some t => bool_decide (is_Some (tp_withheld t)) | None => false end.

(** The CHECKs of [market_payouts], its key, and one Stripe payout of a workspace a week;
    [Some false] is the insert's [ON CONFLICT DO NOTHING]. *)
Definition payout_row_ok (r : PayoutRow) : bool :=
  (0 <? po_gross r) && (0 <=? po_account_fee r) && (0 <=? po_payout_fee r) && (0 <? po_net r) && (0 <=? po_credits r) && (0 <=? po_vat r)
  && in_i64b (po_gross r + po_vat r) && (po_gross r + po_vat r =? po_account_fee r + po_payout_fee r + po_net r)
  && (bool_decide (po_method r = PayoutStripe) || bool_decide (is_Some (po_paid r)) && (0 <? po_credits r)).

Definition paid_in (m : Market) (ws : string) (p : PayoutRow -> bool) : bool :=
  bool_decide (map_Exists (fun _ r => po_ws r = ws /\ po_method r = PayoutStripe /\ p r = true) (mk_payouts m)).

Definition insert_payout (id : string) (r : PayoutRow) : MTx unit :=
  let! taken := tx_gets (fun m => mk_payouts m !! id) in
  constraint (payout_row_ok r && bool_decide (taken = None)) ;;;
  tx_modify (fun m => with_mk_payouts (<[id := r]> (mk_payouts m)) m).

(** ** What the payouts ask of others *)

Record TaxParty := mkTaxParty {
  ty_id : string;
  ty_country : string;
  ty_business : bool;
  ty_tax_id : string;
  ty_valid : bool;
}.

(** One line of a tax answer, and the partner that gave it. *)
Record TaxAnswer := mkTaxAnswer {
  ta_jurisdiction : string;
  ta_rate : Z;
  ta_tax : Z;
  ta_treatment : string;
  ta_partner : string;
}.

(** The tax partner: [ValidateTaxID] answers the number as it normalised it, and whether
    it is valid; [Calculate] the tax on one supply. *)
Record TaxPartner := mkTaxPartner {
  ValidateTaxID : string -> string -> option (string * bool);
  Calculate : TaxParty -> TaxParty -> string -> Z -> Z -> option TaxAnswer;
}.

(** [SelfBilling]. *)
Record SelfBilling := mkSelfBilling {
  sf_partner : TaxPartner;
  sf_customer_vat : string;
  sf_vat : bool;
}.

(** [ConnectStripe]; an [inr] is Stripe's error. *)
Record ConnectStripe := mkConnectStripe {
  cs_live : bool;                                                    (* [liveKey] *)
  ConnectedAccount : string -> option bool;                          (* whether its payouts are enabled *)
  TransferToSeller : string -> Z -> string -> string -> string + string;
}.

Definition SupplierCountry : string := "GB".
Definition SupplierTalyvor : string := "talyvor".

Section Payouts.
Context (c : Ctx) (B : option SelfBilling).

(** ** Self-billed invoices *)

(** The seller's country: their tax details', or their Stripe account's in capitals. *)
Definition seller_country (m : Market) (ws : string) (t : TaxProfile) : string :=
  if negb (bool_decide (tp_country t = EmptyString)) then tp_country t
  else match mk_sellers m !! ws with Some s => upper (sl_country s) | None => EmptyString end.

(** [ValidateTaxID], asked only of a number there is. *)
Definition validated (p : TaxPartner) (country number : string) : MTx (string * bool) :=
  if bool_decide (number = EmptyString) then tx_ret (EmptyString, false)
  else match ValidateTaxID p country number with
       | None => tx_fail ErrTaxPartner
       | Some r => tx_ret r
       end.

(** Rounded half up to the cent. *)
Definition vat_to_cent (tax : Z) : Z :=
  Z.quot (tax +! Z.quot usdMicrosPerCent 2) usdMicrosPerCent *! usdMicrosPerCent.

(** The invoice a payout of [net] is, not yet numbered; [None] when it is none. *)
Definition selfBillFor (ws payoutID : string) (net at_ : Z) : MTx (option SelfBillRow) :=
  match B with
  | None => tx_ret None
  | Some b =>
      let! m := tx_gets (fun m => m) in
      match mk_profiles m !! ws with
      | None => tx_ret None
      | Some t =>
          if bool_decide (tp_agreed t = EmptyString) then tx_ret None
          else
            let country := seller_country m ws t in
            let bill := fun vat rate jurisdiction treatment partner =>
              Some (mkSelfBill payoutID ws "" 0 (weekOf at_) net vat rate jurisdiction treatment partner (sf_vat b)) in
            if negb (sf_vat b) then tx_ret (bill 0 0 country "under_review"%string EmptyString)
            else if bool_decide (country = EmptyString) then tx_ret (bill 0 0 country "unknown_location"%string EmptyString)
            else
              let! (number, valid) := validated (sf_partner b) country (tp_vat_number t) in
              let number := if valid then number else EmptyString in
              let! (ours, oursValid) := validated (sf_partner b) SupplierCountry (sf_customer_vat b) in
              match Calculate (sf_partner b) (mkTaxParty ws country (tp_entity t || valid) number valid)
                      (mkTaxParty SupplierTalyvor SupplierCountry true ours oursValid) payoutID net at_ with
              | None => tx_fail ErrTaxPartner
              | Some l => tx_ret (bill (vat_to_cent (ta_tax l)) (ta_rate l) (ta_jurisdiction l) (ta_treatment l) (ta_partner l))
              end
      end
  end.

(** The next number of a seller's run in a series. *)
Definition next_number (m : Market) (ws series : string) : Z :=
  foldr Z.max 0 (sb_number <$> filter (fun r => sb_ws r = ws /\ sb_series r = series) (mk_self_bills m)) + 1.

Definition issueSelfBillTx (ws : string) (b : SelfBillRow) (live test : bool) (at_ : Z) : MTx unit :=
  let series := funding live test in
  let! n := tx_gets (fun m => next_number m ws series) in
  let! _ := new_id c "msb_" in
  constraint ((0 <? sb_net b) && (0 <=? sb_vat b) && (0 <=? sb_rate b) && (sb_rate b <=? 10000) && negb (bool_decide (sb_treatment b = EmptyString))) ;;;
  tx_modify (fun m => with_mk_self_bills
    (mkSelfBill (sb_payout b) ws series n (sb_period b) (sb_net b) (sb_vat b) (sb_rate b) (sb_jurisdiction b) (sb_treatment b)
       (sb_partner b) (sb_enabled b) :: mk_self_bills m) m) ;;;
  PostJournalTx c JournalSelfBill (sb_payout b) series at_
    [mkPost (SellerAvailable ws) (-! sb_vat b) "" ""; mkPost (AccountTaxInput (sb_jurisdiction b)) (sb_vat b) "" ""] ;;;
  tx_ret tt.

(** ** A payout in money *)

(** What a seller may be paid now: with a live key, only what live earnings paid for. *)
Definition payable (live : bool) (ws : string) (now_ : Z) : MTx Z :=
  let! (released, _, paid) := sellerBalance ws now_ in
  if negb live then tx_ret (released -! paid)
  else
    let! (_, liveLeft) := sellerFunds ws now_ in
    tx_ret (Z.min (released -! paid) liveLeft).

Definition payOutTx (ws account : string) (live : bool) (now_ : Z) : MTx string :=
  let! due := payable live ws now_ in
  if due <? PayoutMinimumUSDMicros then tx_ret EmptyString
  else
    let! paidThisMonth := tx_gets (fun m => paid_in m ws (fun r => bool_decide (po_month r = monthOf now_))) in
    let gross := Z.quot due usdMicrosPerCent in
    let! id := new_id c "mpo_" in
    let! bill := selfBillFor ws id (gross *! usdMicrosPerCent) now_ in
    let vat := match bill with Some b => Z.quot (sb_vat b) usdMicrosPerCent | None => 0 end in
    let '(accountFee, payoutFee, net) := PayoutFees (gross +! vat) (negb paidThisMonth) in
    let! test := tx_gets (fun m => test_workspace m ws) in
    let row := mkPayout ws PayoutStripe (monthOf now_) (weekOf now_) (gross *! usdMicrosPerCent) (vat *! usdMicrosPerCent)
                 (accountFee *! usdMicrosPerCent) (payoutFee *! usdMicrosPerCent) (net *! usdMicrosPerCent) 0 account "" None ""
                 now_ live test in
    let! paidThisWeek := tx_gets (fun m => paid_in m ws (fun r => bool_decide (po_period r = weekOf now_))) in
    if paidThisWeek then constraint (payout_row_ok row) ;;; tx_ret EmptyString
    else
      insert_payout id row ;;;
      match bill with Some b => issueSelfBillTx ws b live test now_ | None => tx_ret tt end ;;;
      PostJournalTx c JournalPayout id (funding live test) now_
        [mkPost (SellerAvailable ws) ((gross +! vat) *! usdMicrosPerCent) "" "";
         mkPost AccountStripeClearing ((-! net) *! usdMicrosPerCent) "" "";
         mkPost AccountConnectFees ((-! (accountFee +! payoutFee)) *! usdMicrosPerCent) "" ""] ;;;
      tx_ret id.

(** ** Earnings taken as credits *)

(** The funding the credits' ledger row states. *)
Definition credits_funding (testULXC credits : Z) : string :=
  if testULXC =? 0 then "live"%string else if testULXC =? credits then "test"%string else "test and live"%string.

Definition credits_meta (payoutID : string) (gross testULXC credits : Z) : Meta :=
  <["market_payout_id" := MStr payoutID]> (<["usd_micros" := MInt gross]>
    (<["funding" := MStr (credits_funding testULXC credits)]> (<["test_funded_ulxc" := MInt testULXC]> ∅))).

Definition TakeAsCredits (ws : string) (now_ : Z) : MTx PayoutRow :=
  market_committed (
    let! held := tx_gets (fun m => tax_held m ws) in
    tx_guard (negb held) ErrTaxHold ;;;
    let! (released, _, paid) := sellerBalance ws now_ in
    tx_guard (negb (released -! paid <=? 0)) ErrNothingAvailable ;;;
    let gross := released -! paid in
    let! (testLeft, _) := sellerFunds ws now_ in
    let! id := new_id c "mpo_" in
    let credits := gross *! ulxcPerUSDMicro in
    let! test := tx_gets (fun m => test_workspace m ws) in
    let row := mkPayout ws PayoutCredits (monthOf now_) (weekOf now_) gross 0 0 0 gross credits "" "" (Some now_) "" now_ false test in
    insert_payout id row ;;;
    let testPart := if test then gross else Z.min testLeft gross in
    PostJournalTx c JournalCredits id "test" now_
      [mkPost (SellerAvailable ws) testPart "" "test"; mkPost AccountCreditsIssued (-! testPart) "" "test";
       mkPost (SellerAvailable ws) (gross -! testPart) "" "live"; mkPost AccountCreditsIssued (-! (gross -! testPart)) "" "live"] ;;;
    let testULXC := testPart *! ulxcPerUSDMicro in
    store_tx (CreditLXCTx ws credits "marketplace earnings taken as credits" (credits_meta id gross testULXC credits)) ;;;
    tx_ret row).

(** ** The weekly run *)

Definition set_transfer (transfer : string) (paid : option Z) (error : string) (r : PayoutRow) : PayoutRow :=
  mkPayout (po_ws r) (po_method r) (po_month r) (po_period r) (po_gross r) (po_vat r) (po_account_fee r) (po_payout_fee r) (po_net r)
    (po_credits r) (po_account r) transfer paid error (po_created r) (po_livemode r) (po_test r).

Definition created_before (x y : string * PayoutRow) : Prop :=
  po_created x.2 < po_created y.2 \/ po_created x.2 = po_created y.2 /\ String.le x.1 y.1.

#[export] Instance created_before_dec : RelDecision created_before.
Proof. intros x y. unfold created_before. apply _. Defined.

(** The payouts Stripe has not accepted, of the key's own mode, at most 200. *)
Definition unpaid (m : Market) (live : bool) (test : option bool) : list (string * PayoutRow) :=
  take 200 (merge_sort created_before
    (filter (fun x => po_paid x.2 = None /\ po_livemode x.2 = live /\ default (po_test x.2) test = po_test x.2)
       (map_to_list (mk_payouts m)))).

Fixpoint transfer_each (api : ConnectStripe) (l : list (string * PayoutRow)) (n : nat) (err : option MarketErr) m : (nat * option MarketErr) * Market :=
  match l with
  | [] => ((n, err), m)
  | (id, r) :: l =>
      match TransferToSeller api (po_account r) (Z.quot (po_net r) usdMicrosPerCent) id (po_ws r) with
      | inr why =>
          transfer_each api l n (Some (default ErrStripe err))
            (with_mk_payouts (alter (fun r => if bool_decide (po_paid r = None) then set_transfer (po_transfer r) (po_paid r) why r else r) id (mk_payouts m)) m)
      | inl transfer =>
          transfer_each api l (S n) err
            (with_mk_payouts (alter (fun r => if bool_decide (po_paid r = None) then set_transfer transfer (Some (now c)) "" r else r) id (mk_payouts m)) m)
      end
  end.

Definition transferUnpaid (api : ConnectStripe) (test : option bool) m : (nat * option MarketErr) * Market :=
  transfer_each api (unpaid m (cs_live api) test) 0 None m.

Definition RecordSellerAccount (account : string) (enabled : bool) m : Market :=
  with_mk_sellers ((fun s => if bool_decide (sl_account s = account) then mkSeller (sl_account s) (sl_country s) enabled else s) <$> mk_sellers m) m.

(** The connected sellers not yet paid in money this ISO week, nor withheld, in order. *)
Definition sellers_to_pay (m : Market) (test : option bool) (now_ : Z) : list (string * SellerRow) :=
  merge_sort (fun x y => String.le x.1 y.1)
    (filter (fun x => paid_in m x.1 (fun r => bool_decide (po_period r = weekOf now_)) = false /\ tax_held m x.1 = false /\
                      default (test_workspace m x.1) test = test_workspace m x.1)
       (map_to_list (mk_sellers m))).

(** The loop over the sellers: the run's error, the first question Stripe did not answer. *)
Fixpoint pay_each (api : ConnectStripe) (now_ : Z) (l : list (string * SellerRow)) (asked : option MarketErr) m :
    (option MarketErr * option MarketErr) * Market :=
  match l with
  | [] => ((None, asked), m)
  | (ws, s) :: l =>
      match payable (cs_live api) ws now_ m with
      | Err e => ((Some e, asked), m)
      | Ok (due, _) =>
          if due <? PayoutMinimumUSDMicros then pay_each api now_ l asked m
          else
            match ConnectedAccount api (sl_account s) with
            | None => pay_each api now_ l (Some (default ErrStripe asked)) m
            | Some enabled =>
                let m := RecordSellerAccount (sl_account s) enabled m in
                if negb enabled then pay_each api now_ l asked m
                else
                  match market_committed (payOutTx ws (sl_account s) (cs_live api) now_) m with
                  | Ok (_, m') => pay_each api now_ l asked m'
                  | Err e => ((Some e, asked), m)
                  end
            end
      end
  end.

Definition payOut (api : ConnectStripe) (now_ : Z) (test : option bool) m : (nat * option MarketErr) * Market :=
  let '((_, err), m) := ReleaseDue c now_ m in
  match err with
  | Some e => ((0%nat, Some e), m)
  | None =>
      let '((err, asked), m) := pay_each api now_ (sellers_to_pay m test now_) None m in
      match err with
      | Some e => ((0%nat, Some e), m)
      | None =>
          let '((n, err), m) := transferUnpaid api test m in
          ((n, match err with Some e => Some e | None => asked end), m)
      end
  end.
End Payouts.
