(* ===== verification/Books.v ===== *)
(** The books of the marketplace: what its journal's two accounts of a seller hold, read
    off the earnings and the payouts, and that every operation keeps them so. *)
From S2P Require Import Prelude Money Tables Postings Clock Lxc Desk Capabilities Royalties MarketTables MarketJournal Sales Holdback Payouts.
From stdpp Require Import sorting pretty.
Open Scope Z_scope.
Open Scope i64_scope.

Implicit Types (m : Market).

(** ** A market to run *)

Definition empty_market (s : Store) : Market :=
  mkMarket s ∅ [] [] [] [] ∅ ∅ ∅ [] ∅ ∅ ∅ ∅ ∅ [] ∅ [] ∅.

Definition day : Z := 24 * hour.

Lemma day_pos : 0 < day.
Proof. done. Qed.

Definition mctx (t : Z) : Ctx := mkCtx t (fun n => pretty n) "" "" "" zero_request.

(** Where a run ends, and that it answered [a]. *)
Definition market_after {A} (r : Res MarketErr (A * Market)) (m0 : Market) : Market :=
  match r with Ok (_, m) => m | Err _ => m0 end.

Lemma market_after_ok {A} `{EqDecision A} (r : Res MarketErr (A * Market)) a m0 :
  match r with Ok (x, _) => bool_decide (x = a) | Err _ => false end = true -> r = Ok (a, market_after r m0).
Proof. destruct r as [[x m]|]; [|done]. by intros ->%bool_decide_eq_true. Qed.

(** ** The books *)

Definition hkey (ws f : string) : string * string * string := (SellerHoldback ws, "USD"%string, f).
Definition akey (ws f : string) : string * string * string := (SellerAvailable ws, "USD"%string, f).

Definition funded (f : string) (e : EarningRow) : bool := bool_decide (funding (er_livemode e) (er_test e) = f).
Definition of_use (useID : string) (e : EarningRow) : bool := bool_decide (er_use e = useID).

(** What the earnings say a seller's two accounts hold. *)
Definition still_held (m : Market) (e : EarningRow) : bool := negb (refunded m (er_use e)) && negb (released m (er_use e)).
Definition moved_on (m : Market) (e : EarningRow) : bool := negb (refunded m (er_use e)) && released m (er_use e).

Definition available_balance (m : Market) (ws : string) : Z :=
  journal_balance m (akey ws "test") + journal_balance m (akey ws "live").

(** The journal and the earnings at instant [t], [d] off on what is available. *)
Record books (t : Z) (d : string -> Z) (m : Market) : Prop := mkBooks {
  bk_bal : forall k, journal_balance m k = rows_on k (mj_postings m);
  bk_hold : forall ws f, ws <> EmptyString ->
    journal_balance m (hkey ws f) = - earned m ws (fun e => funded f e && still_held m e);
  bk_avail : forall ws, ws <> EmptyString ->
    available_balance m ws = paid_out m ws (fun _ => true) - earned m ws (moved_on m) + d ws;
  bk_released : forall e, e ∈ mk_earnings m -> released m (er_use e) = true -> er_payable e <= t /\ held m (er_use e) = false;
  bk_same : forall e x, e ∈ mk_earnings m -> x ∈ mk_earnings m -> er_use e = er_use x -> er_payable e = er_payable x;
  bk_shares : forall e, e ∈ mk_earnings m -> 0 <= er_share e <= max_i64;
  bk_entry : forall u ws f, ws <> EmptyString ->
    match mj_entries m !! (JournalClear, u) with
    | Some (id, _) => rows_on (hkey ws f) (entry_rows m id) = - earned m ws (fun e => funded f e && of_use u e) /\
                      rows_on (akey ws f) (entry_rows m id) = 0
    | None => earned m ws (fun e => funded f e && of_use u e) = 0
    end;
  bk_ids : forall r, r ∈ mj_postings m -> exists k x, mj_entries m !! k = Some (pr_entry r, x);
  bk_uses : forall e, e ∈ mk_earnings m -> exists u, mk_uses m !! er_use e = Some u /\ us_cleared u <> None;
  bk_earned : forall u x, mj_entries m !! (JournalRelease, u) = Some x -> exists e, e ∈ mk_earnings m /\ er_use e = u;
}.

(** ** Sums over the earnings *)

Definition esum (l : list EarningRow) (ws : string) (p : EarningRow -> bool) : Z :=
  sumZ ((fun e => if bool_decide (er_seller e = ws) && p e then er_share e else 0) <$> l).

Lemma earned_esum m ws p : earned m ws p = esum (mk_earnings m) ws p.
Proof. done. Qed.

Lemma esum_app l k ws p : esum (l ++ k) ws p = esum l ws p + esum k ws p.
Proof. unfold esum. by rewrite fmap_app, sumZ_app. Qed.

Definition part (b : bool) (z : Z) : Z := if b then z else 0.

Lemma esum_cons e l ws p : esum (e :: l) ws p = part (bool_decide (er_seller e = ws) && p e) (er_share e) + esum l ws p.
Proof. done. Qed.

(** An equation between sums holds when it holds earning by earning. *)
Lemma esum_eq l ws p q :
  (forall e, e ∈ l -> part (p e) (er_share e) = part (q e) (er_share e)) -> esum l ws p = esum l ws q.
Proof.
  induction l as [|e l IH]; intros H; [done|]. rewrite !esum_cons, IH by (intros; apply H; by right).
  specialize (H e ltac:(left)). by destruct (bool_decide (er_seller e = ws)); cbn [andb]; [rewrite H|].
Qed.

Lemma esum_split l ws p q r :
  (forall e, e ∈ l -> part (p e) (er_share e) = part (q e) (er_share e) + part (r e) (er_share e)) ->
  esum l ws p = esum l ws q + esum l ws r.
Proof.
  induction l as [|e l IH]; intros H; [done|]. rewrite !esum_cons, IH by (intros; apply H; by right).
  specialize (H e ltac:(left)). destruct (bool_decide (er_seller e = ws)); cbn [andb]; [rewrite H; lia|cbn; lia].
Qed.

Lemma esum_zero l ws p : (forall e, e ∈ l -> part (p e) (er_share e) = 0) -> esum l ws p = 0.
Proof.
  intros H. rewrite (esum_split l ws p (fun _ => false) (fun _ => false)); [|intros e He; rewrite (H e He); done].
  induction l as [|e l IH]; [done|]. rewrite !esum_cons, andb_false_r. cbn. apply IH. intros. apply H. by right.
Qed.

Lemma esum_nonneg l ws p : (forall e, e ∈ l -> 0 <= er_share e) -> 0 <= esum l ws p.
Proof.
  intros H. apply sumZ_nonneg, Forall_fmap, Forall_forall. intros e He. cbn. case_match; [by apply H|done].
Qed.

Lemma funding_cases f1 f2 : funding f1 f2 = "test"%string \/ funding f1 f2 = "live"%string.
Proof. unfold funding. destruct (f1 && negb f2); auto. Qed.

Lemma funded_test e : funded "test" e = is_test_earning e.
Proof. unfold funded, funding, is_test_earning. by destruct (er_livemode e), (er_test e). Qed.

Lemma funded_live e : funded "live" e = negb (is_test_earning e).
Proof. unfold funded, funding, is_test_earning. by destruct (er_livemode e), (er_test e). Qed.

Lemma funded_both l ws p : esum l ws (fun e => funded "test" e && p e) + esum l ws (fun e => funded "live" e && p e) = esum l ws p.
Proof.
  symmetry. apply esum_split. intros e _. rewrite funded_test, funded_live.
  destruct (is_test_earning e), (p e); cbn; lia.
Qed.

(** ** Entries *)

Lemma rows_on_app k l1 l2 : rows_on k (l1 ++ l2) = rows_on k l1 + rows_on k l2.
Proof. unfold rows_on. by rewrite filter_app, fmap_app, sumZ_app. Qed.

Lemma rows_on_perm k l1 l2 : l1 ≡ₚ l2 -> rows_on k l1 = rows_on k l2.
Proof. intros H. unfold rows_on. by rewrite H. Qed.

Lemma entered_postings kind ref id at_ rows m :
  reverse (mj_postings (entered kind ref id at_ rows m)) = reverse (mj_postings m) ++ rows.
Proof.
  change (mj_postings (entered kind ref id at_ rows m)) with (rev_append rows (mj_postings m)).
  unfold reverse. rewrite <- !rev_alt, rev_append_rev, rev_app_distr, rev_involutive. done.
Qed.

Lemma filter_none {A} (P : A -> Prop) `{!forall x, Decision (P x)} l : (forall x, x ∈ l -> ~ P x) -> filter P l = [].
Proof.
  induction l as [|x l IH]; intros Hn; [done|]. rewrite filter_cons, decide_False by (apply Hn; left).
  apply IH. intros y Hy. apply Hn. by right.
Qed.

Lemma entry_rows_other kind ref id at_ rows m i :
  Forall (fun r => pr_entry r = id) rows -> i <> id -> entry_rows (entered kind ref id at_ rows m) i = entry_rows m i.
Proof.
  intros Hr Hi. unfold entry_rows. rewrite entered_postings, filter_app, (filter_none _ rows), app_nil_r; [done|].
  rewrite Forall_forall in Hr. intros r Hin. rewrite (Hr r Hin). congruence.
Qed.

Lemma entry_rows_new kind ref id at_ rows m :
  Forall (fun r => pr_entry r = id) rows -> (forall r, r ∈ mj_postings m -> pr_entry r <> id) ->
  entry_rows (entered kind ref id at_ rows m) id = rows.
Proof.
  intros Hr Hn. unfold entry_rows. rewrite entered_postings, filter_app, (filter_none _ (reverse (mj_postings m))).
  - cbn [app]. induction Hr as [|r rows E _ IH]; [done|]. by rewrite filter_cons, decide_True, IH.
  - intros r Hin. rewrite elem_of_reverse in Hin. by apply Hn.
Qed.

Lemma journal_rows_entry id line ps : Forall (fun r => pr_entry r = id) (journal_rows id line ps).
Proof. revert line. induction ps; intros; cbn; constructor; auto. Qed.

Lemma entered_bal kind ref id at_ rows m :
  (forall k, journal_balance m k = rows_on k (mj_postings m)) ->
  forall k, journal_balance (entered kind ref id at_ rows m) k = rows_on k (mj_postings (entered kind ref id at_ rows m)).
Proof.
  intros H k. rewrite entered_balance, H.
  change (mj_postings (entered kind ref id at_ rows m)) with (rev_append rows (mj_postings m)).
  rewrite rev_append_rev, rows_on_app, <- (rows_on_perm _ _ _ (Permutation_rev rows)). lia.
Qed.

Lemma entered_ids kind ref id at_ rows m :
  Forall (fun r => pr_entry r = id) rows -> mj_entries m !! (kind, ref) = None ->
  (forall r, r ∈ mj_postings m -> exists k x, mj_entries m !! k = Some (pr_entry r, x)) ->
  forall r, r ∈ mj_postings (entered kind ref id at_ rows m) ->
    exists k x, mj_entries (entered kind ref id at_ rows m) !! k = Some (pr_entry r, x).
Proof.
  intros Hr He Hi r Hin. change (mj_entries (entered kind ref id at_ rows m)) with (<[(kind, ref) := (id, at_)]> (mj_entries m)).
  change (mj_postings (entered kind ref id at_ rows m)) with (rev_append rows (mj_postings m)) in Hin.
  rewrite rev_append_rev in Hin. apply elem_of_app in Hin as [Hin|Hin].
  - exists (kind, ref), at_. rewrite lookup_insert_eq. do 2 f_equal. rewrite Forall_forall in Hr. symmetry. apply Hr.
    by apply list_elem_of_In, in_rev, list_elem_of_In in Hin.
  - destruct (Hi r Hin) as (k & x & Hk). exists k, x. rewrite lookup_insert_ne; [done|]. intros <-. congruence.
Qed.

Lemma fresh_rows m id :
  (forall r, r ∈ mj_postings m -> exists k x, mj_entries m !! k = Some (pr_entry r, x)) ->
  map_Forall (fun _ e => e.1 <> id) (mj_entries m) -> forall r, r ∈ mj_postings m -> pr_entry r <> id.
Proof. intros Hi Hf r Hr. destruct (Hi r Hr) as (k & x & Hk). exact (Hf k _ Hk). Qed.

(** The clear entries of old keep their rows. *)
Lemma bk_entry_kept kind ref id at_ rows m t d :
  books t d m -> kind <> JournalClear -> Forall (fun r => pr_entry r = id) rows ->
  map_Forall (fun _ e => e.1 <> id) (mj_entries m) ->
  forall u ws f, ws <> EmptyString ->
    match mj_entries (entered kind ref id at_ rows m) !! (JournalClear, u) with
    | Some (id', _) => rows_on (hkey ws f) (entry_rows (entered kind ref id at_ rows m) id') = - earned m ws (fun e => funded f e && of_use u e) /\
                       rows_on (akey ws f) (entry_rows (entered kind ref id at_ rows m) id') = 0
    | None => earned m ws (fun e => funded f e && of_use u e) = 0
    end.
Proof.
  intros Hb Hk Hr Hf u ws f Hw. pose proof (bk_entry t d m Hb u ws f Hw) as E.
  change (mj_entries (entered kind ref id at_ rows m)) with (<[(kind, ref) := (id, at_)]> (mj_entries m)).
  rewrite lookup_insert_ne by congruence. destruct (mj_entries m !! (JournalClear, u)) as [[i x]|] eqn:Ei; [|done].
  rewrite entry_rows_other; [done..|]. exact (Hf _ _ Ei).
Qed.

(** ** What the steps do to the books *)

Lemma books_ext t d t' d' m :
  books t d m -> t <= t' -> (forall ws, ws <> EmptyString -> d ws = d' ws) -> books t' d' m.
Proof.
  intros [B1 B2 B3 B4 B5 B6 B7 B8 B9 B10] Ht Hd. split; try done.
  - intros ws Hw. rewrite <- Hd by done. by apply B3.
  - intros e He Hr. destruct (B4 e He Hr). split; [lia|done].
Qed.

(** Tables the books do not read. *)
Lemma books_frame t d m m' :
  books t d m -> mk_uses m' = mk_uses m -> mk_earnings m' = mk_earnings m -> mk_refunds m' = mk_refunds m ->
  mk_holds m' = mk_holds m -> mk_payouts m' = mk_payouts m -> mj_entries m' = mj_entries m -> mj_postings m' = mj_postings m ->
  mj_balances m' = mj_balances m -> books t d m'.
Proof.
  intros H. destruct m, m'. cbn. intros -> -> -> -> -> -> -> ->. destruct H. split; assumption.
Qed.

Lemma books_store t d m s : books t d m -> books t d (with_mk_store s m).
Proof. intros H. by apply (books_frame t d m). Qed.

Lemma books_payout t d m id r :
  books t d m -> mk_payouts m !! id = None ->
  books t (fun ws => d ws - if decide (po_ws r = ws) then po_gross r else 0) (with_mk_payouts (<[id := r]> (mk_payouts m)) m).
Proof.
  intros [B1 B2 B3 B4 B5 B6 B7 B8 B9 B10] Hid. split; try assumption.
  intros ws Hw. specialize (B3 ws Hw). unfold paid_out in *. cbn [mk_payouts with_mk_payouts].
  rewrite map_sum_insert_new by done. rewrite andb_true_r.
  change (available_balance (with_mk_payouts (<[id := r]> (mk_payouts m)) m) ws) with (available_balance m ws).
  change (earned (with_mk_payouts (<[id := r]> (mk_payouts m)) m) ws (moved_on (with_mk_payouts (<[id := r]> (mk_payouts m)) m)))
    with (earned m ws (moved_on m)).
  destruct (decide (po_ws r = ws)) as [E|E]; [rewrite (bool_decide_true _ E)|rewrite (bool_decide_false _ E)]; lia.
Qed.

Lemma alter_as_insert {V} (g : V -> V) (id : string) (M : gmap string V) :
  alter g id M = match M !! id with Some r => <[id := g r]> M | None => M end.
Proof.
  apply map_eq. intros j. destruct (decide (id = j)) as [<-|Hn].
  - rewrite lookup_alter_eq. destruct (M !! id) eqn:E; cbn; [by rewrite lookup_insert_eq|by rewrite E].
  - rewrite lookup_alter_ne by done. destruct (M !! id); [by rewrite lookup_insert_ne|done].
Qed.

(** A change to a payout that keeps whose it is and what it pays. *)
Lemma books_payout_alter t d m id g :
  (forall r, po_ws (g r) = po_ws r /\ po_gross (g r) = po_gross r) -> books t d m ->
  books t d (with_mk_payouts (alter g id (mk_payouts m)) m).
Proof.
  intros Hg [B1 B2 B3 B4 B5 B6 B7 B8 B9 B10]. split; try assumption.
  intros ws Hw. etransitivity; [exact (B3 ws Hw)|]. apply (f_equal (fun z => z - earned m ws (moved_on m) + d ws)).
  unfold paid_out. cbn [mk_payouts with_mk_payouts]. rewrite alter_as_insert.
  destruct (mk_payouts m !! id) as [r|] eqn:Er; [|done].
  rewrite map_sum_insert, Er. destruct (Hg r) as [-> ->]. lia.
Qed.

Lemma held_spec m u : held m u = true <-> exists i h, mk_holds m !! i = Some h /\ hd_use h = u /\ hd_released h = None.
Proof. unfold held. by rewrite bool_decide_eq_true. Qed.

Lemma held_insert m i h u : mk_holds m !! i = None ->
  held (with_mk_holds (<[i := h]> (mk_holds m)) m) u = true -> (hd_use h = u /\ hd_released h = None) \/ held m u = true.
Proof.
  intros Hi (j & x & Hj & E)%held_spec. cbn in Hj. apply lookup_insert_Some in Hj as [[_ <-]|[_ Hj]]; [by left|].
  right. apply held_spec. eauto.
Qed.

Lemma held_close m i h u : hd_released h <> None ->
  held (with_mk_holds (<[i := h]> (mk_holds m)) m) u = true -> held m u = true.
Proof.
  intros Hi (j & x & Hj & E)%held_spec. cbn in Hj. apply lookup_insert_Some in Hj as [[_ <-]|[_ Hj]]; [by destruct E|].
  apply held_spec. eauto.
Qed.

Lemma not_held_close m i h u : hd_released h <> None -> held m u = false ->
  held (with_mk_holds (<[i := h]> (mk_holds m)) m) u = false.
Proof.
  intros Hh Hu. destruct (held (with_mk_holds _ m) u) eqn:E; [|done]. apply (held_close m i h u Hh) in E. congruence.
Qed.

Lemma books_holds t d m H :
  books t d m ->
  (forall e, e ∈ mk_earnings m -> released m (er_use e) = true -> held m (er_use e) = false -> held (with_mk_holds H m) (er_use e) = false) ->
  books t d (with_mk_holds H m).
Proof.
  intros [B1 B2 B3 B4 B5 B6 B7 B8 B9 B10] Hh. split; try assumption.
  intros e He Hr. destruct (B4 e He Hr). split; [done|]. by apply Hh.
Qed.

(** ** Entries that move no holdback *)

Lemma released_entered kind ref id at_ rows m u :
  released (entered kind ref id at_ rows m) u = bool_decide ((kind, ref) = (JournalRelease, u)) || released m u.
Proof.
  unfold released. change (mj_entries (entered kind ref id at_ rows m)) with (<[(kind, ref) := (id, at_)]> (mj_entries m)).
  destruct (decide ((kind, ref) = (JournalRelease, u))) as [->|Hn].
  - rewrite lookup_insert_eq, !bool_decide_true by done. done.
  - rewrite lookup_insert_ne by done. by rewrite (bool_decide_false _ Hn).
Qed.

Lemma released_other kind ref id at_ rows m u :
  kind <> JournalRelease -> released (entered kind ref id at_ rows m) u = released m u.
Proof. intros H. rewrite released_entered, bool_decide_false; [done|]. congruence. Qed.

Lemma earned_entered kind ref id at_ rows m ws p : earned (entered kind ref id at_ rows m) ws p = earned m ws p.
Proof. done. Qed.

Lemma entered_books t d m kind ref id at_ rows delta :
  books t d m -> kind <> JournalClear -> kind <> JournalRelease -> mj_entries m !! (kind, ref) = None ->
  map_Forall (fun _ e => e.1 <> id) (mj_entries m) -> Forall (fun r => pr_entry r = id) rows ->
  (forall ws f, ws <> EmptyString -> rows_on (hkey ws f) rows = 0) ->
  (forall ws, ws <> EmptyString -> rows_on (akey ws "test") rows + rows_on (akey ws "live") rows = delta ws) ->
  books t (fun ws => d ws + delta ws) (entered kind ref id at_ rows m).
Proof.
  intros Hb Hk1 Hk2 He Hf Hr Hh Ha.
  pose proof (bk_entry_kept kind ref id at_ rows m t d Hb Hk1 Hr Hf) as E. destruct Hb as [B1 B2 B3 B4 B5 B6 _ B8 B9 B10].
  split; try assumption.
  - by apply entered_bal.
  - intros ws f Hw. rewrite entered_balance, B2, Hh by done. rewrite Z.add_0_r. f_equal. apply esum_eq. intros e _.
    unfold still_held. by rewrite released_other.
  - intros ws Hw. unfold available_balance in *. rewrite !entered_balance.
    replace (earned (entered kind ref id at_ rows m) ws (moved_on (entered kind ref id at_ rows m))) with (earned m ws (moved_on m)).
    + specialize (B3 ws Hw). specialize (Ha ws Hw). change (paid_out (entered kind ref id at_ rows m) ws (fun _ => true)) with (paid_out m ws (fun _ => true)). lia.
    + apply esum_eq. intros e _. unfold moved_on. by rewrite released_other.
  - intros e Hin Hrel. rewrite released_other in Hrel by done. by apply B4.
  - by apply entered_ids.
  - intros u x Hu. change (mj_entries (entered kind ref id at_ rows m)) with (<[(kind, ref) := (id, at_)]> (mj_entries m)) in Hu.
    rewrite lookup_insert_ne in Hu by congruence. by eapply B10.
Qed.

(** What a list of lines posts to an account, once the entry's defaults are filled in. *)
Definition posts (fb a f : string) (ps : list JournalPosting) : Z := lines_on a f (journal_line fb <$> ps).

Lemma rows_posts id fb ps a f : rows_on (a, "USD"%string, f) (journal_rows id 1 (journal_lines fb ps)) = posts fb a f ps.
Proof. by rewrite journal_rows_on, journal_lines_on. Qed.

Lemma posts_cons fb a f p ps : posts fb a f (p :: ps) = posts fb a f [p] + posts fb a f ps.
Proof. unfold posts. rewrite fmap_cons. change (?x :: ?l) with ([x] ++ l). by rewrite lines_on_app. Qed.

Lemma posts_cons2 fb a f p q ps : posts fb a f (p :: q :: ps) = posts fb a f [p] + (posts fb a f [q] + posts fb a f ps).
Proof. by rewrite (posts_cons _ _ _ p), (posts_cons _ _ _ q). Qed.

Lemma posts_other fb a f b z cur g : b <> a -> posts fb a f [mkPost b z cur g] = 0.
Proof. intros H. unfold posts, lines_on. cbn. rewrite decide_False; [done|]. by intros []. Qed.

Lemma posts_one fb a f z g : posts fb a f [mkPost a z "" g] =
  if decide ((if bool_decide (g = EmptyString) then fb else g) = f) then z else 0.
Proof.
  unfold posts, lines_on, journal_line. cbn. rewrite bool_decide_true by done.
  destruct (decide (_ = f)) as [<-|]; [rewrite decide_True by done; lia|rewrite decide_False; [lia|by intros (_ & _ & ?)]].
Qed.

Lemma posts_house fb f b z cur g ws : house_account b ->
  posts fb (SellerHoldback ws) f [mkPost b z cur g] = 0 /\ posts fb (SellerAvailable ws) f [mkPost b z cur g] = 0.
Proof. intros H. destruct (H ws). by rewrite !posts_other. Qed.

Lemma post_books t d c kind ref fb at_ ps m id m' :
  PostJournalTx c kind ref fb at_ ps m = Ok (id, m') -> kind <> JournalClear -> kind <> JournalRelease -> books t d m ->
  (forall ws f, ws <> EmptyString -> posts fb (SellerHoldback ws) f ps = 0) ->
  books t (fun ws => d ws + (posts fb (SellerAvailable ws) "test" ps + posts fb (SellerAvailable ws) "live" ps)) m'.
Proof.
  intros H Hk1 Hk2 Hb Hh. apply PostJournalTx_ok in H as [[El ->]|(He & Hf & s & ->)].
  - eapply books_ext; [exact Hb|lia|]. intros ws Hw. unfold posts. rewrite <- !journal_lines_on, El. cbn. lia.
  - apply entered_books; try done.
    + by apply books_store.
    + apply journal_rows_entry.
    + intros ws f Hw. unfold hkey. rewrite rows_posts. by apply Hh.
    + intros ws Hw. unfold akey. by rewrite !rows_posts.
Qed.

(** ** Releasing *)

Lemma esum_perm l k ws p : l ≡ₚ k -> esum l ws p = esum k ws p.
Proof. intros H. unfold esum. by rewrite H. Qed.

Lemma esum_filter (q : EarningRow -> bool) l ws p :
  esum (filter (fun e => q e = true) l) ws p = esum l ws (fun e => p e && q e).
Proof.
  induction l as [|e l IH]; [done|]. rewrite filter_cons, esum_cons, <- IH.
  destruct (q e) eqn:Eq; [rewrite decide_True by done; rewrite esum_cons, andb_true_r; done|].
  rewrite decide_False by congruence. by rewrite !andb_false_r.
Qed.

Lemma esum_ext l ws p q : (forall e, e ∈ l -> p e = q e) -> esum l ws p = esum l ws q.
Proof. intros H. apply esum_eq. intros e He. by rewrite H. Qed.

Lemma due_earnings_perm m u now_ :
  due_earnings m u now_ ≡ₚ filter (fun e => of_use u e && dueAt m now_ e = true) (mk_earnings m).
Proof.
  unfold due_earnings. rewrite merge_sort_Permutation.
  rewrite (list_filter_iff _ (fun e => of_use u e && dueAt m now_ e = true)); [done|].
  intros e. unfold of_use. rewrite andb_true_iff, bool_decide_eq_true. done.
Qed.

Lemma posts_seller fb ws f w z g :
  posts fb (SellerHoldback ws) f [mkPost (SellerHoldback w) z "" g] = (if decide (w = ws /\ (if bool_decide (g = EmptyString) then fb else g) = f) then z else 0) /\
  posts fb (SellerAvailable ws) f [mkPost (SellerAvailable w) z "" g] = (if decide (w = ws /\ (if bool_decide (g = EmptyString) then fb else g) = f) then z else 0) /\
  posts fb (SellerHoldback ws) f [mkPost (SellerAvailable w) z "" g] = 0 /\
  posts fb (SellerAvailable ws) f [mkPost (SellerHoldback w) z "" g] = 0.
Proof.
  split_and!; [| | |].
  - destruct (decide (w = ws)) as [->|Hn].
    + rewrite posts_one. apply decide_ext. naive_solver.
    + rewrite posts_other, decide_False; [done|by intros []|]. intros E%(inj SellerHoldback). done.
  - destruct (decide (w = ws)) as [->|Hn].
    + rewrite posts_one. apply decide_ext. naive_solver.
    + rewrite posts_other, decide_False; [done|by intros []|]. intros E%(inj SellerAvailable). done.
  - apply posts_other, not_eq_sym, holdback_not_available.
  - apply posts_other, holdback_not_available.
Qed.

Lemma funding_named l t : bool_decide (funding l t = EmptyString) = false.
Proof. apply bool_decide_false. unfold funding. by destruct (l && negb t). Qed.

Lemma part_funded e ws f z : (if decide (er_seller e = ws /\ funding (er_livemode e) (er_test e) = f) then z else 0) = part (bool_decide (er_seller e = ws) && funded f e) z.
Proof.
  unfold part, funded. destruct (decide (er_seller e = ws)) as [E1|E1]; [rewrite (bool_decide_true _ E1)|rewrite (bool_decide_false _ E1)]; cbn [andb].
  - destruct (decide (funding (er_livemode e) (er_test e) = f)) as [E2|E2]; [rewrite (bool_decide_true _ E2), decide_True by done|rewrite (bool_decide_false _ E2), decide_False by (by intros [])]; done.
  - rewrite decide_False by (by intros []). done.
Qed.

Lemma posts_app fb a f l k : posts fb a f (l ++ k) = posts fb a f l + posts fb a f k.
Proof. unfold posts. by rewrite fmap_app, lines_on_app. Qed.

Lemma release_line_posts fb ws f e : 0 <= er_share e <= max_i64 ->
  posts fb (SellerHoldback ws) f (release_lines e) = part (bool_decide (er_seller e = ws) && funded f e) (er_share e) /\
  posts fb (SellerAvailable ws) f (release_lines e) = - part (bool_decide (er_seller e = ws) && funded f e) (er_share e).
Proof.
  intros He. unfold release_lines.
  rewrite (posts_cons fb (SellerHoldback ws)), (posts_cons fb (SellerAvailable ws)).
  destruct (posts_seller fb ws f (er_seller e) (er_share e) (funding (er_livemode e) (er_test e))) as (-> & _ & _ & ->).
  destruct (posts_seller fb ws f (er_seller e) (-! er_share e) (funding (er_livemode e) (er_test e))) as (_ & -> & -> & _).
  rewrite !funding_named, !part_funded, wrap64_id by (i64_ranges; lia).
  destruct (bool_decide _ && _); cbn [part]; lia.
Qed.

Lemma release_posts fb ws f l : Forall (fun e => 0 <= er_share e <= max_i64) l ->
  posts fb (SellerHoldback ws) f (mjoin (release_lines <$> l)) = esum l ws (funded f) /\
  posts fb (SellerAvailable ws) f (mjoin (release_lines <$> l)) = - esum l ws (funded f).
Proof.
  induction 1 as [|e l He Hl [IH1 IH2]]; [done|].
  change (mjoin (release_lines <$> e :: l)) with (release_lines e ++ mjoin (release_lines <$> l)).
  rewrite !posts_app, IH1, IH2, !esum_cons. destruct (release_line_posts fb ws f e He) as [-> ->]. lia.
Qed.

Lemma release_books t d c u now_ m b m' :
  releaseUseTx c u now_ m = Ok (b, m') -> books t d m -> t <= now_ -> books now_ d m'.
Proof.
  intros H Hb Ht. unfold releaseUseTx in H. rewrite tx_gets_bind in H.
  pose proof (due_earnings_perm m u now_) as Hp.
  destruct (due_earnings m u now_) as [|e0 es] eqn:Ed.
  { apply tx_ret_ok in H as [_ ->]. by apply (books_ext t d). }
  apply tx_bind_ok in H as (id & m1 & H & Hret). apply tx_ret_ok in Hret as [_ ->].
  apply PostJournalTx_ok in H as [[_ ->]|(He & Hf & s & ->)]; [by apply (books_ext t d)|].
  assert (Hin : e0 ∈ filter (fun e => of_use u e && dueAt m now_ e = true) (mk_earnings m)) by (rewrite <- Hp; left).
  apply list_elem_of_filter in Hin as [[Hu Hd]%andb_prop Hin]. unfold of_use in Hu. apply bool_decide_eq_true in Hu.
  assert (Hrel : released m u = false) by (unfold released; by rewrite He).
  unfold dueAt in Hd. rewrite Hu, Hrel in Hd. rewrite !andb_true_iff, !negb_true_iff in Hd.
  destruct Hd as ((((D1 & D2) & D3) & D4) & _).
  assert (Hdue : forall e, e ∈ mk_earnings m -> er_use e = u -> er_payable e <= now_ /\ (dueAt m now_ e = (0 <? er_share e))).
  { intros e Hine Eu. pose proof (bk_same t d m Hb e e0 Hine Hin ltac:(congruence)) as Es. split; [lia|].
    unfold dueAt. rewrite Eu, Hrel, D3, D4, Es, D1, !andb_true_r. done. }
  assert (HS : forall ws f, esum (e0 :: es) ws (funded f) = esum (mk_earnings m) ws (fun e => funded f e && of_use u e)).
  { intros ws f. rewrite (esum_perm _ _ _ _ Hp), (esum_filter (fun e => of_use u e && dueAt m now_ e)). apply esum_eq. intros e Hine.
    pose proof (bk_shares t d m Hb e Hine) as Hs. unfold of_use. destruct (bool_decide_reflect (er_use e = u)) as [Eu|]; cbn [andb]; [|done].
    destruct (Hdue e Hine Eu) as [_ ->]. rewrite andb_true_r. destruct (funded f e); [|done]. destruct (Z.ltb_spec 0 (er_share e)); cbn; lia. }
  assert (Hsh : Forall (fun e => 0 <= er_share e <= max_i64) (e0 :: es)).
  { apply Forall_forall. intros e Hine. rewrite Hp in Hine. apply list_elem_of_filter in Hine as [_ Hine]. by apply (bk_shares t d m Hb). }
  pose proof (rows_posts id (funding (er_livemode e0) (er_test e0)) (mjoin (release_lines <$> e0 :: es))) as HR.
  set (rows := journal_rows id 1 _) in *.
  assert (Hrows : Forall (fun r => pr_entry r = id) rows) by apply journal_rows_entry.
  pose proof (books_store t d m s Hb) as Hs. pose proof (bk_entry_kept JournalRelease u id now_ rows _ t d Hs ltac:(done) Hrows Hf) as HE.
  assert (Hrel' : forall v, released (entered JournalRelease u id now_ rows (with_mk_store s m)) v = bool_decide (v = u) || released m v).
  { intros v. rewrite released_entered. f_equal. apply bool_decide_ext. naive_solver. }
  assert (Hcase : forall e, e ∈ mk_earnings m -> still_held m e = still_held (entered JournalRelease u id now_ rows (with_mk_store s m)) e || of_use u e /\
     (of_use u e = true -> still_held (entered JournalRelease u id now_ rows (with_mk_store s m)) e = false /\ moved_on m e = false) /\
     moved_on (entered JournalRelease u id now_ rows (with_mk_store s m)) e = moved_on m e || of_use u e).
  { intros e _. unfold still_held, moved_on, of_use.
    change (refunded (entered JournalRelease u id now_ rows (with_mk_store s m)) (er_use e)) with (refunded m (er_use e)). rewrite Hrel'.
    destruct (bool_decide_reflect (er_use e = u)) as [->|]; [rewrite D4, Hrel; done|]. cbn [orb]. rewrite !orb_false_r. done. }
  split.
  - apply entered_bal. apply Hs.
  - intros ws f Hw. rewrite entered_balance. unfold hkey. rewrite HR.
    destruct (release_posts (funding (er_livemode e0) (er_test e0)) ws f _ Hsh) as [-> _]. rewrite HS.
    change (journal_balance (with_mk_store s m) (SellerHoldback ws, "USD"%string, f)) with (journal_balance m (hkey ws f)).
    rewrite (bk_hold t d m Hb ws f Hw), !earned_esum.
    rewrite (esum_split (mk_earnings m) ws (fun e => funded f e && still_held m e)
      (fun e => funded f e && still_held (entered JournalRelease u id now_ rows (with_mk_store s m)) e) (fun e => funded f e && of_use u e)).
    + change (mk_earnings (entered JournalRelease u id now_ rows (with_mk_store s m))) with (mk_earnings m). lia.
    + intros e Hine. destruct (Hcase e Hine) as (-> & C & _). destruct (funded f e); [|done]. destruct (of_use u e).
      * destruct (C eq_refl) as [-> _]. cbn. lia.
      * rewrite orb_false_r. cbn. lia.
  - intros ws Hw. unfold available_balance. rewrite !entered_balance. unfold akey. rewrite !HR.
    destruct (release_posts (funding (er_livemode e0) (er_test e0)) ws "test" _ Hsh) as [_ ->].
    destruct (release_posts (funding (er_livemode e0) (er_test e0)) ws "live" _ Hsh) as [_ ->]. rewrite !HS.
    pose proof (funded_both (mk_earnings m) ws (of_use u)) as FB.
    pose proof (bk_avail t d m Hb ws Hw) as A. unfold available_balance, akey in A.
    change (journal_balance (with_mk_store s m)) with (journal_balance m).
    change (paid_out (entered JournalRelease u id now_ rows (with_mk_store s m)) ws) with (paid_out m ws).
    rewrite earned_esum in A |- *. change (mk_earnings (entered JournalRelease u id now_ rows (with_mk_store s m))) with (mk_earnings m).
    rewrite (esum_split (mk_earnings m) ws (moved_on (entered JournalRelease u id now_ rows (with_mk_store s m))) (moved_on m) (of_use u)); [lia|].
    intros e Hine. destruct (Hcase e Hine) as (_ & C & ->). destruct (of_use u e); [|by rewrite orb_false_r; cbn; lia].
    destruct (C eq_refl) as [_ ->]. cbn. lia.
  - intros e Hine Hr. rewrite Hrel' in Hr. destruct (bool_decide_reflect (er_use e = u)) as [Eu|].
    + split; [by apply Hdue|]. by rewrite Eu.
    + destruct (bk_released t d m Hb e Hine Hr). split; [lia|done].
  - apply Hb.
  - apply Hb.
  - exact HE.
  - apply entered_ids; [done..|apply Hb].
  - apply Hb.
  - intros v x Hv. change (mj_entries (entered JournalRelease u id now_ rows (with_mk_store s m))) with (<[(JournalRelease, u) := (id, now_)]> (mj_entries m)) in Hv.
    apply lookup_insert_Some in Hv as [[[= <-] _]|[_ Hv]]; [by exists e0|]. by eapply (bk_earned t d m Hb).
Qed.

(** ** Refunding *)

Lemma reverse_account_hold rel a ws : ws <> EmptyString ->
  reverse_account rel a = SellerHoldback ws <-> rel = false /\ a = SellerHoldback ws.
Proof.
  intros Hw. unfold reverse_account. destruct rel; [|naive_solver]. split; [|by intros []].
  destruct (seller_of "holdback" a) as [w|] eqn:E.
  - intros H. by apply not_eq_sym, holdback_not_available in H || (exfalso; by eapply holdback_not_available).
  - intros ->. by rewrite seller_of_holdback in E.
Qed.

Lemma reverse_account_available rel a ws : ws <> EmptyString ->
  reverse_account rel a = SellerAvailable ws <-> a = SellerAvailable ws \/ rel = true /\ a = SellerHoldback ws.
Proof.
  intros Hw. unfold reverse_account. destruct rel; [|naive_solver]. destruct (seller_of "holdback" a) as [w|] eqn:E.
  - pose proof (seller_of_some _ _ _ E) as [-> Hn]. change ("seller:" +:+ w +:+ ":" +:+ "holdback")%string with (SellerHoldback w) in *. split.
    + intros ->%(inj SellerAvailable). by right.
    + intros [H|[_ ->%(inj SellerHoldback)]]; [by apply holdback_not_available in H|done].
  - split; [by left|]. intros [H|[_ ->]]; [done|]. by rewrite seller_of_holdback in E.
Qed.

Lemma reverse_rows id rel rows ws f : ws <> EmptyString ->
  rows_on (hkey ws f) (reverse_row id rel <$> rows) = (if rel then 0 else - rows_on (hkey ws f) rows) /\
  rows_on (akey ws f) (reverse_row id rel <$> rows) = - rows_on (akey ws f) rows - (if rel then rows_on (hkey ws f) rows else 0).
Proof.
  intros Hw. induction rows as [|r rows [IH1 IH2]]; [by destruct rel|]. rewrite fmap_cons, !rows_on_cons, IH1, IH2.
  assert (K : pr_key r = akey ws f -> pr_key r = hkey ws f -> False).
  { unfold pr_key, akey, hkey. intros [= E _ _] [= E2 _ _]. rewrite E in E2. by apply (holdback_not_available ws ws). }
  assert (K1 : pr_key (reverse_row id rel r) = hkey ws f <-> rel = false /\ pr_key r = hkey ws f).
  { unfold pr_key, hkey, reverse_row; cbn. pose proof (reverse_account_hold rel (pr_account r) ws Hw) as E. split.
    - intros [= E1 -> ->]. apply E in E1 as [-> ->]. done.
    - intros [Hr [= E1 -> ->]]. rewrite (proj2 E); auto. }
  assert (K2 : pr_key (reverse_row id rel r) = akey ws f <-> pr_key r = akey ws f \/ rel = true /\ pr_key r = hkey ws f).
  { unfold pr_key, akey, hkey, reverse_row; cbn. pose proof (reverse_account_available rel (pr_account r) ws Hw) as E. split.
    - intros [= E1 -> ->]. apply E in E1 as [->|[-> ->]]; auto.
    - intros [[= E1 -> ->]|[Hr [= E1 -> ->]]]; rewrite (proj2 E); auto. }
  rewrite (decide_ext _ _ _ _ K1), (decide_ext _ _ _ _ K2). change (pr_amount (reverse_row id rel r)) with (- pr_amount r).
  destruct rel; repeat case_decide; try lia; exfalso; intuition congruence.
Qed.

Lemma reverse_rows_entry id rel rows : Forall (fun r => pr_entry r = id) (reverse_row id rel <$> rows).
Proof. by apply Forall_fmap, Forall_true. Qed.


Lemma refund_books t d c u row reason cause ref m n m' :
  insert_refund c u row reason cause ref m = Ok (n, m') -> books t d m -> books t d m'.
Proof.
  intros H Hb. unfold insert_refund in H. rewrite tx_gets_bind in H.
  apply tx_bind_ok in H as (sh & m0 & H1 & H). apply market_bigint_ok in H1 as (-> & -> & _).
  rewrite tx_gets_bind in H. apply tx_bind_ok in H as (? & m0 & H1 & H). apply constraint_ok in H1 as (_ & _ & ->).
  destruct (mk_refunds m !! u) as [old|] eqn:Eo; [by apply tx_ret_ok in H as [_ ->]|].
  rewrite tx_modify_bind in H. apply tx_bind_ok in H as (? & m2 & H & Hret). apply tx_ret_ok in Hret as [_ ->].
  set (r := mkRefund _ _ _ _ _ _ _ _ _ _) in *. set (m1 := with_mk_refunds (<[u := r]> (mk_refunds m)) m) in *.
  assert (Href : forall v, refunded m1 v = bool_decide (v = u) || refunded m v).
  { intros v. unfold refunded, m1. cbn. destruct (bool_decide_reflect (v = u)) as [->|Hn]; [by rewrite lookup_insert_eq|].
    by rewrite lookup_insert_ne. }
  assert (Hu : refunded m u = false) by (unfold refunded; by rewrite Eo).
  assert (Hcase : forall e, still_held m e = still_held m1 e || (of_use u e && negb (released m u)) /\
     (of_use u e = true -> still_held m1 e = false /\ moved_on m1 e = false) /\
     moved_on m e = moved_on m1 e || (of_use u e && released m u)).
  { intros e. unfold still_held, moved_on, of_use. change (released m1) with (released m). rewrite Href.
    destruct (bool_decide_reflect (er_use e = u)) as [->|]; [rewrite Hu; by destruct (released m u)|]. cbn [orb andb]. by rewrite !orb_false_r. }
  assert (HE : forall ws p, esum (mk_earnings m) ws (fun e => p e && (of_use u e && released m u)) = (if released m u then esum (mk_earnings m) ws (fun e => p e && of_use u e) else 0) /\
     esum (mk_earnings m) ws (fun e => p e && (of_use u e && negb (released m u))) = (if released m u then 0 else esum (mk_earnings m) ws (fun e => p e && of_use u e))).
  { intros ws p. destruct (released m u); cbn [negb]; split.
    all: first [apply esum_ext; intros e _; by rewrite andb_true_r | apply esum_zero; intros e _; by rewrite !andb_false_r]. }
  assert (HH : forall ws f, esum (mk_earnings m) ws (fun e => funded f e && still_held m e) =
    esum (mk_earnings m) ws (fun e => funded f e && still_held m1 e) + (if released m u then 0 else esum (mk_earnings m) ws (fun e => funded f e && of_use u e))).
  { intros ws f. destruct (HE ws (funded f)) as [_ <-]. apply esum_split. intros e _. destruct (Hcase e) as (-> & C & _).
    destruct (funded f e); [|done]. destruct (of_use u e); [destruct (C eq_refl) as [-> _]|rewrite orb_false_r]; destruct (released m u); cbn; lia. }
  assert (HA : forall ws, esum (mk_earnings m) ws (moved_on m) = esum (mk_earnings m) ws (moved_on m1) + (if released m u then esum (mk_earnings m) ws (of_use u) else 0)).
  { intros ws. destruct (HE ws (fun _ => true)) as [E _].
    rewrite (esum_split _ ws (moved_on m) (moved_on m1) (fun e => true && (of_use u e && released m u))); [by rewrite E|].
    intros e _. destruct (Hcase e) as (_ & C & ->).
    destruct (of_use u e); [destruct (C eq_refl) as [_ ->]|rewrite orb_false_r]; destruct (released m u); cbn; lia. }
  assert (HF : forall ws, esum (mk_earnings m) ws (fun e => funded "test" e && of_use u e) + esum (mk_earnings m) ws (fun e => funded "live" e && of_use u e) =
                          esum (mk_earnings m) ws (of_use u)) by (intros; apply funded_both).
  unfold market_journal_reverse_use in H. rewrite tx_gets_bind in H.
  change (mj_entries m1) with (mj_entries m) in H.
  destruct (mj_entries m !! (JournalClear, u)) as [[id0 at0]|] eqn:Ec.
  - apply tx_bind_ok in H as (id & m3 & H1 & H). apply new_id_ok in H1 as [s ->]. rewrite tx_gets_bind in H.
    apply insert_entry_ok in H as (-> & He & Hf & _).
    change (bool_decide (is_Some (mj_entries m !! (JournalRelease, u)))) with (released m u).
    change (entry_rows (with_mk_store s m1) id0) with (entry_rows m id0).
    pose proof (bk_entry t d m Hb u) as BE. rewrite Ec in BE.
    pose proof (reverse_rows id (released m u) (entry_rows m id0)) as RR.
    set (rows := reverse_row id (released m u) <$> entry_rows m id0) in *.
    assert (Hrows : Forall (fun r => pr_entry r = id) rows) by apply reverse_rows_entry.
    pose proof (bk_entry_kept JournalReversal u id (rf_at r) rows m t d Hb ltac:(done) Hrows Hf) as HK.
    split.
    + apply entered_bal. apply Hb.
    + intros ws f Hw. rewrite entered_balance. change (journal_balance (with_mk_store s m1) (hkey ws f)) with (journal_balance m (hkey ws f)).
      destruct (RR ws f Hw) as [-> _]. destruct (BE ws f Hw) as [-> _].
      rewrite (bk_hold t d m Hb ws f Hw), !earned_esum, HH.
      rewrite (esum_ext _ ws (fun e => funded f e && still_held (entered JournalReversal u id (rf_at r) rows (with_mk_store s m1)) e) (fun e => funded f e && still_held m1 e)).
      * change (mk_earnings (entered JournalReversal u id (rf_at r) rows (with_mk_store s m1))) with (mk_earnings m). destruct (released m u); lia.
      * intros e _. unfold still_held. by rewrite released_other.
    + intros ws Hw. unfold available_balance. rewrite !entered_balance.
      destruct (RR ws "test"%string Hw) as [_ ->].
      destruct (RR ws "live"%string Hw) as [_ ->].
      destruct (BE ws "test"%string Hw) as [-> ->]. destruct (BE ws "live"%string Hw) as [-> ->].
      pose proof (bk_avail t d m Hb ws Hw) as A. unfold available_balance in A. rewrite !earned_esum in *. rewrite HA in A.
      change (journal_balance (with_mk_store s m1)) with (journal_balance m).
      change (paid_out (entered JournalReversal u id (rf_at r) rows (with_mk_store s m1)) ws) with (paid_out m ws).
      rewrite (esum_ext _ ws (moved_on (entered JournalReversal u id (rf_at r) rows (with_mk_store s m1))) (moved_on m1)).
      * change (mk_earnings (entered JournalReversal u id (rf_at r) rows (with_mk_store s m1))) with (mk_earnings m). specialize (HF ws). destruct (released m u); lia.
      * intros e _. unfold moved_on. by rewrite released_other.
    + intros e Hin Hr. rewrite released_other in Hr by done. by apply (bk_released t d m Hb).
    + apply Hb.
    + apply Hb.
    + exact HK.
    + apply entered_ids; [done..|apply Hb].
    + apply Hb.
    + intros v y Hv. change (mj_entries (entered JournalReversal u id (rf_at r) rows (with_mk_store s m1))) with (<[(JournalReversal, u) := (id, rf_at r)]> (mj_entries m)) in Hv.
      rewrite lookup_insert_ne in Hv by done. by eapply (bk_earned t d m Hb).
  - apply tx_ret_ok in H as [_ ->]. pose proof (bk_entry t d m Hb u) as BE. rewrite Ec in BE.
    destruct Hb as [B1 B2 B3 B4 B5 B6 B7 B8 B9 B10]. split; try assumption.
    + intros ws f Hw. specialize (BE ws f Hw). rewrite earned_esum in BE. rewrite (B2 ws f Hw : journal_balance m1 (hkey ws f) = _), !earned_esum, HH, BE.
      change (mk_earnings m1) with (mk_earnings m). destruct (released m u); lia.
    + intros ws Hw. pose proof (BE ws "test"%string Hw) as T1. pose proof (BE ws "live"%string Hw) as T2. rewrite earned_esum in T1, T2.
      specialize (B3 ws Hw). rewrite earned_esum in *. rewrite HA in B3. specialize (HF ws).
      change (mk_earnings m1) with (mk_earnings m). change (paid_out m1 ws) with (paid_out m ws). change (available_balance m1 ws) with (available_balance m ws).
      destruct (released m u); lia.
Qed.

(** ** Clearing *)

Lemma books_licences t d m l : books t d m -> books t d (with_mk_licences l m).
Proof. intros H. by apply (books_frame t d m). Qed.

(** Renting to own touches the licences alone. *)
(** No operation of the marketplace makes a workspace a test one. *)
Definition same_tests (m m' : Market) : Prop := workspaces (mk_store m') = workspaces (mk_store m).

Lemma same_tests_tests m m' ws : same_tests m m' -> test_workspace m' ws = test_workspace m ws.
Proof. unfold same_tests, test_workspace, synthetic. by intros ->. Qed.

Lemma new_id_tests c p m id m' : new_id c p m = Ok (id, m') -> same_tests m m'.
Proof.
  intros H. apply tx_bind_ok in H as (u & m1 & H1 & H). apply store_tx_ok in H1 as (s & H1 & ->).
  apply uuid_new_ok in H1 as [_ ->]. by apply tx_ret_ok in H as [_ ->].
Qed.

Lemma PostJournalTx_tests c kind ref fb at_ ps m id m' : PostJournalTx c kind ref fb at_ ps m = Ok (id, m') -> same_tests m m'.
Proof.
  unfold PostJournalTx. destruct (journal_lines fb ps); [by intros [_ ->]%tx_ret_ok|]. intros H.
  apply tx_bind_ok in H as (i & m1 & H1 & H). apply new_id_tests in H1.
  apply tx_bind_ok in H as (? & m2 & H2 & H). apply tx_ret_ok in H as [_ ->]. by apply insert_entry_ok in H2 as (-> & _).
Qed.

Lemma rentCleared_tests c id gross at_ m v m' : rentCleared c id gross at_ m = Ok (v, m') -> same_tests m m'.
Proof.
  intros H. unfold rentCleared in H. rewrite tx_gets_bind in H.
  destruct (mk_licences m !! id) as [l|]; [|by apply tx_ret_ok in H as [_ ->]].
  destruct (negb _); [by apply tx_ret_ok in H as [_ ->]|].
  apply tx_bind_ok in H as (z & m1 & H1 & H). apply market_bigint_ok in H1 as (_ & -> & _).
  apply tx_bind_ok in H as (? & m1 & H1 & H). apply constraint_ok in H1 as (_ & _ & ->).
  rewrite tx_modify_bind, tx_gets_bind in H. destruct (buy_offer _ _ _) as [o|]; [|by apply tx_ret_ok in H as [_ ->]].
  rewrite tx_gets_bind in H. apply tx_bind_ok in H as (paid & m1 & H1 & H). apply market_bigint_ok in H1 as (-> & -> & _).
  destruct (_ <? _); [by apply tx_ret_ok in H as [_ ->]|].
  apply tx_bind_ok in H as (i & m1 & H1 & H). apply new_id_tests in H1. rewrite tx_gets_bind in H.
  apply tx_bind_ok in H as (? & m2 & H2 & H). apply tx_modify_ok in H as ->.
  destruct (owns_already _ _ _ _ _); [by apply tx_ret_ok in H2 as [_ ->]|]. rewrite tx_gets_bind in H2.
  apply tx_bind_ok in H2 as (? & m3 & H3 & H2). apply constraint_ok in H3 as (_ & _ & ->). by apply tx_modify_ok in H2 as ->.
Qed.

Lemma rentCleared_frame c id gross at_ m v m' :
  rentCleared c id gross at_ m = Ok (v, m') -> exists s l, m' = with_mk_licences l (with_mk_store s m).
Proof.
  intros H. assert (K : exists s l, m = with_mk_licences l (with_mk_store s m)) by (exists (mk_store m), (mk_licences m); by destruct m).
  unfold rentCleared in H. rewrite tx_gets_bind in H.
  destruct (mk_licences m !! id) as [l|]; [|by apply tx_ret_ok in H as [_ ->]].
  destruct (negb _); [by apply tx_ret_ok in H as [_ ->]|].
  apply tx_bind_ok in H as (z & m1 & H1 & H). apply market_bigint_ok in H1 as (_ & -> & _).
  apply tx_bind_ok in H as (? & m1 & H1 & H). apply constraint_ok in H1 as (_ & _ & ->).
  rewrite tx_modify_bind, tx_gets_bind in H.
  destruct (buy_offer _ _ _) as [o|]; [|apply tx_ret_ok in H as [_ ->]; exists (mk_store m); eexists; by destruct m].
  rewrite tx_gets_bind in H. apply tx_bind_ok in H as (paid & m1 & H1 & H). apply market_bigint_ok in H1 as (-> & -> & _).
  destruct (_ <? _); [apply tx_ret_ok in H as [_ ->]; exists (mk_store m); eexists; by destruct m|].
  apply tx_bind_ok in H as (i & m1 & H1 & H). apply new_id_ok in H1 as [s ->]. rewrite tx_gets_bind in H.
  apply tx_bind_ok in H as (? & m1 & H1 & H). apply tx_modify_ok in H as ->.
  destruct (owns_already _ _ _ _ _).
  - apply tx_ret_ok in H1 as [_ ->]. exists s. eexists. by destruct m.
  - rewrite tx_gets_bind in H1. apply tx_bind_ok in H1 as (? & m2 & H2 & H1). apply constraint_ok in H2 as (_ & _ & ->).
    apply tx_modify_ok in H1 as ->. exists s. eexists. by destruct m.
Qed.

Lemma rentCleared_books t d c id gross at_ m v m' :
  rentCleared c id gross at_ m = Ok (v, m') -> books t d m -> books t d m' /\ mk_uses m' = mk_uses m /\ mk_earnings m' = mk_earnings m.
Proof. intros (s & l & ->)%rentCleared_frame Hb. split; [by apply books_licences, books_store|done]. Qed.

Lemma lineage_ok L buyer seller sold pool live m r m' : lineageRoyaltiesTx L buyer seller sold pool live m = Ok (r, m') -> m' = m.
Proof.
  unfold lineageRoyaltiesTx. destruct (CapabilityByKey _); [|by intros [_ ->]%tx_ret_ok].
  destruct (_ && _); [by intros [_ ->]%tx_ret_ok|]. rewrite tx_gets_bind. destruct (flowUp _ _ _ _ _ _); [by intros [_ ->]%tx_ret_ok|].
  by intros H%tx_fail_ok.
Qed.

(** The line an earning is posted with. *)
Definition earning_line (e : EarningRow) : JournalPosting :=
  mkPost (SellerHoldback (er_seller e)) (-! er_share e) "" (funding (er_livemode e) (er_test e)).

Definition earning_of (useID : string) (payable : Z) (e : EarningRow) : Prop :=
  er_use e = useID /\ er_payable e = payable /\ 0 <= er_share e <= max_i64.

Lemma earn_ok useID invoice paidAt lm payee kind ref depth gross fee amount m p m' :
  earn useID invoice paidAt lm payee kind ref depth gross fee amount m = Ok (p, m') ->
  exists e, m' = with_mk_earnings (mk_earnings m ++ [e]) m /\ p = earning_line e /\ earning_of useID (paidAt + Holdback) e /\
    er_seller e = payee /\ er_share e = amount /\ er_kind e = kind /\ er_gross e = gross /\ er_fee e = fee /\ er_livemode e = lm /\ er_test e = test_workspace m payee /\
    e = mkEarning useID payee kind ref depth gross amount fee invoice paidAt (paidAt + Holdback) lm (test_workspace m payee).
Proof.
  intros H. unfold earn in H. rewrite !tx_gets_bind in H. apply tx_bind_ok in H as (? & m1 & H1 & H).
  apply constraint_ok in H1 as (Hok & _ & ->). rewrite tx_modify_bind in H. apply tx_ret_ok in H as [-> ->].
  eexists. split; [done|]. split; [done|]. unfold earning_ok in Hok. rewrite !andb_true_iff in Hok.
  destruct Hok as ((((_ & H1) & H2) & _) & _). cbn in H1, H2. apply in_i64b_spec in H2. unfold earning_of. split_and!; try done; cbn; i64_ranges; lia.
Qed.

Lemma earn_royalties_ok useID invoice paidAt lm l : forall m ps m',
  earn_royalties useID invoice paidAt lm l m = Ok (ps, m') ->
  exists es, m' = with_mk_earnings (mk_earnings m ++ es) m /\ ps = earning_line <$> es /\
    Forall (earning_of useID (paidAt + Holdback)) es /\ er_share <$> es = ry_amount <$> l /\ er_seller <$> es = ry_payee <$> l /\
    Forall (fun e => er_kind e = EarningLineage /\ er_gross e = 0 /\ er_fee e = 0 /\ er_livemode e = lm) es /\
    es = (fun r => mkEarning useID (ry_payee r) EarningLineage (ry_edgeID r) (ry_depth r) 0 (ry_amount r) 0 invoice paidAt (paidAt + Holdback) lm
                     (test_workspace m (ry_payee r))) <$> l.
Proof.
  induction l as [|r l IH]; intros m ps m' H; cbn [earn_royalties] in H.
  - apply tx_ret_ok in H as [-> ->]. exists []. rewrite app_nil_r. destruct m. by split_and!.
  - apply tx_bind_ok in H as (p & m1 & H1 & H). apply earn_ok in H1 as (e & -> & -> & He & E1 & E2 & E3 & E4 & E5 & E6 & _ & EX).
    apply tx_bind_ok in H as (qs & m2 & H2 & H). apply tx_ret_ok in H as [-> ->].
    apply IH in H2 as (es & -> & -> & Hes & E7 & E8 & E9 & E10). exists (e :: es). split_and!.
    + cbn. rewrite <- app_assoc. by destruct m.
    + done.
    + by constructor.
    + csimpl. by rewrite E2, E7.
    + csimpl. by rewrite E1, E8.
    + by constructor.
    + rewrite fmap_cons. by f_equal.
Qed.

Lemma earning_line_posts fb ws f e : 0 <= er_share e <= max_i64 ->
  posts fb (SellerHoldback ws) f [earning_line e] = - part (bool_decide (er_seller e = ws) && funded f e) (er_share e) /\
  posts fb (SellerAvailable ws) f [earning_line e] = 0.
Proof.
  intros He. unfold earning_line.
  destruct (posts_seller fb ws f (er_seller e) (-! er_share e) (funding (er_livemode e) (er_test e))) as (-> & _ & _ & ->).
  rewrite !funding_named, !part_funded, wrap64_id by (i64_ranges; lia). split; [|done]. destruct (bool_decide _ && _); cbn [part]; lia.
Qed.

Lemma earning_lines_posts fb ws f u pay es : Forall (earning_of u pay) es ->
  posts fb (SellerHoldback ws) f (earning_line <$> es) = - esum es ws (funded f) /\
  posts fb (SellerAvailable ws) f (earning_line <$> es) = 0.
Proof.
  induction 1 as [|e es (_ & _ & He) _ [IH1 IH2]]; [done|]. rewrite fmap_cons, (posts_cons fb (SellerHoldback ws)), (posts_cons fb (SellerAvailable ws)), IH1, IH2, esum_cons.
  destruct (earning_line_posts fb ws f e He) as [-> ->]. lia.
Qed.

(** A use's earnings and its clear entry, written together. *)
Lemma cleared_books t d c u urow useID pay fb at_ ps m es id m' inv :
  books t d m -> mk_uses m !! useID = Some urow -> us_cleared urow = None -> refunded m useID = false ->
  Forall (earning_of useID pay) es ->
  (forall ws f, posts fb (SellerHoldback ws) f ps = - esum es ws (funded f) /\ posts fb (SellerAvailable ws) f ps = 0) ->
  PostJournalTx c JournalClear useID fb at_ ps (with_mk_earnings (mk_earnings m ++ es) m) = Ok (id, m') ->
  u = set_cleared inv at_ ->
  books t d (with_mk_uses (alter u useID (mk_uses m')) m') /\ mk_uses m' = mk_uses m /\
  mk_earnings m' = mk_earnings m ++ es /\ mk_refunds m' = mk_refunds m.
Proof.
  intros Hb Huse Hcl Hrf Hes Hps H ->. rewrite Forall_forall in Hes.
  assert (Hnew : forall e, e ∈ mk_earnings m -> er_use e <> useID).
  { intros e He E. destruct (bk_uses t d m Hb e He) as (x & Hx & Hc). rewrite E in Hx. congruence. }
  assert (Hrel : released m useID = false).
  { unfold released. destruct (mj_entries m !! (JournalRelease, useID)) as [x|] eqn:E; [|done].
    destruct (bk_earned t d m Hb useID x E) as (e & He & Eu). by apply Hnew in He. }
  assert (Hzero : forall ws p, esum (mk_earnings m) ws (fun e => p e && of_use useID e) = 0).
  { intros ws p. apply esum_zero. intros e He. unfold of_use. rewrite (bool_decide_false _ (Hnew e He)). by rewrite andb_false_r. }
  assert (Hes' : forall ws p, esum es ws (fun e => p e && of_use useID e) = esum es ws p).
  { intros ws p. apply esum_ext. intros e He. destruct (Hes e He) as [E _]. unfold of_use. rewrite (bool_decide_true _ E). apply andb_true_r. }
  (* what the entry leaves of the journal *)
  assert (HJ : exists m2, m' = m2 /\ mk_uses m2 = mk_uses m /\ mk_earnings m2 = mk_earnings m ++ es /\ mk_refunds m2 = mk_refunds m /\
    mk_holds m2 = mk_holds m /\ mk_payouts m2 = mk_payouts m /\
    (forall k, journal_balance m2 k = rows_on k (mj_postings m2)) /\
    (forall a f, journal_balance m2 (a, "USD"%string, f) = journal_balance m (a, "USD"%string, f) + posts fb a f ps) /\
    (forall v, mj_entries m2 !! (JournalRelease, v) = mj_entries m !! (JournalRelease, v)) /\
    (forall r, r ∈ mj_postings m2 -> exists k x, mj_entries m2 !! k = Some (pr_entry r, x)) /\
    (forall v, v <> useID -> mj_entries m2 !! (JournalClear, v) = mj_entries m !! (JournalClear, v) /\
       forall i x, mj_entries m !! (JournalClear, v) = Some (i, x) -> entry_rows m2 i = entry_rows m i) /\
    match mj_entries m2 !! (JournalClear, useID) with
    | Some (i, _) => forall ws f, ws <> EmptyString -> rows_on (hkey ws f) (entry_rows m2 i) = posts fb (SellerHoldback ws) f ps /\ rows_on (akey ws f) (entry_rows m2 i) = 0
    | None => forall ws f, ws <> EmptyString -> posts fb (SellerHoldback ws) f ps = 0
    end).
  { apply PostJournalTx_ok in H as [[El ->]|(He & Hf & s & ->)].
    - assert (Z0 : forall a f, posts fb a f ps = 0) by (intros; unfold posts; rewrite <- journal_lines_on, El; done).
      eexists. split; [done|]. repeat (split; [done|]). split; [apply Hb|]. split; [intros; rewrite Z0; symmetry; apply Z.add_0_r|].
      split; [done|]. split; [apply Hb|]. split; [done|]. cbn [mj_entries with_mk_earnings].
      pose proof (bk_entry t d m Hb useID) as BE. destruct (mj_entries m !! (JournalClear, useID)) as [[i x]|]; [|intros; apply Z0].
      intros ws f Hw. destruct (BE ws f Hw) as [B1 B2]. rewrite earned_esum, Hzero in B1. rewrite Z0. done.
    - pose proof (rows_posts id fb ps) as HR. set (rows := journal_rows id 1 _) in *.
      assert (Hrows : Forall (fun r => pr_entry r = id) rows) by apply journal_rows_entry.
      set (m1 := with_mk_store s (with_mk_earnings (mk_earnings m ++ es) m)) in *.
      assert (Hid : forall r, r ∈ mj_postings m1 -> exists k x, mj_entries m1 !! k = Some (pr_entry r, x)) by apply Hb.
      eexists. split; [done|]. repeat (split; [done|]). split; [apply entered_bal; apply Hb|].
      split; [intros; rewrite entered_balance, HR; done|].
      split; [intros v; change (mj_entries (entered JournalClear useID id at_ rows m1)) with (<[(JournalClear, useID) := (id, at_)]> (mj_entries m)); by rewrite lookup_insert_ne|].
      split; [by apply entered_ids|].
      change (mj_entries (entered JournalClear useID id at_ rows m1)) with (<[(JournalClear, useID) := (id, at_)]> (mj_entries m)).
      split.
      + intros v Hv. rewrite lookup_insert_ne by congruence. split; [done|]. intros i x Hi.
        rewrite entry_rows_other; [done..|]. exact (Hf _ _ Hi).
      + rewrite lookup_insert_eq, entry_rows_new; [|done|by apply fresh_rows].
        intros ws f Hw. unfold hkey, akey. rewrite !HR. split; [done|]. apply Hps. }
  destruct HJ as (m2 & -> & E1 & E2 & E3 & E4 & E5 & J1 & J2 & J3 & J4 & J5 & J6). split; [|done].
  assert (R1 : forall v, released m2 v = released m v) by (intros v; unfold released; by rewrite J3).
  assert (R2 : forall v, refunded m2 v = refunded m v) by (intros v; unfold refunded; by rewrite E3).
  assert (Hst : forall e, e ∈ es -> still_held m2 e = true /\ moved_on m2 e = false).
  { intros e He. destruct (Hes e He) as (Eu & _). unfold still_held, moved_on. rewrite R1, R2, Eu, Hrf, Hrel. done. }
  destruct Hb as [B1 B2 B3 B4 B5 B6 B7 B8 B9 B10]. split.
  - apply J1.
  - intros ws f Hw. change (journal_balance m2 (hkey ws f) = - earned m2 ws (fun e => funded f e && still_held m2 e)).
    unfold hkey. rewrite J2. destruct (Hps ws f) as [-> _]. rewrite (B2 ws f Hw : journal_balance m (SellerHoldback ws, "USD"%string, f) = _), !earned_esum, E2, esum_app.
    rewrite (esum_ext es ws (fun e => funded f e && still_held m2 e) (funded f)) by (intros e He; destruct (Hst e He) as [-> _]; apply andb_true_r).
    rewrite (esum_ext (mk_earnings m) ws (fun e => funded f e && still_held m2 e) (fun e => funded f e && still_held m e)); [lia|].
    intros e _. unfold still_held. by rewrite R1, R2.
  - intros ws Hw. change (available_balance m2 ws = paid_out m2 ws (fun _ => true) - earned m2 ws (moved_on m2) + d ws).
    specialize (B3 ws Hw). unfold available_balance, akey in *. rewrite !J2.
    destruct (Hps ws "test"%string) as [_ ->]. destruct (Hps ws "live"%string) as [_ ->].
    rewrite !earned_esum, E2, esum_app in *. rewrite (esum_zero es) by (intros e He; destruct (Hst e He) as [_ ->]; done).
    rewrite (esum_ext (mk_earnings m) ws (moved_on m2) (moved_on m)) by (intros e _; unfold moved_on; by rewrite R1, R2).
    unfold paid_out in *. rewrite E5. lia.
  - cbn [mk_earnings with_mk_uses]. rewrite E2. intros e He Hr. change (released m2 (er_use e) = true) in Hr. rewrite R1 in Hr.
    assert (Hh : held (with_mk_uses (alter (set_cleared inv at_) useID (mk_uses m2)) m2) (er_use e) = held m (er_use e)) by (unfold held; cbn; by rewrite E4).
    rewrite Hh. apply elem_of_app in He as [He|He]; [by apply B4|]. destruct (Hes e He) as (Eu & _). congruence.
  - cbn [mk_earnings with_mk_uses]. rewrite E2. intros e x He Hx Eq.
    apply elem_of_app in He as [He|He]; apply elem_of_app in Hx as [Hx|Hx].
    + by apply B5.
    + destruct (Hes x Hx) as (Eu & _). by destruct (Hnew e He); congruence.
    + destruct (Hes e He) as (Eu & _). by destruct (Hnew x Hx); congruence.
    + destruct (Hes e He) as (_ & -> & _), (Hes x Hx) as (_ & -> & _). done.
  - cbn [mk_earnings with_mk_uses]. rewrite E2. intros e [He|He]%elem_of_app; [by apply B6|]. by destruct (Hes e He) as (_ & _ & ?).
  - intros v ws f Hw. change (match mj_entries m2 !! (JournalClear, v) with Some (i, _) => rows_on (hkey ws f) (entry_rows m2 i) = - earned m2 ws (fun e => funded f e && of_use v e) /\ rows_on (akey ws f) (entry_rows m2 i) = 0 | None => earned m2 ws (fun e => funded f e && of_use v e) = 0 end).
    rewrite earned_esum, E2, esum_app. destruct (decide (v = useID)) as [->|Hv].
    + rewrite Hzero, Hes'. destruct (Hps ws f) as [P _].
      destruct (mj_entries m2 !! (JournalClear, useID)) as [[i x]|]; [destruct (J6 ws f Hw) as [-> ->]; rewrite P; split; lia|].
      specialize (J6 ws f Hw). lia.
    + rewrite (esum_zero es) by (intros e He; destruct (Hes e He) as [E _]; unfold of_use; rewrite bool_decide_false by congruence; by rewrite andb_false_r).
      rewrite Z.add_0_r. destruct (J5 v Hv) as [-> J7]. specialize (B7 v ws f Hw). rewrite earned_esum in B7.
      destruct (mj_entries m !! (JournalClear, v)) as [[i x]|]; [|done]. by rewrite (J7 i x eq_refl).
  - apply J4.
  - cbn [mk_earnings mk_uses with_mk_uses]. rewrite E1, E2. intros e [He|He]%elem_of_app.
    + rewrite lookup_alter_ne by (apply not_eq_sym; by apply Hnew). by apply B9.
    + destruct (Hes e He) as [-> _]. rewrite lookup_alter_eq, Huse. cbn. eexists. split; [done|]. done.
  - cbn [mk_earnings mj_entries with_mk_uses]. rewrite E2. intros v x Hv. rewrite J3 in Hv. destruct (B10 v x Hv) as (e & He & Eu). exists e. set_solver.
Qed.

Section Clearing.
Context (F : FeeSettings) (L : LineageLimits) (c : Ctx).

(** What the seller keeps of a use and the royalties it pays, as [clear_use] works them out. *)
Definition use_split (buyer : string) (livemode : bool) (u : UseRow) : MTx (Z * list royalty) :=
  let share := SellerShare (Z.quot (us_price u) ulxcPerUSDMicro) (takeBPS F (is_payment u)) in
  if is_payment u then tx_ret (share, [])
  else
    let! test := tx_gets (fun m => test_workspace m (us_seller u)) in
    lineageRoyaltiesTx L buyer (us_seller u) (mkVersion (us_listing u) (us_version u)) share
      (bool_decide (funding livemode test = "live"%string)).

(** The lines of a use's clear entry. *)
Definition clear_lines (m : Market) (useID : string) (u : UseRow) (e0 : EarningRow) (es : list EarningRow) : list JournalPosting :=
  let gross := Z.quot (us_price u) ulxcPerUSDMicro in
  let share := SellerShare gross (takeBPS F (is_payment u)) in
  let '(jurisdiction, tax) := use_tax m useID u in
  mkPost AccountStripeClearing (gross +! tax) "" "" :: mkPost AccountMarketFee (-! (gross -! share)) "" ""
    :: earning_line e0 :: (earning_line <$> es)
    ++ (if 0 <? tax then [mkPost (AccountTax jurisdiction) (-! tax) "" (funding (er_livemode e0) (er_test e0))] else []).

Lemma split_keeps buyer lm u m r m' : use_split buyer lm u m = Ok (r, m') -> m' = m.
Proof.
  unfold use_split. destruct (is_payment u); [by intros [_ ->]%tx_ret_ok|]. rewrite tx_gets_bind. apply lineage_ok.
Qed.

(** The row a use's seller is written, and the rows of its lineage. *)
Definition sale_earning (id invoice : string) (paidAt : Z) (lm : bool) (u : UseRow) (keep : Z) (m : Market) : EarningRow :=
  let gross := Z.quot (us_price u) ulxcPerUSDMicro in
  mkEarning id (us_seller u) EarningSale "" 0 gross keep (gross -! SellerShare gross (takeBPS F (is_payment u)))
    invoice paidAt (paidAt + Holdback) lm (test_workspace m (us_seller u)).

Definition lineage_earning (id invoice : string) (paidAt : Z) (lm : bool) (m : Market) (r : royalty) : EarningRow :=
  mkEarning id (ry_payee r) EarningLineage (ry_edgeID r) (ry_depth r) 0 (ry_amount r) 0
    invoice paidAt (paidAt + Holdback) lm (test_workspace m (ry_payee r)).

(** A use of an invoice, step by step. *)
Lemma clear_use_steps buyer invoice paidAt lm id u m n m' :
  clear_use F L c buyer invoice paidAt lm id u m = Ok (n, m') ->
  (refunded m id = true /\ n = 0%nat /\ m' = m) \/
  (refunded m id = false /\ n = 1%nat /\
   exists keep rs e0 es jid m2,
     use_split buyer lm u m = Ok ((keep, rs), m) /\
     Forall (earning_of id (paidAt + Holdback)) (e0 :: es) /\
     e0 = sale_earning id invoice paidAt lm u keep m /\ es = lineage_earning id invoice paidAt lm m <$> rs /\
     er_share e0 = keep /\ er_seller e0 = us_seller u /\ er_kind e0 = EarningSale /\ er_gross e0 = Z.quot (us_price u) ulxcPerUSDMicro /\
     er_fee e0 = Z.quot (us_price u) ulxcPerUSDMicro -! SellerShare (Z.quot (us_price u) ulxcPerUSDMicro) (takeBPS F (is_payment u)) /\
     er_share <$> es = ry_amount <$> rs /\ er_seller <$> es = ry_payee <$> rs /\
     Forall (fun e => er_kind e = EarningLineage /\ er_gross e = 0 /\ er_fee e = 0 /\ er_livemode e = lm) es /\
     PostJournalTx c JournalClear id (funding (er_livemode e0) (er_test e0)) paidAt (clear_lines m id u e0 es)
       (with_mk_earnings (mk_earnings m ++ e0 :: es) m) = Ok (jid, m2) /\
     (m' = with_mk_uses (alter (set_cleared invoice paidAt) id (mk_uses m2)) m2 \/
      rentCleared c (us_licence u) (Z.quot (us_price u) ulxcPerUSDMicro) paidAt (with_mk_uses (alter (set_cleared invoice paidAt) id (mk_uses m2)) m2) = Ok (tt, m'))).
Proof.
  intros H. unfold clear_use in H. rewrite tx_gets_bind in H. fold (refunded m id) in H.
  destruct (refunded m id) eqn:Er; [apply tx_ret_ok in H as [-> ->]; by left|]. right.
  change (if is_payment u then _ else _) with (use_split buyer lm u) in H.
  apply tx_bind_ok in H as ([keep rs] & m1 & Hs & H). pose proof (split_keeps _ _ _ _ _ _ Hs) as ->.
  apply tx_bind_ok in H as (p & m1 & H1 & H). apply earn_ok in H1 as (e0 & -> & -> & He & E1 & E2 & E3 & E4 & E5 & E6 & E7 & EX).
  apply tx_bind_ok in H as (qs & m1 & H1 & H). apply earn_royalties_ok in H1 as (es & -> & -> & Hes & R1 & R2 & R3 & EY).
  rewrite tx_gets_bind in H. cbn [mk_earnings with_mk_earnings] in H. rewrite <- app_assoc in H. cbn [app] in H.
  change (use_tax (with_mk_earnings _ (with_mk_earnings _ m)) id u) with (use_tax m id u) in H.
  change (with_mk_earnings (mk_earnings m ++ e0 :: es) (with_mk_earnings (mk_earnings m ++ [e0]) m)) with (with_mk_earnings (mk_earnings m ++ e0 :: es) m) in H.
  destruct (use_tax m id u) as [j tax] eqn:Et. apply tx_bind_ok in H as (? & m1 & H1 & H).
  apply tx_bind_ok in H1 as (jid & m2 & H1 & H2). apply tx_ret_ok in H2 as [_ ->].
  rewrite tx_modify_bind in H. apply tx_bind_ok in H as ([] & m3 & H2 & H). apply tx_ret_ok in H as [-> ->].
  split; [done|]. split; [done|]. exists keep, rs, e0, es, jid, m2. split_and!; try done; [by constructor| |].
  - unfold clear_lines. rewrite Et. exact H1.
  - case_match; [by right|]. apply tx_ret_ok in H2 as [_ ->]. by left.
Qed.

Lemma clear_lines_posts m id u e0 es fb ws f pay : Forall (earning_of id pay) (e0 :: es) ->
  posts fb (SellerHoldback ws) f (clear_lines m id u e0 es) = - esum (e0 :: es) ws (funded f) /\
  posts fb (SellerAvailable ws) f (clear_lines m id u e0 es) = 0.
Proof.
  intros He. unfold clear_lines. destruct (use_tax m id u) as [j tax].
  rewrite app_comm_cons. change (earning_line e0 :: (earning_line <$> es)) with (earning_line <$> (e0 :: es)).
  rewrite !(posts_cons2 fb), !posts_app.
  destruct (posts_house fb f _ (Z.quot (us_price u) ulxcPerUSDMicro +! tax) "" "" ws house_clearing) as [-> ->].
  destruct (posts_house fb f _ (-! (Z.quot (us_price u) ulxcPerUSDMicro -! SellerShare (Z.quot (us_price u) ulxcPerUSDMicro) (takeBPS F (is_payment u)))) "" "" ws house_fee) as [-> ->].
  destruct (earning_lines_posts fb ws f id pay _ He) as [-> ->].
  destruct (0 <? tax); [destruct (posts_house fb f _ (-! tax) "" (funding (er_livemode e0) (er_test e0)) ws (house_tax j)) as [-> ->]|]; [lia|].
  unfold posts, lines_on; cbn [fmap list_fmap sumZ]. lia.
Qed.

Lemma clear_use_books t d buyer invoice paidAt lm id u m n m' :
  clear_use F L c buyer invoice paidAt lm id u m = Ok (n, m') -> books t d m -> mk_uses m !! id = Some u -> us_cleared u = None ->
  books t d m' /\ forall j, j <> id -> mk_uses m' !! j = mk_uses m !! j.
Proof.
  intros H Hb Hu Hc. apply clear_use_steps in H as [(_ & _ & ->)|(Hr & _ & keep & rs & e0 & es & jid & m2 & _ & Hes & _ & _ & _ & _ & _ & _ & _ & _ & _ & _ & HP & Hrent)]; [done|].
  destruct (cleared_books t d c _ u id _ _ _ _ m _ _ _ invoice Hb Hu Hc Hr Hes (fun ws f => clear_lines_posts m id u e0 es _ ws f _ Hes) HP eq_refl) as (B & E1 & _ & _).
  destruct Hrent as [->|Hrent].
  - split; [done|]. intros j Hj. cbn [mk_uses with_mk_uses]. by rewrite E1, lookup_alter_ne.
  - apply rentCleared_books with (t := t) (d := d) in Hrent as (B2 & E2 & _); [|done]. split; [done|].
    intros j Hj. rewrite E2. cbn [mk_uses with_mk_uses]. by rewrite E1, lookup_alter_ne.
Qed.

Lemma clear_uses_books t d buyer invoice paidAt lm l : forall m n m',
  clear_uses F L c buyer invoice paidAt lm l m = Ok (n, m') -> books t d m -> NoDup l.*1 ->
  (forall x, x ∈ l -> mk_uses m !! x.1 = Some x.2 /\ us_cleared x.2 = None) -> books t d m'.
Proof.
  induction l as [|[id u] l IH]; intros m n m' H Hb Hn Hl; cbn [clear_uses] in H.
  - by apply tx_ret_ok in H as [_ ->].
  - apply tx_bind_ok in H as (k1 & m1 & H1 & H). apply tx_bind_ok in H as (k2 & m2 & H2 & H). apply tx_ret_ok in H as [_ ->].
    destruct (Hl (id, u) ltac:(left)) as [Hu Hc]. apply NoDup_cons in Hn as [Hni Hn].
    destruct (clear_use_books t d _ _ _ _ _ _ _ _ _ H1 Hb Hu Hc) as [B K]. eapply IH; [exact H2|done|done|].
    intros [j v] Hx. destruct (Hl (j, v) ltac:(by right)) as [Hv Hcv]. cbn in *. split; [|done]. rewrite K; [done|].
    intros ->. apply Hni. apply list_elem_of_fmap. by exists (id, v).
Qed.

Lemma uses_where_ok p m : NoDup (uses_where p m).*1 /\ forall x, x ∈ uses_where p m -> mk_uses m !! x.1 = Some x.2 /\ p x.2 = true.
Proof.
  unfold uses_where. split.
  - rewrite merge_sort_Permutation. eapply sublist_NoDup; [apply (NoDup_fst_map_to_list (mk_uses m))|]. apply fmap_sublist, sublist_filter.
  - intros [i u] Hx. rewrite merge_sort_Permutation in Hx. apply list_elem_of_filter in Hx as [Hp Hx]. by apply elem_of_map_to_list in Hx.
Qed.

Lemma ClearInvoice_books t d buyer invoice from until paidAt lm m n m' :
  ClearInvoice F L c buyer invoice from until paidAt lm m = Ok (n, m') -> books t d m -> books t d m'.
Proof.
  intros H Hb. apply market_committed_ok in H. rewrite tx_gets_bind in H.
  destruct (uses_where_ok (clearable buyer from until) m) as [Hn Hx]. eapply clear_uses_books; [exact H|done|done|].
  intros x Hin. destruct (Hx x Hin) as [H1 H2]. split; [done|]. unfold clearable in H2. rewrite !andb_true_iff in H2.
  destruct H2 as (((_ & H2) & _) & _). by apply bool_decide_eq_true in H2.
Qed.
End Clearing.

(** ** Holds and releases *)

Lemma out_of_holdback_released m u now_ : out_of_holdback m u now_ = false -> released m u = false.
Proof. unfold out_of_holdback. by intros [_ H]%orb_false_elim. Qed.

Lemma OpenHold_books t d c useID reason by_ now_ m id m' :
  OpenHold c useID reason by_ now_ m = Ok (id, m') -> books t d m -> books t d m'.
Proof.
  intros H Hb. unfold OpenHold in H. destruct (hold_reason reason) as [why|]; [|by apply tx_fail_ok in H].
  apply tx_bind_ok in H as (? & m1 & H1 & H). apply tx_guard_ok in H1 as (_ & ->).
  apply tx_bind_ok in H as (i & m1 & H1 & H). apply new_id_ok in H1 as [s ->]. rewrite tx_gets_bind in H.
  destruct (mk_uses _ !! useID) as [u|]; [|by apply tx_fail_ok in H]. rewrite tx_gets_bind in H.
  apply tx_bind_ok in H as (? & m1 & H1 & H). apply tx_guard_ok in H1 as (Ho & ->). rewrite tx_gets_bind in H.
  apply tx_bind_ok in H as (? & m1 & H1 & H). apply constraint_ok in H1 as (Hi%bool_decide_eq_true & _ & ->).
  rewrite tx_modify_bind in H. apply tx_ret_ok in H as [_ ->]. apply books_holds; [by apply books_store|].
  intros e _ Hr Hh. apply not_true_iff_false. intros [[E _]|Hc]%held_insert; [| |done].
  - cbn in E. subst. apply negb_true_iff, out_of_holdback_released in Ho. change (released (with_mk_store s m) (er_use e) = true) in Hr. congruence.
  - change (held m (er_use e) = true) in Hc. change (held m (er_use e) = false) in Hh. congruence.
Qed.

Lemma ReleaseHold_books t d c id decision now_ m h m' :
  ReleaseHold c id decision now_ m = Ok (h, m') -> books t d m -> t <= now_ -> books now_ d m'.
Proof.
  intros H Hb Ht. unfold ReleaseHold in H. apply tx_bind_ok in H as (? & m1 & H1 & H). apply tx_guard_ok in H1 as (_ & ->).
  rewrite tx_gets_bind in H. destruct (mk_holds m !! id) as [hold|]; [|by apply tx_fail_ok in H].
  apply tx_bind_ok in H as (? & m1 & H1 & H). apply tx_guard_ok in H1 as (_ & ->). rewrite tx_modify_bind in H.
  apply tx_bind_ok in H as (b & m1 & H1 & H). apply tx_ret_ok in H as [_ ->].
  eapply release_books; [exact H1| |done]. apply books_holds; [done|]. intros e _ _. by apply not_held_close.
Qed.

Lemma release_each_books d c now_ ids : forall n m r m',
  release_each c now_ ids n m = (r, m') -> books now_ d m -> books now_ d m'.
Proof.
  induction ids as [|id ids IH]; intros n m r m' H Hb; cbn [release_each] in H; [by injection H as <- <-|].
  destruct (market_committed (releaseUseTx c id now_) m) as [[ok m1]|] eqn:E; [|by injection H as <- <-].
  apply market_committed_ok in E. eapply IH; [exact H|]. by eapply release_books.
Qed.

Lemma release_rounds_books d c fuel now_ : forall n m r m',
  release_rounds c fuel now_ n m = (r, m') -> books now_ d m -> books now_ d m'.
Proof.
  induction fuel as [|fuel IH]; intros n m r m' H Hb; cbn [release_rounds] in H; [by injection H as <- <-|].
  destruct (release_each _ _ _ _ _) as [[k err] m1] eqn:E. apply (release_each_books d) in E; [|done].
  destruct err; [by injection H as <- <-|]. destruct (_ || _); [by injection H as <- <-|]. by eapply IH.
Qed.

Lemma ReleaseDue_books t d c now_ m r m' : ReleaseDue c now_ m = (r, m') -> books t d m -> t <= now_ -> books now_ d m'.
Proof. intros H Hb Ht. eapply release_rounds_books; [exact H|]. by apply (books_ext t d). Qed.

(** ** Refunds, one by one *)

Lemma each_use_books t d one stop add l :
  (forall x m n m', one x m = Ok (n, m') -> books t d m -> books t d m') ->
  forall cov n m r m', each_use one stop add l cov n m = (r, m') -> books t d m -> books t d m'.
Proof.
  intros Hone. induction l as [|x l IH]; intros cov n m r m' H Hb; cbn [each_use] in H; [by injection H as <- <-|].
  destruct (stop cov); [by injection H as <- <-|]. destruct (one x m) as [[k m1]|] eqn:E; [|by injection H as <- <-].
  unfold market_committed in H. rewrite E in H. destruct (journal_balanced _ _); [|by injection H as <- <-].
  eapply IH; [exact H|]. by eapply Hone.
Qed.

Lemma ReverseInvoice_books t d c invoice cause ref amount all_ m r m' :
  ReverseInvoice c invoice cause ref amount all_ m = (r, m') -> books t d m -> books t d m'.
Proof.
  unfold ReverseInvoice. destruct cause; [by intros [= <- <-]| |].
  all: destruct (bool_decide (uses_where _ m = [])); [intros [= _ <-]; done|].
  all: destruct (each_use _ _ _ _ _ _ _) as [[n err] m1] eqn:E; intros [= _ <-] Hb.
  all: eapply each_use_books; [|exact E|done]; intros x ? ? ? Hx; exact (refund_books t d _ _ _ _ _ _ _ _ _ Hx).
Qed.

Lemma refund_down_books t d c x m n m' : refund_down c x m = Ok (n, m') -> books t d m -> books t d m'.
Proof.
  intros H Hb. unfold refund_down in H. rewrite tx_gets_bind in H. destruct (mk_uses m !! x.1); [|by apply tx_fail_ok in H].
  rewrite tx_gets_bind in H. destruct (mk_listings m !! _); [by eapply refund_books|by apply tx_ret_ok in H as [_ ->]].
Qed.

Lemma refundUses_books t d c listing m r m' : refundUses c listing m = (r, m') -> books t d m -> books t d m'.
Proof. intros H. eapply each_use_books; [|exact H]. intros. by eapply refund_down_books. Qed.

(** ** Payouts *)

Lemma sellerBalance_ok ws now_ m a b p m' : sellerBalance ws now_ m = Ok ((a, b, p), m') ->
  m' = m /\ a = earned m ws (past_holdback m now_) /\ b = earned m ws (in_holdback m now_) /\ p = paid_out m ws (fun _ => true) /\
  in_i64 a /\ in_i64 b /\ in_i64 p.
Proof.
  intros H. unfold sellerBalance in H. rewrite tx_gets_bind in H.
  apply tx_bind_ok in H as (z1 & m1 & H1 & H). apply market_bigint_ok in H1 as (-> & -> & I1).
  apply tx_bind_ok in H as (z2 & m1 & H1 & H). apply market_bigint_ok in H1 as (-> & -> & I2).
  apply tx_bind_ok in H as (z3 & m1 & H1 & H). apply market_bigint_ok in H1 as (-> & -> & I3).
  apply tx_ret_ok in H as [[= -> -> ->] ->]. done.
Qed.

Lemma sellerFunds_ok ws now_ m a b m' : sellerFunds ws now_ m = Ok ((a, b), m') -> m' = m /\ 0 <= a /\ 0 <= b.
Proof.
  intros H. unfold sellerFunds in H. rewrite tx_gets_bind in H.
  apply tx_bind_ok in H as (z1 & m1 & H1 & H). apply market_bigint_ok in H1 as (-> & -> & _).
  apply tx_bind_ok in H as (z2 & m1 & H1 & H). apply market_bigint_ok in H1 as (-> & -> & _).
  apply tx_bind_ok in H as (z3 & m1 & H1 & H). apply market_bigint_ok in H1 as (-> & -> & _).
  apply tx_bind_ok in H as (z4 & m1 & H1 & H). apply market_bigint_ok in H1 as (-> & -> & _).
  apply tx_bind_ok in H as (z5 & m1 & H1 & H). apply market_bigint_ok in H1 as (-> & -> & _).
  apply tx_ret_ok in H as [[= -> ->] ->]. split; [done|]. lia.
Qed.

Lemma payable_ok live ws now_ m z m' : payable live ws now_ m = Ok (z, m') -> m' = m.
Proof.
  intros H. unfold payable in H. apply tx_bind_ok in H as ([[a b] p] & m1 & H1 & H). apply sellerBalance_ok in H1 as (-> & _).
  destruct live; cbn [negb] in H; [|by apply tx_ret_ok in H as [_ ->]].
  apply tx_bind_ok in H as ([q r] & m1 & H1 & H). apply sellerFunds_ok in H1 as (-> & _). by apply tx_ret_ok in H as [_ ->].
Qed.

Lemma insert_payout_ok id r m v m' : insert_payout id r m = Ok (v, m') ->
  payout_row_ok r = true /\ mk_payouts m !! id = None /\ m' = with_mk_payouts (<[id := r]> (mk_payouts m)) m.
Proof.
  intros H. unfold insert_payout in H. rewrite tx_gets_bind in H. apply tx_bind_ok in H as (? & m1 & H1 & H).
  apply constraint_ok in H1 as ([H1 H2%bool_decide_eq_true]%andb_prop & _ & ->). by apply tx_modify_ok in H as ->.
Qed.

(** The lines of credits taken add [gross] to what is available. *)
Lemma credits_posts ws w testPart gross : 0 <= testPart <= gross -> in_i64 gross -> 
  let ps := [mkPost (SellerAvailable w) testPart "" "test"; mkPost AccountCreditsIssued (-! testPart) "" "test";
             mkPost (SellerAvailable w) (gross -! testPart) "" "live"; mkPost AccountCreditsIssued (-! (gross -! testPart)) "" "live"] in
  (forall fb f, posts fb (SellerHoldback ws) f ps = 0) /\
  forall fb, posts fb (SellerAvailable ws) "test" ps + posts fb (SellerAvailable ws) "live" ps = if decide (w = ws) then gross else 0.
Proof.
  intros Ht Hg ps. split.
  - intros fb f. unfold ps. rewrite !(posts_cons2 fb). destruct (posts_seller fb ws f w testPart "test") as (_ & _ & -> & _).
    destruct (posts_seller fb ws f w (gross -! testPart) "live") as (_ & _ & -> & _).
    destruct (posts_house fb f _ (-! testPart) "" "test" ws house_credits) as [-> _].
    destruct (posts_house fb f _ (-! (gross -! testPart)) "" "live" ws house_credits) as [-> _]. done.
  - intros fb. assert (E : forall f, posts fb (SellerAvailable ws) f ps =
      (if decide (w = ws /\ "test"%string = f) then testPart else 0) + (if decide (w = ws /\ "live"%string = f) then gross - testPart else 0)).
    { intros f. unfold ps. rewrite !(posts_cons2 fb). destruct (posts_seller fb ws f w testPart "test") as (_ & -> & _ & _).
      destruct (posts_seller fb ws f w (gross -! testPart) "live") as (_ & -> & _ & _).
      destruct (posts_house fb f _ (-! testPart) "" "test" ws house_credits) as [_ ->].
      destruct (posts_house fb f _ (-! (gross -! testPart)) "" "live" ws house_credits) as [_ ->].
      rewrite (wrap64_id (gross - testPart)) by (i64_ranges; lia). rewrite !bool_decide_false by done. change (posts fb (SellerAvailable ws) f []) with 0. lia. }
    rewrite !E. destruct (decide (w = ws)) as [->|Hn].
    + rewrite (decide_True (P := ws = ws /\ "test"%string = "test"%string)), (decide_False (P := ws = ws /\ "live"%string = "test"%string)),
        (decide_False (P := ws = ws /\ "test"%string = "live"%string)), (decide_True (P := ws = ws /\ "live"%string = "live"%string)) by naive_solver. lia.
    + rewrite !decide_False by naive_solver. done.
Qed.

Lemma TakeAsCredits_books t d c ws now_ m r m' : TakeAsCredits c ws now_ m = Ok (r, m') -> books t d m -> books t d m'.
Proof.
  intros H Hb. apply market_committed_ok in H. rewrite tx_gets_bind in H.
  apply tx_bind_ok in H as (? & m1 & H1 & H). apply tx_guard_ok in H1 as (_ & ->).
  apply tx_bind_ok in H as ([[rel hb] paid] & m1 & H1 & H). apply sellerBalance_ok in H1 as (-> & _).
  apply tx_bind_ok in H as (? & m1 & H1 & H). apply tx_guard_ok in H1 as (Hg%negb_true_iff & ->).
  apply tx_bind_ok in H as ([tl ll] & m1 & H1 & H). apply sellerFunds_ok in H1 as (-> & Htl & _).
  apply tx_bind_ok in H as (id & m1 & H1 & H). apply new_id_ok in H1 as [s ->]. rewrite tx_gets_bind in H.
  apply tx_bind_ok in H as (? & m1 & H1 & H). apply insert_payout_ok in H1 as (_ & Hid & ->).
  set (gross := rel -! paid) in *. assert (Hgr : in_i64 gross) by apply wrap64_in.
  set (testPart := if test_workspace _ _ then _ else _) in *.
  assert (Ht : 0 <= testPart <= gross) by (unfold testPart; destruct (test_workspace _ _); lia).
  apply tx_bind_ok in H as (eid & m1 & H1 & H). apply tx_bind_ok in H as (v & m2 & H2 & H). apply tx_ret_ok in H as [_ ->].
  apply store_tx_ok in H2 as (s2 & _ & ->). apply books_store.
  destruct (credits_posts ws ws testPart gross Ht Hgr) as [_ _].
  eapply books_ext; [eapply (post_books t _ c _ _ _ _ _ _ _ _ H1); [done|done|by apply books_payout, Hid; apply books_store|]|lia|].
  - intros w f _. by destruct (credits_posts w ws testPart gross Ht Hgr) as [-> _].
  - intros w _. cbn beta. destruct (credits_posts w ws testPart gross Ht Hgr) as [_ E]. rewrite (E "test"%string).
    cbn [po_ws po_gross]. lia.
Qed.

Lemma vat_to_cent_exact tax : exists q, vat_to_cent tax = q * 10000 /\ -922337203685477 <= q <= 922337203685477.
Proof.
  unfold vat_to_cent, usdMicrosPerCent. change (Z.quot 10000 2) with 5000.
  exists (Z.quot (tax +! 5000) 10000). assert (Hq : -922337203685477 <= Z.quot (tax +! 5000) 10000 <= 922337203685477).
  { pose proof (wrap64_in (tax + 5000)) as I. i64_ranges. split.
    - change (-922337203685477) with (Z.quot (-9223372036854775808) 10000). apply Z.quot_le_mono; lia.
    - change 922337203685477 with (Z.quot 9223372036854775807 10000). apply Z.quot_le_mono; lia. }
  split; [|done]. apply wrap64_id. i64_ranges. lia.
Qed.

Lemma selfBillFor_ok B ws id net at_ m b m' : selfBillFor B ws id net at_ m = Ok (b, m') ->
  m' = m /\ match b with Some r => sb_payout r = id /\ exists q, sb_vat r = q * 10000 /\ -922337203685477 <= q <= 922337203685477 | None => True end.
Proof.
  intros H. unfold selfBillFor in H. destruct B as [b'|]; [|by apply tx_ret_ok in H as [-> ->]]. rewrite tx_gets_bind in H.
  destruct (mk_profiles m !! ws) as [t|]; [|by apply tx_ret_ok in H as [-> ->]].
  destruct (bool_decide _); [by apply tx_ret_ok in H as [-> ->]|].
  destruct (negb _); [apply tx_ret_ok in H as [-> ->]; split; [done|]; split; [done|]; by exists 0|].
  destruct (bool_decide _); [apply tx_ret_ok in H as [-> ->]; split; [done|]; split; [done|]; by exists 0|].
  assert (V : forall p x y n v k, validated p x y n = Ok (v, k) -> k = n).
  { intros p x y n v k. unfold validated. destruct (bool_decide _); [by intros [_ ->]%tx_ret_ok|].
    destruct (ValidateTaxID _ _ _); [by intros [_ ->]%tx_ret_ok|by intros ?%tx_fail_ok]. }
  apply tx_bind_ok in H as ([n v] & m1 & H1%V & H). subst m1. apply tx_bind_ok in H as ([n2 v2] & m1 & H1%V & H). subst m1.
  destruct (Calculate _ _ _ _ _ _) as [l|]; [|by apply tx_fail_ok in H]. apply tx_ret_ok in H as [-> ->].
  split; [done|]. split; [done|]. apply vat_to_cent_exact.
Qed.

(** The lines of a seller's account and the house's: what they add to what is available. *)
Lemma available_posts fb ws w z ps : (forall f w, posts fb (SellerHoldback w) f ps = 0 /\ posts fb (SellerAvailable w) f ps = 0) ->
  fb = "test"%string \/ fb = "live"%string ->
  (forall f, posts fb (SellerHoldback ws) f (mkPost (SellerAvailable w) z "" "" :: ps) = 0) /\
  posts fb (SellerAvailable ws) "test" (mkPost (SellerAvailable w) z "" "" :: ps) +
  posts fb (SellerAvailable ws) "live" (mkPost (SellerAvailable w) z "" "" :: ps) = if decide (w = ws) then z else 0.
Proof.
  intros Hps Hfb. split.
  - intros f. rewrite posts_cons. destruct (posts_seller fb ws f w z "") as (_ & _ & -> & _). destruct (Hps f ws) as [-> _]. done.
  - rewrite (posts_cons fb (SellerAvailable ws) "test"), (posts_cons fb (SellerAvailable ws) "live").
    destruct (posts_seller fb ws "test" w z "") as (_ & -> & _ & _). destruct (posts_seller fb ws "live" w z "") as (_ & -> & _ & _).
    destruct (Hps "test"%string ws) as [_ ->]. destruct (Hps "live"%string ws) as [_ ->]. rewrite bool_decide_true by done.
    destruct (decide (w = ws)) as [->|Hn]; [|rewrite !decide_False by naive_solver; done].
    destruct Hfb as [->| ->]; [rewrite (decide_True (P := ws = ws /\ "test"%string = "test"%string)), (decide_False (P := ws = ws /\ "test"%string = "live"%string)) by naive_solver
      |rewrite (decide_False (P := ws = ws /\ "live"%string = "test"%string)), (decide_True (P := ws = ws /\ "live"%string = "live"%string)) by naive_solver]; lia.
Qed.

(** House lines move no seller's account. *)
Lemma house_posts fb f w ps : Forall (fun p => house_account (jp_account p)) ps ->
  posts fb (SellerHoldback w) f ps = 0 /\ posts fb (SellerAvailable w) f ps = 0.
Proof.
  induction 1 as [|[a z cur g] ps Hp _ [IH1 IH2]]; [done|].
  rewrite (posts_cons fb (SellerHoldback w)), (posts_cons fb (SellerAvailable w)), IH1, IH2.
  destruct (posts_house fb f a z cur g w Hp) as [-> ->]. done.
Qed.

Lemma selfbill_books t d c ws b live test at_ m v m' :
  issueSelfBillTx c ws b live test at_ m = Ok (v, m') -> in_i64 (sb_vat b) -> books t d m ->
  books t (fun w => d w - if decide (ws = w) then sb_vat b else 0) m' /\ 0 <= sb_vat b.
Proof.
  intros H Hi Hb. unfold issueSelfBillTx in H. rewrite tx_gets_bind in H.
  apply tx_bind_ok in H as (i & m1 & H1 & H). apply new_id_ok in H1 as [s ->].
  apply tx_bind_ok in H as (? & m1 & H1 & H). apply constraint_ok in H1 as (Hc & _ & ->). rewrite tx_modify_bind in H.
  apply tx_bind_ok in H as (eid & m1 & H & Hr). apply tx_ret_ok in Hr as [_ ->]. rewrite !andb_true_iff in Hc.
  assert (Hv : 0 <= sb_vat b) by (destruct Hc as ((((_ & Hc) & _) & _) & _); lia). split; [|done].
  assert (Hh : forall f w, posts (funding live test) (SellerHoldback w) f [mkPost (AccountTaxInput (sb_jurisdiction b)) (sb_vat b) "" ""] = 0 /\
    posts (funding live test) (SellerAvailable w) f [mkPost (AccountTaxInput (sb_jurisdiction b)) (sb_vat b) "" ""] = 0)
    by (intros; apply house_posts; repeat constructor; apply house_tax_input).
  eapply books_ext; [eapply (post_books t d _ _ _ _ _ _ _ _ _ H); [done|done| |]|lia|].
  - by apply (books_frame t d m).
  - intros w f _. by apply (available_posts _ w ws _ _ Hh (funding_cases live test)).
  - intros w _. cbn beta. destruct (available_posts _ w ws (-! sb_vat b) _ Hh (funding_cases live test)) as [_ ->].
    rewrite wrap64_id by (i64_ranges; lia). destruct (decide (ws = w)); lia.
Qed.

Lemma payout_row_exact r : payout_row_ok r = true -> 0 < po_gross r /\ 0 <= po_vat r /\ in_i64 (po_gross r + po_vat r).
Proof.
  unfold payout_row_ok. rewrite !andb_true_iff. intros ((((((((H1 & _) & _) & _) & _) & H2) & H3) & _) & _).
  apply in_i64b_spec in H3. split_and!; [lia|lia|done].
Qed.

(** What the payout's lines add is what its row and its invoice took off. *)
Lemma payout_cancels gross q vat : 
  0 < gross *! 10000 -> 0 <= q -> 0 <= gross <= 922337203685477 -> q <= 922337203685477 -> vat = q ->
  in_i64 (gross *! 10000 + vat *! 10000) ->
  (gross +! vat) *! 10000 = gross *! 10000 + q * 10000.
Proof.
  intros Hp Hq Hg Hq' -> Hi.
  assert (Eg : gross *! 10000 = gross * 10000) by (apply wrap64_id; i64_ranges; lia).
  assert (Eq : q *! 10000 = q * 10000) by (apply wrap64_id; i64_ranges; lia).
  rewrite Eg, Eq in *. rewrite (wrap64_id (gross + q)) by (i64_ranges; lia). rewrite wrap64_id by (i64_ranges; lia). lia.
Qed.

Lemma payable_small live ws now_ m z m' : payable live ws now_ m = Ok (z, m') -> in_i64 z.
Proof.
  intros H. unfold payable in H. apply tx_bind_ok in H as ([[a b] p] & m1 & H1 & H).
  pose proof (wrap64_in (a - p)) as I.
  destruct live; cbn [negb] in H; [|by apply tx_ret_ok in H as [-> _]].
  apply tx_bind_ok in H as ([q r] & m2 & H2 & H). apply sellerFunds_ok in H2 as (_ & _ & Hr). apply tx_ret_ok in H as [-> _].
  i64_ranges. lia.
Qed.

Lemma payOutTx_books t d c B ws account live now_ m id m' :
  payOutTx c B ws account live now_ m = Ok (id, m') -> books t d m -> books t d m'.
Proof.
  intros H Hb. unfold payOutTx in H. apply tx_bind_ok in H as (due & m1 & H1 & H).
  pose proof (payable_small _ _ _ _ _ _ H1) as Hdue. apply payable_ok in H1 as ->.
  destruct (Z.ltb_spec due PayoutMinimumUSDMicros) as [|Hmin]; [by apply tx_ret_ok in H as [_ ->]|]. unfold PayoutMinimumUSDMicros in Hmin.
  rewrite tx_gets_bind in H. apply tx_bind_ok in H as (pid & m1 & H1 & H). apply new_id_ok in H1 as [s ->].
  apply (books_store _ _ _ s) in Hb. set (m0 := with_mk_store s m) in *. clearbody m0.
  apply tx_bind_ok in H as (bill & m1 & H1 & H). apply selfBillFor_ok in H1 as [-> Hbill].
  destruct (PayoutFees _ _) as [[accountFee payoutFee] net]. rewrite !tx_gets_bind in H. cbn zeta in H.
  destruct (paid_in _ _ _) in H.
  { apply tx_bind_ok in H as (? & m1 & H1 & H). apply constraint_ok in H1 as (_ & _ & ->). by apply tx_ret_ok in H as [_ ->]. }
  apply tx_bind_ok in H as (? & m1 & H1 & H). match type of H1 with insert_payout _ ?r _ = _ => set (row := r) in * end.
  apply insert_payout_ok in H1 as ((Hr1 & Hr2 & Hr3)%payout_row_exact & Hid & ->).
  apply (books_payout t d m0 pid row) in Hb; [|exact Hid]. unfold row in Hr1, Hr2, Hr3, Hb. cbn [po_ws po_gross po_vat] in Hr1, Hr2, Hr3, Hb.
  set (m2 := with_mk_payouts _ m0) in *. clearbody m2. set (gross := Z.quot due usdMicrosPerCent) in *. unfold usdMicrosPerCent in *.
  set (vat := match bill with Some b => Z.quot (sb_vat b) 10000 | None => 0 end) in *.
  apply tx_bind_ok in H as (? & m3 & H1 & H). apply tx_bind_ok in H as (eid & m4 & H2 & H). apply tx_ret_ok in H as [_ ->].
  assert (Hq : exists q, 0 <= q <= 922337203685477 /\ vat = q /\
    books t (fun w => (d w - if decide (ws = w) then gross *! 10000 else 0) - if decide (ws = w) then q * 10000 else 0) m3).
  { destruct bill as [b|].
    - destruct Hbill as (_ & q & Eq & Hq). apply selfbill_books with (t := t) (d := fun w => d w - if decide (ws = w) then gross *! 10000 else 0) in H1 as [H1 Hpos];
        [|rewrite Eq; i64_ranges; lia|done]. exists q. split; [lia|]. split; [unfold vat; rewrite Eq; by apply Z.quot_mul|].
      eapply books_ext; [exact H1|lia|]. intros w _. cbn beta. rewrite Eq. done.
    - apply tx_ret_ok in H1 as [_ ->]. exists 0. split; [lia|]. split; [done|]. eapply books_ext; [exact Hb|lia|]. intros w _. cbn beta. case_decide; lia. }
  destruct Hq as (q & Hq & Hvat & Hb3).
  assert (Hg : 0 <= gross <= 922337203685477).
  { unfold gross. i64_ranges. split; [apply Z.quot_pos; lia|]. change 922337203685477 with (Z.quot 9223372036854775807 10000). apply Z.quot_le_mono; lia. }
  pose proof (payout_cancels gross q vat Hr1 (proj1 Hq) Hg (proj2 Hq) Hvat Hr3) as HC.
  assert (Hh : forall f w, posts (funding live (test_workspace m0 ws)) (SellerHoldback w) f [mkPost AccountStripeClearing ((-! net) *! 10000) "" ""; mkPost AccountConnectFees ((-! (accountFee +! payoutFee)) *! 10000) "" ""] = 0 /\
    posts (funding live (test_workspace m0 ws)) (SellerAvailable w) f [mkPost AccountStripeClearing ((-! net) *! 10000) "" ""; mkPost AccountConnectFees ((-! (accountFee +! payoutFee)) *! 10000) "" ""] = 0)
    by (intros; apply house_posts; repeat constructor; [apply house_clearing|apply house_clearing|apply house_connect|apply house_connect]).
  eapply books_ext; [eapply (post_books t _ _ _ _ _ _ _ _ _ _ H2); [done|done|exact Hb3|]|lia|].
  - intros w f _. by apply (available_posts _ w ws _ _ Hh (funding_cases live _)).
  - intros w _. cbn beta. destruct (available_posts _ w ws ((gross +! vat) *! 10000) _ Hh (funding_cases live _)) as [_ ->].
    rewrite HC. destruct (decide (ws = w)); lia.
Qed.

Lemma transfer_each_books t d c api l : forall n err m r m',
  transfer_each c api l n err m = (r, m') -> books t d m -> books t d m'.
Proof.
  induction l as [|[id p] l IH]; intros n err m r m' H Hb; cbn [transfer_each] in H; [by injection H as <- <-|].
  destruct (TransferToSeller _ _ _ _ _); eapply IH; try exact H; (apply books_payout_alter; [|done]); intros x; by case_bool_decide.
Qed.

Lemma seller_account_books t d account enabled m : books t d m -> books t d (RecordSellerAccount account enabled m).
Proof. intros H. by apply (books_frame t d m). Qed.

Lemma pay_each_books t d c B api now_ l : forall asked m r m',
  pay_each c B api now_ l asked m = (r, m') -> books t d m -> books t d m'.
Proof.
  induction l as [|[ws s] l IH]; intros asked m r m' H Hb; cbn [pay_each] in H; [by injection H as <- <-|].
  destruct (payable _ _ _ _) as [[due m1]|]; [|by injection H as <- <-].
  destruct (_ <? _); [by eapply IH|]. destruct (ConnectedAccount _ _) as [enabled|]; [|by eapply IH].
  apply (seller_account_books _ _ (sl_account s) enabled) in Hb. cbn zeta in H. destruct (negb enabled); [by eapply IH|].
  destruct (market_committed _ _) as [[v m2]|] eqn:E; [|by injection H as <- <-].
  apply market_committed_ok in E. eapply IH; [exact H|]. by eapply payOutTx_books.
Qed.

Lemma payOut_books t d c B api now_ test m r m' : payOut c B api now_ test m = (r, m') -> books t d m -> t <= now_ -> books now_ d m'.
Proof.
  intros H Hb Ht. unfold payOut in H. destruct (ReleaseDue c now_ m) as [[n err] m1] eqn:E1.
  apply (ReleaseDue_books t d) in E1; [|done|done]. destruct err; [by injection H as <- <-|].
  destruct (pay_each _ _ _ _ _ _ _) as [[err asked] m2] eqn:E2. apply (pay_each_books now_ d) in E2; [|done].
  destruct err; [by injection H as <- <-|]. destruct (transferUnpaid _ _ _ _) as [[k err] m3] eqn:E3. injection H as <- <-.
  by eapply transfer_each_books.
Qed.

(** ** Trials *)

Lemma trial_books t d F c useID seller gross at_ m v m' : postTrialTx F c useID seller gross at_ m = Ok (v, m') -> books t d m -> books t d m'.
Proof.
  intros H Hb. unfold postTrialTx in H. apply tx_bind_ok in H as (id & m1 & H & Hr). apply tx_ret_ok in Hr as [_ ->].
  assert (Hh : forall f w, posts "test" (SellerHoldback w) f [mkPost AccountTrialWaived gross "" ""; mkPost AccountTrialFee (-! (gross -! SellerShare gross (takeBPS F false))) "" ""; mkPost (TrialSeller seller) (-! SellerShare gross (takeBPS F false)) "" ""] = 0 /\
     posts "test" (SellerAvailable w) f [mkPost AccountTrialWaived gross "" ""; mkPost AccountTrialFee (-! (gross -! SellerShare gross (takeBPS F false))) "" ""; mkPost (TrialSeller seller) (-! SellerShare gross (takeBPS F false)) "" ""] = 0).
  { intros. apply house_posts. apply Forall_cons; split; [apply house_waived|]. apply Forall_cons; split; [apply house_trial_fee|].
    apply Forall_cons; split; [apply house_trial_seller|done]. }
  eapply books_ext; [eapply (post_books t d _ _ _ _ _ _ _ _ _ H); [done|done|done|]|lia|].
  - intros w f _. apply Hh.
  - intros w _. cbn beta. destruct (Hh "test"%string w) as [_ ->], (Hh "live"%string w) as [_ ->]. lia.
Qed.

(** ** Everything else *)

(** What the rest of the program may do to the marketplace: every table but the money's,
    and of the uses only those not cleared. *)
Record elsewhere (m m' : Market) : Prop := mkElsewhere {
  el_uses : forall id u, mk_uses m !! id = Some u -> us_cleared u <> None -> mk_uses m' !! id = Some u;
  el_earnings : mk_earnings m' = mk_earnings m;
  el_refunds : mk_refunds m' = mk_refunds m;
  el_holds : mk_holds m' = mk_holds m;
  el_payouts : mk_payouts m' = mk_payouts m;
  el_entries : mj_entries m' = mj_entries m;
  el_postings : mj_postings m' = mj_postings m;
  el_balances : mj_balances m' = mj_balances m;
}.

Lemma elsewhere_books t d m m' : elsewhere m m' -> books t d m -> books t d m'.
Proof.
  intros [E1 E2 E3 E4 E5 E6 E7 E8] Hb. destruct m, m'. cbn in *. subst.
  destruct Hb as [B1 B2 B3 B4 B5 B6 B7 B8 B9 B10]. split; try assumption.
  intros e He. destruct (B9 e He) as (u & Hu & Hc). exists u. split; [|done]. by apply E1.
Qed.

(** A marketplace nothing has earned in. *)
Record unopened (m : Market) : Prop := mkUnopened {
  un_earnings : mk_earnings m = [];
  un_payouts : mk_payouts m = ∅;
  un_entries : mj_entries m = ∅;
  un_postings : mj_postings m = [];
  un_balances : mj_balances m = ∅;
}.

Lemma unopened_books t m : unopened m -> books t (fun _ => 0) m.
Proof.
  intros [E1 E2 E3 E4 E5]. destruct m. cbn in *. subst. split; unfold journal_balance, available_balance, earned, paid_out, akey; cbn; try done.
  all: intros; try (by apply elem_of_nil in H). all: try by apply not_elem_of_nil in H.
Qed.
