(* ===== verification/Clearing.v ===== *)
(** What clearing an invoice does to each of its uses ([ClearInvoice] of
    [internal/market/use.go]): the price split between the fee, the seller and the
    lineage, to the last micro-dollar, and once. *)
From S2P Require Import Prelude Money Tables Postings Clock Lxc Desk Capabilities Royalties MarketTables MarketJournal Sales Holdback Payouts Books.
From stdpp Require Import sorting pretty.
Open Scope Z_scope.
Open Scope i64_scope.

Implicit Types (m : Market).

(** ** What a use pays in all *)

Definition use_sum (g : EarningRow -> Z) (m : Market) (useID : string) : Z :=
  sumZ ((fun e => if bool_decide (er_use e = useID) then g e else 0) <$> mk_earnings m).

Definition use_fee : Market -> string -> Z := use_sum er_fee.

(** The seller's part of a use, before its lineage. *)
Definition seller_part (F : FeeSettings) (u : UseRow) : Z :=
  Z.quot (us_price u) ulxcPerUSDMicro * (BPSDenominator - takeBPS F (is_payment u)) / BPSDenominator.

(** [SellerShare] is exact: the fee is what rounding down leaves of the price. *)
Lemma SellerShare_floor gross take : 0 <= gross <= max_i64 -> 0 <= take <= BPSDenominator ->
  SellerShare gross take = gross * (BPSDenominator - take) / BPSDenominator /\ 0 <= SellerShare gross take <= gross.
Proof.
  intros Hg Ht. assert (E : SellerShare gross take = gross * (BPSDenominator - take) / BPSDenominator).
  { unfold SellerShare, BPSDenominator in *. rewrite (wrap64_id (10000 - take)) by (i64_ranges; lia).
    rewrite Z.quot_div_nonneg, Z.rem_mod_nonneg by lia.
    pose proof (Z.div_mod gross 10000 ltac:(lia)) as D. pose proof (Z.mod_pos_bound gross 10000 ltac:(lia)) as M.
    set (q := gross / 10000) in *. set (r := gross mod 10000) in *. assert (Hq : 0 <= q) by (apply Z.div_pos; lia).
    rewrite (wrap64_id (r * (10000 - take))) by (i64_ranges; nia). rewrite (wrap64_id (q * (10000 - take))) by (i64_ranges; nia).
    rewrite Z.quot_div_nonneg by nia. assert (R : 0 <= r * (10000 - take) / 10000 <= r).
    { split; [apply Z.div_pos; nia|]. apply Z.div_le_upper_bound; nia. }
    rewrite wrap64_id by (i64_ranges; nia). rewrite D at 1.
    replace ((10000 * q + r) * (10000 - take)) with (r * (10000 - take) + q * (10000 - take) * 10000) by ring. rewrite Z.div_add by lia. lia. }
  rewrite E. split; [done|]. unfold BPSDenominator in *. split; [apply Z.div_pos; nia|]. apply Z.div_le_upper_bound; nia.
Qed.

(** What a use owes, by the family tree walked depth first: what its seller keeps, and
    what each edge above the version sold is owed. A payment to an agent sells no version. *)
Definition use_tree (F : FeeSettings) (L : LineageLimits) (buyer : string) (u : UseRow) (m : Market) : Z * list royalty :=
  if is_payment u then (seller_part F u, [])
  else lineage_tree (lineage_parents m) (lineage_pays m buyer (us_seller u)) (lineageCap L) (Z.to_nat (maxLineageDepth L))
         (seller_part F u) (mkVersion (us_listing u) (us_version u)).

(** A use's rows of [market_earnings], in the order written. *)
Definition use_earnings (m : Market) (useID : string) : list EarningRow := filter (fun e => er_use e = useID) (mk_earnings m).

(** The capability is in the open class: no clearance gates it. *)
Definition royalties_capability : Capability :=
  mkCapability "lineage_royalties" "Royalties to the authors of remixed listings, paid from marketplace sales" ClassGreen LevelSignedIn.

(** ** Sales whose sums fit *)

(** The fees and the lineage are what their tables' checks admit, and the uses' prices
    are small enough for one product with a version's parents to be 64 bits. *)
Record sales_fit (F : FeeSettings) (L : LineageLimits) (m : Market) : Prop := mkSalesFit {
  sf_fees : fees_ok F;
  sf_cap : 0 <= lineageCap L <= BPSDenominator;
  sf_edges : forall v e, e ∈ lineage_parents m v -> 0 <= le_shareBPS e <= BPSDenominator;
  sf_prices : forall id u v, mk_uses m !! id = Some u ->
    0 <= us_price u /\ us_price u * Z.of_nat (S (length (lineage_parents m v))) <= max_i64;
}.

Lemma price_gross F L m id u : sales_fit F L m -> mk_uses m !! id = Some u ->
  let gross := Z.quot (us_price u) ulxcPerUSDMicro in
  0 <= gross <= max_i64 /\ (forall v, gross * Z.of_nat (length (lineage_parents m v)) <= max_i64) /\
  SellerShare gross (takeBPS F (is_payment u)) = seller_part F u /\ 0 <= seller_part F u <= gross.
Proof.
  intros [Hf _ _ Hp] Hu gross. pose proof (Hp id u) as P.
  destruct (P (mkVersion "" 0) Hu) as [P0 P1]. unfold gross, ulxcPerUSDMicro. rewrite Z.quot_div_nonneg by lia.
  assert (G : 0 <= us_price u / 10 <= us_price u) by (split; [apply Z.div_pos; lia|apply Z.div_le_upper_bound; lia]).
  assert (G1 : us_price u / 10 <= max_i64) by nia.
  assert (T : 0 <= takeBPS F (is_payment u) <= BPSDenominator) by (unfold takeBPS; destruct Hf, (is_payment u); done).
  unfold seller_part, ulxcPerUSDMicro. rewrite Z.quot_div_nonneg by lia.
  destruct (SellerShare_floor (us_price u / 10) (takeBPS F (is_payment u)) ltac:(lia) T) as [E R]. rewrite <- E.
  split; [lia|]. split; [|done]. intros v. destruct (P v Hu) as [_ P2]. nia.
Qed.

(** Whatever the lineage takes, the seller and it share the seller's part. *)
Lemma use_split_exact F L buyer lm id u m keep rs m' : sales_fit F L m -> mk_uses m !! id = Some u ->
  use_split F L buyer lm u m = Ok ((keep, rs), m') ->
  keep + sumZ (ry_amount <$> rs) = seller_part F u /\ keep = (use_tree F L buyer u m).1 /\ pays_tree (use_tree F L buyer u m).2 rs.
Proof.
  intros Hs Hu H. destruct (price_gross F L m id u Hs Hu) as (G & GP & E & R). destruct Hs as [_ Hc He _].
  unfold use_split in H. rewrite E in H. unfold use_tree. destruct (is_payment u).
  { apply tx_ret_ok in H as [[= -> ->] _]. cbn. split; [lia|]. split; [done|]. split; [apply NoDup_nil_2|by intros r ?%not_elem_of_nil..|].
    intros i. cbn. by rewrite elem_of_nil. }
  rewrite tx_gets_bind in H. unfold lineageRoyaltiesTx in H. change (CapabilityByKey CapabilityLineageRoyalties) with (Some royalties_capability) in H.
  cbn [royalties_capability Class_] in H. rewrite (bool_decide_true (ClassGreen = ClassGreen)) in H by done. rewrite andb_false_r in H. rewrite tx_gets_bind in H.
  assert (FB : flow_bounds (lineage_parents m) (lineageCap L) (seller_part F u)).
  { split; [done|i64_ranges; lia|done|]. intros v. specialize (GP v). nia. }
  destruct (flowUp_conserves (lineage_parents m) (lineage_pays m buyer (us_seller u)) (lineageCap L) (maxLineageDepth L) (seller_part F u) (mkVersion (us_listing u) (us_version u))
    (fun v => @Ok MarketErr _ (lineage_parents m v)) (fun o => Ok (lineage_pays m buyer (us_seller u) o)) FB (fun _ => eq_refl) (fun _ => eq_refl))
    as (k & rows & Ef & Es & _).
  destruct (flowUp_pays_tree (lineage_parents m) (lineage_pays m buyer (us_seller u)) (lineageCap L) (maxLineageDepth L) (seller_part F u) (mkVersion (us_listing u) (us_version u))
    (fun v => @Ok MarketErr _ (lineage_parents m v)) (fun o => Ok (lineage_pays m buyer (us_seller u) o)) FB (fun _ => eq_refl) (fun _ => eq_refl))
    as (rows' & Ef' & Hp'). rewrite Ef in H, Ef'. injection Ef' as -> ->. by apply tx_ret_ok in H as [[= -> ->] _].
Qed.

(** ** One use *)

Lemma use_sum_app g m es id : use_sum g (with_mk_earnings (mk_earnings m ++ es) m) id =
  use_sum g m id + sumZ ((fun e => if bool_decide (er_use e = id) then g e else 0) <$> es).
Proof. unfold use_sum. cbn [mk_earnings with_mk_earnings]. by rewrite fmap_app, sumZ_app. Qed.

Lemma use_sum_none g m id : (forall e, e ∈ mk_earnings m -> er_use e <> id) -> use_sum g m id = 0.
Proof.
  intros H. unfold use_sum. induction (mk_earnings m) as [|e l IH]; [done|]. rewrite fmap_cons. cbn [sumZ].
  rewrite bool_decide_false by (apply H; left). rewrite IH; [done|]. intros x Hx. apply H. by right.
Qed.

Lemma use_sum_all g id pay es : Forall (earning_of id pay) es ->
  sumZ ((fun e => if bool_decide (er_use e = id) then g e else 0) <$> es) = sumZ (g <$> es).
Proof.
  induction 1 as [|e es (E & _) _ IH]; [done|]. rewrite !fmap_cons. cbn [sumZ]. by rewrite (bool_decide_true _ E), IH.
Qed.

(** What clearing leaves alone. *)
Record cleared_frame (m m' : Market) : Prop := mkClearedFrame {
  cf_refunds : mk_refunds m' = mk_refunds m;
  cf_lineage : forall v, lineage_parents m' v = lineage_parents m v;
  cf_holds : mk_holds m' = mk_holds m;
  cf_payouts : mk_payouts m' = mk_payouts m;
  cf_pays : forall b s o, lineage_pays m' b s o = lineage_pays m b s o;
  cf_tests : same_tests m m';
}.

Lemma frame_refl m : cleared_frame m m.
Proof. done. Qed.

Lemma frame_trans m1 m2 m3 : cleared_frame m1 m2 -> cleared_frame m2 m3 -> cleared_frame m1 m3.
Proof.
  intros [E1 E2 E3 E4 E5 E6] [G1 G2 G3 G4 G5 G6].
  split; [by rewrite G1|intros v; by rewrite G2|by rewrite G3|by rewrite G4|intros; by rewrite G5|unfold same_tests in *; congruence].
Qed.

(** What a clearing's writes leave alone: all but the uses, the earnings, the journal and the licences. *)
Lemma frame_of m m' : mk_refunds m' = mk_refunds m -> mk_listings m' = mk_listings m -> mk_lineage m' = mk_lineage m ->
  mk_cards m' = mk_cards m -> mk_owners m' = mk_owners m -> mk_holds m' = mk_holds m -> mk_payouts m' = mk_payouts m ->
  same_tests m m' -> cleared_frame m m'.
Proof.
  intros E1 E2 E3 E4 E5 E6 E7 T. split; try done.
  - intros v. unfold lineage_parents. by rewrite E2, E3.
  - intros b s o. unfold lineage_pays, money_wall, linked. by rewrite !(same_tests_tests _ _ _ T), E4, E5.
Qed.

Lemma lineage_tree_ext P P' may may' capBPS g pool root : (forall v, P' v = P v) -> (forall o, may' o = may o) ->
  lineage_tree P' may' capBPS g pool root = lineage_tree P may capBPS g pool root.
Proof.
  intros HP HM. assert (S : forall n x v, splits_at P' may' capBPS n x v = splits_at P may capBPS n x v).
  { intros [|n] x v; [done|]. cbn [splits_at]. unfold splits. rewrite HP. apply list_filter_iff. intros e. unfold paid. by rewrite HM. }
  assert (A : forall n d ea, ascend P' may' capBPS n d ea = ascend P may capBPS n d ea).
  { induction n as [|n IH]; intros d ea; cbn [ascend]; rewrite S; [done|]. do 2 f_equal. apply list_fmap_ext. intros _ e _. apply IH. }
  unfold lineage_tree, above. rewrite S. do 2 f_equal. apply list_fmap_ext. intros _ e _. apply A.
Qed.

Lemma use_tree_kept F L buyer u m m' : cleared_frame m m' -> use_tree F L buyer u m' = use_tree F L buyer u m.
Proof.
  intros FR. unfold use_tree. destruct (is_payment u); [done|].
  apply lineage_tree_ext; [apply (cf_lineage _ _ FR)|]. intros o. apply (cf_pays _ _ FR).
Qed.

Section OneUse.
Context (F : FeeSettings) (L : LineageLimits) (c : Ctx).

(** A use cleared: marked with its invoice, its price split to the last micro-dollar. Its
    seller has one row, of the price, the fee and what the family tree leaves them; and
    each edge of the tree that is owed anything has one, of all it is owed, to its owner. *)
Record use_cleared (buyer invoice : string) (paidAt : Z) (lm : bool) (m : Market) (id : string) (u : UseRow) (m' : Market) : Prop := mkUseCleared {
  uc_marked : mk_uses m' !! id = Some (set_cleared invoice paidAt u);
  uc_paid : exists rows, pays_tree (use_tree F L buyer u m).2 rows /\
    use_earnings m' id =
      mkEarning id (us_seller u) EarningSale "" 0 (Z.quot (us_price u) ulxcPerUSDMicro) (use_tree F L buyer u m).1
        (Z.quot (us_price u) ulxcPerUSDMicro - seller_part F u) invoice paidAt (paidAt + Holdback) lm (test_workspace m (us_seller u))
      :: (lineage_earning id invoice paidAt lm m <$> rows);
  uc_shares : use_share m' id = seller_part F u;
  uc_gross : use_share m' id + use_fee m' id = Z.quot (us_price u) ulxcPerUSDMicro;
}.

Lemma use_earnings_app m m' es id : mk_earnings m' = mk_earnings m ++ es ->
  use_earnings m' id = use_earnings m id ++ filter (fun e => er_use e = id) es.
Proof. intros E. unfold use_earnings. by rewrite E, filter_app. Qed.

Lemma no_earnings es id : (forall e, e ∈ es -> er_use e <> id) -> filter (fun e => er_use e = id) es = [].
Proof.
  induction es as [|e l IH]; intros H; [done|]. rewrite filter_cons, decide_False by (apply H; left). apply IH. intros x Hx. apply H. by right.
Qed.

Lemma own_earnings es id pay : Forall (earning_of id pay) es -> filter (fun e => er_use e = id) es = es.
Proof. induction 1 as [|e es (E & _) _ IH]; [done|]. by rewrite filter_cons, decide_True, IH. Qed.

Lemma clear_use_clears buyer invoice paidAt lm id u m n m' :
  clear_use F L c buyer invoice paidAt lm id u m = Ok (n, m') -> sales_fit F L m -> mk_uses m !! id = Some u ->
  (forall e, e ∈ mk_earnings m -> er_use e <> id) -> refunded m id = false ->
  n = 1%nat /\ cleared_frame m m' /\ use_cleared buyer invoice paidAt lm m id u m' /\
  (exists es, mk_earnings m' = mk_earnings m ++ es /\ Forall (fun e => er_use e = id /\ er_payable e = paidAt + Holdback) es) /\
  forall j, j <> id -> mk_uses m' !! j = mk_uses m !! j.
Proof.
  intros H Hs Hu Hnew Hr. apply clear_use_steps in H as [(Hr' & _)|(_ & -> & keep & rs & e0 & es & jid & m2 & Hsp & Hes & X0 & X1 & K1 & _ & _ & _ & K5 & K6 & _ & K8 & HP & Hrent)]; [congruence|].
  pose proof (use_split_exact F L _ _ id u m _ _ _ Hs Hu Hsp) as (Hx & Hk & Ht). destruct (price_gross F L m id u Hs Hu) as (G & _ & E & R).
  pose proof (PostJournalTx_tests _ _ _ _ _ _ _ _ _ HP) as T1.
  assert (HJ : mk_uses m2 = mk_uses m /\ mk_earnings m2 = mk_earnings m ++ e0 :: es /\ cleared_frame m m2).
  { apply PostJournalTx_ok in HP as [[_ ->]|(_ & _ & s & ->)]; (split; [done|]; split; [done|]; by apply frame_of). }
  destruct HJ as (E1 & E2 & FR). clear HP.
  assert (HM : mk_uses m' = alter (set_cleared invoice paidAt) id (mk_uses m) /\ mk_earnings m' = mk_earnings m ++ e0 :: es /\ cleared_frame m m').
  { destruct Hrent as [->|Hrent]; [split; [cbn; by rewrite E1|]; split; [done|]; eapply frame_trans; [exact FR|by apply frame_of]|].
    pose proof (rentCleared_tests _ _ _ _ _ _ _ Hrent) as T2. apply rentCleared_frame in Hrent as (s & l & ->).
    split; [cbn; by rewrite E1|]. split; [done|]. eapply frame_trans; [exact FR|by apply frame_of]. }
  clear Hrent FR E1 E2 T1 m2. destruct HM as (U1 & U2 & U3). split; [done|]. split; [done|].
  assert (US : forall g, use_sum g m' id = g e0 + sumZ (g <$> es)).
  { intros g. transitivity (use_sum g (with_mk_earnings (mk_earnings m ++ e0 :: es) m) id); [unfold use_sum; by rewrite U2|].
    rewrite use_sum_app, use_sum_none, (use_sum_all g id _ _ Hes) by done. rewrite fmap_cons. cbn [sumZ]. lia. }
  assert (SH : use_share m' id = seller_part F u).
  { change (use_share m' id) with (use_sum er_share m' id). rewrite US, K1, K6. done. }
  assert (FE : use_fee m' id = Z.quot (us_price u) ulxcPerUSDMicro - seller_part F u).
  { unfold use_fee. rewrite US, K5, E, wrap64_id by (i64_ranges; lia).
    assert (Z0 : sumZ (er_fee <$> es) = 0). { clear -K8. induction K8 as [|e l (_ & _ & Ef & _) _ IH]; [done|]. rewrite fmap_cons. cbn [sumZ]. lia. } lia. }
  split; [|split].
  - split; [by rewrite U1, lookup_alter_eq, Hu| |done|rewrite FE, SH; lia].
    exists rs. split; [done|]. rewrite (use_earnings_app m m' (e0 :: es)) by done. unfold use_earnings. rewrite no_earnings by done.
    rewrite (own_earnings _ _ _ Hes), X0, X1, <- Hk. unfold sale_earning. rewrite E, wrap64_id by (i64_ranges; lia). done.
  - exists (e0 :: es). split; [done|]. eapply Forall_impl; [exact Hes|]. by intros e (? & ? & _).
  - intros j Hj. rewrite U1. by apply lookup_alter_ne, not_eq_sym.
Qed.

Lemma sales_fit_kept m m' : sales_fit F L m -> cleared_frame m m' ->
  (forall j u, mk_uses m' !! j = Some u -> exists u0, mk_uses m !! j = Some u0 /\ us_price u = us_price u0) -> sales_fit F L m'.
Proof.
  intros [H1 H2 H3 H4] [_ Hl _ _ _ _] Hu. split; [done|done| |].
  - intros v e. rewrite Hl. apply H3.
  - intros j u v Hj. destruct (Hu j u Hj) as (u0 & H0 & ->). rewrite Hl. by eapply H4.
Qed.

(** A use cleared after others is cleared as it would have been before them. *)
Lemma use_cleared_before buyer invoice paidAt lm m m1 id u m' : cleared_frame m m1 ->
  use_cleared buyer invoice paidAt lm m1 id u m' -> use_cleared buyer invoice paidAt lm m id u m'.
Proof.
  intros FR [C1 (rows & C2 & C3) C4 C5]. rewrite (use_tree_kept F L buyer u _ _ FR) in C2, C3. split; [done| |done|done].
  exists rows. split; [done|]. rewrite C3, (same_tests_tests _ _ _ (cf_tests _ _ FR)). f_equal. apply list_fmap_ext. intros _ r _.
  unfold lineage_earning. by rewrite (same_tests_tests _ _ _ (cf_tests _ _ FR)).
Qed.

Lemma use_sum_other g m es id : Forall (fun e => er_use e <> id) es -> forall m', mk_earnings m' = mk_earnings m ++ es ->
  use_sum g m' id = use_sum g m id.
Proof.
  intros Hes m' E. unfold use_sum. rewrite E, fmap_app, sumZ_app.
  assert (Z0 : sumZ ((fun e => if bool_decide (er_use e = id) then g e else 0) <$> es) = 0); [|lia].
  clear E. induction Hes as [|e l He _ IH]; [done|]. rewrite fmap_cons. cbn [sumZ]. by rewrite (bool_decide_false _ He), IH.
Qed.

Definition not_refunded (m : Market) (l : list (string * UseRow)) : list (string * UseRow) := filter (fun x => refunded m x.1 = false) l.

Lemma clear_uses_clear buyer invoice paidAt lm l : forall m n m',
  clear_uses F L c buyer invoice paidAt lm l m = Ok (n, m') -> sales_fit F L m -> NoDup l.*1 ->
  (forall x, x ∈ l -> mk_uses m !! x.1 = Some x.2 /\ forall e, e ∈ mk_earnings m -> er_use e <> x.1) ->
  n = length (not_refunded m l) /\ cleared_frame m m' /\
  (forall x, x ∈ not_refunded m l -> use_cleared buyer invoice paidAt lm m x.1 x.2 m') /\
  (exists es, mk_earnings m' = mk_earnings m ++ es /\ Forall (fun e => er_use e ∈ (not_refunded m l).*1 /\ er_payable e = paidAt + Holdback) es) /\
  forall j, j ∉ (not_refunded m l).*1 -> mk_uses m' !! j = mk_uses m !! j.
Proof.
  induction l as [|[id u] l IH]; intros m n m' H Hs Hn Hl; cbn [clear_uses] in H.
  { apply tx_ret_ok in H as [-> ->]. split_and!; try done; [by intros x Hx%not_elem_of_nil|]. exists []. by rewrite app_nil_r. }
  apply tx_bind_ok in H as (k1 & m1 & H1 & H). apply tx_bind_ok in H as (k2 & m2 & H2 & H). apply tx_ret_ok in H as [-> ->].
  destruct (Hl (id, u) ltac:(left)) as [Hu Hnew]. cbn [fst snd] in Hu, Hnew. rewrite fmap_cons in *. apply NoDup_cons in Hn as [Hni Hn]. cbn [fst] in Hni.
  unfold not_refunded. rewrite filter_cons. cbn [fst]. fold (not_refunded m l).
  assert (Hin : forall j, j ∈ (not_refunded m l).*1 -> j ∈ l.*1).
  { intros j. unfold not_refunded. rewrite !list_elem_of_fmap. intros (x & -> & [_ Hx]%list_elem_of_filter). eauto. }
  destruct (refunded m id) eqn:Er.
  - rewrite decide_False by done. apply clear_use_steps in H1 as [(_ & -> & ->)|(Hr & _)]; [|congruence].
    apply (IH m k2 m2 H2 Hs Hn). intros x Hx. apply Hl. by right.
  - rewrite decide_True by done.
    destruct (clear_use_clears _ _ _ _ _ _ _ _ _ H1 Hs Hu Hnew Er) as (-> & FR1 & UC & (es1 & E1 & Hes1) & U1).
    assert (Hl1 : forall x, x ∈ l -> mk_uses m1 !! x.1 = Some x.2 /\ forall e, e ∈ mk_earnings m1 -> er_use e <> x.1).
    { intros x Hx. destruct (Hl x ltac:(by right)) as [Hx1 Hx2].
      assert (Hne : x.1 <> id) by (intros <-; apply Hni, list_elem_of_fmap; eauto). split; [by rewrite U1|].
      intros e He. rewrite E1 in He. apply elem_of_app in He as [He|He]; [by apply Hx2|]. rewrite Forall_forall in Hes1. destruct (Hes1 e He) as [-> _]. by apply not_eq_sym. }
    assert (Hs1 : sales_fit F L m1).
    { apply (sales_fit_kept m); [done..|]. intros j v Hj. destruct (decide (j = id)) as [->|Hne]; [|rewrite U1 in Hj by done; eauto].
      rewrite (uc_marked _ _ _ _ _ _ _ _ UC) in Hj. injection Hj as <-. eauto. }
    destruct (IH m1 k2 m2 H2 Hs1 Hn Hl1) as (-> & FR & K1 & (es & E & Hes) & K2).
    assert (RF : not_refunded m1 l = not_refunded m l).
    { apply list_filter_iff. intros x. unfold refunded. by rewrite (cf_refunds _ _ FR1). }
    rewrite RF in *. split; [done|]. split; [by eapply frame_trans|]. rewrite fmap_cons. cbn [fst]. split; [|split].
    + intros x [->|Hx]%elem_of_cons; [|by apply (use_cleared_before _ _ _ _ m m1), K1]. cbn [fst snd].
      assert (Ho : Forall (fun e => er_use e <> id) es) by (eapply Forall_impl; [exact Hes|]; intros e [Hie _] Ee; rewrite Ee in Hie; by apply Hni, Hin).
      pose proof (use_sum_other er_share m1 es id Ho m2 E) as S1. pose proof (use_sum_other er_fee m1 es id Ho m2 E) as S2.
      destruct UC as [C1 C0 C2 C3]. split; [rewrite K2; [done|]; intros Hx; by apply Hni, Hin| |by change (use_share m2 id) with (use_sum er_share m2 id); rewrite S1|].
      { destruct C0 as (rows & C0 & C0'). exists rows. split; [done|]. rewrite (use_earnings_app m1 m2 es), C0' by done.
        rewrite no_earnings, app_nil_r; [done|]. by apply Forall_forall. }
      change (use_share m2 id) with (use_sum er_share m2 id). unfold use_fee. by rewrite S1, S2.
    + exists (es1 ++ es). split; [by rewrite E, E1, app_assoc|]. apply Forall_app. split.
      * eapply Forall_impl; [exact Hes1|]. intros e [-> ?]. split; [left|done].
      * eapply Forall_impl; [exact Hes|]. intros e [? ?]. split; [by right|done].
    + intros j Hj. apply not_elem_of_cons in Hj as [Hj1 Hj2]. rewrite K2 by done. by apply U1.
Qed.

(** Uses already given back clear nothing. *)
Lemma clear_uses_refunded buyer invoice paidAt lm l m : (forall x, x ∈ l -> refunded m x.1 = true) ->
  clear_uses F L c buyer invoice paidAt lm l m = Ok (0%nat, m).
Proof.
  induction l as [|[id u] l IH]; intros Hl; [done|]. cbn [clear_uses]. unfold tx_bind at 1.
  assert (E : clear_use F L c buyer invoice paidAt lm id u m = Ok (0%nat, m)).
  { unfold clear_use. rewrite tx_gets_bind. pose proof (Hl (id, u) ltac:(left)) as Hr. cbn in Hr. unfold refunded in Hr. by rewrite Hr. }
  rewrite E. unfold tx_bind. rewrite IH by (intros x Hx; apply Hl; by right). done.
Qed.
End OneUse.

(** ** An invoice *)

Lemma uses_where_in p m x : x ∈ uses_where p m <-> mk_uses m !! x.1 = Some x.2 /\ p x.2 = true.
Proof.
  split; [intros Hx; by apply uses_where_ok|]. destruct x as [i u]. intros [Hx Hp]. unfold uses_where.
  rewrite merge_sort_Permutation. apply list_elem_of_filter. split; [done|]. by apply elem_of_map_to_list.
Qed.

Lemma market_committed_still {A} (t : MTx A) m (a : A) : t m = Ok (a, m) -> market_committed t m = Ok (a, m).
Proof. intros H. unfold market_committed. rewrite H, Nat.sub_diag. done. Qed.

(** The uses an invoice clears. *)
Definition invoice_uses (buyer : string) (from until : Z) (m : Market) : list (string * UseRow) :=
  not_refunded m (uses_where (clearable buyer from until) m).

(** C3: Clearing an invoice clears each use it billed, and was not refunded, exactly once:
    the use is marked with the invoice, and its earnings are one row to its seller, with
    the price, the fee and what the lineage leaves of the seller's part (the price times
    what the take leaves of it rounded down), and one row per edge of the version's family
    tree that is owed anything, to that edge's owner, of all it is owed by the tree walked
    depth first. Shares and fee add up to the price, to the last micro-dollar. The earnings written are those uses' and wait out the same holdback,
    no other use changes, and the same payment again clears nothing. *)
Theorem invoice_splits_exactly F L c t d buyer invoice from until paidAt lm m n m' :
  books t d m -> sales_fit F L m -> ClearInvoice F L c buyer invoice from until paidAt lm m = Ok (n, m') ->
  let uses := invoice_uses buyer from until m in
  n = length uses /\
  (forall x, x ∈ uses -> use_cleared F L buyer invoice paidAt lm m x.1 x.2 m') /\
  (exists es, mk_earnings m' = mk_earnings m ++ es /\ Forall (fun e => er_use e ∈ uses.*1 /\ er_payable e = paidAt + Holdback) es) /\
  (forall id, id ∉ uses.*1 -> mk_uses m' !! id = mk_uses m !! id) /\
  ClearInvoice F L c buyer invoice from until paidAt lm m' = Ok (0%nat, m').
Proof.
  intros Hb Hs H uses. unfold ClearInvoice in H. apply market_committed_ok in H. rewrite tx_gets_bind in H.
  destruct (uses_where_ok (clearable buyer from until) m) as [Hn Hx].
  assert (Hun : forall x, x ∈ uses_where (clearable buyer from until) m -> us_cleared x.2 = None).
  { intros x Hin. destruct (Hx x Hin) as [_ Hc]. unfold clearable in Hc. rewrite !andb_true_iff in Hc. destruct Hc as (((_ & Hc) & _) & _). by apply bool_decide_eq_true in Hc. }
  destruct (clear_uses_clear F L c _ _ _ _ _ _ _ _ H Hs Hn) as (-> & FR & K1 & K2 & K3).
  { intros x Hin. split; [by apply Hx|]. intros e He Ee. destruct (bk_uses t d m Hb e He) as (u & Hu & Hc).
    destruct (Hx x Hin) as [Hu' _]. rewrite Ee, Hu' in Hu. injection Hu as <-. by apply Hc, Hun. }
  split_and!; try done. apply market_committed_still. rewrite tx_gets_bind. apply clear_uses_refunded. intros x [Hin Hc]%uses_where_in.
  destruct (decide (x.1 ∈ uses.*1)) as [Hu|Hu].
  - apply list_elem_of_fmap in Hu as (y & Ey & Hy). pose proof (uc_marked _ _ _ _ _ _ _ _ _ _ (K1 y Hy)) as Hm.
    rewrite <- Ey, Hin in Hm. injection Hm as Hm. rewrite Hm in Hc. unfold clearable in Hc. rewrite !andb_true_iff in Hc.
    destruct Hc as (((_ & Hc) & _) & _). by apply bool_decide_eq_true in Hc.
  - unfold refunded. rewrite (cf_refunds _ _ FR). fold (refunded m x.1). apply not_false_iff_true. intros Hr. apply Hu.
    apply list_elem_of_fmap. exists x. split; [done|]. apply list_elem_of_filter. split; [done|]. apply uses_where_in.
    split; [|done]. by rewrite <- K3.
Qed.

(** ** A marketplace to run: a remix, its original, a buyer's two uses and a payment *)

Definition demo_market : Market :=
  with_mk_sellers {["ann"%string := mkSeller "acct_1" "GB" true]}
    (with_mk_uses
       (<["u1"%string := mkUseRow "remix" 1 "ann" "zed" 400000007 "billed" 1 (Some 1) (Some 1) None "" "" "use" None]>
       (<["u2"%string := mkUseRow "remix" 1 "ann" "zed" 400000000 "billed" 2 (Some 2) (Some 2) None "" "" "use" None]>
       (<["u3"%string := mkUseRow "song" 1 "bob" "zed" 90000 "billed" 3 (Some 3) (Some 3) None "agt_1" "" "use" None]> ∅)))
    (with_mk_lineage [mkLineage "e1" (mkVersion "remix" 1) (mkVersion "song" 1) 2500]
    (with_mk_listings {["song"%string := mkMarketListing "bob" ReviewApproved "" None; "remix"%string := mkMarketListing "ann" ReviewApproved "" None]}
       (empty_market empty_store)))).

Definition demo_limits : LineageLimits := mkLineageLimits None None.

Lemma demo_unopened : unopened demo_market.
Proof. by split. Qed.

Lemma demo_parents v : lineage_parents demo_market v = if bool_decide (mkVersion "remix" 1 = v) then [mkEdge "e1" (mkVersion "song" 1) 2500 "bob"] else [].
Proof. unfold lineage_parents. cbn -[lookup]. by destruct (bool_decide _). Qed.

Lemma demo_fits : sales_fit default_fees demo_limits demo_market.
Proof.
  split.
  - split; unfold default_fees, BPSDenominator; cbn; lia.
  - unfold lineageCap, demo_limits, BPSDenominator. cbn. unfold DefaultLineageTotalCapBPS. lia.
  - intros v e. rewrite demo_parents. destruct (bool_decide _); [|by intros H%not_elem_of_nil].
    intros ->%list_elem_of_singleton. cbn. unfold BPSDenominator. lia.
  - intros id u v. cbn [demo_market mk_uses with_mk_sellers with_mk_uses]. rewrite demo_parents.
    assert (Z.of_nat (S (length (if bool_decide (mkVersion "remix" 1 = v) then [mkEdge "e1" (mkVersion "song" 1) 2500 "bob"] else []))) <= 2) by (destruct (bool_decide _); cbn; lia).
    intros Hu. assert (0 <= us_price u <= 400000007); [|i64_ranges; nia].
    repeat (apply lookup_insert_Some in Hu as [[_ <-]|[_ Hu]]; [cbn; lia|]). by apply lookup_empty_Some in Hu.
Qed.

Definition demo_cleared : Market :=
  market_after (ClearInvoice default_fees demo_limits (mctx 5) "zed" "in_1" 0 4 5 true demo_market) demo_market.

Lemma demo_clears : ClearInvoice default_fees demo_limits (mctx 5) "zed" "in_1" 0 4 5 true demo_market = Ok (3%nat, demo_cleared).
Proof. apply market_after_ok. vm_compute. reflexivity. Qed.

Lemma invoice_splits_exactly_witness :
  let uses := invoice_uses "zed" 0 4 demo_market in
  3%nat = length uses /\
  (forall x, x ∈ uses -> use_cleared default_fees demo_limits "zed" "in_1" 5 true demo_market x.1 x.2 demo_cleared) /\
  (exists es, mk_earnings demo_cleared = mk_earnings demo_market ++ es /\ Forall (fun e => er_use e ∈ uses.*1 /\ er_payable e = 5 + Holdback) es) /\
  (forall id, id ∉ uses.*1 -> mk_uses demo_cleared !! id = mk_uses demo_market !! id) /\
  ClearInvoice default_fees demo_limits (mctx 5) "zed" "in_1" 0 4 5 true demo_cleared = Ok (0%nat, demo_cleared).
Proof.
  exact (invoice_splits_exactly default_fees demo_limits (mctx 5) 0 (fun _ => 0) "zed" "in_1" 0 4 5 true demo_market 3%nat demo_cleared
    (unopened_books 0 demo_market demo_unopened) demo_fits demo_clears).
Defined.
