(* ===== verification/Reconcile.v ===== *)
(** The journal against the earnings ([JournalCheck] of [internal/market/escrow.go]): the
    marketplace as a state machine, and that its journal never drifts from what
    [payout.go] reads of the earnings and the payouts. *)
From S2P Require Import Prelude Money Tables Postings Clock Lxc Desk Capabilities Royalties MarketTables MarketJournal Sales Holdback Payouts Books Clearing.
From stdpp Require Import sorting pretty.
Open Scope Z_scope.
Open Scope i64_scope.

Implicit Types (m : Market).

(** ** [JournalCheck] *)

(** What [JournalReconciliation.Mismatches] may name. *)
Inductive Mismatch : Type :=
| BalanceOff (account funding : string)
| HoldbackOff
| AvailableOff
| TestFundsOff
| LiveFundsOff.

#[export] Instance Mismatch_eq_dec : EqDecision Mismatch.
Proof. solve_decision. Defined.

Record JournalReconciliation := mkReconciliation {
  JournalHoldback : Z;
  JournalTest : Z;
  JournalLive : Z;
  PendingRelease : Z;
  InHoldback : Z;
  Available : Z;
  TestLeft : Z;
  LiveLeft : Z;
  Mismatches : list Mismatch;
}.

Definition posting_total (m : Market) (account f : string) : Z := rows_on (account, "USD"%string, f) (mj_postings m).

(** One of the seller's balances, and the total of its postings. *)
Definition account_line (account f : string) : MTx (Z * list Mismatch) :=
  let! m := tx_gets (fun m => m) in
  let! total := market_bigint (posting_total m account f) in
  tx_ret (total, if journal_balance m (account, "USD"%string, f) =? total then [] else [BalanceOff account f]).

Definition off (b : bool) (x : Mismatch) : list Mismatch := if b then [] else [x].

Definition journalCheck (ws : string) (now_ : Z) : MTx JournalReconciliation :=
  let! (ht, x1) := account_line (SellerHoldback ws) "test" in
  let! (hl, x2) := account_line (SellerHoldback ws) "live" in
  let! (at_, x3) := account_line (SellerAvailable ws) "test" in
  let! (al, x4) := account_line (SellerAvailable ws) "live" in
  let holdback := 0 -! ht -! hl in
  let test := 0 -! at_ in
  let live := 0 -! al in
  let available := test +! live in
  let! m := tx_gets (fun m => m) in
  let! pendingTest := market_bigint (earned m ws (fun e => dueAt m now_ e && is_test_earning e)) in
  let! pendingLive := market_bigint (earned m ws (fun e => dueAt m now_ e && negb (is_test_earning e))) in
  let pending := pendingTest +! pendingLive in
  let! (released, inHoldback, paid) := sellerBalance ws now_ in
  let! (testLeft, liveLeft) := sellerFunds ws now_ in
  tx_ret (mkReconciliation holdback test live pending inHoldback (released -! paid) testLeft liveLeft
    (x1 ++ x2 ++ x3 ++ x4
     ++ off (holdback -! pending =? inHoldback) HoldbackOff
     ++ off (available +! pending =? released -! paid) AvailableOff
     ++ off (testLeft <=? Z.max (test +! pendingTest) 0) TestFundsOff
     ++ off (liveLeft <=? Z.max (live +! pendingLive) 0) LiveFundsOff)).

(** ** The marketplace, step by step *)

Section Steps.
Context (F : FeeSettings) (L : LineageLimits) (B : option SelfBilling).

(** One operation, at an instant no earlier than the last; [c] is its request.  These are the
    operations this development models: the hold a trigger opens for an IP claim
    ([migrations/0217]) and the refunds of [economy/test_crossings.go] are none of them. *)
Inductive MarketStep : Z * Market -> Z * Market -> Prop :=
| StepElsewhere t t' m m' : t <= t' -> elsewhere m m' -> MarketStep (t, m) (t', m')
| StepClearInvoice t c buyer invoice from until paidAt lm n m m' :
    ClearInvoice F L c buyer invoice from until paidAt lm m = Ok (n, m') -> MarketStep (t, m) (t, m')
| StepTrial t c useID seller gross at_ v m m' : postTrialTx F c useID seller gross at_ m = Ok (v, m') -> MarketStep (t, m) (t, m')
| StepReverseInvoice t c invoice cause ref amount all_ r m m' :
    ReverseInvoice c invoice cause ref amount all_ m = (r, m') -> MarketStep (t, m) (t, m')
| StepRefundUses t c listing r m m' : refundUses c listing m = (r, m') -> MarketStep (t, m) (t, m')
| StepOpenHold t c useID reason by_ now_ id m m' :
    t <= now_ -> OpenHold c useID reason by_ now_ m = Ok (id, m') -> MarketStep (t, m) (now_, m')
| StepReleaseHold t c id decision now_ h m m' :
    t <= now_ -> ReleaseHold c id decision now_ m = Ok (h, m') -> MarketStep (t, m) (now_, m')
| StepReleaseDue t c now_ r m m' : t <= now_ -> ReleaseDue c now_ m = (r, m') -> MarketStep (t, m) (now_, m')
| StepTakeAsCredits t c ws now_ r m m' :
    t <= now_ -> TakeAsCredits c ws now_ m = Ok (r, m') -> MarketStep (t, m) (now_, m')
| StepPayOut t c api now_ test r m m' : t <= now_ -> payOut c B api now_ test m = (r, m') -> MarketStep (t, m) (now_, m')
| StepSettled t id transfer paid error m : MarketStep (t, m) (t, with_mk_payouts (alter (set_transfer transfer paid error) id (mk_payouts m)) m).

Definition no_slack : string -> Z := fun _ => 0.

Lemma step_books s s' : MarketStep s s' -> books s.1 no_slack s.2 -> books s'.1 no_slack s'.2.
Proof.
  destruct 1; cbn [fst snd]; intros Hb.
  - eapply books_ext; [by eapply elsewhere_books|done|done].
  - by eapply ClearInvoice_books.
  - by eapply trial_books.
  - by eapply ReverseInvoice_books.
  - by eapply refundUses_books.
  - eapply books_ext; [by eapply OpenHold_books|done|done].
  - by eapply ReleaseHold_books.
  - by eapply ReleaseDue_books.
  - eapply books_ext; [by eapply TakeAsCredits_books|done|done].
  - by eapply payOut_books.
  - by apply books_payout_alter.
Qed.

Lemma steps_books s s' : rtc MarketStep s s' -> books s.1 no_slack s.2 -> books s'.1 no_slack s'.2.
Proof. induction 1 as [|s1 s2 s3 H _ IH]; [done|]. intros Hb. by apply IH, (step_books s1). Qed.

Lemma steps_later s s' : rtc MarketStep s s' -> s.1 <= s'.1.
Proof. induction 1 as [|s1 s2 s3 H _ IH]; [done|]. etransitivity; [|exact IH]. by destruct H. Qed.
End Steps.

(** ** What the check answers *)

Lemma account_line_ok account f m z x m' : (forall k, journal_balance m k = rows_on k (mj_postings m)) ->
  account_line account f m = Ok ((z, x), m') -> m' = m /\ z = journal_balance m (account, "USD"%string, f) /\ x = [].
Proof.
  intros Hb H. unfold account_line in H. rewrite tx_gets_bind in H. apply tx_bind_ok in H as (w & m1 & H1 & H).
  apply market_bigint_ok in H1 as (-> & -> & _). apply tx_ret_ok in H as [[= -> ->] ->].
  unfold posting_total. rewrite <- Hb, Z.eqb_refl. done.
Qed.

(** The earnings in escrow are those due and those kept; those past it, the released and the due. *)
Lemma held_splits t d m now_ ws : books t d m -> t <= now_ ->
  earned m ws (still_held m) = earned m ws (dueAt m now_) + earned m ws (in_holdback m now_) /\
  earned m ws (past_holdback m now_) = earned m ws (moved_on m) + earned m ws (dueAt m now_).
Proof.
  intros Hb Ht. rewrite !earned_esum. split; apply esum_split; intros e He;
    pose proof (bk_shares t d m Hb e He) as Hs; pose proof (bk_released t d m Hb e He) as Hr;
    unfold still_held, moved_on, dueAt, in_holdback, past_holdback;
    destruct (released m (er_use e)), (refunded m (er_use e)), (Z.leb_spec (er_payable e) now_), (Z.ltb_spec now_ (er_payable e)), (Z.ltb_spec 0 (er_share e));
    cbn [andb orb negb]; rewrite ?andb_false_r, ?andb_true_r; cbn [part]; try (destruct (Hr eq_refl) as [Hp ->]); try lia;
    destruct (held m (er_use e)); cbn [andb orb negb part]; lia.
Qed.

(** A read: it answers [P] and changes nothing, or its sums are out of the column's range. *)
Definition reads {A} (t : MTx A) m (P : A -> Prop) : Prop :=
  match t m with
  | Ok (a, m') => m' = m /\ P a
  | Err e => e = EDb ErrBigintRange
  end.

Lemma reads_bind {A B'} (t : MTx A) (k : A -> MTx B') m P Q :
  reads t m P -> (forall a, P a -> reads (k a) m Q) -> reads (tx_bind t k) m Q.
Proof. unfold reads, tx_bind. destruct (t m) as [[a m']|e]; [|done]. intros [-> Ha] H. by apply H. Qed.

Lemma reads_ret {A} (a : A) m (P : A -> Prop) : P a -> reads (tx_ret a) m P.
Proof. by split. Qed.

Lemma reads_gets {A} (f : Market -> A) m : reads (tx_gets f) m (fun a => a = f m).
Proof. by split. Qed.

Lemma reads_bigint z m : reads (market_bigint z) m (fun a => a = z /\ in_i64 z).
Proof.
  unfold reads, market_bigint, sql_bigint. destruct (in_i64b z) eqn:E; [|done]. apply in_i64b_spec in E. done.
Qed.

Lemma reads_account_line account f m : (forall k, journal_balance m k = rows_on k (mj_postings m)) ->
  reads (account_line account f) m (fun a => a = (journal_balance m (account, "USD"%string, f), [])).
Proof.
  intros Hb. unfold account_line. eapply reads_bind; [apply reads_gets|]. intros ? ->. eapply reads_bind; [apply reads_bigint|]. intros z [-> _]. apply reads_ret. unfold posting_total. by rewrite <- Hb, Z.eqb_refl.
Qed.

Lemma reads_balance ws now_ m : reads (sellerBalance ws now_) m (fun a =>
  a = (earned m ws (past_holdback m now_), earned m ws (in_holdback m now_), paid_out m ws (fun _ => true)) /\ in_i64 (earned m ws (in_holdback m now_))).
Proof.
  unfold sellerBalance. eapply reads_bind; [apply reads_gets|]. intros ? ->. do 3 (eapply reads_bind; [apply reads_bigint|]; intros ? [-> ?]).
  apply reads_ret. done.
Qed.

Lemma reads_funds ws now_ m : reads (sellerFunds ws now_) m (fun a => sellerFunds ws now_ m = Ok (a, m)).
Proof.
  assert (R : reads (sellerFunds ws now_) m (fun _ => True)).
  { unfold sellerFunds. eapply reads_bind; [apply reads_gets|]. intros ? ->. do 5 (eapply reads_bind; [apply reads_bigint|]; intros ? [-> ?]).
    by apply reads_ret. }
  unfold reads in *. destruct (sellerFunds ws now_ m) as [[a m']|]; [|done]. destruct R as [-> _]. done.
Qed.

(** What the check is to answer of a seller whose journal is as it should be: what is held
    and what is due, of the earnings; what is available, of the earnings and the payouts; what
    is left of each funding as [sellerFunds] has it; and, of the differences there are, only
    that more is left of a funding than the journal has available or due of it, each exactly
    when it is so. *)
Record check_answer (m : Market) (ws : string) (now_ : Z) (r : JournalReconciliation) : Prop := {
  ck_holdback : JournalHoldback r = wrap64 (earned m ws (still_held m));
  ck_pending : PendingRelease r = wrap64 (earned m ws (dueAt m now_));
  ck_in_holdback : InHoldback r = earned m ws (in_holdback m now_);
  ck_available : Available r = wrap64 (earned m ws (past_holdback m now_) - paid_out m ws (fun _ => true));
  ck_funding : JournalTest r = wrap64 (- journal_balance m (SellerAvailable ws, "USD"%string, "test"%string)) /\
    JournalLive r = wrap64 (- journal_balance m (SellerAvailable ws, "USD"%string, "live"%string));
  ck_both : wrap64 (JournalTest r + JournalLive r) = wrap64 (earned m ws (moved_on m) - paid_out m ws (fun _ => true));
  ck_left : sellerFunds ws now_ m = Ok ((TestLeft r, LiveLeft r), m);
  ck_named x : x ∈ Mismatches r <->
    x = TestFundsOff /\ Z.max (wrap64 (JournalTest r + earned m ws (fun e => dueAt m now_ e && is_test_earning e))) 0 < TestLeft r \/
    x = LiveFundsOff /\ Z.max (wrap64 (JournalLive r + earned m ws (fun e => dueAt m now_ e && negb (is_test_earning e)))) 0 < LiveLeft r;
}.

Lemma off_named b c x y : x ∈ off (b <=? c) y <-> x = y /\ c < b.
Proof.
  unfold off. destruct (Z.leb_spec b c); [|rewrite list_elem_of_singleton; naive_solver].
  rewrite elem_of_nil. split; [done|intros [_ ?]; lia].
Qed.

Lemma check_reads t m ws now_ : books t no_slack m -> ws <> EmptyString -> t <= now_ ->
  reads (journalCheck ws now_) m (check_answer m ws now_).
Proof.
  intros Hb Hw Ht. destruct (held_splits t no_slack m now_ ws Hb Ht) as [S1 S2].
  pose proof (bk_bal t no_slack m Hb) as Hbal. unfold journalCheck.
  do 4 (eapply reads_bind; [by apply reads_account_line|]; intros ? ->).
  eapply reads_bind; [apply reads_gets|]. intros ? ->.
  do 2 (eapply reads_bind; [apply reads_bigint|]; intros ? [-> ?]).
  eapply reads_bind; [apply reads_balance|]. intros ? [-> Hi]. eapply reads_bind; [apply reads_funds|]. intros [tl ll] Hf.
  pose proof (bk_hold t no_slack m Hb ws "test"%string Hw) as H1. pose proof (bk_hold t no_slack m Hb ws "live"%string Hw) as H2.
  pose proof (bk_avail t no_slack m Hb ws Hw) as H3. unfold no_slack, available_balance in H3. unfold hkey, akey in *.
  pose proof (funded_both (mk_earnings m) ws (still_held m)) as FB.
  assert (FD : earned m ws (fun e => dueAt m now_ e && is_test_earning e) + earned m ws (fun e => dueAt m now_ e && negb (is_test_earning e)) = earned m ws (dueAt m now_)).
  { rewrite !earned_esum. symmetry. apply esum_split. intros e _. destruct (dueAt m now_ e), (is_test_earning e); cbn; lia. }
  rewrite <- !earned_esum in FB.
  apply reads_ret. split; cbn [JournalHoldback PendingRelease InHoldback Available JournalTest JournalLive TestLeft LiveLeft Mismatches].
  - rewrite <- FB. wrap_eq.
  - by rewrite <- FD.
  - done.
  - done.
  - by split; wrap_eq.
  - wrap_eq.
  - exact Hf.
  - intros x. cbn [app].
    match goal with |- x ∈ off (?a =? ?b) _ ++ off (?c =? ?d) _ ++ _ <-> _ =>
      assert (E1 : a = b); [|assert (E2 : c = d); [|rewrite E1, E2, !Z.eqb_refl]] end.
    + rewrite <- (wrap64_id (earned m ws (in_holdback m now_))) by done. wrap_eq.
    + wrap_eq.
    + cbn [off app]. by rewrite elem_of_app, !off_named.
Qed.

(** ** What never drifts *)

(** C2: After any of the marketplace's operations ([MarketStep]), in any order, starting from one nothing was
    earned in: the journal's holdback account of a seller holds, funding by funding, the
    sum of that seller's shares neither released nor refunded; what the journal has
    available to the seller is the sum of the shares released and not refunded, less the
    payouts made; and each balance kept is the sum of its postings. *)
Theorem journal_holds_what_is_earned F L B t0 m0 t m ws :
  unopened m0 -> rtc (MarketStep F L B) (t0, m0) (t, m) -> ws <> EmptyString ->
  (forall f, journal_balance m (SellerHoldback ws, "USD"%string, f) = - earned m ws (fun e => funded f e && still_held m e)) /\
  available_balance m ws = paid_out m ws (fun _ => true) - earned m ws (moved_on m) /\
  forall k, journal_balance m k = rows_on k (mj_postings m).
Proof.
  intros H0 Hs Hw. pose proof (steps_books F L B _ _ Hs (unopened_books t0 m0 H0)) as Hb. cbn [fst snd] in Hb.
  split_and!; [|..|apply Hb].
  - intros f. by apply (bk_hold t no_slack m Hb).
  - rewrite (bk_avail t no_slack m Hb ws Hw). unfold no_slack. lia.
Qed.

(** C24: [JournalCheck] tells the truth of every state the marketplace reaches.  It changes
    nothing; it answers what the earnings have in holdback and due, what the earnings less the
    payouts leave available, and what is left of each funding as [sellerFunds] has it; it
    names no balance off its postings, no holdback off the earnings and no available account
    off the earnings and the payouts; and it names the funding of what is left exactly when
    [sellerFunds] would pay out more of a funding than the journal has available or due of it,
    which does happen ([mixed_check_names_live]).  It fails only when a sum is out of the
    column's range. *)
Theorem journal_check_answers_exactly F L B t0 m0 t m ws now_ :
  unopened m0 -> rtc (MarketStep F L B) (t0, m0) (t, m) -> ws <> EmptyString -> t <= now_ ->
  match journalCheck ws now_ m with
  | Ok (r, m') => m' = m /\ check_answer m ws now_ r
  | Err e => e = EDb ErrBigintRange
  end.
Proof.
  intros H0 Hs Hw Ht. exact (check_reads t m ws now_ (steps_books F L B _ _ Hs (unopened_books t0 m0 H0)) Hw Ht).
Qed.

(** C25: The holdback is an escrow: whatever operations ran, an earning whose use was released
    is past its holdback, has no hold open on it, and nobody can open one; and the
    earnings of one use wait for the same instant. *)
Theorem earnings_wait_out_holdback F L B t0 m0 t m e :
  unopened m0 -> rtc (MarketStep F L B) (t0, m0) (t, m) -> e ∈ mk_earnings m -> released m (er_use e) = true ->
  er_payable e <= t /\ held m (er_use e) = false /\
  (forall x, x ∈ mk_earnings m -> er_use x = er_use e -> er_payable x = er_payable e) /\
  forall c reason by_ now_ id m', OpenHold c (er_use e) reason by_ now_ m <> Ok (id, m').
Proof.
  intros H0 Hs He Hr. pose proof (steps_books F L B _ _ Hs (unopened_books t0 m0 H0)) as Hb. cbn [fst snd] in Hb.
  destruct (bk_released t no_slack m Hb e He Hr) as [H1 H2]. split_and!; [done|done| |].
  - intros x Hx Ex. by apply (bk_same t no_slack m Hb).
  - intros c reason by_ now_ id m' H. unfold OpenHold in H. destruct (hold_reason reason); [|by apply tx_fail_ok in H].
    apply tx_bind_ok in H as (? & m1 & K & H). apply tx_guard_ok in K as [_ ->].
    apply tx_bind_ok in H as (i & m1 & K & H). apply new_id_ok in K as [s ->]. rewrite tx_gets_bind in H.
    destruct (mk_uses _ !! _); [|by apply tx_fail_ok in H]. rewrite tx_gets_bind in H.
    apply tx_bind_ok in H as (? & m1 & K & H). apply tx_guard_ok in K as [K%negb_true_iff _].
    apply out_of_holdback_released in K. change (released m (er_use e) = false) in K. congruence.
Qed.

(** ** A run: cleared on day 0, released on day 20, taken as credits on day 21 *)

Definition demo_released : Market := (ReleaseDue (mctx (20 * day)) (20 * day) demo_cleared).2.

Definition demo_credits : Res MarketErr (PayoutRow * Market) := TakeAsCredits (mctx (21 * day)) "ann" (21 * day) demo_released.

Definition demo_credited : Market := market_after demo_credits demo_released.

Lemma demo_credits_ok : exists r, TakeAsCredits (mctx (21 * day)) "ann" (21 * day) demo_released = Ok (r, demo_credited).
Proof.
  fold demo_credits.
  assert (E : match demo_credits with Ok _ => true | Err _ => false end = true) by (vm_compute; reflexivity).
  unfold demo_credited. destruct demo_credits as [[r m]|]; [by exists r|done].
Qed.

Abbreviation demo_step := (MarketStep default_fees demo_limits None).

Lemma demo_step1 : demo_step (0, demo_market) (0, demo_cleared).
Proof. eapply StepClearInvoice, demo_clears. Qed.

Lemma demo_step2 : demo_step (0, demo_cleared) (20 * day, demo_released).
Proof.
  unfold demo_released. apply (StepReleaseDue _ _ _ 0 (mctx (20 * day)) (20 * day) (ReleaseDue (mctx (20 * day)) (20 * day) demo_cleared).1).
  - pose proof day_pos. lia.
  - apply surjective_pairing.
Qed.

Lemma demo_step3 : demo_step (20 * day, demo_released) (21 * day, demo_credited).
Proof.
  destruct demo_credits_ok as [r E]. apply (StepTakeAsCredits _ _ _ (20 * day) (mctx (21 * day)) "ann" (21 * day) r); [|exact E].
  pose proof day_pos. lia.
Qed.

Lemma demo_run : rtc demo_step (0, demo_market) (21 * day, demo_credited).
Proof.
  apply (rtc_l _ _ (0, demo_cleared)); [exact demo_step1|]. apply (rtc_l _ _ (20 * day, demo_released)); [exact demo_step2|].
  apply rtc_once. exact demo_step3.
Qed.

Lemma journal_holds_what_is_earned_witness :
  (forall f, journal_balance demo_credited (SellerHoldback "ann", "USD"%string, f) = - earned demo_credited "ann" (fun e => funded f e && still_held demo_credited e)) /\
  available_balance demo_credited "ann" = paid_out demo_credited "ann" (fun _ => true) - earned demo_credited "ann" (moved_on demo_credited) /\
  forall k, journal_balance demo_credited k = rows_on k (mj_postings demo_credited).
Proof.
  apply (journal_holds_what_is_earned default_fees demo_limits None 0 demo_market (21 * day) demo_credited "ann" demo_unopened demo_run).
  discriminate.
Defined.

Lemma journal_check_answers_exactly_witness :
  match journalCheck "ann" (22 * day) demo_credited with
  | Ok (r, m') => m' = demo_credited /\ Mismatches r = [] /\ check_answer demo_credited "ann" (22 * day) r
  | Err e => False
  end.
Proof.
  pose proof (journal_check_answers_exactly default_fees demo_limits None 0 demo_market (21 * day) demo_credited "ann" (22 * day) demo_unopened demo_run) as H.
  assert (E : match journalCheck "ann" (22 * day) demo_credited with Ok (r, _) => bool_decide (Mismatches r = []) | Err _ => false end = true)
    by (vm_compute; reflexivity).
  destruct (journalCheck "ann" (22 * day) demo_credited) as [[r m']|e]; [|discriminate E]. apply bool_decide_eq_true in E.
  destruct H as [H1 H2]; [discriminate|pose proof day_pos; lia|]. exact (conj H1 (conj E H2)).
Defined.

Definition demo_earning : EarningRow := default (mkEarning "" "" EarningSale "" 0 0 0 0 "" 0 0 false false) (head (mk_earnings demo_credited)).

Lemma demo_earning_in : demo_earning ∈ mk_earnings demo_credited /\ released demo_credited (er_use demo_earning) = true.
Proof.
  assert (E : bool_decide (mk_earnings demo_credited <> []) && released demo_credited (er_use demo_earning) = true) by (vm_compute; reflexivity).
  apply andb_prop in E as [E1%bool_decide_eq_true E2]. split; [|exact E2]. clear E2. unfold demo_earning.
  destruct (mk_earnings demo_credited) as [|e l]; [destruct E1; reflexivity|]. left.
Qed.

Lemma earnings_wait_out_holdback_witness :
  let e := demo_earning in
  er_payable e <= 21 * day /\ held demo_credited (er_use e) = false /\
  (forall x, x ∈ mk_earnings demo_credited -> er_use x = er_use e -> er_payable x = er_payable e) /\
  forall c reason by_ now_ id m', OpenHold c (er_use e) reason by_ now_ demo_credited <> Ok (id, m').
Proof.
  exact (earnings_wait_out_holdback default_fees demo_limits None 0 demo_market (21 * day) demo_credited demo_earning demo_unopened demo_run
    (proj1 demo_earning_in) (proj2 demo_earning_in)).
Defined.
