(* ===== verification/Settlements.v ===== *)
(** What a payout and a release promise ([internal/market/payout.go], [escrow.go]): Stripe's
    fees to the cent, earnings taken whole as credits, a release job that leaves nothing
    due, and test money in a live payout. *)
From S2P Require Import Prelude Money Tables Postings Clock Lxc Desk Capabilities Royalties MarketTables MarketJournal Sales Holdback Payouts Books Clearing Reconcile.
From stdpp Require Import sorting pretty.
Open Scope Z_scope.
Open Scope i64_scope.

Implicit Types (m : Market).

(** ** Stripe's fees *)

(** C37: A payout's gross, once the month's account fee and the fixed fee fit it, is split to
    the cent: the seller's net is the largest whose own quarter of a percent still fits,
    and what Stripe keeps for the payout is its fixed fee and that quarter, rounded up to
    at most the next cent and a quarter of a percent of one. *)
Theorem payout_fees_exact gross first : 225 <= gross <= 922337203685477 ->
  let '(accountFee, payoutFee, net) := PayoutFees gross first in
  accountFee = (if first then 200 else 0) /\ accountFee + payoutFee + net = gross /\ 0 <= net /\
  net * 10025 <= (gross - accountFee - 25) * 10000 < (net + 1) * 10025 /\
  250000 + 25 * net <= payoutFee * 10000 < 250000 + 25 * net + 10025.
Proof.
  intros Hg. unfold PayoutFees, stripeAccountFeeCents, stripePayoutFixedCents, stripePayoutBasisPoints.
  change (10000 +! 25) with 10025. set (a := if first then 200 else 0). assert (Ha : 0 <= a <= 200) by (unfold a; destruct first; lia).
  rewrite !(wrap64_id (gross - a)) by (i64_ranges; lia). rewrite (wrap64_id (gross - a - 25)) by (i64_ranges; lia).
  rewrite (wrap64_id ((gross - a - 25) * 10000)) by (i64_ranges; lia).
  rewrite Z.quot_div_nonneg by lia. set (n := (gross - a - 25) * 10000 / 10025).
  pose proof (Z.div_mod ((gross - a - 25) * 10000) 10025 ltac:(lia)) as D. pose proof (Z.mod_pos_bound ((gross - a - 25) * 10000) 10025 ltac:(lia)) as M.
  fold n in D. assert (Hn : 0 <= n) by (apply Z.div_pos; lia). destruct (Z.ltb_spec n 0); [lia|].
  rewrite (wrap64_id (gross - a - n)) by (i64_ranges; lia). split_and!; lia.
Qed.

Lemma payout_fees_exact_witness :
  let '(accountFee, payoutFee, net) := PayoutFees 2500 true in
  accountFee = 200 /\ accountFee + payoutFee + net = 2500 /\ 0 <= net /\
  net * 10025 <= (2500 - accountFee - 25) * 10000 < (net + 1) * 10025 /\
  250000 + 25 * net <= payoutFee * 10000 < 250000 + 25 * net + 10025.
Proof. apply (payout_fees_exact 2500 true). lia. Defined.

(** ** Taken as credits *)

Lemma sellerBalance_answers ws now_ m :
  in_i64 (earned m ws (past_holdback m now_)) -> in_i64 (earned m ws (in_holdback m now_)) -> in_i64 (paid_out m ws (fun _ => true)) ->
  sellerBalance ws now_ m = Ok ((earned m ws (past_holdback m now_), earned m ws (in_holdback m now_), paid_out m ws (fun _ => true)), m).
Proof.
  intros H1 H2 H3. unfold sellerBalance. rewrite tx_gets_bind. unfold market_bigint, sql_bigint.
  apply in_i64b_spec in H1, H2, H3. rewrite H1. unfold tx_bind, tx_ret. rewrite H2, H3. done.
Qed.

(** C26: A seller who takes their earnings takes all of them: one payout of exactly what is
    past its holdback less what was paid, the same amount at the peg on their wallet
    and on their payout row, and nothing left to take; the earnings stay as they were. *)
Theorem credits_take_it_all c ws now_ m r m' :
  (forall e, e ∈ mk_earnings m -> 0 <= er_share e) -> 0 <= paid_out m ws (fun _ => true) ->
  TakeAsCredits c ws now_ m = Ok (r, m') ->
  0 < po_gross r /\ po_gross r = earned m ws (past_holdback m now_) - paid_out m ws (fun _ => true) /\
  po_credits r = po_gross r *! ulxcPerUSDMicro /\
  lx_balance (lxc_row (mk_store m') ws) = lx_balance (lxc_row (mk_store m) ws) +! po_credits r /\
  (exists id, mk_payouts m !! id = None /\ mk_payouts m' = <[id := r]> (mk_payouts m)) /\
  mk_earnings m' = mk_earnings m /\
  forall c', TakeAsCredits c' ws now_ m' = Err ErrNothingAvailable.
Proof.
  intros Hsh Hp0 H. apply market_committed_ok in H. rewrite tx_gets_bind in H.
  apply tx_bind_ok in H as (? & m1 & H1 & H). apply tx_guard_ok in H1 as (Hheld & ->).
  apply tx_bind_ok in H as ([[rel hb] paid] & m1 & H1 & H). apply sellerBalance_ok in H1 as (-> & -> & -> & -> & I1 & I2 & I3).
  apply tx_bind_ok in H as (? & m1 & H1 & H). apply tx_guard_ok in H1 as (Hg%negb_true_iff & ->).
  apply tx_bind_ok in H as ([tl ll] & m1 & H1 & H). apply sellerFunds_ok in H1 as (-> & Htl & _).
  apply tx_bind_ok in H as (id & m1 & H1 & H). pose proof (new_id_wallets _ _ _ _ _ H1) as W1. apply new_id_ok in H1 as [s ->].
  rewrite tx_gets_bind in H. set (gross := earned m ws (past_holdback m now_) -! paid_out m ws (fun _ => true)) in *.
  apply tx_bind_ok in H as (? & m1 & H1 & H). match type of H1 with insert_payout _ ?row _ = _ => set (row0 := row) in * end.
  apply insert_payout_ok in H1 as (_ & Hid & ->). cbn [mk_payouts with_mk_store] in Hid.
  apply tx_bind_ok in H as (eid & m2 & H1 & H). pose proof (PostJournalTx_wallets _ _ _ _ _ _ _ _ _ H1) as W2.
  apply PostJournalTx_frame in H1 as (_ & F2 & F3 & F4 & F5 & F6). cbn [mk_earnings mk_refunds mk_holds mk_payouts mk_profiles with_mk_payouts with_mk_store] in F2, F3, F4, F5, F6.
  apply tx_bind_ok in H as (v & m3 & H2 & H). apply tx_ret_ok in H as [-> ->]. apply store_tx_ok in H2 as (s2 & H2 & ->).
  apply creditLXCTxTyped_ok in H2 as (_ & _ & ->).
  assert (He0 : 0 <= earned m ws (past_holdback m now_)) by (rewrite earned_esum; by apply esum_nonneg).
  assert (Eg : gross = earned m ws (past_holdback m now_) - paid_out m ws (fun _ => true)) by (unfold gross; apply wrap64_id; i64_ranges; lia).
  assert (Hg0 : 0 < gross) by lia. set (m' := with_mk_store _ m2).
  assert (PO : paid_out m' ws (fun _ => true) = paid_out m ws (fun _ => true) + gross).
  { unfold paid_out, m'. cbn [mk_payouts with_mk_store]. rewrite F5, map_sum_insert_new by done. change (po_ws row0) with ws. change (po_gross row0) with gross.
    rewrite bool_decide_true by done. cbn [andb]. lia. }
  assert (EP : forall p q, (forall e, p m e = q m e) -> earned m' ws (p m) = earned m ws (q m)).
  { intros p q Hpq. rewrite !earned_esum. unfold m'. cbn [mk_earnings with_mk_store]. rewrite F2. by apply esum_ext. }
  assert (HP : past_holdback m' now_ = past_holdback m now_) by (unfold past_holdback, held, refunded, m'; cbn [mk_holds mk_refunds with_mk_store]; by rewrite F3, F4).
  assert (HI : in_holdback m' now_ = in_holdback m now_) by (unfold in_holdback, held, refunded, m'; cbn [mk_holds mk_refunds with_mk_store]; by rewrite F3, F4).
  split_and!; [done|done|done| | |done|].
  - unfold m'. cbn [mk_store with_mk_store]. rewrite lxc_row_set_eq. unfold credited. cbn [lx_balance]. rewrite W2. cbn [mk_store with_mk_payouts]. by rewrite W1.
  - exists id. split; [done|]. exact F5.
  - intros c'. unfold TakeAsCredits, market_committed. unfold tx_bind at 1. unfold tx_gets at 1.
    assert (TH : tax_held m' ws = tax_held m ws) by (unfold tax_held, m'; cbn [mk_profiles with_mk_store]; by rewrite F6). rewrite TH.
    unfold tx_bind at 1. unfold tx_guard at 1. rewrite Hheld. unfold tx_ret at 1. unfold tx_bind at 1.
    rewrite sellerBalance_answers; [|by rewrite HP, (EP (fun m => past_holdback m now_) (fun m => past_holdback m now_))
      |by rewrite HI, (EP (fun m => in_holdback m now_) (fun m => in_holdback m now_))|rewrite PO; i64_ranges; lia].
    rewrite HP, (EP (fun m => past_holdback m now_) (fun m => past_holdback m now_)), PO by done.
    replace (earned m ws (past_holdback m now_) -! (paid_out m ws (fun _ => true) + gross)) with 0; [done|].
    rewrite Eg. symmetry. rewrite wrap64_id; [lia|i64_ranges; lia].
Qed.

Lemma demo_released_run : rtc (MarketStep default_fees demo_limits None) (0, demo_market) (20 * day, demo_released).
Proof. apply (rtc_l _ _ (0, demo_cleared)); [exact demo_step1|]. apply rtc_once. exact demo_step2. Qed.

Lemma run_books F L B t0 m0 t m : unopened m0 -> rtc (MarketStep F L B) (t0, m0) (t, m) -> books t no_slack m.
Proof. intros H0 Hs. exact (steps_books F L B _ _ Hs (unopened_books t0 m0 H0)). Qed.

Lemma demo_released_books : books (20 * day) no_slack demo_released.
Proof. exact (run_books _ _ _ 0 demo_market (20 * day) demo_released demo_unopened demo_released_run). Qed.

Lemma demo_unpaid : (0 <=? paid_out demo_released "ann" (fun _ => true)) = true.
Proof. vm_compute. reflexivity. Qed.

Lemma credits_take_it_all_witness : exists r,
  0 < po_gross r /\ po_gross r = earned demo_released "ann" (past_holdback demo_released (21 * day)) - paid_out demo_released "ann" (fun _ => true) /\
  po_credits r = po_gross r *! ulxcPerUSDMicro /\
  lx_balance (lxc_row (mk_store demo_credited) "ann") = lx_balance (lxc_row (mk_store demo_released) "ann") +! po_credits r /\
  (exists id, mk_payouts demo_released !! id = None /\ mk_payouts demo_credited = <[id := r]> (mk_payouts demo_released)) /\
  mk_earnings demo_credited = mk_earnings demo_released /\
  forall c', TakeAsCredits c' "ann" (21 * day) demo_credited = Err ErrNothingAvailable.
Proof.
  destruct demo_credits_ok as [r E]. exists r.
  apply (credits_take_it_all (mctx (21 * day)) "ann" (21 * day) demo_released r demo_credited); [| |exact E].
  - intros e He. apply (bk_shares _ _ _ demo_released_books e He).
  - apply Z.leb_le. exact demo_unpaid.
Defined.

(** ** The release job *)

(** The uses due, earning by earning, of any test of what is due. *)
Definition due_fold (D : EarningRow -> bool) (l : list EarningRow) : gmap string Z :=
  foldr (fun e acc => if D e
                      then <[er_use e := match acc !! er_use e with Some t => Z.min t (er_payable e) | None => er_payable e end]> acc
                      else acc) ∅ l.

Lemma due_fold_dom D l u : is_Some (due_fold D l !! u) <-> exists e, e ∈ l /\ er_use e = u /\ D e = true.
Proof.
  induction l as [|e l IH]; cbn [due_fold foldr].
  - rewrite lookup_empty. split; [by intros []|]. intros (e & He & _). by apply not_elem_of_nil in He.
  - fold (due_fold D l). destruct (D e) eqn:De.
    + rewrite lookup_insert_is_Some, IH. split.
      * intros [<-|[_ (x & Hx & E & Dx)]]; [exists e; by split_and!; [left|..]|exists x; by split_and!; [right|..]].
      * intros (x & [->|Hx]%elem_of_cons & E & Dx); [by left|]. destruct (decide (er_use e = u)); [by left|right; eauto].
    + rewrite IH. split; [intros (x & Hx & E & Dx); exists x; by split_and!; [right|..]|].
      intros (x & [->|Hx]%elem_of_cons & E & Dx); [congruence|eauto].
Qed.

(** A use no longer due leaves, and nothing else changes. *)
Lemma due_fold_delete D D' id l : (forall e, e ∈ l -> D' e = D e && negb (bool_decide (er_use e = id))) ->
  due_fold D' l = delete id (due_fold D l).
Proof.
  induction l as [|e l IH]; intros H; cbn [due_fold foldr]; [by rewrite delete_empty|]. fold (due_fold D l) (due_fold D' l).
  rewrite H by left. rewrite IH by (intros; apply H; by right). destruct (D e); [|done].
  destruct (bool_decide_reflect (er_use e = id)) as [->|Hn]; cbn [andb negb]; [by rewrite delete_insert_eq|].
  by rewrite lookup_delete_ne, delete_insert_ne by congruence.
Qed.

Lemma due_uses_fold m now_ : due_uses m now_ = due_fold (dueAt m now_) (mk_earnings m).
Proof. done. Qed.

Lemma due_earnings_some m now_ id : is_Some (due_uses m now_ !! id) -> due_earnings m id now_ <> [].
Proof.
  rewrite due_uses_fold, due_fold_dom. intros (e & He & Eu & De) E. pose proof (due_earnings_perm m id now_) as P. rewrite E in P.
  apply Permutation_nil in P. assert (K : e ∈ filter (fun e => of_use id e && dueAt m now_ e = true) (mk_earnings m)).
  { apply list_elem_of_filter. split; [|done]. unfold of_use. by rewrite (bool_decide_true _ Eu), De. }
  rewrite P in K. by apply not_elem_of_nil in K.
Qed.

(** A release of a use due takes it, and only it, off what is due. *)
Lemma release_takes c id now_ m b m' : market_committed (releaseUseTx c id now_) m = Ok (b, m') -> is_Some (due_uses m now_ !! id) ->
  b = true /\ due_uses m' now_ = delete id (due_uses m now_) /\ mk_earnings m' = mk_earnings m.
Proof.
  intros H Hd. apply market_committed_ok in H. unfold releaseUseTx in H. rewrite tx_gets_bind in H.
  pose proof (due_earnings_some m now_ id Hd) as Hne. pose proof (due_earnings_perm m id now_) as P.
  destruct (due_earnings m id now_) as [|e0 es] eqn:Ee; [done|]. clear Hne.
  assert (H0 : e0 ∈ filter (fun e => of_use id e && dueAt m now_ e = true) (mk_earnings m)) by (rewrite <- P; left).
  apply list_elem_of_filter in H0 as [[Hu Hdue]%andb_prop H0].
  apply tx_bind_ok in H as (jid & m1 & H & Hr). apply tx_ret_ok in Hr as [-> ->]. split; [done|].
  apply PostJournalTx_ok in H as [[El _]|(He & _ & s & ->)].
  - exfalso. unfold journal_lines in El. change (mjoin (release_lines <$> e0 :: es)) with (release_lines e0 ++ mjoin (release_lines <$> es)) in El.
    unfold release_lines in El at 1. cbn [app] in El. rewrite filter_cons, decide_True in El; [done|]. cbn [jp_amount].
    unfold dueAt in Hdue. rewrite !andb_true_iff in Hdue. destruct Hdue as ((((_ & Hpos) & _) & _) & _). lia.
  - split; [|done]. rewrite !due_uses_fold. apply due_fold_delete. intros e _.
    change (dueAt (entered JournalRelease id jid now_ _ (with_mk_store s m)) now_ e) with
      ((er_payable e <=? now_) && (0 <? er_share e) && negb (held m (er_use e)) && negb (refunded m (er_use e)) &&
       negb (released (entered JournalRelease id jid now_ (journal_rows jid 1 (journal_lines (funding (er_livemode e0) (er_test e0)) (mjoin (release_lines <$> e0 :: es)))) (with_mk_store s m)) (er_use e))).
    rewrite released_entered. unfold dueAt. change (released (with_mk_store s m) (er_use e)) with (released m (er_use e)).
    rewrite (bool_decide_ext ((JournalRelease, id) = (JournalRelease, er_use e)) (er_use e = id)) by naive_solver.
    destruct (bool_decide (er_use e = id)), (released m (er_use e)); cbn; rewrite ?andb_false_r, ?andb_true_r; done.
Qed.

Lemma delete_size {V} (M : gmap string V) id : is_Some (M !! id) -> S (size (delete id M)) = size M.
Proof. intros [v Hv]. rewrite map_size_delete_Some by eauto. pose proof (map_size_ne_0_lookup_2 M id ltac:(eauto)). lia. Qed.

(** A pass over uses that are due releases each of them. *)
Lemma release_each_takes c now_ ids : forall n m k m',
  release_each c now_ ids n m = ((k, None), m') -> NoDup ids -> (forall id, id ∈ ids -> is_Some (due_uses m now_ !! id)) ->
  k = (n + length ids)%nat /\ due_uses m' now_ = foldr delete (due_uses m now_) ids /\
  (size (due_uses m' now_) + length ids = size (due_uses m now_))%nat /\ mk_earnings m' = mk_earnings m.
Proof.
  induction ids as [|id ids IH]; intros n m k m' H Hn Hin; cbn [release_each] in H.
  - injection H as <- <-. cbn [foldr length]. split_and!; try done; lia.
  - destruct (market_committed _ m) as [[ok m1]|] eqn:E; [|done]. apply NoDup_cons in Hn as [Hni Hn].
    pose proof (Hin id ltac:(left)) as Hid. apply release_takes in E as (-> & D & Em); [|done].
    apply IH in H as (-> & D2 & S2 & Em2); [|done|].
    + rewrite D in *. pose proof (delete_size _ _ Hid). cbn [length foldr]. split_and!; [lia| |lia|by rewrite Em2].
      rewrite D2. clear. induction ids as [|j ids IHj]; [done|]. cbn [foldr]. by rewrite IHj, delete_delete.
    + intros j Hj. rewrite D, lookup_delete_ne by (by intros ->). apply Hin. by right.
Qed.

Lemma due_batch_ok m now_ : NoDup (due_batch m now_) /\ (forall id, id ∈ due_batch m now_ -> is_Some (due_uses m now_ !! id)) /\
  length (due_batch m now_) = Nat.min release_batch (size (due_uses m now_)).
Proof.
  unfold due_batch. set (all := fst <$> merge_sort due_before (map_to_list (due_uses m now_))).
  assert (P : all ≡ₚ (map_to_list (due_uses m now_)).*1) by (unfold all; by rewrite merge_sort_Permutation).
  assert (N : NoDup all) by (rewrite P; apply NoDup_fst_map_to_list).
  split; [by eapply sublist_NoDup, sublist_take|]. split.
  - intros id Hid. assert (Hin : id ∈ all) by (rewrite <- (take_drop release_batch all); apply elem_of_app; by left). rewrite P in Hin.
    apply list_elem_of_fmap in Hin as ([i t] & -> & Hin). apply elem_of_map_to_list in Hin. by eexists.
  - rewrite length_take, P, length_fmap, length_map_to_list. done.
Qed.

Lemma release_rounds_all c fuel now_ : forall n m k m',
  release_rounds c fuel now_ n m = ((k, None), m') -> (size (due_uses m now_) < fuel)%nat ->
  k = (n + size (due_uses m now_))%nat /\ due_uses m' now_ = ∅ /\ mk_earnings m' = mk_earnings m.
Proof.
  induction fuel as [|fuel IH]; intros n m k m' H Hf; [lia|]. cbn [release_rounds] in H. cbn zeta in H.
  destruct (due_batch_ok m now_) as (N & Hin & Hl).
  destruct (release_each c now_ (due_batch m now_) 0 m) as [[j err] m1] eqn:E. destruct err; [done|].
  apply release_each_takes in E as (-> & _ & Sz & Em); [|done..]. rewrite Nat.add_0_l in H.
  destruct (_ || _) eqn:Eb.
  - injection H as <- <-. assert (Z0 : size (due_uses m1 now_) = 0%nat).
    { apply orb_true_iff in Eb as [Eb%Nat.ltb_lt|Eb%Nat.eqb_eq]; unfold release_batch in *; lia. }
    split_and!; [lia|by apply map_size_empty_iff|done].
  - apply orb_false_iff in Eb as [_ Eb%Nat.eqb_neq]. apply IH in H as (-> & D & Em2); [|lia].
    split_and!; [lia|done|by rewrite Em2].
Qed.

(** C27: The release job, when no transaction fails, ends with nothing due: it counts every
    use that had an earning due (past its holdback, held by nothing, not refunded), each
    released once, in batches and whatever their number; the earnings stay as they were. *)
Theorem release_job_leaves_none_due c now_ m n m' : ReleaseDue c now_ m = ((n, None), m') ->
  n = size (due_uses m now_) /\ mk_earnings m' = mk_earnings m /\
  (forall e, e ∈ mk_earnings m' -> dueAt m' now_ e = false) /\
  forall c', ReleaseDue c' now_ m' = ((0%nat, None), m').
Proof.
  intros H. destruct (release_rounds_all c (release_fuel m now_) now_ 0 m n m' H (Nat.lt_succ_diag_r _)) as (-> & D & Em). split_and!; [done|done| |].
  - intros e He. destruct (dueAt m' now_ e) eqn:De; [|done]. exfalso.
    assert (K : is_Some (due_uses m' now_ !! er_use e)) by (rewrite due_uses_fold; apply due_fold_dom; eauto).
    rewrite D, lookup_empty in K. by destruct K.
  - intros c'. unfold ReleaseDue, release_fuel. cbn [release_rounds]. destruct (due_batch_ok m' now_) as (_ & _ & Hl).
    rewrite D, map_size_empty, Nat.min_0_r in Hl. apply nil_length_inv in Hl. rewrite Hl. reflexivity.
Qed.

Lemma demo_job : ReleaseDue (mctx (20 * day)) (20 * day) demo_cleared = ((3%nat, None), demo_released).
Proof.
  assert (E : match (ReleaseDue (mctx (20 * day)) (20 * day) demo_cleared).1 with (3%nat, None) => true | _ => false end = true) by (vm_compute; reflexivity).
  unfold demo_released. destruct (ReleaseDue _ _ _) as [[[|[|[|[|k]]]] [e|]] m']; try discriminate E. reflexivity.
Qed.

Lemma release_job_leaves_none_due_witness :
  3%nat = size (due_uses demo_cleared (20 * day)) /\ mk_earnings demo_released = mk_earnings demo_cleared /\
  (forall e, e ∈ mk_earnings demo_released -> dueAt demo_released (20 * day) e = false) /\
  forall c', ReleaseDue c' (20 * day) demo_released = ((0%nat, None), demo_released).
Proof.
  exact (release_job_leaves_none_due (mctx (20 * day)) (20 * day) demo_cleared 3 demo_released demo_job).
Defined.

(** ** Test money in a live payout *)

Definition by_credits (r : PayoutRow) : bool := bool_decide (po_method r = PayoutCredits).
Definition by_live_stripe (r : PayoutRow) : bool := bool_decide (po_method r = PayoutStripe) && po_livemode r.

(** The buyer's next use, billed on day 22. *)
Definition mixed_use : Market :=
  with_mk_uses (<["u4"%string := mkUseRow "remix" 1 "ann" "zed" 400000000 "billed" (22 * day) (Some (22 * day)) (Some (22 * day)) None "" "" "use" None]> (mk_uses demo_credited)) demo_credited.

Definition mixed_clear : Res MarketErr (nat * Market) :=
  ClearInvoice default_fees demo_limits (mctx (23 * day)) "zed" "in_2" (22 * day) (23 * day) (23 * day) false mixed_use.

Definition mixed_cleared : Market := market_after mixed_clear mixed_use.

Definition live_key : ConnectStripe := mkConnectStripe true (fun _ => Some true) (fun _ _ _ _ => inl "tr_1"%string).

Definition mixed_paid : Market := (payOut (mctx (40 * day)) None live_key (40 * day) None mixed_cleared).2.

Lemma elsewhere_uses U m : (forall id u, mk_uses m !! id = Some u -> us_cleared u <> None -> U !! id = Some u) -> elsewhere m (with_mk_uses U m).
Proof. intros H. by split. Qed.

Lemma mixed_steps : rtc (MarketStep default_fees demo_limits None) (21 * day, demo_credited) (22 * day, mixed_cleared).
Proof.
  apply (rtc_l _ _ (22 * day, mixed_use)).
  - apply StepElsewhere; [pose proof day_pos; lia|]. unfold mixed_use. apply elsewhere_uses.
    intros id u Hu Hc. destruct (decide (id = "u4"%string)) as [->|Hn]; [|by rewrite lookup_insert_ne].
    assert (E : match mk_uses demo_credited !! "u4"%string with None => true | Some _ => false end = true) by (vm_compute; reflexivity).
    rewrite Hu in E. discriminate E.
  - apply rtc_once. apply (StepClearInvoice _ _ _ _ (mctx (23 * day)) "zed" "in_2" (22 * day) (23 * day) (23 * day) false 1).
    change (mixed_clear = Ok (1%nat, mixed_cleared)). apply market_after_ok. vm_compute. reflexivity.
Qed.

Lemma mixed_sums :
  (earned demo_credited "ann" is_test_earning =? 0) && (paid_out mixed_paid "ann" by_credits =? paid_out demo_credited "ann" by_credits) &&
  (earned mixed_paid "ann" (fun e => negb (is_test_earning e)) <? paid_out mixed_paid "ann" by_credits + paid_out mixed_paid "ann" by_live_stripe) = true.
Proof. vm_compute. reflexivity. Qed.

Lemma mixed_pay : payOut (mctx (40 * day)) None live_key (40 * day) None mixed_cleared =
  ((payOut (mctx (40 * day)) None live_key (40 * day) None mixed_cleared).1, mixed_paid).
Proof. unfold mixed_paid. apply surjective_pairing. Qed.

(** What [sellerFunds] leaves of live money can be test money: a seller with live earnings
    alone takes them all as credits; test earnings clear afterwards; and the weekly run
    with a live key pays them out, so that credits and live payouts together exceed every
    live earning the seller ever had. *)
Theorem test_earnings_reach_live_payout : exists m1 m2 m3 api r,
  rtc (MarketStep default_fees demo_limits None) (0, demo_market) (21 * day, m1) /\
  rtc (MarketStep default_fees demo_limits None) (21 * day, m1) (22 * day, m2) /\
  cs_live api = true /\ payOut (mctx (40 * day)) None api (40 * day) None m2 = (r, m3) /\
  earned m1 "ann" is_test_earning = 0 /\ paid_out m3 "ann" by_credits = paid_out m1 "ann" by_credits /\
  earned m3 "ann" (fun e => negb (is_test_earning e)) < paid_out m3 "ann" by_credits + paid_out m3 "ann" by_live_stripe.
Proof.
  exists demo_credited, mixed_cleared, mixed_paid, live_key, (payOut (mctx (40 * day)) None live_key (40 * day) None mixed_cleared).1.
  pose proof mixed_sums as E. apply andb_prop in E as [[E1%Z.eqb_eq E2%Z.eqb_eq]%andb_prop E3%Z.ltb_lt].
  split; [exact demo_run|]. split; [exact mixed_steps|]. split; [reflexivity|]. split; [exact mixed_pay|].
  split; [exact E1|]. split; [exact E2|exact E3].
Qed.

(** [JournalCheck] names it: the seller's live money, on the state the weekly run then pays. *)
Example mixed_check_names_live :
  match journalCheck "ann" (40 * day) mixed_cleared with
  | Ok (r, _) => Mismatches r = [LiveFundsOff]
  | Err _ => False
  end.
Proof. vm_compute. reflexivity. Qed.
